(* ===== verification/_CoqProject ===== *)
-Q . S2P
Prelude.v
LimineArith.v
LimineState.v
LimineDevice.v
LimineCache.v
LimineUndo.v
LimineRollback.v
LimineStore.v
LimineInstall.v
LimineExec.v
LimineBudget.v
LimineMain.v
LimineDisk.v
LimineMbr.v
LimineGpt.v
LimineFindings.v
LimineEnroll.v
R4Path.v
R4PathSpec.v
R4PathNormal.v
R4Time.v
R4Abi.v
R4AbiReports.v
R4Mem.v
R4L.v
R4LSpec.v
R4Table.v
R4Sys.v
R4SysSpec.v
R4SysInit.v
R4Field.v
R4Vm.v
R4Group.v
R4SysBind.v
R4Dev.v
R4Desk.v
R4Draw.v
R4GroupInit.v
R4Storage.v
R4StorageSpec.v
R4Claim.v
R4App.v
R4AppSpec.v
R4Files.v
R4Env.v
R4Stream.v
R4Directory.v
R4Registry.v
R4Batch.v
R4RegistryValue.v
R4Services.v
R4ServiceArea.v
R4ServiceProtocol.v
R4ServiceCall.v
R4Gui.v
R4GuiBlend.v
R4GuiTimer.v
R4GuiLoop.v
R4Resources.v
R4Requests.v
R4FacadeCall.v
R4Network.v
R4NetworkRead.v
R4AppDevices.v
R4AppAudio.v
R4AudioWrite.v
R4AppTray.v
R4TrayCall.v
