(* ===== verification/Prelude.v ===== *)
(** * A verification of the C code of R4OS Recovery

    R4OS Recovery is a small operating system that repairs and installs R4OS.
    Its C code has two halves, which this development models in turn.

    - The boot installer, Platform/SDK/r4os/storage_tools/limine/limine.c, is a
      host program. It writes a boot sector and a second stage to a disk
      through a one-block cache, keeps an undo log of everything it replaces,
      rolls back when it fails, can store the log in a file and undo an install
      later from that file; it also enrols a configuration checksum in an
      executable.
    - The SDK, Platform/SDK/Shared/C/include/r4os/*.h with the generated
      abi_generated.h, is what an application is compiled against. The kernel
      starts the application with a context that lists tables of functions
      (R4SYS, R4DESK, R4DRAW, R4NET, R4AUDIO, R4DEV). The SDK finds and checks
      those tables, wraps their functions, and builds facades on them:
      allocation, storage claims, streams, directories, the registry, services
      and so on. path_timeout.h has the paths and times they all use.

    ** Conventions

    An unsigned [w]-bit integer is a [Z], and each operation that can wrap is
    written with [u8] .. [u64]. Functions have the names of the C functions; a
    loop of the C code is a [Fixpoint] with its own name. Definitions compute,
    so that every witness runs.

    limine.c: the static variables are the record [LimineState.state], and a C
    function maps a state to a result and a state, or to [None], which is
    undefined behaviour (invalid access, double free). Any call of the C
    library can fail: a list of outcomes in the state decides which. Reading
    into a buffer more than its size, writing from a buffer more bytes than it
    has, an index outside [part_to_conv] or the undo log and a free of a block
    that is not allocated are undefined.

    The SDK: [R4Mem.world] is the memory of the application, a finite map from
    addresses to bytes, with the state of a kernel of an arbitrary type. SDK
    code is a computation of the monad [R4Mem.M]; [None] is a fault (an access
    to unmapped memory, a call of a function that is not there). The kernel is
    a parameter, a function from an address and arguments to an effect on the
    world. What a theorem needs of it is a class (below), and each such theorem
    has a witness with a concrete kernel.

    ** Files

    - [Prelude]: integers, bytes, lists, tactics and hints used by all.
    - limine.c: [LimineArith] (checked arithmetic, CHS, partition types),
      [LimineState] (state, C library), [LimineDevice] (cache, device_read,
      device_write, undo log), [LimineStore] (the uninstall data file),
      [LimineInstall] (bios_install; the part between device_init and cleanup
      is a free monad over device reads and writes, calloc and undefined
      behaviour, since the code does nothing else there), [LimineEnroll] (enroll_config and main). Proofs about them:
      [LimineCache] (the cache is transparent), [LimineUndo] and
      [LimineRollback] (the log is complete, and undoing it restores the
      device), [LimineExec] (class [DeviceLaws]: what the device layer promises
      to an install), [LimineBudget] (an install never needs more than the 256
      entries of the log), [LimineDisk] (the device layer refines an array of
      bytes), [LimineMain], [LimineMbr], [LimineGpt] and [LimineFindings] (the
      theorems).
    - path_timeout.h: [R4Path], [R4PathSpec], [R4PathNormal], [R4Time].
    - abi_generated.h: [R4Abi] has the C layout rules, the structures that the
      modelled code uses, and the header's static assertions about them;
      [R4AbiReports] has the header's other structures and the theorem that
      every layout assertion holds.
    - The machine: [R4Mem] (memory, kernel, monad; r4m0.h), [R4Table] (calls
      through a kernel table), [R4Field] (structures as records of fields).
    - r4l.h: [R4L], [R4LSpec].
    - r4sys.h: [R4Sys], [R4SysSpec], [R4SysInit], [R4SysBind] (r4sys_init), [R4Vm]
      (the allocator).
    - r4net.h, r4audio.h, r4dev.h, r4desk.h, r4draw.h: [R4Group], [R4Dev],
      [R4Desk], [R4Draw], [R4GroupInit].
    - storage.h: [R4Storage], [R4StorageSpec], [R4Claim].
    - app_contract.h and the two start files: [R4App], [R4AppSpec].
    - app_storage.h: [R4Files] and [R4Registry] have its functions; [R4Env] is
      what their proofs share; [R4Stream], [R4Directory], [R4Batch] and
      [R4RegistryValue] have the theorems.
    - app_services.h: [R4Services] has its functions, [R4ServiceArea] the memory
      of a program that uses it, [R4ServiceProtocol] and [R4ServiceCall] the
      theorems.
    - app_gui.h: [R4Gui] has its functions, [R4GuiBlend], [R4GuiTimer] and
      [R4GuiLoop] the theorems.
    - app_resources.h: [R4Resources] has its functions, [R4Requests] the theorem
      on requests.
    - app_network.h, app_audio.h, app_tray.h: [R4Network], [R4AppAudio] and
      [R4AppTray] have the functions. All of them call services;
      [R4FacadeCall] says what such a call does to the memory of the program,
      and [R4NetworkRead], [R4AudioWrite] and [R4TrayCall] have the theorems.
    - app_devices.h: [R4AppDevices].

    ** What the theorems show

    - The installer ([LimineMain], [LimineMbr], [LimineGpt]). No I/O failure
      leads to undefined behaviour. On a device that is reliable once open, a
      failed install leaves every byte as it was, and an install followed by
      --uninstall is the identity. On a disk with an MBR an install succeeds
      exactly under stated conditions; on such a disk, and on one with a GPT
      without --force and without a conversion, every byte after a success is
      known. [LimineFindings] shows for which malformed uninstall data files
      --uninstall is undefined, and has a run on a faulty device that leaves a
      partial write. [LimineEnroll]: enrolling writes behind the first
      signature of the file and nowhere else.
    - Paths and times. Normalisation into fixed buffers with a rollback stack
      computes what a specification on lists of components says, and a
      normalised path is a fixed point. The component check accepts exactly
      UTF-8 of a set of characters, which is written out as code points. Durations in ticks are never too short, and
      deadlines agree with timeouts.
    - Tables. An import that passes the checks has every slot that may be
      called; init functions establish the invariant of their client exactly
      when the table is acceptable; each wrapper refuses bad arguments, reports
      missing slots, and is otherwise one call of one slot. None of them reads
      past the table, whatever the kernel announces.
    - The allocator. A block lies in its region and is aligned; freeing it
      clears its header and releases its region, and what a second free does is
      said for a region that is still there and one that is gone; a failure
      keeps nothing; and which sizes wrap around.
    - Applications. [R4AppSpec.app_init_exact] computes the outcome of
      [r4_app_init] from the start context: status, groups and clients.
    - Protocols. Over any sequence of claim operations, the handle of the
      program names exactly the claim the kernel has open. Streams: what was
      saved is read back, and reading ends. Directories: the call returns
      exactly when its conversation with the kernel ends, and with its answer. Registry batches refine a list of operations. Registry
      values that were set are got and decoded unchanged.
    - Services. Whatever a program does with a connection and an endpoint, and
      whatever the kernel answers, the kernel is never asked to use a handle it
      has not given out or that has ended. A call waits for as long as its
      timeout says, and its result is what the answer means.
    - Windows. A poll fires the first timer that is due and no other, and timers
      keep their rhythm; waiting with a timeout does not return too early, and
      goes on for no more rounds than the timeout has ticks, besides those in
      which the kernel wakes the program for nothing; blending hands the kernel exactly the visible pixels of an image.
    - Requests. Over any sequence of operations on an asynchronous request, the
      buffer of the program is kept exactly as long as the kernel may write it.
    - Facades on services. Whatever the kernel and the service answer, receiving
      from the network writes no byte that it does not report and none beyond
      the caller's buffer, delivers the bytes of the answer that has arrived,
      and gives up the socket exactly when the answer's cause ends it; writing an audio stream ends, and what it reports as
      written is what the service has accepted; the tray believes only answers
      for its own process.

    ** Assumptions about the kernel

    Wrapper theorems assume only that a call leaves the table of functions in
    place. Protocol theorems assume a class: [R4Claim.ClaimKernel],
    [R4Stream.FileKernel], [R4Directory.DirKernel],
    [R4RegistryValue.RegistryKernel],
    [R4ServiceArea.ServiceKernel], [R4GuiLoop.GuiKernel],
    [R4Requests.RequestKernel] and [R4AudioWrite.AudioService]. They say what
    the kernel does to its own state and which bytes of the program it writes.
    Where the kernel's contract (ApiContract.json) names statuses, the class or
    the specification has them as a list of its own and not as the test of the
    C code: [R4StorageSpec.completed_close] ends a claim,
    [R4ServiceArea.gone_answers] and [R4ServiceArea.closed_answers] a service
    handle, [R4NetworkRead.tcp_causes] and [R4NetworkRead.udp_causes] a socket.
    [DirKernel] and [GuiKernel] bound what is written, and the latter has a
    clock that does not go back; neither assumes that a kernel stops being busy
    or wakes a program only for a reason. Of a service call that fails, the
    kernel writes no output. The addresses of structures of the caller are assumed not to overlap and
    not to wrap around; local variables whose address the C code takes are
    given an address by the caller of the model, and so are string literals.

    ** Fuel

    A loop with a bound of its own in the code recurses on it (undo entries,
    partition entries, imports, decimal digits, the 1024 bytes of a path). The
    others have fuel, which the definition that calls the loop chooses from its
    input: the byte count for the loops of [_device_read] and [_device_write],
    the length for path normalisation and the arguments of enroll-config, 28
    rounds per byte of the file for its signature search, the size of
    memory for the C string of [r4os_cstr_len]. Running out is a fault or a wrong
    answer, so the theorems also show that the fuel is enough.
    [r4_directory_next] and [r4_event_loop_wait] take their fuel from the
    caller, as nothing in the code bounds how often a busy kernel is asked
    again or an idle program is woken: [R4Directory.directory_next_answers]
    shows that the call returns exactly when the conversation is shorter than
    the fuel, and [R4GuiLoop.event_loop_wait_returns] that it returns once the
    fuel exceeds the ticks of the timeout and the idle wake-ups by two.
    [r4_audio_stream_write] takes it from the caller too:
    [R4AudioWrite.audio_write_delivers] shows that the number of bytes is enough.

    ** Not modelled

    - limine-bios-hdd.h is data: the boot image is a parameter of
      [LimineInstall].
    - Printing to the terminal by limine.c has no effect on its state and is
      left out; usage texts likewise.
    - The macros of abi_generated.h for constants that no modelled code uses,
      and the C types of its function pointers: a call through a kernel table
      passes a list of numbers.
    - Conformance tests, smoke applications and templates use the SDK and are
      not part of it. Guest-Askpass.c only prints one fixed line. The
      kernel and the recovery tools are not C. *)

From stdpp Require Export base numbers list gmap strings.
From Stdlib Require Export ZArith Lia.
From Stdlib Require Export Strings.Byte.

#[global] Open Scope Z_scope.
#[global] Set Default Goal Selector "!".

Declare Scope r4_scope.
Delimit Scope r4_scope with r4.

(** ** Machine integers: a [w]-bit unsigned value is a [Z] in [[0, 2^w)]. *)

Definition u8 (z : Z) : Z := z mod 2 ^ 8.
Definition u16 (z : Z) : Z := z mod 2 ^ 16.
Definition u32 (z : Z) : Z := z mod 2 ^ 32.
Definition u64 (z : Z) : Z := z mod 2 ^ 64.

Definition UINT16_MAX : Z := 2 ^ 16 - 1.
Definition UINT32_MAX : Z := 2 ^ 32 - 1.
Definition UINT64_MAX : Z := 2 ^ 64 - 1.
Definition SIZE_MAX : Z := 2 ^ 64 - 1.

Definition is_u8 (z : Z) : Prop := 0 ≤ z < 2 ^ 8.
Definition is_u16 (z : Z) : Prop := 0 ≤ z < 2 ^ 16.
Definition is_u32 (z : Z) : Prop := 0 ≤ z < 2 ^ 32.
Definition is_u64 (z : Z) : Prop := 0 ≤ z < 2 ^ 64.

(** The value of a [w]-bit pattern read as a two's-complement integer. *)
Definition to_signed (w z : Z) : Z :=
  let m := z mod 2 ^ w in if m <? 2 ^ (w - 1) then m else m - 2 ^ w.

Definition i32 (z : Z) : Z := to_signed 32 z.
Definition is_i32 (z : Z) : Prop := - 2 ^ 31 ≤ z < 2 ^ 31.

Lemma u8_range z : is_u8 (u8 z).
Proof. apply Z.mod_pos_bound. lia. Qed.
Lemma u16_range z : is_u16 (u16 z).
Proof. apply Z.mod_pos_bound. lia. Qed.
Lemma u32_range z : is_u32 (u32 z).
Proof. apply Z.mod_pos_bound. lia. Qed.
Lemma u64_range z : is_u64 (u64 z).
Proof. apply Z.mod_pos_bound. lia. Qed.
Lemma u64_small z : is_u64 z → u64 z = z.
Proof. apply Z.mod_small. Qed.
Lemma u32_small z : is_u32 z → u32 z = z.
Proof. apply Z.mod_small. Qed.
Lemma u16_small z : is_u16 z → u16 z = z.
Proof. apply Z.mod_small. Qed.
Lemma u8_small z : is_u8 z → u8 z = z.
Proof. apply Z.mod_small. Qed.

Lemma i32_small z : is_i32 z → i32 z = z.
Proof.
  unfold is_i32, i32, to_signed. intros H. cbn -[Z.pow].
  destruct (decide (0 ≤ z)).
  - rewrite Z.mod_small by lia. destruct (z <? 2 ^ (32 - 1)) eqn:E; lia.
  - replace (z mod 2 ^ 32) with (z + 2 ^ 32).
    + destruct (_ <? _) eqn:E; lia.
    + apply (Z.mod_unique _ _ (-1)); lia.
Qed.

Lemma i32_range z : is_i32 (i32 z).
Proof.
  unfold is_i32, i32, to_signed. pose proof (Z.mod_pos_bound z (2 ^ 32) ltac:(lia)).
  destruct (Z.ltb_spec (z mod 2 ^ 32) (2 ^ (32 - 1))); lia.
Qed.

(** [lia] after division and remainder have been replaced by their equations. *)
Ltac dlia := Z.to_euclidean_division_equations; lia.

(** Euclidean division by a positive divisor that is not a constant. *)
Lemma div_facts a b :
  0 < b → a = a / b * b + a mod b ∧ 0 ≤ a mod b < b ∧ (0 ≤ a → 0 ≤ a / b).
Proof.
  intros Hb. pose proof (Z.div_mod a b ltac:(lia)). pose proof (Z.mod_pos_bound a b Hb).
  split_and!; [lia..|]. intros. by apply Z.div_pos.
Qed.

(** ** Bytes *)

#[global] Instance byte_eq_decision : EqDecision byte := byte_eq_dec.
#[global] Instance byte_inhabited : Inhabited byte := populate x00.

Definition b2z (b : byte) : Z := Z.of_N (to_N b).
Definition z2b (z : Z) : byte := default x00 (of_N (Z.to_N (z mod 256))).

Lemma b2z_range b : 0 ≤ b2z b < 256.
Proof. unfold b2z. pose proof (to_N_bounded b). lia. Qed.

Lemma b2z_z2b z : b2z (z2b z) = z mod 256.
Proof.
  unfold b2z, z2b. pose proof (Z.mod_pos_bound z 256 ltac:(lia)).
  destruct (of_N (Z.to_N (z mod 256))) as [b|] eqn:E; simpl.
  - apply to_of_N in E. rewrite E. lia.
  - apply of_N_None_iff in E. lia.
Qed.

Lemma z2b_b2z b : z2b (b2z b) = b.
Proof.
  unfold z2b, b2z. rewrite Z.mod_small by (pose proof (to_N_bounded b); lia).
  rewrite N2Z.id, of_to_N. done.
Qed.

Lemma b2z_inj b1 b2 : b2z b1 = b2z b2 → b1 = b2.
Proof. intros H. rewrite <- (z2b_b2z b1), H. apply z2b_b2z. Qed.

#[global] Instance b2z_inj' : Inj (=) (=) b2z := b2z_inj.

Lemma z2b_mod z : z2b (z mod 256) = z2b z.
Proof. unfold z2b. rewrite Z.mod_mod by lia. done. Qed.

(** A C string literal as its bytes, without the terminating NUL. *)
Definition lit (s : string) : list byte := String.list_byte_of_string s.

(** ** Little-endian representation of integers *)

Fixpoint le_bytes (n : nat) (z : Z) : list byte :=
  match n with
  | O => []
  | S n => z2b z :: le_bytes n (z / 256)
  end.

Fixpoint le_val (l : list byte) : Z :=
  match l with
  | [] => 0
  | b :: l => b2z b + 256 * le_val l
  end.

Lemma length_le_bytes n z : length (le_bytes n z) = n.
Proof. revert z; induction n; simpl; auto. Qed.

Lemma le_val_le_bytes n z : le_val (le_bytes n z) = z mod 2 ^ (8 * Z.of_nat n).
Proof.
  revert z; induction n as [|n IH]; intros z; [simpl; by rewrite Z.mod_1_r|].
  cbn [le_bytes le_val]. rewrite b2z_z2b, IH.
  replace (8 * Z.of_nat (S n)) with (8 + 8 * Z.of_nat n) by lia.
  rewrite Z.pow_add_r by lia. change (2 ^ 8) with 256.
  rewrite Z.rem_mul_r by lia. lia.
Qed.

Lemma le_val_range l : 0 ≤ le_val l < 2 ^ (8 * Z.of_nat (length l)).
Proof.
  induction l as [|b l IH]; simpl length; [simpl; lia|].
  cbn [le_val]. pose proof (b2z_range b).
  replace (8 * Z.of_nat (S (length l))) with (8 + 8 * Z.of_nat (length l)) by lia.
  rewrite Z.pow_add_r by lia. change (2 ^ 8) with 256. nia.
Qed.

Lemma le_bytes_le_val l : le_bytes (length l) (le_val l) = l.
Proof.
  induction l as [|b l IH]; simpl; [done|].
  pose proof (b2z_range b). f_equal.
  - rewrite <- z2b_mod. rewrite (Z.mul_comm 256), Z.mod_add by lia.
    rewrite Z.mod_small by lia. apply z2b_b2z.
  - rewrite (Z.mul_comm 256), Z.div_add by lia.
    rewrite (Z.div_small (b2z b)) by lia. exact IH.
Qed.

(** ** Ranges of a byte buffer *)

(** [memcpy] out of a buffer and into a buffer. *)
Definition slice {A} (off n : nat) (l : list A) : list A := take n (drop off l).
Definition splice {A} (off : nat) (d l : list A) : list A :=
  take off l ++ d ++ drop (off + length d) l.

Create Rewrite HintDb len.
#[export] Hint Rewrite @length_app @length_take @length_drop @length_replicate
  @length_insert length_le_bytes @length_fmap @length_reverse : len.

Ltac len := autorewrite with len in *; simpl length in *; try lia.

Section ranges.
Context {A : Type}.
Implicit Types l d : list A.

Lemma length_slice off n l : (off + n ≤ length l)%nat → length (slice off n l) = n.
Proof. unfold slice. intros. len. Qed.

Lemma length_splice off d l :
  (off + length d ≤ length l)%nat → length (splice off d l) = length l.
Proof. unfold splice. intros. len. Qed.

Lemma lookup_slice off n l i :
  (i < n)%nat → slice off n l !! i = l !! (off + i)%nat.
Proof. unfold slice. intros. by rewrite lookup_take_lt, lookup_drop by lia. Qed.

Lemma lookup_splice_in off d l i :
  (off ≤ i < off + length d)%nat → (off ≤ length l)%nat →
  splice off d l !! i = d !! (i - off)%nat.
Proof.
  unfold splice. intros. rewrite lookup_app_r by len.
  rewrite length_take, lookup_app_l by lia. f_equal. lia.
Qed.

Lemma lookup_splice_out off d l i :
  ¬ (off ≤ i < off + length d)%nat → (off + length d ≤ length l)%nat →
  splice off d l !! i = l !! i.
Proof.
  unfold splice. intros Hi Hl. destruct (decide (i < off)%nat).
  - rewrite lookup_app_l by len. by rewrite lookup_take_lt by lia.
  - rewrite lookup_app_r, length_take by len.
    rewrite lookup_app_r, lookup_drop by lia. f_equal. lia.
Qed.

Lemma lookup_splice off d l i :
  (off + length d ≤ length l)%nat →
  splice off d l !! i =
    if decide (off ≤ i < off + length d)%nat then d !! (i - off)%nat else l !! i.
Proof.
  intros. case_decide; [apply lookup_splice_in|apply lookup_splice_out]; lia.
Qed.

Lemma slice_slice a n b m l :
  (b + m ≤ n)%nat → slice b m (slice a n l) = slice (a + b) m l.
Proof.
  intros. unfold slice. rewrite skipn_firstn_comm, drop_drop, take_take.
  f_equal. lia.
Qed.

Lemma slice_app_split a n m l :
  slice a (n + m) l = slice a n l ++ slice (a + n) m l.
Proof. unfold slice. rewrite <- drop_drop. symmetry. apply take_take_drop. Qed.

Lemma slice_0 a l : slice a 0 l = [].
Proof. done. Qed.

Lemma slice_splice_same off d l :
  (off + length d ≤ length l)%nat → slice off (length d) (splice off d l) = d.
Proof.
  intros. unfold slice, splice. rewrite drop_app_length' by len.
  by rewrite take_app_length.
Qed.

Lemma slice_splice_disj a n off d l :
  (off + length d ≤ length l)%nat →
  (a + n ≤ off ∨ off + length d ≤ a)%nat →
  slice a n (splice off d l) = slice a n l.
Proof.
  intros Hl Hd. apply list_eq. intros i.
  destruct (decide (i < n)%nat).
  - rewrite !lookup_slice by lia. by rewrite lookup_splice_out by lia.
  - unfold slice. rewrite !lookup_take_ge by lia. done.
Qed.

Lemma splice_splice_same off d d' l :
  length d = length d' → (off + length d ≤ length l)%nat →
  splice off d (splice off d' l) = splice off d l.
Proof.
  intros Hd Hl. apply list_eq. intros i.
  rewrite (lookup_splice off d) by (rewrite length_splice; lia).
  rewrite !lookup_splice by lia. rewrite Hd. by case_decide.
Qed.

Lemma splice_slice_same off n l :
  (off + n ≤ length l)%nat → splice off (slice off n l) l = l.
Proof.
  intros. unfold splice, slice. rewrite length_take_le by len.
  rewrite <- drop_drop, take_drop. apply take_drop.
Qed.

(** Updating inside a block and putting the block back updates the whole. *)
Lemma splice_block off n o d l :
  (off + n ≤ length l)%nat → (o + length d ≤ n)%nat →
  splice off (splice o d (slice off n l)) l = splice (off + o) d l.
Proof.
  intros. assert (length (slice off n l) = n) by (apply length_slice; lia).
  assert (length (splice o d (slice off n l)) = n) as Hn by (rewrite length_splice; lia).
  apply list_eq. intros i. rewrite !lookup_splice by lia. rewrite Hn.
  repeat case_decide; try lia; try done.
  - f_equal. lia.
  - rewrite lookup_slice by lia. f_equal. lia.
Qed.

Lemma splice_nil off l : splice off [] l = l.
Proof. unfold splice. simpl. rewrite Nat.add_0_r. apply take_drop. Qed.

(** Writing two adjacent chunks is writing their concatenation. *)
Lemma splice_app off d1 d2 l :
  (off + length d1 + length d2 ≤ length l)%nat →
  splice (off + length d1) d2 (splice off d1 l) = splice off (d1 ++ d2) l.
Proof.
  intros Hl. apply list_eq. intros i.
  rewrite lookup_splice by (rewrite length_splice; lia).
  rewrite !lookup_splice by (rewrite ?length_app; lia).
  rewrite length_app. repeat case_decide; try lia.
  - rewrite lookup_app_r by lia. f_equal. lia.
  - by rewrite lookup_app_l by lia.
  - done.
Qed.

Lemma splice_comm o1 d1 o2 d2 l :
  (o1 + length d1 ≤ o2 ∨ o2 + length d2 ≤ o1)%nat →
  (o1 + length d1 ≤ length l)%nat → (o2 + length d2 ≤ length l)%nat →
  splice o1 d1 (splice o2 d2 l) = splice o2 d2 (splice o1 d1 l).
Proof.
  intros. apply list_eq. intros i.
  rewrite !lookup_splice by (rewrite ?length_splice; lia).
  repeat case_decide; try done; lia.
Qed.
End ranges.

(** ** Bit masks and powers of two *)

Lemma land_mask x k j :
  0 ≤ k → 0 ≤ j → Z.land x (Z.ones k * 2 ^ j) = ((x / 2 ^ j) mod 2 ^ k) * 2 ^ j.
Proof.
  intros Hk Hj. rewrite <- (Z.land_ones (x / 2 ^ j)) by lia.
  rewrite <- Z.shiftr_div_pow2, <- !Z.shiftl_mul_pow2 by lia.
  apply Z.bits_inj'. intros n Hn.
  rewrite Z.land_spec, !Z.shiftl_spec by lia.
  destruct (decide (n < j)).
  - rewrite !(Z.testbit_neg_r _ (n - j)) by lia. apply andb_false_r.
  - rewrite Z.land_spec, Z.shiftr_spec by lia. repeat f_equal. lia.
Qed.

Lemma pow2_of_land a : 0 < a → Z.land a (a - 1) = 0 → ∃ k, 0 ≤ k ∧ a = 2 ^ k.
Proof.
  intros Ha Hl. exists (Z.log2 a). split; [apply Z.log2_nonneg|].
  destruct (Z.log2_spec a Ha) as [Hlo Hhi]. destruct (decide (a = 2 ^ Z.log2 a)) as [|Hne]; [done|].
  assert (Z.log2 (a - 1) = Z.log2 a) as Hlog.
  { apply Z.log2_unique; [apply Z.log2_nonneg|]. lia. }
  pose proof (Z.bit_log2 a Ha) as H1. pose proof (Z.bit_log2 (a - 1)) as H2.
  rewrite Hlog in H2. assert (0 < 2 ^ Z.log2 a) by (apply Z.pow_pos_nonneg; [lia|apply Z.log2_nonneg]).
  assert (Z.testbit (Z.land a (a - 1)) (Z.log2 a) = true) as Hb by (by rewrite Z.land_spec, H1, H2 by lia).
  by rewrite Hl, Z.bits_0 in Hb.
Qed.
