(* ===== verification/LimineArith.v ===== *)
(** * limine.c: arithmetic helpers

    Overflow-checked 64-bit arithmetic, byte-order conversion, the LBA to CHS
    conversion and the GPT to MBR partition type table of
    Platform/SDK/r4os/storage_tools/limine/limine.c. *)

From S2P Require Import Prelude.

Module LimineArith.

(** ** Overflow-checked arithmetic: the result and the overflow flag. *)

Definition mul_u64_overflow (a b : Z) : Z * bool :=
  (u64 (a * b), negb (a =? 0) && (UINT64_MAX / a <? b)).

Definition add_u64_overflow (a b : Z) : Z * bool :=
  (u64 (a + b), UINT64_MAX - b <? a).

(** ** GPT type GUIDs and the MBR partition types they convert to *)

Record gpt2mbr_type_conv := {
  gpt_type1 : Z;
  gpt_type2 : Z;
  mbr_type : Z
}.

Definition gpt2mbr_type_conv_table : list gpt2mbr_type_conv :=
  [ {| gpt_type1 := 0x11d2f81fc12a7328; gpt_type2 := 0x3bc93ec9a0004bba; mbr_type := 0xef |};
    {| gpt_type1 := 0x4433b9e5ebd0a0a2; gpt_type2 := 0xc79926b7b668c087; mbr_type := 0x07 |};
    {| gpt_type1 := 0x11aa000048465300; gpt_type2 := 0xacec4365300011aa; mbr_type := 0xaf |} ].

Fixpoint gpt2mbr_scan (t : list gpt2mbr_type_conv) (ty1 ty2 : Z) : Z :=
  match t with
  | [] => -1
  | e :: t =>
      if (gpt_type1 e =? ty1) && (gpt_type2 e =? ty2) then mbr_type e
      else gpt2mbr_scan t ty1 ty2
  end.

Definition gpt2mbr_type (ty1 ty2 : Z) : Z :=
  gpt2mbr_scan gpt2mbr_type_conv_table ty1 ty2.

(** ** Cylinder/head/sector addresses *)

Definition lba2chs (lba : Z) : list byte :=
  let too_big := [z2b 0xfe; z2b 0xff; z2b 0xff] in
  if 63 * 255 * 1024 <? lba then too_big
  else
    let cylinder := lba / (255 * 63) in
    if 1024 <=? cylinder then too_big
    else
      let head := (lba / 63) mod 255 in
      let sector := (lba mod 63) + 1 in
      [ z2b head;
        z2b (Z.lor (Z.land (Z.shiftr cylinder 2) 0xc0) (Z.land sector 0x3f));
        z2b cylinder ].

(** ** Byte order *)

Definition endswap16 (value : Z) : Z :=
  let ret := 0 in
  let ret := Z.lor ret (Z.land (Z.shiftr value 8) 0x00ff) in
  let ret := Z.lor ret (Z.land (Z.shiftl value 8) 0xff00) in
  ret.

Definition endswap32 (value : Z) : Z :=
  let ret := 0 in
  let ret := Z.lor ret (Z.land (Z.shiftr value 24) 0x000000ff) in
  let ret := Z.lor ret (Z.land (Z.shiftr value 8) 0x0000ff00) in
  let ret := Z.lor ret (Z.land (Z.shiftl value 8) 0x00ff0000) in
  let ret := Z.lor ret (Z.land (Z.shiftl value 24) 0xff000000) in
  ret.

Definition endswap64 (value : Z) : Z :=
  let ret := 0 in
  let ret := Z.lor ret (Z.land (Z.shiftr value 56) 0x00000000000000ff) in
  let ret := Z.lor ret (Z.land (Z.shiftr value 40) 0x000000000000ff00) in
  let ret := Z.lor ret (Z.land (Z.shiftr value 24) 0x0000000000ff0000) in
  let ret := Z.lor ret (Z.land (Z.shiftr value 8) 0x00000000ff000000) in
  let ret := Z.lor ret (Z.land (Z.shiftl value 8) 0x000000ff00000000) in
  let ret := Z.lor ret (Z.land (Z.shiftl value 24) 0x0000ff0000000000) in
  let ret := Z.lor ret (Z.land (Z.shiftl value 40) 0x00ff000000000000) in
  let ret := Z.lor ret (Z.land (Z.shiftl value 56) 0xff00000000000000) in
  ret.

(** [ENDSWAP] on a value of [size] bytes; the macro's [abort] arm is the [None]
    of any other size. *)
Definition ENDSWAP (bigendian : bool) (size value : Z) : option Z :=
  if bigendian then
    if size =? 1 then Some value
    else if size =? 2 then Some (endswap16 value)
    else if size =? 4 then Some (endswap32 value)
    else if size =? 8 then Some (endswap64 value)
    else None
  else Some value.

(** How the host lays an integer object out in memory: storing it and reading
    it back through its bytes. *)
Definition host_bytes (bigendian : bool) (n : nat) (z : Z) : list byte :=
  if bigendian then reverse (le_bytes n z) else le_bytes n z.
Definition host_val (bigendian : bool) (l : list byte) : Z :=
  if bigendian then le_val (reverse l) else le_val l.

(** ** Lemmas *)

Lemma land_byte_mask x j :
  0 ≤ j → Z.land x (255 * 2 ^ j) = ((x / 2 ^ j) mod 256) * 2 ^ j.
Proof. exact (land_mask x 8 j ltac:(lia)). Qed.

Lemma lor_disjoint a b j : 0 ≤ j → 0 ≤ a < 2 ^ j → Z.lor a (b * 2 ^ j) = a + b * 2 ^ j.
Proof.
  intros Hj Ha. rewrite Z.add_nocarry_lxor.
  - apply Z.bits_inj'. intros n Hn. rewrite Z.lor_spec, Z.lxor_spec.
    rewrite <- Z.shiftl_mul_pow2, Z.shiftl_spec by lia.
    destruct (decide (n < j)).
    + rewrite (Z.testbit_neg_r _ (n - j)) by lia. by destruct (Z.testbit a n).
    + rewrite <- (Z.mod_small a (2 ^ j)) by lia.
      rewrite Z.mod_pow2_bits_high by lia. by destruct (Z.testbit b _).
  - apply Z.bits_inj'. intros n Hn. rewrite Z.land_spec, Z.bits_0.
    rewrite <- Z.shiftl_mul_pow2, Z.shiftl_spec by lia.
    destruct (decide (n < j)).
    + rewrite (Z.testbit_neg_r _ (n - j)) by lia. apply andb_false_r.
    + rewrite <- (Z.mod_small a (2 ^ j)) by lia.
      by rewrite Z.mod_pow2_bits_high by lia.
Qed.

(** Byte [k] of [value] moved to byte [j] by a right or left shift. *)
Lemma swap_term_r value k j :
  0 ≤ k → 0 ≤ j → Z.land (Z.shiftr value k) (255 * 2 ^ j) = ((value / 2 ^ (k + j)) mod 256) * 2 ^ j.
Proof.
  intros. rewrite land_byte_mask, Z.shiftr_div_pow2 by lia.
  by rewrite Z.div_div, <- Z.pow_add_r by lia.
Qed.

Lemma swap_term_l value k j :
  0 ≤ k ≤ j → Z.land (Z.shiftl value k) (255 * 2 ^ j) = ((value / 2 ^ (j - k)) mod 256) * 2 ^ j.
Proof.
  intros. rewrite land_byte_mask, Z.shiftl_mul_pow2 by lia.
  replace (2 ^ j) with (2 ^ (j - k) * 2 ^ k) at 1
    by (rewrite <- Z.pow_add_r by lia; f_equal; lia).
  by rewrite Z.div_mul_cancel_r by lia.
Qed.

(** Normalises every masked shift of the byte-swap functions to the byte it
    moves, then adds the disjoint terms up. *)
Ltac swap_terms :=
  change 0x00000000000000ff with (255 * 2 ^ 0); change 0x000000000000ff00 with (255 * 2 ^ 8);
  change 0x0000000000ff0000 with (255 * 2 ^ 16); change 0x00000000ff000000 with (255 * 2 ^ 24);
  change 0x000000ff00000000 with (255 * 2 ^ 32); change 0x0000ff0000000000 with (255 * 2 ^ 40);
  change 0x00ff000000000000 with (255 * 2 ^ 48); change 0xff00000000000000 with (255 * 2 ^ 56);
  rewrite ?swap_term_r, ?swap_term_l, ?Z.lor_0_l by lia.

Lemma endswap16_reverses v : endswap16 v = le_val (reverse (le_bytes 2 v)).
Proof.
  unfold endswap16; cbv zeta. swap_terms.
  change (reverse (le_bytes 2 v)) with [z2b (v / 256); z2b v].
  cbn [le_val]. rewrite !b2z_z2b. change (2 ^ (8 + 0)) with 256.
  rewrite Z.sub_diag, Z.div_1_r.
  pose proof (Z.mod_pos_bound (v / 256) 256 ltac:(lia)).
  rewrite lor_disjoint by lia. lia.
Qed.

Lemma endswap32_reverses v : endswap32 v = le_val (reverse (le_bytes 4 v)).
Proof.
  unfold endswap32; cbv zeta. swap_terms.
  change (reverse (le_bytes 4 v)) with
    [z2b (v / 256 / 256 / 256); z2b (v / 256 / 256); z2b (v / 256); z2b v].
  cbn [le_val]. rewrite !b2z_z2b, !Z.div_div by lia.
  change (2 ^ (24 + 0)) with (256 * (256 * 256)). change (2 ^ (8 + 8)) with (256 * 256).
  change (2 ^ (16 - 8)) with 256. rewrite Z.sub_diag, Z.div_1_r.
  pose proof (Z.mod_pos_bound (v / (256 * (256 * 256))) 256 ltac:(lia)).
  pose proof (Z.mod_pos_bound (v / (256 * 256)) 256 ltac:(lia)).
  pose proof (Z.mod_pos_bound (v / 256) 256 ltac:(lia)).
  rewrite (lor_disjoint _ _ 8), (lor_disjoint _ _ 16), (lor_disjoint _ _ 24) by lia. lia.
Qed.

Lemma endswap64_reverses v : endswap64 v = le_val (reverse (le_bytes 8 v)).
Proof.
  unfold endswap64; cbv zeta. swap_terms.
  change (reverse (le_bytes 8 v)) with
    [z2b (v / 256 / 256 / 256 / 256 / 256 / 256 / 256); z2b (v / 256 / 256 / 256 / 256 / 256 / 256);
     z2b (v / 256 / 256 / 256 / 256 / 256); z2b (v / 256 / 256 / 256 / 256);
     z2b (v / 256 / 256 / 256); z2b (v / 256 / 256); z2b (v / 256); z2b v].
  cbn [le_val]. rewrite !b2z_z2b, !Z.div_div by lia.
  change (2 ^ (56 + 0)) with (256 * (256 * (256 * (256 * (256 * (256 * 256)))))).
  change (2 ^ (40 + 8)) with (256 * (256 * (256 * (256 * (256 * 256))))).
  change (2 ^ (24 + 16)) with (256 * (256 * (256 * (256 * 256)))).
  change (2 ^ (8 + 24)) with (256 * (256 * (256 * 256))).
  change (2 ^ (32 - 8)) with (256 * (256 * 256)). change (2 ^ (40 - 24)) with (256 * 256).
  change (2 ^ (48 - 40)) with 256. rewrite Z.sub_diag, Z.div_1_r.
  repeat match goal with
  | |- context [(?x mod 256)] =>
      lazymatch goal with H : 0 ≤ x mod 256 < 256 |- _ => fail | _ => idtac end;
      pose proof (Z.mod_pos_bound x 256 ltac:(lia)); generalize dependent (x mod 256); intros
  end.
  rewrite (lor_disjoint _ _ 8), (lor_disjoint _ _ 16), (lor_disjoint _ _ 24),
    (lor_disjoint _ _ 32), (lor_disjoint _ _ 40), (lor_disjoint _ _ 48), (lor_disjoint _ _ 56) by lia. lia.
Qed.

Lemma length_host_bytes be n z : length (host_bytes be n z) = n.
Proof. unfold host_bytes. destruct be; len. Qed.

Lemma host_val_host_bytes be n z : host_val be (host_bytes be n z) = z mod 2 ^ (8 * Z.of_nat n).
Proof.
  unfold host_val, host_bytes. destruct be; rewrite ?reverse_involutive; apply le_val_le_bytes.
Qed.

Lemma host_val_range be l : 0 ≤ host_val be l < 2 ^ (8 * Z.of_nat (length l)).
Proof.
  unfold host_val. destruct be; [rewrite <- (length_reverse l)|]; apply le_val_range.
Qed.

Lemma le_bytes_le_val_rev l : le_bytes (length l) (le_val (reverse l)) = reverse l.
Proof. rewrite <- (length_reverse l). apply le_bytes_le_val. Qed.

(** An integer field of [n] bytes read from disk into a host object and passed
    through [ENDSWAP] is the little-endian value of its bytes, on both byte
    orders. *)
Lemma ENDSWAP_load be l :
  length l = 1%nat ∨ length l = 2%nat ∨ length l = 4%nat ∨ length l = 8%nat →
  ENDSWAP be (Z.of_nat (length l)) (host_val be l) = Some (le_val l).
Proof.
  intros Hl. unfold ENDSWAP, host_val. destruct be; [|done].
  destruct Hl as [Hl|[Hl|[Hl|Hl]]]; rewrite Hl; simpl.
  - f_equal. destruct l as [|b [|]]; done.
  - rewrite endswap16_reverses, <- Hl, le_bytes_le_val_rev, reverse_involutive. done.
  - rewrite endswap32_reverses, <- Hl, le_bytes_le_val_rev, reverse_involutive. done.
  - rewrite endswap64_reverses, <- Hl, le_bytes_le_val_rev, reverse_involutive. done.
Qed.

(** Storing an [ENDSWAP]ped value puts its little-endian bytes in memory. *)
Lemma ENDSWAP_store be (n : nat) z :
  n = 2%nat ∨ n = 4%nat ∨ n = 8%nat → 
  ∃ w, ENDSWAP be (Z.of_nat n) z = Some w ∧ host_bytes be n w = le_bytes n z.
Proof.
  intros Hn. unfold ENDSWAP, host_bytes. destruct be; [|eauto].
  assert (∀ m, le_bytes m (le_val (reverse (le_bytes m z))) = reverse (le_bytes m z)) as Hr.
  { intros m. pose proof (le_bytes_le_val (reverse (le_bytes m z))) as E.
    rewrite length_reverse, length_le_bytes in E. exact E. }
  destruct Hn as [Hn|[Hn|Hn]]; subst n; simpl Z.of_nat; eexists; (split; [reflexivity|]).
  - by rewrite endswap16_reverses, Hr, reverse_involutive.
  - by rewrite endswap32_reverses, Hr, reverse_involutive.
  - by rewrite endswap64_reverses, Hr, reverse_involutive.
Qed.

(** The three swaps are involutions on values of their width. *)
Lemma endswap_involutive v :
  (is_u16 v → endswap16 (endswap16 v) = v) ∧
  (is_u32 v → endswap32 (endswap32 v) = v) ∧
  (is_u64 v → endswap64 (endswap64 v) = v).
Proof.
  assert (∀ m, le_val (reverse (le_bytes m (le_val (reverse (le_bytes m v))))) =
               v mod 2 ^ (8 * Z.of_nat m)) as Hr.
  { intros m. pose proof (le_bytes_le_val (reverse (le_bytes m v))) as E.
    rewrite length_reverse, length_le_bytes in E. rewrite E, reverse_involutive.
    apply le_val_le_bytes. }
  rewrite !endswap16_reverses, !endswap32_reverses, !endswap64_reverses, !Hr.
  split_and!; apply Z.mod_small.
Qed.

Lemma mul_u64_overflow_spec a b :
  is_u64 a → is_u64 b →
  (snd (mul_u64_overflow a b) = true ↔ 2 ^ 64 ≤ a * b) ∧
  (snd (mul_u64_overflow a b) = false → fst (mul_u64_overflow a b) = a * b).
Proof.
  unfold is_u64, mul_u64_overflow, UINT64_MAX, u64. intros Ha Hb. cbn [fst snd].
  assert (negb (a =? 0) && ((2 ^ 64 - 1) / a <? b) = true ↔ 2 ^ 64 ≤ a * b) as Hiff.
  { rewrite andb_true_iff, negb_true_iff, Z.eqb_neq, Z.ltb_lt. split.
    - intros [Hnz Hlt]. pose proof (Z.mul_succ_div_gt (2 ^ 64 - 1) a ltac:(lia)). nia.
    - intros Hge. split; [lia|]. apply Z.div_lt_upper_bound; lia. }
  split; [exact Hiff|]. intros Hf. apply Z.mod_small. 
  destruct (decide (2 ^ 64 ≤ a * b)) as [H|H]; [apply Hiff in H; congruence|nia].
Qed.

Lemma add_u64_overflow_spec a b :
  is_u64 a → is_u64 b →
  (snd (add_u64_overflow a b) = true ↔ 2 ^ 64 ≤ a + b) ∧
  (snd (add_u64_overflow a b) = false → fst (add_u64_overflow a b) = a + b).
Proof.
  unfold is_u64, add_u64_overflow, UINT64_MAX, u64. intros Ha Hb. cbn [fst snd].
  rewrite Z.ltb_lt, Z.ltb_ge. split; [lia|]. intros. apply Z.mod_small. lia.
Qed.

(** ** Reading a CHS address back *)

Definition chs_head (c : list byte) : Z := b2z (nth 0 c x00).
Definition chs_sector (c : list byte) : Z := Z.land (b2z (nth 1 c x00)) 0x3f.
Definition chs_cylinder (c : list byte) : Z :=
  Z.land (b2z (nth 1 c x00)) 0xc0 * 4 + b2z (nth 2 c x00).

(** The middle byte packs two cylinder bits above six sector bits. *)
Lemma chs_middle_byte cyl sec :
  0 ≤ cyl < 1024 → 0 ≤ sec < 64 →
  Z.lor (Z.land (Z.shiftr cyl 2) 0xc0) (Z.land sec 0x3f) = cyl / 256 * 64 + sec.
Proof.
  intros Hc Hs. rewrite Z.lor_comm.
  change 0xc0 with (Z.ones 2 * 2 ^ 6). change 0x3f with (Z.ones 6 * 2 ^ 0).
  rewrite !land_mask by lia. rewrite Z.shiftr_div_pow2, Z.div_div by lia.
  change (2 ^ 2 * 2 ^ 6) with 256. change (2 ^ 0) with 1. rewrite Z.div_1_r, Z.mul_1_r.
  rewrite (Z.mod_small sec) by lia.
  rewrite (Z.mod_small (cyl / 256)) by dlia.
  rewrite lor_disjoint by lia. change (2 ^ 6) with 64. lia.
Qed.

(** C12. Below 1024*255*63 the three bytes are a cylinder below 1024, a head below
    255 and a sector in 1..63 that address exactly [lba]; from there on they
    are the standard "does not fit" value fe ff ff. *)
Theorem lba2chs_addresses lba :
  0 ≤ lba →
  let c := lba2chs lba in
  (lba < 1024 * 255 * 63 →
     0 ≤ chs_cylinder c < 1024 ∧ 0 ≤ chs_head c < 255 ∧ 1 ≤ chs_sector c ≤ 63 ∧
     (chs_cylinder c * 255 + chs_head c) * 63 + (chs_sector c - 1) = lba) ∧
  (1024 * 255 * 63 ≤ lba → c = [xfe; xff; xff]).
Proof.
  intros Hlba. unfold lba2chs. cbv zeta. 
  destruct (Z.ltb_spec (63 * 255 * 1024) lba) as [H1|H1]; [split; [lia|done]|].
  destruct (Z.leb_spec 1024 (lba / (255 * 63))) as [H2|H2].
  { split; [intros; exfalso; dlia|done]. }
  split; [intros _|intros; exfalso; dlia].
  set (cyl := lba / (255 * 63)) in *. set (sec := lba mod 63 + 1).
  assert (0 ≤ cyl < 1024) by (subst cyl; dlia). assert (1 ≤ sec ≤ 63) by (subst sec; dlia).
  rewrite chs_middle_byte by lia.
  unfold chs_cylinder, chs_head, chs_sector. cbn [nth]. rewrite !b2z_z2b.
  change 0xc0 with (Z.ones 2 * 2 ^ 6). change 0x3f with (Z.ones 6 * 2 ^ 0).
  rewrite !land_mask by lia. change (2 ^ 0) with 1. change (2 ^ 2) with 4.
  change (2 ^ 6) with 64. rewrite Z.div_1_r, Z.mul_1_r.
  assert (0 ≤ cyl / 256 < 4) by dlia.
  rewrite (Z.mod_small (cyl / 256 * 64 + sec) 256) by lia.
  assert ((cyl / 256 * 64 + sec) mod 64 = sec) as -> by dlia.
  assert ((cyl / 256 * 64 + sec) / 64 = cyl / 256) as -> by dlia.
  rewrite (Z.mod_small (cyl / 256)) by lia.
  assert (cyl = lba / 63 / 255) as Hcyl by (subst cyl; rewrite Z.div_div by lia; f_equal; lia).
  change (Z.ones 6) with 63.
  rewrite (Z.mod_small ((lba / 63) mod 255) 256) by dlia.
  subst sec. dlia.
Qed.

Lemma lba2chs_addresses_witness :
  (0 ≤ 2048) ∧ chs_head (lba2chs 2048) = 32 ∧ chs_sector (lba2chs 2048) = 33 ∧
  (chs_cylinder (lba2chs 2048) * 255 + chs_head (lba2chs 2048)) * 63 + (chs_sector (lba2chs 2048) - 1) = 2048.
Proof.
  split; [lia|]. split; [reflexivity|]. split; [reflexivity|].
  apply (lba2chs_addresses 2048); lia.
Defined.

End LimineArith.
