(* ===== verification/LimineState.v ===== *)
(** * limine.c: program state, effects and the C library calls it makes

    The static variables of
    Platform/SDK/r4os/storage_tools/limine/limine.c are one record, and a C
    function is a function from that record to its result and the new record.
    [None] stands for undefined behaviour (a free of a pointer that is not
    allocated, an access outside a buffer, a division by zero), so a theorem
    whose conclusion is [m s = Some _] says that the code has none.

    Every call of [fseek], [fread], [fwrite], [malloc], [calloc] and [realloc]
    takes the next entry of the schedule [io] and may fail as it says; an
    exhausted schedule means that every further call behaves as documented
    (it still fails where the file is too short or the position is not
    representable). A failed [fread] leaves indeterminate bytes in the buffer
    and a failed [fwrite] a prefix of its data in the file. Streams are modelled
    unbuffered: a write is in the file when [fwrite] returns. *)

From S2P Require Import Prelude.

Module LimineState.

(** What one call of the C library does when the environment makes it fail. *)
Record outcome := Outcome {
  oc_ok : bool;              (** [false]: this call fails *)
  oc_junk : list byte;       (** bytes a failed read leaves in the buffer *)
  oc_short : nat             (** bytes a failed write has put in the file *)
}.

Definition good_outcome : outcome := Outcome true [] 0.

Inductive cache_state_t := CACHE_CLEAN | CACHE_DIRTY.

#[global] Instance cache_state_eq_dec : EqDecision cache_state_t.
Proof. solve_decision. Defined.

(** One entry of the undo log. [ud_data] is the heap pointer (0 is NULL) and
    [ud_bytes] what the block it points to holds. *)
Record uninstall_data := UD {
  ud_data : nat;
  ud_bytes : list byte;
  ud_loc : Z;
  ud_count : Z
}.

(** Static storage starts zeroed. *)
Definition ud_zero : uninstall_data := UD 0 [] 0 0.

Record state := State {
  device : list byte;
  fpos : Z;
  cache : list byte;
  cache_state : cache_state_t;
  cached_block : Z;
  block_size : Z;
  uninstalling : bool;
  uninstall_data_arr : list uninstall_data;
  uninstall_data_i : Z;
  live : gset nat;
  next_ptr : nat;
  empty_lba : nat;
  udfile : option (list byte);
  io : list outcome;
  long_size : Z;
  bigendian : bool
}.

Definition set_device (v : list byte) (s : state) : state :=
  State v (fpos s) (cache s) (cache_state s) (cached_block s) (block_size s) (uninstalling s) (uninstall_data_arr s) (uninstall_data_i s) (live s) (next_ptr s) (empty_lba s) (udfile s) (io s) (long_size s) (bigendian s).
Definition set_fpos (v : Z) (s : state) : state :=
  State (device s) v (cache s) (cache_state s) (cached_block s) (block_size s) (uninstalling s) (uninstall_data_arr s) (uninstall_data_i s) (live s) (next_ptr s) (empty_lba s) (udfile s) (io s) (long_size s) (bigendian s).
Definition set_cache (v : list byte) (s : state) : state :=
  State (device s) (fpos s) v (cache_state s) (cached_block s) (block_size s) (uninstalling s) (uninstall_data_arr s) (uninstall_data_i s) (live s) (next_ptr s) (empty_lba s) (udfile s) (io s) (long_size s) (bigendian s).
Definition set_cache_state (v : cache_state_t) (s : state) : state :=
  State (device s) (fpos s) (cache s) v (cached_block s) (block_size s) (uninstalling s) (uninstall_data_arr s) (uninstall_data_i s) (live s) (next_ptr s) (empty_lba s) (udfile s) (io s) (long_size s) (bigendian s).
Definition set_cached_block (v : Z) (s : state) : state :=
  State (device s) (fpos s) (cache s) (cache_state s) v (block_size s) (uninstalling s) (uninstall_data_arr s) (uninstall_data_i s) (live s) (next_ptr s) (empty_lba s) (udfile s) (io s) (long_size s) (bigendian s).
Definition set_block_size (v : Z) (s : state) : state :=
  State (device s) (fpos s) (cache s) (cache_state s) (cached_block s) v (uninstalling s) (uninstall_data_arr s) (uninstall_data_i s) (live s) (next_ptr s) (empty_lba s) (udfile s) (io s) (long_size s) (bigendian s).
Definition set_uninstalling (v : bool) (s : state) : state :=
  State (device s) (fpos s) (cache s) (cache_state s) (cached_block s) (block_size s) v (uninstall_data_arr s) (uninstall_data_i s) (live s) (next_ptr s) (empty_lba s) (udfile s) (io s) (long_size s) (bigendian s).
Definition set_uninstall_data_arr (v : list uninstall_data) (s : state) : state :=
  State (device s) (fpos s) (cache s) (cache_state s) (cached_block s) (block_size s) (uninstalling s) v (uninstall_data_i s) (live s) (next_ptr s) (empty_lba s) (udfile s) (io s) (long_size s) (bigendian s).
Definition set_uninstall_data_i (v : Z) (s : state) : state :=
  State (device s) (fpos s) (cache s) (cache_state s) (cached_block s) (block_size s) (uninstalling s) (uninstall_data_arr s) v (live s) (next_ptr s) (empty_lba s) (udfile s) (io s) (long_size s) (bigendian s).
Definition set_live (v : gset nat) (s : state) : state :=
  State (device s) (fpos s) (cache s) (cache_state s) (cached_block s) (block_size s) (uninstalling s) (uninstall_data_arr s) (uninstall_data_i s) v (next_ptr s) (empty_lba s) (udfile s) (io s) (long_size s) (bigendian s).
Definition set_next_ptr (v : nat) (s : state) : state :=
  State (device s) (fpos s) (cache s) (cache_state s) (cached_block s) (block_size s) (uninstalling s) (uninstall_data_arr s) (uninstall_data_i s) (live s) v (empty_lba s) (udfile s) (io s) (long_size s) (bigendian s).
Definition set_empty_lba (v : nat) (s : state) : state :=
  State (device s) (fpos s) (cache s) (cache_state s) (cached_block s) (block_size s) (uninstalling s) (uninstall_data_arr s) (uninstall_data_i s) (live s) (next_ptr s) v (udfile s) (io s) (long_size s) (bigendian s).
Definition set_udfile (v : option (list byte)) (s : state) : state :=
  State (device s) (fpos s) (cache s) (cache_state s) (cached_block s) (block_size s) (uninstalling s) (uninstall_data_arr s) (uninstall_data_i s) (live s) (next_ptr s) (empty_lba s) v (io s) (long_size s) (bigendian s).
Definition set_io (v : list outcome) (s : state) : state :=
  State (device s) (fpos s) (cache s) (cache_state s) (cached_block s) (block_size s) (uninstalling s) (uninstall_data_arr s) (uninstall_data_i s) (live s) (next_ptr s) (empty_lba s) (udfile s) v (long_size s) (bigendian s).

(** ** State, undefined behaviour and results *)

Definition M (A : Type) : Type := state → option (A * state).

Definition ret {A} (a : A) : M A := λ s, Some (a, s).
Definition bind {A B} (m : M A) (f : A → M B) : M B :=
  λ s, match m s with Some (a, s') => f a s' | None => None end.
Definition ub {A} : M A := λ _, None.
Definition gets {A} (f : state → A) : M A := λ s, Some (f s, s).
Definition modify (f : state → state) : M () := λ s, Some ((), f s).

Notation "x <- m ;;; k" := (bind m (λ x, k))
  (at level 100, m at next level, right associativity) : r4_scope.
Notation "m ;;; k" := (bind m (λ _, k))
  (at level 100, right associativity) : r4_scope.
#[global] Open Scope r4_scope.

(** The next entry of the schedule. *)
Definition next_io : M outcome := λ s,
  match io s with
  | [] => Some (good_outcome, s)
  | o :: rest => Some (o, set_io rest s)
  end.

(** ** stdio on the device *)

Definition OFF_MAX : Z := 2 ^ 63 - 1.

(** [fseek(device, off, SEEK_SET)]: negative positions are refused. *)
Definition fseek_set (off : Z) : M bool :=
  o <- next_io ;;;
  if oc_ok o && (0 <=? off) then modify (set_fpos off) ;;; ret true
  else ret false.

(** [fseek(device, off, SEEK_CUR)]. *)
Definition fseek_cur (off : Z) : M bool :=
  o <- next_io ;;;
  p <- gets fpos ;;;
  if oc_ok o && (0 <=? p + off) && (p + off <=? OFF_MAX)
  then modify (set_fpos (p + off)) ;;; ret true
  else ret false.

Definition rewind : M () := modify (set_fpos 0).

(** Bytes [d] written into a file at [pos], which grows when it is too short. *)
Definition pwrite (pos : nat) (d f : list byte) : list byte :=
  let f := f ++ replicate (pos - length f) x00 in
  take pos f ++ d ++ drop (pos + length d) f.

(** [fread(cache, n, 1, device) == 1]. *)
Definition fread_cache (n : Z) : M bool :=
  o <- next_io ;;;
  p <- gets fpos ;;;
  d <- gets device ;;;
  c <- gets cache ;;;
  let got := if oc_ok o then slice (Z.to_nat p) (Z.to_nat n) d
             else take (Z.to_nat n) (oc_junk o) in
  if bool_decide (length c < Z.to_nat n)%nat then ub
  else
    modify (set_cache (splice 0 got c)) ;;;
    modify (set_fpos (p + Z.of_nat (length got))) ;;;
    ret (oc_ok o && (Z.of_nat (length got) =? n)).

(** [fwrite(cache, n, 1, device) == 1]. *)
Definition fwrite_cache (n : Z) : M bool :=
  o <- next_io ;;;
  p <- gets fpos ;;;
  d <- gets device ;;;
  c <- gets cache ;;;
  if bool_decide (length c < Z.to_nat n)%nat then ub
  else
    let put := if oc_ok o then take (Z.to_nat n) c
               else take (oc_short o `min` Z.to_nat n) c in
    modify (set_device (pwrite (Z.to_nat p) put d)) ;;;
    modify (set_fpos (p + Z.of_nat (length put))) ;;;
    ret (oc_ok o).

(** ** Heap: pointers are numbers, 0 is NULL. *)

Definition malloc : M nat :=
  o <- next_io ;;;
  if oc_ok o then
    p <- gets next_ptr ;;;
    modify (set_next_ptr (S p)) ;;;
    l <- gets live ;;;
    modify (set_live ({[ S p ]} ∪ l)) ;;;
    ret (S p)
  else ret 0%nat.

Definition free (p : nat) : M () :=
  if bool_decide (p = 0%nat) then ret ()
  else
    l <- gets live ;;;
    if bool_decide (p ∈ l) then modify (set_live (l ∖ {[ p ]}))
    else ub.

(** [realloc(cache, n)]; the bytes of a grown block are indeterminate. *)
Definition realloc_cache (n : Z) : M bool :=
  o <- next_io ;;;
  if oc_ok o then
    c <- gets cache ;;;
    modify (set_cache (take (Z.to_nat n) (c ++ replicate (Z.to_nat n) x00))) ;;;
    ret true
  else ret false.

(** ** set_pos *)

(** [jumps] relative seeks of [jump_size], for a [long] too narrow for a
    64-bit position. *)
Fixpoint set_pos_jumps (jumps : nat) (jump_size : Z) : M bool :=
  match jumps with
  | O => ret true
  | S jumps =>
      ok <- fseek_cur jump_size ;;;
      if negb ok then ret false else set_pos_jumps jumps jump_size
  end.

(** [set_pos(device, pos) == 0]. *)
Definition set_pos (pos : Z) : M bool :=
  lsz <- gets long_size ;;;
  if 8 <=? lsz then fseek_set (to_signed 64 pos)
  else
    let LONG_MAX := 2 ^ (8 * lsz - 1) - 1 in
    let jump_size := LONG_MAX / 2 + 1 in
    let last_jump := pos mod jump_size in
    let jumps := pos / jump_size in
    rewind ;;;
    ok <- set_pos_jumps (Z.to_nat jumps) jump_size ;;;
    if negb ok then ret false
    else
      ok <- fseek_cur last_jump ;;;
      if negb ok then ret false else ret true.

(** ** Running programs *)

Lemma bind_run {A B} (m : M A) (f : A → M B) s a s' :
  m s = Some (a, s') → bind m f s = f a s'.
Proof. unfold bind. by intros ->. Qed.

Lemma bind_assoc {A B C} (m : M A) (f : A → M B) (g : B → M C) s :
  bind (bind m f) g s = bind m (λ a, bind (f a) g) s.
Proof. unfold bind. by destruct (m s) as [[]|]. Qed.

(** Evaluates the bookkeeping steps of a run. *)
Ltac run := unfold gets, modify, ret, ub in *; cbn [bind] in *;
  repeat (unfold bind at 1; cbn beta iota).

Lemma set_io_id s : set_io (io s) s = s.
Proof. by destruct s. Qed.
Lemma set_fpos_id s : set_fpos (fpos s) s = s.
Proof. by destruct s. Qed.

End LimineState.
