(* ===== verification/LimineDevice.v ===== *)
(** * limine.c: the one-block cache and the undo log

    [device_init], [device_flush_cache], [device_cache_block], [_device_read],
    [_device_write], [uninstall] and the undo-log helpers of
    Platform/SDK/r4os/storage_tools/limine/limine.c. *)

From S2P Require Import Prelude LimineState.

Module LimineDevice.
Export LimineState.

(** ** Block size detection *)

Fixpoint device_init_guesses (guesses : list Z) : M bool :=
  match guesses with
  | [] => ret false
  | g :: guesses =>
      ok <- realloc_cache g ;;;
      if negb ok then ret false
      else
        rewind ;;;
        ok <- fread_cache g ;;;
        if negb ok then device_init_guesses guesses
        else
          modify (set_block_size g) ;;;
          modify (set_cache_state CACHE_CLEAN) ;;;
          modify (set_cached_block 0) ;;;
          ret true
  end.

Definition device_init : M bool := device_init_guesses [512; 2048; 4096].

(** ** The cache *)

Definition device_flush_cache : M bool :=
  cs <- gets cache_state ;;;
  if bool_decide (cs = CACHE_CLEAN) then ret true
  else
    cb <- gets cached_block ;;;
    bs <- gets block_size ;;;
    ok <- set_pos (u64 (cb * bs)) ;;;
    if negb ok then ret false
    else
      ok <- fwrite_cache bs ;;;
      if negb ok then ret false
      else modify (set_cache_state CACHE_CLEAN) ;;; ret true.

Definition device_cache_block (block : Z) : M bool :=
  cb <- gets cached_block ;;;
  if cb =? block then ret true
  else
    cs <- gets cache_state ;;;
    ok <- (if bool_decide (cs = CACHE_DIRTY) then device_flush_cache else ret true) ;;;
    if negb ok then ret false
    else
      bs <- gets block_size ;;;
      ok <- set_pos (u64 (block * bs)) ;;;
      if negb ok then ret false
      else
        ok <- fread_cache bs ;;;
        if negb ok then ret false
        else modify (set_cached_block block) ;;; ret true.

(** ** Byte-addressed reads

    [None]: the C function returned false and the buffer holds a prefix of the
    data; every caller abandons the buffer then. One round of the loop moves at
    least one byte, so [count] rounds are enough. *)

Definition chunk_at (bs loc count progress : Z) : Z :=
  let chunk := count - progress in
  let offset := u64 (loc + progress) mod bs in
  if bs - offset <? chunk then bs - offset else chunk.

Fixpoint device_read_loop (fuel : nat) (loc count progress : Z) (buffer : list byte)
    : M (option (list byte)) :=
  if progress <? count then
    match fuel with
    | O => ub
    | S fuel =>
        bs <- gets block_size ;;;
        if bs =? 0 then ub
        else
          let block := u64 (loc + progress) / bs in
          ok <- device_cache_block block ;;;
          if negb ok then ret None
          else
            let chunk := chunk_at bs loc count progress in
            let offset := u64 (loc + progress) mod bs in
            c <- gets cache ;;;
            if Z.of_nat (length c) <? offset + chunk then ub
            else
              device_read_loop fuel loc count (progress + chunk)
                (buffer ++ slice (Z.to_nat offset) (Z.to_nat chunk) c)
    end
  else ret (Some buffer).

Definition _device_read (loc count : Z) : M (option (list byte)) :=
  device_read_loop (Z.to_nat count) loc count 0 [].

(** ** Byte-addressed writes, logged for undo *)

Definition UNINSTALL_DATA_MAX : Z := 256.

Definition store_ud (i : Z) (e : uninstall_data) : M () :=
  a <- gets uninstall_data_arr ;;;
  if bool_decide (0 ≤ i < Z.of_nat (length a))
  then modify (set_uninstall_data_arr (<[Z.to_nat i := e]> a))
  else ub.

Definition load_ud (i : Z) : M uninstall_data :=
  a <- gets uninstall_data_arr ;;;
  match (if 0 <=? i then a !! Z.to_nat i else None) with
  | Some e => ret e
  | None => ub
  end.

Fixpoint device_write_loop (fuel : nat) (buffer : list byte) (loc count progress : Z)
    : M bool :=
  if progress <? count then
    match fuel with
    | O => ub
    | S fuel =>
        bs <- gets block_size ;;;
        if bs =? 0 then ub
        else
          let block := u64 (loc + progress) / bs in
          ok <- device_cache_block block ;;;
          if negb ok then ret false
          else
            let chunk := chunk_at bs loc count progress in
            let offset := u64 (loc + progress) mod bs in
            c <- gets cache ;;;
            if (Z.of_nat (length c) <? offset + chunk)
               || (Z.of_nat (length buffer) <? progress + chunk) then ub
            else
              modify (set_cache (splice (Z.to_nat offset)
                        (slice (Z.to_nat progress) (Z.to_nat chunk) buffer) c)) ;;;
              modify (set_cache_state CACHE_DIRTY) ;;;
              device_write_loop fuel buffer loc count (progress + chunk)
    end
  else ret true.

(** The bytes the write is about to replace, saved in the log's next entry;
    [false]: the C function returns false before writing anything. *)
Definition save_uninstall_data (loc count : Z) : M bool :=
  i <- gets uninstall_data_i ;;;
  if UNINSTALL_DATA_MAX <=? i then ret false
  else
    ud <- load_ud i ;;;
    p <- malloc ;;;
    store_ud i (UD p [] (ud_loc ud) (ud_count ud)) ;;;
    if bool_decide (p = 0%nat) then ret false
    else
      r <- _device_read loc count ;;;
      match r with
      | None => free p ;;; ret false
      | Some old => store_ud i (UD p old loc count) ;;; ret true
      end.

Definition _device_write (buffer : list byte) (loc count : Z) : M bool :=
  un <- gets uninstalling ;;;
  saved <- (if un : bool then ret true else save_uninstall_data loc count) ;;;
  if negb saved then ret false
  else
    ok <- device_write_loop (Z.to_nat count) buffer loc count 0 ;;;
    if negb ok then
      (if un then ret false
       else
         i <- gets uninstall_data_i ;;;
         ud <- load_ud i ;;;
         free (ud_data ud) ;;;
         ret false)
    else
      (if un then ret true
       else
         i <- gets uninstall_data_i ;;;
         modify (set_uninstall_data_i (i + 1)) ;;;
         ret true).

(** ** The undo log as a whole *)

(** The loop of [reverse_uninstall_data]: [n] rounds from [i] up and [j] down,
    copying into the scratch array [rev], which nothing else reads. *)
Fixpoint reverse_loop (n : nat) (i j : Z) (rev : list uninstall_data) : M (list uninstall_data) :=
  match n with
  | O => ret rev
  | S n =>
      e <- load_ud i ;;;
      if bool_decide (0 ≤ j < Z.of_nat (length rev))
      then reverse_loop n (i + 1) (u64 (j - 1)) (<[Z.to_nat j := e]> rev)
      else ub
  end.

Definition reverse_uninstall_data : M () :=
  i <- gets uninstall_data_i ;;;
  rev <- reverse_loop (Z.to_nat i) 0 (u64 (i - 1))
           (replicate (Z.to_nat UNINSTALL_DATA_MAX) ud_zero) ;;;
  a <- gets uninstall_data_arr ;;;
  modify (set_uninstall_data_arr (take (Z.to_nat i) rev ++ drop (Z.to_nat i) a)).

Fixpoint free_entries (n : nat) (i : Z) : M () :=
  match n with
  | O => ret ()
  | S n =>
      ud <- load_ud i ;;;
      free (ud_data ud) ;;;
      free_entries n (i + 1)
  end.

Definition free_uninstall_data : M () :=
  i <- gets uninstall_data_i ;;;
  free_entries (Z.to_nat i) 0.

Definition invalidate_cache : M () :=
  modify (set_cache_state CACHE_CLEAN) ;;;
  modify (set_cached_block UINT64_MAX).

(** One entry written back, with its single retry: whether the write failed for
    good, and whether a flush in between failed. *)
Definition uninstall_entry (ud : uninstall_data) : M (bool * bool) :=
  ok <- _device_write (ud_bytes ud) (ud_loc ud) (ud_count ud) ;;;
  if ok : bool then ret (false, false)
  else
    flushed <- device_flush_cache ;;;
    invalidate_cache ;;;
    ok <- _device_write (ud_bytes ud) (ud_loc ud) (ud_count ud) ;;;
    ret (negb ok, negb flushed).

Fixpoint uninstall_entries (n : nat) (i : Z) (write_fail flush_fail : bool) : M (bool * bool) :=
  match n with
  | O => ret (write_fail, flush_fail)
  | S n =>
      ud <- load_ud i ;;;
      r <- uninstall_entry ud ;;;
      uninstall_entries n (i + 1) (write_fail || fst r) (flush_fail || snd r)
  end.

Definition uninstall : M bool :=
  modify (set_uninstalling true) ;;;
  invalidate_cache ;;;
  i <- gets uninstall_data_i ;;;
  r <- uninstall_entries (Z.to_nat i) 0 false false ;;;
  flushed <- device_flush_cache ;;;
  let print_write_fail := fst r in
  let print_cache_flush_fail := snd r || negb flushed in
  ret (negb print_write_fail && negb print_cache_flush_fail).

End LimineDevice.
