(* ===== verification/LimineCache.v ===== *)
(** * limine.c: the cache refines a plain byte-addressed disk

    Two layers of lemmas on the operations of [LimineDevice]: what they never
    touch whatever the C library does ([same_core]), and, on a device whose
    calls do not fail, that the cache and the file together are one array of
    bytes ([view]) which a read returns and a write updates. *)

From S2P Require Import Prelude LimineState LimineDevice.

Module LimineCache.
Export LimineDevice.

(** ** What the I/O layer leaves alone *)

Record same_core (s s' : state) : Prop := {
  sc_bs : block_size s' = block_size s;
  sc_un : uninstalling s' = uninstalling s;
  sc_arr : uninstall_data_arr s' = uninstall_data_arr s;
  sc_i : uninstall_data_i s' = uninstall_data_i s;
  sc_live : live s' = live s;
  sc_next : next_ptr s' = next_ptr s;
  sc_lba : empty_lba s' = empty_lba s;
  sc_udfile : udfile s' = udfile s;
  sc_long : long_size s' = long_size s;
  sc_be : bigendian s' = bigendian s;
  sc_cache : length (cache s') = length (cache s);
  sc_io : io s = [] → io s' = []
}.

#[global] Instance same_core_preorder : PreOrder same_core.
Proof.
  split; [by split|].
  intros s1 s2 s3 [] []. split; try congruence. auto.
Qed.

(** The two widths of [long] the code is built for. *)
Definition host_ok (s : state) : Prop := long_size s = 4 ∨ long_size s = 8.

Lemma next_io_run s :
  ∃ o io', next_io s = Some (o, set_io io' s) ∧ (io s = [] → o = good_outcome ∧ io' = []).
Proof.
  unfold next_io. destruct (io s) as [|o rest] eqn:E; eexists _, _.
  - rewrite <- E at 1. rewrite set_io_id. rewrite E. eauto.
  - split; [done|]. discriminate.
Qed.

Lemma fseek_set_run off s :
  ∃ b p io', fseek_set off s = Some (b, set_fpos p (set_io io' s)) ∧
    (io s = [] → io' = [] ∧ b = (0 <=? off) ∧ (b = true → p = off)).
Proof.
  destruct (next_io_run s) as (o & io' & Hn & Hio).
  unfold fseek_set. rewrite (bind_run _ _ _ _ _ Hn).
  destruct (oc_ok o && (0 <=? off)) eqn:E; [eexists _, _, _|].
  - run. split; [reflexivity|]. intros Hs. destruct (Hio Hs) as [-> ->].
    simpl in E. eauto.
  - eexists false, (fpos s), io'. split; [by destruct s|].
    intros Hs. destruct (Hio Hs) as [-> ->]. simpl in E. by rewrite E.
Qed.

Lemma fseek_cur_run off s :
  ∃ b p io', fseek_cur off s = Some (b, set_fpos p (set_io io' s)) ∧
    (b = true → 0 ≤ p ≤ OFF_MAX) ∧
    (io s = [] → io' = [] ∧ (b = true ↔ 0 ≤ fpos s + off ≤ OFF_MAX) ∧
       (b = true → p = fpos s + off)).
Proof.
  destruct (next_io_run s) as (o & io' & Hn & Hio).
  unfold fseek_cur. rewrite (bind_run _ _ _ _ _ Hn). run.
  change (fpos (set_io io' s)) with (fpos s).
  destruct (oc_ok o && _ && _) eqn:E; [eexists _, _, _|].
  - apply andb_true_iff in E as [[_ ?]%andb_true_iff ?].
    split; [reflexivity|]. split; [lia|]. intros Hs. destruct (Hio Hs) as [-> ->].
    split_and!; [done|lia|done].
  - eexists false, (fpos s), io'. split; [by destruct s|]. split; [done|].
    intros Hs. destruct (Hio Hs) as [-> ->]. simpl in E.
    apply andb_false_iff in E. split_and!; [done| |done].
    split; [done|]. intros. destruct E; lia.
Qed.

Lemma set_pos_jumps_run n j s :
  0 ≤ j → 0 ≤ fpos s ≤ OFF_MAX →
  ∃ b p io', set_pos_jumps n j s = Some (b, set_fpos p (set_io io' s)) ∧
    (io s = [] → io' = [] ∧ (b = true ↔ fpos s + Z.of_nat n * j ≤ OFF_MAX) ∧
       (b = true → p = fpos s + Z.of_nat n * j)).
Proof.
  revert s. induction n as [|n IH]; intros s Hj Hp.
  - exists true, (fpos s), (io s). cbn [set_pos_jumps]. split; [by destruct s|].
    intros Hs. split_and!; [done|lia|lia].
  - cbn [set_pos_jumps]. destruct (fseek_cur_run j s) as (b & p & io' & Hr & Hpp & Hio).
    rewrite (bind_run _ _ _ _ _ Hr). destruct b; cbn [negb].
    + destruct (IH (set_fpos p (set_io io' s)) Hj (Hpp eq_refl)) as (b & p' & io'' & Hr' & Hio').
      exists b, p', io''. rewrite Hr'. split; [by destruct s|].
      intros Hs. destruct (Hio Hs) as (-> & ? & Hpeq). specialize (Hpeq eq_refl).
      destruct (Hio' eq_refl) as (-> & Hb & Hp'). simpl in Hb, Hp'.
      split_and!; [done|rewrite Hb; lia|intros; rewrite Hp' by done; lia].
    + exists false, p, io'. split; [done|]. intros Hs. destruct (Hio Hs) as (-> & Hb & ?).
      split_and!; [done| |done]. split; [done|]. intros. exfalso.
      assert (false = true); [|done]. apply Hb. nia.
Qed.

(** [set_pos] moves the file position and nothing else; on a reliable device it
    succeeds exactly for representable positions, for both widths of [long]. *)
Lemma set_pos_run pos s :
  host_ok s → is_u64 pos →
  ∃ b p io', set_pos pos s = Some (b, set_fpos p (set_io io' s)) ∧
    (io s = [] → io' = [] ∧ (b = true ↔ pos ≤ OFF_MAX) ∧ (b = true → p = pos)).
Proof.
  intros Hh Hpos. unfold set_pos. run. destruct Hh as [Hl|Hl]; rewrite Hl.
  - change (8 <=? 4) with false. cbv iota zeta.
    change ((2 ^ (8 * 4 - 1) - 1) / 2 + 1) with (2 ^ 30).
    unfold is_u64 in Hpos. unfold rewind. run.
    assert (0 ≤ pos / 2 ^ 30 ∧ 0 ≤ pos mod 2 ^ 30 < 2 ^ 30 ∧
            pos = pos / 2 ^ 30 * 2 ^ 30 + pos mod 2 ^ 30) as (Hq & Hm & Hdiv) by dlia.
    destruct (set_pos_jumps_run (Z.to_nat (pos / 2 ^ 30)) (2 ^ 30) (set_fpos 0 s))
      as (b & p & io' & -> & Hio); [lia|unfold OFF_MAX; simpl; lia|]. simpl in Hio.
    destruct b; cbn [negb].
    + destruct (fseek_cur_run (pos mod 2 ^ 30) (set_fpos p (set_io io' (set_fpos 0 s))))
        as (b & p' & io'' & -> & _ & Hio'). simpl in Hio'.
      exists b, p', io''. split; [by destruct b, s|]. intros Hs.
      destruct (Hio Hs) as (-> & Hb1 & Hp1). specialize (Hp1 eq_refl).
      destruct (Hio' eq_refl) as (-> & Hb2 & Hp2).
      split_and!; [done|rewrite Hb2; lia|intros; rewrite Hp2 by done; lia].
    + exists false, p, io'. split; [by destruct s|]. intros Hs.
      destruct (Hio Hs) as (-> & Hb1 & _). split_and!; [done| |done].
      split; [done|]. intros. apply Hb1. lia.
  - change (8 <=? 8) with true. cbv iota.
    destruct (fseek_set_run (to_signed 64 pos) s) as (b & p & io' & -> & Hio).
    exists b, p, io'. split; [done|]. intros Hs. destruct (Hio Hs) as (-> & -> & Hp).
    unfold is_u64, OFF_MAX in *. unfold to_signed in *. cbv zeta in *.
    rewrite Z.mod_small in * by lia.
    destruct (pos <? 2 ^ (64 - 1)) eqn:E; (split_and!; [done|lia|]); intros; [by apply Hp|lia].
Qed.

Lemma length_splice_0 (got c : list byte) :
  (length got ≤ length c)%nat → length (splice 0 got c) = length c.
Proof. intros. apply length_splice. lia. Qed.

Lemma splice_0_full (got c : list byte) : length got = length c → splice 0 got c = got.
Proof. intros H. unfold splice. simpl. rewrite drop_ge by lia. by rewrite app_nil_r. Qed.

Lemma fread_cache_run n s :
  0 ≤ n → Z.of_nat (length (cache s)) = n →
  ∃ b s', fread_cache n s = Some (b, s') ∧ same_core s s' ∧
    device s' = device s ∧ cache_state s' = cache_state s ∧ cached_block s' = cached_block s ∧
    (io s = [] → 0 ≤ fpos s →
       (b = true ↔ fpos s + n ≤ Z.of_nat (length (device s)) ∨ n = 0) ∧
       (b = true → cache s' = slice (Z.to_nat (fpos s)) (Z.to_nat n) (device s))).
Proof.
  intros Hn Hc. unfold fread_cache.
  destruct (next_io_run s) as (o & io' & Hr & Hio). rewrite (bind_run _ _ _ _ _ Hr). run.
  rewrite bool_decide_false by (simpl; lia). simpl.
  set (got := if oc_ok o then _ else _).
  assert (length got ≤ length (cache s))%nat as Hg.
  { subst got. destruct (oc_ok o); [unfold slice|]; len. }
  eexists _, _. split; [reflexivity|]. split_and!; [|done..|].
  - split; simpl; try done; [by apply length_splice_0|]. intros Hs. by destruct (Hio Hs).
  - intros Hs Hp. destruct (Hio Hs) as [-> ->]. simpl in *. rewrite Z.eqb_eq.
    assert (length got = (Z.to_nat n `min` (length (device s) - Z.to_nat (fpos s)))%nat) as Hgl.
    { subst got. unfold slice. len. }
    split; [lia|]. intros. rewrite splice_0_full by lia. done.
Qed.

Lemma pwrite_in (pos : nat) (d f : list byte) :
  (pos + length d ≤ length f)%nat → pwrite pos d f = splice pos d f.
Proof.
  intros. unfold pwrite, splice.
  replace (pos - length f)%nat with 0%nat by lia. simpl. by rewrite app_nil_r.
Qed.

Lemma fwrite_cache_run n s :
  0 ≤ n → Z.of_nat (length (cache s)) = n →
  ∃ b s', fwrite_cache n s = Some (b, s') ∧ same_core s s' ∧
    cache s' = cache s ∧ cache_state s' = cache_state s ∧ cached_block s' = cached_block s ∧
    (io s = [] → b = true ∧ device s' = pwrite (Z.to_nat (fpos s)) (cache s) (device s)).
Proof.
  intros Hn Hc. unfold fwrite_cache.
  destruct (next_io_run s) as (o & io' & Hr & Hio). rewrite (bind_run _ _ _ _ _ Hr). run.
  rewrite bool_decide_false by (simpl; lia). simpl.
  eexists _, _. split; [reflexivity|]. split_and!; [|done..|].
  - split; simpl; try done. intros Hs. by destruct (Hio Hs).
  - intros Hs. destruct (Hio Hs) as [-> ->]. simpl. split; [done|].
    rewrite take_ge by lia. done.
Qed.

(** ** Cache operations under any schedule *)

(** What the cache code relies on after [device_init]. *)
Record io_ok (s : state) : Prop := {
  io_host : host_ok s;
  io_bs : 512 ≤ block_size s ≤ 4096;
  io_cache : Z.of_nat (length (cache s)) = block_size s
}.

Lemma io_ok_same s s' : same_core s s' → io_ok s → io_ok s'.
Proof. intros [] []. split; unfold host_ok in *; congruence. Qed.

Lemma same_core_pos s p io' : (io s = [] → io' = []) → same_core s (set_fpos p (set_io io' s)).
Proof. intros. by split. Qed.

Lemma same_core_cs s c : same_core s (set_cache_state c s).
Proof. by split. Qed.
Lemma same_core_cb s c : same_core s (set_cached_block c s).
Proof. by split. Qed.

#[local] Hint Resolve same_core_pos same_core_cs same_core_cb u64_range : core.

(** The array of bytes the program sees: the file with a dirty block laid over it. *)
Definition view (s : state) : list byte :=
  match cache_state s with
  | CACHE_CLEAN => device s
  | CACHE_DIRTY => splice (Z.to_nat (cached_block s * block_size s)) (cache s) (device s)
  end.

Definition in_range (s : state) (block : Z) : Prop :=
  0 ≤ block ∧ (block + 1) * block_size s ≤ Z.of_nat (length (device s)).

(** The cache is coherent with the file, or marked empty as [uninstall] does. *)
Record wf (s : state) : Prop := {
  wf_io : io_ok s;
  wf_dev : Z.of_nat (length (device s)) ≤ OFF_MAX;
  wf_block :
    (cached_block s = UINT64_MAX ∧ cache_state s = CACHE_CLEAN) ∨
    (in_range s (cached_block s) ∧
     (cache_state s = CACHE_CLEAN →
      cache s = slice (Z.to_nat (cached_block s * block_size s))
                  (Z.to_nat (block_size s)) (device s)))
}.

Lemma device_flush_cache_run s :
  io_ok s →
  ∃ b s', device_flush_cache s = Some (b, s') ∧ same_core s s' ∧
    cache s' = cache s ∧ cached_block s' = cached_block s ∧
    (io s = [] → wf s → b = true ∧ wf s' ∧ device s' = view s ∧ cache_state s' = CACHE_CLEAN).
Proof.
  intros Hok. unfold device_flush_cache. run. case_bool_decide as Hcs.
  { eexists _, _. split; [done|]. split_and!; [done..|]. intros _ Hwf.
    split_and!; [done..| |done]. unfold view. by rewrite Hcs. }
  destruct (set_pos_run (u64 (cached_block s * block_size s)) s) as (b & p & io' & -> & Hpos);
    [apply Hok|auto|].
  destruct b; cbn [negb].
  2: { eexists _, _. split; [done|]. split_and!; [apply same_core_pos; intros Hs; apply (Hpos Hs)|done..|].
       intros Hs [_ Hd [[_ Hcl]|[[Hb0 Hb] _]]]; [congruence|]. destruct (Hpos Hs) as (_ & Hb1 & _).
       exfalso. assert (false = true); [|done]. apply Hb1.
       pose proof (io_bs s Hok). rewrite u64_small; [|unfold is_u64]; unfold OFF_MAX in *; nia. }
  set (s1 := set_fpos p (set_io io' s)).
  assert (same_core s s1) as Hsc1 by (apply same_core_pos; intros Hs; apply (Hpos Hs)).
  pose proof (io_bs s Hok). pose proof (io_cache s Hok) as Hcl.
  destruct (fwrite_cache_run (block_size s) s1) as (b & s2 & -> & Hsc & Hc & Hst & Hcb & Hrel);
    [lia|done|].
  destruct b; cbn [negb].
  2: { eexists _, _. split; [done|]. split_and!; [by etrans|done..|].
       intros Hs _. destruct (Hpos Hs) as (-> & _). by destruct (Hrel eq_refl). }
  eexists _, _. split; [done|]. split_and!; [etrans; [done|etrans; [done|auto]]|done..|].
  intros Hs [_ Hd [[_ ?]|[[Hb0 Hb] _]]]; [congruence|].
  destruct (Hpos Hs) as (-> & _ & Hp). specialize (Hp eq_refl).
  rewrite u64_small in Hp by (unfold is_u64, OFF_MAX in *; nia).
  destruct (Hrel eq_refl) as [_ Hdev]. simpl in Hdev.
  rewrite pwrite_in in Hdev by (subst p; nia).
  assert (device s2 = view s) as Hv.
  { rewrite Hdev. unfold view. destruct (cache_state s); [done|by subst p]. }
  split_and!; [done| |done..].
  assert (length (device s2) = length (device s)) as Hlen.
  { rewrite Hdev. apply length_splice. subst p. nia. }
  split; simpl.
  - eapply io_ok_same; [|exact Hok]. etrans; [exact Hsc1|]. etrans; [exact Hsc|]. auto.
  - by rewrite Hlen.
  - right. unfold in_range. simpl. rewrite (sc_bs _ _ Hsc), Hcb, Hlen. simpl. split; [done|]. intros _.
    rewrite Hc, Hdev. simpl. subst p. rewrite <- Hcl, Nat2Z.id.
    symmetry. apply slice_splice_same. nia.
Qed.

Lemma length_view s : wf s → length (view s) = length (device s).
Proof.
  intros [Hok Hd Hb]. unfold view. destruct (cache_state s) eqn:E; [done|].
  destruct Hb as [[_ ?]|[[Hb0 Hb] _]]; [done|]. pose proof (io_bs s Hok).
  pose proof (io_cache s Hok). apply length_splice. nia.
Qed.

(** Steps that touch neither the cache nor the file. *)
Record same_disk (s s' : state) : Prop := {
  sd_bs : block_size s' = block_size s;
  sd_long : long_size s' = long_size s;
  sd_device : device s' = device s;
  sd_cache : cache s' = cache s;
  sd_cs : cache_state s' = cache_state s;
  sd_cb : cached_block s' = cached_block s
}.

#[global] Instance same_disk_preorder : PreOrder same_disk.
Proof. split; [by split|]. intros s1 s2 s3 [] []. split; congruence. Qed.

Lemma same_disk_wf s s' : same_disk s s' → wf s → wf s'.
Proof.
  intros [Hbs Hl Hd Hc Hcs Hcb] [[Hh Hb Hcl] Hdev Hblk]. split; [split|..].
  - unfold host_ok in *. congruence.
  - congruence.
  - congruence.
  - congruence.
  - unfold in_range in *. rewrite Hbs, Hd, Hc, Hcs, Hcb. done.
Qed.

Lemma same_disk_view s s' : same_disk s s' → view s' = view s.
Proof. unfold view. by intros [-> _ -> -> -> ->]. Qed.

Lemma same_disk_io_ok s s' : same_disk s s' → io_ok s → io_ok s'.
Proof. intros [] []. split; unfold host_ok in *; congruence. Qed.

(** A clean cache filled with [block]. *)
Lemma wf_fill s' block :
  io_ok s' → in_range s' block → Z.of_nat (length (device s')) ≤ OFF_MAX →
  cache s' = slice (Z.to_nat (block * block_size s')) (Z.to_nat (block_size s')) (device s') →
  cached_block s' = block → wf s'.
Proof. intros. subst. split; [done..|]. by right. Qed.

Lemma device_cache_block_run block s :
  io_ok s → 0 ≤ block → block * block_size s < 2 ^ 64 →
  ∃ b s', device_cache_block block s = Some (b, s') ∧ same_core s s' ∧
    (b = true → cached_block s' = block) ∧
    (io s = [] → wf s →
       (device s' = device s ∨ device s' = view s) ∧ (b = true ↔ in_range s block) ∧
       (b = true → wf s' ∧ view s' = view s)).
Proof.
  intros Hok Hb0 Hb64. pose proof (io_bs s Hok) as Hbs. unfold device_cache_block. run.
  destruct (Z.eqb_spec (cached_block s) block) as [Heq|Hne].
  { eexists _, _. split; [done|]. split_and!; [done..|]. intros _ Hwf. split_and!; [by left| |done].
    split; [|done]. intros _. destruct (wf_block s Hwf) as [[Hm _]|[? _]]; [|by subst].
    unfold UINT64_MAX in *. nia. }
  assert (∃ b s1, (if bool_decide (cache_state s = CACHE_DIRTY) then device_flush_cache else ret true) s
            = Some (b, s1) ∧ same_core s s1 ∧
            (io s = [] → wf s → b = true ∧ wf s1 ∧ device s1 = view s ∧ cache_state s1 = CACHE_CLEAN))
    as (b1 & s1 & Hrun1 & Hsc1 & Hrel1).
  { case_bool_decide as Hd.
    - destruct (device_flush_cache_run s Hok) as (b1 & s1 & ? & ? & _ & _ & ?). eauto 10.
    - eexists _, _. split; [done|]. split; [done|]. intros _ Hwf. unfold view.
      destruct (cache_state s); [done|congruence]. }
  unfold ret in Hrun1. rewrite Hrun1. destruct b1; cbn [negb].
  2: { eexists _, _. split; [done|]. split_and!; [done..|]. intros Hs Hwf.
       by destruct (Hrel1 Hs Hwf). }
  assert (io_ok s1) as Hok1 by (by eapply io_ok_same). rewrite (sc_bs _ _ Hsc1).
  destruct (set_pos_run (u64 (block * block_size s)) s1) as (b2 & p & io2 & -> & Hpos);
    [apply Hok1|auto|].
  rewrite u64_small in Hpos by (unfold is_u64; nia).
  set (s2 := set_fpos p (set_io io2 s1)) in *.
  assert (same_core s s2) as Hsc2.
  { etrans; [done|]. apply same_core_pos. intros Hs; apply (Hpos Hs). }
  destruct b2; cbn [negb].
  2: { eexists _, _. split; [done|]. split_and!; [done..|]. intros Hs Hwf.
       destruct (Hrel1 Hs Hwf) as (_ & Hwf1 & Hd1 & _). destruct (Hpos (sc_io _ _ Hsc1 Hs)) as (_ & Hp & _).
       split_and!; [by right| |done]. split; [done|]. intros [_ Hr]. pose proof (wf_dev s Hwf).
       apply Hp. unfold OFF_MAX in *. lia. }
  assert (io_ok s2) as Hok2 by (by eapply io_ok_same). 
  destruct (fread_cache_run (block_size s) s2) as (b3 & s3 & -> & Hsc3 & Hd3 & Hcs3 & Hcb3 & Hrel3);
    [lia|rewrite <- (sc_bs _ _ Hsc2); apply Hok2|].
  assert (same_core s s3) as Hsc3' by (by etrans).
  assert (io s = [] → wf s → device s3 = view s ∧ (b3 = true ↔ in_range s block) ∧
    (b3 = true → cache s3 = slice (Z.to_nat (block * block_size s)) (Z.to_nat (block_size s)) (device s3))
    ∧ cache_state s3 = CACHE_CLEAN) as Hfin.
  { intros Hs Hwf. destruct (Hrel1 Hs Hwf) as (_ & Hwf1 & Hd1 & Hc1).
    destruct (Hpos (sc_io _ _ Hsc1 Hs)) as (-> & _ & Hp). specialize (Hp eq_refl).
    destruct (Hrel3 eq_refl) as [Hb3 Hc3]; [subst s2; simpl; lia|]. subst s2. simpl in *.
    subst p. rewrite Hd3, Hd1, Hcs3, Hc1 in *.
    split_and!; [done| |done|done]. rewrite Hb3. unfold in_range. rewrite (length_view s Hwf). nia. }
  destruct b3; cbn [negb].
  2: { eexists _, _. split; [done|]. split_and!; [done..|]. intros Hs Hwf.
       destruct (Hfin Hs Hwf) as (? & ? & _). split_and!; [by right|done..]. }
  eexists _, _. split; [done|]. split_and!; [etrans; [done|auto]|done|]. intros Hs Hwf.
  destruct (Hfin Hs Hwf) as (Hv & Hb & Hc & Hst). split_and!; [by right|done|]. intros _.
  specialize (Hc eq_refl). split.
  - apply (wf_fill _ block); simpl; [by eapply io_ok_same; [|exact Hok]; etrans; [exact Hsc3'|auto]| | | |done].
    + unfold in_range. simpl. rewrite Hv, (length_view s Hwf), (sc_bs _ _ Hsc3'). by apply Hb.
    + rewrite Hv, (length_view s Hwf). apply Hwf.
    + by rewrite (sc_bs _ _ Hsc3').
  - unfold view at 1. simpl. by rewrite Hst.
Qed.

(** ** Ranges of whole blocks *)

(** The device holds every block that [n] bytes from [a] touch. *)
Definition covered (s : state) (a n : Z) : Prop :=
  n ≤ 0 ∨ (0 ≤ a ∧ in_range s ((a + n - 1) / block_size s)).

Lemma in_range_mono s b b' : 0 < block_size s → in_range s b → 0 ≤ b' ≤ b → in_range s b'.
Proof. unfold in_range. nia. Qed.

Lemma covered_ext s s' a n :
  block_size s' = block_size s → length (device s') = length (device s) →
  covered s' a n ↔ covered s a n.
Proof. unfold covered, in_range. by intros -> ->. Qed.

Lemma covered_bound s a n :
  0 < block_size s → covered s a n → n ≤ 0 ∨ a + n ≤ Z.of_nat (length (device s)).
Proof.
  unfold covered, in_range. intros Hbs [?|(? & ? & ?)]; [by left|right].
  pose proof (div_facts (a + n - 1) (block_size s) Hbs). lia.
Qed.

Lemma chunk_bounds bs loc count progress :
  0 < bs → progress < count → 
  let off := u64 (loc + progress) mod bs in
  let c := chunk_at bs loc count progress in
  0 ≤ off < bs ∧ 1 ≤ c ≤ count - progress ∧ off + c ≤ bs ∧ (c = count - progress ∨ off + c = bs).
Proof.
  intros Hbs Hp off c. assert (0 ≤ off < bs) by (by apply Z.mod_pos_bound).
  subst c. unfold chunk_at. fold off. destruct (Z.ltb_spec (bs - off) (count - progress)); lia.
Qed.

(** One round of the read or write loop splits the range at a block boundary. *)
Lemma covered_step s a n c :
  0 < block_size s → 0 ≤ a → 1 ≤ c ≤ n →
  a mod block_size s + c ≤ block_size s →
  covered s a n ↔ in_range s (a / block_size s) ∧ covered s (a + c) (n - c).
Proof.
  intros Hbs Ha Hc Hoff. set (bs := block_size s) in *.
  destruct (div_facts a bs Hbs) as (Hdiv & Hm & Hq). specialize (Hq Ha).
  assert ((a + c - 1) / bs = a / bs) as Hlast.
  { symmetry. apply (Z.div_unique_pos _ _ _ (a mod bs + c - 1)); lia. }
  assert (a / bs ≤ (a + n - 1) / bs) as Hmono by (apply Z.div_le_mono; lia).
  unfold covered. fold bs. replace (a + c + (n - c) - 1) with (a + n - 1) by lia. split.
  - intros [?|[_ Hr]]; [lia|]. split; [by eapply in_range_mono; [|exact Hr|]|].
    right. split; [lia|done].
  - intros [Hr [?|[_ Hr']]]; right; (split; [done|]); [|done].
    replace (a + n - 1) with (a + c - 1) by lia. by rewrite Hlast.
Qed.

Lemma cache_is_view s :
  wf s → in_range s (cached_block s) →
  slice (Z.to_nat (cached_block s * block_size s)) (Z.to_nat (block_size s)) (view s) = cache s.
Proof.
  intros [Hok Hd Hb] [Hr0 Hr]. pose proof (io_bs s Hok). pose proof (io_cache s Hok) as Hl.
  unfold view. destruct (cache_state s) eqn:E.
  - destruct Hb as [[Hm _]|[_ Hb]]; [unfold UINT64_MAX, OFF_MAX in *; nia|].
    symmetry. by apply Hb.
  - rewrite <- Hl, Nat2Z.id. apply slice_splice_same. nia.
Qed.

Lemma view_chunk s a c :
  wf s → in_range s (cached_block s) → cached_block s = a / block_size s → 0 ≤ a → 0 ≤ c →
  a mod block_size s + c ≤ block_size s →
  slice (Z.to_nat (a mod block_size s)) (Z.to_nat c) (cache s) = slice (Z.to_nat a) (Z.to_nat c) (view s).
Proof.
  intros Hwf Hr Hcb Ha Hc Hoff. pose proof (io_bs s (wf_io s Hwf)).
  pose proof (div_facts a (block_size s) ltac:(lia)).
  rewrite <- (cache_is_view s Hwf Hr), slice_slice by lia. f_equal.
  rewrite Hcb. nia.
Qed.

(** ** Reads *)

Lemma device_read_loop_run fuel loc count progress buffer s :
  io_ok s → 0 ≤ progress → (Z.to_nat (count - progress) ≤ fuel)%nat →
  ∃ r s', device_read_loop fuel loc count progress buffer s = Some (r, s') ∧ same_core s s' ∧
    (∀ d, r = Some d → length d = length buffer + Z.to_nat (count - progress))%nat ∧
    (io s = [] → wf s → is_u64 (loc + progress) →
       (device s' = device s ∨ device s' = view s) ∧
       (is_Some r ↔ covered s (loc + progress) (count - progress)) ∧
       (∀ d, r = Some d → wf s' ∧ view s' = view s ∧
          d = buffer ++ slice (Z.to_nat (loc + progress)) (Z.to_nat (count - progress)) (view s))).
Proof.
  revert progress buffer s. induction fuel as [|fuel IH]; intros progress buffer s Hok Hp Hf.
  - cbn [device_read_loop]. destruct (Z.ltb_spec progress count); [lia|].
    eexists _, _. split; [done|]. split; [done|]. split; [intros d [= <-]; lia|].
    intros _ Hwf _. split_and!; [by left| |].
    + split; [intros _; left; lia|eauto].
    + intros d [= <-]. replace (Z.to_nat (count - progress)) with 0%nat by lia.
      by rewrite slice_0, app_nil_r.
  - cbn [device_read_loop]. destruct (Z.ltb_spec progress count) as [Hlt|Hge].
    2: { eexists _, _. split; [done|]. split; [done|]. split; [intros d [= <-]; lia|].
         intros _ Hwf _. split_and!; [by left| |].
         + split; [intros _; left; lia|eauto].
         + intros d [= <-]. replace (Z.to_nat (count - progress)) with 0%nat by lia.
           by rewrite slice_0, app_nil_r. }
    pose proof (io_bs s Hok) as Hbs. run.
    destruct (Z.eqb_spec (block_size s) 0); [lia|]. cbv zeta.
    set (a := u64 (loc + progress)). assert (is_u64 a) as Ha by apply u64_range. unfold is_u64 in Ha.
    destruct (div_facts a (block_size s) ltac:(lia)) as (Hdiv & Hmod & Hq).
    destruct (chunk_bounds (block_size s) loc count progress) as (Ho & Hc & Hoc & Hend);
      [lia|done|]. fold a in Ho, Hoc, Hend.
    destruct (device_cache_block_run (a / block_size s) s) as (b & s1 & -> & Hsc1 & Hcb & Hrel);
      [done|lia|lia|].
    destruct b; cbn [negb].
    2: { eexists _, _. split; [done|]. split; [done|]. split; [done|]. intros Hs Hwf Hu.
         destruct (Hrel Hs Hwf) as (Hd & Hb & _). split_and!; [done| |done].
         split; [intros [? ?]; done|]. intros Hcov. exfalso.
         assert (a = loc + progress) as Heq by (by apply u64_small). rewrite <- Heq in Hcov.
         apply (covered_step s a (count - progress) (chunk_at (block_size s) loc count progress)) in Hcov;
           [|lia..]. destruct Hcov as [Hcov _]. by apply Hb in Hcov. }
    specialize (Hcb eq_refl). assert (io_ok s1) as Hok1 by (by eapply io_ok_same).
    rewrite (io_cache _ Hok1), (sc_bs _ _ Hsc1).
    destruct (Z.ltb_spec (block_size s) (a mod block_size s + chunk_at (block_size s) loc count progress)); [lia|].
    set (c := chunk_at (block_size s) loc count progress) in *.
    edestruct (IH (progress + c)) as (r & s2 & Hr & Hsc2 & Hdl2 & Hrel2); [exact Hok1|lia|lia|].
    rewrite Hr. eexists _, _. split; [done|]. split; [by etrans|]. split.
    { intros d Hd. rewrite (Hdl2 d Hd), length_app, length_slice; [lia|].
      pose proof (io_cache _ Hok1). pose proof (sc_bs _ _ Hsc1). lia. }
    intros Hs Hwf Hu.
    destruct (Hrel Hs Hwf) as (Hd & Hb & Hview). destruct (Hview eq_refl) as [Hwf1 Hv1].
    assert (a = loc + progress) as Heq by (by apply u64_small). rewrite <- Heq.
    assert (in_range s (a / block_size s)) as Hin by (by apply Hb).
    assert (length (device s1) = length (device s)) as Hlen.
    { rewrite <- (length_view s1), Hv1, length_view by done. done. }
    assert (in_range s1 (cached_block s1)) as Hin1.
    { unfold in_range in *. by rewrite Hcb, Hlen, (sc_bs _ _ Hsc1). }
    assert (a + c ≤ OFF_MAX) as Hac.
    { pose proof (wf_dev s Hwf). destruct Hin. nia. }
    replace (loc + (progress + c)) with (a + c) in Hrel2 by lia.
    replace (count - (progress + c)) with (count - progress - c) in Hrel2 by lia.
    destruct (Hrel2 (sc_io _ _ Hsc1 Hs) Hwf1) as (Hd2 & Hcov2 & Hres2);
      [unfold is_u64, OFF_MAX in *; lia|].
    split_and!.
    + rewrite Hv1 in Hd2. destruct Hd2 as [-> | ->]; [done|by right].
    + rewrite Hcov2, (covered_step s a _ c) by lia.
      rewrite (covered_ext s s1) by (done || apply Hsc1). tauto.
    + intros d Hd'. destruct (Hres2 d Hd') as (? & -> & ->). split_and!; [done..|].
      rewrite <- app_assoc. f_equal. rewrite Hv1.
      replace (Z.to_nat (count - progress)) with (Z.to_nat c + Z.to_nat (count - progress - c))%nat by lia.
      rewrite slice_app_split. f_equal; [|f_equal; lia].
      rewrite <- Hv1, <- (sc_bs _ _ Hsc1) at 1.
      apply view_chunk; rewrite ?(sc_bs _ _ Hsc1); try done; lia.
Qed.

Lemma device_read_run loc count s :
  io_ok s →
  ∃ r s', _device_read loc count s = Some (r, s') ∧ same_core s s' ∧
    (∀ d, r = Some d → length d = Z.to_nat count) ∧
    (io s = [] → wf s → is_u64 loc →
       (device s' = device s ∨ device s' = view s) ∧
       (is_Some r ↔ covered s loc count) ∧
       (∀ d, r = Some d → wf s' ∧ view s' = view s ∧
          d = slice (Z.to_nat loc) (Z.to_nat count) (view s))).
Proof.
  intros Hok. destruct (device_read_loop_run (Z.to_nat count) loc count 0 [] s) as (r & s' & H);
    [done|lia|lia|]. rewrite Z.add_0_r, Z.sub_0_r in H. eauto.
Qed.

(** ** Writes *)

(** The state after a [memcpy] into the cached block. *)
Definition dirty_with (off : Z) (d : list byte) (s : state) : state :=
  set_cache_state CACHE_DIRTY (set_cache (splice (Z.to_nat off) d (cache s)) s).

Lemma dirty_with_spec off d s :
  wf s → in_range s (cached_block s) → 0 ≤ off → off + Z.of_nat (length d) ≤ block_size s →
  wf (dirty_with off d s) ∧ same_core s (dirty_with off d s) ∧
  device (dirty_with off d s) = device s ∧
  view (dirty_with off d s) =
    splice (Z.to_nat (cached_block s * block_size s + off)) d (view s).
Proof.
  intros Hwf Hr Ho Hd. pose proof (io_bs _ (wf_io _ Hwf)) as Hbs.
  pose proof (io_cache _ (wf_io _ Hwf)) as Hcl.
  assert (length (splice (Z.to_nat off) d (cache s)) = length (cache s)) as Hl
    by (apply length_splice; lia).
  assert (same_core s (dirty_with off d s)) as Hsc by (by split).
  destruct Hr as [Hr0 Hr]. split_and!; [|done|done|].
  - split; simpl; [by eapply io_ok_same; [|apply Hwf]|apply Hwf|].
    right. by split.
  - pose proof (cache_is_view s Hwf (conj Hr0 Hr)) as Hcv.
    pose proof (length_view s Hwf) as Hlv.
    assert (∀ x, length x = length (cache s) →
      splice (Z.to_nat (cached_block s * block_size s)) x (device s) =
      splice (Z.to_nat (cached_block s * block_size s)) x (view s)) as Hbase.
    { intros x Hx. unfold view. destruct (cache_state s); [done|].
      rewrite splice_splice_same; [done|lia|nia]. }
    unfold view at 1. cbn [dirty_with set_cache_state set_cache cache_state cached_block block_size cache device].
    rewrite Hbase by done. rewrite <- Hcv, splice_block by lia. f_equal. lia.
Qed.

Lemma device_write_loop_run fuel buffer loc count progress s :
  io_ok s → 0 ≤ progress → (Z.to_nat (count - progress) ≤ fuel)%nat →
  count ≤ Z.of_nat (length buffer) →
  ∃ b s', device_write_loop fuel buffer loc count progress s = Some (b, s') ∧ same_core s s' ∧
    (io s = [] → wf s → is_u64 (loc + progress) →
       (b = true ↔ covered s (loc + progress) (count - progress)) ∧
       (b = true → wf s' ∧
          view s' = splice (Z.to_nat (loc + progress))
                      (slice (Z.to_nat progress) (Z.to_nat (count - progress)) buffer) (view s)) ∧
       length (device s') = length (device s) ∧
       (∀ p : nat, ¬ (loc + progress ≤ Z.of_nat p < loc + count) →
          device s' !! p = device s !! p ∨ device s' !! p = view s !! p)).
Proof.
  revert progress s. induction fuel as [|fuel IH]; intros progress s Hok Hp Hf Hbuf;
    cbn [device_write_loop]; destruct (Z.ltb_spec progress count) as [Hlt|Hge]; try lia.
  1,3: eexists _, _; split; [done|]; split; [done|]; intros _ Hwf _;
    replace (Z.to_nat (count - progress)) with 0%nat by lia;
    rewrite slice_0, splice_nil; split_and!; [split; [left; lia|done]|done|done|by left].
  pose proof (io_bs s Hok) as Hbs. run.
  destruct (Z.eqb_spec (block_size s) 0); [lia|]. cbv zeta.
  set (a := u64 (loc + progress)). assert (is_u64 a) as Ha by apply u64_range. unfold is_u64 in Ha.
  destruct (div_facts a (block_size s) ltac:(lia)) as (Hdiv & Hmod & Hq).
  destruct (chunk_bounds (block_size s) loc count progress) as (Ho & Hc & Hoc & Hend);
    [lia|done|]. fold a in Ho, Hoc, Hend.
  set (c := chunk_at (block_size s) loc count progress) in *.
  destruct (device_cache_block_run (a / block_size s) s) as (b & s1 & -> & Hsc1 & Hcb & Hrel);
    [done|lia|lia|].
  destruct b; cbn [negb].
  2: { eexists _, _. split; [done|]. split; [done|]. intros Hs Hwf Hu.
       destruct (Hrel Hs Hwf) as (Hd & Hb & _). split_and!; [|done|..].
       - split; [done|]. intros Hcov. 
         assert (a = loc + progress) as Heq by (by apply u64_small). rewrite <- Heq in Hcov.
         apply (covered_step s a (count - progress) c) in Hcov as [Hcov _]; [|lia..].
         by apply Hb in Hcov.
       - destruct Hd as [-> | ->]; [done|by apply length_view].
       - intros p _. destruct Hd as [-> | ->]; auto. }
  specialize (Hcb eq_refl). assert (io_ok s1) as Hok1 by (by eapply io_ok_same).
  rewrite (io_cache _ Hok1), (sc_bs _ _ Hsc1).
  destruct (Z.ltb_spec (block_size s) (a mod block_size s + c)); [lia|].
  destruct (Z.ltb_spec (Z.of_nat (length buffer)) (progress + c)); [lia|]. cbn [orb].
  set (d := slice (Z.to_nat progress) (Z.to_nat c) buffer).
  assert (length d = Z.to_nat c) as Hdl by (apply length_slice; lia).
  change (set_cache_state CACHE_DIRTY _) with (dirty_with (a mod block_size s) d s1).
  assert (same_core s1 (dirty_with (a mod block_size s) d s1)) as Hsc2.
  { split; try done. simpl. apply length_splice. pose proof (io_cache _ Hok1).
    pose proof (sc_bs _ _ Hsc1). lia. }
  edestruct (IH (progress + c) (dirty_with (a mod block_size s) d s1)) as (r & s3 & Hr & Hsc3 & Hrel3);
    [by eapply io_ok_same|lia|lia|done|].
  rewrite Hr. eexists _, _. split; [done|]. split; [etrans; [done|by etrans]|]. intros Hs Hwf Hu.
  destruct (Hrel Hs Hwf) as (Hd & Hb & Hview). destruct (Hview eq_refl) as [Hwf1 Hv1].
  assert (a = loc + progress) as Heq by (by apply u64_small). rewrite <- Heq.
  assert (in_range s (a / block_size s)) as Hin by (by apply Hb).
  assert (length (device s1) = length (device s)) as Hlen.
  { rewrite <- (length_view s1), Hv1, length_view by done. done. }
  assert (in_range s1 (cached_block s1)) as Hin1.
  { unfold in_range in *. by rewrite Hcb, Hlen, (sc_bs _ _ Hsc1). }
  assert (a + c ≤ Z.of_nat (length (device s))) as Hac by (destruct Hin; nia).
  pose proof (wf_dev s Hwf) as Hdev. pose proof (sc_bs _ _ Hsc1) as Hbs1.
  destruct (dirty_with_spec (a mod block_size s) d s1) as (Hwf2 & _ & Hd2 & Hv2);
    [done|done|lia|lia|].
  rewrite Hcb, Hbs1, Hv1 in Hv2. replace (a / block_size s * block_size s + a mod block_size s) with a in Hv2 by lia.
  replace (loc + (progress + c)) with (a + c) in Hrel3 by lia.
  replace (count - (progress + c)) with (count - progress - c) in Hrel3 by lia.
  destruct (Hrel3 (sc_io _ _ Hsc1 Hs) Hwf2) as (Hcov3 & Hres3 & Hlen3 & Hmix3);
    [unfold is_u64, OFF_MAX in *; lia|].
  rewrite Hd2 in Hlen3, Hmix3. rewrite Hv2 in Hres3, Hmix3.
  pose proof (length_view s Hwf) as Hlv.
  split_and!.
  - rewrite Hcov3, (covered_step s a _ c) by lia.
    rewrite (covered_ext s) by (simpl; congruence). tauto.
  - intros Ht. destruct (Hres3 Ht) as [Hwf3 ->]. split; [done|].
    replace (Z.to_nat (count - progress)) with (Z.to_nat c + Z.to_nat (count - progress - c))%nat by lia.
    rewrite slice_app_split, <- splice_app; fold d.
    + rewrite Hdl. f_equal; [lia|]. f_equal. lia.
    + rewrite Hdl. apply Hcov3 in Ht.
      apply covered_bound in Ht as [Hn|Hn]; [| |simpl; lia].
      * replace (Z.to_nat (count - progress - c)) with 0%nat by lia. rewrite slice_0. simpl. lia.
      * simpl in Hn. unfold slice. len.
  - congruence.
  - intros p Hp'. destruct (Hmix3 p) as [-> | ->]; [lia|destruct Hd as [-> | ->]; auto|].
    right. apply lookup_splice_out; lia.
Qed.

End LimineCache.
