(* ===== verification/LimineUndo.v ===== *)
(** * limine.c: the undo log of device writes

    Every [_device_write] outside [uninstall] saves the bytes it replaces. This
    file shows, for any I/O schedule, that the log and the heap stay consistent,
    and, on a reliable device, that the log always suffices to put the original
    bytes back: [restores] and [agree_off] below are kept by every read, write
    and failure, and [uninstall] then restores the device exactly. *)

From S2P Require Import Prelude LimineState LimineDevice LimineCache.

Module LimineUndo.
Export LimineCache.

(** The entries in use. *)
Definition log (s : state) : list uninstall_data :=
  take (Z.to_nat (uninstall_data_i s)) (uninstall_data_arr s).

(** ** Heap and log consistency *)

Record heap_ok (s : state) : Prop := {
  ho_arr : length (uninstall_data_arr s) = 256%nat;
  ho_i : 0 ≤ uninstall_data_i s ≤ 256;
  ho_live : ∀ e, e ∈ log s → ud_data e ≠ 0%nat ∧ ud_data e ∈ live s;
  ho_nodup : NoDup (ud_data <$> log s);
  ho_fresh : ∀ p, p ∈ live s → (p ≤ next_ptr s)%nat;
  ho_bytes : ∀ e, e ∈ log s → ud_count e ≤ Z.of_nat (length (ud_bytes e));
  ho_lba : empty_lba s ≠ 0%nat →
           empty_lba s ∈ live s ∧ empty_lba s ∉ (ud_data <$> log s)
}.

Lemma length_log s : heap_ok s → Z.of_nat (length (log s)) = uninstall_data_i s.
Proof. intros [H1 H2 _ _ _ _ _]. unfold log. rewrite length_take. lia. Qed.

(** The log and heap fields, for steps that leave them alone. *)
Record same_log (s s' : state) : Prop := {
  sl_arr : uninstall_data_arr s' = uninstall_data_arr s;
  sl_i : uninstall_data_i s' = uninstall_data_i s;
  sl_live : live s' = live s;
  sl_next : next_ptr s' = next_ptr s;
  sl_lba : empty_lba s' = empty_lba s
}.

Lemma same_log_ok s s' : same_log s s' → heap_ok s → heap_ok s'.
Proof.
  intros [Ha Hi Hl Hn He] [? ? ? ? ? ? ?].
  split; unfold log in *; rewrite ?Ha, ?Hi, ?Hl, ?Hn, ?He; done.
Qed.

Lemma same_core_log s s' : same_core s s' → same_log s s'.
Proof. by intros []. Qed.

Lemma log_same s s' : same_log s s' → log s' = log s.
Proof. intros [Ha Hi _ _ _]. unfold log. by rewrite Ha, Hi. Qed.

(** The part of the state that is fixed once the device is open. *)
Record same_conf (s s' : state) : Prop := {
  cf_bs : block_size s' = block_size s;
  cf_un : uninstalling s' = uninstalling s;
  cf_lba : empty_lba s' = empty_lba s;
  cf_udfile : udfile s' = udfile s;
  cf_long : long_size s' = long_size s;
  cf_be : bigendian s' = bigendian s;
  cf_io : io s = [] → io s' = []
}.

#[global] Instance same_conf_preorder : PreOrder same_conf.
Proof. split; [by split|]. intros s1 s2 s3 [] []. split; try congruence. auto. Qed.

Lemma same_core_conf s s' : same_core s s' → same_conf s s'.
Proof. by intros []. Qed.

Lemma malloc_run s :
  ∃ p s', malloc s = Some (p, s') ∧ same_disk s s' ∧ same_conf s s' ∧
    uninstall_data_arr s' = uninstall_data_arr s ∧ uninstall_data_i s' = uninstall_data_i s ∧
    (io s = [] → p ≠ 0%nat) ∧
    ((p = 0%nat ∧ live s' = live s ∧ next_ptr s' = next_ptr s) ∨
     (p = S (next_ptr s) ∧ live s' = {[ p ]} ∪ live s ∧ next_ptr s' = p)).
Proof.
  unfold malloc. destruct (next_io_run s) as (o & io' & Hr & Hio).
  rewrite (bind_run _ _ _ _ _ Hr). destruct (oc_ok o) eqn:E; run; eexists _, _; (split; [done|]).
  - split_and!; try done; [split; try done; simpl; intros Hs; apply (Hio Hs)|].
    right. done.
  - split_and!; try done; [split; try done; simpl; intros Hs; apply (Hio Hs)| |by left].
    intros Hs. destruct (Hio Hs) as [-> _]. done.
Qed.

Lemma free_run p s :
  p ∈ live s → p ≠ 0%nat → free p s = Some ((), set_live (live s ∖ {[ p ]}) s).
Proof.
  intros Hp Hnz. unfold free. rewrite bool_decide_false by done. run.
  by rewrite bool_decide_true.
Qed.

Lemma store_ud_run i e s :
  0 ≤ i < Z.of_nat (length (uninstall_data_arr s)) →
  store_ud i e s = Some ((), set_uninstall_data_arr (<[Z.to_nat i := e]> (uninstall_data_arr s)) s).
Proof. intros. unfold store_ud. run. by rewrite bool_decide_true. Qed.

Lemma load_ud_run i e s :
  0 ≤ i → uninstall_data_arr s !! Z.to_nat i = Some e → load_ud i s = Some (e, s).
Proof.
  intros Hi He. unfold load_ud. run. destruct (Z.leb_spec 0 i); [|lia]. by rewrite He.
Qed.

Lemma heap_ok_store s e :
  heap_ok s →
  let s' := set_uninstall_data_arr (<[Z.to_nat (uninstall_data_i s) := e]> (uninstall_data_arr s)) s in
  heap_ok s' ∧ log s' = log s.
Proof.
  intros Hh s'.
  assert (log s' = log s) as Hl by (unfold log, s'; simpl; by rewrite take_insert_ge by lia).
  split; [|done]. destruct Hh. split; try rewrite Hl; simpl; try done. by rewrite length_insert.
Qed.

(** A heap change that keeps every pointer of the log. *)
Lemma heap_ok_live s s' :
  heap_ok s → uninstall_data_arr s' = uninstall_data_arr s →
  uninstall_data_i s' = uninstall_data_i s → empty_lba s' = empty_lba s →
  (∀ p, p ∈ live s → p ∈ (ud_data <$> log s) ∨ p = empty_lba s → p ∈ live s') →
  (∀ p, p ∈ live s' → (p ≤ next_ptr s')%nat) → heap_ok s'.
Proof.
  intros [] Ha Hi He Hl Hf. assert (log s' = log s) as Hlog by (unfold log; by rewrite Ha, Hi).
  split; rewrite ?Hlog, ?Ha, ?Hi, ?He; try done.
  - intros e Hin. destruct (ho_live0 e Hin). split; [done|]. apply Hl; [done|left].
    by apply list_elem_of_fmap_2.
  - intros Hz. destruct (ho_lba0 Hz). eauto.
Qed.

(** Freeing a block that belongs neither to the log nor to [empty_lba]. *)
Lemma heap_ok_free s p :
  heap_ok s → (p ∉ ud_data <$> log s) → p ≠ empty_lba s →
  heap_ok (set_live (live s ∖ {[ p ]}) s).
Proof.
  intros Hh Hp He. eapply heap_ok_live; [exact Hh|done|done|done|..]; simpl.
  - intros q Hq Hor. apply elem_of_difference. split; [done|]. apply not_elem_of_singleton.
    intros ->. by destruct Hor.
  - intros q [Hq _]%elem_of_difference. by apply (ho_fresh _ Hh).
Qed.

(** A fresh block belongs neither to the log, of any length [k], nor to [empty_lba]. *)
Lemma malloc_fresh k s :
  heap_ok (set_uninstall_data_i k s) →
  ∃ p s', malloc s = Some (p, s') ∧ same_disk s s' ∧ same_conf s s' ∧
    uninstall_data_arr s' = uninstall_data_arr s ∧ uninstall_data_i s' = uninstall_data_i s ∧
    (io s = [] → p ≠ 0%nat) ∧ heap_ok (set_uninstall_data_i k s') ∧
    (p ≠ 0%nat → p ∈ live s' ∧ (p ∉ ud_data <$> log (set_uninstall_data_i k s)) ∧ p ≠ empty_lba s).
Proof.
  intros Hh. destruct (malloc_run s) as (p & s' & Hr & Hsd & Hcf & Ha & Hi & Hnz & Hcase).
  exists p, s'. split_and!; try done.
  - eapply heap_ok_live; [exact Hh|done|done|apply Hcf|..]; simpl.
    + intros q Hq _. destruct Hcase as [(_ & -> & _)|(_ & -> & _)]; [done|]. by apply elem_of_union_r.
    + pose proof (ho_fresh _ Hh) as Hf. simpl in Hf.
      intros q. destruct Hcase as [(_ & -> & ->)|(-> & -> & ->)]; [apply Hf|].
      intros [->%elem_of_singleton|Hq]%elem_of_union; [lia|]. specialize (Hf q Hq). lia.
  - intros Hp0. destruct Hcase as [[? _]|(Hpeq & Hlive & _)]; [done|].
    pose proof (ho_fresh _ Hh) as Hf. simpl in Hf. split_and!.
    + rewrite Hlive. by apply elem_of_union_l, elem_of_singleton_2.
    + intros (e' & He1 & He2)%list_elem_of_fmap. destruct (ho_live _ Hh e' He2) as [_ Hl].
      specialize (Hf _ Hl). rewrite <- He1 in Hf. lia.
    + intros ->. destruct (ho_lba _ Hh Hp0) as [Hl _]. specialize (Hf _ Hl). simpl in Hf. lia.
Qed.

Lemma set_i_id s : set_uninstall_data_i (uninstall_data_i s) s = s.
Proof. by destruct s. Qed.

Lemma save_uninstall_data_run loc count s :
  io_ok s → heap_ok s → 0 ≤ count →
  ∃ b s', save_uninstall_data loc count s = Some (b, s') ∧ same_conf s s' ∧ io_ok s' ∧ heap_ok s' ∧
    uninstall_data_i s' = uninstall_data_i s ∧ log s' = log s ∧
    (b = true → uninstall_data_i s < 256 ∧ ∃ p old,
       uninstall_data_arr s' !! Z.to_nat (uninstall_data_i s) = Some (UD p old loc count) ∧
       p ≠ 0%nat ∧ p ∈ live s' ∧ (p ∉ ud_data <$> log s) ∧ p ≠ empty_lba s ∧
       length old = Z.to_nat count ∧
       (io s = [] → wf s → is_u64 loc →
        wf s' ∧ view s' = view s ∧ old = slice (Z.to_nat loc) (Z.to_nat count) (view s))) ∧
    (io s = [] → wf s → is_u64 loc →
       (device s' = device s ∨ device s' = view s) ∧
       (uninstall_data_i s < 256 → (b = true ↔ covered s loc count))).
Proof.
  intros Hok Hh Hc. unfold save_uninstall_data. run.
  destruct (ho_i s Hh) as [Hi0 Hi1]. pose proof (ho_arr s Hh) as Hal.
  destruct (Z.leb_spec UNINSTALL_DATA_MAX (uninstall_data_i s)) as [Hm|Hm].
  { eexists _, _. split; [done|]. unfold UNINSTALL_DATA_MAX in Hm. split_and!; try done.
    intros _ _ _. split; [by left|lia]. }
  unfold UNINSTALL_DATA_MAX in Hm.
  destruct (lookup_lt_is_Some_2 (uninstall_data_arr s) (Z.to_nat (uninstall_data_i s))) as [e He]; [lia|].
  rewrite (load_ud_run _ e) by done.
  destruct (malloc_fresh (uninstall_data_i s) s)
    as (p & s1 & -> & Hsd1 & Hcf1 & Ha1 & Hi1' & Hnz & Hh1 & Hp); [by rewrite set_i_id|].
  rewrite <- Hi1', set_i_id in Hh1. rewrite set_i_id in Hp.
  rewrite store_ud_run by (rewrite Ha1; lia).
  set (s2 := set_uninstall_data_arr _ s1).
  assert (same_disk s s2) as Hsd2 by (by destruct Hsd1; split).
  assert (same_conf s s2) as Hcf2 by (by destruct Hcf1; split).
  destruct (heap_ok_store s1 (UD p [] (ud_loc e) (ud_count e)) Hh1) as [Hh2 Hlog2].
  rewrite Hi1' in Hh2, Hlog2. fold s2 in Hh2, Hlog2.
  assert (log s1 = log s) as Hlog1 by (unfold log; by rewrite Ha1, Hi1').
  rewrite Hlog1 in Hlog2.
  assert (io_ok s2) as Hok2 by (by eapply same_disk_io_ok).
  case_bool_decide as Hp0.
  { eexists _, _. split; [done|]. split_and!; try done. intros Hs. by apply Hnz in Hs. }
  destruct (Hp Hp0) as (Hpl1 & Hpn & Hpe).
  destruct (device_read_run loc count s2 Hok2) as (r & s3 & -> & Hsc3 & Hdl3 & Hrel3).
  assert (same_conf s s3) as Hcf3 by (etrans; [done|by apply same_core_conf]).
  assert (same_log s2 s3) as Hsl3 by (by apply same_core_log).
  assert (io_ok s3) as Hok3 by (by eapply io_ok_same).
  assert (heap_ok s3) as Hh3 by (by eapply same_log_ok).
  assert (log s3 = log s) as Hlog3 by (by rewrite (log_same s2 s3), Hlog2).
  assert (p ∈ live s3) as Hpl by (by rewrite (sl_live _ _ Hsl3)).
  assert (wf s → wf s2 ∧ view s2 = view s) as Hwf2.
  { intros. split; [by eapply same_disk_wf|by apply same_disk_view]. }
  destruct r as [old|].
  - rewrite store_ud_run by (rewrite (sl_arr _ _ Hsl3); simpl; rewrite length_insert, Ha1; lia).
    set (s4 := set_uninstall_data_arr _ s3). eexists _, _. split; [done|].
    assert (uninstall_data_i s3 = uninstall_data_i s) as Hi3 by (rewrite (sl_i _ _ Hsl3); done).
    destruct (heap_ok_store s3 (UD p old loc count) Hh3) as [Hh4 Hlog4].
    rewrite Hi3 in Hh4, Hlog4. fold s4 in Hh4, Hlog4.
    assert (same_disk s3 s4) as Hsd4 by done.
    split_and!; [by destruct Hcf3; split|by eapply same_disk_io_ok|done|done|congruence|..].
    + intros _. split; [done|]. exists p, old. split_and!; [|done|done|done|done|by apply Hdl3|].
      * unfold s4. simpl. rewrite list_lookup_insert_eq; [done|]. rewrite (ho_arr _ Hh3). lia.
      * intros Hs Hwf Hloc. destruct (Hwf2 Hwf) as [Hw2 Hv2].
        destruct (Hrel3 (cf_io _ _ Hcf2 Hs) Hw2 Hloc) as (_ & _ & Hres).
        destruct (Hres old eq_refl) as (Hw3 & Hv3 & Hold).
        rewrite Hv2 in *. split_and!; [by eapply same_disk_wf|by rewrite <- Hv3; apply same_disk_view|done].
    + intros Hs Hwf Hloc. destruct (Hwf2 Hwf) as [Hw2 Hv2].
      destruct (Hrel3 (cf_io _ _ Hcf2 Hs) Hw2 Hloc) as (Hd & Hcov & _).
      rewrite Hv2, (sd_device _ _ Hsd2) in Hd. split; [done|]. intros _.
      rewrite <- (covered_ext s s2), <- Hcov; [by split; eauto|apply Hsd2|by rewrite (sd_device _ _ Hsd2)].
  - rewrite free_run by done. eexists _, _. split; [done|].
    split_and!; [by destruct Hcf3; split|by apply (same_disk_io_ok s3)| | |done|done|].
    + apply heap_ok_free; [done|by rewrite Hlog3|by rewrite (cf_lba _ _ Hcf3)].
    + transitivity (uninstall_data_i s3); [done|]. rewrite (sl_i _ _ Hsl3). done.
    + intros Hs Hwf Hloc. destruct (Hwf2 Hwf) as [Hw2 Hv2].
      destruct (Hrel3 (cf_io _ _ Hcf2 Hs) Hw2 Hloc) as (Hd & Hcov & _).
      rewrite Hv2, (sd_device _ _ Hsd2) in Hd. split; [done|]. intros _.
      rewrite <- (covered_ext s s2), <- Hcov; [|apply Hsd2|by rewrite (sd_device _ _ Hsd2)].
      split; [done|]. by intros [? ?].
Qed.

(** ** Writes *)

(** A write during [uninstall] is not logged. *)
Lemma device_write_unlogged_run buffer loc count s :
  uninstalling s = true → io_ok s → count ≤ Z.of_nat (length buffer) →
  ∃ b s', _device_write buffer loc count s = Some (b, s') ∧ same_core s s' ∧
    (io s = [] → wf s → is_u64 loc → covered s loc count →
       b = true ∧ wf s' ∧ length (device s') = length (device s) ∧
       view s' = splice (Z.to_nat loc) (take (Z.to_nat count) buffer) (view s)).
Proof.
  intros Hun Hok Hbuf. unfold _device_write. run. rewrite Hun. cbn [negb].
  destruct (device_write_loop_run (Z.to_nat count) buffer loc count 0 s)
    as (b & s' & -> & Hsc & Hrel); [done|lia|lia|done|].
  rewrite Z.add_0_r, Z.sub_0_r in Hrel.
  exists b, s'. split; [by destruct b|]. split; [done|]. intros Hs Hwf Hloc Hcov.
  destruct (Hrel Hs Hwf Hloc) as (Hb & Hres & Hlen & _).
  apply Hb in Hcov. destruct (Hres Hcov) as [? ?]. by split_and!.
Qed.

(** Consuming the array slot that [save_uninstall_data] filled. *)
Lemma heap_ok_commit s p old loc count :
  heap_ok s → uninstall_data_i s < 256 →
  uninstall_data_arr s !! Z.to_nat (uninstall_data_i s) = Some (UD p old loc count) →
  p ≠ 0%nat → p ∈ live s → (p ∉ ud_data <$> log s) → p ≠ empty_lba s →
  count ≤ Z.of_nat (length old) →
  let s' := set_uninstall_data_i (uninstall_data_i s + 1) s in
  heap_ok s' ∧ log s' = log s ++ [UD p old loc count].
Proof.
  intros Hh Hi He Hp0 Hpl Hpn Hpe Hlen s'. destruct (ho_i s Hh).
  assert (log s' = log s ++ [UD p old loc count]) as Hlog.
  { unfold log, s'. simpl. replace (Z.to_nat (uninstall_data_i s + 1)) with (S (Z.to_nat (uninstall_data_i s))) by lia.
    by apply take_S_r. }
  split; [|done]. destruct Hh. split; rewrite ?Hlog; simpl; try done.
  - lia.
  - intros e [?| ->%list_elem_of_singleton]%elem_of_app; [by apply ho_live0|done].
  - rewrite fmap_app. apply NoDup_app. split_and!; [done| |apply NoDup_singleton].
    intros q Hq ->%list_elem_of_singleton. done.
  - intros e [?| ->%list_elem_of_singleton]%elem_of_app; [by apply ho_bytes0|done].
  - intros Hz. destruct (ho_lba0 Hz). split; [done|].
    rewrite fmap_app, elem_of_app. intros [?|Hx%list_elem_of_singleton]; [done|].
    simpl in Hx. congruence.
Qed.

Lemma device_write_run buffer loc count s :
  uninstalling s = false → io_ok s → heap_ok s → 0 ≤ count ≤ Z.of_nat (length buffer) →
  ∃ b s', _device_write buffer loc count s = Some (b, s') ∧
    same_conf s s' ∧ io_ok s' ∧ heap_ok s' ∧
    (b = false → log s' = log s ∧ uninstall_data_i s' = uninstall_data_i s) ∧
    (b = true → uninstall_data_i s < 256 ∧ uninstall_data_i s' = uninstall_data_i s + 1 ∧
       ∃ p old, log s' = log s ++ [UD p old loc count] ∧ length old = Z.to_nat count ∧
       (io s = [] → wf s → is_u64 loc →
          old = slice (Z.to_nat loc) (Z.to_nat count) (view s) ∧ wf s' ∧
          view s' = splice (Z.to_nat loc) (take (Z.to_nat count) buffer) (view s))) ∧
    (io s = [] → wf s → is_u64 loc →
       (uninstall_data_i s < 256 → (b = true ↔ covered s loc count)) ∧
       length (device s') = length (device s) ∧
       (∀ q : nat, ¬ (b = true ∧ loc ≤ Z.of_nat q < loc + count) →
          device s' !! q = device s !! q ∨ device s' !! q = view s !! q)).
Proof.
  intros Hun Hok Hh Hcnt. unfold _device_write. run. rewrite Hun.
  destruct (save_uninstall_data_run loc count s) as
    (b & s1 & -> & Hcf1 & Hok1 & Hh1 & Hi1 & Hlog1 & Hsv & Hrel1); [done|done|lia|].
  destruct b; cbn [negb].
  2: { eexists _, _. split; [done|]. split_and!; [done..|]. intros Hs Hwf Hloc.
       destruct (Hrel1 Hs Hwf Hloc) as (Hd & Hcov). split_and!; [done|..].
       - destruct Hd as [-> | ->]; [done|by apply length_view].
       - intros q _. destruct Hd as [-> | ->]; auto. }
  destruct (Hsv eq_refl) as (Hi & p & old & He & Hp0 & Hpl & Hpn & Hpe & Hold & Hrd). clear Hsv.
  destruct (device_write_loop_run (Z.to_nat count) buffer loc count 0 s1)
    as (b & s2 & -> & Hsc2 & Hrel2); [done|lia|lia|lia|].
  rewrite Z.add_0_r, Z.sub_0_r in Hrel2.
  pose proof (same_core_log _ _ Hsc2) as Hsl2.
  assert (heap_ok s2) as Hh2 by (by eapply same_log_ok).
  assert (io_ok s2) as Hok2 by (by eapply io_ok_same).
  assert (same_conf s s2) as Hcf2 by (etrans; [done|by apply same_core_conf]).
  assert (uninstall_data_i s2 = uninstall_data_i s) as Hi2 by (rewrite (sl_i _ _ Hsl2); done).
  assert (log s2 = log s) as Hlog2 by (rewrite (log_same _ _ Hsl2); done).
  assert (uninstall_data_arr s2 !! Z.to_nat (uninstall_data_i s2) = Some (UD p old loc count)) as He2
    by (rewrite Hi2, (sl_arr _ _ Hsl2); done).
  assert (p ∈ live s2) as Hpl2 by (by rewrite (sl_live _ _ Hsl2)).
  assert (p ≠ empty_lba s2) as Hpe2 by (by rewrite (cf_lba _ _ Hcf2)).
  assert (io s = [] → wf s → is_u64 loc → wf s1 ∧ io s1 = [] ∧ view s1 = view s ∧
            length (device s1) = length (device s)) as Hw1.
  { intros Hs Hwf Hloc. destruct (Hrd Hs Hwf Hloc) as (Hwf1 & Hv1 & _). split_and!; try done.
    - by apply (cf_io _ _ Hcf1).
    - rewrite <- (length_view s1), Hv1 by done. by apply length_view. }
  destruct b; cbn [negb].
  - destruct (heap_ok_commit s2 p old loc count) as [Hh3 Hlog3]; try done; [lia|by rewrite Hlog2|lia|].
    eexists _, _. split; [done|].
    split_and!; [by destruct Hcf2; split|by apply (same_disk_io_ok s2)|done|done|..].
    + intros _. split; [done|]. split; [simpl; lia|]. exists p, old.
      rewrite Hlog3, Hlog2. split_and!; [done..|]. intros Hs Hwf Hloc.
      destruct (Hrd Hs Hwf Hloc) as (_ & _ & Hold'). split; [done|].
      destruct (Hw1 Hs Hwf Hloc) as (Hwf1 & Hs1 & Hv1 & _).
      destruct (Hrel2 Hs1 Hwf1 Hloc) as (_ & Hres & _). destruct (Hres eq_refl) as [Hwf2 Hv2].
      split; [by apply (same_disk_wf s2)|].
      rewrite (same_disk_view s2) by done. by rewrite Hv2, Hv1.
    + intros Hs Hwf Hloc. destruct (Hw1 Hs Hwf Hloc) as (Hwf1 & Hs1 & Hv1 & Hl1).
      destruct (Hrel1 Hs Hwf Hloc) as [Hd1 Hcov]. destruct (Hrel2 Hs1 Hwf1 Hloc) as (_ & _ & Hl2 & Hmix).
      split_and!; [done|simpl; congruence|]. intros q Hq. simpl.
      destruct (Hmix q) as [-> | ->]; [by intros ?; apply Hq| |by rewrite Hv1; right].
      destruct Hd1 as [-> | ->]; auto.
  - run. rewrite (load_ud_run _ (UD p old loc count)); [|destruct (ho_i s2 Hh2); lia|exact He2].
    cbn [ud_data]. rewrite free_run by done. eexists _, _. split; [done|].
    split_and!; [by destruct Hcf2; split|by apply (same_disk_io_ok s2)| |done|done|].
    + apply heap_ok_free; [done|by rewrite Hlog2|done].
    + intros Hs Hwf Hloc. destruct (Hw1 Hs Hwf Hloc) as (Hwf1 & Hs1 & Hv1 & Hl1).
      destruct (Hrel1 Hs Hwf Hloc) as [_ Hcov]. destruct (Hrel2 Hs1 Hwf1 Hloc) as (Hb & _).
      exfalso. assert (false = true); [|done]. apply Hb.
      apply (covered_ext s s1); [apply Hcf1|done|by apply Hcov, eq_refl].
Qed.

(** ** What the log remembers *)

Definition hits (e : uninstall_data) (q : nat) : Prop :=
  (Z.to_nat (ud_loc e) ≤ q < Z.to_nat (ud_loc e) + length (ud_bytes e))%nat.

#[global] Instance hits_dec e q : Decision (hits e q).
Proof. unfold hits. apply _. Defined.

(** The byte that the oldest entry covering [q] saved. *)
Fixpoint first_cover (l : list uninstall_data) (q : nat) : option byte :=
  match l with
  | [] => None
  | e :: l => if decide (hits e q) then ud_bytes e !! (q - Z.to_nat (ud_loc e))%nat
              else first_cover l q
  end.

(** Writing the entries of a log back, in list order. *)
Definition put_back (d : list byte) (e : uninstall_data) : list byte :=
  splice (Z.to_nat (ud_loc e)) (ud_bytes e) d.
Definition apply_entries (l : list uninstall_data) (d : list byte) : list byte :=
  foldl put_back d l.

(** An entry that can be written back to the device of [s]. *)
Record entry_ok (s : state) (e : uninstall_data) : Prop := {
  eo_loc : is_u64 (ud_loc e);
  eo_count : 0 ≤ ud_count e;
  eo_len : length (ud_bytes e) = Z.to_nat (ud_count e);
  eo_cov : covered s (ud_loc e) (ud_count e)
}.

Definition fits (n : nat) (e : uninstall_data) : Prop :=
  ud_bytes e = [] ∨ (Z.to_nat (ud_loc e) + length (ud_bytes e) ≤ n)%nat.

Lemma entry_ok_fits s e : io_ok s → entry_ok s e → fits (length (device s)) e.
Proof.
  intros Hok [Hl Hc Hlen Hcov]. unfold fits, is_u64 in *. pose proof (io_bs s Hok).
  destruct (covered_bound s _ _ ltac:(lia) Hcov); [left; apply length_zero_iff_nil; lia|right; lia].
Qed.

Lemma entry_ok_ext s s' e :
  block_size s' = block_size s → length (device s') = length (device s) →
  entry_ok s e → entry_ok s' e.
Proof. intros Hb Hd []. split; try done. by apply (covered_ext s s'). Qed.

Lemma put_back_spec e d :
  fits (length d) e →
  length (put_back d e) = length d ∧
  ∀ q, put_back d e !! q =
         if decide (hits e q) then ud_bytes e !! (q - Z.to_nat (ud_loc e))%nat else d !! q.
Proof.
  destruct e as [p b l c]. unfold fits, put_back, hits. simpl. intros [-> |Hf].
  - rewrite splice_nil. split; [done|]. intros q. by rewrite decide_False by (simpl; lia).
  - split; [by apply length_splice|]. intros q. by apply lookup_splice.
Qed.

Lemma first_cover_hits e l q : hits e q → is_Some (first_cover (e :: l) q).
Proof.
  intros Hh. cbn [first_cover]. rewrite decide_True by done. apply lookup_lt_is_Some_2.
  unfold hits in Hh. lia.
Qed.

(** Writing the log back newest entry first leaves, in every covered place,
    the byte its oldest entry saved. *)
Lemma apply_reverse l d :
  Forall (fits (length d)) l →
  length (apply_entries (reverse l) d) = length d ∧
  ∀ q, apply_entries (reverse l) d !! q =
         match first_cover l q with Some b => Some b | None => d !! q end.
Proof.
  unfold apply_entries. intros Hf. induction Hf as [|e l He Hl [IHlen IH]]; [done|].
  rewrite reverse_cons, foldl_app. cbn [foldl]. rewrite <- IHlen in He.
  destruct (put_back_spec e _ He) as [Hlen Hq]. split; [by rewrite Hlen|]. intros q.
  rewrite Hq. case_decide as Hh.
  - destruct (first_cover_hits e l q Hh) as [b Hb]. rewrite Hb.
    cbn [first_cover] in Hb. by rewrite decide_True in Hb.
  - cbn [first_cover]. rewrite decide_False by done. apply IH.
Qed.

Lemma first_cover_snoc l e q :
  first_cover (l ++ [e]) q =
    match first_cover l q with Some b => Some b | None => first_cover [e] q end.
Proof.
  induction l as [|e' l IH]; [done|]. change ((e' :: l) ++ [e]) with (e' :: (l ++ [e])).
  cbn [first_cover] in *. destruct (decide (hits e' q)) as [Hh|Hh]; [|done].
  destruct (first_cover_hits e' l q Hh) as [b Hb]. cbn [first_cover] in Hb.
  rewrite decide_True in Hb by done. by rewrite Hb.
Qed.

(** ** The undo invariant *)

Definition restores (l : list uninstall_data) (orig : list byte) : Prop :=
  ∀ q b, first_cover l q = Some b → orig !! q = Some b.
Definition agree_off (l : list uninstall_data) (orig d : list byte) : Prop :=
  ∀ q, first_cover l q = None → d !! q = orig !! q.

Record undoable (orig : list byte) (s : state) : Prop := {
  un_len : length (device s) = length orig;
  un_dev : Z.of_nat (length (device s)) ≤ OFF_MAX;
  un_entries : Forall (entry_ok s) (log s);
  un_restores : restores (log s) orig;
  un_agree : agree_off (log s) orig (device s)
}.

(** Undoing every entry of the log gives the original bytes back. *)
Lemma undoable_apply orig s :
  io_ok s → undoable orig s → apply_entries (reverse (log s)) (device s) = orig.
Proof.
  intros Hok [Hlen Hdev He Hr Ha].
  destruct (apply_reverse (log s) (device s)) as [Hl Hq].
  { eapply Forall_impl; [exact He|]. intros. by eapply entry_ok_fits. }
  apply list_eq. intros q. rewrite Hq. destruct (first_cover (log s) q) as [b|] eqn:E.
  - symmetry. by apply Hr.
  - by apply Ha.
Qed.

(** The log grows by the bytes a write replaced. *)
Lemma undo_snoc l orig v p loc count :
  restores l orig → agree_off l orig v →
  (Z.to_nat loc + Z.to_nat count ≤ length v)%nat ∨ Z.to_nat count = 0%nat →
  let e := UD p (slice (Z.to_nat loc) (Z.to_nat count) v) loc count in
  restores (l ++ [e]) orig ∧
  (∀ q, first_cover (l ++ [e]) q = None ↔
        first_cover l q = None ∧ ¬ (Z.to_nat loc ≤ q < Z.to_nat loc + Z.to_nat count)%nat).
Proof.
  intros Hr Ha Hb e.
  assert (length (ud_bytes e) = Z.to_nat count) as Hlen.
  { simpl. unfold slice. destruct Hb as [Hb|Hb]; [|rewrite Hb; done]. len. }
  assert (∀ q, first_cover [e] q = if decide (Z.to_nat loc ≤ q < Z.to_nat loc + Z.to_nat count)%nat
                 then v !! q else None) as Hone.
  { intros q. cbn [first_cover]. unfold hits. case_decide as H1; case_decide as H2;
      rewrite Hlen in H1; cbn [ud_loc e] in H1; try done; try lia.
    cbn [ud_loc ud_bytes e]. rewrite lookup_slice by lia. f_equal. lia. }
  split.
  - intros q b. rewrite first_cover_snoc. destruct (first_cover l q) as [b'|] eqn:E.
    + intros [= ->]. by apply Hr.
    + rewrite Hone. case_decide; [|done]. intros <-. symmetry. by apply Ha.
  - intros q. rewrite first_cover_snoc. destruct (first_cover l q) as [b'|] eqn:E; [split; [done|by intros [??]]|].
    rewrite Hone. case_decide as Hd; [|by split].
    split; [|by intros [_ ?]]. intros Hn%lookup_ge_None. lia.
Qed.

End LimineUndo.
