(* ===== verification/LimineRollback.v ===== *)
(** * limine.c: writing the undo log back

    [reverse_uninstall_data], [uninstall] and [free_uninstall_data]. For any
    I/O schedule they run to their end without an invalid access or a double
    free; on a reliable device [uninstall] writes every entry of the log back,
    and on the reversed log of an install that is the original device. *)

From S2P Require Import Prelude LimineState LimineDevice LimineCache LimineUndo.

Module LimineRollback.
Export LimineUndo.

(** ** reverse_uninstall_data *)

Lemma log_lookup s i e :
  log s !! i = Some e ↔ (i < Z.to_nat (uninstall_data_i s))%nat ∧ uninstall_data_arr s !! i = Some e.
Proof. unfold log. rewrite lookup_take_Some. tauto. Qed.

Lemma log_load s i e : log s !! i = Some e → load_ud (Z.of_nat i) s = Some (e, s).
Proof. intros [_ He]%log_lookup. apply load_ud_run; [lia|]. by rewrite Nat2Z.id. Qed.

(** A log entry exists at every index in use. *)
Lemma log_at s i :
  heap_ok s → Z.of_nat i < uninstall_data_i s →
  ∃ e, log s !! i = Some e ∧ drop i (log s) = e :: drop (S i) (log s).
Proof.
  intros Hh Hi. destruct (lookup_lt_is_Some_2 (log s) i) as [e He].
  - pose proof (length_log s Hh). lia.
  - exists e. split; [done|]. by apply drop_S.
Qed.

Lemma reverse_loop_run n i rev s :
  heap_ok s → length rev = 256%nat → Z.of_nat (i + n) = uninstall_data_i s →
  ∃ rev', reverse_loop n (Z.of_nat i) (u64 (Z.of_nat n - 1)) rev s = Some (rev', s) ∧
    length rev' = 256%nat ∧ take n rev' = reverse (drop i (log s)) ∧ drop n rev' = drop n rev.
Proof.
  intros Hh. revert i rev. induction n as [|n IH]; intros i rev Hlen Hin.
  - exists rev. split_and!; try done. rewrite drop_ge; [done|]. pose proof (length_log s Hh). lia.
  - cbn [reverse_loop]. destruct (log_at s i Hh) as (e & He & Hdrop); [lia|].
    rewrite (bind_run _ _ _ _ _ (log_load _ _ _ He)).
    destruct (ho_i s Hh). rewrite (u64_small (Z.of_nat (S n) - 1)) by (unfold is_u64; lia).
    rewrite bool_decide_true by lia.
    replace (Z.of_nat i + 1) with (Z.of_nat (S i)) by lia.
    replace (Z.of_nat (S n) - 1) with (Z.of_nat n) by lia.
    destruct (IH (S i) (<[Z.to_nat (Z.of_nat n) := e]> rev)) as (rev' & Hr & Hl & Ht & Hd);
      [by rewrite length_insert|lia|].
    rewrite Nat2Z.id in *. exists rev'. split; [done|]. split; [done|].
    assert (rev' !! n = Some e) as Hn.
    { rewrite <- (Nat.add_0_r n), <- lookup_drop, Hd, lookup_drop, Nat.add_0_r.
      apply list_lookup_insert_eq. lia. }
    split.
    + by rewrite (take_S_r _ _ e), Ht, Hdrop, reverse_cons.
    + rewrite <- Nat.add_1_r, <- !drop_drop, Hd. rewrite !drop_drop. apply drop_insert_lt. lia.
Qed.

Lemma reverse_uninstall_data_run s :
  heap_ok s →
  ∃ s', reverse_uninstall_data s = Some ((), s') ∧ same_disk s s' ∧ same_conf s s' ∧
    heap_ok s' ∧ log s' = reverse (log s) ∧ device s' = device s.
Proof.
  intros Hh. unfold reverse_uninstall_data. run. destruct (ho_i s Hh).
  destruct (reverse_loop_run (Z.to_nat (uninstall_data_i s)) 0
              (replicate (Z.to_nat UNINSTALL_DATA_MAX) ud_zero) s Hh)
    as (rev & Hr & Hlen & Htake & _); [done|lia|].
  rewrite Z2Nat.id in Hr by lia. change (Z.of_nat 0) with 0 in Hr. rewrite Hr.
  eexists. split; [done|]. rewrite drop_0 in Htake. rewrite Htake.
  set (s' := set_uninstall_data_arr _ s).
  assert (log s' = reverse (log s)) as Hlog.
  { unfold log at 1, s'. simpl. apply take_app_length'. rewrite length_reverse.
    pose proof (length_log s Hh). lia. }
  split_and!; try done. pose proof (length_log s Hh). pose proof (ho_arr s Hh).
  destruct Hh as [ha hi hl hn hf hb hlba]. split; rewrite ?Hlog; simpl; try done.
  - rewrite length_app, length_reverse, length_drop. lia.
  - intros e He. apply hl. by apply elem_of_reverse.
  - rewrite fmap_reverse. by rewrite (reverse_Permutation (ud_data <$> log s)).
  - intros e He. apply hb. by apply elem_of_reverse.
  - intros Hz. destruct (hlba Hz). split; [done|]. by rewrite fmap_reverse, elem_of_reverse.
Qed.

(** ** uninstall *)

Lemma uninstall_entry_run ud s :
  uninstalling s = true → io_ok s → ud_count ud ≤ Z.of_nat (length (ud_bytes ud)) →
  ∃ r s', uninstall_entry ud s = Some (r, s') ∧ same_core s s' ∧
    (io s = [] → wf s → entry_ok s ud →
       r = (false, false) ∧ wf s' ∧ length (device s') = length (device s) ∧
       view s' = put_back (view s) ud).
Proof.
  intros Hun Hok Hlen. unfold uninstall_entry.
  destruct (device_write_unlogged_run (ud_bytes ud) (ud_loc ud) (ud_count ud) s)
    as (b & s1 & Hw & Hsc & Hrel); [done..|].
  rewrite (bind_run _ _ _ _ _ Hw). destruct b.
  - eexists _, _. split; [done|]. split; [done|]. intros Hs Hwf [Hl Hc Hn Hcov].
    destruct (Hrel Hs Hwf Hl Hcov) as (_ & Hwf1 & Hd & Hv). split_and!; try done.
    rewrite Hv. unfold put_back. by rewrite <- Hn, firstn_all.
  - destruct (device_flush_cache_run s1) as (fl & s2 & Hf & Hsc2 & _); [by eapply io_ok_same|].
    rewrite (bind_run _ _ _ _ _ Hf). unfold invalidate_cache. run.
    set (s3 := set_cached_block UINT64_MAX (set_cache_state CACHE_CLEAN s2)).
    assert (same_core s s3) as Hsc3.
    { etrans; [exact Hsc|]. etrans; [exact Hsc2|]. by split. }
    destruct (device_write_unlogged_run (ud_bytes ud) (ud_loc ud) (ud_count ud) s3)
      as (b & s4 & -> & Hsc4 & _); [by rewrite (sc_un _ _ Hsc3)|by eapply io_ok_same|done|].
    eexists _, _. split; [done|]. split; [by etrans|].
    intros Hs Hwf [Hl Hc Hn Hcov]. by destruct (Hrel Hs Hwf Hl Hcov) as [? _].
Qed.

Lemma uninstall_entries_run n i wfail ffail s :
  uninstalling s = true → io_ok s → heap_ok s → Z.of_nat (i + n) = uninstall_data_i s →
  ∃ r s', uninstall_entries n (Z.of_nat i) wfail ffail s = Some (r, s') ∧ same_core s s' ∧
    (io s = [] → wf s → Forall (entry_ok s) (drop i (log s)) →
       r = (wfail, ffail) ∧ wf s' ∧ view s' = apply_entries (drop i (log s)) (view s)).
Proof.
  revert i wfail ffail s. induction n as [|n IH]; intros i wfail ffail s Hun Hok Hh Hin.
  { exists (wfail, ffail), s. split_and!; try done. intros _ Hwf _.
    rewrite drop_ge; [done|]. pose proof (length_log s Hh). lia. }
  cbn [uninstall_entries]. destruct (log_at s i Hh) as (e & He & Hdrop); [lia|].
  rewrite (bind_run _ _ _ _ _ (log_load _ _ _ He)).
  destruct (uninstall_entry_run e s) as (r & s1 & Hr & Hsc & Hrel); [done|done|..].
  { apply (ho_bytes s Hh). by apply list_elem_of_lookup_2 in He. }
  rewrite (bind_run _ _ _ _ _ Hr). replace (Z.of_nat i + 1) with (Z.of_nat (S i)) by lia.
  assert (log s1 = log s) as Hlog by (by apply log_same, same_core_log).
  destruct (IH (S i) (wfail || fst r) (ffail || snd r) s1) as (r' & s2 & Hr2 & Hsc2 & Hrel2).
  { by rewrite (sc_un _ _ Hsc). } { by eapply io_ok_same. }
  { eapply same_log_ok; [|exact Hh]. by apply same_core_log. } { rewrite (sc_i _ _ Hsc). lia. }
  exists r', s2. split; [done|]. split; [by etrans|].
  rewrite Hdrop, Hlog in *. intros Hs Hwf [He1 Hes]%Forall_cons.
  destruct (Hrel Hs Hwf He1) as (-> & Hwf1 & Hd & Hv).
  destruct (Hrel2 (sc_io _ _ Hsc Hs) Hwf1) as (-> & Hwf2 & Hv2).
  { eapply Forall_impl; [exact Hes|]. intros x. apply entry_ok_ext; [apply Hsc|done]. }
  split_and!; [by rewrite !orb_false_r|done|]. rewrite Hv2, Hv. done.
Qed.

Lemma uninstall_run s :
  io_ok s → heap_ok s →
  ∃ b s', uninstall s = Some (b, s') ∧ heap_ok s' ∧ io_ok s' ∧ log s' = log s ∧
    uninstalling s' = true ∧ empty_lba s' = empty_lba s ∧ udfile s' = udfile s ∧
    (io s = [] → Z.of_nat (length (device s)) ≤ OFF_MAX → Forall (entry_ok s) (log s) →
       b = true ∧ device s' = apply_entries (log s) (device s)).
Proof.
  intros Hok Hh. unfold uninstall, invalidate_cache. run.
  set (s1 := set_cached_block _ _).
  assert (same_log s s1) as Hsl by done. assert (io_ok s1) as Hok1 by (by destruct Hok; split).
  destruct (uninstall_entries_run (Z.to_nat (uninstall_data_i s1)) 0 false false s1)
    as (r & s2 & Hr & Hsc & Hrel); [done|done|by eapply same_log_ok|..].
  { destruct (ho_i s Hh). simpl. lia. }
  change (Z.of_nat 0) with 0 in Hr. rewrite Hr.
  destruct (device_flush_cache_run s2) as (fl & s3 & -> & Hsc3 & _ & _ & Hfl); [by eapply io_ok_same|].
  assert (same_core s1 s3) as Hsc13 by (by etrans).
  eexists _, _. split; [done|]. split_and!.
  - eapply same_log_ok; [by apply same_core_log|]. by eapply same_log_ok.
  - by eapply io_ok_same.
  - rewrite (log_same s1 s3) by (by apply same_core_log). done.
  - by rewrite (sc_un _ _ Hsc13).
  - by rewrite (sc_lba _ _ Hsc13).
  - by rewrite (sc_udfile _ _ Hsc13).
  - intros Hs Hdev He. assert (wf s1) as Hwf1 by (split; [done|done|by left]).
    destruct (Hrel Hs Hwf1) as (-> & Hwf2 & Hv2).
    { eapply Forall_impl; [exact He|]. intros e. by apply entry_ok_ext. }
    destruct (Hfl (sc_io _ _ Hsc Hs) Hwf2) as (-> & _ & Hd & _).
    split; [done|]. rewrite Hd, Hv2. done.
Qed.

(** ** free_uninstall_data *)

Lemma free_entries_run n i s :
  heap_ok s → Z.of_nat (i + n) = uninstall_data_i s →
  ∀ l, (∀ e, e ∈ drop i (log s) → ud_data e ∈ l) →
  ∃ l', free_entries n (Z.of_nat i) (set_live l s) = Some ((), set_live l' s) ∧
    ∀ p, p ∈ l → (p ∉ ud_data <$> drop i (log s)) → p ∈ l'.
Proof.
  intros Hh. revert i. induction n as [|n IH]; intros i Hin l Hl.
  { exists l. done. }
  cbn [free_entries]. destruct (log_at s i Hh) as (e & He & Hdrop); [lia|].
  rewrite (bind_run _ _ (set_live l s) e (set_live l s)) by (by apply log_load).
  rewrite Hdrop in *.
  assert (e ∈ log s) as Hin' by (by apply list_elem_of_lookup_2 in He).
  rewrite (bind_run _ _ _ _ _ (free_run (ud_data e) (set_live l s)
             ltac:(apply Hl; by left) (proj1 (ho_live s Hh e Hin')))).
  replace (Z.of_nat i + 1) with (Z.of_nat (S i)) by lia.
  assert (ud_data e ∉ (ud_data <$> drop (S i) (log s))) as Hnd.
  { pose proof (ho_nodup s Hh) as Hn. rewrite <- (take_drop i (log s)), fmap_app, Hdrop in Hn.
    apply NoDup_app in Hn as (_ & _ & Hn). by apply NoDup_cons in Hn as [? _]. }
  destruct (IH (S i) ltac:(lia) (l ∖ {[ud_data e]})) as (l' & Hr & Hp).
  { intros e' He'. apply elem_of_difference. split; [apply Hl; by right|].
    apply not_elem_of_singleton. intros Heq. apply Hnd. rewrite <- Heq. by apply list_elem_of_fmap_2. }
  exists l'. split; [done|]. intros p Hpl Hpn. cbn in Hpn. apply not_elem_of_cons in Hpn as [? ?].
  apply Hp; [|done]. apply elem_of_difference. split; [done|]. by apply not_elem_of_singleton.
Qed.

Lemma free_uninstall_data_run s :
  heap_ok s →
  ∃ l', free_uninstall_data s = Some ((), set_live l' s) ∧
    (empty_lba s ≠ 0%nat → empty_lba s ∈ l').
Proof.
  intros Hh. unfold free_uninstall_data. run.
  destruct (free_entries_run (Z.to_nat (uninstall_data_i s)) 0 s Hh) with (l := live s) as (l' & Hr & Hp).
  - destruct (ho_i s Hh). lia.
  - rewrite drop_0. intros e He. by apply (ho_live s Hh).
  - exists l'. split; [by destruct s|]. intros Hz. destruct (ho_lba s Hh Hz). rewrite drop_0 in Hp. by apply Hp.
Qed.

End LimineRollback.
