(* ===== verification/LimineStore.v ===== *)
(** * limine.c: the uninstall data file

    [store_uninstall_data] and [load_uninstall_data] of
    Platform/SDK/r4os/storage_tools/limine/limine.c. The file is
    the field [udfile] of the state ([None]: it does not exist). On a reliable
    host, loading what was stored gives the log back ([load_entries_run],
    [load_uninstall_data_run]); a file that is cut short or that announces too
    many entries leaves [uninstall_data_i] and freed pointers behind, on which
    the caller's [free_uninstall_data] is undefined. *)

From S2P Require Import Prelude LimineArith LimineState LimineDevice LimineCache.
From S2P Require Import LimineUndo LimineRollback.

Module LimineStore.
Export LimineArith LimineRollback.

(** ** Operations *)

(** [fopen(filename, "wb")] and [fopen(filename, "rb")]. *)
Definition fopen_wb : M bool :=
  o <- next_io ;;;
  if oc_ok o then modify (set_udfile (Some [])) ;;; ret true else ret false.
Definition fopen_rb : M bool :=
  o <- next_io ;;;
  f <- gets udfile ;;;
  ret (oc_ok o && bool_decide (is_Some f)).

(** [fwrite(d, length d, 1, udfile) == 1]; with a size of 0 [fwrite] returns 0. *)
Definition fwrite_ud (d : list byte) : M bool :=
  o <- next_io ;;;
  f <- gets udfile ;;;
  let put := if oc_ok o then d else take (oc_short o `min` length d) d in
  modify (set_udfile (Some (default [] f ++ put))) ;;;
  ret (oc_ok o && negb (bool_decide (d = []))).

(** [fread(object, n, 1, udfile) == 1] at [pos] into an object of [n] bytes
    holding [old]: success, what the object holds afterwards, and the new
    position. A short read overwrites the front of the object. *)
Definition fread_ud (pos : Z) (n : nat) (old : list byte) : M (bool * list byte * Z) :=
  o <- next_io ;;;
  f <- gets udfile ;;;
  let got := if oc_ok o then slice (Z.to_nat pos) n (default [] f) else take n (oc_junk o) in
  ret (oc_ok o && (length got =? n)%nat && negb (n =? 0)%nat, splice 0 got old,
       pos + Z.of_nat (length got)).

Fixpoint store_entries (n : nat) (i : Z) : M bool :=
  match n with
  | O => ret true
  | S n =>
      be <- gets bigendian ;;;
      ud <- load_ud i ;;;
      ok <- fwrite_ud (host_bytes be 8 (ud_loc ud)) ;;;
      if negb ok then ret false
      else
        ok <- fwrite_ud (host_bytes be 8 (ud_count ud)) ;;;
        if negb ok then ret false
        else if Z.of_nat (length (ud_bytes ud)) <? ud_count ud then ub
        else
          ok <- fwrite_ud (take (Z.to_nat (ud_count ud)) (ud_bytes ud)) ;;;
          if negb ok then ret false else store_entries n (i + 1)
  end.

Definition store_uninstall_data : M bool :=
  ok <- fopen_wb ;;;
  if negb ok then ret false
  else
    be <- gets bigendian ;;;
    i <- gets uninstall_data_i ;;;
    ok <- fwrite_ud (host_bytes be 8 i) ;;;
    if negb ok then ret false else store_entries (Z.to_nat i) 0.

(** The label [error] of [load_uninstall_data]. *)
Definition load_error (loaded_count : Z) : M bool :=
  free_entries (Z.to_nat loaded_count) 0 ;;; ret false.

(** [n] rounds of the loop from entry [i] on; [i] is also [loaded_count]. *)
Fixpoint load_entries (n : nat) (i pos : Z) : M bool :=
  match n with
  | O => ret true
  | S n =>
      be <- gets bigendian ;;;
      ud <- load_ud i ;;;
      r <- fread_ud pos 8 (host_bytes be 8 (ud_loc ud)) ;;;
      let '(ok, b, pos) := r in
      let loc := host_val be b in
      store_ud i (UD (ud_data ud) (ud_bytes ud) loc (ud_count ud)) ;;;
      if negb ok then load_error i
      else
        r <- fread_ud pos 8 (host_bytes be 8 (ud_count ud)) ;;;
        let '(ok, b, pos) := r in
        let count := host_val be b in
        store_ud i (UD (ud_data ud) (ud_bytes ud) loc count) ;;;
        if negb ok then load_error i
        else if SIZE_MAX <? count then load_error i
        else
          p <- malloc ;;;
          store_ud i (UD p [] loc count) ;;;
          if bool_decide (p = 0%nat) then load_error i
          else
            r <- fread_ud pos (Z.to_nat count) [] ;;;
            let '(ok, b, pos) := r in
            store_ud i (UD p b loc count) ;;;
            if negb ok then free p ;;; load_error i
            else load_entries n (i + 1) pos
  end.

Definition load_uninstall_data : M bool :=
  ok <- fopen_rb ;;;
  if negb ok then ret false
  else
    be <- gets bigendian ;;;
    i <- gets uninstall_data_i ;;;
    r <- fread_ud 0 8 (host_bytes be 8 i) ;;;
    let '(ok, b, pos) := r in
    let i := host_val be b in
    modify (set_uninstall_data_i i) ;;;
    if negb ok then load_error 0
    else if UNINSTALL_DATA_MAX <? i then load_error 0
    else load_entries (Z.to_nat i) 0 pos.

(** ** The file format *)

Definition encode_entry (be : bool) (e : uninstall_data) : list byte :=
  host_bytes be 8 (ud_loc e) ++ host_bytes be 8 (ud_count e) ++ ud_bytes e.
Definition encode (be : bool) (l : list uninstall_data) : list byte :=
  host_bytes be 8 (Z.of_nat (length l)) ++ concat (encode_entry be <$> l).

(** An entry that the file format can carry. *)
Definition storable (e : uninstall_data) : Prop :=
  is_u64 (ud_loc e) ∧ 0 < ud_count e < 2 ^ 64 ∧ length (ud_bytes e) = Z.to_nat (ud_count e).

(** Entries equal up to the address of their block. *)
Definition same_entry (e e' : uninstall_data) : Prop :=
  ud_bytes e = ud_bytes e' ∧ ud_loc e = ud_loc e' ∧ ud_count e = ud_count e'.

(** ** Storing *)

(** Only the schedule and the file change. *)
Definition file_only (s s' : state) : Prop :=
  ∃ io' f', s' = set_io io' (set_udfile f' s) ∧ (io s = [] → io' = []).

Lemma file_only_refl s : file_only s s.
Proof. exists (io s), (udfile s). split; [by destruct s|done]. Qed.

Lemma file_only_trans s1 s2 s3 : file_only s1 s2 → file_only s2 s3 → file_only s1 s3.
Proof.
  intros (i1 & f1 & -> & H1) (i2 & f2 & -> & H2). exists i2, f2. split; [done|].
  intros. apply H2. by apply H1.
Qed.

Lemma file_only_log s s' : file_only s s' → same_log s s' ∧ same_disk s s' ∧
  bigendian s' = bigendian s ∧ (io s = [] → io s' = []).
Proof. by intros (i & f & -> & ?). Qed.

Lemma fwrite_ud_run d s :
  ∃ b s', fwrite_ud d s = Some (b, s') ∧ file_only s s' ∧
    (io s = [] → d ≠ [] → b = true ∧ s' = set_udfile (Some (default [] (udfile s) ++ d)) s).
Proof.
  unfold fwrite_ud. destruct (next_io_run s) as (o & io' & Hr & Hio).
  rewrite (bind_run _ _ _ _ _ Hr). run. eexists _, _. split; [done|]. split.
  - eexists io', _. split; [reflexivity|]. intros Hs. by apply Hio.
  - intros Hs Hd. destruct (Hio Hs) as [-> ->]. rewrite bool_decide_false by done. split; [done|].
    simpl. by destruct s; simpl in *; subst.
Qed.

Lemma store_entries_run n i s :
  heap_ok s → Z.of_nat (i + n) = uninstall_data_i s →
  ∃ b s', store_entries n (Z.of_nat i) s = Some (b, s') ∧ file_only s s' ∧
    (io s = [] → ∀ f, udfile s = Some f → Forall storable (drop i (log s)) →
       b = true ∧
       s' = set_udfile (Some (f ++ concat (encode_entry (bigendian s) <$> drop i (log s)))) s).
Proof.
  revert i s. induction n as [|n IH]; intros i s Hh Hin.
  { exists true, s. split_and!; [done|apply file_only_refl|]. intros _ f Hf _. split; [done|].
    rewrite drop_ge by (pose proof (length_log s Hh); lia). simpl. rewrite app_nil_r.
    by destruct s; simpl in *; subst. }
  cbn [store_entries]. destruct (log_at s i Hh) as (e & He & Hdrop); [lia|]. run.
  rewrite (log_load _ _ _ He). rewrite Hdrop.
  set (be := bigendian s).
  destruct (fwrite_ud_run (host_bytes be 8 (ud_loc e)) s) as (b1 & s1 & -> & Hf1 & Hw1).
  assert (∀ z, host_bytes be 8 z ≠ []) as Hnn.
  { intros z Hz. apply (f_equal length) in Hz. by rewrite length_host_bytes in Hz. }
  destruct b1; cbn [negb].
  2: { eexists _, _. split; [done|]. split; [done|]. intros Hs. by destruct (Hw1 Hs (Hnn _)). }
  destruct (fwrite_ud_run (host_bytes be 8 (ud_count e)) s1) as (b2 & s2 & -> & Hf2 & Hw2).
  assert (file_only s s2) as Hf12 by (by eapply file_only_trans).
  assert (io s = [] → b2 = true ∧ s2 = set_udfile (Some (default [] (udfile s) ++
            host_bytes be 8 (ud_loc e) ++ host_bytes be 8 (ud_count e))) s) as Hw12.
  { intros Hs. destruct (Hw1 Hs (Hnn _)) as [_ ->]. destruct (Hw2 Hs (Hnn _)) as [-> ->].
    split; [done|]. simpl. by rewrite <- app_assoc. }
  destruct b2; cbn [negb].
  2: { eexists _, _. split; [done|]. split; [done|]. intros Hs. by destruct (Hw12 Hs). }
  assert (ud_count e ≤ Z.of_nat (length (ud_bytes e))) as Hlen.
  { apply (ho_bytes s Hh). by apply list_elem_of_lookup_2 in He. }
  destruct (Z.ltb_spec (Z.of_nat (length (ud_bytes e))) (ud_count e)) as [?|_]; [lia|].
  destruct (fwrite_ud_run (take (Z.to_nat (ud_count e)) (ud_bytes e)) s2) as (b3 & s3 & -> & Hf3 & Hw3).
  assert (file_only s s3) as Hf13 by (by eapply file_only_trans).
  destruct (file_only_log _ _ Hf13) as (Hsl & _ & Hbe & _).
  assert (io s = [] → storable e → b3 = true ∧
    s3 = set_udfile (Some (default [] (udfile s) ++ encode_entry be e)) s) as Hw13.
  { intros Hs (_ & Hc & Hb). destruct (Hw12 Hs) as [_ ->]. rewrite <- Hb, firstn_all in Hw3.
    destruct (Hw3 Hs) as [-> ->]; [intros Hz; rewrite Hz in Hb; simpl in Hb; lia|].
    split; [done|]. unfold encode_entry. simpl. by rewrite <- !app_assoc. }
  destruct b3; cbn [negb].
  2: { eexists _, _. split; [done|]. split; [done|].
       intros Hs f _ [He' _]%Forall_cons. by destruct (Hw13 Hs He'). }
  replace (Z.of_nat i + 1) with (Z.of_nat (S i)) by lia.
  destruct (IH (S i) s3) as (b & s4 & -> & Hf4 & Hw4);
    [by eapply same_log_ok|rewrite (sl_i _ _ Hsl); lia|].
  eexists _, _. split; [done|]. split; [by eapply file_only_trans|].
  intros Hs f Hf [He1 He2]%Forall_cons. destruct (Hw13 Hs He1) as [_ Hs3]. rewrite Hf in Hs3.
  subst s3. destruct (Hw4 Hs _ eq_refl He2) as [-> ->]. split; [done|].
  change (log (set_udfile _ s)) with (log s). rewrite <- app_assoc. done.
Qed.

Lemma store_uninstall_data_run s :
  heap_ok s →
  ∃ b s', store_uninstall_data s = Some (b, s') ∧ file_only s s' ∧
    (io s = [] → Forall storable (log s) →
       b = true ∧ s' = set_udfile (Some (encode (bigendian s) (log s))) s).
Proof.
  intros Hh. unfold store_uninstall_data, fopen_wb.
  destruct (next_io_run s) as (o & io' & Hr & Hio). rewrite bind_assoc.
  rewrite (bind_run _ _ _ _ _ Hr). set (s0 := set_io io' s).
  destruct (oc_ok o) eqn:E; run; cbn [negb].
  2: { eexists _, _. split; [done|]. split; [exists io', (udfile s); split; [by destruct s|]|].
       - intros Hs. by apply Hio.
       - intros Hs _. destruct (Hio Hs) as [-> _]. done. }
  set (s1 := set_udfile (Some []) s0).
  assert (file_only s s1) as Hf1 by (exists io', (Some []); split; [done|intros Hs; by apply Hio]).
  destruct (fwrite_ud_run (host_bytes (bigendian s1) 8 (uninstall_data_i s1)) s1)
    as (b & s2 & -> & Hf2 & Hw2).
  assert (host_bytes (bigendian s1) 8 (uninstall_data_i s1) ≠ []) as Hnn.
  { intros Hz. apply (f_equal length) in Hz. by rewrite length_host_bytes in Hz. }
  assert (file_only s s2) as Hf12 by (by eapply file_only_trans).
  destruct (file_only_log _ _ Hf12) as (Hsl & _ & Hbe & _).
  assert (heap_ok s2) as Hh2 by (by eapply same_log_ok). destruct (ho_i s Hh).
  destruct b; cbn [negb].
  2: { eexists _, _. split; [done|]. split; [done|]. intros Hs _.
       destruct (Hio Hs) as [_ ->]. by destruct (Hw2 eq_refl Hnn). }
  destruct (store_entries_run (Z.to_nat (uninstall_data_i s1)) 0 s2) as (b & s3 & Hr3 & Hf3 & Hw3);
    [done|rewrite (sl_i _ _ Hsl); simpl; lia|].
  change (Z.of_nat 0) with 0 in Hr3. rewrite Hr3.
  eexists _, _. split; [done|]. split; [by eapply file_only_trans|].
  intros Hs Hst. destruct (Hio Hs) as [_ ->]. destruct (Hw2 eq_refl Hnn) as [_ ->].
  pose proof (length_log s Hh) as Hll. unfold encode. rewrite Hll.
  assert (∀ t, set_udfile t (set_io [] s) = set_udfile t s) as Hid
    by (intros t; by destruct s; simpl in *; subst).
  destruct (Hw3 eq_refl _ eq_refl) as [-> ->]; [by rewrite drop_0|]. split; [done|].
  rewrite drop_0, <- Hid. done.
Qed.

(** ** Loading *)

Lemma fread_ud_hit pre d post old s :
  io s = [] → udfile s = Some (pre ++ d ++ post) → d ≠ [] → (length old ≤ length d)%nat →
  fread_ud (Z.of_nat (length pre)) (length d) old s
    = Some ((true, d, Z.of_nat (length (pre ++ d))), s).
Proof.
  intros Hs Hf Hd Hold. unfold fread_ud.
  assert (next_io s = Some (good_outcome, s)) as Hn by (unfold next_io; by rewrite Hs).
  rewrite (bind_run _ _ _ _ _ Hn). run. rewrite Hf. cbn [from_option oc_ok good_outcome]. unfold id.
  assert (slice (Z.to_nat (Z.of_nat (length pre))) (length d) (pre ++ d ++ post) = d) as ->.
  { unfold slice. rewrite Nat2Z.id, drop_app_length. apply take_app_length. }
  do 3 f_equal; [f_equal|].
  - rewrite Nat.eqb_refl. destruct d; [done|]. done.
  - unfold splice. simpl. rewrite drop_ge by lia. apply app_nil_r.
  - len.
Qed.

(** Reading the data of an entry into a new block. *)
Lemma fread_ud_hit' pre d post n s :
  io s = [] → udfile s = Some (pre ++ d ++ post) → 0 < n → length d = Z.to_nat n →
  fread_ud (Z.of_nat (length pre)) (Z.to_nat n) [] s
    = Some ((true, d, Z.of_nat (length (pre ++ d))), s).
Proof.
  intros Hs Hf Hn Hd. rewrite <- Hd. apply (fread_ud_hit _ _ post); [done|done| |simpl; lia].
  intros ->. simpl in Hd. lia.
Qed.

(** Reading one 64-bit integer back. *)
Lemma fread_ud_u64 pre z post old s :
  io s = [] → udfile s = Some (pre ++ host_bytes (bigendian s) 8 z ++ post) → is_u64 z →
  length old = 8%nat →
  ∃ b, fread_ud (Z.of_nat (length pre)) 8 old s
         = Some ((true, b, Z.of_nat (length (pre ++ host_bytes (bigendian s) 8 z))), s) ∧
       host_val (bigendian s) b = z.
Proof.
  intros Hs Hf Hz Hold. exists (host_bytes (bigendian s) 8 z). split.
  - pose proof (fread_ud_hit pre (host_bytes (bigendian s) 8 z) post old s Hs Hf) as H.
    rewrite length_host_bytes in H. apply H; [|lia].
    intros Hn%(f_equal length). by rewrite length_host_bytes in Hn.
  - rewrite host_val_host_bytes. apply Z.mod_small. done.
Qed.

(** The entry being loaded is not yet part of the log. *)
Lemma heap_ok_store_at k e s :
  heap_ok (set_uninstall_data_i k s) →
  let s' := set_uninstall_data_arr (<[Z.to_nat k := e]> (uninstall_data_arr s)) s in
  heap_ok (set_uninstall_data_i k s') ∧
  log (set_uninstall_data_i k s') = log (set_uninstall_data_i k s).
Proof. intros Hh. exact (heap_ok_store (set_uninstall_data_i k s) e Hh). Qed.

(** Entries that are complete are loaded, whatever follows. *)
Lemma load_entries_prefix n l i pre post s :
  io s = [] → heap_ok (set_uninstall_data_i (Z.of_nat i) s) → (i + length l ≤ 256)%nat →
  Forall storable l → udfile s = Some (pre ++ concat (encode_entry (bigendian s) <$> l) ++ post) →
  ∃ s', load_entries (length l + n) (Z.of_nat i) (Z.of_nat (length pre)) s =
      load_entries n (Z.of_nat (i + length l)) (Z.of_nat (length (pre ++ concat (encode_entry (bigendian s) <$> l)))) s' ∧
    same_disk s s' ∧ same_conf s s' ∧ heap_ok (set_uninstall_data_i (Z.of_nat (i + length l)) s') ∧
    uninstall_data_i s' = uninstall_data_i s ∧
    ∃ l', log (set_uninstall_data_i (Z.of_nat (i + length l)) s') = log (set_uninstall_data_i (Z.of_nat i) s) ++ l' ∧
      Forall2 same_entry l' l.
Proof.
  revert i pre s. induction l as [|e l IH]; intros i pre s Hs Hh Hmax Hst Hf.
  { exists s. cbn [length fmap list_fmap concat]. rewrite Nat.add_0_r, app_nil_r. split_and!; try done. exists []. by rewrite app_nil_r. }
  apply Forall_cons in Hst as [(Hloc & Hcnt & Hlen) Hst]. cbn [length Nat.add load_entries]. run.
  set (be := bigendian s) in *. pose proof (ho_arr _ Hh) as Ha. simpl in Ha, Hmax.
  destruct (lookup_lt_is_Some_2 (uninstall_data_arr s) i) as [u Hu]; [lia|].
  rewrite (load_ud_run _ u) by (rewrite ?Nat2Z.id; done || lia).
  cbn [fmap list_fmap concat] in Hf. unfold encode_entry at 1 in Hf. rewrite <- !app_assoc in Hf.
  destruct (fread_ud_u64 pre (ud_loc e) _ (host_bytes be 8 (ud_loc u)) s Hs Hf Hloc)
    as (b1 & -> & Hb1); [apply length_host_bytes|]. fold be in Hb1. rewrite Hb1.
  rewrite store_ud_run by lia. cbn [negb]. fold be.
  set (pre1 := pre ++ host_bytes be 8 (ud_loc e)).
  set (s1 := set_uninstall_data_arr _ s).
  destruct (fread_ud_u64 pre1 (ud_count e) (ud_bytes e ++ concat (encode_entry be <$> l) ++ post)
              (host_bytes be 8 (ud_count u)) s1) as (b2 & Hr2 & Hb2);
    [done|unfold pre1; by rewrite <- app_assoc|unfold is_u64; lia|apply length_host_bytes|].
  rewrite Hr2. change (bigendian s1) with be in Hb2 |- *. rewrite Hb2.
  rewrite store_ud_run by (simpl; rewrite length_insert; lia). cbn [negb].
  destruct (Z.ltb_spec SIZE_MAX (ud_count e)) as [?|_]; [unfold SIZE_MAX in *; lia|].
  set (pre2 := pre1 ++ host_bytes be 8 (ud_count e)).
  set (s2 := set_uninstall_data_arr _ s1).
  destruct (heap_ok_store_at _ (UD (ud_data u) (ud_bytes u) (ud_loc e) (ud_count u)) s Hh) as [Hh1 Hl1].
  fold s1 in Hh1, Hl1.
  destruct (heap_ok_store_at _ (UD (ud_data u) (ud_bytes u) (ud_loc e) (ud_count e)) s1 Hh1) as [Hh2 Hl2].
  fold s2 in Hh2, Hl2.
  destruct (malloc_fresh _ s2 Hh2) as (p & s3 & -> & Hsd3 & Hcf3 & Ha3 & Hi3 & Hnz & Hh3 & Hp).
  specialize (Hnz Hs). destruct (Hp Hnz) as (Hpl & Hpn & Hpe).
  assert (length (uninstall_data_arr s3) = 256%nat) as Hal3 by apply (ho_arr _ Hh3).
  assert (log (set_uninstall_data_i (Z.of_nat i) s3) = log (set_uninstall_data_i (Z.of_nat i) s)) as Hl3.
  { rewrite <- Hl1, <- Hl2. unfold log. simpl. by rewrite Ha3. }
  rewrite store_ud_run by lia. rewrite bool_decide_false by done.
  set (s4 := set_uninstall_data_arr _ s3).
  destruct (heap_ok_store_at _ (UD p [] (ud_loc e) (ud_count e)) s3 Hh3) as [Hh4 Hl4].
  fold s4 in Hh4, Hl4.
  rewrite (fread_ud_hit' pre2 (ud_bytes e) (concat (encode_entry be <$> l) ++ post) (ud_count e) s4);
    [|by apply (cf_io _ _ Hcf3)| |lia|lia].
  2: { transitivity (udfile s); [apply (cf_udfile _ _ Hcf3)|]. rewrite Hf. unfold pre2, pre1.
       by rewrite <- !app_assoc. }
  rewrite store_ud_run by (simpl; rewrite length_insert; lia). cbn [negb].
  set (s5 := set_uninstall_data_arr _ s4).
  destruct (heap_ok_store_at _ (UD p (ud_bytes e) (ud_loc e) (ud_count e)) s4 Hh4) as [Hh5 Hl5].
  fold s5 in Hh5, Hl5.
  destruct (heap_ok_commit (set_uninstall_data_i (Z.of_nat i) s5) p (ud_bytes e) (ud_loc e) (ud_count e))
    as [Hh6 Hl6]; [done|simpl; lia| |done|done| |by rewrite <- (cf_lba _ _ Hcf3) in Hpe|lia|].
  { simpl. rewrite Nat2Z.id. apply list_lookup_insert_eq. rewrite length_insert. lia. }
  { rewrite Hl5, Hl4. by rewrite Hl2, Hl1, <- Hl3 in Hpn. }
  rewrite Hl5, Hl4, Hl3 in Hl6. cbn [uninstall_data_i set_uninstall_data_i] in Hh6, Hl6.
  replace (Z.of_nat i + 1) with (Z.of_nat (S i)) in * by lia.
  assert (same_disk s s5) as Hsd5 by (by destruct Hsd3; split).
  assert (same_conf s s5) as Hcf5 by (by destruct Hcf3; split).
  destruct (IH (S i) (pre2 ++ ud_bytes e) s5) as (s6 & Hr6 & Hsd6 & Hcf6 & Hh7 & Hi7 & l' & Hl7 & Hf7);
    [by apply (cf_io _ _ Hcf5)|done|lia|done| |].
  { transitivity (udfile s); [apply (cf_udfile _ _ Hcf5)|]. rewrite Hf.
    rewrite (cf_be _ _ Hcf5). fold be. unfold pre2, pre1. by rewrite <- !app_assoc. }
  replace (S i + length l)%nat with (i + S (length l))%nat in * by lia. exists s6. split.
  { etrans; [exact Hr6|]. rewrite (cf_be _ _ Hcf5). fold be. cbn [fmap list_fmap concat].
    change (encode_entry be e) with (host_bytes be 8 (ud_loc e) ++ host_bytes be 8 (ud_count e) ++ ud_bytes e).
    unfold pre2, pre1. by rewrite <- !app_assoc. }
  split_and!; [by etrans|by etrans|done|etrans; [exact Hi7|done]|].
  exists (UD p (ud_bytes e) (ud_loc e) (ud_count e) :: l').
  rewrite Hl7. change (log (set_uninstall_data_i (Z.of_nat (S i)) (set_uninstall_data_i (Z.of_nat i) s5)))
    with (log (set_uninstall_data_i (Z.of_nat (S i)) s5)) in Hl6. rewrite Hl6, <- app_assoc.
  split; [done|]. by constructor.
Qed.

Lemma load_entries_run l i pre s :
  io s = [] → heap_ok (set_uninstall_data_i (Z.of_nat i) s) →
  Z.of_nat (i + length l) = uninstall_data_i s → (i + length l ≤ 256)%nat →
  Forall storable l → udfile s = Some (pre ++ concat (encode_entry (bigendian s) <$> l)) →
  ∃ s', load_entries (length l) (Z.of_nat i) (Z.of_nat (length pre)) s = Some (true, s') ∧
    same_disk s s' ∧ same_conf s s' ∧ heap_ok s' ∧ uninstall_data_i s' = uninstall_data_i s ∧
    ∃ l', log s' = log (set_uninstall_data_i (Z.of_nat i) s) ++ l' ∧ Forall2 same_entry l' l.
Proof.
  intros Hs Hh Hin Hmax Hst Hf.
  destruct (load_entries_prefix 0 l i pre [] s Hs Hh Hmax Hst) as (s' & Hr & Hsd & Hcf & Hh' & Hi' & Hl); [by rewrite app_nil_r|].
  rewrite Nat.add_0_r, Hin, <-Hi', set_i_id in *. by exists s'.
Qed.

Lemma load_uninstall_data_run l s :
  io s = [] → heap_ok s → uninstall_data_i s = 0 → (length l ≤ 256)%nat → Forall storable l →
  udfile s = Some (encode (bigendian s) l) →
  ∃ s', load_uninstall_data s = Some (true, s') ∧ same_disk s s' ∧ same_conf s s' ∧
    heap_ok s' ∧ Forall2 same_entry (log s') l.
Proof.
  intros Hs Hh Hi Hmax Hst Hf. unfold load_uninstall_data, fopen_rb.
  assert (next_io s = Some (good_outcome, s)) as Hn by (unfold next_io; by rewrite Hs).
  rewrite bind_assoc, (bind_run _ _ _ _ _ Hn). run. rewrite Hf. cbn [negb andb oc_ok good_outcome].
  rewrite bool_decide_true by done. cbn [negb]. unfold encode in Hf.
  destruct (fread_ud_u64 [] (Z.of_nat (length l)) (concat (encode_entry (bigendian s) <$> l))
              (host_bytes (bigendian s) 8 (uninstall_data_i s)) s Hs Hf) as (b & Hr & Hb);
    [unfold is_u64; lia|apply length_host_bytes|].
  change (Z.of_nat (length [])) with 0 in Hr. rewrite Hr, Hb. cbn [negb].
  destruct (Z.ltb_spec UNINSTALL_DATA_MAX (Z.of_nat (length l))) as [Hgt|_];
    [unfold UNINSTALL_DATA_MAX in Hgt; lia|].
  set (s1 := set_uninstall_data_i (Z.of_nat (length l)) s).
  destruct (load_entries_run l 0 ([] ++ host_bytes (bigendian s) 8 (Z.of_nat (length l))) s1)
    as (s2 & Hr2 & Hsd & Hcf & Hh2 & _ & l' & Hl & Hf2); [done| |done|lia|done|done|].
  { change (Z.of_nat 0) with 0. rewrite <- Hi. by destruct s. }
  rewrite Nat2Z.id. exists s2. split; [exact Hr2|].
  split_and!; [by destruct Hsd|by destruct Hcf|done|]. rewrite Hl. unfold log. simpl. done.
Qed.

End LimineStore.
