(* ===== verification/LimineInstall.v ===== *)
(** * limine.c: bios-install

    [validate_or_force] and [bios_install] of
    Platform/SDK/r4os/storage_tools/limine/limine.c and the two
    GPT structures they read.

    Between [device_init] and the label [cleanup] the code touches the device
    only through the macros [device_read] and [device_write], the final
    [device_flush_cache] and one [calloc]. That part is a [prog]: a tree of such
    calls, whose leaf [Cleanup] is [goto cleanup] and whose leaf [Undefined] is
    an access outside an array. A read names the size of the buffer it fills,
    and a write its buffer and how many bytes of it to write. [exec] runs it
    with the functions of [LimineDevice]. Messages and the flag [quiet] that only guards
    them are left out. *)

From S2P Require Import Prelude LimineArith LimineState LimineDevice LimineStore.

Module LimineInstall.
Export LimineStore.

Inductive prog (A : Type) : Type :=
| Ret (a : A)
| Cleanup
| Undefined
| DeviceRead (loc count : Z) (k : list byte → prog A)
| DeviceWrite (buffer : list byte) (loc count : Z) (k : prog A)
| FlushCache (k : prog A)
| Calloc (size : Z) (k : list byte → prog A).
Arguments Ret {A}.
Arguments Cleanup {A}.
Arguments Undefined {A}.
Arguments DeviceRead {A}.
Arguments DeviceWrite {A}.
Arguments FlushCache {A}.
Arguments Calloc {A}.

Fixpoint pbind {A B} (p : prog A) (f : A → prog B) : prog B :=
  match p with
  | Ret a => f a
  | Cleanup => Cleanup
  | Undefined => Undefined
  | DeviceRead loc count k => DeviceRead loc count (λ d, pbind (k d) f)
  | DeviceWrite buffer loc count k => DeviceWrite buffer loc count (pbind k f)
  | FlushCache k => FlushCache (pbind k f)
  | Calloc size k => Calloc size (λ d, pbind (k d) f)
  end.

#[global] Instance prog_ret : MRet prog := @Ret.
#[global] Instance prog_bind : MBind prog := λ A B f p, pbind p f.

(** The macros. [loc] is converted to [uint64_t] where it is passed. A read of
    [count] bytes into a buffer of [size] bytes must fit; that a write takes no
    more bytes than its buffer has is checked where they are copied. *)
Definition device_read (size loc count : Z) : prog (list byte) :=
  if size <? count then Undefined else DeviceRead loc count Ret.
Definition device_write (buffer : list byte) (loc count : Z) : prog () :=
  DeviceWrite buffer loc count (Ret ()).

(** The bytes of a buffer of [size] bytes that [memset(buffer, 0, n)] has made
    known, if they fit. *)
Definition memset_zero (size n : Z) : prog (list byte) :=
  if size <? n then Undefined else Ret (replicate (Z.to_nat n) x00).

(** [if (!device_flush_cache()) goto cleanup;] and
    [empty_lba = calloc(1, lb_size); if (empty_lba == NULL) goto cleanup;]. *)
Definition flush_cache : prog () := FlushCache (Ret ()).
Definition calloc_empty_lba (lb_size : Z) : prog (list byte) := Calloc lb_size Ret.

(** Running a program: [None] is the jump to [cleanup]. *)
Fixpoint exec {A} (p : prog A) : M (option A) :=
  match p with
  | Ret a => ret (Some a)
  | Cleanup => ret None
  | Undefined => ub
  | DeviceRead loc count k =>
      r <- _device_read (u64 loc) count ;;;
      match r with Some d => exec (k d) | None => ret None end
  | DeviceWrite buffer loc count k =>
      ok <- _device_write buffer (u64 loc) count ;;;
      if negb ok then ret None else exec k
  | FlushCache k =>
      ok <- device_flush_cache ;;;
      if negb ok then ret None else exec k
  | Calloc size k =>
      p <- malloc ;;;
      modify (set_empty_lba p) ;;;
      if bool_decide (p = 0%nat) then ret None else exec (k (replicate (Z.to_nat size) x00))
  end.

(** ** C library helpers *)

(** [!strncmp(a, b, n)]. *)
Fixpoint strncmp_eq (a b : list byte) (n : nat) {struct n} : bool :=
  match n with
  | O => true
  | S n =>
      match a, b with
      | x :: a, y :: b =>
          bool_decide (x = y) && (bool_decide (x = x00) || strncmp_eq a b n)
      | _, _ => false
      end
  end.

(** [memcmp(a, b, n) == 0]. *)
Definition memcmp_eq (a b : list byte) (n : nat) : bool := bool_decide (take n a = take n b).

Definition is_space (b : byte) : bool := (b2z b =? 32) || ((9 <=? b2z b) && (b2z b <=? 13)).
Definition digit (b : byte) : option Z :=
  if (48 <=? b2z b) && (b2z b <=? 57) then Some (b2z b - 48) else None.

Fixpoint digits (acc : Z) (s : list byte) : Z :=
  match s with
  | [] => acc
  | b :: s => match digit b with Some d => digits (10 * acc + d) s | None => acc end
  end.

Fixpoint skip_space (s : list byte) : list byte :=
  match s with
  | b :: s' => if is_space b then skip_space s' else s
  | [] => []
  end.

(** [sscanf(s, "%" SCNu32, &v) == 1], with the value of [v]. A number that does
    not fit is reduced modulo 2^32. *)
Definition sscanf_u32 (s : list byte) : option Z :=
  let s := skip_space s in
  let '(sign, s) := match s with
                    | b :: s' => if b2z b =? 45 then (-1, s')
                                 else if b2z b =? 43 then (1, s') else (1, s)
                    | [] => (1, s)
                    end in
  match s with
  | b :: _ => match digit b with Some _ => Some (u32 (sign * digits 0 s)) | None => None end
  | [] => None
  end.

(** ** GPT structures, as the bytes read from the device *)

Definition sizeof_gpt_table_header : Z := 96.
Definition sizeof_gpt_entry : Z := 128.

(** [ENDSWAP], whose operands have a size it knows. *)
Definition swap (be : bool) (size v : Z) : Z := default 1 (ENDSWAP be size v).

(** [ENDSWAP] of the [n]-byte integer field at [off] of a structure. *)
Definition field (be : bool) (off n : nat) (struct : list byte) : Z :=
  swap be (Z.of_nat n) (host_val be (slice off n struct)).

Section gpt.
Variable be : bool.
Definition alternate_lba := field be 32 8.
Definition partition_entry_lba := field be 72 8.
Definition number_of_partition_entries := field be 80 4.
Definition size_of_partition_entry := field be 84 4.
Definition partition_type_guid_1 := field be 0 8.
Definition partition_type_guid_2 := field be 8 8.
Definition unique_partition_guid_1 (e : list byte) : Z := host_val be (slice 16 8 e).
Definition unique_partition_guid_2 (e : list byte) : Z := host_val be (slice 24 8 e).
Definition starting_lba := field be 32 8.
Definition ending_lba := field be 40 8.
End gpt.

(** A field read above as it goes to the device: host bytes of the swapped value. *)
Definition store_field (be : bool) (n : nat) (v : Z) : list byte :=
  host_bytes be n (swap be (Z.of_nat n) v).

(** ** validate_or_force: [Cleanup] is [*err = true]. *)

Section install.
Variables (be force : bool).

(** [char hintc[64];] *)
Definition sizeof_hintc : Z := 64.

(** One hint: [n] bytes at [loc] that start like [magic]; with [--force] the
    first [m] bytes there are cleared, else the device is refused. *)
Definition check_hint (magic : list byte) (loc n m : Z) : prog bool :=
  hintc ← device_read sizeof_hintc loc n;
  if memcmp_eq hintc magic (Z.to_nat n) then
    if negb force then Ret false
    else
      hintc ← memset_zero sizeof_hintc m;
      _ ← device_write hintc loc m;
      Ret true
  else Ret true.

Definition validate_or_force (offset : Z) : prog bool :=
  ok ← check_hint (lit "NTFS") (offset + 3) 4 4;
  if negb ok then Ret false else
  ok ← check_hint (lit "FAT") (offset + 54) 3 5;
  if negb ok then Ret false else
  ok ← check_hint (lit "FAT") (offset + 82) 3 5;
  if negb ok then Ret false else
  ok ← check_hint (lit "FAT32") (offset + 3) 5 5;
  if negb ok then Ret false else
  b ← device_read 2 (offset + 1080) 2;
  let hint16 := swap be 2 (host_val be b) in
  if hint16 =? 0xef53 then
    if negb force then Ret false
    else
      _ ← device_write (store_field be 2 0) (offset + 1080) 2;
      Ret true
  else Ret true.

(** ** bios_install, between device_init and cleanup *)

Variables (gpt2mbr_allowed : bool) (part_ndx : option (list byte)).
Variables (img : list byte) (rand : nat → Z).

(** The GPT probe: the header found and its logical block size. *)
Fixpoint probe_gpt (lb_guesses : list Z) : prog (option (list byte * Z)) :=
  match lb_guesses with
  | [] => Ret None
  | g :: rest =>
      gpt_header ← device_read sizeof_gpt_table_header g sizeof_gpt_table_header;
      if strncmp_eq gpt_header (lit "EFI PART") 8 then Ret (Some (gpt_header, g))
      else probe_gpt rest
  end.

Definition check_secondary (gpt_header : list byte) (lb_size : Z) : prog () :=
  secondary ← device_read sizeof_gpt_table_header (lb_size * alternate_lba be gpt_header)
                 sizeof_gpt_table_header;
  if strncmp_eq secondary (lit "EFI PART") 8 then Ret () else Cleanup.

(** *** ISOHYBRID: converting the GPT to an MBR *)

Record part_to_conv := PartToConv {
  lba_start : Z;
  lba_end : Z;
  chs_start : list byte;
  chs_end : list byte;
  type : Z
}.

(** The array [part_to_conv[4]]. [parts] are its elements below
    [part_to_conv_i], and the element at [part_to_conv_i] is being filled. *)
Definition sizeof_part_to_conv : nat := 4.

(** The body of the gathering loop after the entry has been read;
    [None] is [goto no_mbr_conv]. *)
Definition conv_entry (gpt_entry : list byte) (parts : list part_to_conv)
    : prog (option (list part_to_conv)) :=
  if (unique_partition_guid_1 be gpt_entry =? 0) && (unique_partition_guid_2 be gpt_entry =? 0)
  then Ret (Some parts)
  else if bool_decide (length parts = 4%nat) then Ret None
  else if UINT32_MAX <? starting_lba be gpt_entry then Ret None
  else if bool_decide (sizeof_part_to_conv ≤ length parts)%nat then Undefined
  else
    let start := starting_lba be gpt_entry in
    if UINT32_MAX <? ending_lba be gpt_entry then Ret None
    else
      let stop := ending_lba be gpt_entry in
      if UINT32_MAX <? u64 (stop - start + 1) then Ret None
      else
        let ty := gpt2mbr_type (partition_type_guid_1 be gpt_entry)
                               (partition_type_guid_2 be gpt_entry) in
        if ty =? -1 then Ret None
        else Ret (Some (parts ++ [PartToConv start stop (lba2chs start) (lba2chs stop) (u8 ty)])).

(** [n] rounds of the gathering loop from entry [i] on. *)
Fixpoint gather_parts (n : nat) (i part_entry_base : Z) (gpt_header : list byte)
    (parts : list part_to_conv) : prog (option (list part_to_conv)) :=
  match n with
  | O => Ret (Some parts)
  | S n =>
      let '(entry_offset, overflow) :=
        add_u64_overflow part_entry_base (u64 (i * size_of_partition_entry be gpt_header)) in
      if overflow : bool then Ret None
      else
        gpt_entry ← device_read sizeof_gpt_entry entry_offset sizeof_gpt_entry;
        parts ← conv_entry gpt_entry parts;
        match parts with
        | None => Ret None
        | Some parts => gather_parts n (i + 1) part_entry_base gpt_header parts
        end
  end.

(** [n] writes of one empty logical block, at LBA [lba] and up. *)
Fixpoint nuke (empty_lba : list byte) (n : nat) (lba lb_size : Z) : prog () :=
  match n with
  | O => Ret ()
  | S n =>
      _ ← device_write empty_lba (lba * lb_size) lb_size;
      nuke empty_lba n (lba + 1) lb_size
  end.

Fixpoint write_disk_id (n : nat) (i : nat) : prog () :=
  match n with
  | O => Ret ()
  | S n =>
      _ ← device_write [z2b (rand i)] (0x1b8 + Z.of_nat i) 1;
      write_disk_id n (S i)
  end.

Fixpoint write_parts (i : Z) (parts : list part_to_conv) : prog () :=
  match parts with
  | [] => Ret ()
  | p :: parts =>
      _ ← device_write [z2b (type p)] (0x1be + i * 16 + 0x04) 1;
      _ ← device_write (store_field be 4 (u32 (lba_start p))) (0x1be + i * 16 + 0x08) 4;
      _ ← device_write (store_field be 4 (u32 (lba_end p - lba_start p + 1)))
                  (0x1be + i * 16 + 0x0c) 4;
      _ ← device_write (chs_start p) (0x1be + i * 16 + 1) 3;
      _ ← device_write (chs_end p) (0x1be + i * 16 + 5) 3;
      write_parts (i + 1) parts
  end.

Definition convert_to_mbr (gpt_header : list byte) (lb_size : Z) (parts : list part_to_conv)
    : prog () :=
  empty_lba ← calloc_empty_lba lb_size;
  _ ← nuke empty_lba 34 0 lb_size;
  let alt_lba := alternate_lba be gpt_header in
  _ ← (if 32 <=? alt_lba then nuke empty_lba 33 (alt_lba - 32) lb_size else Ret ());
  _ ← write_disk_id 4 0;
  write_parts 0 parts.

(** The whole ISOHYBRID block: [true] when the device is no longer GPT. *)
Definition isohybrid_conv (gpt_header : list byte) (lb_size : Z) : prog bool :=
  iso_signature ← device_read 5 32769 5;
  if negb (strncmp_eq iso_signature (lit "CD001") 5) then Ret false
  else
    let '(part_entry_base, overflow) :=
      mul_u64_overflow (partition_entry_lba be gpt_header) lb_size in
    if overflow : bool then Ret false
    else
      parts ← gather_parts (Z.to_nat (number_of_partition_entries be gpt_header)) 0
                      part_entry_base gpt_header [];
      match parts with
      | None => Ret false
      | Some parts => _ ← convert_to_mbr gpt_header lb_size parts; Ret true
      end.

(** *** MBR sanity checks *)

(** The checks of the partition entry at [base]; [Cleanup]: it starts too low. *)
Definition mbr_check_part (base : Z) (st : bool * bool) : prog (bool * bool) :=
  let '(mbr, any_active) := st in
  b ← device_read 1 base 1;
  let hint8 := host_val be b in
  '(mbr, hint8) ←
    (if negb (hint8 =? 0x00) && negb (hint8 =? 0x80) then
       if negb force then Ret (false, hint8)
       else
         let hint8 := Z.land hint8 0x80 in
         _ ← device_write [z2b hint8] base 1;
         Ret (mbr, hint8)
     else Ret (mbr, hint8));
  let any_active := any_active || negb (Z.land hint8 0x80 =? 0) in
  b ← device_read 1 (base + 4) 1;
  if negb (host_val be b =? 0x00) then
    b ← device_read 4 (base + 8) 4;
    let hint32 := swap be 4 (host_val be b) in
    if hint32 <? 63 then Cleanup else Ret (mbr, any_active)
  else Ret (mbr, any_active).

Definition mbr_checks : prog bool :=
  st ← mbr_check_part 446 (true, false);
  st ← mbr_check_part 462 st;
  st ← mbr_check_part 478 st;
  '(mbr, any_active) ← mbr_check_part 494 st;
  mbr ← (if mbr : bool then validate_or_force 0 else Ret false);
  if mbr && negb any_active then
    _ ← device_write [z2b 0x80] 446 1;
    Ret mbr
  else Ret mbr.

(** *** GPT: the partition that takes stage 2 *)

Definition BIOS_BOOT_GUID : list byte := lit "Hah!IdontNeedEFI".

(** The entry chosen on the command line. *)
Definition select_partition (ndx : list byte) (gpt_header : list byte) (base : Z)
    : prog (list byte) :=
  match sscanf_u32 ndx with
  | None => Cleanup
  | Some partition_num =>
      let partition_num := u32 (partition_num - 1) in
      if number_of_partition_entries be gpt_header <=? partition_num then Cleanup
      else
        let '(entry_off, overflow) :=
          add_u64_overflow base (u64 (partition_num * size_of_partition_entry be gpt_header)) in
        if overflow : bool then Cleanup
        else
          gpt_entry ← device_read sizeof_gpt_entry entry_off sizeof_gpt_entry;
          if (unique_partition_guid_1 be gpt_entry =? 0)
             && (unique_partition_guid_2 be gpt_entry =? 0) then Cleanup
          else if negb force && negb (memcmp_eq BIOS_BOOT_GUID gpt_entry 16) then Cleanup
          else Ret gpt_entry
  end.

(** The first entry of BIOS boot type. *)
Fixpoint autodetect (n : nat) (partition_num : Z) (gpt_header : list byte) (base : Z)
    : prog (list byte) :=
  match n with
  | O => Cleanup
  | S n =>
      let '(entry_off, overflow) :=
        add_u64_overflow base (u64 (partition_num * size_of_partition_entry be gpt_header)) in
      if overflow : bool then Cleanup
      else
        gpt_entry ← device_read sizeof_gpt_entry entry_off sizeof_gpt_entry;
        if memcmp_eq BIOS_BOOT_GUID gpt_entry 16 then Ret gpt_entry
        else autodetect n (partition_num + 1) gpt_header base
  end.

Definition gpt_stage2 (gpt_header : list byte) (lb_size : Z) : prog Z :=
  let '(base, overflow) := mul_u64_overflow (partition_entry_lba be gpt_header) lb_size in
  if overflow : bool then Cleanup
  else
    gpt_entry ←
      match part_ndx with
      | Some ndx => select_partition ndx gpt_header base
      | None => autodetect (Z.to_nat (number_of_partition_entries be gpt_header)) 0 gpt_header base
      end;
    let start := starting_lba be gpt_entry in
    let stop := ending_lba be gpt_entry in
    if stop <? start then Cleanup
    else
      let '(part_size, overflow) := mul_u64_overflow (u64 (stop - start + 1)) lb_size in
      if overflow : bool then Cleanup
      else if part_size <? 32768 then Cleanup
      else
        let '(stage2_loc, overflow) := mul_u64_overflow start lb_size in
        if overflow : bool then Cleanup
        else
          valid ← validate_or_force stage2_loc;
          if negb valid then Cleanup else Ret stage2_loc.

(** *** The writes *)

Definition write_stages (stage2_loc : Z) : prog () :=
  timestamp ← device_read 6 218 6;
  orig_mbr ← device_read 70 440 70;
  _ ← device_write img 0 512;
  _ ← device_write (drop 512 img) stage2_loc (Z.of_nat (length img) - 512);
  _ ← device_write (store_field be 8 stage2_loc) 0x1a4 8;
  _ ← device_write timestamp 218 6;
  _ ← device_write orig_mbr 440 70;
  flush_cache.

Definition install_prog : prog () :=
  gpt ← probe_gpt [512; 4096];
  gpt ←
    match gpt with
    | None => Ret None
    | Some (gpt_header, lb_size) =>
        _ ← check_secondary gpt_header lb_size;
        if gpt2mbr_allowed then
          converted ← isohybrid_conv gpt_header lb_size;
          if converted : bool then Ret None else Ret (Some (gpt_header, lb_size))
        else Ret (Some (gpt_header, lb_size))
    end;
  stage2_loc ←
    match gpt with
    | None => mbr ← mbr_checks; if mbr : bool then Ret 512 else Cleanup
    | Some (gpt_header, lb_size) => gpt_stage2 gpt_header lb_size
    end;
  write_stages stage2_loc.

End install.

(** ** The command line *)

Definition EXIT_SUCCESS : Z := 0.
Definition EXIT_FAILURE : Z := 1.

Definition streq (a : list byte) (b : string) : bool := bool_decide (a = lit b).

Record install_args := InstallArgs {
  ia_force : bool;
  ia_gpt2mbr_allowed : bool;
  ia_uninstall_mode : bool;
  ia_uninstall_file : option (list byte);
  ia_device : option (list byte);
  ia_part_ndx : option (list byte)
}.

Definition default_args : install_args := InstallArgs false true false None None None.

(** [inl code]: the function returns while it reads its arguments. The
    [memcmp] of 22 bytes goes past the terminating zero of a shorter argument;
    the zero already differs from the byte of the option there, so its result
    does not depend on what lies behind. *)
Fixpoint parse_args (fopen_ok : list byte → bool) (argv : list (list byte)) (a : install_args)
    : Z + install_args :=
  match argv with
  | [] => inr a
  | x :: argv =>
      let '(InstallArgs force conv un file dev part) := a in
      if streq x "--help" || streq x "-h" then inl EXIT_SUCCESS
      else if streq x "--quiet" then parse_args fopen_ok argv a
      else if streq x "--force" then
        parse_args fopen_ok argv (InstallArgs true conv un file dev part)
      else if streq x "--no-gpt-to-mbr-isohybrid-conversion" then
        parse_args fopen_ok argv (InstallArgs force false un file dev part)
      else if streq x "--uninstall" then
        parse_args fopen_ok argv (InstallArgs force conv true file dev part)
      else if memcmp_eq (x ++ [x00]) (lit "--uninstall-data-file=") 22 then
        if bool_decide (drop 22 x = []) then inl EXIT_FAILURE
        else parse_args fopen_ok argv (InstallArgs force conv un (Some (drop 22 x)) dev part)
      else
        match dev with
        | Some _ => parse_args fopen_ok argv (InstallArgs force conv un file dev (Some x))
        | None =>
            if fopen_ok x then parse_args fopen_ok argv (InstallArgs force conv un file (Some x) part)
            else inl EXIT_FAILURE
        end
  end.

(** ** bios_install *)

(** The label [uninstall_mode_cleanup]. *)
Definition uninstall_mode_cleanup : M () :=
  free_uninstall_data ;;;
  p <- gets empty_lba ;;;
  free p ;;;
  modify (set_cache []).

(** The label [cleanup], down to [uninstall_mode_cleanup]. *)
Definition cleanup (ok : bool) (has_file : bool) : M () :=
  reverse_uninstall_data ;;;
  (if negb ok then uninstall ;;; ret ()
   else if has_file then store_uninstall_data ;;; ret ()
   else ret ()) ;;;
  uninstall_mode_cleanup.

Definition run_uninstall (has_file : bool) : M bool :=
  if negb has_file then ret false
  else
    ok <- load_uninstall_data ;;;
    if negb ok then ret false else uninstall.

Definition exit_code (ok : bool) : Z := if ok then EXIT_SUCCESS else EXIT_FAILURE.

(** The function from [device_init] on. *)
Definition bios_install_main (img : list byte) (rand : nat → Z) (a : install_args) : M Z :=
  modify (set_empty_lba 0) ;;;
  ok <- device_init ;;;
  if negb ok then uninstall_mode_cleanup ;;; ret EXIT_FAILURE
  else
    let has_file := bool_decide (is_Some (ia_uninstall_file a)) in
    if ia_uninstall_mode a then
      ok <- run_uninstall has_file ;;;
      uninstall_mode_cleanup ;;;
      ret (exit_code ok)
    else
      be <- gets bigendian ;;;
      r <- exec (install_prog be (ia_force a) (ia_gpt2mbr_allowed a) (ia_part_ndx a) img rand) ;;;
      let ok := bool_decide (is_Some r) in
      cleanup ok has_file ;;;
      ret (exit_code ok).

Definition bios_install (fopen_ok : list byte → bool) (img : list byte) (rand : nat → Z)
    (argv : list (list byte)) : M Z :=
  if bool_decide (length argv < 2)%nat then ret EXIT_FAILURE
  else
    match parse_args fopen_ok (drop 1 argv) default_args with
    | inl code => ret code
    | inr a =>
        match ia_device a with
        | None => ret EXIT_FAILURE
        | Some _ => bios_install_main img rand a
        end
    end.

End LimineInstall.
