(* ===== verification/LimineExec.v ===== *)
(** * limine.c: what running an install program promises

    [DeviceLaws I F] is the contract between the device layer and
    [bios_install]: every device call started in a state of [I] ends without
    undefined behaviour, in [I] when it succeeds and in [F] when it fails, which
    is where the program jumps to [cleanup]. Two instances discharge it:
    [safe_laws] for every I/O schedule and [undo_laws orig] for a reliable
    device whose contents were [orig]. [exec_refines] relates a run to the same
    program on a plain array of bytes. *)

From S2P Require Import Prelude LimineArith LimineState LimineDevice LimineCache.
From S2P Require Import LimineUndo LimineRollback LimineStore LimineInstall.

Module LimineExec.
Export LimineInstall.

Class DeviceLaws (I F : state → Prop) : Prop := {
  dl_read loc count s : I s →
    ∃ r s', _device_read (u64 loc) count s = Some (r, s') ∧
      match r with Some d => I s' ∧ length d = Z.to_nat count | None => F s' end;
  dl_write buffer loc count s : 0 ≤ count ≤ Z.of_nat (length buffer) → I s →
    ∃ b s', _device_write buffer (u64 loc) count s = Some (b, s') ∧
      if b : bool then I s' else F s';
  dl_flush s : I s → ∃ b s', device_flush_cache s = Some (b, s') ∧ if b : bool then I s' else F s';
  dl_calloc s : I s →
    ∃ p s', malloc s = Some (p, s') ∧
      let s' := set_empty_lba p s' in if bool_decide (p = 0%nat) then F s' else I s';
  dl_stop s : I s → F s
}.

(** A program that writes no more bytes than its buffers have and never leaves
    an array, whatever it reads. *)
Fixpoint defined {A} (p : prog A) : Prop :=
  match p with
  | Ret _ | Cleanup => True
  | Undefined => False
  | DeviceRead _ count k => ∀ d, length d = Z.to_nat count → defined (k d)
  | DeviceWrite buffer _ count k => 0 ≤ count ≤ Z.of_nat (length buffer) ∧ defined k
  | FlushCache k => defined k
  | Calloc size k => defined (k (replicate (Z.to_nat size) x00))
  end.

(** Every such program keeps the contract. *)
Theorem exec_laws {I F} `{!DeviceLaws I F} {A} (p : prog A) s :
  defined p → I s → ∃ r s', exec p s = Some (r, s') ∧ match r with Some _ => I s' | None => F s' end.
Proof.
  revert s. induction p as [a| | |loc count k IH|buffer loc count k IH|k IH|size k IH]; intros s Hd Hs; cbn [exec].
  - by exists (Some a), s.
  - exists None, s. split; [done|]. by apply dl_stop.
  - done.
  - destruct (dl_read loc count s Hs) as (r & s1 & Hr & Hp). rewrite (bind_run _ _ _ _ _ Hr).
    destruct r as [d|]; [destruct Hp; by apply IH; [apply Hd|]|]. by exists None, s1.
  - destruct Hd as [Hc Hd]. destruct (dl_write buffer loc count s Hc Hs) as (b & s1 & Hr & Hp). rewrite (bind_run _ _ _ _ _ Hr).
    destruct b; [by apply IH|]. by exists None, s1.
  - destruct (dl_flush s Hs) as (b & s1 & Hr & Hp). rewrite (bind_run _ _ _ _ _ Hr).
    destruct b; [by apply IH|]. by exists None, s1.
  - destruct (dl_calloc s Hs) as (q & s1 & Hr & Hp). rewrite (bind_run _ _ _ _ _ Hr). run.
    case_bool_decide; [by exists None, (set_empty_lba q s1)|by apply IH].
Qed.

(** ** Any I/O schedule *)

Record safe (s : state) : Prop := {
  sf_un : uninstalling s = false;
  sf_io : io_ok s;
  sf_heap : heap_ok s
}.

Lemma safe_same_core s s' : same_core s s' → safe s → safe s'.
Proof.
  intros Hsc [Hu Hi Hh]. split.
  - by rewrite (sc_un _ _ Hsc).
  - by eapply io_ok_same.
  - eapply same_log_ok; [by apply same_core_log|done].
Qed.

Lemma safe_calloc s :
  safe s →
  ∃ p s', malloc s = Some (p, s') ∧ safe (set_empty_lba p s') ∧
    log (set_empty_lba p s') = log s ∧ same_disk s (set_empty_lba p s') ∧
    (io s = [] → p ≠ 0%nat ∧ io s' = []).
Proof.
  intros [Hu Hi Hh].
  destruct (malloc_fresh (uninstall_data_i s) s)
    as (p & s1 & Hr & Hsd & Hcf & Ha & Hi1 & Hnz & Hh1 & Hp); [by rewrite set_i_id|].
  exists p, s1. split; [done|]. rewrite <- Hi1, set_i_id in Hh1. rewrite set_i_id in Hp.
  assert (log s1 = log s) as Hlog by (unfold log; by rewrite Ha, Hi1).
  split_and!; [split| |..].
  - simpl. by rewrite (cf_un _ _ Hcf).
  - by destruct (same_disk_io_ok _ _ Hsd Hi); split.
  - destruct Hh1. split; try done. simpl. intros Hp0. destruct (Hp Hp0) as (? & ? & _).
    change (log (set_empty_lba p s1)) with (log s1). by rewrite Hlog.
  - done.
  - by destruct Hsd; split.
  - intros Hs. split; [by apply Hnz|by apply (cf_io _ _ Hcf)].
Qed.

#[global] Instance safe_laws : DeviceLaws safe safe.
Proof.
  split.
  - intros loc count s Hs.
    destruct (device_read_run (u64 loc) count s (sf_io s Hs)) as (r & s' & Hr & Hsc & Hlen & _).
    exists r, s'. split; [done|]. pose proof (safe_same_core _ _ Hsc Hs). destruct r; eauto.
  - intros buffer loc count s Hc [Hu Hi Hh].
    destruct (device_write_run buffer (u64 loc) count s)
      as (b & s' & Hr & Hcf & Hok & Hhp & _); [done|done|done|done|].
    exists b, s'. split; [done|].
    assert (safe s') by (split; [by rewrite (cf_un _ _ Hcf)|done|done]). by destruct b.
  - intros s Hs. destruct (device_flush_cache_run s (sf_io s Hs)) as (b & s' & Hr & Hsc & _).
    exists b, s'. split; [done|]. pose proof (safe_same_core _ _ Hsc Hs). by destruct b.
  - intros s Hs. destruct (safe_calloc s Hs) as (p & s' & Hr & Hs' & _).
    exists p, s'. split; [done|]. by case_bool_decide.
  - done.
Qed.

(** ** A reliable device that held [orig] *)

Record undo_stop (orig : list byte) (s : state) : Prop := {
  us_safe : safe s;
  us_io : io s = [];
  us_undo : undoable orig s
}.
Record undo_inv (orig : list byte) (s : state) : Prop := {
  ui_stop : undo_stop orig s;
  ui_wf : wf s;
  ui_view : agree_off (log s) orig (view s)
}.

(** A change of the device that only mixes in bytes of the view. *)
Lemma undoable_mix orig s s' :
  undoable orig s → agree_off (log s) orig (view s) → log s' = log s →
  block_size s' = block_size s → length (device s') = length (device s) →
  (∀ q, device s' !! q = device s !! q ∨ device s' !! q = view s !! q) → undoable orig s'.
Proof.
  intros [Hl Hd He Hr Ha] Hv Hlog Hbs Hlen Hmix. split; rewrite ?Hlog, ?Hlen; try done.
  - eapply Forall_impl; [exact He|]. intros e. by apply entry_ok_ext.
  - intros q Hq. destruct (Hmix q) as [-> | ->]; auto.
Qed.

Lemma mix_pick (d v d' : list byte) :
  d' = d ∨ d' = v → ∀ q, d' !! q = d !! q ∨ d' !! q = v !! q.
Proof. intros [-> | ->]; auto. Qed.

Lemma undo_read orig loc count s :
  undo_inv orig s →
  ∃ r s', _device_read (u64 loc) count s = Some (r, s') ∧
    match r with Some d => undo_inv orig s' ∧ length d = Z.to_nat count | None => undo_stop orig s' end.
Proof.
  intros [[Hs Hio Hu] Hwf Hv].
  destruct (device_read_run (u64 loc) count s (sf_io s Hs)) as (r & s' & Hr & Hsc & Hlen & Hrel).
  exists r, s'. split; [done|]. destruct (Hrel Hio Hwf (u64_range loc)) as (Hd & _ & Hres).
  assert (log s' = log s) as Hlog by (by apply log_same, same_core_log).
  assert (undo_stop orig s') as Hst.
  { split; [by eapply safe_same_core|by apply (sc_io _ _ Hsc)|].
    eapply undoable_mix; [done|done|done|apply Hsc| |by apply mix_pick].
    destruct Hd as [-> | ->]; [done|by apply length_view]. }
  destruct r as [d|]; [|done]. destruct (Hres d eq_refl) as (Hwf' & Hv' & _).
  split; [split; [done|done|]|by apply Hlen]. by rewrite Hlog, Hv'.
Qed.

Lemma undo_write orig buffer loc n s :
  0 ≤ n ≤ Z.of_nat (length buffer) → undo_inv orig s →
  ∃ b s', _device_write buffer (u64 loc) n s = Some (b, s') ∧
    if b : bool then undo_inv orig s' else undo_stop orig s'.
Proof.
  intros Hn [[[Hun Hok Hh] Hio Hu] Hwf Hv].
  destruct (device_write_run buffer (u64 loc) n s) as
    (b & s' & Hr & Hcf & Hok' & Hh' & Hfalse & Htrue & Hrel); [done|done|done|lia|].
  exists b, s'. split; [done|]. pose proof (u64_range loc) as Hloc.
  destruct (Hrel Hio Hwf Hloc) as (Hcov & Hlen & Hmix).
  assert (safe s') as Hs' by (split; [by rewrite (cf_un _ _ Hcf)|done|done]).
  destruct b.
  2: { split; [done|by apply (cf_io _ _ Hcf)|]. destruct (Hfalse eq_refl) as [Hlog _].
       eapply undoable_mix; [done|done|done|apply Hcf|done|]. intros q. apply Hmix. by intros [? _]. }
  destruct (Htrue eq_refl) as (Hi & _ & p & old & Hlog & Hol & Hold).
  destruct (Hold Hio Hwf Hloc) as (-> & Hwf' & Hv'). clear Hold Htrue Hfalse.
  assert (covered s (u64 loc) n) as Hc by (by apply Hcov).
  pose proof (io_bs s Hok) as Hbs. destruct Hu as [Hl Hd He Hre Ha].
  assert (n = 0 ∨ (Z.to_nat (u64 loc) + Z.to_nat n ≤ length (view s))%nat) as Hb.
  { rewrite length_view by done. unfold is_u64 in Hloc.
    destruct (covered_bound s (u64 loc) n ltac:(lia) Hc); [left; lia|right; lia]. }
  destruct (undo_snoc (log s) orig (view s) p (u64 loc) n Hre Hv) as [Hre' Hnone]; [lia|].
  rewrite <- Hlog in Hre', Hnone. split; [split; [done|by apply (cf_io _ _ Hcf)|split]|done|].
  - by rewrite Hlen.
  - by rewrite Hlen.
  - rewrite Hlog. apply Forall_app. split.
    + eapply Forall_impl; [exact He|]. intros e. apply entry_ok_ext; [apply Hcf|done].
    + apply Forall_singleton. split; simpl; [done|lia|done|]. apply (covered_ext s s'); [apply Hcf|done|done].
  - done.
  - intros q [Hq1 Hq2]%Hnone. destruct (Hmix q) as [-> | ->]; [|by apply Ha|by apply Hv].
    intros [_ ?]. apply Hq2. unfold is_u64 in Hloc. lia.
  - intros q [Hq1 Hq2]%Hnone. rewrite Hv'.
    unfold is_u64 in Hloc. destruct Hb as [-> |Hb].
    + change (take (Z.to_nat 0) buffer) with (@nil byte). rewrite splice_nil. by apply Hv.
    + rewrite lookup_splice_out by (rewrite length_take_le by lia; lia). by apply Hv.
Qed.

#[global] Instance undo_laws orig : DeviceLaws (undo_inv orig) (undo_stop orig).
Proof.
  split.
  - intros. by apply undo_read.
  - intros. by apply undo_write.
  - intros s [[Hs Hio Hu] Hwf Hv].
    destruct (device_flush_cache_run s (sf_io s Hs)) as (b & s' & Hr & Hsc & _ & _ & Hrel).
    exists b, s'. split; [done|]. destruct (Hrel Hio Hwf) as (-> & Hwf' & Hd & Hcs).
    assert (log s' = log s) as Hlog by (by apply log_same, same_core_log).
    split; [split; [by eapply safe_same_core|by apply (sc_io _ _ Hsc)|]|done|].
    + eapply undoable_mix; [done|done|done|apply Hsc| |apply mix_pick; by right].
      rewrite Hd. by apply length_view.
    + rewrite Hlog. unfold view. by rewrite Hcs, Hd.
  - intros s [[Hs Hio Hu] Hwf Hv]. destruct (safe_calloc s Hs) as (p & s' & Hr & Hs' & Hlog & Hsd & Hp).
    exists p, s'. split; [done|]. destruct (Hp Hio) as [Hp0 Hio']. rewrite bool_decide_false by done.
    split; [split; [done|done|]|by eapply same_disk_wf|].
    + eapply undoable_mix; [done|done|done|apply Hsd| |apply mix_pick; left; apply Hsd].
      by rewrite (sd_device _ _ Hsd).
    + by rewrite Hlog, (same_disk_view _ _ Hsd).
  - by intros s [].
Qed.

(** ** What no device call changes *)

Record host_conf (s0 s : state) : Prop := {
  hc_safe : safe s;
  hc_bs : block_size s = block_size s0;
  hc_be : bigendian s = bigendian s0;
  hc_udfile : udfile s = udfile s0
}.

Lemma host_conf_core s0 s s' : same_core s s' → host_conf s0 s → host_conf s0 s'.
Proof. intros Hsc [Hs ? ? ?]. pose proof (safe_same_core _ _ Hsc Hs). destruct Hsc. split; congruence. Qed.

#[global] Instance host_conf_laws s0 : DeviceLaws (host_conf s0) (host_conf s0).
Proof.
  split.
  - intros loc count s Hs.
    destruct (device_read_run (u64 loc) count s (sf_io s (hc_safe _ _ Hs))) as (r & s' & Hr & Hsc & Hlen & _).
    exists r, s'. split; [done|]. pose proof (host_conf_core _ _ _ Hsc Hs). destruct r; eauto.
  - intros buffer loc count s Hc [Hs ? ? ?]. destruct Hs as [Hu Hi Hh].
    destruct (device_write_run buffer (u64 loc) count s)
      as (b & s' & Hr & Hcf & Hok & Hhp & _); [done|done|done|done|].
    exists b, s'. split; [done|]. assert (host_conf s0 s'); [|by destruct b].
    destruct Hcf. split; [split; [congruence|done|done]|congruence..].
  - intros s Hs. destruct (device_flush_cache_run s (sf_io s (hc_safe _ _ Hs))) as (b & s' & Hr & Hsc & _).
    exists b, s'. split; [done|]. pose proof (host_conf_core _ _ _ Hsc Hs). by destruct b.
  - intros s [Hs ? ? ?]. destruct (safe_calloc s Hs) as (p & s' & Hr & Hs' & _).
    destruct (malloc_run s) as (p' & s'' & Hr' & _ & Hcf & _). rewrite Hr in Hr'. injection Hr' as <- <-.
    exists p, s'. split; [done|].
    assert (host_conf s0 (set_empty_lba p s')); [|by case_bool_decide].
    destruct Hcf. split; [done|simpl; congruence..].
  - done.
Qed.

End LimineExec.
