(* ===== verification/LimineBudget.v ===== *)
(** * limine.c: how many undo entries an install needs

    The undo log has [UNINSTALL_DATA_MAX] = 256 entries and every
    [device_write] takes one. [spec n p Q] says that the program [p] makes at
    most [n] writes, none of them empty and none of more bytes than its buffer
    has, that it never leaves an array, and that its result satisfies [Q];
    [install_prog_spec] shows it of the whole of [bios_install], with 106. *)

From S2P Require Import Prelude LimineArith LimineState LimineDevice LimineCache.
From S2P Require Import LimineUndo LimineRollback LimineStore LimineInstall LimineExec.

Module LimineBudget.
Export LimineExec.

Fixpoint spec {A} (n : nat) (p : prog A) (Q : A → Prop) : Prop :=
  match p with
  | Ret a => Q a
  | Cleanup => True
  | Undefined => False
  | DeviceRead _ count k => ∀ d, length d = Z.to_nat count → spec n (k d) Q
  | DeviceWrite buffer _ count k =>
      0 < count ≤ Z.of_nat (length buffer) ∧ match n with O => False | S n => spec n k Q end
  | FlushCache k => spec n k Q
  | Calloc size k => spec n (k (replicate (Z.to_nat size) x00)) Q
  end.

Lemma spec_defined {A} n (p : prog A) Q : spec n p Q → defined p.
Proof.
  revert n. induction p as [a| | |loc count k IH|buffer loc count k IH|k IH|size k IH]; intros n; simpl; eauto.
  intros [? Hs]. destruct n as [|n]; [done|]. split; [lia|]. by eapply IH.
Qed.

Lemma spec_mono {A} n m (p : prog A) (Q R : A → Prop) :
  (n ≤ m)%nat → (∀ a, Q a → R a) → spec n p Q → spec m p R.
Proof.
  revert n m. induction p as [a| | |loc count k IH|buffer loc count k IH|k IH|size k IH]; intros n m Hnm HQ; simpl.
  - apply HQ.
  - done.
  - done.
  - intros H d Hd. eapply IH; eauto.
  - destruct n as [|n]; [by intros [? []]|]. destruct m as [|m]; [lia|]. intros [? ?].
    split; [done|]. eapply (IH n m); [lia|done|done].
  - by apply IH.
  - by apply IH.
Qed.

Lemma spec_bind {A B} n m (p : prog A) (f : A → prog B) Q R :
  spec n p Q → (∀ a, Q a → spec m (f a) R) → spec (n + m) (p ≫= f) R.
Proof.
  intros Hp Hf. unfold mbind, prog_bind. revert n Hp.
  induction p as [a| | |loc count k IH|buffer loc count k IH|k IH|size k IH]; intros n; simpl.
  - intros Ha. eapply spec_mono; [|done|by apply Hf]. lia.
  - done.
  - done.
  - intros H d Hd. by apply IH, H.
  - intros [? H]. destruct n as [|n]; [done|]. split; [done|]. by apply IH.
  - by apply IH.
  - by apply IH.
Qed.

(** [p ≫= f] where the writes left to [f] are what [p] does not need. *)
Lemma spec_bind_le {A B} n m k (p : prog A) (f : A → prog B) Q R :
  (n + m ≤ k)%nat → spec n p Q → (∀ a, Q a → spec m (f a) R) → spec k (p ≫= f) R.
Proof. intros Hk Hp Hf. eapply spec_mono; [exact Hk|done|]. by eapply spec_bind. Qed.

Lemma spec_read {B} n size loc count (f : list byte → prog B) R :
  count ≤ size → (∀ d, length d = Z.to_nat count → spec n (f d) R) → spec n (device_read size loc count ≫= f) R.
Proof. intros Hs Hf. unfold device_read. rewrite (proj2 (Z.ltb_ge size count)) by done. exact Hf. Qed.

Lemma spec_write {B} n buffer loc count (f : () → prog B) R :
  0 < count ≤ Z.of_nat (length buffer) → spec n (f ()) R → spec (S n) (device_write buffer loc count ≫= f) R.
Proof. by split. Qed.

Lemma spec_write_last n buffer loc count (R : () → Prop) :
  0 < count ≤ Z.of_nat (length buffer) → R () → spec (S n) (device_write buffer loc count) R.
Proof. by split. Qed.

Lemma spec_memset {B} n size m (f : list byte → prog B) R :
  m ≤ size → spec n (f (replicate (Z.to_nat m) x00)) R → spec n (memset_zero size m ≫= f) R.
Proof. intros Hs Hf. unfold memset_zero. by rewrite (proj2 (Z.ltb_ge size m)) by done. Qed.

Lemma length_store_field be n v : length (store_field be n v) = n.
Proof. apply length_host_bytes. Qed.

(** One step of a program: a read into a buffer, a write of bytes that its
    buffer has, or a branch. *)
Ltac buffer_has :=
  rewrite ?length_replicate, ?length_drop, ?length_store_field; cbn [length]; lia.
Ltac spec_step :=
  match goal with
  | |- spec _ (device_read _ _ _ ≫= _) _ => apply spec_read; [done|intros ? ?]
  | |- spec (S _) (device_write _ _ _ ≫= _) _ => apply spec_write; [buffer_has|]
  | |- spec (S _) (device_write _ _ _) _ => apply spec_write_last; [buffer_has|]
  | |- spec _ (match ?c with _ => _ end) _ => destruct c eqn:?
  | |- spec _ (Ret _) _ => simpl
  | |- spec _ Cleanup _ => exact I
  end.

Section install.
Variables (be force gpt2mbr_allowed : bool) (part_ndx : option (list byte)).
Variables (img : list byte) (rand : nat → Z).

Lemma check_hint_spec magic loc n m :
  n ≤ 64 → 0 < m ≤ 64 → spec 1 (check_hint force magic loc n m) (λ _, True).
Proof.
  intros Hn Hm. unfold check_hint. apply spec_read; [done|]. intros hintc _. spec_step; [|done].
  spec_step; [done|]. apply spec_memset; [unfold sizeof_hintc; lia|]. by repeat spec_step.
Qed.

Lemma validate_or_force_spec offset : spec 5 (validate_or_force be force offset) (λ _, True).
Proof.
  unfold validate_or_force.
  do 4 (eapply (spec_bind 1); [by apply check_hint_spec|]; intros ? _; spec_step; [done|]).
  repeat spec_step; done.
Qed.

Lemma probe_gpt_spec gs :
  Forall (λ g, 512 ≤ g) gs →
  spec 0 (probe_gpt gs) (λ r, ∀ h g, r = Some (h, g) → 512 ≤ g).
Proof.
  induction 1 as [|g gs Hg Hgs IH]; cbn [probe_gpt]; [done|]. spec_step. spec_step; [|done].
  intros h g' [= -> <-]. done.
Qed.

Lemma nuke_spec empty_lba n lba lb_size :
  0 < lb_size ≤ Z.of_nat (length empty_lba) → spec n (nuke empty_lba n lba lb_size) (λ _, True).
Proof.
  intros Hlb. revert lba. induction n as [|n IH]; intros lba; [done|]. cbn [nuke].
  spec_step. apply IH.
Qed.

Lemma write_disk_id_spec n i : spec n (write_disk_id rand n i) (λ _, True).
Proof. revert i. induction n as [|n IH]; intros i; [done|]. cbn [write_disk_id]. spec_step. apply IH. Qed.

Definition part_wf (p : part_to_conv) : Prop :=
  length (chs_start p) = 3%nat ∧ length (chs_end p) = 3%nat.

Lemma length_lba2chs lba : length (lba2chs lba) = 3%nat.
Proof. unfold lba2chs. by repeat destruct (_ <? _); repeat destruct (_ <=? _). Qed.

Definition parts_wf (ps : list part_to_conv) : Prop :=
  (length ps ≤ sizeof_part_to_conv)%nat ∧ Forall part_wf ps.

Lemma conv_entry_spec e parts :
  parts_wf parts → spec 0 (conv_entry be e parts) (λ r, ∀ ps, r = Some ps → parts_wf ps).
Proof.
  unfold sizeof_part_to_conv. intros [Hl Hw]. unfold conv_entry. spec_step; [by intros ps [= <-]|].
  case_bool_decide; [done|]. spec_step; [done|].
  rewrite bool_decide_false by (unfold sizeof_part_to_conv in *; lia). cbv zeta.
  do 3 (spec_step; [done|]). intros ps [= <-]. split; [rewrite length_app; unfold sizeof_part_to_conv in *; simpl; lia|].
  apply Forall_app. split; [done|]. apply Forall_singleton. split; apply length_lba2chs.
Qed.

Lemma gather_parts_spec n i base h parts :
  parts_wf parts → spec 0 (gather_parts be n i base h parts) (λ r, ∀ ps, r = Some ps → parts_wf ps).
Proof.
  revert i parts. induction n as [|n IH]; intros i parts Hw; cbn [gather_parts].
  { by intros ps [= <-]. }
  destruct (add_u64_overflow _ _) as [off [|]]; [done|]. spec_step.
  eapply (spec_bind 0 0); [by apply conv_entry_spec|]. intros [parts'|] Hw'; [|done]. by apply IH, Hw'.
Qed.

Lemma write_parts_spec parts i :
  Forall part_wf parts → spec (5 * length parts) (write_parts be i parts) (λ _, True).
Proof.
  intros Hw. revert i. induction Hw as [|p parts [H1 H2] _ IH]; intros i; [done|].
  cbn [length write_parts]. replace (5 * S (length parts))%nat with (S (S (S (S (S (5 * length parts))))))%nat by lia.
  do 5 spec_step. apply IH.
Qed.

Lemma isohybrid_conv_spec h lb_size :
  512 ≤ lb_size → spec 91 (isohybrid_conv be rand h lb_size) (λ _, True).
Proof.
  intros Hlb. unfold isohybrid_conv. spec_step. spec_step; [done|].
  destruct (mul_u64_overflow _ _) as [base [|]]; [done|].
  eapply (spec_bind 0); [apply gather_parts_spec; split; [unfold sizeof_part_to_conv; simpl; lia|done]|].
  intros parts Hps.
  destruct parts as [parts|]; [|done]. destruct (Hps _ eq_refl) as [Hl Hw]. unfold sizeof_part_to_conv in Hl.
  eapply (spec_bind_le 91 0); [lia| |done]. unfold convert_to_mbr.
  eapply (spec_bind_le 0 91) with (Q := λ buf, Z.of_nat (length buf) = lb_size);
    [lia|simpl; rewrite length_replicate; lia|]. intros buf Hbuf.
  eapply (spec_bind_le 34 57); [lia|apply nuke_spec; lia|]. intros _ _.
  eapply (spec_bind_le 33 24) with (Q := λ _, True); [lia|spec_step; [apply nuke_spec; lia|done]|].
  intros _ _. eapply (spec_bind_le 4 20); [lia|apply write_disk_id_spec|]. intros _ _.
  eapply spec_mono; [|done|by apply write_parts_spec]. lia.
Qed.

Lemma mbr_check_part_spec base st : spec 1 (mbr_check_part be force base st) (λ _, True).
Proof.
  unfold mbr_check_part. destruct st as [mbr act]. spec_step.
  eapply (spec_bind_le 1 0) with (Q := λ _, True); [lia|repeat spec_step; done|].
  intros [mbr' hint8] _. repeat spec_step; done.
Qed.

Lemma mbr_checks_spec : spec 10 (mbr_checks be force) (λ _, True).
Proof.
  unfold mbr_checks.
  do 3 (eapply (spec_bind 1); [apply mbr_check_part_spec|]; intros ? _).
  eapply (spec_bind 1); [apply mbr_check_part_spec|]. intros [mbr act] _.
  eapply (spec_bind_le 5 1) with (Q := λ _, True); [lia|spec_step; [apply validate_or_force_spec|done]|].
  intros ? _. repeat spec_step; done.
Qed.

Lemma select_partition_spec ndx h base : spec 0 (select_partition be force ndx h base) (λ _, True).
Proof.
  unfold select_partition. spec_step; [|done]. cbv zeta. spec_step; [done|].
  destruct (add_u64_overflow _ _) as [off [|]]; [done|]. repeat spec_step; done.
Qed.

Lemma autodetect_spec n i h base : spec 0 (autodetect be n i h base) (λ _, True).
Proof.
  revert i. induction n as [|n IH]; intros i; [done|]. cbn [autodetect].
  destruct (add_u64_overflow _ _) as [off [|]]; [done|]. spec_step. spec_step; [done|apply IH].
Qed.

Lemma gpt_stage2_spec h lb_size : spec 5 (gpt_stage2 be force part_ndx h lb_size) (λ _, True).
Proof.
  unfold gpt_stage2. destruct (mul_u64_overflow _ _) as [base [|]]; [done|].
  eapply (spec_bind 0) with (Q := λ _, True).
  { destruct part_ndx; [apply select_partition_spec|apply autodetect_spec]. }
  intros e _. cbv zeta. spec_step; [done|].
  destruct (mul_u64_overflow _ _) as [sz [|]]; [done|]. spec_step; [done|].
  destruct (mul_u64_overflow _ _) as [loc [|]]; [done|].
  eapply (spec_bind_le 5 0); [lia|apply validate_or_force_spec|]. intros ? _. by repeat spec_step.
Qed.

Lemma write_stages_spec loc :
  512 < Z.of_nat (length img) → spec 5 (write_stages be img loc) (λ _, True).
Proof. intros Hi. unfold write_stages. do 7 spec_step. done. Qed.

Lemma install_prog_spec :
  512 < Z.of_nat (length img) →
  spec 106 (install_prog be force gpt2mbr_allowed part_ndx img rand) (λ _, True).
Proof.
  intros Hi. unfold install_prog.
  eapply (spec_bind 0); [apply probe_gpt_spec; by repeat constructor|]. intros gpt Hg.
  eapply (spec_bind_le 91 15) with (Q := λ _, True); [lia| |].
  { destruct gpt as [[h g]|]; [|done]. specialize (Hg _ _ eq_refl).
    eapply (spec_bind_le 0 91) with (Q := λ _, True); [lia|unfold check_secondary; repeat spec_step; done|].
    intros _ _. spec_step; [|done].
    eapply (spec_bind_le 91 0); [lia|by apply isohybrid_conv_spec|]. intros ? _. by repeat spec_step. }
  intros gpt' _. eapply (spec_bind_le 10 5) with (Q := λ _, True); [lia| |].
  - destruct gpt' as [[h g]|]; [eapply spec_mono; [|done|apply gpt_stage2_spec]; lia|].
    eapply (spec_bind_le 10 0); [lia|apply mbr_checks_spec|]. intros ? _. by repeat spec_step.
  - intros loc _. by apply write_stages_spec.
Qed.

Lemma install_prog_defined :
  512 < Z.of_nat (length img) → defined (install_prog be force gpt2mbr_allowed part_ndx img rand).
Proof. intros Hi. eapply spec_defined, install_prog_spec, Hi. Qed.
End install.

End LimineBudget.
