(* ===== verification/LimineMain.v ===== *)
(** * limine.c: bios-install and --uninstall as whole commands

    Theorems about [bios_install_main] run in a new process: no undefined
    behaviour whatever I/O fails, a failed install undone to the last byte on a
    reliable device, and install followed by --uninstall the identity. *)

From S2P Require Import Prelude LimineArith LimineState LimineDevice LimineCache.
From S2P Require Import LimineUndo LimineRollback LimineStore LimineInstall LimineExec.
From S2P Require Import LimineBudget.

Module LimineMain.
Export LimineBudget.

(** The static storage of a process that starts. *)
Record fresh (s : state) : Prop := {
  fr_host : host_ok s;
  fr_un : uninstalling s = false;
  fr_arr : uninstall_data_arr s = replicate 256 ud_zero;
  fr_i : uninstall_data_i s = 0;
  fr_live : live s = ∅
}.

(** What [device_init] leaves alone. *)
Record same_mem (s s' : state) : Prop := {
  sm_device : device s' = device s;
  sm_un : uninstalling s' = uninstalling s;
  sm_udfile : udfile s' = udfile s;
  sm_long : long_size s' = long_size s;
  sm_be : bigendian s' = bigendian s;
  sm_log : same_log s s';
  sm_io : io s = [] → io s' = []
}.

#[global] Instance same_mem_preorder : PreOrder same_mem.
Proof.
  split; [by split|]. intros s1 s2 s3 [? ? ? ? ? [] ?] [? ? ? ? ? [] ?].
  split; [congruence..| |auto]. split; congruence.
Qed.

(** ** device_init *)

Lemma realloc_cache_run n s :
  0 ≤ n →
  ∃ b s', realloc_cache n s = Some (b, s') ∧ same_mem s s' ∧
    (b = true → length (cache s') = Z.to_nat n) ∧ (io s = [] → b = true).
Proof.
  intros Hn. unfold realloc_cache. destruct (next_io_run s) as (o & io' & Hr & Hio).
  rewrite (bind_run _ _ _ _ _ Hr). destruct (oc_ok o) eqn:E; run; eexists _, _; (split; [done|]).
  - split_and!; [split; try done; simpl; intros Hs; by apply Hio| |done].
    intros _. simpl. len.
  - split_and!; [split; try done; simpl; intros Hs; by apply Hio|done|].
    intros Hs. destruct (Hio Hs) as [-> _]. done.
Qed.

(** The read of one guess, from the start of the device. *)
Lemma fread_first_run n s :
  0 < n → length (cache s) = Z.to_nat n → fpos s = 0 →
  ∃ b s', fread_cache n s = Some (b, s') ∧ same_mem s s' ∧
    (b = true → cache s' = slice 0 (Z.to_nat n) (device s) ∧ n ≤ Z.of_nat (length (device s))) ∧
    (io s = [] → n ≤ Z.of_nat (length (device s)) → b = true).
Proof.
  intros Hn Hc Hp. unfold fread_cache. destruct (next_io_run s) as (o & io' & Hr & Hio).
  rewrite (bind_run _ _ _ _ _ Hr). run. simpl. rewrite bool_decide_false by lia.
  eexists _, _. split; [done|]. split; [split; try done; simpl; intros Hs; by apply Hio|].
  rewrite Hp. change (Z.to_nat 0) with 0%nat. split.
  - intros [Ho Hl%Z.eqb_eq]%andb_true_iff. rewrite Ho in *. simpl.
    rewrite splice_0_full by lia. split; [done|]. unfold slice in Hl. len.
  - intros Hs Hle. destruct (Hio Hs) as [-> _]. simpl. apply Z.eqb_eq.
    rewrite length_slice by lia. lia.
Qed.

(** A cache that holds the first block of the device. *)
Record opened (s : state) : Prop := {
  op_io : io_ok s;
  op_cs : cache_state s = CACHE_CLEAN;
  op_cb : cached_block s = 0;
  op_len : block_size s ≤ Z.of_nat (length (device s));
  op_cache : cache s = slice 0 (Z.to_nat (block_size s)) (device s)
}.

Lemma opened_wf s : opened s → Z.of_nat (length (device s)) ≤ OFF_MAX → wf s ∧ view s = device s.
Proof.
  intros [Hio Hcs Hcb Hl Hc] Hd. split; [|unfold view; by rewrite Hcs].
  apply (wf_fill s 0); [done|split; lia|done|done|done].
Qed.

Lemma device_init_guesses_run gs s :
  host_ok s → Forall (λ g, 512 ≤ g ≤ 4096) gs →
  ∃ b s', device_init_guesses gs s = Some (b, s') ∧ same_mem s s' ∧
    (b = true → opened s' ∧ block_size s' ∈ gs) ∧
    (io s = [] → b = true ↔ ∃ g, g ∈ gs ∧ g ≤ Z.of_nat (length (device s))) ∧
    (io s = [] → ∀ g, head gs = Some g → g ≤ Z.of_nat (length (device s)) → block_size s' = g).
Proof.
  intros Hh Hg. revert s Hh. induction Hg as [|g gs Hg Hgs IH]; intros s Hh.
  { exists false, s. split_and!; try done; [|done..]. intros _. split; [done|].
    by intros (g & ?%not_elem_of_nil & _). }
  cbn [device_init_guesses].
  destruct (realloc_cache_run g s) as (b & s1 & Hr & Hsm & Hlen & Hrel); [lia|].
  rewrite (bind_run _ _ _ _ _ Hr). destruct b; cbn [negb].
  2: { exists false, s1. split_and!; try done; intros Hs; by apply Hrel in Hs. }
  unfold rewind. run. set (s2 := set_fpos 0 s1).
  destruct (fread_first_run g s2) as (b & s3 & -> & Hsm3 & Hb & Hrel3); [lia|by apply Hlen|done|].
  assert (same_mem s s3) as Hsm13 by (etrans; [done|]; etrans; [|exact Hsm3]; by split).
  assert (host_ok s3) as Hh3 by (unfold host_ok in *; by rewrite (sm_long _ _ Hsm13)).
  destruct b; cbn [negb].
  - destruct (Hb eq_refl) as [Hc Hle]. change (device s2) with (device s1) in *.
    rewrite (sm_device _ _ Hsm) in Hc, Hle. eexists _, _. split; [done|]. split_and!.
    + etrans; [exact Hsm13|]. by split.
    + intros _. split; [|simpl; by left].
      split; simpl; rewrite ?(sm_device _ _ Hsm13); try done.
      split; [done|simpl; lia|]. simpl. rewrite Hc, length_slice; lia.
    + intros _. split; [|done]. intros _. exists g. split; [by left|done].
    + by intros _ ? [= ->] _.
  - destruct (IH s3 Hh3) as (b & s4 & -> & Hsm4 & Hb4 & Hrel4). exists b, s4. split; [done|].
    destruct Hrel4 as [Hrel4 _].
    assert (io s = [] → ¬ g ≤ Z.of_nat (length (device s))) as Hno.
    { intros Hs Hle. assert (false = true); [|done]. apply Hrel3; [by apply (sm_io _ _ Hsm)|].
      change (device s2) with (device s1). by rewrite (sm_device _ _ Hsm). }
    split_and!; [by etrans| | |].
    + intros Hb'. destruct (Hb4 Hb'). split; [done|by right].
    + intros Hs. rewrite (Hrel4 (sm_io _ _ Hsm13 Hs)), (sm_device _ _ Hsm13).
      split; intros (g' & Hin & Hle); [exists g'; split; [by right|done]|].
      apply elem_of_cons in Hin as [-> |Hin]; [by apply Hno in Hs|by exists g'].
    + intros Hs g' [= <-] Hle. by apply Hno in Hs.
Qed.

Lemma device_init_run s :
  host_ok s →
  ∃ b s', device_init s = Some (b, s') ∧ same_mem s s' ∧ (b = true → opened s') ∧
    (io s = [] → b = true ↔ 512 ≤ Z.of_nat (length (device s))) ∧
    (io s = [] → b = true → block_size s' = 512).
Proof.
  intros Hh. destruct (device_init_guesses_run [512; 2048; 4096] s Hh)
    as (b & s' & Hr & Hsm & Hb & Hrel & H512).
  { by repeat constructor. }
  assert (io s = [] → b = true ↔ 512 ≤ Z.of_nat (length (device s))) as Hiff.
  2: { exists b, s'. split_and!; [done|done|by intros [? _]%Hb|done|].
       intros Hs Hbt. apply (H512 Hs); [done|]. by apply (Hiff Hs). }
  intros Hs. rewrite (Hrel Hs). split.
  - intros (g & Hin & Hle).
    repeat (apply elem_of_cons in Hin as [-> |Hin]; [lia|]). by apply not_elem_of_nil in Hin.
  - intros. exists 512. split; [by left|done].
Qed.

(** ** Writes an install makes *)

Definition nonempty_entry (e : uninstall_data) : Prop := 0 < ud_count e.

Lemma exec_budget {A} n (p : prog A) Q s r s' :
  spec n p Q → safe s → exec p s = Some (r, s') →
  uninstall_data_i s' ≤ uninstall_data_i s + Z.of_nat n ∧
  (Forall nonempty_entry (log s) → Forall nonempty_entry (log s')).
Proof.
  revert n s. induction p as [a| | |loc count k IH|buffer loc count k IH|k IH|size k IH]; intros n s Hsp Hs; cbn [exec].
  - intros [= <- <-]. split; [lia|done].
  - intros [= <- <-]. split; [lia|done].
  - done.
  - destruct (device_read_run (u64 loc) count s (sf_io s Hs)) as (r1 & s1 & Hr & Hsc & Hlen & _).
    rewrite (bind_run _ _ _ _ _ Hr).
    assert (log s1 = log s) as Hlog by (by apply log_same, same_core_log).
    rewrite <- (sc_i _ _ Hsc), <- Hlog. destruct r1 as [d|]; [|intros [= <- <-]; split; [lia|done]].
    apply IH; [by apply Hsp, Hlen|by eapply safe_same_core].
  - destruct Hsp as [Hb Hn]. destruct n as [|n]; [done|]. destruct Hs as [Hu Hi Hh].
    destruct (device_write_run buffer (u64 loc) count s)
      as (b & s1 & Hr & Hcf & Hok & Hhp & Hf & Ht & _); [done|done|done|lia|].
    rewrite (bind_run _ _ _ _ _ Hr). destruct b; cbn [negb].
    + destruct (Ht eq_refl) as (_ & Hi1 & q & old & Hlog & _). intros Hex.
      destruct (IH n s1 Hn) as [H1 H2]; [split; [by rewrite (cf_un _ _ Hcf)|done|done]|done|].
      split; [lia|]. intros Hne. apply H2. rewrite Hlog. apply Forall_app. split; [done|].
      apply Forall_singleton. unfold nonempty_entry. simpl. lia.
    + intros [= <- <-]. destruct (Hf eq_refl) as [-> ->]. split; [lia|done].
  - destruct (device_flush_cache_run s (sf_io s Hs)) as (b & s1 & Hr & Hsc & _).
    rewrite (bind_run _ _ _ _ _ Hr).
    assert (log s1 = log s) as Hlog by (by apply log_same, same_core_log).
    rewrite <- (sc_i _ _ Hsc), <- Hlog. destruct b; cbn [negb]; [|intros [= <- <-]; split; [lia|done]].
    apply IH; [done|by eapply safe_same_core].
  - destruct (malloc_run s) as (q & s1 & Hr & _ & _ & Ha & Hi & _).
    destruct (safe_calloc s Hs) as (q' & s1' & Hr' & Hs' & Hlog & _).
    rewrite Hr in Hr'. injection Hr' as <- <-.
    rewrite (bind_run _ _ _ _ _ Hr). run. rewrite <- Hi, <- Hlog.
    case_bool_decide; [intros [= <- <-]; split; [simpl; lia|done]|].
    exact (IH _ n (set_empty_lba q s1) Hsp Hs').
Qed.

(** ** The labels at the end *)

Lemma uninstall_mode_cleanup_run s :
  heap_ok s → ∃ s', uninstall_mode_cleanup s = Some ((), s') ∧ device s' = device s ∧ udfile s' = udfile s.
Proof.
  intros Hh. unfold uninstall_mode_cleanup.
  destruct (free_uninstall_data_run s Hh) as (l & Hr & Hl). rewrite (bind_run _ _ _ _ _ Hr). run.
  destruct (decide (empty_lba s = 0%nat)) as [Hz|Hz].
  - unfold free. simpl. rewrite bool_decide_true by done. by eexists.
  - rewrite free_run; [by eexists|by apply Hl|done].
Qed.

Lemma cleanup_run ok has_file s :
  io_ok s → heap_ok s →
  ∃ s', cleanup ok has_file s = Some ((), s') ∧
    (ok = true → device s' = device s) ∧
    (ok = false → ∀ orig, io s = [] → undoable orig s → device s' = orig) ∧
    (ok = true → has_file = true → io s = [] → Forall storable (log s) →
       udfile s' = Some (encode (bigendian s) (reverse (log s)))).
Proof.
  intros Hok Hh. unfold cleanup.
  destruct (reverse_uninstall_data_run s Hh) as (s1 & Hr & Hsd & Hcf & Hh1 & Hlog & Hd).
  rewrite (bind_run _ _ _ _ _ Hr). pose proof (same_disk_io_ok _ _ Hsd Hok) as Hok1.
  destruct ok; cbn [negb]; [destruct has_file|].
  - destruct (store_uninstall_data_run s1 Hh1) as (b & s2 & Hr2 & Hf & Hst).
    rewrite bind_assoc, (bind_run _ _ _ _ _ Hr2). run.
    destruct (file_only_log _ _ Hf) as (Hsl & Hsd2 & _).
    destruct (uninstall_mode_cleanup_run s2) as (s3 & -> & Hd3 & Hu3); [by eapply same_log_ok|].
    exists s3. split_and!; [done| |done|].
    + intros _. by rewrite Hd3, (sd_device _ _ Hsd2), Hd.
    + intros _ _ Hs Hal. destruct (Hst (cf_io _ _ Hcf Hs)) as [_ ->].
      { rewrite Hlog. by apply Forall_reverse. }
      rewrite Hu3. simpl. by rewrite Hlog, (cf_be _ _ Hcf).
  - run. destruct (uninstall_mode_cleanup_run s1 Hh1) as (s2 & -> & Hd2 & _).
    exists s2. split_and!; [done| |done|done]. intros _. by rewrite Hd2, Hd.
  - destruct (uninstall_run s1 Hok1 Hh1) as (b & s2 & Hr2 & Hh2 & _ & _ & _ & _ & _ & Hrel).
    rewrite bind_assoc, (bind_run _ _ _ _ _ Hr2). run.
    destruct (uninstall_mode_cleanup_run s2 Hh2) as (s3 & -> & Hd3 & _).
    exists s3. split_and!; [done|done| |done]. intros _ orig Hs Hu.
    destruct Hrel as [_ Hdev]; [by apply (cf_io _ _ Hcf)|rewrite Hd; apply Hu| |].
    + rewrite Hlog. apply Forall_reverse. eapply Forall_impl; [apply Hu|]. intros e.
      apply entry_ok_ext; [apply Hcf|by rewrite Hd].
    + rewrite Hd3, Hdev, Hlog, Hd. by apply undoable_apply.
Qed.

(** ** The command *)

Lemma fresh_heap s : fresh s → heap_ok (set_empty_lba 0 s) ∧ log (set_empty_lba 0 s) = [].
Proof.
  intros [Hh Hu Ha Hi Hl].
  assert (log (set_empty_lba 0 s) = []) as Hlog by (unfold log; simpl; by rewrite Hi).
  split; [|done]. split; rewrite ?Hlog; simpl; rewrite ?Ha, ?Hi, ?Hl; try done.
  - by intros e ?%not_elem_of_nil.
  - constructor.
  - by intros e ?%not_elem_of_nil.
Qed.

(** From the moment the device is open, no call fails without a reason. *)
Definition reliable_once_open (s : state) : Prop :=
  ∀ s0, device_init (set_empty_lba 0 s) = Some (true, s0) → io s0 = [].

(** The state in which the installation proper starts. *)
Lemma start_run s :
  fresh s →
  ∃ b s0, device_init (set_empty_lba 0 s) = Some (b, s0) ∧ device s0 = device s ∧
    udfile s0 = udfile s ∧ bigendian s0 = bigendian s ∧ heap_ok s0 ∧ log s0 = [] ∧ uninstall_data_i s0 = 0 ∧
    (b = true → safe s0) ∧
    (b = true → io s0 = [] → Z.of_nat (length (device s)) ≤ OFF_MAX →
       undo_inv (device s) s0 ∧ view s0 = device s) ∧
    (io s = [] → io s0 = [] ∧ (b = true ↔ 512 ≤ Z.of_nat (length (device s))) ∧
                 (b = true → block_size s0 = 512)).
Proof.
  intros Hf. destruct (fresh_heap s Hf) as [Hh Hlog].
  destruct (device_init_run (set_empty_lba 0 s)) as (b & s0 & Hr & Hsm & Hop & Hrel & H512); [apply Hf|].
  assert (device s0 = device s) as Hd by apply (sm_device _ _ Hsm).
  pose proof (log_same _ _ (sm_log _ _ Hsm)) as Hlog0. rewrite Hlog in Hlog0.
  pose proof (same_log_ok _ _ (sm_log _ _ Hsm) Hh) as Hh0.
  assert (b = true → safe s0) as Hsafe.
  { intros Hb. split; [rewrite (sm_un _ _ Hsm); apply Hf|by apply op_io, Hop|done]. }
  exists b, s0. split_and!; [done|apply Hsm|apply Hsm|apply Hsm|done|done| |done| |].
  - rewrite (sl_i _ _ (sm_log _ _ Hsm)). apply Hf.
  - intros Hb Hio Hdev. rewrite <- Hd in Hdev.
    destruct (opened_wf s0 (Hop Hb) Hdev) as [Hwf Hv]. rewrite Hd in Hv.
    split; [|done]. split; [split; [by apply Hsafe|done|split]|done|].
    + by rewrite Hd.
    + done.
    + rewrite Hlog0. constructor.
    + rewrite Hlog0. done.
    + intros q _. by rewrite Hd.
    + intros q _. by rewrite Hv.
  - intros Hs. split; [by apply (sm_io _ _ Hsm)|]. split; [by apply Hrel|by apply H512].
Qed.

(** The install branch of [bios_install_main] from an open device. *)
Lemma install_run img rand a s b s0 :
  device_init (set_empty_lba 0 s) = Some (b, s0) → ia_uninstall_mode a = false →
  bios_install_main img rand a s =
    if b then
      (r <- exec (install_prog (bigendian s0) (ia_force a) (ia_gpt2mbr_allowed a) (ia_part_ndx a) img rand) ;;;
       cleanup (bool_decide (is_Some r)) (bool_decide (is_Some (ia_uninstall_file a))) ;;;
       ret (exit_code (bool_decide (is_Some r)))) s0
    else (uninstall_mode_cleanup ;;; ret EXIT_FAILURE) s0.
Proof.
  intros Hr Hm. unfold bios_install_main. unfold modify at 1. unfold bind at 1.
  rewrite (bind_run _ _ _ _ _ Hr), Hm. by destruct b.
Qed.

(** C1. Whatever call of the C library fails, and whatever the device and the
    boot image hold, [bios_install] in install mode comes to its end: it reads
    into no buffer more bytes than it has, writes no more bytes than its source
    has, stays inside [part_to_conv] and the undo log, divides by no zero, frees
    no block twice, and returns one of the two exit codes. The boot image is
    longer than its boot sector. *)
Theorem install_never_undefined img rand a s :
  fresh s → ia_uninstall_mode a = false → 512 < Z.of_nat (length img) →
  ∃ code s', bios_install_main img rand a s = Some (code, s') ∧
    (code = EXIT_SUCCESS ∨ code = EXIT_FAILURE).
Proof.
  intros Hf Hm Himg. destruct (start_run s Hf) as (b & s0 & Hr & _ & _ & _ & Hh0 & _ & _ & Hsafe & _).
  rewrite (install_run _ _ _ _ _ _ Hr Hm). destruct b.
  - destruct (exec_laws (I := safe) (F := safe) (install_prog (bigendian s0) (ia_force a)
      (ia_gpt2mbr_allowed a) (ia_part_ndx a) img rand) s0 (install_prog_defined _ _ _ _ _ _ Himg) (Hsafe eq_refl)) as (r & s1 & Hx & Hs1).
    rewrite (bind_run _ _ _ _ _ Hx).
    assert (safe s1) as [_ Hi1 Hh1] by (by destruct r).
    destruct (cleanup_run (bool_decide (is_Some r)) (bool_decide (is_Some (ia_uninstall_file a))) s1)
      as (s2 & Hc & _); [done|done|].
    rewrite (bind_run _ _ _ _ _ Hc). eexists _, _. split; [done|]. by destruct r; [left|right].
  - destruct (uninstall_mode_cleanup_run s0 Hh0) as (s1 & Hc & _).
    rewrite (bind_run _ _ _ _ _ Hc). eexists _, _. split; [done|]. by right.
Qed.

(** C2. On a device that is reliable once open, an install that does not
    succeed leaves every byte of the device as it was. *)
Theorem failed_install_restores_device img rand a s :
  fresh s → ia_uninstall_mode a = false → Z.of_nat (length (device s)) ≤ OFF_MAX →
  512 < Z.of_nat (length img) → reliable_once_open s →
  ∃ code s', bios_install_main img rand a s = Some (code, s') ∧
    (code = EXIT_FAILURE → device s' = device s).
Proof.
  intros Hf Hm Hdev Himg Hrel.
  destruct (start_run s Hf) as (b & s0 & Hr & Hd0 & _ & _ & Hh0 & _ & _ & _ & Hinv & _).
  rewrite (install_run _ _ _ _ _ _ Hr Hm). destruct b.
  - destruct (Hinv eq_refl (Hrel _ Hr) Hdev) as [Hui _].
    destruct (exec_laws (install_prog (bigendian s0) (ia_force a)
      (ia_gpt2mbr_allowed a) (ia_part_ndx a) img rand) s0 (install_prog_defined _ _ _ _ _ _ Himg) Hui) as (r & s1 & Hx & Hs1).
    rewrite (bind_run _ _ _ _ _ Hx).
    assert (undo_stop (device s) s1) as [[_ Hi1 Hh1] Hio1 Hu1].
    { destruct r; [apply (dl_stop (I := undo_inv (device s))), Hs1|done]. }
    destruct (cleanup_run (bool_decide (is_Some r)) (bool_decide (is_Some (ia_uninstall_file a))) s1)
      as (s2 & Hc & _ & Hfail & _); [done|done|].
    rewrite (bind_run _ _ _ _ _ Hc). eexists _, _. split; [done|].
    destruct r; [done|]. intros _. by apply Hfail.
  - destruct (uninstall_mode_cleanup_run s0 Hh0) as (s1 & Hc & Hd1 & _).
    rewrite (bind_run _ _ _ _ _ Hc). eexists _, _. split; [done|]. intros _. by rewrite Hd1.
Qed.

(** ** Install, then --uninstall *)

(** An entry of the undo log of a device that fits in a file. *)
Lemma entry_storable s e :
  io_ok s → Z.of_nat (length (device s)) ≤ OFF_MAX → entry_ok s e → nonempty_entry e → storable e.
Proof.
  intros Hok Hdev [Hl Hc Hlen Hcov] Hne. unfold nonempty_entry, OFF_MAX, is_u64 in *.
  pose proof (io_bs s Hok). destruct (covered_bound s _ _ ltac:(lia) Hcov); [lia|].
  split_and!; try done; lia.
Qed.

(** What a successful install leaves behind: its log in the file, from which
    the original device can be computed. *)
Lemma installed_run img rand a s s' :
  fresh s → ia_uninstall_mode a = false → is_Some (ia_uninstall_file a) → io s = [] →
  Z.of_nat (length (device s)) ≤ OFF_MAX → 512 < Z.of_nat (length img) →
  bios_install_main img rand a s = Some (EXIT_SUCCESS, s') →
  ∃ s1, io_ok s1 ∧ block_size s1 = 512 ∧ device s' = device s1 ∧ length (device s1) = length (device s) ∧
    Forall (entry_ok s1) (reverse (log s1)) ∧ Forall storable (reverse (log s1)) ∧
    (length (log s1) ≤ 106)%nat ∧
    apply_entries (reverse (log s1)) (device s1) = device s ∧
    udfile s' = Some (encode (bigendian s) (reverse (log s1))).
Proof.
  intros Hf Hm Hfile Hs Hdev Himg.
  destruct (start_run s Hf) as (b & s0 & Hr & Hd0 & _ & Hbe0 & Hh0 & Hlog0 & Hi0 & Hsafe & Hinv & Hio).
  destruct (Hio Hs) as (Hio0 & _ & Hbs). rewrite (install_run _ _ _ _ _ _ Hr Hm). destruct b.
  2: { destruct (uninstall_mode_cleanup_run s0 Hh0) as (s1 & Hc & _). by rewrite (bind_run _ _ _ _ _ Hc). }
  destruct (Hinv eq_refl Hio0 Hdev) as [Hui _].
  set (p := install_prog _ _ _ _ _ _).
  assert (defined p) as Hdef by (by apply install_prog_defined).
  destruct (exec_laws p s0 Hdef Hui) as (r & s1 & Hx & Hs1). rewrite (bind_run _ _ _ _ _ Hx).
  destruct (exec_laws (I := host_conf s0) (F := host_conf s0) p s0 Hdef) as (r' & s1' & Hx' & Hhc);
    [by split; [apply Hsafe|..]|].
  rewrite Hx in Hx'. injection Hx' as <- <-. assert (host_conf s0 s1) as Hhc1 by (by destruct r).
  assert (undo_stop (device s) s1) as [Hs1' Hio1 Hu1].
  { destruct r; [apply (dl_stop (I := undo_inv (device s))), Hs1|done]. }
  destruct (exec_budget 106 p (λ _, True) s0 r s1) as [Hi1 Hne];
    [by apply install_prog_spec|by apply Hsafe|done|].
  destruct Hs1' as [_ Hok1 Hh1].
  destruct (cleanup_run (bool_decide (is_Some r)) (bool_decide (is_Some (ia_uninstall_file a))) s1)
    as (s2 & Hc & Hdok & _ & Hst); [done|done|].
  rewrite (bind_run _ _ _ _ _ Hc). destruct r as [[]|]; [|done]. unfold ret. intros [= <-].
  exists s1. rewrite Hlog0 in Hne. pose proof (length_log s1 Hh1).
  assert (Forall (entry_ok s1) (log s1)) as He1 by apply Hu1.
  assert (Forall storable (log s1)) as Hst1.
  { specialize (Hne ltac:(constructor)). rewrite Forall_forall in He1, Hne |- *. intros e He.
    eapply entry_storable; [exact Hok1|apply Hu1|by apply He1|by apply Hne]. }
  split_and!; [done|rewrite (hc_bs _ _ Hhc1); by apply Hbs|by apply Hdok|apply Hu1|
    by apply Forall_reverse|by apply Forall_reverse|lia|by apply undoable_apply|].
  rewrite Hst; [by rewrite (hc_be _ _ Hhc1), Hbe0|done|by rewrite bool_decide_true|done|done].
Qed.

Lemma apply_entries_same l l' d :
  Forall2 same_entry l l' → apply_entries l d = apply_entries l' d.
Proof.
  intros Hl. unfold apply_entries. revert d. induction Hl as [|e e' l l' (Hb & Hlo & _) _ IH]; intros d; [done|].
  cbn [foldl]. unfold put_back at 2 4. rewrite Hb, Hlo. apply IH.
Qed.

(** [--uninstall] on a reliable device writes the stored entries back. *)
Lemma uninstall_main_run img rand a s l :
  fresh s → ia_uninstall_mode a = true → is_Some (ia_uninstall_file a) → io s = [] →
  512 ≤ Z.of_nat (length (device s)) ≤ OFF_MAX →
  (length l ≤ 256)%nat → Forall storable l → udfile s = Some (encode (bigendian s) l) →
  (∀ s0, io_ok s0 → block_size s0 = 512 → device s0 = device s → Forall (entry_ok s0) l) →
  ∃ s', bios_install_main img rand a s = Some (EXIT_SUCCESS, s') ∧ device s' = apply_entries l (device s).
Proof.
  intros Hf Hm Hfile Hs Hdev Hlen Hst Hud He. unfold bios_install_main. unfold modify at 1. unfold bind at 1.
  destruct (start_run s Hf) as (b & s0 & Hr & Hd0 & Hu0 & Hbe0 & Hh0 & Hlog0 & Hi0 & Hsafe & _ & Hio).
  rewrite (bind_run _ _ _ _ _ Hr). destruct (Hio Hs) as (Hio0 & Hb & Hbs).
  assert (b = true) as -> by (apply Hb; lia). cbn [negb]. rewrite Hm. unfold run_uninstall.
  rewrite bool_decide_true by done. cbn [negb].
  destruct (load_uninstall_data_run l s0) as (s1 & Hr1 & Hsd & Hcf & Hh1 & Hsame); try done.
  { by rewrite Hu0, Hud, Hbe0. }
  rewrite bind_assoc, (bind_run _ _ _ _ _ Hr1). cbn [negb].
  assert (io_ok s1) as Hok1 by (eapply same_disk_io_ok; [done|]; by apply sf_io, Hsafe).
  assert (device s1 = device s) as Hd1 by (by rewrite (sd_device _ _ Hsd)).
  destruct (uninstall_run s1 Hok1 Hh1) as (b & s2 & Hr2 & Hh2 & _ & _ & _ & _ & _ & Hrel).
  rewrite (bind_run _ _ _ _ _ Hr2).
  destruct (uninstall_mode_cleanup_run s2 Hh2) as (s3 & Hc & Hd3 & _). rewrite (bind_run _ _ _ _ _ Hc).
  destruct Hrel as [-> Hd2]; [by apply (cf_io _ _ Hcf)|rewrite Hd1; lia| |].
  { assert (Forall (entry_ok s1) l) as Hl by (apply He; [done|rewrite (sd_bs _ _ Hsd); by apply Hbs|done]).
    clear -Hsame Hl. induction Hsame as [|e e' k k' (Hb & Hlo & Hc) _ IH]; [constructor|].
    apply Forall_cons in Hl as [[] Hl]. constructor; [|by apply IH]. split; congruence. }
  exists s3. split; [done|]. rewrite Hd3, Hd2, Hd1. by apply apply_entries_same.
Qed.

(** C3. Installing with [--uninstall-data-file] and then running [--uninstall]
    with that file in a new process gives the original device back, byte for
    byte, whatever the partition table was and whatever the install did. *)
Theorem uninstall_inverts_install img rand a s s1 img' rand' a' t :
  fresh s → ia_uninstall_mode a = false → is_Some (ia_uninstall_file a) → io s = [] →
  Z.of_nat (length (device s)) ≤ OFF_MAX → 512 < Z.of_nat (length img) →
  bios_install_main img rand a s = Some (EXIT_SUCCESS, s1) →
  fresh t → ia_uninstall_mode a' = true → is_Some (ia_uninstall_file a') → io t = [] →
  device t = device s1 → udfile t = udfile s1 → bigendian t = bigendian s →
  ∃ t', bios_install_main img' rand' a' t = Some (EXIT_SUCCESS, t') ∧ device t' = device s.
Proof.
  intros Hf Hm Hfile Hs Hdev Himg Hinst Hft Hmt Hfilet Hst Hdt Hut Hbet.
  destruct (installed_run img rand a s s1) as
    (m & Hok & Hbs & Hd & Hlen & He & Hsto & Hn & Happ & Hud); try done.
  destruct (start_run t Hft) as (b & t0 & Hr & _).
  assert (512 ≤ Z.of_nat (length (device s))) as H512.
  { destruct (start_run s Hf) as (b' & s0 & Hr' & _ & _ & _ & Hh0 & _ & _ & _ & _ & Hio).
    destruct (Hio Hs) as (_ & Hb & _). apply Hb. destruct b'; [done|].
    rewrite (install_run _ _ _ _ _ _ Hr' Hm) in Hinst.
    destruct (uninstall_mode_cleanup_run s0 Hh0) as (s2 & Hc & _). by rewrite (bind_run _ _ _ _ _ Hc) in Hinst. }
  destruct (uninstall_main_run img' rand' a' t (reverse (log m))) as (t' & Ht & Hdev'); try done.
  - rewrite Hdt, Hd, Hlen. lia.
  - rewrite length_reverse. lia.
  - by rewrite Hut, Hud, Hbet.
  - intros s0 Hok0 Hbs0 Hd0. eapply Forall_impl; [exact He|]. intros e.
    apply entry_ok_ext; [congruence|]. by rewrite Hd0, Hdt, Hd.
  - exists t'. split; [done|]. by rewrite Hdev', Hdt, Hd.
Qed.

(** ** Concrete runs *)

(** A process that starts on a 64-bit little-endian host. *)
Definition demo_state (dev : list byte) (file : option (list byte)) (schedule : list outcome) : state :=
  State dev 0 [] CACHE_CLEAN 0 0 false (replicate 256 ud_zero) 0 ∅ 0 0 file schedule 8 false.

Definition demo_blocks (n : nat) : list byte := concat (replicate n (replicate 512 x00)).
Definition demo_img : list byte := concat (replicate 3 (replicate 512 x90)).
Definition demo_rand (i : nat) : Z := Z.of_nat i.
Definition demo_args (uninstall_mode : bool) : install_args :=
  InstallArgs false true uninstall_mode (Some (lit "undo.bin")) (Some (lit "disk.img")) None.

Lemma demo_fresh dev file schedule : fresh (demo_state dev file schedule).
Proof. split; try done. by right. Qed.

(** What is left of a run; the fallback is never used. *)
Definition result_state (r : option (Z * state)) : state :=
  match r with Some (_, s) => s | None => demo_state [] None [] end.

(** Success, decided without printing the final state. *)
Lemma success_result (r : option (Z * state)) :
  match r with Some (c, _) => c =? EXIT_SUCCESS | None => false end = true →
  r = Some (EXIT_SUCCESS, result_state r).
Proof. destruct r as [[c s]|]; [|done]. by intros ->%Z.eqb_eq. Qed.

Definition demo_installed : state :=
  result_state (bios_install_main demo_img demo_rand (demo_args false) (demo_state (demo_blocks 10) None [])).

(** A device that is too short for stage 2: the install fails late. *)
Definition demo_short : state := demo_state (demo_blocks 9) None [].
Definition demo_big_img : list byte := concat (replicate 12 (replicate 512 x90)).

Lemma install_never_undefined_witness :
  ∃ code s', bios_install_main demo_img demo_rand (demo_args false)
      (demo_state (demo_blocks 10) None [good_outcome; Outcome false [x01] 3]) = Some (code, s') ∧
    (code = EXIT_SUCCESS ∨ code = EXIT_FAILURE).
Proof. apply install_never_undefined; [apply demo_fresh|reflexivity|vm_compute; reflexivity]. Defined.

Lemma failed_install_restores_device_witness :
  ∃ code s', bios_install_main demo_big_img demo_rand (demo_args false) demo_short = Some (code, s') ∧
    (code = EXIT_FAILURE → device s' = device demo_short).
Proof.
  apply failed_install_restores_device; [apply demo_fresh|reflexivity|vm_compute; discriminate|vm_compute; reflexivity|].
  unfold reliable_once_open, demo_short. intros s0 H. vm_compute in H. injection H as <-. reflexivity.
Defined.

Lemma uninstall_inverts_install_witness :
  ∃ t', bios_install_main [] demo_rand (demo_args true)
      (demo_state (device demo_installed) (udfile demo_installed) []) = Some (EXIT_SUCCESS, t') ∧
    device t' = demo_blocks 10.
Proof.
  apply (uninstall_inverts_install demo_img demo_rand (demo_args false) (demo_state (demo_blocks 10) None [])
           demo_installed [] demo_rand (demo_args true)
           (demo_state (device demo_installed) (udfile demo_installed) [])).
  - apply demo_fresh.
  - reflexivity.
  - by eexists.
  - reflexivity.
  - vm_compute. discriminate.
  - vm_compute. reflexivity.
  - apply success_result. vm_compute. reflexivity.
  - apply demo_fresh.
  - reflexivity.
  - by eexists.
  - reflexivity.
  - vm_compute. reflexivity.
  - vm_compute. reflexivity.
  - reflexivity.
Defined.

End LimineMain.
