(* ===== verification/LimineDisk.v ===== *)
(** * limine.c: an install program on a plain array of bytes

    The abstract specification of the device layer: a disk is an array of which
    the whole blocks can be read and written, plus the number of undo entries
    left. [arun] runs a program on it; [exec_refines] shows that the cached,
    block-wise implementation of [LimineDevice] computes exactly that on a
    reliable device, and that after [device_flush_cache] the array is the file. *)

From S2P Require Import Prelude LimineArith LimineState LimineDevice LimineCache.
From S2P Require Import LimineUndo LimineRollback LimineStore LimineInstall LimineExec.
From S2P Require Import LimineBudget LimineMain.

Module LimineDisk.
Export LimineMain.

Record adisk := ADisk {
  ad_bytes : list byte;
  ad_limit : Z;         (** bytes in whole blocks *)
  ad_free : nat;        (** undo entries left *)
  ad_synced : bool      (** nothing is waiting in the cache *)
}.

Definition readable (d : adisk) (loc count : Z) : bool :=
  (count <=? 0) || (loc + count <=? ad_limit d).

Definition ad_write (buffer : list byte) (loc : Z) (d : adisk) : adisk :=
  ADisk (splice (Z.to_nat loc) buffer (ad_bytes d)) (ad_limit d) (ad_free d - 1) false.

Fixpoint arun {A} (p : prog A) (d : adisk) : option A * adisk :=
  match p with
  | Ret a => (Some a, d)
  | Cleanup | Undefined => (None, d)
  | DeviceRead loc count k =>
      if readable d (u64 loc) count
      then arun (k (slice (Z.to_nat (u64 loc)) (Z.to_nat count) (ad_bytes d))) d
      else (None, d)
  | DeviceWrite buffer loc count k =>
      if readable d (u64 loc) count && (0 <? ad_free d)%nat
      then arun k (ad_write (take (Z.to_nat count) buffer) (u64 loc) d)
      else (None, d)
  | FlushCache k => arun k (ADisk (ad_bytes d) (ad_limit d) (ad_free d) true)
  | Calloc size k => arun (k (replicate (Z.to_nat size) x00)) d
  end.

(** The state of the process implements the abstract disk. *)
Record implements (s : state) (d : adisk) : Prop := {
  im_safe : safe s;
  im_io : io s = [];
  im_wf : wf s;
  im_view : view s = ad_bytes d;
  im_limit : ad_limit d = Z.of_nat (length (device s)) / block_size s * block_size s;
  im_free : Z.of_nat (ad_free d) = 256 - uninstall_data_i s;
  im_synced : ad_synced d = true → device s = view s
}.

Lemma covered_limit s a n :
  0 < block_size s → 0 ≤ a →
  covered s a n ↔ n ≤ 0 ∨ a + n ≤ Z.of_nat (length (device s)) / block_size s * block_size s.
Proof.
  intros Hbs Ha. unfold covered, in_range. set (bs := block_size s) in *.
  set (len := Z.of_nat (length (device s))).
  pose proof (div_facts len bs Hbs) as (H1 & H2 & H3). pose proof (div_facts (a + n - 1) bs Hbs) as (H4 & H5 & H6).
  destruct (decide (n ≤ 0)) as [|Hn]; [tauto|]. split.
  - intros [?|(_ & _ & H)]; [lia|]. right.
    assert ((a + n - 1) / bs + 1 ≤ len / bs); [|nia]. apply Z.div_le_lower_bound; lia.
  - intros [?|H]; [lia|]. right. split; [done|]. split; [apply H6; lia|].
    assert ((a + n - 1) / bs < len / bs); [|nia]. apply Z.div_lt_upper_bound; lia.
Qed.

Lemma implements_readable s d loc count :
  implements s d → is_u64 loc → readable d loc count = true ↔ covered s loc count.
Proof.
  intros [Hs _ _ _ Hl _ _] [Hloc _]. pose proof (io_bs s (sf_io s Hs)).
  rewrite covered_limit by lia. unfold readable. rewrite orb_true_iff, !Z.leb_le, Hl. done.
Qed.

Lemma implements_read s d loc count r s' :
  implements s d → _device_read (u64 loc) count s = Some (r, s') →
  if readable d (u64 loc) count
  then r = Some (slice (Z.to_nat (u64 loc)) (Z.to_nat count) (ad_bytes d)) ∧ implements s' d
  else r = None.
Proof.
  intros Hi Hr. pose proof (u64_range loc) as Hloc.
  pose proof (implements_readable s d (u64 loc) count Hi Hloc) as Hrd.
  destruct Hi as [Hs Hio Hwf Hv Hl Hfree Hsy].
  destruct (device_read_run (u64 loc) count s (sf_io s Hs)) as (r0 & s0 & Hr0 & Hsc & Hlen & Hrel).
  rewrite Hr in Hr0. injection Hr0 as <- <-.
  destruct (Hrel Hio Hwf Hloc) as (Hd & Hcov & Hres).
  destruct (readable d (u64 loc) count).
  - assert (is_Some r) as [b ->] by (by apply Hcov, Hrd).
    destruct (Hres b eq_refl) as (Hwf' & Hv' & ->). rewrite <- Hv. split; [done|].
    assert (length (device s') = length (device s)) as Hdl.
    { destruct Hd as [-> | ->]; [done|by apply length_view]. }
    split; [by eapply safe_same_core|by apply (sc_io _ _ Hsc)|done|congruence| | |].
    + by rewrite Hdl, (sc_bs _ _ Hsc).
    + by rewrite (sc_i _ _ Hsc).
    + intros Hy. specialize (Hsy Hy). destruct Hd as [-> | ->]; congruence.
  - destruct r; [|done]. assert (false = true) by (apply Hrd, Hcov; eauto). done.
Qed.

Lemma implements_write s d buffer loc n b s' :
  0 ≤ n ≤ Z.of_nat (length buffer) → implements s d → _device_write buffer (u64 loc) n s = Some (b, s') →
  b = readable d (u64 loc) n && (0 <? ad_free d)%nat ∧
  (b = true → implements s' (ad_write (take (Z.to_nat n) buffer) (u64 loc) d)).
Proof.
  intros Hn Hi Hr. pose proof (u64_range loc) as Hloc.
  pose proof (implements_readable s d (u64 loc) n Hi Hloc) as Hrd.
  destruct Hi as [[Hu Hok Hh] Hio Hwf Hv Hl Hfree Hsy].
  destruct (device_write_run buffer (u64 loc) n s) as
    (b0 & s0 & Hr0 & Hcf & Hok' & Hh' & _ & Htrue & Hrel); [done|done|done|lia|].
  rewrite Hr in Hr0. injection Hr0 as <- <-. destruct (Hrel Hio Hwf Hloc) as (Hcov & Hlen & _). split.
  - apply eq_true_iff_eq. rewrite andb_true_iff, Nat.ltb_lt, Hrd. split.
    + intros Hb. destruct (Htrue Hb) as [? _]. split; [by apply Hcov|lia].
    + intros [Hc ?]. apply Hcov; [lia|done].
  - intros Hb. destruct (Htrue Hb) as (Hi & Hi' & p & old & _ & _ & Hw).
    destruct (Hw Hio Hwf Hloc) as (_ & Hwf' & Hv').
    split; [split; [by rewrite (cf_un _ _ Hcf)|done|done]|by apply (cf_io _ _ Hcf)|done| | | |done].
    + by rewrite Hv', Hv.
    + simpl. by rewrite Hlen, (cf_bs _ _ Hcf).
    + simpl. lia.
Qed.

(** Running on the device is running on the array. *)
Lemma exec_refines {A} (p : prog A) s d :
  defined p → implements s d →
  ∃ s', exec p s = Some (fst (arun p d), s') ∧
    (is_Some (fst (arun p d)) → implements s' (snd (arun p d))).
Proof.
  revert s d. induction p as [a| | |loc count k IH|buffer loc count k IH|k IH|size k IH]; intros s d Hdf Hi; cbn [exec arun].
  - by exists s.
  - exists s. split; [done|]. by intros [? ?].
  - done.
  - destruct (dl_read (DeviceLaws := safe_laws) loc count s (im_safe _ _ Hi)) as (r & s1 & Hr & Hlen).
    rewrite (bind_run _ _ _ _ _ Hr). pose proof (implements_read _ _ _ _ _ _ Hi Hr) as Hrd.
    destruct (readable d (u64 loc) count).
    + destruct Hrd as [-> Hi1]. apply IH; [apply Hdf, Hlen|done].
    + subst r. exists s1. split; [done|]. by intros [? ?].
  - destruct Hdf as [Hc Hdf].
    destruct (dl_write (DeviceLaws := safe_laws) buffer loc count s Hc (im_safe _ _ Hi)) as (b & s1 & Hr & _).
    rewrite (bind_run _ _ _ _ _ Hr). destruct (implements_write _ _ _ _ _ _ _ Hc Hi Hr) as [Hb Hi1].
    rewrite <- Hb. destruct b; cbn [negb]; [apply IH; [done|by apply Hi1]|].
    exists s1. split; [done|]. by intros [? ?].
  - destruct (device_flush_cache_run s (sf_io s (im_safe _ _ Hi))) as (b & s1 & Hr & Hsc & _ & _ & Hrel).
    rewrite (bind_run _ _ _ _ _ Hr). destruct Hi as [Hs Hio Hwf Hv Hl Hfree Hsy].
    destruct (Hrel Hio Hwf) as (-> & Hwf1 & Hd & Hcs). cbn [negb]. apply IH; [done|].
    split; simpl; [by eapply safe_same_core|by apply (sc_io _ _ Hsc)|done| | | |].
    + unfold view. by rewrite Hcs, Hd.
    + rewrite (sc_bs _ _ Hsc), Hd, length_view by done. done.
    + by rewrite (sc_i _ _ Hsc).
    + intros _. unfold view. by rewrite Hcs.
  - destruct Hi as [Hs Hio Hwf Hv Hl Hfree Hsy].
    destruct (safe_calloc s Hs) as (q & s1 & Hr & Hs1 & Hlog & Hsd & Hq).
    destruct (malloc_run s) as (q' & s1' & Hr' & _ & _ & _ & Hi1 & _).
    rewrite Hr in Hr'. injection Hr' as <- <-.
    rewrite (bind_run _ _ _ _ _ Hr). run. destruct (Hq Hio) as [Hq0 Hio1].
    rewrite bool_decide_false by done. apply IH; [done|].
    split; [done|done|by eapply same_disk_wf|by rewrite (same_disk_view _ _ Hsd)| | |].
    + by rewrite (sd_device _ _ Hsd), (sd_bs _ _ Hsd).
    + simpl. by rewrite Hi1.
    + by rewrite (sd_device _ _ Hsd), (same_disk_view _ _ Hsd).
Qed.

(** Running a sequence on the array. *)
Lemma arun_bind {A B} (p : prog A) (f : A → prog B) d :
  arun (p ≫= f) d = match arun p d with (Some a, d') => arun (f a) d' | (None, d') => (None, d') end.
Proof.
  unfold mbind, prog_bind. revert d.
  induction p as [a| | |loc count k IH|buffer loc count k IH|k IH|size k IH]; intros d; simpl; auto.
  - destruct (readable _ _ _); auto.
  - destruct (_ && _); auto.
Qed.

(** The abstract disk at the start of an install. *)
Definition disk_of (b : list byte) : adisk :=
  ADisk b (Z.of_nat (length b) / 512 * 512) 256 true.

Lemma undo_implements s0 b :
  undo_inv b s0 → view s0 = b → device s0 = b → block_size s0 = 512 → uninstall_data_i s0 = 0 →
  implements s0 (disk_of b).
Proof.
  intros [[Hs Hio Hu] Hwf Hv] Hvb Hd Hbs Hi. split; simpl; try done.
  - by rewrite Hd, Hbs.
  - by rewrite Hi.
  - intros _. congruence.
Qed.

(** A whole install on a reliable device, in terms of the array: a program that
    jumps to [cleanup] leaves the device as it was, one that ends with its
    cache flushed leaves what it computes. *)
Lemma install_on_array img rand a s r d' :
  fresh s → ia_uninstall_mode a = false → io s = [] → 512 ≤ Z.of_nat (length (device s)) ≤ OFF_MAX →
  512 < Z.of_nat (length img) →
  arun (install_prog (bigendian s) (ia_force a) (ia_gpt2mbr_allowed a) (ia_part_ndx a) img rand)
    (disk_of (device s)) = (r, d') →
  ∃ s', bios_install_main img rand a s = Some (exit_code (bool_decide (is_Some r)), s') ∧
    (r = None → device s' = device s) ∧
    (is_Some r → ad_synced d' = true → device s' = ad_bytes d').
Proof.
  intros Hf Hm Hs Hdev Himg Hrun.
  destruct (start_run s Hf) as (b & s0 & Hr & Hd0 & _ & Hbe0 & Hh0 & Hlog0 & Hi0 & Hsafe & Hinv & Hio).
  destruct (Hio Hs) as (Hio0 & Hb & Hbs). assert (b = true) as -> by (apply Hb; lia).
  destruct (Hinv eq_refl Hio0 ltac:(lia)) as [Hui Hv].
  rewrite (install_run _ _ _ _ _ _ Hr Hm), Hbe0. set (p := install_prog _ _ _ _ _ _) in *.
  assert (defined p) as Hdef by (by apply install_prog_defined).
  destruct (exec_refines p s0 (disk_of (device s)) Hdef) as (s1 & Hx & Him).
  { apply undo_implements; [done|done|done|by apply Hbs|done]. }
  rewrite Hrun in Hx, Him. cbn [fst snd] in Hx, Him. rewrite (bind_run _ _ _ _ _ Hx).
  destruct (exec_laws p s0 Hdef Hui) as (r' & s1' & Hx' & Hs1). rewrite Hx in Hx'. injection Hx' as <- <-.
  assert (undo_stop (device s) s1) as [[_ Hi1 Hh1] Hio1 Hu1].
  { destruct r; [apply (dl_stop (I := undo_inv (device s))), Hs1|done]. }
  destruct (cleanup_run (bool_decide (is_Some r)) (bool_decide (is_Some (ia_uninstall_file a))) s1)
    as (s2 & Hc & Hok & Hfail & _); [done|done|].
  rewrite (bind_run _ _ _ _ _ Hc). exists s2. split; [done|]. split.
  - intros Hn. apply Hfail; [by rewrite Hn|done|done].
  - intros Hsome Hsy. specialize (Him Hsome). rewrite Hok by (by rewrite bool_decide_true).
    rewrite (im_synced _ _ Him) by done. apply Him.
Qed.

End LimineDisk.
