(* ===== verification/LimineMbr.v ===== *)
(** * limine.c: what bios-install accepts and what it writes

    On the abstract disk of [LimineDisk]: the file-system check
    [validate_or_force], the MBR sanity checks, and the five writes of the boot
    code, each described byte by byte. *)

From S2P Require Import Prelude LimineArith LimineState LimineDevice LimineCache.
From S2P Require Import LimineUndo LimineRollback LimineStore LimineInstall LimineExec.
From S2P Require Import LimineBudget LimineMain LimineDisk.

Module LimineMbr.
Export LimineDisk.

(** ** Reads and writes inside the disk *)

Record ad_wf (d : adisk) : Prop := {
  aw_limit : 0 ≤ ad_limit d ≤ Z.of_nat (length (ad_bytes d));
  aw_max : Z.of_nat (length (ad_bytes d)) ≤ OFF_MAX
}.

Lemma implements_ad_wf s d : implements s d → ad_wf d.
Proof.
  intros [Hs _ Hwf Hv Hl _ _]. pose proof (io_bs s (sf_io s Hs)).
  pose proof (div_facts (Z.of_nat (length (device s))) (block_size s) ltac:(lia)) as (H1 & H2 & H3).
  split; rewrite <- Hv, length_view by done; [rewrite Hl; nia|apply Hwf].
Qed.

Lemma ad_write_wf buffer loc d :
  ad_wf d → 0 ≤ loc → loc + Z.of_nat (length buffer) ≤ ad_limit d → ad_wf (ad_write buffer loc d).
Proof. intros [H1 H2] H3 H4. split; simpl; rewrite length_splice by lia; done. Qed.

Section arun.
Context {B : Type}.

Lemma arun_read size loc count (f : list byte → prog B) d :
  ad_wf d → count ≤ size → 0 ≤ loc → loc + count ≤ ad_limit d →
  arun (device_read size loc count ≫= f) d
    = arun (f (slice (Z.to_nat loc) (Z.to_nat count) (ad_bytes d))) d.
Proof.
  intros [[] ?] Hsz ? ?. unfold device_read. rewrite (proj2 (Z.ltb_ge size count)) by done.
  unfold OFF_MAX in *. cbn. unfold readable.
  destruct (decide (count ≤ 0)) as [Hc|Hc].
  - rewrite (proj2 (Z.leb_le count 0)) by done. simpl.
    by replace (Z.to_nat count) with 0%nat by lia.
  - rewrite u64_small by (unfold is_u64; lia).
    rewrite (proj2 (Z.leb_le (loc + count) _)) by lia. by rewrite orb_true_r.
Qed.

Lemma arun_write_prefix buffer loc count (f : () → prog B) d :
  ad_wf d → 0 ≤ loc → loc + count ≤ ad_limit d → 0 ≤ count ≤ Z.of_nat (length buffer) →
  (0 < ad_free d)%nat →
  arun (device_write buffer loc count ≫= f) d
    = arun (f ()) (ad_write (take (Z.to_nat count) buffer) loc d).
Proof.
  intros [[] ?] ? ? Hl ?. unfold OFF_MAX in *.
  unfold device_write, mbind, prog_bind. cbn [pbind arun]. unfold readable.
  rewrite (proj2 (Nat.ltb_lt _ _)), andb_true_r by done.
  destruct (decide (count = 0)) as [-> |Hc].
  - change (Z.to_nat 0) with 0%nat.
    unfold ad_write. change (take 0 buffer) with (@nil byte). by rewrite !splice_nil.
  - rewrite u64_small by (unfold is_u64; lia).
    rewrite (proj2 (Z.leb_le (loc + _) _)) by lia. by rewrite orb_true_r.
Qed.

Lemma arun_write buffer loc count (f : () → prog B) d :
  ad_wf d → 0 ≤ loc → loc + count ≤ ad_limit d → Z.of_nat (length buffer) = count →
  (0 < ad_free d)%nat →
  arun (device_write buffer loc count ≫= f) d = arun (f ()) (ad_write buffer loc d).
Proof. intros ? ? ? <- ?. rewrite arun_write_prefix by lia || done. by rewrite Nat2Z.id, firstn_all. Qed.
End arun.

(** ** Values on the disk, whatever the byte order of the host *)

Lemma swap_load be l n :
  length l = n → n = 1%nat ∨ n = 2%nat ∨ n = 4%nat ∨ n = 8%nat →
  swap be (Z.of_nat n) (host_val be l) = le_val l.
Proof. intros <- Hn. unfold swap. by rewrite ENDSWAP_load. Qed.

Lemma store_field_le be n v :
  n = 2%nat ∨ n = 4%nat ∨ n = 8%nat → store_field be n v = le_bytes n v.
Proof.
  intros Hn. unfold store_field, swap. by destruct (ENDSWAP_store be n v Hn) as (w & -> & <-).
Qed.

Lemma host_val_byte be b : host_val be [b] = b2z b.
Proof. unfold host_val. destruct be; simpl; lia. Qed.

(** ** File systems that [validate_or_force] recognises *)

Definition magic_at (b : list byte) (loc : Z) (magic : string) : bool :=
  bool_decide (slice (Z.to_nat loc) (length (lit magic)) b = lit magic).

Definition looks_like_fs (b : list byte) (off : Z) : bool :=
  magic_at b (off + 3) "NTFS" || magic_at b (off + 54) "FAT" || magic_at b (off + 82) "FAT"
  || magic_at b (off + 3) "FAT32"
  || (le_val (slice (Z.to_nat (off + 1080)) 2 b) =? 0xef53).

Lemma memcmp_magic (b : list byte) loc n m :
  n = Z.of_nat (length (lit m)) →
  memcmp_eq (slice (Z.to_nat loc) (Z.to_nat n) b) (lit m) (Z.to_nat n) = magic_at b loc m.
Proof.
  intros ->. unfold memcmp_eq, magic_at. rewrite Nat2Z.id, firstn_all.
  unfold slice. rewrite take_take, Nat.min_id. done.
Qed.

Lemma check_hint_keep m loc n k (f : bool → prog bool) d :
  n = Z.of_nat (length (lit m)) → ad_wf d → n ≤ 64 → 0 ≤ loc → loc + n ≤ ad_limit d →
  arun (check_hint false (lit m) loc n k ≫= f) d = arun (f (negb (magic_at (ad_bytes d) loc m))) d.
Proof.
  intros Hn Hw H64 Hl Hb. unfold check_hint. rewrite arun_bind, arun_read by done.
  rewrite memcmp_magic by done. by destruct (magic_at _ _ _).
Qed.

Lemma validate_or_force_keep be off d :
  ad_wf d → 0 ≤ off → off + 1082 ≤ ad_limit d →
  arun (validate_or_force be false off) d = (Some (negb (looks_like_fs (ad_bytes d) off)), d).
Proof.
  intros Hw Ho Hb. unfold validate_or_force, looks_like_fs.
  rewrite check_hint_keep by (done || lia).
  destruct (magic_at _ _ "NTFS"); [done|]. cbn [negb].
  rewrite check_hint_keep by (done || lia).
  destruct (magic_at _ (off + 54) "FAT"); [done|]. cbn [negb].
  rewrite check_hint_keep by (done || lia).
  destruct (magic_at _ (off + 82) "FAT"); [done|]. cbn [negb].
  rewrite check_hint_keep by (done || lia).
  destruct (magic_at _ _ "FAT32"); [done|]. cbn [negb].
  rewrite arun_read by (done || lia). change (Z.to_nat 2) with 2%nat.
  destruct Hw as [[] _]. change 2 with (Z.of_nat 2).
  rewrite swap_load by (rewrite ?length_slice; lia). by destruct (_ =? 0xef53).
Qed.

(** ** The boot code *)

(** Byte [q] of the device after an install with stage 2 at [loc]: the boot
    sector keeps the timestamp at 218 and the disk id and partition table at
    440, holds the location of stage 2 at 0x1a4, and is the image elsewhere. *)
Definition boot_layout (img : list byte) (loc : Z) (old : list byte) (q : nat) : option byte :=
  if decide (218 ≤ q < 224 ∨ 440 ≤ q < 510)%nat then old !! q
  else if decide (420 ≤ q < 428)%nat then le_bytes 8 loc !! (q - 420)%nat
  else if decide (q < 512)%nat then img !! q
  else if decide (loc ≤ Z.of_nat q < loc + (Z.of_nat (length img) - 512))
       then img !! (512 + (q - Z.to_nat loc))%nat
  else old !! q.

(** The five writes, in the order of the code. *)
Definition boot_writes (be : bool) (img : list byte) (loc : Z) (d : adisk) : adisk :=
  let b := ad_bytes d in
  let d := ad_write (take 512 img) 0 d in
  let d := ad_write (drop 512 img) loc d in
  let d := ad_write (le_bytes 8 loc) 0x1a4 d in
  let d := ad_write (slice 218 6 b) 218 d in
  ad_write (slice 440 70 b) 440 d.

Lemma length_ad_write buffer loc d :
  0 ≤ loc → loc + Z.of_nat (length buffer) ≤ Z.of_nat (length (ad_bytes d)) →
  length (ad_bytes (ad_write buffer loc d)) = length (ad_bytes d).
Proof. intros. simpl. apply length_splice. lia. Qed.

Lemma boot_writes_layout be img loc d q :
  512 < Z.of_nat (length img) → 512 ≤ loc →
  loc + (Z.of_nat (length img) - 512) ≤ Z.of_nat (length (ad_bytes d)) →
  ad_bytes (boot_writes be img loc d) !! q = boot_layout img loc (ad_bytes d) q ∧
  length (ad_bytes (boot_writes be img loc d)) = length (ad_bytes d).
Proof.
  intros Hi Hl Hb. unfold boot_writes. set (b := ad_bytes d) in *.
  cbn [ad_write ad_bytes]. fold b. change (Z.to_nat 0) with 0%nat.
  change (Z.to_nat 420) with 420%nat. change (Z.to_nat 218) with 218%nat. change (Z.to_nat 440) with 440%nat.
  assert (length (slice 218 6 b) = 6%nat) as L1 by (apply length_slice; lia).
  assert (length (slice 440 70 b) = 70%nat) as L2 by (apply length_slice; lia).
  assert (length (take 512 img) = 512%nat) as L3 by (rewrite length_take; lia).
  assert (length (drop 512 img) = (length img - 512)%nat) as L4 by (rewrite length_drop; lia).
  pose proof (length_le_bytes 8 loc) as L5.
  set (b1 := splice 0 (take 512 img) b).
  assert (length b1 = length b) as M1 by (apply length_splice; lia).
  set (b2 := splice (Z.to_nat loc) (drop 512 img) b1).
  assert (length b2 = length b) as M2 by (rewrite <- M1; apply length_splice; lia).
  set (b3 := splice 420 (le_bytes 8 loc) b2).
  assert (length b3 = length b) as M3 by (rewrite <- M2; apply length_splice; lia).
  set (b4 := splice 218 (slice 218 6 b) b3).
  assert (length b4 = length b) as M4 by (rewrite <- M3; apply length_splice; lia).
  split; [|rewrite length_splice; lia].
  rewrite lookup_splice, L2 by lia. unfold b4. rewrite lookup_splice, L1 by lia.
  unfold b3. rewrite lookup_splice, L5 by lia. unfold b2. rewrite lookup_splice, L4 by lia.
  unfold b1. rewrite lookup_splice, L3 by lia. unfold boot_layout.
  repeat case_decide; try lia; try done.
  - rewrite lookup_slice by lia. f_equal; lia.
  - rewrite lookup_slice by lia. f_equal; lia.
  - rewrite lookup_drop. f_equal; lia.
  - rewrite lookup_take_lt by lia. f_equal; lia.
Qed.

Lemma write_stages_run be img loc d :
  ad_wf d → 512 < Z.of_nat (length img) → 512 ≤ loc →
  loc + (Z.of_nat (length img) - 512) ≤ ad_limit d → (5 ≤ ad_free d)%nat →
  ∃ n, arun (write_stages be img loc) d
    = (Some (), ADisk (ad_bytes (boot_writes be img loc d)) (ad_limit d) n true).
Proof.
  intros Hw Hi Hl Hb Hf. destruct (aw_limit d Hw) as [H0 Hlim]. unfold write_stages.
  rewrite arun_read by (done || lia). rewrite arun_read by (done || lia).
  change (Z.to_nat 218) with 218%nat. change (Z.to_nat 6) with 6%nat.
  change (Z.to_nat 440) with 440%nat. change (Z.to_nat 70) with 70%nat.
  set (b := ad_bytes d) in *.
  rewrite arun_write_prefix by (done || lia). set (d1 := ad_write _ _ d).
  assert (length (take (Z.to_nat 512) img) = 512%nat) as L3 by (rewrite length_take; lia).
  assert (ad_wf d1) as W1 by (apply ad_write_wf; [done|lia|lia]).
  rewrite arun_write by (done || (simpl; rewrite ?length_drop; lia)). set (d2 := ad_write _ _ d1).
  assert (ad_wf d2) as W2 by (apply ad_write_wf; [done|lia|simpl; rewrite length_drop; lia]).
  rewrite store_field_le by auto.
  rewrite arun_write by (done || (simpl; lia)). set (d3 := ad_write _ _ d2).
  assert (ad_wf d3) as W3 by (apply ad_write_wf; [done|lia|simpl; lia]).
  rewrite arun_write by (done || (rewrite ?length_slice by lia; simpl; lia)). set (d4 := ad_write _ _ d3).
  assert (ad_wf d4) as W4 by (apply ad_write_wf; [done|lia|rewrite ?length_slice by lia; simpl; lia]).
  rewrite arun_write by (done || (rewrite ?length_slice by lia; simpl; lia)).
  by eexists.
Qed.

(** ** MBR sanity checks without --force *)

Definition at8 (b : list byte) (q : Z) : Z := b2z (b !!! Z.to_nat q).

Definition part_status_ok (b : list byte) (base : Z) : bool :=
  (at8 b base =? 0x00) || (at8 b base =? 0x80).
Definition part_active (b : list byte) (base : Z) : bool := negb (Z.land (at8 b base) 0x80 =? 0).
Definition part_too_low (b : list byte) (base : Z) : bool :=
  negb (at8 b (base + 4) =? 0) && (le_val (slice (Z.to_nat (base + 8)) 4 b) <? 63).

Definition mbr_parts : list Z := [446; 462; 478; 494].

(** A partition table that the installer accepts without [--force]. *)
Definition mbr_acceptable (b : list byte) : bool :=
  forallb (part_status_ok b) mbr_parts && negb (existsb (part_too_low b) mbr_parts)
  && negb (looks_like_fs b 0).

(** The boot flag of partition 1, set when no partition has one. *)
Definition activate (b : list byte) : list byte :=
  if existsb (part_active b) mbr_parts then b else <[446%nat := x80]> b.

Lemma slice_1 (b : list byte) q : (q < length b)%nat → slice q 1 b = [b !!! q].
Proof.
  intros Hq. unfold slice. destruct (lookup_lt_is_Some_2 b q Hq) as [x Hx].
  rewrite (drop_S _ x) by done. simpl. by rewrite (list_lookup_total_correct _ _ x).
Qed.

Lemma host_val_at8 be b q :
  0 ≤ q < Z.of_nat (length b) → host_val be (slice (Z.to_nat q) 1 b) = at8 b q.
Proof. intros. rewrite slice_1, host_val_byte by lia. done. Qed.

Lemma mbr_check_part_run be base mbr act {B} (f : bool * bool → prog B) d :
  ad_wf d → 0 ≤ base → base + 16 ≤ ad_limit d →
  arun (mbr_check_part be false base (mbr, act) ≫= f) d =
    if part_too_low (ad_bytes d) base then (None, d)
    else arun (f (mbr && part_status_ok (ad_bytes d) base, act || part_active (ad_bytes d) base)) d.
Proof.
  intros Hw Hb Hl. destruct (aw_limit d Hw) as [_ Hlim]. set (b := ad_bytes d).
  unfold mbr_check_part. rewrite arun_bind, arun_read by (done || lia). fold b.
  change (Z.to_nat 1) with 1%nat. rewrite host_val_at8 by (unfold b; lia).
  assert (∀ g : bool * Z → prog (bool * bool),
    arun ((if negb (at8 b base =? 0) && negb (at8 b base =? 128) then Ret (false, at8 b base)
           else Ret (mbr, at8 b base)) ≫= g) d
    = arun (g (mbr && part_status_ok b base, at8 b base)) d) as Hstep.
  { intros g. unfold part_status_ok. destruct (_ =? 0), (_ =? 128); cbn; by rewrite ?andb_true_r, ?andb_false_r. }
  cbn [negb]. rewrite Hstep. cbn beta iota. rewrite arun_read by (done || lia). fold b.
  change (Z.to_nat 1) with 1%nat. rewrite host_val_at8 by (unfold b; lia). unfold part_too_low.
  destruct (at8 b (base + 4) =? 0); [done|]. cbn [negb andb].
  rewrite arun_read by (done || lia). fold b. change (Z.to_nat 4) with 4%nat. change 4 with (Z.of_nat 4).
  rewrite swap_load by (rewrite ?length_slice; unfold b; lia). by destruct (_ <? 63).
Qed.

Lemma mbr_checks_run be d :
  ad_wf d → 1082 ≤ ad_limit d → (1 ≤ ad_free d)%nat →
  let b := ad_bytes d in
  (if existsb (part_too_low b) mbr_parts then arun (mbr_checks be false) d = (None, d)
   else ∃ d', arun (mbr_checks be false) d = (Some (mbr_acceptable b), d') ∧
     ad_wf d' ∧ ad_limit d' = ad_limit d ∧ (ad_free d ≤ S (ad_free d'))%nat ∧
     (mbr_acceptable b = true → ad_bytes d' = activate b)).
Proof.
  intros Hw Hl Hf b. destruct (aw_limit d Hw) as [_ Hlim]. unfold mbr_checks, mbr_acceptable, activate.
  cbn [existsb forallb mbr_parts].
  rewrite mbr_check_part_run by (done || lia). fold b. destruct (part_too_low b 446); [done|]. cbn [orb].
  rewrite mbr_check_part_run by (done || lia). fold b. destruct (part_too_low b 462); [done|]. cbn [orb].
  rewrite mbr_check_part_run by (done || lia). fold b. destruct (part_too_low b 478); [done|]. cbn [orb].
  rewrite mbr_check_part_run by (done || lia). fold b. destruct (part_too_low b 494); [done|]. cbn [orb negb andb].
  cbn beta iota. rewrite !orb_false_r, !andb_true_r, !andb_assoc, !orb_assoc. 
  set (st := _ && part_status_ok b 494). set (act := _ || part_active b 494).
  rewrite arun_bind.
  replace (arun (if st then validate_or_force be false 0 else Ret false) d)
    with (Some (st && negb (looks_like_fs b 0)), d).
  2: { destruct st; [|done]. rewrite validate_or_force_keep by (done || lia). done. }
  set (ok := st && _). destruct (ok && negb act) eqn:E.
  - rewrite arun_write by (done || (simpl; lia)). eexists. split; [done|].
    split_and!; [apply ad_write_wf; [done|lia|simpl; lia]|done|simpl; lia|].
    intros _. apply andb_true_iff in E as [_ E]. apply negb_true_iff in E. rewrite E.
    simpl. fold b. change (Z.to_nat 446) with 446%nat. unfold splice.
    symmetry. apply insert_take_drop. unfold b. lia.
  - exists d. split_and!; try done; [lia|]. intros ->. destruct act; [done|done].
Qed.

(** ** A whole install on a disk without a GPT *)

Lemma strncmp_eq_lit (a b : list byte) (n : nat) :
  length b = n → length a = n → (x00 ∉ b) → strncmp_eq a b n = bool_decide (a = b).
Proof.
  revert a b. induction n as [|n IH]; intros a b Hb Ha Hz.
  { apply nil_length_inv in Hb, Ha. by subst. }
  destruct a as [|x a], b as [|y b]; try done. simpl in *. apply not_elem_of_cons in Hz as [Hy Hz].
  destruct (decide (x = y)) as [-> |Hne].
  - rewrite (bool_decide_true (y = y)) by done. rewrite bool_decide_false by done. simpl.
    rewrite IH by (done || lia). apply bool_decide_ext. split; [by intros ->|by intros [= ->]].
  - rewrite bool_decide_false by done. symmetry. apply bool_decide_false. by intros [= ? _].
Qed.

(** [strncmp] of the first bytes of a structure with a literal. *)
Lemma strncmp_eq_prefix (a : list byte) (m : string) n :
  length (lit m) = n → (n ≤ length a)%nat → (x00 ∉ lit m) →
  strncmp_eq a (lit m) n = bool_decide (take n a = lit m).
Proof.
  intros Hm Ha Hz. rewrite <- (strncmp_eq_lit _ _ n); [|done|rewrite length_take; lia|done].
  clear Hz. revert a n Hm Ha. generalize (lit m) as l. induction l as [|y l IH]; intros a n Hm Ha.
  { simpl in Hm. by subst n. }
  destruct n as [|n]; [done|]. destruct a as [|x a]; [done|]. simpl in *.
  by rewrite (IH a n) by lia.
Qed.

(** The GPT header the probe finds, with its logical block size. *)
Definition gpt_of (b : list byte) : option (list byte * Z) :=
  if magic_at b 512 "EFI PART" then Some (slice 512 96 b, 512)
  else if magic_at b 4096 "EFI PART" then Some (slice 4096 96 b, 4096)
  else None.

Lemma signature_at d g :
  ad_wf d → 0 ≤ g → g + 96 ≤ ad_limit d →
  strncmp_eq (slice (Z.to_nat g) 96 (ad_bytes d)) (lit "EFI PART") 8
    = magic_at (ad_bytes d) g "EFI PART".
Proof.
  intros [[_ Hl] _] Hg Hb. rewrite strncmp_eq_prefix; [|done|rewrite length_slice; lia|].
  - unfold magic_at, slice. rewrite take_take. done.
  - apply (bool_decide_unpack (x00 ∉ lit "EFI PART")). by vm_compute.
Qed.

Lemma probe_gpt_run d :
  ad_wf d → 4192 ≤ ad_limit d → arun (probe_gpt [512; 4096]) d = (Some (gpt_of (ad_bytes d)), d).
Proof.
  intros Hw Hl. cbn [probe_gpt]. unfold sizeof_gpt_table_header, gpt_of. change (Z.to_nat 96) with 96%nat.
  rewrite arun_read by (done || lia). rewrite signature_at by (done || lia).
  destruct (magic_at _ 512 _); [done|].
  rewrite arun_read by (done || lia). rewrite signature_at by (done || lia).
  by destruct (magic_at _ 4096 _).
Qed.

Lemma existsb_low_acceptable b :
  existsb (part_too_low b) mbr_parts = true → mbr_acceptable b = false.
Proof. intros H. unfold mbr_acceptable. rewrite H. by rewrite andb_false_r. Qed.

Lemma length_activate b : length (activate b) = length b.
Proof. unfold activate. destruct (existsb _ _); [done|]. apply length_insert. Qed.

Lemma install_prog_mbr be conv part img rand d :
  ad_wf d → 4192 ≤ ad_limit d → 512 < Z.of_nat (length img) ≤ ad_limit d → (6 ≤ ad_free d)%nat →
  gpt_of (ad_bytes d) = None →
  let r := arun (install_prog be false conv part img rand) d in
  if mbr_acceptable (ad_bytes d)
  then fst r = Some () ∧ ad_synced (snd r) = true ∧
       length (ad_bytes (snd r)) = length (ad_bytes d) ∧
       ∀ q, ad_bytes (snd r) !! q = boot_layout img 512 (activate (ad_bytes d)) q
  else fst r = None.
Proof.
  intros Hw Hl Hi Hf Hgpt r. unfold r, install_prog. clear r.
  rewrite arun_bind, probe_gpt_run, Hgpt by done. cbn beta iota.
  rewrite arun_bind. cbn [arun]. rewrite arun_bind, arun_bind.
  pose proof (mbr_checks_run be d Hw ltac:(lia) ltac:(lia)) as Hm. cbv zeta in Hm.
  destruct (existsb _ _) eqn:E.
  - rewrite Hm, existsb_low_acceptable by done. done.
  - destruct Hm as (d' & -> & Hw' & Hl' & Hf' & Hb). destruct (mbr_acceptable (ad_bytes d)); [|done].
    cbn [arun]. destruct (write_stages_run be img 512 d') as [n Hr]; [done|lia|lia|lia|lia|].
    rewrite Hr. cbn [fst snd ad_synced ad_bytes]. destruct (aw_limit d' Hw') as [_ Hlim'].
    split; [done|]. split; [done|].
    assert (∀ q, _) as Hq by (intros q; exact (boot_writes_layout be img 512 d' q ltac:(lia) ltac:(lia) ltac:(lia))).
    rewrite Hb in Hq, Hlim' by done. split; [|intros q; apply Hq].
    rewrite (proj2 (Hq 0%nat)). apply length_activate.
Qed.

Lemma disk_of_wf b :
  Z.of_nat (length b) ≤ OFF_MAX →
  ad_wf (disk_of b) ∧ Z.of_nat (length b) - 511 ≤ ad_limit (disk_of b).
Proof. intros Hb. split; [split; simpl; [dlia|done]|simpl; dlia]. Qed.

(** C4. A disk without a GPT, installed to without [--force]: the command
    succeeds exactly when every partition status byte is 0x00 or 0x80, no used
    partition starts below sector 63 and no known file system starts at sector
    0. On success the device differs from the old one only as [boot_layout]
    says (and in the active flag, if no partition had it); otherwise it does
    not differ at all. *)
Theorem mbr_install_exact img rand a s :
  fresh s → ia_uninstall_mode a = false → ia_force a = false → io s = [] →
  4704 ≤ Z.of_nat (length (device s)) ≤ OFF_MAX →
  512 < Z.of_nat (length img) → Z.of_nat (length img) + 511 ≤ Z.of_nat (length (device s)) →
  gpt_of (device s) = None →
  ∃ s', bios_install_main img rand a s = Some (exit_code (mbr_acceptable (device s)), s') ∧
    ∀ q, device s' !! q = if mbr_acceptable (device s)
                          then boot_layout img 512 (activate (device s)) q else device s !! q.
Proof.
  intros Hf Hm Hfo Hs Hdev Hi Hid Hgpt.
  destruct (disk_of_wf (device s) ltac:(lia)) as [Hw Hl].
  pose proof (install_prog_mbr (bigendian s) (ia_gpt2mbr_allowed a) (ia_part_ndx a) img rand
    (disk_of (device s)) Hw ltac:(lia) ltac:(lia) ltac:(simpl; lia) Hgpt) as Hp. cbv zeta in Hp.
  rewrite <- Hfo in Hp. destruct (arun _ _) as [r d'] eqn:Hrun.
  destruct (install_on_array img rand a s r d') as (s' & Hr & Hfail & Hok); [done|done|done|lia|lia|done|].
  exists s'. cbn [ad_bytes disk_of fst snd] in Hp. destruct (mbr_acceptable (device s)).
  - destruct Hp as (-> & Hsy & _ & Hq). split; [done|].
    intros q. by rewrite Hok.
  - subst r. split; [done|]. intros q. by rewrite Hfail.
Qed.

Lemma mbr_install_exact_witness :
  ∃ s', bios_install_main demo_img demo_rand (demo_args false) (demo_state (demo_blocks 10) None [])
      = Some (EXIT_SUCCESS, s') ∧
    device s' !! 446%nat = Some x80 ∧ device s' !! 0%nat = Some x90 ∧ device s' !! 1535%nat = Some x90 ∧
    device s' !! 1536%nat = Some x00.
Proof.
  destruct (mbr_install_exact demo_img demo_rand (demo_args false) (demo_state (demo_blocks 10) None []))
    as (s' & Hr & Hq).
  - apply demo_fresh.
  - reflexivity.
  - reflexivity.
  - reflexivity.
  - split; vm_compute; discriminate.
  - vm_compute. reflexivity.
  - vm_compute. discriminate.
  - vm_compute. reflexivity.
  - exists s'. rewrite !Hq. split; [exact Hr|]. vm_compute. auto.
Defined.

End LimineMbr.
