(* ===== verification/LimineGpt.v ===== *)
(** * limine.c: bios-install on a GPT disk

    Where a successful install to a GUID partition table puts stage 2 and what
    it leaves alone: the partition is the first of BIOS boot type (or the one
    named on the command line), it is large enough, holds no known file system,
    and outside it only the boot sector changes. *)

From S2P Require Import Prelude LimineArith LimineState LimineDevice LimineCache.
From S2P Require Import LimineUndo LimineRollback LimineStore LimineInstall LimineExec.
From S2P Require Import LimineBudget LimineMain LimineDisk LimineMbr.

Module LimineGpt.
Export LimineMbr.

(** ** What a successful run tells *)

Lemma arun_read_inv {B} size loc count (f : list byte → prog B) d a d' :
  ad_wf d → 0 < count → arun (device_read size loc count ≫= f) d = (Some a, d') →
  u64 loc + count ≤ ad_limit d ∧
  length (slice (Z.to_nat (u64 loc)) (Z.to_nat count) (ad_bytes d)) = Z.to_nat count ∧
  arun (f (slice (Z.to_nat (u64 loc)) (Z.to_nat count) (ad_bytes d))) d = (Some a, d').
Proof.
  intros [[] _] Hc. unfold device_read. destruct (size <? count); [done|]. cbn. unfold readable.
  destruct (Z.leb_spec count 0); [lia|]. destruct (Z.leb_spec (u64 loc + count) (ad_limit d)); [|done].
  intros Hr. split; [done|]. split; [|done]. apply length_slice. pose proof (u64_range loc) as []. lia.
Qed.

Lemma arun_bind_inv {A B} (p : prog A) (f : A → prog B) d a d' :
  arun (p ≫= f) d = (Some a, d') →
  ∃ x d1, arun p d = (Some x, d1) ∧ arun (f x) d1 = (Some a, d').
Proof. rewrite arun_bind. destruct (arun p d) as [[x|] d1]; [by eauto|done]. Qed.

(** Fields of a structure are little-endian on disk. *)
Lemma field_le be off n l :
  (off + n ≤ length l)%nat → n = 1%nat ∨ n = 2%nat ∨ n = 4%nat ∨ n = 8%nat →
  field be off n l = le_val (slice off n l) ∧ 0 ≤ field be off n l < 2 ^ (8 * Z.of_nat n).
Proof.
  intros Hl Hn. pose proof (length_slice off n l Hl) as Hs. unfold field.
  rewrite swap_load by done. split; [done|]. pose proof (le_val_range (slice off n l)) as H.
  by rewrite Hs in H.
Qed.

(** Without [--force] the check only reads. *)
Lemma validate_or_force_inv be off d v d' :
  ad_wf d → 0 ≤ off → off + 512 ≤ 2 ^ 64 → arun (validate_or_force be false off) d = (Some v, d') →
  d' = d ∧ (v = true → looks_like_fs (ad_bytes d) off = false).
Proof.
  intros Hw Ho Ho' Hr. destruct (decide (off + 1082 ≤ ad_limit d)) as [Hb|Hb].
  { rewrite validate_or_force_keep in Hr by (done || lia).
    injection Hr as <- <-. split; [done|]. apply negb_true_iff. }
  destruct (aw_limit d Hw) as [H0 Hlim]. pose proof (aw_max d Hw) as Hmax. unfold OFF_MAX in Hmax.
  assert (v = false ∧ d' = d) as [-> ->]; [|done]. unfold validate_or_force, check_hint in Hr.
  apply arun_bind_inv in Hr as (ok & d1 & Hc & Hr).
  apply arun_read_inv in Hc as (H3 & _ & Hc); [|done|lia].
  rewrite u64_small in H3 by (unfold is_u64; lia).
  destruct (memcmp_eq _ _ _); injection Hc as <- <-; cbn [negb] in Hr; [by injection Hr as <- <-|].
  do 3 (apply arun_bind_inv in Hr as (ok & d1 & Hc & Hr);
        apply arun_read_inv in Hc as (_ & _ & Hc); [|done|lia];
        destruct (memcmp_eq _ _ _); injection Hc as <- <-; cbn [negb] in Hr;
        [by injection Hr as <- <-|]).
  apply arun_read_inv in Hr as (Hin & _ & Hr); [|done|lia].
  destruct (_ =? 0xef53); [by injection Hr as <- <-|].
  rewrite u64_small in Hin by (unfold is_u64; lia). lia.
Qed.

(** ** The partition for stage 2 *)

Section table.
Variables (be : bool) (d : adisk) (h : list byte) (base : Z).
Hypotheses (Hw : ad_wf d) (Hh : length h = 96%nat) (Hbase : is_u64 base).

(** Byte offset and contents of entry [k] of the partition table. *)
Definition entry_offset (k : Z) : Z := base + k * size_of_partition_entry be h.
Definition entry_at (b : list byte) (k : Z) : list byte := slice (Z.to_nat (entry_offset k)) 128 b.
Definition is_bios_boot (e : list byte) : Prop := take 16 e = BIOS_BOOT_GUID.

Lemma memcmp_bios_boot e : memcmp_eq BIOS_BOOT_GUID e 16 = true ↔ is_bios_boot e.
Proof. unfold memcmp_eq, is_bios_boot. rewrite bool_decide_eq_true. split; intros H; symmetry; exact H. Qed.

Lemma size_range : 0 ≤ size_of_partition_entry be h < 2 ^ 32.
Proof. unfold size_of_partition_entry. apply (field_le be 84 4 h); [lia|auto]. Qed.
Lemma number_range : 0 ≤ number_of_partition_entries be h < 2 ^ 32.
Proof. unfold number_of_partition_entries. apply (field_le be 80 4 h); [lia|auto]. Qed.

(** An entry whose address was computed without overflow and read. *)
Lemma entry_read_inv {B} k off (f : list byte → prog B) a d' :
  0 ≤ k < 2 ^ 32 → add_u64_overflow base (u64 (k * size_of_partition_entry be h)) = (off, false) →
  arun (device_read sizeof_gpt_entry off sizeof_gpt_entry ≫= f) d = (Some a, d') →
  length (entry_at (ad_bytes d) k) = 128%nat ∧ arun (f (entry_at (ad_bytes d) k)) d = (Some a, d').
Proof.
  intros Hk Hadd Hr. pose proof size_range as Hsz.
  rewrite (u64_small (k * _)) in Hadd by (unfold is_u64; nia).
  destruct (add_u64_overflow_spec base (k * size_of_partition_entry be h)) as [Hov Hsum];
    [done|unfold is_u64; nia|]. rewrite Hadd in Hov, Hsum. simpl in Hov, Hsum.
  specialize (Hsum eq_refl). fold (entry_offset k) in Hsum, Hov. subst off.
  apply arun_read_inv in Hr as (_ & Hlen & Hr); [|done|done].
  rewrite u64_small in Hlen, Hr; [by split|..];
    unfold is_u64, entry_offset in *; (split; [nia|]); apply Z.nle_gt; intros Hge; by apply Hov in Hge.
Qed.

Lemma autodetect_inv n i e d' :
  0 ≤ i → i + Z.of_nat n ≤ 2 ^ 32 → arun (autodetect be n i h base) d = (Some e, d') →
  d' = d ∧ ∃ k, i ≤ k < i + Z.of_nat n ∧ e = entry_at (ad_bytes d) k ∧ length e = 128%nat ∧ is_bios_boot e ∧
    ∀ j, i ≤ j < k → ¬ is_bios_boot (entry_at (ad_bytes d) j).
Proof.
  revert i. induction n as [|n IH]; intros i Hi Hn; [done|]. cbn [autodetect].
  destruct (add_u64_overflow base _) as [off [|]] eqn:Hadd; [done|]. intros Hr.
  destruct (entry_read_inv i off _ _ _ ltac:(lia) Hadd Hr) as [Hlen Hr']. clear Hr.
  destruct (memcmp_eq BIOS_BOOT_GUID (entry_at (ad_bytes d) i) 16) eqn:Hm.
  - injection Hr' as <- <-. split; [done|]. exists i. rewrite memcmp_bios_boot in Hm.
    split_and!; try done; lia.
  - destruct (IH (i + 1)) as (-> & k & Hk & He & Hl & Hg & Hfirst); [lia|lia|done|].
    split; [done|]. exists k. split_and!; try done; try lia. intros j Hj.
    destruct (decide (j = i)) as [-> |]; [|apply Hfirst; lia].
    intros Hb. apply memcmp_bios_boot in Hb. congruence.
Qed.

Lemma select_partition_inv ndx e d' :
  arun (select_partition be false ndx h base) d = (Some e, d') →
  d' = d ∧ ∃ k, 0 ≤ k < number_of_partition_entries be h ∧ sscanf_u32 ndx = Some (u32 (k + 1)) ∧
    e = entry_at (ad_bytes d) k ∧ length e = 128%nat ∧ is_bios_boot e.
Proof.
  unfold select_partition. destruct (sscanf_u32 ndx) as [m|] eqn:Hs; [|done].
  set (k := u32 (m - 1)). pose proof (u32_range (m - 1)) as Hk. fold k in Hk.
  destruct (Z.leb_spec (number_of_partition_entries be h) k); [done|].
  destruct (add_u64_overflow base _) as [off [|]] eqn:Hadd; [done|]. intros Hr.
  destruct (entry_read_inv k off _ _ _ Hk Hadd Hr) as [Hlen Hr']. clear Hr.
  destruct (_ && _); [done|]. cbn [negb andb] in Hr'.
  destruct (memcmp_eq BIOS_BOOT_GUID (entry_at (ad_bytes d) k) 16) eqn:Hm; [|done].
  injection Hr' as <- <-. split; [done|]. exists k. rewrite memcmp_bios_boot in Hm.
  split_and!; try done; [apply Hk|]. f_equal.
  assert (is_u32 m) as Hm32.
  { unfold sscanf_u32 in Hs. repeat case_match; simplify_eq; apply u32_range. }
  unfold k, u32, is_u32 in *. rewrite Zplus_mod_idemp_l. rewrite Z.mod_small; lia.
Qed.
End table.

(** The partition that takes stage 2, as the code finds it in the table of [h]
    on a disk that holds [b]. *)
Record stage2_partition (be : bool) (part_ndx : option (list byte)) (b h : list byte) (lb k : Z) : Prop := {
  sp_index : 0 ≤ k < number_of_partition_entries be h;
  sp_type : is_bios_boot (entry_at be h (partition_entry_lba be h * lb) b k);
  sp_choice :
    match part_ndx with
    | Some ndx => sscanf_u32 ndx = Some (u32 (k + 1))
    | None => ∀ j, 0 ≤ j < k →
        ¬ is_bios_boot (entry_at be h (partition_entry_lba be h * lb) b j)
    end;
  sp_order : 
    let e := entry_at be h (partition_entry_lba be h * lb) b k in
    0 ≤ starting_lba be e ≤ ending_lba be e ∧
    32768 ≤ (ending_lba be e - starting_lba be e + 1) * lb ∧
    looks_like_fs b (starting_lba be e * lb) = false
}.

(** Byte offset of the partition. *)
Definition stage2_offset (be : bool) (b h : list byte) (lb k : Z) : Z :=
  starting_lba be (entry_at be h (partition_entry_lba be h * lb) b k) * lb.

Lemma mul_no_overflow a b r :
  is_u64 a → is_u64 b → mul_u64_overflow a b = (r, false) → r = a * b ∧ is_u64 r.
Proof.
  intros Ha Hb Hm. destruct (mul_u64_overflow_spec a b Ha Hb) as [Hov Heq].
  rewrite Hm in Hov, Heq. simpl in Hov, Heq. specialize (Heq eq_refl). split; [done|].
  subst. unfold is_u64 in *. split; [nia|]. apply Z.nle_gt. intros H. by apply Hov in H.
Qed.

Lemma gpt_stage2_inv be part h lb d loc d' :
  ad_wf d → length h = 96%nat → lb = 512 ∨ lb = 4096 →
  arun (gpt_stage2 be false part h lb) d = (Some loc, d') →
  d' = d ∧ ∃ k, stage2_partition be part (ad_bytes d) h lb k ∧ loc = stage2_offset be (ad_bytes d) h lb k ∧
    is_u64 loc.
Proof.
  intros Hw Hh Hlb. unfold gpt_stage2.
  destruct (field_le be 72 8 h ltac:(lia) ltac:(auto)) as [_ Hpl]. change (8 * Z.of_nat 8) with 64 in Hpl.
  fold (partition_entry_lba be h) in Hpl.
  destruct (mul_u64_overflow (partition_entry_lba be h) lb) as [base [|]] eqn:Hmul; [done|].
  apply mul_no_overflow in Hmul as [-> Hb]; [|done|unfold is_u64; lia].
  set (base := partition_entry_lba be h * lb) in *. pose proof (number_range be h Hh) as Hnum.
  intros (e & d1 & Hsel & Hr)%arun_bind_inv.
  assert (d1 = d ∧ ∃ k, 0 ≤ k < number_of_partition_entries be h ∧ e = entry_at be h base (ad_bytes d) k ∧
            length e = 128%nat ∧ is_bios_boot e ∧
            match part with
            | Some ndx => sscanf_u32 ndx = Some (u32 (k + 1))
            | None => ∀ j, 0 ≤ j < k → ¬ is_bios_boot (entry_at be h base (ad_bytes d) j)
            end) as (-> & k & Hk & He & Hlen & Hboot & Hch).
  { destruct part as [ndx|].
    - apply select_partition_inv in Hsel as (-> & k & ? & ? & ? & ? & ?); try done. split; [done|]. by exists k.
    - apply autodetect_inv in Hsel as (-> & k & Hk & ? & ? & ? & ?); try done; [|lia].
      split; [done|]. exists k. split_and!; try done; lia. }
  destruct (field_le be 32 8 e ltac:(lia) ltac:(auto)) as [_ Hst]. fold (starting_lba be e) in Hst.
  destruct (field_le be 40 8 e ltac:(lia) ltac:(auto)) as [_ Hen]. fold (ending_lba be e) in Hen.
  change (8 * Z.of_nat 8) with 64 in Hst, Hen.
  destruct (Z.ltb_spec (ending_lba be e) (starting_lba be e)) as [|Hord]; [done|].
  destruct (mul_u64_overflow (u64 _) lb) as [sz [|]] eqn:Hsz; [done|].
  apply mul_no_overflow in Hsz as [-> _]; [|apply u64_range|unfold is_u64; lia].
  destruct (Z.ltb_spec (u64 (ending_lba be e - starting_lba be e + 1) * lb) 32768) as [|Hbig]; [done|].
  destruct (mul_u64_overflow (starting_lba be e) lb) as [l [|]] eqn:Hm2; [done|].
  apply mul_no_overflow in Hm2 as [-> Hl]; [|done|unfold is_u64; lia].
  apply arun_bind_inv in Hr as (v & d1 & Hv & Hr).
  apply validate_or_force_inv in Hv as [-> Hfs]; [|done|apply Hl|unfold is_u64 in Hl; lia].
  destruct v; [|done]. injection Hr as <- <-. split; [done|]. exists k. rewrite He in *. split; [|by split].
  assert (u64 (ending_lba be e - starting_lba be e + 1) = ending_lba be e - starting_lba be e + 1) as Hu.
  { destruct (decide (ending_lba be e - starting_lba be e + 1 = 2 ^ 64)) as [Heq|Hne].
    - exfalso. rewrite <- He, Heq in Hbig. change (u64 (2 ^ 64)) with 0 in Hbig. lia.
    - apply u64_small. unfold is_u64. rewrite <- He in *. lia. }
  rewrite He in Hu. split; [done|done|done|]. fold base. rewrite Hu in Hbig.
  split_and!; try done; [lia|]. by apply Hfs.
Qed.

(** ** The whole install *)

Lemma arun_write_inv {B} buffer loc count (f : () → prog B) d a d' :
  arun (device_write buffer loc count ≫= f) d = (Some a, d') → 0 < count ≤ Z.of_nat (length buffer) →
  u64 loc + count ≤ ad_limit d ∧
  arun (f ()) (ad_write (take (Z.to_nat count) buffer) (u64 loc) d) = (Some a, d').
Proof.
  unfold device_write, mbind, prog_bind. cbn [pbind arun]. unfold readable. intros Hr Hc.
  destruct (Z.leb_spec count 0); [lia|].
  destruct (Z.leb_spec (u64 loc + count) (ad_limit d)); [|done]. by destruct (0 <? _)%nat.
Qed.

(** Stage 2 is written inside the device. *)
Lemma write_stages_inv be img loc d u d' :
  ad_wf d → 512 < Z.of_nat (length img) → is_u64 loc →
  arun (write_stages be img loc) d = (Some u, d') → loc + (Z.of_nat (length img) - 512) ≤ ad_limit d.
Proof.
  intros Hw Hi Hl. unfold write_stages. intros (_ & _ & Hr)%arun_read_inv; [|done|lia].
  apply arun_read_inv in Hr as (_ & _ & Hr); [|done|lia].
  apply arun_write_inv in Hr as [_ Hr]; [|lia].
  apply arun_write_inv in Hr as [Hr _]; [|rewrite length_drop; lia].
  by rewrite u64_small in Hr.
Qed.

Lemma gpt_of_inv b h lb :
  gpt_of b = Some (h, lb) → h = slice (Z.to_nat lb) 96 b ∧ (lb = 512 ∨ lb = 4096).
Proof.
  unfold gpt_of. destruct (magic_at b 512 _); [intros [= <- <-]; auto|].
  destruct (magic_at b 4096 _); [intros [= <- <-]; auto|done].
Qed.

(** The ISOHYBRID conversion is switched off, or the disk is no ISO image. *)
Definition keeps_gpt (gpt2mbr_allowed : bool) (b : list byte) : Prop :=
  gpt2mbr_allowed = false ∨ magic_at b 32769 "CD001" = false.

Lemma isohybrid_conv_not_iso be rand h lb d r d' :
  ad_wf d → magic_at (ad_bytes d) 32769 "CD001" = false →
  arun (isohybrid_conv be rand h lb) d = (Some r, d') → r = false ∧ d' = d.
Proof.
  intros Hw Hiso. unfold isohybrid_conv. intros (_ & Hlen & Hr)%arun_read_inv; [|done|lia].
  change (u64 32769) with 32769 in *. change (Z.to_nat 5) with 5%nat in *.
  rewrite strncmp_eq_prefix in Hr; [|done|lia|].
  - change (take 5 (slice (Z.to_nat 32769) 5 (ad_bytes d)))
      with (take 5 (take 5 (drop (Z.to_nat 32769) (ad_bytes d)))) in Hr.
    rewrite take_take in Hr. unfold magic_at in Hiso.
    change (take (5 `min` 5) (drop (Z.to_nat 32769) (ad_bytes d)))
      with (slice (Z.to_nat 32769) (length (lit "CD001")) (ad_bytes d)) in Hr.
    rewrite Hiso in Hr. by injection Hr as <- <-.
  - apply (bool_decide_unpack (x00 ∉ lit "CD001")). by vm_compute.
Qed.

Lemma install_prog_gpt be conv part img rand d h lb u d' :
  ad_wf d → 4192 ≤ ad_limit d → 512 < Z.of_nat (length img) → (5 ≤ ad_free d)%nat →
  gpt_of (ad_bytes d) = Some (h, lb) → keeps_gpt conv (ad_bytes d) →
  arun (install_prog be false conv part img rand) d = (Some u, d') →
  ∃ k, stage2_partition be part (ad_bytes d) h lb k ∧
    let loc := stage2_offset be (ad_bytes d) h lb k in
    (512 ≤ loc → ad_synced d' = true ∧ ∀ q, ad_bytes d' !! q = boot_layout img loc (ad_bytes d) q).
Proof.
  intros Hw Hl Hi Hf Hgpt Hk. destruct (aw_limit d Hw) as [_ Hlim].
  destruct (gpt_of_inv _ _ _ Hgpt) as [Hh Hlb]. unfold install_prog.
  rewrite arun_bind, probe_gpt_run, Hgpt by done. cbn beta iota.
  intros (g & d1 & Hr1 & Hr)%arun_bind_inv. cbn beta iota in Hr1.
  assert (g = Some (h, lb) ∧ d1 = d) as [-> ->].
  { apply arun_bind_inv in Hr1 as ([] & d2 & Hsec & Hr1). unfold check_secondary in Hsec.
    apply arun_read_inv in Hsec as (_ & _ & Hsec); [|done|done].
    destruct (strncmp_eq _ _ _); [|done]. injection Hsec as <-.
    destruct conv; [|by injection Hr1 as <- <-].
    apply arun_bind_inv in Hr1 as (r & d2 & Hc & Hr1). destruct Hk as [?|Hk]; [done|].
    apply isohybrid_conv_not_iso in Hc as [-> ->]; [|done|done]. by injection Hr1 as <- <-. }
  apply arun_bind_inv in Hr as (loc & d2 & Hst & Hr). cbn beta iota in Hst.
  apply gpt_stage2_inv in Hst as (-> & k & Hsp & -> & Hu); [|done|subst h; apply length_slice; lia|done].
  exists k. split; [done|]. cbv zeta. intros Hloc. set (loc := stage2_offset _ _ _ _ _) in *.
  assert (loc + (Z.of_nat (length img) - 512) ≤ ad_limit d) as Hin by (by eapply write_stages_inv).
  destruct (write_stages_run be img loc d) as [n Hrun]; [done|lia|lia|lia|lia|].
  rewrite Hrun in Hr. injection Hr as _ <-. split; [done|]. intros q.
  apply (boot_writes_layout be img loc d q); lia.
Qed.

(** C5. A successful install to a GPT disk, without [--force] and without an
    ISOHYBRID conversion: stage 2 goes to a BIOS boot partition of the table,
    the one asked for or else the first, of at least 32 KiB and without a known
    file system. If that partition does not start in the boot sector, the
    device changes only there and in the part of the partition that stage 2
    fills, and a boot image of up to 33280 bytes stays inside the partition. *)
Theorem gpt_install_exact img rand a s s' h lb :
  fresh s → ia_uninstall_mode a = false → ia_force a = false → io s = [] →
  4704 ≤ Z.of_nat (length (device s)) ≤ OFF_MAX → 512 < Z.of_nat (length img) ≤ 33280 →
  gpt_of (device s) = Some (h, lb) → keeps_gpt (ia_gpt2mbr_allowed a) (device s) →
  bios_install_main img rand a s = Some (EXIT_SUCCESS, s') →
  ∃ k, stage2_partition (bigendian s) (ia_part_ndx a) (device s) h lb k ∧
    let e := entry_at (bigendian s) h (partition_entry_lba (bigendian s) h * lb) (device s) k in
    let loc := stage2_offset (bigendian s) (device s) h lb k in
    (512 ≤ loc → ∀ q, device s' !! q = boot_layout img loc (device s) q) ∧
    loc + (Z.of_nat (length img) - 512) ≤ (ending_lba (bigendian s) e + 1) * lb.
Proof.
  intros Hf Hm Hfo Hs Hdev Hi Hgpt Hk Hr.
  destruct (disk_of_wf (device s) ltac:(lia)) as [Hw Hl].
  destruct (arun (install_prog (bigendian s) (ia_force a) (ia_gpt2mbr_allowed a) (ia_part_ndx a) img rand)
              (disk_of (device s))) as [r d'] eqn:Hrun.
  destruct (install_on_array img rand a s r d') as (s1 & Hr1 & _ & Hok); [done|done|done|lia|lia|done|].
  rewrite Hr in Hr1. injection Hr1 as Hcode <-. destruct r as [u|]; [|done]. rewrite Hfo in Hrun.
  apply (install_prog_gpt _ _ _ _ _ _ h lb) in Hrun as (k & Hsp & Hlay); [|done|lia|lia|simpl; lia|done|done].
  exists k. split; [done|]. cbv zeta in Hlay |- *. split.
  - intros Hloc q. destruct (Hlay Hloc) as [Hsy Hq]. rewrite Hok by done. apply Hq.
  - destruct Hsp as [_ _ _ (Hord & Hsz & _)]. unfold stage2_offset.
    cbn [disk_of ad_bytes] in *. destruct (gpt_of_inv _ _ _ Hgpt) as [_ [-> | ->]]; lia.
Qed.

(** ** A concrete GPT disk: 72 blocks, one BIOS boot partition at LBA 4-67 *)

Definition demo_header (alternate : Z) : list byte :=
  lit "EFI PART" ++ replicate 24 x00 ++ le_bytes 8 alternate ++ replicate 32 x00 ++
  le_bytes 8 2 ++ le_bytes 4 1 ++ le_bytes 4 128 ++ replicate 424 x00.
Definition demo_gpt : list byte :=
  demo_blocks 1 ++ demo_header 71 ++
  BIOS_BOOT_GUID ++ replicate 16 x11 ++ le_bytes 8 4 ++ le_bytes 8 67 ++ replicate 464 x00 ++
  demo_blocks 68 ++ demo_header 1.

Definition demo_gpt_installed : state :=
  result_state (bios_install_main demo_img demo_rand (demo_args false) (demo_state demo_gpt None [])).

Lemma gpt_install_exact_witness :
  ∃ k, stage2_partition false None demo_gpt (slice 512 96 demo_gpt) 512 k ∧
    let e := entry_at false (slice 512 96 demo_gpt)
               (partition_entry_lba false (slice 512 96 demo_gpt) * 512) demo_gpt k in
    let loc := stage2_offset false demo_gpt (slice 512 96 demo_gpt) 512 k in
    (512 ≤ loc → ∀ q, device demo_gpt_installed !! q = boot_layout demo_img loc demo_gpt q) ∧
    loc + (Z.of_nat (length demo_img) - 512) ≤ (ending_lba false e + 1) * 512.
Proof.
  apply (gpt_install_exact demo_img demo_rand (demo_args false) (demo_state demo_gpt None [])
           demo_gpt_installed).
  - apply demo_fresh.
  - reflexivity.
  - reflexivity.
  - reflexivity.
  - split; vm_compute; discriminate.
  - split; [vm_compute; reflexivity|vm_compute; discriminate].
  - vm_compute. reflexivity.
  - right. vm_compute. reflexivity.
  - apply success_result. vm_compute. reflexivity.
Defined.

End LimineGpt.
