(* ===== verification/LimineFindings.v ===== *)
(** * limine.c: inputs on which the installer misbehaves

    A refused uninstall data file makes the program's behaviour undefined, for
    every such file of two kinds; and one run in which a device error leaves a
    half-written block. The general theorems of [LimineMain] say that nothing of
    the kind happens without an I/O fault, or with a well-formed uninstall data
    file. *)

From S2P Require Import Prelude LimineArith LimineState LimineDevice LimineCache.
From S2P Require Import LimineUndo LimineRollback LimineStore LimineInstall LimineExec.
From S2P Require Import LimineBudget LimineMain.

Module LimineFindings.
Export LimineMain.

(** ** Freeing the entries *)

Lemma free_entries_app n k i s :
  free_entries (n + k) i s = (free_entries n i ;;; free_entries k (i + Z.of_nat n)) s.
Proof.
  revert i s. induction n as [|n IH]; intros i s; cbn [free_entries Nat.add].
  { unfold bind, ret. by rewrite Z.add_0_r. }
  replace (i + Z.of_nat (S n)) with (i + 1 + Z.of_nat n) by lia. rewrite !bind_assoc. unfold bind.
  destruct (load_ud i s) as [[e s1]|]; [|done]. destruct (free (ud_data e) s1) as [[u s2]|]; [|done]. apply IH.
Qed.

(** Null pointers are freed without effect. *)
Lemma free_null n i s :
  (∀ j, (i ≤ j < i + n)%nat → uninstall_data_arr s !! j = Some ud_zero) → free_entries n (Z.of_nat i) s = Some ((), s).
Proof.
  revert i. induction n as [|n IH]; intros i Hj; [done|]. cbn [free_entries].
  rewrite (bind_run _ _ _ _ _ (load_ud_run (Z.of_nat i) ud_zero s ltac:(lia) ltac:(rewrite Nat2Z.id; apply Hj; lia))).
  replace (Z.of_nat i + 1) with (Z.of_nat (S i)) by lia. apply IH. intros j Hj'. apply Hj. lia.
Qed.

(** Pointers that were freed are dead, and stay in the table. *)
Lemma free_entries_frees n i s s' :
  free_entries n (Z.of_nat i) s = Some ((), s') →
  uninstall_data_arr s' = uninstall_data_arr s ∧ uninstall_data_i s' = uninstall_data_i s ∧ live s' ⊆ live s ∧
  ∀ j e, (i ≤ j < i + n)%nat → uninstall_data_arr s !! j = Some e → ud_data e ≠ 0%nat → ud_data e ∉ live s'.
Proof.
  revert i s. induction n as [|n IH]; intros i s; cbn [free_entries].
  { intros [= <-]. split_and!; [done|done|done|]. intros. lia. }
  unfold bind at 1. destruct (load_ud (Z.of_nat i) s) as [[e s1]|] eqn:El; [|done].
  unfold load_ud in El. run. rewrite (proj2 (Z.leb_le 0 _)), Nat2Z.id in El by lia.
  destruct (uninstall_data_arr s !! i) as [e'|] eqn:Ei; [|done]. injection El as <- <-.
  destruct (free (ud_data e') s) as [[[] s1]|] eqn:Ef; [|done]. replace (Z.of_nat i + 1) with (Z.of_nat (S i)) by lia.
  intros (Ha & Hi & Hl & Hd)%IH.
  assert (uninstall_data_arr s1 = uninstall_data_arr s ∧ uninstall_data_i s1 = uninstall_data_i s ∧ live s1 ⊆ live s ∧
    (ud_data e' ≠ 0%nat → ud_data e' ∉ live s1)) as (Ha1 & Hi1 & Hl1 & Hd1).
  { unfold free in Ef. destruct (bool_decide_reflect (ud_data e' = 0%nat)); [injection Ef as <-; done|]. run.
    case_bool_decide; [|done]. injection Ef as <-. destruct s; cbn. set_solver. }
  rewrite Ha1 in *. split_and!; [done|congruence|set_solver|].
  intros j e Hj He Hne. destruct (decide (j = i)) as [->|]; [|apply (Hd j e); [lia|done|done]].
  rewrite Ei in He. injection He as ->. specialize (Hd1 Hne). set_solver.
Qed.

(** The walk does not look at [uninstall_data_i]. *)
Lemma free_entries_log k n i s :
  heap_ok (set_uninstall_data_i (Z.of_nat k) s) → (i + n = k)%nat → ∃ s', free_entries n (Z.of_nat i) s = Some ((), s').
Proof.
  intros Hh Hk. assert (∀ n i s k, is_Some (free_entries n i (set_uninstall_data_i k s)) → is_Some (free_entries n i s)) as Hset.
  { clear. intros n. induction n as [|n IH]; intros i s k; [by eexists|]. cbn [free_entries]. unfold bind at 1 3, load_ud. run.
    cbn [uninstall_data_arr set_uninstall_data_i]. destruct (if 0 <=? i then _ else None) as [e|]; [|by intros []].
    unfold free. case_bool_decide; [apply IH|]. run. cbn [live set_uninstall_data_i]. case_bool_decide; [|by intros []].
    intros Hgo. apply (IH (i + 1) (set_live (live s ∖ {[ud_data e]}) s) k). by destruct s. }
  destruct (free_entries_run n i _ Hh ltac:(simpl; lia) (live s)) as (l' & Hr & _).
  { intros e He. apply (ho_live _ Hh). rewrite <-(take_drop i (log _)). apply elem_of_app. by right. }
  destruct (Hset n (Z.of_nat i) s (Z.of_nat k)) as [[[] s'] Hs']; [|by exists s'].
  replace (set_uninstall_data_i (Z.of_nat k) s) with (set_live (live s) (set_uninstall_data_i (Z.of_nat k) s)) by (by destruct s).
  by eexists.
Qed.

(** ** Files that are refused *)

(** The number of entries is read. *)
Lemma load_count_run n rest s :
  io s = [] → is_u64 n → udfile s = Some (host_bytes (bigendian s) 8 n ++ rest) →
  load_uninstall_data s =
    (if UNINSTALL_DATA_MAX <? n then load_error 0 else load_entries (Z.to_nat n) 0 8) (set_uninstall_data_i n s).
Proof.
  intros Hs Hn Hf. unfold load_uninstall_data, fopen_rb.
  assert (next_io s = Some (good_outcome, s)) as Hg by (unfold next_io; by rewrite Hs).
  rewrite bind_assoc, (bind_run _ _ _ _ _ Hg). run. rewrite Hf. cbn [negb andb oc_ok good_outcome].
  rewrite bool_decide_true by done. cbn [negb].
  destruct (fread_ud_u64 [] n rest (host_bytes (bigendian s) 8 (uninstall_data_i s)) s Hs Hf Hn) as (b & Hr & Hb); [apply length_host_bytes|].
  change (Z.of_nat (length [])) with 0 in Hr. rewrite Hr, Hb. cbn [negb]. rewrite app_nil_l, length_host_bytes. done.
Qed.

(** A location that is cut short. *)
Lemma fread_ud_cut pre rest old s :
  io s = [] → udfile s = Some (pre ++ rest) → (length rest < 8)%nat →
  ∃ b pos, fread_ud (Z.of_nat (length pre)) 8 old s = Some ((false, b, pos), s).
Proof.
  intros Hs Hf Hr. unfold fread_ud. assert (next_io s = Some (good_outcome, s)) as Hg by (unfold next_io; by rewrite Hs).
  rewrite (bind_run _ _ _ _ _ Hg). run. rewrite Hf. cbn [from_option oc_ok good_outcome]. unfold id.
  assert (length (slice (Z.to_nat (Z.of_nat (length pre))) 8 (pre ++ rest)) = length rest) as El.
  { unfold slice. rewrite Nat2Z.id, drop_app_length, length_take. lia. }
  rewrite El. destruct (Nat.eqb_spec (length rest) 8); [lia|]. by eexists _, _.
Qed.

Lemma cut_entry_run n i pre rest s :
  io s = [] → udfile s = Some (pre ++ rest) → (length rest < 8)%nat → (i < length (uninstall_data_arr s))%nat →
  ∃ e, load_entries (S n) (Z.of_nat i) (Z.of_nat (length pre)) s =
    load_error (Z.of_nat i) (set_uninstall_data_arr (<[i := e]> (uninstall_data_arr s)) s).
Proof.
  intros Hs Hf Hr Hi. cbn [load_entries]. run. destruct (lookup_lt_is_Some_2 _ _ Hi) as [u Hu].
  rewrite (load_ud_run _ u) by (rewrite ?Nat2Z.id; done || lia).
  destruct (fread_ud_cut pre rest (host_bytes (bigendian s) 8 (ud_loc u)) s Hs Hf Hr) as (b & pos & ->).
  rewrite store_ud_run by lia. rewrite Nat2Z.id. by eexists.
Qed.

(** A file that announces too many entries: they are walked past the end of the table. *)
Lemma oversized_walk n rest s :
  io s = [] → uninstall_data_arr s = replicate 256 ud_zero → 256 < n < 2 ^ 64 →
  udfile s = Some (host_bytes (bigendian s) 8 n ++ rest) →
  ∃ s1, load_uninstall_data s = Some (false, s1) ∧ uninstall_data_i s1 = n ∧
    free_entries 256 0 s1 = Some ((), s1) ∧ load_ud 256 s1 = None ∧ free_uninstall_data s1 = None.
Proof.
  intros Hs Ha Hn Hf. rewrite (load_count_run n rest s Hs ltac:(unfold is_u64; lia) Hf).
  destruct (Z.ltb_spec UNINSTALL_DATA_MAX n) as [_|]; [|unfold UNINSTALL_DATA_MAX in *; lia].
  set (s1 := set_uninstall_data_i n s). assert (uninstall_data_arr s1 = replicate 256 ud_zero) as Ha1 by exact Ha. exists s1.
  assert (free_entries 256 (Z.of_nat 0) s1 = Some ((), s1)) as Hw.
  { apply free_null. intros j Hj. rewrite Ha1. apply lookup_replicate_2. lia. }
  assert (load_ud 256 s1 = None) as Hl by (unfold load_ud; run; by rewrite Ha1).
  split_and!; [done|done|exact Hw|exact Hl|]. unfold free_uninstall_data. run. change (uninstall_data_i s1) with n.
  replace (Z.to_nat n) with (256 + S (Z.to_nat (n - 257)))%nat by lia. rewrite free_entries_app, (bind_run _ _ _ _ _ Hw).
  cbn [free_entries]. change (0 + Z.of_nat 256) with 256. unfold bind at 1. by rewrite Hl.
Qed.

(** A file that ends after some of its entries: their blocks are freed twice. *)
Lemma truncated_free l n rest s :
  io s = [] → heap_ok s → uninstall_data_i s = 0 → (0 < length l)%nat → Z.of_nat (length l) < n ≤ 256 → Forall storable l →
  (length rest < 8)%nat →
  udfile s = Some (host_bytes (bigendian s) 8 n ++ concat (encode_entry (bigendian s) <$> l) ++ rest) →
  ∃ s1 e, load_uninstall_data s = Some (false, s1) ∧ uninstall_data_i s1 = n ∧
    uninstall_data_arr s1 !! 0%nat = Some e ∧ ud_data e ≠ 0%nat ∧ (ud_data e ∉ live s1) ∧ free_uninstall_data s1 = None.
Proof.
  intros Hs Hh Hi Hl Hn Hst Hrest Hf. rewrite (load_count_run n _ s Hs ltac:(unfold is_u64; lia) Hf).
  destruct (Z.ltb_spec UNINSTALL_DATA_MAX n) as [|_]; [unfold UNINSTALL_DATA_MAX in *; lia|].
  set (s1 := set_uninstall_data_i n s). replace (Z.to_nat n) with (length l + S (Z.to_nat n - length l - 1))%nat by lia.
  destruct (load_entries_prefix (S (Z.to_nat n - length l - 1)) l 0 (host_bytes (bigendian s) 8 n) rest s1)
    as (s2 & Hr2 & _ & Hcf & Hh2 & Hi2 & l' & Hlog & Hsame); [done| |lia|done|exact Hf|].
  { change (Z.of_nat 0) with 0. rewrite <-Hi. by destruct s. }
  rewrite length_host_bytes in Hr2. change (Z.of_nat 0) with 0 in Hr2. change (Z.of_nat 8) with 8 in Hr2. rewrite Hr2. rewrite Nat.add_0_l in *.
  pose proof (ho_arr _ Hh2) as Ha2. cbn [uninstall_data_arr set_uninstall_data_i] in Ha2.
  destruct (cut_entry_run (Z.to_nat n - length l - 1) (length l)
    (host_bytes (bigendian s) 8 n ++ concat (encode_entry (bigendian s) <$> l)) rest s2) as (e & Hcut);
    [by apply (cf_io _ _ Hcf)|rewrite (cf_udfile _ _ Hcf), <-app_assoc; exact Hf|done|lia|]. change (bigendian s1) with (bigendian s). rewrite Hcut.
  destruct (heap_ok_store_at _ e s2 Hh2) as [Hh3 Hlog3]. rewrite Nat2Z.id in Hh3, Hlog3. set (s3 := set_uninstall_data_arr _ s2) in *.
  destruct (free_entries_log (length l) (length l) 0 s3 Hh3 ltac:(lia)) as (s4 & Hfree).
  destruct (free_entries_frees _ _ _ _ Hfree) as (Ha4 & Hi4 & _ & Hdead). change (Z.of_nat 0) with 0 in Hfree.
  unfold load_error. rewrite Nat2Z.id, (bind_run _ _ _ _ _ Hfree).
  destruct l as [|x l]; [cbn in Hl; lia|]. inversion Hsame as [|e0 ? l0 ? _ _ Heq]; subst l'.
  assert (log (set_uninstall_data_i (Z.of_nat (length (x :: l))) s3) !! 0%nat = Some e0) as Hfirst.
  { rewrite Hlog3, Hlog. unfold log. cbn [uninstall_data_i set_uninstall_data_i]. done. }
  pose proof (ho_live _ Hh3 e0 ltac:(by eapply list_elem_of_lookup_2)) as [Hne _].
  assert (uninstall_data_arr s3 !! 0%nat = Some e0) as H03 by (unfold log in Hfirst; by rewrite lookup_take_lt in Hfirst by (cbn; lia)).
  assert (ud_data e0 ∉ live s4) as Hdead0 by (apply (Hdead 0%nat); [cbn; lia|done|done]).
  assert (uninstall_data_i s4 = n) as Hn4 by (rewrite Hi4; exact Hi2).
  exists s4, e0. split_and!; [done|done|by rewrite Ha4|done|done|]. unfold free_uninstall_data. run. rewrite Hn4.
  replace (Z.to_nat n) with (S (Z.to_nat n - 1)) by lia. cbn [free_entries].
  rewrite (bind_run _ _ _ _ _ (load_ud_run 0 e0 s4 ltac:(lia) ltac:(by rewrite Ha4))). unfold bind, free.
  rewrite bool_decide_false by done. run. by rewrite bool_decide_false.
Qed.

(** The program goes on to free what the refused file left behind. *)
Lemma refused_main img rand a s s0 s1 :
  ia_uninstall_mode a = true → is_Some (ia_uninstall_file a) → device_init (set_empty_lba 0 s) = Some (true, s0) →
  load_uninstall_data s0 = Some (false, s1) → free_uninstall_data s1 = None → bios_install_main img rand a s = None.
Proof.
  intros Hm Hfile Hd Hl Hf. unfold bios_install_main. unfold modify at 1. unfold bind at 1. rewrite (bind_run _ _ _ _ _ Hd).
  cbn [negb]. rewrite Hm. unfold run_uninstall. rewrite bool_decide_true by done. cbn [negb].
  rewrite bind_assoc, (bind_run _ _ _ _ _ Hl). cbn [negb]. unfold uninstall_mode_cleanup, ret at 1, bind. by rewrite Hf.
Qed.


(** Two such files: one announces one entry more than the table has, and one has one
    entry where it announces two. *)
Definition oversized_file : list byte := le_bytes 8 257.
Definition truncated_file : list byte := le_bytes 8 2 ++ (le_bytes 8 0 ++ le_bytes 8 1 ++ [x11]) ++ [x22; x33].


(** ** A device error *)

(** One read that fails once. *)
Definition one_fault (k : nat) : list outcome := replicate k good_outcome ++ [Outcome false [] 0].

Definition faulty_install : option (Z * state) :=
  bios_install_main demo_img demo_rand (demo_args false) (demo_state (demo_blocks 10) None (one_fault 25)).

(** A write of several blocks that fails part-way has flushed its first blocks,
    and its undo entry is dropped. *)
Theorem fault_leaves_partial_write :
  ∃ s', faulty_install = Some (EXIT_FAILURE, s') ∧ device s' ≠ demo_blocks 10 ∧
    slice 512 512 (device s') = replicate 512 x90.
Proof.
  exists (result_state faulty_install). split; [vm_compute; reflexivity|]. split.
  - intros H. apply (f_equal (λ d, d !! 600%nat)) in H. vm_compute in H. discriminate.
  - vm_compute. reflexivity.
Qed.

End LimineFindings.
