(* ===== verification/LimineEnroll.v ===== *)
(** * limine.c: enroll-config and the command dispatcher

    [remove_arg], [enroll_config], [version], [print_datadir] and [main] of
    Platform/SDK/r4os/storage_tools/limine/limine.c. The executable that
    enroll-config edits is an array of bytes; every library call on it may fail
    as [enroll_io] says. The search for the signature is shown to end and to
    return the first occurrence it can reach. *)

From S2P Require Import Prelude LimineArith LimineState LimineInstall.

Module LimineEnroll.
Export LimineInstall.

Definition CONFIG_B2SUM_SIGNATURE : list byte := lit "++CONFIG_B2SUM_SIGNATURE++".

(** ** remove_arg *)

(** The arguments shifted down by one from [index] on; [n] rounds of its loop. *)
Fixpoint remove_arg_loop (n : nat) (i : nat) (argv : list (list byte)) : list (list byte) :=
  match n with
  | O => argv
  | S n => remove_arg_loop n (S i) (match argv !! S i with Some x => <[i := x]> argv | None => argv end)
  end.

(** [argc] is the length of the list: the slot the last argument leaves is cut. *)
Definition remove_arg (argv : list (list byte)) (index : nat) : list (list byte) :=
  take (length argv - 1) (remove_arg_loop (length argv - 1 - index) index argv).

(** ** enroll_config *)

(** The loop over the arguments: [None] is [--help]. One round either moves on
    or removes an argument, so [length argv] rounds are enough. *)
Fixpoint enroll_args (fuel : nat) (i : nat) (argv : list (list byte)) (reset : bool)
    : option (list (list byte) * bool) :=
  match fuel with
  | O => Some (argv, reset)
  | S fuel =>
      match argv !! i with
      | None => Some (argv, reset)
      | Some x =>
          if streq x "--help" || streq x "-h" then None
          else if streq x "--quiet" then enroll_args fuel i (remove_arg argv i) reset
          else if streq x "--reset" then enroll_args fuel i (remove_arg argv i) true
          else enroll_args fuel (S i) argv reset
      end
  end.

(** The search loop from [i] with [checked] bytes matched: the index behind the
    signature, or [None]. *)
Fixpoint search (fuel : nat) (bootloader : list byte) (limit i checked : nat) : option nat :=
  match fuel with
  | O => None
  | S fuel =>
      if (i <? limit)%nat then
        if bool_decide (bootloader !! i ≠ CONFIG_B2SUM_SIGNATURE !! checked) then
          if (0 <? checked)%nat
          then search fuel bootloader limit (i - checked + 1) 0
          else search fuel bootloader limit (i + 1) 0
        else
          let checked := S checked in
          if (checked =? length CONFIG_B2SUM_SIGNATURE)%nat then Some (i + 1)%nat
          else search fuel bootloader limit (i + 1) checked
      else None
  end.

Definition min_size : nat := length CONFIG_B2SUM_SIGNATURE + 128.

(** Rounds that are enough for every file of [n] bytes. *)
Definition search_fuel (n : nat) : nat := (n + 2) * 28.

Definition checksum_loc (bootloader : list byte) : option nat :=
  search (search_fuel (length bootloader)) bootloader (length bootloader - min_size + 1) 0 0.

(** Which calls of the C library succeed. *)
Record enroll_io := EnrollIo {
  e_fopen : bool; e_seek_end : bool; e_ftell : bool; e_malloc : bool; e_fread : bool;
  e_seek_set : bool;
  e_fwrite : option nat      (** [Some n]: only [n] bytes reach the file *)
}.
Definition good_io : enroll_io := EnrollIo true true true true true true None.

(** From the opened file on: exit code and new contents. *)
Definition enroll_file (io : enroll_io) (file : list byte) (hash : list byte) : Z * list byte :=
  if negb (e_fopen io && e_seek_end io && e_ftell io) then (EXIT_FAILURE, file)
  else if (length file <? min_size)%nat then (EXIT_FAILURE, file)
  else if negb (e_malloc io && e_fread io) then (EXIT_FAILURE, file)
  else
    match checksum_loc file with
    | None => (EXIT_FAILURE, file)
    | Some loc =>
        let bootloader := splice loc hash file in
        if negb (e_seek_set io) then (EXIT_FAILURE, file)
        else
          match e_fwrite io with
          | Some n => (EXIT_FAILURE, splice 0 (take n bootloader) file)
          | None => (EXIT_SUCCESS, bootloader)
          end
    end.

Definition enroll_config (io : enroll_io) (argv : list (list byte)) (file : list byte)
    : Z * list byte :=
  match enroll_args (length argv) 1 argv false with
  | None => (EXIT_SUCCESS, file)
  | Some (argv, reset) =>
      if (length argv <=? (if reset then 1 else 2))%nat then (EXIT_FAILURE, file)
      else if negb reset && negb (length (argv !!! 2%nat) =? 128)%nat then (EXIT_FAILURE, file)
      else enroll_file io file (if reset then replicate 128 (z2b 48) else argv !!! 2%nat)
  end.

(** ** version, print_datadir, main *)

Definition LIMINE_VERSION : string := "12.0.1".

(** What a command prints, line by line. *)
Definition version (argv : list (list byte)) : Z * list string :=
  let full := ["Limine 12.0.1"%string; "Copyright (C) 2019-2026 Mintsuki and contributors."%string;
               "Limine is distributed under the terms of the BSD-2-Clause license."%string;
               "There is ABSOLUTELY NO WARRANTY, to the extent permitted by law."%string] in
  match argv !! 1%nat with
  | Some x =>
      if streq x "--help" then (EXIT_SUCCESS, ["usage"%string])
      else if streq x "--version-only" then (EXIT_SUCCESS, [LIMINE_VERSION])
      else (EXIT_SUCCESS, full)
  | None => (EXIT_SUCCESS, full)
  end.

(** Built without [LIMINE_DATADIR], as the storage tools are. *)
Definition print_datadir : Z := EXIT_FAILURE.

Inductive command :=
| CUsage (code : Z)
| CBiosInstall (argv : list (list byte))
| CEnrollConfig (argv : list (list byte))
| CPrintDatadir
| CVersion (argv : list (list byte)).

Definition main (argv : list (list byte)) : command :=
  match argv !! 1%nat with
  | None => CUsage EXIT_FAILURE
  | Some x =>
      if streq x "help" || streq x "--help" || streq x "-h" then CUsage EXIT_SUCCESS
      else if streq x "bios-install" then CBiosInstall (drop 1 argv)
      else if streq x "enroll-config" then CEnrollConfig (drop 1 argv)
      else if streq x "--print-datadir" then CPrintDatadir
      else if streq x "version" || streq x "--version" then CVersion (drop 1 argv)
      else CUsage EXIT_FAILURE
  end.

(** ** The search *)

Definition sig_len : nat := 26.

(** The signature stands at [p]. *)
Definition sig_at (b : list byte) (p : nat) : Prop :=
  ∀ j, (j < sig_len)%nat → b !! (p + j)%nat = CONFIG_B2SUM_SIGNATURE !! j.

#[global] Instance sig_at_dec b p : Decision (sig_at b p).
Proof.
  refine (cast_if (decide (Forall (λ j, b !! (p + j)%nat = CONFIG_B2SUM_SIGNATURE !! j) (seq 0 sig_len)))).
  - intros j Hj. rewrite Forall_forall in f. apply f. apply elem_of_seq. lia.
  - intros H. apply n. apply Forall_forall. intros j Hj%elem_of_seq. apply H. lia.
Defined.

(** From a state of the loop in which [checked] bytes match at [i - checked]
    and no earlier position matches. *)
Lemma search_spec fuel b limit i checked :
  (checked ≤ i)%nat → (checked < sig_len)%nat →
  (∀ j, (j < checked)%nat → b !! (i - checked + j)%nat = CONFIG_B2SUM_SIGNATURE !! j) →
  ((limit + 1 - (i - checked)) * 28 - checked ≤ fuel)%nat → (i ≤ limit)%nat →
  match search fuel b limit i checked with
  | Some loc => ∃ p, loc = (p + sig_len)%nat ∧ (i - checked ≤ p)%nat ∧ (loc ≤ limit)%nat ∧ sig_at b p ∧
      ∀ q, (i - checked ≤ q < p)%nat → ¬ sig_at b q
  | None => ∀ p, (i - checked ≤ p)%nat → (p + sig_len ≤ limit)%nat → ¬ sig_at b p
  end.
Proof.
  assert (sig_len = 26%nat) as Hsl by done.
  revert i checked. induction fuel as [|fuel IH]; intros i checked Hci Hcs Hm Hf Hil.
  { unfold sig_len in *. lia. }
  cbn [search]. destruct (Nat.ltb_spec i limit) as [Hlt|Hge].
  2: { intros p Hp Hlim. unfold sig_len in *. lia. }
  case_bool_decide as Hne.
  - assert (¬ sig_at b (i - checked)) as Hno.
    { intros H. apply Hne. rewrite <- (H checked Hcs). f_equal. lia. }
    assert (search fuel b limit (i - checked + 1) 0 =
      if (0 <? checked)%nat then search fuel b limit (i - checked + 1) 0
      else search fuel b limit (i + 1) 0) as <-.
    { destruct (Nat.ltb_spec 0 checked); [done|]. f_equal. lia. }
    specialize (IH (i - checked + 1)%nat 0%nat). rewrite Nat.sub_0_r in IH.
    specialize (IH ltac:(lia) ltac:(unfold sig_len; lia) ltac:(intros; lia) ltac:(lia) ltac:(lia)).
    destruct (search fuel b limit (i - checked + 1) 0) as [loc|].
    + destruct IH as (p & -> & Hp & Hl & Hs & Hfirst). exists p. split_and!; try done; try lia.
      intros q Hq. destruct (decide (q = i - checked)%nat) as [-> |]; [done|]. apply Hfirst. lia.
    + intros p Hp Hl. destruct (decide (p = i - checked)%nat) as [-> |]; [done|]. apply IH; [lia|done].
  - assert (b !! i = CONFIG_B2SUM_SIGNATURE !! checked) as Heq.
    { destruct (decide (b !! i = CONFIG_B2SUM_SIGNATURE !! checked)); [done|]. by destruct Hne. }
    assert (∀ j, (j < S checked)%nat → b !! (i - checked + j)%nat = CONFIG_B2SUM_SIGNATURE !! j) as Hm'.
    { intros j Hj. destruct (decide (j = checked)) as [-> |]; [|apply Hm; lia]. rewrite <- Heq. f_equal. lia. }
    change (length CONFIG_B2SUM_SIGNATURE) with sig_len.
    destruct (Nat.eqb_spec (S checked) sig_len) as [He|He].
    + exists (i - checked)%nat. split_and!; [lia|lia|lia| |intros; lia].
      intros j Hj. apply Hm'. lia.
    + specialize (IH (i + 1)%nat (S checked)). replace (i + 1 - S checked)%nat with (i - checked)%nat in IH by lia.
      apply IH; try done; lia.
Qed.

(** Behind the first occurrence that ends early enough. *)
Lemma checksum_loc_spec b :
  (min_size ≤ length b)%nat →
  let limit := (length b - min_size + 1)%nat in
  match checksum_loc b with
  | Some loc => ∃ p, loc = (p + sig_len)%nat ∧ (loc ≤ limit)%nat ∧ sig_at b p ∧
      ∀ q, (q < p)%nat → ¬ sig_at b q
  | None => ∀ p, (p + sig_len ≤ limit)%nat → ¬ sig_at b p
  end.
Proof.
  intros Hl limit. unfold checksum_loc. fold limit.
  pose proof (search_spec (search_fuel (length b)) b limit 0 0) as H.
  specialize (H ltac:(lia) ltac:(unfold sig_len; lia) ltac:(intros; lia)
                ltac:(unfold search_fuel, limit; lia) ltac:(lia)).
  destruct (search _ b limit 0 0) as [loc|].
  - destruct H as (p & ? & _ & ? & ? & Hf). exists p. split_and!; try done. intros q Hq. apply Hf. lia.
  - intros p Hp. apply H; [lia|done].
Qed.

(** ** Enrolling *)

Lemma sig_at_bound b p : sig_at b p → (p + sig_len ≤ length b)%nat.
Proof.
  intros H. specialize (H 25%nat ltac:(unfold sig_len; lia)).
  destruct (lookup_lt_is_Some_1 b (p + 25)%nat) as [].
  - rewrite H. by eexists.
  - unfold sig_len. lia.
  - unfold sig_len. lia.
Qed.

Lemma sig_at_ext b b' p :
  (∀ j, (j < p + sig_len)%nat → b' !! j = b !! j) → sig_at b p → sig_at b' p.
Proof. intros Heq H j Hj. rewrite Heq by lia. by apply H. Qed.

Lemma checksum_loc_bound b loc :
  (min_size ≤ length b)%nat → checksum_loc b = Some loc → (sig_len ≤ loc)%nat ∧ (loc + 128 ≤ length b)%nat.
Proof.
  intros Hl Hc. pose proof (checksum_loc_spec b Hl) as H. cbv zeta in H. rewrite Hc in H.
  destruct H as (p & -> & Hp & _). change min_size with 154%nat in *. unfold sig_len in *. lia.
Qed.

(** Writing behind the signature does not move it. *)
Lemma checksum_loc_splice b loc hash :
  (min_size ≤ length b)%nat → checksum_loc b = Some loc → length hash = 128%nat →
  checksum_loc (splice loc hash b) = Some loc.
Proof.
  intros Hl Hc Hh. destruct (checksum_loc_bound b loc Hl Hc) as [Hlo Hhi].
  assert (length (splice loc hash b) = length b) as Hlen by (apply length_splice; lia).
  assert (∀ j, (j < loc)%nat → splice loc hash b !! j = b !! j) as Hsame
    by (intros; apply lookup_splice_out; lia).
  pose proof (checksum_loc_spec b Hl) as H1. cbv zeta in H1. rewrite Hc in H1.
  destruct H1 as (p & Hp & Hlim & Hs & Hfirst).
  pose proof (checksum_loc_spec (splice loc hash b) ltac:(lia)) as H2. cbv zeta in H2. rewrite Hlen in H2.
  assert (sig_at (splice loc hash b) p) as Hs' by (eapply sig_at_ext; [|exact Hs]; intros; apply Hsame; lia).
  destruct (checksum_loc (splice loc hash b)) as [loc'|]; [|by destruct (H2 p ltac:(lia))].
  destruct H2 as (p' & -> & Hlim' & Hs2 & Hfirst'). f_equal. rewrite Hp. f_equal.
  destruct (decide (p' < p)%nat) as [Hlt|]; [|destruct (decide (p < p')%nat) as [Hgt|]; [|lia]].
  - destruct (Hfirst p' Hlt). eapply sig_at_ext; [|exact Hs2]. intros. symmetry. apply Hsame. lia.
  - by destruct (Hfirst' p Hgt).
Qed.

(** The first place where the signature stands. *)
Definition first_sig (b : list byte) (p : nat) : Prop := sig_at b p ∧ ∀ q, (q < p)%nat → ¬ sig_at b q.

(** The search gives the place behind the first signature, if at least 25 more
    bytes than the checksum follow it. *)
Lemma checksum_loc_first b p :
  first_sig b p → (p + 179 ≤ length b)%nat → checksum_loc b = Some (p + sig_len)%nat.
Proof.
  intros [Hs Hf] Hp. change 179%nat with (sig_len + min_size - 1)%nat in Hp.
  assert (min_size = 154)%nat as Hm by done. assert (sig_len = 26)%nat as Hsl by done.
  pose proof (checksum_loc_spec b ltac:(lia)) as H. cbv zeta in H.
  destruct (checksum_loc b) as [loc|]; [|destruct (H p); [lia|done]].
  destruct H as (p' & -> & Hlim & Hs' & Hf'). do 2 f_equal.
  destruct (decide (p' < p)%nat) as [Hlt|]; [by destruct (Hf p')|].
  destruct (decide (p < p')%nat) as [Hgt|]; [by destruct (Hf' p)|lia].
Qed.

(** C9. Enrolling a 128-character checksum in a file whose first signature
    stands at [p], with the checksum and at least 25 more bytes behind it,
    succeeds and writes exactly those 128 bytes, behind that signature;
    enrolling again, or resetting, acts as if it were the first time. In a file
    without a signature there, enrolling fails and changes nothing. *)
Theorem enroll_overwrites_checksum b h1 h2 :
  length h1 = 128%nat → length h2 = 128%nat →
  let b1 := snd (enroll_file good_io b h1) in
  (∀ p, first_sig b p → (p + 179 ≤ length b)%nat →
     fst (enroll_file good_io b h1) = EXIT_SUCCESS ∧ length b1 = length b ∧
     slice (p + sig_len) 128 b1 = h1 ∧
     (∀ q, ¬ (p + sig_len ≤ q < p + sig_len + 128)%nat → b1 !! q = b !! q) ∧
     enroll_file good_io b1 h2 = enroll_file good_io b h2) ∧
  ((∀ p, (p + 179 ≤ length b)%nat → ¬ sig_at b p) → enroll_file good_io b h1 = (EXIT_FAILURE, b)).
Proof.
  intros Hh1 Hh2 b1. assert (min_size = 154)%nat as Hm by done. split.
  - intros p Hf Hp. pose proof (checksum_loc_first b p Hf Hp) as Hc. set (loc := (p + sig_len)%nat) in *.
    destruct (checksum_loc_bound b loc ltac:(lia) Hc) as [Hlo Hhi].
    assert (∀ h, enroll_file good_io b h = (EXIT_SUCCESS, splice loc h b)) as He.
    { intros h. unfold enroll_file. simpl. destruct (Nat.ltb_spec (length b) min_size); [lia|]. by rewrite Hc. }
    unfold b1. rewrite !He. cbn [fst snd].
    assert (length (splice loc h1 b) = length b) as Hlen by (apply length_splice; lia).
    split_and!; try done.
    + rewrite <- Hh1. apply slice_splice_same. lia.
    + intros q Hq. apply lookup_splice_out; lia.
    + unfold enroll_file. simpl. rewrite Hlen. destruct (Nat.ltb_spec (length b) min_size); [lia|].
      rewrite checksum_loc_splice by (done || lia). simpl. f_equal. apply splice_splice_same; lia.
  - intros Hno. unfold enroll_file. simpl. destruct (Nat.ltb_spec (length b) min_size) as [|Hl]; [done|].
    pose proof (checksum_loc_spec b Hl) as H. cbv zeta in H. destruct (checksum_loc b) as [loc|]; [|done].
    destruct H as (p & -> & Hlim & Hs & _). destruct (Hno p); [unfold sig_len in *; lia|done].
Qed.

(** An executable with the signature, as the build lays it out, behind a byte
    that starts like it. *)
Definition demo_exe : list byte :=
  [x2b] ++ CONFIG_B2SUM_SIGNATURE ++ replicate 128 (z2b 48) ++ replicate 40 x00.

Lemma enroll_overwrites_checksum_witness :
  snd (enroll_file good_io (snd (enroll_file good_io demo_exe (replicate 128 x41))) (replicate 128 x42))
    = snd (enroll_file good_io demo_exe (replicate 128 x42)) ∧
  slice 27 128 (snd (enroll_file good_io demo_exe (replicate 128 x41))) = replicate 128 x41.
Proof.
  destruct (enroll_overwrites_checksum demo_exe (replicate 128 x41) (replicate 128 x42)) as [Hsig _].
  - reflexivity.
  - reflexivity.
  - destruct (Hsig 1%nat) as (_ & _ & Hs & _ & He).
    + split; [apply (bool_decide_unpack _); vm_compute; reflexivity|].
      intros q Hq. replace q with 0%nat by lia. apply (bool_decide_unpack _). vm_compute. reflexivity.
    + apply (bool_decide_unpack _). vm_compute. reflexivity.
    + split; [by rewrite He|exact Hs].
Defined.

(** C15. The search stops 25 bytes early: a file that ends in signature and
    checksum, however long it is, is reported to have no signature, although
    it holds the [min_size] bytes that the code asks for. *)
Theorem trailing_signature_not_found pre :
  (∀ p, (p < length pre)%nat →
     ¬ sig_at (pre ++ CONFIG_B2SUM_SIGNATURE ++ replicate 128 (z2b 48)) p) →
  ∀ h, enroll_file good_io (pre ++ CONFIG_B2SUM_SIGNATURE ++ replicate 128 (z2b 48)) h
    = (EXIT_FAILURE, pre ++ CONFIG_B2SUM_SIGNATURE ++ replicate 128 (z2b 48)).
Proof.
  intros Hpre h. set (b := pre ++ _) in *.
  assert (length b = length pre + min_size)%nat as Hlen by (unfold b; rewrite !length_app, length_replicate; done).
  unfold enroll_file. simpl. destruct (Nat.ltb_spec (length b) min_size); [done|].
  pose proof (checksum_loc_spec b ltac:(lia)) as H'. cbv zeta in H'.
  destruct (checksum_loc b) as [loc|]; [|done].
  destruct H' as (p & -> & Hlim & Hs & _). destruct (Hpre p); [|done].
  change min_size with 154%nat in *. unfold sig_len in *. lia.
Qed.

Lemma trailing_signature_not_found_witness :
  enroll_file good_io (replicate 64 x00 ++ CONFIG_B2SUM_SIGNATURE ++ replicate 128 (z2b 48)) (replicate 128 x41)
    = (EXIT_FAILURE, replicate 64 x00 ++ CONFIG_B2SUM_SIGNATURE ++ replicate 128 (z2b 48)).
Proof.
  apply trailing_signature_not_found. intros p Hp Hs.
  specialize (Hs 0%nat ltac:(vm_compute; lia)). rewrite Nat.add_0_r in Hs.
  rewrite lookup_app_l in Hs by done. rewrite lookup_replicate_2 in Hs by done. discriminate.
Defined.

End LimineEnroll.
