(* ===== verification/R4Path.v ===== *)
(** * path_timeout.h: file and registry paths

    Platform/SDK/Shared/C/include/r4os/path_timeout.h: validation
    of UTF-8 path components, normalisation of file paths into a fixed buffer
    of 1024 bytes with a stack of at most 160 component starts, registry paths
    and case-insensitive comparison. [None] is an access outside a buffer. *)

From S2P Require Import Prelude.

Module R4Path.

(** ** Constants (abi_generated.h and the enumeration of path errors) *)

Definition R4OS_FAT_PATH_COMPONENT_MAX_BYTES : Z := 767.
Definition R4OS_FILE_PATH_MAX_BYTES : Z := 1023.
Definition R4OS_FILE_PATH_MAX_CHARS : Z := 260.
Definition R4OS_PATH_COMPONENT_MAX_CHARS : Z := 255.
Definition R4OS_REGISTRY_PATH_MAX_BYTES : Z := 255.

Definition R4_PATH_OK : Z := 0.
Definition R4_PATH_EMPTY : Z := -1.
Definition R4_PATH_TOO_LONG : Z := -2.
Definition R4_PATH_COMPONENT_TOO_LONG : Z := -3.
Definition R4_PATH_EMBEDDED_NUL : Z := -4.
Definition R4_PATH_INVALID_CHARACTER : Z := -5.
Definition R4_PATH_WRONG_KIND : Z := -6.
Definition R4_PATH_ROOT_TRAVERSAL : Z := -7.

Definition backslash : byte := x5c.
Definition slash : byte := x2f.
Definition dot : byte := x2e.
Definition colon : byte := x3a.

(** ** Characters *)

Definition r4_ascii_upper (b : byte) : byte :=
  if (97 <=? b2z b) && (b2z b <=? 122) then z2b (b2z b - 32) else b.

Definition r4_path_separator (b : byte) : bool :=
  bool_decide (b = backslash) || bool_decide (b = slash).

Definition r4_path_alpha (b : byte) : bool :=
  let b := r4_ascii_upper b in (65 <=? b2z b) && (b2z b <=? 90).

Definition r4_path_byte_valid (b : byte) : Z :=
  let v := b2z b in
  if v =? 0 then R4_PATH_EMBEDDED_NUL
  else if (v <? 0x20) || (v =? 0x7f) || (v =? 60) || (v =? 62) || (v =? 34) || (v =? 124)
          || (v =? 63) || (v =? 42) || (v =? 58) then R4_PATH_INVALID_CHARACTER
  else R4_PATH_OK.

(** Status and number of characters counted; the loop's [i] is the part of the
    segment that is left. *)
Fixpoint r4_path_segment_valid (s : list byte) (chars : Z) : Z * Z :=
  match s with
  | [] => (R4_PATH_OK, chars)
  | b :: s1 =>
      let v := b2z b in
      if v <? 0x80 then
        let valid := r4_path_byte_valid b in
        if negb (valid =? 0) then (valid, chars)
        else r4_path_segment_valid s1 (chars + 1)
      else if Z.land v 0xe0 =? 0xc0 then
        if v <? 0xc2 then (R4_PATH_INVALID_CHARACTER, chars)
        else
          match s1 with
          | b1 :: s2 =>
              if negb (Z.land (b2z b1) 0xc0 =? 0x80) then (R4_PATH_INVALID_CHARACTER, chars)
              else r4_path_segment_valid s2 (chars + 1)
          | [] => (R4_PATH_INVALID_CHARACTER, chars)
          end
      else if Z.land v 0xf0 =? 0xe0 then
        match s1 with
        | b1 :: b2 :: s3 =>
            if negb (Z.land (b2z b1) 0xc0 =? 0x80) || negb (Z.land (b2z b2) 0xc0 =? 0x80)
            then (R4_PATH_INVALID_CHARACTER, chars)
            else if (v =? 0xe0) && (b2z b1 <? 0xa0) then (R4_PATH_INVALID_CHARACTER, chars)
            else if (v =? 0xed) && (0xa0 <=? b2z b1) then (R4_PATH_INVALID_CHARACTER, chars)
            else r4_path_segment_valid s3 (chars + 1)
        | _ => (R4_PATH_INVALID_CHARACTER, chars)
        end
      else (R4_PATH_INVALID_CHARACTER, chars)
  end.

(** ** Normalisation *)

(** The local variables of [r4_path_normalize] and its output buffer. *)
Record norm := Norm {
  n_out : list byte;
  n_pos : Z;
  n_count : Z;
  n_starts : list Z;
  n_char_starts : list Z;
  n_chars : Z
}.

(** Stores into the output buffer and the two arrays. *)
Definition put (out : list byte) (pos : Z) (d : list byte) : option (list byte) :=
  if bool_decide (0 ≤ pos ∧ pos + Z.of_nat (length d) ≤ Z.of_nat (length out))
  then Some (splice (Z.to_nat pos) d out) else None.
Definition aput (a : list Z) (i v : Z) : option (list Z) :=
  if bool_decide (0 ≤ i < Z.of_nat (length a)) then Some (<[Z.to_nat i := v]> a) else None.
Definition aget (a : list Z) (i : Z) : option Z :=
  if 0 <=? i then a !! Z.to_nat i else None.

(** One component: [inl] is an early return, [None] undefined behaviour. *)
Definition norm_segment (absolute : bool) (seg : list byte) (st : norm) : option (Z + norm) :=
  let '(Norm out pos count starts char_starts chars) := st in
  let segment := Z.of_nat (length seg) in
  if bool_decide (seg = [dot]) then Some (inr st)
  else if bool_decide (seg = [dot; dot]) then
    if count =? 0 then Some (inl R4_PATH_ROOT_TRAVERSAL)
    else
      let count := count - 1 in
      pos ← aget starts count;
      chars ← aget char_starts count;
      let pos := if absolute && (pos =? 2) then 3 else pos in
      let chars := if absolute && (chars <? 3) then 3 else chars in
      Some (inr (Norm out pos count starts char_starts chars))
  else if R4OS_FAT_PATH_COMPONENT_MAX_BYTES <? segment then Some (inl R4_PATH_COMPONENT_TOO_LONG)
  else
    let '(valid, segment_chars) := r4_path_segment_valid seg 0 in
    if negb (valid =? 0) then Some (inl valid)
    else if R4OS_PATH_COMPONENT_MAX_CHARS <? segment_chars then Some (inl R4_PATH_COMPONENT_TOO_LONG)
    else if 160 <=? count then Some (inl R4_PATH_TOO_LONG)
    else
      let before := pos in
      let before_chars := chars in
      '(out, pos, chars) ←
        (if (absolute && (3 <? pos)) || (negb absolute && (0 <? pos))
         then out ← put out pos [backslash]; Some (out, pos + 1, chars + 1)
         else Some (out, pos, chars));
      starts ← aput starts count (u16 before);
      char_starts ← aput char_starts count (u16 before_chars);
      let count := count + 1 in
      if u64 (R4OS_FILE_PATH_MAX_BYTES - pos) <? segment then Some (inl R4_PATH_TOO_LONG)
      else
        let chars := chars + segment_chars in
        if R4OS_FILE_PATH_MAX_CHARS <? chars then Some (inl R4_PATH_TOO_LONG)
        else
          out ← put out pos seg;
          Some (inr (Norm out (pos + segment) count starts char_starts chars)).

(** [while (index < len && sep(input[index]) == want) ++index], as the number of
    bytes passed and what is left. *)
Fixpoint span (want : bool) (s : list byte) : list byte * list byte :=
  match s with
  | [] => ([], [])
  | b :: s' =>
      if Bool.eqb (r4_path_separator b) want
      then let '(p, r) := span want s' in (b :: p, r) else ([], s)
  end.

(** The main loop on the input that is left; a round consumes at least one byte. *)
Fixpoint norm_loop (fuel : nat) (absolute : bool) (input : list byte) (st : norm) : option (Z + norm) :=
  match fuel with
  | O => None
  | S fuel =>
      let rest := snd (span true input) in
      if bool_decide (rest = []) then Some (inr st)
      else
        let '(seg, rest) := span false rest in
        r ← norm_segment absolute seg st;
        match r with
        | inl code => Some (inl code)
        | inr st => norm_loop fuel absolute rest st
        end
  end.

Definition is_absolute (input : list byte) : bool :=
  match input with
  | b0 :: b1 :: b2 :: _ => r4_path_alpha b0 && bool_decide (b1 = colon) && r4_path_separator b2
  | _ => false
  end.

(** What the caller sees: the status, and on success the NUL-terminated path,
    its length and its kind. *)
Record path_result := PathResult {
  pr_status : Z;
  pr_out : list byte;
  pr_len : Z;
  pr_absolute : bool
}.

Definition norm_finish (absolute : bool) (st : norm) : option path_result :=
  '(out, pos) ←
    (if negb absolute && (n_pos st =? 0)
     then out ← put (n_out st) (n_pos st) [dot]; Some (out, n_pos st + 1)
     else Some (n_out st, n_pos st));
  out ← put out pos [x00];
  Some (PathResult R4_PATH_OK out (u16 pos) absolute).

Definition norm_start (absolute : bool) (input out : list byte) : option norm :=
  let zeros := replicate 160 0 in
  if absolute then
    out ← put out 0 [r4_ascii_upper (input !!! 0%nat); colon; backslash];
    Some (Norm out 3 0 zeros zeros 3)
  else Some (Norm out 0 0 zeros zeros 0).

Definition path_error (code : Z) : option path_result := Some (PathResult code [] 0 false).

(** [required_kind]: 1 absolute, 0 relative, -1 either. [input = None] is NULL. *)
Definition r4_path_normalize (input : option (list byte)) (required_kind : Z) (out : list byte)
    : option path_result :=
  match input with
  | None => path_error R4_PATH_EMPTY
  | Some input =>
      let len := Z.of_nat (length input) in
      if len =? 0 then path_error R4_PATH_EMPTY
      else if R4OS_FILE_PATH_MAX_BYTES <? len then path_error R4_PATH_TOO_LONG
      else
        let absolute := is_absolute input in
        if ((required_kind =? 1) && negb absolute) || ((required_kind =? 0) && absolute)
        then path_error R4_PATH_WRONG_KIND
        else if negb absolute && r4_path_separator (input !!! 0%nat) then path_error R4_PATH_WRONG_KIND
        else
          st ← norm_start absolute input out;
          r ← norm_loop (S (length input)) absolute (if absolute then drop 3 input else input) st;
          match r with
          | inl code => path_error code
          | inr st => norm_finish absolute st
          end
  end.

Definition r4_file_path (input : option (list byte)) (out : option (list byte)) : option path_result :=
  match out with
  | None => path_error R4_PATH_EMPTY
  | Some out => r4_path_normalize input (-1) out
  end.
Definition r4_absolute_file_path (input : option (list byte)) (out : option (list byte)) : option path_result :=
  match out with
  | None => path_error R4_PATH_EMPTY
  | Some out => r4_path_normalize input 1 out
  end.
Definition r4_relative_file_path (input : option (list byte)) (out : option (list byte)) : option path_result :=
  match out with
  | None => path_error R4_PATH_EMPTY
  | Some out => r4_path_normalize input 0 out
  end.

(** ** Registry paths *)

Record reg_state := RegState { rg_out : list byte; rg_pos : Z; rg_previous : bool }.

(** The loop over the input; [inl] is an early return. *)
Fixpoint registry_loop (input : list byte) (st : reg_state) : option (Z + reg_state) :=
  match input with
  | [] => Some (inr st)
  | b :: input =>
      let '(RegState out pos previous) := st in
      let v := b2z b in
      if v =? 0 then Some (inl R4_PATH_EMBEDDED_NUL)
      else if (v <? 0x20) || (v =? 0x7f) then Some (inl R4_PATH_INVALID_CHARACTER)
      else if r4_path_separator b then
        if (pos =? 0) || previous then registry_loop input st
        else
          out ← put out pos [backslash];
          registry_loop input (RegState out (pos + 1) true)
      else
        out ← put out pos [b];
        registry_loop input (RegState out (pos + 1) false)
  end.

(** [while (pos > 0 && bytes[pos - 1] == '\') --pos]. *)
Fixpoint strip_backslashes (fuel : nat) (out : list byte) (pos : Z) : option Z :=
  match fuel with
  | O => Some pos
  | S fuel =>
      if 0 <? pos then
        b ← out !! Z.to_nat (pos - 1);
        if bool_decide (b = backslash) then strip_backslashes fuel out (pos - 1) else Some pos
      else Some pos
  end.

Definition r4_registry_path (input : option (list byte)) (out : option (list byte)) : option path_result :=
  match input, out with
  | Some input, Some out =>
      let len := Z.of_nat (length input) in
      if len =? 0 then path_error R4_PATH_EMPTY
      else if R4OS_REGISTRY_PATH_MAX_BYTES <? len then path_error R4_PATH_TOO_LONG
      else
        r ← registry_loop input (RegState out 0 false);
        match r with
        | inl code => path_error code
        | inr st =>
            pos ← strip_backslashes (Z.to_nat (rg_pos st)) (rg_out st) (rg_pos st);
            if pos =? 0 then path_error R4_PATH_EMPTY
            else
              out ← put (rg_out st) pos [x00];
              Some (PathResult R4_PATH_OK out (u16 pos) false)
        end
  | _, _ => path_error R4_PATH_EMPTY
  end.

(** ** Comparison *)

Fixpoint equal_ignore_case (a b : list byte) : bool :=
  match a, b with
  | x :: a, y :: b => bool_decide (r4_ascii_upper x = r4_ascii_upper y) && equal_ignore_case a b
  | _, _ => true
  end.

Definition r4_path_equal_ignore_case (a b : list byte) : bool :=
  if negb (length a =? length b)%nat then false else equal_ignore_case a b.

End R4Path.
