(* ===== verification/R4PathSpec.v ===== *)
(** * path_timeout.h: what path normalisation computes

    The abstract specification of [r4_path_normalize]: split the input at
    separators, walk the components with a stack, print the stack. The C
    routine, which keeps the stack as positions in its output buffer, is shown
    to compute exactly that without leaving its buffers. *)

From S2P Require Import Prelude R4Path.

Module R4PathSpec.
Export R4Path.

(** ** Components of a path *)

Fixpoint split_at_seps (s cur : list byte) : list (list byte) :=
  match s with
  | [] => if bool_decide (cur = []) then [] else [cur]
  | b :: s =>
      if r4_path_separator b
      then (if bool_decide (cur = []) then [] else [cur]) ++ split_at_seps s []
      else split_at_seps s (cur ++ [b])
  end.
Definition components (s : list byte) : list (list byte) := split_at_seps s [].

Definition no_sep (c : list byte) : Prop := Forall (λ b, r4_path_separator b = false) c.

Lemma split_at_seps_word c s cur :
  no_sep c → split_at_seps (c ++ s) cur = split_at_seps s (cur ++ c).
Proof.
  intros Hc. revert cur. induction Hc as [|b c Hb _ IH]; intros cur; simpl; [by rewrite app_nil_r|].
  rewrite Hb, IH, <- app_assoc. done.
Qed.

Lemma components_seps p s :
  Forall (λ b, r4_path_separator b = true) p → components (p ++ s) = components s.
Proof. induction 1 as [|b p Hb _ IH]; [done|]. unfold components. simpl. rewrite Hb. exact IH. Qed.

(** A component in front of the end or of a separator. *)
Lemma components_word c s :
  c ≠ [] → no_sep c → (∀ b s', s = b :: s' → r4_path_separator b = true) →
  components (c ++ s) = c :: components s.
Proof.
  intros Hne Hc Hs. unfold components. rewrite split_at_seps_word by done. simpl.
  destruct s as [|b s]; simpl; [by rewrite bool_decide_false|].
  rewrite (Hs b s eq_refl). by rewrite bool_decide_false.
Qed.

Lemma span_spec want s :
  s = fst (span want s) ++ snd (span want s) ∧
  Forall (λ b, r4_path_separator b = want) (fst (span want s)) ∧
  (∀ b s', snd (span want s) = b :: s' → r4_path_separator b = negb want).
Proof.
  induction s as [|b s (IH1 & IH2 & IH3)]; [done|]. simpl.
  destruct (Bool.eqb (r4_path_separator b) want) eqn:E.
  - apply Bool.eqb_prop in E. destruct (span want s) as [p r]. simpl in *.
    split_and!; [by rewrite <- IH1|by constructor|done].
  - apply Bool.eqb_false_iff in E. simpl. split_and!; [done|constructor|].
    intros b' s' [= <- _]. by destruct (r4_path_separator b), want.
Qed.

(** The components, folded with the C code's step. *)
Fixpoint fold_segments (absolute : bool) (segs : list (list byte)) (st : norm) : option (Z + norm) :=
  match segs with
  | [] => Some (inr st)
  | seg :: segs =>
      r ← norm_segment absolute seg st;
      match r with
      | inl code => Some (inl code)
      | inr st => fold_segments absolute segs st
      end
  end.

Lemma norm_loop_fold fuel absolute input st :
  (length input < fuel)%nat →
  norm_loop fuel absolute input st = fold_segments absolute (components input) st.
Proof.
  revert input st. induction fuel as [|fuel IH]; intros input st Hf; [lia|]. cbn [norm_loop].
  destruct (span_spec true input) as (H1 & H2 & H3).
  destruct (span true input) as [p rest]. simpl in *. subst input. rewrite components_seps by done.
  case_bool_decide as Hr; [by subst|].
  destruct (span_spec false rest) as (H4 & H5 & H6).
  destruct (span false rest) as [seg rest']. simpl in *. subst rest.
  assert (seg ≠ []) as Hne.
  { intros ->. destruct rest' as [|b rest']; [done|].
    pose proof (H3 b rest' eq_refl). pose proof (H6 b rest' eq_refl). simpl in *. congruence. }
  rewrite components_word by done. cbn [fold_segments].
  destruct (norm_segment absolute seg st) as [[code|st']|]; [done| |done]. simpl. apply IH.
  rewrite !length_app in Hf. destruct seg; [done|]. simpl in Hf. lia.
Qed.

(** ** The stack of components *)

Definition joined (comps : list (list byte)) : list byte :=
  match comps with
  | [] => []
  | c :: cs => c ++ concat ((cons backslash) <$> cs)
  end.

Lemma joined_snoc comps c :
  joined (comps ++ [c]) = joined comps ++ (if bool_decide (comps = []) then [] else [backslash]) ++ c.
Proof.
  destruct comps as [|c0 cs]; simpl; [by rewrite app_nil_r|].
  rewrite fmap_app, concat_app. simpl. rewrite app_nil_r, <- app_assoc. done.
Qed.

Definition seg_chars (c : list byte) : Z := snd (r4_path_segment_valid c 0).
Definition chars_of (comps : list (list byte)) : Z :=
  foldr Z.add 0 (seg_chars <$> comps) + (Z.of_nat (length comps) - 1) `max` 0.

Lemma chars_of_snoc comps c :
  chars_of (comps ++ [c]) = chars_of comps + (if bool_decide (comps = []) then 0 else 1) + seg_chars c.
Proof.
  unfold chars_of. rewrite fmap_app, foldr_app, length_app. cbn [fmap list_fmap foldr length].
  assert (∀ l z, foldr Z.add z l = foldr Z.add 0 l + z) as Hf.
  { clear. induction l as [|x l IH]; intros z; simpl; [lia|]. rewrite IH. lia. }
  rewrite Hf. case_bool_decide as Hc; [subst; simpl; lia|].
  destruct comps; [done|]. simpl length. lia.
Qed.

(** One component on the stack, or the status of the refusal. *)
Definition walk_segment (base : Z) (comps : list (list byte)) (seg : list byte) : Z + list (list byte) :=
  if bool_decide (seg = [dot]) then inr comps
  else if bool_decide (seg = [dot; dot]) then
    if bool_decide (comps = []) then inl R4_PATH_ROOT_TRAVERSAL
    else inr (take (length comps - 1) comps)
  else if 767 <? Z.of_nat (length seg) then inl R4_PATH_COMPONENT_TOO_LONG
  else
    let '(valid, n) := r4_path_segment_valid seg 0 in
    if negb (valid =? 0) then inl valid
    else if 255 <? n then inl R4_PATH_COMPONENT_TOO_LONG
    else if 160 <=? Z.of_nat (length comps) then inl R4_PATH_TOO_LONG
    else if 260 <? base + chars_of (comps ++ [seg]) then inl R4_PATH_TOO_LONG
    else inr (comps ++ [seg]).

Fixpoint walk (base : Z) (comps segs : list (list byte)) : Z + list (list byte) :=
  match segs with
  | [] => inr comps
  | seg :: segs =>
      match walk_segment base comps seg with
      | inl code => inl code
      | inr comps => walk base comps segs
      end
  end.

(** ** How the C variables represent the stack *)

Definition prefix_len (prefix : list byte) : Z := Z.of_nat (length prefix).

Record rep (prefix : list byte) (st : norm) (comps : list (list byte)) : Prop := {
  rep_out : length (n_out st) = 1024%nat;
  rep_pos : n_pos st = Z.of_nat (length (prefix ++ joined comps));
  rep_prefix : take (length (prefix ++ joined comps)) (n_out st) = prefix ++ joined comps;
  rep_count : n_count st = Z.of_nat (length comps) ∧ (length comps ≤ 160)%nat;
  rep_slen : length (n_starts st) = 160%nat ∧ length (n_char_starts st) = 160%nat;
  rep_starts : ∀ k, (k < length comps)%nat →
    n_starts st !! k = Some (Z.of_nat (length (prefix ++ joined (take k comps))));
  rep_cstarts : ∀ k, (k < length comps)%nat →
    n_char_starts st !! k = Some (prefix_len prefix + chars_of (take k comps));
  rep_chars : n_chars st = prefix_len prefix + chars_of comps ∧ n_chars st ≤ 260;
  rep_ne : Forall (λ c, c ≠ []) comps
}.

(** Bytes a list of components needs, each with a separator. *)
Definition cost (comps : list (list byte)) : nat := sum_list_with (λ c, S (length c)) comps.

Lemma cost_snoc comps c : cost (comps ++ [c]) = (cost comps + S (length c))%nat.
Proof. unfold cost. rewrite sum_list_with_app. simpl. lia. Qed.

Lemma length_joined comps : length (joined comps) = (cost comps - 1)%nat.
Proof.
  induction comps as [|c comps IH] using rev_ind; [done|]. rewrite joined_snoc, cost_snoc, !length_app, IH.
  case_bool_decide as Hc; [subst; simpl; lia|]. destruct comps; [done|]. cbn -[joined]. lia.
Qed.

Lemma segment_valid_mono s n : n ≤ snd (r4_path_segment_valid s n).
Proof.
  revert n. induction s as [s IH] using (induction_ltof1 _ (@length byte)). intros n. unfold ltof in IH.
  assert (∀ t, (length t < length s)%nat → n ≤ snd (r4_path_segment_valid t (n + 1))) as Hrec.
  { intros t Ht. specialize (IH t Ht (n + 1)). lia. }
  destruct s as [|b s1]; [simpl; lia|]. cbn [r4_path_segment_valid].
  destruct (_ <? 0x80); [destruct (negb _); [simpl; lia|apply Hrec; simpl; lia]|].
  destruct (_ =? 0xc0).
  { destruct (_ <? 0xc2); [simpl; lia|]. destruct s1 as [|b1 s2]; [simpl; lia|].
    destruct (negb _); [simpl; lia|apply Hrec; simpl; lia]. }
  destruct (_ =? 0xe0); [|simpl; lia]. destruct s1 as [|b1 [|b2 s3]]; [simpl; lia..|].
  repeat (destruct (_ || _); [simpl; lia|]). repeat (destruct (_ && _); [simpl; lia|]).
  apply Hrec. simpl. lia.
Qed.

Lemma chars_of_nonneg comps : 0 ≤ chars_of comps.
Proof.
  unfold chars_of. assert (0 ≤ foldr Z.add 0 (seg_chars <$> comps)); [|lia].
  induction comps as [|c comps IH]; [done|].
  change (0 ≤ seg_chars c + foldr Z.add 0 (seg_chars <$> comps)).
  assert (0 ≤ seg_chars c) by apply segment_valid_mono. lia.
Qed.

(** The kind of a path and the bytes in front of its components. *)
Definition kind_prefix (absolute : bool) (prefix : list byte) : Prop :=
  if absolute then length prefix = 3%nat else prefix = [].

Lemma kind_prefix_len absolute prefix :
  kind_prefix absolute prefix → length prefix = if absolute then 3%nat else 0%nat.
Proof. destruct absolute; simpl; [done|]. by intros ->. Qed.

Lemma take_prefix_of (out P X : list byte) :
  take (length (P ++ X)) out = P ++ X → take (length P) out = P.
Proof.
  intros H. rewrite <- (take_drop (length (P ++ X)) out), H, <- app_assoc. apply take_app_length.
Qed.

Lemma norm_pop absolute prefix st comps c :
  kind_prefix absolute prefix → rep prefix st (comps ++ [c]) →
  ∃ st', norm_segment absolute [dot; dot] st = Some (inr st') ∧ rep prefix st' comps.
Proof.
  intros Hk [Ho Hp Hpre [Hc Hm] [Hs1 Hs2] Hst Hcst [Hch Hmax] Hne].
  destruct st as [out pos count starts cstarts chars].
  cbn [n_out n_pos n_count n_starts n_char_starts n_chars] in *.
  rewrite (length_app comps [c]) in Hc, Hm, Hst, Hcst. cbn [length] in Hc, Hm, Hst, Hcst.
  unfold norm_segment. simpl.
  destruct (Z.eqb_spec count 0); [lia|]. unfold aget. destruct (Z.leb_spec 0 (count - 1)); [|lia].
  replace (Z.to_nat (count - 1)) with (length comps) by lia.
  rewrite Hst, Hcst by lia. simpl. rewrite !take_app_length.
  pose proof (kind_prefix_len _ _ Hk) as Hpl. pose proof (chars_of_nonneg comps) as Hcn.
  eexists. split; [reflexivity|].
  assert (∀ z, z = Z.of_nat (length (prefix ++ joined comps)) →
            (if absolute && (z =? 2) then 3 else z) = z) as E1.
  { intros z ->. rewrite length_app. destruct absolute; [|done]. simpl.
    destruct (Z.eqb_spec (Z.of_nat (length prefix + length (joined comps))) 2); [lia|done]. }
  assert (∀ z, z = prefix_len prefix + chars_of comps →
            (if absolute && (z <? 3) then 3 else z) = z) as E2.
  { intros z ->. unfold prefix_len. destruct absolute; [|done]. simpl.
    destruct (Z.ltb_spec (Z.of_nat (length prefix) + chars_of comps) 3); [lia|done]. }
  rewrite E1, E2 by done. apply Forall_app in Hne as [Hne _]. split; simpl; try done.
  - rewrite joined_snoc in Hpre. apply (take_prefix_of out (prefix ++ joined comps)
      ((if bool_decide (comps = []) then [] else [backslash]) ++ c)). by rewrite <- app_assoc.
  - split; lia.
  - intros k Hkk. rewrite Hst by lia. by rewrite take_app_le by lia.
  - intros k Hkk. rewrite Hcst by lia. by rewrite take_app_le by lia.
  - split; [done|]. rewrite chars_of_snoc in Hch.
    assert (0 ≤ seg_chars c) by apply segment_valid_mono. case_bool_decide; lia.
Qed.

Lemma buffer_put_run out pos d :
  0 ≤ pos → pos + Z.of_nat (length d) ≤ Z.of_nat (length out) →
  put out pos d = Some (splice (Z.to_nat pos) d out).
Proof. intros. unfold put. by rewrite bool_decide_true. Qed.

(** Appending to what the buffer already holds. *)
Lemma put_append out P d :
  take (length P) out = P → Z.of_nat (length P) + Z.of_nat (length d) ≤ Z.of_nat (length out) →
  ∃ out', put out (Z.of_nat (length P)) d = Some out' ∧ length out' = length out ∧
    take (length (P ++ d)) out' = P ++ d.
Proof.
  intros HP Hl. eexists. rewrite buffer_put_run by lia. rewrite Nat2Z.id.
  split; [done|]. split; [apply length_splice; lia|].
  unfold splice. rewrite HP, app_assoc. apply take_app_length.
Qed.

Lemma joined_nil_iff prefix comps :
  Forall (λ c, c ≠ []) comps →
  comps = [] ↔ Z.of_nat (length (prefix ++ joined comps)) ≤ Z.of_nat (length prefix).
Proof.
  intros Hne. rewrite length_app, length_joined. split; [intros ->; simpl; lia|].
  intros Hle. destruct Hne as [|c comps Hc _]; [done|]. destruct c; [done|]. cbn in Hle. lia.
Qed.

(** A new component on the stack, with the separator the code writes first. *)
Lemma norm_push absolute prefix st comps seg :
  kind_prefix absolute prefix → rep prefix st comps →
  (length prefix + cost comps + S (length seg) ≤ 1024)%nat →
  seg ≠ [] → seg ≠ [dot] → seg ≠ [dot; dot] →
  ∃ r, norm_segment absolute seg st = Some r ∧
    match walk_segment (prefix_len prefix) comps seg with
    | inl code => r = inl code
    | inr comps' => ∃ st', r = inr st' ∧ rep prefix st' comps' ∧ comps' = comps ++ [seg]
    end.
Proof.
  intros Hk [Ho Hp Hpre [Hc Hm] [Hs1 Hs2] Hst Hcst [Hch Hmax] Hne] Hcost Hse Hd1 Hd2.
  destruct st as [out pos count starts cstarts chars].
  cbn [n_out n_pos n_count n_starts n_char_starts n_chars] in *.
  unfold norm_segment, walk_segment. rewrite !(bool_decide_false (seg = _)) by done.
  unfold R4OS_FAT_PATH_COMPONENT_MAX_BYTES, R4OS_PATH_COMPONENT_MAX_CHARS.
  destruct (767 <? _); [by eexists|].
  destruct (r4_path_segment_valid seg 0) as [valid n] eqn:Ev.
  assert (n = seg_chars seg) as Hn by (unfold seg_chars; by rewrite Ev).
  destruct (negb (valid =? 0)); [by eexists|]. destruct (255 <? n); [by eexists|]. rewrite <- Hc.
  destruct (Z.leb_spec 160 count) as [|Hlt]; [by eexists|].
  pose proof (kind_prefix_len _ _ Hk) as Hpl. pose proof (length_joined comps) as Hlj.
  set (sep := if bool_decide (comps = []) then [] else [backslash]).
  assert (((absolute && (3 <? pos)) || (negb absolute && (0 <? pos))) = negb (bool_decide (comps = []))) as ->.
  { rewrite Hp. pose proof (joined_nil_iff prefix comps Hne) as Hj. rewrite Hpl in Hj.
    case_bool_decide as Hb; destruct absolute; simpl; rewrite ?orb_false_r;
      [apply Z.ltb_ge; apply Hj in Hb; lia..| |];
      apply Z.ltb_lt; apply Z.nle_gt; intros Hle; apply Hb, Hj; lia. }
  assert (length (prefix ++ joined comps) ≤ length prefix + (cost comps - 1))%nat as Hlen
    by (rewrite length_app, Hlj; lia).
  assert (∃ out1, (if negb (bool_decide (comps = []))
                   then out ← put out pos [backslash]; Some (out, pos + 1, chars + 1)
                   else Some (out, pos, chars))
                  = Some (out1, Z.of_nat (length ((prefix ++ joined comps) ++ sep)),
                          chars + Z.of_nat (length sep)) ∧
                 length out1 = 1024%nat ∧
                 take (length ((prefix ++ joined comps) ++ sep)) out1 = (prefix ++ joined comps) ++ sep)
    as (out1 & -> & Ho1 & Hpre1).
  { unfold sep. case_bool_decide as Hb; simpl.
    - exists out. rewrite app_nil_r, Z.add_0_r, Hp. done.
    - destruct (put_append out (prefix ++ joined comps) [backslash] Hpre) as (out1 & Hput & Hl1 & Ht1).
      { simpl. assert (1 ≤ cost comps)%nat by (destruct comps; [done|simpl; lia]). lia. }
      rewrite <- Hp in Hput. rewrite Hput. simpl. exists out1. split; [|by rewrite Hl1].
      rewrite Hp, (length_app _ [backslash]). simpl. do 3 f_equal. lia. }
  cbn [mbind option_bind]. unfold aput. rewrite bool_decide_true by lia. cbn [mbind option_bind].
  rewrite bool_decide_true by lia. cbn [mbind option_bind].
  assert (length ((prefix ++ joined comps) ++ sep) + length seg ≤ 1023)%nat as Hroom.
  { rewrite length_app. unfold sep. case_bool_decide as Hb; simpl; [lia|].
    assert (1 ≤ cost comps)%nat by (destruct comps; [done|simpl; lia]). lia. }
  unfold R4OS_FILE_PATH_MAX_BYTES, R4OS_FILE_PATH_MAX_CHARS.
  rewrite u64_small by (unfold is_u64; lia). destruct (Z.ltb_spec (1023 - Z.of_nat (length ((prefix ++ joined comps) ++ sep))) (Z.of_nat (length seg))); [lia|].
  assert (chars + Z.of_nat (length sep) + n = prefix_len prefix + chars_of (comps ++ [seg])) as ->.
  { rewrite chars_of_snoc, Hch, Hn. unfold sep. case_bool_decide; simpl; lia. }
  destruct (Z.ltb_spec 260 (prefix_len prefix + chars_of (comps ++ [seg]))) as [|Hle]; [by eexists|].
  destruct (put_append out1 _ seg Hpre1) as (out2 & -> & Ho2 & Hpre2); [lia|]. cbn [mbind option_bind].
  eexists. split; [done|]. eexists. split; [done|]. split; [|done].
  assert (((prefix ++ joined comps) ++ sep) ++ seg = prefix ++ joined (comps ++ [seg])) as Hj
    by (rewrite joined_snoc, <- !app_assoc; done).
  pose proof (chars_of_nonneg comps) as Hcn.
  split; cbn [n_out n_pos n_count n_starts n_char_starts n_chars].
  - lia.
  - rewrite <- Hj, (length_app _ seg). lia.
  - rewrite <- Hj. done.
  - rewrite length_app. simpl. lia.
  - by rewrite !length_insert.
  - intros k Hkk. rewrite length_app in Hkk. simpl in Hkk. destruct (decide (k = length comps)) as [-> |].
    + replace (Z.to_nat count) with (length comps) by lia. rewrite list_lookup_insert_eq by lia.
      rewrite take_app_length, Hp. f_equal. apply u16_small. unfold is_u16. lia.
    + rewrite list_lookup_insert_ne by lia. rewrite Hst by lia. by rewrite take_app_le by lia.
  - intros k Hkk. rewrite length_app in Hkk. simpl in Hkk. destruct (decide (k = length comps)) as [-> |].
    + replace (Z.to_nat count) with (length comps) by lia. rewrite list_lookup_insert_eq by lia.
      rewrite take_app_length, Hch. f_equal. apply u16_small. unfold is_u16, prefix_len in *. lia.
    + rewrite list_lookup_insert_ne by lia. rewrite Hcst by lia. by rewrite take_app_le by lia.
  - done.
  - apply Forall_app. split; [done|]. by apply Forall_singleton.
Qed.

Lemma cost_take k comps : (cost (take k comps) ≤ cost comps)%nat.
Proof.
  rewrite <- (take_drop k comps) at 2. unfold cost. rewrite sum_list_with_app. lia.
Qed.

Lemma fold_refines absolute prefix segs st comps :
  kind_prefix absolute prefix → rep prefix st comps →
  (length prefix + cost comps + cost segs ≤ 1024)%nat → Forall (λ c, c ≠ []) segs →
  ∃ r, fold_segments absolute segs st = Some r ∧
    match walk (prefix_len prefix) comps segs with
    | inl code => r = inl code
    | inr comps' => ∃ st', r = inr st' ∧ rep prefix st' comps'
    end.
Proof.
  intros Hk Hrep Hcost Hne. revert st comps Hrep Hcost.
  induction Hne as [|seg segs Hseg _ IH]; intros st comps Hrep Hcost; [by exists (inr st); split; [|exists st]|].
  change (cost (seg :: segs)) with (S (length seg) + cost segs)%nat in Hcost. cbn [fold_segments walk].
  destruct (decide (seg = [dot])) as [-> |Hd1].
  { assert (norm_segment absolute [dot] st = Some (inr st)) as -> by (by destruct st).
    unfold walk_segment. rewrite bool_decide_true by done. apply IH; [done|lia]. }
  destruct (decide (seg = [dot; dot])) as [-> |Hd2].
  { unfold walk_segment. rewrite bool_decide_false by done. rewrite bool_decide_true by done.
    destruct comps as [|c comps _] using rev_ind.
    - assert (norm_segment absolute [dot; dot] st = Some (inl R4_PATH_ROOT_TRAVERSAL)) as ->.
      { pose proof (rep_count _ _ _ Hrep) as [Hc _]. destruct st as [o p n a b c]. cbn in Hc. subst n. reflexivity. }
      rewrite bool_decide_true by done. by eexists.
    - rewrite bool_decide_false by (by destruct comps).
      destruct (norm_pop _ _ _ _ _ Hk Hrep) as (st' & -> & Hrep'). cbn [mbind option_bind].
      rewrite length_app. replace (length comps + length [c] - 1)%nat with (length comps) by (simpl; lia).
      rewrite take_app_length. apply IH; [done|]. rewrite cost_snoc in Hcost. lia. }
  destruct (norm_push absolute prefix st comps seg) as (r & -> & Hr); try done; [lia|].
  cbn [mbind option_bind]. destruct (walk_segment _ comps seg) as [code|comps'].
  - subst r. by eexists.
  - destruct Hr as (st' & -> & Hrep' & ->). apply IH; [done|]. rewrite cost_snoc. lia.
Qed.

(** ** The specification of normalisation *)

Definition drive_prefix (absolute : bool) (input : list byte) : list byte :=
  if absolute then [r4_ascii_upper (input !!! 0%nat); colon; backslash] else [].

Definition printed (absolute : bool) (prefix : list byte) (comps : list (list byte)) : list byte :=
  if negb absolute && bool_decide (comps = []) then [dot] else prefix ++ joined comps.

(** Status of the refusal, or the normal form and whether it is absolute. *)
Definition spec_normalize (input : option (list byte)) (required_kind : Z) : Z + (list byte * bool) :=
  match input with
  | None => inl R4_PATH_EMPTY
  | Some input =>
      let absolute := is_absolute input in
      if bool_decide (input = []) then inl R4_PATH_EMPTY
      else if 1023 <? Z.of_nat (length input) then inl R4_PATH_TOO_LONG
      else if ((required_kind =? 1) && negb absolute) || ((required_kind =? 0) && absolute)
              || (negb absolute && r4_path_separator (input !!! 0%nat)) then inl R4_PATH_WRONG_KIND
      else
        let prefix := drive_prefix absolute input in
        match walk (prefix_len prefix) [] (components (drop (length prefix) input)) with
        | inl code => inl code
        | inr comps => inr (printed absolute prefix comps, absolute)
        end
  end.

Lemma split_cost s cur :
  (cost (split_at_seps s cur) ≤ length cur + length s + 1)%nat ∧
  Forall (λ c, c ≠ []) (split_at_seps s cur).
Proof.
  revert cur. induction s as [|b s IH]; intros cur; simpl.
  - case_bool_decide; cbn; (split; [lia|]); [constructor|by apply Forall_singleton].
  - destruct (r4_path_separator b).
    + destruct (IH []) as [H1 H2]. case_bool_decide as Hc.
      * subst. simpl in *. split; [lia|done].
      * split; [|by constructor].
        change (cost ([cur] ++ split_at_seps s [])) with (S (length cur) + cost (split_at_seps s []))%nat.
        simpl in H1. lia.
    + destruct (IH (cur ++ [b])) as [H1 H2]. rewrite length_app in H1. simpl in H1. split; [lia|done].
Qed.

Lemma components_cost s :
  (cost (components s) ≤ length s + 1)%nat ∧ Forall (λ c, c ≠ []) (components s).
Proof. unfold components. destruct (split_cost s []) as [H1 H2]. split; [simpl in H1; lia|done]. Qed.

(** A split that starts with an empty word costs nothing for its first byte. *)
Lemma cost_pos comps : comps ≠ [] → (1 ≤ cost comps)%nat.
Proof. destruct comps; [done|]. cbn. lia. Qed.

Lemma rep_start absolute input out :
  length out = 1024%nat →
  ∃ st, norm_start absolute input out = Some st ∧ rep (drive_prefix absolute input) st [].
Proof.
  intros Hl. unfold norm_start. set (P := drive_prefix absolute input).
  assert (∀ out', length out' = 1024%nat → take (length P) out' = P →
    rep P (Norm out' (Z.of_nat (length P)) 0 (replicate 160 0) (replicate 160 0) (prefix_len P)) []) as H.
  { intros out' Hl' Ht. change (joined []) with (@nil byte). split; change (joined []) with (@nil byte);
      rewrite ?app_nil_r; cbn [n_out n_pos n_count n_starts n_char_starts n_chars].
    - done.
    - done.
    - done.
    - split; simpl; lia.
    - done.
    - simpl. lia.
    - simpl. lia.
    - change (chars_of []) with 0. unfold prefix_len, P, drive_prefix. destruct absolute; simpl; lia.
    - constructor. }
  destruct absolute.
  - destruct (put_append out [] P) as (out' & Hput & Hl' & Ht'); [done|simpl; lia|].
    change (Z.of_nat (length [])) with 0 in Hput. unfold P in Hput at 1. simpl in Hput. rewrite Hput.
    eexists. split; [done|]. apply H; [lia|done].
  - eexists. split; [done|]. by apply H.
Qed.

Lemma norm_finish_run absolute prefix st comps :
  kind_prefix absolute prefix → rep prefix st comps → (length prefix + cost comps ≤ 1024)%nat →
  ∃ r, norm_finish absolute st = Some r ∧ pr_status r = R4_PATH_OK ∧ pr_absolute r = absolute ∧
    let path := printed absolute prefix comps in
    pr_len r = Z.of_nat (length path) ∧ (length path ≤ 1023)%nat ∧
    take (length path) (pr_out r) = path ∧ pr_out r !! length path = Some x00.
Proof.
  intros Hk Hrep Hcost. pose proof Hrep as [Ho Hp Hpre _ _ _ _ _ Hne]. unfold norm_finish.
  pose proof (joined_nil_iff prefix comps Hne) as Hj. pose proof (kind_prefix_len _ _ Hk) as Hpl.
  assert ((negb absolute && (n_pos st =? 0)) = (negb absolute && bool_decide (comps = []))) as Hempty.
  { destruct absolute; [done|]. simpl. rewrite Hp, Hpl in *. case_bool_decide as Hb.
    - apply Hj in Hb. apply Z.eqb_eq. lia.
    - apply Z.eqb_neq. intros Hz. apply Hb, Hj. lia. }
  set (path := printed absolute prefix comps).
  assert (length path ≤ 1023)%nat as Hlen.
  { unfold path, printed. destruct (negb absolute && bool_decide (comps = [])); [cbn [length]; lia|].
    rewrite length_app, length_joined.
    destruct absolute; cbv iota in Hpl; lia. }
  assert (∃ out, (if negb absolute && (n_pos st =? 0)
                  then out ← put (n_out st) (n_pos st) [dot]; Some (out, n_pos st + 1)
                  else Some (n_out st, n_pos st)) = Some (out, Z.of_nat (length path)) ∧
                 length out = 1024%nat ∧ take (length path) out = path) as (out & -> & Hlo & Ht).
  { rewrite Hempty. unfold path, printed. clear Hempty.
    destruct (negb absolute && bool_decide (comps = [])) eqn:E.
    - apply andb_true_iff in E as [E1 E2]. apply negb_true_iff in E1. subst absolute. simpl in Hk. subst prefix.
      apply bool_decide_eq_true in E2. subst comps. simpl in Hp. rewrite Hp.
      destruct (put_append (n_out st) [] [dot]) as (out & Hput & Hl & Htk); [done|simpl; lia|].
      change (Z.of_nat (length [])) with (Z.of_nat 0) in Hput. rewrite Hput. exists out. split; [done|]. split; [lia|done].
    - exists (n_out st). rewrite Hp. done. }
  cbn [mbind option_bind]. destruct (put_append out path [x00] Ht) as (out' & -> & Hl' & Ht'); [simpl; lia|].
  cbn [mbind option_bind]. eexists. split; [done|]. cbn [pr_status pr_absolute pr_len pr_out].
  split_and!; try done.
  - apply u16_small. unfold is_u16. lia.
  - by apply take_prefix_of in Ht'.
  - assert (take (length (path ++ [x00])) out' !! length path = Some x00) as H.
    { rewrite Ht', lookup_app_r by lia. by rewrite Nat.sub_diag. }
    by rewrite lookup_take_lt in H by (rewrite length_app; simpl; lia).
Qed.

Lemma drive_prefix_kind absolute input : kind_prefix absolute (drive_prefix absolute input).
Proof. by destruct absolute. Qed.

Lemma start_cost input :
  input ≠ [] → (length input ≤ 1023)%nat →
  let P := drive_prefix (is_absolute input) input in
  (length P + cost (components (drop (length P) input)) ≤ 1024)%nat.
Proof.
  intros Hne Hlen P. destruct (components_cost (drop (length P) input)) as [Hc _].
  rewrite length_drop in Hc. assert (length P ≤ length input)%nat; [|lia].
  unfold P, drive_prefix. destruct (is_absolute input) eqn:E; [|simpl; lia].
  destruct input as [|b0 [|b1 [|b2 input]]]; try done. simpl. lia.
Qed.

Lemma walk_cost base segs acc cs :
  walk base acc segs = inr cs → (cost cs ≤ cost acc + cost segs)%nat.
Proof.
  revert acc. induction segs as [|seg segs IH]; intros acc; [intros [= <-]; lia|]. cbn [walk].
  destruct (walk_segment _ acc seg) as [|acc'] eqn:E; [done|]. intros Hw%IH.
  change (cost (seg :: segs)) with (S (length seg) + cost segs)%nat.
  assert (cost acc' ≤ cost acc + S (length seg))%nat; [|lia]. unfold walk_segment in E.
  repeat case_match; simplify_eq; rewrite ?cost_snoc; try lia.
  pose proof (cost_take (length acc - 1) acc). lia.
Qed.

Lemma normalize_run input required_kind out :
  length out = 1024%nat →
  ∃ r, r4_path_normalize input required_kind out = Some r ∧
    match spec_normalize input required_kind with
    | inl code => pr_status r = code
    | inr (path, absolute) =>
        pr_status r = R4_PATH_OK ∧ pr_absolute r = absolute ∧
        pr_len r = Z.of_nat (length path) ∧ (length path ≤ 1023)%nat ∧
        take (length path) (pr_out r) = path ∧ pr_out r !! length path = Some x00
    end.
Proof.
  intros Hout. unfold r4_path_normalize, spec_normalize. destruct input as [input|]; [|by eexists].
  case_bool_decide as Hne; [subst; by eexists|].
  destruct (Z.eqb_spec (Z.of_nat (length input)) 0) as [Hz|_]; [destruct input; [done|simpl in Hz; lia]|].
  unfold R4OS_FILE_PATH_MAX_BYTES. destruct (Z.ltb_spec 1023 (Z.of_nat (length input))) as [|Hlen]; [by eexists|].
  destruct (_ || (required_kind =? 0) && _); [by eexists|]. cbn [orb].
  destruct (negb (is_absolute input) && _); [by eexists|].
  destruct (rep_start (is_absolute input) input out Hout) as (st & -> & Hrep).
  cbn [mbind option_bind]. pose proof (start_cost input Hne ltac:(lia)) as Hcost. cbv zeta in Hcost.
  set (P := drive_prefix (is_absolute input) input) in *.
  assert ((if is_absolute input then drop 3 input else input) = drop (length P) input) as ->
    by (unfold P, drive_prefix; by destruct (is_absolute input)).
  rewrite norm_loop_fold by (rewrite length_drop; lia).
  destruct (components_cost (drop (length P) input)) as [_ Hnes].
  pose proof (drive_prefix_kind (is_absolute input) input) as Hk. fold P in Hk.
  destruct (fold_refines _ _ (components (drop (length P) input)) _ _ Hk Hrep) as (r & -> & Hr);
    [change (cost []) with 0%nat; lia|done|]. cbn [mbind option_bind].
  destruct (walk (prefix_len P) [] _) as [code|comps] eqn:Hw; [subst r; by eexists|].
  destruct Hr as (st' & -> & Hrep'). apply norm_finish_run; [done|done|].
  apply walk_cost in Hw. change (cost []) with 0%nat in Hw. lia.
Qed.

(** C6. [r4_path_normalize] never reads or writes outside its buffers: for
    every input and every 1024-byte output buffer it returns, and with exactly
    the verdict and the NUL-terminated path of the specification. *)
Theorem path_normalize_refines input required_kind out :
  length out = 1024%nat →
  ∃ r, r4_path_normalize input required_kind out = Some r ∧
    match spec_normalize input required_kind with
    | inl code => pr_status r = code
    | inr (path, absolute) =>
        pr_status r = R4_PATH_OK ∧ pr_absolute r = absolute ∧
        pr_len r = Z.of_nat (length path) ∧ (length path ≤ 1023)%nat ∧
        take (length path) (pr_out r) = path ∧ pr_out r !! length path = Some x00
    end.
Proof. apply normalize_run. Qed.

Definition demo_buffer : list byte := concat (replicate 1024 [xff]).

Lemma path_normalize_refines_witness :
  ∃ r, r4_path_normalize (Some (lit "c:/Users//./a/../B.txt")) (-1) demo_buffer = Some r ∧
    pr_status r = R4_PATH_OK ∧ take 14 (pr_out r) = lit "C:\Users\B.txt" ∧ pr_len r = 14.
Proof.
  destruct (path_normalize_refines (Some (lit "c:/Users//./a/../B.txt")) (-1) demo_buffer) as (r & Hr & Hspec).
  - vm_compute. reflexivity.
  - exists r. split; [exact Hr|]. vm_compute (spec_normalize _ _) in Hspec.
    destruct Hspec as (? & _ & Hl & _ & Ht & _). auto.
Defined.

End R4PathSpec.
