(* ===== verification/R4PathNormal.v ===== *)
(** * path_timeout.h: normal forms

    A normalised path is a fixed point of [r4_path_normalize], has no "." or
    ".." component, and every component is UTF-8 of the Basic Multilingual
    Plane without reserved characters. *)

From S2P Require Import Prelude R4Path R4PathSpec.

Module R4PathNormal.
Export R4PathSpec.

(** ** Components that stay *)

Record good_component (c : list byte) : Prop := {
  gc_ne : c ≠ [];
  gc_sep : no_sep c;
  gc_dot : c ≠ [dot];
  gc_dotdot : c ≠ [dot; dot];
  gc_bytes : Z.of_nat (length c) ≤ 767;
  gc_valid : fst (r4_path_segment_valid c 0) = 0;
  gc_chars : seg_chars c ≤ 255
}.

Lemma split_no_sep s cur : no_sep cur → Forall no_sep (split_at_seps s cur).
Proof.
  revert cur. induction s as [|b s IH]; intros cur Hc; simpl.
  - case_bool_decide; [constructor|by apply Forall_singleton].
  - destruct (r4_path_separator b) eqn:E.
    + assert (Forall no_sep (split_at_seps s [])) by (apply IH; constructor).
      case_bool_decide; [done|]. by constructor.
    + apply IH. apply Forall_app. split; [done|]. by apply Forall_singleton.
Qed.

Lemma components_no_sep s : Forall no_sep (components s).
Proof. apply split_no_sep. constructor. Qed.

(** A component that the walk keeps. *)
Lemma walk_segment_inv base acc seg acc' :
  seg ≠ [] → no_sep seg → walk_segment base acc seg = inr acc' →
  (∃ k, acc' = take k acc) ∨
  (acc' = acc ++ [seg] ∧ good_component seg ∧ (length acc < 160)%nat ∧ base + chars_of acc' ≤ 260).
Proof.
  intros Hne Hs. unfold walk_segment.
  case_bool_decide as H1; [intros [= <-]; left; exists (length acc); by rewrite firstn_all|].
  case_bool_decide as H2.
  { case_bool_decide; [done|]. intros [= <-]. left. by eexists. }
  destruct (Z.ltb_spec 767 (Z.of_nat (length seg))); [done|].
  destruct (r4_path_segment_valid seg 0) as [v n] eqn:Ev.
  destruct (Z.eqb_spec v 0) as [Hv|]; [|done]. cbn [negb].
  destruct (Z.ltb_spec 255 n); [done|]. destruct (Z.leb_spec 160 (Z.of_nat (length acc))); [done|].
  destruct (Z.ltb_spec 260 (base + chars_of (acc ++ [seg]))); [done|]. intros [= <-].
  right. split_and!; [done| |lia|done]. split; try done; [by rewrite Ev|unfold seg_chars; rewrite Ev; done].
Qed.

Lemma chars_of_app_le l k : chars_of l ≤ chars_of (l ++ k).
Proof.
  induction k as [|c k IH] using rev_ind; [by rewrite app_nil_r|].
  rewrite app_assoc, chars_of_snoc. assert (0 ≤ seg_chars c) by apply segment_valid_mono.
  case_bool_decide; lia.
Qed.

Record normal (base : Z) (comps : list (list byte)) : Prop := {
  nm_good : Forall good_component comps;
  nm_len : (length comps ≤ 160)%nat;
  nm_chars : comps ≠ [] → base + chars_of comps ≤ 260
}.

Lemma normal_take base k comps : normal base comps → normal base (take k comps).
Proof.
  intros [Hg Hl Hc]. split; [by apply Forall_take|rewrite length_take; lia|].
  intros Hne. pose proof (chars_of_app_le (take k comps) (drop k comps)) as H. rewrite take_drop in H.
  assert (comps ≠ []) by (intros ->; by rewrite take_nil in Hne). specialize (Hc ltac:(done)). lia.
Qed.

Lemma walk_normal base segs acc cs :
  Forall (λ c, c ≠ []) segs → Forall no_sep segs → normal base acc →
  walk base acc segs = inr cs → normal base cs.
Proof.
  intros Hne Hs. revert acc. induction segs as [|seg segs IH]; intros acc Hn; [by intros [= <-]|].
  cbn [walk]. destruct (walk_segment base acc seg) as [|acc'] eqn:E; [done|].
  apply Forall_cons in Hne as [Hne1 Hne2]. apply Forall_cons in Hs as [Hs1 Hs2].
  apply IH; [done|done|].
  destruct (walk_segment_inv _ _ _ _ Hne1 Hs1 E) as [[k ->]|(-> & Hg & Hl & Hc)]; [by apply normal_take|].
  destruct Hn as [Hgs _ _]. split; [apply Forall_app; split; [done|by apply Forall_singleton]| |done].
  rewrite length_app. simpl. lia.
Qed.

Lemma walk_fixed base acc rest :
  normal base (acc ++ rest) → walk base acc rest = inr (acc ++ rest).
Proof.
  revert acc. induction rest as [|c rest IH]; intros acc Hn; [by rewrite app_nil_r|]. cbn [walk].
  assert (walk_segment base acc c = inr (acc ++ [c])) as ->.
  { destruct Hn as [Hg Hl Hc]. apply Forall_app in Hg as [_ [Hgc _]%Forall_cons].
    destruct Hgc as [H1 H2 H3 H4 H5 H6 H7]. unfold walk_segment. rewrite !bool_decide_false by done.
    destruct (Z.ltb_spec 767 (Z.of_nat (length c))); [lia|].
    unfold seg_chars in H7. destruct (r4_path_segment_valid c 0) as [v n]. simpl in *. subst v.
    destruct (Z.ltb_spec 255 n); [lia|]. rewrite length_app in Hl. simpl in Hl.
    destruct (Z.leb_spec 160 (Z.of_nat (length acc))); [lia|].
    pose proof (chars_of_app_le (acc ++ [c]) rest) as Hle. rewrite <- app_assoc in Hle. simpl in Hle.
    specialize (Hc ltac:(by destruct acc)).
    destruct (Z.ltb_spec 260 (base + chars_of (acc ++ [c]))); [lia|done]. }
  rewrite IH; rewrite <- app_assoc; done.
Qed.

(** ** Printing and splitting *)

Lemma components_joined comps :
  Forall good_component comps → components (joined comps) = comps.
Proof.
  intros Hg. destruct comps as [|c cs]; [done|]. apply Forall_cons in Hg as [[Hc1 Hc2 _ _ _ _ _] Hg].
  cbn [joined]. rewrite components_word; [|done|done|].
  - f_equal. induction Hg as [|c' cs' [H1 H2 _ _ _ _ _] Hg IH]; [done|]. cbn [fmap list_fmap concat].
    change ((backslash :: c') ++ concat (cons backslash <$> cs'))
      with ([backslash] ++ (c' ++ concat (cons backslash <$> cs'))).
    rewrite components_seps by (by apply Forall_singleton). rewrite components_word; [by rewrite IH|done|done|].
    intros b s. destruct cs' as [|c2 cs2]; [done|]. cbn. by intros [= <- _].
  - intros b s. destruct cs as [|c2 cs2]; [done|]. cbn. by intros [= <- _].
Qed.

Lemma upper_alpha b : r4_path_alpha b = true → r4_path_alpha (r4_ascii_upper b) = true ∧
  r4_ascii_upper (r4_ascii_upper b) = r4_ascii_upper b.
Proof. destruct b; vm_compute; auto. Qed.

Lemma alpha_ascii b : r4_path_alpha b = true → (b2z b <? 0x80) = true.
Proof. destruct b; vm_compute; auto. Qed.

Lemma colon_invalid b : b = colon → (b2z b <? 0x80) = true ∧ r4_path_byte_valid b = R4_PATH_INVALID_CHARACTER.
Proof. intros ->. done. Qed.

(** A printed relative path is not read as one with a drive. *)
Lemma joined_relative comps : Forall good_component comps → is_absolute (joined comps) = false.
Proof.
  intros Hg. destruct comps as [|c cs]; [done|]. apply Forall_cons in Hg as [[Hc1 Hc2 _ _ _ Hv _] _].
  destruct (is_absolute (joined (c :: cs))) eqn:E; [|done]. exfalso. cbn [joined] in E.
  destruct c as [|b0 c]; [done|]. cbn [app] in E. unfold is_absolute in E.
  destruct c as [|b1 c].
  - cbn [app] in E. destruct cs as [|c2 cs]; [done|]. cbn in E.
    destruct (c2 ++ concat (cons backslash <$> cs)); [done|].
    rewrite andb_false_r in E. done.
  - cbn [app] in E. destruct (c ++ concat (cons backslash <$> cs)); [done|].
    apply andb_true_iff in E as [[Ha Hb]%andb_true_iff _]. apply bool_decide_eq_true in Hb.
    cbn [r4_path_segment_valid] in Hv. rewrite (alpha_ascii b0 Ha) in Hv.
    destruct (negb (r4_path_byte_valid b0 =? 0)) eqn:E0.
    + cbn in Hv. apply negb_true_iff, Z.eqb_neq in E0. done.
    + destruct (colon_invalid b1 Hb) as [H1 H2]. rewrite H1, H2 in Hv. done.
Qed.

Lemma printed_first comps c cs :
  comps = c :: cs → good_component c → r4_path_separator (joined comps !!! 0%nat) = false.
Proof.
  intros -> [Hne Hs _ _ _ _ _]. destruct c as [|b c]; [done|]. apply Forall_cons in Hs as [Hb _]. done.
Qed.

Lemma spec_idempotent input required_kind path absolute :
  spec_normalize (Some input) required_kind = inr (path, absolute) →
  spec_normalize (Some path) required_kind = inr (path, absolute).
Proof.
  unfold spec_normalize. case_bool_decide as Hne; [done|].
  destruct (Z.ltb_spec 1023 (Z.of_nat (length input))) as [|Hlen]; [done|].
  destruct (_ || negb (is_absolute input) && _) eqn:Hkind; [done|].
  apply orb_false_iff in Hkind as [Hkind Hsep].
  set (P := drive_prefix (is_absolute input) input).
  destruct (walk (prefix_len P) [] _) as [|comps] eqn:Hw; [done|]. intros [= <- <-].
  destruct (components_cost (drop (length P) input)) as [_ Hnes].
  assert (normal (prefix_len P) comps) as Hn.
  { eapply walk_normal; [exact Hnes|apply components_no_sep| |exact Hw]. split; [constructor|simpl; lia|done]. }
  pose proof (nm_good _ _ Hn) as Hg.
  assert (length (P ++ joined comps) ≤ 1023)%nat as Hlp.
  { pose proof (start_cost input Hne ltac:(lia)) as Hc. cbv zeta in Hc. fold P in Hc.
    apply walk_cost in Hw. change (cost []) with 0%nat in Hw. rewrite length_app, length_joined.
    assert (length P ≤ 3)%nat by (unfold P, drive_prefix; destruct (is_absolute input); simpl; lia). lia. }
  assert (walk (prefix_len P) [] comps = inr comps) as Hfix by (by apply walk_fixed).
  destruct (is_absolute input) eqn:Habs.
  - unfold printed. cbn [negb andb]. unfold P, drive_prefix in *. cbn [app] in *.
    destruct input as [|b0 [|b1 [|b2 input]]]; try done. cbn in Habs.
    apply andb_true_iff in Habs as [[Ha _]%andb_true_iff _].
    destruct (upper_alpha b0 Ha) as [Hu1 Hu2].
    set (path := r4_ascii_upper ((b0 :: b1 :: b2 :: input) !!! 0%nat) :: colon :: backslash :: joined comps) in *.
    assert (is_absolute path = true) as Hpa.
    { unfold path, is_absolute. change ((b0 :: b1 :: b2 :: input) !!! 0%nat) with b0. by rewrite Hu1. }
    rewrite Hpa, bool_decide_false by done. destruct (Z.ltb_spec 1023 (Z.of_nat (length path))); [lia|].
    rewrite Hkind. cbn [negb andb orb].
    transitivity (match walk 3 [] (components (joined comps)) with
                  | inl code => inl code
                  | inr comps => inr (printed true [r4_ascii_upper (r4_ascii_upper b0); colon; backslash] comps, true)
                  end); [reflexivity|].
    rewrite components_joined, Hu2 by done. change (walk 3 [] comps = inr comps) in Hfix. by rewrite Hfix.
  - unfold P, drive_prefix in *. cbn [app length skipn] in *. change (prefix_len []) with 0 in *.
    destruct comps as [|c cs].
    + change (printed false [] []) with [dot]. rewrite bool_decide_false by done.
      change (is_absolute [dot]) with false. rewrite Hkind. reflexivity.
    + change (printed false [] (c :: cs)) with (joined (c :: cs)).
      rewrite joined_relative by done.
      assert (joined (c :: cs) ≠ []) as Hj.
      { apply Forall_cons in Hg as [[Hc _ _ _ _ _ _] _]. by destruct c. }
      rewrite bool_decide_false by done. destruct (Z.ltb_spec 1023 (Z.of_nat (length (joined (c :: cs))))); [lia|].
      rewrite Hkind, (printed_first _ c cs) by (done || by apply Forall_cons in Hg as [? _]).
      cbn [negb andb orb].
      transitivity (match walk 0 [] (components (joined (c :: cs))) with
                    | inl code => inl code
                    | inr comps => inr (printed false [] comps, false)
                    end); [reflexivity|].
      rewrite components_joined, Hfix by done. done.
Qed.

Lemma walk_error base comps segs code : walk base comps segs = inl code → code ≠ R4_PATH_OK.
Proof.
  revert comps. induction segs as [|seg segs IH]; intros comps; [done|]. cbn [walk].
  destruct (walk_segment base comps seg) as [c|comps'] eqn:E; [intros [= <-]|apply IH].
  unfold walk_segment in E. repeat case_match; simplify_eq; try done; by apply Z.eqb_neq, negb_true_iff.
Qed.

Lemma spec_error input required_kind code :
  spec_normalize input required_kind = inl code → code ≠ R4_PATH_OK.
Proof.
  unfold spec_normalize. destruct input as [input|]; [|by intros [= <-]].
  repeat case_match; intros; simplify_eq; try done. by eapply walk_error.
Qed.

(** The path a call leaves in its buffer. *)
Definition path_of (r : path_result) : list byte := take (Z.to_nat (pr_len r)) (pr_out r).

(** C7. Normalising is idempotent: the path the function leaves in its buffer,
    given to it again with the same required kind and any other buffer, is
    accepted and comes out as the same bytes. *)
Theorem path_normalize_idempotent input required_kind out r out' :
  length out = 1024%nat → length out' = 1024%nat →
  r4_path_normalize input required_kind out = Some r → pr_status r = R4_PATH_OK →
  ∃ r', r4_path_normalize (Some (path_of r)) required_kind out' = Some r' ∧
    pr_status r' = R4_PATH_OK ∧ pr_len r' = pr_len r ∧ pr_absolute r' = pr_absolute r ∧
    path_of r' = path_of r.
Proof.
  intros Ho Ho' Hr Hok. destruct (normalize_run input required_kind out Ho) as (r0 & Hr0 & Hspec).
  rewrite Hr in Hr0. injection Hr0 as <-.
  destruct (spec_normalize input required_kind) as [code|[p absolute]] eqn:E.
  { apply spec_error in E. by rewrite <-Hspec in E. }
  destruct Hspec as (_ & Ha & Hl & _ & Ht & _). destruct input as [input|]; [|done].
  unfold path_of. rewrite Hl, Nat2Z.id, Ht. apply spec_idempotent in E.
  destruct (normalize_run (Some p) required_kind out' Ho') as (r' & Hr' & Hspec'). rewrite E in Hspec'.
  destruct Hspec' as (H1 & H2 & H3 & _ & H4 & _). exists r'. rewrite H3, Nat2Z.id, Ha. done.
Qed.

Lemma path_normalize_idempotent_witness :
  ∃ r, r4_path_normalize (Some (lit "C:\Users\B.txt")) (-1) demo_buffer = Some r ∧
    pr_status r = R4_PATH_OK ∧ path_of r = lit "C:\Users\B.txt".
Proof.
  destruct (path_normalize_idempotent (Some (lit "c:/Users//./a/../B.txt")) (-1) demo_buffer
    (default (PathResult 0 [] 0 false)
       (r4_path_normalize (Some (lit "c:/Users//./a/../B.txt")) (-1) demo_buffer)) demo_buffer)
    as (r & Hr & Hs & _ & _ & Ht).
  - vm_compute. reflexivity.
  - vm_compute. reflexivity.
  - vm_compute. reflexivity.
  - vm_compute. reflexivity.
  - vm_compute (path_of (default _ _)) in Hr, Ht. exists r. split; [exact Hr|]. split; [exact Hs|exact Ht].
Defined.

(** ** Valid components are UTF-8 *)

Definition utf8 (cp : Z) : list byte :=
  if cp <? 0x80 then [z2b cp]
  else if cp <? 0x800 then [z2b (0xc0 + cp / 64); z2b (0x80 + cp mod 64)]
  else [z2b (0xe0 + cp / 4096); z2b (0x80 + (cp / 64) mod 64); z2b (0x80 + cp mod 64)].

(** The reserved characters: the quotation mark (34) and those of the text. *)
Definition reserved_chars : list Z := 34 :: (b2z <$> lit "<>|?*:").

(** A character of the Basic Multilingual Plane that a path may contain: no
    surrogate, no control character (below U+0020, or U+007F), not reserved. *)
Definition path_char (cp : Z) : Prop :=
  0x20 ≤ cp < 0x10000 ∧ cp ≠ 0x7f ∧ ¬ (0xd800 ≤ cp < 0xe000) ∧ cp ∉ reserved_chars.

Lemma byte_valid_char b :
  b2z b < 0x80 → r4_path_byte_valid b = R4_PATH_OK ↔ path_char (b2z b).
Proof.
  intros Hb. pose proof (b2z_range b). assert (
    (r4_path_byte_valid b =? R4_PATH_OK)
      = (0x20 <=? b2z b) && negb (b2z b =? 0x7f) && bool_decide (b2z b ∉ reserved_chars)) as He.
  { destruct b; reflexivity. }
  rewrite <-Z.eqb_eq, He, !andb_true_iff, negb_true_iff, Z.leb_le, Z.eqb_neq, bool_decide_eq_true.
  unfold path_char. split; [intros [[? ?] ?]|intros (? & ? & ? & ?)]; (split_and!; [lia..|done]).
Qed.

Lemma char_not_reserved cp : 0x80 ≤ cp → cp ∉ reserved_chars.
Proof.
  intros Hc Hin. assert (Forall (λ c, c < 0x80) reserved_chars) as Hall by (repeat constructor).
  rewrite Forall_forall in Hall. specialize (Hall cp Hin). cbv beta in Hall. lia.
Qed.

Lemma lead2_range b : (Z.land (b2z b) 0xe0 =? 0xc0) = (0xc0 <=? b2z b) && (b2z b <? 0xe0).
Proof. destruct b; reflexivity. Qed.
Lemma lead3_range b : (Z.land (b2z b) 0xf0 =? 0xe0) = (0xe0 <=? b2z b) && (b2z b <? 0xf0).
Proof. destruct b; reflexivity. Qed.
Lemma cont_range b : (Z.land (b2z b) 0xc0 =? 0x80) = (0x80 <=? b2z b) && (b2z b <? 0xc0).
Proof. destruct b; reflexivity. Qed.

Lemma z2b_val b z : z = b2z b → z2b z = b.
Proof. intros ->. apply z2b_b2z. Qed.

Lemma b2z_z2b_small z : 0 ≤ z < 256 → b2z (z2b z) = z.
Proof. intros. rewrite b2z_z2b. by apply Z.mod_small. Qed.

(** One character is accepted and counted. *)
Lemma segment_valid_utf8 cp s n :
  path_char cp → r4_path_segment_valid (utf8 cp ++ s) n = r4_path_segment_valid s (n + 1).
Proof.
  intros Hpc. pose proof Hpc as (Hr & _ & Hsur & _). unfold utf8.
  destruct (Z.ltb_spec cp 0x80) as [H1|H1]; [|destruct (Z.ltb_spec cp 0x800) as [H2|H2]]; cbn [app r4_path_segment_valid].
  - rewrite (proj2 (byte_valid_char (z2b cp) ltac:(rewrite b2z_z2b_small; lia)));
      [|by rewrite b2z_z2b_small by lia]. rewrite b2z_z2b_small by lia. rewrite (proj2 (Z.ltb_lt cp 0x80)) by lia. reflexivity.
  - rewrite !lead2_range, !lead3_range, !cont_range, !b2z_z2b_small by dlia.
    destruct (Z.ltb_spec (0xc0 + cp / 64) 0x80); [dlia|].
    destruct (Z.leb_spec 0xc0 (0xc0 + cp / 64)); [|dlia].
    destruct (Z.ltb_spec (0xc0 + cp / 64) 0xe0); [|dlia]. cbn [andb].
    destruct (Z.ltb_spec (0xc0 + cp / 64) 0xc2); [dlia|].
    destruct (Z.leb_spec 0x80 (0x80 + cp mod 64)); [|dlia].
    destruct (Z.ltb_spec (0x80 + cp mod 64) 0xc0); [|dlia]. done.
  - rewrite !lead2_range, !lead3_range, !cont_range, !b2z_z2b_small by dlia.
    destruct (Z.ltb_spec (0xe0 + cp / 4096) 0x80); [dlia|].
    destruct (Z.leb_spec 0xc0 (0xe0 + cp / 4096)); [|dlia].
    destruct (Z.ltb_spec (0xe0 + cp / 4096) 0xe0); [dlia|]. cbn [andb].
    destruct (Z.leb_spec 0xe0 (0xe0 + cp / 4096)); [|dlia].
    destruct (Z.ltb_spec (0xe0 + cp / 4096) 0xf0); [|dlia]. cbn [andb].
    destruct (Z.leb_spec 0x80 (0x80 + (cp / 64) mod 64)); [|dlia].
    destruct (Z.ltb_spec (0x80 + (cp / 64) mod 64) 0xc0); [|dlia].
    destruct (Z.leb_spec 0x80 (0x80 + cp mod 64)); [|dlia].
    destruct (Z.ltb_spec (0x80 + cp mod 64) 0xc0); [|dlia]. cbn [andb negb orb].
    destruct (Z.eqb_spec (0xe0 + cp / 4096) 0xe0), (Z.ltb_spec (0x80 + (cp / 64) mod 64) 0xa0);
      try (exfalso; dlia); cbn [andb];
    destruct (Z.eqb_spec (0xe0 + cp / 4096) 0xed), (Z.leb_spec 0xa0 (0x80 + (cp / 64) mod 64));
      try (exfalso; dlia); done.
Qed.

(** What is accepted starts with a character. *)
Lemma segment_valid_inv s n m :
  r4_path_segment_valid s n = (R4_PATH_OK, m) →
  (s = [] ∧ m = n) ∨
  ∃ cp s', path_char cp ∧ s = utf8 cp ++ s' ∧ r4_path_segment_valid s' (n + 1) = (R4_PATH_OK, m).
Proof.
  destruct s as [|b s1]; [intros [= <-]; by left|]. intros H. right. cbn [r4_path_segment_valid] in H.
  pose proof (b2z_range b) as Hb. destruct (Z.ltb_spec (b2z b) 0x80) as [H1|H1].
  { destruct (Z.eqb_spec (r4_path_byte_valid b) 0) as [Hv|Hv]; cbn [negb] in H; [|by injection H as ? _].
    exists (b2z b), s1. split_and!; [by apply byte_valid_char| |done].
    unfold utf8. destruct (Z.ltb_spec (b2z b) 0x80); [|lia]. by rewrite z2b_b2z. }
  rewrite lead2_range in H. destruct (Z.leb_spec 0xc0 (b2z b)) as [H2|H2]; cbn [andb] in H.
  2: { rewrite lead3_range in H. destruct (Z.leb_spec 0xe0 (b2z b)); [lia|]. done. }
  destruct (Z.ltb_spec (b2z b) 0xe0) as [H3|H3].
  { destruct (Z.ltb_spec (b2z b) 0xc2) as [|H4]; [done|]. destruct s1 as [|b1 s2]; [done|].
    pose proof (b2z_range b1). rewrite cont_range in H.
    destruct (Z.leb_spec 0x80 (b2z b1)); [|done]. destruct (Z.ltb_spec (b2z b1) 0xc0); [|done].
    exists ((b2z b - 0xc0) * 64 + (b2z b1 - 0x80)), s2. split_and!; [split_and!; [lia|lia|lia|lia|apply char_not_reserved; lia]| |done].
    unfold utf8. destruct (Z.ltb_spec ((b2z b - 0xc0) * 64 + (b2z b1 - 0x80)) 0x80); [lia|].
    destruct (Z.ltb_spec ((b2z b - 0xc0) * 64 + (b2z b1 - 0x80)) 0x800); [|lia].
    rewrite (z2b_val b), (z2b_val b1) by dlia. done. }
  rewrite lead3_range in H. destruct (Z.leb_spec 0xe0 (b2z b)) as [H4|H4]; cbn [andb] in H; [|done].
  destruct (Z.ltb_spec (b2z b) 0xf0) as [H5|H5]; [|done].
  destruct s1 as [|b1 [|b2 s3]]; [done..|]. rewrite !cont_range in H.
  pose proof (b2z_range b1). pose proof (b2z_range b2).
  destruct (Z.leb_spec 0x80 (b2z b1)); [|done]. destruct (Z.ltb_spec (b2z b1) 0xc0); [|done].
  destruct (Z.leb_spec 0x80 (b2z b2)); [|done]. destruct (Z.ltb_spec (b2z b2) 0xc0); [|done].
  cbn [andb negb orb] in H. destruct ((b2z b =? 0xe0) && _) eqn:E1; [done|].
  destruct ((b2z b =? 0xed) && _) eqn:E2; [done|].
  set (cp := (b2z b - 0xe0) * 4096 + (b2z b1 - 0x80) * 64 + (b2z b2 - 0x80)).
  assert (0x800 ≤ cp < 0x10000 ∧ ¬ (0xd800 ≤ cp < 0xe000)) as [Hcp Hsur].
  { apply andb_false_iff in E1. apply andb_false_iff in E2. unfold cp.
    destruct E1 as [E1%Z.eqb_neq|E1%Z.ltb_ge], E2 as [E2%Z.eqb_neq|E2%Z.leb_gt]; lia. }
  exists cp, s3. split_and!; [split_and!; [lia|lia|lia|done|apply char_not_reserved; lia]| |done].
  unfold utf8. destruct (Z.ltb_spec cp 0x80); [lia|]. destruct (Z.ltb_spec cp 0x800); [lia|].
  rewrite (z2b_val b), (z2b_val b1), (z2b_val b2) by (unfold cp; dlia). done.
Qed.

Lemma segment_valid_iff s n m :
  r4_path_segment_valid s n = (R4_PATH_OK, m) ↔
  ∃ cps, Forall path_char cps ∧ s = concat (utf8 <$> cps) ∧ m = n + Z.of_nat (length cps).
Proof.
  split.
  - revert n. induction s as [s IH] using (induction_ltof1 _ (@length byte)). unfold ltof in IH. intros n Hv.
    destruct (segment_valid_inv s n m Hv) as [[-> ->]|(cp & s' & Hc & Hs & Hv')].
    + exists []. split_and!; [constructor|done|simpl; lia].
    + destruct (IH s') with (n := n + 1) as (cps & Hcs & Hs' & Hm); [|done|].
      * subst s. rewrite length_app. unfold utf8. destruct (_ <? _); [|destruct (_ <? _)]; simpl; lia.
      * exists (cp :: cps). split_and!; [by constructor|by rewrite Hs, Hs'|simpl length; lia].
  - intros (cps & Hc & -> & ->). revert n. induction Hc as [|cp cps Hcp _ IH]; intros n.
    + simpl. f_equal. lia.
    + change (concat (utf8 <$> cp :: cps)) with (utf8 cp ++ concat (utf8 <$> cps)).
      rewrite segment_valid_utf8, IH by done. f_equal. cbn [length]. lia.
Qed.

(** C8. [r4_path_segment_valid] accepts a component exactly when it is the
    UTF-8 encoding of a sequence of characters of the Basic Multilingual Plane
    without surrogates, without control characters (below U+0020, and U+007F)
    and without the reserved ones (quotation mark, less, greater, bar, question
    mark, star, colon), in their shortest forms, and reports the number of
    characters. *)
Theorem segment_valid_is_utf8 s m :
  r4_path_segment_valid s 0 = (R4_PATH_OK, m) ↔
  ∃ cps, Forall path_char cps ∧ s = concat (utf8 <$> cps) ∧ m = Z.of_nat (length cps).
Proof. exact (segment_valid_iff s 0 m). Qed.

End R4PathNormal.
