(* ===== verification/R4Time.v ===== *)
(** * path_timeout.h: durations, timeouts and deadlines

    Platform/SDK/Shared/C/include/r4os/path_timeout.h. Times are
    64-bit nanosecond counts, ticks 64-bit counters at a rate of [hz] per
    second; the product of the two is computed in 128 bits. *)

From S2P Require Import Prelude.

Module R4Time.

Definition R4OS_OK : Z := 0.
Definition R4OS_ERROR_INVALID : Z := -1.
Definition R4OS_NANOSECONDS_PER_SECOND : Z := 1000000000.
Definition R4OS_TIMEOUT_KIND_POLL : Z := 0.
Definition R4OS_TIMEOUT_KIND_FINITE : Z := 1.
Definition R4OS_TIMEOUT_KIND_FOREVER : Z := 2.
Definition R4OS_IO_WAIT_FOREVER : Z := 18446744073709551615.

Record R4Timeout := Timeout { kind : Z; nanoseconds : Z }.

(** ** Operations: a status and, where it is [R4OS_OK], the value stored. *)

Definition r4_duration_to_ticks (duration hz : Z) : Z * option Z :=
  if hz =? 0 then (R4OS_ERROR_INVALID, None)
  else if duration =? 0 then (R4OS_OK, Some 0)
  else
    let product := (duration * hz) mod 2 ^ 128 in
    let rounded := ((product + R4OS_NANOSECONDS_PER_SECOND - 1) mod 2 ^ 128) / R4OS_NANOSECONDS_PER_SECOND in
    (R4OS_OK, Some (if UINT64_MAX <? rounded then UINT64_MAX else u64 rounded)).

Definition r4_timeout_poll : R4Timeout := Timeout R4OS_TIMEOUT_KIND_POLL 0.
Definition r4_timeout_finite (duration : Z) : R4Timeout := Timeout R4OS_TIMEOUT_KIND_FINITE duration.
Definition r4_timeout_forever : R4Timeout := Timeout R4OS_TIMEOUT_KIND_FOREVER 0.

Definition r4_timeout_to_ticks (timeout : R4Timeout) (hz : Z) : Z * option Z :=
  if kind timeout =? R4OS_TIMEOUT_KIND_POLL then (R4OS_OK, Some 0)
  else if kind timeout =? R4OS_TIMEOUT_KIND_FOREVER then (R4OS_OK, Some R4OS_IO_WAIT_FOREVER)
  else if negb (kind timeout =? R4OS_TIMEOUT_KIND_FINITE) then (R4OS_ERROR_INVALID, None)
  else r4_duration_to_ticks (nanoseconds timeout) hz.

(** Status, deadline and the forever flag. *)
Definition r4_timeout_deadline (timeout : R4Timeout) (now : Z) : Z * option (Z * bool) :=
  if kind timeout =? R4OS_TIMEOUT_KIND_FOREVER then (R4OS_OK, Some (0, true))
  else if kind timeout =? R4OS_TIMEOUT_KIND_POLL then (R4OS_OK, Some (now, false))
  else if negb (kind timeout =? R4OS_TIMEOUT_KIND_FINITE) then (R4OS_ERROR_INVALID, None)
  else
    (R4OS_OK, Some (if UINT64_MAX - now <? nanoseconds timeout then UINT64_MAX
                    else u64 (now + nanoseconds timeout), false)).

Definition r4_remaining_ticks (deadline now hz : Z) : Z * option Z :=
  r4_duration_to_ticks (if now <? deadline then deadline - now else 0) hz.

Definition r4_monotonic_resolution_ns (hz : Z) : Z :=
  if hz =? 0 then 0
  else R4OS_NANOSECONDS_PER_SECOND / hz
       + (if negb (R4OS_NANOSECONDS_PER_SECOND mod hz =? 0) then 1 else 0).

Definition r4_deadline_after (now duration : Z) : Z :=
  if UINT64_MAX - now <? duration then UINT64_MAX else u64 (now + duration).

(** ** Lemmas *)

Definition ceil_div (a b : Z) : Z := (a + b - 1) / b.

Lemma ceil_div_spec a b t : 0 < b → ceil_div a b ≤ t ↔ a ≤ t * b.
Proof.
  intros Hb. unfold ceil_div. destruct (div_facts (a + b - 1) b Hb) as (Hd & Hm & _). split; nia.
Qed.

(** The 128-bit arithmetic is exact. *)
Lemma ticks_exact duration hz :
  is_u64 duration → is_u32 hz → hz ≠ 0 →
  r4_duration_to_ticks duration hz
    = (R4OS_OK, Some (ceil_div (duration * hz) R4OS_NANOSECONDS_PER_SECOND `min` UINT64_MAX)).
Proof.
  intros [Hd1 Hd2] [Hh1 Hh2] Hz. unfold r4_duration_to_ticks, ceil_div, R4OS_NANOSECONDS_PER_SECOND, UINT64_MAX.
  destruct (Z.eqb_spec hz 0); [done|]. destruct (Z.eqb_spec duration 0) as [-> |Hne].
  { replace ((0 * hz + 1000000000 - 1) / 1000000000) with 0 by (rewrite Z.mul_0_l; reflexivity). done. }
  assert (0 ≤ duration * hz < 2 ^ 96) as Hp by nia.
  rewrite (Z.mod_small (duration * hz)) by lia. rewrite Z.mod_small by lia.
  set (r := (duration * hz + 1000000000 - 1) / 1000000000).
  assert (0 ≤ r) by (apply Z.div_pos; lia). f_equal. f_equal.
  destruct (Z.ltb_spec (2 ^ 64 - 1) r); [lia|]. rewrite u64_small by (unfold is_u64; lia). lia.
Qed.

(** C10. The tick count for a duration is the least number of ticks that is not
    shorter than the duration, or the greatest 64-bit count where no 64-bit
    count suffices: a wait of that many ticks never ends early. *)
Theorem ticks_never_early duration hz :
  is_u64 duration → is_u32 hz → hz ≠ 0 →
  ∃ t, r4_duration_to_ticks duration hz = (R4OS_OK, Some t) ∧ is_u64 t ∧
    (t < UINT64_MAX → duration * hz ≤ t * R4OS_NANOSECONDS_PER_SECOND) ∧
    (∀ t', 0 ≤ t' < t → t' * R4OS_NANOSECONDS_PER_SECOND < duration * hz).
Proof.
  intros Hd Hh Hz. eexists. split; [by apply ticks_exact|]. unfold is_u64, is_u32, UINT64_MAX in *.
  set (a := duration * hz). set (b := R4OS_NANOSECONDS_PER_SECOND).
  assert (0 < b) as Hb by done. assert (0 ≤ a) as Ha by (unfold a; nia).
  assert (0 ≤ ceil_div a b) as Hc by (unfold ceil_div; apply Z.div_pos; lia).
  pose proof (ceil_div_spec a b) as Hspec. split_and!; [lia|lia| |].
  - intros Ht. apply Hspec; lia.
  - intros t' Ht'. apply Z.nle_gt. intros Hle. apply Hspec in Hle; lia.
Qed.

Lemma ticks_never_early_witness :
  ∃ t, r4_duration_to_ticks 1500000001 1000 = (R4OS_OK, Some t) ∧ is_u64 t ∧
    (t < UINT64_MAX → 1500000001 * 1000 ≤ t * R4OS_NANOSECONDS_PER_SECOND) ∧
    (∀ t', 0 ≤ t' < t → t' * R4OS_NANOSECONDS_PER_SECOND < 1500000001 * 1000).
Proof. apply ticks_never_early; [split; lia|split; lia|lia]. Defined.

Lemma deadline_after_saturates now duration :
  is_u64 now → is_u64 duration → r4_deadline_after now duration = (now + duration) `min` UINT64_MAX.
Proof.
  intros Hn Hd. unfold r4_deadline_after, is_u64, UINT64_MAX in *.
  destruct (Z.ltb_spec (2 ^ 64 - 1 - now) duration); [lia|]. rewrite u64_small by (unfold is_u64; lia). lia.
Qed.

(** C11. Waiting by deadline and waiting by tick count agree: at the moment a
    finite deadline is set, the ticks that remain are the ticks of the timeout,
    unless the deadline is cut off at the end of the 64-bit clock, in which
    case fewer remain; afterwards the remaining ticks only fall, and they reach
    zero exactly when the deadline has come. *)
Theorem deadline_matches_timeout duration now later hz :
  is_u64 duration → is_u64 now → is_u64 later → is_u32 hz → hz ≠ 0 → now ≤ later →
  ∃ deadline t t', 
    r4_timeout_deadline (r4_timeout_finite duration) now = (R4OS_OK, Some (deadline, false)) ∧
    deadline = r4_deadline_after now duration ∧ is_u64 deadline ∧
    r4_remaining_ticks deadline now hz = (R4OS_OK, Some t) ∧
    r4_remaining_ticks deadline later hz = (R4OS_OK, Some t') ∧ t' ≤ t ∧
    (t' = 0 ↔ deadline ≤ later) ∧
    (now + duration ≤ UINT64_MAX → r4_timeout_to_ticks (r4_timeout_finite duration) hz = (R4OS_OK, Some t)).
Proof.
  intros Hd Hn Hl Hh Hz Hle. pose proof (deadline_after_saturates now duration Hn Hd) as Hdl.
  set (deadline := r4_deadline_after now duration) in *.
  assert (is_u64 deadline) as Hu by (unfold is_u64, UINT64_MAX in *; lia).
  assert (∀ n, is_u64 n → ∃ r, r4_remaining_ticks deadline n hz = (R4OS_OK, Some r) ∧
            r = ceil_div (((deadline - n) `max` 0) * hz) R4OS_NANOSECONDS_PER_SECOND `min` UINT64_MAX) as Hrem.
  { intros n Hnn. eexists. split; [|reflexivity]. unfold r4_remaining_ticks.
    replace (if n <? deadline then deadline - n else 0) with ((deadline - n) `max` 0)
      by (destruct (Z.ltb_spec n deadline); lia).
    apply ticks_exact; [unfold is_u64 in *; lia|done|done]. }
  destruct (Hrem now Hn) as (t & Ht & Hteq). destruct (Hrem later Hl) as (t' & Ht' & Hteq').
  unfold is_u64, is_u32, UINT64_MAX in *.
  exists deadline, t, t'. split_and!; try done; try lia.
  - rewrite Hteq, Hteq'. apply Z.min_le_compat_r. apply Z.div_le_mono; [done|].
    apply Z.sub_le_mono_r, Z.add_le_mono_r. nia.
  - rewrite Hteq'. unfold ceil_div. set (x := (deadline - later) `max` 0).
    assert (0 ≤ x) by lia. assert (0 < R4OS_NANOSECONDS_PER_SECOND) as Hp by done.
    destruct (div_facts (x * hz + R4OS_NANOSECONDS_PER_SECOND - 1) R4OS_NANOSECONDS_PER_SECOND Hp)
      as (H1 & H2 & H3). unfold R4OS_NANOSECONDS_PER_SECOND in *. split.
    + intros Hmin. assert (x * hz ≤ 0) by lia. assert (x = 0) by nia. lia.
    + intros Hdone. assert (x = 0) as -> by lia. rewrite Z.mul_0_l. reflexivity.
  - intros Hfit. unfold r4_timeout_to_ticks. cbn [kind nanoseconds r4_timeout_finite].
    change (R4OS_TIMEOUT_KIND_FINITE =? R4OS_TIMEOUT_KIND_POLL) with false.
    change (R4OS_TIMEOUT_KIND_FINITE =? R4OS_TIMEOUT_KIND_FOREVER) with false.
    change (negb (R4OS_TIMEOUT_KIND_FINITE =? R4OS_TIMEOUT_KIND_FINITE)) with false. cbv iota.
    rewrite ticks_exact by done. rewrite Hteq. do 3 f_equal. unfold UINT64_MAX. do 2 f_equal. lia.
Qed.

Lemma deadline_matches_timeout_witness :
  ∃ deadline t t',
    r4_timeout_deadline (r4_timeout_finite 5000000) 100 = (R4OS_OK, Some (deadline, false)) ∧
    deadline = r4_deadline_after 100 5000000 ∧ is_u64 deadline ∧
    r4_remaining_ticks deadline 100 1000 = (R4OS_OK, Some t) ∧
    r4_remaining_ticks deadline 3000100 1000 = (R4OS_OK, Some t') ∧ t' ≤ t ∧
    (t' = 0 ↔ deadline ≤ 3000100) ∧
    (100 + 5000000 ≤ UINT64_MAX → r4_timeout_to_ticks (r4_timeout_finite 5000000) 1000 = (R4OS_OK, Some t)).
Proof. apply deadline_matches_timeout; unfold is_u64, is_u32; lia. Defined.

(** ** Timeouts in ticks *)

(** [t] ticks of a clock of [hz] per second are what [timeout] asks for: nothing, for
    ever, or the least number that is not too short. *)
Definition waits (timeout : R4Timeout) (hz t : Z) : Prop :=
  if kind timeout =? R4OS_TIMEOUT_KIND_POLL then t = 0
  else if kind timeout =? R4OS_TIMEOUT_KIND_FOREVER then t = R4OS_IO_WAIT_FOREVER
  else kind timeout = R4OS_TIMEOUT_KIND_FINITE ∧ hz ≠ 0 ∧
    (t < UINT64_MAX → nanoseconds timeout * hz ≤ t * R4OS_NANOSECONDS_PER_SECOND) ∧
    (∀ t', 0 ≤ t' < t → t' * R4OS_NANOSECONDS_PER_SECOND < nanoseconds timeout * hz).

(** A finite timeout without a clock, or no timeout at all. *)
Definition no_waits (timeout : R4Timeout) (hz : Z) : Prop :=
  kind timeout ≠ R4OS_TIMEOUT_KIND_POLL ∧ kind timeout ≠ R4OS_TIMEOUT_KIND_FOREVER ∧
  (kind timeout = R4OS_TIMEOUT_KIND_FINITE → hz = 0).

Lemma timeout_ticks timeout hz :
  is_u64 (nanoseconds timeout) → is_u32 hz →
  let '(c, t) := r4_timeout_to_ticks timeout hz in
  if c =? R4OS_OK then waits timeout hz (default 0 t) else no_waits timeout hz.
Proof.
  intros Hn Hh. unfold r4_timeout_to_ticks, waits, no_waits.
  destruct (Z.eqb_spec (kind timeout) R4OS_TIMEOUT_KIND_POLL) as [|H1]; [done|].
  destruct (Z.eqb_spec (kind timeout) R4OS_TIMEOUT_KIND_FOREVER) as [|H2]; [done|].
  destruct (Z.eqb_spec (kind timeout) R4OS_TIMEOUT_KIND_FINITE) as [H3|H3]; cbn [negb]; [|done].
  destruct (Z.eq_dec hz 0) as [->|Hz]; [done|]. rewrite ticks_exact by done. change (R4OS_OK =? R4OS_OK) with true. cbn [from_option id].
  unfold is_u64, is_u32 in *. set (a := nanoseconds timeout * hz). assert (0 ≤ a) by (unfold a; nia).
  pose proof (ceil_div_spec a R4OS_NANOSECONDS_PER_SECOND) as Hs. set (b := R4OS_NANOSECONDS_PER_SECOND) in *.
  assert (0 < b) as Hb by done. split_and!; [done|done| |].
  - intros Ht. apply Hs; lia.
  - intros t' Ht'. apply Z.nle_gt. intros Hle. apply Hs in Hle; lia.
Qed.

Lemma timeout_nonneg timeout hz :
  is_u64 (nanoseconds timeout) → is_u32 hz → 0 ≤ default 0 (snd (r4_timeout_to_ticks timeout hz)).
Proof.
  intros Hn Hh. unfold r4_timeout_to_ticks. destruct (_ =? _); [done|]. destruct (_ =? _); [done|]. destruct (_ =? _); [|done]. cbn [negb].
  destruct (Z.eq_dec hz 0) as [->|Hz]; [done|]. rewrite ticks_exact by done. cbn [snd from_option id]. unfold is_u64, is_u32 in *.
  assert (0 ≤ ceil_div (nanoseconds timeout * hz) R4OS_NANOSECONDS_PER_SECOND); [|unfold UINT64_MAX; lia].
  unfold ceil_div, R4OS_NANOSECONDS_PER_SECOND. apply Z.div_pos; nia.
Qed.

Lemma waits_or_not timeout hz t : waits timeout hz t → ¬ no_waits timeout hz.
Proof.
  unfold waits, no_waits. intros Hw (H1 & H2 & H3). rewrite (proj2 (Z.eqb_neq _ _) H1), (proj2 (Z.eqb_neq _ _) H2) in Hw.
  destruct Hw as (Hk & Hz & _). auto.
Qed.

End R4Time.
