(* ===== verification/R4Abi.v ===== *)
(** * The binary layout of the SDK's structures

    C structures on the 64-bit target as lists of named fields, with the layout
    rules of its ABI (each field at the next multiple of its alignment, the
    size rounded up to the strictest alignment), and the structures of
    abi_generated.h, r4l.h, r4sys.h and r4m0.h that the SDK code reads and
    writes, each with the static assertions that the headers make about it. *)

From S2P Require Import Prelude.

Module R4Abi.

Inductive ctype :=
| Scalar (bytes : Z)
| Array (t : ctype) (n : Z)
| Struct (fields : list (string * ctype)).

Definition U8 : ctype := Scalar 1.
Definition U16 : ctype := Scalar 2.
Definition U32 : ctype := Scalar 4.
Definition U64 : ctype := Scalar 8.

Definition round_up (x a : Z) : Z := (x + a - 1) / a * a.

Fixpoint alignof (t : ctype) : Z :=
  match t with
  | Scalar n => n
  | Array t _ => alignof t
  | Struct fs => foldr (λ f a, Z.max (alignof (snd f)) a) 1 fs
  end.

Fixpoint sizeof (t : ctype) : Z :=
  match t with
  | Scalar n => n
  | Array t n => sizeof t * n
  | Struct fs =>
      round_up (foldl (λ off f, round_up off (alignof (snd f)) + sizeof (snd f)) 0 fs)
               (foldr (λ f a, Z.max (alignof (snd f)) a) 1 fs)
  end.

(** Name, offset and type of each field, from offset [off] on. *)
Fixpoint place (off : Z) (fs : list (string * ctype)) : list (string * (Z * ctype)) :=
  match fs with
  | [] => []
  | (name, t) :: fs =>
      let o := round_up off (alignof t) in
      (name, (o, t)) :: place (o + sizeof t) fs
  end.

Fixpoint assoc {A} (name : string) (l : list (string * A)) : option A :=
  match l with
  | [] => None
  | (n, a) :: l => if String.eqb n name then Some a else assoc name l
  end.

Definition fields_of (t : ctype) : list (string * ctype) :=
  match t with Struct fs => fs | _ => [] end.

(** [offsetof(t, name)]; -1, an address no object has, for a name that [t] lacks. *)
Definition offsetof (t : ctype) (name : string) : Z :=
  match assoc name (place 0 (fields_of t)) with Some (o, _) => o | None => -1 end.

Record layout_asserts := LayoutAsserts {
  la_struct : ctype;
  la_size : Z;
  la_offsets : list (string * Z)
}.

Definition asserts_hold (a : layout_asserts) : bool :=
  (sizeof (la_struct a) =? la_size a) &&
  forallb (λ f, offsetof (la_struct a) (fst f) =? snd f) (la_offsets a).

(** ** The structures *)

Definition R4XStartContext : ctype := Struct [
  ("magic", U32); ("abi_major", U16); ("abi_minor", U16); ("size", U32); ("flags", U32);
  ("instance_id", U64); ("app_class", U32); ("reserved0", U32); ("program_path", U64);
  ("args", U64); ("args_len", U64); ("imports", U64); ("import_count", U32); ("reserved1", U32);
  ("reserved_memory0", U64); ("reserved_memory1", U64); ("exit", U64); ("should_close", U64);
  ("yield", U64); ("reserved_runtime", U64); ("reserved2", U64)].

Definition R4XStartImport : ctype := Struct [
  ("group_id", U32); ("min_version", U32); ("resolved_version", U32); ("flags", U32);
  ("module_name", U64); ("symbol_name", U64); ("table", U64)].

Definition R4LInterfaceHeader : ctype := Struct [
  ("magic", U32); ("header_version", U16); ("flags", U16); ("size", U32); ("abi_major", U16);
  ("abi_minor", U16); ("interface_id_lo", U64); ("interface_id_hi", U64)].

Definition R4SysVmAllocation : ctype := Struct [
  ("magic", U32); ("region_id", U32); ("region_size", U64); ("requested_size", U64);
  ("user_addr", U64)].

Definition R4XStartR4Sys : ctype := Struct [
  ("magic", U32); ("abi_version", U32); ("size", U32); ("flags", U32); ("write", U64);
  ("putc", U64); ("sleep_ticks", U64); ("ticks", U64); ("env_get", U64); ("dir_entry", U64);
  ("program_should_close", U64); ("program_class", U64); ("program_instance", U64);
  ("service_status", U64); ("service_open", U64); ("service_close", U64); ("service_call", U64);
  ("service_endpoint_register", U64); ("service_endpoint_unregister", U64);
  ("service_endpoint_poll", U64); ("service_endpoint_recv", U64); ("service_endpoint_reply", U64);
  ("service_detail_by_name", U64); ("service_start", U64); ("service_stop", U64);
  ("service_restart", U64); ("service_install", U64); ("service_remove", U64); ("reserved0", U64);
  ("reserved1", U64); ("vm_reserve", U64); ("vm_commit", U64); ("vm_decommit", U64);
  ("vm_release", U64); ("vm_query", U64); ("thread_create", U64); ("thread_exit", U64);
  ("thread_join", U64); ("thread_current", U64); ("thread_status", U64); ("io_file_read", U64);
  ("io_file_read_at", U64); ("io_file_write", U64); ("io_file_append", U64);
  ("io_file_stream_begin", U64); ("io_file_stream_write", U64); ("io_file_stream_finish", U64);
  ("io_file_stream_abort", U64); ("io_service_call", U64); ("io_status", U64); ("io_wait", U64);
  ("io_close", U64); ("task_yield", U64); ("reserved_shell_run", U64); ("system_halt", U64);
  ("system_reboot", U64); ("system_poweroff", U64); ("time_state", U64); ("time_set_state", U64);
  ("time_seconds_since_midnight", U64); ("dir_list", U64); ("dir_create", U64);
  ("dir_delete", U64); ("drive_info", U64); ("file_info", U64); ("file_delete", U64);
  ("file_rename", U64); ("file_copy", U64); ("file_move", U64); ("file_read", U64);
  ("file_write", U64); ("file_read_at", U64); ("file_append", U64); ("file_stream_begin", U64);
  ("file_stream_write", U64); ("file_stream_finish", U64); ("file_stream_abort", U64);
  ("env_set", U64); ("registry_key_info", U64); ("registry_enum_key", U64);
  ("registry_enum_value", U64); ("registry_get_value", U64); ("registry_set_value", U64);
  ("registry_delete_value", U64); ("service_info", U64); ("service_detail", U64);
  ("service_set_start_mode", U64); ("service_endpoint_wait", U64); ("program_run", U64);
  ("program_launch", U64); ("program_spawn", U64); ("program_kill", U64); ("program_status", U64);
  ("program_request_close", U64); ("program_reap_instance", U64); ("boot_log_info", U64);
  ("boot_log_read", U64); ("program_spawn_handle", U64); ("program_open_handle", U64);
  ("program_handle_status", U64); ("program_handle_request_close", U64);
  ("program_handle_kill", U64); ("program_handle_wait", U64); ("program_handle_reap", U64);
  ("program_completion_read", U64); ("program_inventory_begin", U64);
  ("program_inventory_programs", U64); ("program_inventory_tasks", U64);
  ("program_inventory_threads", U64); ("thread_create_handle", U64); ("thread_handle_join", U64);
  ("thread_handle_status", U64); ("file_replace_atomic", U64); ("file_delete_if_match", U64);
  ("file_update_atomic_checked", U64); ("path_names_equal_collated", U64);
  ("file_update_cleanup_checked", U64); ("file_stream_declare_publish", U64);
  ("module_resource_stat", U64); ("module_resource_read", U64); ("program_module_path", U64);
  ("program_module_running", U64); ("monotonic_clock", U64); ("boot_ready", U64);
  ("registry_snapshot_begin", U64); ("registry_snapshot_page", U64);
  ("registry_batch_mutate", U64); ("io_file_write_at", U64); ("io_file_info", U64);
  ("io_file_lock", U64); ("storage_inventory", U64); ("storage_device", U64);
  ("storage_partition", U64); ("storage_volume", U64); ("storage_claim_begin", U64);
  ("storage_claim_end", U64); ("storage_read", U64); ("storage_claim_read", U64);
  ("storage_claim_write", U64); ("storage_claim_flush", U64); ("storage_rescan", U64);
  ("storage_mount", U64); ("storage_unmount", U64); ("storage_use_begin", U64);
  ("storage_use_end", U64); ("directory_change_begin", U64); ("directory_change_poll", U64);
  ("file_copy_buffered", U64); ("notification_create", U64); ("notification_query", U64);
  ("notification_notify", U64); ("notification_wait", U64); ("notification_close", U64);
  ("program_local_get", U64); ("program_local_publish", U64); ("thread_current_handle", U64);
  ("cpu_capacity", U64); ("program_exit", U64); ("platform_input_snapshot", U64);
  ("directory_next", U64)].

Definition R4XStartR4Desk : ctype := Struct [
  ("magic", U32); ("abi_version", U32); ("size", U32); ("flags", U32); ("read_key", U64);
  ("mouse_state", U64); ("mouse_show", U64); ("mouse_hide", U64); ("keyboard_layout_current", U64);
  ("keyboard_layout_at", U64); ("keyboard_layout_set", U64); ("program_set_window", U64);
  ("program_set_console_host", U64); ("program_request_host_launch", U64);
  ("program_take_host_launch", U64); ("program_window_id", U64); ("gui_window_info", U64);
  ("gui_set_window_info", U64); ("gui_poll_event", U64); ("gui_push_event", U64);
  ("gui_set_text", U64); ("gui_text", U64); ("gui_revision", U64); ("gui_command", U64);
  ("gui_set_title", U64); ("gui_title", U64); ("gui_set_min_size", U64); ("gui_min_size", U64);
  ("console_output", U64); ("console_revision", U64); ("console_state", U64);
  ("console_set_metrics", U64); ("console_push_key", U64); ("console_write", U64);
  ("console_read", U64); ("clipboard_write", U64); ("clipboard_read", U64);
  ("clipboard_revision", U64); ("clipboard_info", U64); ("clipboard_clear", U64);
  ("read_key_codepoint", U64); ("reserved1", U64); ("remote_frame_info", U64);
  ("remote_frame_read", U64); ("remote_frame_wait", U64); ("remote_frame_publish", U64);
  ("remote_input_push", U64); ("remote_input_poll", U64); ("remote_input_status", U64);
  ("desktop_activity_wait", U64); ("remote_frame_map", U64); ("program_current_console_host", U64);
  ("program_request_desktop", U64); ("program_spawn_with_console_host", U64);
  ("program_spawn_with_console_host_handle", U64); ("program_set_window_handle", U64);
  ("console_push_input", U64); ("remote_frame_acquire", U64); ("remote_frame_release", U64);
  ("remote_frame_consumers", U64); ("remote_frame_publish_regions", U64);
  ("console_input_wait", U64); ("physical_key_poll", U64)].

Definition R4XStartR4Draw : ctype := Struct [
  ("magic", U32); ("abi_version", U32); ("size", U32); ("flags", U32); ("screen_width", U64);
  ("screen_height", U64); ("clear", U64); ("rect", U64); ("text", U64); ("display_revision", U64);
  ("display_begin_frame", U64); ("display_begin_frame_rect", U64); ("display_present", U64);
  ("display_blit_xrgb32", U64); ("gui_clear", U64); ("gui_rect", U64); ("gui_draw_text", U64);
  ("gui_draw_text_ex", U64); ("gui_blit", U64); ("gui_raster_read", U64); ("gui_present", U64);
  ("font_count", U64); ("font_info", U64); ("font_measure", U64); ("gui_set_font", U64);
  ("gui_font", U64); ("text_font", U64); ("font_reload", U64); ("font_glyph_row", U64);
  ("gui_blend_alpha8", U64); ("gui_frame_begin", U64); ("gui_frame_append", U64);
  ("gui_frame_commit", U64); ("gui_frame_cancel", U64); ("gui_frame_info", U64);
  ("gui_frame_read", U64); ("display_blit_xrgb32_stride", U64); ("display_present_regions", U64);
  ("display_present_capabilities", U64); ("display_present_completion", U64);
  ("gui_frame_begin_damage", U64); ("gui_frame_generation_info", U64);
  ("gui_frame_generation_read", U64); ("font_glyph_bitmap", U64); ("font_revision", U64);
  ("gui_frame_begin_replace", U64); ("gui_frame_stream_info", U64);
  ("gui_shared_raster_create", U64); ("gui_shared_raster_destroy", U64);
  ("gui_shared_raster_map_write", U64); ("gui_shared_raster_publish", U64);
  ("gui_shared_raster_acquire", U64); ("gui_shared_raster_release", U64)].

Definition R4XStartR4Net : ctype := Struct [
  ("magic", U32); ("abi_version", U32); ("size", U32); ("flags", U32); ("tcp_connect", U64);
  ("tcp_write", U64); ("tcp_read", U64); ("tcp_close", U64); ("tcp_summary", U64);
  ("tcp_connection", U64); ("tcp_echo_listen_once", U64); ("tcp_accept_read_once", U64);
  ("net_ipv4_send", U64); ("net_ipv4_recv", U64); ("net_config_get", U64); ("net_config_set", U64);
  ("net_dns_resolve", U64); ("net_dns_resolve_server", U64); ("net_dhcp_acquire", U64);
  ("net_dhcp_renew", U64); ("net_dhcp_release", U64); ("net_dhcp_status", U64);
  ("net_detail_get", U64); ("net_diag_run", U64); ("ipc_open", U64); ("ipc_send", U64);
  ("ipc_recv", U64); ("ipc_poll", U64); ("ipc_close", U64); ("ipc_summary", U64);
  ("ipc_channel", U64); ("serial_link_status", U64); ("serial_link_poll", U64);
  ("serial_link_send_message", U64); ("serial_link_host_test", U64); ("serial_link_inbox", U64);
  ("net_service_request", U64); ("ipc_performance", U64); ("tcp_performance", U64)].

Definition R4XStartR4Audio : ctype := Struct [
  ("magic", U32); ("abi_version", U32); ("size", U32); ("flags", U32); ("audio_open_stream", U64);
  ("audio_write", U64); ("audio_close", U64); ("audio_set_volume", U64); ("sid_acquire", U64);
  ("sid_write_register", U64); ("sid_release", U64); ("sid_load_data", U64); ("sid_init", U64);
  ("sid_play_frame", U64); ("sid_stop", U64); ("sid_model_name", U64); ("midi_open_synth", U64);
  ("midi_send", U64); ("midi_close", U64); ("opl3_write_register", U64); ("opl3_reset", U64);
  ("opl3_render_block", U64); ("opl3_stop", U64); ("reserved0", U64); ("reserved1", U64);
  ("audio_output_info", U64); ("audio_select_output", U64)].

Definition R4XStartR4Dev : ctype := Struct [
  ("magic", U32); ("abi_version", U32); ("size", U32); ("flags", U32);
  ("device_inventory_summary", U64); ("device_inventory_record", U64); ("memory_summary", U64);
  ("memory_block_count", U64); ("memory_block", U64); ("memory_pressure_snapshot", U64);
  ("memory_reclaim_probe", U64); ("memory_backing_store_probe", U64);
  ("memory_backing_store_slot_probe", U64); ("memory_pager_gate_probe", U64);
  ("memory_page_io_probe", U64); ("memory_vm_page_state_probe", U64);
  ("memory_vm_reserve_probe", U64); ("paging_summary", U64); ("performance_summary", U64);
  ("performance_task", U64); ("performance_storage", U64); ("performance_boot_phase", U64);
  ("protocol_status", U64); ("protocol_dispatch", U64); ("display_summary", U64);
  ("hardware_summary", U64); ("boot_info_summary", U64); ("boot_info_memory_count", U64);
  ("boot_info_memory_entry", U64); ("reserved0", U64); ("reserved1", U64);
  ("program_instance_storage_summary", U64); ("program_instance_storage_self_test", U64);
  ("program_registry_summary", U64); ("program_registry_self_test", U64);
  ("program_registry_summary_v2", U64); ("program_registry_self_test_v2", U64);
  ("execution_inventory_summary", U64); ("program_instance_storage_summary_v2", U64);
  ("kernel_version", U64); ("performance_boot_phase_clock", U64); ("performance_irq_timing", U64);
  ("performance_boot_summary", U64); ("performance_driver_work", U64);
  ("performance_pci_inventory", U64); ("performance_input", U64)].

Definition R4ProgramVmRegionInfo : ctype := Struct [
  ("id", U32); ("status", U8); ("owner", U8); ("kind", U8); ("window", U8); ("owner_id", U64);
  ("base", U64); ("len", U64); ("committed_bytes", U64); ("guard_base", U64); ("guard_len", U64);
  ("flags", U64); ("resident_bytes", U64); ("peak_resident_bytes", U64); ("fault_count", U64);
  ("failed_faults", U64)].

Definition R4ProgramJoinHandle : ctype := Struct [
  ("thread_id", U32); ("instance_id", U32); ("thread_generation", U64);
  ("instance_generation", U64); ("reserved", U64)].

Definition R4ProgramProcessHandle : ctype := Struct [
  ("instance_id", U32); ("reserved", U32); ("generation", U64)].

Definition R4PhysicalKeyEvent : ctype := Struct [
  ("magic", U32); ("version", U16); ("size", U16); ("kind", U32); ("key", U32); ("modifiers", U32);
  ("flags", U32); ("sequence", U64); ("tick", U64)].

Definition R4DisplayPresentCapabilities : ctype := Struct [
  ("version", U16); ("size", U16); ("flags", U32); ("formats", U32); ("max_regions", U32);
  ("tile_width", U32); ("tile_height", U32); ("backend_kind", U32); ("reserved0", U32);
  ("backend_name", Array U8 24); ("fallback_name", Array U8 24)].

Definition R4DisplayPresentCompletion : ctype := Struct [
  ("version", U16); ("size", U16); ("flags", U32); ("fence", U64); ("completed_fence", U64);
  ("result", U32); ("reserved0", U32)].

Definition R4GuiFrameInfo : ctype := Struct [
  ("version", U32); ("size", U32); ("state", U32); ("flags", U32);
  ("owner", R4ProgramProcessHandle); ("committed_generation", U64); ("building_generation", U64);
  ("committed_command_count", U64); ("committed_resource_bytes", U64);
  ("building_command_count", U64); ("building_resource_bytes", U64); ("current_frame_bytes", U64);
  ("peak_frame_bytes", U64); ("commit_count", U64); ("cancel_count", U64); ("oom_count", U64);
  ("snapshot_read_count", U64); ("last_error", U32); ("command_version", U32);
  ("command_size", U32); ("reserved0", U32); ("reserved1", U64); ("reserved2", U64);
  ("reserved3", U64); ("reserved4", U64)].

Definition R4GuiFrameGenerationInfo : ctype := Struct [
  ("version", U32); ("size", U32); ("flags", U32); ("damage_count", U32);
  ("owner", R4ProgramProcessHandle); ("generation", U64); ("base_generation", U64);
  ("command_count", U64); ("resource_bytes", U64); ("total_command_count", U64);
  ("total_resource_bytes", U64); ("chain_depth", U32); ("command_version", U32);
  ("command_size", U32); ("region_size", U32); ("delta_commit_count", U64);
  ("full_commit_count", U64); ("indexed8_command_count", U64); ("indexed8_resource_bytes", U64);
  ("avoided_clone_bytes", U64); ("generation_read_count", U64)].

Definition R4GuiFrameStreamInfo : ctype := Struct [
  ("version", U32); ("size", U32); ("flags", U32); ("live_generation_count", U32);
  ("owner", R4ProgramProcessHandle); ("committed_generation", U64);
  ("replacement_commit_count", U64); ("superseded_generation_count", U64);
  ("coalesced_generation_count", U64); ("reader_retired_generation_count", U64);
  ("xrgb32_nearest_command_count", U64); ("xrgb32_nearest_resource_bytes", U64);
  ("current_frame_bytes", U64); ("peak_frame_bytes", U64); ("reserved0", U64);
  ("shared_publish_count", U64); ("shared_acquire_count", U64); ("shared_release_count", U64);
  ("shared_backpressure_count", U64); ("shared_published_bytes", U64);
  ("shared_frame_bytes_avoided", U64); ("shared_acquired_bytes", U64); ("shared_live_bytes", U64)].

Definition R4StorageDeviceRef : ctype := Struct [
  ("slot", U32); ("reserved", U32); ("generation", U64)].

Definition R4StorageVolumeRef : ctype := Struct [
  ("slot", U32); ("reserved", U32); ("generation", U64)].

Definition R4StorageTarget : ctype := Struct [
  ("version", U32); ("size", U32); ("device", R4StorageDeviceRef); ("layout_generation", U64);
  ("first_lba", U64); ("sector_count", U64); ("partition_number", U32); ("kind", U32);
  ("partition_guid", Array U8 16)].

Definition R4StorageInventory : ctype := Struct [
  ("version", U32); ("size", U32); ("generation", U64); ("device_slots", U32);
  ("volume_slots", U32); ("flags", U32); ("reserved", U32)].

Definition R4StorageDeviceInfo : ctype := Struct [
  ("version", U32); ("size", U32); ("reference", R4StorageDeviceRef); ("layout_generation", U64);
  ("sector_count", U64); ("disk_guid", Array U8 16); ("first_usable", U64); ("last_usable", U64);
  ("bus", U32); ("flags", U32); ("sector_bytes", U32); ("partition_slots", U32);
  ("last_error", U32); ("reserved", U32); ("model", Array U8 64); ("name", Array U8 32);
  ("driver", Array U8 32); ("reason", Array U8 64)].

Definition R4StoragePartitionInfo : ctype := Struct [
  ("version", U32); ("size", U32); ("target", R4StorageTarget); ("type_guid", Array U8 16);
  ("attributes", U64); ("filesystem", U32); ("flags", U32); ("last_error", U32); ("mbr_type", U32);
  ("name", Array U16 36)].

Definition R4StorageVolumeInfo : ctype := Struct [
  ("version", U32); ("size", U32); ("reference", R4StorageVolumeRef); ("target", R4StorageTarget);
  ("letter", U32); ("filesystem", U32); ("role", U32); ("flags", U32)].

Definition R4RegistryBatchOperation : ctype := Struct [
  ("operation", U16); ("value_type", U16); ("key_path_offset", U32); ("key_path_len", U32);
  ("value_name_offset", U32); ("value_name_len", U32); ("data_offset", U32); ("data_len", U32);
  ("reserved0", U32)].

Definition R4RegistryBatchResult : ctype := Struct [
  ("version", U32); ("size", U32); ("generation_before", U64); ("generation_after", U64);
  ("operation_count", U32); ("failed_index", U32); ("status", U32); ("reserved0", U32)].

Definition R4FileInfo : ctype := Struct [
  ("exists", U8); ("is_dir", U8); ("attr", U8); ("drive", U8); ("size", U64);
  ("first_cluster", U32); ("created_time", U16); ("created_date", U16); ("access_date", U16);
  ("modified_time", U16); ("modified_date", U16); ("reserved", U16); ("name", Array U8 64)].

Definition R4DirectoryChangeCursor : ctype := Struct [
  ("version", U32); ("size", U32); ("sequence", U64); ("node", U64); ("mount_generation", U64);
  ("mount_slot", U32); ("reserved", U32)].

Definition R4DirectoryScanCursor : ctype := Struct [
  ("version", U32); ("size", U32); ("change", R4DirectoryChangeCursor); ("owner_id", U32);
  ("owner_kind", U32); ("owner_generation", U64); ("backend", Array U64 128)].

Definition R4FileCopyProgress : ctype := Struct [
  ("version", U32); ("size", U32); ("bytes", U64); ("source_size", U64); ("chunks", U32);
  ("max_chunk", U32)].

Definition R4RegistryValueInfo : ctype := Struct [
  ("value_type", U16); ("reserved", U16); ("data_len", U32); ("name", Array U8 64)].

Definition R4TextView : ctype := Struct [
  ("ptr", U64); ("len", U32); ("reserved", U32)].

Definition R4ServiceInfo : ctype := Struct [
  ("handle", U32); ("state", U32); ("start_mode", U32); ("flags", U32); ("instance_id", U32);
  ("exit_code", U32); ("restart_count", U32); ("reserved0", U32); ("start_tick", U64);
  ("uptime_ticks", U64); ("requests", U64); ("responses", U64); ("drops", U64);
  ("queue_depth", U32); ("queue_used", U32); ("queue_high_water", U32); ("active_workers", U32);
  ("max_active_workers", U32); ("open_handles", U32); ("busy_rejections", U64); ("timeouts", U64);
  ("cancellations", U64); ("name", Array U8 32); ("last_error", Array U8 64)].

Definition R4ServiceMessageHeader : ctype := Struct [
  ("magic", U32); ("version", U16); ("op", U16); ("request_id", U32); ("client_id", U32);
  ("flags", U32); ("payload_len", U16); ("reserved0", U16); ("status", U32)].

Definition R4TimeState : ctype := Struct [
  ("valid", U8); ("century_source", U8); ("weekday", U8); ("reserved0", U8); ("year", U16);
  ("month", U8); ("day", U8); ("hour", U8); ("minute", U8); ("second", U8); ("reserved1", U8);
  ("seconds_since_midnight", U32); ("monotonic_ticks", U64); ("monotonic_hz", U32);
  ("monotonic_backend", U32)].

Definition R4GuiEvent : ctype := Struct [
  ("kind", U32); ("window_id", U32); ("x", U32); ("y", U32); ("key", U32); ("buttons", U32);
  ("modifiers", U32); ("tick", U64)].

Definition R4GuiWindowInfo : ctype := Struct [
  ("window_id", U32); ("frame_x", U32); ("frame_y", U32); ("frame_w", U32); ("frame_h", U32);
  ("client_x", U32); ("client_y", U32); ("client_w", U32); ("client_h", U32); ("flags", U32)].

Definition R4ConsoleState : ctype := Struct [
  ("fg", U32); ("bg", U32); ("clear_count", U32); ("cursor_x", U32); ("cursor_y", U32);
  ("cursor_visible", U8); ("reserved", Array U8 3); ("cols", U32); ("rows", U32);
  ("stdin_pending", U32); ("stdin_bytes", U32); ("stdout_bytes", U32); ("stderr_bytes", U32);
  ("output_capacity", U32); ("output_len", U32); ("scrollback_lines", U32);
  ("output_dropped_bytes", U32)].

Definition R4ProgramProcessCompletion : ctype := Struct [
  ("handle", R4ProgramProcessHandle); ("sequence", U64); ("start_tick", U64);
  ("finish_tick", U64); ("exit_code", U32); ("task_id", U32); ("output_revision", U32);
  ("output_length", U32); ("flags", U32); ("app_class", U8); ("role", U8); ("exit_reason", U8);
  ("reserved0", U8); ("console_state", R4ConsoleState)].

Definition R4ProgramIoInfo : ctype := Struct [
  ("version", U32); ("size", U32); ("request_id", U32); ("kind", U32); ("state", U32);
  ("flags", U32); ("status", U32); ("result", U32); ("requested_bytes", U64);
  ("processed_bytes", U64); ("submitted_tick", U64); ("completed_tick", U64);
  ("owner_instance", U32); ("task_id", U32); ("reserved0", U64)].

Definition R4AudioServiceMasterRequest : ctype := Struct [
  ("magic", U32); ("version", U16); ("size", U16); ("flags", U32); ("fixed_volume", U32);
  ("expected_revision", U64); ("reserved0", Array U8 8)].

Definition R4AudioServiceMasterState : ctype := Struct [
  ("magic", U32); ("version", U16); ("size", U16); ("flags", U32); ("service_flags", U32);
  ("master_revision", U64); ("service_epoch", U64); ("selected_volume_fixed", U32);
  ("effective_volume_fixed", U32); ("last_audible_volume_fixed", U32); ("reserved0", U32);
  ("persist_writes", U64); ("persist_failures", U64); ("master_changes", U64);
  ("config_loads", U64); ("reserved1", Array U8 48)].

Definition R4TrayServiceRequest : ctype := Struct [
  ("magic", U32); ("version", U16); ("size", U16); ("owner", R4ProgramProcessHandle);
  ("item_id", U64); ("item_revision", U64); ("item_flags", U32); ("status_flags", U32);
  ("after_sequence", U64); ("deadline_tick", U64); ("tooltip_length", U16); ("icon_width", U16);
  ("icon_height", U16); ("icon_format", U16); ("tooltip", Array U8 64); ("icon", Array U32 256);
  ("reserved0", Array U8 24)].

Definition R4TrayEvent : ctype := Struct [
  ("magic", U32); ("version", U16); ("size", U16); ("sequence", U64);
  ("owner", R4ProgramProcessHandle); ("item_id", U64); ("item_revision", U64); ("kind", U16);
  ("flags", U16); ("wheel_delta", U32); ("x", U32); ("y", U32); ("tick", U64);
  ("dropped_before", U32); ("reserved0", U32)].

Definition R4TrayServiceResponse : ctype := Struct [
  ("magic", U32); ("version", U16); ("size", U16); ("result", U32); ("flags", U32);
  ("desktop_epoch", U64); ("registry_revision", U64); ("owner", R4ProgramProcessHandle);
  ("item_id", U64); ("item_revision", U64); ("item_flags", U32); ("status_flags", U32);
  ("registered_count", U16); ("visible_count", U16); ("capacity", U16); ("queued_events", U16);
  ("dropped_events", U32); ("reserved0", U32); ("event", R4TrayEvent); ("reserved1", Array U8 24)].

Definition R4ProgramInstanceStorageSummary : ctype := Struct [
  ("version", U32); ("size", U32); ("core_bytes_per_instance", U64);
  ("registry_reserved_core_bytes", U64); ("live_core_bytes", U64); ("active_instance_bytes", U64);
  ("peak_active_instance_bytes", U64); ("reserved_instance_bytes", U64);
  ("peak_reserved_instance_bytes", U64); ("current_payload_bytes", U64);
  ("peak_payload_bytes", U64); ("current_runtime_bytes", U64); ("peak_runtime_bytes", U64);
  ("current_console_bytes", U64); ("peak_console_bytes", U64); ("current_gui_bytes", U64);
  ("peak_gui_bytes", U64); ("active_instances", U32); ("active_service_instances", U32);
  ("active_console_instances", U32); ("active_gui_instances", U32); ("runtime_payloads", U32);
  ("process_payloads", U32); ("environment_payloads", U32); ("console_payloads", U32);
  ("console_output_payloads", U32); ("gui_payloads", U32); ("gui_command_payloads", U32);
  ("gui_raster_payloads", U32); ("allocation_attempts", U64); ("payload_allocations", U64);
  ("payload_releases", U64); ("allocation_failures", U64); ("transaction_rollbacks", U64);
  ("owner_mismatches", U64); ("header_errors", U64); ("free_failures", U64);
  ("quarantined_payloads", U64); ("quarantined_bytes", U64); ("current_gui_frame_bytes", U64);
  ("peak_gui_frame_bytes", U64); ("current_gui_frame_commands", U64);
  ("peak_gui_frame_commands", U64); ("current_gui_frame_nodes", U64);
  ("peak_gui_frame_nodes", U64); ("gui_frame_commits", U64); ("gui_frame_cancels", U64);
  ("gui_frame_oom_failures", U64); ("gui_frame_snapshot_reads", U64)].

Definition R4M0Header : ctype := Struct [
  ("magic", U32); ("version", U16); ("arch", U16); ("kind", U16); ("header_size", U16);
  ("flags", U32); ("section_table_offset", U32); ("section_count", U32);
  ("import_table_offset", U32); ("import_count", U32); ("export_table_offset", U32);
  ("export_count", U32); ("relocation_table_offset", U32); ("relocation_count", U32);
  ("entry_table_offset", U32); ("entry_count", U32); ("meta_offset", U32); ("meta_size", U32)].

Definition R4M0Section : ctype := Struct [
  ("name", Array U8 8); ("flags", U32); ("file_offset", U32); ("file_size", U32);
  ("memory_size", U32); ("alignment", U32); ("reserved", U32)].

Definition R4M0Entry : ctype := Struct [
  ("kind", U32); ("section_index", U32); ("section_offset", U32); ("flags", U32)].

Definition R4M0Import : ctype := Struct [
  ("module_name_offset", U32); ("symbol_name_offset", U32); ("min_version", U32); ("flags", U32)].

Definition R4M0Export : ctype := Struct [
  ("name_offset", U32); ("section_index", U32); ("section_offset", U32); ("version", U32)].

Definition R4M0Relocation : ctype := Struct [
  ("kind", U32); ("patch_section_index", U32); ("patch_offset", U32);
  ("target_section_or_import_index", U32); ("target_offset", U32); ("addend", U32)].

(** ** The static assertions on them *)

Definition R4XStartContext_asserts : layout_asserts := LayoutAsserts R4XStartContext 128 [
  ("magic", 0); ("abi_major", 4); ("abi_minor", 6); ("size", 8); ("flags", 12);
  ("instance_id", 16); ("app_class", 24); ("reserved0", 28); ("program_path", 32); ("args", 40);
  ("args_len", 48); ("imports", 56); ("import_count", 64); ("reserved1", 68);
  ("reserved_memory0", 72); ("reserved_memory1", 80); ("exit", 88); ("should_close", 96);
  ("yield", 104); ("reserved_runtime", 112); ("reserved2", 120)].

Definition R4XStartImport_asserts : layout_asserts := LayoutAsserts R4XStartImport 40 [
  ("group_id", 0); ("min_version", 4); ("resolved_version", 8); ("flags", 12); ("module_name", 16);
  ("symbol_name", 24); ("table", 32)].

Definition R4LInterfaceHeader_asserts : layout_asserts := LayoutAsserts R4LInterfaceHeader 32 [
  ("magic", 0); ("header_version", 4); ("flags", 6); ("size", 8); ("abi_major", 12);
  ("abi_minor", 14); ("interface_id_lo", 16); ("interface_id_hi", 24)].

Definition R4XStartR4Sys_asserts : layout_asserts := LayoutAsserts R4XStartR4Sys 1264 [
  ("write", 16); ("putc", 24); ("sleep_ticks", 32); ("ticks", 40); ("env_get", 48);
  ("dir_entry", 56); ("program_should_close", 64); ("program_class", 72); ("program_instance", 80);
  ("service_status", 88); ("service_open", 96); ("service_close", 104); ("service_call", 112);
  ("service_endpoint_register", 120); ("service_endpoint_unregister", 128);
  ("service_endpoint_poll", 136); ("service_endpoint_recv", 144); ("service_endpoint_reply", 152);
  ("service_detail_by_name", 160); ("service_start", 168); ("service_stop", 176);
  ("service_restart", 184); ("service_install", 192); ("service_remove", 200); ("reserved0", 208);
  ("reserved1", 216); ("vm_reserve", 224); ("vm_commit", 232); ("vm_decommit", 240);
  ("vm_release", 248); ("vm_query", 256); ("thread_create", 264); ("thread_exit", 272);
  ("thread_join", 280); ("thread_current", 288); ("thread_status", 296); ("io_file_read", 304);
  ("io_file_read_at", 312); ("io_file_write", 320); ("io_file_append", 328);
  ("io_file_stream_begin", 336); ("io_file_stream_write", 344); ("io_file_stream_finish", 352);
  ("io_file_stream_abort", 360); ("io_service_call", 368); ("io_status", 376); ("io_wait", 384);
  ("io_close", 392); ("task_yield", 400); ("reserved_shell_run", 408); ("system_halt", 416);
  ("system_reboot", 424); ("system_poweroff", 432); ("time_state", 440); ("time_set_state", 448);
  ("time_seconds_since_midnight", 456); ("dir_list", 464); ("dir_create", 472);
  ("dir_delete", 480); ("drive_info", 488); ("file_info", 496); ("file_delete", 504);
  ("file_rename", 512); ("file_copy", 520); ("file_move", 528); ("file_read", 536);
  ("file_write", 544); ("file_read_at", 552); ("file_append", 560); ("file_stream_begin", 568);
  ("file_stream_write", 576); ("file_stream_finish", 584); ("file_stream_abort", 592);
  ("env_set", 600); ("registry_key_info", 608); ("registry_enum_key", 616);
  ("registry_enum_value", 624); ("registry_get_value", 632); ("registry_set_value", 640);
  ("registry_delete_value", 648); ("service_info", 656); ("service_detail", 664);
  ("service_set_start_mode", 672); ("service_endpoint_wait", 680); ("program_run", 688);
  ("program_launch", 696); ("program_spawn", 704); ("program_kill", 712); ("program_status", 720);
  ("program_request_close", 728); ("program_reap_instance", 736); ("boot_log_info", 744);
  ("boot_log_read", 752); ("program_spawn_handle", 760); ("program_open_handle", 768);
  ("program_handle_status", 776); ("program_handle_request_close", 784);
  ("program_handle_kill", 792); ("program_handle_wait", 800); ("program_handle_reap", 808);
  ("program_completion_read", 816); ("program_inventory_begin", 824);
  ("program_inventory_programs", 832); ("program_inventory_tasks", 840);
  ("program_inventory_threads", 848); ("thread_create_handle", 856); ("thread_handle_join", 864);
  ("thread_handle_status", 872); ("file_replace_atomic", 880); ("file_delete_if_match", 888);
  ("file_update_atomic_checked", 896); ("path_names_equal_collated", 904);
  ("file_update_cleanup_checked", 912); ("file_stream_declare_publish", 920);
  ("module_resource_stat", 928); ("module_resource_read", 936); ("program_module_path", 944);
  ("program_module_running", 952); ("monotonic_clock", 960); ("boot_ready", 968);
  ("registry_snapshot_begin", 976); ("registry_snapshot_page", 984);
  ("registry_batch_mutate", 992); ("io_file_write_at", 1000); ("io_file_info", 1008);
  ("io_file_lock", 1016); ("storage_inventory", 1024); ("storage_device", 1032);
  ("storage_partition", 1040); ("storage_volume", 1048); ("storage_claim_begin", 1056);
  ("storage_claim_end", 1064); ("storage_read", 1072); ("storage_claim_read", 1080);
  ("storage_claim_write", 1088); ("storage_claim_flush", 1096); ("storage_rescan", 1104);
  ("storage_mount", 1112); ("storage_unmount", 1120); ("storage_use_begin", 1128);
  ("storage_use_end", 1136); ("directory_change_begin", 1144); ("directory_change_poll", 1152);
  ("file_copy_buffered", 1160); ("notification_create", 1168); ("notification_query", 1176);
  ("notification_notify", 1184); ("notification_wait", 1192); ("notification_close", 1200);
  ("program_local_get", 1208); ("program_local_publish", 1216); ("thread_current_handle", 1224);
  ("cpu_capacity", 1232); ("program_exit", 1240); ("platform_input_snapshot", 1248);
  ("directory_next", 1256)].

Definition R4XStartR4Desk_asserts : layout_asserts := LayoutAsserts R4XStartR4Desk 488 [
  ("read_key", 16); ("mouse_state", 24); ("mouse_show", 32); ("mouse_hide", 40);
  ("keyboard_layout_current", 48); ("keyboard_layout_at", 56); ("keyboard_layout_set", 64);
  ("program_set_window", 72); ("program_set_console_host", 80);
  ("program_request_host_launch", 88); ("program_take_host_launch", 96);
  ("program_window_id", 104); ("gui_window_info", 112); ("gui_set_window_info", 120);
  ("gui_poll_event", 128); ("gui_push_event", 136); ("gui_set_text", 144); ("gui_text", 152);
  ("gui_revision", 160); ("gui_command", 168); ("gui_set_title", 176); ("gui_title", 184);
  ("gui_set_min_size", 192); ("gui_min_size", 200); ("console_output", 208);
  ("console_revision", 216); ("console_state", 224); ("console_set_metrics", 232);
  ("console_push_key", 240); ("console_write", 248); ("console_read", 256);
  ("clipboard_write", 264); ("clipboard_read", 272); ("clipboard_revision", 280);
  ("clipboard_info", 288); ("clipboard_clear", 296); ("read_key_codepoint", 304);
  ("reserved1", 312); ("remote_frame_info", 320); ("remote_frame_read", 328);
  ("remote_frame_wait", 336); ("remote_frame_publish", 344); ("remote_input_push", 352);
  ("remote_input_poll", 360); ("remote_input_status", 368); ("desktop_activity_wait", 376);
  ("remote_frame_map", 384); ("program_current_console_host", 392);
  ("program_request_desktop", 400); ("program_spawn_with_console_host", 408);
  ("program_spawn_with_console_host_handle", 416); ("program_set_window_handle", 424);
  ("console_push_input", 432); ("remote_frame_acquire", 440); ("remote_frame_release", 448);
  ("remote_frame_consumers", 456); ("remote_frame_publish_regions", 464);
  ("console_input_wait", 472); ("physical_key_poll", 480)].

Definition R4XStartR4Draw_asserts : layout_asserts := LayoutAsserts R4XStartR4Draw 408 [
  ("screen_width", 16); ("screen_height", 24); ("clear", 32); ("rect", 40); ("text", 48);
  ("display_revision", 56); ("display_begin_frame", 64); ("display_begin_frame_rect", 72);
  ("display_present", 80); ("display_blit_xrgb32", 88); ("gui_clear", 96); ("gui_rect", 104);
  ("gui_draw_text", 112); ("gui_draw_text_ex", 120); ("gui_blit", 128); ("gui_raster_read", 136);
  ("gui_present", 144); ("font_count", 152); ("font_info", 160); ("font_measure", 168);
  ("gui_set_font", 176); ("gui_font", 184); ("text_font", 192); ("font_reload", 200);
  ("font_glyph_row", 208); ("gui_blend_alpha8", 216); ("gui_frame_begin", 224);
  ("gui_frame_append", 232); ("gui_frame_commit", 240); ("gui_frame_cancel", 248);
  ("gui_frame_info", 256); ("gui_frame_read", 264); ("display_blit_xrgb32_stride", 272);
  ("display_present_regions", 280); ("display_present_capabilities", 288);
  ("display_present_completion", 296); ("gui_frame_begin_damage", 304);
  ("gui_frame_generation_info", 312); ("gui_frame_generation_read", 320);
  ("font_glyph_bitmap", 328); ("font_revision", 336); ("gui_frame_begin_replace", 344);
  ("gui_frame_stream_info", 352); ("gui_shared_raster_create", 360);
  ("gui_shared_raster_destroy", 368); ("gui_shared_raster_map_write", 376);
  ("gui_shared_raster_publish", 384); ("gui_shared_raster_acquire", 392);
  ("gui_shared_raster_release", 400)].

Definition R4XStartR4Net_asserts : layout_asserts := LayoutAsserts R4XStartR4Net 296 [
  ("tcp_connect", 16); ("tcp_write", 24); ("tcp_read", 32); ("tcp_close", 40); ("tcp_summary", 48);
  ("tcp_connection", 56); ("tcp_echo_listen_once", 64); ("tcp_accept_read_once", 72);
  ("net_ipv4_send", 80); ("net_ipv4_recv", 88); ("net_config_get", 96); ("net_config_set", 104);
  ("net_dns_resolve", 112); ("net_dns_resolve_server", 120); ("net_dhcp_acquire", 128);
  ("net_dhcp_renew", 136); ("net_dhcp_release", 144); ("net_dhcp_status", 152);
  ("net_detail_get", 160); ("net_diag_run", 168); ("ipc_open", 176); ("ipc_send", 184);
  ("ipc_recv", 192); ("ipc_poll", 200); ("ipc_close", 208); ("ipc_summary", 216);
  ("ipc_channel", 224); ("serial_link_status", 232); ("serial_link_poll", 240);
  ("serial_link_send_message", 248); ("serial_link_host_test", 256); ("serial_link_inbox", 264);
  ("net_service_request", 272); ("ipc_performance", 280); ("tcp_performance", 288)].

Definition R4XStartR4Audio_asserts : layout_asserts := LayoutAsserts R4XStartR4Audio 200 [
  ("audio_open_stream", 16); ("audio_write", 24); ("audio_close", 32); ("audio_set_volume", 40);
  ("sid_acquire", 48); ("sid_write_register", 56); ("sid_release", 64); ("sid_load_data", 72);
  ("sid_init", 80); ("sid_play_frame", 88); ("sid_stop", 96); ("sid_model_name", 104);
  ("midi_open_synth", 112); ("midi_send", 120); ("midi_close", 128); ("opl3_write_register", 136);
  ("opl3_reset", 144); ("opl3_render_block", 152); ("opl3_stop", 160); ("reserved0", 168);
  ("reserved1", 176); ("audio_output_info", 184); ("audio_select_output", 192)].

Definition R4XStartR4Dev_asserts : layout_asserts := LayoutAsserts R4XStartR4Dev 352 [
  ("device_inventory_summary", 16); ("device_inventory_record", 24); ("memory_summary", 32);
  ("memory_block_count", 40); ("memory_block", 48); ("memory_pressure_snapshot", 56);
  ("memory_reclaim_probe", 64); ("memory_backing_store_probe", 72);
  ("memory_backing_store_slot_probe", 80); ("memory_pager_gate_probe", 88);
  ("memory_page_io_probe", 96); ("memory_vm_page_state_probe", 104);
  ("memory_vm_reserve_probe", 112); ("paging_summary", 120); ("performance_summary", 128);
  ("performance_task", 136); ("performance_storage", 144); ("performance_boot_phase", 152);
  ("protocol_status", 160); ("protocol_dispatch", 168); ("display_summary", 176);
  ("hardware_summary", 184); ("boot_info_summary", 192); ("boot_info_memory_count", 200);
  ("boot_info_memory_entry", 208); ("reserved0", 216); ("reserved1", 224);
  ("program_instance_storage_summary", 232); ("program_instance_storage_self_test", 240);
  ("program_registry_summary", 248); ("program_registry_self_test", 256);
  ("program_registry_summary_v2", 264); ("program_registry_self_test_v2", 272);
  ("execution_inventory_summary", 280); ("program_instance_storage_summary_v2", 288);
  ("kernel_version", 296); ("performance_boot_phase_clock", 304); ("performance_irq_timing", 312);
  ("performance_boot_summary", 320); ("performance_driver_work", 328);
  ("performance_pci_inventory", 336); ("performance_input", 344)].

Definition R4ProgramVmRegionInfo_asserts : layout_asserts := LayoutAsserts R4ProgramVmRegionInfo 96 [
  ("id", 0); ("status", 4); ("owner", 5); ("kind", 6); ("window", 7); ("owner_id", 8);
  ("base", 16); ("len", 24); ("committed_bytes", 32); ("guard_base", 40); ("guard_len", 48);
  ("flags", 56); ("resident_bytes", 64); ("peak_resident_bytes", 72); ("fault_count", 80);
  ("failed_faults", 88)].

Definition R4ProgramJoinHandle_asserts : layout_asserts := LayoutAsserts R4ProgramJoinHandle 32 [
  ("thread_id", 0); ("instance_id", 4); ("thread_generation", 8); ("instance_generation", 16);
  ("reserved", 24)].

Definition R4ProgramProcessHandle_asserts : layout_asserts := LayoutAsserts R4ProgramProcessHandle 16 [
  ("instance_id", 0); ("reserved", 4); ("generation", 8)].

Definition R4PhysicalKeyEvent_asserts : layout_asserts := LayoutAsserts R4PhysicalKeyEvent 40 [
  ("magic", 0); ("version", 4); ("size", 6); ("kind", 8); ("key", 12); ("modifiers", 16);
  ("flags", 20); ("sequence", 24); ("tick", 32)].

Definition R4DisplayPresentCapabilities_asserts : layout_asserts := LayoutAsserts R4DisplayPresentCapabilities 80 [
  ("version", 0); ("size", 2); ("flags", 4); ("formats", 8); ("max_regions", 12);
  ("tile_width", 16); ("tile_height", 20); ("backend_kind", 24); ("reserved0", 28);
  ("backend_name", 32); ("fallback_name", 56)].

Definition R4DisplayPresentCompletion_asserts : layout_asserts := LayoutAsserts R4DisplayPresentCompletion 32 [
  ("version", 0); ("size", 2); ("flags", 4); ("fence", 8); ("completed_fence", 16); ("result", 24);
  ("reserved0", 28)].

Definition R4GuiFrameInfo_asserts : layout_asserts := LayoutAsserts R4GuiFrameInfo 176 [
  ("version", 0); ("size", 4); ("state", 8); ("flags", 12); ("owner", 16);
  ("committed_generation", 32); ("building_generation", 40); ("committed_command_count", 48);
  ("committed_resource_bytes", 56); ("building_command_count", 64);
  ("building_resource_bytes", 72); ("current_frame_bytes", 80); ("peak_frame_bytes", 88);
  ("commit_count", 96); ("cancel_count", 104); ("oom_count", 112); ("snapshot_read_count", 120);
  ("last_error", 128); ("command_version", 132); ("command_size", 136); ("reserved0", 140);
  ("reserved1", 144); ("reserved2", 152); ("reserved3", 160); ("reserved4", 168)].

Definition R4GuiFrameGenerationInfo_asserts : layout_asserts := LayoutAsserts R4GuiFrameGenerationInfo 144 [
  ("version", 0); ("size", 4); ("flags", 8); ("damage_count", 12); ("owner", 16);
  ("generation", 32); ("base_generation", 40); ("command_count", 48); ("resource_bytes", 56);
  ("total_command_count", 64); ("total_resource_bytes", 72); ("chain_depth", 80);
  ("command_version", 84); ("command_size", 88); ("region_size", 92); ("delta_commit_count", 96);
  ("full_commit_count", 104); ("indexed8_command_count", 112); ("indexed8_resource_bytes", 120);
  ("avoided_clone_bytes", 128); ("generation_read_count", 136)].

Definition R4GuiFrameStreamInfo_asserts : layout_asserts := LayoutAsserts R4GuiFrameStreamInfo 176 [
  ("version", 0); ("size", 4); ("flags", 8); ("live_generation_count", 12); ("owner", 16);
  ("committed_generation", 32); ("replacement_commit_count", 40);
  ("superseded_generation_count", 48); ("coalesced_generation_count", 56);
  ("reader_retired_generation_count", 64); ("xrgb32_nearest_command_count", 72);
  ("xrgb32_nearest_resource_bytes", 80); ("current_frame_bytes", 88); ("peak_frame_bytes", 96);
  ("reserved0", 104); ("shared_publish_count", 112); ("shared_acquire_count", 120);
  ("shared_release_count", 128); ("shared_backpressure_count", 136);
  ("shared_published_bytes", 144); ("shared_frame_bytes_avoided", 152);
  ("shared_acquired_bytes", 160); ("shared_live_bytes", 168)].

Definition R4StorageDeviceRef_asserts : layout_asserts := LayoutAsserts R4StorageDeviceRef 16 [
  ("slot", 0); ("reserved", 4); ("generation", 8)].

Definition R4StorageVolumeRef_asserts : layout_asserts := LayoutAsserts R4StorageVolumeRef 16 [
  ("slot", 0); ("reserved", 4); ("generation", 8)].

Definition R4StorageTarget_asserts : layout_asserts := LayoutAsserts R4StorageTarget 72 [
  ("version", 0); ("size", 4); ("device", 8); ("layout_generation", 24); ("first_lba", 32);
  ("sector_count", 40); ("partition_number", 48); ("kind", 52); ("partition_guid", 56)].

Definition R4StorageInventory_asserts : layout_asserts := LayoutAsserts R4StorageInventory 32 [
  ("version", 0); ("size", 4); ("generation", 8); ("device_slots", 16); ("volume_slots", 20);
  ("flags", 24); ("reserved", 28)].

Definition R4StorageDeviceInfo_asserts : layout_asserts := LayoutAsserts R4StorageDeviceInfo 288 [
  ("version", 0); ("size", 4); ("reference", 8); ("layout_generation", 24); ("sector_count", 32);
  ("disk_guid", 40); ("first_usable", 56); ("last_usable", 64); ("bus", 72); ("flags", 76);
  ("sector_bytes", 80); ("partition_slots", 84); ("last_error", 88); ("reserved", 92);
  ("model", 96); ("name", 160); ("driver", 192); ("reason", 224)].

Definition R4StoragePartitionInfo_asserts : layout_asserts := LayoutAsserts R4StoragePartitionInfo 192 [
  ("version", 0); ("size", 4); ("target", 8); ("type_guid", 80); ("attributes", 96);
  ("filesystem", 104); ("flags", 108); ("last_error", 112); ("mbr_type", 116); ("name", 120)].

Definition R4StorageVolumeInfo_asserts : layout_asserts := LayoutAsserts R4StorageVolumeInfo 112 [
  ("version", 0); ("size", 4); ("reference", 8); ("target", 24); ("letter", 96);
  ("filesystem", 100); ("role", 104); ("flags", 108)].

Definition R4RegistryBatchOperation_asserts : layout_asserts := LayoutAsserts R4RegistryBatchOperation 32 [
  ("operation", 0); ("value_type", 2); ("key_path_offset", 4); ("key_path_len", 8);
  ("value_name_offset", 12); ("value_name_len", 16); ("data_offset", 20); ("data_len", 24);
  ("reserved0", 28)].

Definition R4RegistryBatchResult_asserts : layout_asserts := LayoutAsserts R4RegistryBatchResult 40 [
  ("version", 0); ("size", 4); ("generation_before", 8); ("generation_after", 16);
  ("operation_count", 24); ("failed_index", 28); ("status", 32); ("reserved0", 36)].

Definition R4FileInfo_asserts : layout_asserts := LayoutAsserts R4FileInfo 96 [
  ("exists", 0); ("is_dir", 1); ("attr", 2); ("drive", 3); ("size", 8); ("first_cluster", 16);
  ("created_time", 20); ("created_date", 22); ("access_date", 24); ("modified_time", 26);
  ("modified_date", 28); ("reserved", 30); ("name", 32)].

Definition R4DirectoryChangeCursor_asserts : layout_asserts := LayoutAsserts R4DirectoryChangeCursor 40 [
  ("version", 0); ("size", 4); ("sequence", 8); ("node", 16); ("mount_generation", 24);
  ("mount_slot", 32); ("reserved", 36)].

Definition R4DirectoryScanCursor_asserts : layout_asserts := LayoutAsserts R4DirectoryScanCursor 1088 [
  ("version", 0); ("size", 4); ("change", 8); ("owner_id", 48); ("owner_kind", 52);
  ("owner_generation", 56); ("backend", 64)].

Definition R4FileCopyProgress_asserts : layout_asserts := LayoutAsserts R4FileCopyProgress 32 [
  ("version", 0); ("size", 4); ("bytes", 8); ("source_size", 16); ("chunks", 24);
  ("max_chunk", 28)].

Definition R4RegistryValueInfo_asserts : layout_asserts := LayoutAsserts R4RegistryValueInfo 72 [
  ("value_type", 0); ("reserved", 2); ("data_len", 4); ("name", 8)].

Definition R4TextView_asserts : layout_asserts := LayoutAsserts R4TextView 16 [
  ("ptr", 0); ("len", 8); ("reserved", 12)].

Definition R4ServiceInfo_asserts : layout_asserts := LayoutAsserts R4ServiceInfo 216 [
  ("handle", 0); ("state", 4); ("start_mode", 8); ("flags", 12); ("instance_id", 16);
  ("exit_code", 20); ("restart_count", 24); ("reserved0", 28); ("start_tick", 32);
  ("uptime_ticks", 40); ("requests", 48); ("responses", 56); ("drops", 64); ("queue_depth", 72);
  ("queue_used", 76); ("queue_high_water", 80); ("active_workers", 84);
  ("max_active_workers", 88); ("open_handles", 92); ("busy_rejections", 96); ("timeouts", 104);
  ("cancellations", 112); ("name", 120); ("last_error", 152)].

Definition R4ServiceMessageHeader_asserts : layout_asserts := LayoutAsserts R4ServiceMessageHeader 28 [
  ("magic", 0); ("version", 4); ("op", 6); ("request_id", 8); ("client_id", 12); ("flags", 16);
  ("payload_len", 20); ("reserved0", 22); ("status", 24)].

Definition R4TimeState_asserts : layout_asserts := LayoutAsserts R4TimeState 32 [
  ("valid", 0); ("century_source", 1); ("weekday", 2); ("reserved0", 3); ("year", 4);
  ("month", 6); ("day", 7); ("hour", 8); ("minute", 9); ("second", 10); ("reserved1", 11);
  ("seconds_since_midnight", 12); ("monotonic_ticks", 16); ("monotonic_hz", 24);
  ("monotonic_backend", 28)].

Definition R4GuiEvent_asserts : layout_asserts := LayoutAsserts R4GuiEvent 40 [
  ("kind", 0); ("window_id", 4); ("x", 8); ("y", 12); ("key", 16); ("buttons", 20);
  ("modifiers", 24); ("tick", 32)].

Definition R4GuiWindowInfo_asserts : layout_asserts := LayoutAsserts R4GuiWindowInfo 40 [
  ("window_id", 0); ("frame_x", 4); ("frame_y", 8); ("frame_w", 12); ("frame_h", 16);
  ("client_x", 20); ("client_y", 24); ("client_w", 28); ("client_h", 32); ("flags", 36)].

Definition R4ConsoleState_asserts : layout_asserts := LayoutAsserts R4ConsoleState 64 [
  ("fg", 0); ("bg", 4); ("clear_count", 8); ("cursor_x", 12); ("cursor_y", 16);
  ("cursor_visible", 20); ("reserved", 21); ("cols", 24); ("rows", 28); ("stdin_pending", 32);
  ("stdin_bytes", 36); ("stdout_bytes", 40); ("stderr_bytes", 44); ("output_capacity", 48);
  ("output_len", 52); ("scrollback_lines", 56); ("output_dropped_bytes", 60)].

Definition R4ProgramProcessCompletion_asserts : layout_asserts := LayoutAsserts R4ProgramProcessCompletion 128 [
  ("handle", 0); ("sequence", 16); ("start_tick", 24); ("finish_tick", 32); ("exit_code", 40);
  ("task_id", 44); ("output_revision", 48); ("output_length", 52); ("flags", 56);
  ("app_class", 60); ("role", 61); ("exit_reason", 62); ("reserved0", 63); ("console_state", 64)].

Definition R4ProgramIoInfo_asserts : layout_asserts := LayoutAsserts R4ProgramIoInfo 80 [
  ("version", 0); ("size", 4); ("request_id", 8); ("kind", 12); ("state", 16); ("flags", 20);
  ("status", 24); ("result", 28); ("requested_bytes", 32); ("processed_bytes", 40);
  ("submitted_tick", 48); ("completed_tick", 56); ("owner_instance", 64); ("task_id", 68);
  ("reserved0", 72)].

Definition R4AudioServiceMasterRequest_asserts : layout_asserts := LayoutAsserts R4AudioServiceMasterRequest 32 [
  ("magic", 0); ("version", 4); ("size", 6); ("flags", 8); ("fixed_volume", 12);
  ("expected_revision", 16); ("reserved0", 24)].

Definition R4AudioServiceMasterState_asserts : layout_asserts := LayoutAsserts R4AudioServiceMasterState 128 [
  ("magic", 0); ("version", 4); ("size", 6); ("flags", 8); ("service_flags", 12);
  ("master_revision", 16); ("service_epoch", 24); ("selected_volume_fixed", 32);
  ("effective_volume_fixed", 36); ("last_audible_volume_fixed", 40); ("reserved0", 44);
  ("persist_writes", 48); ("persist_failures", 56); ("master_changes", 64); ("config_loads", 72);
  ("reserved1", 80)].

Definition R4TrayServiceRequest_asserts : layout_asserts := LayoutAsserts R4TrayServiceRequest 1184 [
  ("magic", 0); ("version", 4); ("size", 6); ("owner", 8); ("item_id", 24); ("item_revision", 32);
  ("item_flags", 40); ("status_flags", 44); ("after_sequence", 48); ("deadline_tick", 56);
  ("tooltip_length", 64); ("icon_width", 66); ("icon_height", 68); ("icon_format", 70);
  ("tooltip", 72); ("icon", 136); ("reserved0", 1160)].

Definition R4TrayEvent_asserts : layout_asserts := LayoutAsserts R4TrayEvent 80 [
  ("magic", 0); ("version", 4); ("size", 6); ("sequence", 8); ("owner", 16); ("item_id", 32);
  ("item_revision", 40); ("kind", 48); ("flags", 50); ("wheel_delta", 52); ("x", 56); ("y", 60);
  ("tick", 64); ("dropped_before", 72); ("reserved0", 76)].

Definition R4TrayServiceResponse_asserts : layout_asserts := LayoutAsserts R4TrayServiceResponse 192 [
  ("magic", 0); ("version", 4); ("size", 6); ("result", 8); ("flags", 12); ("desktop_epoch", 16);
  ("registry_revision", 24); ("owner", 32); ("item_id", 48); ("item_revision", 56);
  ("item_flags", 64); ("status_flags", 68); ("registered_count", 72); ("visible_count", 74);
  ("capacity", 76); ("queued_events", 78); ("dropped_events", 80); ("reserved0", 84);
  ("event", 88); ("reserved1", 168)].

Definition R4ProgramInstanceStorageSummary_asserts : layout_asserts := LayoutAsserts R4ProgramInstanceStorageSummary 336 [
  ("version", 0); ("size", 4); ("core_bytes_per_instance", 8);
  ("registry_reserved_core_bytes", 16); ("live_core_bytes", 24); ("active_instance_bytes", 32);
  ("peak_active_instance_bytes", 40); ("reserved_instance_bytes", 48);
  ("peak_reserved_instance_bytes", 56); ("current_payload_bytes", 64); ("peak_payload_bytes", 72);
  ("current_runtime_bytes", 80); ("peak_runtime_bytes", 88); ("current_console_bytes", 96);
  ("peak_console_bytes", 104); ("current_gui_bytes", 112); ("peak_gui_bytes", 120);
  ("active_instances", 128); ("active_service_instances", 132); ("active_console_instances", 136);
  ("active_gui_instances", 140); ("runtime_payloads", 144); ("process_payloads", 148);
  ("environment_payloads", 152); ("console_payloads", 156); ("console_output_payloads", 160);
  ("gui_payloads", 164); ("gui_command_payloads", 168); ("gui_raster_payloads", 172);
  ("allocation_attempts", 176); ("payload_allocations", 184); ("payload_releases", 192);
  ("allocation_failures", 200); ("transaction_rollbacks", 208); ("owner_mismatches", 216);
  ("header_errors", 224); ("free_failures", 232); ("quarantined_payloads", 240);
  ("quarantined_bytes", 248); ("current_gui_frame_bytes", 256); ("peak_gui_frame_bytes", 264);
  ("current_gui_frame_commands", 272); ("peak_gui_frame_commands", 280);
  ("current_gui_frame_nodes", 288); ("peak_gui_frame_nodes", 296); ("gui_frame_commits", 304);
  ("gui_frame_cancels", 312); ("gui_frame_oom_failures", 320); ("gui_frame_snapshot_reads", 328)].

Definition R4M0Header_asserts : layout_asserts := LayoutAsserts R4M0Header 64 [
  ("meta_offset", 56)].

Definition R4M0Section_asserts : layout_asserts := LayoutAsserts R4M0Section 32 [
  ("alignment", 24)].

Definition R4M0Entry_asserts : layout_asserts := LayoutAsserts R4M0Entry 16 [].

Definition R4M0Import_asserts : layout_asserts := LayoutAsserts R4M0Import 16 [].

Definition R4M0Export_asserts : layout_asserts := LayoutAsserts R4M0Export 16 [].

Definition R4M0Relocation_asserts : layout_asserts := LayoutAsserts R4M0Relocation 24 [
  ("addend", 20)].

Definition all_asserts : list layout_asserts := [
  R4XStartContext_asserts; R4XStartImport_asserts; R4LInterfaceHeader_asserts;
  R4XStartR4Sys_asserts; R4XStartR4Desk_asserts; R4XStartR4Draw_asserts;
  R4XStartR4Net_asserts; R4XStartR4Audio_asserts; R4XStartR4Dev_asserts;
  R4ProgramVmRegionInfo_asserts; R4ProgramJoinHandle_asserts; R4ProgramProcessHandle_asserts;
  R4PhysicalKeyEvent_asserts; R4DisplayPresentCapabilities_asserts; R4DisplayPresentCompletion_asserts;
  R4GuiFrameInfo_asserts; R4GuiFrameGenerationInfo_asserts; R4GuiFrameStreamInfo_asserts;
  R4StorageDeviceRef_asserts; R4StorageVolumeRef_asserts; R4StorageTarget_asserts;
  R4StorageInventory_asserts; R4StorageDeviceInfo_asserts; R4StoragePartitionInfo_asserts;
  R4StorageVolumeInfo_asserts; R4RegistryBatchOperation_asserts; R4RegistryBatchResult_asserts;
  R4FileInfo_asserts; R4DirectoryChangeCursor_asserts; R4DirectoryScanCursor_asserts;
  R4FileCopyProgress_asserts; R4RegistryValueInfo_asserts; R4TextView_asserts;
  R4ServiceInfo_asserts; R4ServiceMessageHeader_asserts; R4TimeState_asserts;
  R4GuiEvent_asserts; R4GuiWindowInfo_asserts;
  R4ConsoleState_asserts; R4ProgramProcessCompletion_asserts; R4ProgramIoInfo_asserts;
  R4AudioServiceMasterRequest_asserts; R4AudioServiceMasterState_asserts; R4TrayServiceRequest_asserts;
  R4TrayEvent_asserts; R4TrayServiceResponse_asserts;
  R4ProgramInstanceStorageSummary_asserts;
  R4M0Header_asserts; R4M0Section_asserts; R4M0Entry_asserts;
  R4M0Import_asserts; R4M0Export_asserts; R4M0Relocation_asserts].

(** ** The layout rules *)

(** Every scalar has a power-of-two size of at most 8, every array a length. *)
Fixpoint ctype_wf (t : ctype) : bool :=
  match t with
  | Scalar n => (n =? 1) || (n =? 2) || (n =? 4) || (n =? 8)
  | Array t n => ctype_wf t && (0 <? n)
  | Struct fs => forallb (λ f, ctype_wf (snd f)) fs
  end.

Definition pow2_8 (a : Z) : Prop := a = 1 ∨ a = 2 ∨ a = 4 ∨ a = 8.

Lemma round_up_spec x a : 0 < a → x ≤ round_up x a < x + a ∧ (a | round_up x a).
Proof.
  intros Ha. unfold round_up. pose proof (Z.div_mod (x + a - 1) a ltac:(lia)).
  pose proof (Z.mod_pos_bound (x + a - 1) a Ha). split; [nia|]. by exists ((x + a - 1) / a).
Qed.

Section ctype_ind.
Variable P : ctype → Prop.
Hypothesis Hscalar : ∀ n, P (Scalar n).
Hypothesis Harray : ∀ t n, P t → P (Array t n).
Hypothesis Hstruct : ∀ fs, Forall (λ f, P (snd f)) fs → P (Struct fs).

Fixpoint ctype_ind' (t : ctype) : P t :=
  match t with
  | Scalar n => Hscalar n
  | Array t n => Harray t n (ctype_ind' t)
  | Struct fs =>
      Hstruct fs ((fix go fs : Forall (λ f : string * ctype, P (snd f)) fs :=
        match fs with
        | [] => Forall_nil_2 _
        | f :: fs => Forall_cons_2 _ _ _ (ctype_ind' (snd f)) (go fs)
        end) fs)
  end.
End ctype_ind.

Lemma pow2_8_max a b : pow2_8 a → pow2_8 b → pow2_8 (a `max` b).
Proof. unfold pow2_8. lia. Qed.

Lemma pow2_8_divide a b : pow2_8 a → pow2_8 b → a ≤ b → (a | b).
Proof.
  intros Ha Hb Hle. exists (b / a). unfold pow2_8 in *. destruct_or!; subst; try lia; reflexivity.
Qed.

Lemma alignof_wf t : ctype_wf t = true → pow2_8 (alignof t).
Proof.
  induction t as [n|t n IH|fs IH] using ctype_ind'; simpl.
  - unfold pow2_8. rewrite !orb_true_iff, !Z.eqb_eq. lia.
  - intros [H _]%andb_true_iff. by apply IH.
  - induction IH as [|f fs Hf _ IH]; simpl; [by left|]. intros [H1 H2]%andb_true_iff.
    apply pow2_8_max; auto.
Qed.

Lemma sizeof_wf t : ctype_wf t = true → 0 ≤ sizeof t ∧ (alignof t | sizeof t).
Proof.
  induction t as [n|t n IH|fs IH] using ctype_ind'; simpl.
  - rewrite !orb_true_iff, !Z.eqb_eq. intros. split; [lia|apply Z.divide_refl].
  - intros [H Hn%Z.ltb_lt]%andb_true_iff. destruct (IH H) as [H1 H2]. split; [nia|]. by apply Z.divide_mul_l.
  - intros Hwf. pose proof (alignof_wf (Struct fs) Hwf) as Ha. simpl in Ha.
    set (a := foldr _ _ _) in *. assert (0 < a) by (unfold pow2_8 in Ha; lia).
    assert (∀ off, 0 ≤ off →
      0 ≤ foldl (λ off f, round_up off (alignof (snd f)) + sizeof (snd f)) off fs) as Hend.
    { clear -IH Hwf. induction IH as [|f fs Hf _ IH]; intros off Hoff; [done|]. simpl in *.
      apply andb_true_iff in Hwf as [H1 H2]. apply IH; [done|].
      pose proof (alignof_wf _ H1). destruct (round_up_spec off (alignof (snd f))); [unfold pow2_8 in *; lia|].
      destruct (Hf H1). lia. }
    specialize (Hend 0 ltac:(lia)). destruct (round_up_spec (foldl (λ off f, round_up off (alignof (snd f)) + sizeof (snd f)) 0 fs) a); [done|].
    split; [lia|done].
Qed.

(** What a layout promises of the fields placed from [off] on: they are aligned,
    in order, without overlap, and end by [stop]. *)
Fixpoint placed (off stop : Z) (l : list (string * (Z * ctype))) : Prop :=
  match l with
  | [] => off ≤ stop
  | (_, (o, t)) :: l => off ≤ o ∧ (alignof t | o) ∧ placed (o + sizeof t) stop l
  end.

Lemma place_placed off fs :
  forallb (λ f, ctype_wf (snd f)) fs = true →
  placed off (foldl (λ off f, round_up off (alignof (snd f)) + sizeof (snd f)) off fs) (place off fs).
Proof.
  revert off. induction fs as [|[n t] fs IH]; intros off; [simpl; lia|]. simpl.
  intros [H1 H2]%andb_true_iff. pose proof (alignof_wf t H1).
  destruct (round_up_spec off (alignof t)) as [? Hd]; [unfold pow2_8 in *; lia|].
  split_and!; [lia|done|by apply IH].
Qed.

Lemma placed_mono off stop stop' l : placed off stop l → stop ≤ stop' → placed off stop' l.
Proof.
  revert off. induction l as [|[n [o t]] l IH]; intros off; simpl; [lia|]. intros (? & ? & ?) ?. auto.
Qed.

Lemma struct_placed fs :
  ctype_wf (Struct fs) = true → placed 0 (sizeof (Struct fs)) (place 0 fs).
Proof.
  intros Hwf. pose proof (alignof_wf (Struct fs) Hwf) as Ha. simpl in *.
  eapply placed_mono; [by apply place_placed|].
  apply round_up_spec. unfold pow2_8 in Ha. lia.
Qed.

(** ** Checking a layout

    The header asserts the offsets in the order of the fields, so one walk over
    the placed fields checks them all. *)
Fixpoint distinct (l : list string) : bool :=
  match l with [] => true | x :: l => forallb (λ y, negb (String.eqb x y)) l && distinct l end.

Fixpoint walk (l : list (string * (Z * ctype))) (offs : list (string * Z)) : bool :=
  match offs, l with
  | [], _ => true
  | _ :: _, [] => false
  | (n, o) :: offs', (n', (o', _)) :: l => if String.eqb n' n then (o' =? o) && walk l offs' else walk l offs
  end.

Definition struct_ok (a : layout_asserts) : bool :=
  let l := place 0 (fields_of (la_struct a)) in
  (sizeof (la_struct a) =? la_size a) && ctype_wf (la_struct a) && distinct (map fst l) && walk l (la_offsets a).

Lemma distinct_assoc {A} n m (l : list (string * A)) x :
  forallb (λ y, negb (String.eqb m y)) (map fst l) = true → assoc n l = Some x → String.eqb m n = false.
Proof.
  induction l as [|[k a] l IH]; [done|]. cbn [map fst forallb assoc]. intros [Hk Hl]%andb_true_iff.
  destruct (String.eqb_spec k n) as [->|_]; [intros _; by apply negb_true_iff|by apply IH].
Qed.

Lemma walk_assoc l offs n o :
  distinct (map fst l) = true → walk l offs = true → In (n, o) offs → ∃ t, assoc n l = Some (o, t).
Proof.
  revert offs. induction l as [|[k [q t]] l IH]; intros [|[n' o'] offs] Hd Hw Hin; [done|done|done|].
  cbn [map fst distinct] in Hd. apply andb_true_iff in Hd as [Hk Hd]. cbn [walk assoc] in *.
  destruct (String.eqb_spec k n') as [->|Hne].
  - apply andb_true_iff in Hw as [->%Z.eqb_eq Hw]. destruct Hin as [[= -> ->]|Hin].
    + rewrite String.eqb_refl. by exists t.
    + destruct (IH _ Hd Hw Hin) as [t' Ha]. exists t'. by rewrite (distinct_assoc _ _ _ _ Hk Ha).
  - destruct (IH _ Hd Hw Hin) as [t' Ha]. exists t'. by rewrite (distinct_assoc _ _ _ _ Hk Ha).
Qed.

Lemma struct_ok_layouts l :
  forallb struct_ok l = true →
  Forall (λ a, asserts_hold a = true ∧ placed 0 (sizeof (la_struct a)) (place 0 (fields_of (la_struct a)))) l.
Proof.
  intros H. rewrite forallb_forall in H. apply List.Forall_forall. intros a Ha%H. unfold struct_ok in Ha.
  rewrite !andb_true_iff in Ha. destruct Ha as [[[H1 H2] H3] H4]. split.
  - unfold asserts_hold. rewrite H1. apply forallb_forall. intros [n o] Hin. unfold offsetof.
    destruct (walk_assoc _ _ _ _ H3 H4 Hin) as [t Ht]. cbn [fst snd]. rewrite Ht. apply Z.eqb_refl.
  - pose proof (sizeof_wf _ H2) as [H5 _]. destruct (la_struct a); [exact H5|exact H5|by apply struct_placed].
Qed.

End R4Abi.
