(* ===== verification/R4AbiReports.v ===== *)
(** * The structures the kernel reports with

    The other structures of abi_generated.h: what the inventories, the
    performance counters, the memory probes, the network, display, boot and
    hardware calls fill in for an application, and the resources of the
    graphical frames, each with the header's static assertions about it. With
    [R4Abi] they are all the structures of that header. *)

From S2P Require Import Prelude R4Abi.

Module R4AbiReports.
Import R4Abi.

(** ** The structures *)

Definition R4BootInfoSummary : ctype := Struct [
  ("flags", U32); ("memory_map_count", U32); ("max_memory_map_entries", U32); ("hhdm_offset", U64);
  ("framebuffer_address", U64); ("framebuffer_width", U64); ("framebuffer_height", U64);
  ("framebuffer_pitch", U64); ("framebuffer_bpp", U16); ("framebuffer_memory_model", U8);
  ("framebuffer_red_mask_size", U8); ("framebuffer_red_mask_shift", U8); ("framebuffer_green_mask_size", U8);
  ("framebuffer_green_mask_shift", U8); ("framebuffer_blue_mask_size", U8);
  ("framebuffer_blue_mask_shift", U8); ("edid_size", U64); ("edid_address", U64); ("rsdp_address", U64);
  ("bootloader_name", Array U8 32)].

Definition R4BootInfoMemoryEntry : ctype := Struct [
  ("base", U64); ("length", U64); ("kind", U8); ("reserved", Array U8 7)].

Definition R4Mouse : ctype := Struct [
  ("x", U32); ("y", U32); ("dx", U32); ("dy", U32); ("wheel", U32); ("buttons", U8); ("present", U8);
  ("reserved", U16); ("packets", U64)].

Definition R4ProgramStatus : ctype := Struct [
  ("foreground_running", U8); ("shell_running", U8); ("display_used", U8); ("instance_count", U8);
  ("last_exit_code", U32)].

Definition R4ProgramInstanceInfo : ctype := Struct [
  ("id", U32); ("task_id", U32); ("role", U8); ("app_class", U8); ("state", U8); ("flags", U8);
  ("exit_code", U32); ("window_id", U32); ("memory_profile", U8); ("reserved0", Array U8 3);
  ("memory_reserved_limit", U64); ("memory_committed_limit", U64); ("memory_resident_limit", U64);
  ("memory_reserved_bytes", U64); ("memory_committed_bytes", U64); ("memory_resident_bytes", U64);
  ("memory_peak_resident_bytes", U64); ("stack_reserved_bytes", U64); ("stack_committed_bytes", U64);
  ("memory_tag", Array U8 16)].

Definition R4ProgramThreadInfo : ctype := Struct [
  ("version", U32); ("size", U32); ("thread_id", U32); ("instance_id", U32); ("task_id", U32); ("state", U32);
  ("flags", U32); ("exit_code", U32); ("stack_base", U64); ("stack_reserved_bytes", U64);
  ("stack_committed_bytes", U64); ("stack_guard_base", U64); ("created_tick", U64); ("finished_tick", U64);
  ("join_count", U32); ("reserved0", U32)].

Definition R4ProgramMemorySummary : ctype := Struct [
  ("total_slots_used", U64); ("active_blocks", U64); ("released_blocks", U64); ("error_blocks", U64);
  ("physical_bytes", U64); ("virtual_bytes", U64); ("reserved_bytes", U64); ("committed_bytes", U64);
  ("free_physical_bytes", U64); ("largest_free_phys_base", U64); ("largest_free_phys_len", U64);
  ("largest_free_virtual_base", U64); ("largest_free_virtual_len", U64); ("app_system_reserve_frames", U64);
  ("app_available_frames", U64); ("by_kind", Array U64 14); ("by_owner", Array U64 8);
  ("by_status", Array U64 7); ("overflow", U32); ("reserved0", U32)].

Definition R4ProgramMemoryPressureSnapshot : ctype := Struct [
  ("version", U32); ("size", U32); ("flags", U32); ("pressure_level", U32); ("oom_policy_flags", U32);
  ("reserved0", U32); ("total_physical_bytes", U64); ("free_physical_bytes", U64);
  ("used_physical_bytes", U64); ("largest_free_physical_bytes", U64); ("app_system_reserve_bytes", U64);
  ("app_available_bytes", U64); ("virtual_reserved_bytes", U64); ("virtual_committed_bytes", U64);
  ("virtual_resident_bytes", U64); ("largest_free_virtual_bytes", U64); ("committed_nonresident_bytes", U64);
  ("commit_budget_bytes", U64); ("commit_headroom_bytes", U64); ("reclaimable_bytes", U64);
  ("dirty_bytes", U64); ("non_reclaimable_bytes", U64); ("fault_count", U64); ("failed_faults", U64);
  ("reserved1", Array U64 4)].

Definition R4ProgramMemoryReclaimProbe : ctype := Struct [
  ("version", U32); ("size", U32); ("reason", U32); ("requested_frames", U32); ("returned_frames", U32);
  ("reserved0", U32); ("returned_bytes", U64); ("dirty_drains", U64); ("failed_drains", U64);
  ("before_free_frames", U64); ("after_free_frames", U64); ("elapsed_ticks", U64); ("total_attempts", U64);
  ("total_successes", U64); ("total_failures", U64); ("fs_returned_frames", U32); ("vm_returned_frames", U32);
  ("vm_page_outs_lo", U32); ("vm_failures_lo", U32); ("fs_returned_bytes", U64); ("vm_returned_bytes", U64);
  ("vm_page_outs", U64); ("vm_failures", U64); ("reserved1", Array U64 4)].

Definition R4ProgramMemoryBackingStoreProbe : ctype := Struct [
  ("version", U32); ("size", U32); ("status", U32); ("flags", U32); ("blockers", U32); ("pager_enabled", U32);
  ("anonymous_paging_enabled", U32); ("cluster_bytes", U32); ("requested_bytes", U64);
  ("available_bytes", U64); ("file_size", U64); ("first_cluster", U32); ("reserved0", U32);
  ("total_probes", U64); ("total_ready", U64); ("total_failures", U64); ("reserved1", Array U64 4)].

Definition R4ProgramMemoryBackingStoreSlotProbe : ctype := Struct [
  ("version", U32); ("size", U32); ("status", U32); ("operation", U32); ("flags", U32); ("blockers", U32);
  ("slot_bytes", U32); ("max_ranges", U32); ("pager_enabled", U32); ("eviction_enabled", U32);
  ("page_in_enabled", U32); ("page_out_enabled", U32); ("reservation_id", U32); ("owner_kind", U32);
  ("owner_id", U32); ("region_id", U32); ("range_count", U32); ("reserved0", U32); ("capacity_slots", U64);
  ("requested_slots", U64); ("reserved_slots", U64); ("free_slots", U64); ("valid_slots", U64);
  ("dirty_slots", U64); ("error_slots", U64); ("first_slot", U64); ("slot_count", U64); ("generation", U64);
  ("total_probes", U64); ("total_reserves", U64); ("total_releases", U64); ("total_error_marks", U64);
  ("total_recoveries", U64); ("total_failures", U64); ("lifecycle_cleanup_count", U64);
  ("lifecycle_released_ranges", U64); ("lifecycle_released_slots", U64); ("reserved1", Array U64 1)].

Definition R4ProgramMemoryPagerGateProbe : ctype := Struct [
  ("version", U32); ("size", U32); ("status", U32); ("flags", U32); ("blockers", U32); ("region_id", U32);
  ("owner_id", U32); ("slot_bytes", U32); ("requested_bytes", U64); ("committed_bytes", U64);
  ("resident_bytes", U64); ("nonresident_bytes", U64); ("requested_slots", U64); ("prepared_slots", U64);
  ("capacity_slots", U64); ("free_before_slots", U64); ("free_after_slots", U64);
  ("reserved_before_slots", U64); ("reserved_after_slots", U64); ("slot_reservation_id", U32);
  ("rollback_completed", U32); ("commit_gate_enabled", U32); ("fault_gate_enabled", U32);
  ("pager_enabled", U32); ("eviction_enabled", U32); ("page_in_enabled", U32); ("page_out_enabled", U32);
  ("reserved0", Array U32 2); ("slot_generation", U64); ("fault_count", U64); ("failed_faults", U64);
  ("total_probes", U64); ("total_ready", U64); ("total_rollbacks", U64); ("total_failures", U64);
  ("reserved1", Array U64 4)].

Definition R4ProgramMemoryPageIoProbe : ctype := Struct [
  ("version", U32); ("size", U32); ("status", U32); ("operation", U32); ("flags", U32); ("blockers", U32);
  ("region_id", U32); ("reservation_id", U32); ("owner_kind", U32); ("owner_id", U32); ("slot_bytes", U32);
  ("io_bytes", U32); ("io_status", U32); ("page_count_lo", U32); ("region_offset", U64);
  ("committed_bytes", U64); ("resident_bytes", U64); ("slot_index", U64); ("page_count", U64);
  ("transfer_bytes", U64); ("expected_generation", U64); ("backing_slot", U64); ("backing_offset", U64);
  ("capacity_slots", U64); ("reserved_slots", U64); ("valid_slots", U64); ("dirty_slots", U64);
  ("error_slots", U64); ("pager_enabled", U32); ("eviction_enabled", U32); ("page_in_enabled", U32);
  ("page_out_enabled", U32); ("slot_generation", U64); ("total_prepares", U64); ("total_page_outs", U64);
  ("total_page_ins", U64); ("total_failures", U64); ("retry_limit", U32); ("backoff_ticks", U32);
  ("reserved1", Array U32 2); ("total_retry_attempts", U64); ("total_retryable_failures", U64);
  ("total_permanent_failures", U64); ("total_retry_limit_hits", U64); ("total_failed_page_outs", U64);
  ("total_failed_page_ins", U64); ("total_data_preserved_pages", U64); ("total_data_lost_pages", U64)].

Definition R4ProgramMemoryVmPageStateProbe : ctype := Struct [
  ("version", U32); ("size", U32); ("status", U32); ("operation", U32); ("flags", U32); ("blockers", U32);
  ("region_id", U32); ("page_size", U32); ("max_spans", U32); ("span_count", U32);
  ("slot_reservation_id", U32); ("page_count_lo", U32); ("region_offset", U64); ("page_count", U64);
  ("committed_pages", U64); ("resident_pages", U64); ("nonresident_pages", U64); ("dirty_pages", U64);
  ("clean_pages", U64); ("pinned_pages", U64); ("busy_pages", U64); ("error_pages", U64);
  ("slot_bound_pages", U64); ("slot_index", U64); ("slot_generation", U64); ("total_transitions", U64);
  ("dirty_marks", U64); ("clean_marks", U64); ("slot_binds", U64); ("slot_clears", U64);
  ("pinned_marks", U64); ("pinned_clears", U64); ("busy_marks", U64); ("busy_clears", U64);
  ("error_marks", U64); ("error_clears", U64); ("table_full_failures", U64); ("cleanup_pages", U64);
  ("reserved1", Array U64 4)].

Definition R4ProgramPerformanceSummary : ctype := Struct [
  ("version", U32); ("size", U32); ("flags", U32); ("missing_flags", U32); ("ticks", U64); ("tick_hz", U32);
  ("current_task_index", U32); ("task_max_count", U32); ("task_count", U32); ("task_ready", U32);
  ("task_running", U32); ("task_blocked", U32); ("task_dead", U32); ("task_workers", U32);
  ("scheduler_yields", U64); ("scheduler_sleeps", U64); ("scheduler_wakes", U64);
  ("scheduler_idle_waits", U64); ("boot_phase_count", U32); ("boot_current_phase", U32); ("reserved0", U32);
  ("boot_transition_count", U64); ("boot_total_ticks", U64); ("storage_device_count", U32);
  ("storage_queue_depth_total", U32); ("storage_queue_used_total", U32);
  ("storage_queue_high_water_total", U32); ("storage_busy_devices", U32); ("storage_failed_devices", U32);
  ("storage_read_ops", U64); ("storage_read_sectors", U64); ("storage_read_failures", U64);
  ("storage_write_ops", U64); ("storage_write_sectors", U64); ("storage_write_failures", U64);
  ("storage_flush_ops", U64); ("storage_flush_failures", U64); ("storage_busy_rejections", U64);
  ("storage_timeout_failures", U64); ("storage_completions", U64); ("storage_backend_recoveries", U64);
  ("storage_backend_recovery_failures", U64); ("storage_queued_requests", U64);
  ("storage_dequeued_requests", U64); ("storage_queue_full_waits", U64);
  ("storage_queue_full_rejections", U64); ("storage_completion_waits", U64);
  ("storage_completion_timeouts", U64); ("storage_completion_total_ticks", U64);
  ("storage_completion_max_ticks", U64); ("storage_completion_last_ticks", U64); ("fs_requests", U64);
  ("fs_completed", U64); ("fs_failed", U64); ("fs_read_requests", U64); ("fs_write_requests", U64);
  ("fs_metadata_requests", U64); ("fs_stream_requests", U64); ("fs_lock_acquires", U64);
  ("fs_lock_contention_waits", U64); ("fs_lock_timeouts", U64); ("fs_boot_bypass", U64);
  ("fs_total_ticks", U64); ("fs_max_ticks", U64); ("fs_last_ticks", U64); ("fs_active_kind", U32);
  ("fs_last_kind", U32); ("fs_active_drive", U32); ("fs_last_drive", U32); ("service_max_count", U32);
  ("services_used", U32); ("services_running", U32); ("service_endpoints", U32);
  ("service_request_pending", U32); ("service_response_pending", U32); ("service_queue_depth_total", U32);
  ("service_queue_used_total", U32); ("service_queue_high_water_total", U32); ("service_active_workers", U32);
  ("service_max_active_workers", U32); ("service_open_handles", U32); ("service_requests", U64);
  ("service_responses", U64); ("service_drops", U64); ("service_busy_rejections", U64);
  ("service_timeouts", U64); ("service_cancellations", U64); ("service_completion_waits", U64);
  ("service_completion_timeouts", U64); ("tcp_max_connections", U32); ("tcp_active_connections", U32);
  ("tcp_active_listeners", U32); ("tcp_buffer_size", U32); ("tcp_data_tx", U64); ("tcp_data_rx", U64);
  ("tcp_retransmits", U64); ("tcp_rx_drops", U64); ("tcp_timeouts", U64); ("tcp_checksum_errors", U64);
  ("display_present_count", U64); ("display_present_bytes_total", U64); ("display_last_present_bytes", U64);
  ("display_full_present_count", U64); ("display_partial_present_count", U64); ("audio_open_streams", U32);
  ("audio_registered_backends", U32); ("audio_active_backends", U32); ("audio_registered_synths", U32);
  ("audio_stream_writes", U64); ("audio_backend_ok", U64); ("audio_backend_fail", U64);
  ("audio_backend_underruns", U64); ("audio_backend_errors", U64); ("wait_object_waits", U64);
  ("wait_object_wakes", U64); ("wait_object_timeouts", U64); ("wait_object_cancellations", U64);
  ("wait_queue_waits", U64); ("wait_queue_wake_one", U64); ("wait_queue_wake_all", U64);
  ("wait_queue_timeouts", U64); ("wait_queue_cancellations", U64); ("wait_queue_drops", U64);
  ("lock_acquires", U64); ("lock_releases", U64); ("lock_recursive_acquires", U64);
  ("lock_contention_waits", U64); ("lock_contention_timeouts", U64); ("lock_order_violations", U64);
  ("lock_sleep_checks", U64); ("lock_sleep_under_lock", U64); ("lock_sleep_under_no_sleep_lock", U64);
  ("lock_unlock_mismatches", U64); ("lock_held_slots_used", U32); ("lock_current_depth", U32);
  ("lock_max_depth", U32); ("lock_tracking_drops", U32); ("preemption_supported", U32);
  ("preemption_enabled", U32); ("preemption_test_mode", U32); ("preemption_gate_mask", U32);
  ("preempt_disable_depth", U32); ("preempt_disable_max_depth", U32); ("reserved1", U32);
  ("preempt_disable_underflows", U64); ("preempt_disable_calls", U64); ("preempt_enable_calls", U64);
  ("preemption_simulation_ticks", U64); ("fpu_lazy_saves", U64); ("fpu_lazy_skips", U64);
  ("preemption_eligible_ticks", U64); ("preemption_deferred_disabled", U64);
  ("preemption_deferred_critical", U64); ("preemption_deferred_no_task", U64);
  ("preemption_deferred_no_ready", U64); ("preemption_switch_ticks", U64);
  ("long_running_task_warnings", U64); ("starvation_warnings", U64); ("fpu_state_supported", U32);
  ("fpu_state_enabled", U32); ("fpu_state_backend", U32); ("fpu_state_bytes", U32);
  ("fpu_state_storage_bytes", U32); ("fpu_task_state_count", U32); ("fpu_avx_supported", U32);
  ("fpu_avx_enabled", U32); ("fpu_avx2_supported", U32); ("fpu_avx2_enabled", U32); ("fpu_simd_abi", U32);
  ("fpu_xsave_required_bytes", U32); ("fpu_xcr0_mask", U64); ("fpu_save_count", U64);
  ("fpu_restore_count", U64); ("fpu_task_init_count", U64); ("fpu_task_state_bytes", U64);
  ("fs_cache_capacity", U32); ("fs_cache_sector_bytes", U32); ("fs_cache_entries_used", U32);
  ("fs_cache_dirty_entries", U32); ("fs_cache_reads", U64); ("fs_cache_hits", U64); ("fs_cache_misses", U64);
  ("fs_cache_fills", U64); ("fs_cache_evictions", U64); ("fs_cache_invalidations", U64);
  ("fs_cache_write_through_requests", U64); ("fs_cache_write_through_updates", U64);
  ("fs_cache_flushes", U64); ("fs_cache_read_errors", U64); ("fs_cache_write_errors", U64);
  ("fs_cache_writeback_waits", U64); ("fs_cache_writeback_errors", U64); ("fs_cache_dirty_bytes", U64);
  ("fs_cache_dirty_high_water_entries", U32); ("fs_cache_writeback_queue_depth", U32);
  ("fs_cache_writeback_queue_high_water", U32); ("fs_cache_deferred_write_requests", U64);
  ("fs_cache_dirty_sector_updates", U64); ("fs_cache_writeback_drains", U64);
  ("fs_cache_writeback_sectors", U64); ("fs_cache_writeback_pressure_drains", U64);
  ("fs_cache_writeback_flush_drains", U64); ("fs_cache_writeback_total_ticks", U64);
  ("fs_cache_writeback_max_ticks", U64); ("fs_cache_writeback_last_ticks", U64);
  ("fs_cache_writeback_retries", U64); ("fs_cache_clean_reclaimable_entries", U32);
  ("fs_cache_dirty_non_reclaimable_entries", U32); ("fs_cache_pagefile_ready", U32);
  ("fs_cache_pagefile_blockers", U32); ("fs_cache_clean_reclaimable_bytes", U64);
  ("fs_cache_dirty_non_reclaimable_bytes", U64); ("fs_cache_reclaim_scans", U64);
  ("fs_cache_reclaim_clean_entries", U64); ("fs_cache_reclaim_dirty_drains", U64);
  ("fs_cache_reclaim_failed_drains", U64); ("fs_cache_payload_frame_bytes", U32);
  ("fs_cache_payload_frames", U32); ("fs_cache_payload_bytes", U64); ("fs_cache_pmm_reclaimable_bytes", U64);
  ("fs_cache_pmm_dirty_bytes", U64); ("fs_cache_payload_allocations", U64);
  ("fs_cache_payload_allocation_failures", U64); ("fs_cache_payload_releases", U64);
  ("fs_cache_reclaim_returned_frames", U64); ("fs_cache_reclaim_returned_bytes", U64);
  ("global_reclaim_attempts", U64); ("global_reclaim_successes", U64); ("global_reclaim_failures", U64);
  ("global_reclaim_requested_frames", U64); ("global_reclaim_returned_frames", U64);
  ("global_reclaim_returned_bytes", U64); ("global_reclaim_dirty_drains", U64);
  ("global_reclaim_failed_drains", U64); ("global_reclaim_total_ticks", U64);
  ("global_reclaim_max_ticks", U64); ("global_reclaim_last_ticks", U64); ("global_reclaim_last_reason", U32);
  ("global_reclaim_last_requested_frames", U32); ("global_reclaim_last_returned_frames", U32);
  ("global_reclaim_reserved0", U32); ("global_reclaim_fs_returned_frames", U64);
  ("global_reclaim_fs_returned_bytes", U64); ("global_reclaim_vm_returned_frames", U64);
  ("global_reclaim_vm_returned_bytes", U64); ("global_reclaim_vm_page_outs", U64);
  ("global_reclaim_vm_failures", U64); ("memory_backing_store_status", U32);
  ("memory_backing_store_flags", U32); ("memory_backing_store_blockers", U32);
  ("memory_backing_store_cluster_bytes", U32); ("memory_backing_store_requested_bytes", U64);
  ("memory_backing_store_available_bytes", U64); ("memory_backing_store_file_size", U64);
  ("memory_backing_store_probe_count", U64); ("memory_backing_store_ready_count", U64);
  ("memory_backing_store_failure_count", U64); ("memory_backing_store_first_cluster", U32);
  ("memory_backing_store_pager_enabled", U32); ("memory_backing_store_anonymous_paging_enabled", U32);
  ("memory_backing_store_reserved0", U32); ("memory_backing_store_slot_status", U32);
  ("memory_backing_store_slot_operation", U32); ("memory_backing_store_slot_flags", U32);
  ("memory_backing_store_slot_blockers", U32); ("memory_backing_store_slot_bytes", U32);
  ("memory_backing_store_slot_max_ranges", U32); ("memory_backing_store_slot_range_count", U32);
  ("memory_backing_store_slot_last_owner_kind", U32); ("memory_backing_store_slot_capacity", U64);
  ("memory_backing_store_slot_reserved", U64); ("memory_backing_store_slot_free", U64);
  ("memory_backing_store_slot_valid", U64); ("memory_backing_store_slot_dirty", U64);
  ("memory_backing_store_slot_error", U64); ("memory_backing_store_slot_last_reservation_id", U32);
  ("memory_backing_store_slot_last_owner_id", U32); ("memory_backing_store_slot_last_region_id", U32);
  ("memory_backing_store_slot_pager_enabled", U32); ("memory_backing_store_slot_eviction_enabled", U32);
  ("memory_backing_store_slot_page_in_enabled", U32); ("memory_backing_store_slot_page_out_enabled", U32);
  ("memory_backing_store_slot_reserved1", U32); ("memory_backing_store_slot_last_first_slot", U64);
  ("memory_backing_store_slot_last_slot_count", U64); ("memory_backing_store_slot_generation", U64);
  ("memory_backing_store_slot_probe_count", U64); ("memory_backing_store_slot_reserve_count", U64);
  ("memory_backing_store_slot_release_count", U64); ("memory_backing_store_slot_error_mark_count", U64);
  ("memory_backing_store_slot_recovery_count", U64); ("memory_backing_store_slot_failure_count", U64);
  ("memory_backing_store_slot_lifecycle_cleanup_count", U64);
  ("memory_backing_store_slot_lifecycle_released_ranges", U64);
  ("memory_backing_store_slot_lifecycle_released_slots", U64); ("memory_pager_gate_status", U32);
  ("memory_pager_gate_flags", U32); ("memory_pager_gate_blockers", U32); ("memory_pager_gate_region_id", U32);
  ("memory_pager_gate_owner_id", U32); ("memory_pager_gate_slot_bytes", U32);
  ("memory_pager_gate_rollback_completed", U32); ("memory_pager_gate_reserved0", U32);
  ("memory_pager_gate_requested_bytes", U64); ("memory_pager_gate_committed_bytes", U64);
  ("memory_pager_gate_resident_bytes", U64); ("memory_pager_gate_nonresident_bytes", U64);
  ("memory_pager_gate_requested_slots", U64); ("memory_pager_gate_prepared_slots", U64);
  ("memory_pager_gate_capacity_slots", U64); ("memory_pager_gate_free_before_slots", U64);
  ("memory_pager_gate_free_after_slots", U64); ("memory_pager_gate_reserved_before_slots", U64);
  ("memory_pager_gate_reserved_after_slots", U64); ("memory_pager_gate_last_reservation_id", U32);
  ("memory_pager_gate_commit_gate_enabled", U32); ("memory_pager_gate_fault_gate_enabled", U32);
  ("memory_pager_gate_pager_enabled", U32); ("memory_pager_gate_eviction_enabled", U32);
  ("memory_pager_gate_page_in_enabled", U32); ("memory_pager_gate_page_out_enabled", U32);
  ("memory_pager_gate_reserved1", U32); ("memory_pager_gate_slot_generation", U64);
  ("memory_pager_gate_fault_count", U64); ("memory_pager_gate_failed_faults", U64);
  ("memory_pager_gate_probe_count", U64); ("memory_pager_gate_ready_count", U64);
  ("memory_pager_gate_rollback_count", U64); ("memory_pager_gate_failure_count", U64);
  ("memory_page_io_status", U32); ("memory_page_io_operation", U32); ("memory_page_io_flags", U32);
  ("memory_page_io_blockers", U32); ("memory_page_io_region_id", U32); ("memory_page_io_reservation_id", U32);
  ("memory_page_io_owner_kind", U32); ("memory_page_io_owner_id", U32); ("memory_page_io_slot_bytes", U32);
  ("memory_page_io_io_bytes", U32); ("memory_page_io_io_status", U32); ("memory_page_io_pager_enabled", U32);
  ("memory_page_io_eviction_enabled", U32); ("memory_page_io_page_in_enabled", U32);
  ("memory_page_io_page_out_enabled", U32); ("memory_page_io_reserved0", U32);
  ("memory_page_io_region_offset", U64); ("memory_page_io_page_count", U64);
  ("memory_page_io_transfer_bytes", U64); ("memory_page_io_expected_generation", U64);
  ("memory_page_io_backing_slot", U64); ("memory_page_io_backing_offset", U64);
  ("memory_page_io_capacity_slots", U64); ("memory_page_io_reserved_slots", U64);
  ("memory_page_io_valid_slots", U64); ("memory_page_io_dirty_slots", U64);
  ("memory_page_io_error_slots", U64); ("memory_page_io_slot_generation", U64);
  ("memory_page_io_prepare_count", U64); ("memory_page_io_page_out_count", U64);
  ("memory_page_io_page_in_count", U64); ("memory_page_io_failure_count", U64);
  ("memory_vm_page_state_status", U32); ("memory_vm_page_state_operation", U32);
  ("memory_vm_page_state_flags", U32); ("memory_vm_page_state_blockers", U32);
  ("memory_vm_page_state_region_id", U32); ("memory_vm_page_state_page_size", U32);
  ("memory_vm_page_state_max_spans", U32); ("memory_vm_page_state_span_count", U32);
  ("memory_vm_page_state_slot_reservation_id", U32); ("memory_vm_page_state_page_count_lo", U32);
  ("memory_vm_page_state_reserved0", Array U32 2); ("memory_vm_page_state_region_offset", U64);
  ("memory_vm_page_state_page_count", U64); ("memory_vm_page_state_committed_pages", U64);
  ("memory_vm_page_state_resident_pages", U64); ("memory_vm_page_state_nonresident_pages", U64);
  ("memory_vm_page_state_dirty_pages", U64); ("memory_vm_page_state_clean_pages", U64);
  ("memory_vm_page_state_pinned_pages", U64); ("memory_vm_page_state_busy_pages", U64);
  ("memory_vm_page_state_error_pages", U64); ("memory_vm_page_state_slot_bound_pages", U64);
  ("memory_vm_page_state_slot_index", U64); ("memory_vm_page_state_slot_generation", U64);
  ("memory_vm_page_state_transition_count", U64); ("memory_vm_page_state_dirty_mark_count", U64);
  ("memory_vm_page_state_clean_mark_count", U64); ("memory_vm_page_state_slot_bind_count", U64);
  ("memory_vm_page_state_slot_clear_count", U64); ("memory_vm_page_state_pinned_mark_count", U64);
  ("memory_vm_page_state_pinned_clear_count", U64); ("memory_vm_page_state_busy_mark_count", U64);
  ("memory_vm_page_state_busy_clear_count", U64); ("memory_vm_page_state_error_mark_count", U64);
  ("memory_vm_page_state_error_clear_count", U64); ("memory_vm_page_state_table_full_failures", U64);
  ("memory_vm_page_state_cleanup_pages", U64); ("memory_vm_page_state_fault_page_in_count", U64);
  ("memory_vm_page_state_fault_page_in_failure_count", U64);
  ("memory_vm_page_state_page_out_nonresident_pages", U64); ("memory_vm_eviction_attempt_count", U64);
  ("memory_vm_eviction_success_count", U64); ("memory_vm_eviction_failure_count", U64);
  ("memory_vm_eviction_candidate_count", U64); ("memory_vm_eviction_page_out_count", U64);
  ("memory_vm_eviction_clean_page_count", U64); ("memory_vm_eviction_dirty_page_count", U64);
  ("memory_vm_eviction_returned_frames", U64); ("memory_vm_eviction_no_backing_count", U64);
  ("memory_vm_eviction_no_candidate_count", U64); ("memory_vm_eviction_slot_failure_count", U64);
  ("memory_vm_eviction_io_failure_count", U64); ("memory_vm_eviction_skipped_nonresident", U64);
  ("memory_vm_eviction_skipped_pinned", U64); ("memory_vm_eviction_skipped_busy", U64);
  ("memory_vm_eviction_skipped_error", U64); ("memory_vm_eviction_skipped_unmapped", U64);
  ("memory_page_io_retry_attempt_count", U64); ("memory_page_io_retryable_failure_count", U64);
  ("memory_page_io_permanent_failure_count", U64); ("memory_page_io_retry_limit_hit_count", U64);
  ("memory_page_io_failed_page_out_count", U64); ("memory_page_io_failed_page_in_count", U64);
  ("memory_page_io_data_preserved_pages", U64); ("memory_page_io_data_lost_pages", U64);
  ("memory_vm_pager_failed_page_out_count", U64); ("memory_vm_pager_failed_page_in_count", U64);
  ("memory_vm_pager_data_preserved_pages", U64); ("memory_vm_pager_data_lost_pages", U64);
  ("memory_vm_pager_dirty_preserved_pages", U64); ("memory_vm_pager_disabled_eviction_gates", U64);
  ("preemption_quantum_ticks", U32); ("preemption_reserved4", U32); ("preemption_quantum_expired", U64);
  ("preemption_deferred_quantum", U64); ("preemption_deferred_kernel_ip", U64);
  ("preemption_app_code_ticks", U64); ("scheduler_ready_latency_samples", U64);
  ("scheduler_ready_latency_total_ticks", U64); ("scheduler_ready_latency_max_ticks", U64);
  ("scheduler_ready_latency_last_ticks", U64); ("scheduler_ready_waiting_max_ticks", U64);
  ("scheduler_run_without_switch_max_ticks", U64); ("scheduler_quantum_overrun_count", U64);
  ("scheduler_quantum_overrun_max_ticks", U64); ("scheduler_preemption_deferred_max_ticks", U64);
  ("scheduler_long_running_warn_ticks", U64); ("scheduler_starvation_warn_ticks", U64);
  ("wait_object_total_ticks", U64); ("wait_object_max_ticks", U64); ("wait_object_last_ticks", U64);
  ("wait_queue_total_ticks", U64); ("wait_queue_max_ticks", U64); ("wait_queue_last_ticks", U64);
  ("driver_work_capacity", U32); ("driver_work_depth", U32); ("driver_work_high_water", U32);
  ("driver_work_worker_started", U32); ("driver_work_submitted", U64);
  ("driver_work_submitted_from_irq", U64); ("driver_work_submitted_from_task", U64);
  ("driver_work_started", U64); ("driver_work_completed", U64); ("driver_work_failed", U64);
  ("driver_work_cancelled", U64); ("driver_work_dropped", U64); ("driver_work_waits", U64);
  ("driver_work_wait_timeouts", U64); ("driver_work_wait_denied_irq", U64);
  ("driver_work_wait_total_ticks", U64); ("driver_work_wait_max_ticks", U64);
  ("driver_work_wait_last_ticks", U64); ("driver_work_queue_total_ticks", U64);
  ("driver_work_queue_max_ticks", U64); ("driver_work_queue_last_ticks", U64);
  ("driver_work_run_total_ticks", U64); ("driver_work_run_max_ticks", U64);
  ("driver_work_run_last_ticks", U64); ("driver_work_releases", U64); ("driver_work_invalid_handles", U64);
  ("driver_work_cleanup_cancelled", U64); ("driver_wait_ticks_calls", U64);
  ("driver_wait_ticks_denied_irq", U64); ("driver_wait_ticks_total", U64); ("storage_worker_started", U32);
  ("storage_worker_task_id", U32); ("storage_worker_wakeups", U64); ("storage_worker_runs", U64);
  ("storage_worker_idle_waits", U64); ("storage_worker_queue_scans", U64);
  ("storage_worker_runtime_requests", U64); ("storage_worker_runtime_completions", U64);
  ("storage_boot_inline_requests", U64); ("storage_boot_inline_completions", U64);
  ("storage_completion_signals", U64); ("display_present_total_ticks", U64);
  ("display_present_max_ticks", U64); ("display_present_last_ticks", U64);
  ("display_present_slow_count", U64); ("audio_stream_ring_bytes", U64);
  ("audio_stream_available_bytes", U64); ("audio_stream_high_water_bytes", U64);
  ("audio_stream_write_truncations", U64); ("audio_stream_dropped_bytes", U64);
  ("audio_stream_write_total_ticks", U64); ("audio_stream_write_max_ticks", U64);
  ("audio_stream_write_last_ticks", U64); ("audio_backend_write_calls", U64);
  ("audio_backend_write_total_ticks", U64); ("audio_backend_write_max_ticks", U64);
  ("audio_backend_write_last_ticks", U64); ("audio_backend_refills", U64);
  ("audio_backend_silence_refills", U64); ("audio_backend_buffer_bytes", U64);
  ("audio_backend_queued_buffers", U64); ("audio_backend_last_buffer_bytes", U64);
  ("audio_backend_refill_total_ticks", U64); ("audio_backend_refill_max_ticks", U64);
  ("audio_backend_refill_last_ticks", U64); ("loader_initialized", U32); ("loader_started", U32);
  ("loader_completed", U32); ("loader_r4p_runtime_started", U32); ("loader_r4p_runtime_completed", U32);
  ("loader_service_boot_status", U32); ("loader_boot_critical_count", U32);
  ("loader_lazy_candidate_count", U32); ("loader_total_ticks", U64); ("loader_r4p_runtime_total_ticks", U64);
  ("loader_service_boot_ticks", U64); ("loader_config_load_ticks", U64); ("loader_config_bytes", U64);
  ("loader_config_driver_count", U32); ("loader_config_disabled_count", U32);
  ("loader_config_option_count", U32); ("loader_config_reserved0", U32); ("loader_r4l_scan_entries", U64);
  ("loader_r4l_candidates", U64); ("loader_r4l_loaded", U64); ("loader_r4l_failed", U64);
  ("loader_r4l_scan_ticks", U64); ("loader_r4l_read_ticks", U64); ("loader_r4l_resolve_ticks", U64);
  ("loader_r4l_load_ticks", U64); ("loader_r4d_scan_entries", U64); ("loader_r4d_candidates", U64);
  ("loader_r4d_discovered", U64); ("loader_r4d_failed", U64); ("loader_r4d_scan_ticks", U64);
  ("loader_r4d_read_ticks", U64); ("loader_r4d_probe_ticks", U64); ("loader_r4p_scan_entries", U64);
  ("loader_r4p_candidates", U64); ("loader_r4p_discovered", U64); ("loader_r4p_active", U64);
  ("loader_r4p_blocked", U64); ("loader_r4p_failed", U64); ("loader_r4p_scan_ticks", U64);
  ("loader_r4p_read_ticks", U64); ("loader_r4p_resolve_ticks", U64); ("loader_r4p_init_ticks", U64);
  ("hot_path_vm_range_index_capacity", U32); ("hot_path_vm_range_index_entries", U32);
  ("hot_path_vm_range_index_tombstones", U32); ("hot_path_vm_range_index_probe_max", U32);
  ("hot_path_vm_range_index_probe_last", U32); ("hot_path_vm_range_free_slot_probe_max", U32);
  ("hot_path_vm_range_free_slot_probe_last", U32); ("hot_path_bounded_block_device_scan_max", U32);
  ("hot_path_bounded_tcp_connection_scan_max", U32); ("hot_path_reserved0", U32);
  ("hot_path_vm_range_index_lookups", U64); ("hot_path_vm_range_index_hits", U64);
  ("hot_path_vm_range_index_misses", U64); ("hot_path_vm_range_index_probe_total", U64);
  ("hot_path_vm_range_index_rebuilds", U64); ("hot_path_vm_range_index_insert_failures", U64);
  ("hot_path_vm_range_free_slot_lookups", U64); ("hot_path_vm_range_free_slot_probe_total", U64);
  ("loader_file_active_buffers", U64); ("loader_file_reserved_bytes", U64);
  ("loader_file_committed_bytes", U64); ("loader_file_peak_reserved_bytes", U64);
  ("loader_file_peak_committed_bytes", U64); ("loader_file_full_reads", U64);
  ("loader_file_range_reads", U64); ("loader_file_reserve_failures", U64);
  ("loader_file_commit_failures", U64); ("loader_file_read_failures", U64); ("loader_file_short_reads", U64);
  ("loader_file_release_failures", U64); ("loader_file_pressure_reclaim_attempts", U64);
  ("loader_file_pressure_reclaimed_frames", U64); ("loader_file_pressure_failures", U64);
  ("fat32_read_sectors", U64); ("fat32_write_sectors", U64); ("fat32_read_failures", U64);
  ("fat32_write_failures", U64); ("fat32_flushes", U64); ("fat32_flush_failures", U64);
  ("fat32_flush_total_ticks", U64); ("fat32_flush_max_ticks", U64); ("fat32_flush_last_ticks", U64);
  ("fat32_file_writes", U64); ("fat32_file_appends", U64); ("fat32_file_write_ranges", U64);
  ("fat32_file_write_bytes", U64); ("fat32_file_append_bytes", U64); ("fat32_dir_scans", U64);
  ("fat32_dir_entries_scanned", U64); ("fat32_dir_entry_updates", U64); ("fat32_cluster_walk_steps", U64);
  ("fat32_fat_reads", U64); ("fat32_fat_writes", U64); ("fat32_fat_mirror_writes", U64);
  ("fat32_alloc_chain_calls", U64); ("fat32_alloc_clusters", U64); ("fat32_alloc_search_steps", U64);
  ("fat32_operation_failures", U64); ("fat32_operation_total_ticks", U64); ("fat32_operation_max_ticks", U64);
  ("fat32_operation_last_ticks", U64); ("fat32_active_operation", U32); ("fat32_last_operation", U32);
  ("fat32_reserved0", U64); ("fat32_yield_points", U64); ("fat32_yields", U64); ("fat32_yield_skips", U64);
  ("fat32_alloc_runs", U64); ("fat32_alloc_run_clusters", U64); ("fat32_alloc_run_max_clusters", U64);
  ("fat32_fat_sector_writes", U64); ("fat32_read_extent_cache_hits", U64);
  ("fat32_read_extent_cache_misses", U64); ("fat32_read_extent_cache_stores", U64);
  ("fat32_read_extent_cache_clusters", U64); ("fat32_fsinfo_reads", U64); ("fat32_fsinfo_valid_mounts", U64);
  ("fat32_fsinfo_rebuilds", U64); ("fat32_fsinfo_writes", U64); ("fat32_inusemap_builds", U64);
  ("fat32_inusemap_clusters", U64); ("fat32_inusemap_alloc_hits", U64); ("fat32_inusemap_alloc_misses", U64);
  ("monotonic_clock_flags", U32); ("monotonic_clock_source", U32); ("monotonic_clock_generation", U32);
  ("monotonic_event_backend", U32); ("monotonic_clock_resolution_ns", U64);
  ("monotonic_source_frequency_hz", U64); ("monotonic_event_frequency_numerator", U64);
  ("monotonic_event_frequency_denominator", U64); ("monotonic_event_requested_hz", U32);
  ("monotonic_event_effective_hz", U32); ("boot_timing_valid", U32); ("boot_timing_unavailable_spans", U32);
  ("boot_timing_dropped_spans", U32); ("loader_timing_valid_spans", U32);
  ("loader_timing_unavailable_spans", U32); ("monotonic_reserved0", U32); ("boot_total_ns", U64);
  ("boot_now_ns", U64); ("loader_total_ns", U64); ("loader_r4p_runtime_total_ns", U64);
  ("loader_service_boot_ns", U64); ("loader_config_load_ns", U64); ("monotonic_reserved1", U64);
  ("service_completion_wait_rounds", U64); ("service_targeted_response_wakes", U64);
  ("service_targeted_response_wake_misses", U64); ("service_admission_waits", U64);
  ("service_admission_timeouts", U64); ("service_payload_copy_bytes", U64);
  ("service_payload_clear_bytes", U64); ("service_slot_metadata_resets", U64);
  ("service_endpoint_metadata_resets", U64); ("service_endpoint_payload_reset_bytes", U64);
  ("service_queue_scan_passes", U64); ("service_queue_scan_slots", U64);
  ("service_endpoint_revalidations", U64); ("service_endpoint_stale_rejections", U64);
  ("service_lock_family_count", U32); ("service_lock_reserved0", U32);
  ("service_lock_acquisitions", Array U64 7); ("service_lock_contentions", Array U64 7);
  ("service_lock_wait_ns", Array U64 7); ("service_lock_wait_max_ns", Array U64 7);
  ("service_lock_hold_ns", Array U64 7); ("service_lock_hold_max_ns", Array U64 7);
  ("service_lock_timing_unavailable", Array U64 7); ("service_lock_timing_stride", U32);
  ("service_lock_timing_reserved0", U32); ("service_lock_timing_samples", Array U64 7);
  ("service_registry_index_queries", U64); ("service_registry_refresh_requests", U64);
  ("service_registry_refresh_visits", U64); ("service_registry_instance_lookups", U64);
  ("service_registry_index_end_markers", U64); ("hot_path_memory_block_physical_index_entries", U32);
  ("hot_path_memory_block_physical_step_max", U32); ("hot_path_memory_block_id_index_entries", U32);
  ("hot_path_memory_block_id_step_max", U32); ("hot_path_memory_block_free_slot_word_step_max", U32);
  ("hot_path_memory_vm_range_address_entries", U32); ("hot_path_memory_vm_range_address_probe_max", U32);
  ("hot_path_memory_vm_range_address_probe_last", U32); ("hot_path_memory_vm_commit_span_active", U32);
  ("hot_path_memory_vm_commit_span_step_max", U32); ("hot_path_memory_vm_page_state_span_active", U32);
  ("hot_path_memory_vm_page_state_span_step_max", U32); ("hot_path_memory_block_physical_lookups", U64);
  ("hot_path_memory_block_physical_steps", U64); ("hot_path_memory_block_physical_mutations", U64);
  ("hot_path_memory_block_physical_rebuilds", U64); ("hot_path_memory_block_id_lookups", U64);
  ("hot_path_memory_block_id_steps", U64); ("hot_path_memory_block_free_slot_lookups", U64);
  ("hot_path_memory_block_free_slot_word_steps", U64); ("hot_path_memory_block_claim_transactions", U64);
  ("hot_path_memory_block_claim_rollbacks", U64); ("hot_path_memory_vm_range_address_lookups", U64);
  ("hot_path_memory_vm_range_address_probe_total", U64); ("hot_path_memory_vm_commit_span_lookups", U64);
  ("hot_path_memory_vm_commit_span_steps", U64); ("hot_path_memory_vm_page_state_span_lookups", U64);
  ("hot_path_memory_vm_page_state_span_steps", U64); ("hot_path_memory_vm_reclaim_range_steps", U64);
  ("hot_path_memory_vm_reclaim_span_steps", U64); ("hot_path_memory_vm_reclaim_page_steps", U64);
  ("hot_path_memory_vm_reclaim_wraps", U64); ("fs_drive_gate_count", U32); ("fs_active_requests", U32);
  ("fs_parallel_active_max", U32); ("storage_controller_count", U32); ("storage_worker_count", U32);
  ("storage_worker_parallel_active", U32); ("storage_worker_parallel_active_max", U32);
  ("storage_dispatch_reserved0", U32); ("fs_single_drive_requests", U64); ("fs_cross_drive_requests", U64);
  ("fs_global_requests", U64); ("storage_worker_start_failures", U64); ("storage_direct_requests", U64);
  ("storage_direct_bytes", U64); ("storage_bounce_allocations", U64); ("storage_bounce_bytes", U64);
  ("storage_bounce_copy_bytes", U64); ("storage_direct_timeout_waits", U64);
  ("fs_cache_bulk_write_requests", U64); ("fs_cache_bulk_write_sectors", U64);
  ("fs_cache_selective_flushes", U64); ("fs_cache_selective_writeback_sectors", U64);
  ("fs_cache_selective_foreign_dirty_sectors_skipped", U64); ("fs_cache_policy_version", U32);
  ("fs_cache_policy_device_capacity", U32); ("fs_cache_policy_dirty_high_pages", U32);
  ("fs_cache_policy_dirty_low_pages", U32); ("fs_cache_policy_max_dirty_age_ticks", U64);
  ("fs_cache_policy_background_page_budget", U32); ("fs_cache_policy_worker_started", U32);
  ("fs_cache_policy_worker_task_id", U32); ("fs_cache_policy_device_dirty_high_water", U32);
  ("fs_cache_policy_worker_wakeups", U64); ("fs_cache_policy_background_drains", U64);
  ("fs_cache_policy_background_sectors", U64); ("fs_cache_policy_background_pressure_drains", U64);
  ("fs_cache_policy_background_age_drains", U64); ("fs_cache_policy_background_errors", U64);
  ("fs_cache_policy_clean_device_probes", U64); ("fs_cache_policy_dirty_device_probes", U64);
  ("fs_cache_policy_full_scan_fallbacks", U64); ("fs_cache_read_ahead_requests", U64);
  ("fs_cache_read_ahead_issued", U64); ("fs_cache_read_ahead_hits", U64);
  ("fs_cache_read_ahead_cancellations", U64); ("fs_cache_read_ahead_budget_skips", U64);
  ("ntfs_metadata_cache_version", U32); ("ntfs_metadata_cache_active_volumes", U32);
  ("ntfs_metadata_cache_bytes_per_volume", U32); ("ntfs_metadata_cache_slot_capacity", U32);
  ("ntfs_metadata_record_capacity", U32); ("ntfs_metadata_attribute_capacity", U32);
  ("ntfs_metadata_index_capacity", U32); ("ntfs_metadata_path_capacity", U32);
  ("ntfs_metadata_record_entries", U32); ("ntfs_metadata_attribute_entries", U32);
  ("ntfs_metadata_index_entries", U32); ("ntfs_metadata_path_entries", U32);
  ("ntfs_metadata_mount_generation", U64); ("ntfs_metadata_content_generation", U64);
  ("ntfs_metadata_negative_ttl_ticks", U64); ("ntfs_metadata_record_hits", U64);
  ("ntfs_metadata_record_misses", U64); ("ntfs_metadata_record_stores", U64);
  ("ntfs_metadata_record_evictions", U64); ("ntfs_metadata_attribute_hits", U64);
  ("ntfs_metadata_attribute_misses", U64); ("ntfs_metadata_attribute_stores", U64);
  ("ntfs_metadata_attribute_evictions", U64); ("ntfs_metadata_index_hits", U64);
  ("ntfs_metadata_index_misses", U64); ("ntfs_metadata_index_stores", U64);
  ("ntfs_metadata_index_evictions", U64); ("ntfs_metadata_path_queries", U64);
  ("ntfs_metadata_path_positive_hits", U64); ("ntfs_metadata_path_negative_hits", U64);
  ("ntfs_metadata_path_misses", U64); ("ntfs_metadata_path_positive_stores", U64);
  ("ntfs_metadata_path_negative_stores", U64); ("ntfs_metadata_path_expirations", U64);
  ("ntfs_metadata_lookup_tree_walks", U64); ("ntfs_metadata_recovery_cache_bypasses", U64);
  ("ntfs_metadata_mount_invalidations", U64); ("ntfs_metadata_mutation_invalidations", U64);
  ("ntfs_metadata_external_invalidations", U64); ("ntfs_metadata_invalidated_entries", U64);
  ("ntfs_metadata_reclaim_requests", U64); ("ntfs_metadata_reclaim_scans", U64);
  ("ntfs_metadata_reclaimed_entries", U64); ("fs_cache_capacity_min_pages", U32);
  ("fs_cache_capacity_max_pages", U32); ("fs_cache_capacity_ram_limit_pages", U32);
  ("fs_cache_capacity_active_limit_pages", U32); ("fs_cache_capacity_pressure_level", U32);
  ("fs_cache_read_ahead_window_pages", U32); ("fs_cache_read_ahead_window_max_pages", U32);
  ("fs_cache_capacity_reserved0", U32); ("fs_cache_fill_run_requests", U64);
  ("fs_cache_fill_run_backend_requests", U64); ("fs_cache_fill_run_pages", U64);
  ("fs_cache_fill_run_sectors", U64); ("fs_cache_fill_run_bytes", U64); ("fs_cache_fill_run_failures", U64);
  ("fs_cache_fill_run_retries", U64); ("fs_cache_fill_run_max_pages", U64);
  ("fs_cache_fill_scatter_copy_bytes", U64); ("fs_cache_read_staging_copy_bytes", U64);
  ("fs_cache_read_caller_copy_bytes", U64); ("fs_cache_read_publish_lock_drops", U64);
  ("fs_cache_fill_lock_drops", U64); ("fs_cache_capacity_reductions", U64);
  ("fs_cache_capacity_trimmed_pages", U64); ("fs_cache_read_ahead_pages_scheduled", U64);
  ("fs_cache_read_ahead_pages_issued", U64); ("fs_cache_read_ahead_random_resets", U64);
  ("ntfs_metadata_payload_write_retentions", U64); ("ntfs_metadata_system_write_retentions", U64);
  ("ntfs_metadata_targeted_invalidations", U64); ("ntfs_metadata_targeted_record_invalidations", U64);
  ("ntfs_metadata_targeted_attribute_invalidations", U64);
  ("ntfs_metadata_targeted_directory_invalidations", U64);
  ("ntfs_metadata_global_mutation_invalidations", U64); ("ntfs_metadata_recovery_invalidations", U64);
  ("ntfs_metadata_mutation_invalidated_record_entries", U64);
  ("ntfs_metadata_mutation_invalidated_attribute_entries", U64);
  ("ntfs_metadata_mutation_invalidated_index_entries", U64);
  ("ntfs_metadata_mutation_invalidated_path_entries", U64); ("loader_file_range_read_bytes", U64);
  ("loader_metadata_reader_initializations", U64); ("loader_metadata_logical_reads", U64);
  ("loader_metadata_logical_bytes", U64); ("loader_metadata_window_hits", U64);
  ("loader_metadata_window_fills", U64); ("loader_metadata_window_fill_bytes", U64);
  ("loader_metadata_direct_reads", U64); ("loader_metadata_direct_bytes", U64);
  ("loader_metadata_window_capacity_bytes", U64)].

Definition R4ProgramTaskPerformanceInfo : ctype := Struct [
  ("index", U32); ("id", U32); ("state", U32); ("flags", U32); ("wake_tick", U64);
  ("blocked_since_tick", U64); ("blocked_ticks", U64); ("created_tick", U64); ("last_scheduled_tick", U64);
  ("last_yield_tick", U64); ("ticks_since_yield", U64); ("run_ticks", U64); ("switches_in", U64);
  ("stack_base", U64); ("stack_top", U64); ("stack_bytes", U64); ("blocked_object", U64);
  ("wait_result", U32); ("preempt_disable_depth", U32); ("preempt_disable_max_depth", U32);
  ("ticks_since_scheduled", U64); ("preemption_probe_hits", U64); ("preemption_deferred_ticks", U64);
  ("long_run_warnings", U64); ("starvation_warnings", U64); ("reserved0", U64); ("name", Array U8 32);
  ("wait_reason", Array U8 32); ("ready_since_tick", U64); ("last_ready_latency_ticks", U64);
  ("max_ready_latency_ticks", U64); ("last_wait_ticks", U64); ("max_wait_ticks", U64);
  ("max_run_without_switch_ticks", U64); ("max_preemption_deferred_ticks", U64)].

Definition R4ProgramStoragePerformanceInfo : ctype := Struct [
  ("index", U32); ("bus", U32); ("state", U32); ("source", U32); ("flags", U32); ("port", U32);
  ("sector_size", U32); ("max_sectors_per_request", U32); ("queue_depth", U32); ("queue_used", U32);
  ("queue_high_water", U32); ("timeout_ticks", U64); ("sector_count", U64); ("active_request_id", U64);
  ("active_request_kind", U32); ("active_request_sectors", U32); ("active_request_lba", U64);
  ("last_request_id", U64); ("last_request_kind", U32); ("last_request_sectors", U32);
  ("last_request_lba", U64); ("read_ops", U64); ("read_sectors", U64); ("read_failures", U64);
  ("write_ops", U64); ("write_sectors", U64); ("write_failures", U64); ("flush_ops", U64);
  ("flush_failures", U64); ("busy_rejections", U64); ("timeout_failures", U64); ("completions", U64);
  ("backend_recoveries", U64); ("backend_recovery_failures", U64); ("queued_requests", U64);
  ("dequeued_requests", U64); ("queue_full_waits", U64); ("queue_full_rejections", U64);
  ("completion_waits", U64); ("completion_timeouts", U64); ("completion_total_ticks", U64);
  ("completion_max_ticks", U64); ("completion_last_ticks", U64); ("last_error", U32);
  ("last_sense_valid", U32); ("last_sense", U32); ("name", Array U8 32); ("driver", Array U8 32);
  ("controller", Array U8 32); ("completion_signals", U64); ("worker_requests", U64);
  ("worker_completions", U64); ("boot_inline_requests", U64); ("boot_inline_completions", U64)].

Definition R4ProgramBootPhasePerformanceInfo : ctype := Struct [
  ("index", U32); ("phase", U32); ("first_tick", U64); ("last_tick", U64); ("total_ticks", U64);
  ("transitions", U32); ("reserved0", U32); ("name", Array U8 32)].

Definition R4ProgramBootPhaseClockInfo : ctype := Struct [
  ("version", U32); ("size", U32); ("index", U32); ("phase", U32); ("clock_flags", U32);
  ("clock_source", U32); ("clock_generation", U32); ("transitions", U32); ("first_ns", U64); ("last_ns", U64);
  ("total_ns", U64); ("unavailable_spans", U32); ("reserved0", U32); ("name", Array U8 32)].

Definition R4ProgramBootPerformanceInfo : ctype := Struct [
  ("version", U32); ("size", U32); ("state", U32); ("completion_reason", U32); ("flags", U32);
  ("current_phase", U32); ("phase_count", U32); ("timing_span_count", U32); ("timing_unavailable_spans", U32);
  ("timing_dropped_spans", U32); ("clock_flags", U32); ("clock_source", U32); ("clock_generation", U32);
  ("configured_attempts", U32); ("fallback_attempts", U32); ("launch_failures", U32);
  ("shell_instance_id", U32); ("reserved0", U32); ("boot_start_tick", U64); ("boot_end_tick", U64);
  ("total_ticks", U64); ("boot_start_ns", U64); ("boot_end_ns", U64); ("total_ns", U64);
  ("clock_resolution_ns", U64); ("transition_count", U64); ("reserved1", U64)].

Definition R4ProgramIrqTimingInfo : ctype := Struct [
  ("version", U32); ("size", U32); ("irq", U8); ("registered", U8); ("shared", U8); ("masked", U8);
  ("coverage_flags", U32); ("clock_flags", U32); ("clock_source", U32); ("clock_generation", U32);
  ("unavailable_samples", U32); ("dispatch_samples", U64); ("handler_samples", U64); ("observer_reads", U64);
  ("delivery_samples", U64); ("dispatch_total_ns", U64); ("dispatch_max_ns", U64); ("dispatch_last_ns", U64);
  ("handler_total_ns", U64); ("handler_max_ns", U64); ("handler_last_ns", U64)].

Definition R4ProgramMemoryBlockInfo : ctype := Struct [
  ("id", U32); ("kind", U8); ("owner", U8); ("status", U8); ("reserved0", U8); ("owner_id", U64);
  ("phys_base", U64); ("phys_len", U64); ("virt_base", U64); ("virt_len", U64); ("reserved_bytes", U64);
  ("committed_bytes", U64); ("name", Array U8 32)].

Definition R4ProgramVmReserveProbe : ctype := Struct [
  ("requested_bytes", U64); ("region_id", U32); ("released", U32); ("status", U32); ("base", U64);
  ("len", U64); ("reserved_bytes", U64); ("committed_bytes", U64); ("phys_len", U64); ("owner_id", U64);
  ("active_before", U64); ("active_during", U64); ("active_after", U64); ("committed_before", U64);
  ("committed_during", U64); ("committed_after", U64); ("largest_free_before", U64);
  ("largest_free_after", U64); ("kind", U8); ("owner", U8); ("block_status", U8); ("reserved0", U8)].

Definition R4PagingSummary : ctype := Struct [
  ("flags", U32); ("root_owner", U8); ("reserved0", Array U8 3); ("active_root_phys", U64);
  ("hardware_cr3", U64); ("old_cr3", U64); ("new_cr3", U64); ("page_table_blocks", U64);
  ("kernel_page_table_blocks", U64); ("bootloader_page_table_blocks", U64); ("page_table_bytes", U64);
  ("limine_old_table_frames", U64); ("limine_active_table_frames", U64); ("limine_referenced_frames", U64);
  ("limine_quarantined_frames", U64); ("limine_released_frames", U64); ("limine_retained_frames", U64);
  ("root_mismatches", U64); ("map_pages", U64); ("unmap_pages", U64); ("invlpg_flushes", U64)].

Definition R4DisplayDamageRect : ctype := Struct [
  ("x", U32); ("y", U32); ("w", U32); ("h", U32)].

Definition R4DisplayPresentRequest : ctype := Struct [
  ("magic", U32); ("version", U16); ("size", U16); ("flags", U32); ("format", U32); ("source_width", U32);
  ("source_height", U32); ("source_stride_pixels", U32); ("reserved0", U32); ("source_generation", U64);
  ("input_tick", U64)].

Definition R4DisplayPresentResult : ctype := Struct [
  ("version", U16); ("size", U16); ("flags", U32); ("source_generation", U64); ("present_generation", U64);
  ("fence", U64); ("completed_fence", U64); ("region_count", U32); ("pixel_count", U32);
  ("fallback_regions", U32); ("backend_error", U32); ("present_tick", U64); ("elapsed_ticks", U64);
  ("backend_name", Array U8 24)].

Definition R4DisplaySummary : ctype := Struct [
  ("flags", U32); ("backend_kind", U8); ("cache_policy", U8); ("bpp", U16); ("width", U32); ("height", U32);
  ("pitch", U32); ("last_present_reason", U8); ("last_present_converted", U8); ("reserved0", Array U8 2);
  ("last_present_x", U32); ("last_present_y", U32); ("last_present_w", U32); ("last_present_h", U32);
  ("present_count", U64); ("present_pixels_total", U64); ("present_bytes_total", U64);
  ("last_present_pixels", U64); ("last_present_bytes", U64); ("full_present_count", U64);
  ("partial_present_count", U64); ("fill_present_count", U64); ("rect_present_count", U64);
  ("packed32_present_count", U64); ("xrgb32_present_count", U64); ("conversion_present_count", U64);
  ("backend_name", Array U8 32); ("present_total_ticks", U64); ("present_max_ticks", U64);
  ("present_last_ticks", U64); ("present_slow_count", U64)].

Definition R4GuiSize : ctype := Struct [
  ("w", U32); ("h", U32)].

Definition R4GuiCommand : ctype := Struct [
  ("kind", U32); ("x", U32); ("y", U32); ("w", U32); ("h", U32); ("rgb", U32); ("fg", U32); ("bg", U32);
  ("text", Array U8 64); ("font_id", U32); ("flags", U32); ("text_w", U32); ("text_h", U32);
  ("baseline", U32); ("line_height", U32)].

Definition R4GuiFrameCommand : ctype := Struct [
  ("version", U32); ("size", U32); ("kind", U32); ("flags", U32); ("x", U32); ("y", U32); ("w", U32);
  ("h", U32); ("rgb", U32); ("fg", U32); ("bg", U32); ("font_id", U32); ("text_w", U32); ("text_h", U32);
  ("baseline", U32); ("line_height", U32); ("resource_offset", U64); ("resource_bytes", U64);
  ("parameter0", U64); ("parameter1", U64)].

Definition R4GuiPathSegment : ctype := Struct [
  ("kind", U32); ("flags", U32); ("x1_bits", U32); ("y1_bits", U32); ("x2_bits", U32); ("y2_bits", U32);
  ("x3_bits", U32); ("y3_bits", U32)].

Definition R4GuiShapeResource : ctype := Struct [
  ("version", U32); ("size", U32); ("geometry_kind", U32); ("flags", U32); ("segment_count", U32);
  ("fill_rule", U32); ("line_join", U32); ("line_cap", U32); ("clip_x", U32); ("clip_y", U32);
  ("clip_w", U32); ("clip_h", U32); ("fill_argb", U32); ("stroke_argb", U32); ("stroke_width_bits", U32);
  ("miter_limit_bits", U32); ("geometry_x_bits", U32); ("geometry_y_bits", U32); ("geometry_w_bits", U32);
  ("geometry_h_bits", U32); ("radius_top_left_x_bits", U32); ("radius_top_left_y_bits", U32);
  ("radius_top_right_x_bits", U32); ("radius_top_right_y_bits", U32); ("radius_bottom_right_x_bits", U32);
  ("radius_bottom_right_y_bits", U32); ("radius_bottom_left_x_bits", U32); ("radius_bottom_left_y_bits", U32);
  ("border_top_bits", U32); ("border_right_bits", U32); ("border_bottom_bits", U32);
  ("border_left_bits", U32); ("shadow_argb", U32); ("shadow_offset_x_bits", U32);
  ("shadow_offset_y_bits", U32); ("shadow_spread_bits", U32); ("shadow_blur_bits", U32); ("reserved0", U32);
  ("reserved1", U32); ("reserved2", U32)].

Definition R4GuiIndexed8Resource : ctype := Struct [
  ("version", U32); ("size", U32); ("source_x", U32); ("source_y", U32); ("source_w", U32); ("source_h", U32);
  ("guest_w", U32); ("guest_h", U32); ("viewport_x", U32); ("viewport_y", U32); ("viewport_w", U32);
  ("viewport_h", U32); ("palette_entries", U32); ("palette_offset", U32); ("pixels_offset", U32);
  ("pixel_stride", U32)].

Definition R4GuiFontInfo : ctype := Struct [
  ("id", U32); ("kind", U32); ("flags", U32); ("weight", U32); ("style_flags", U32); ("charset_flags", U32);
  ("width", U32); ("height", U32); ("max_advance", U32); ("line_height", U32); ("baseline", U32);
  ("glyph_count", U32); ("strike_count", U32); ("path", Array U8 96); ("family", Array U8 40);
  ("face", Array U8 40); ("style", Array U8 40); ("status", Array U8 48)].

Definition R4GuiTextMetrics : ctype := Struct [
  ("width", U32); ("height", U32); ("line_height", U32); ("baseline", U32); ("visible_bytes", U32);
  ("flags", U32)].

Definition R4ClipboardInfo : ctype := Struct [
  ("capacity", U32); ("length", U32); ("revision", U32); ("flags", U32)].

Definition R4RemoteFrameInfo : ctype := Struct [
  ("magic", U32); ("version", U32); ("flags", U32); ("format", U32); ("width", U32); ("height", U32);
  ("stride_pixels", U32); ("bytes_per_pixel", U32); ("revision", U32); ("frame_pixels", U32);
  ("frame_bytes", U32); ("dirty_x", U32); ("dirty_y", U32); ("dirty_w", U32); ("dirty_h", U32);
  ("cursor_x", U32); ("cursor_y", U32); ("cursor_flags", U32); ("reserved0", U32); ("reserved1", U32)].

Definition R4RemoteFrameMapInfo : ctype := Struct [
  ("pixels_addr", U64); ("capacity_pixels", U64); ("generation", U64); ("reserved", U64)].

Definition R4RemoteInputEvent : ctype := Struct [
  ("magic", U32); ("version", U32); ("kind", U32); ("flags", U32); ("sequence", U32); ("modifiers", U32);
  ("key", U32); ("scancode", U32); ("x", U32); ("y", U32); ("wheel", U32); ("buttons", U32);
  ("timestamp_ticks", U64); ("reserved0", U32); ("reserved1", U32)].

Definition R4RemoteInputStatus : ctype := Struct [
  ("magic", U32); ("version", U32); ("flags", U32); ("capacity", U32); ("pending", U32); ("dropped", U32);
  ("pushed", U32); ("polled", U32); ("last_sequence", U32); ("last_kind", U32); ("last_buttons", U32);
  ("last_key", U32); ("last_x", U32); ("last_y", U32); ("last_wheel", U32); ("reserved0", U32)].

Definition R4ProgramHostLaunchRequest : ctype := Struct [
  ("path", Array U8 128); ("args", Array U8 128); ("policy", U32); ("reserved", U32)].

Definition R4KernelVersion : ctype := Struct [
  ("version", U32); ("size", U32); ("major", U32); ("minor", U32); ("patch", U32); ("reserved0", U32)].

Definition R4MonotonicClockInfo : ctype := Struct [
  ("version", U32); ("size", U32); ("flags", U32); ("source", U32); ("generation", U32);
  ("event_backend", U32); ("instant_ns", U64); ("frequency_hz", U64); ("resolution_ns", U64);
  ("source_frequency_hz", U64); ("event_frequency_numerator", U64); ("event_frequency_denominator", U64);
  ("event_requested_hz", U32); ("event_effective_hz", U32)].

Definition R4KeyboardLayoutInfo : ctype := Struct [
  ("name", Array U8 16); ("display", Array U8 8); ("index", U32); ("count", U32); ("flags", U32)].

Definition R4DriveInfo : ctype := Struct [
  ("mounted", U8); ("letter", U8); ("kind", U8); ("role", U8); ("reserved", U32); ("bytes", U64);
  ("name", Array U8 16); ("free_bytes", U64); ("total_clusters", U32); ("free_clusters", U32);
  ("cluster_bytes", U32)].

Definition R4BootLogInfo : ctype := Struct [
  ("capacity", U32); ("length", U32); ("flags", U32); ("reserved", U32); ("total_written", U64);
  ("dropped_bytes", U64)].

Definition R4DeviceInventorySummary : ctype := Struct [
  ("total", U32); ("with_driver", U32); ("without_driver", U32); ("unknown", U32); ("truncated", U8);
  ("reserved", Array U8 3)].

Definition R4DeviceInventoryRecord : ctype := Struct [
  ("binding", U8); ("bus", U8); ("flags", U16); ("bus_no", U8); ("device_no", U8); ("function_no", U8);
  ("class_code", U8); ("subclass", U8); ("prog_if", U8); ("reserved0", U16); ("vendor_id", U16);
  ("device_id", U16); ("name", Array U8 48); ("driver", Array U8 32); ("status", Array U8 32);
  ("note", Array U8 96)].

Definition R4HardwareSummary : ctype := Struct [
  ("flags", U32); ("acpi_tables", U32); ("acpi_invalid_tables", U32); ("pcie_devices", U32);
  ("legacy_pci_devices", U32); ("storage_controllers", U32); ("network_controllers", U32);
  ("display_controllers", U32); ("usb_controllers", U32); ("hda_controllers", U32); ("block_devices", U32);
  ("usb_devices", U32); ("usb_configured", U32); ("driver_records", U32); ("protocol_records", U32);
  ("irq_controller", U8); ("timer_backend", U8); ("reserved0", U16); ("lapic_count", U32);
  ("ioapic_count", U32); ("iso_count", U32); ("hpet_frequency_hz", U64); ("cpu_logical_processors", U32);
  ("cpu_physical_address_bits", U8); ("cpu_virtual_address_bits", U8); ("reserved1", U16)].

Definition R4ProtocolStatus : ctype := Struct [
  ("state", U32); ("flags", U32); ("last_error", U32); ("reserved", U32); ("note", Array U8 64)].

Definition R4ProtocolBuffer : ctype := Struct [
  ("data", U64); ("len", U32); ("capacity", U32); ("flags", U32); ("reserved", U32)].

Definition R4SerialLinkStatus : ctype := Struct [
  ("present", U32); ("initialized", U32); ("port_base", U16); ("version", U8); ("reserved0", U8);
  ("max_payload", U16); ("last_type", U8); ("reserved1", U8); ("last_payload_len", U16);
  ("last_message_len", U16); ("reserved2", U32); ("loopback_tests", U64); ("host_tests", U64);
  ("message_tx", U64); ("message_rx", U64); ("tx_skipped", U64); ("tx_frames", U64); ("tx_bytes", U64);
  ("rx_frames", U64); ("rx_bytes", U64); ("polls", U64); ("bad_magic", U64); ("bad_version", U64);
  ("bad_length", U64); ("checksum_errors", U64); ("overflows", U64); ("timeouts", U64); ("r4p_build", U64);
  ("r4p_parse", U64); ("r4p_self", U64); ("r4p_fallbacks", U64); ("r4p_dispatch_failures", U64);
  ("last_payload", Array U8 256); ("last_message", Array U8 256); ("last_error", Array U8 32)].

Definition R4SerialLinkMessage : ctype := Struct [
  ("len", U16); ("reserved", U16); ("data", Array U8 256)].

Definition R4RegistrySnapshotCursor : ctype := Struct [
  ("version", U32); ("size", U32); ("generation", U64); ("key_index", U32); ("kind", U32);
  ("next_index", U32); ("total", U32); ("flags", U32); ("restarts", U32); ("reserved0", U64)].

Definition R4RegistrySnapshotEntry : ctype := Struct [
  ("kind", U16); ("value_type", U16); ("flags", U32); ("data_offset", U32); ("data_len", U32);
  ("name", Array U8 64)].

Definition R4RegistrySnapshotPageInfo : ctype := Struct [
  ("version", U32); ("size", U32); ("generation", U64); ("total", U32); ("returned", U32);
  ("next_index", U32); ("data_bytes", U32); ("kind", U32); ("status", U32); ("reserved0", U64)].

Definition R4RegistryKeyInfo : ctype := Struct [
  ("child_count", U32); ("value_count", U32); ("name", Array U8 64)].

Definition R4ServiceDetail : ctype := Struct [
  ("info", R4ServiceInfo); ("path", Array U8 128); ("args", Array U8 96); ("description", Array U8 80)].

Definition R4IpcSummary : ctype := Struct [
  ("max_channels", U32); ("active_channels", U32); ("max_message_size", U32); ("queue_depth", U32);
  ("sends", U64); ("receives", U64); ("drops", U64); ("errors", U64); ("echo_tests", U64)].

Definition R4IpcPerformanceSummary : ctype := Struct [
  ("version", U32); ("size", U32); ("worker_started", U32); ("worker_task_id", U32); ("active_channels", U32);
  ("queue_used", U32); ("queue_ready", U32); ("queue_running", U32); ("queue_limit", U32); ("reserved0", U32);
  ("handler_queued", U64); ("handler_completed", U64); ("handler_failures", U64); ("handler_direct", U64);
  ("handler_waits", U64); ("handler_wait_timeouts", U64); ("handler_queue_ns", U64);
  ("handler_queue_max_ns", U64); ("handler_run_ns", U64); ("handler_run_max_ns", U64);
  ("handler_e2e_ns", U64); ("handler_e2e_max_ns", U64); ("request_bytes", U64); ("response_bytes", U64);
  ("payload_copy_bytes", U64); ("payload_clear_bytes", U64); ("queue_full", U64); ("queue_empty", U64);
  ("admission_waits", U64); ("admission_timeouts", U64); ("recv_buffer_small", U64);
  ("response_search_slots", U64); ("stale_drops", U64); ("lock_contentions", U64); ("irq_denied", U64)].

Definition R4IpcChannelInfo : ctype := Struct [
  ("id", U32); ("active", U32); ("queued", U32); ("queue_depth", U32); ("max_message_size", U32);
  ("has_handler", U32); ("reserved0", U32); ("reserved1", U32); ("opens", U64); ("closes", U64);
  ("sends", U64); ("receives", U64); ("drops", U64); ("name", Array U8 16)].

Definition R4TcpSummary : ctype := Struct [
  ("max_connections", U32); ("active_connections", U32); ("buffer_size", U32); ("syn_tx", U64);
  ("synack_rx", U64); ("ack_tx", U64); ("data_tx", U64); ("data_rx", U64); ("fin_tx", U64); ("rst_rx", U64);
  ("checksum_errors", U64); ("timeouts", U64); ("self_tests", U64); ("active_listeners", U32);
  ("synack_tx", U64); ("listen_syn_rx", U64); ("accepts", U64); ("retransmits", U64); ("rx_drops", U64);
  ("last_source_port", U16); ("last_dest_port", U16); ("last_seq", U32); ("last_ack", U32);
  ("last_payload_len", U32)].

Definition R4TcpConnectionInfo : ctype := Struct [
  ("id", U32); ("state", U8); ("local_port", U16); ("remote_port", U16); ("remote_ip", Array U8 4);
  ("tx_bytes", U64); ("rx_bytes", U64); ("pending_rx", U32); ("retransmits", U32); ("rx_window", U32);
  ("tx_window", U32); ("tx_ack", U32); ("rx_drops", U32); ("seq", U32); ("ack", U32); ("last_seq", U32);
  ("last_ack", U32); ("last_flags", U16); ("last_payload_len", U16)].

Definition R4TcpAcceptResult : ctype := Struct [
  ("conn_id", U32); ("bytes", U32)].

Definition R4NetIpv4Packet : ctype := Struct [
  ("source_ip", Array U8 4); ("dest_ip", Array U8 4); ("protocol", U8); ("truncated", U8); ("reserved", U16);
  ("payload_len", U32)].

Definition R4NetConfigSnapshot : ctype := Struct [
  ("local_ip", Array U8 4); ("netmask", Array U8 4); ("gateway_ip", Array U8 4); ("dns_ip", Array U8 4);
  ("flags", U32); ("adapter_count", U32); ("invalid_options", U32); ("source", Array U8 16);
  ("adapter_name", Array U8 32); ("link", Array U8 12); ("last_error", Array U8 32); ("mac", Array U8 6);
  ("mtu", U16)].

Definition R4NetConfigRequest : ctype := Struct [
  ("local_ip", Array U8 16); ("netmask", Array U8 16); ("gateway_ip", Array U8 16); ("dns_ip", Array U8 16);
  ("flags", U32)].

Definition R4DhcpStatus : ctype := Struct [
  ("discover_tx", U64); ("offer_rx", U64); ("request_tx", U64); ("ack_rx", U64); ("nak_rx", U64);
  ("release_tx", U64); ("retries", U64); ("timeouts", U64); ("release_errors", U64); ("malformed", U64);
  ("self_tests", U64); ("xid", U32); ("offered_ip", Array U8 4); ("server_ip", Array U8 4);
  ("netmask", Array U8 4); ("gateway_ip", Array U8 4); ("dns_ip", Array U8 4); ("lease_seconds", U32);
  ("renew_seconds", U32); ("rebind_seconds", U32); ("flags", U32); ("last_attempt", U8); ("last_type", U8);
  ("runtime_state", U16); ("last_error", Array U8 32)].

Definition R4NetDetailProtocolRuntime : ctype := Struct [
  ("active_r4p", U8); ("r4p_state", U8); ("builtin_fallback", U8); ("fallback_policy", U8);
  ("fallback_decision", U8); ("reserved0", Array U8 3); ("r4p_rx", U64); ("r4p_tx", U64);
  ("r4p_control", U64); ("r4p_build", U64); ("r4p_classify", U64); ("fallbacks", U64);
  ("dispatch_failures", U64)].

Definition R4NetDetailAdapter : ctype := Struct [
  ("index", U32); ("count", U32); ("flags", U32); ("lifecycle", U32); ("bus_no", U8); ("device_no", U8);
  ("function_no", U8); ("class_code", U8); ("subclass", U8); ("prog_if", U8); ("irq_line", U8);
  ("irq_pin", U8); ("irq_mode", U8); ("irq_registered", U8); ("reserved0", U8); ("vendor_id", U16);
  ("device_id", U16); ("mac", Array U8 6); ("mtu", U16); ("name", Array U8 32); ("driver", Array U8 32);
  ("link", Array U8 12); ("state", Array U8 16); ("last_error", Array U8 32); ("registered_tick", U64);
  ("state_changed_tick", U64); ("rx_packets", U64); ("tx_packets", U64); ("rx_bytes", U64); ("tx_bytes", U64);
  ("drops", U64); ("errors", U64); ("resets", U64); ("backend_rx_packets", U64); ("backend_tx_packets", U64);
  ("backend_drops", U64); ("backend_errors", U64); ("irq_count", U64); ("irq_handled", U64);
  ("poll_count", U64); ("poll_fallbacks", U64); ("last_isr", U16); ("dhcp_retry_round", U16)].

Definition R4NetDetailEthernet : ctype := Struct [
  ("rx", U64); ("tx", U64); ("broadcast", U64); ("own_unicast", U64); ("dropped_short", U64);
  ("dropped_filter", U64); ("unknown_ethertype", U64); ("test_frames", U64); ("last_ethertype", U16);
  ("reserved", U16); ("last_error", Array U8 24)].

Definition R4NetDetailArp : ctype := Struct [
  ("requests_tx", U64); ("replies_tx", U64); ("replies_rx", U64); ("requests_rx", U64); ("malformed", U64);
  ("cache_updates", U64); ("cache_hits", U64); ("resolve_attempts", U64); ("resolve_retries", U64);
  ("resolve_timeouts", U64); ("resolve_misses", U64); ("pending_packets", U64); ("pending_timeouts", U64);
  ("pending_drops", U64); ("pending_queue_limit", U64); ("last_opcode", U16); ("reserved", U16);
  ("cache_ip", Array U8 4); ("cache_mac", Array U8 6); ("reserved1", U16); ("last_error", Array U8 24);
  ("cache_age_ticks", U64); ("cache_ttl_ticks", U64)].

Definition R4NetDetailIpv4 : ctype := Struct [
  ("rx_packets", U64); ("tx_packets", U64); ("dropped_short", U64); ("dropped_version", U64);
  ("dropped_checksum", U64); ("dropped_fragment", U64); ("dropped_destination", U64);
  ("dropped_tx_too_large", U64); ("malformed", U64); ("last_protocol", U8); ("reserved", Array U8 3);
  ("last_source", Array U8 4); ("last_dest", Array U8 4); ("last_error", Array U8 24)].

Definition R4NetDetailIcmp : ctype := Struct [
  ("rx_packets", U64); ("tx_packets", U64); ("echo_requests_rx", U64); ("echo_replies_rx", U64);
  ("echo_requests_tx", U64); ("echo_replies_tx", U64); ("destination_unreachable_rx", U64);
  ("port_unreachable_rx", U64); ("time_exceeded_rx", U64); ("malformed", U64); ("checksum_errors", U64);
  ("last_type", U8); ("last_code", U8); ("last_id", U16); ("last_seq", U16); ("reserved", U16);
  ("last_error", Array U8 24)].

Definition R4NetDetailUdp : ctype := Struct [
  ("rx_packets", U64); ("tx_packets", U64); ("dropped_short", U64); ("dropped_length", U64);
  ("checksum_errors", U64); ("malformed", U64); ("dhcp_rx", U64); ("dns_rx", U64); ("self_tests", U64);
  ("last_source_port", U16); ("last_dest_port", U16); ("last_error", Array U8 24)].

Definition R4NetDetailDns : ctype := Struct [
  ("queries_tx", U64); ("responses_rx", U64); ("a_records", U64); ("resolve_requests", U64);
  ("timeouts", U64); ("nxdomain", U64); ("tx_errors", U64); ("malformed", U64); ("self_tests", U64);
  ("last_id", U16); ("reserved", U16); ("last_result", U32); ("last_server", Array U8 4);
  ("last_answer", Array U8 4); ("last_error", Array U8 24)].

Definition R4NetDetailSnapshot : ctype := Struct [
  ("flags", U32); ("adapter_index", U32); ("config", R4NetConfigSnapshot); ("dhcp", R4DhcpStatus);
  ("tcp", R4TcpSummary); ("adapter", R4NetDetailAdapter); ("ethernet", R4NetDetailEthernet);
  ("arp", R4NetDetailArp); ("ipv4", R4NetDetailIpv4); ("icmp", R4NetDetailIcmp); ("udp", R4NetDetailUdp);
  ("dns", R4NetDetailDns); ("tcp_last_error", Array U8 32); ("protocols", Array R4NetDetailProtocolRuntime 9);
  ("tcp_connection_count", U32); ("link_generation", U32); ("tcp_connections", Array R4TcpConnectionInfo 8)].

Definition R4NetDiagTiming : ctype := Struct [
  ("ticks", U64); ("hz", U64); ("arp_cache_ttl_ticks", U64); ("arp_resolve_timeout_ticks", U64);
  ("dhcp_timeout_ticks", U64); ("dns_timeout_ticks", U64); ("tcp_listen_timeout_ticks", U64);
  ("tcp_retransmit_timeout_ticks", U64); ("tcp_time_wait_ticks", U64);
  ("service_operation_timeout_ticks", U64); ("operation_status_count", U32); ("reserved", U32)].

Definition R4NetDiagBackpressure : ctype := Struct [
  ("packet_pool_used", U32); ("packet_pool_limit", U32); ("app_ipv4_queued", U32);
  ("app_ipv4_queue_limit", U32); ("udp_active_sockets", U32); ("udp_socket_limit", U32);
  ("udp_queued_packets", U32); ("udp_queue_limit_total", U32); ("tcp_active_connections", U32);
  ("tcp_connection_limit", U32); ("tcp_active_listeners", U32); ("tcp_listener_limit", U32);
  ("tcp_buffer_size", U32); ("ipc_service_channels", U32); ("ipc_service_handlers", U32);
  ("ipc_service_queued", U32); ("ipc_service_queue_limit", U32); ("ipc_service_message_max", U32);
  ("ipc_service_queue_depth", U32); ("reserved", U32); ("packet_drops", U64); ("app_ipv4_drops", U64);
  ("udp_drops", U64); ("tcp_rx_drops", U64); ("ipc_service_drops", U64); ("tx_failures", U64);
  ("tx_no_adapter", U64); ("tx_link_down", U64); ("tx_busy", U64); ("tx_too_large", U64);
  ("tx_unsupported", U64); ("tx_backend_error", U64); ("resource_queue_full", U64);
  ("resource_packet_drops", U64); ("resource_buffer_small", U64); ("resource_retries", U64);
  ("resource_timeouts", U64); ("resource_cancels", U64); ("resource_backend_busy", U64);
  ("tx_last_result", Array U8 32); ("nonblocking_empty_status", Array U8 32)].

Definition R4NetDiagCleanup : ctype := Struct [
  ("runs", U64); ("link_down_cleanups", U64); ("adapter_reset_cleanups", U64);
  ("adapter_unregister_cleanups", U64); ("service_restart_cleanups", U64); ("poweroff_cleanups", U64);
  ("reboot_cleanups", U64); ("udp_sockets_closed", U64); ("tcp_connections_aborted", U64);
  ("tcp_listeners_closed", U64); ("dhcp_operations_cancelled", U64); ("dns_operations_cancelled", U64);
  ("last_udp_closed", U32); ("last_tcp_connections", U32); ("last_tcp_listeners", U32); ("reserved", U32);
  ("last_reason", Array U8 32)].

Definition R4NetDiagDriver : ctype := Struct [
  ("tests", U64); ("cases", U64)].

Definition R4NetDiagErrors : ctype := Struct [
  ("total", U64); ("packet_errors", U64); ("service_errors", U64); ("adapter_errors", U64);
  ("tx_failures", U64); ("protocol_errors", U64); ("r4p_dispatch_failures", U64);
  ("last_adapter_error", Array U8 32); ("last_protocol_error", Array U8 32)].

Definition R4NetDiagR4p : ctype := Struct [
  ("protocol_count", U32); ("active", U32); ("missing", U32); ("reserved", U32); ("r4p_rx", U64);
  ("r4p_tx", U64); ("r4p_control", U64); ("r4p_build", U64); ("r4p_classify", U64); ("dispatch_failures", U64)].

Definition R4NetDiagResult : ctype := Struct [
  ("op", U32); ("status", U32); ("flags", U32); ("reserved", U32); ("tests", U64); ("cases", U64);
  ("timing", R4NetDiagTiming); ("backpressure", R4NetDiagBackpressure); ("cleanup", R4NetDiagCleanup);
  ("driver", R4NetDiagDriver); ("errors", R4NetDiagErrors); ("r4p", R4NetDiagR4p)].

Definition R4Duration : ctype := Struct [
  ("nanoseconds", U64)].

Definition R4MonotonicInstant : ctype := Struct [
  ("nanoseconds", U64)].

Definition R4Deadline : ctype := Struct [
  ("nanoseconds", U64)].

Definition R4UtcTime : ctype := Struct [
  ("seconds_since_unix_epoch", U64); ("nanosecond", U32); ("reserved", U32)].

Definition R4Timeout : ctype := Struct [
  ("kind", U8); ("reserved", Array U8 7); ("nanoseconds", U64)].

Definition R4StopFlag : ctype := Struct [
  ("value", U32)].

Definition R4ProgramInstanceStorageSelfTestResult : ctype := Struct [
  ("version", U32); ("size", U32); ("cases", U32); ("passed_cases", U32); ("failed_case", U32);
  ("flags", U32); ("baseline_payload_reserved_bytes", U64); ("final_payload_reserved_bytes", U64);
  ("peak_payload_reserved_bytes", U64); ("allocation_failures_before", U64);
  ("allocation_failures_after", U64)].

Definition R4ProgramRegistrySummary : ctype := Struct [
  ("version", U32); ("size", U32); ("chunk_slots", U32); ("chunk_count", U32); ("slot_capacity", U32);
  ("free_slots", U32); ("reserved_slots", U32); ("live_slots", U32); ("done_slots", U32);
  ("retiring_slots", U32); ("pinned_slots", U32); ("warm_chunks", U32); ("last_admission_error", U32);
  ("flags", U32); ("peak_chunks", U64); ("peak_live", U64); ("growth_attempts", U64);
  ("growth_failures", U64); ("forced_failures", U64); ("publish_count", U64); ("rollback_count", U64);
  ("shrink_count", U64); ("id_collisions", U64); ("id_wraps", U64); ("live_id_hash", U64);
  ("live_address_hash", U64); ("reserved0", U64)].

Definition R4ProgramRegistrySummaryV2 : ctype := Struct [
  ("version", U32); ("size", U32); ("chunk_slots", U32); ("chunk_count", U32); ("slot_capacity", U32);
  ("free_slots", U32); ("reserved_slots", U32); ("live_slots", U32); ("done_slots", U32);
  ("retiring_slots", U32); ("pinned_slots", U32); ("warm_chunks", U32); ("last_admission_error", U32);
  ("flags", U32); ("peak_chunks", U64); ("peak_live", U64); ("growth_attempts", U64);
  ("growth_failures", U64); ("forced_failures", U64); ("publish_count", U64); ("rollback_count", U64);
  ("shrink_count", U64); ("id_collisions", U64); ("id_wraps", U64); ("live_id_hash", U64);
  ("live_address_hash", U64); ("reserved0", U64); ("next_generation", U64); ("completion_pending", U32);
  ("completion_ready", U32); ("completion_output_bytes", U64); ("retire_queued", U32);
  ("retire_deferred", U32); ("history_head", U32); ("history_count", U32); ("history_sequence", U64);
  ("completion_peak", U64); ("retire_retries", U64)].

Definition R4ProgramRegistrySelfTestResult : ctype := Struct [
  ("version", U32); ("size", U32); ("operation", U32); ("flags", U32); ("chunk_count_before", U32);
  ("slot_capacity_before", U32); ("free_slots_before", U32); ("reserved0", U32);
  ("growth_failures_before", U64); ("growth_failures_after", U64); ("forced_failures_before", U64);
  ("forced_failures_after", U64)].

Definition R4ProgramRegistrySelfTestResultV2 : ctype := Struct [
  ("version", U32); ("size", U32); ("operation", U32); ("flags", U32); ("chunk_count_before", U32);
  ("slot_capacity_before", U32); ("free_slots_before", U32); ("reserved0", U32);
  ("growth_failures_before", U64); ("growth_failures_after", U64); ("forced_failures_before", U64);
  ("forced_failures_after", U64); ("lifecycle_phase", U32); ("lifecycle_result", U32);
  ("retire_queued_before", U32); ("retire_queued_after", U32); ("completion_pending_before", U32);
  ("completion_pending_after", U32); ("completion_ready_before", U32); ("completion_ready_after", U32);
  ("retire_retries_before", U64); ("retire_retries_after", U64); ("history_sequence_before", U64);
  ("history_sequence_after", U64); ("requested_next_id", U32); ("applied_next_id", U32)].

Definition R4ProgramInventoryCursor : ctype := Struct [
  ("version", U32); ("size", U32); ("snapshot_generation", U64); ("program_epoch", U64); ("task_epoch", U64);
  ("thread_epoch", U64); ("program_after_generation", U64); ("task_after_generation", U64);
  ("thread_after_generation", U64); ("flags", U32); ("restarts", U32); ("reserved0", U64)].

Definition R4ProgramInventoryPageInfo : ctype := Struct [
  ("version", U32); ("size", U32); ("snapshot_generation", U64); ("next_generation", U64); ("total", U32);
  ("returned", U32); ("has_more", U32); ("kind", U32); ("status", U32); ("reserved0", U32)].

Definition R4ProgramInstanceSnapshot : ctype := Struct [
  ("version", U32); ("size", U32); ("handle", R4ProgramProcessHandle); ("info", R4ProgramInstanceInfo);
  ("state_generation", U64)].

Definition R4ProgramTaskSnapshot : ctype := Struct [
  ("version", U32); ("size", U32); ("task_id", U32); ("state", U32); ("owner_instance_id", U32);
  ("flags", U32); ("generation", U64); ("instance_generation", U64); ("created_tick", U64);
  ("last_run_tick", U64); ("wake_tick", U64); ("runtime_ticks", U64); ("exit_code", U32); ("reserved0", U32);
  ("reserved1", U64); ("reserved2", U64)].

Definition R4ProgramThreadSnapshot : ctype := Struct [
  ("version", U32); ("size", U32); ("handle", R4ProgramJoinHandle); ("info", R4ProgramThreadInfo);
  ("state_generation", U64)].

Definition R4ProgramInventorySummary : ctype := Struct [
  ("version", U32); ("size", U32); ("snapshot_generation", U64); ("program_epoch", U64); ("task_epoch", U64);
  ("thread_epoch", U64); ("program_total", U32); ("program_active", U32); ("program_done", U32);
  ("program_retiring", U32); ("completion_total", U32); ("task_total", U32); ("task_running", U32);
  ("task_ready", U32); ("task_blocked", U32); ("thread_total", U32); ("thread_running", U32);
  ("thread_done", U32); ("thread_joining", U32); ("program_peak", U32); ("task_peak", U32);
  ("thread_peak", U32); ("program_create_failures", U64); ("task_create_failures", U64);
  ("thread_create_failures", U64); ("rollback_failures", U64); ("last_error", U32); ("flags", U32);
  ("program_reserved", U32); ("heap_active_blocks", U32); ("heap_used_bytes", U64)].

Definition R4ProgramDriverWorkPerformanceMetrics : ctype := Struct [
  ("submitted", U64); ("submitted_actual_irq", U64); ("submitted_actual_task", U64);
  ("submitted_irq_class", U64); ("submitted_task_class", U64); ("started", U64); ("started_irq_class", U64);
  ("started_task_class", U64); ("completed", U64); ("completed_irq_class", U64);
  ("completed_task_class", U64); ("failed", U64); ("cancelled", U64); ("dropped", U64);
  ("full_rejections", U64); ("retained_full_rejections", U64); ("waits", U64); ("wait_timeouts", U64);
  ("wait_denied_irq", U64); ("wait_failed", U64); ("wait_total_ns", U64); ("wait_max_ns", U64);
  ("wait_last_ns", U64); ("wake_publications", U64); ("wake_waiters", U64); ("wake_misses", U64);
  ("releases", U64); ("release_busy", U64); ("release_wakes", U64); ("invalid_handles", U64);
  ("stale_handles", U64); ("publication_pending_releases", U64); ("waiter_blocked_releases", U64);
  ("claimed_releases", U64); ("queue_total_ns", U64); ("queue_max_ns", U64); ("queue_last_ns", U64);
  ("run_total_ns", U64); ("run_max_ns", U64); ("run_last_ns", U64); ("e2e_total_ns", U64);
  ("e2e_max_ns", U64); ("e2e_last_ns", U64); ("timing_unavailable", U64); ("completion_age_current_ns", U64);
  ("completion_age_max_ns", U64); ("selection_irq", U64); ("selection_task", U64);
  ("selection_irq_preferred", U64); ("selection_task_fairness", U64); ("selection_empty", U64);
  ("scan_passes", U64); ("scan_slots", U64); ("critical_sections", U64); ("critical_from_irq", U64);
  ("critical_timing_samples", U64); ("critical_timing_unavailable", U64); ("critical_total_ns", U64);
  ("critical_max_ns", U64); ("critical_last_ns", U64); ("cleanup_calls", U64); ("cleanup_quiesced", U64);
  ("cleanup_failed_context", U64); ("cleanup_queued_cancelled", U64); ("cleanup_waits", U64);
  ("cleanup_wait_timeouts", U64); ("cleanup_wait_failures", U64); ("cleanup_wait_total_ns", U64);
  ("cleanup_wait_max_ns", U64); ("cleanup_released", U64); ("cleanup_late_finishes", U64);
  ("cleanup_scan_passes", U64); ("cleanup_scan_slots", U64); ("long_callbacks", U64);
  ("waiter_enrollments", U64); ("waiter_wake_returns", U64); ("waiter_cancel_returns", U64);
  ("sleep_waits", U64); ("sleep_denied_irq", U64); ("sleep_total_ticks", U64)].

Definition R4ProgramDriverWorkPerformanceInfo : ctype := Struct [
  ("version", U32); ("size", U32); ("selected_owner", U32); ("owner_present", U32); ("initialized", U32);
  ("worker_started", U32); ("worker_task_id", U32); ("worker_count", U32); ("queue_capacity", U32);
  ("free_slots", U32); ("used_slots", U32); ("queued_slots", U32); ("running_slots", U32);
  ("completed_slots", U32); ("cancelled_slots", U32); ("irq_queued_slots", U32); ("task_queued_slots", U32);
  ("queue_high_water", U32); ("used_high_water", U32); ("retained_high_water", U32); ("irq_burst_limit", U32);
  ("current_irq_burst", U32); ("waiters_current", U32); ("waiters_max", U32); ("last_submitted_owner", U32);
  ("last_started_owner", U32); ("last_completed_owner", U32); ("last_cleanup_owner", U32);
  ("owner_used_slots", U32); ("owner_queued_slots", U32); ("owner_running_slots", U32);
  ("owner_completed_slots", U32); ("owner_cancelled_slots", U32); ("owner_irq_queued_slots", U32);
  ("owner_task_queued_slots", U32); ("owner_used_high_water", U32); ("owner_retained_high_water", U32);
  ("monotonic_clock_flags", U32); ("owner_waiters_current", U32); ("owner_waiters_max", U32);
  ("long_callback_threshold_ns", U64); ("metrics", R4ProgramDriverWorkPerformanceMetrics);
  ("deadline_worker_started", U32); ("deadline_worker_task_id", U32); ("deadline_worker_count", U32);
  ("deadline_queue_capacity", U32); ("deadline_queued_slots", U32); ("deadline_running_slots", U32);
  ("deadline_queue_high_water", U32); ("owner_deadline_queued_slots", U32);
  ("owner_deadline_running_slots", U32); ("owner_deadline_queue_high_water", U32);
  ("deadline_submitted", U64); ("deadline_started", U64); ("deadline_completed", U64);
  ("deadline_misses", U64); ("deadline_budget_overruns", U64); ("deadline_queue_rejections", U64);
  ("deadline_queue_total_ticks", U64); ("deadline_queue_max_ticks", U64);
  ("deadline_lateness_total_ticks", U64); ("deadline_lateness_max_ticks", U64)].

Definition R4ProgramPciInventoryPerformanceInfo : ctype := Struct [
  ("version", U32); ("size", U32); ("flags", U32); ("generation", U32); ("capacity", U32);
  ("mcfg_segment", U32); ("mcfg_start_bus", U32); ("mcfg_end_bus", U32); ("found", U64); ("stored", U64);
  ("dropped", U64); ("ecam_stored", U64); ("legacy_stored", U64); ("vendor_probes_ecam", U64);
  ("vendor_probes_legacy", U64); ("class_reads", U64); ("header_reads", U64);
  ("enumeration_config_reads", U64); ("function_pages", U64); ("early_stops", U64);
  ("ecam_config_reads", U64); ("ecam_config_writes", U64); ("legacy_config_reads", U64);
  ("legacy_config_writes", U64); ("mapping_checks", U64); ("mapping_hits", U64); ("mapping_misses", U64);
  ("mapping_fast_accesses", U64); ("invalid_accesses", U64); ("class_find_calls", U64);
  ("class_candidates", U64); ("detail_materializations", U64); ("interrupt_dword_reads", U64);
  ("command_reads", U64); ("bar_reads", U64); ("enumeration_total_ns", U64); ("ecam_enumeration_ns", U64);
  ("legacy_enumeration_ns", U64); ("timing_unavailable", U64)].

Definition R4ProgramInputPerformanceInfo : ctype := Struct [
  ("version", U32); ("size", U32); ("keyboard_queue_capacity", U32); ("keyboard_queue_pending", U32);
  ("keyboard_queue_high_water", U32); ("gui_queue_capacity", U32); ("gui_queue_pending", U32);
  ("gui_queue_high_water", U32); ("gui_queue_active", U32); ("console_queue_capacity", U32);
  ("console_queue_pending", U32); ("console_queue_high_water", U32); ("console_queue_active", U32);
  ("program_start_attach_pending", U32); ("i8042_irq1_count", U64); ("i8042_irq12_count", U64);
  ("i8042_byte_count", U64); ("i8042_keyboard_byte_count", U64); ("i8042_mouse_byte_count", U64);
  ("i8042_keyboard_bytes_on_irq12", U64); ("i8042_mouse_bytes_on_irq1", U64); ("i8042_drain_limit_hits", U64);
  ("keyboard_push_attempts", U64); ("keyboard_accepted", U64); ("keyboard_dropped", U64);
  ("gui_push_attempts", U64); ("gui_accepted", U64); ("gui_mouse_move_coalesced", U64);
  ("gui_mouse_move_evicted", U64); ("gui_rejected", U64); ("console_push_calls", U64);
  ("console_batch_calls", U64); ("console_bytes_attempted", U64); ("console_bytes_accepted", U64);
  ("console_full_events", U64); ("program_launch_attempts", U64); ("program_entries_started", U64);
  ("program_attach_wait_events", U64); ("console_read_calls", U64); ("console_read_empty", U64);
  ("console_read_bytes", U64); ("console_wait_calls", U64); ("console_wait_blocks", U64);
  ("console_wait_immediate", U64); ("console_wait_wakes", U64); ("console_wait_timeouts", U64);
  ("console_wait_cancellations", U64); ("console_output_write_calls", U64);
  ("console_output_source_bytes", U64); ("console_output_visible_append_bytes", U64);
  ("console_output_capture_append_bytes", U64); ("console_output_shared_bytes", U64);
  ("console_output_revision_batches", U64); ("console_output_desktop_signals", U64);
  ("console_output_compactions", U64); ("console_output_compaction_bytes", U64);
  ("console_output_segment_drops", U64); ("console_output_segment_drop_bytes", U64)].

Definition R4ServiceDeadlineFooter : ctype := Struct [
  ("magic", U32); ("version", U16); ("size", U16); ("payload_len", U32); ("reserved0", U32);
  ("deadline_tick", U64)].

Definition R4TrayDesktopExchange : ctype := Struct [
  ("magic", U32); ("version", U16); ("size", U16); ("desktop_owner", R4ProgramProcessHandle);
  ("known_revision", U64); ("cursor", U16); ("next_cursor", U16); ("flags", U32); ("result", U32);
  ("registered_count", U16); ("capacity", U16); ("desktop_epoch", U64); ("registry_revision", U64);
  ("event", R4TrayEvent); ("item", R4TrayServiceRequest); ("reserved0", Array U8 16)].

Definition R4GuiGlyphBitmap : ctype := Struct [
  ("width", U32); ("height", U32); ("advance", U32); ("line_height", U32); ("baseline", U32);
  ("reserved0", U32); ("rows", Array U64 40)].

Definition R4GuiXrgb32Resource : ctype := Struct [
  ("version", U32); ("size", U32); ("source_x", U32); ("source_y", U32); ("source_w", U32); ("source_h", U32);
  ("guest_w", U32); ("guest_h", U32); ("viewport_x", U32); ("viewport_y", U32); ("viewport_w", U32);
  ("viewport_h", U32); ("pixels_offset", U32); ("pixel_stride", U32); ("flags", U32); ("reserved0", U32)].

Definition R4GuiSharedRasterHandle : ctype := Struct [
  ("id", U64); ("generation", U64)].

Definition R4GuiSharedRasterCreateInfo : ctype := Struct [
  ("version", U32); ("size", U32); ("format", U32); ("width", U32); ("height", U32); ("stride_bytes", U32);
  ("data_offset", U32); ("flags", U32); ("data_bytes", U64); ("reserved0", U64)].

Definition R4GuiSharedRasterWriteMap : ctype := Struct [
  ("version", U32); ("size", U32); ("handle", R4GuiSharedRasterHandle); ("data_address", U64);
  ("byte_length", U64); ("write_token", U64); ("buffer_index", U32); ("reserved0", U32)].

Definition R4GuiSharedRasterLease : ctype := Struct [
  ("version", U32); ("size", U32); ("handle", R4GuiSharedRasterHandle); ("raster_generation", U64);
  ("lease_token", U64); ("reserved0", U64)].

Definition R4GuiSharedRasterMap : ctype := Struct [
  ("version", U32); ("size", U32); ("frame_owner", R4ProgramProcessHandle); ("frame_generation", U64);
  ("lease", R4GuiSharedRasterLease); ("data_address", U64); ("byte_length", U64); ("format", U32);
  ("width", U32); ("height", U32); ("stride_bytes", U32); ("data_offset", U32); ("flags", U32)].

Definition R4GuiSharedRasterResource : ctype := Struct [
  ("version", U32); ("size", U32); ("handle", R4GuiSharedRasterHandle); ("raster_generation", U64);
  ("format", U32); ("source_x", U32); ("source_y", U32); ("source_w", U32); ("source_h", U32);
  ("guest_w", U32); ("guest_h", U32); ("viewport_x", U32); ("viewport_y", U32); ("viewport_w", U32);
  ("viewport_h", U32); ("flags", U32)].

Definition R4TcpPerformanceInfo : ctype := Struct [
  ("version", U32); ("size", U32); ("local_mss", U32); ("catalog_capacity", U32); ("delayed_ack_ms", U32);
  ("local_window_scale", U32); ("outstanding_segments", U32); ("outstanding_bytes", U32);
  ("outstanding_segments_peak", U32); ("outstanding_bytes_peak", U32); ("write_calls", U64);
  ("write_requested_bytes", U64); ("write_completed_bytes", U64); ("write_segments", U64);
  ("write_partial", U64); ("remote_window_stalls", U64); ("catalog_stalls", U64);
  ("backend_busy_stalls", U64); ("pure_ack_tx", U64); ("delayed_ack_requests", U64); ("delayed_ack_tx", U64);
  ("immediate_ack_tx", U64); ("ack_coalesced", U64); ("ack_piggybacked", U64); ("window_update_tx", U64);
  ("adapter_poll_rounds", U64); ("service_poll_requests", U64); ("service_poll_skips", U64);
  ("retransmits", U64); ("mss_negotiated", U64); ("window_scale_negotiated", U64)].

Definition R4AudioOutputInfo : ctype := Struct [
  ("version", U32); ("size", U32); ("id", Array U8 64); ("name", Array U8 64); ("kind", U32);
  ("availability", U32); ("flags", U32); ("preferred_rate", U32); ("channels", U16); ("format", U16);
  ("reserved", U32)].

Definition R4AudioOutputExtension : ctype := Struct [
  ("query", U64); ("select", U64); ("active", U64)].

Definition R4AudioServiceOutputRequest : ctype := Struct [
  ("magic", U32); ("version", U16); ("size", U16); ("service_epoch", U64); ("revision", U64); ("index", U32);
  ("reserved", U32); ("id", Array U8 64)].

Definition R4AudioServiceOutputState : ctype := Struct [
  ("magic", U32); ("version", U16); ("size", U16); ("service_epoch", U64); ("revision", U64); ("count", U32);
  ("total", U32); ("index", U32); ("reason", U32); ("flags", U32); ("reserved", U32);
  ("desired_id", Array U8 64); ("active_id", Array U8 64); ("active_name", Array U8 64);
  ("outputs", Array R4AudioOutputInfo 8)].

Definition R4CpuCapacity : ctype := Struct [
  ("available_cpus", U32); ("configured_cpus", U32)].

Definition R4PlatformInputSnapshot : ctype := Struct [
  ("version", U32); ("size", U32); ("sequence", U64); ("brightness_up", U64); ("brightness_down", U64);
  ("lid_sequence", U64); ("lid_state", U32); ("capabilities", U32); ("sources", U32); ("reserved", U32);
  ("since_ns", U64)].

Definition R4LQuery : ctype := Struct [
  ("magic", U32); ("abi_version", U32); ("size", U32); ("group", U32); ("kernel_bridge", U64);
  ("reserved", U64)].

(** ** The static assertions *)

Definition R4BootInfoSummary_asserts : layout_asserts := LayoutAsserts R4BootInfoSummary 128 [
  ("flags", 0); ("memory_map_count", 4); ("max_memory_map_entries", 8); ("hhdm_offset", 16);
  ("framebuffer_address", 24); ("framebuffer_width", 32); ("framebuffer_height", 40);
  ("framebuffer_pitch", 48); ("framebuffer_bpp", 56); ("framebuffer_memory_model", 58);
  ("framebuffer_red_mask_size", 59); ("framebuffer_red_mask_shift", 60); ("framebuffer_green_mask_size", 61);
  ("framebuffer_green_mask_shift", 62); ("framebuffer_blue_mask_size", 63);
  ("framebuffer_blue_mask_shift", 64); ("edid_size", 72); ("edid_address", 80); ("rsdp_address", 88);
  ("bootloader_name", 96)].

Definition R4BootInfoMemoryEntry_asserts : layout_asserts := LayoutAsserts R4BootInfoMemoryEntry 24 [
  ("base", 0); ("length", 8); ("kind", 16); ("reserved", 17)].

Definition R4Mouse_asserts : layout_asserts := LayoutAsserts R4Mouse 32 [
  ("x", 0); ("y", 4); ("dx", 8); ("dy", 12); ("wheel", 16); ("buttons", 20); ("present", 21);
  ("reserved", 22); ("packets", 24)].

Definition R4ProgramStatus_asserts : layout_asserts := LayoutAsserts R4ProgramStatus 8 [
  ("foreground_running", 0); ("shell_running", 1); ("display_used", 2); ("instance_count", 3);
  ("last_exit_code", 4)].

Definition R4ProgramInstanceInfo_asserts : layout_asserts := LayoutAsserts R4ProgramInstanceInfo 112 [
  ("id", 0); ("task_id", 4); ("role", 8); ("app_class", 9); ("state", 10); ("flags", 11); ("exit_code", 12);
  ("window_id", 16); ("memory_profile", 20); ("reserved0", 21); ("memory_reserved_limit", 24);
  ("memory_committed_limit", 32); ("memory_resident_limit", 40); ("memory_reserved_bytes", 48);
  ("memory_committed_bytes", 56); ("memory_resident_bytes", 64); ("memory_peak_resident_bytes", 72);
  ("stack_reserved_bytes", 80); ("stack_committed_bytes", 88); ("memory_tag", 96)].

Definition R4ProgramThreadInfo_asserts : layout_asserts := LayoutAsserts R4ProgramThreadInfo 88 [
  ("version", 0); ("size", 4); ("thread_id", 8); ("instance_id", 12); ("task_id", 16); ("state", 20);
  ("flags", 24); ("exit_code", 28); ("stack_base", 32); ("stack_reserved_bytes", 40);
  ("stack_committed_bytes", 48); ("stack_guard_base", 56); ("created_tick", 64); ("finished_tick", 72);
  ("join_count", 80); ("reserved0", 84)].

Definition R4ProgramMemorySummary_asserts : layout_asserts := LayoutAsserts R4ProgramMemorySummary 360 [
  ("total_slots_used", 0); ("active_blocks", 8); ("released_blocks", 16); ("error_blocks", 24);
  ("physical_bytes", 32); ("virtual_bytes", 40); ("reserved_bytes", 48); ("committed_bytes", 56);
  ("free_physical_bytes", 64); ("largest_free_phys_base", 72); ("largest_free_phys_len", 80);
  ("largest_free_virtual_base", 88); ("largest_free_virtual_len", 96); ("app_system_reserve_frames", 104);
  ("app_available_frames", 112); ("by_kind", 120); ("by_owner", 232); ("by_status", 296); ("overflow", 352);
  ("reserved0", 356)].

Definition R4ProgramMemoryPressureSnapshot_asserts : layout_asserts := LayoutAsserts R4ProgramMemoryPressureSnapshot 200 [
  ("version", 0); ("size", 4); ("flags", 8); ("pressure_level", 12); ("oom_policy_flags", 16);
  ("reserved0", 20); ("total_physical_bytes", 24); ("free_physical_bytes", 32); ("used_physical_bytes", 40);
  ("largest_free_physical_bytes", 48); ("app_system_reserve_bytes", 56); ("app_available_bytes", 64);
  ("virtual_reserved_bytes", 72); ("virtual_committed_bytes", 80); ("virtual_resident_bytes", 88);
  ("largest_free_virtual_bytes", 96); ("committed_nonresident_bytes", 104); ("commit_budget_bytes", 112);
  ("commit_headroom_bytes", 120); ("reclaimable_bytes", 128); ("dirty_bytes", 136);
  ("non_reclaimable_bytes", 144); ("fault_count", 152); ("failed_faults", 160); ("reserved1", 168)].

Definition R4ProgramMemoryReclaimProbe_asserts : layout_asserts := LayoutAsserts R4ProgramMemoryReclaimProbe 176 [
  ("version", 0); ("size", 4); ("reason", 8); ("requested_frames", 12); ("returned_frames", 16);
  ("reserved0", 20); ("returned_bytes", 24); ("dirty_drains", 32); ("failed_drains", 40);
  ("before_free_frames", 48); ("after_free_frames", 56); ("elapsed_ticks", 64); ("total_attempts", 72);
  ("total_successes", 80); ("total_failures", 88); ("fs_returned_frames", 96); ("vm_returned_frames", 100);
  ("vm_page_outs_lo", 104); ("vm_failures_lo", 108); ("fs_returned_bytes", 112); ("vm_returned_bytes", 120);
  ("vm_page_outs", 128); ("vm_failures", 136); ("reserved1", 144)].

Definition R4ProgramMemoryBackingStoreProbe_asserts : layout_asserts := LayoutAsserts R4ProgramMemoryBackingStoreProbe 120 [
  ("version", 0); ("size", 4); ("status", 8); ("flags", 12); ("blockers", 16); ("pager_enabled", 20);
  ("anonymous_paging_enabled", 24); ("cluster_bytes", 28); ("requested_bytes", 32); ("available_bytes", 40);
  ("file_size", 48); ("first_cluster", 56); ("reserved0", 60); ("total_probes", 64); ("total_ready", 72);
  ("total_failures", 80); ("reserved1", 88)].

Definition R4ProgramMemoryBackingStoreSlotProbe_asserts : layout_asserts := LayoutAsserts R4ProgramMemoryBackingStoreSlotProbe 232 [
  ("version", 0); ("size", 4); ("status", 8); ("operation", 12); ("flags", 16); ("blockers", 20);
  ("slot_bytes", 24); ("max_ranges", 28); ("pager_enabled", 32); ("eviction_enabled", 36);
  ("page_in_enabled", 40); ("page_out_enabled", 44); ("reservation_id", 48); ("owner_kind", 52);
  ("owner_id", 56); ("region_id", 60); ("range_count", 64); ("reserved0", 68); ("capacity_slots", 72);
  ("requested_slots", 80); ("reserved_slots", 88); ("free_slots", 96); ("valid_slots", 104);
  ("dirty_slots", 112); ("error_slots", 120); ("first_slot", 128); ("slot_count", 136); ("generation", 144);
  ("total_probes", 152); ("total_reserves", 160); ("total_releases", 168); ("total_error_marks", 176);
  ("total_recoveries", 184); ("total_failures", 192); ("lifecycle_cleanup_count", 200);
  ("lifecycle_released_ranges", 208); ("lifecycle_released_slots", 216); ("reserved1", 224)].

Definition R4ProgramMemoryPagerGateProbe_asserts : layout_asserts := LayoutAsserts R4ProgramMemoryPagerGateProbe 248 [
  ("version", 0); ("size", 4); ("status", 8); ("flags", 12); ("blockers", 16); ("region_id", 20);
  ("owner_id", 24); ("slot_bytes", 28); ("requested_bytes", 32); ("committed_bytes", 40);
  ("resident_bytes", 48); ("nonresident_bytes", 56); ("requested_slots", 64); ("prepared_slots", 72);
  ("capacity_slots", 80); ("free_before_slots", 88); ("free_after_slots", 96); ("reserved_before_slots", 104);
  ("reserved_after_slots", 112); ("slot_reservation_id", 120); ("rollback_completed", 124);
  ("commit_gate_enabled", 128); ("fault_gate_enabled", 132); ("pager_enabled", 136);
  ("eviction_enabled", 140); ("page_in_enabled", 144); ("page_out_enabled", 148); ("reserved0", 152);
  ("slot_generation", 160); ("fault_count", 168); ("failed_faults", 176); ("total_probes", 184);
  ("total_ready", 192); ("total_rollbacks", 200); ("total_failures", 208); ("reserved1", 216)].

Definition R4ProgramMemoryPageIoProbe_asserts : layout_asserts := LayoutAsserts R4ProgramMemoryPageIoProbe 304 [
  ("version", 0); ("size", 4); ("status", 8); ("operation", 12); ("flags", 16); ("blockers", 20);
  ("region_id", 24); ("reservation_id", 28); ("owner_kind", 32); ("owner_id", 36); ("slot_bytes", 40);
  ("io_bytes", 44); ("io_status", 48); ("page_count_lo", 52); ("region_offset", 56); ("committed_bytes", 64);
  ("resident_bytes", 72); ("slot_index", 80); ("page_count", 88); ("transfer_bytes", 96);
  ("expected_generation", 104); ("backing_slot", 112); ("backing_offset", 120); ("capacity_slots", 128);
  ("reserved_slots", 136); ("valid_slots", 144); ("dirty_slots", 152); ("error_slots", 160);
  ("pager_enabled", 168); ("eviction_enabled", 172); ("page_in_enabled", 176); ("page_out_enabled", 180);
  ("slot_generation", 184); ("total_prepares", 192); ("total_page_outs", 200); ("total_page_ins", 208);
  ("total_failures", 216); ("retry_limit", 224); ("backoff_ticks", 228); ("reserved1", 232);
  ("total_retry_attempts", 240); ("total_retryable_failures", 248); ("total_permanent_failures", 256);
  ("total_retry_limit_hits", 264); ("total_failed_page_outs", 272); ("total_failed_page_ins", 280);
  ("total_data_preserved_pages", 288); ("total_data_lost_pages", 296)].

Definition R4ProgramMemoryVmPageStateProbe_asserts : layout_asserts := LayoutAsserts R4ProgramMemoryVmPageStateProbe 288 [
  ("version", 0); ("size", 4); ("status", 8); ("operation", 12); ("flags", 16); ("blockers", 20);
  ("region_id", 24); ("page_size", 28); ("max_spans", 32); ("span_count", 36); ("slot_reservation_id", 40);
  ("page_count_lo", 44); ("region_offset", 48); ("page_count", 56); ("committed_pages", 64);
  ("resident_pages", 72); ("nonresident_pages", 80); ("dirty_pages", 88); ("clean_pages", 96);
  ("pinned_pages", 104); ("busy_pages", 112); ("error_pages", 120); ("slot_bound_pages", 128);
  ("slot_index", 136); ("slot_generation", 144); ("total_transitions", 152); ("dirty_marks", 160);
  ("clean_marks", 168); ("slot_binds", 176); ("slot_clears", 184); ("pinned_marks", 192);
  ("pinned_clears", 200); ("busy_marks", 208); ("busy_clears", 216); ("error_marks", 224);
  ("error_clears", 232); ("table_full_failures", 240); ("cleanup_pages", 248); ("reserved1", 256)].

Definition R4ProgramPerformanceSummary_asserts : layout_asserts := LayoutAsserts R4ProgramPerformanceSummary 6352 [
  ("version", 0); ("size", 4); ("flags", 8); ("missing_flags", 12); ("ticks", 16); ("tick_hz", 24);
  ("current_task_index", 28); ("task_max_count", 32); ("task_count", 36); ("task_ready", 40);
  ("task_running", 44); ("task_blocked", 48); ("task_dead", 52); ("task_workers", 56);
  ("scheduler_yields", 64); ("scheduler_sleeps", 72); ("scheduler_wakes", 80); ("scheduler_idle_waits", 88);
  ("boot_phase_count", 96); ("boot_current_phase", 100); ("reserved0", 104); ("boot_transition_count", 112);
  ("boot_total_ticks", 120); ("storage_device_count", 128); ("storage_queue_depth_total", 132);
  ("storage_queue_used_total", 136); ("storage_queue_high_water_total", 140); ("storage_busy_devices", 144);
  ("storage_failed_devices", 148); ("storage_read_ops", 152); ("storage_read_sectors", 160);
  ("storage_read_failures", 168); ("storage_write_ops", 176); ("storage_write_sectors", 184);
  ("storage_write_failures", 192); ("storage_flush_ops", 200); ("storage_flush_failures", 208);
  ("storage_busy_rejections", 216); ("storage_timeout_failures", 224); ("storage_completions", 232);
  ("storage_backend_recoveries", 240); ("storage_backend_recovery_failures", 248);
  ("storage_queued_requests", 256); ("storage_dequeued_requests", 264); ("storage_queue_full_waits", 272);
  ("storage_queue_full_rejections", 280); ("storage_completion_waits", 288);
  ("storage_completion_timeouts", 296); ("storage_completion_total_ticks", 304);
  ("storage_completion_max_ticks", 312); ("storage_completion_last_ticks", 320); ("fs_requests", 328);
  ("fs_completed", 336); ("fs_failed", 344); ("fs_read_requests", 352); ("fs_write_requests", 360);
  ("fs_metadata_requests", 368); ("fs_stream_requests", 376); ("fs_lock_acquires", 384);
  ("fs_lock_contention_waits", 392); ("fs_lock_timeouts", 400); ("fs_boot_bypass", 408);
  ("fs_total_ticks", 416); ("fs_max_ticks", 424); ("fs_last_ticks", 432); ("fs_active_kind", 440);
  ("fs_last_kind", 444); ("fs_active_drive", 448); ("fs_last_drive", 452); ("service_max_count", 456);
  ("services_used", 460); ("services_running", 464); ("service_endpoints", 468);
  ("service_request_pending", 472); ("service_response_pending", 476); ("service_queue_depth_total", 480);
  ("service_queue_used_total", 484); ("service_queue_high_water_total", 488); ("service_active_workers", 492);
  ("service_max_active_workers", 496); ("service_open_handles", 500); ("service_requests", 504);
  ("service_responses", 512); ("service_drops", 520); ("service_busy_rejections", 528);
  ("service_timeouts", 536); ("service_cancellations", 544); ("service_completion_waits", 552);
  ("service_completion_timeouts", 560); ("tcp_max_connections", 568); ("tcp_active_connections", 572);
  ("tcp_active_listeners", 576); ("tcp_buffer_size", 580); ("tcp_data_tx", 584); ("tcp_data_rx", 592);
  ("tcp_retransmits", 600); ("tcp_rx_drops", 608); ("tcp_timeouts", 616); ("tcp_checksum_errors", 624);
  ("display_present_count", 632); ("display_present_bytes_total", 640); ("display_last_present_bytes", 648);
  ("display_full_present_count", 656); ("display_partial_present_count", 664); ("audio_open_streams", 672);
  ("audio_registered_backends", 676); ("audio_active_backends", 680); ("audio_registered_synths", 684);
  ("audio_stream_writes", 688); ("audio_backend_ok", 696); ("audio_backend_fail", 704);
  ("audio_backend_underruns", 712); ("audio_backend_errors", 720); ("wait_object_waits", 728);
  ("wait_object_wakes", 736); ("wait_object_timeouts", 744); ("wait_object_cancellations", 752);
  ("wait_queue_waits", 760); ("wait_queue_wake_one", 768); ("wait_queue_wake_all", 776);
  ("wait_queue_timeouts", 784); ("wait_queue_cancellations", 792); ("wait_queue_drops", 800);
  ("lock_acquires", 808); ("lock_releases", 816); ("lock_recursive_acquires", 824);
  ("lock_contention_waits", 832); ("lock_contention_timeouts", 840); ("lock_order_violations", 848);
  ("lock_sleep_checks", 856); ("lock_sleep_under_lock", 864); ("lock_sleep_under_no_sleep_lock", 872);
  ("lock_unlock_mismatches", 880); ("lock_held_slots_used", 888); ("lock_current_depth", 892);
  ("lock_max_depth", 896); ("lock_tracking_drops", 900); ("preemption_supported", 904);
  ("preemption_enabled", 908); ("preemption_test_mode", 912); ("preemption_gate_mask", 916);
  ("preempt_disable_depth", 920); ("preempt_disable_max_depth", 924); ("reserved1", 928);
  ("preempt_disable_underflows", 936); ("preempt_disable_calls", 944); ("preempt_enable_calls", 952);
  ("preemption_simulation_ticks", 960); ("fpu_lazy_saves", 968); ("fpu_lazy_skips", 976);
  ("preemption_eligible_ticks", 984); ("preemption_deferred_disabled", 992);
  ("preemption_deferred_critical", 1000); ("preemption_deferred_no_task", 1008);
  ("preemption_deferred_no_ready", 1016); ("preemption_switch_ticks", 1024);
  ("long_running_task_warnings", 1032); ("starvation_warnings", 1040); ("fpu_state_supported", 1048);
  ("fpu_state_enabled", 1052); ("fpu_state_backend", 1056); ("fpu_state_bytes", 1060);
  ("fpu_state_storage_bytes", 1064); ("fpu_task_state_count", 1068); ("fpu_avx_supported", 1072);
  ("fpu_avx_enabled", 1076); ("fpu_avx2_supported", 1080); ("fpu_avx2_enabled", 1084); ("fpu_simd_abi", 1088);
  ("fpu_xsave_required_bytes", 1092); ("fpu_xcr0_mask", 1096); ("fpu_save_count", 1104);
  ("fpu_restore_count", 1112); ("fpu_task_init_count", 1120); ("fpu_task_state_bytes", 1128);
  ("fs_cache_capacity", 1136); ("fs_cache_sector_bytes", 1140); ("fs_cache_entries_used", 1144);
  ("fs_cache_dirty_entries", 1148); ("fs_cache_reads", 1152); ("fs_cache_hits", 1160);
  ("fs_cache_misses", 1168); ("fs_cache_fills", 1176); ("fs_cache_evictions", 1184);
  ("fs_cache_invalidations", 1192); ("fs_cache_write_through_requests", 1200);
  ("fs_cache_write_through_updates", 1208); ("fs_cache_flushes", 1216); ("fs_cache_read_errors", 1224);
  ("fs_cache_write_errors", 1232); ("fs_cache_writeback_waits", 1240); ("fs_cache_writeback_errors", 1248);
  ("fs_cache_dirty_bytes", 1256); ("fs_cache_dirty_high_water_entries", 1264);
  ("fs_cache_writeback_queue_depth", 1268); ("fs_cache_writeback_queue_high_water", 1272);
  ("fs_cache_deferred_write_requests", 1280); ("fs_cache_dirty_sector_updates", 1288);
  ("fs_cache_writeback_drains", 1296); ("fs_cache_writeback_sectors", 1304);
  ("fs_cache_writeback_pressure_drains", 1312); ("fs_cache_writeback_flush_drains", 1320);
  ("fs_cache_writeback_total_ticks", 1328); ("fs_cache_writeback_max_ticks", 1336);
  ("fs_cache_writeback_last_ticks", 1344); ("fs_cache_writeback_retries", 1352);
  ("fs_cache_clean_reclaimable_entries", 1360); ("fs_cache_dirty_non_reclaimable_entries", 1364);
  ("fs_cache_pagefile_ready", 1368); ("fs_cache_pagefile_blockers", 1372);
  ("fs_cache_clean_reclaimable_bytes", 1376); ("fs_cache_dirty_non_reclaimable_bytes", 1384);
  ("fs_cache_reclaim_scans", 1392); ("fs_cache_reclaim_clean_entries", 1400);
  ("fs_cache_reclaim_dirty_drains", 1408); ("fs_cache_reclaim_failed_drains", 1416);
  ("fs_cache_payload_frame_bytes", 1424); ("fs_cache_payload_frames", 1428); ("fs_cache_payload_bytes", 1432);
  ("fs_cache_pmm_reclaimable_bytes", 1440); ("fs_cache_pmm_dirty_bytes", 1448);
  ("fs_cache_payload_allocations", 1456); ("fs_cache_payload_allocation_failures", 1464);
  ("fs_cache_payload_releases", 1472); ("fs_cache_reclaim_returned_frames", 1480);
  ("fs_cache_reclaim_returned_bytes", 1488); ("global_reclaim_attempts", 1496);
  ("global_reclaim_successes", 1504); ("global_reclaim_failures", 1512);
  ("global_reclaim_requested_frames", 1520); ("global_reclaim_returned_frames", 1528);
  ("global_reclaim_returned_bytes", 1536); ("global_reclaim_dirty_drains", 1544);
  ("global_reclaim_failed_drains", 1552); ("global_reclaim_total_ticks", 1560);
  ("global_reclaim_max_ticks", 1568); ("global_reclaim_last_ticks", 1576);
  ("global_reclaim_last_reason", 1584); ("global_reclaim_last_requested_frames", 1588);
  ("global_reclaim_last_returned_frames", 1592); ("global_reclaim_reserved0", 1596);
  ("global_reclaim_fs_returned_frames", 1600); ("global_reclaim_fs_returned_bytes", 1608);
  ("global_reclaim_vm_returned_frames", 1616); ("global_reclaim_vm_returned_bytes", 1624);
  ("global_reclaim_vm_page_outs", 1632); ("global_reclaim_vm_failures", 1640);
  ("memory_backing_store_status", 1648); ("memory_backing_store_flags", 1652);
  ("memory_backing_store_blockers", 1656); ("memory_backing_store_cluster_bytes", 1660);
  ("memory_backing_store_requested_bytes", 1664); ("memory_backing_store_available_bytes", 1672);
  ("memory_backing_store_file_size", 1680); ("memory_backing_store_probe_count", 1688);
  ("memory_backing_store_ready_count", 1696); ("memory_backing_store_failure_count", 1704);
  ("memory_backing_store_first_cluster", 1712); ("memory_backing_store_pager_enabled", 1716);
  ("memory_backing_store_anonymous_paging_enabled", 1720); ("memory_backing_store_reserved0", 1724);
  ("memory_backing_store_slot_status", 1728); ("memory_backing_store_slot_operation", 1732);
  ("memory_backing_store_slot_flags", 1736); ("memory_backing_store_slot_blockers", 1740);
  ("memory_backing_store_slot_bytes", 1744); ("memory_backing_store_slot_max_ranges", 1748);
  ("memory_backing_store_slot_range_count", 1752); ("memory_backing_store_slot_last_owner_kind", 1756);
  ("memory_backing_store_slot_capacity", 1760); ("memory_backing_store_slot_reserved", 1768);
  ("memory_backing_store_slot_free", 1776); ("memory_backing_store_slot_valid", 1784);
  ("memory_backing_store_slot_dirty", 1792); ("memory_backing_store_slot_error", 1800);
  ("memory_backing_store_slot_last_reservation_id", 1808); ("memory_backing_store_slot_last_owner_id", 1812);
  ("memory_backing_store_slot_last_region_id", 1816); ("memory_backing_store_slot_pager_enabled", 1820);
  ("memory_backing_store_slot_eviction_enabled", 1824); ("memory_backing_store_slot_page_in_enabled", 1828);
  ("memory_backing_store_slot_page_out_enabled", 1832); ("memory_backing_store_slot_reserved1", 1836);
  ("memory_backing_store_slot_last_first_slot", 1840); ("memory_backing_store_slot_last_slot_count", 1848);
  ("memory_backing_store_slot_generation", 1856); ("memory_backing_store_slot_probe_count", 1864);
  ("memory_backing_store_slot_reserve_count", 1872); ("memory_backing_store_slot_release_count", 1880);
  ("memory_backing_store_slot_error_mark_count", 1888); ("memory_backing_store_slot_recovery_count", 1896);
  ("memory_backing_store_slot_failure_count", 1904);
  ("memory_backing_store_slot_lifecycle_cleanup_count", 1912);
  ("memory_backing_store_slot_lifecycle_released_ranges", 1920);
  ("memory_backing_store_slot_lifecycle_released_slots", 1928); ("memory_pager_gate_status", 1936);
  ("memory_pager_gate_flags", 1940); ("memory_pager_gate_blockers", 1944);
  ("memory_pager_gate_region_id", 1948); ("memory_pager_gate_owner_id", 1952);
  ("memory_pager_gate_slot_bytes", 1956); ("memory_pager_gate_rollback_completed", 1960);
  ("memory_pager_gate_reserved0", 1964); ("memory_pager_gate_requested_bytes", 1968);
  ("memory_pager_gate_committed_bytes", 1976); ("memory_pager_gate_resident_bytes", 1984);
  ("memory_pager_gate_nonresident_bytes", 1992); ("memory_pager_gate_requested_slots", 2000);
  ("memory_pager_gate_prepared_slots", 2008); ("memory_pager_gate_capacity_slots", 2016);
  ("memory_pager_gate_free_before_slots", 2024); ("memory_pager_gate_free_after_slots", 2032);
  ("memory_pager_gate_reserved_before_slots", 2040); ("memory_pager_gate_reserved_after_slots", 2048);
  ("memory_pager_gate_last_reservation_id", 2056); ("memory_pager_gate_commit_gate_enabled", 2060);
  ("memory_pager_gate_fault_gate_enabled", 2064); ("memory_pager_gate_pager_enabled", 2068);
  ("memory_pager_gate_eviction_enabled", 2072); ("memory_pager_gate_page_in_enabled", 2076);
  ("memory_pager_gate_page_out_enabled", 2080); ("memory_pager_gate_reserved1", 2084);
  ("memory_pager_gate_slot_generation", 2088); ("memory_pager_gate_fault_count", 2096);
  ("memory_pager_gate_failed_faults", 2104); ("memory_pager_gate_probe_count", 2112);
  ("memory_pager_gate_ready_count", 2120); ("memory_pager_gate_rollback_count", 2128);
  ("memory_pager_gate_failure_count", 2136); ("memory_page_io_status", 2144);
  ("memory_page_io_operation", 2148); ("memory_page_io_flags", 2152); ("memory_page_io_blockers", 2156);
  ("memory_page_io_region_id", 2160); ("memory_page_io_reservation_id", 2164);
  ("memory_page_io_owner_kind", 2168); ("memory_page_io_owner_id", 2172); ("memory_page_io_slot_bytes", 2176);
  ("memory_page_io_io_bytes", 2180); ("memory_page_io_io_status", 2184);
  ("memory_page_io_pager_enabled", 2188); ("memory_page_io_eviction_enabled", 2192);
  ("memory_page_io_page_in_enabled", 2196); ("memory_page_io_page_out_enabled", 2200);
  ("memory_page_io_reserved0", 2204); ("memory_page_io_region_offset", 2208);
  ("memory_page_io_page_count", 2216); ("memory_page_io_transfer_bytes", 2224);
  ("memory_page_io_expected_generation", 2232); ("memory_page_io_backing_slot", 2240);
  ("memory_page_io_backing_offset", 2248); ("memory_page_io_capacity_slots", 2256);
  ("memory_page_io_reserved_slots", 2264); ("memory_page_io_valid_slots", 2272);
  ("memory_page_io_dirty_slots", 2280); ("memory_page_io_error_slots", 2288);
  ("memory_page_io_slot_generation", 2296); ("memory_page_io_prepare_count", 2304);
  ("memory_page_io_page_out_count", 2312); ("memory_page_io_page_in_count", 2320);
  ("memory_page_io_failure_count", 2328); ("memory_vm_page_state_status", 2336);
  ("memory_vm_page_state_operation", 2340); ("memory_vm_page_state_flags", 2344);
  ("memory_vm_page_state_blockers", 2348); ("memory_vm_page_state_region_id", 2352);
  ("memory_vm_page_state_page_size", 2356); ("memory_vm_page_state_max_spans", 2360);
  ("memory_vm_page_state_span_count", 2364); ("memory_vm_page_state_slot_reservation_id", 2368);
  ("memory_vm_page_state_page_count_lo", 2372); ("memory_vm_page_state_reserved0", 2376);
  ("memory_vm_page_state_region_offset", 2384); ("memory_vm_page_state_page_count", 2392);
  ("memory_vm_page_state_committed_pages", 2400); ("memory_vm_page_state_resident_pages", 2408);
  ("memory_vm_page_state_nonresident_pages", 2416); ("memory_vm_page_state_dirty_pages", 2424);
  ("memory_vm_page_state_clean_pages", 2432); ("memory_vm_page_state_pinned_pages", 2440);
  ("memory_vm_page_state_busy_pages", 2448); ("memory_vm_page_state_error_pages", 2456);
  ("memory_vm_page_state_slot_bound_pages", 2464); ("memory_vm_page_state_slot_index", 2472);
  ("memory_vm_page_state_slot_generation", 2480); ("memory_vm_page_state_transition_count", 2488);
  ("memory_vm_page_state_dirty_mark_count", 2496); ("memory_vm_page_state_clean_mark_count", 2504);
  ("memory_vm_page_state_slot_bind_count", 2512); ("memory_vm_page_state_slot_clear_count", 2520);
  ("memory_vm_page_state_pinned_mark_count", 2528); ("memory_vm_page_state_pinned_clear_count", 2536);
  ("memory_vm_page_state_busy_mark_count", 2544); ("memory_vm_page_state_busy_clear_count", 2552);
  ("memory_vm_page_state_error_mark_count", 2560); ("memory_vm_page_state_error_clear_count", 2568);
  ("memory_vm_page_state_table_full_failures", 2576); ("memory_vm_page_state_cleanup_pages", 2584);
  ("memory_vm_page_state_fault_page_in_count", 2592);
  ("memory_vm_page_state_fault_page_in_failure_count", 2600);
  ("memory_vm_page_state_page_out_nonresident_pages", 2608); ("memory_vm_eviction_attempt_count", 2616);
  ("memory_vm_eviction_success_count", 2624); ("memory_vm_eviction_failure_count", 2632);
  ("memory_vm_eviction_candidate_count", 2640); ("memory_vm_eviction_page_out_count", 2648);
  ("memory_vm_eviction_clean_page_count", 2656); ("memory_vm_eviction_dirty_page_count", 2664);
  ("memory_vm_eviction_returned_frames", 2672); ("memory_vm_eviction_no_backing_count", 2680);
  ("memory_vm_eviction_no_candidate_count", 2688); ("memory_vm_eviction_slot_failure_count", 2696);
  ("memory_vm_eviction_io_failure_count", 2704); ("memory_vm_eviction_skipped_nonresident", 2712);
  ("memory_vm_eviction_skipped_pinned", 2720); ("memory_vm_eviction_skipped_busy", 2728);
  ("memory_vm_eviction_skipped_error", 2736); ("memory_vm_eviction_skipped_unmapped", 2744);
  ("memory_page_io_retry_attempt_count", 2752); ("memory_page_io_retryable_failure_count", 2760);
  ("memory_page_io_permanent_failure_count", 2768); ("memory_page_io_retry_limit_hit_count", 2776);
  ("memory_page_io_failed_page_out_count", 2784); ("memory_page_io_failed_page_in_count", 2792);
  ("memory_page_io_data_preserved_pages", 2800); ("memory_page_io_data_lost_pages", 2808);
  ("memory_vm_pager_failed_page_out_count", 2816); ("memory_vm_pager_failed_page_in_count", 2824);
  ("memory_vm_pager_data_preserved_pages", 2832); ("memory_vm_pager_data_lost_pages", 2840);
  ("memory_vm_pager_dirty_preserved_pages", 2848); ("memory_vm_pager_disabled_eviction_gates", 2856);
  ("preemption_quantum_ticks", 2864); ("preemption_reserved4", 2868); ("preemption_quantum_expired", 2872);
  ("preemption_deferred_quantum", 2880); ("preemption_deferred_kernel_ip", 2888);
  ("preemption_app_code_ticks", 2896); ("scheduler_ready_latency_samples", 2904);
  ("scheduler_ready_latency_total_ticks", 2912); ("scheduler_ready_latency_max_ticks", 2920);
  ("scheduler_ready_latency_last_ticks", 2928); ("scheduler_ready_waiting_max_ticks", 2936);
  ("scheduler_run_without_switch_max_ticks", 2944); ("scheduler_quantum_overrun_count", 2952);
  ("scheduler_quantum_overrun_max_ticks", 2960); ("scheduler_preemption_deferred_max_ticks", 2968);
  ("scheduler_long_running_warn_ticks", 2976); ("scheduler_starvation_warn_ticks", 2984);
  ("wait_object_total_ticks", 2992); ("wait_object_max_ticks", 3000); ("wait_object_last_ticks", 3008);
  ("wait_queue_total_ticks", 3016); ("wait_queue_max_ticks", 3024); ("wait_queue_last_ticks", 3032);
  ("driver_work_capacity", 3040); ("driver_work_depth", 3044); ("driver_work_high_water", 3048);
  ("driver_work_worker_started", 3052); ("driver_work_submitted", 3056);
  ("driver_work_submitted_from_irq", 3064); ("driver_work_submitted_from_task", 3072);
  ("driver_work_started", 3080); ("driver_work_completed", 3088); ("driver_work_failed", 3096);
  ("driver_work_cancelled", 3104); ("driver_work_dropped", 3112); ("driver_work_waits", 3120);
  ("driver_work_wait_timeouts", 3128); ("driver_work_wait_denied_irq", 3136);
  ("driver_work_wait_total_ticks", 3144); ("driver_work_wait_max_ticks", 3152);
  ("driver_work_wait_last_ticks", 3160); ("driver_work_queue_total_ticks", 3168);
  ("driver_work_queue_max_ticks", 3176); ("driver_work_queue_last_ticks", 3184);
  ("driver_work_run_total_ticks", 3192); ("driver_work_run_max_ticks", 3200);
  ("driver_work_run_last_ticks", 3208); ("driver_work_releases", 3216); ("driver_work_invalid_handles", 3224);
  ("driver_work_cleanup_cancelled", 3232); ("driver_wait_ticks_calls", 3240);
  ("driver_wait_ticks_denied_irq", 3248); ("driver_wait_ticks_total", 3256); ("storage_worker_started", 3264);
  ("storage_worker_task_id", 3268); ("storage_worker_wakeups", 3272); ("storage_worker_runs", 3280);
  ("storage_worker_idle_waits", 3288); ("storage_worker_queue_scans", 3296);
  ("storage_worker_runtime_requests", 3304); ("storage_worker_runtime_completions", 3312);
  ("storage_boot_inline_requests", 3320); ("storage_boot_inline_completions", 3328);
  ("storage_completion_signals", 3336); ("display_present_total_ticks", 3344);
  ("display_present_max_ticks", 3352); ("display_present_last_ticks", 3360);
  ("display_present_slow_count", 3368); ("audio_stream_ring_bytes", 3376);
  ("audio_stream_available_bytes", 3384); ("audio_stream_high_water_bytes", 3392);
  ("audio_stream_write_truncations", 3400); ("audio_stream_dropped_bytes", 3408);
  ("audio_stream_write_total_ticks", 3416); ("audio_stream_write_max_ticks", 3424);
  ("audio_stream_write_last_ticks", 3432); ("audio_backend_write_calls", 3440);
  ("audio_backend_write_total_ticks", 3448); ("audio_backend_write_max_ticks", 3456);
  ("audio_backend_write_last_ticks", 3464); ("audio_backend_refills", 3472);
  ("audio_backend_silence_refills", 3480); ("audio_backend_buffer_bytes", 3488);
  ("audio_backend_queued_buffers", 3496); ("audio_backend_last_buffer_bytes", 3504);
  ("audio_backend_refill_total_ticks", 3512); ("audio_backend_refill_max_ticks", 3520);
  ("audio_backend_refill_last_ticks", 3528); ("loader_initialized", 3536); ("loader_started", 3540);
  ("loader_completed", 3544); ("loader_r4p_runtime_started", 3548); ("loader_r4p_runtime_completed", 3552);
  ("loader_service_boot_status", 3556); ("loader_boot_critical_count", 3560);
  ("loader_lazy_candidate_count", 3564); ("loader_total_ticks", 3568);
  ("loader_r4p_runtime_total_ticks", 3576); ("loader_service_boot_ticks", 3584);
  ("loader_config_load_ticks", 3592); ("loader_config_bytes", 3600); ("loader_config_driver_count", 3608);
  ("loader_config_disabled_count", 3612); ("loader_config_option_count", 3616);
  ("loader_config_reserved0", 3620); ("loader_r4l_scan_entries", 3624); ("loader_r4l_candidates", 3632);
  ("loader_r4l_loaded", 3640); ("loader_r4l_failed", 3648); ("loader_r4l_scan_ticks", 3656);
  ("loader_r4l_read_ticks", 3664); ("loader_r4l_resolve_ticks", 3672); ("loader_r4l_load_ticks", 3680);
  ("loader_r4d_scan_entries", 3688); ("loader_r4d_candidates", 3696); ("loader_r4d_discovered", 3704);
  ("loader_r4d_failed", 3712); ("loader_r4d_scan_ticks", 3720); ("loader_r4d_read_ticks", 3728);
  ("loader_r4d_probe_ticks", 3736); ("loader_r4p_scan_entries", 3744); ("loader_r4p_candidates", 3752);
  ("loader_r4p_discovered", 3760); ("loader_r4p_active", 3768); ("loader_r4p_blocked", 3776);
  ("loader_r4p_failed", 3784); ("loader_r4p_scan_ticks", 3792); ("loader_r4p_read_ticks", 3800);
  ("loader_r4p_resolve_ticks", 3808); ("loader_r4p_init_ticks", 3816);
  ("hot_path_vm_range_index_capacity", 3824); ("hot_path_vm_range_index_entries", 3828);
  ("hot_path_vm_range_index_tombstones", 3832); ("hot_path_vm_range_index_probe_max", 3836);
  ("hot_path_vm_range_index_probe_last", 3840); ("hot_path_vm_range_free_slot_probe_max", 3844);
  ("hot_path_vm_range_free_slot_probe_last", 3848); ("hot_path_bounded_block_device_scan_max", 3852);
  ("hot_path_bounded_tcp_connection_scan_max", 3856); ("hot_path_reserved0", 3860);
  ("hot_path_vm_range_index_lookups", 3864); ("hot_path_vm_range_index_hits", 3872);
  ("hot_path_vm_range_index_misses", 3880); ("hot_path_vm_range_index_probe_total", 3888);
  ("hot_path_vm_range_index_rebuilds", 3896); ("hot_path_vm_range_index_insert_failures", 3904);
  ("hot_path_vm_range_free_slot_lookups", 3912); ("hot_path_vm_range_free_slot_probe_total", 3920);
  ("loader_file_active_buffers", 3928); ("loader_file_reserved_bytes", 3936);
  ("loader_file_committed_bytes", 3944); ("loader_file_peak_reserved_bytes", 3952);
  ("loader_file_peak_committed_bytes", 3960); ("loader_file_full_reads", 3968);
  ("loader_file_range_reads", 3976); ("loader_file_reserve_failures", 3984);
  ("loader_file_commit_failures", 3992); ("loader_file_read_failures", 4000);
  ("loader_file_short_reads", 4008); ("loader_file_release_failures", 4016);
  ("loader_file_pressure_reclaim_attempts", 4024); ("loader_file_pressure_reclaimed_frames", 4032);
  ("loader_file_pressure_failures", 4040); ("fat32_read_sectors", 4048); ("fat32_write_sectors", 4056);
  ("fat32_read_failures", 4064); ("fat32_write_failures", 4072); ("fat32_flushes", 4080);
  ("fat32_flush_failures", 4088); ("fat32_flush_total_ticks", 4096); ("fat32_flush_max_ticks", 4104);
  ("fat32_flush_last_ticks", 4112); ("fat32_file_writes", 4120); ("fat32_file_appends", 4128);
  ("fat32_file_write_ranges", 4136); ("fat32_file_write_bytes", 4144); ("fat32_file_append_bytes", 4152);
  ("fat32_dir_scans", 4160); ("fat32_dir_entries_scanned", 4168); ("fat32_dir_entry_updates", 4176);
  ("fat32_cluster_walk_steps", 4184); ("fat32_fat_reads", 4192); ("fat32_fat_writes", 4200);
  ("fat32_fat_mirror_writes", 4208); ("fat32_alloc_chain_calls", 4216); ("fat32_alloc_clusters", 4224);
  ("fat32_alloc_search_steps", 4232); ("fat32_operation_failures", 4240);
  ("fat32_operation_total_ticks", 4248); ("fat32_operation_max_ticks", 4256);
  ("fat32_operation_last_ticks", 4264); ("fat32_active_operation", 4272); ("fat32_last_operation", 4276);
  ("fat32_reserved0", 4280); ("fat32_yield_points", 4288); ("fat32_yields", 4296);
  ("fat32_yield_skips", 4304); ("fat32_alloc_runs", 4312); ("fat32_alloc_run_clusters", 4320);
  ("fat32_alloc_run_max_clusters", 4328); ("fat32_fat_sector_writes", 4336);
  ("fat32_read_extent_cache_hits", 4344); ("fat32_read_extent_cache_misses", 4352);
  ("fat32_read_extent_cache_stores", 4360); ("fat32_read_extent_cache_clusters", 4368);
  ("fat32_fsinfo_reads", 4376); ("fat32_fsinfo_valid_mounts", 4384); ("fat32_fsinfo_rebuilds", 4392);
  ("fat32_fsinfo_writes", 4400); ("fat32_inusemap_builds", 4408); ("fat32_inusemap_clusters", 4416);
  ("fat32_inusemap_alloc_hits", 4424); ("fat32_inusemap_alloc_misses", 4432); ("monotonic_clock_flags", 4440);
  ("monotonic_clock_source", 4444); ("monotonic_clock_generation", 4448); ("monotonic_event_backend", 4452);
  ("monotonic_clock_resolution_ns", 4456); ("monotonic_source_frequency_hz", 4464);
  ("monotonic_event_frequency_numerator", 4472); ("monotonic_event_frequency_denominator", 4480);
  ("monotonic_event_requested_hz", 4488); ("monotonic_event_effective_hz", 4492); ("boot_timing_valid", 4496);
  ("boot_timing_unavailable_spans", 4500); ("boot_timing_dropped_spans", 4504);
  ("loader_timing_valid_spans", 4508); ("loader_timing_unavailable_spans", 4512);
  ("monotonic_reserved0", 4516); ("boot_total_ns", 4520); ("boot_now_ns", 4528); ("loader_total_ns", 4536);
  ("loader_r4p_runtime_total_ns", 4544); ("loader_service_boot_ns", 4552); ("loader_config_load_ns", 4560);
  ("monotonic_reserved1", 4568); ("service_completion_wait_rounds", 4576);
  ("service_targeted_response_wakes", 4584); ("service_targeted_response_wake_misses", 4592);
  ("service_admission_waits", 4600); ("service_admission_timeouts", 4608);
  ("service_payload_copy_bytes", 4616); ("service_payload_clear_bytes", 4624);
  ("service_slot_metadata_resets", 4632); ("service_endpoint_metadata_resets", 4640);
  ("service_endpoint_payload_reset_bytes", 4648); ("service_queue_scan_passes", 4656);
  ("service_queue_scan_slots", 4664); ("service_endpoint_revalidations", 4672);
  ("service_endpoint_stale_rejections", 4680); ("service_lock_family_count", 4688);
  ("service_lock_reserved0", 4692); ("service_lock_acquisitions", 4696); ("service_lock_contentions", 4752);
  ("service_lock_wait_ns", 4808); ("service_lock_wait_max_ns", 4864); ("service_lock_hold_ns", 4920);
  ("service_lock_hold_max_ns", 4976); ("service_lock_timing_unavailable", 5032);
  ("service_lock_timing_stride", 5088); ("service_lock_timing_reserved0", 5092);
  ("service_lock_timing_samples", 5096); ("service_registry_index_queries", 5152);
  ("service_registry_refresh_requests", 5160); ("service_registry_refresh_visits", 5168);
  ("service_registry_instance_lookups", 5176); ("service_registry_index_end_markers", 5184);
  ("hot_path_memory_block_physical_index_entries", 5192); ("hot_path_memory_block_physical_step_max", 5196);
  ("hot_path_memory_block_id_index_entries", 5200); ("hot_path_memory_block_id_step_max", 5204);
  ("hot_path_memory_block_free_slot_word_step_max", 5208); ("hot_path_memory_vm_range_address_entries", 5212);
  ("hot_path_memory_vm_range_address_probe_max", 5216); ("hot_path_memory_vm_range_address_probe_last", 5220);
  ("hot_path_memory_vm_commit_span_active", 5224); ("hot_path_memory_vm_commit_span_step_max", 5228);
  ("hot_path_memory_vm_page_state_span_active", 5232); ("hot_path_memory_vm_page_state_span_step_max", 5236);
  ("hot_path_memory_block_physical_lookups", 5240); ("hot_path_memory_block_physical_steps", 5248);
  ("hot_path_memory_block_physical_mutations", 5256); ("hot_path_memory_block_physical_rebuilds", 5264);
  ("hot_path_memory_block_id_lookups", 5272); ("hot_path_memory_block_id_steps", 5280);
  ("hot_path_memory_block_free_slot_lookups", 5288); ("hot_path_memory_block_free_slot_word_steps", 5296);
  ("hot_path_memory_block_claim_transactions", 5304); ("hot_path_memory_block_claim_rollbacks", 5312);
  ("hot_path_memory_vm_range_address_lookups", 5320); ("hot_path_memory_vm_range_address_probe_total", 5328);
  ("hot_path_memory_vm_commit_span_lookups", 5336); ("hot_path_memory_vm_commit_span_steps", 5344);
  ("hot_path_memory_vm_page_state_span_lookups", 5352); ("hot_path_memory_vm_page_state_span_steps", 5360);
  ("hot_path_memory_vm_reclaim_range_steps", 5368); ("hot_path_memory_vm_reclaim_span_steps", 5376);
  ("hot_path_memory_vm_reclaim_page_steps", 5384); ("hot_path_memory_vm_reclaim_wraps", 5392);
  ("fs_drive_gate_count", 5400); ("fs_active_requests", 5404); ("fs_parallel_active_max", 5408);
  ("storage_controller_count", 5412); ("storage_worker_count", 5416);
  ("storage_worker_parallel_active", 5420); ("storage_worker_parallel_active_max", 5424);
  ("storage_dispatch_reserved0", 5428); ("fs_single_drive_requests", 5432); ("fs_cross_drive_requests", 5440);
  ("fs_global_requests", 5448); ("storage_worker_start_failures", 5456); ("storage_direct_requests", 5464);
  ("storage_direct_bytes", 5472); ("storage_bounce_allocations", 5480); ("storage_bounce_bytes", 5488);
  ("storage_bounce_copy_bytes", 5496); ("storage_direct_timeout_waits", 5504);
  ("fs_cache_bulk_write_requests", 5512); ("fs_cache_bulk_write_sectors", 5520);
  ("fs_cache_selective_flushes", 5528); ("fs_cache_selective_writeback_sectors", 5536);
  ("fs_cache_selective_foreign_dirty_sectors_skipped", 5544); ("fs_cache_policy_version", 5552);
  ("fs_cache_policy_device_capacity", 5556); ("fs_cache_policy_dirty_high_pages", 5560);
  ("fs_cache_policy_dirty_low_pages", 5564); ("fs_cache_policy_max_dirty_age_ticks", 5568);
  ("fs_cache_policy_background_page_budget", 5576); ("fs_cache_policy_worker_started", 5580);
  ("fs_cache_policy_worker_task_id", 5584); ("fs_cache_policy_device_dirty_high_water", 5588);
  ("fs_cache_policy_worker_wakeups", 5592); ("fs_cache_policy_background_drains", 5600);
  ("fs_cache_policy_background_sectors", 5608); ("fs_cache_policy_background_pressure_drains", 5616);
  ("fs_cache_policy_background_age_drains", 5624); ("fs_cache_policy_background_errors", 5632);
  ("fs_cache_policy_clean_device_probes", 5640); ("fs_cache_policy_dirty_device_probes", 5648);
  ("fs_cache_policy_full_scan_fallbacks", 5656); ("fs_cache_read_ahead_requests", 5664);
  ("fs_cache_read_ahead_issued", 5672); ("fs_cache_read_ahead_hits", 5680);
  ("fs_cache_read_ahead_cancellations", 5688); ("fs_cache_read_ahead_budget_skips", 5696);
  ("ntfs_metadata_cache_version", 5704); ("ntfs_metadata_cache_active_volumes", 5708);
  ("ntfs_metadata_cache_bytes_per_volume", 5712); ("ntfs_metadata_cache_slot_capacity", 5716);
  ("ntfs_metadata_record_capacity", 5720); ("ntfs_metadata_attribute_capacity", 5724);
  ("ntfs_metadata_index_capacity", 5728); ("ntfs_metadata_path_capacity", 5732);
  ("ntfs_metadata_record_entries", 5736); ("ntfs_metadata_attribute_entries", 5740);
  ("ntfs_metadata_index_entries", 5744); ("ntfs_metadata_path_entries", 5748);
  ("ntfs_metadata_mount_generation", 5752); ("ntfs_metadata_content_generation", 5760);
  ("ntfs_metadata_negative_ttl_ticks", 5768); ("ntfs_metadata_record_hits", 5776);
  ("ntfs_metadata_record_misses", 5784); ("ntfs_metadata_record_stores", 5792);
  ("ntfs_metadata_record_evictions", 5800); ("ntfs_metadata_attribute_hits", 5808);
  ("ntfs_metadata_attribute_misses", 5816); ("ntfs_metadata_attribute_stores", 5824);
  ("ntfs_metadata_attribute_evictions", 5832); ("ntfs_metadata_index_hits", 5840);
  ("ntfs_metadata_index_misses", 5848); ("ntfs_metadata_index_stores", 5856);
  ("ntfs_metadata_index_evictions", 5864); ("ntfs_metadata_path_queries", 5872);
  ("ntfs_metadata_path_positive_hits", 5880); ("ntfs_metadata_path_negative_hits", 5888);
  ("ntfs_metadata_path_misses", 5896); ("ntfs_metadata_path_positive_stores", 5904);
  ("ntfs_metadata_path_negative_stores", 5912); ("ntfs_metadata_path_expirations", 5920);
  ("ntfs_metadata_lookup_tree_walks", 5928); ("ntfs_metadata_recovery_cache_bypasses", 5936);
  ("ntfs_metadata_mount_invalidations", 5944); ("ntfs_metadata_mutation_invalidations", 5952);
  ("ntfs_metadata_external_invalidations", 5960); ("ntfs_metadata_invalidated_entries", 5968);
  ("ntfs_metadata_reclaim_requests", 5976); ("ntfs_metadata_reclaim_scans", 5984);
  ("ntfs_metadata_reclaimed_entries", 5992); ("fs_cache_capacity_min_pages", 6000);
  ("fs_cache_capacity_max_pages", 6004); ("fs_cache_capacity_ram_limit_pages", 6008);
  ("fs_cache_capacity_active_limit_pages", 6012); ("fs_cache_capacity_pressure_level", 6016);
  ("fs_cache_read_ahead_window_pages", 6020); ("fs_cache_read_ahead_window_max_pages", 6024);
  ("fs_cache_capacity_reserved0", 6028); ("fs_cache_fill_run_requests", 6032);
  ("fs_cache_fill_run_backend_requests", 6040); ("fs_cache_fill_run_pages", 6048);
  ("fs_cache_fill_run_sectors", 6056); ("fs_cache_fill_run_bytes", 6064);
  ("fs_cache_fill_run_failures", 6072); ("fs_cache_fill_run_retries", 6080);
  ("fs_cache_fill_run_max_pages", 6088); ("fs_cache_fill_scatter_copy_bytes", 6096);
  ("fs_cache_read_staging_copy_bytes", 6104); ("fs_cache_read_caller_copy_bytes", 6112);
  ("fs_cache_read_publish_lock_drops", 6120); ("fs_cache_fill_lock_drops", 6128);
  ("fs_cache_capacity_reductions", 6136); ("fs_cache_capacity_trimmed_pages", 6144);
  ("fs_cache_read_ahead_pages_scheduled", 6152); ("fs_cache_read_ahead_pages_issued", 6160);
  ("fs_cache_read_ahead_random_resets", 6168); ("ntfs_metadata_payload_write_retentions", 6176);
  ("ntfs_metadata_system_write_retentions", 6184); ("ntfs_metadata_targeted_invalidations", 6192);
  ("ntfs_metadata_targeted_record_invalidations", 6200);
  ("ntfs_metadata_targeted_attribute_invalidations", 6208);
  ("ntfs_metadata_targeted_directory_invalidations", 6216);
  ("ntfs_metadata_global_mutation_invalidations", 6224); ("ntfs_metadata_recovery_invalidations", 6232);
  ("ntfs_metadata_mutation_invalidated_record_entries", 6240);
  ("ntfs_metadata_mutation_invalidated_attribute_entries", 6248);
  ("ntfs_metadata_mutation_invalidated_index_entries", 6256);
  ("ntfs_metadata_mutation_invalidated_path_entries", 6264); ("loader_file_range_read_bytes", 6272);
  ("loader_metadata_reader_initializations", 6280); ("loader_metadata_logical_reads", 6288);
  ("loader_metadata_logical_bytes", 6296); ("loader_metadata_window_hits", 6304);
  ("loader_metadata_window_fills", 6312); ("loader_metadata_window_fill_bytes", 6320);
  ("loader_metadata_direct_reads", 6328); ("loader_metadata_direct_bytes", 6336);
  ("loader_metadata_window_capacity_bytes", 6344)].

Definition R4ProgramTaskPerformanceInfo_asserts : layout_asserts := LayoutAsserts R4ProgramTaskPerformanceInfo 304 [
  ("index", 0); ("id", 4); ("state", 8); ("flags", 12); ("wake_tick", 16); ("blocked_since_tick", 24);
  ("blocked_ticks", 32); ("created_tick", 40); ("last_scheduled_tick", 48); ("last_yield_tick", 56);
  ("ticks_since_yield", 64); ("run_ticks", 72); ("switches_in", 80); ("stack_base", 88); ("stack_top", 96);
  ("stack_bytes", 104); ("blocked_object", 112); ("wait_result", 120); ("preempt_disable_depth", 124);
  ("preempt_disable_max_depth", 128); ("ticks_since_scheduled", 136); ("preemption_probe_hits", 144);
  ("preemption_deferred_ticks", 152); ("long_run_warnings", 160); ("starvation_warnings", 168);
  ("reserved0", 176); ("name", 184); ("wait_reason", 216); ("ready_since_tick", 248);
  ("last_ready_latency_ticks", 256); ("max_ready_latency_ticks", 264); ("last_wait_ticks", 272);
  ("max_wait_ticks", 280); ("max_run_without_switch_ticks", 288); ("max_preemption_deferred_ticks", 296)].

Definition R4ProgramStoragePerformanceInfo_asserts : layout_asserts := LayoutAsserts R4ProgramStoragePerformanceInfo 440 [
  ("index", 0); ("bus", 4); ("state", 8); ("source", 12); ("flags", 16); ("port", 20); ("sector_size", 24);
  ("max_sectors_per_request", 28); ("queue_depth", 32); ("queue_used", 36); ("queue_high_water", 40);
  ("timeout_ticks", 48); ("sector_count", 56); ("active_request_id", 64); ("active_request_kind", 72);
  ("active_request_sectors", 76); ("active_request_lba", 80); ("last_request_id", 88);
  ("last_request_kind", 96); ("last_request_sectors", 100); ("last_request_lba", 104); ("read_ops", 112);
  ("read_sectors", 120); ("read_failures", 128); ("write_ops", 136); ("write_sectors", 144);
  ("write_failures", 152); ("flush_ops", 160); ("flush_failures", 168); ("busy_rejections", 176);
  ("timeout_failures", 184); ("completions", 192); ("backend_recoveries", 200);
  ("backend_recovery_failures", 208); ("queued_requests", 216); ("dequeued_requests", 224);
  ("queue_full_waits", 232); ("queue_full_rejections", 240); ("completion_waits", 248);
  ("completion_timeouts", 256); ("completion_total_ticks", 264); ("completion_max_ticks", 272);
  ("completion_last_ticks", 280); ("last_error", 288); ("last_sense_valid", 292); ("last_sense", 296);
  ("name", 300); ("driver", 332); ("controller", 364); ("completion_signals", 400); ("worker_requests", 408);
  ("worker_completions", 416); ("boot_inline_requests", 424); ("boot_inline_completions", 432)].

Definition R4ProgramBootPhasePerformanceInfo_asserts : layout_asserts := LayoutAsserts R4ProgramBootPhasePerformanceInfo 72 [
  ("index", 0); ("phase", 4); ("first_tick", 8); ("last_tick", 16); ("total_ticks", 24); ("transitions", 32);
  ("reserved0", 36); ("name", 40)].

Definition R4ProgramBootPhaseClockInfo_asserts : layout_asserts := LayoutAsserts R4ProgramBootPhaseClockInfo 96 [
  ("version", 0); ("size", 4); ("index", 8); ("phase", 12); ("clock_flags", 16); ("clock_source", 20);
  ("clock_generation", 24); ("transitions", 28); ("first_ns", 32); ("last_ns", 40); ("total_ns", 48);
  ("unavailable_spans", 56); ("reserved0", 60); ("name", 64)].

Definition R4ProgramBootPerformanceInfo_asserts : layout_asserts := LayoutAsserts R4ProgramBootPerformanceInfo 144 [
  ("version", 0); ("size", 4); ("state", 8); ("completion_reason", 12); ("flags", 16); ("current_phase", 20);
  ("phase_count", 24); ("timing_span_count", 28); ("timing_unavailable_spans", 32);
  ("timing_dropped_spans", 36); ("clock_flags", 40); ("clock_source", 44); ("clock_generation", 48);
  ("configured_attempts", 52); ("fallback_attempts", 56); ("launch_failures", 60); ("shell_instance_id", 64);
  ("reserved0", 68); ("boot_start_tick", 72); ("boot_end_tick", 80); ("total_ticks", 88);
  ("boot_start_ns", 96); ("boot_end_ns", 104); ("total_ns", 112); ("clock_resolution_ns", 120);
  ("transition_count", 128); ("reserved1", 136)].

Definition R4ProgramIrqTimingInfo_asserts : layout_asserts := LayoutAsserts R4ProgramIrqTimingInfo 112 [
  ("version", 0); ("size", 4); ("irq", 8); ("registered", 9); ("shared", 10); ("masked", 11);
  ("coverage_flags", 12); ("clock_flags", 16); ("clock_source", 20); ("clock_generation", 24);
  ("unavailable_samples", 28); ("dispatch_samples", 32); ("handler_samples", 40); ("observer_reads", 48);
  ("delivery_samples", 56); ("dispatch_total_ns", 64); ("dispatch_max_ns", 72); ("dispatch_last_ns", 80);
  ("handler_total_ns", 88); ("handler_max_ns", 96); ("handler_last_ns", 104)].

Definition R4ProgramMemoryBlockInfo_asserts : layout_asserts := LayoutAsserts R4ProgramMemoryBlockInfo 96 [
  ("id", 0); ("kind", 4); ("owner", 5); ("status", 6); ("reserved0", 7); ("owner_id", 8); ("phys_base", 16);
  ("phys_len", 24); ("virt_base", 32); ("virt_len", 40); ("reserved_bytes", 48); ("committed_bytes", 56);
  ("name", 64)].

Definition R4ProgramVmReserveProbe_asserts : layout_asserts := LayoutAsserts R4ProgramVmReserveProbe 144 [
  ("requested_bytes", 0); ("region_id", 8); ("released", 12); ("status", 16); ("base", 24); ("len", 32);
  ("reserved_bytes", 40); ("committed_bytes", 48); ("phys_len", 56); ("owner_id", 64); ("active_before", 72);
  ("active_during", 80); ("active_after", 88); ("committed_before", 96); ("committed_during", 104);
  ("committed_after", 112); ("largest_free_before", 120); ("largest_free_after", 128); ("kind", 136);
  ("owner", 137); ("block_status", 138); ("reserved0", 139)].

Definition R4PagingSummary_asserts : layout_asserts := LayoutAsserts R4PagingSummary 152 [
  ("flags", 0); ("root_owner", 4); ("reserved0", 5); ("active_root_phys", 8); ("hardware_cr3", 16);
  ("old_cr3", 24); ("new_cr3", 32); ("page_table_blocks", 40); ("kernel_page_table_blocks", 48);
  ("bootloader_page_table_blocks", 56); ("page_table_bytes", 64); ("limine_old_table_frames", 72);
  ("limine_active_table_frames", 80); ("limine_referenced_frames", 88); ("limine_quarantined_frames", 96);
  ("limine_released_frames", 104); ("limine_retained_frames", 112); ("root_mismatches", 120);
  ("map_pages", 128); ("unmap_pages", 136); ("invlpg_flushes", 144)].

Definition R4DisplayDamageRect_asserts : layout_asserts := LayoutAsserts R4DisplayDamageRect 16 [
  ("x", 0); ("y", 4); ("w", 8); ("h", 12)].

Definition R4DisplayPresentRequest_asserts : layout_asserts := LayoutAsserts R4DisplayPresentRequest 48 [
  ("magic", 0); ("version", 4); ("size", 6); ("flags", 8); ("format", 12); ("source_width", 16);
  ("source_height", 20); ("source_stride_pixels", 24); ("reserved0", 28); ("source_generation", 32);
  ("input_tick", 40)].

Definition R4DisplayPresentResult_asserts : layout_asserts := LayoutAsserts R4DisplayPresentResult 96 [
  ("version", 0); ("size", 2); ("flags", 4); ("source_generation", 8); ("present_generation", 16);
  ("fence", 24); ("completed_fence", 32); ("region_count", 40); ("pixel_count", 44); ("fallback_regions", 48);
  ("backend_error", 52); ("present_tick", 56); ("elapsed_ticks", 64); ("backend_name", 72)].

Definition R4DisplaySummary_asserts : layout_asserts := LayoutAsserts R4DisplaySummary 200 [
  ("flags", 0); ("backend_kind", 4); ("cache_policy", 5); ("bpp", 6); ("width", 8); ("height", 12);
  ("pitch", 16); ("last_present_reason", 20); ("last_present_converted", 21); ("reserved0", 22);
  ("last_present_x", 24); ("last_present_y", 28); ("last_present_w", 32); ("last_present_h", 36);
  ("present_count", 40); ("present_pixels_total", 48); ("present_bytes_total", 56);
  ("last_present_pixels", 64); ("last_present_bytes", 72); ("full_present_count", 80);
  ("partial_present_count", 88); ("fill_present_count", 96); ("rect_present_count", 104);
  ("packed32_present_count", 112); ("xrgb32_present_count", 120); ("conversion_present_count", 128);
  ("backend_name", 136); ("present_total_ticks", 168); ("present_max_ticks", 176);
  ("present_last_ticks", 184); ("present_slow_count", 192)].

Definition R4GuiSize_asserts : layout_asserts := LayoutAsserts R4GuiSize 8 [
  ("w", 0); ("h", 4)].

Definition R4GuiCommand_asserts : layout_asserts := LayoutAsserts R4GuiCommand 120 [
  ("kind", 0); ("x", 4); ("y", 8); ("w", 12); ("h", 16); ("rgb", 20); ("fg", 24); ("bg", 28); ("text", 32);
  ("font_id", 96); ("flags", 100); ("text_w", 104); ("text_h", 108); ("baseline", 112); ("line_height", 116)].

Definition R4GuiFrameCommand_asserts : layout_asserts := LayoutAsserts R4GuiFrameCommand 96 [
  ("version", 0); ("size", 4); ("kind", 8); ("flags", 12); ("x", 16); ("y", 20); ("w", 24); ("h", 28);
  ("rgb", 32); ("fg", 36); ("bg", 40); ("font_id", 44); ("text_w", 48); ("text_h", 52); ("baseline", 56);
  ("line_height", 60); ("resource_offset", 64); ("resource_bytes", 72); ("parameter0", 80); ("parameter1", 88)].

Definition R4GuiPathSegment_asserts : layout_asserts := LayoutAsserts R4GuiPathSegment 32 [
  ("kind", 0); ("flags", 4); ("x1_bits", 8); ("y1_bits", 12); ("x2_bits", 16); ("y2_bits", 20);
  ("x3_bits", 24); ("y3_bits", 28)].

Definition R4GuiShapeResource_asserts : layout_asserts := LayoutAsserts R4GuiShapeResource 160 [
  ("version", 0); ("size", 4); ("geometry_kind", 8); ("flags", 12); ("segment_count", 16); ("fill_rule", 20);
  ("line_join", 24); ("line_cap", 28); ("clip_x", 32); ("clip_y", 36); ("clip_w", 40); ("clip_h", 44);
  ("fill_argb", 48); ("stroke_argb", 52); ("stroke_width_bits", 56); ("miter_limit_bits", 60);
  ("geometry_x_bits", 64); ("geometry_y_bits", 68); ("geometry_w_bits", 72); ("geometry_h_bits", 76);
  ("radius_top_left_x_bits", 80); ("radius_top_left_y_bits", 84); ("radius_top_right_x_bits", 88);
  ("radius_top_right_y_bits", 92); ("radius_bottom_right_x_bits", 96); ("radius_bottom_right_y_bits", 100);
  ("radius_bottom_left_x_bits", 104); ("radius_bottom_left_y_bits", 108); ("border_top_bits", 112);
  ("border_right_bits", 116); ("border_bottom_bits", 120); ("border_left_bits", 124); ("shadow_argb", 128);
  ("shadow_offset_x_bits", 132); ("shadow_offset_y_bits", 136); ("shadow_spread_bits", 140);
  ("shadow_blur_bits", 144); ("reserved0", 148); ("reserved1", 152); ("reserved2", 156)].

Definition R4GuiIndexed8Resource_asserts : layout_asserts := LayoutAsserts R4GuiIndexed8Resource 64 [
  ("version", 0); ("size", 4); ("source_x", 8); ("source_y", 12); ("source_w", 16); ("source_h", 20);
  ("guest_w", 24); ("guest_h", 28); ("viewport_x", 32); ("viewport_y", 36); ("viewport_w", 40);
  ("viewport_h", 44); ("palette_entries", 48); ("palette_offset", 52); ("pixels_offset", 56);
  ("pixel_stride", 60)].

Definition R4GuiFontInfo_asserts : layout_asserts := LayoutAsserts R4GuiFontInfo 316 [
  ("id", 0); ("kind", 4); ("flags", 8); ("weight", 12); ("style_flags", 16); ("charset_flags", 20);
  ("width", 24); ("height", 28); ("max_advance", 32); ("line_height", 36); ("baseline", 40);
  ("glyph_count", 44); ("strike_count", 48); ("path", 52); ("family", 148); ("face", 188); ("style", 228);
  ("status", 268)].

Definition R4GuiTextMetrics_asserts : layout_asserts := LayoutAsserts R4GuiTextMetrics 24 [
  ("width", 0); ("height", 4); ("line_height", 8); ("baseline", 12); ("visible_bytes", 16); ("flags", 20)].

Definition R4ClipboardInfo_asserts : layout_asserts := LayoutAsserts R4ClipboardInfo 16 [
  ("capacity", 0); ("length", 4); ("revision", 8); ("flags", 12)].

Definition R4RemoteFrameInfo_asserts : layout_asserts := LayoutAsserts R4RemoteFrameInfo 80 [
  ("magic", 0); ("version", 4); ("flags", 8); ("format", 12); ("width", 16); ("height", 20);
  ("stride_pixels", 24); ("bytes_per_pixel", 28); ("revision", 32); ("frame_pixels", 36); ("frame_bytes", 40);
  ("dirty_x", 44); ("dirty_y", 48); ("dirty_w", 52); ("dirty_h", 56); ("cursor_x", 60); ("cursor_y", 64);
  ("cursor_flags", 68); ("reserved0", 72); ("reserved1", 76)].

Definition R4RemoteFrameMapInfo_asserts : layout_asserts := LayoutAsserts R4RemoteFrameMapInfo 32 [
  ("pixels_addr", 0); ("capacity_pixels", 8); ("generation", 16); ("reserved", 24)].

Definition R4RemoteInputEvent_asserts : layout_asserts := LayoutAsserts R4RemoteInputEvent 64 [
  ("magic", 0); ("version", 4); ("kind", 8); ("flags", 12); ("sequence", 16); ("modifiers", 20); ("key", 24);
  ("scancode", 28); ("x", 32); ("y", 36); ("wheel", 40); ("buttons", 44); ("timestamp_ticks", 48);
  ("reserved0", 56); ("reserved1", 60)].

Definition R4RemoteInputStatus_asserts : layout_asserts := LayoutAsserts R4RemoteInputStatus 64 [
  ("magic", 0); ("version", 4); ("flags", 8); ("capacity", 12); ("pending", 16); ("dropped", 20);
  ("pushed", 24); ("polled", 28); ("last_sequence", 32); ("last_kind", 36); ("last_buttons", 40);
  ("last_key", 44); ("last_x", 48); ("last_y", 52); ("last_wheel", 56); ("reserved0", 60)].

Definition R4ProgramHostLaunchRequest_asserts : layout_asserts := LayoutAsserts R4ProgramHostLaunchRequest 264 [
  ("path", 0); ("args", 128); ("policy", 256); ("reserved", 260)].

Definition R4KernelVersion_asserts : layout_asserts := LayoutAsserts R4KernelVersion 24 [
  ("version", 0); ("size", 4); ("major", 8); ("minor", 12); ("patch", 16); ("reserved0", 20)].

Definition R4MonotonicClockInfo_asserts : layout_asserts := LayoutAsserts R4MonotonicClockInfo 80 [
  ("version", 0); ("size", 4); ("flags", 8); ("source", 12); ("generation", 16); ("event_backend", 20);
  ("instant_ns", 24); ("frequency_hz", 32); ("resolution_ns", 40); ("source_frequency_hz", 48);
  ("event_frequency_numerator", 56); ("event_frequency_denominator", 64); ("event_requested_hz", 72);
  ("event_effective_hz", 76)].

Definition R4KeyboardLayoutInfo_asserts : layout_asserts := LayoutAsserts R4KeyboardLayoutInfo 36 [
  ("name", 0); ("display", 16); ("index", 24); ("count", 28); ("flags", 32)].

Definition R4DriveInfo_asserts : layout_asserts := LayoutAsserts R4DriveInfo 56 [
  ("mounted", 0); ("letter", 1); ("kind", 2); ("role", 3); ("reserved", 4); ("bytes", 8); ("name", 16);
  ("free_bytes", 32); ("total_clusters", 40); ("free_clusters", 44); ("cluster_bytes", 48)].

Definition R4BootLogInfo_asserts : layout_asserts := LayoutAsserts R4BootLogInfo 32 [
  ("capacity", 0); ("length", 4); ("flags", 8); ("reserved", 12); ("total_written", 16); ("dropped_bytes", 24)].

Definition R4DeviceInventorySummary_asserts : layout_asserts := LayoutAsserts R4DeviceInventorySummary 20 [
  ("total", 0); ("with_driver", 4); ("without_driver", 8); ("unknown", 12); ("truncated", 16);
  ("reserved", 17)].

Definition R4DeviceInventoryRecord_asserts : layout_asserts := LayoutAsserts R4DeviceInventoryRecord 224 [
  ("binding", 0); ("bus", 1); ("flags", 2); ("bus_no", 4); ("device_no", 5); ("function_no", 6);
  ("class_code", 7); ("subclass", 8); ("prog_if", 9); ("reserved0", 10); ("vendor_id", 12); ("device_id", 14);
  ("name", 16); ("driver", 64); ("status", 96); ("note", 128)].

Definition R4HardwareSummary_asserts : layout_asserts := LayoutAsserts R4HardwareSummary 96 [
  ("flags", 0); ("acpi_tables", 4); ("acpi_invalid_tables", 8); ("pcie_devices", 12);
  ("legacy_pci_devices", 16); ("storage_controllers", 20); ("network_controllers", 24);
  ("display_controllers", 28); ("usb_controllers", 32); ("hda_controllers", 36); ("block_devices", 40);
  ("usb_devices", 44); ("usb_configured", 48); ("driver_records", 52); ("protocol_records", 56);
  ("irq_controller", 60); ("timer_backend", 61); ("reserved0", 62); ("lapic_count", 64); ("ioapic_count", 68);
  ("iso_count", 72); ("hpet_frequency_hz", 80); ("cpu_logical_processors", 88);
  ("cpu_physical_address_bits", 92); ("cpu_virtual_address_bits", 93); ("reserved1", 94)].

Definition R4ProtocolStatus_asserts : layout_asserts := LayoutAsserts R4ProtocolStatus 80 [
  ("state", 0); ("flags", 4); ("last_error", 8); ("reserved", 12); ("note", 16)].

Definition R4ProtocolBuffer_asserts : layout_asserts := LayoutAsserts R4ProtocolBuffer 24 [
  ("data", 0); ("len", 8); ("capacity", 12); ("flags", 16); ("reserved", 20)].

Definition R4SerialLinkStatus_asserts : layout_asserts := LayoutAsserts R4SerialLinkStatus 736 [
  ("present", 0); ("initialized", 4); ("port_base", 8); ("version", 10); ("reserved0", 11);
  ("max_payload", 12); ("last_type", 14); ("reserved1", 15); ("last_payload_len", 16);
  ("last_message_len", 18); ("reserved2", 20); ("loopback_tests", 24); ("host_tests", 32); ("message_tx", 40);
  ("message_rx", 48); ("tx_skipped", 56); ("tx_frames", 64); ("tx_bytes", 72); ("rx_frames", 80);
  ("rx_bytes", 88); ("polls", 96); ("bad_magic", 104); ("bad_version", 112); ("bad_length", 120);
  ("checksum_errors", 128); ("overflows", 136); ("timeouts", 144); ("r4p_build", 152); ("r4p_parse", 160);
  ("r4p_self", 168); ("r4p_fallbacks", 176); ("r4p_dispatch_failures", 184); ("last_payload", 192);
  ("last_message", 448); ("last_error", 704)].

Definition R4SerialLinkMessage_asserts : layout_asserts := LayoutAsserts R4SerialLinkMessage 260 [
  ("len", 0); ("reserved", 2); ("data", 4)].

Definition R4RegistrySnapshotCursor_asserts : layout_asserts := LayoutAsserts R4RegistrySnapshotCursor 48 [
  ("version", 0); ("size", 4); ("generation", 8); ("key_index", 16); ("kind", 20); ("next_index", 24);
  ("total", 28); ("flags", 32); ("restarts", 36); ("reserved0", 40)].

Definition R4RegistrySnapshotEntry_asserts : layout_asserts := LayoutAsserts R4RegistrySnapshotEntry 80 [
  ("kind", 0); ("value_type", 2); ("flags", 4); ("data_offset", 8); ("data_len", 12); ("name", 16)].

Definition R4RegistrySnapshotPageInfo_asserts : layout_asserts := LayoutAsserts R4RegistrySnapshotPageInfo 48 [
  ("version", 0); ("size", 4); ("generation", 8); ("total", 16); ("returned", 20); ("next_index", 24);
  ("data_bytes", 28); ("kind", 32); ("status", 36); ("reserved0", 40)].

Definition R4RegistryKeyInfo_asserts : layout_asserts := LayoutAsserts R4RegistryKeyInfo 72 [
  ("child_count", 0); ("value_count", 4); ("name", 8)].

Definition R4ServiceDetail_asserts : layout_asserts := LayoutAsserts R4ServiceDetail 520 [
  ("info", 0); ("path", 216); ("args", 344); ("description", 440)].

Definition R4IpcSummary_asserts : layout_asserts := LayoutAsserts R4IpcSummary 56 [
  ("max_channels", 0); ("active_channels", 4); ("max_message_size", 8); ("queue_depth", 12); ("sends", 16);
  ("receives", 24); ("drops", 32); ("errors", 40); ("echo_tests", 48)].

Definition R4IpcPerformanceSummary_asserts : layout_asserts := LayoutAsserts R4IpcPerformanceSummary 240 [
  ("version", 0); ("size", 4); ("worker_started", 8); ("worker_task_id", 12); ("active_channels", 16);
  ("queue_used", 20); ("queue_ready", 24); ("queue_running", 28); ("queue_limit", 32); ("reserved0", 36);
  ("handler_queued", 40); ("handler_completed", 48); ("handler_failures", 56); ("handler_direct", 64);
  ("handler_waits", 72); ("handler_wait_timeouts", 80); ("handler_queue_ns", 88);
  ("handler_queue_max_ns", 96); ("handler_run_ns", 104); ("handler_run_max_ns", 112); ("handler_e2e_ns", 120);
  ("handler_e2e_max_ns", 128); ("request_bytes", 136); ("response_bytes", 144); ("payload_copy_bytes", 152);
  ("payload_clear_bytes", 160); ("queue_full", 168); ("queue_empty", 176); ("admission_waits", 184);
  ("admission_timeouts", 192); ("recv_buffer_small", 200); ("response_search_slots", 208);
  ("stale_drops", 216); ("lock_contentions", 224); ("irq_denied", 232)].

Definition R4IpcChannelInfo_asserts : layout_asserts := LayoutAsserts R4IpcChannelInfo 88 [
  ("id", 0); ("active", 4); ("queued", 8); ("queue_depth", 12); ("max_message_size", 16); ("has_handler", 20);
  ("reserved0", 24); ("reserved1", 28); ("opens", 32); ("closes", 40); ("sends", 48); ("receives", 56);
  ("drops", 64); ("name", 72)].

Definition R4TcpSummary_asserts : layout_asserts := LayoutAsserts R4TcpSummary 160 [
  ("max_connections", 0); ("active_connections", 4); ("buffer_size", 8); ("syn_tx", 16); ("synack_rx", 24);
  ("ack_tx", 32); ("data_tx", 40); ("data_rx", 48); ("fin_tx", 56); ("rst_rx", 64); ("checksum_errors", 72);
  ("timeouts", 80); ("self_tests", 88); ("active_listeners", 96); ("synack_tx", 104); ("listen_syn_rx", 112);
  ("accepts", 120); ("retransmits", 128); ("rx_drops", 136); ("last_source_port", 144);
  ("last_dest_port", 146); ("last_seq", 148); ("last_ack", 152); ("last_payload_len", 156)].

Definition R4TcpConnectionInfo_asserts : layout_asserts := LayoutAsserts R4TcpConnectionInfo 80 [
  ("id", 0); ("state", 4); ("local_port", 6); ("remote_port", 8); ("remote_ip", 10); ("tx_bytes", 16);
  ("rx_bytes", 24); ("pending_rx", 32); ("retransmits", 36); ("rx_window", 40); ("tx_window", 44);
  ("tx_ack", 48); ("rx_drops", 52); ("seq", 56); ("ack", 60); ("last_seq", 64); ("last_ack", 68);
  ("last_flags", 72); ("last_payload_len", 74)].

Definition R4TcpAcceptResult_asserts : layout_asserts := LayoutAsserts R4TcpAcceptResult 8 [
  ("conn_id", 0); ("bytes", 4)].

Definition R4NetIpv4Packet_asserts : layout_asserts := LayoutAsserts R4NetIpv4Packet 16 [
  ("source_ip", 0); ("dest_ip", 4); ("protocol", 8); ("truncated", 9); ("reserved", 10); ("payload_len", 12)].

Definition R4NetConfigSnapshot_asserts : layout_asserts := LayoutAsserts R4NetConfigSnapshot 128 [
  ("local_ip", 0); ("netmask", 4); ("gateway_ip", 8); ("dns_ip", 12); ("flags", 16); ("adapter_count", 20);
  ("invalid_options", 24); ("source", 28); ("adapter_name", 44); ("link", 76); ("last_error", 88);
  ("mac", 120); ("mtu", 126)].

Definition R4NetConfigRequest_asserts : layout_asserts := LayoutAsserts R4NetConfigRequest 68 [
  ("local_ip", 0); ("netmask", 16); ("gateway_ip", 32); ("dns_ip", 48); ("flags", 64)].

Definition R4DhcpStatus_asserts : layout_asserts := LayoutAsserts R4DhcpStatus 168 [
  ("discover_tx", 0); ("offer_rx", 8); ("request_tx", 16); ("ack_rx", 24); ("nak_rx", 32); ("release_tx", 40);
  ("retries", 48); ("timeouts", 56); ("release_errors", 64); ("malformed", 72); ("self_tests", 80);
  ("xid", 88); ("offered_ip", 92); ("server_ip", 96); ("netmask", 100); ("gateway_ip", 104); ("dns_ip", 108);
  ("lease_seconds", 112); ("renew_seconds", 116); ("rebind_seconds", 120); ("flags", 124);
  ("last_attempt", 128); ("last_type", 129); ("runtime_state", 130); ("last_error", 132)].

Definition R4NetDetailProtocolRuntime_asserts : layout_asserts := LayoutAsserts R4NetDetailProtocolRuntime 64 [
  ("active_r4p", 0); ("r4p_state", 1); ("builtin_fallback", 2); ("fallback_policy", 3);
  ("fallback_decision", 4); ("reserved0", 5); ("r4p_rx", 8); ("r4p_tx", 16); ("r4p_control", 24);
  ("r4p_build", 32); ("r4p_classify", 40); ("fallbacks", 48); ("dispatch_failures", 56)].

Definition R4NetDetailAdapter_asserts : layout_asserts := LayoutAsserts R4NetDetailAdapter 312 [
  ("index", 0); ("count", 4); ("flags", 8); ("lifecycle", 12); ("bus_no", 16); ("device_no", 17);
  ("function_no", 18); ("class_code", 19); ("subclass", 20); ("prog_if", 21); ("irq_line", 22);
  ("irq_pin", 23); ("irq_mode", 24); ("irq_registered", 25); ("reserved0", 26); ("vendor_id", 28);
  ("device_id", 30); ("mac", 32); ("mtu", 38); ("name", 40); ("driver", 72); ("link", 104); ("state", 116);
  ("last_error", 132); ("registered_tick", 168); ("state_changed_tick", 176); ("rx_packets", 184);
  ("tx_packets", 192); ("rx_bytes", 200); ("tx_bytes", 208); ("drops", 216); ("errors", 224); ("resets", 232);
  ("backend_rx_packets", 240); ("backend_tx_packets", 248); ("backend_drops", 256); ("backend_errors", 264);
  ("irq_count", 272); ("irq_handled", 280); ("poll_count", 288); ("poll_fallbacks", 296); ("last_isr", 304);
  ("dhcp_retry_round", 306)].

Definition R4NetDetailEthernet_asserts : layout_asserts := LayoutAsserts R4NetDetailEthernet 96 [
  ("rx", 0); ("tx", 8); ("broadcast", 16); ("own_unicast", 24); ("dropped_short", 32); ("dropped_filter", 40);
  ("unknown_ethertype", 48); ("test_frames", 56); ("last_ethertype", 64); ("reserved", 66); ("last_error", 68)].

Definition R4NetDetailArp_asserts : layout_asserts := LayoutAsserts R4NetDetailArp 176 [
  ("requests_tx", 0); ("replies_tx", 8); ("replies_rx", 16); ("requests_rx", 24); ("malformed", 32);
  ("cache_updates", 40); ("cache_hits", 48); ("resolve_attempts", 56); ("resolve_retries", 64);
  ("resolve_timeouts", 72); ("resolve_misses", 80); ("pending_packets", 88); ("pending_timeouts", 96);
  ("pending_drops", 104); ("pending_queue_limit", 112); ("last_opcode", 120); ("reserved", 122);
  ("cache_ip", 124); ("cache_mac", 128); ("reserved1", 134); ("last_error", 136); ("cache_age_ticks", 160);
  ("cache_ttl_ticks", 168)].

Definition R4NetDetailIpv4_asserts : layout_asserts := LayoutAsserts R4NetDetailIpv4 112 [
  ("rx_packets", 0); ("tx_packets", 8); ("dropped_short", 16); ("dropped_version", 24);
  ("dropped_checksum", 32); ("dropped_fragment", 40); ("dropped_destination", 48);
  ("dropped_tx_too_large", 56); ("malformed", 64); ("last_protocol", 72); ("reserved", 73);
  ("last_source", 76); ("last_dest", 80); ("last_error", 84)].

Definition R4NetDetailIcmp_asserts : layout_asserts := LayoutAsserts R4NetDetailIcmp 120 [
  ("rx_packets", 0); ("tx_packets", 8); ("echo_requests_rx", 16); ("echo_replies_rx", 24);
  ("echo_requests_tx", 32); ("echo_replies_tx", 40); ("destination_unreachable_rx", 48);
  ("port_unreachable_rx", 56); ("time_exceeded_rx", 64); ("malformed", 72); ("checksum_errors", 80);
  ("last_type", 88); ("last_code", 89); ("last_id", 90); ("last_seq", 92); ("reserved", 94);
  ("last_error", 96)].

Definition R4NetDetailUdp_asserts : layout_asserts := LayoutAsserts R4NetDetailUdp 104 [
  ("rx_packets", 0); ("tx_packets", 8); ("dropped_short", 16); ("dropped_length", 24);
  ("checksum_errors", 32); ("malformed", 40); ("dhcp_rx", 48); ("dns_rx", 56); ("self_tests", 64);
  ("last_source_port", 72); ("last_dest_port", 74); ("last_error", 76)].

Definition R4NetDetailDns_asserts : layout_asserts := LayoutAsserts R4NetDetailDns 112 [
  ("queries_tx", 0); ("responses_rx", 8); ("a_records", 16); ("resolve_requests", 24); ("timeouts", 32);
  ("nxdomain", 40); ("tx_errors", 48); ("malformed", 56); ("self_tests", 64); ("last_id", 72);
  ("reserved", 74); ("last_result", 76); ("last_server", 80); ("last_answer", 84); ("last_error", 88)].

Definition R4NetDetailSnapshot_asserts : layout_asserts := LayoutAsserts R4NetDetailSnapshot 2752 [
  ("flags", 0); ("adapter_index", 4); ("config", 8); ("dhcp", 136); ("tcp", 304); ("adapter", 464);
  ("ethernet", 776); ("arp", 872); ("ipv4", 1048); ("icmp", 1160); ("udp", 1280); ("dns", 1384);
  ("tcp_last_error", 1496); ("protocols", 1528); ("tcp_connection_count", 2104); ("link_generation", 2108);
  ("tcp_connections", 2112)].

Definition R4NetDiagTiming_asserts : layout_asserts := LayoutAsserts R4NetDiagTiming 88 [
  ("ticks", 0); ("hz", 8); ("arp_cache_ttl_ticks", 16); ("arp_resolve_timeout_ticks", 24);
  ("dhcp_timeout_ticks", 32); ("dns_timeout_ticks", 40); ("tcp_listen_timeout_ticks", 48);
  ("tcp_retransmit_timeout_ticks", 56); ("tcp_time_wait_ticks", 64); ("service_operation_timeout_ticks", 72);
  ("operation_status_count", 80); ("reserved", 84)].

Definition R4NetDiagBackpressure_asserts : layout_asserts := LayoutAsserts R4NetDiagBackpressure 296 [
  ("packet_pool_used", 0); ("packet_pool_limit", 4); ("app_ipv4_queued", 8); ("app_ipv4_queue_limit", 12);
  ("udp_active_sockets", 16); ("udp_socket_limit", 20); ("udp_queued_packets", 24);
  ("udp_queue_limit_total", 28); ("tcp_active_connections", 32); ("tcp_connection_limit", 36);
  ("tcp_active_listeners", 40); ("tcp_listener_limit", 44); ("tcp_buffer_size", 48);
  ("ipc_service_channels", 52); ("ipc_service_handlers", 56); ("ipc_service_queued", 60);
  ("ipc_service_queue_limit", 64); ("ipc_service_message_max", 68); ("ipc_service_queue_depth", 72);
  ("reserved", 76); ("packet_drops", 80); ("app_ipv4_drops", 88); ("udp_drops", 96); ("tcp_rx_drops", 104);
  ("ipc_service_drops", 112); ("tx_failures", 120); ("tx_no_adapter", 128); ("tx_link_down", 136);
  ("tx_busy", 144); ("tx_too_large", 152); ("tx_unsupported", 160); ("tx_backend_error", 168);
  ("resource_queue_full", 176); ("resource_packet_drops", 184); ("resource_buffer_small", 192);
  ("resource_retries", 200); ("resource_timeouts", 208); ("resource_cancels", 216);
  ("resource_backend_busy", 224); ("tx_last_result", 232); ("nonblocking_empty_status", 264)].

Definition R4NetDiagCleanup_asserts : layout_asserts := LayoutAsserts R4NetDiagCleanup 144 [
  ("runs", 0); ("link_down_cleanups", 8); ("adapter_reset_cleanups", 16); ("adapter_unregister_cleanups", 24);
  ("service_restart_cleanups", 32); ("poweroff_cleanups", 40); ("reboot_cleanups", 48);
  ("udp_sockets_closed", 56); ("tcp_connections_aborted", 64); ("tcp_listeners_closed", 72);
  ("dhcp_operations_cancelled", 80); ("dns_operations_cancelled", 88); ("last_udp_closed", 96);
  ("last_tcp_connections", 100); ("last_tcp_listeners", 104); ("reserved", 108); ("last_reason", 112)].

Definition R4NetDiagDriver_asserts : layout_asserts := LayoutAsserts R4NetDiagDriver 16 [
  ("tests", 0); ("cases", 8)].

Definition R4NetDiagErrors_asserts : layout_asserts := LayoutAsserts R4NetDiagErrors 120 [
  ("total", 0); ("packet_errors", 8); ("service_errors", 16); ("adapter_errors", 24); ("tx_failures", 32);
  ("protocol_errors", 40); ("r4p_dispatch_failures", 48); ("last_adapter_error", 56);
  ("last_protocol_error", 88)].

Definition R4NetDiagR4p_asserts : layout_asserts := LayoutAsserts R4NetDiagR4p 64 [
  ("protocol_count", 0); ("active", 4); ("missing", 8); ("reserved", 12); ("r4p_rx", 16); ("r4p_tx", 24);
  ("r4p_control", 32); ("r4p_build", 40); ("r4p_classify", 48); ("dispatch_failures", 56)].

Definition R4NetDiagResult_asserts : layout_asserts := LayoutAsserts R4NetDiagResult 760 [
  ("op", 0); ("status", 4); ("flags", 8); ("reserved", 12); ("tests", 16); ("cases", 24); ("timing", 32);
  ("backpressure", 120); ("cleanup", 416); ("driver", 560); ("errors", 576); ("r4p", 696)].

Definition R4Duration_asserts : layout_asserts := LayoutAsserts R4Duration 8 [
  ("nanoseconds", 0)].

Definition R4MonotonicInstant_asserts : layout_asserts := LayoutAsserts R4MonotonicInstant 8 [
  ("nanoseconds", 0)].

Definition R4Deadline_asserts : layout_asserts := LayoutAsserts R4Deadline 8 [
  ("nanoseconds", 0)].

Definition R4UtcTime_asserts : layout_asserts := LayoutAsserts R4UtcTime 16 [
  ("seconds_since_unix_epoch", 0); ("nanosecond", 8); ("reserved", 12)].

Definition R4Timeout_asserts : layout_asserts := LayoutAsserts R4Timeout 16 [
  ("kind", 0); ("reserved", 1); ("nanoseconds", 8)].

Definition R4StopFlag_asserts : layout_asserts := LayoutAsserts R4StopFlag 4 [
  ("value", 0)].

Definition R4ProgramInstanceStorageSelfTestResult_asserts : layout_asserts := LayoutAsserts R4ProgramInstanceStorageSelfTestResult 64 [
  ("version", 0); ("size", 4); ("cases", 8); ("passed_cases", 12); ("failed_case", 16); ("flags", 20);
  ("baseline_payload_reserved_bytes", 24); ("final_payload_reserved_bytes", 32);
  ("peak_payload_reserved_bytes", 40); ("allocation_failures_before", 48); ("allocation_failures_after", 56)].

Definition R4ProgramRegistrySummary_asserts : layout_asserts := LayoutAsserts R4ProgramRegistrySummary 160 [
  ("version", 0); ("size", 4); ("chunk_slots", 8); ("chunk_count", 12); ("slot_capacity", 16);
  ("free_slots", 20); ("reserved_slots", 24); ("live_slots", 28); ("done_slots", 32); ("retiring_slots", 36);
  ("pinned_slots", 40); ("warm_chunks", 44); ("last_admission_error", 48); ("flags", 52); ("peak_chunks", 56);
  ("peak_live", 64); ("growth_attempts", 72); ("growth_failures", 80); ("forced_failures", 88);
  ("publish_count", 96); ("rollback_count", 104); ("shrink_count", 112); ("id_collisions", 120);
  ("id_wraps", 128); ("live_id_hash", 136); ("live_address_hash", 144); ("reserved0", 152)].

Definition R4ProgramRegistrySummaryV2_asserts : layout_asserts := LayoutAsserts R4ProgramRegistrySummaryV2 224 [
  ("version", 0); ("size", 4); ("chunk_slots", 8); ("chunk_count", 12); ("slot_capacity", 16);
  ("free_slots", 20); ("reserved_slots", 24); ("live_slots", 28); ("done_slots", 32); ("retiring_slots", 36);
  ("pinned_slots", 40); ("warm_chunks", 44); ("last_admission_error", 48); ("flags", 52); ("peak_chunks", 56);
  ("peak_live", 64); ("growth_attempts", 72); ("growth_failures", 80); ("forced_failures", 88);
  ("publish_count", 96); ("rollback_count", 104); ("shrink_count", 112); ("id_collisions", 120);
  ("id_wraps", 128); ("live_id_hash", 136); ("live_address_hash", 144); ("reserved0", 152);
  ("next_generation", 160); ("completion_pending", 168); ("completion_ready", 172);
  ("completion_output_bytes", 176); ("retire_queued", 184); ("retire_deferred", 188); ("history_head", 192);
  ("history_count", 196); ("history_sequence", 200); ("completion_peak", 208); ("retire_retries", 216)].

Definition R4ProgramRegistrySelfTestResult_asserts : layout_asserts := LayoutAsserts R4ProgramRegistrySelfTestResult 64 [
  ("version", 0); ("size", 4); ("operation", 8); ("flags", 12); ("chunk_count_before", 16);
  ("slot_capacity_before", 20); ("free_slots_before", 24); ("reserved0", 28); ("growth_failures_before", 32);
  ("growth_failures_after", 40); ("forced_failures_before", 48); ("forced_failures_after", 56)].

Definition R4ProgramRegistrySelfTestResultV2_asserts : layout_asserts := LayoutAsserts R4ProgramRegistrySelfTestResultV2 136 [
  ("version", 0); ("size", 4); ("operation", 8); ("flags", 12); ("chunk_count_before", 16);
  ("slot_capacity_before", 20); ("free_slots_before", 24); ("reserved0", 28); ("growth_failures_before", 32);
  ("growth_failures_after", 40); ("forced_failures_before", 48); ("forced_failures_after", 56);
  ("lifecycle_phase", 64); ("lifecycle_result", 68); ("retire_queued_before", 72);
  ("retire_queued_after", 76); ("completion_pending_before", 80); ("completion_pending_after", 84);
  ("completion_ready_before", 88); ("completion_ready_after", 92); ("retire_retries_before", 96);
  ("retire_retries_after", 104); ("history_sequence_before", 112); ("history_sequence_after", 120);
  ("requested_next_id", 128); ("applied_next_id", 132)].

Definition R4ProgramInventoryCursor_asserts : layout_asserts := LayoutAsserts R4ProgramInventoryCursor 80 [
  ("version", 0); ("size", 4); ("snapshot_generation", 8); ("program_epoch", 16); ("task_epoch", 24);
  ("thread_epoch", 32); ("program_after_generation", 40); ("task_after_generation", 48);
  ("thread_after_generation", 56); ("flags", 64); ("restarts", 68); ("reserved0", 72)].

Definition R4ProgramInventoryPageInfo_asserts : layout_asserts := LayoutAsserts R4ProgramInventoryPageInfo 48 [
  ("version", 0); ("size", 4); ("snapshot_generation", 8); ("next_generation", 16); ("total", 24);
  ("returned", 28); ("has_more", 32); ("kind", 36); ("status", 40); ("reserved0", 44)].

Definition R4ProgramInstanceSnapshot_asserts : layout_asserts := LayoutAsserts R4ProgramInstanceSnapshot 144 [
  ("version", 0); ("size", 4); ("handle", 8); ("info", 24); ("state_generation", 136)].

Definition R4ProgramTaskSnapshot_asserts : layout_asserts := LayoutAsserts R4ProgramTaskSnapshot 96 [
  ("version", 0); ("size", 4); ("task_id", 8); ("state", 12); ("owner_instance_id", 16); ("flags", 20);
  ("generation", 24); ("instance_generation", 32); ("created_tick", 40); ("last_run_tick", 48);
  ("wake_tick", 56); ("runtime_ticks", 64); ("exit_code", 72); ("reserved0", 76); ("reserved1", 80);
  ("reserved2", 88)].

Definition R4ProgramThreadSnapshot_asserts : layout_asserts := LayoutAsserts R4ProgramThreadSnapshot 136 [
  ("version", 0); ("size", 4); ("handle", 8); ("info", 40); ("state_generation", 128)].

Definition R4ProgramInventorySummary_asserts : layout_asserts := LayoutAsserts R4ProgramInventorySummary 160 [
  ("version", 0); ("size", 4); ("snapshot_generation", 8); ("program_epoch", 16); ("task_epoch", 24);
  ("thread_epoch", 32); ("program_total", 40); ("program_active", 44); ("program_done", 48);
  ("program_retiring", 52); ("completion_total", 56); ("task_total", 60); ("task_running", 64);
  ("task_ready", 68); ("task_blocked", 72); ("thread_total", 76); ("thread_running", 80); ("thread_done", 84);
  ("thread_joining", 88); ("program_peak", 92); ("task_peak", 96); ("thread_peak", 100);
  ("program_create_failures", 104); ("task_create_failures", 112); ("thread_create_failures", 120);
  ("rollback_failures", 128); ("last_error", 136); ("flags", 140); ("program_reserved", 144);
  ("heap_active_blocks", 148); ("heap_used_bytes", 152)].

Definition R4ProgramDriverWorkPerformanceMetrics_asserts : layout_asserts := LayoutAsserts R4ProgramDriverWorkPerformanceMetrics 640 [
  ("submitted", 0); ("submitted_actual_irq", 8); ("submitted_actual_task", 16); ("submitted_irq_class", 24);
  ("submitted_task_class", 32); ("started", 40); ("started_irq_class", 48); ("started_task_class", 56);
  ("completed", 64); ("completed_irq_class", 72); ("completed_task_class", 80); ("failed", 88);
  ("cancelled", 96); ("dropped", 104); ("full_rejections", 112); ("retained_full_rejections", 120);
  ("waits", 128); ("wait_timeouts", 136); ("wait_denied_irq", 144); ("wait_failed", 152);
  ("wait_total_ns", 160); ("wait_max_ns", 168); ("wait_last_ns", 176); ("wake_publications", 184);
  ("wake_waiters", 192); ("wake_misses", 200); ("releases", 208); ("release_busy", 216);
  ("release_wakes", 224); ("invalid_handles", 232); ("stale_handles", 240);
  ("publication_pending_releases", 248); ("waiter_blocked_releases", 256); ("claimed_releases", 264);
  ("queue_total_ns", 272); ("queue_max_ns", 280); ("queue_last_ns", 288); ("run_total_ns", 296);
  ("run_max_ns", 304); ("run_last_ns", 312); ("e2e_total_ns", 320); ("e2e_max_ns", 328); ("e2e_last_ns", 336);
  ("timing_unavailable", 344); ("completion_age_current_ns", 352); ("completion_age_max_ns", 360);
  ("selection_irq", 368); ("selection_task", 376); ("selection_irq_preferred", 384);
  ("selection_task_fairness", 392); ("selection_empty", 400); ("scan_passes", 408); ("scan_slots", 416);
  ("critical_sections", 424); ("critical_from_irq", 432); ("critical_timing_samples", 440);
  ("critical_timing_unavailable", 448); ("critical_total_ns", 456); ("critical_max_ns", 464);
  ("critical_last_ns", 472); ("cleanup_calls", 480); ("cleanup_quiesced", 488);
  ("cleanup_failed_context", 496); ("cleanup_queued_cancelled", 504); ("cleanup_waits", 512);
  ("cleanup_wait_timeouts", 520); ("cleanup_wait_failures", 528); ("cleanup_wait_total_ns", 536);
  ("cleanup_wait_max_ns", 544); ("cleanup_released", 552); ("cleanup_late_finishes", 560);
  ("cleanup_scan_passes", 568); ("cleanup_scan_slots", 576); ("long_callbacks", 584);
  ("waiter_enrollments", 592); ("waiter_wake_returns", 600); ("waiter_cancel_returns", 608);
  ("sleep_waits", 616); ("sleep_denied_irq", 624); ("sleep_total_ticks", 632)].

Definition R4ProgramDriverWorkPerformanceInfo_asserts : layout_asserts := LayoutAsserts R4ProgramDriverWorkPerformanceInfo 928 [
  ("version", 0); ("size", 4); ("selected_owner", 8); ("owner_present", 12); ("initialized", 16);
  ("worker_started", 20); ("worker_task_id", 24); ("worker_count", 28); ("queue_capacity", 32);
  ("free_slots", 36); ("used_slots", 40); ("queued_slots", 44); ("running_slots", 48);
  ("completed_slots", 52); ("cancelled_slots", 56); ("irq_queued_slots", 60); ("task_queued_slots", 64);
  ("queue_high_water", 68); ("used_high_water", 72); ("retained_high_water", 76); ("irq_burst_limit", 80);
  ("current_irq_burst", 84); ("waiters_current", 88); ("waiters_max", 92); ("last_submitted_owner", 96);
  ("last_started_owner", 100); ("last_completed_owner", 104); ("last_cleanup_owner", 108);
  ("owner_used_slots", 112); ("owner_queued_slots", 116); ("owner_running_slots", 120);
  ("owner_completed_slots", 124); ("owner_cancelled_slots", 128); ("owner_irq_queued_slots", 132);
  ("owner_task_queued_slots", 136); ("owner_used_high_water", 140); ("owner_retained_high_water", 144);
  ("monotonic_clock_flags", 148); ("owner_waiters_current", 152); ("owner_waiters_max", 156);
  ("long_callback_threshold_ns", 160); ("metrics", 168); ("deadline_worker_started", 808);
  ("deadline_worker_task_id", 812); ("deadline_worker_count", 816); ("deadline_queue_capacity", 820);
  ("deadline_queued_slots", 824); ("deadline_running_slots", 828); ("deadline_queue_high_water", 832);
  ("owner_deadline_queued_slots", 836); ("owner_deadline_running_slots", 840);
  ("owner_deadline_queue_high_water", 844); ("deadline_submitted", 848); ("deadline_started", 856);
  ("deadline_completed", 864); ("deadline_misses", 872); ("deadline_budget_overruns", 880);
  ("deadline_queue_rejections", 888); ("deadline_queue_total_ticks", 896); ("deadline_queue_max_ticks", 904);
  ("deadline_lateness_total_ticks", 912); ("deadline_lateness_max_ticks", 920)].

Definition R4ProgramPciInventoryPerformanceInfo_asserts : layout_asserts := LayoutAsserts R4ProgramPciInventoryPerformanceInfo 280 [
  ("version", 0); ("size", 4); ("flags", 8); ("generation", 12); ("capacity", 16); ("mcfg_segment", 20);
  ("mcfg_start_bus", 24); ("mcfg_end_bus", 28); ("found", 32); ("stored", 40); ("dropped", 48);
  ("ecam_stored", 56); ("legacy_stored", 64); ("vendor_probes_ecam", 72); ("vendor_probes_legacy", 80);
  ("class_reads", 88); ("header_reads", 96); ("enumeration_config_reads", 104); ("function_pages", 112);
  ("early_stops", 120); ("ecam_config_reads", 128); ("ecam_config_writes", 136); ("legacy_config_reads", 144);
  ("legacy_config_writes", 152); ("mapping_checks", 160); ("mapping_hits", 168); ("mapping_misses", 176);
  ("mapping_fast_accesses", 184); ("invalid_accesses", 192); ("class_find_calls", 200);
  ("class_candidates", 208); ("detail_materializations", 216); ("interrupt_dword_reads", 224);
  ("command_reads", 232); ("bar_reads", 240); ("enumeration_total_ns", 248); ("ecam_enumeration_ns", 256);
  ("legacy_enumeration_ns", 264); ("timing_unavailable", 272)].

Definition R4ProgramInputPerformanceInfo_asserts : layout_asserts := LayoutAsserts R4ProgramInputPerformanceInfo 408 [
  ("version", 0); ("size", 4); ("keyboard_queue_capacity", 8); ("keyboard_queue_pending", 12);
  ("keyboard_queue_high_water", 16); ("gui_queue_capacity", 20); ("gui_queue_pending", 24);
  ("gui_queue_high_water", 28); ("gui_queue_active", 32); ("console_queue_capacity", 36);
  ("console_queue_pending", 40); ("console_queue_high_water", 44); ("console_queue_active", 48);
  ("program_start_attach_pending", 52); ("i8042_irq1_count", 56); ("i8042_irq12_count", 64);
  ("i8042_byte_count", 72); ("i8042_keyboard_byte_count", 80); ("i8042_mouse_byte_count", 88);
  ("i8042_keyboard_bytes_on_irq12", 96); ("i8042_mouse_bytes_on_irq1", 104); ("i8042_drain_limit_hits", 112);
  ("keyboard_push_attempts", 120); ("keyboard_accepted", 128); ("keyboard_dropped", 136);
  ("gui_push_attempts", 144); ("gui_accepted", 152); ("gui_mouse_move_coalesced", 160);
  ("gui_mouse_move_evicted", 168); ("gui_rejected", 176); ("console_push_calls", 184);
  ("console_batch_calls", 192); ("console_bytes_attempted", 200); ("console_bytes_accepted", 208);
  ("console_full_events", 216); ("program_launch_attempts", 224); ("program_entries_started", 232);
  ("program_attach_wait_events", 240); ("console_read_calls", 248); ("console_read_empty", 256);
  ("console_read_bytes", 264); ("console_wait_calls", 272); ("console_wait_blocks", 280);
  ("console_wait_immediate", 288); ("console_wait_wakes", 296); ("console_wait_timeouts", 304);
  ("console_wait_cancellations", 312); ("console_output_write_calls", 320);
  ("console_output_source_bytes", 328); ("console_output_visible_append_bytes", 336);
  ("console_output_capture_append_bytes", 344); ("console_output_shared_bytes", 352);
  ("console_output_revision_batches", 360); ("console_output_desktop_signals", 368);
  ("console_output_compactions", 376); ("console_output_compaction_bytes", 384);
  ("console_output_segment_drops", 392); ("console_output_segment_drop_bytes", 400)].

Definition R4ServiceDeadlineFooter_asserts : layout_asserts := LayoutAsserts R4ServiceDeadlineFooter 24 [
  ("magic", 0); ("version", 4); ("size", 6); ("payload_len", 8); ("reserved0", 12); ("deadline_tick", 16)].

Definition R4TrayDesktopExchange_asserts : layout_asserts := LayoutAsserts R4TrayDesktopExchange 1344 [
  ("magic", 0); ("version", 4); ("size", 6); ("desktop_owner", 8); ("known_revision", 24); ("cursor", 32);
  ("next_cursor", 34); ("flags", 36); ("result", 40); ("registered_count", 44); ("capacity", 46);
  ("desktop_epoch", 48); ("registry_revision", 56); ("event", 64); ("item", 144); ("reserved0", 1328)].

Definition R4GuiGlyphBitmap_asserts : layout_asserts := LayoutAsserts R4GuiGlyphBitmap 344 [
  ("width", 0); ("height", 4); ("advance", 8); ("line_height", 12); ("baseline", 16); ("reserved0", 20);
  ("rows", 24)].

Definition R4GuiXrgb32Resource_asserts : layout_asserts := LayoutAsserts R4GuiXrgb32Resource 64 [
  ("version", 0); ("size", 4); ("source_x", 8); ("source_y", 12); ("source_w", 16); ("source_h", 20);
  ("guest_w", 24); ("guest_h", 28); ("viewport_x", 32); ("viewport_y", 36); ("viewport_w", 40);
  ("viewport_h", 44); ("pixels_offset", 48); ("pixel_stride", 52); ("flags", 56); ("reserved0", 60)].

Definition R4GuiSharedRasterHandle_asserts : layout_asserts := LayoutAsserts R4GuiSharedRasterHandle 16 [
  ("id", 0); ("generation", 8)].

Definition R4GuiSharedRasterCreateInfo_asserts : layout_asserts := LayoutAsserts R4GuiSharedRasterCreateInfo 48 [
  ("version", 0); ("size", 4); ("format", 8); ("width", 12); ("height", 16); ("stride_bytes", 20);
  ("data_offset", 24); ("flags", 28); ("data_bytes", 32); ("reserved0", 40)].

Definition R4GuiSharedRasterWriteMap_asserts : layout_asserts := LayoutAsserts R4GuiSharedRasterWriteMap 56 [
  ("version", 0); ("size", 4); ("handle", 8); ("data_address", 24); ("byte_length", 32); ("write_token", 40);
  ("buffer_index", 48); ("reserved0", 52)].

Definition R4GuiSharedRasterLease_asserts : layout_asserts := LayoutAsserts R4GuiSharedRasterLease 48 [
  ("version", 0); ("size", 4); ("handle", 8); ("raster_generation", 24); ("lease_token", 32);
  ("reserved0", 40)].

Definition R4GuiSharedRasterMap_asserts : layout_asserts := LayoutAsserts R4GuiSharedRasterMap 120 [
  ("version", 0); ("size", 4); ("frame_owner", 8); ("frame_generation", 24); ("lease", 32);
  ("data_address", 80); ("byte_length", 88); ("format", 96); ("width", 100); ("height", 104);
  ("stride_bytes", 108); ("data_offset", 112); ("flags", 116)].

Definition R4GuiSharedRasterResource_asserts : layout_asserts := LayoutAsserts R4GuiSharedRasterResource 80 [
  ("version", 0); ("size", 4); ("handle", 8); ("raster_generation", 24); ("format", 32); ("source_x", 36);
  ("source_y", 40); ("source_w", 44); ("source_h", 48); ("guest_w", 52); ("guest_h", 56); ("viewport_x", 60);
  ("viewport_y", 64); ("viewport_w", 68); ("viewport_h", 72); ("flags", 76)].

Definition R4TcpPerformanceInfo_asserts : layout_asserts := LayoutAsserts R4TcpPerformanceInfo 208 [
  ("version", 0); ("size", 4); ("local_mss", 8); ("catalog_capacity", 12); ("delayed_ack_ms", 16);
  ("local_window_scale", 20); ("outstanding_segments", 24); ("outstanding_bytes", 28);
  ("outstanding_segments_peak", 32); ("outstanding_bytes_peak", 36); ("write_calls", 40);
  ("write_requested_bytes", 48); ("write_completed_bytes", 56); ("write_segments", 64); ("write_partial", 72);
  ("remote_window_stalls", 80); ("catalog_stalls", 88); ("backend_busy_stalls", 96); ("pure_ack_tx", 104);
  ("delayed_ack_requests", 112); ("delayed_ack_tx", 120); ("immediate_ack_tx", 128); ("ack_coalesced", 136);
  ("ack_piggybacked", 144); ("window_update_tx", 152); ("adapter_poll_rounds", 160);
  ("service_poll_requests", 168); ("service_poll_skips", 176); ("retransmits", 184); ("mss_negotiated", 192);
  ("window_scale_negotiated", 200)].

Definition R4AudioOutputInfo_asserts : layout_asserts := LayoutAsserts R4AudioOutputInfo 160 [
  ("version", 0); ("size", 4); ("id", 8); ("name", 72); ("kind", 136); ("availability", 140); ("flags", 144);
  ("preferred_rate", 148); ("channels", 152); ("format", 154); ("reserved", 156)].

Definition R4AudioOutputExtension_asserts : layout_asserts := LayoutAsserts R4AudioOutputExtension 24 [
  ("query", 0); ("select", 8); ("active", 16)].

Definition R4AudioServiceOutputRequest_asserts : layout_asserts := LayoutAsserts R4AudioServiceOutputRequest 96 [
  ("magic", 0); ("version", 4); ("size", 6); ("service_epoch", 8); ("revision", 16); ("index", 24);
  ("reserved", 28); ("id", 32)].

Definition R4AudioServiceOutputState_asserts : layout_asserts := LayoutAsserts R4AudioServiceOutputState 1520 [
  ("magic", 0); ("version", 4); ("size", 6); ("service_epoch", 8); ("revision", 16); ("count", 24);
  ("total", 28); ("index", 32); ("reason", 36); ("flags", 40); ("reserved", 44); ("desired_id", 48);
  ("active_id", 112); ("active_name", 176); ("outputs", 240)].

Definition R4CpuCapacity_asserts : layout_asserts := LayoutAsserts R4CpuCapacity 8 [
  ("available_cpus", 0); ("configured_cpus", 4)].

Definition R4PlatformInputSnapshot_asserts : layout_asserts := LayoutAsserts R4PlatformInputSnapshot 64 [
  ("version", 0); ("size", 4); ("sequence", 8); ("brightness_up", 16); ("brightness_down", 24);
  ("lid_sequence", 32); ("lid_state", 40); ("capabilities", 44); ("sources", 48); ("reserved", 52);
  ("since_ns", 56)].

Definition R4LQuery_asserts : layout_asserts := LayoutAsserts R4LQuery 32 [
  ("magic", 0); ("abi_version", 4); ("size", 8); ("group", 12); ("kernel_bridge", 16); ("reserved", 24)].

Definition report_asserts : list layout_asserts := [
  R4BootInfoSummary_asserts; R4BootInfoMemoryEntry_asserts; R4Mouse_asserts;
  R4ProgramStatus_asserts; R4ProgramInstanceInfo_asserts; R4ProgramThreadInfo_asserts;
  R4ProgramMemorySummary_asserts; R4ProgramMemoryPressureSnapshot_asserts; R4ProgramMemoryReclaimProbe_asserts;
  R4ProgramMemoryBackingStoreProbe_asserts; R4ProgramMemoryBackingStoreSlotProbe_asserts; R4ProgramMemoryPagerGateProbe_asserts;
  R4ProgramMemoryPageIoProbe_asserts; R4ProgramMemoryVmPageStateProbe_asserts; R4ProgramPerformanceSummary_asserts;
  R4ProgramTaskPerformanceInfo_asserts; R4ProgramStoragePerformanceInfo_asserts; R4ProgramBootPhasePerformanceInfo_asserts;
  R4ProgramBootPhaseClockInfo_asserts; R4ProgramBootPerformanceInfo_asserts; R4ProgramIrqTimingInfo_asserts;
  R4ProgramMemoryBlockInfo_asserts; R4ProgramVmReserveProbe_asserts; R4PagingSummary_asserts;
  R4DisplayDamageRect_asserts; R4DisplayPresentRequest_asserts; R4DisplayPresentResult_asserts;
  R4DisplaySummary_asserts; R4GuiSize_asserts; R4GuiCommand_asserts;
  R4GuiFrameCommand_asserts; R4GuiPathSegment_asserts; R4GuiShapeResource_asserts;
  R4GuiIndexed8Resource_asserts; R4GuiFontInfo_asserts; R4GuiTextMetrics_asserts;
  R4ClipboardInfo_asserts; R4RemoteFrameInfo_asserts; R4RemoteFrameMapInfo_asserts;
  R4RemoteInputEvent_asserts; R4RemoteInputStatus_asserts; R4ProgramHostLaunchRequest_asserts;
  R4KernelVersion_asserts; R4MonotonicClockInfo_asserts; R4KeyboardLayoutInfo_asserts;
  R4DriveInfo_asserts; R4BootLogInfo_asserts; R4DeviceInventorySummary_asserts;
  R4DeviceInventoryRecord_asserts; R4HardwareSummary_asserts; R4ProtocolStatus_asserts;
  R4ProtocolBuffer_asserts; R4SerialLinkStatus_asserts; R4SerialLinkMessage_asserts;
  R4RegistrySnapshotCursor_asserts; R4RegistrySnapshotEntry_asserts; R4RegistrySnapshotPageInfo_asserts;
  R4RegistryKeyInfo_asserts; R4ServiceDetail_asserts; R4IpcSummary_asserts;
  R4IpcPerformanceSummary_asserts; R4IpcChannelInfo_asserts; R4TcpSummary_asserts;
  R4TcpConnectionInfo_asserts; R4TcpAcceptResult_asserts; R4NetIpv4Packet_asserts;
  R4NetConfigSnapshot_asserts; R4NetConfigRequest_asserts; R4DhcpStatus_asserts;
  R4NetDetailProtocolRuntime_asserts; R4NetDetailAdapter_asserts; R4NetDetailEthernet_asserts;
  R4NetDetailArp_asserts; R4NetDetailIpv4_asserts; R4NetDetailIcmp_asserts;
  R4NetDetailUdp_asserts; R4NetDetailDns_asserts; R4NetDetailSnapshot_asserts;
  R4NetDiagTiming_asserts; R4NetDiagBackpressure_asserts; R4NetDiagCleanup_asserts;
  R4NetDiagDriver_asserts; R4NetDiagErrors_asserts; R4NetDiagR4p_asserts;
  R4NetDiagResult_asserts; R4Duration_asserts; R4MonotonicInstant_asserts;
  R4Deadline_asserts; R4UtcTime_asserts; R4Timeout_asserts;
  R4StopFlag_asserts; R4ProgramInstanceStorageSelfTestResult_asserts; R4ProgramRegistrySummary_asserts;
  R4ProgramRegistrySummaryV2_asserts; R4ProgramRegistrySelfTestResult_asserts; R4ProgramRegistrySelfTestResultV2_asserts;
  R4ProgramInventoryCursor_asserts; R4ProgramInventoryPageInfo_asserts; R4ProgramInstanceSnapshot_asserts;
  R4ProgramTaskSnapshot_asserts; R4ProgramThreadSnapshot_asserts; R4ProgramInventorySummary_asserts;
  R4ProgramDriverWorkPerformanceMetrics_asserts; R4ProgramDriverWorkPerformanceInfo_asserts; R4ProgramPciInventoryPerformanceInfo_asserts;
  R4ProgramInputPerformanceInfo_asserts; R4ServiceDeadlineFooter_asserts; R4TrayDesktopExchange_asserts;
  R4GuiGlyphBitmap_asserts; R4GuiXrgb32Resource_asserts; R4GuiSharedRasterHandle_asserts;
  R4GuiSharedRasterCreateInfo_asserts; R4GuiSharedRasterWriteMap_asserts; R4GuiSharedRasterLease_asserts;
  R4GuiSharedRasterMap_asserts; R4GuiSharedRasterResource_asserts; R4TcpPerformanceInfo_asserts;
  R4AudioOutputInfo_asserts; R4AudioOutputExtension_asserts; R4AudioServiceOutputRequest_asserts;
  R4AudioServiceOutputState_asserts; R4CpuCapacity_asserts; R4PlatformInputSnapshot_asserts;
  R4LQuery_asserts].

(** ** The layouts *)

(** Every structure of abi_generated.h and of r4m0.h has the size and the
    field offsets that the header's static assertions state, its fields are
    aligned, ordered and disjoint, and none lies outside the structure. *)
Theorem abi_layouts_hold :
  Forall (λ a, asserts_hold a = true ∧
               placed 0 (sizeof (la_struct a)) (place 0 (fields_of (la_struct a)))) (all_asserts ++ report_asserts).
Proof.
  apply Forall_app. split; apply struct_ok_layouts; vm_compute; reflexivity.
Qed.

End R4AbiReports.
