(* ===== verification/R4Mem.v ===== *)
(** * The machine the SDK headers run on

    Application memory is a finite map from addresses to bytes, and a pointer
    is an address (0 is NULL). SDK code is a computation [M] over a [world], the
    memory together with the state of the kernel; [None] is a fault: an access
    to memory that is not mapped, or a call through a null function pointer.

    The kernel is code outside the headers. It is the parameter [kcall] of the
    class [Kernel]: what a call of the function at an address, with given
    argument words, returns and does to the world. Structures are accessed
    through the layouts of [R4Abi]. *)

From S2P Require Import Prelude R4Abi.

Module R4Mem.
Export R4Abi.

Record world (K : Type) := World { mem : gmap Z byte; kern : K }.
Arguments World {K}.
Arguments mem {K}.
Arguments kern {K}.

Class Kernel (K : Type) := kcall : Z → list Z → world K → Z * world K.

Definition M (K A : Type) : Type := world K → option (A * world K).

#[global] Instance m_ret K : MRet (M K) := λ A a w, Some (a, w).
#[global] Instance m_bind K : MBind (M K) := λ A B f m w,
  match m w with Some (a, w') => f a w' | None => None end.

Definition fault {K A} : M K A := λ _, None.

(** ** Memory *)

Fixpoint read_bytes (m : gmap Z byte) (a : Z) (n : nat) : option (list byte) :=
  match n with
  | O => Some []
  | S n =>
      match m !! a, read_bytes m (a + 1) n with
      | Some b, Some l => Some (b :: l)
      | _, _ => None
      end
  end.

Fixpoint write_bytes (m : gmap Z byte) (a : Z) (l : list byte) : option (gmap Z byte) :=
  match l with
  | [] => Some m
  | b :: l =>
      match m !! a with
      | Some _ => write_bytes (<[a := b]> m) (a + 1) l
      | None => None
      end
  end.

Definition load {K} (n : nat) (a : Z) : M K Z := λ w,
  match read_bytes (mem w) a n with Some l => Some (le_val l, w) | None => None end.

Definition store_bytes {K} (a : Z) (l : list byte) : M K () := λ w,
  match write_bytes (mem w) a l with Some m => Some ((), World m (kern w)) | None => None end.

Definition store {K} (n : nat) (a v : Z) : M K () := store_bytes a (le_bytes n v).

(** Offset and width of a scalar field. *)
Definition field_at (t : ctype) (f : string) : option (Z * nat) :=
  match assoc f (place 0 (fields_of t)) with
  | Some (o, Scalar n) => Some (o, Z.to_nat n)
  | _ => None
  end.

(** [p->f] for a [p] that points to a [t], as a value and as a target. *)
Definition get {K} (t : ctype) (f : string) (p : Z) : M K Z :=
  match field_at t f with Some (o, n) => load n (p + o) | None => fault end.
Definition put {K} (t : ctype) (f : string) (p v : Z) : M K () :=
  match field_at t f with Some (o, n) => store n (p + o) v | None => fault end.

(** [*p = (t){0}]. *)
Definition clear {K} (t : ctype) (p : Z) : M K () := store_bytes p (replicate (Z.to_nat (sizeof t)) x00).

(** A call through a function pointer. *)
Definition call {K} `{!Kernel K} (f : Z) (args : list Z) : M K Z := λ w,
  if f =? 0 then None else Some (kcall f args w).

(** The same for a function that returns [int32_t], and for one that returns nothing. *)
Definition call_i32 {K} `{!Kernel K} (f : Z) (args : list Z) : M K Z :=
  r ← call f args; mret (i32 r).
Definition call_u32 {K} `{!Kernel K} (f : Z) (args : list Z) : M K Z :=
  r ← call f args; mret (u32 r).
Definition call_void {K} `{!Kernel K} (f : Z) (args : list Z) : M K () :=
  _ ← call f args; mret ().

(** ** Lemmas on memory *)

Definition mapped (m : gmap Z byte) (a n : Z) : Prop := ∀ x, a ≤ x < a + n → is_Some (m !! x).

Lemma mapped_sub m a n a' n' : mapped m a n → a ≤ a' → a' + n' ≤ a + n → mapped m a' n'.
Proof. intros H ? ? x ?. apply H. lia. Qed.

Lemma read_bytes_mapped m a n :
  mapped m a (Z.of_nat n) → ∃ l, read_bytes m a n = Some l ∧ length l = n.
Proof.
  revert a. induction n as [|n IH]; intros a H; [by exists []|]. cbn [read_bytes].
  destruct (H a ltac:(lia)) as [b ->].
  destruct (IH (a + 1)) as (l & -> & Hl); [by eapply mapped_sub; [done|lia|lia]|].
  exists (b :: l). by rewrite <-Hl.
Qed.

Lemma read_bytes_ext m m' a n :
  (∀ x, a ≤ x < a + Z.of_nat n → m' !! x = m !! x) → read_bytes m' a n = read_bytes m a n.
Proof.
  revert a. induction n as [|n IH]; intros a H; [done|]. cbn [read_bytes].
  rewrite (H a) by lia. by rewrite (IH (a + 1)) by (intros; apply H; lia).
Qed.

Lemma write_bytes_run m a l :
  mapped m a (Z.of_nat (length l)) →
  ∃ m', write_bytes m a l = Some m' ∧ (∀ x, is_Some (m' !! x) ↔ is_Some (m !! x)) ∧
    (∀ x, ¬ (a ≤ x < a + Z.of_nat (length l)) → m' !! x = m !! x) ∧
    read_bytes m' a (length l) = Some l.
Proof.
  revert m a. induction l as [|b l IH]; intros m a H; [by exists m|]. cbn [write_bytes].
  assert (is_Some (m !! a)) as Hs by (apply H; simpl length; lia). destruct Hs as [c Hc]. rewrite Hc.
  assert (∀ x, is_Some (<[a:=b]> m !! x) ↔ is_Some (m !! x)) as Hdom.
  { intros x. destruct (decide (x = a)) as [-> |]; [by rewrite lookup_insert_eq, Hc|by rewrite lookup_insert_ne]. }
  destruct (IH (<[a:=b]> m) (a + 1)) as (m' & Hw & Hd & Ho & Hr).
  { intros x Hx. apply Hdom, H. simpl length. lia. }
  exists m'. split_and!; [done| | |].
  - intros x. by rewrite Hd, Hdom.
  - intros x Hx. simpl length in Hx. rewrite Ho by lia. apply lookup_insert_ne. lia.
  - simpl length. cbn [read_bytes]. rewrite Ho, lookup_insert_eq, Hr by lia. done.
Qed.

(** ** Running *)

Section run.
Context {K : Type}.
Implicit Types w : world K.

Lemma mbind_run {A B} (m : M K A) (f : A → M K B) w a w' : m w = Some (a, w') → (m ≫= f) w = f a w'.
Proof. intros H. unfold mbind, m_bind. by rewrite H. Qed.

Lemma mbind2_run {A B C} (x : M K A) (f : A → M K B) (g : B → M K C) w b w' :
  (x ≫= f) w = Some (b, w') → (x ≫= λ a, f a ≫= g) w = g b w'.
Proof. unfold mbind, m_bind. destruct (x w) as [[a w1]|]; [|done]. by intros ->. Qed.

Lemma load_run w a n v l : read_bytes (mem w) a n = Some l → le_val l = v → load n a w = Some (v, w).
Proof. intros H <-. unfold load. by rewrite H. Qed.

Lemma store_run w a l :
  mapped (mem w) a (Z.of_nat (length l)) →
  ∃ m', store_bytes a l w = Some ((), World m' (kern w)) ∧
    (∀ x, is_Some (m' !! x) ↔ is_Some (mem w !! x)) ∧
    (∀ x, ¬ (a ≤ x < a + Z.of_nat (length l)) → m' !! x = mem w !! x) ∧
    read_bytes m' a (length l) = Some l.
Proof. intros (m' & H & ?)%write_bytes_run. exists m'. unfold store_bytes. by rewrite H. Qed.
End run.

(** The value of a field; 0 where it cannot be read. *)
Definition fv (m : gmap Z byte) (t : ctype) (p : Z) (f : string) : Z :=
  match field_at t f with
  | Some (o, n) => match read_bytes m (p + o) n with Some l => le_val l | None => 0 end
  | None => 0
  end.

(** [f] is a scalar field of [t] and lies in its first [n] bytes. *)
Definition field_in (t : ctype) (f : string) (n : Z) : bool :=
  match field_at t f with Some (o, k) => (0 <=? o) && (o + Z.of_nat k <=? n) | None => false end.

Lemma get_run {K} (w : world K) t f p n :
  mapped (mem w) p n → field_in t f n = true → get t f p w = Some (fv (mem w) t p f, w).
Proof.
  unfold field_in, get, fv. intros H. destruct (field_at t f) as [[o k]|]; [|done].
  intros [Ho Hn]%andb_true_iff. rewrite Z.leb_le in Ho, Hn.
  destruct (read_bytes_mapped (mem w) (p + o) k) as (l & Hl & _).
  { eapply mapped_sub; [done|lia|lia]. }
  rewrite Hl. by eapply load_run.
Qed.

Lemma fv_ext m m' t p f n :
  field_in t f n = true → (∀ x, p ≤ x < p + n → m' !! x = m !! x) → fv m' t p f = fv m t p f.
Proof.
  unfold field_in, fv. destruct (field_at t f) as [[o k]|]; [|done].
  intros [Ho Hn]%andb_true_iff Hx. rewrite Z.leb_le in Ho, Hn.
  by rewrite (read_bytes_ext m m') by (intros; apply Hx; lia).
Qed.

(** ** Deciding and building memories *)

Definition mapped_b (m : gmap Z byte) (a n : Z) : bool :=
  forallb (λ i, bool_decide (is_Some (m !! (a + Z.of_nat i)))) (seq 0 (Z.to_nat n)).

Lemma mapped_b_mapped m a n : mapped_b m a n = true → mapped m a n.
Proof.
  unfold mapped_b. rewrite forallb_forall. intros H x Hx.
  specialize (H (Z.to_nat (x - a))). rewrite in_seq in H.
  apply bool_decide_eq_true_1 in H; [|lia]. by replace (a + Z.of_nat (Z.to_nat (x - a))) with x in H by lia.
Qed.

Fixpoint place_bytes (a : Z) (l : list byte) (m : gmap Z byte) : gmap Z byte :=
  match l with [] => m | b :: l => <[a := b]> (place_bytes (a + 1) l m) end.

(** Memory that holds the given segments. *)
Definition image (segs : list (Z * list byte)) : gmap Z byte :=
  foldr (λ s m, place_bytes (fst s) (snd s) m) ∅ segs.

(** The bytes of a structure of scalars with these values, in declaration
    order; the padding is zero. *)
Definition struct_bytes (t : ctype) (vs : list Z) : list byte :=
  foldl (λ l p, match fst p with
                | (_, (o, Scalar n)) => splice (Z.to_nat o) (le_bytes (Z.to_nat n) (snd p)) l
                | _ => l
                end)
        (replicate (Z.to_nat (sizeof t)) x00) (zip (place 0 (fields_of t)) vs).

End R4Mem.
