(* ===== verification/R4L.v ===== *)
(** * r4l.h: the start context, its import list and R4L interface tables

    Platform/SDK/Shared/C/include/r4os/r4l.h, with [r4xstart_find_import] of
    r4sys.h. The kernel hands an application a context whose import list names
    the interface tables it may use; these functions find an import by group or
    by name and check a table before any slot of it is used. *)

From S2P Require Import Prelude R4Abi R4Mem.

Module R4L.
Export R4Mem.

(** ** Constants *)

Definition R4L_INTERFACE_MAGIC : Z := 0x31493452.
Definition R4L_INTERFACE_HEADER_VERSION : Z := 1.
Definition R4L_INTERFACE_HEADER_SIZE : Z := 32.
Definition R4L_INTERFACE_ALIGNMENT : Z := 8.
Definition R4L_INTERFACE_REQUIRED_FLAG_MASK : Z := 0x00ff.

Definition R4L_BINDING_OK : Z := 0.
Definition R4L_BINDING_INVALID_IMPORT : Z := -1001.
Definition R4L_BINDING_MANIFEST_REVISION_TOO_OLD : Z := -1002.
Definition R4L_BINDING_MISALIGNED_TABLE : Z := -1003.
Definition R4L_BINDING_BAD_MAGIC : Z := -1004.
Definition R4L_BINDING_UNSUPPORTED_HEADER : Z := -1005.
Definition R4L_BINDING_UNKNOWN_REQUIRED_FLAGS : Z := -1006.
Definition R4L_BINDING_INVALID_TABLE_SIZE : Z := -1007.
Definition R4L_BINDING_WRONG_INTERFACE : Z := -1008.
Definition R4L_BINDING_WRONG_MAJOR : Z := -1009.
Definition R4L_BINDING_INVALID_REVISION : Z := -1010.
Definition R4L_BINDING_REVISION_DRIFT : Z := -1011.
Definition R4L_BINDING_REVISION_TOO_OLD : Z := -1012.
Definition R4L_BINDING_TABLE_TOO_SMALL : Z := -1013.
Definition R4L_BINDING_INVALID_EXPECTATION : Z := -1014.

Definition R4XSTART_MAGIC : Z := 1398289490.
Definition R4XSTART_ABI_MAJOR : Z := 1.
Definition R4XSTART_CONTEXT_SIZE : Z := 128.
Definition R4XSTART_FLAG_IMPORTS_VALID : Z := 1.
Definition R4XSTART_IMPORT_FLAG_GROUP_INTERFACE : Z := 1.

Definition R4LInterfaceExpectation : ctype := Struct [
  ("interface_id_lo", U64); ("interface_id_hi", U64); ("abi_major", U16); ("min_revision", U16);
  ("required_size", U32); ("known_required_flags", U16); ("reserved", U16)].

Section r4l.
Context {K : Type}.

(** ** The context *)

Definition r4xstart_context_valid (ctx : Z) : M K bool :=
  if ctx =? 0 then mret false else
  magic ← get R4XStartContext "magic" ctx;
  if negb (magic =? R4XSTART_MAGIC) then mret false else
  abi_major ← get R4XStartContext "abi_major" ctx;
  if negb (abi_major =? R4XSTART_ABI_MAJOR) then mret false else
  size ← get R4XStartContext "size" ctx;
  mret (R4XSTART_CONTEXT_SIZE <=? size).

Definition r4xstart_args (ctx : Z) : M K Z :=
  if ctx =? 0 then mret 0 else
  args ← get R4XStartContext "args" ctx;
  if args =? 0 then mret 0 else
  args_len ← get R4XStartContext "args_len" ctx;
  if args_len =? 0 then mret 0 else mret args.

Definition r4xstart_import_count (ctx : Z) : M K Z :=
  if ctx =? 0 then mret 0 else
  flags ← get R4XStartContext "flags" ctx;
  if Z.land flags R4XSTART_FLAG_IMPORTS_VALID =? 0 then mret 0
  else get R4XStartContext "import_count" ctx.

Definition r4xstart_import_at (ctx index : Z) : M K Z :=
  if ctx =? 0 then mret 0 else
  imports ← get R4XStartContext "imports" ctx;
  if imports =? 0 then mret 0 else
  count ← r4xstart_import_count ctx;
  if count <=? index then mret 0 else mret (imports + index * sizeof R4XStartImport).

(** ** Names *)

Definition r4xstart_name_upper (value : Z) : Z :=
  if (97 <=? value) && (value <=? 122) then Prelude.u8 (value - (97 - 65)) else value.

(** The loop, with [fuel] rounds left; the index it stops at, or [None] for
    [return 0] inside it. *)
Fixpoint name_loop (fuel : nat) (value expected index : Z) : M K (option Z) :=
  match fuel with
  | O => mret (Some index)
  | S fuel =>
      e ← load 1 (expected + index);
      if e =? 0 then mret (Some index) else
      v ← load 1 (value + index);
      if (v =? 0) || negb (r4xstart_name_upper v =? r4xstart_name_upper e) then mret None
      else name_loop fuel value expected (index + 1)
  end.

Definition r4xstart_import_name_equal (raw expected : Z) : M K bool :=
  if (raw =? 0) || (expected =? 0) then mret false else
  e0 ← load 1 expected;
  if e0 =? 0 then mret false else
  r ← name_loop 31 raw expected 0;
  match r with
  | None => mret false
  | Some index =>
      if negb (index <? 32) then mret false else
      e ← load 1 (expected + index);
      if negb (e =? 0) then mret false else
      v ← load 1 (raw + index);
      mret (v =? 0)
  end.

(** ** Looking an import up *)

Fixpoint find_named_loop (n : nat) (i ctx module_name symbol_name : Z) : M K Z :=
  match n with
  | O => mret 0
  | S n =>
      item ← r4xstart_import_at ctx i;
      if item =? 0 then find_named_loop n (i + 1) ctx module_name symbol_name else
      item_module ← get R4XStartImport "module_name" item;
      same ← r4xstart_import_name_equal item_module module_name;
      if negb same then find_named_loop n (i + 1) ctx module_name symbol_name else
      item_symbol ← get R4XStartImport "symbol_name" item;
      same ← r4xstart_import_name_equal item_symbol symbol_name;
      if negb same then find_named_loop n (i + 1) ctx module_name symbol_name else mret item
  end.

Definition r4xstart_find_import_named (ctx module_name symbol_name : Z) : M K Z :=
  count ← r4xstart_import_count ctx;
  find_named_loop (Z.to_nat count) 0 ctx module_name symbol_name.

Fixpoint find_import_loop (n : nat) (i ctx group_id : Z) : M K Z :=
  match n with
  | O => mret 0
  | S n =>
      item ← r4xstart_import_at ctx i;
      if item =? 0 then find_import_loop n (i + 1) ctx group_id else
      g ← get R4XStartImport "group_id" item;
      if g =? group_id then mret item else find_import_loop n (i + 1) ctx group_id
  end.

Definition r4xstart_find_import (ctx group_id : Z) : M K Z :=
  count ← r4xstart_import_count ctx;
  find_import_loop (Z.to_nat count) 0 ctx group_id.

(** ** Validating an interface table *)

(** The checks of the expectation, of the import and of the table's header,
    each the status that it returns or [R4L_BINDING_OK]. *)
Definition check_expectation (expected out_header : Z) : M K Z :=
  if (expected =? 0) || (out_header =? 0) then mret R4L_BINDING_INVALID_EXPECTATION else
  lo ← get R4LInterfaceExpectation "interface_id_lo" expected;
  hi ← get R4LInterfaceExpectation "interface_id_hi" expected;
  major ← get R4LInterfaceExpectation "abi_major" expected;
  minr ← get R4LInterfaceExpectation "min_revision" expected;
  req ← get R4LInterfaceExpectation "required_size" expected;
  if ((lo =? 0) && (hi =? 0)) || (major =? 0) || (minr =? 0)
     || (req <? R4L_INTERFACE_HEADER_SIZE) || negb (req mod R4L_INTERFACE_ALIGNMENT =? 0)
  then mret R4L_BINDING_INVALID_EXPECTATION else mret R4L_BINDING_OK.

Definition check_import (item minr : Z) : M K Z :=
  if item =? 0 then mret R4L_BINDING_INVALID_IMPORT else
  group_id ← get R4XStartImport "group_id" item;
  table ← get R4XStartImport "table" item;
  min_version ← get R4XStartImport "min_version" item;
  resolved ← get R4XStartImport "resolved_version" item;
  if negb (group_id =? 0) || (table =? 0) || (min_version =? 0) || (resolved =? 0)
  then mret R4L_BINDING_INVALID_IMPORT
  else if min_version <? minr then mret R4L_BINDING_MANIFEST_REVISION_TOO_OLD
  else if (resolved <? min_version) || (65535 <? resolved) then mret R4L_BINDING_INVALID_REVISION
  else if negb (table mod R4L_INTERFACE_ALIGNMENT =? 0) then mret R4L_BINDING_MISALIGNED_TABLE
  else mret R4L_BINDING_OK.

Definition check_header (item expected : Z) : M K Z :=
  header ← get R4XStartImport "table" item;
  magic ← get R4LInterfaceHeader "magic" header;
  if negb (magic =? R4L_INTERFACE_MAGIC) then mret R4L_BINDING_BAD_MAGIC else
  hv ← get R4LInterfaceHeader "header_version" header;
  if negb (hv =? R4L_INTERFACE_HEADER_VERSION) then mret R4L_BINDING_UNSUPPORTED_HEADER else
  flags ← get R4LInterfaceHeader "flags" header;
  known ← get R4LInterfaceExpectation "known_required_flags" expected;
  if negb (Z.land (Z.land flags R4L_INTERFACE_REQUIRED_FLAG_MASK) (Z.lnot known) =? 0)
  then mret R4L_BINDING_UNKNOWN_REQUIRED_FLAGS else
  size ← get R4LInterfaceHeader "size" header;
  if (size <? R4L_INTERFACE_HEADER_SIZE) || negb (size mod R4L_INTERFACE_ALIGNMENT =? 0)
  then mret R4L_BINDING_INVALID_TABLE_SIZE else
  hlo ← get R4LInterfaceHeader "interface_id_lo" header;
  lo ← get R4LInterfaceExpectation "interface_id_lo" expected;
  hhi ← get R4LInterfaceHeader "interface_id_hi" header;
  hi ← get R4LInterfaceExpectation "interface_id_hi" expected;
  if negb (hlo =? lo) || negb (hhi =? hi) then mret R4L_BINDING_WRONG_INTERFACE else
  hmajor ← get R4LInterfaceHeader "abi_major" header;
  major ← get R4LInterfaceExpectation "abi_major" expected;
  if negb (hmajor =? major) then mret R4L_BINDING_WRONG_MAJOR else
  minor ← get R4LInterfaceHeader "abi_minor" header;
  if minor =? 0 then mret R4L_BINDING_INVALID_REVISION else
  resolved ← get R4XStartImport "resolved_version" item;
  if negb (resolved =? minor) then mret R4L_BINDING_REVISION_DRIFT else
  minr ← get R4LInterfaceExpectation "min_revision" expected;
  if minor <? minr then mret R4L_BINDING_REVISION_TOO_OLD else
  req ← get R4LInterfaceExpectation "required_size" expected;
  if size <? req then mret R4L_BINDING_TABLE_TOO_SMALL else mret R4L_BINDING_OK.

Definition r4l_validate_import (item expected out_header : Z) : M K Z :=
  _ ← (if negb (out_header =? 0) then store 8 out_header 0 else mret ());
  st ← check_expectation expected out_header;
  if negb (st =? R4L_BINDING_OK) then mret st else
  minr ← get R4LInterfaceExpectation "min_revision" expected;
  st ← check_import item minr;
  if negb (st =? R4L_BINDING_OK) then mret st else
  st ← check_header item expected;
  if negb (st =? R4L_BINDING_OK) then mret st else
  header ← get R4XStartImport "table" item;
  _ ← store 8 out_header header;
  mret R4L_BINDING_OK.

Definition r4l_has_slot (header byte_offset : Z) : M K bool :=
  if (header =? 0) || (byte_offset <? R4L_INTERFACE_HEADER_SIZE) || negb (byte_offset mod 8 =? 0)
  then mret false else
  size ← get R4LInterfaceHeader "size" header;
  mret ((byte_offset <=? size) && (8 <=? Prelude.u32 (size - byte_offset))).

Definition r4l_slot_address (header byte_offset : Z) : M K Z :=
  ok ← r4l_has_slot header byte_offset;
  if negb ok then mret 0 else load 8 (header + byte_offset).
End r4l.

End R4L.
