(* ===== verification/R4LSpec.v ===== *)
(** * What r4l.h promises

    The import list as a list of addresses, C strings in memory, and the
    theorems: the two searches return the first import that matches and read
    nothing outside the list and the names; a table that passes
    [r4l_validate_import] answers for every slot the caller asked for. *)

From S2P Require Import Prelude R4Abi R4Mem R4L.

Module R4LSpec.
Export R4L.

(** Run a field access whose structure is mapped by hypothesis [H]. *)
Ltac run_get H :=
  match goal with
  | |- context [@mbind _ _ _ _ _ (get ?t ?f ?p) ?w] =>
      rewrite (mbind_run _ _ _ _ _ (get_run w t f p _ H eq_refl))
  | |- context [get ?t ?f ?p ?w] => rewrite (get_run w t f p _ H eq_refl)
  end.

Section spec.
Context {K : Type}.
Implicit Types (w : world K) (m : gmap Z byte).

(** ** The import list *)

Definition imports_valid m (ctx : Z) : bool :=
  negb (ctx =? 0) && negb (Z.land (fv m R4XStartContext ctx "flags") R4XSTART_FLAG_IMPORTS_VALID =? 0)
  && negb (fv m R4XStartContext ctx "imports" =? 0).

Definition import_list m (ctx : Z) : list Z :=
  if imports_valid m ctx then
    map (λ i, fv m R4XStartContext ctx "imports" + Z.of_nat i * 40)
      (seq 0 (Z.to_nat (fv m R4XStartContext ctx "import_count")))
  else [].

(** The context and its imports are where they should be. *)
Record context_ok m (ctx : Z) : Prop := {
  co_mapped : ctx ≠ 0 → mapped m ctx 128;
  co_imports : Forall (λ a, mapped m a 40) (import_list m ctx)
}.

Lemma fv_nonneg m t p f : 0 ≤ fv m t p f.
Proof.
  unfold fv. destruct (field_at t f) as [[o n]|]; [|done].
  destruct (read_bytes m (p + o) n); [|done]. apply le_val_range.
Qed.

Lemma import_count_run w ctx :
  context_ok (mem w) ctx →
  ∃ n, r4xstart_import_count ctx w = Some (n, w) ∧
    n = if negb (ctx =? 0) && negb (Z.land (fv (mem w) R4XStartContext ctx "flags") R4XSTART_FLAG_IMPORTS_VALID =? 0)
        then fv (mem w) R4XStartContext ctx "import_count" else 0.
Proof.
  intros [Hm _]. unfold r4xstart_import_count. destruct (Z.eqb_spec ctx 0) as [|Hne]; [by eexists|].
  specialize (Hm Hne). run_get Hm. destruct (Z.land _ _ =? 0); [by eexists|].
  run_get Hm. by eexists.
Qed.

Lemma import_at_run w ctx i :
  context_ok (mem w) ctx → 0 ≤ i →
  r4xstart_import_at ctx i w = Some (default 0 (import_list (mem w) ctx !! Z.to_nat i), w).
Proof.
  intros Hok Hi. destruct (import_count_run w ctx Hok) as (n & Hn & Hn'). destruct Hok as [Hm _].
  unfold r4xstart_import_at, import_list, imports_valid.
  destruct (Z.eqb_spec ctx 0) as [|Hne]; [done|]. specialize (Hm Hne). run_get Hm.
  pose proof (fv_nonneg (mem w) R4XStartContext ctx "imports").
  destruct (Z.eqb_spec (fv (mem w) R4XStartContext ctx "imports") 0) as [|Hi0]; [by rewrite andb_false_r|].
  rewrite (mbind_run _ _ _ _ _ Hn), Hn'. cbn [negb andb].
  destruct (Z.land _ _ =? 0); cbn [negb andb].
  - destruct (Z.leb_spec 0 i); [done|lia].
  - change (sizeof R4XStartImport) with 40. pose proof (fv_nonneg (mem w) R4XStartContext ctx "import_count").
    destruct (Z.leb_spec (fv (mem w) R4XStartContext ctx "import_count") i).
    + rewrite lookup_ge_None_2; [done|]. rewrite length_map, length_seq. lia.
    + rewrite list_lookup_fmap, lookup_seq_lt by lia. simpl. by rewrite Z2Nat.id by lia.
Qed.

(** ** The searches *)

(** A loop that tests the imports from [i] on one by one finds the first that
    passes. *)
Lemma search_loop w ctx (loop : nat → Z → M K Z) (test : Z → bool) n i :
  (∀ i, loop 0%nat i w = Some (0, w)) →
  (∀ n i a, 0 ≤ i → import_list (mem w) ctx !! Z.to_nat i = Some a →
     loop (S n) i w = if test a then Some (a, w) else loop n (i + 1) w) →
  0 ≤ i → length (import_list (mem w) ctx) = (Z.to_nat i + n)%nat →
  loop n i w = Some (default 0 (find test (drop (Z.to_nat i) (import_list (mem w) ctx))), w).
Proof.
  intros H0 HS. revert i. induction n as [|n IH]; intros i Hi Hlen.
  - by rewrite drop_ge by lia.
  - destruct (lookup_lt_is_Some_2 (import_list (mem w) ctx) (Z.to_nat i)) as [a Ha]; [lia|].
    rewrite (HS n i a Hi Ha), (drop_S _ _ _ Ha). cbn [find]. destruct (test a); [done|].
    rewrite IH by lia. by replace (Z.to_nat (i + 1)) with (S (Z.to_nat i)) by lia.
Qed.

Lemma count_length w ctx :
  context_ok (mem w) ctx →
  ∃ n, r4xstart_import_count ctx w = Some (n, w) ∧
    (length (import_list (mem w) ctx) = Z.to_nat n ∨ import_list (mem w) ctx = []).
Proof.
  intros Hok. destruct (import_count_run w ctx Hok) as (n & Hn & ->). eexists. split; [done|].
  unfold import_list, imports_valid. destruct (negb (ctx =? 0) && _); cbn [andb]; [|by right].
  destruct (negb _); [|by right]. left. by rewrite length_map, length_seq.
Qed.

(** With no import to look at, a loop over [import_at] finds none. *)
Lemma empty_loop w (loop : nat → Z → M K Z) n i :
  (∀ i, loop 0%nat i w = Some (0, w)) →
  (∀ n i, 0 ≤ i → loop (S n) i w = loop n (i + 1) w) → 0 ≤ i → loop n i w = Some (0, w).
Proof.
  intros H0 HS. revert i. induction n as [|n IH]; intros i Hi; [done|]. rewrite HS by done. apply IH. lia.
Qed.

Lemma import_nonnull m ctx a : a ∈ import_list m ctx → a ≠ 0.
Proof.
  unfold import_list, imports_valid. destruct (_ && _) eqn:E; [|by rewrite elem_of_nil].
  apply andb_true_iff in E as [_ E%negb_true_iff%Z.eqb_neq].
  intros (i & -> & _)%list_elem_of_fmap. pose proof (fv_nonneg m R4XStartContext ctx "imports"). lia.
Qed.

Lemma import_step w ctx i a :
  context_ok (mem w) ctx → 0 ≤ i → import_list (mem w) ctx !! Z.to_nat i = Some a →
  r4xstart_import_at ctx i w = Some (a, w) ∧ a ≠ 0 ∧ mapped (mem w) a 40.
Proof.
  intros Hok Hi Ha. rewrite (import_at_run w ctx i Hok Hi), Ha.
  apply list_elem_of_lookup_2 in Ha. split_and!; [done|by eapply import_nonnull|].
  pose proof (co_imports _ _ Hok) as Hall. rewrite Forall_forall in Hall. by apply Hall.
Qed.

Lemma find_import_run w ctx g :
  context_ok (mem w) ctx →
  r4xstart_find_import ctx g w =
    Some (default 0 (find (λ a, fv (mem w) R4XStartImport a "group_id" =? g) (import_list (mem w) ctx)), w).
Proof.
  intros Hok. unfold r4xstart_find_import. destruct (count_length w ctx Hok) as (n & Hn & Hlen).
  rewrite (mbind_run _ _ _ _ _ Hn). destruct Hlen as [Hlen|Hnil].
  - rewrite (search_loop w ctx (λ n i, find_import_loop n i ctx g)
      (λ a, fv (mem w) R4XStartImport a "group_id" =? g) _ 0); [done|done| |lia|done].
    intros k i a Hi Ha. destruct (import_step w ctx i a Hok Hi Ha) as (Hat & Hne & Hm).
    cbn [find_import_loop]. rewrite (mbind_run _ _ _ _ _ Hat). destruct (Z.eqb_spec a 0); [done|].
    run_get Hm. by destruct (_ =? g).
  - rewrite Hnil. apply (empty_loop w (λ n i, find_import_loop n i ctx g)); [done| |lia].
    intros k i Hi. cbn [find_import_loop]. by rewrite (mbind_run _ _ _ _ _ (import_at_run w ctx i Hok Hi)), Hnil.
Qed.

(** ** Names *)

(** The NUL-terminated string [s] at [a]. *)
Definition cstr_at m (a : Z) (s : list byte) : Prop :=
  read_bytes m a (length s) = Some s ∧ m !! (a + Z.of_nat (length s)) = Some x00 ∧ Forall (λ b, b ≠ x00) s.

Definition upper (s : list byte) : list Z := map (λ b, r4xstart_name_upper (b2z b)) s.

(** Names of at most 31 characters, compared without case; no name is empty. *)
Definition name_matches (value expected : list byte) : bool :=
  bool_decide (expected ≠ []) && (Z.of_nat (length expected) <=? 31)
  && bool_decide (upper value = upper expected).

Lemma cstr_cons m a b s : cstr_at m a (b :: s) ↔ m !! a = Some b ∧ b ≠ x00 ∧ cstr_at m (a + 1) s.
Proof.
  unfold cstr_at. simpl length. cbn [read_bytes]. rewrite Forall_cons.
  replace (a + Z.of_nat (S (length s))) with (a + 1 + Z.of_nat (length s)) by lia.
  destruct (m !! a) as [c|], (read_bytes m (a + 1) (length s)) as [l|]; split; intros; destruct_and?; simplify_eq; try done.
Qed.

Lemma cstr_nil m a : cstr_at m a [] ↔ m !! a = Some x00.
Proof. unfold cstr_at. simpl. rewrite Z.add_0_r. naive_solver. Qed.

Lemma load1_run w a b : mem w !! a = Some b → load 1 a w = Some (b2z b, w).
Proof. intros H. unfold load. cbn [read_bytes]. rewrite H. cbn [le_val]. do 2 f_equal. lia. Qed.

Lemma b2z_zero b : b2z b = 0 ↔ b = x00.
Proof. split; [|by intros ->]. intros H. apply (b2z_inj b x00). exact H. Qed.

Lemma name_loop_run w fuel value expected i v e :
  cstr_at (mem w) (value + i) v → cstr_at (mem w) (expected + i) e →
  ∃ r, name_loop fuel value expected i w = Some (r, w) ∧
    match r with
    | Some j => ∃ k v' e', j = i + Z.of_nat k ∧ (k ≤ fuel)%nat ∧ v' = drop k v ∧ e' = drop k e ∧
        (k ≤ length v)%nat ∧ (k ≤ length e)%nat ∧
        upper (take k v) = upper (take k e) ∧ (e' = [] ∨ k = fuel) ∧
        cstr_at (mem w) (value + j) v' ∧ cstr_at (mem w) (expected + j) e'
    | None => upper v ≠ upper e
    end.
Proof.
  revert i v e. induction fuel as [|fuel IH]; intros i v e Hv He.
  { eexists. split; [done|]. simpl. exists 0%nat, v, e. rewrite Z.add_0_r. split_and!; (done || lia || by right). }
  cbn [name_loop]. destruct e as [|c e].
  { apply cstr_nil in He as He0. rewrite (mbind_run _ _ _ _ _ (load1_run _ _ _ He0)).
    eexists. split; [done|]. simpl. exists 0%nat, v, []. rewrite Z.add_0_r. split_and!; (done || lia || by left). }
  apply cstr_cons in He as (Hc & Hcne & He). rewrite (mbind_run _ _ _ _ _ (load1_run _ _ _ Hc)).
  destruct (Z.eqb_spec (b2z c) 0) as [Hz|_]; [by apply b2z_zero in Hz|]. destruct v as [|d v].
  { apply cstr_nil in Hv. rewrite (mbind_run _ _ _ _ _ (load1_run _ _ _ Hv)). by eexists. }
  apply cstr_cons in Hv as (Hd & Hdne & Hv). rewrite (mbind_run _ _ _ _ _ (load1_run _ _ _ Hd)).
  destruct (Z.eqb_spec (b2z d) 0) as [Hz|_]; [by apply b2z_zero in Hz|]. cbn [orb].
  destruct (Z.eqb_spec (r4xstart_name_upper (b2z d)) (r4xstart_name_upper (b2z c))) as [Heq|Hne]; cbn [negb].
  - rewrite <-Z.add_assoc in Hv, He. destruct (IH (i + 1) v e Hv He) as (r & Hr & Hspec). exists r. split; [done|].
    destruct r as [j|]; [|unfold upper in *; cbn [map]; congruence].
    destruct Hspec as (k & v' & e' & -> & Hk & -> & -> & Hkv & Hke & Hu & Hstop & Hv' & He').
    exists (S k), (drop k v), (drop k e). split_and!; try done; try (simpl; lia).
    + unfold upper in *. simpl. by rewrite Heq, Hu.
    + destruct Hstop as [|]; [by left|right; lia].
  - eexists. split; [done|]. intros H. unfold upper in H. cbn [map] in H. by injection H as H _.
Qed.

Lemma length_upper s : length (upper s) = length s.
Proof. apply length_map. Qed.

Lemma upper_split k v e :
  upper (take k v) = upper (take k e) → upper v = upper e ↔ upper (drop k v) = upper (drop k e).
Proof.
  intros H. rewrite <-(take_drop k v) at 1. rewrite <-(take_drop k e) at 1.
  unfold upper in *. rewrite !map_app, H. split; [apply app_inv_head|by intros ->].
Qed.

Lemma name_equal_run w raw expected v e :
  raw ≠ 0 → expected ≠ 0 → cstr_at (mem w) raw v → cstr_at (mem w) expected e →
  r4xstart_import_name_equal raw expected w = Some (name_matches v e, w).
Proof.
  intros Hr He Hv Hs. unfold r4xstart_import_name_equal, name_matches.
  destruct (Z.eqb_spec raw 0); [done|]. destruct (Z.eqb_spec expected 0); [done|]. cbn [orb].
  destruct e as [|c e].
  { apply cstr_nil in Hs. by rewrite (mbind_run _ _ _ _ _ (load1_run _ _ _ Hs)). }
  pose proof Hs as Hs'. apply cstr_cons in Hs' as (Hc & Hcne & _).
  rewrite (mbind_run _ _ _ _ _ (load1_run _ _ _ Hc)).
  destruct (Z.eqb_spec (b2z c) 0) as [Hz|_]; [by apply b2z_zero in Hz|].
  rewrite bool_decide_true by done. cbn [andb]. set (s := c :: e) in *.
  destruct (name_loop_run w 31 raw expected 0 v s) as (r & Hrun & Hspec); [by rewrite Z.add_0_r..|].
  rewrite (mbind_run _ _ _ _ _ Hrun). destruct r as [j|]; [|by rewrite bool_decide_false, andb_false_r].
  destruct Hspec as (k & v' & e' & -> & Hk & -> & -> & Hkv & Hke & Hu & Hstop & Hv' & He').
  destruct (Z.ltb_spec (0 + Z.of_nat k) 32); [|lia]. cbn [negb].
  destruct (drop k s) as [|x rest] eqn:Hd.
  - apply cstr_nil in He'. rewrite (mbind_run _ _ _ _ _ (load1_run _ _ _ He')). cbn [negb].
    change (b2z x00 =? 0) with true. cbn [negb]. pose proof (f_equal length Hd) as Hlen.
    rewrite length_drop in Hlen. cbn [length] in Hlen.
    rewrite (proj2 (Z.leb_le (Z.of_nat (length s)) 31)) by lia. cbn [andb].
    pose proof (upper_split k v s Hu) as Hiff. rewrite Hd in Hiff.
    destruct (drop k v) as [|y v''] eqn:Hdv.
    + apply cstr_nil in Hv'. rewrite (mbind_run _ _ _ _ _ (load1_run _ _ _ Hv')).
      rewrite bool_decide_true by (by apply Hiff). done.
    + apply cstr_cons in Hv' as (Hy & Hyne & _). rewrite (mbind_run _ _ _ _ _ (load1_run _ _ _ Hy)).
      rewrite bool_decide_false by (rewrite Hiff; done). rewrite (proj2 (Z.eqb_neq _ _)); [done|]. by rewrite b2z_zero.
  - apply cstr_cons in He' as (Hx & Hxne & _). rewrite (mbind_run _ _ _ _ _ (load1_run _ _ _ Hx)).
    rewrite (proj2 (Z.eqb_neq _ _)) by (by rewrite b2z_zero). cbn [negb].
    destruct Hstop as [|Hkf]; [done|]. pose proof (f_equal length Hd) as Hlen. rewrite length_drop in Hlen.
    cbn [length] in Hlen. destruct (Z.leb_spec (Z.of_nat (length s)) 31); [|done]. lia.
Qed.

(** ** The theorems *)

(** C20. [r4xstart_find_import_named] reads nothing outside the import list and
    the names, and returns the first import whose module and symbol names match
    the two given names without regard to case (NULL if there is none); names
    of more than 31 characters never match. *)
Theorem find_import_named_first w ctx module_name symbol_name mn sn (names : Z → list byte * list byte) :
  context_ok (mem w) ctx → module_name ≠ 0 → symbol_name ≠ 0 →
  cstr_at (mem w) module_name mn → cstr_at (mem w) symbol_name sn →
  Forall (λ a,
    fv (mem w) R4XStartImport a "module_name" ≠ 0 ∧
    cstr_at (mem w) (fv (mem w) R4XStartImport a "module_name") (fst (names a)) ∧
    fv (mem w) R4XStartImport a "symbol_name" ≠ 0 ∧
    cstr_at (mem w) (fv (mem w) R4XStartImport a "symbol_name") (snd (names a))) (import_list (mem w) ctx) →
  r4xstart_find_import_named ctx module_name symbol_name w =
    Some (default 0 (find (λ a, name_matches (fst (names a)) mn && name_matches (snd (names a)) sn)
                       (import_list (mem w) ctx)), w).
Proof.
  intros Hok Hm0 Hs0 Hmn Hsn Hnames. unfold r4xstart_find_import_named.
  destruct (count_length w ctx Hok) as (n & Hn & Hlen). rewrite (mbind_run _ _ _ _ _ Hn).
  destruct Hlen as [Hlen|Hnil].
  - rewrite (search_loop w ctx (λ n i, find_named_loop n i ctx module_name symbol_name)
      (λ a, name_matches (fst (names a)) mn && name_matches (snd (names a)) sn) _ 0); [done|done| |lia|done].
    intros k i a Hi Ha. destruct (import_step w ctx i a Hok Hi Ha) as (Hat & Hne & Hm).
    apply list_elem_of_lookup_2 in Ha. rewrite Forall_forall in Hnames.
    destruct (Hnames a Ha) as (H1 & H2 & H3 & H4).
    cbn [find_named_loop]. rewrite (mbind_run _ _ _ _ _ Hat). destruct (Z.eqb_spec a 0); [done|].
    run_get Hm. rewrite (mbind_run _ _ _ _ _ (name_equal_run w _ _ _ _ H1 Hm0 H2 Hmn)).
    destruct (name_matches (fst (names a)) mn); [|done]. cbn [negb andb].
    run_get Hm. rewrite (mbind_run _ _ _ _ _ (name_equal_run w _ _ _ _ H3 Hs0 H4 Hsn)).
    by destruct (name_matches (snd (names a)) sn).
  - rewrite Hnil. apply (empty_loop w (λ n i, find_named_loop n i ctx module_name symbol_name)); [done| |lia].
    intros k i Hi. cbn [find_named_loop]. by rewrite (mbind_run _ _ _ _ _ (import_at_run w ctx i Hok Hi)), Hnil.
Qed.

(** ** Binding an interface *)

(** The arguments of [r4l_validate_import]: null or mapped, the result cell
    apart from what is read; a table pointer that is not null leads to at least
    a header, and to as many bytes as the header announces. *)
Record binding_args m (item expected out : Z) : Prop := {
  ba_item : item ≠ 0 → mapped m item 40 ∧ (out + 8 ≤ item ∨ item + 40 ≤ out);
  ba_expected : expected ≠ 0 → mapped m expected 32 ∧ (out + 8 ≤ expected ∨ expected + 32 ≤ out);
  ba_out : out ≠ 0 → mapped m out 8;
  ba_table : item ≠ 0 → let t := fv m R4XStartImport item "table" in t ≠ 0 →
    let n := 32 `max` fv m R4LInterfaceHeader t "size" in
    mapped m t n ∧ (out + 8 ≤ t ∨ t + n ≤ out)
}.

(** What the consumer may rely on once the binding has succeeded. *)
Record bound w (item expected header : Z) : Prop := {
  bd_header : header = fv (mem w) R4XStartImport item "table" ∧ header ≠ 0 ∧ header mod 8 = 0;
  bd_magic : fv (mem w) R4LInterfaceHeader header "magic" = R4L_INTERFACE_MAGIC;
  bd_id : fv (mem w) R4LInterfaceHeader header "interface_id_lo" = fv (mem w) R4LInterfaceExpectation expected "interface_id_lo"
    ∧ fv (mem w) R4LInterfaceHeader header "interface_id_hi" = fv (mem w) R4LInterfaceExpectation expected "interface_id_hi";
  bd_major : fv (mem w) R4LInterfaceHeader header "abi_major" = fv (mem w) R4LInterfaceExpectation expected "abi_major";
  bd_minor : fv (mem w) R4LInterfaceExpectation expected "min_revision" ≤ fv (mem w) R4LInterfaceHeader header "abi_minor";
  bd_slots : ∀ off, 32 ≤ off → off mod 8 = 0 →
    off + 8 ≤ fv (mem w) R4LInterfaceExpectation expected "required_size" →
    r4l_has_slot header off w = Some (true, w) ∧ ∃ v, r4l_slot_address header off w = Some (v, w)
}.

Lemma fv_bound m t p f o n :
  field_at t f = Some (o, n) → fv m t p f < 2 ^ (8 * Z.of_nat n).
Proof.
  intros H. unfold fv. rewrite H. destruct (read_bytes m (p + o) n) as [l|] eqn:E; [|lia].
  assert (length l = n) as <-; [|apply le_val_range].
  clear H. revert l E. generalize (p + o). induction n as [|n IH]; intros a l; [by intros [= <-]|]. cbn [read_bytes].
  destruct (m !! a); [|done]. destruct (read_bytes m (a + 1) n) eqn:E; [|done]. intros [= <-]. simpl. by erewrite IH.
Qed.

Lemma slots_run w header off n :
  header ≠ 0 → n = fv (mem w) R4LInterfaceHeader header "size" → 32 ≤ n → mapped (mem w) header n →
  32 ≤ off → off mod 8 = 0 → off + 8 ≤ n →
  r4l_has_slot header off w = Some (true, w) ∧ ∃ v, r4l_slot_address header off w = Some (v, w).
Proof.
  intros Hh Hn Hn32 Hm Ho Hmod Hle.
  assert (r4l_has_slot header off w = Some (true, w)) as Hs.
  { unfold r4l_has_slot. rewrite (proj2 (Z.eqb_neq header 0)) by done.
    rewrite (proj2 (Z.ltb_ge off R4L_INTERFACE_HEADER_SIZE)) by done. rewrite Hmod. cbn [orb negb Z.eqb].
    assert (mapped (mem w) header 32) as Hm32 by (eapply mapped_sub; [done|lia|lia]).
    run_get Hm32. rewrite <-Hn. pose proof (fv_bound (mem w) R4LInterfaceHeader header "size" 8 4 eq_refl) as Hb.
    rewrite u32_small by (unfold is_u32; lia).
    rewrite (proj2 (Z.leb_le off n)), (proj2 (Z.leb_le 8 (n - off))) by lia. done. }
  split; [done|]. unfold r4l_slot_address. rewrite (mbind_run _ _ _ _ _ Hs). cbn [negb].
  destruct (read_bytes_mapped (mem w) (header + off) 8) as (l & Hl & _); [eapply mapped_sub; [done|lia|lia]|].
  eexists. by eapply load_run.
Qed.

(** One guard of a validation: its error status ends the function. *)
Ltac guard_ok :=
  match goal with
  | |- context [if ?b then mret ?c else _] =>
      destruct b eqn:?; [eexists; split; [reflexivity|intros; discriminate]|]
  end.

Lemma check_expectation_run w expected out :
  expected ≠ 0 → out ≠ 0 → mapped (mem w) expected 32 →
  ∃ st, check_expectation expected out w = Some (st, w).
Proof.
  intros He Ho Hm. unfold check_expectation.
  rewrite (proj2 (Z.eqb_neq expected 0)), (proj2 (Z.eqb_neq out 0)) by done. cbn [orb].
  do 5 run_get Hm. destruct (_ || _); by eexists.
Qed.

Lemma check_import_run w item minr :
  (item ≠ 0 → mapped (mem w) item 40) →
  ∃ st, check_import item minr w = Some (st, w) ∧
    (st = R4L_BINDING_OK → item ≠ 0 ∧ fv (mem w) R4XStartImport item "table" ≠ 0 ∧
       fv (mem w) R4XStartImport item "table" mod 8 = 0).
Proof.
  intros Hm. unfold check_import. guard_ok. apply Z.eqb_neq in Heqb. specialize (Hm Heqb).
  do 4 run_get Hm. do 4 guard_ok. eexists. split; [done|]. intros _.
  rewrite !orb_false_iff, Z.eqb_neq in *. rewrite negb_false_iff, Z.eqb_eq in *. naive_solver.
Qed.

Lemma check_header_run w item expected :
  let h := fv (mem w) R4XStartImport item "table" in
  mapped (mem w) item 40 → mapped (mem w) expected 32 → mapped (mem w) h 32 →
  ∃ st, check_header item expected w = Some (st, w) ∧
    (st = R4L_BINDING_OK →
       fv (mem w) R4LInterfaceHeader h "magic" = R4L_INTERFACE_MAGIC ∧
       32 ≤ fv (mem w) R4LInterfaceHeader h "size" ∧
       fv (mem w) R4LInterfaceHeader h "interface_id_lo" = fv (mem w) R4LInterfaceExpectation expected "interface_id_lo" ∧
       fv (mem w) R4LInterfaceHeader h "interface_id_hi" = fv (mem w) R4LInterfaceExpectation expected "interface_id_hi" ∧
       fv (mem w) R4LInterfaceHeader h "abi_major" = fv (mem w) R4LInterfaceExpectation expected "abi_major" ∧
       fv (mem w) R4LInterfaceExpectation expected "min_revision" ≤ fv (mem w) R4LInterfaceHeader h "abi_minor" ∧
       fv (mem w) R4LInterfaceExpectation expected "required_size" ≤ fv (mem w) R4LInterfaceHeader h "size").
Proof.
  intros h Hi He Hh. unfold check_header. run_get Hi. fold h.
  run_get Hh. guard_ok. run_get Hh. guard_ok. run_get Hh. run_get He. guard_ok. run_get Hh. guard_ok.
  run_get Hh. run_get He. run_get Hh. run_get He. guard_ok. run_get Hh. run_get He. guard_ok.
  run_get Hh. guard_ok. run_get Hi. guard_ok. run_get He. guard_ok. run_get He. guard_ok.
  eexists. split; [done|]. intros _.
  repeat match goal with
  | H : (_ || _) = false |- _ => apply orb_false_iff in H as [? ?]
  | H : negb _ = false |- _ => apply negb_false_iff in H
  | H : (_ =? _) = true |- _ => apply Z.eqb_eq in H
  | H : (_ <? _) = false |- _ => apply Z.ltb_ge in H
  end.
  unfold R4L_INTERFACE_HEADER_SIZE in *. naive_solver.
Qed.

(** The result cell, and nothing else, changes. *)
Lemma store_cell w out v :
  mapped (mem w) out 8 → is_u64 v →
  ∃ w', store 8 out v w = Some ((), w') ∧ kern w' = kern w ∧
    (∀ x, is_Some (mem w' !! x) ↔ is_Some (mem w !! x)) ∧
    (∀ x, ¬ (out ≤ x < out + 8) → mem w' !! x = mem w !! x) ∧ load 8 out w' = Some (v, w').
Proof.
  intros Hm Hv. destruct (store_run w out (le_bytes 8 v)) as (m' & Hs & Hd & Ho & Hr).
  { by rewrite length_le_bytes. }
  rewrite length_le_bytes in *. exists (World m' (kern w)). split_and!; try done.
  eapply load_run; [exact Hr|]. rewrite le_val_le_bytes. by apply Z.mod_small.
Qed.

Lemma binding_args_ext m m' item expected out :
  binding_args m item expected out → (∀ x, is_Some (m' !! x) ↔ is_Some (m !! x)) →
  (∀ x, ¬ (out ≤ x < out + 8) → m' !! x = m !! x) → binding_args m' item expected out.
Proof.
  intros [Hi He Ho Ht] Hd Hx.
  assert (∀ a n, mapped m a n → mapped m' a n) as Hmap by (intros a n H x Hr; by apply Hd, H).
  split.
  - intros Hne. destruct (Hi Hne). auto.
  - intros Hne. destruct (He Hne). auto.
  - auto.
  - intros Hne t Hne'. destruct (Hi Hne) as [Hmi Hdi].
    assert (t = fv m R4XStartImport item "table") as Et by (apply (fv_ext m m' R4XStartImport item "table" 40 eq_refl); intros; apply Hx; lia).
    rewrite Et in Hne'. destruct (Ht Hne Hne') as [Hmt Hdt]. rewrite <-Et in Hmt, Hdt.
    assert (fv m' R4LInterfaceHeader t "size" = fv m R4LInterfaceHeader t "size") as Es
      by (apply (fv_ext m m' R4LInterfaceHeader t "size" 32 eq_refl); intros; apply Hx; lia).
    rewrite Es. auto.
Qed.

(** The facts the checks established survive the final store. *)
Lemma bound_transfer w w' item expected out h :
  h = fv (mem w) R4XStartImport item "table" → h ≠ 0 → h mod 8 = 0 →
  let n := 32 `max` fv (mem w) R4LInterfaceHeader h "size" in
  (out + 8 ≤ item ∨ item + 40 ≤ out) → (out + 8 ≤ expected ∨ expected + 32 ≤ out) →
  (out + 8 ≤ h ∨ h + n ≤ out) → mapped (mem w) h n →
  (∀ x, is_Some (mem w' !! x) ↔ is_Some (mem w !! x)) →
  (∀ x, ¬ (out ≤ x < out + 8) → mem w' !! x = mem w !! x) →
  (fv (mem w) R4LInterfaceHeader h "magic" = R4L_INTERFACE_MAGIC ∧
   32 ≤ fv (mem w) R4LInterfaceHeader h "size" ∧
   fv (mem w) R4LInterfaceHeader h "interface_id_lo" = fv (mem w) R4LInterfaceExpectation expected "interface_id_lo" ∧
   fv (mem w) R4LInterfaceHeader h "interface_id_hi" = fv (mem w) R4LInterfaceExpectation expected "interface_id_hi" ∧
   fv (mem w) R4LInterfaceHeader h "abi_major" = fv (mem w) R4LInterfaceExpectation expected "abi_major" ∧
   fv (mem w) R4LInterfaceExpectation expected "min_revision" ≤ fv (mem w) R4LInterfaceHeader h "abi_minor" ∧
   fv (mem w) R4LInterfaceExpectation expected "required_size" ≤ fv (mem w) R4LInterfaceHeader h "size") →
  bound w' item expected h.
Proof.
  intros Hh Hne Hmod n Hi He Ht Hm Hd Hx (H1 & H2 & H3 & H4 & H5 & H6 & H7).
  assert (∀ f, field_in R4LInterfaceHeader f 32 = true →
    fv (mem w') R4LInterfaceHeader h f = fv (mem w) R4LInterfaceHeader h f) as Eh.
  { intros f Hf. apply (fv_ext _ _ _ _ _ 32 Hf). intros. apply Hx. lia. }
  assert (∀ f, field_in R4LInterfaceExpectation f 32 = true →
    fv (mem w') R4LInterfaceExpectation expected f = fv (mem w) R4LInterfaceExpectation expected f) as Ee.
  { intros f Hf. apply (fv_ext _ _ _ _ _ 32 Hf). intros. apply Hx. lia. }
  split; rewrite ?Eh, ?Ee by reflexivity; try done.
  - split; [|done]. rewrite Hh. symmetry. apply (fv_ext (mem w) (mem w') R4XStartImport item "table" 40 eq_refl).
    intros. apply Hx. lia.
  - intros off Ho1 Ho2 Ho3. apply (slots_run w' h off (fv (mem w) R4LInterfaceHeader h "size")); try done; try lia.
    + symmetry. by apply Eh.
    + intros x Hr. apply Hd, Hm. lia.
Qed.

(** C19. [r4l_validate_import] never faults and ends with one of its statuses.
    With any status but OK the result pointer is null; with OK it is the
    import's table, the interface and its major version are the expected ones,
    the revision is not too old, and every slot below the expected size is
    inside the table. *)
Theorem validated_import_has_slots w item expected out :
  binding_args (mem w) item expected out →
  ∃ st w', r4l_validate_import item expected out w = Some (st, w') ∧ kern w' = kern w ∧
    (∀ x, ¬ (out ≤ x < out + 8) → mem w' !! x = mem w !! x) ∧
    if decide (st = R4L_BINDING_OK)
    then ∃ header, load 8 out w' = Some (header, w') ∧ bound w' item expected header
    else out ≠ 0 → load 8 out w' = Some (0, w').
Proof.
  intros Hb. unfold r4l_validate_import. destruct (Z.eqb_spec out 0) as [-> |Hout]; cbn [negb].
  { exists R4L_BINDING_INVALID_EXPECTATION, w. rewrite decide_False by done. split_and!; [|done|done|done].
    cbn [mbind m_bind mret m_ret]. unfold check_expectation. rewrite orb_true_r. reflexivity. }
  destruct (store_cell w out 0) as (w1 & Hs1 & Hk1 & Hd1 & Hx1 & Hl1); [by apply Hb|done|].
  rewrite (mbind_run _ _ _ _ _ Hs1). pose proof (binding_args_ext _ _ _ _ _ Hb Hd1 Hx1) as Hb1.
  assert (∀ st, st ≠ R4L_BINDING_OK → ∃ st' w', Some (st, w1) = Some (st', w') ∧ kern w' = kern w ∧
    (∀ x, ¬ (out ≤ x < out + 8) → mem w' !! x = mem w !! x) ∧
    if decide (st' = R4L_BINDING_OK) then ∃ header, load 8 out w' = Some (header, w') ∧ bound w' item expected header
    else out ≠ 0 → load 8 out w' = Some (0, w')) as Herr.
  { intros st Hst. exists st, w1. rewrite decide_False by done. done. }
  destruct (Z.eqb_spec expected 0) as [-> |Hexp]; [by apply (Herr R4L_BINDING_INVALID_EXPECTATION)|].
  destruct (ba_expected _ _ _ _ Hb1 Hexp) as [He Hde].
  destruct (check_expectation_run w1 expected out Hexp Hout He) as [st Hst]. rewrite (mbind_run _ _ _ _ _ Hst).
  destruct (Z.eqb_spec st R4L_BINDING_OK) as [_|]; cbn [negb]; [|by apply Herr]. clear st Hst. run_get He.
  destruct (check_import_run w1 item (fv (mem w1) R4LInterfaceExpectation expected "min_revision")) as (st & Hst & Hit).
  { intros Hne. by destruct (ba_item _ _ _ _ Hb1 Hne). }
  rewrite (mbind_run _ _ _ _ _ Hst). destruct (Z.eqb_spec st R4L_BINDING_OK) as [->|]; cbn [negb]; [|by apply Herr].
  destruct (Hit eq_refl) as (Hi0 & Ht0 & Htm). destruct (ba_item _ _ _ _ Hb1 Hi0) as [Hi Hdi].
  destruct (ba_table _ _ _ _ Hb1 Hi0 Ht0) as [Htab Hdt].
  set (h := fv (mem w1) R4XStartImport item "table") in *. set (n := 32 `max` _) in *.
  assert (mapped (mem w1) h 32) as Hh by (eapply mapped_sub; [done|lia|lia]).
  destruct (check_header_run w1 item expected Hi He Hh) as (st & Hst' & Hok). rewrite (mbind_run _ _ _ _ _ Hst').
  destruct (Z.eqb_spec st R4L_BINDING_OK) as [->|]; cbn [negb]; [|by apply Herr]. specialize (Hok eq_refl).
  run_get Hi. fold h. assert (is_u64 h) as Hh64.
  { split; [apply fv_nonneg|]. apply (fv_bound (mem w1) R4XStartImport item "table" 32 8 eq_refl). }
  assert (mapped (mem w1) out 8) as Hmo by (by apply Hb1).
  destruct (store_cell w1 out h Hmo Hh64) as (w2 & Hs2 & Hk2 & Hd2 & Hx2 & Hl2). rewrite (mbind_run _ _ _ _ _ Hs2).
  exists R4L_BINDING_OK, w2. split_and!; [done|congruence|intros; by rewrite Hx2, Hx1|].
  rewrite decide_True by done. exists h. split; [done|].
  eapply (bound_transfer w1 w2 item expected out); try done; lia.
Qed.
End spec.

(** ** A small application image *)

Definition cstr (s : string) : list byte := lit s ++ [x00].

(** A context at 4096 with two imports at 8192; their names from 12288 on, the
    table of the second at 16384; the names looked for at 20480 and 20496, an
    expectation at 24576 and a result cell at 28672. *)
Definition demo_memory : gmap Z byte := image [
  (4096, struct_bytes R4XStartContext
     [R4XSTART_MAGIC; 1; 1; 128; 1; 7; 1; 0; 0; 0; 0; 8192; 2; 0; 0; 0; 0; 0; 0; 0; 0]);
  (8192, struct_bytes R4XStartImport [1; 1; 1; 1; 12288; 12304; 16384]);
  (8232, struct_bytes R4XStartImport [0; 3; 4; 0; 12320; 12336; 16384]);
  (12288, cstr "R4SYS"); (12304, cstr "Table"); (12320, cstr "GfxLib"); (12336, cstr "Main");
  (16384, struct_bytes R4LInterfaceHeader [R4L_INTERFACE_MAGIC; 1; 0; 48; 2; 4; 77; 88]
          ++ le_bytes 8 4660 ++ le_bytes 8 22136);
  (20480, cstr "GFXLIB"); (20496, cstr "main");
  (24576, struct_bytes R4LInterfaceExpectation [77; 88; 2; 3; 48; 0; 0]);
  (28672, replicate 8 xff)].

Definition demo_world : world () := World demo_memory ().

Definition demo_names (a : Z) : list byte * list byte :=
  if a =? 8192 then (lit "R4SYS", lit "Table") else (lit "GfxLib", lit "Main").

Definition cstr_b (m : gmap Z byte) (a : Z) (s : list byte) : bool :=
  bool_decide (read_bytes m a (length s) = Some s) && bool_decide (m !! (a + Z.of_nat (length s)) = Some x00)
  && forallb (λ b, negb (bool_decide (b = x00))) s.

Lemma cstr_b_at m a s : cstr_b m a s = true → cstr_at m a s.
Proof.
  unfold cstr_b, cstr_at. rewrite !andb_true_iff, !bool_decide_eq_true, forallb_forall. intros [[H1 H2] H3].
  split_and!; [done|done|]. apply List.Forall_forall. intros b Hb ->. by specialize (H3 x00 Hb).
Qed.

Lemma demo_context : context_ok demo_memory 4096.
Proof.
  split; [intros _; apply mapped_b_mapped; vm_compute; reflexivity|].
  assert (import_list demo_memory 4096 = [8192; 8232]) as -> by (vm_compute; reflexivity).
  repeat constructor; apply mapped_b_mapped; vm_compute; reflexivity.
Qed.

Lemma find_import_named_first_witness :
  r4xstart_find_import_named 4096 20480 20496 demo_world = Some (8232, demo_world).
Proof.
  rewrite (find_import_named_first demo_world 4096 20480 20496 (lit "GFXLIB") (lit "main") demo_names).
  - vm_compute (default _ _). reflexivity.
  - exact demo_context.
  - lia.
  - lia.
  - apply cstr_b_at. vm_compute. reflexivity.
  - apply cstr_b_at. vm_compute. reflexivity.
  - change (mem demo_world) with demo_memory.
    assert (import_list demo_memory 4096 = [8192; 8232]) as -> by (vm_compute; reflexivity).
    repeat constructor; try (apply cstr_b_at; vm_compute; reflexivity); vm_compute; discriminate.
Defined.

Lemma demo_binding : binding_args demo_memory 8232 24576 28672.
Proof.
  assert (fv demo_memory R4XStartImport 8232 "table" = 16384) as Ht by (vm_compute; reflexivity).
  split; [| | |cbv zeta; rewrite Ht]; intros; try split; try (apply mapped_b_mapped; vm_compute; reflexivity).
  - right. lia.
  - right. lia.
  - right. vm_compute. discriminate.
Qed.

Lemma validated_import_has_slots_witness :
  ∃ st w', r4l_validate_import 8232 24576 28672 demo_world = Some (st, w') ∧ st = R4L_BINDING_OK ∧
    ∃ header, bound w' 8232 24576 header.
Proof.
  destruct (validated_import_has_slots demo_world 8232 24576 28672 demo_binding) as (st & w' & Hr & _ & _ & Hb).
  exists st, w'. split; [exact Hr|].
  assert (st = R4L_BINDING_OK) as Hst.
  { assert (fst <$> r4l_validate_import 8232 24576 28672 demo_world = Some R4L_BINDING_OK) as He
      by (vm_compute; reflexivity).
    rewrite Hr in He. injection He. auto. }
  split; [exact Hst|]. destruct (decide (st = R4L_BINDING_OK)); [|contradiction].
  destruct Hb as (header & _ & Hb). exists header. exact Hb.
Defined.

End R4LSpec.
