(* ===== verification/R4Table.v ===== *)
(** * Calls through a kernel table

    The kernel's interface tables (R4XStartR4Sys and its five siblings) share a
    header of 16 bytes, whose third word is the size of the table the running
    kernel provides, followed by 8-byte slots that hold function addresses or 0.
    Tables grow at the end, so a slot is there only if the size covers it.

    This file has the steps the SDK headers take on such a table, and the
    specification they are measured against: [slot_of], the address in a slot
    or 0 if the table ends before it, and [provides], that a list of slots is
    there. *)

From S2P Require Import Prelude R4Abi R4Mem.

Module R4Table.
Export R4Mem.

(** ** The code *)

Section code.
Context {K : Type} `{!Kernel K}.

(** [table->size >= offsetof(T, name) + sizeof(uintptr_t)]. *)
Definition covers (T : ctype) (name : string) (table : Z) : M K bool :=
  size ← get T "size" table; mret (offsetof T name + 8 <=? size).

(** [table->a != 0 && table->b != 0 && ...]. *)
Fixpoint slots_set (T : ctype) (names : list string) (table : Z) : M K bool :=
  match names with
  | [] => mret true
  | n :: names =>
      f ← get T n table;
      if f =? 0 then mret false else slots_set T names table
  end.

(** The shape of the [supports] functions: no table, too short a table up to
    the slot [last], or a slot that is not set. *)
Definition supports (T : ctype) (last : string) (names : list string) (table : Z) : M K bool :=
  if table =? 0 then mret false else
  ok ← covers T last table;
  if negb ok then mret false else slots_set T names table.

(** [((Fn)(uintptr_t)table->name)(args)]. *)
Definition call_slot (T : ctype) (name : string) (table : Z) (args : list Z) : M K Z :=
  f ← get T name table; call_i32 f args.
End code.

(** ** The specification *)

Definition slot_of (m : gmap Z byte) (T : ctype) (table : Z) (name : string) : Z :=
  if offsetof T name + 8 <=? fv m T table "size" then fv m T table name else 0.

Definition provides (m : gmap Z byte) (T : ctype) (table : Z) (names : list string) : bool :=
  negb (table =? 0) && forallb (λ n, negb (slot_of m T table n =? 0)) names.

(** A table is null, or mapped for the size it announces, which is at least [min]. *)
Record table_ok (m : gmap Z byte) (T : ctype) (min : Z) (table : Z) : Prop := {
  to_mapped : table ≠ 0 → mapped m table (fv m T table "size");
  to_header : table ≠ 0 → mapped m table 16;
  to_min : table ≠ 0 → min ≤ fv m T table "size"
}.

(** A slot is an 8-byte field behind the header. *)
Definition is_slot (T : ctype) (name : string) : bool :=
  match field_at T name with Some (o, n) => (16 <=? o) && (Z.of_nat n =? 8) | None => false end.

(** A table type: its [size] is in the header. *)
Definition is_table (T : ctype) : bool := field_in T "size" 16.

(** The slot [last] is the last one of [names]. *)
Definition guards (T : ctype) (last : string) (names : list string) : bool :=
  existsb (String.eqb last) names && is_slot T last &&
  forallb (λ n, is_slot T n && (offsetof T n <=? offsetof T last)) names.

Lemma is_slot_in T name n :
  is_slot T name = true → offsetof T name + 8 ≤ n → field_in T name n = true.
Proof.
  unfold is_slot, field_in, field_at, offsetof.
  destruct (assoc name _) as [[o t]|]; [|done]. destruct t as [k| |]; [|done..].
  rewrite !andb_true_iff, !Z.leb_le, Z.eqb_eq. lia.
Qed.

Lemma provides_cons m T table n names :
  provides m T table (n :: names) = negb (slot_of m T table n =? 0) && provides m T table names.
Proof. unfold provides. simpl. by destruct (table =? 0), (slot_of m T table n =? 0). Qed.

Lemma provides_elem m T table names n :
  provides m T table names = true → existsb (String.eqb n) names = true → slot_of m T table n ≠ 0.
Proof.
  unfold provides. rewrite andb_true_iff, forallb_forall, existsb_exists.
  intros [_ H] (n' & Hin & ->%String.eqb_eq). apply H in Hin. by apply negb_true_iff, Z.eqb_neq in Hin.
Qed.

Lemma slot_of_covered m T table n : slot_of m T table n ≠ 0 → offsetof T n + 8 ≤ fv m T table "size".
Proof. unfold slot_of. destruct (Z.leb_spec (offsetof T n + 8) (fv m T table "size")); [done|congruence]. Qed.

Section run.
Context {K : Type} `{!Kernel K}.
Implicit Types w : world K.

(** A slot inside the table can be read, and holds what the specification says. *)
Lemma get_slot w T min table name :
  table_ok (mem w) T min table → table ≠ 0 → is_slot T name = true →
  offsetof T name + 8 ≤ fv (mem w) T table "size" →
  get T name table w = Some (slot_of (mem w) T table name, w).
Proof.
  intros Ht Hne Hs Hle. unfold slot_of. rewrite (proj2 (Z.leb_le _ _) Hle).
  eapply get_run; [by apply (to_mapped _ _ _ _ Ht)|by apply is_slot_in].
Qed.

Lemma slots_set_run w T min table names :
  table_ok (mem w) T min table → table ≠ 0 →
  forallb (λ n, is_slot T n && (offsetof T n + 8 <=? fv (mem w) T table "size")) names = true →
  slots_set T names table w = Some (provides (mem w) T table names, w).
Proof.
  intros Ht Hne. induction names as [|n names IH]; simpl.
  - intros _. unfold provides. by rewrite (proj2 (Z.eqb_neq table 0)).
  - intros [[Hs Hle%Z.leb_le]%andb_true_iff Hrest]%andb_true_iff.
    rewrite (mbind_run _ _ _ _ _ (get_slot w T min table n Ht Hne Hs Hle)), provides_cons.
    destruct (_ =? 0); [done|]. by apply IH.
Qed.

Lemma supports_run w T min table last names :
  table_ok (mem w) T min table → is_table T = true → guards T last names = true →
  supports T last names table w = Some (provides (mem w) T table names, w).
Proof.
  intros Ht HT Hg. unfold supports. destruct (Z.eqb_spec table 0) as [-> |Hne]; [done|].
  unfold guards in Hg. apply andb_true_iff in Hg as [[Hin Hs]%andb_true_iff Hall].
  unfold covers. pose proof (to_header _ _ _ _ Ht Hne) as Hh.
  assert (∀ k : Z → M K bool, (get T "size" table ≫= k) w = k (fv (mem w) T table "size") w) as Hsz.
  { intros k. apply mbind_run. by eapply get_run. }
  assert ((size ← get T "size" table; mret (offsetof T last + 8 <=? size)) w
    = Some (offsetof T last + 8 <=? fv (mem w) T table "size", w)) as Hcov by apply Hsz.
  rewrite (mbind_run _ _ _ _ _ Hcov). destruct (Z.leb_spec (offsetof T last + 8) (fv (mem w) T table "size")); cbn [negb].
  - eapply slots_set_run; [done|done|]. rewrite forallb_forall in *. intros n Hn.
    apply Hall, andb_true_iff in Hn as [Hn Hle%Z.leb_le]. rewrite Hn. apply Z.leb_le. lia.
  - destruct (provides (mem w) T table names) eqn:E; [|done].
    eapply provides_elem, slot_of_covered in E; [|done]. lia.
Qed.

(** Calling a slot that is there. *)
Lemma call_slot_run w T min table names name args :
  table_ok (mem w) T min table → provides (mem w) T table names = true →
  existsb (String.eqb name) names = true → is_slot T name = true →
  call_slot T name table args w = call_i32 (slot_of (mem w) T table name) args w
  ∧ slot_of (mem w) T table name ≠ 0.
Proof.
  intros Ht Hp Hin Hs. pose proof (provides_elem _ _ _ _ _ Hp Hin) as Hne.
  assert (table ≠ 0) as Ht0.
  { unfold provides in Hp. apply andb_true_iff in Hp as [?%negb_true_iff%Z.eqb_neq _]. done. }
  split; [|done]. unfold call_slot. by rewrite (mbind_run _ _ _ _ _ (get_slot w T min table name Ht Ht0 Hs (slot_of_covered _ _ _ _ Hne))).
Qed.

(** A call of a function that is there does not fault. *)
Lemma call_i32_run w f args :
  f ≠ 0 → call_i32 f args w = Some (i32 (fst (kcall f args w)), snd (kcall f args w)).
Proof.
  intros Hf. unfold call_i32, call, mbind, m_bind. rewrite (proj2 (Z.eqb_neq f 0) Hf).
  by destruct (kcall f args w).
Qed.
End run.

End R4Table.
