(* ===== verification/R4Sys.v ===== *)
(** * r4sys.h: the system group

    Platform/SDK/Shared/C/include/r4os/r4sys.h. A program reaches the kernel
    through the table of an [R4Sys]; each wrapper checks its arguments and that
    the kernel has the slots it needs, and then calls one of them. The virtual
    memory allocator on top of them is in [R4Vm]. *)

From S2P Require Import Prelude R4Abi R4Mem R4L R4Table.

Module R4Sys.
Export R4L R4Table.

Definition R4OS_OK : Z := 0.
Definition R4OS_ERROR_INVALID : Z := -1.
Definition R4OS_ERROR_NOT_FOUND : Z := -2.
Definition R4OS_ERR_NO_GROUP : Z := -9001.
Definition R4OS_ERR_NO_FN : Z := -9002.
Definition R4OS_FILE_STREAM_ERROR_INVALID : Z := -1.
Definition R4OS_THREAD_ERROR_INVALID : Z := -1.
Definition R4OS_THREAD_ERROR_UNSUPPORTED : Z := -10.
Definition R4OS_PROGRAM_HANDLE_ERROR_INVALID : Z := -1.
Definition R4OS_PROGRAM_INVENTORY_PAGE_MAX : Z := 64.
Definition R4OS_REGISTRY_API_RESULT_INVALID : Z := -1.
Definition R4OS_REGISTRY_SNAPSHOT_PAGE_MAX : Z := 32.
Definition R4OS_REGISTRY_SNAPSHOT_DATA_MAX : Z := 16384.
Definition R4OS_REGISTRY_BATCH_OPERATION_MAX : Z := 32.
Definition R4OS_REGISTRY_BATCH_BLOB_MAX : Z := 16384.
Definition R4SYS_FILE_REPLACE_ATOMIC_ERROR_INVALID : Z := -1.
Definition R4SYS_FILE_REPLACE_ATOMIC_ERROR_UNSUPPORTED : Z := -2.
Definition R4SYS_FILE_REPLACE_ATOMIC_CONSUME_STAGE : Z := 1.
Definition R4SYS_FILE_DELETE_IF_MATCH_ERROR_INVALID : Z := -1.
Definition R4SYS_FILE_DELETE_IF_MATCH_ERROR_UNSUPPORTED : Z := -2.
Definition R4SYS_FILE_UPDATE_ATOMIC_CHECKED_ERROR_INVALID : Z := -1.
Definition R4SYS_FILE_UPDATE_ATOMIC_CHECKED_ERROR_UNSUPPORTED : Z := -2.
Definition R4OS_IO_ERROR_UNSUPPORTED : Z := -8.
Definition R4OS_VM_ERROR_NO_INSTANCE : Z := -12.
Definition R4L_GROUP_R4SYS : Z := 1.
Definition R4XSTART_R4SYS_MAGIC : Z := 827937618.
Definition R4XSTART_R4SYS_VERSION : Z := 14.
Definition R4XSTART_R4SYS_SIZE : Z := 1024.
Definition R4XSTART_FLAG_CLOSE_SUPPORTED : Z := 4.

(** [R4Sys]. *)
Definition R4Sys_t : ctype := Struct [("ctx", U64); ("table", U64)].

Section r4sys.
Context {K : Type} `{!Kernel K}.

(** [sys == 0 ? 0 : sys->table]: [sys == 0 || sys->table == 0] is that this is 0. *)
Definition sys_table (sys : Z) : M K Z :=
  if sys =? 0 then mret 0 else get R4Sys_t "table" sys.

Definition sys_supports (last : string) (names : list string) (sys : Z) : M K bool :=
  table ← sys_table sys; supports R4XStartR4Sys last names table.

Definition sys_call (name : string) (sys : Z) (args : list Z) : M K Z :=
  table ← sys_table sys; call_slot R4XStartR4Sys name table args.

(** ** Initialisation *)

Definition r4sys_init (ctx out_sys : Z) : M K Z :=
  if out_sys =? 0 then mret R4OS_ERROR_INVALID else
  _ ← put R4Sys_t "ctx" out_sys 0;
  _ ← put R4Sys_t "table" out_sys 0;
  item ← r4xstart_find_import ctx R4L_GROUP_R4SYS;
  if item =? 0 then mret R4OS_ERROR_NOT_FOUND else
  flags ← get R4XStartImport "flags" item;
  table ← get R4XStartImport "table" item;
  if (Z.land flags R4XSTART_IMPORT_FLAG_GROUP_INTERFACE =? 0) || (table =? 0)
  then mret R4OS_ERROR_NOT_FOUND else
  magic ← get R4XStartR4Sys "magic" table;
  if negb (magic =? R4XSTART_R4SYS_MAGIC) then mret R4OS_ERROR_INVALID else
  version ← get R4XStartR4Sys "abi_version" table;
  if version <? R4XSTART_R4SYS_VERSION then mret R4OS_ERROR_INVALID else
  size ← get R4XStartR4Sys "size" table;
  if size <? R4XSTART_R4SYS_SIZE then mret R4OS_ERROR_INVALID else
  both ← slots_set R4XStartR4Sys ["write"; "putc"] table;
  if negb both then mret R4OS_ERROR_INVALID else
  _ ← put R4Sys_t "ctx" out_sys ctx;
  _ ← put R4Sys_t "table" out_sys table;
  mret R4OS_OK.

(** ** Console *)

Definition r4sys_write (sys data len : Z) : M K Z :=
  table ← sys_table sys;
  if table =? 0 then mret R4OS_ERROR_INVALID else
  write ← get R4XStartR4Sys "write" table;
  if write =? 0 then mret R4OS_ERROR_INVALID else
  if (data =? 0) || (len =? 0) then mret R4OS_OK else call_i32 write [data; len].

Definition r4sys_putc (sys ch : Z) : M K () :=
  table ← sys_table sys;
  if table =? 0 then mret () else
  putc ← get R4XStartR4Sys "putc" table;
  if putc =? 0 then mret () else call_void putc [ch].

(** Every round reads one byte, so the size of the memory is fuel enough for a
    string in it. *)
Fixpoint cstr_len_loop (fuel : nat) (text len : Z) : M K Z :=
  match fuel with
  | O => fault
  | S fuel =>
      c ← load 1 (text + len);
      if c =? 0 then mret len else cstr_len_loop fuel text (Prelude.u32 (len + 1))
  end.

Definition r4os_cstr_len (text : Z) : M K Z := λ w,
  (if text =? 0 then mret 0 else cstr_len_loop (S (size (mem w))) text 0) w.

Definition r4sys_write_cstr (sys text : Z) : M K Z :=
  len ← r4os_cstr_len text; r4sys_write sys text len.

Definition r4sys_write_line (sys text : Z) : M K Z :=
  rc ← r4sys_write_cstr sys text;
  if rc <? 0 then mret rc else
  _ ← r4sys_putc sys 13;
  _ ← r4sys_putc sys 10;
  mret R4OS_OK.

(** ** Waiting and closing *)

Definition r4sys_sleep_ticks (sys ticks : Z) : M K () :=
  table ← sys_table sys;
  if table =? 0 then mret () else
  sleep ← get R4XStartR4Sys "sleep_ticks" table;
  if negb (sleep =? 0) then call_void sleep [ticks] else
  ctx ← get R4Sys_t "ctx" sys;
  if ctx =? 0 then mret () else
  yield ← get R4XStartContext "yield" ctx;
  if yield =? 0 then mret () else call_void yield [ctx].

Definition r4sys_program_should_close (sys : Z) : M K bool :=
  table ← sys_table sys;
  if table =? 0 then mret false else
  ctx ← get R4Sys_t "ctx" sys;
  flags ← (if ctx =? 0 then mret 0 else get R4XStartContext "flags" ctx);
  should_close ←
    (if Z.land flags R4XSTART_FLAG_CLOSE_SUPPORTED =? 0 then mret 0 else get R4XStartContext "should_close" ctx);
  if negb (should_close =? 0) then
    r ← call_u32 should_close [ctx]; mret (negb (r =? 0))
  else
    close ← get R4XStartR4Sys "program_should_close" table;
    if close =? 0 then mret false
    else r ← call_u32 close []; mret (negb (r =? 0)).

(** ** Threads *)

Definition thread_slots : list string :=
  ["thread_create"; "thread_exit"; "thread_join"; "thread_current"; "thread_status"].
Definition r4sys_supports_threads : Z → M K bool := sys_supports "thread_status" thread_slots.

Definition r4sys_thread_create (sys entry arg stack_reserve_bytes out_thread_id : Z) : M K Z :=
  ok ← r4sys_supports_threads sys;
  if negb ok || (entry =? 0) || (out_thread_id =? 0) then mret R4OS_THREAD_ERROR_UNSUPPORTED
  else sys_call "thread_create" sys [entry; arg; stack_reserve_bytes; 0; out_thread_id].

Definition r4sys_thread_exit (sys exit_code : Z) : M K () :=
  ok ← r4sys_supports_threads sys;
  if negb ok then mret ()
  else table ← sys_table sys; f ← get R4XStartR4Sys "thread_exit" table; call_void f [exit_code].

Definition r4sys_thread_join (sys thread_id timeout_ticks out_exit_code : Z) : M K Z :=
  ok ← r4sys_supports_threads sys;
  if negb ok || (out_exit_code =? 0) then mret R4OS_THREAD_ERROR_UNSUPPORTED
  else sys_call "thread_join" sys [thread_id; timeout_ticks; out_exit_code].

Definition r4sys_thread_current (sys : Z) : M K Z :=
  ok ← r4sys_supports_threads sys;
  if negb ok then mret 0
  else table ← sys_table sys; f ← get R4XStartR4Sys "thread_current" table; call_u32 f [].

Definition r4sys_thread_status (sys thread_id out_info : Z) : M K Z :=
  ok ← r4sys_supports_threads sys;
  if negb ok || (out_info =? 0) then mret R4OS_THREAD_ERROR_UNSUPPORTED
  else sys_call "thread_status" sys [thread_id; out_info].

Definition thread_handle_slots : list string :=
  ["thread_create_handle"; "thread_handle_join"; "thread_handle_status"].
Definition r4sys_supports_thread_handles : Z → M K bool :=
  sys_supports "thread_handle_status" thread_handle_slots.

Definition r4sys_thread_create_handle (sys entry arg stack_reserve_bytes flags out_handle : Z) : M K Z :=
  _ ← (if out_handle =? 0 then mret () else clear R4ProgramJoinHandle out_handle);
  if (entry =? 0) || (out_handle =? 0) then mret R4OS_THREAD_ERROR_INVALID else
  ok ← r4sys_supports_thread_handles sys;
  if negb ok then mret R4OS_THREAD_ERROR_UNSUPPORTED
  else sys_call "thread_create_handle" sys [entry; arg; stack_reserve_bytes; flags; out_handle].

Definition r4sys_thread_handle_join (sys handle timeout_ticks out_exit_code : Z) : M K Z :=
  if (handle =? 0) || (out_exit_code =? 0) then mret R4OS_THREAD_ERROR_INVALID else
  ok ← r4sys_supports_thread_handles sys;
  if negb ok then mret R4OS_THREAD_ERROR_UNSUPPORTED
  else sys_call "thread_handle_join" sys [handle; timeout_ticks; out_exit_code].

Definition r4sys_thread_handle_status (sys handle out_info : Z) : M K Z :=
  if (handle =? 0) || (out_info =? 0) then mret R4OS_THREAD_ERROR_INVALID else
  ok ← r4sys_supports_thread_handles sys;
  if negb ok then mret R4OS_THREAD_ERROR_UNSUPPORTED
  else sys_call "thread_handle_status" sys [handle; out_info].

(** ** Program inventory *)

Definition inventory_slots : list string :=
  ["program_inventory_begin"; "program_inventory_programs"; "program_inventory_tasks";
   "program_inventory_threads"].
Definition r4sys_supports_program_inventory : Z → M K bool :=
  sys_supports "program_inventory_threads" inventory_slots.

Definition r4sys_program_inventory_begin (sys cursor out_summary : Z) : M K Z :=
  if (cursor =? 0) || (out_summary =? 0) then mret R4OS_PROGRAM_HANDLE_ERROR_INVALID else
  ok ← r4sys_supports_program_inventory sys;
  if negb ok then mret R4OS_ERR_NO_FN
  else sys_call "program_inventory_begin" sys [cursor; out_summary].

(** The guard the three page functions share. *)
Definition inventory_args_bad (cursor out capacity out_page : Z) : bool :=
  (cursor =? 0) || (out =? 0) || (out_page =? 0) || (capacity =? 0)
  || (R4OS_PROGRAM_INVENTORY_PAGE_MAX <? capacity).

Definition r4sys_program_inventory_programs (sys cursor out capacity out_page : Z) : M K Z :=
  if inventory_args_bad cursor out capacity out_page then mret R4OS_PROGRAM_HANDLE_ERROR_INVALID else
  ok ← r4sys_supports_program_inventory sys;
  if negb ok then mret R4OS_ERR_NO_FN
  else sys_call "program_inventory_programs" sys [cursor; out; capacity; out_page].

Definition r4sys_program_inventory_tasks (sys cursor out capacity out_page : Z) : M K Z :=
  if inventory_args_bad cursor out capacity out_page then mret R4OS_PROGRAM_HANDLE_ERROR_INVALID else
  ok ← r4sys_supports_program_inventory sys;
  if negb ok then mret R4OS_ERR_NO_FN
  else sys_call "program_inventory_tasks" sys [cursor; out; capacity; out_page].

Definition r4sys_program_inventory_threads (sys cursor out capacity out_page : Z) : M K Z :=
  if inventory_args_bad cursor out capacity out_page then mret R4OS_PROGRAM_HANDLE_ERROR_INVALID else
  ok ← r4sys_supports_program_inventory sys;
  if negb ok then mret R4OS_ERR_NO_FN
  else sys_call "program_inventory_threads" sys [cursor; out; capacity; out_page].

(** ** Registry *)

Definition snapshot_slots : list string := ["registry_snapshot_begin"; "registry_snapshot_page"].
Definition r4sys_supports_registry_snapshot : Z → M K bool :=
  sys_supports "registry_snapshot_page" snapshot_slots.

Definition r4sys_registry_snapshot_begin (sys key_path kind cursor : Z) : M K Z :=
  if (key_path =? 0) || (cursor =? 0) then mret R4OS_REGISTRY_API_RESULT_INVALID else
  ok ← r4sys_supports_registry_snapshot sys;
  if negb ok then mret R4OS_ERR_NO_FN
  else sys_call "registry_snapshot_begin" sys [key_path; kind; cursor].

Definition r4sys_registry_snapshot_page (sys cursor entries entry_capacity data data_capacity out_page : Z) : M K Z :=
  if (cursor =? 0) || (entries =? 0) || (data =? 0) || (out_page =? 0) || (entry_capacity =? 0)
     || (R4OS_REGISTRY_SNAPSHOT_PAGE_MAX <? entry_capacity)
     || (R4OS_REGISTRY_SNAPSHOT_DATA_MAX <? data_capacity)
  then mret R4OS_REGISTRY_API_RESULT_INVALID else
  ok ← r4sys_supports_registry_snapshot sys;
  if negb ok then mret R4OS_ERR_NO_FN
  else sys_call "registry_snapshot_page" sys [cursor; entries; entry_capacity; data; data_capacity; out_page].

Definition batch_slots : list string := ["registry_batch_mutate"].
Definition r4sys_supports_registry_batch : Z → M K bool := sys_supports "registry_batch_mutate" batch_slots.

Definition r4sys_registry_batch_mutate (sys operations operation_count blob blob_len out_result : Z) : M K Z :=
  if (operations =? 0) || (operation_count =? 0) || (blob =? 0) || (out_result =? 0)
     || (R4OS_REGISTRY_BATCH_OPERATION_MAX <? operation_count) || (R4OS_REGISTRY_BATCH_BLOB_MAX <? blob_len)
  then mret R4OS_REGISTRY_API_RESULT_INVALID else
  ok ← r4sys_supports_registry_batch sys;
  if negb ok then mret R4OS_ERR_NO_FN
  else sys_call "registry_batch_mutate" sys [operations; operation_count; blob; blob_len; out_result].

(** ** Files *)

Definition copy_slots : list string := ["file_copy_buffered"].
Definition r4sys_file_copy_buffered (sys source target buffer capacity progress : Z) : M K Z :=
  if (source =? 0) || (target =? 0) || (buffer =? 0) || (capacity =? 0) || (progress =? 0)
  then mret R4OS_FILE_STREAM_ERROR_INVALID else
  table ← sys_table sys;
  if table =? 0 then mret R4OS_ERR_NO_GROUP else
  ok ← covers R4XStartR4Sys "file_copy_buffered" table;
  if negb ok then mret R4OS_ERR_NO_FN else
  f ← get R4XStartR4Sys "file_copy_buffered" table;
  if f =? 0 then mret R4OS_ERR_NO_FN
  else call_i32 f [source; target; buffer; capacity; progress].

Definition replace_slots : list string := ["file_replace_atomic"].
Definition r4sys_supports_file_replace_atomic : Z → M K bool := sys_supports "file_replace_atomic" replace_slots.

Definition r4sys_file_replace_atomic_flags (sys target_path staged_path backup_path flags : Z) : M K Z :=
  ok ← r4sys_supports_file_replace_atomic sys;
  if negb ok then mret R4SYS_FILE_REPLACE_ATOMIC_ERROR_UNSUPPORTED else
  if (target_path =? 0) || (staged_path =? 0) || (backup_path =? 0)
  then mret R4SYS_FILE_REPLACE_ATOMIC_ERROR_INVALID
  else sys_call "file_replace_atomic" sys [target_path; staged_path; backup_path; flags].

Definition r4sys_file_replace_atomic (sys target_path staged_path backup_path : Z) : M K Z :=
  r4sys_file_replace_atomic_flags sys target_path staged_path backup_path R4SYS_FILE_REPLACE_ATOMIC_CONSUME_STAGE.

Definition delete_slots : list string := ["file_delete_if_match"].
Definition r4sys_supports_file_delete_if_match : Z → M K bool := sys_supports "file_delete_if_match" delete_slots.

Definition r4sys_file_delete_if_match (sys path expected_size expected_checksum : Z) : M K Z :=
  ok ← r4sys_supports_file_delete_if_match sys;
  if negb ok then mret R4SYS_FILE_DELETE_IF_MATCH_ERROR_UNSUPPORTED else
  if path =? 0 then mret R4SYS_FILE_DELETE_IF_MATCH_ERROR_INVALID
  else sys_call "file_delete_if_match" sys [path; expected_size; expected_checksum].

Definition update_slots : list string := ["file_update_atomic_checked"].
Definition r4sys_supports_file_update_atomic_checked : Z → M K bool :=
  sys_supports "file_update_atomic_checked" update_slots.

Definition r4sys_file_update_atomic_checked
    (sys target_path staged_path backup_path new_size new_checksum old_size old_checksum flags : Z) : M K Z :=
  ok ← r4sys_supports_file_update_atomic_checked sys;
  if negb ok then mret R4SYS_FILE_UPDATE_ATOMIC_CHECKED_ERROR_UNSUPPORTED else
  if (target_path =? 0) || (staged_path =? 0) || (backup_path =? 0)
  then mret R4SYS_FILE_UPDATE_ATOMIC_CHECKED_ERROR_INVALID
  else sys_call "file_update_atomic_checked" sys
         [target_path; staged_path; backup_path; new_size; new_checksum; old_size; old_checksum; flags].

(** ** Asynchronous input and output *)

Definition io_slots : list string :=
  ["io_file_read"; "io_file_write"; "io_file_stream_write"; "io_service_call"; "io_status"; "io_wait"; "io_close"].
Definition r4sys_supports_async_io : Z → M K bool := sys_supports "io_close" io_slots.

(** The functions whose slot is not among [io_slots] test it themselves. *)
Definition io_optional (name : string) (sys : Z) : M K bool :=
  ok ← r4sys_supports_async_io sys;
  if negb ok then mret false else
  table ← sys_table sys;
  f ← get R4XStartR4Sys name table;
  mret (negb (f =? 0)).

Definition r4sys_io_file_read (sys path out capacity flags out_request_id : Z) : M K Z :=
  ok ← r4sys_supports_async_io sys;
  if negb ok || (path =? 0) || (out_request_id =? 0) then mret R4OS_IO_ERROR_UNSUPPORTED
  else sys_call "io_file_read" sys [path; out; capacity; flags; out_request_id].

Definition r4sys_io_file_read_at (sys path offset out capacity flags out_request_id : Z) : M K Z :=
  ok ← io_optional "io_file_read_at" sys;
  if negb ok || (path =? 0) || (out_request_id =? 0) then mret R4OS_IO_ERROR_UNSUPPORTED
  else sys_call "io_file_read_at" sys [path; offset; out; capacity; flags; out_request_id].

Definition r4sys_io_file_write (sys path data len flags out_request_id : Z) : M K Z :=
  ok ← r4sys_supports_async_io sys;
  if negb ok || (path =? 0) || (out_request_id =? 0) then mret R4OS_IO_ERROR_UNSUPPORTED
  else sys_call "io_file_write" sys [path; data; len; flags; out_request_id].

Definition r4sys_io_file_append (sys path data len flags out_request_id : Z) : M K Z :=
  ok ← io_optional "io_file_append" sys;
  if negb ok || (path =? 0) || (out_request_id =? 0) then mret R4OS_IO_ERROR_UNSUPPORTED
  else sys_call "io_file_append" sys [path; data; len; flags; out_request_id].

Definition r4sys_io_file_stream_begin (sys path flags out_request_id : Z) : M K Z :=
  ok ← io_optional "io_file_stream_begin" sys;
  if negb ok || (path =? 0) || (out_request_id =? 0) then mret R4OS_IO_ERROR_UNSUPPORTED
  else sys_call "io_file_stream_begin" sys [path; flags; out_request_id].

Definition r4sys_io_file_stream_write (sys path offset data len flags out_request_id : Z) : M K Z :=
  ok ← r4sys_supports_async_io sys;
  if negb ok || (path =? 0) || (out_request_id =? 0) then mret R4OS_IO_ERROR_UNSUPPORTED
  else sys_call "io_file_stream_write" sys [path; offset; data; len; flags; out_request_id].

Definition r4sys_io_file_stream_finish (sys path expected_size flags out_request_id : Z) : M K Z :=
  ok ← io_optional "io_file_stream_finish" sys;
  if negb ok || (path =? 0) || (out_request_id =? 0) then mret R4OS_IO_ERROR_UNSUPPORTED
  else sys_call "io_file_stream_finish" sys [path; expected_size; flags; out_request_id].

Definition r4sys_io_file_stream_abort (sys path out_request_id : Z) : M K Z :=
  ok ← io_optional "io_file_stream_abort" sys;
  if negb ok || (path =? 0) || (out_request_id =? 0) then mret R4OS_IO_ERROR_UNSUPPORTED
  else sys_call "io_file_stream_abort" sys [path; out_request_id].

Definition r4sys_io_service_call (sys handle op request request_len response_header response
    response_capacity timeout_ticks flags out_request_id : Z) : M K Z :=
  ok ← r4sys_supports_async_io sys;
  if negb ok || (response_header =? 0) || (response =? 0) || (out_request_id =? 0)
  then mret R4OS_IO_ERROR_UNSUPPORTED
  else sys_call "io_service_call" sys
         [handle; op; request; request_len; response_header; response; response_capacity; timeout_ticks;
          flags; out_request_id].

Definition r4sys_io_status (sys request_id out_info : Z) : M K Z :=
  ok ← r4sys_supports_async_io sys;
  if negb ok || (out_info =? 0) then mret R4OS_IO_ERROR_UNSUPPORTED
  else sys_call "io_status" sys [request_id; out_info].

Definition r4sys_io_wait (sys request_id timeout_ticks out_info : Z) : M K Z :=
  ok ← r4sys_supports_async_io sys;
  if negb ok || (out_info =? 0) then mret R4OS_IO_ERROR_UNSUPPORTED
  else sys_call "io_wait" sys [request_id; timeout_ticks; out_info].

Definition r4sys_io_close (sys request_id : Z) : M K Z :=
  ok ← r4sys_supports_async_io sys;
  if negb ok then mret R4OS_IO_ERROR_UNSUPPORTED else sys_call "io_close" sys [request_id].

(** ** Virtual memory *)

Definition vm_slots : list string := ["vm_reserve"; "vm_commit"; "vm_decommit"; "vm_release"; "vm_query"].
Definition r4sys_supports_vm : Z → M K bool := sys_supports "vm_query" vm_slots.

Definition r4sys_vm_reserve (sys bytes alignment flags out_info : Z) : M K Z :=
  ok ← r4sys_supports_vm sys;
  if negb ok || (out_info =? 0) then mret R4OS_VM_ERROR_NO_INSTANCE
  else sys_call "vm_reserve" sys [bytes; alignment; flags; out_info].

Definition r4sys_vm_commit (sys region_id offset len : Z) : M K Z :=
  ok ← r4sys_supports_vm sys;
  if negb ok then mret R4OS_VM_ERROR_NO_INSTANCE
  else sys_call "vm_commit" sys [region_id; offset; len; 0].

Definition r4sys_vm_commit_flags (sys region_id offset len flags : Z) : M K Z :=
  ok ← r4sys_supports_vm sys;
  if negb ok then mret R4OS_VM_ERROR_NO_INSTANCE
  else sys_call "vm_commit" sys [region_id; offset; len; flags].

Definition r4sys_vm_decommit (sys region_id offset len : Z) : M K Z :=
  ok ← r4sys_supports_vm sys;
  if negb ok then mret R4OS_VM_ERROR_NO_INSTANCE
  else sys_call "vm_decommit" sys [region_id; offset; len].

Definition r4sys_vm_release (sys region_id : Z) : M K Z :=
  ok ← r4sys_supports_vm sys;
  if negb ok then mret R4OS_VM_ERROR_NO_INSTANCE else sys_call "vm_release" sys [region_id].

Definition r4sys_vm_query (sys region_id out_info : Z) : M K Z :=
  ok ← r4sys_supports_vm sys;
  if negb ok || (out_info =? 0) then mret R4OS_VM_ERROR_NO_INSTANCE
  else sys_call "vm_query" sys [region_id; out_info].
End r4sys.

End R4Sys.
