(* ===== verification/R4SysSpec.v ===== *)
(** * What the wrappers of r4sys.h do

    Each guarded wrapper is equal to its specification: an argument that is
    refused gives its status; a kernel that lacks one of the slots gives
    another; otherwise the one slot is called, with the given arguments, and
    its [int32_t] is returned. No table access goes past the size the kernel
    announces and no null function is called, whatever that size is. *)

From S2P Require Import Prelude R4Abi R4Mem R4L R4Table R4Sys.

Module R4SysSpec.
Export R4Sys.

Section spec.
Context {K : Type} `{!Kernel K}.
Implicit Types (w : world K) (m : gmap Z byte).

Definition table_ptr m (sys : Z) : Z := if sys =? 0 then 0 else fv m R4Sys_t sys "table".

(** [sys] is null or points to an [R4Sys] whose table is null or in order. *)
Record sys_ok (min : Z) m (sys : Z) : Prop := {
  so_mapped : sys ≠ 0 → mapped m sys 16;
  so_table : table_ok m R4XStartR4Sys min (table_ptr m sys)
}.

(** The kernel has the slots. *)
Definition has w (sys : Z) (slots : list string) : bool :=
  provides (mem w) R4XStartR4Sys (table_ptr (mem w) sys) slots.

(** One call of the slot [name]. *)
Definition kernel_call w (sys : Z) (name : string) (args : list Z) : option (Z * world K) :=
  let f := slot_of (mem w) R4XStartR4Sys (table_ptr (mem w) sys) name in
  Some (i32 (fst (kcall f args w)), snd (kcall f args w)).

Lemma sys_table_run min w sys : sys_ok min (mem w) sys → sys_table sys w = Some (table_ptr (mem w) sys, w).
Proof.
  intros [Hm _]. unfold sys_table, table_ptr. destruct (Z.eqb_spec sys 0); [done|].
  by apply (get_run w R4Sys_t "table" sys 16 (Hm n) eq_refl).
Qed.

Lemma sys_supports_run min w sys last names :
  sys_ok min (mem w) sys → guards R4XStartR4Sys last names = true →
  sys_supports last names sys w = Some (has w sys names, w).
Proof.
  intros Hok Hg. unfold sys_supports. rewrite (mbind_run _ _ _ _ _ (sys_table_run min w sys Hok)).
  by apply (supports_run w R4XStartR4Sys min); [apply Hok|..].
Qed.

Lemma sys_call_run min w sys names name args :
  sys_ok min (mem w) sys → has w sys names = true →
  existsb (String.eqb name) names && is_slot R4XStartR4Sys name = true →
  sys_call name sys args w = kernel_call w sys name args.
Proof.
  intros Hok Hp [Hin Hs]%andb_true_iff. unfold sys_call. rewrite (mbind_run _ _ _ _ _ (sys_table_run min w sys Hok)).
  destruct (call_slot_run w R4XStartR4Sys min _ names name args (so_table _ _ _ Hok) Hp Hin Hs) as [-> Hne].
  by apply call_i32_run.
Qed.

Lemma io_optional_run min w sys name :
  sys_ok min (mem w) sys →
  is_slot R4XStartR4Sys name && (offsetof R4XStartR4Sys name <=? offsetof R4XStartR4Sys "io_close") = true →
  io_optional name sys w = Some (has w sys (name :: io_slots), w).
Proof.
  intros Hok [Hs Hle%Z.leb_le]%andb_true_iff. unfold io_optional, r4sys_supports_async_io.
  rewrite (mbind_run _ _ _ _ _ (sys_supports_run min w sys "io_close" io_slots Hok eq_refl)).
  unfold has at 2. rewrite provides_cons. fold (has w sys io_slots).
  destruct (has w sys io_slots) eqn:Hp; cbn [negb]; [|by rewrite andb_false_r]. rewrite andb_true_r.
  rewrite (mbind_run _ _ _ _ _ (sys_table_run min w sys Hok)).
  pose proof Hp as Hc. eapply (provides_elem _ _ _ _ "io_close"), slot_of_covered in Hc; [|reflexivity].
  assert (table_ptr (mem w) sys ≠ 0) as Hne.
  { unfold has, provides in Hp. by apply andb_true_iff in Hp as [?%negb_true_iff%Z.eqb_neq _]. }
  by rewrite (mbind_run _ _ _ _ _ (get_slot w R4XStartR4Sys min _ name (so_table _ _ _ Hok) Hne Hs ltac:(lia))).
Qed.

(** An [if] with an argument check, a gate on slots, and a call. *)
Definition gate w (sys : Z) (slots : list string) (missing : Z) (k : option (Z * world K)) : option (Z * world K) :=
  if has w sys slots then k else Some (missing, w).
Definition refuse w (bad : bool) (status : Z) (k : option (Z * world K)) : option (Z * world K) :=
  if bad then Some (status, w) else k.
End spec.

(** Prove that a wrapper meets its specification, given [H : sys_ok _ _ _]. *)
Ltac sys_wrapper H :=
  unfold gate, refuse;
  repeat match goal with
  | |- context [@mbind _ _ _ _ _ (sys_supports ?l ?n ?s) ?w] =>
      rewrite (mbind_run _ _ _ _ _ (sys_supports_run _ w s l n H eq_refl));
      destruct (has w s n) eqn:?; cbn [negb orb andb]
  | |- context [@mbind _ _ _ _ _ (io_optional ?l ?s) ?w] =>
      rewrite (mbind_run _ _ _ _ _ (io_optional_run _ w s l H eq_refl));
      destruct (has w s (l :: io_slots)) eqn:?; cbn [negb orb andb]
  | |- context [if ?b then _ else _] =>
      lazymatch b with
      | negb _ => fail
      | _ || _ => destruct b eqn:?
      | _ =? _ => destruct b eqn:?
      | inventory_args_bad _ _ _ _ => destruct b eqn:?
      end
  end;
  cbn [negb orb andb] in *; try reflexivity;
  try match goal with
  | Hp : has ?w ?s ?n = true |- sys_call ?name ?s ?args ?w = _ =>
      exact (sys_call_run _ w s n name args H Hp eq_refl)
  end.

(** ** Stores beside the table *)

Section apart.
Context {K : Type} `{!Kernel K}.
Implicit Types (w : world K) (m : gmap Z byte).

(** The [n] bytes at [a] are neither part of the [R4Sys] nor of its table. *)
Record apart m (sys a n : Z) : Prop := {
  ap_sys : sys ≠ 0 → a + n ≤ sys ∨ sys + 16 ≤ a;
  ap_table : table_ptr m sys ≠ 0 →
    a + n ≤ table_ptr m sys ∨ table_ptr m sys + 16 `max` fv m R4XStartR4Sys (table_ptr m sys) "size" ≤ a
}.

(** [m'] is [m] but for the [n] bytes at [a]. *)
Record changed m m' (a n : Z) : Prop := {
  ch_dom : ∀ x, is_Some (m' !! x) ↔ is_Some (m !! x);
  ch_out : ∀ x, ¬ (a ≤ x < a + n) → m' !! x = m !! x
}.

Lemma changed_mapped m m' a n b k : changed m m' a n → mapped m b k → mapped m' b k.
Proof. intros [Hd _] H x Hx. by apply Hd, H. Qed.

Lemma changed_trans m1 m2 m3 a n : changed m1 m2 a n → changed m2 m3 a n → changed m1 m3 a n.
Proof. intros [H1 H2] [H3 H4]. split; intros x; [by rewrite H3|intros Hx; by rewrite H4, H2]. Qed.

Lemma changed_fv m m' a n T p f k :
  changed m m' a n → field_in T f k = true → a + n ≤ p ∨ p + k ≤ a → fv m' T p f = fv m T p f.
Proof. intros [_ H] Hf Hd. apply (fv_ext m m' T p f k Hf). intros x Hx. apply H. lia. Qed.

Lemma changed_table m m' a n T min table :
  changed m m' a n → is_table T = true → table_ok m T min table →
  (table ≠ 0 → a + n ≤ table ∨ table + 16 `max` fv m T table "size" ≤ a) →
  table_ok m' T min table ∧ (table ≠ 0 → fv m' T table "size" = fv m T table "size") ∧
  (∀ name, table ≠ 0 → is_slot T name = true → slot_of m' T table name = slot_of m T table name).
Proof.
  intros Hch HT [Hm Hh Hmin] Hap.
  assert (table ≠ 0 → fv m' T table "size" = fv m T table "size") as Hsz.
  { intros Hne. eapply changed_fv; [done|exact HT|]. specialize (Hap Hne). lia. }
  split_and!; [split|done|].
  - intros Hne. rewrite Hsz by done. eapply changed_mapped; [done|by apply Hm].
  - intros Hne. eapply changed_mapped; [done|by apply Hh].
  - intros Hne. rewrite Hsz by done. by apply Hmin.
  - intros name Hne Hs. unfold slot_of. rewrite Hsz by done.
    destruct (Z.leb_spec (offsetof T name + 8) (fv m T table "size")); [|done].
    eapply changed_fv; [done|by apply is_slot_in|]. specialize (Hap Hne). lia.
Qed.

Lemma changed_sys min m m' a n sys :
  changed m m' a n → sys_ok min m sys → apart m sys a n →
  sys_ok min m' sys ∧ table_ptr m' sys = table_ptr m sys ∧
  (∀ name, is_slot R4XStartR4Sys name = true →
     slot_of m' R4XStartR4Sys (table_ptr m' sys) name = slot_of m R4XStartR4Sys (table_ptr m sys) name ∨
     table_ptr m sys = 0) ∧ (∀ b k, apart m sys b k → apart m' sys b k).
Proof.
  intros Hch [Hm Ht] [Hs Hta].
  assert (table_ptr m' sys = table_ptr m sys) as Hp.
  { unfold table_ptr. destruct (Z.eqb_spec sys 0) as [|Hne]; [done|].
    eapply changed_fv; [done| |by apply Hs]. reflexivity. }
  destruct (changed_table m m' a n R4XStartR4Sys min (table_ptr m sys) Hch eq_refl Ht Hta) as (H1 & H2 & H3).
  split_and!; [split|done| |].
  - intros Hne. eapply changed_mapped; [done|by apply Hm].
  - by rewrite Hp.
  - intros name Hn. rewrite Hp. destruct (Z.eq_dec (table_ptr m sys) 0); [by right|left; by apply H3].
  - intros b k [Hb1 Hb2]. split; [done|]. rewrite Hp. intros Hne. rewrite H2 by done. by apply Hb2.
Qed.

Lemma has_changed m m' (k k' : K) a n sys min slots :
  changed m m' a n → sys_ok min m sys → apart m sys a n →
  forallb (is_slot R4XStartR4Sys) slots = true →
  has (World m' k' : world K) sys slots = has (World m k) sys slots.
Proof.
  intros Hch Hok Hap Hsl. destruct (changed_sys _ _ _ _ _ _ Hch Hok Hap) as (_ & Hp & Hslot & _).
  unfold has, provides. cbn [mem]. rewrite Hp. destruct (Z.eqb_spec (table_ptr m sys) 0) as [|Hne]; [done|]. cbn [negb andb].
  induction slots as [|s slots IH]; [done|]. simpl in Hsl. apply andb_true_iff in Hsl as [Hs Hsl]. simpl.
  destruct (Hslot s Hs) as [Heq|]; [|done]. rewrite Hp in Heq. rewrite Heq. f_equal. by apply IH.
Qed.

Lemma clear_run w T p :
  0 ≤ sizeof T → mapped (mem w) p (sizeof T) →
  ∃ m', clear T p w = Some ((), World m' (kern w)) ∧ changed (mem w) m' p (sizeof T).
Proof.
  intros Hs Hm. unfold clear. destruct (store_run w p (replicate (Z.to_nat (sizeof T)) x00)) as (m' & Hr & Hd & Ho & _).
  { by rewrite length_replicate, Z2Nat.id. }
  rewrite length_replicate, Z2Nat.id in Ho by done. exists m'. by split; [|split].
Qed.
End apart.

Section theorems.
Context {K : Type} `{!Kernel K}.
Implicit Types (w : world K) (m : gmap Z byte).

(** The thread, inventory and registry wrappers, on any arguments and with
    a table of any size: a refused argument gives its status, a kernel without
    the slots of the group gives the other, and otherwise exactly the one slot
    is called with exactly these arguments. *)
Theorem thread_and_inventory_calls min w sys :
  sys_ok min (mem w) sys →
  (∀ entry arg stack out, r4sys_thread_create sys entry arg stack out w =
     gate w sys thread_slots R4OS_THREAD_ERROR_UNSUPPORTED
       (refuse w ((entry =? 0) || (out =? 0)) R4OS_THREAD_ERROR_UNSUPPORTED
          (kernel_call w sys "thread_create" [entry; arg; stack; 0; out]))) ∧
  (∀ id ticks out, r4sys_thread_join sys id ticks out w =
     gate w sys thread_slots R4OS_THREAD_ERROR_UNSUPPORTED
       (refuse w (out =? 0) R4OS_THREAD_ERROR_UNSUPPORTED (kernel_call w sys "thread_join" [id; ticks; out]))) ∧
  (∀ id out, r4sys_thread_status sys id out w =
     gate w sys thread_slots R4OS_THREAD_ERROR_UNSUPPORTED
       (refuse w (out =? 0) R4OS_THREAD_ERROR_UNSUPPORTED (kernel_call w sys "thread_status" [id; out]))) ∧
  (∀ handle ticks out, r4sys_thread_handle_join sys handle ticks out w =
     refuse w ((handle =? 0) || (out =? 0)) R4OS_THREAD_ERROR_INVALID
       (gate w sys thread_handle_slots R4OS_THREAD_ERROR_UNSUPPORTED
          (kernel_call w sys "thread_handle_join" [handle; ticks; out]))) ∧
  (∀ handle out, r4sys_thread_handle_status sys handle out w =
     refuse w ((handle =? 0) || (out =? 0)) R4OS_THREAD_ERROR_INVALID
       (gate w sys thread_handle_slots R4OS_THREAD_ERROR_UNSUPPORTED
          (kernel_call w sys "thread_handle_status" [handle; out]))) ∧
  (∀ cursor out, r4sys_program_inventory_begin sys cursor out w =
     refuse w ((cursor =? 0) || (out =? 0)) R4OS_PROGRAM_HANDLE_ERROR_INVALID
       (gate w sys inventory_slots R4OS_ERR_NO_FN (kernel_call w sys "program_inventory_begin" [cursor; out]))) ∧
  (∀ cursor out n page, r4sys_program_inventory_programs sys cursor out n page w =
     refuse w (inventory_args_bad cursor out n page) R4OS_PROGRAM_HANDLE_ERROR_INVALID
       (gate w sys inventory_slots R4OS_ERR_NO_FN (kernel_call w sys "program_inventory_programs" [cursor; out; n; page]))) ∧
  (∀ cursor out n page, r4sys_program_inventory_tasks sys cursor out n page w =
     refuse w (inventory_args_bad cursor out n page) R4OS_PROGRAM_HANDLE_ERROR_INVALID
       (gate w sys inventory_slots R4OS_ERR_NO_FN (kernel_call w sys "program_inventory_tasks" [cursor; out; n; page]))) ∧
  (∀ cursor out n page, r4sys_program_inventory_threads sys cursor out n page w =
     refuse w (inventory_args_bad cursor out n page) R4OS_PROGRAM_HANDLE_ERROR_INVALID
       (gate w sys inventory_slots R4OS_ERR_NO_FN (kernel_call w sys "program_inventory_threads" [cursor; out; n; page]))) ∧
  (∀ key kind cursor, r4sys_registry_snapshot_begin sys key kind cursor w =
     refuse w ((key =? 0) || (cursor =? 0)) R4OS_REGISTRY_API_RESULT_INVALID
       (gate w sys snapshot_slots R4OS_ERR_NO_FN (kernel_call w sys "registry_snapshot_begin" [key; kind; cursor]))) ∧
  (∀ cursor entries n data k page, r4sys_registry_snapshot_page sys cursor entries n data k page w =
     refuse w ((cursor =? 0) || (entries =? 0) || (data =? 0) || (page =? 0) || (n =? 0) || (32 <? n) || (16384 <? k))
       R4OS_REGISTRY_API_RESULT_INVALID
       (gate w sys snapshot_slots R4OS_ERR_NO_FN
          (kernel_call w sys "registry_snapshot_page" [cursor; entries; n; data; k; page]))) ∧
  (∀ ops n blob len out, r4sys_registry_batch_mutate sys ops n blob len out w =
     refuse w ((ops =? 0) || (n =? 0) || (blob =? 0) || (out =? 0) || (32 <? n) || (16384 <? len))
       R4OS_REGISTRY_API_RESULT_INVALID
       (gate w sys batch_slots R4OS_ERR_NO_FN
          (kernel_call w sys "registry_batch_mutate" [ops; n; blob; len; out]))).
Proof.
  intros H. split_and!; intros.
  - unfold r4sys_thread_create, r4sys_supports_threads. sys_wrapper H.
  - unfold r4sys_thread_join, r4sys_supports_threads. sys_wrapper H.
  - unfold r4sys_thread_status, r4sys_supports_threads. sys_wrapper H.
  - unfold r4sys_thread_handle_join, r4sys_supports_thread_handles. sys_wrapper H.
  - unfold r4sys_thread_handle_status, r4sys_supports_thread_handles. sys_wrapper H.
  - unfold r4sys_program_inventory_begin, r4sys_supports_program_inventory. sys_wrapper H.
  - unfold r4sys_program_inventory_programs, r4sys_supports_program_inventory. sys_wrapper H.
  - unfold r4sys_program_inventory_tasks, r4sys_supports_program_inventory. sys_wrapper H.
  - unfold r4sys_program_inventory_threads, r4sys_supports_program_inventory. sys_wrapper H.
  - unfold r4sys_registry_snapshot_begin, r4sys_supports_registry_snapshot. sys_wrapper H.
  - unfold r4sys_registry_snapshot_page, r4sys_supports_registry_snapshot,
      R4OS_REGISTRY_SNAPSHOT_PAGE_MAX, R4OS_REGISTRY_SNAPSHOT_DATA_MAX. sys_wrapper H.
  - unfold r4sys_registry_batch_mutate, r4sys_supports_registry_batch,
      R4OS_REGISTRY_BATCH_OPERATION_MAX, R4OS_REGISTRY_BATCH_BLOB_MAX. sys_wrapper H.
Qed.

Lemma covers_run w T min table last :
  table_ok (mem w) T min table → is_table T = true → table ≠ 0 →
  covers T last table w = Some (offsetof T last + 8 <=? fv (mem w) T table "size", w).
Proof.
  intros Ht HT Hne. unfold covers. pose proof (to_header _ _ _ _ Ht Hne) as Hh.
  assert (get T "size" table w = Some (fv (mem w) T table "size", w)) as Hg by (by eapply get_run).
  by rewrite (mbind_run _ _ _ _ _ Hg).
Qed.

Lemma file_copy_run min w sys source target buffer capacity progress :
  sys_ok min (mem w) sys →
  r4sys_file_copy_buffered sys source target buffer capacity progress w =
    refuse w ((source =? 0) || (target =? 0) || (buffer =? 0) || (capacity =? 0) || (progress =? 0))
      R4OS_FILE_STREAM_ERROR_INVALID
      (refuse w (table_ptr (mem w) sys =? 0) R4OS_ERR_NO_GROUP
        (gate w sys copy_slots R4OS_ERR_NO_FN
          (kernel_call w sys "file_copy_buffered" [source; target; buffer; capacity; progress]))).
Proof.
  intros H. unfold r4sys_file_copy_buffered, refuse. destruct (_ || _); [done|].
  rewrite (mbind_run _ _ _ _ _ (sys_table_run _ w sys H)). set (t := table_ptr (mem w) sys).
  destruct (Z.eqb_spec t 0) as [|Hne]; [done|]. pose proof (so_table _ _ _ H) as Ht. fold t in Ht.
  rewrite (mbind_run _ _ _ _ _ (covers_run w R4XStartR4Sys min t "file_copy_buffered" Ht eq_refl Hne)).
  unfold gate, has, copy_slots. fold t. rewrite provides_cons. unfold provides at 1.
  rewrite (proj2 (Z.eqb_neq t 0) Hne). cbn [negb andb forallb]. rewrite andb_true_r.
  destruct (Z.leb_spec (offsetof R4XStartR4Sys "file_copy_buffered" + 8) (fv (mem w) R4XStartR4Sys t "size")) as [Hle|Hgt];
    cbn [negb].
  - rewrite (mbind_run _ _ _ _ _ (get_slot w R4XStartR4Sys min t "file_copy_buffered" Ht Hne eq_refl Hle)).
    destruct (Z.eqb_spec (slot_of (mem w) R4XStartR4Sys t "file_copy_buffered") 0); [done|]. by apply call_i32_run.
  - unfold slot_of. by rewrite (proj2 (Z.leb_gt _ _) Hgt).
Qed.

(** The file and asynchronous input/output wrappers, on any arguments and
    with a table of any size, behave like the ones above; the five functions
    whose slot is optional need that slot beside those of the group. *)
Theorem file_and_io_calls min w sys :
  sys_ok min (mem w) sys →
  (∀ src dst buf n progress, r4sys_file_copy_buffered sys src dst buf n progress w =
     refuse w ((src =? 0) || (dst =? 0) || (buf =? 0) || (n =? 0) || (progress =? 0)) R4OS_FILE_STREAM_ERROR_INVALID
       (refuse w (table_ptr (mem w) sys =? 0) R4OS_ERR_NO_GROUP
         (gate w sys copy_slots R4OS_ERR_NO_FN
           (kernel_call w sys "file_copy_buffered" [src; dst; buf; n; progress])))) ∧
  (∀ t s b, r4sys_file_replace_atomic sys t s b w =
     gate w sys replace_slots R4SYS_FILE_REPLACE_ATOMIC_ERROR_UNSUPPORTED
       (refuse w ((t =? 0) || (s =? 0) || (b =? 0)) R4SYS_FILE_REPLACE_ATOMIC_ERROR_INVALID
          (kernel_call w sys "file_replace_atomic" [t; s; b; R4SYS_FILE_REPLACE_ATOMIC_CONSUME_STAGE]))) ∧
  (∀ p n c, r4sys_file_delete_if_match sys p n c w =
     gate w sys delete_slots R4SYS_FILE_DELETE_IF_MATCH_ERROR_UNSUPPORTED
       (refuse w (p =? 0) R4SYS_FILE_DELETE_IF_MATCH_ERROR_INVALID
          (kernel_call w sys "file_delete_if_match" [p; n; c]))) ∧
  (∀ t s b ns nc os oc flags, r4sys_file_update_atomic_checked sys t s b ns nc os oc flags w =
     gate w sys update_slots R4SYS_FILE_UPDATE_ATOMIC_CHECKED_ERROR_UNSUPPORTED
       (refuse w ((t =? 0) || (s =? 0) || (b =? 0)) R4SYS_FILE_UPDATE_ATOMIC_CHECKED_ERROR_INVALID
          (kernel_call w sys "file_update_atomic_checked" [t; s; b; ns; nc; os; oc; flags]))) ∧
  (∀ p out n flags id, r4sys_io_file_read sys p out n flags id w =
     gate w sys io_slots R4OS_IO_ERROR_UNSUPPORTED
       (refuse w ((p =? 0) || (id =? 0)) R4OS_IO_ERROR_UNSUPPORTED
          (kernel_call w sys "io_file_read" [p; out; n; flags; id]))) ∧
  (∀ p off out n flags id, r4sys_io_file_read_at sys p off out n flags id w =
     gate w sys ("io_file_read_at" :: io_slots) R4OS_IO_ERROR_UNSUPPORTED
       (refuse w ((p =? 0) || (id =? 0)) R4OS_IO_ERROR_UNSUPPORTED
          (kernel_call w sys "io_file_read_at" [p; off; out; n; flags; id]))) ∧
  (∀ p data n flags id, r4sys_io_file_write sys p data n flags id w =
     gate w sys io_slots R4OS_IO_ERROR_UNSUPPORTED
       (refuse w ((p =? 0) || (id =? 0)) R4OS_IO_ERROR_UNSUPPORTED
          (kernel_call w sys "io_file_write" [p; data; n; flags; id]))) ∧
  (∀ p data n flags id, r4sys_io_file_append sys p data n flags id w =
     gate w sys ("io_file_append" :: io_slots) R4OS_IO_ERROR_UNSUPPORTED
       (refuse w ((p =? 0) || (id =? 0)) R4OS_IO_ERROR_UNSUPPORTED
          (kernel_call w sys "io_file_append" [p; data; n; flags; id]))) ∧
  (∀ p flags id, r4sys_io_file_stream_begin sys p flags id w =
     gate w sys ("io_file_stream_begin" :: io_slots) R4OS_IO_ERROR_UNSUPPORTED
       (refuse w ((p =? 0) || (id =? 0)) R4OS_IO_ERROR_UNSUPPORTED
          (kernel_call w sys "io_file_stream_begin" [p; flags; id]))) ∧
  (∀ p off data n flags id, r4sys_io_file_stream_write sys p off data n flags id w =
     gate w sys io_slots R4OS_IO_ERROR_UNSUPPORTED
       (refuse w ((p =? 0) || (id =? 0)) R4OS_IO_ERROR_UNSUPPORTED
          (kernel_call w sys "io_file_stream_write" [p; off; data; n; flags; id]))) ∧
  (∀ p n flags id, r4sys_io_file_stream_finish sys p n flags id w =
     gate w sys ("io_file_stream_finish" :: io_slots) R4OS_IO_ERROR_UNSUPPORTED
       (refuse w ((p =? 0) || (id =? 0)) R4OS_IO_ERROR_UNSUPPORTED
          (kernel_call w sys "io_file_stream_finish" [p; n; flags; id]))) ∧
  (∀ p id, r4sys_io_file_stream_abort sys p id w =
     gate w sys ("io_file_stream_abort" :: io_slots) R4OS_IO_ERROR_UNSUPPORTED
       (refuse w ((p =? 0) || (id =? 0)) R4OS_IO_ERROR_UNSUPPORTED
          (kernel_call w sys "io_file_stream_abort" [p; id]))) ∧
  (∀ h op q qn rh r rn ticks flags id, r4sys_io_service_call sys h op q qn rh r rn ticks flags id w =
     gate w sys io_slots R4OS_IO_ERROR_UNSUPPORTED
       (refuse w ((rh =? 0) || (r =? 0) || (id =? 0)) R4OS_IO_ERROR_UNSUPPORTED
          (kernel_call w sys "io_service_call" [h; op; q; qn; rh; r; rn; ticks; flags; id]))) ∧
  (∀ id out, r4sys_io_status sys id out w =
     gate w sys io_slots R4OS_IO_ERROR_UNSUPPORTED
       (refuse w (out =? 0) R4OS_IO_ERROR_UNSUPPORTED (kernel_call w sys "io_status" [id; out]))) ∧
  (∀ id ticks out, r4sys_io_wait sys id ticks out w =
     gate w sys io_slots R4OS_IO_ERROR_UNSUPPORTED
       (refuse w (out =? 0) R4OS_IO_ERROR_UNSUPPORTED (kernel_call w sys "io_wait" [id; ticks; out]))) ∧
  (∀ id, r4sys_io_close sys id w =
     gate w sys io_slots R4OS_IO_ERROR_UNSUPPORTED (kernel_call w sys "io_close" [id])).
Proof.
  intros H. split_and!; intros.
  - by eapply file_copy_run.
  - unfold r4sys_file_replace_atomic, r4sys_file_replace_atomic_flags, r4sys_supports_file_replace_atomic. sys_wrapper H.
  - unfold r4sys_file_delete_if_match, r4sys_supports_file_delete_if_match. sys_wrapper H.
  - unfold r4sys_file_update_atomic_checked, r4sys_supports_file_update_atomic_checked. sys_wrapper H.
  - unfold r4sys_io_file_read, r4sys_supports_async_io. sys_wrapper H.
  - unfold r4sys_io_file_read_at. sys_wrapper H.
  - unfold r4sys_io_file_write, r4sys_supports_async_io. sys_wrapper H.
  - unfold r4sys_io_file_append. sys_wrapper H.
  - unfold r4sys_io_file_stream_begin. sys_wrapper H.
  - unfold r4sys_io_file_stream_write, r4sys_supports_async_io. sys_wrapper H.
  - unfold r4sys_io_file_stream_finish. sys_wrapper H.
  - unfold r4sys_io_file_stream_abort. sys_wrapper H.
  - unfold r4sys_io_service_call, r4sys_supports_async_io. sys_wrapper H.
  - unfold r4sys_io_status, r4sys_supports_async_io. sys_wrapper H.
  - unfold r4sys_io_wait, r4sys_supports_async_io. sys_wrapper H.
  - unfold r4sys_io_close, r4sys_supports_async_io. sys_wrapper H.
Qed.

(** The virtual memory calls; [R4Vm] builds on them. *)
Lemma vm_calls min w sys :
  sys_ok min (mem w) sys →
  (∀ n a flags out, r4sys_vm_reserve sys n a flags out w =
     gate w sys vm_slots R4OS_VM_ERROR_NO_INSTANCE
       (refuse w (out =? 0) R4OS_VM_ERROR_NO_INSTANCE (kernel_call w sys "vm_reserve" [n; a; flags; out]))) ∧
  (∀ id off n, r4sys_vm_commit sys id off n w =
     gate w sys vm_slots R4OS_VM_ERROR_NO_INSTANCE (kernel_call w sys "vm_commit" [id; off; n; 0])) ∧
  (∀ id off n flags, r4sys_vm_commit_flags sys id off n flags w =
     gate w sys vm_slots R4OS_VM_ERROR_NO_INSTANCE (kernel_call w sys "vm_commit" [id; off; n; flags])) ∧
  (∀ id off n, r4sys_vm_decommit sys id off n w =
     gate w sys vm_slots R4OS_VM_ERROR_NO_INSTANCE (kernel_call w sys "vm_decommit" [id; off; n])) ∧
  (∀ id, r4sys_vm_release sys id w =
     gate w sys vm_slots R4OS_VM_ERROR_NO_INSTANCE (kernel_call w sys "vm_release" [id])) ∧
  (∀ id out, r4sys_vm_query sys id out w =
     gate w sys vm_slots R4OS_VM_ERROR_NO_INSTANCE
       (refuse w (out =? 0) R4OS_VM_ERROR_NO_INSTANCE (kernel_call w sys "vm_query" [id; out]))).
Proof.
  intros H. split_and!; intros.
  - unfold r4sys_vm_reserve, r4sys_supports_vm. sys_wrapper H.
  - unfold r4sys_vm_commit, r4sys_supports_vm. sys_wrapper H.
  - unfold r4sys_vm_commit_flags, r4sys_supports_vm. sys_wrapper H.
  - unfold r4sys_vm_decommit, r4sys_supports_vm. sys_wrapper H.
  - unfold r4sys_vm_release, r4sys_supports_vm. sys_wrapper H.
  - unfold r4sys_vm_query, r4sys_supports_vm. sys_wrapper H.
Qed.
End theorems.

(** ** A kernel that records its calls *)

Definition call_log : Type := list (Z * list Z).

#[global] Instance recording_kernel : Kernel call_log := λ f args w,
  (0, World (mem w) ((f, args) :: kern w)).

(** A table whose [i]-th slot holds [7000 + i], of [bytes] bytes. *)
Definition demo_table (T : ctype) (bytes : Z) : list byte :=
  struct_bytes T ([1; 14; bytes; 0] ++ map (λ i, 7000 + Z.of_nat i) (seq 0 (length (fields_of T)))).

(** An [R4Sys] at 256 with a full table at 4096, and one at 512 whose table at
    8192 ends before the registry slots. *)
Definition demo_mem : gmap Z byte := image [
  (256, struct_bytes R4Sys_t [0; 4096]); (512, struct_bytes R4Sys_t [0; 8192]);
  (4096, demo_table R4XStartR4Sys 1264); (8192, take 400 (demo_table R4XStartR4Sys 400))].

Definition demo_state : world call_log := World demo_mem [].

Lemma sys_ok_check m min sys n :
  mapped_b m sys 16 = true → table_ptr m sys ≠ 0 →
  fv m R4XStartR4Sys (table_ptr m sys) "size" = n →
  mapped_b m (table_ptr m sys) n = true → 16 ≤ n → min ≤ n → sys_ok min m sys.
Proof.
  intros H1 H2 H3 H4%mapped_b_mapped H5 H6. split; [intros _; by apply mapped_b_mapped|].
  split; intros _; rewrite ?H3; [done|by eapply mapped_sub; [done|lia|lia]|done].
Qed.

Lemma demo_full : sys_ok 1024 demo_mem 256.
Proof. apply (sys_ok_check _ 1024 256 1264); vm_compute; (reflexivity || discriminate). Qed.

Lemma demo_short : sys_ok 0 demo_mem 512.
Proof. apply (sys_ok_check _ 0 512 400); vm_compute; (reflexivity || discriminate). Qed.

(** What came back, and the calls the kernel saw. *)
Definition observed {A} (r : option (A * world call_log)) : option (A * call_log) :=
  match r with Some (a, w) => Some (a, kern w) | None => None end.

Lemma thread_and_inventory_calls_witness :
  observed (r4sys_thread_join 256 5 100 900 demo_state) = Some (0, [(7033, [5; 100; 900])]) ∧
  observed (r4sys_registry_snapshot_begin 512 900 1 904 demo_state) = Some (R4OS_ERR_NO_FN, []).
Proof.
  destruct (thread_and_inventory_calls 1024 demo_state 256 demo_full) as (_ & H & _).
  destruct (thread_and_inventory_calls 0 demo_state 512 demo_short) as (_ & _ & _ & _ & _ & _ & _ & _ & _ & H' & _).
  rewrite H, H'. split; vm_compute; reflexivity.
Defined.

Lemma file_and_io_calls_witness :
  observed (r4sys_io_close 512 9 demo_state) = Some (0, [(7047, [9])]) ∧
  observed (r4sys_file_copy_buffered 512 1 2 3 4 5 demo_state) = Some (R4OS_ERR_NO_FN, []).
Proof.
  pose proof (file_and_io_calls 0 demo_state 512 demo_short) as H.
  rewrite (proj1 H). destruct H as (_ & _ & _ & _ & _ & _ & _ & _ & _ & _ & _ & _ & _ & _ & _ & H).
  rewrite H. split; vm_compute; reflexivity.
Defined.

End R4SysSpec.
