(* ===== verification/R4SysInit.v ===== *)
(** * r4sys.h: stores, the start context, and the console

    What the [init] functions share: stores to fields, and the imports of a
    start context that a store elsewhere leaves alone; and the console functions
    on an initialised [R4Sys]. *)

From S2P Require Import Prelude R4Abi R4Mem R4L R4LSpec R4Table.
From S2P Require Import R4Sys R4SysSpec.

Module R4SysInit.
Export R4LSpec R4SysSpec.

Section init.
Context {K : Type} `{!Kernel K}.
Implicit Types (w : world K) (m : gmap Z byte).

Lemma put_run w T f p v n o k :
  mapped (mem w) p n → field_at T f = Some (o, k) → field_in T f n = true →
  ∃ m', put T f p v w = Some ((), World m' (kern w)) ∧ changed (mem w) m' (p + o) (Z.of_nat k) ∧
    fv m' T p f = v mod 2 ^ (8 * Z.of_nat k).
Proof.
  intros Hm Hf Hin. unfold field_in in Hin. rewrite Hf in Hin.
  apply andb_true_iff in Hin as [Ho%Z.leb_le Hn%Z.leb_le]. unfold put, store. rewrite Hf.
  destruct (store_run w (p + o) (le_bytes k v)) as (m' & Hr & Hd & Hx & Hrd).
  { rewrite length_le_bytes. eapply mapped_sub; [done|lia|lia]. }
  rewrite length_le_bytes in *. exists m'. split_and!; [done|by split|].
  unfold fv. rewrite Hf, Hrd. apply le_val_le_bytes.
Qed.

Lemma changed_sub m m' a n a' n' : changed m m' a n → a' ≤ a → a + n ≤ a' + n' → changed m m' a' n'.
Proof. intros [Hd Ho] ? ?. split; [done|]. intros x Hx. apply Ho. lia. Qed.

(** The 64-bit variable at [a] holds [v]. *)
Definition cell m (a v : Z) : Prop := ∃ l, read_bytes m a 8 = Some l ∧ le_val l = v.

Lemma store_cell_run w a v : mapped (mem w) a 8 → is_u64 v →
  ∃ m', store 8 a v w = Some ((), World m' (kern w)) ∧ changed (mem w) m' a 8 ∧ cell m' a v.
Proof.
  intros Hm Hv. destruct (store_cell w a v Hm Hv) as ([m' k] & Hr & Hk & Hd & Ho & Hl). cbn [mem kern] in *. subst k.
  exists m'. split_and!; [done|by split|]. unfold load in Hl. cbn [mem] in Hl.
  destruct (read_bytes m' a 8) as [l|] eqn:E; [|done]. injection Hl as Hl. by exists l.
Qed.

Lemma load_cell_run w a v : cell (mem w) a v → load 8 a w = Some (v, w).
Proof. intros (l & Hl & Hv). by eapply load_run. Qed.

Lemma cell_changed m m' a v b n : changed m m' b n → b + n ≤ a ∨ a + 8 ≤ b → cell m a v → cell m' a v.
Proof.
  intros Hch Hd (l & Hl & Hv). exists l. split; [|done]. rewrite <-Hl. apply read_bytes_ext.
  intros x Hx. apply (ch_out _ _ _ _ Hch). lia.
Qed.

Lemma cell_unique m a v v' : cell m a v → cell m a v' → v = v'.
Proof. intros (l & Hl & <-) (l' & Hl' & <-). congruence. Qed.

Lemma read_bytes_lookup m a n l i : read_bytes m a n = Some l → (i < n)%nat → m !! (a + Z.of_nat i) = l !! i.
Proof.
  revert a l i. induction n as [|n IH]; intros a l i H Hi; [lia|]. cbn [read_bytes] in H.
  destruct (m !! a) as [b|] eqn:E; [|done]. destruct (read_bytes m (a + 1) n) as [l'|] eqn:E'; [|done].
  injection H as <-. destruct i as [|i]; [by rewrite Z.add_0_r|].
  replace (a + Z.of_nat (S i)) with (a + 1 + Z.of_nat i) by lia. change ((b :: l') !! S i) with (l' !! i). apply IH; [done|lia].
Qed.

Lemma clear_zero w T p :
  0 ≤ sizeof T → mapped (mem w) p (sizeof T) →
  ∃ m', clear T p w = Some ((), World m' (kern w)) ∧ changed (mem w) m' p (sizeof T) ∧
    ∀ x, p ≤ x < p + sizeof T → m' !! x = Some x00.
Proof.
  intros Hs Hm. unfold clear. destruct (store_run w p (replicate (Z.to_nat (sizeof T)) x00)) as (m' & Hr & Hd & Ho & Hl).
  { by rewrite length_replicate, Z2Nat.id. }
  rewrite length_replicate in *. rewrite Z2Nat.id in Ho by done. exists m'. split_and!; [done|by split|].
  intros x Hx. replace x with (p + Z.of_nat (Z.to_nat (x - p))) by lia.
  rewrite (read_bytes_lookup _ _ _ _ _ Hl) by lia. apply lookup_replicate. split; [done|lia].
Qed.

(** ** Finding the table *)

(** The table of an import is null, or mapped at least for its header and for
    the size it announces. *)
Definition import_table_ok m (T : ctype) (item : Z) : Prop :=
  table_ok m T 0 (fv m R4XStartImport item "table").

(** The [n] bytes at [out] are apart from the context, its imports and their tables. *)
Record outside m (T : ctype) (ctx out n : Z) : Prop := {
  ou_ctx : ctx ≠ 0 → out + n ≤ ctx ∨ ctx + 128 ≤ out;
  ou_imports : ∀ a, a ∈ import_list m ctx → out + n ≤ a ∨ a + 40 ≤ out;
  ou_tables : ∀ a, a ∈ import_list m ctx →
    let t := fv m R4XStartImport a "table" in t ≠ 0 → out + n ≤ t ∨ t + 16 `max` fv m T t "size" ≤ out
}.

Lemma changed_context m m' T ctx out n :
  changed m m' out n → context_ok m ctx → outside m T ctx out n →
  context_ok m' ctx ∧ import_list m' ctx = import_list m ctx ∧
  (∀ a f, a ∈ import_list m ctx → field_in R4XStartImport f 40 = true →
     fv m' R4XStartImport a f = fv m R4XStartImport a f).
Proof.
  intros Hch [Hm Hi] [Hc Hoi _].
  assert (∀ f, ctx ≠ 0 → field_in R4XStartContext f 128 = true →
    fv m' R4XStartContext ctx f = fv m R4XStartContext ctx f) as Hf.
  { intros f Hne Hf. eapply changed_fv; [done|exact Hf|by apply Hc]. }
  assert (import_list m' ctx = import_list m ctx) as Hl.
  { unfold import_list, imports_valid. destruct (Z.eqb_spec ctx 0) as [|Hne]; [done|].
    by rewrite !Hf by done. }
  split_and!; [split|done|].
  - intros Hne. eapply changed_mapped; [done|by apply Hm].
  - rewrite Hl. eapply Forall_impl; [exact Hi|]. intros a. by eapply changed_mapped.
  - intros a f Ha Hfi. eapply changed_fv; [done|exact Hfi|by apply Hoi].
Qed.

Lemma find_in_list m ctx g : 
  let item := default 0 (find (λ a, fv m R4XStartImport a "group_id" =? g) (import_list m ctx)) in
  item ≠ 0 → item ∈ import_list m ctx ∧ fv m R4XStartImport item "group_id" = g.
Proof.
  intros item Hne. unfold item in *. destruct (find _ _) as [a|] eqn:E; [|done].
  apply find_some in E as [Hin Hg%Z.eqb_eq]. simpl. split; [by apply list_elem_of_In|done].
Qed.

Lemma console_slots_covered n :
  R4XSTART_R4SYS_SIZE ≤ n →
  forallb (λ s, is_slot R4XStartR4Sys s && (offsetof R4XStartR4Sys s + 8 <=? n)) ["write"; "putc"] = true.
Proof.
  intros Hn. change (forallb _ _) with ((16 + 8 <=? n) && ((24 + 8 <=? n) && true)).
  unfold R4XSTART_R4SYS_SIZE in Hn. by rewrite !(proj2 (Z.leb_le _ n)) by lia.
Qed.

(** ** The console *)

Lemma mapped_size m a n : mapped m a (Z.of_nat n) → (n ≤ size m)%nat.
Proof.
  intros H. set (l := (λ i, a + Z.of_nat i) <$> seq 0 n).
  assert (NoDup l) as Hnd by (apply NoDup_fmap_2; [intros ? ?; lia|apply NoDup_seq]).
  assert (list_to_set l ⊆ (dom m : gset Z)) as Hsub.
  { intros x (i & -> & Hi%elem_of_seq)%elem_of_list_to_set%list_elem_of_fmap. apply elem_of_dom, H. lia. }
  apply subseteq_size in Hsub. rewrite size_list_to_set, size_dom in Hsub by done.
  unfold l in Hsub. by rewrite length_fmap, length_seq in Hsub.
Qed.

Lemma cstr_mapped m a s : cstr_at m a s → mapped m a (Z.of_nat (S (length s))).
Proof.
  revert a. induction s as [|b s IH]; intros a.
  - intros H%cstr_nil x Hx. simpl in Hx. replace x with a by lia. by eexists.
  - intros (Hb & _ & Hs%IH)%cstr_cons x Hx. destruct (decide (x = a)) as [-> |]; [by eexists|].
    apply Hs. simpl length in *. lia.
Qed.

Lemma cstr_len_loop_run w text fuel len s :
  cstr_at (mem w) (text + len) s → (length s < fuel)%nat → 0 ≤ len → len + Z.of_nat (length s) < 2 ^ 32 →
  cstr_len_loop fuel text len w = Some (len + Z.of_nat (length s), w).
Proof.
  revert len s. induction fuel as [|fuel IH]; intros len s Hs Hf Hl Hb; [lia|]. cbn [cstr_len_loop].
  destruct s as [|b s].
  - apply cstr_nil in Hs. rewrite (mbind_run _ _ _ _ _ (load1_run _ _ _ Hs)). simpl. by rewrite Z.add_0_r.
  - apply cstr_cons in Hs as (Hb0 & Hbn & Hs). rewrite (mbind_run _ _ _ _ _ (load1_run _ _ _ Hb0)).
    destruct (Z.eqb_spec (b2z b) 0) as [Hz|_]; [by apply b2z_zero in Hz|]. simpl length in *.
    rewrite u32_small by (unfold is_u32; lia). rewrite (IH (len + 1) s); [do 2 f_equal; lia| |lia|lia|lia].
    by rewrite Z.add_assoc.
Qed.

Lemma cstr_len_run w text s :
  text ≠ 0 → cstr_at (mem w) text s → Z.of_nat (length s) < 2 ^ 32 →
  r4os_cstr_len text w = Some (Z.of_nat (length s), w).
Proof.
  intros Hne Hs Hb. unfold r4os_cstr_len. rewrite (proj2 (Z.eqb_neq text 0) Hne).
  pose proof (mapped_size _ _ _ (cstr_mapped _ _ _ Hs)).
  rewrite (cstr_len_loop_run w text (S (size (mem w))) 0 s); [done| |lia|lia|lia]. by rewrite Z.add_0_r.
Qed.

(** The kernel leaves the application's [R4Sys] and its own table alone. *)
Definition keeps_sys (sys : Z) : Prop := ∀ f args w,
  sys_ok R4XSTART_R4SYS_SIZE (mem w) sys →
  let w' := snd (kcall f args w) in
  sys_ok R4XSTART_R4SYS_SIZE (mem w') sys ∧ table_ptr (mem w') sys = table_ptr (mem w) sys ∧
  ∀ name, slot_of (mem w') R4XStartR4Sys (table_ptr (mem w) sys) name
        = slot_of (mem w) R4XStartR4Sys (table_ptr (mem w) sys) name.

Lemma console_slot w sys name :
  sys_ok R4XSTART_R4SYS_SIZE (mem w) sys → table_ptr (mem w) sys ≠ 0 →
  is_slot R4XStartR4Sys name = true → offsetof R4XStartR4Sys name + 8 ≤ R4XSTART_R4SYS_SIZE →
  get R4XStartR4Sys name (table_ptr (mem w) sys) w =
    Some (slot_of (mem w) R4XStartR4Sys (table_ptr (mem w) sys) name, w).
Proof.
  intros [_ Ht] Hne Hs Hle. eapply get_slot; [done|done|done|]. pose proof (to_min _ _ _ _ Ht Hne). lia.
Qed.

Lemma putc_run w sys ch :
  sys_ok R4XSTART_R4SYS_SIZE (mem w) sys → table_ptr (mem w) sys ≠ 0 →
  let f := slot_of (mem w) R4XStartR4Sys (table_ptr (mem w) sys) "putc" in f ≠ 0 →
  r4sys_putc sys ch w = Some ((), snd (kcall f [ch] w)).
Proof.
  intros Hok Hne f Hf. unfold r4sys_putc. rewrite (mbind_run _ _ _ _ _ (sys_table_run _ w sys Hok)).
  rewrite (proj2 (Z.eqb_neq _ 0) Hne).
  rewrite (mbind_run _ _ _ _ _ (console_slot w sys "putc" Hok Hne eq_refl ltac:(vm_compute; discriminate))).
  fold f. rewrite (proj2 (Z.eqb_neq f 0) Hf). unfold call_void, call, mbind, m_bind.
  rewrite (proj2 (Z.eqb_neq f 0) Hf). by destruct (kcall f [ch] w).
Qed.

(** Asking whether to close is at most one call, of the function of the table or that of
    the start context. *)
Lemma should_close_calls w sys :
  sys_ok R4XSTART_R4SYS_SIZE (mem w) sys → sys ≠ 0 → table_ptr (mem w) sys ≠ 0 →
  let ctx := fv (mem w) R4Sys_t sys "ctx" in
  (ctx ≠ 0 → mapped (mem w) ctx 128) →
  ∃ b w', r4sys_program_should_close sys w = Some (b, w') ∧
    (w' = w ∨ ∃ f args, f ≠ 0 ∧ w' = snd (kcall f args w) ∧
      (f = slot_of (mem w) R4XStartR4Sys (table_ptr (mem w) sys) "program_should_close" ∨
       ctx ≠ 0 ∧ f = fv (mem w) R4XStartContext ctx "should_close")).
Proof.
  intros Hok Hs0 Ht ctx Hctx. unfold r4sys_program_should_close. rewrite (mbind_run _ _ _ _ _ (sys_table_run _ w sys Hok)).
  rewrite (proj2 (Z.eqb_neq _ _) Ht). pose proof (so_mapped _ _ _ Hok Hs0) as Hms. run_get Hms. fold ctx.
  assert (∃ f, (flags ← (if ctx =? 0 then mret 0 else get R4XStartContext "flags" ctx);
      (if Z.land flags R4XSTART_FLAG_CLOSE_SUPPORTED =? 0 then mret 0 else get R4XStartContext "should_close" ctx)) w
      = Some (f, w) ∧ (f = 0 ∨ ctx ≠ 0 ∧ f = fv (mem w) R4XStartContext ctx "should_close")) as (f & Hf & Hfv).
  { destruct (Z.eqb_spec ctx 0) as [|Hc0]; [eexists; split; [reflexivity|by left]|].
    pose proof (Hctx Hc0) as Hmc. run_get Hmc. destruct (_ =? 0); [eexists; split; [reflexivity|by left]|].
    run_get Hmc. eexists. split; [reflexivity|]. by right. }
  rewrite (mbind2_run _ _ _ _ _ _ Hf). destruct (Z.eqb_spec f 0) as [->|Hf0]; cbn [negb].
  - rewrite (mbind_run _ _ _ _ _ (console_slot w sys "program_should_close" Hok Ht eq_refl ltac:(vm_compute; discriminate))).
    set (g := slot_of _ _ _ _). destruct (Z.eqb_spec g 0) as [|Hg]; [eexists _, w; split; [reflexivity|by left]|].
    unfold call_u32, call, mbind, m_bind. rewrite (proj2 (Z.eqb_neq _ _) Hg).
    exists (negb (Prelude.u32 (fst (kcall g [] w)) =? 0)), (snd (kcall g [] w)). split; [by destruct (kcall g [] w)|]. right. exists g, []. by split_and!; [..|left].
  - unfold call_u32, call, mbind, m_bind. rewrite (proj2 (Z.eqb_neq _ _) Hf0).
    exists (negb (Prelude.u32 (fst (kcall f [ctx] w)) =? 0)), (snd (kcall f [ctx] w)). split; [by destruct (kcall f [ctx] w)|]. right. exists f, [ctx]. split_and!; [done|done|].
    right. tauto.
Qed.

(** C13. [r4sys_write_line] on an initialised [R4Sys] writes the whole string
    and then, unless that fails, carriage return and line feed: these calls, in
    this order, and no others. *)
Theorem write_line_calls w sys text s :
  keeps_sys sys → sys_ok R4XSTART_R4SYS_SIZE (mem w) sys → has w sys ["write"; "putc"] = true →
  text ≠ 0 → cstr_at (mem w) text s → Z.of_nat (length s) < 2 ^ 32 →
  let slot := slot_of (mem w) R4XStartR4Sys (table_ptr (mem w) sys) in
  let written := kcall (slot "write") [text; Z.of_nat (length s)] w in
  r4sys_write_line sys text w =
    if negb (bool_decide (s = [])) && (i32 (fst written) <? 0) then Some (i32 (fst written), snd written)
    else
      let w1 := if bool_decide (s = []) then w else snd written in
      Some (R4OS_OK, snd (kcall (slot "putc") [10] (snd (kcall (slot "putc") [13] w1)))).
Proof.
  intros Hk Hok Hhas Ht Hs Hlen slot written.
  pose proof (provides_elem _ _ _ _ "write" Hhas eq_refl) as Hw. fold slot in Hw.
  pose proof (provides_elem _ _ _ _ "putc" Hhas eq_refl) as Hp. fold slot in Hp.
  assert (table_ptr (mem w) sys ≠ 0) as Hne.
  { unfold has, provides in Hhas. by apply andb_true_iff in Hhas as [?%negb_true_iff%Z.eqb_neq _]. }
  assert (∀ w1, sys_ok R4XSTART_R4SYS_SIZE (mem w1) sys → table_ptr (mem w1) sys = table_ptr (mem w) sys →
    slot_of (mem w1) R4XStartR4Sys (table_ptr (mem w) sys) "putc" = slot "putc" →
    (_ ← r4sys_putc sys 13; _ ← r4sys_putc sys 10; mret R4OS_OK) w1
      = Some (R4OS_OK, snd (kcall (slot "putc") [10] (snd (kcall (slot "putc") [13] w1))))) as Hend.
  { intros w1 Hok1 Hp1 Hs1. pose proof (putc_run w1 sys 13 Hok1) as H13. cbv zeta in H13. rewrite Hp1, Hs1 in H13.
    rewrite (mbind_run _ _ _ _ _ (H13 Hne Hp)).
    destruct (Hk (slot "putc") [13] w1 Hok1) as (Hok2 & Hp2 & Hs2). rewrite Hp1 in Hp2, Hs2.
    pose proof (putc_run _ sys 10 Hok2) as H10. cbv zeta in H10. rewrite Hp2, Hs2, Hs1 in H10.
    by rewrite (mbind_run _ _ _ _ _ (H10 Hne Hp)). }
  unfold r4sys_write_line, r4sys_write_cstr.
  assert (∃ rc w1, (len ← r4os_cstr_len text; r4sys_write sys text len) w = Some (rc, w1) ∧
    (rc, w1) = if bool_decide (s = []) then (0, w) else (i32 (fst written), snd written)) as (rc & w1 & Hrun & Hrc).
  { rewrite (mbind_run _ _ _ _ _ (cstr_len_run w text s Ht Hs Hlen)). unfold r4sys_write.
    rewrite (mbind_run _ _ _ _ _ (sys_table_run _ w sys Hok)), (proj2 (Z.eqb_neq _ 0) Hne).
    rewrite (mbind_run _ _ _ _ _ (console_slot w sys "write" Hok Hne eq_refl ltac:(vm_compute; discriminate))).
    fold slot. rewrite (proj2 (Z.eqb_neq _ 0) Hw), (proj2 (Z.eqb_neq _ 0) Ht). cbn [orb].
    case_bool_decide as Hnil; [subst s; by eexists _, _|].
    rewrite (proj2 (Z.eqb_neq _ 0)) by (destruct s; [done|simpl; lia]). rewrite call_i32_run by done. by eexists _, _. }
  rewrite (mbind_run _ _ _ _ _ Hrun). case_bool_decide as Hnil; injection Hrc as -> ->; cbn [negb andb].
  - rewrite Z.ltb_irrefl. by rewrite (Hend w Hok eq_refl eq_refl).
  - destruct (i32 (fst written) <? 0); [done|].
    destruct (Hk (slot "write") [text; Z.of_nat (length s)] w Hok) as (H1 & H2 & H3). by apply Hend.
Qed.
End init.

(** ** Examples *)

(** A context at 2048 with one import, at 2304, of the full table at 4096; an
    [R4Sys] at 256, initialised, and room for another at 512; a line at 3072. *)
Definition demo_start : world call_log := World (image [
  (256, struct_bytes R4Sys_t [2048; 4096]); (512, replicate 16 xff);
  (2048, struct_bytes R4XStartContext
     [R4XSTART_MAGIC; 1; 1; 128; 1; 7; 1; 0; 0; 0; 0; 2304; 1; 0; 0; 0; 0; 0; 0; 0; 0]);
  (2304, struct_bytes R4XStartImport [1; 14; 14; 1; 0; 0; 4096]); (3072, cstr "hello");
  (4096, struct_bytes R4XStartR4Sys ([R4XSTART_R4SYS_MAGIC; 14; 1264; 0] ++ map (λ i, 7000 + Z.of_nat i) (seq 0 156)))]) [].

Lemma demo_start_context : context_ok (mem demo_start) 2048 ∧ import_list (mem demo_start) 2048 = [2304].
Proof.
  assert (import_list (mem demo_start) 2048 = [2304]) as Hl by (vm_compute; reflexivity). split; [|done].
  split; [intros _; apply mapped_b_mapped; vm_compute; reflexivity|]. rewrite Hl.
  repeat constructor. apply mapped_b_mapped. vm_compute. reflexivity.
Qed.

Lemma demo_start_table :
  fv (mem demo_start) R4XStartImport 2304 "table" = 4096 ∧
  fv (mem demo_start) R4XStartR4Sys 4096 "size" = 1264 ∧ mapped (mem demo_start) 4096 1264.
Proof. split_and!; [vm_compute; reflexivity|vm_compute; reflexivity|apply mapped_b_mapped; vm_compute; reflexivity]. Qed.

Lemma write_line_calls_witness :
  observed (r4sys_write_line 256 3072 demo_start) = Some (R4OS_OK, [(7001, [10]); (7001, [13]); (7000, [3072; 5])]).
Proof.
  destruct demo_start_table as (_ & Hs & Hm).
  assert (table_ptr (mem demo_start) 256 = 4096) as Hp by (vm_compute; reflexivity).
  rewrite (write_line_calls demo_start 256 3072 (lit "hello")).
  - vm_compute. reflexivity.
  - intros f args w Hok. split_and!; [exact Hok|reflexivity|reflexivity].
  - split; [intros _; apply mapped_b_mapped; vm_compute; reflexivity|]. rewrite Hp.
    split; intros _; rewrite ?Hs; [exact Hm|eapply mapped_sub; [exact Hm|lia|lia]|done].
  - vm_compute. reflexivity.
  - lia.
  - apply cstr_b_at. vm_compute. reflexivity.
  - vm_compute. reflexivity.
Defined.

End R4SysInit.
