(* ===== verification/R4Field.v ===== *)
(** * Structures as records of fields

    A C structure in memory as a function from its scalar fields to values:
    reading a field gives its value, storing one updates the function, and a
    store beside the structure leaves all of it alone. Also byte ranges with
    given contents, and [memcpy]. *)

From S2P Require Import Prelude R4Abi R4Mem R4L R4LSpec.
From S2P Require Import R4Table R4Sys R4SysSpec R4SysInit.

Module R4Field.
Export R4SysInit.

(** ** Fields *)

Definition scalars (T : ctype) : list string :=
  map fst (List.filter (λ p, match snd (snd p) with Scalar _ => true | _ => false end) (place 0 (fields_of T))).

(** The ranges of two fields do not overlap. *)
Definition disjoint_fields (T : ctype) (f g : string) : bool :=
  match field_at T f, field_at T g with
  | Some (o, k), Some (o', k') => (o + Z.of_nat k <=? o') || (o' + Z.of_nat k' <=? o)
  | _, _ => false
  end.

(** Every scalar field of [T] is inside [T] and apart from the others. *)
Definition fields_fit (T : ctype) : bool :=
  forallb (λ f, field_in T f (sizeof T) &&
    forallb (λ g, String.eqb f g || disjoint_fields T f g) (scalars T)) (scalars T).

Lemma field_scalar T f o k : field_at T f = Some (o, k) → In f (scalars T).
Proof.
  unfold field_at, scalars. generalize (place 0 (fields_of T)). intros l. induction l as [|[n [o' t]] l IH]; [done|].
  cbn [assoc List.filter snd]. destruct (String.eqb_spec n f) as [-> |_].
  - destruct t; [|done..]. intros _. by left.
  - intros H%IH. destruct t; [by right|done..].
Qed.

Lemma fits_in T f o k : fields_fit T = true → field_at T f = Some (o, k) → field_in T f (sizeof T) = true ∧
  0 ≤ o ∧ o + Z.of_nat k ≤ sizeof T.
Proof.
  unfold fields_fit. rewrite forallb_forall. intros H Hf. apply field_scalar in Hf as Hin.
  apply H, andb_true_iff in Hin as [Hi _]. split; [done|]. unfold field_in in Hi. rewrite Hf in Hi.
  by apply andb_true_iff in Hi as [?%Z.leb_le ?%Z.leb_le].
Qed.

Lemma fits_apart T f g p q :
  fields_fit T = true → field_at T f = Some p → field_at T g = Some q → f ≠ g → disjoint_fields T f g = true.
Proof.
  unfold fields_fit. rewrite forallb_forall. destruct p, q. intros H Hf%field_scalar Hg%field_scalar Hne.
  apply H, andb_true_iff in Hf as [_ Hd]. rewrite forallb_forall in Hd. apply Hd in Hg.
  by rewrite (proj2 (String.eqb_neq f g) Hne) in Hg.
Qed.

Lemma fv_disjoint m m' T p f g o k :
  field_at T f = Some (o, k) → disjoint_fields T f g = true → changed m m' (p + o) (Z.of_nat k) →
  fv m' T p g = fv m T p g.
Proof.
  intros Hf Hd Hch. unfold disjoint_fields in Hd. rewrite Hf in Hd. unfold fv.
  destruct (field_at T g) as [[o' k']|]; [|done]. rewrite orb_true_iff, !Z.leb_le in Hd.
  rewrite (read_bytes_ext m m'); [done|]. intros x Hx. apply (ch_out _ _ _ _ Hch). lia.
Qed.

Definition upd (σ : string → Z) (f : string) (v : Z) : string → Z := λ g, if String.eqb f g then v else σ g.

Section fields.
Context {K : Type} `{!Kernel K}.
Implicit Types (w : world K) (m : gmap Z byte) (σ : string → Z).

(** The structure [T] at [p] has the field values [σ]. *)
Record struct_at m (T : ctype) (p : Z) σ : Prop := {
  sa_mapped : mapped m p (sizeof T);
  sa_value : ∀ f q, field_at T f = Some q → fv m T p f = σ f
}.

Lemma struct_own m T p : mapped m p (sizeof T) → struct_at m T p (fv m T p).
Proof. by split. Qed.

Lemma struct_get w T p σ f o k :
  fields_fit T = true → field_at T f = Some (o, k) → struct_at (mem w) T p σ → get T f p w = Some (σ f, w).
Proof.
  intros HT Hf [Hm Hv]. rewrite <-(Hv f _ Hf). destruct (fits_in T f o k HT Hf) as [Hi _]. by eapply get_run.
Qed.

Lemma struct_put w T p σ f v o k :
  fields_fit T = true → field_at T f = Some (o, k) → struct_at (mem w) T p σ → 0 ≤ v < 2 ^ (8 * Z.of_nat k) →
  ∃ m', put T f p v w = Some ((), World m' (kern w)) ∧ changed (mem w) m' p (sizeof T) ∧
    changed (mem w) m' (p + o) (Z.of_nat k) ∧ struct_at m' T p (upd σ f v).
Proof.
  intros HT Hf [Hm Hv] Hr. destruct (fits_in T f o k HT Hf) as (Hi & Ho1 & Ho2).
  destruct (put_run w T f p v (sizeof T) o k Hm Hf Hi) as (m' & Hp & Hc & Hfv).
  exists m'. split_and!; [done|eapply changed_sub; [done|lia|lia]|done|split; [by eapply changed_mapped|]].
  intros g q Hg. unfold upd. destruct (String.eqb_spec f g) as [<-|Hne].
  - rewrite Hfv. by apply Z.mod_small.
  - rewrite <-(Hv g _ Hg). eapply fv_disjoint; [exact Hf| |done]. by eapply fits_apart.
Qed.

(** A value is stored modulo the width of the field. *)
Lemma struct_put_at w T p σ f v o k :
  fields_fit T = true → field_at T f = Some (o, k) → struct_at (mem w) T p σ →
  ∃ m', put T f p v w = Some ((), World m' (kern w)) ∧ changed (mem w) m' (p + o) (Z.of_nat k) ∧
    changed (mem w) m' p (sizeof T) ∧ struct_at m' T p (upd σ f (v mod 2 ^ (8 * Z.of_nat k))).
Proof.
  intros HT Hf Hs. assert (put T f p v w = put T f p (v mod 2 ^ (8 * Z.of_nat k)) w) as ->.
  { unfold put, store. rewrite Hf, <-(le_val_le_bytes k v). pose proof (le_bytes_le_val (le_bytes k v)) as He.
    rewrite length_le_bytes in He. by rewrite He. }
  destruct (struct_put w T p σ f (v mod 2 ^ (8 * Z.of_nat k)) o k HT Hf Hs) as (m' & H1 & H2 & H3 & H4); [|by exists m'].
  apply Z.mod_pos_bound, Z.pow_pos_nonneg; lia.
Qed.

Lemma struct_put_mod w T p σ f v o k :
  fields_fit T = true → field_at T f = Some (o, k) → struct_at (mem w) T p σ →
  ∃ m', put T f p v w = Some ((), World m' (kern w)) ∧ changed (mem w) m' p (sizeof T) ∧
    struct_at m' T p (upd σ f (v mod 2 ^ (8 * Z.of_nat k))).
Proof. intros HT Hf Hs. destruct (struct_put_at w T p σ f v o k HT Hf Hs) as (m' & H1 & _ & H2 & H3). by exists m'. Qed.

(** [*p = (T){f = v, ...}], field by field. *)
Fixpoint put_all (T : ctype) (p : Z) (l : list (string * Z)) : M K () :=
  match l with [] => mret () | (f, v) :: l => _ ← put T f p v; put_all T p l end.

Definition set_field (T : ctype) σ (fv : string * Z) : string → Z :=
  match field_at T (fst fv) with Some (_, k) => upd σ (fst fv) (snd fv mod 2 ^ (8 * Z.of_nat k)) | None => σ end.

Definition has_fields (T : ctype) (l : list (string * Z)) : bool :=
  forallb (λ fv, match field_at T (fst fv) with Some _ => true | None => false end) l.

Lemma put_all_run w T p σ l :
  fields_fit T = true → has_fields T l = true → struct_at (mem w) T p σ →
  ∃ m', put_all T p l w = Some ((), World m' (kern w)) ∧ changed (mem w) m' p (sizeof T) ∧
    struct_at m' T p (foldl (set_field T) σ l).
Proof.
  intros HT. revert w σ. induction l as [|[f v] l IH]; intros w σ Hl Hs; cbn [put_all foldl].
  { exists (mem w). split_and!; [by destruct w|by split|done]. }
  unfold has_fields in Hl. cbn [forallb fst] in Hl. apply andb_true_iff in Hl as [Hf Hl]. unfold set_field at 2. cbn [fst snd].
  destruct (field_at T f) as [[o k]|] eqn:E; [|done].
  destruct (struct_put_mod w T p σ f v o k HT E Hs) as (m1 & Hr & Hc & Hs1). rewrite (mbind_run _ _ _ _ _ Hr).
  destruct (IH (World m1 (kern w)) _ Hl Hs1) as (m' & Hr' & Hc' & Hs'). exists m'. split_and!; [done|by eapply changed_trans|done].
Qed.

(** No scalar field is among the [n] bytes at offset [o]: an inner structure or an array. *)
Definition hole (T : ctype) (o n : Z) : bool :=
  forallb (λ f, match field_at T f with
                | Some (o', k) => (o' + Z.of_nat k <=? o) || (o + n <=? o')
                | None => true
                end) (scalars T).

Lemma struct_hole m m' T p σ o n :
  hole T o n = true → changed m m' (p + o) n → struct_at m T p σ → struct_at m' T p σ.
Proof.
  unfold hole. rewrite forallb_forall. intros Hh Hch [Hm Hv]. split; [by eapply changed_mapped|]. intros f [o' k] Hf.
  rewrite <-(Hv f _ Hf). specialize (Hh f (field_scalar _ _ _ _ Hf)). rewrite Hf, orb_true_iff, !Z.leb_le in Hh. unfold fv. rewrite Hf.
  rewrite (read_bytes_ext m m'); [done|]. intros x Hx. apply (ch_out _ _ _ _ Hch). lia.
Qed.

Lemma struct_changed m m' T p σ a n :
  fields_fit T = true → changed m m' a n → a + n ≤ p ∨ p + sizeof T ≤ a → struct_at m T p σ → struct_at m' T p σ.
Proof.
  intros HT Hch Hd [Hm Hv]. split; [by eapply changed_mapped|]. intros f [o k] Hf.
  destruct (fits_in T f o k HT Hf) as (Hi & _). rewrite (changed_fv _ _ _ _ T p f _ Hch Hi Hd). by eapply Hv.
Qed.

Lemma struct_ext m T p σ σ' : (∀ f q, field_at T f = Some q → σ f = σ' f) → struct_at m T p σ → struct_at m T p σ'.
Proof. intros He [Hm Hv]. split; [done|]. intros f q Hf. rewrite <-(He f q Hf). by eapply Hv. Qed.

Lemma struct_range m T p σ f o k : field_at T f = Some (o, k) → struct_at m T p σ → 0 ≤ σ f < 2 ^ (8 * Z.of_nat k).
Proof.
  intros Hf [_ Hv]. rewrite <-(Hv f _ Hf). split; [apply fv_nonneg|]. unfold fv. rewrite Hf.
  destruct (read_bytes m (p + o) k) as [l|] eqn:E; [|apply Z.pow_pos_nonneg; lia].
  destruct (le_val_range l) as [_ Hl]. enough (length l = k) by congruence.
  clear -E. revert o l E. induction k as [|k IH]; intros o l E; cbn [read_bytes] in E; [by injection E as <-|].
  destruct (m !! (p + o)); [|done]. rewrite <-Z.add_assoc in E. destruct (read_bytes m (p + (o + 1)) k) as [l'|] eqn:E'; [|done].
  injection E as <-. simpl. f_equal. by eapply IH.
Qed.

(** Zero bytes are zero fields. *)
Lemma zero_bytes m a k :
  (∀ x, a ≤ x < a + Z.of_nat k → m !! x = Some x00) → ∃ l, read_bytes m a k = Some l ∧ le_val l = 0.
Proof.
  revert a. induction k as [|k IH]; intros a Hz; [by exists []|]. cbn [read_bytes]. rewrite Hz by lia.
  destruct (IH (a + 1)) as (l & -> & Hl); [intros; apply Hz; lia|]. exists (x00 :: l). split; [done|]. simpl. by rewrite Hl.
Qed.

Lemma struct_zero m T p :
  fields_fit T = true → (∀ x, p ≤ x < p + sizeof T → m !! x = Some x00) → struct_at m T p (λ _, 0).
Proof.
  intros HT Hz. split; [intros x Hx; rewrite (Hz x Hx); by eexists|]. intros f [o k] Hf.
  destruct (fits_in T f o k HT Hf) as (_ & Ho1 & Ho2). unfold fv. rewrite Hf.
  destruct (zero_bytes m (p + o) k) as (l & -> & Hl); [intros x Hx; apply Hz; lia|done].
Qed.

Lemma clear_struct w T p :
  fields_fit T = true → 0 ≤ sizeof T → mapped (mem w) p (sizeof T) →
  ∃ m', clear T p w = Some ((), World m' (kern w)) ∧ changed (mem w) m' p (sizeof T) ∧ struct_at m' T p (λ _, 0).
Proof.
  intros HT Hs Hm. destruct (clear_zero w T p Hs Hm) as (m' & Hr & Hc & Hz). exists m'. split_and!; [done|done|by apply struct_zero].
Qed.

(** ** Ranges with given contents *)

Definition bytes_at m (a : Z) (l : list byte) : Prop := read_bytes m a (length l) = Some l.

Lemma bytes_lookup m a l : bytes_at m a l ↔ ∀ i, (i < length l)%nat → m !! (a + Z.of_nat i) = l !! i.
Proof.
  unfold bytes_at. split; [intros H i Hi; by eapply read_bytes_lookup|].
  revert a. induction l as [|b l IH]; intros a H; [done|]. cbn [length read_bytes].
  pose proof (H 0%nat ltac:(simpl; lia)) as H0. rewrite Z.add_0_r in H0. rewrite H0. simpl.
  rewrite IH; [done|]. intros i Hi. replace (a + 1 + Z.of_nat i) with (a + Z.of_nat (S i)) by lia. by apply H; simpl; lia.
Qed.

Lemma bytes_changed m m' a l b n :
  changed m m' b n → b + n ≤ a ∨ a + Z.of_nat (length l) ≤ b → bytes_at m a l → bytes_at m' a l.
Proof. intros Hch Hd. unfold bytes_at. intros <-. apply read_bytes_ext. intros x Hx. apply (ch_out _ _ _ _ Hch). lia. Qed.

Lemma bytes_app m a l l' : bytes_at m a (l ++ l') ↔ bytes_at m a l ∧ bytes_at m (a + Z.of_nat (length l)) l'.
Proof.
  rewrite !bytes_lookup, length_app. split.
  - intros H. split; intros i Hi; [rewrite H by lia; by apply lookup_app_l|].
    replace (a + Z.of_nat (length l) + Z.of_nat i) with (a + Z.of_nat (length l + i)) by lia.
    rewrite H, lookup_app_r by lia. f_equal. lia.
  - intros [H1 H2] i Hi. destruct (decide (i < length l)%nat).
    + rewrite lookup_app_l by done. by apply H1.
    + rewrite lookup_app_r by lia. rewrite <-(H2 (i - length l)%nat) by lia. f_equal. lia.
Qed.

Lemma bytes_mapped m a l : bytes_at m a l → mapped m a (Z.of_nat (length l)).
Proof.
  rewrite bytes_lookup. intros H x Hx. replace x with (a + Z.of_nat (Z.to_nat (x - a))) by lia.
  rewrite H by lia. apply lookup_lt_is_Some. lia.
Qed.

Lemma store_bytes_run w a l :
  mapped (mem w) a (Z.of_nat (length l)) →
  ∃ m', store_bytes a l w = Some ((), World m' (kern w)) ∧ changed (mem w) m' a (Z.of_nat (length l)) ∧ bytes_at m' a l.
Proof. intros (m' & H & Hd & Ho & Hr)%store_run. exists m'. by split_and!. Qed.

(** [memcpy(dst, src, n)]. *)
Definition memcpy (dst src n : Z) : M K () := λ w,
  match read_bytes (mem w) src (Z.to_nat n) with Some l => store_bytes dst l w | None => None end.

Lemma memcpy_run w dst src l :
  bytes_at (mem w) src l → mapped (mem w) dst (Z.of_nat (length l)) →
  ∃ m', memcpy dst src (Z.of_nat (length l)) w = Some ((), World m' (kern w)) ∧
    changed (mem w) m' dst (Z.of_nat (length l)) ∧ bytes_at m' dst l.
Proof. intros Hs Hm. unfold memcpy. rewrite Nat2Z.id, Hs. by apply store_bytes_run. Qed.
End fields.

(** ** Building memories *)

Lemma place_bytes_out a l m x : ¬ (a ≤ x < a + Z.of_nat (length l)) → place_bytes a l m !! x = m !! x.
Proof.
  revert a. induction l as [|b l IH]; intros a Hx; [done|]. cbn [place_bytes]. simpl length in Hx.
  rewrite lookup_insert_ne by lia. apply IH. lia.
Qed.

Lemma place_bytes_in a l m : read_bytes (place_bytes a l m) a (length l) = Some l.
Proof.
  revert a. induction l as [|b l IH]; intros a; [done|]. cbn [place_bytes length read_bytes]. rewrite lookup_insert_eq.
  rewrite (read_bytes_ext (place_bytes (a + 1) l m)) by (intros x Hx; apply lookup_insert_ne; lia). by rewrite IH.
Qed.

Lemma place_bytes_changed a l m : mapped m a (Z.of_nat (length l)) → changed m (place_bytes a l m) a (Z.of_nat (length l)).
Proof.
  intros Hm. split; [|intros x; apply place_bytes_out]. intros x.
  destruct (decide (a ≤ x < a + Z.of_nat (length l))) as [Hx|Hx]; [|by rewrite place_bytes_out].
  split; intros _; [by apply Hm|]. pose proof (place_bytes_in a l m) as Hr.
  assert (is_Some (l !! Z.to_nat (x - a))) as Hs by (apply lookup_lt_is_Some; lia).
  rewrite <-(read_bytes_lookup _ _ _ _ (Z.to_nat (x - a)) Hr) in Hs by lia.
  by replace (a + Z.of_nat (Z.to_nat (x - a))) with x in Hs by lia.
Qed.

Lemma write_bytes_changed m a l m' : write_bytes m a l = Some m' → changed m m' a (Z.of_nat (length l)).
Proof.
  revert m a. induction l as [|b l IH]; intros m a H; cbn [write_bytes] in H; [injection H as <-; by split|].
  destruct (m !! a) as [c|] eqn:E; [|done]. apply IH in H as [Hd Ho]. simpl length. split; intros x.
  - rewrite Hd. destruct (decide (x = a)) as [->|]; [rewrite lookup_insert_eq, E; split; by eexists|by rewrite lookup_insert_ne].
  - intros Hx. rewrite Ho by lia. apply lookup_insert_ne. lia.
Qed.

Lemma write_bytes_read m a l m' : write_bytes m a l = Some m' → bytes_at m' a l.
Proof.
  intros H. assert (mapped m a (Z.of_nat (length l))) as Hm.
  { revert m a H. induction l as [|b l IH]; intros m a H; [intros x Hx; simpl in Hx; lia|]. cbn [write_bytes] in H.
    destruct (m !! a) as [c|] eqn:E; [|done]. apply IH in H. intros x Hx. destruct (decide (x = a)) as [->|Hne]; [by eexists|].
    assert (is_Some (<[a:=b]> m !! x)) as Hx' by (apply H; simpl length in Hx; lia). by rewrite lookup_insert_ne in Hx'. }
  destruct (write_bytes_run m a l Hm) as (m1 & Hw & _ & _ & Hr). rewrite H in Hw. by injection Hw as <-.
Qed.

(** Read a field of a structure known by hypothesis [H]. *)
Ltac field_get H :=
  match goal with
  | |- context [@mbind _ _ _ _ _ (get ?t ?f ?p) ?w] =>
      rewrite (mbind_run _ _ _ _ _ (struct_get w t p _ f _ _ eq_refl eq_refl H))
  | |- context [get ?t ?f ?p ?w] => rewrite (struct_get w t p _ f _ _ eq_refl eq_refl H)
  end.

End R4Field.
