(* ===== verification/R4Vm.v ===== *)
(** * r4sys.h: the virtual memory allocator

    [r4sys_vm_alloc] reserves and commits a region per allocation, and puts a
    header at its start and a pointer back to it just before the block it
    returns; [r4sys_vm_free] follows that pointer. The local variable [info] of
    the allocator is at the address it is given. *)

From S2P Require Import Prelude R4Abi R4Mem R4L R4LSpec.
From S2P Require Import R4Table R4Sys R4SysSpec R4SysInit.

Module R4Vm.
Export R4SysInit.

Definition R4OS_VM_OK : Z := 0.
Definition R4OS_VM_REGION_FLAGS_DEFAULT : Z := 1.
Definition VM_MAGIC : Z := 0x32434D52.

Definition r4sys_align_up_u64 (value alignment : Z) : Z :=
  let mask := u64 (alignment - 1) in
  Z.land (u64 (value + mask)) (u64 (Z.lnot mask)).

Section vm.
Context {K : Type} `{!Kernel K}.

(** The header and the back reference of a block. *)
Definition vm_write_header (base id region_size size user : Z) : M K () :=
  _ ← put R4SysVmAllocation "magic" base VM_MAGIC;
  _ ← put R4SysVmAllocation "region_id" base id;
  _ ← put R4SysVmAllocation "region_size" base region_size;
  _ ← put R4SysVmAllocation "requested_size" base size;
  _ ← put R4SysVmAllocation "user_addr" base user;
  store 8 (u64 (user - 8)) base.

Definition r4sys_vm_alloc (info sys size alignment : Z) : M K Z :=
  if size =? 0 then mret 0 else
  ok ← r4sys_supports_vm sys;
  if negb ok then mret 0 else
  let alignment := if alignment <? 8 then 8 else alignment in
  if negb (Z.land alignment (u64 (alignment - 1)) =? 0) then mret 0 else
  let reserve_alignment := if 4096 <? alignment then alignment else 4096 in
  let need := u64 (sizeof R4SysVmAllocation + 8 + alignment - 1 + size) in
  let region_size := r4sys_align_up_u64 need 4096 in
  r ← r4sys_vm_reserve sys region_size reserve_alignment R4OS_VM_REGION_FLAGS_DEFAULT info;
  if negb (r =? R4OS_VM_OK) then mret 0 else
  id ← get R4ProgramVmRegionInfo "id" info;
  r ← r4sys_vm_commit sys id 0 region_size;
  if negb (r =? R4OS_VM_OK) then
    id ← get R4ProgramVmRegionInfo "id" info;
    _ ← r4sys_vm_release sys id;
    mret 0
  else
    base ← get R4ProgramVmRegionInfo "base" info;
    let min_user := u64 (base + sizeof R4SysVmAllocation + 8) in
    let user := r4sys_align_up_u64 min_user alignment in
    id ← get R4ProgramVmRegionInfo "id" info;
    _ ← vm_write_header base id region_size size user;
    mret user.

Definition r4sys_vm_free (sys ptr : Z) : M K Z :=
  if ptr =? 0 then mret R4OS_ERROR_INVALID else
  ok ← r4sys_supports_vm sys;
  if negb ok then mret R4OS_ERROR_INVALID else
  header ← load 8 (u64 (ptr - 8));
  if header =? 0 then mret R4OS_ERROR_INVALID else
  magic ← get R4SysVmAllocation "magic" header;
  user_addr ← get R4SysVmAllocation "user_addr" header;
  if negb (magic =? VM_MAGIC) || negb (user_addr =? ptr) then mret R4OS_ERROR_INVALID else
  region_id ← get R4SysVmAllocation "region_id" header;
  _ ← put R4SysVmAllocation "magic" header 0;
  r4sys_vm_release sys region_id.
End vm.

(** ** Arithmetic *)

Lemma align_up_run v a k :
  a = 2 ^ k → 0 ≤ k ≤ 63 → 0 ≤ v → v + a - 1 < 2 ^ 64 →
  r4sys_align_up_u64 v a = round_up v a.
Proof.
  intros -> Hk Hv Hlt. unfold r4sys_align_up_u64, round_up.
  assert (0 < 2 ^ k) by (apply Z.pow_pos_nonneg; lia).
  assert (2 ^ k ≤ 2 ^ 63) by (apply Z.pow_le_mono_r; lia).
  rewrite (u64_small (2 ^ k - 1)) by (unfold is_u64; lia).
  rewrite (u64_small (v + _)) by (unfold is_u64; lia).
  replace (v + (2 ^ k - 1)) with (v + 2 ^ k - 1) by lia.
  assert (u64 (Z.lnot (2 ^ k - 1)) = Z.ones (64 - k) * 2 ^ k) as ->.
  { unfold u64. rewrite Z.lnot_eq_pred_opp, Z.ones_equiv. replace (Z.pred (- (2 ^ k - 1))) with (- 2 ^ k) by lia.
    assert (2 ^ 64 = 2 ^ (64 - k) * 2 ^ k) as Hpow by (rewrite <-Z.pow_add_r by lia; f_equal; lia).
    assert (0 < 2 ^ (64 - k)) by (apply Z.pow_pos_nonneg; lia).
    symmetry. apply (Z.mod_unique_pos _ _ (-1)); nia. }
  rewrite land_mask by lia. f_equal. apply Z.mod_small. split; [apply Z.div_pos; lia|].
  apply Z.div_lt_upper_bound; [lia|]. rewrite <-Z.pow_add_r by lia. replace (k + (64 - k)) with 64 by lia. lia.
Qed.

Lemma alignment_pow2 a : 8 ≤ a < 2 ^ 64 → Z.land a (u64 (a - 1)) = 0 → ∃ k, 0 ≤ k ≤ 63 ∧ a = 2 ^ k.
Proof.
  intros Ha. rewrite u64_small by (unfold is_u64; lia). intros (k & Hk & ->)%pow2_of_land; [|lia].
  exists k. split; [|done]. split; [done|]. destruct (decide (k ≤ 63)); [done|].
  assert (2 ^ 64 ≤ 2 ^ k) by (apply Z.pow_le_mono_r; lia). lia.
Qed.

(** ** Blocks *)

Section blocks.
Context {K : Type} `{!Kernel K}.
Implicit Types (w : world K) (m : gmap Z byte).

(** [user] is a block of region [id], which starts at [base]. *)
Record block_at m (user base id : Z) : Prop := {
  bk_order : 0 < base ∧ base + 40 ≤ user < 2 ^ 64;
  bk_mapped : mapped m base 32;
  bk_magic : fv m R4SysVmAllocation base "magic" = VM_MAGIC;
  bk_user : fv m R4SysVmAllocation base "user_addr" = user;
  bk_id : fv m R4SysVmAllocation base "region_id" = id;
  bk_back : ∃ l, read_bytes m (user - 8) 8 = Some l ∧ le_val l = base
}.

(** A store at offset [o] of a structure leaves the fields before it. *)
Lemma put_keep m m' T p f o k :
  changed m m' (p + o) k → field_in T f o = true → fv m' T p f = fv m T p f.
Proof. intros Hc Hf. eapply changed_fv; [done|exact Hf|lia]. Qed.

Lemma write_header_run w base id rs size user :
  mapped (mem w) base (user - base) → base + 40 ≤ user < 2 ^ 64 → 0 < base →
  0 ≤ id < 2 ^ 32 → ∃ m', vm_write_header base id rs size user w = Some ((), World m' (kern w)) ∧
    changed (mem w) m' base (user - base) ∧ block_at m' user base id.
Proof.
  intros Hm Hu Hb Hid. unfold vm_write_header.
  assert (∀ m, changed (mem w) m base (user - base) → mapped m base 32) as Hmap.
  { intros m Hc. eapply changed_mapped; [done|]. eapply mapped_sub; [done|lia|lia]. }
  assert (∀ m m' o k, changed (mem w) m base (user - base) → changed m m' (base + o) k → 0 ≤ o → o + k ≤ user - base →
    changed (mem w) m' base (user - base)) as Hacc.
  { intros m m' o k Hc Hc' ? ?. eapply changed_trans; [done|]. eapply changed_sub; [done|lia|lia]. }
  assert (changed (mem w) (mem w) base (user - base)) as H0 by (by split).
  destruct (put_run w R4SysVmAllocation "magic" base VM_MAGIC 32 0 4 (Hmap _ H0) eq_refl eq_refl) as (m1 & Hr1 & Hc1 & Hv1).
  assert (changed (mem w) m1 base (user - base)) as H1 by (eapply Hacc; [done|done|lia|lia]).
  destruct (put_run (World m1 (kern w)) R4SysVmAllocation "region_id" base id 32 4 4 (Hmap _ H1) eq_refl eq_refl) as (m2 & Hr2 & Hc2 & Hv2).
  assert (changed (mem w) m2 base (user - base)) as H2 by (eapply Hacc; [done|done|lia|lia]).
  destruct (put_run (World m2 (kern w)) R4SysVmAllocation "region_size" base rs 32 8 8 (Hmap _ H2) eq_refl eq_refl) as (m3 & Hr3 & Hc3 & _).
  assert (changed (mem w) m3 base (user - base)) as H3 by (eapply Hacc; [done|done|lia|lia]).
  destruct (put_run (World m3 (kern w)) R4SysVmAllocation "requested_size" base size 32 16 8 (Hmap _ H3) eq_refl eq_refl) as (m4 & Hr4 & Hc4 & _).
  assert (changed (mem w) m4 base (user - base)) as H4 by (eapply Hacc; [done|done|lia|lia]).
  destruct (put_run (World m4 (kern w)) R4SysVmAllocation "user_addr" base user 32 24 8 (Hmap _ H4) eq_refl eq_refl) as (m5 & Hr5 & Hc5 & Hv5).
  assert (changed (mem w) m5 base (user - base)) as H5 by (eapply Hacc; [done|done|lia|lia]).
  destruct (store_run (World m5 (kern w)) (user - 8) (le_bytes 8 base)) as (m6 & Hr6 & Hd6 & Hx6 & Hb6).
  { rewrite length_le_bytes. eapply mapped_sub; [eapply changed_mapped; [exact H5|exact Hm]|lia|lia]. }
  rewrite length_le_bytes in *. cbn [mem] in *.
  assert (changed m5 m6 (base + (user - 8 - base)) 8) as Hc6.
  { replace (base + (user - 8 - base)) with (user - 8) by lia. by split. }
  assert (changed (mem w) m6 base (user - base)) as H6 by (eapply Hacc; [exact H5|exact Hc6|lia|lia]).
  exists m6. split; [|split; [done|]].
  - rewrite (mbind_run _ _ _ _ _ Hr1), (mbind_run _ _ _ _ _ Hr2), (mbind_run _ _ _ _ _ Hr3),
      (mbind_run _ _ _ _ _ Hr4), (mbind_run _ _ _ _ _ Hr5).
    unfold store. by rewrite u64_small by (unfold is_u64; lia).
  - assert (changed m5 m6 (base + 32) (user - base - 32)) as Hc6' by (eapply changed_sub; [done|lia|lia]).
    split; [lia|by apply Hmap| | | |].
    + rewrite (put_keep _ _ _ _ "magic" _ _ Hc6'), (put_keep _ _ _ _ "magic" _ _ Hc5), (put_keep _ _ _ _ "magic" _ _ Hc4),
        (put_keep _ _ _ _ "magic" _ _ Hc3), (put_keep _ _ _ _ "magic" _ _ Hc2) by reflexivity. by rewrite Hv1.
    + rewrite (put_keep _ _ _ _ "user_addr" _ _ Hc6') by reflexivity. rewrite Hv5. apply Z.mod_small. lia.
    + rewrite (put_keep _ _ _ _ "region_id" _ _ Hc6'), (put_keep _ _ _ _ "region_id" _ _ Hc5),
        (put_keep _ _ _ _ "region_id" _ _ Hc4), (put_keep _ _ _ _ "region_id" _ _ Hc3) by reflexivity.
      rewrite Hv2. by apply Z.mod_small.
    + exists (le_bytes 8 base). split; [done|]. rewrite le_val_le_bytes. apply Z.mod_small. lia.
Qed.

(** The allocator's own choices: the alignment it uses, and the region it asks for. *)
Definition vm_alignment (alignment : Z) : Z := if alignment <? 8 then 8 else alignment.
Definition vm_region_size (size alignment : Z) : Z := round_up (39 + vm_alignment alignment + size) 4096.

(** A run in which the kernel grants the region and its pages; [rs] is the size
    that the code computes, modulo 2^64. *)
Lemma vm_alloc_run info sys size alignment w w1 w2 id base :
  let a := vm_alignment alignment in
  let rs := r4sys_align_up_u64 (u64 (39 + a + size)) 4096 in
  let user := round_up (base + 40) a in
  sys_ok 0 (mem w) sys → has w sys vm_slots = true → info ≠ 0 →
  0 < size → 0 ≤ alignment < 2 ^ 64 → Z.land a (u64 (a - 1)) = 0 →
  kernel_call w sys "vm_reserve" [rs; a `max` 4096; R4OS_VM_REGION_FLAGS_DEFAULT; info] = Some (R4OS_VM_OK, w1) →
  sys_ok 0 (mem w1) sys → has w1 sys vm_slots = true →
  mapped (mem w1) info 96 → fv (mem w1) R4ProgramVmRegionInfo info "id" = id →
  kernel_call w1 sys "vm_commit" [id; 0; rs; 0] = Some (R4OS_VM_OK, w2) →
  mapped (mem w2) info 96 → fv (mem w2) R4ProgramVmRegionInfo info "id" = id →
  fv (mem w2) R4ProgramVmRegionInfo info "base" = base →
  0 < base → base + 39 + a < 2 ^ 64 → mapped (mem w2) base (39 + a) →
  (a | user) ∧ base + 40 ≤ user ≤ base + 39 + a ∧
  ∃ m', r4sys_vm_alloc info sys size alignment w = Some (user, World m' (kern w2)) ∧
    changed (mem w2) m' base (user - base) ∧ block_at m' user base id.
Proof.
  intros a rs user Hok Hhas Hinfo Hsize Hal Hpow Hres Hok1 Hhas1 Hm1 Hid1 Hcom Hm2 Hid2 Hbase Hb0 Hbr Hmb.
  assert (8 ≤ a < 2 ^ 64) as Ha8 by (unfold a, vm_alignment; destruct (Z.ltb_spec alignment 8); lia).
  destruct (alignment_pow2 a Ha8 Hpow) as (k & Hk & Hak).
  destruct (round_up_spec (base + 40) a ltac:(lia)) as [Hu Hdiv]. fold user in Hu, Hdiv.
  split; [done|]. split; [lia|].
  unfold r4sys_vm_alloc. rewrite (proj2 (Z.eqb_neq size 0)) by lia.
  unfold r4sys_supports_vm. rewrite (mbind_run _ _ _ _ _ (sys_supports_run 0 w sys "vm_query" vm_slots Hok eq_refl)), Hhas.
  cbn [negb]. fold (vm_alignment alignment). fold a. rewrite Hpow. cbn [Z.eqb negb].
  change (sizeof R4SysVmAllocation) with 32. replace (32 + 8 + a - 1 + size) with (39 + a + size) by lia. fold rs.
  replace (if 4096 <? a then a else 4096) with (a `max` 4096) by (destruct (Z.ltb_spec 4096 a); lia).
  destruct (vm_calls 0 w sys Hok) as (Hvr & _). destruct (vm_calls 0 w1 sys Hok1) as (_ & Hvc & _).
  assert (r4sys_vm_reserve sys rs (a `max` 4096) R4OS_VM_REGION_FLAGS_DEFAULT info w = Some (R4OS_VM_OK, w1)) as Hr1.
  { rewrite Hvr. unfold gate, refuse. by rewrite Hhas, (proj2 (Z.eqb_neq info 0) Hinfo). }
  assert (r4sys_vm_commit sys id 0 rs w1 = Some (R4OS_VM_OK, w2)) as Hr2 by (rewrite Hvc; unfold gate; by rewrite Hhas1).
  rewrite (mbind_run _ _ _ _ _ Hr1). cbn [Z.eqb negb R4OS_VM_OK]. run_get Hm1. rewrite Hid1.
  rewrite (mbind_run _ _ _ _ _ Hr2). cbn [Z.eqb negb R4OS_VM_OK]. run_get Hm2. rewrite Hbase. run_get Hm2. rewrite Hid2.
  replace (base + 32 + 8) with (base + 40) by lia. rewrite (u64_small (base + 40)) by (unfold is_u64; lia).
  rewrite (align_up_run _ a k) by (done || lia). fold user.
  destruct (write_header_run w2 base id rs size user) as (m' & Hw & Hc & Hblk).
  { eapply mapped_sub; [done|lia|lia]. }
  { lia. }
  { done. }
  { rewrite <-Hid1. split; [apply fv_nonneg|]. apply (fv_bound (mem w1) R4ProgramVmRegionInfo info "id" 0 4 eq_refl). }
  rewrite (mbind_run _ _ _ _ _ Hw). exists m'. by split_and!.
Qed.

(** C16. When the kernel grants the region, [r4sys_vm_alloc] returns an aligned
    block of the requested size inside it, behind the header, and writes only
    in front of the block; provided the size and alignment do not overflow 64
    bits. *)
Theorem vm_alloc_block info sys size alignment w w1 w2 id base :
  let a := vm_alignment alignment in
  let rs := vm_region_size size alignment in
  sys_ok 0 (mem w) sys → has w sys vm_slots = true → info ≠ 0 →
  0 < size → 0 ≤ alignment → Z.land a (u64 (a - 1)) = 0 → size + a + 4134 < 2 ^ 64 →
  kernel_call w sys "vm_reserve" [rs; a `max` 4096; R4OS_VM_REGION_FLAGS_DEFAULT; info] = Some (R4OS_VM_OK, w1) →
  sys_ok 0 (mem w1) sys → has w1 sys vm_slots = true →
  mapped (mem w1) info 96 → fv (mem w1) R4ProgramVmRegionInfo info "id" = id →
  kernel_call w1 sys "vm_commit" [id; 0; rs; 0] = Some (R4OS_VM_OK, w2) →
  mapped (mem w2) info 96 → fv (mem w2) R4ProgramVmRegionInfo info "id" = id →
  fv (mem w2) R4ProgramVmRegionInfo info "base" = base →
  0 < base → base + rs ≤ 2 ^ 64 → mapped (mem w2) base rs →
  ∃ user m', r4sys_vm_alloc info sys size alignment w = Some (user, World m' (kern w2)) ∧
    (a | user) ∧ base + 40 ≤ user ∧ user + size ≤ base + rs ∧
    changed (mem w2) m' base (user - base) ∧ block_at m' user base id.
Proof.
  intros a rs Hok Hhas Hinfo Hsize Hal Hpow Hov Hres Hok1 Hhas1 Hm1 Hid1 Hcom Hm2 Hid2 Hbase Hb0 Hbr Hmb.
  assert (8 ≤ a) as Ha8 by (unfold a, vm_alignment; destruct (Z.ltb_spec alignment 8); lia).
  assert (alignment ≤ a) as Hala by (unfold a, vm_alignment; destruct (Z.ltb_spec alignment 8); lia).
  assert (rs = r4sys_align_up_u64 (u64 (39 + a + size)) 4096) as Ers.
  { rewrite u64_small by (unfold is_u64; lia). by rewrite (align_up_run _ 4096 12) by (reflexivity || lia). }
  destruct (round_up_spec (39 + a + size) 4096 ltac:(lia)) as [Hrs _]. fold a in Hrs.
  change (round_up (39 + a + size) 4096) with rs in Hrs.
  rewrite Ers in Hres, Hcom.
  destruct (vm_alloc_run info sys size alignment w w1 w2 id base) as (Hd & Hu & m' & Hr & Hc & Hb);
    try done; [lia|fold a; lia|eapply mapped_sub; [exact Hmb|lia|fold a; lia]|].
  fold a in Hd, Hu, Hr, Hc, Hb. eexists _, m'. split_and!; [exact Hr|done|lia|lia|done|done].
Qed.


(** C18. Every way the allocator fails gives NULL and keeps nothing: without a
    size, without the slots or with an alignment that is not a power of two
    the kernel is not called; a region that is refused is all that was asked
    for; and a region whose pages cannot be committed is released. *)
Theorem vm_alloc_failure info sys size alignment w :
  let a := vm_alignment alignment in
  let rs := r4sys_align_up_u64 (u64 (39 + a + size)) 4096 in
  sys_ok 0 (mem w) sys → info ≠ 0 →
  (size = 0 ∨ has w sys vm_slots = false ∨ Z.land a (u64 (a - 1)) ≠ 0 →
     r4sys_vm_alloc info sys size alignment w = Some (0, w)) ∧
  (size ≠ 0 → has w sys vm_slots = true → Z.land a (u64 (a - 1)) = 0 → ∀ r w1,
     kernel_call w sys "vm_reserve" [rs; a `max` 4096; R4OS_VM_REGION_FLAGS_DEFAULT; info] = Some (r, w1) →
     (r ≠ R4OS_VM_OK → r4sys_vm_alloc info sys size alignment w = Some (0, w1)) ∧
     (r = R4OS_VM_OK → sys_ok 0 (mem w1) sys → has w1 sys vm_slots = true → mapped (mem w1) info 96 →
      ∀ id, fv (mem w1) R4ProgramVmRegionInfo info "id" = id →
      ∀ e w2, kernel_call w1 sys "vm_commit" [id; 0; rs; 0] = Some (e, w2) → e ≠ R4OS_VM_OK →
        sys_ok 0 (mem w2) sys → has w2 sys vm_slots = true →
        mapped (mem w2) info 96 → fv (mem w2) R4ProgramVmRegionInfo info "id" = id →
        ∀ x w3, kernel_call w2 sys "vm_release" [id] = Some (x, w3) →
        r4sys_vm_alloc info sys size alignment w = Some (0, w3))).
Proof.
  intros a rs Hok Hinfo. unfold r4sys_vm_alloc.
  unfold r4sys_supports_vm. pose proof (sys_supports_run 0 w sys "vm_query" vm_slots Hok eq_refl) as Hsup.
  fold (vm_alignment alignment). fold a. change (sizeof R4SysVmAllocation) with 32.
  replace (32 + 8 + a - 1 + size) with (39 + a + size) by lia. fold rs.
  replace (if 4096 <? a then a else 4096) with (a `max` 4096) by (destruct (Z.ltb_spec 4096 a); lia).
  split; [|intros Hs Hh Hpow r w1 Hres].
  - intros H. destruct (Z.eqb_spec size 0); [done|]. rewrite (mbind_run _ _ _ _ _ Hsup).
    destruct (has w sys vm_slots); [|done]. cbn [negb]. destruct H as [?|[?|Hp]]; [done|done|].
    by rewrite (proj2 (Z.eqb_neq _ 0) Hp).
  - rewrite (proj2 (Z.eqb_neq size 0) Hs), (mbind_run _ _ _ _ _ Hsup), Hh, Hpow. cbn [negb Z.eqb].
    destruct (vm_calls 0 w sys Hok) as (Hvr & _).
    assert (r4sys_vm_reserve sys rs (a `max` 4096) R4OS_VM_REGION_FLAGS_DEFAULT info w = Some (r, w1)) as Hr1.
    { rewrite Hvr. unfold gate, refuse. by rewrite Hh, (proj2 (Z.eqb_neq info 0) Hinfo). }
    rewrite (mbind_run _ _ _ _ _ Hr1). split; [intros Hr; by rewrite (proj2 (Z.eqb_neq _ _) Hr)|].
    intros -> Hok1 Hhas1 Hm1 id Hid1 e w2 Hcom He Hok2 Hhas2 Hm2 Hid2 x w3 Hrel.
    cbn [Z.eqb negb R4OS_VM_OK]. run_get Hm1. rewrite Hid1.
    destruct (vm_calls 0 w1 sys Hok1) as (_ & Hvc & _).
    assert (r4sys_vm_commit sys id 0 rs w1 = Some (e, w2)) as Hr2 by (rewrite Hvc; unfold gate; by rewrite Hhas1).
    rewrite (mbind_run _ _ _ _ _ Hr2), (proj2 (Z.eqb_neq _ _) He). cbn [negb]. run_get Hm2. rewrite Hid2.
    destruct (vm_calls 0 w2 sys Hok2) as (_ & _ & _ & _ & Hvl & _).
    assert (r4sys_vm_release sys id w2 = Some (x, w3)) as Hr3 by (rewrite Hvl; unfold gate; by rewrite Hhas2).
    by rewrite (mbind_run _ _ _ _ _ Hr3).
Qed.

(** The steps of [r4sys_vm_free] up to the header. *)
Lemma vm_free_head sys user w (k : Z → M K Z) :
  user ≠ 0 → sys_ok 0 (mem w) sys → has w sys vm_slots = true →
  (if user =? 0 then mret R4OS_ERROR_INVALID else
   ok ← r4sys_supports_vm sys;
   if negb ok then mret R4OS_ERROR_INVALID else header ← load 8 (u64 (user - 8)); k header) w
    = (header ← load 8 (u64 (user - 8)); k header) w.
Proof.
  intros Hu Hok Hhas. rewrite (proj2 (Z.eqb_neq user 0) Hu). unfold r4sys_supports_vm.
  by rewrite (mbind_run _ _ _ _ _ (sys_supports_run 0 w sys "vm_query" vm_slots Hok eq_refl)), Hhas.
Qed.

(** A pointer whose header has lost its magic number is refused. *)
Lemma vm_free_refused sys user base w l :
  0 < base → base + 40 ≤ user < 2 ^ 64 → sys_ok 0 (mem w) sys → has w sys vm_slots = true →
  read_bytes (mem w) (user - 8) 8 = Some l → le_val l = base → mapped (mem w) base 32 →
  fv (mem w) R4SysVmAllocation base "magic" ≠ VM_MAGIC →
  r4sys_vm_free sys user w = Some (R4OS_ERROR_INVALID, w).
Proof.
  intros Hb Hu Hok Hhas Hl Hlv Hm Hmag. unfold r4sys_vm_free. rewrite vm_free_head by (done || lia).
  rewrite u64_small by (unfold is_u64; lia). rewrite (mbind_run _ _ _ _ _ (load_run _ _ _ _ _ Hl Hlv)).
  rewrite (proj2 (Z.eqb_neq base 0)) by lia. run_get Hm. run_get Hm.
  by rewrite (proj2 (Z.eqb_neq _ _) Hmag).
Qed.

(** C17. Freeing a block of the allocator writes only the magic number of its
    header, which it clears, and then releases exactly the region the block
    came from; its result is the kernel's. What a second [r4sys_vm_free] of the
    same pointer does then, depends on the memory the kernel leaves: if the
    region is still there (its release was refused), the call is refused and
    nothing is released; if the region is gone, the call reads unmapped memory. *)
Theorem vm_free_releases sys user base id w :
  block_at (mem w) user base id → sys_ok 0 (mem w) sys → has w sys vm_slots = true → apart (mem w) sys base 4 →
  ∃ m', changed (mem w) m' base 4 ∧ fv m' R4SysVmAllocation base "magic" = 0 ∧
    r4sys_vm_free sys user w = kernel_call (World m' (kern w)) sys "vm_release" [id] ∧
    ∀ r w2, r4sys_vm_free sys user w = Some (r, w2) →
      sys_ok 0 (mem w2) sys → has w2 sys vm_slots = true →
      ((∀ x, base ≤ x < user → mem w2 !! x = m' !! x) →
         r4sys_vm_free sys user w2 = Some (R4OS_ERROR_INVALID, w2)) ∧
      (mem w2 !! (user - 8) = None → r4sys_vm_free sys user w2 = None).
Proof.
  intros [Ho Hm Hmag Hus Hid (l & Hl & Hlv)] Hok Hhas Hap.
  destruct (put_run w R4SysVmAllocation "magic" base 0 32 0 4 Hm eq_refl eq_refl) as (m' & Hr & Hc & Hv).
  rewrite Z.add_0_r in Hc. exists m'. split; [done|]. split; [done|].
  destruct (changed_sys 0 (mem w) m' base 4 sys Hc Hok Hap) as (Hok' & _ & _ & _).
  assert (has (World m' (kern w)) sys vm_slots = true) as Hhas'.
  { rewrite (has_changed (mem w) m' (kern w) (kern w) base 4 sys 0) by done. by destruct w. }
  assert (read_bytes m' (user - 8) 8 = Some l) as Hl'.
  { rewrite <-Hl. apply read_bytes_ext. intros x Hx. apply (ch_out _ _ _ _ Hc). lia. }
  split.
  - unfold r4sys_vm_free. rewrite vm_free_head by (done || lia).
    rewrite u64_small by (unfold is_u64; lia). rewrite (mbind_run _ _ _ _ _ (load_run _ _ _ _ _ Hl Hlv)).
    rewrite (proj2 (Z.eqb_neq base 0)) by lia. run_get Hm. run_get Hm. rewrite Hmag, Hus, !Z.eqb_refl.
    cbn [negb orb]. run_get Hm. rewrite Hid, (mbind_run _ _ _ _ _ Hr).
    destruct (vm_calls 0 (World m' (kern w)) sys Hok') as (_ & _ & _ & _ & Hrel & _).
    rewrite Hrel. unfold gate. by rewrite Hhas'.
  - intros r w2 _ Hok2 Hhas2. split.
    + intros Hsame. apply (vm_free_refused sys user base w2 l); try done; try lia.
      * rewrite <-Hl'. apply read_bytes_ext. intros x Hx. apply Hsame. lia.
      * intros x Hx. rewrite Hsame by lia. apply (changed_mapped _ _ _ _ _ _ Hc Hm). lia.
      * rewrite (fv_ext m' (mem w2) _ _ _ 32) by (reflexivity || (intros x Hx; apply Hsame; lia)). by rewrite Hv.
    + intros Hnone. unfold r4sys_vm_free. rewrite vm_free_head by (done || lia).
      rewrite u64_small by (unfold is_u64; lia). unfold mbind, m_bind, load.
      cbn [read_bytes]. by rewrite Hnone.
Qed.
End blocks.

(** ** A kernel with one region *)

(** It grants a region at 65536; any call but the following succeeds and does
    nothing. It maps the region when it is committed, unless it has no pages,
    and takes it away when it is released, unless it keeps it. *)
Inductive vm_mode := VmGrants | VmNoPages | VmKeeps.
Definition vm_kernel : Type := list (Z * list Z) * vm_mode.

#[global] Instance region_kernel : Kernel vm_kernel := λ f args w,
  let k := ((f, args) :: fst (kern w), snd (kern w)) in
  match args, snd (kern w) with
  | [n; _; _; info], mode =>
      if f =? 7026 then
        (0, World (place_bytes info (struct_bytes R4ProgramVmRegionInfo [5; 0; 0; 0; 0; 0; 65536; n]) (mem w)) k)
      else if f =? 7027 then
        match mode with
        | VmNoPages => (-12, World (mem w) k)
        | _ => (0, World (place_bytes 65536 (replicate 4096 x00) (mem w)) k)
        end
      else (0, World (mem w) k)
  | [_], VmKeeps => if f =? 7029 then (-16, World (mem w) k) else (0, World (mem w) k)
  | [_], _ =>
      if f =? 7029 then (0, World (filter (λ c, ¬ (65536 ≤ c.1 < 69632)) (mem w)) k) else (0, World (mem w) k)
  | _, _ => (0, World (mem w) k)
  end.

Definition vm_start_in (mode : vm_mode) : world vm_kernel := World (image [
  (256, struct_bytes R4Sys_t [0; 4096]); (1024, replicate 96 x00);
  (4096, struct_bytes R4XStartR4Sys ([R4XSTART_R4SYS_MAGIC; 14; 1264; 0] ++ map (λ i, 7000 + Z.of_nat i) (seq 0 156)))])
  ([], mode).

(** ** Examples *)

(** The worlds after a region of one page is reserved and after it is committed. *)
Definition vm_reserved_in (mode : vm_mode) : world vm_kernel :=
  snd (kcall 7026 [4096; 4096; 1; 1024] (vm_start_in mode)).
Definition vm_committed_in (mode : vm_mode) : world vm_kernel :=
  snd (kcall 7027 [5; 0; 4096; 0] (vm_reserved_in mode)).
Notation vm_start := (vm_start_in VmGrants).
Notation vm_reserved := (vm_reserved_in VmGrants).
Notation vm_committed := (vm_committed_in VmGrants).

Lemma vm_reserved_call mode :
  kernel_call (vm_start_in mode) 256 "vm_reserve" [4096; 4096; R4OS_VM_REGION_FLAGS_DEFAULT; 1024]
    = Some (0, vm_reserved_in mode).
Proof.
  unfold kernel_call. assert (slot_of (mem (vm_start_in mode)) R4XStartR4Sys (table_ptr (mem (vm_start_in mode)) 256)
    "vm_reserve" = 7026) as -> by (vm_compute; reflexivity).
  unfold vm_reserved_in, R4OS_VM_REGION_FLAGS_DEFAULT. f_equal.
Qed.

Lemma vm_commit_call mode :
  kernel_call (vm_reserved_in mode) 256 "vm_commit" [5; 0; 4096; 0]
    = Some (match mode with VmNoPages => -12 | _ => 0 end, vm_committed_in mode).
Proof.
  unfold kernel_call. assert (slot_of (mem (vm_reserved_in mode)) R4XStartR4Sys
    (table_ptr (mem (vm_reserved_in mode)) 256) "vm_commit" = 7027) as -> by (destruct mode; vm_compute; reflexivity).
  unfold vm_committed_in. by destruct mode.
Qed.

Lemma vm_release_call mode :
  kernel_call (vm_committed_in mode) 256 "vm_release" [5]
    = Some (match mode with VmKeeps => -16 | _ => 0 end, snd (kcall 7029 [5] (vm_committed_in mode))).
Proof.
  unfold kernel_call. assert (slot_of (mem (vm_committed_in mode)) R4XStartR4Sys
    (table_ptr (mem (vm_committed_in mode)) 256) "vm_release" = 7029) as -> by (destruct mode; vm_compute; reflexivity).
  by destruct mode.
Qed.

Lemma vm_alloc_block_witness :
  ∃ user m', r4sys_vm_alloc 1024 256 100 64 vm_start = Some (user, World m' (kern vm_committed)) ∧
    (64 | user) ∧ 65576 ≤ user ∧ user + 100 ≤ 69632.
Proof.
  destruct (vm_alloc_block 1024 256 100 64 vm_start vm_reserved vm_committed 5 65536)
    as (user & m' & Hr & Hd & H1 & H2 & _).
  all: change (vm_region_size 100 64) with 4096; change (vm_alignment 64 `max` 4096) with 4096.
  all: try (apply mapped_b_mapped; vm_compute; reflexivity).
  all: try (apply (sys_ok_check _ 0 256 1264); vm_compute; (reflexivity || discriminate)).
  all: try (exact (vm_commit_call VmGrants) || exact (vm_reserved_call VmGrants)).
  all: try lazymatch goal with |- ex _ => fail | |- _ => vm_compute; (reflexivity || discriminate) end.
  - exists user, m'. change (vm_region_size 100 64) with 4096 in H2. split_and!; [exact Hr|exact Hd|lia|lia].
Defined.


(** An alignment of 24 is refused, and without pages the region is released. *)
Lemma vm_alloc_failure_witness :
  r4sys_vm_alloc 1024 256 100 24 (vm_start_in VmNoPages) = Some (0, vm_start_in VmNoPages) ∧
  ∃ w3, r4sys_vm_alloc 1024 256 100 64 (vm_start_in VmNoPages) = Some (0, w3) ∧
    fst (kern w3) = [(7029, [5]); (7027, [5; 0; 4096; 0]); (7026, [4096; 4096; 1; 1024])].
Proof.
  assert (sys_ok 0 (mem (vm_start_in VmNoPages)) 256) as Hok
    by (apply (sys_ok_check _ 0 256 1264); vm_compute; (reflexivity || discriminate)).
  split.
  - apply (vm_alloc_failure 1024 256 100 24 _ Hok); [lia|]. right. right. vm_compute. discriminate.
  - destruct (vm_alloc_failure 1024 256 100 64 _ Hok ltac:(lia)) as [_ H].
    destruct (H ltac:(lia) ltac:(vm_compute; reflexivity) ltac:(vm_compute; reflexivity) 0 (vm_reserved_in VmNoPages))
      as [_ Hc]; [exact (vm_reserved_call VmNoPages)|].
    exists (snd (kcall 7029 [5] (vm_committed_in VmNoPages))). split; [|vm_compute; reflexivity].
    apply (Hc eq_refl) with (id := 5) (e := -12) (w2 := vm_committed_in VmNoPages) (x := 0).
    all: try (apply mapped_b_mapped; vm_compute; reflexivity).
    all: try (apply (sys_ok_check _ 0 256 1264); vm_compute; (reflexivity || discriminate)).
    + vm_compute. reflexivity.
    + vm_compute. reflexivity.
    + exact (vm_commit_call VmNoPages).
    + discriminate.
    + vm_compute. reflexivity.
    + vm_compute. reflexivity.
    + exact (vm_release_call VmNoPages).
Defined.

(** A block at 65600 of region 5. *)
Definition vm_block (mode : vm_mode) : world vm_kernel := World (image [
  (256, struct_bytes R4Sys_t [0; 4096]);
  (4096, struct_bytes R4XStartR4Sys ([R4XSTART_R4SYS_MAGIC; 14; 1264; 0] ++ map (λ i, 7000 + Z.of_nat i) (seq 0 156)));
  (65536, struct_bytes R4SysVmAllocation [VM_MAGIC; 5; 4096; 100; 65600]); (65592, le_bytes 8 65536)]) ([], mode).

(** What the first call leaves; the fallback is never used. *)
Definition vm_freed (mode : vm_mode) : world vm_kernel :=
  match r4sys_vm_free 256 65600 (vm_block mode) with Some (_, w) => w | None => vm_block mode end.

Lemma vm_freed_run mode :
  r4sys_vm_free 256 65600 (vm_block mode) = Some (match mode with VmKeeps => -16 | _ => 0 end, vm_freed mode).
Proof.
  assert (fst <$> r4sys_vm_free 256 65600 (vm_block mode) = Some (match mode with VmKeeps => -16 | _ => 0 end)) as H
    by (destruct mode; vm_compute; reflexivity).
  unfold vm_freed. destruct (r4sys_vm_free 256 65600 (vm_block mode)) as [[r w]|]; [|done].
  cbn in H. by injection H as ->.
Qed.

(** A kernel that keeps the region leaves the memory of its caller alone. *)
Lemma vm_kept (m : gmap Z byte) k r w2 :
  kernel_call (World m (k, VmKeeps)) 256 "vm_release" [5] = Some (r, w2) → mem w2 = m.
Proof. unfold kernel_call, kcall, region_kernel. cbn [snd kern]. destruct (_ =? 7029); by intros [= _ <-]. Qed.

Lemma vm_freed_sys mode : sys_ok 0 (mem (vm_freed mode)) 256 ∧ has (vm_freed mode) 256 vm_slots = true.
Proof.
  split; [apply (sys_ok_check _ 0 256 1264); destruct mode; vm_compute; (reflexivity || discriminate)|].
  destruct mode; vm_compute; reflexivity.
Qed.

Lemma vm_block_ready mode :
  block_at (mem (vm_block mode)) 65600 65536 5 ∧ sys_ok 0 (mem (vm_block mode)) 256 ∧
  has (vm_block mode) 256 vm_slots = true ∧ apart (mem (vm_block mode)) 256 65536 4.
Proof.
  split_and!.
  - split; try (vm_compute; reflexivity); [lia|apply mapped_b_mapped; vm_compute; reflexivity|].
    exists (le_bytes 8 65536). split; vm_compute; reflexivity.
  - apply (sys_ok_check _ 0 256 1264); vm_compute; (reflexivity || discriminate).
  - vm_compute. reflexivity.
  - assert (table_ptr (mem (vm_block mode)) 256 = 4096 ∧ fv (mem (vm_block mode)) R4XStartR4Sys 4096 "size" = 1264)
      as [Ht Hs] by (split; vm_compute; reflexivity).
    split; rewrite ?Ht, ?Hs; lia.
Qed.

(** A kernel that takes the region away, and one that keeps it. *)
Lemma vm_free_releases_witness :
  fst (kern (vm_freed VmGrants)) = [(7029, [5])] ∧ r4sys_vm_free 256 65600 (vm_freed VmGrants) = None ∧
  r4sys_vm_free 256 65600 (vm_freed VmKeeps) = Some (R4OS_ERROR_INVALID, vm_freed VmKeeps).
Proof.
  split; [vm_compute; reflexivity|]. split.
  - destruct (vm_block_ready VmGrants) as (H1 & H2 & H3 & H4).
    destruct (vm_free_releases 256 65600 65536 5 (vm_block VmGrants) H1 H2 H3 H4) as (m' & _ & _ & _ & Hagain).
    apply (Hagain 0 (vm_freed VmGrants) (vm_freed_run VmGrants)).
    + apply vm_freed_sys.
    + apply vm_freed_sys.
    + vm_compute. reflexivity.
  - destruct (vm_block_ready VmKeeps) as (H1 & H2 & H3 & H4).
    destruct (vm_free_releases 256 65600 65536 5 (vm_block VmKeeps) H1 H2 H3 H4) as (m' & _ & _ & Hfree & Hagain).
    destruct (Hagain (-16) (vm_freed VmKeeps) (vm_freed_run VmKeeps)) as [Hkept _].
    + apply vm_freed_sys.
    + apply vm_freed_sys.
    + apply Hkept. intros x _. rewrite vm_freed_run in Hfree.
      exact (f_equal (λ m, m !! x) (vm_kept _ _ _ _ (eq_sym Hfree))).
Defined.

End R4Vm.
