(* ===== verification/R4Group.v ===== *)
(** * The clients of the smaller kernel tables

    R4DESK, R4DRAW, R4NET, R4AUDIO and R4DEV each have a client structure that
    holds one pointer, to the table. This file has the steps their headers
    share, what they mean, and the binding of a client to the table in the
    start context. *)

From S2P Require Import Prelude R4Abi R4Mem R4L R4LSpec.
From S2P Require Import R4Table R4Sys R4SysSpec R4SysInit.

Module R4Group.
Export R4SysInit.

(** [R4Desk], [R4Draw], [R4Net], [R4Audio], [R4Dev]. *)
Definition Client_t : ctype := Struct [("table", U64)].

Section code.
Context {K : Type} `{!Kernel K}.

(** [g == 0 ? 0 : g->table]: [g == 0 || g->table == 0] is that this is 0. *)
Definition client_table (g : Z) : M K Z :=
  if g =? 0 then mret 0 else get Client_t "table" g.

Definition client_supports (T : ctype) (last : string) (names : list string) (g : Z) : M K bool :=
  table ← client_table g; supports T last names table.

Definition client_call (T : ctype) (name : string) (g : Z) (args : list Z) : M K Z :=
  table ← client_table g; call_slot T name table args.

(** [if (g == 0 || g->table == 0 || g->table->name == 0) return err; return fn(args);]
    for a slot that every table has room for. *)
Definition direct (T : ctype) (name : string) (g err : Z) (args : list Z) : M K Z :=
  table ← client_table g;
  if table =? 0 then mret err else
  f ← get T name table;
  if f =? 0 then mret err else call_i32 f args.

(** [item->table != 0 && (item->flags & GROUP_INTERFACE) != 0]. *)
Definition import_bound (item : Z) : M K bool :=
  table ← get R4XStartImport "table" item;
  if table =? 0 then mret false else
  flags ← get R4XStartImport "flags" item;
  mret (negb (Z.land flags R4XSTART_IMPORT_FLAG_GROUP_INTERFACE =? 0)).

(** The end of an [init] function: from the import's table to the client. *)
Definition bind_table (T : ctype) (magic version minimum : Z) (slots : list string) (table out : Z) : M K Z :=
  table_magic ← get T "magic" table;
  if negb (table_magic =? magic) then mret R4OS_ERROR_INVALID else
  abi_version ← get T "abi_version" table;
  if abi_version <? version then mret R4OS_ERROR_INVALID else
  size ← get T "size" table;
  if size <? minimum then mret R4OS_ERROR_INVALID else
  set ← slots_set T slots table;
  if negb set then mret R4OS_ERROR_INVALID else
  _ ← put Client_t "table" out table;
  mret R4OS_OK.

Definition init_group (T : ctype) (group magic version minimum : Z) (slots : list string)
    (valid : Z → M K bool) (ctx out : Z) : M K Z :=
  if out =? 0 then mret R4OS_ERROR_INVALID else
  _ ← put Client_t "table" out 0;
  item ← r4xstart_find_import ctx group;
  if item =? 0 then mret R4OS_ERROR_NOT_FOUND else
  ok ← valid item;
  if negb ok then mret R4OS_ERROR_NOT_FOUND else
  table ← get R4XStartImport "table" item;
  bind_table T magic version minimum slots table out.
End code.

(** ** The specification *)

Section spec.
Context {K : Type} `{!Kernel K}.
Implicit Types (w : world K) (m : gmap Z byte).

Definition client_ptr m (g : Z) : Z := if g =? 0 then 0 else fv m Client_t g "table".

(** [g] is null or points to a client whose table is null or in order. *)
Record client_ok (T : ctype) (min : Z) m (g : Z) : Prop := {
  cl_mapped : g ≠ 0 → mapped m g 8;
  cl_table : table_ok m T min (client_ptr m g)
}.

(** The client's kernel has the slots, and one call of a slot. *)
Definition offers (T : ctype) w (g : Z) (slots : list string) : bool :=
  provides (mem w) T (client_ptr (mem w) g) slots.

Definition slot_call (T : ctype) w (g : Z) (name : string) (args : list Z) : option (Z * world K) :=
  let f := slot_of (mem w) T (client_ptr (mem w) g) name in
  Some (i32 (fst (kcall f args w)), snd (kcall f args w)).

(** A call, if the kernel has the slots, and [missing] otherwise. *)
Definition offered (T : ctype) w (g : Z) (slots : list string) (missing : Z) (k : option (Z * world K)) :=
  if offers T w g slots then k else Some (missing, w).

Lemma client_table_run T min w g : client_ok T min (mem w) g → client_table g w = Some (client_ptr (mem w) g, w).
Proof.
  intros [Hm _]. unfold client_table, client_ptr. destruct (Z.eqb_spec g 0); [done|].
  by apply (get_run w Client_t "table" g 8 (Hm n) eq_refl).
Qed.

Lemma client_supports_run T min w g last names :
  client_ok T min (mem w) g → is_table T && guards T last names = true →
  client_supports T last names g w = Some (offers T w g names, w).
Proof.
  intros Hok [HT Hg]%andb_true_iff. unfold client_supports.
  rewrite (mbind_run _ _ _ _ _ (client_table_run T min w g Hok)).
  by apply (supports_run w T min); [apply Hok|..].
Qed.

Lemma client_call_run T min w g names name args :
  client_ok T min (mem w) g → offers T w g names = true →
  existsb (String.eqb name) names && is_slot T name = true →
  client_call T name g args w = slot_call T w g name args.
Proof.
  intros Hok Hp [Hin Hs]%andb_true_iff. unfold client_call.
  rewrite (mbind_run _ _ _ _ _ (client_table_run T min w g Hok)).
  destruct (call_slot_run w T min _ names name args (cl_table _ _ _ _ Hok) Hp Hin Hs) as [-> Hne].
  by apply call_i32_run.
Qed.

(** A slot below the minimum size of the table needs no size check. *)
Definition below (T : ctype) (name : string) (min : Z) : bool := is_slot T name && (offsetof T name + 8 <=? min).

Lemma direct_run T min w g name err args :
  client_ok T min (mem w) g → below T name min = true →
  direct T name g err args w = offered T w g [name] err (slot_call T w g name args).
Proof.
  intros Hok [Hs Hle%Z.leb_le]%andb_true_iff. unfold direct, offered, offers, provides.
  rewrite (mbind_run _ _ _ _ _ (client_table_run T min w g Hok)).
  destruct (Z.eqb_spec (client_ptr (mem w) g) 0) as [E|Hne]; [done|]. cbn [negb andb forallb].
  pose proof (to_min _ _ _ _ (cl_table _ _ _ _ Hok) Hne).
  rewrite (mbind_run _ _ _ _ _ (get_slot w T min _ name (cl_table _ _ _ _ Hok) Hne Hs ltac:(lia))), andb_true_r.
  destruct (Z.eqb_spec (slot_of (mem w) T (client_ptr (mem w) g) name) 0); [done|]. by apply call_i32_run.
Qed.

(** ** Binding *)

(** The import of a group, and what makes its table acceptable. *)
Definition group_item m (ctx group : Z) : Z :=
  default 0 (find (λ a, fv m R4XStartImport a "group_id" =? group) (import_list m ctx)).

Definition item_bound m (item : Z) : bool :=
  negb (item =? 0) && negb (fv m R4XStartImport item "table" =? 0) &&
  negb (Z.land (fv m R4XStartImport item "flags") R4XSTART_IMPORT_FLAG_GROUP_INTERFACE =? 0).

Definition acceptable m (T : ctype) (magic version minimum : Z) (slots : list string) (t : Z) : bool :=
  (fv m T t "magic" =? magic) && (version <=? fv m T t "abi_version") && (minimum <=? fv m T t "size") &&
  provides m T t slots.

(** What a client of the group ends up with: a status and a table. *)
Definition binding m (T : ctype) (group magic version minimum : Z) (slots : list string) (ctx : Z) : Z * Z :=
  let item := group_item m ctx group in
  let t := fv m R4XStartImport item "table" in
  if negb (item_bound m item) then (R4OS_ERROR_NOT_FOUND, 0)
  else if acceptable m T magic version minimum slots t then (R4OS_OK, t) else (R4OS_ERROR_INVALID, 0).

(** The checks of an [init] function on an import. *)
Definition checks_bound (valid : Z → M K bool) (group : Z) : Prop := ∀ w item,
  item ≠ 0 → mapped (mem w) item 40 → fv (mem w) R4XStartImport item "group_id" = group →
  valid item w = Some (item_bound (mem w) item, w).

Lemma import_bound_checks group : checks_bound import_bound group.
Proof.
  intros w item Hne Hm _. unfold import_bound, item_bound. rewrite (proj2 (Z.eqb_neq item 0) Hne).
  run_get Hm. destruct (_ =? 0); [done|]. by run_get Hm.
Qed.

(** The slots an [init] function insists on are in every table it accepts. *)
Definition init_args (T : ctype) (minimum : Z) (slots : list string) : bool :=
  is_table T && field_in T "magic" 16 && field_in T "abi_version" 16 && (16 <=? minimum) &&
  forallb (λ s, below T s minimum) slots.

Lemma bind_table_run T magic version minimum slots t out w :
  init_args T minimum slots = true → t ≠ 0 → table_ok (mem w) T 0 t → mapped (mem w) out 8 →
  ∃ m', bind_table T magic version minimum slots t out w =
      Some (if acceptable (mem w) T magic version minimum slots t then R4OS_OK else R4OS_ERROR_INVALID, World m' (kern w)) ∧
    (if acceptable (mem w) T magic version minimum slots t
     then changed (mem w) m' out 8 ∧ fv m' Client_t out "table" = t mod 2 ^ 64 else m' = mem w).
Proof.
  intros Ha Ht Hto Hout. unfold init_args in Ha. rewrite !andb_true_iff in Ha. destruct Ha as [[[[H1 H2] H3] H4] H5].
  assert (World (mem w) (kern w) = w) as Hw by (by destruct w).
  pose proof (to_header _ _ _ _ Hto Ht) as Hh. unfold bind_table, acceptable.
  rewrite (mbind_run _ _ _ _ _ (get_run w T "magic" t 16 Hh H2)). destruct (_ =? magic); cbn [negb andb]; [|exists (mem w); by rewrite Hw].
  rewrite (mbind_run _ _ _ _ _ (get_run w T "abi_version" t 16 Hh H3)).
  rewrite Z.ltb_antisym. destruct (version <=? _); cbn [negb andb]; [|exists (mem w); by rewrite Hw].
  rewrite (mbind_run _ _ _ _ _ (get_run w T "size" t 16 Hh H1)).
  rewrite Z.ltb_antisym. destruct (Z.leb_spec minimum (fv (mem w) T t "size")) as [Hmin|]; cbn [negb andb]; [|exists (mem w); by rewrite Hw].
  rewrite (mbind_run _ _ _ _ _ (slots_set_run w T 0 t slots Hto Ht ltac:(
    rewrite forallb_forall in *; intros s Hs; apply H5 in Hs; unfold below in Hs;
    apply andb_true_iff in Hs as [-> Hs%Z.leb_le]; apply Z.leb_le; lia))).
  destruct (provides _ _ _ _); cbn [negb]; [|exists (mem w); by rewrite Hw].
  destruct (put_run w Client_t "table" out t 8 0 8 Hout eq_refl eq_refl) as (m' & Hr & Hc & Hv).
  exists m'. rewrite (mbind_run _ _ _ _ _ Hr). rewrite Z.add_0_r in Hc. done.
Qed.

(** What the binding depends on is left alone by a store outside. *)
Lemma provides_changed m m' a n T t slots :
  changed m m' a n → is_table T = true → table_ok m T 0 t → forallb (is_slot T) slots = true →
  (t ≠ 0 → a + n ≤ t ∨ t + 16 `max` fv m T t "size" ≤ a) → provides m' T t slots = provides m T t slots.
Proof.
  intros Hch HT Hto Hsl Hap. destruct (changed_table _ _ _ _ _ _ _ Hch HT Hto Hap) as (_ & _ & Hs).
  unfold provides. destruct (Z.eqb_spec t 0) as [|Hne]; [done|]. cbn [negb andb].
  induction slots as [|x slots IH]; [done|]. simpl in *. apply andb_true_iff in Hsl as [Hx Hsl].
  by rewrite Hs, IH.
Qed.

Lemma init_args_slots T minimum slots : init_args T minimum slots = true → forallb (is_slot T) slots = true.
Proof.
  unfold init_args. rewrite !andb_true_iff. intros [_ H]. rewrite forallb_forall in *. intros s Hs.
  apply H in Hs. unfold below in Hs. by apply andb_true_iff in Hs as [? _].
Qed.

Lemma acceptable_changed m m' a n T magic version minimum slots t :
  init_args T minimum slots = true → changed m m' a n → table_ok m T 0 t → t ≠ 0 →
  (t ≠ 0 → a + n ≤ t ∨ t + 16 `max` fv m T t "size" ≤ a) →
  acceptable m' T magic version minimum slots t = acceptable m T magic version minimum slots t.
Proof.
  intros Ha Hch Hto Hne Hap. pose proof (init_args_slots _ _ _ Ha) as Hsl.
  unfold init_args in Ha. rewrite !andb_true_iff in Ha. destruct Ha as [[[[H1 H2] H3] _] _].
  assert (∀ f, field_in T f 16 = true → fv m' T t f = fv m T t f) as Hf.
  { intros f Hf. eapply changed_fv; [done|exact Hf|]. specialize (Hap Hne). lia. }
  unfold acceptable. rewrite !Hf by done. f_equal. by eapply provides_changed.
Qed.

Lemma find_ext_in {A} (f g : A → bool) l : (∀ x, In x l → f x = g x) → find f l = find g l.
Proof.
  induction l as [|x l IH]; intros H; [done|]. simpl. rewrite (H x) by (by left).
  rewrite IH by (intros; apply H; by right). done.
Qed.

Lemma group_item_in m ctx group :
  group_item m ctx group ≠ 0 →
  group_item m ctx group ∈ import_list m ctx ∧ fv m R4XStartImport (group_item m ctx group) "group_id" = group.
Proof. apply find_in_list. Qed.

Lemma group_item_changed m m' T ctx group a n :
  changed m m' a n → context_ok m ctx → outside m T ctx a n →
  group_item m' ctx group = group_item m ctx group ∧
  item_bound m' (group_item m ctx group) = item_bound m (group_item m ctx group) ∧
  (group_item m ctx group ≠ 0 → fv m' R4XStartImport (group_item m ctx group) "table" =
     fv m R4XStartImport (group_item m ctx group) "table").
Proof.
  intros Hch Hctx Hap. destruct (changed_context _ _ _ _ _ _ Hch Hctx Hap) as (_ & Hl & Hf).
  assert (group_item m' ctx group = group_item m ctx group) as E.
  { unfold group_item. rewrite Hl. f_equal. apply find_ext_in. intros x Hx%list_elem_of_In. by rewrite Hf. }
  split; [done|]. destruct (decide (group_item m ctx group = 0)) as [E0|Hne].
  - split; [unfold item_bound; by rewrite E0|done].
  - apply group_item_in in Hne as [Hin _]. unfold item_bound. rewrite !Hf by done. done.
Qed.

Lemma init_group_run T group magic version minimum slots valid w ctx out :
  init_args T minimum slots = true → checks_bound valid group →
  context_ok (mem w) ctx → (out ≠ 0 → mapped (mem w) out 8) →
  (∀ a, a ∈ import_list (mem w) ctx → import_table_ok (mem w) T a) → outside (mem w) T ctx out 8 →
  ∃ st m', init_group T group magic version minimum slots valid ctx out w = Some (st, World m' (kern w)) ∧
    changed (mem w) m' out 8 ∧ (out = 0 → st = R4OS_ERROR_INVALID) ∧
    (out ≠ 0 → (st, client_ptr m' out) = binding (mem w) T group magic version minimum slots ctx ∧
       client_ok T minimum m' out).
Proof.
  intros Ha Hv Hctx Hout Htab Hap. unfold init_group. destruct (Z.eqb_spec out 0) as [-> |Hne].
  { eexists _, (mem w). destruct w. split_and!; [done|by split|done|done]. }
  specialize (Hout Hne). destruct (put_run w Client_t "table" out 0 8 0 8 Hout eq_refl eq_refl) as (m1 & Hp1 & Hc1 & Hv1).
  rewrite Z.add_0_r in Hc1. rewrite (mbind_run _ _ _ _ _ Hp1). set (w1 := World m1 (kern w)).
  assert (client_ptr m1 out = 0) as Hn1 by (unfold client_ptr; by rewrite (proj2 (Z.eqb_neq out 0) Hne), Hv1).
  assert (mapped m1 out 8) as Hout1 by (by eapply changed_mapped).
  assert (client_ok T minimum m1 out) as Hcl1 by (split; [done|rewrite Hn1; by split]).
  destruct (changed_context _ _ T ctx out 8 Hc1 Hctx Hap) as (Hctx1 & _ & _).
  destruct (group_item_changed _ _ T ctx group out 8 Hc1 Hctx Hap) as (Eg & Eb & Et).
  rewrite (mbind_run _ _ _ _ _ (find_import_run w1 ctx group Hctx1)). cbn [mem w1]. fold (group_item m1 ctx group).
  rewrite Eg. unfold binding. set (item := group_item (mem w) ctx group) in *.
  destruct (Z.eqb_spec item 0) as [E0|Hi0].
  { eexists _, m1. split_and!; [done|done|done|]. intros _. rewrite Hn1. unfold item_bound. by rewrite E0. }
  specialize (Et Hi0). destruct (group_item_in _ _ _ Hi0) as [Hin Hg]. fold item in Hin, Hg.
  assert (mapped m1 item 40) as Hmi.
  { pose proof (co_imports _ _ Hctx) as Hall. rewrite Forall_forall in Hall. eapply changed_mapped; [done|by apply Hall]. }
  assert (fv m1 R4XStartImport item "group_id" = group) as Hg1.
  { rewrite <-Hg. apply (changed_fv _ _ _ _ R4XStartImport item "group_id" 40 Hc1 eq_refl). by apply (ou_imports _ _ _ _ _ Hap). }
  rewrite (mbind_run _ _ _ _ _ (Hv w1 item Hi0 Hmi Hg1)). cbn [mem w1]. rewrite Eb.
  destruct (item_bound (mem w) item) eqn:Hb; cbn [negb].
  2: { eexists _, m1. split_and!; [done|done|done|]. intros _. by rewrite Hn1. }
  run_get Hmi. cbn [mem w1]. rewrite Et. set (t := fv (mem w) R4XStartImport item "table") in *.
  assert (t ≠ 0) as Ht0.
  { unfold item_bound in Hb. rewrite !andb_true_iff in Hb. destruct Hb as [[_ Hb%negb_true_iff%Z.eqb_neq] _]. done. }
  assert (is_table T = true) as HT by (unfold init_args in Ha; rewrite !andb_true_iff in Ha; apply Ha).
  pose proof (Htab item Hin) as Hto. unfold import_table_ok in Hto. fold t in Hto.
  pose proof (ou_tables _ _ _ _ _ Hap item Hin) as Hot. cbv zeta in Hot. fold t in Hot.
  destruct (changed_table _ _ out 8 T 0 t Hc1 HT Hto Hot) as (Hto1 & Hsz & _).
  destruct (bind_table_run T magic version minimum slots t out w1 Ha Ht0 Hto1 Hout1) as (m2 & Hr & Hm2).
  cbn [mem w1] in *. rewrite (acceptable_changed _ _ _ _ _ _ _ _ _ _ Ha Hc1 Hto Ht0 Hot) in Hr, Hm2.
  destruct (acceptable (mem w) T magic version minimum slots t) eqn:Hacc.
  - destruct Hm2 as [Hc2 Hv2]. exists R4OS_OK, m2. split_and!; [done|by eapply changed_trans|done|]. intros _.
    assert (client_ptr m2 out = t) as Hptr.
    { unfold client_ptr. rewrite (proj2 (Z.eqb_neq out 0) Hne), Hv2. apply Z.mod_small. split; [apply fv_nonneg|].
      apply (fv_bound (mem w) R4XStartImport item "table" 32 8 eq_refl). }
    rewrite Hptr. split; [done|]. split; [intros _; by eapply changed_mapped|]. rewrite Hptr.
    unfold acceptable in Hacc. rewrite !andb_true_iff in Hacc. destruct Hacc as [[_ Hmin%Z.leb_le] _].
    rewrite <-(Hsz Ht0) in Hmin, Hot. eapply (changed_table _ _ out 8 T minimum t Hc2 HT); [|done]. split; [apply Hto1|apply Hto1|done].
  - subst m2. eexists _, m1. split_and!; [done|done|done|]. intros _. by rewrite Hn1.
Qed.

(** ** Stores beside a client *)

Record client_apart (T : ctype) m (g a n : Z) : Prop := {
  ca_client : g ≠ 0 → a + n ≤ g ∨ g + 8 ≤ a;
  ca_table : client_ptr m g ≠ 0 →
    a + n ≤ client_ptr m g ∨ client_ptr m g + 16 `max` fv m T (client_ptr m g) "size" ≤ a
}.

Lemma changed_client T min m m' g a n :
  changed m m' a n → is_table T = true → client_ok T min m g → client_apart T m g a n →
  client_ptr m' g = client_ptr m g ∧ client_ok T min m' g.
Proof.
  intros Hch HT [Hm Ht] [Hc Hap].
  assert (client_ptr m' g = client_ptr m g) as E.
  { unfold client_ptr. destruct (Z.eqb_spec g 0); [done|].
    apply (changed_fv _ _ _ _ Client_t g "table" 8 Hch eq_refl). by apply Hc. }
  split; [done|]. split; [intros ?; eapply changed_mapped; [done|by apply Hm]|].
  rewrite E. eapply (changed_table _ _ a n T min); done.
Qed.

Lemma changed_offers T min m m' (k : K) w g a n slots :
  changed (mem w) m' a n → m = mem w → is_table T && forallb (is_slot T) slots = true →
  client_ok T min m g → client_apart T m g a n → offers T (World m' k) g slots = offers T w g slots.
Proof.
  intros Hch -> [HT Hsl]%andb_true_iff Hok Hap. destruct (changed_client _ _ _ _ _ _ _ Hch HT Hok Hap) as [E _].
  unfold offers. cbn [mem]. rewrite E. eapply provides_changed; [done|done| |done|apply Hap].
  split; [apply Hok|apply Hok|]. intros _. apply fv_nonneg.
Qed.
End spec.

Ltac client_direct H :=
  match goal with |- direct ?T ?n ?g ?e ?a ?w = _ => exact (direct_run T _ w g n e a H eq_refl) end.

(** Prove that a wrapper meets its specification, given [H : client_ok _ _ _ _]. *)
Ltac client_wrapper H :=
  unfold offered;
  repeat match goal with
  | |- context [@mbind _ _ _ _ _ (client_supports ?T ?l ?n ?g) ?w] =>
      rewrite (mbind_run _ _ _ _ _ (client_supports_run T _ w g l n H eq_refl));
      destruct (offers T w g n) eqn:?; cbn [negb orb andb]
  | |- context [if ?b then _ else _] =>
      lazymatch b with
      | negb _ => fail
      | _ || _ => destruct b eqn:?
      | _ =? _ => destruct b eqn:?
      end
  end;
  cbn [negb orb andb] in *; try reflexivity;
  try match goal with
  | Hp : offers ?T ?w ?g ?n = true |- client_call ?T ?name ?g ?args ?w = _ =>
      exact (client_call_run T _ w g n name args H Hp eq_refl)
  end.

(** ** An example *)

(** A client at 256 whose table, of [bytes] bytes, is at 4096. *)
Definition client_demo (T : ctype) (bytes : Z) : world call_log :=
  World (image [(256, struct_bytes Client_t [4096]); (1024, replicate 64 xff);
                (4096, take (Z.to_nat bytes) (demo_table T bytes))]) [].

Definition client_check (T : ctype) (min : Z) (m : gmap Z byte) (g : Z) : bool :=
  mapped_b m g 8 && mapped_b m (client_ptr m g) (16 `max` fv m T (client_ptr m g) "size") &&
  (min <=? fv m T (client_ptr m g) "size").

Lemma client_check_ok T min m g : client_check T min m g = true → client_ok T min m g.
Proof.
  unfold client_check. rewrite !andb_true_iff, Z.leb_le. intros [[H1%mapped_b_mapped H2%mapped_b_mapped] H3].
  split; [done|]. split; intros _; [| |done]; (eapply mapped_sub; [exact H2|lia|lia]).
Qed.

End R4Group.
