(* ===== verification/R4SysBind.v ===== *)
(** * r4sys.h: initialisation

    [r4sys_init] against the specification [R4Group.binding] that the [init]
    functions of the smaller tables have, too; afterwards what the wrappers rely
    on holds ([R4SysSpec.sys_ok] with the minimum table size). *)

From S2P Require Import Prelude R4Abi R4Mem R4L R4LSpec.
From S2P Require Import R4Table R4Sys R4SysSpec R4SysInit R4Group.

Module R4SysBind.
Export R4SysInit R4Group.

Section init.
Context {K : Type} `{!Kernel K}.
Implicit Types (w : world K) (m : gmap Z byte).

(** Both fields of the client are written, and nothing else. *)
Lemma sys_put_run w out c t :
  out ≠ 0 → mapped (mem w) out 16 → 0 ≤ t < 2 ^ 64 →
  ∃ m', (∀ B (k : unit → M K B),
      (_ ← put R4Sys_t "ctx" out c; x ← put R4Sys_t "table" out t; k x) w = k () (World m' (kern w))) ∧
    changed (mem w) m' out 16 ∧ mapped m' out 16 ∧ table_ptr m' out = t ∧ fv m' R4Sys_t out "ctx" = u64 c.
Proof.
  intros Hne Hout Ht.
  destruct (put_run w R4Sys_t "ctx" out c 16 0 8 Hout eq_refl eq_refl) as (m1 & Hp1 & Hc1 & Hv1).
  assert (mapped m1 out 16) as Hout1 by (by eapply changed_mapped).
  destruct (put_run (World m1 (kern w)) R4Sys_t "table" out t 16 8 8 Hout1 eq_refl eq_refl) as (m2 & Hp2 & Hc2 & Hv2).
  exists m2. split_and!; [| |by eapply changed_mapped| |].
  - intros B k. by rewrite (mbind_run _ _ _ _ _ Hp1), (mbind_run _ _ _ _ _ Hp2).
  - eapply changed_trans; (eapply changed_sub; [done|lia|lia]).
  - unfold table_ptr. rewrite (proj2 (Z.eqb_neq out 0) Hne), Hv2. by apply Z.mod_small.
  - cbn [mem] in Hc2. rewrite (changed_fv _ _ _ _ R4Sys_t out "ctx" 8 Hc2 eq_refl) by lia. exact Hv1.
Qed.

(** What the import of R4SYS gives the client. *)
Definition sys_binding m (ctx : Z) : Z * Z :=
  binding m R4XStartR4Sys R4L_GROUP_R4SYS R4XSTART_R4SYS_MAGIC R4XSTART_R4SYS_VERSION R4XSTART_R4SYS_SIZE
    ["write"; "putc"] ctx.

(** The checks of a table, and the binding to it, in a world whose client is
    cleared. *)
Lemma sys_bind_run w ctx out t :
  out ≠ 0 → mapped (mem w) out 16 → table_ptr (mem w) out = 0 → fv (mem w) R4Sys_t out "ctx" = 0 →
  t ≠ 0 → 0 ≤ t < 2 ^ 64 → table_ok (mem w) R4XStartR4Sys 0 t →
  (t ≠ 0 → out + 16 ≤ t ∨ t + 16 `max` fv (mem w) R4XStartR4Sys t "size" ≤ out) →
  let good := acceptable (mem w) R4XStartR4Sys R4XSTART_R4SYS_MAGIC R4XSTART_R4SYS_VERSION R4XSTART_R4SYS_SIZE
                ["write"; "putc"] t in
  ∃ m', (magic ← get R4XStartR4Sys "magic" t;
         if negb (magic =? R4XSTART_R4SYS_MAGIC) then mret R4OS_ERROR_INVALID else
         version ← get R4XStartR4Sys "abi_version" t;
         if version <? R4XSTART_R4SYS_VERSION then mret R4OS_ERROR_INVALID else
         size ← get R4XStartR4Sys "size" t;
         if size <? R4XSTART_R4SYS_SIZE then mret R4OS_ERROR_INVALID else
         both ← slots_set R4XStartR4Sys ["write"; "putc"] t;
         if negb both then mret R4OS_ERROR_INVALID else
         _ ← put R4Sys_t "ctx" out ctx;
         _ ← put R4Sys_t "table" out t;
         mret R4OS_OK) w
      = Some (if good then R4OS_OK else R4OS_ERROR_INVALID, World m' (kern w)) ∧
    changed (mem w) m' out 16 ∧ table_ptr m' out = (if good then t else 0) ∧
    fv m' R4Sys_t out "ctx" = (if good then u64 ctx else 0) ∧ sys_ok R4XSTART_R4SYS_SIZE m' out.
Proof.
  intros Hne Hout Hnull Hctx Ht0 Ht Hto Hot good. pose proof (to_header _ _ _ _ Hto Ht0) as Hh.
  assert (∃ m', Some (R4OS_ERROR_INVALID, w) = Some (R4OS_ERROR_INVALID, World m' (kern w)) ∧
    changed (mem w) m' out 16 ∧ table_ptr m' out = 0 ∧ fv m' R4Sys_t out "ctx" = 0 ∧
    sys_ok R4XSTART_R4SYS_SIZE m' out) as Hbad.
  { exists (mem w). destruct w. split_and!; [done|by split|done|done|]. split; [done|]. cbn [mem] in *.
    rewrite Hnull. by split. }
  unfold good, acceptable. run_get Hh. destruct (_ =? R4XSTART_R4SYS_MAGIC); cbn [negb andb]; [|exact Hbad].
  run_get Hh. rewrite Z.ltb_antisym. destruct (R4XSTART_R4SYS_VERSION <=? _); cbn [negb andb]; [|exact Hbad].
  run_get Hh. rewrite Z.ltb_antisym.
  destruct (Z.leb_spec R4XSTART_R4SYS_SIZE (fv (mem w) R4XStartR4Sys t "size")) as [Hmin|]; cbn [negb andb]; [|exact Hbad].
  rewrite (mbind_run _ _ _ _ _ (slots_set_run w R4XStartR4Sys 0 t ["write"; "putc"] Hto Ht0
    (console_slots_covered _ Hmin))).
  destruct (provides (mem w) R4XStartR4Sys t ["write"; "putc"]); cbn [negb]; [|exact Hbad].
  destruct (sys_put_run w out ctx t Hne Hout Ht) as (m4 & Hr4 & Hch & Hout4 & Hv4 & Hx4).
  rewrite Hr4. exists m4. split_and!; [done|done|done|done|]. split; [done|]. rewrite Hv4.
  eapply (changed_table _ _ out 16 R4XStartR4Sys R4XSTART_R4SYS_SIZE t Hch eq_refl); [|done].
  split; [apply Hto|apply Hto|done].
Qed.

(** C21. [r4sys_init] takes the first import of R4SYS; it reports that there is
    none (or that it is no group interface), refuses a table of the wrong magic,
    an older version, too small a size or without the two console slots, and
    otherwise binds the [R4Sys] to that table and to the context. On a failure
    both its fields are null; in every case the wrappers are safe on it, and
    nothing else is written. *)
Theorem sys_init_establishes w ctx out :
  context_ok (mem w) ctx → (out ≠ 0 → mapped (mem w) out 16) →
  (∀ a, a ∈ import_list (mem w) ctx → import_table_ok (mem w) R4XStartR4Sys a) →
  outside (mem w) R4XStartR4Sys ctx out 16 →
  ∃ st m', r4sys_init ctx out w = Some (st, World m' (kern w)) ∧ changed (mem w) m' out 16 ∧
    (out = 0 → st = R4OS_ERROR_INVALID) ∧
    (out ≠ 0 → (st, table_ptr m' out) = sys_binding (mem w) ctx ∧
       fv m' R4Sys_t out "ctx" = (if decide (st = R4OS_OK) then u64 ctx else 0) ∧
       sys_ok R4XSTART_R4SYS_SIZE m' out).
Proof.
  intros Hctx Hout Htab Hap. unfold r4sys_init. destruct (Z.eqb_spec out 0) as [-> |Hne].
  { eexists _, (mem w). destruct w. split_and!; [done|by split|done|done]. }
  destruct (sys_put_run w out 0 0 Hne (Hout Hne)) as (m2 & Hr2 & Hch & Hout2 & Hv2 & Hx2); [lia|].
  rewrite Hr2. set (w2 := World m2 (kern w)). change (u64 0) with 0 in Hx2.
  destruct (changed_context _ _ R4XStartR4Sys ctx out 16 Hch Hctx Hap) as (Hctx2 & _ & _).
  destruct (group_item_changed _ _ R4XStartR4Sys ctx R4L_GROUP_R4SYS out 16 Hch Hctx Hap) as (Eg & Eb & Et).
  rewrite (mbind_run _ _ _ _ _ (find_import_run w2 ctx R4L_GROUP_R4SYS Hctx2)). cbn [mem w2].
  fold (group_item m2 ctx R4L_GROUP_R4SYS). rewrite Eg. unfold sys_binding, binding.
  set (item := group_item (mem w) ctx R4L_GROUP_R4SYS) in *.
  assert (item_bound (mem w) item = false → ∃ st m', Some (R4OS_ERROR_NOT_FOUND, w2) = Some (st, World m' (kern w)) ∧
    changed (mem w) m' out 16 ∧ (out = 0 → st = R4OS_ERROR_INVALID) ∧
    (out ≠ 0 → (st, table_ptr m' out) = (R4OS_ERROR_NOT_FOUND, 0) ∧
       fv m' R4Sys_t out "ctx" = (if decide (st = R4OS_OK) then u64 ctx else 0) ∧
       sys_ok R4XSTART_R4SYS_SIZE m' out)) as Hnone.
  { intros _. eexists _, m2. split_and!; [done|done|done|]. intros _. rewrite Hv2.
    split_and!; [done|done|]. split; [done|]. rewrite Hv2. by split. }
  destruct (Z.eqb_spec item 0) as [E0|Hi0].
  { assert (item_bound (mem w) item = false) as Hb by (unfold item_bound; by rewrite E0). rewrite Hb. by apply Hnone. }
  specialize (Et Hi0). destruct (group_item_in _ _ _ Hi0) as [Hin _]. fold item in Hin.
  assert (mapped m2 item 40) as Hmi.
  { pose proof (co_imports _ _ Hctx) as Hall. rewrite Forall_forall in Hall. eapply changed_mapped; [done|by apply Hall]. }
  run_get Hmi. run_get Hmi. cbn [mem w2]. rewrite orb_comm.
  replace ((fv m2 R4XStartImport item "table" =? 0) || _) with (negb (item_bound m2 item))
    by (unfold item_bound; rewrite (proj2 (Z.eqb_neq item 0) Hi0); cbn [negb andb];
        by rewrite negb_andb, !negb_involutive).
  rewrite Eb, Et. destruct (item_bound (mem w) item) eqn:Hb; cbn [negb]; [|by apply Hnone].
  set (t := fv (mem w) R4XStartImport item "table") in *.
  assert (t ≠ 0) as Ht0.
  { unfold item_bound in Hb. rewrite !andb_true_iff in Hb. by destruct Hb as [[_ Hb%negb_true_iff%Z.eqb_neq] _]. }
  pose proof (Htab item Hin) as Hto. unfold import_table_ok in Hto. fold t in Hto.
  pose proof (ou_tables _ _ _ _ _ Hap item Hin) as Hot. cbv zeta in Hot. fold t in Hot.
  destruct (changed_table _ _ out 16 R4XStartR4Sys 0 t Hch eq_refl Hto Hot) as (Hto2 & Hsz & _).
  destruct (sys_bind_run w2 ctx out t) as (m' & Hr & Hc & Hp & Hx & Hs); try done.
  { split; [apply fv_nonneg|apply (fv_bound (mem w) R4XStartImport item "table" 32 8 eq_refl)]. }
  { cbn [mem w2]. by rewrite (Hsz Ht0). }
  cbn [mem kern w2] in Hr, Hc, Hp, Hx.
  assert (init_args R4XStartR4Sys R4XSTART_R4SYS_SIZE ["write"; "putc"] = true) as Ha by (vm_compute; reflexivity).
  rewrite (acceptable_changed _ _ _ _ _ _ _ _ _ _ Ha Hch Hto Ht0 Hot) in Hr, Hp, Hx.
  eexists _, m'. split_and!; [exact Hr|by eapply changed_trans|done|]. intros _. rewrite Hp, Hx.
  by destruct (acceptable _ _ _ _ _ _ _).
Qed.
End init.

(** ** An example *)

Lemma sys_init_establishes_witness :
  ∃ m', r4sys_init 2048 512 demo_start = Some (R4OS_OK, World m' (kern demo_start)) ∧ table_ptr m' 512 = 4096 ∧
    fv m' R4Sys_t 512 "ctx" = 2048.
Proof.
  destruct demo_start_context as [Hc Hl]. destruct demo_start_table as (Ht & Hs & Hm).
  destruct (sys_init_establishes demo_start 2048 512) as (st & m' & Hr & _ & _ & Hok).
  - exact Hc.
  - intros _. apply mapped_b_mapped. vm_compute. reflexivity.
  - intros a. rewrite Hl. intros ->%list_elem_of_singleton. unfold import_table_ok. rewrite Ht.
    split; intros _; rewrite ?Hs; [exact Hm|eapply mapped_sub; [exact Hm|lia|lia]|lia].
  - split; [intros _; left; lia| |]; intros a; rewrite Hl; intros ->%list_elem_of_singleton.
    + left. lia.
    + cbv zeta. rewrite Ht, Hs. left. lia.
  - destruct (Hok ltac:(lia)) as (Hb & Hx & _).
    assert (sys_binding (mem demo_start) 2048 = (R4OS_OK, 4096)) as Hv by (vm_compute; reflexivity).
    rewrite Hv in Hb. injection Hb as -> Hp. exists m'. split; [exact Hr|]. split; [exact Hp|exact Hx].
Defined.

End R4SysBind.
