(* ===== verification/R4Dev.v ===== *)
(** * r4dev.h, r4net.h, r4audio.h

    The clients of the device, network and audio tables. Their headers bind
    the table and, for R4DEV, wrap the slots at its end; all other slots are
    called by the facades on top. *)

From S2P Require Import Prelude R4Abi R4Mem R4L R4LSpec.
From S2P Require Import R4Table R4Sys R4SysSpec R4SysInit R4Group.

Module R4Dev.
Export R4Group.

Definition R4L_GROUP_R4NET : Z := 4.
Definition R4L_GROUP_R4AUDIO : Z := 5.
Definition R4L_GROUP_R4DEV : Z := 6.
Definition R4XSTART_R4NET_MAGIC : Z := 826625618.
Definition R4XSTART_R4NET_VERSION : Z := 1.
Definition R4XSTART_R4AUDIO_MAGIC : Z := 827670866.
Definition R4XSTART_R4AUDIO_VERSION : Z := 2.
Definition R4XSTART_R4AUDIO_SIZE : Z := 200.
Definition R4XSTART_R4DEV_MAGIC : Z := 827737170.
Definition R4XSTART_R4DEV_VERSION : Z := 8.

(** The sizes below which R4NET and R4DEV tables are refused. *)
Definition net_minimum : Z := offsetof R4XStartR4Net "tcp_connect" + 8.
Definition dev_minimum : Z := offsetof R4XStartR4Dev "performance_summary" + 8.

Section code.
Context {K : Type} `{!Kernel K}.

Definition r4net_init (ctx out : Z) : M K Z :=
  init_group R4XStartR4Net R4L_GROUP_R4NET R4XSTART_R4NET_MAGIC R4XSTART_R4NET_VERSION net_minimum
    ["tcp_connect"] import_bound ctx out.

Definition r4net_available (g : Z) : M K bool := table ← client_table g; mret (negb (table =? 0)).

Definition r4audio_init (ctx out : Z) : M K Z :=
  init_group R4XStartR4Audio R4L_GROUP_R4AUDIO R4XSTART_R4AUDIO_MAGIC R4XSTART_R4AUDIO_VERSION R4XSTART_R4AUDIO_SIZE
    ["audio_open_stream"] import_bound ctx out.

Definition r4audio_available (g : Z) : M K bool := table ← client_table g; mret (negb (table =? 0)).

Definition r4dev_init (ctx out : Z) : M K Z :=
  init_group R4XStartR4Dev R4L_GROUP_R4DEV R4XSTART_R4DEV_MAGIC R4XSTART_R4DEV_VERSION dev_minimum
    ["performance_summary"] import_bound ctx out.

Definition r4dev_available (g : Z) : M K bool := table ← client_table g; mret (negb (table =? 0)).

(** [!r4dev_available(dev) || dev->table->size < ... || dev->table->name == 0], and the call. *)
Definition dev_tail (name : string) (dev : Z) (args : list Z) : M K Z :=
  ok ← client_supports R4XStartR4Dev name [name] dev;
  if negb ok then mret R4OS_ERR_NO_FN else client_call R4XStartR4Dev name dev args.

Definition r4dev_program_instance_storage_summary_legacy (dev out_summary : Z) : M K Z :=
  if out_summary =? 0 then mret R4OS_ERROR_INVALID else
  dev_tail "program_instance_storage_summary" dev [out_summary].

Definition r4dev_program_instance_storage_summary_v2 (dev out_summary : Z) : M K Z :=
  if out_summary =? 0 then mret R4OS_ERROR_INVALID else
  dev_tail "program_instance_storage_summary_v2" dev [out_summary].

Definition r4dev_execution_inventory_summary (dev out_summary : Z) : M K Z :=
  if out_summary =? 0 then mret R4OS_PROGRAM_HANDLE_ERROR_INVALID else
  dev_tail "execution_inventory_summary" dev [out_summary].

Definition r4dev_performance_driver_work (dev owner out_info : Z) : M K Z :=
  if out_info =? 0 then mret R4OS_ERROR_INVALID else
  dev_tail "performance_driver_work" dev [owner; out_info].

Definition r4dev_performance_pci_inventory (dev out_info : Z) : M K Z :=
  if out_info =? 0 then mret R4OS_ERROR_INVALID else
  dev_tail "performance_pci_inventory" dev [out_info].
End code.

Section dev.
Context {K : Type} `{!Kernel K}.
Implicit Types w : world K.

Lemma dev_calls min w dev :
  client_ok R4XStartR4Dev min (mem w) dev →
  let call e (bad : bool) name args :=
    if bad then Some (e, w) else offered R4XStartR4Dev w dev [name] R4OS_ERR_NO_FN (slot_call R4XStartR4Dev w dev name args) in
  (∀ o, r4dev_program_instance_storage_summary_legacy dev o w =
     call R4OS_ERROR_INVALID (o =? 0) "program_instance_storage_summary" [o]) ∧
  (∀ o, r4dev_program_instance_storage_summary_v2 dev o w =
     call R4OS_ERROR_INVALID (o =? 0) "program_instance_storage_summary_v2" [o]) ∧
  (∀ o, r4dev_execution_inventory_summary dev o w =
     call R4OS_PROGRAM_HANDLE_ERROR_INVALID (o =? 0) "execution_inventory_summary" [o]) ∧
  (∀ owner o, r4dev_performance_driver_work dev owner o w =
     call R4OS_ERROR_INVALID (o =? 0) "performance_driver_work" [owner; o]) ∧
  (∀ o, r4dev_performance_pci_inventory dev o w =
     call R4OS_ERROR_INVALID (o =? 0) "performance_pci_inventory" [o]).
Proof.
  intros H call. unfold call. split_and!; intros;
    [unfold r4dev_program_instance_storage_summary_legacy|unfold r4dev_program_instance_storage_summary_v2
    |unfold r4dev_execution_inventory_summary|unfold r4dev_performance_driver_work
    |unfold r4dev_performance_pci_inventory]; unfold dev_tail; client_wrapper H.
Qed.
End dev.

End R4Dev.
