(* ===== verification/R4Desk.v ===== *)
(** * r4desk.h

    The client of the desktop table: binding, keyboard input, the program's
    window, remote frames and remote input. *)

From S2P Require Import Prelude R4Abi R4Mem R4L R4LSpec.
From S2P Require Import R4Table R4Sys R4SysSpec R4SysInit R4Group.

Module R4Desk.
Export R4Group.

Definition R4L_GROUP_R4DESK : Z := 2.
Definition R4XSTART_R4DESK_MAGIC : Z := 826623058.
Definition R4XSTART_R4DESK_VERSION : Z := 7.
Definition R4XSTART_R4DESK_SIZE : Z := 432.
Definition R4OS_CONSOLE_INPUT_WAIT_ERROR_INVALID : Z := -1.
Definition R4OS_CONSOLE_INPUT_WAIT_ERROR_UNSUPPORTED : Z := -4.
Definition R4OS_PHYSICAL_KEY_POLL_ERROR_INVALID : Z := -1.
Definition R4OS_PHYSICAL_KEY_POLL_ERROR_UNSUPPORTED : Z := -2.
Definition R4_REMOTE_FRAME_ERROR_UNSUPPORTED : Z := -6.
Definition R4_REMOTE_INPUT_ERROR_UNSUPPORTED : Z := -4.
Definition R4OS_DISPLAY_DAMAGE_MAX_REGIONS : Z := 8.

Abbreviation desk_T := R4XStartR4Desk.

Section code.
Context {K : Type} `{!Kernel K}.

Definition r4desk_import_valid (item : Z) : M K bool :=
  if item =? 0 then mret false else
  group_id ← get R4XStartImport "group_id" item;
  if negb (group_id =? R4L_GROUP_R4DESK) then mret false else
  flags ← get R4XStartImport "flags" item;
  if Z.land flags R4XSTART_IMPORT_FLAG_GROUP_INTERFACE =? 0 then mret false else
  table ← get R4XStartImport "table" item;
  mret (negb (table =? 0)).

Definition r4desk_init (ctx out_desk : Z) : M K Z :=
  init_group desk_T R4L_GROUP_R4DESK R4XSTART_R4DESK_MAGIC R4XSTART_R4DESK_VERSION R4XSTART_R4DESK_SIZE
    ["program_window_id"; "gui_poll_event"] r4desk_import_valid ctx out_desk.

(** ** Keyboard *)

Definition r4desk_read_key_codepoint (desk : Z) : M K Z :=
  table ← client_table desk;
  if table =? 0 then mret 0 else
  read_key_codepoint ← get desk_T "read_key_codepoint" table;
  if negb (read_key_codepoint =? 0) then call_u32 read_key_codepoint [] else
  read_key ← get desk_T "read_key" table;
  if read_key =? 0 then mret 0 else
  r ← call_u32 read_key []; mret (Prelude.u8 r).

Definition r4desk_console_input_wait (desk last_generation timeout_ticks out_generation : Z) : M K Z :=
  if out_generation =? 0 then mret R4OS_CONSOLE_INPUT_WAIT_ERROR_INVALID else
  _ ← store 8 out_generation last_generation;
  ok ← client_supports desk_T "console_input_wait" ["console_input_wait"] desk;
  if negb ok then mret R4OS_CONSOLE_INPUT_WAIT_ERROR_UNSUPPORTED else
  client_call desk_T "console_input_wait" desk [last_generation; timeout_ticks; out_generation].

Definition r4desk_physical_key_poll (desk out_event : Z) : M K Z :=
  if out_event =? 0 then mret R4OS_PHYSICAL_KEY_POLL_ERROR_INVALID else
  _ ← clear R4PhysicalKeyEvent out_event;
  ok ← client_supports desk_T "physical_key_poll" ["physical_key_poll"] desk;
  if negb ok then mret R4OS_PHYSICAL_KEY_POLL_ERROR_UNSUPPORTED else
  client_call desk_T "physical_key_poll" desk [out_event].

(** ** The program's window *)

Definition r4desk_program_window_id (desk : Z) : M K Z := direct desk_T "program_window_id" desk (-1) [].

Definition r4desk_program_set_window_handle (desk handle window_id : Z) : M K Z :=
  table ← client_table desk;
  if table =? 0 then mret R4OS_PROGRAM_HANDLE_ERROR_INVALID else
  if handle =? 0 then mret R4OS_PROGRAM_HANDLE_ERROR_INVALID else
  direct desk_T "program_set_window_handle" desk R4OS_PROGRAM_HANDLE_ERROR_INVALID [handle; window_id].

Definition r4desk_gui_window_info (desk out : Z) : M K Z :=
  direct desk_T "gui_window_info" desk R4OS_ERROR_INVALID [out].
Definition r4desk_gui_poll_event (desk out : Z) : M K Z := direct desk_T "gui_poll_event" desk 0 [out].
Definition r4desk_gui_set_title (desk text : Z) : M K Z :=
  direct desk_T "gui_set_title" desk R4OS_ERROR_INVALID [text].
Definition r4desk_gui_set_min_size (desk w h : Z) : M K Z :=
  direct desk_T "gui_set_min_size" desk R4OS_ERROR_INVALID [w; h].

(** ** Remote frames and input *)

Definition r4desk_remote_frame_info (desk out : Z) : M K Z :=
  direct desk_T "remote_frame_info" desk R4_REMOTE_FRAME_ERROR_UNSUPPORTED [out].
Definition r4desk_remote_frame_read (desk offset_pixels out pixel_count out_info : Z) : M K Z :=
  direct desk_T "remote_frame_read" desk R4_REMOTE_FRAME_ERROR_UNSUPPORTED [offset_pixels; out; pixel_count; out_info].
Definition r4desk_remote_frame_wait (desk last_revision timeout_ticks out : Z) : M K Z :=
  direct desk_T "remote_frame_wait" desk R4_REMOTE_FRAME_ERROR_UNSUPPORTED [last_revision; timeout_ticks; out].
Definition r4desk_remote_frame_publish (desk info pixels pixel_count : Z) : M K Z :=
  direct desk_T "remote_frame_publish" desk R4_REMOTE_FRAME_ERROR_UNSUPPORTED [info; pixels; pixel_count].

Definition region_slots : list string := ["remote_frame_publish_regions"].
Definition r4desk_supports_remote_frame_regions : Z → M K bool :=
  client_supports desk_T "remote_frame_publish_regions" region_slots.

Definition r4desk_remote_frame_publish_regions (desk info pixels pixel_count regions region_count : Z) : M K Z :=
  ok ← r4desk_supports_remote_frame_regions desk;
  if negb ok then mret R4_REMOTE_FRAME_ERROR_UNSUPPORTED else
  if (info =? 0) || (pixels =? 0) || (pixel_count =? 0) || (regions =? 0) || (region_count =? 0)
     || (R4OS_DISPLAY_DAMAGE_MAX_REGIONS <? region_count)
  then mret R4OS_ERROR_INVALID
  else client_call desk_T "remote_frame_publish_regions" desk [info; pixels; pixel_count; regions; region_count].

Definition demand_slots : list string := ["remote_frame_acquire"; "remote_frame_release"; "remote_frame_consumers"].
Definition r4desk_supports_remote_frame_demand : Z → M K bool :=
  client_supports desk_T "remote_frame_consumers" demand_slots.

Definition r4desk_remote_frame_acquire (desk : Z) : M K Z :=
  ok ← r4desk_supports_remote_frame_demand desk;
  if negb ok then mret R4_REMOTE_FRAME_ERROR_UNSUPPORTED else client_call desk_T "remote_frame_acquire" desk [].

Definition r4desk_remote_frame_release (desk : Z) : M K Z :=
  ok ← r4desk_supports_remote_frame_demand desk;
  if negb ok then mret R4_REMOTE_FRAME_ERROR_UNSUPPORTED else client_call desk_T "remote_frame_release" desk [].

Definition r4desk_remote_frame_consumers (desk : Z) : M K Z :=
  ok ← r4desk_supports_remote_frame_demand desk;
  if negb ok then mret 0 else
  table ← client_table desk; f ← get desk_T "remote_frame_consumers" table; call_u32 f [].

Definition r4desk_remote_input_push (desk event : Z) : M K Z :=
  direct desk_T "remote_input_push" desk R4_REMOTE_INPUT_ERROR_UNSUPPORTED [event].
Definition r4desk_remote_input_poll (desk out : Z) : M K Z :=
  direct desk_T "remote_input_poll" desk R4_REMOTE_INPUT_ERROR_UNSUPPORTED [out].
Definition r4desk_remote_input_status (desk out : Z) : M K Z :=
  direct desk_T "remote_input_status" desk R4_REMOTE_INPUT_ERROR_UNSUPPORTED [out].
End code.

(** ** What the wrappers do *)

Section spec.
Context {K : Type} `{!Kernel K}.
Implicit Types (w : world K) (m : gmap Z byte).

Lemma desk_import_checks : checks_bound (K := K) r4desk_import_valid R4L_GROUP_R4DESK.
Proof.
  intros w item Hne Hm Hg. unfold r4desk_import_valid, item_bound. rewrite (proj2 (Z.eqb_neq item 0) Hne).
  run_get Hm. rewrite Hg, Z.eqb_refl. cbn [negb]. run_get Hm. destruct (_ =? 0); [by rewrite andb_false_r|].
  run_get Hm. by rewrite andb_true_r.
Qed.

(** A wrapper that writes [n] bytes at [out] first and then calls one slot. *)
Definition prepared_call (T : ctype) (w : world K) (g out n missing : Z) (name : string) (args : list Z)
    (done : gmap Z byte → Prop) (code : M K Z) : Prop :=
  ∃ m', changed (mem w) m' out n ∧ done m' ∧
    code w = offered T (World m' (kern w)) g [name] missing (slot_call T (World m' (kern w)) g name args).

Lemma prepared_call_run T min w g out n missing name args (pre : M K ()) m' (done : gmap Z byte → Prop) :
  pre w = Some ((), World m' (kern w)) → changed (mem w) m' out n → done m' →
  is_table T && guards T name [name] && (existsb (String.eqb name) [name] && is_slot T name) = true →
  client_ok T min (mem w) g → client_apart T (mem w) g out n →
  prepared_call T w g out n missing name args done
    (_ ← pre; ok ← client_supports T name [name] g; if negb ok then mret missing else client_call T name g args).
Proof.
  intros Hpre Hch Hd [[HT Hg]%andb_true_iff Hs]%andb_true_iff Hok Hap.
  exists m'. split_and!; [done|done|]. rewrite (mbind_run _ _ _ _ _ Hpre). unfold offered.
  destruct (changed_client T min _ _ _ _ _ Hch HT Hok Hap) as [_ Hok'].
  rewrite (mbind_run _ _ _ _ _ (client_supports_run T min (World m' (kern w)) g name [name] Hok' ltac:(by rewrite HT, Hg))).
  destruct (offers T (World m' (kern w)) g [name]) eqn:E; [|done]. cbn [negb].
  by apply (client_call_run T min (World m' (kern w)) g [name] name args).
Qed.

(** The result of a function that returns an unsigned number. *)
Definition unsigned (T : ctype) w (g : Z) (name : string) (wrap : Z → Z) : option (Z * world K) :=
  let r := kcall (slot_of (mem w) T (client_ptr (mem w) g) name) [] w in Some (wrap (fst r), snd r).

Lemma offers_slot T min w g name :
  client_ok T min (mem w) g → is_slot T name = true → offers T w g [name] = true →
  client_ptr (mem w) g ≠ 0 ∧ slot_of (mem w) T (client_ptr (mem w) g) name ≠ 0 ∧
  get T name (client_ptr (mem w) g) w = Some (slot_of (mem w) T (client_ptr (mem w) g) name, w).
Proof.
  intros Hok Hs Ho. pose proof Ho as Hp. eapply (provides_elem _ _ _ _ name) in Hp; [|simpl; by rewrite String.eqb_refl].
  assert (client_ptr (mem w) g ≠ 0) as Hne.
  { unfold offers, provides in Ho. by apply andb_true_iff in Ho as [?%negb_true_iff%Z.eqb_neq _]. }
  split_and!; [done|done|]. by apply (get_slot w T min); [apply Hok|..|apply slot_of_covered].
Qed.

Lemma unsigned_run T w g name :
  slot_of (mem w) T (client_ptr (mem w) g) name ≠ 0 →
  call_u32 (slot_of (mem w) T (client_ptr (mem w) g) name) [] w = unsigned T w g name Prelude.u32.
Proof.
  intros H. unfold call_u32, call, unsigned, mbind, m_bind. rewrite (proj2 (Z.eqb_neq _ 0) H).
  by destruct (kcall _ _ _).
Qed.

Lemma read_key_run w desk :
  client_ok desk_T R4XSTART_R4DESK_SIZE (mem w) desk →
  r4desk_read_key_codepoint desk w =
    if offers desk_T w desk ["read_key_codepoint"] then unsigned desk_T w desk "read_key_codepoint" Prelude.u32
    else if offers desk_T w desk ["read_key"] then unsigned desk_T w desk "read_key" (λ r, Prelude.u8 (Prelude.u32 r))
    else Some (0, w).
Proof.
  intros H. unfold r4desk_read_key_codepoint, offers, provides.
  rewrite (mbind_run _ _ _ _ _ (client_table_run _ _ w desk H)).
  destruct (Z.eqb_spec (client_ptr (mem w) desk) 0) as [|Hne]; [done|]. cbn [negb andb forallb].
  pose proof (to_min _ _ _ _ (cl_table _ _ _ _ H) Hne) as Hmin. unfold R4XSTART_R4DESK_SIZE in Hmin.
  rewrite (mbind_run _ _ _ _ _ (get_slot w desk_T _ _ "read_key_codepoint" (cl_table _ _ _ _ H) Hne eq_refl
    ltac:(change (offsetof desk_T "read_key_codepoint") with 304; lia))).
  rewrite !andb_true_r. destruct (Z.eqb_spec (slot_of (mem w) desk_T (client_ptr (mem w) desk) "read_key_codepoint") 0) as [|Hs]; cbn [negb].
  2: { by apply unsigned_run. }
  rewrite (mbind_run _ _ _ _ _ (get_slot w desk_T _ _ "read_key" (cl_table _ _ _ _ H) Hne eq_refl
    ltac:(change (offsetof desk_T "read_key") with 16; lia))).
  destruct (Z.eqb_spec (slot_of (mem w) desk_T (client_ptr (mem w) desk) "read_key") 0) as [|Hs]; [done|]. cbn [negb].
  by rewrite (mbind_run _ _ _ _ _ (unsigned_run desk_T w desk "read_key" Hs)).
Qed.

Lemma consumers_run w desk :
  client_ok desk_T R4XSTART_R4DESK_SIZE (mem w) desk →
  r4desk_remote_frame_consumers desk w =
    if offers desk_T w desk demand_slots then unsigned desk_T w desk "remote_frame_consumers" Prelude.u32 else Some (0, w).
Proof.
  intros H. unfold r4desk_remote_frame_consumers, r4desk_supports_remote_frame_demand. client_wrapper H.
  rewrite (mbind_run _ _ _ _ _ (client_table_run _ _ w desk H)).
  assert (offers desk_T w desk ["remote_frame_consumers"] = true) as Ho.
  { unfold offers, provides, demand_slots in *. cbn [forallb] in *. rewrite !andb_true_iff in *. tauto. }
  destruct (offers_slot desk_T _ w desk "remote_frame_consumers" H eq_refl Ho) as (_ & Hs & Hg).
  rewrite (mbind_run _ _ _ _ _ Hg). by apply unsigned_run.
Qed.

(** Each desktop wrapper on a bound client does what its name says: bad
    arguments are refused, a kernel without the slot is reported, otherwise it is
    one call of the slot; waiting for input presets the generation and polling a
    key clears the event before that call; reading a key prefers the code point
    slot. No wrapper reads past the table. *)
Theorem desk_calls w desk :
  client_ok desk_T R4XSTART_R4DESK_SIZE (mem w) desk →
  let call name e args := offered desk_T w desk [name] e (slot_call desk_T w desk name args) in
  let refuse_or (bad : bool) e k := if bad then Some (e, w) else k in
  r4desk_read_key_codepoint desk w =
    (if offers desk_T w desk ["read_key_codepoint"] then unsigned desk_T w desk "read_key_codepoint" Prelude.u32
     else if offers desk_T w desk ["read_key"] then unsigned desk_T w desk "read_key" (λ r, Prelude.u8 (Prelude.u32 r))
     else Some (0, w)) ∧
  r4desk_remote_frame_consumers desk w =
    (if offers desk_T w desk demand_slots then unsigned desk_T w desk "remote_frame_consumers" Prelude.u32 else Some (0, w)) ∧
  r4desk_program_window_id desk w = call "program_window_id" (-1) [] ∧
  (∀ handle id, r4desk_program_set_window_handle desk handle id w =
     refuse_or (handle =? 0) R4OS_PROGRAM_HANDLE_ERROR_INVALID
       (call "program_set_window_handle" R4OS_PROGRAM_HANDLE_ERROR_INVALID [handle; id])) ∧
  (∀ out, r4desk_gui_window_info desk out w = call "gui_window_info" R4OS_ERROR_INVALID [out]) ∧
  (∀ out, r4desk_gui_poll_event desk out w = call "gui_poll_event" 0 [out]) ∧
  (∀ text, r4desk_gui_set_title desk text w = call "gui_set_title" R4OS_ERROR_INVALID [text]) ∧
  (∀ x y, r4desk_gui_set_min_size desk x y w = call "gui_set_min_size" R4OS_ERROR_INVALID [x; y]) ∧
  (∀ out, r4desk_remote_frame_info desk out w = call "remote_frame_info" R4_REMOTE_FRAME_ERROR_UNSUPPORTED [out]) ∧
  (∀ o out n i, r4desk_remote_frame_read desk o out n i w =
     call "remote_frame_read" R4_REMOTE_FRAME_ERROR_UNSUPPORTED [o; out; n; i]) ∧
  (∀ r t out, r4desk_remote_frame_wait desk r t out w =
     call "remote_frame_wait" R4_REMOTE_FRAME_ERROR_UNSUPPORTED [r; t; out]) ∧
  (∀ i p n, r4desk_remote_frame_publish desk i p n w =
     call "remote_frame_publish" R4_REMOTE_FRAME_ERROR_UNSUPPORTED [i; p; n]) ∧
  (∀ i p n rs rn, r4desk_remote_frame_publish_regions desk i p n rs rn w =
     offered desk_T w desk region_slots R4_REMOTE_FRAME_ERROR_UNSUPPORTED
       (refuse_or ((i =? 0) || (p =? 0) || (n =? 0) || (rs =? 0) || (rn =? 0) || (R4OS_DISPLAY_DAMAGE_MAX_REGIONS <? rn))
          R4OS_ERROR_INVALID (slot_call desk_T w desk "remote_frame_publish_regions" [i; p; n; rs; rn]))) ∧
  r4desk_remote_frame_acquire desk w =
    offered desk_T w desk demand_slots R4_REMOTE_FRAME_ERROR_UNSUPPORTED (slot_call desk_T w desk "remote_frame_acquire" []) ∧
  r4desk_remote_frame_release desk w =
    offered desk_T w desk demand_slots R4_REMOTE_FRAME_ERROR_UNSUPPORTED (slot_call desk_T w desk "remote_frame_release" []) ∧
  (∀ e, r4desk_remote_input_push desk e w = call "remote_input_push" R4_REMOTE_INPUT_ERROR_UNSUPPORTED [e]) ∧
  (∀ out, r4desk_remote_input_poll desk out w = call "remote_input_poll" R4_REMOTE_INPUT_ERROR_UNSUPPORTED [out]) ∧
  (∀ out, r4desk_remote_input_status desk out w = call "remote_input_status" R4_REMOTE_INPUT_ERROR_UNSUPPORTED [out]) ∧
  (∀ seen t out, out ≠ 0 → mapped (mem w) out 8 → 0 ≤ seen < 2 ^ 64 → client_apart desk_T (mem w) desk out 8 →
     prepared_call desk_T w desk out 8 R4OS_CONSOLE_INPUT_WAIT_ERROR_UNSUPPORTED "console_input_wait" [seen; t; out]
       (λ m', cell m' out seen) (r4desk_console_input_wait desk seen t out)) ∧
  (∀ out, out ≠ 0 → mapped (mem w) out (sizeof R4PhysicalKeyEvent) →
     client_apart desk_T (mem w) desk out (sizeof R4PhysicalKeyEvent) →
     prepared_call desk_T w desk out (sizeof R4PhysicalKeyEvent) R4OS_PHYSICAL_KEY_POLL_ERROR_UNSUPPORTED
       "physical_key_poll" [out] (λ _, True) (r4desk_physical_key_poll desk out)).
Proof.
  intros H call refuse_or. unfold call, refuse_or.
  split; [by apply read_key_run|]. split; [by apply consumers_run|].
  split_and!; intros; try (unfold r4desk_program_window_id, r4desk_gui_window_info, r4desk_gui_poll_event,
    r4desk_gui_set_title, r4desk_gui_set_min_size, r4desk_remote_frame_info, r4desk_remote_frame_read,
    r4desk_remote_frame_wait, r4desk_remote_frame_publish, r4desk_remote_input_push, r4desk_remote_input_poll,
    r4desk_remote_input_status; client_direct H).
  - unfold r4desk_program_set_window_handle. rewrite (mbind_run _ _ _ _ _ (client_table_run _ _ w desk H)).
    pose proof (direct_run desk_T _ w desk "program_set_window_handle" R4OS_PROGRAM_HANDLE_ERROR_INVALID [handle; id] H eq_refl) as E.
    unfold offered, offers, provides in *.
    destruct (client_ptr (mem w) desk =? 0), (handle =? 0); done.
  - unfold r4desk_remote_frame_publish_regions, r4desk_supports_remote_frame_regions. client_wrapper H.
  - unfold r4desk_remote_frame_acquire, r4desk_supports_remote_frame_demand. client_wrapper H.
  - unfold r4desk_remote_frame_release, r4desk_supports_remote_frame_demand. client_wrapper H.
  - destruct (store_cell_run w out seen) as (m' & Hr & Hc & Hd); [done|done|].
    unfold r4desk_console_input_wait. rewrite (proj2 (Z.eqb_neq out 0)) by done.
    by eapply prepared_call_run.
  - destruct (clear_run w R4PhysicalKeyEvent out) as (m' & Hr & Hc); [by vm_compute|done|].
    unfold r4desk_physical_key_poll. rewrite (proj2 (Z.eqb_neq out 0)) by done.
    by eapply prepared_call_run.
Qed.
End spec.

(** With a table of the minimum size a title is set and remote regions are unsupported. *)
Lemma desk_calls_witness :
  observed (r4desk_gui_set_title 256 1024 (client_demo desk_T R4XSTART_R4DESK_SIZE)) = Some (0, [(7020, [1024])]) ∧
  observed (r4desk_remote_frame_publish_regions 256 1 2 3 4 5 (client_demo desk_T R4XSTART_R4DESK_SIZE)) =
    Some (R4_REMOTE_FRAME_ERROR_UNSUPPORTED, []).
Proof.
  destruct (desk_calls (client_demo desk_T R4XSTART_R4DESK_SIZE) 256) as (_ & _ & _ & _ & _ & _ & Ht & _ & _ & _ & _ & _ & Hp & _).
  - apply client_check_ok. vm_compute. reflexivity.
  - rewrite Ht, Hp. split; vm_compute; reflexivity.
Defined.

End R4Desk.
