(* ===== verification/R4Draw.v ===== *)
(** * r4draw.h

    The client of the drawing table: binding, immediate drawing, presenting to
    the display, and the frame contracts, of which each needs the slots of the
    one before. *)

From S2P Require Import Prelude R4Abi R4Mem R4L R4LSpec.
From S2P Require Import R4Table R4Sys R4SysSpec R4SysInit R4Group.
From S2P Require Import R4Desk.

Module R4Draw.
Export R4Desk.

Definition R4L_GROUP_R4DRAW : Z := 3.
Definition R4XSTART_R4DRAW_MAGIC : Z := 827802706.
Definition R4XSTART_R4DRAW_VERSION : Z := 2.
Definition R4XSTART_R4DRAW_SIZE : Z := 272.
Definition R4OS_DISPLAY_PRESENT_ERROR_INVALID : Z := -1.
Definition R4OS_DISPLAY_PRESENT_VERSION : Z := 1.
Definition R4OS_GUI_FRAME_MAX_DAMAGE_REGIONS : Z := 8.
Definition R4OS_GUI_FRAME_ERROR_INVALID : Z := -1.
Definition R4OS_GUI_FRAME_INFO_VERSION : Z := 1.
Definition R4OS_GUI_FRAME_INFO_SIZE : Z := 176.
Definition R4OS_GUI_FRAME_GENERATION_INFO_VERSION : Z := 1.
Definition R4OS_GUI_FRAME_GENERATION_INFO_SIZE : Z := 144.
Definition R4OS_GUI_FRAME_STREAM_INFO_VERSION : Z := 1.
Definition R4OS_GUI_FRAME_STREAM_INFO_SIZE : Z := 112.

Abbreviation draw_T := R4XStartR4Draw.

(** The slots of each contract, in the order they are tested. *)
Definition stride_slots : list string := ["display_blit_xrgb32_stride"].
Definition present_slots : list string :=
  ["display_present_regions"; "display_present_capabilities"; "display_present_completion"].
Definition frame_slots : list string :=
  ["gui_frame_begin"; "gui_frame_append"; "gui_frame_commit"; "gui_frame_cancel"; "gui_frame_info"; "gui_frame_read"].
Definition damage_slots : list string :=
  ["gui_frame_begin_damage"; "gui_frame_generation_info"; "gui_frame_generation_read"].
Definition stream_slots : list string := ["gui_frame_begin_replace"; "gui_frame_stream_info"].

(** The argument checks. *)
Definition present_args_bad (request pixels pixel_count regions region_count out_result : Z) : bool :=
  (request =? 0) || (pixels =? 0) || (pixel_count =? 0) || (regions =? 0) || (region_count =? 0)
  || (R4OS_DISPLAY_DAMAGE_MAX_REGIONS <? region_count) || (out_result =? 0).
Definition damage_args_bad (regions region_count : Z) : bool :=
  (regions =? 0) || (region_count =? 0) || (R4OS_GUI_FRAME_MAX_DAMAGE_REGIONS <? region_count).
Definition generation_args_bad
    (handle generation out_info commands command_capacity resources resource_capacity regions region_capacity : Z) : bool :=
  (handle =? 0) || (generation =? 0) || (out_info =? 0)
  || ((commands =? 0) && negb (command_capacity =? 0)) || ((resources =? 0) && negb (resource_capacity =? 0))
  || ((regions =? 0) && negb (region_capacity =? 0)).

Section code.
Context {K : Type} `{!Kernel K}.

(** ** Display *)

Definition r4draw_supports_display_blit_stride : Z → M K bool :=
  client_supports draw_T "display_blit_xrgb32_stride" stride_slots.

Definition r4draw_display_blit_xrgb32_stride
    (draw x y width height source_stride_pixels pixels pixel_count : Z) : M K Z :=
  ok ← r4draw_supports_display_blit_stride draw;
  if negb ok then mret R4OS_ERR_NO_FN else
  if (pixels =? 0) || (pixel_count =? 0) then mret R4OS_ERROR_INVALID else
  client_call draw_T "display_blit_xrgb32_stride" draw [x; y; width; height; pixels; pixel_count; source_stride_pixels].

Definition r4draw_supports_display_present_regions : Z → M K bool :=
  client_supports draw_T "display_present_completion" present_slots.

Definition r4draw_display_present_regions
    (draw request pixels pixel_count regions region_count out_result : Z) : M K Z :=
  ok ← r4draw_supports_display_present_regions draw;
  if negb ok then mret R4OS_ERR_NO_FN else
  if present_args_bad request pixels pixel_count regions region_count out_result
  then mret R4OS_DISPLAY_PRESENT_ERROR_INVALID else
  client_call draw_T "display_present_regions" draw [request; pixels; pixel_count; regions; region_count; out_result].

(** [out->version = version; out->size = size;]. *)
Definition stamp (T : ctype) (version size out : Z) : M K () :=
  _ ← put T "version" out version; put T "size" out size.

Definition r4draw_display_present_capabilities (draw out_capabilities : Z) : M K Z :=
  ok ← r4draw_supports_display_present_regions draw;
  if negb ok then mret R4OS_ERR_NO_FN else
  if out_capabilities =? 0 then mret R4OS_DISPLAY_PRESENT_ERROR_INVALID else
  _ ← stamp R4DisplayPresentCapabilities R4OS_DISPLAY_PRESENT_VERSION
        (Prelude.u16 (sizeof R4DisplayPresentCapabilities)) out_capabilities;
  client_call draw_T "display_present_capabilities" draw [out_capabilities].

Definition r4draw_display_present_completion (draw fence out_completion : Z) : M K Z :=
  ok ← r4draw_supports_display_present_regions draw;
  if negb ok then mret R4OS_ERR_NO_FN else
  if (fence =? 0) || (out_completion =? 0) then mret R4OS_DISPLAY_PRESENT_ERROR_INVALID else
  _ ← stamp R4DisplayPresentCompletion R4OS_DISPLAY_PRESENT_VERSION
        (Prelude.u16 (sizeof R4DisplayPresentCompletion)) out_completion;
  client_call draw_T "display_present_completion" draw [fence; out_completion].

(** ** Binding and immediate drawing *)

Definition r4draw_import_valid (item : Z) : M K bool :=
  if item =? 0 then mret false else
  group_id ← get R4XStartImport "group_id" item;
  if negb (group_id =? R4L_GROUP_R4DRAW) then mret false else
  flags ← get R4XStartImport "flags" item;
  if Z.land flags R4XSTART_IMPORT_FLAG_GROUP_INTERFACE =? 0 then mret false else
  table ← get R4XStartImport "table" item;
  mret (negb (table =? 0)).

Definition r4draw_init (ctx out_draw : Z) : M K Z :=
  init_group draw_T R4L_GROUP_R4DRAW R4XSTART_R4DRAW_MAGIC R4XSTART_R4DRAW_VERSION R4XSTART_R4DRAW_SIZE
    ["gui_clear"; "gui_rect"; "gui_present"] r4draw_import_valid ctx out_draw.

Definition r4draw_gui_clear (draw rgb : Z) : M K Z := direct draw_T "gui_clear" draw R4OS_ERROR_INVALID [rgb].
Definition r4draw_gui_rect (draw x y w h rgb : Z) : M K Z :=
  direct draw_T "gui_rect" draw R4OS_ERROR_INVALID [x; y; w; h; rgb].
Definition r4draw_gui_draw_text (draw x y text fg bg : Z) : M K Z :=
  direct draw_T "gui_draw_text" draw R4OS_ERROR_INVALID [x; y; text; fg; bg].

Definition r4draw_gui_blend_alpha8 (draw x y width height stride rgb alpha alpha_len : Z) : M K Z :=
  ok ← client_supports draw_T "gui_blend_alpha8" ["gui_blend_alpha8"] draw;
  if negb ok then mret R4OS_ERR_NO_FN else
  if (alpha =? 0) || (alpha_len =? 0) || (UINT32_MAX <? alpha_len) then mret R4OS_ERROR_INVALID else
  client_call draw_T "gui_blend_alpha8" draw [x; y; width; height; stride; rgb; alpha; Prelude.u32 alpha_len].

Definition r4draw_gui_present (draw : Z) : M K Z := direct draw_T "gui_present" draw R4OS_ERROR_INVALID [].

(** ** Frames *)

Definition r4draw_supports_gui_frame_contract : Z → M K bool :=
  client_supports draw_T "gui_frame_read" frame_slots.

Definition r4draw_supports_gui_frame_damage_contract (draw : Z) : M K bool :=
  ok ← r4draw_supports_gui_frame_contract draw;
  if negb ok then mret false else client_supports draw_T "gui_frame_generation_read" damage_slots draw.

Definition r4draw_supports_gui_frame_streaming_contract (draw : Z) : M K bool :=
  ok ← r4draw_supports_gui_frame_damage_contract draw;
  if negb ok then mret false else client_supports draw_T "gui_frame_stream_info" stream_slots draw.

Definition r4draw_gui_frame_begin (draw : Z) : M K Z :=
  ok ← r4draw_supports_gui_frame_contract draw;
  if negb ok then mret R4OS_ERR_NO_FN else client_call draw_T "gui_frame_begin" draw [].

Definition r4draw_gui_frame_begin_damage (draw regions region_count : Z) : M K Z :=
  ok ← r4draw_supports_gui_frame_damage_contract draw;
  if negb ok then mret R4OS_ERR_NO_FN else
  if damage_args_bad regions region_count then mret R4OS_GUI_FRAME_ERROR_INVALID else
  client_call draw_T "gui_frame_begin_damage" draw [regions; region_count].

Definition r4draw_gui_frame_begin_replace (draw regions region_count : Z) : M K Z :=
  ok ← r4draw_supports_gui_frame_streaming_contract draw;
  if negb ok then mret R4OS_ERR_NO_FN else
  if damage_args_bad regions region_count then mret R4OS_GUI_FRAME_ERROR_INVALID else
  client_call draw_T "gui_frame_begin_replace" draw [regions; region_count].

Definition r4draw_gui_frame_append (draw commands command_count resources resource_len : Z) : M K Z :=
  ok ← r4draw_supports_gui_frame_contract draw;
  if negb ok then mret R4OS_ERR_NO_FN else
  client_call draw_T "gui_frame_append" draw [commands; command_count; resources; resource_len].

Definition r4draw_gui_frame_commit (draw : Z) : M K Z :=
  ok ← r4draw_supports_gui_frame_contract draw;
  if negb ok then mret R4OS_ERR_NO_FN else client_call draw_T "gui_frame_commit" draw [].

Definition r4draw_gui_frame_cancel (draw : Z) : M K Z :=
  ok ← r4draw_supports_gui_frame_contract draw;
  if negb ok then mret R4OS_ERR_NO_FN else client_call draw_T "gui_frame_cancel" draw [].

Definition r4draw_gui_frame_info (draw handle out_info : Z) : M K Z :=
  ok ← r4draw_supports_gui_frame_contract draw;
  if negb ok then mret R4OS_ERR_NO_FN else
  if out_info =? 0 then mret R4OS_GUI_FRAME_ERROR_INVALID else
  _ ← stamp R4GuiFrameInfo R4OS_GUI_FRAME_INFO_VERSION R4OS_GUI_FRAME_INFO_SIZE out_info;
  client_call draw_T "gui_frame_info" draw [handle; out_info].

Definition r4draw_gui_frame_read (draw handle expected_generation commands command_capacity
    resources resource_capacity out_info : Z) : M K Z :=
  ok ← r4draw_supports_gui_frame_contract draw;
  if negb ok then mret R4OS_ERR_NO_FN else
  if out_info =? 0 then mret R4OS_GUI_FRAME_ERROR_INVALID else
  _ ← stamp R4GuiFrameInfo R4OS_GUI_FRAME_INFO_VERSION R4OS_GUI_FRAME_INFO_SIZE out_info;
  if handle =? 0 then mret R4OS_GUI_FRAME_ERROR_INVALID else
  client_call draw_T "gui_frame_read" draw
    [handle; expected_generation; commands; command_capacity; resources; resource_capacity; out_info].

Definition r4draw_gui_frame_generation_info (draw handle generation out_info : Z) : M K Z :=
  ok ← r4draw_supports_gui_frame_damage_contract draw;
  if negb ok then mret R4OS_ERR_NO_FN else
  if (handle =? 0) || (generation =? 0) || (out_info =? 0) then mret R4OS_GUI_FRAME_ERROR_INVALID else
  _ ← stamp R4GuiFrameGenerationInfo R4OS_GUI_FRAME_GENERATION_INFO_VERSION
        R4OS_GUI_FRAME_GENERATION_INFO_SIZE out_info;
  client_call draw_T "gui_frame_generation_info" draw [handle; generation; out_info].

Definition r4draw_gui_frame_generation_read (draw handle generation commands command_capacity
    resources resource_capacity regions region_capacity out_info : Z) : M K Z :=
  ok ← r4draw_supports_gui_frame_damage_contract draw;
  if negb ok then mret R4OS_ERR_NO_FN else
  if generation_args_bad handle generation out_info commands command_capacity resources resource_capacity
       regions region_capacity then mret R4OS_GUI_FRAME_ERROR_INVALID else
  _ ← stamp R4GuiFrameGenerationInfo R4OS_GUI_FRAME_GENERATION_INFO_VERSION
        R4OS_GUI_FRAME_GENERATION_INFO_SIZE out_info;
  client_call draw_T "gui_frame_generation_read" draw
    [handle; generation; commands; command_capacity; resources; resource_capacity; regions; region_capacity; out_info].

Definition r4draw_gui_frame_stream_info (draw handle out_info : Z) : M K Z :=
  ok ← r4draw_supports_gui_frame_streaming_contract draw;
  if negb ok then mret R4OS_ERR_NO_FN else
  if (handle =? 0) || (out_info =? 0) then mret R4OS_GUI_FRAME_ERROR_INVALID else
  _ ← stamp R4GuiFrameStreamInfo R4OS_GUI_FRAME_STREAM_INFO_VERSION R4OS_GUI_FRAME_STREAM_INFO_SIZE out_info;
  client_call draw_T "gui_frame_stream_info" draw [handle; out_info].
End code.

(** ** What the wrappers do *)

Section spec.
Context {K : Type} `{!Kernel K}.
Implicit Types (w : world K) (m : gmap Z byte).

Lemma draw_import_checks : checks_bound (K := K) r4draw_import_valid R4L_GROUP_R4DRAW.
Proof.
  intros w item Hne Hm Hg. unfold r4draw_import_valid, item_bound. rewrite (proj2 (Z.eqb_neq item 0) Hne).
  run_get Hm. rewrite Hg, Z.eqb_refl. cbn [negb]. run_get Hm. destruct (_ =? 0); [by rewrite andb_false_r|].
  run_get Hm. by rewrite andb_true_r.
Qed.

(** Each contract includes the one before. *)
Lemma offers_app T w g a b : offers T w g (a ++ b) = offers T w g a && offers T w g b.
Proof. unfold offers, provides. rewrite forallb_app. by destruct (_ =? 0). Qed.

Lemma frame_contract_run min w draw :
  client_ok draw_T min (mem w) draw →
  r4draw_supports_gui_frame_contract draw w = Some (offers draw_T w draw frame_slots, w).
Proof. intros H. exact (client_supports_run draw_T min w draw "gui_frame_read" frame_slots H eq_refl). Qed.

Lemma damage_contract_run min w draw :
  client_ok draw_T min (mem w) draw →
  r4draw_supports_gui_frame_damage_contract draw w = Some (offers draw_T w draw (frame_slots ++ damage_slots), w).
Proof.
  intros H. unfold r4draw_supports_gui_frame_damage_contract. rewrite offers_app, (mbind_run _ _ _ _ _ (frame_contract_run min w draw H)).
  destruct (offers draw_T w draw frame_slots); [|done]. exact (client_supports_run draw_T min w draw "gui_frame_generation_read" damage_slots H eq_refl).
Qed.

Lemma streaming_contract_run min w draw :
  client_ok draw_T min (mem w) draw →
  r4draw_supports_gui_frame_streaming_contract draw w =
    Some (offers draw_T w draw (frame_slots ++ damage_slots ++ stream_slots), w).
Proof.
  intros H. unfold r4draw_supports_gui_frame_streaming_contract.
  rewrite (assoc_L (++)), offers_app, (mbind_run _ _ _ _ _ (damage_contract_run min w draw H)).
  destruct (offers draw_T w draw (frame_slots ++ damage_slots)); [|done].
  exact (client_supports_run draw_T min w draw "gui_frame_stream_info" stream_slots H eq_refl).
Qed.

(** A wrapper behind a contract: refused, reported, or one call. *)
Definition contract (T : ctype) w (g : Z) (slots : list string) (bad : bool) (err : Z) (k : option (Z * world K)) :=
  offered T w g slots R4OS_ERR_NO_FN (if bad then Some (err, w) else k).

(** The same for a wrapper that fills in the version and the size of [out] first. *)
Definition stamped (w : world K) (g : Z) (slots : list string) (bad : bool) (err : Z) (S : ctype) (version size out : Z)
    (k : world K → option (Z * world K)) (code : M K Z) : Prop :=
  if negb (offers draw_T w g slots) then code w = Some (R4OS_ERR_NO_FN, w)
  else if bad then code w = Some (err, w)
  else ∃ m', changed (mem w) m' out 8 ∧ fv m' S out "version" = version ∧ fv m' S out "size" = size ∧
    code w = k (World m' (kern w)).

(** The two fields are at the start of the structure, of the same width. *)
Definition stampable (S : ctype) (k : nat) (version size : Z) : bool :=
  bool_decide (field_at S "version" = Some (0, k)) && bool_decide (field_at S "size" = Some (Z.of_nat k, k)) &&
  (2 * Z.of_nat k <=? 8) && (0 <=? version) && (version <? 2 ^ (8 * Z.of_nat k)) && (0 <=? size) && (size <? 2 ^ (8 * Z.of_nat k)).

Lemma stamp_run w S k version size out :
  stampable S k version size = true → mapped (mem w) out 8 →
  ∃ m', stamp S version size out w = Some ((), World m' (kern w)) ∧ changed (mem w) m' out 8 ∧
    fv m' S out "version" = version ∧ fv m' S out "size" = size.
Proof.
  intros Hst Hm. unfold stampable in Hst.
  rewrite !andb_true_iff, !bool_decide_eq_true, !Z.leb_le, !Z.ltb_lt in Hst. destruct Hst as [[[[[[Hv Hs] Hk] ?] ?] ?] ?].
  assert (field_in S "version" 8 = true ∧ field_in S "size" 8 = true ∧ field_in S "version" (Z.of_nat k) = true) as (Hv8 & Hs8 & Hvk).
  { unfold field_in. rewrite Hv, Hs. split_and!; apply andb_true_iff; rewrite !Z.leb_le; lia. }
  destruct (put_run w S "version" out version 8 0 k Hm Hv Hv8) as (m1 & Hr1 & Hc1 & Hf1).
  assert (mapped m1 out 8) as Hm1 by (by eapply changed_mapped).
  destruct (put_run (World m1 (kern w)) S "size" out size 8 (Z.of_nat k) k Hm1 Hs Hs8) as (m2 & Hr2 & Hc2 & Hf2). cbn [mem] in Hc2.
  exists m2. unfold stamp. rewrite (mbind_run _ _ _ _ _ Hr1), Hr2. split_and!; [done| | |].
  - eapply changed_trans; (eapply changed_sub; [eassumption|lia|lia]).
  - rewrite (changed_fv _ _ _ _ S out "version" (Z.of_nat k) Hc2 Hvk) by lia. rewrite Hf1. by apply Z.mod_small.
  - rewrite Hf2. by apply Z.mod_small.
Qed.

(** After the stamp the client and its kernel are the same. *)
Lemma stamped_run w g slots bad err S k version size out name args (code : M K Z) min :
  stampable S k version size = true →
  is_table draw_T && forallb (is_slot draw_T) slots = true →
  existsb (String.eqb name) slots && is_slot draw_T name = true →
  client_ok draw_T min (mem w) g →
  (bad = false → mapped (mem w) out 8 ∧ client_apart draw_T (mem w) g out 8) →
  code w = (if negb (offers draw_T w g slots) then Some (R4OS_ERR_NO_FN, w) else if bad then Some (err, w)
            else (_ ← stamp S version size out; client_call draw_T name g args) w) →
  stamped w g slots bad err S version size out (λ w', slot_call draw_T w' g name args) code.
Proof.
  intros Hst Hsl Hn Hok Hout Hcode. unfold stamped. destruct (offers draw_T w g slots) eqn:Ho; cbn [negb] in *; [|done].
  destruct bad; [done|]. destruct (Hout eq_refl) as [Hm Hap].
  destruct (stamp_run w S k version size out Hst Hm) as (m' & Hr & Hc & Hv & Hs).
  exists m'. split_and!; [done|done|done|]. rewrite Hcode, (mbind_run _ _ _ _ _ Hr).
  pose proof (changed_offers draw_T min _ m' (kern w) w g out 8 slots Hc eq_refl Hsl Hok Hap) as Ho'. rewrite Ho in Ho'.
  apply andb_true_iff in Hsl as [HT _].
  destruct (changed_client draw_T min _ _ _ _ _ Hc HT Hok Hap) as [_ Hok'].
  by apply (client_call_run draw_T min (World m' (kern w)) g slots name args).
Qed.
End spec.

Ltac draw_contract H :=
  unfold contract, offered, r4draw_supports_display_present_regions, r4draw_supports_display_blit_stride;
  repeat match goal with
  | |- context [@mbind _ _ _ _ _ (r4draw_supports_gui_frame_contract ?g) ?w] =>
      rewrite (mbind_run _ _ _ _ _ (frame_contract_run _ w g H)); destruct (offers _ w g _) eqn:?; cbn [negb]
  | |- context [@mbind _ _ _ _ _ (r4draw_supports_gui_frame_damage_contract ?g) ?w] =>
      rewrite (mbind_run _ _ _ _ _ (damage_contract_run _ w g H)); destruct (offers _ w g _) eqn:?; cbn [negb]
  | |- context [@mbind _ _ _ _ _ (r4draw_supports_gui_frame_streaming_contract ?g) ?w] =>
      rewrite (mbind_run _ _ _ _ _ (streaming_contract_run _ w g H)); destruct (offers _ w g _) eqn:?; cbn [negb]
  | |- context [@mbind _ _ _ _ _ (client_supports ?T ?l ?n ?g) ?w] =>
      rewrite (mbind_run _ _ _ _ _ (client_supports_run T _ w g l n H eq_refl)); destruct (offers T w g n) eqn:?; cbn [negb]
  end;
  try reflexivity;
  try match goal with |- context [if ?b then _ else _] => destruct b; [reflexivity|] end;
  try match goal with
  | Hp : offers ?T ?w ?g ?n = true |- client_call ?T ?name ?g ?args ?w = _ =>
      exact (client_call_run T _ w g n name args H Hp eq_refl)
  end;
  try reflexivity.

Section calls.
Context {K : Type} `{!Kernel K}.
Implicit Types (w : world K) (m : gmap Z byte).

Lemma frame_read_run w draw h g c cn r rn out min :
  client_ok draw_T min (mem w) draw →
  (out ≠ 0 → mapped (mem w) out 8 ∧ client_apart draw_T (mem w) draw out 8) →
  stamped w draw frame_slots (out =? 0) R4OS_GUI_FRAME_ERROR_INVALID R4GuiFrameInfo
    R4OS_GUI_FRAME_INFO_VERSION R4OS_GUI_FRAME_INFO_SIZE out
    (λ w', if h =? 0 then Some (R4OS_GUI_FRAME_ERROR_INVALID, w')
           else slot_call draw_T w' draw "gui_frame_read" [h; g; c; cn; r; rn; out])
    (r4draw_gui_frame_read draw h g c cn r rn out).
Proof.
  intros H Hout. destruct (Z.eqb_spec h 0) as [-> |Hne].
  - unfold stamped, r4draw_gui_frame_read. rewrite (mbind_run _ _ _ _ _ (frame_contract_run _ w draw H)).
    destruct (offers _ _ _ _); [|done]. cbn [negb]. destruct (Z.eqb_spec out 0) as [|Ho]; [done|].
    destruct (stamp_run w R4GuiFrameInfo 4 R4OS_GUI_FRAME_INFO_VERSION R4OS_GUI_FRAME_INFO_SIZE out eq_refl) as (m' & Hr & Hc & Hv & Hs).
    { by apply Hout. }
    exists m'. split_and!; [done|done|done|]. by rewrite (mbind_run _ _ _ _ _ Hr).
  - eapply (stamped_run w draw frame_slots _ _ R4GuiFrameInfo 4); [reflexivity|reflexivity|reflexivity|exact H| |].
    + intros Ho%Z.eqb_neq. by apply Hout.
    + unfold r4draw_gui_frame_read. rewrite (mbind_run _ _ _ _ _ (frame_contract_run _ w draw H)).
      destruct (offers _ _ _ _); [|done]. cbn [negb]. destruct (out =? 0); [done|]. by rewrite (proj2 (Z.eqb_neq h 0) Hne).
Qed.

(** Each drawing wrapper on a bound client refuses bad arguments, reports a
    kernel without the slots of its contract (the damage contract includes the
    frame contract, the streaming contract includes both), and otherwise is one
    call of its slot, before which the wrappers with an information structure
    fill in its version and size. Nothing else is written, and no wrapper reads
    past the table. *)
Theorem draw_calls w draw :
  client_ok draw_T R4XSTART_R4DRAW_SIZE (mem w) draw →
  let call name args := slot_call draw_T w draw name args in
  let usable out := mapped (mem w) out 8 ∧ client_apart draw_T (mem w) draw out 8 in
  (∀ rgb, r4draw_gui_clear draw rgb w = offered draw_T w draw ["gui_clear"] R4OS_ERROR_INVALID (call "gui_clear" [rgb])) ∧
  (∀ x y a b rgb, r4draw_gui_rect draw x y a b rgb w =
     offered draw_T w draw ["gui_rect"] R4OS_ERROR_INVALID (call "gui_rect" [x; y; a; b; rgb])) ∧
  (∀ x y t fg bg, r4draw_gui_draw_text draw x y t fg bg w =
     offered draw_T w draw ["gui_draw_text"] R4OS_ERROR_INVALID (call "gui_draw_text" [x; y; t; fg; bg])) ∧
  r4draw_gui_present draw w = offered draw_T w draw ["gui_present"] R4OS_ERROR_INVALID (call "gui_present" []) ∧
  (∀ x y a b st p n, r4draw_display_blit_xrgb32_stride draw x y a b st p n w =
     contract draw_T w draw stride_slots ((p =? 0) || (n =? 0)) R4OS_ERROR_INVALID
       (call "display_blit_xrgb32_stride" [x; y; a; b; p; n; st])) ∧
  (∀ x y a b st rgb p n, r4draw_gui_blend_alpha8 draw x y a b st rgb p n w =
     contract draw_T w draw ["gui_blend_alpha8"] ((p =? 0) || (n =? 0) || (UINT32_MAX <? n)) R4OS_ERROR_INVALID
       (call "gui_blend_alpha8" [x; y; a; b; st; rgb; p; Prelude.u32 n])) ∧
  (∀ r p n rs rn out, r4draw_display_present_regions draw r p n rs rn out w =
     contract draw_T w draw present_slots (present_args_bad r p n rs rn out) R4OS_DISPLAY_PRESENT_ERROR_INVALID
       (call "display_present_regions" [r; p; n; rs; rn; out])) ∧
  r4draw_gui_frame_begin draw w = contract draw_T w draw frame_slots false 0 (call "gui_frame_begin" []) ∧
  (∀ rs rn, r4draw_gui_frame_begin_damage draw rs rn w =
     contract draw_T w draw (frame_slots ++ damage_slots) (damage_args_bad rs rn) R4OS_GUI_FRAME_ERROR_INVALID
       (call "gui_frame_begin_damage" [rs; rn])) ∧
  (∀ rs rn, r4draw_gui_frame_begin_replace draw rs rn w =
     contract draw_T w draw (frame_slots ++ damage_slots ++ stream_slots) (damage_args_bad rs rn)
       R4OS_GUI_FRAME_ERROR_INVALID (call "gui_frame_begin_replace" [rs; rn])) ∧
  (∀ c n r l, r4draw_gui_frame_append draw c n r l w =
     contract draw_T w draw frame_slots false 0 (call "gui_frame_append" [c; n; r; l])) ∧
  r4draw_gui_frame_commit draw w = contract draw_T w draw frame_slots false 0 (call "gui_frame_commit" []) ∧
  r4draw_gui_frame_cancel draw w = contract draw_T w draw frame_slots false 0 (call "gui_frame_cancel" []) ∧
  (∀ out, (out ≠ 0 → usable out) →
     stamped w draw present_slots (out =? 0) R4OS_DISPLAY_PRESENT_ERROR_INVALID R4DisplayPresentCapabilities
       R4OS_DISPLAY_PRESENT_VERSION (sizeof R4DisplayPresentCapabilities) out
       (λ w', slot_call draw_T w' draw "display_present_capabilities" [out]) (r4draw_display_present_capabilities draw out)) ∧
  (∀ fence out, (out ≠ 0 → usable out) →
     stamped w draw present_slots ((fence =? 0) || (out =? 0)) R4OS_DISPLAY_PRESENT_ERROR_INVALID
       R4DisplayPresentCompletion R4OS_DISPLAY_PRESENT_VERSION (sizeof R4DisplayPresentCompletion) out
       (λ w', slot_call draw_T w' draw "display_present_completion" [fence; out])
       (r4draw_display_present_completion draw fence out)) ∧
  (∀ h out, (out ≠ 0 → usable out) →
     stamped w draw frame_slots (out =? 0) R4OS_GUI_FRAME_ERROR_INVALID R4GuiFrameInfo
       R4OS_GUI_FRAME_INFO_VERSION R4OS_GUI_FRAME_INFO_SIZE out
       (λ w', slot_call draw_T w' draw "gui_frame_info" [h; out]) (r4draw_gui_frame_info draw h out)) ∧
  (∀ h g c cn r rn out, (out ≠ 0 → usable out) →
     stamped w draw frame_slots (out =? 0) R4OS_GUI_FRAME_ERROR_INVALID R4GuiFrameInfo
       R4OS_GUI_FRAME_INFO_VERSION R4OS_GUI_FRAME_INFO_SIZE out
       (λ w', if h =? 0 then Some (R4OS_GUI_FRAME_ERROR_INVALID, w')
              else slot_call draw_T w' draw "gui_frame_read" [h; g; c; cn; r; rn; out])
       (r4draw_gui_frame_read draw h g c cn r rn out)) ∧
  (∀ h g out, (out ≠ 0 → usable out) →
     stamped w draw (frame_slots ++ damage_slots) ((h =? 0) || (g =? 0) || (out =? 0)) R4OS_GUI_FRAME_ERROR_INVALID
       R4GuiFrameGenerationInfo R4OS_GUI_FRAME_GENERATION_INFO_VERSION R4OS_GUI_FRAME_GENERATION_INFO_SIZE out
       (λ w', slot_call draw_T w' draw "gui_frame_generation_info" [h; g; out])
       (r4draw_gui_frame_generation_info draw h g out)) ∧
  (∀ h g c cn r rn rs rc out, (out ≠ 0 → usable out) →
     stamped w draw (frame_slots ++ damage_slots) (generation_args_bad h g out c cn r rn rs rc) R4OS_GUI_FRAME_ERROR_INVALID
       R4GuiFrameGenerationInfo R4OS_GUI_FRAME_GENERATION_INFO_VERSION R4OS_GUI_FRAME_GENERATION_INFO_SIZE out
       (λ w', slot_call draw_T w' draw "gui_frame_generation_read" [h; g; c; cn; r; rn; rs; rc; out])
       (r4draw_gui_frame_generation_read draw h g c cn r rn rs rc out)) ∧
  (∀ h out, (out ≠ 0 → usable out) →
     stamped w draw (frame_slots ++ damage_slots ++ stream_slots) ((h =? 0) || (out =? 0)) R4OS_GUI_FRAME_ERROR_INVALID
       R4GuiFrameStreamInfo R4OS_GUI_FRAME_STREAM_INFO_VERSION R4OS_GUI_FRAME_STREAM_INFO_SIZE out
       (λ w', slot_call draw_T w' draw "gui_frame_stream_info" [h; out]) (r4draw_gui_frame_stream_info draw h out)).
Proof.
  intros H call usable. unfold call.
  assert (∀ bad out, (bad = false → out ≠ 0) → (out ≠ 0 → usable out) → bad = false → usable out) as Husable by naive_solver.
  assert (∀ a b, (a || (b =? 0)) = false → b ≠ 0) as Hlast by (intros a b [_ ?%Z.eqb_neq]%orb_false_iff; done).
  repeat match goal with |- _ ∧ _ => split end; intros;
    try (unfold r4draw_gui_clear, r4draw_gui_rect, r4draw_gui_draw_text, r4draw_gui_present; client_direct H);
    try (unfold r4draw_display_blit_xrgb32_stride, r4draw_gui_blend_alpha8, r4draw_display_present_regions,
      r4draw_gui_frame_begin, r4draw_gui_frame_begin_damage, r4draw_gui_frame_begin_replace, r4draw_gui_frame_append,
      r4draw_gui_frame_commit, r4draw_gui_frame_cancel; draw_contract H; fail).
  all: try (by eapply frame_read_run).
  all: match goal with |- stamped _ _ _ _ _ ?S _ _ _ _ _ =>
    let k := eval vm_compute in (match field_at S "version" with Some (_, k) => k | None => O end) in
    eapply (stamped_run w draw _ _ _ S k); [reflexivity|reflexivity|reflexivity|exact H| |] end.
  all: try (apply Husable; [intros E|assumption]; first [by apply Hlast in E|by apply Z.eqb_neq|idtac]).
  all: try (unfold r4draw_display_present_capabilities, r4draw_display_present_completion, r4draw_gui_frame_info,
    r4draw_gui_frame_generation_info, r4draw_gui_frame_generation_read,
    r4draw_gui_frame_stream_info; draw_contract H; fail).
  unfold generation_args_bad in E. rewrite !orb_false_iff in E. destruct E as [[[[_ ?%Z.eqb_neq] _] _] _]. done.
Qed.
End calls.

(** A full table draws a rectangle; one of the minimum size has no streaming contract. *)
Lemma draw_calls_witness :
  observed (r4draw_gui_rect 256 1 2 3 4 5 (client_demo draw_T (sizeof draw_T))) = Some (0, [(7011, [1; 2; 3; 4; 5])]) ∧
  observed (r4draw_gui_frame_begin_replace 256 1 1 (client_demo draw_T R4XSTART_R4DRAW_SIZE)) = Some (R4OS_ERR_NO_FN, []).
Proof.
  destruct (draw_calls (client_demo draw_T (sizeof draw_T)) 256) as (_ & Hr & _).
  { apply client_check_ok. vm_compute. reflexivity. }
  destruct (draw_calls (client_demo draw_T R4XSTART_R4DRAW_SIZE) 256) as (_ & _ & _ & _ & _ & _ & _ & _ & _ & Hb & _).
  { apply client_check_ok. vm_compute. reflexivity. }
  rewrite Hr, Hb. split; vm_compute; reflexivity.
Defined.

End R4Draw.
