(* ===== verification/R4GroupInit.v ===== *)
(** * Binding the five smaller tables

    The [init] functions of r4net.h, r4audio.h, r4dev.h, r4desk.h and r4draw.h
    against one specification, [R4Group.binding]. *)

From S2P Require Import Prelude R4Abi R4Mem R4L R4LSpec.
From S2P Require Import R4Table R4Sys R4SysSpec R4SysInit R4Group.
From S2P Require Import R4Dev R4Desk R4Draw.

Module R4GroupInit.
Export R4Dev R4Draw.

Section inits.
Context {K : Type} `{!Kernel K}.
Implicit Types (w : world K) (m : gmap Z byte).

(** [init] binds [out] to what [bound] (a status and a table) says and writes
    nothing else; afterwards the client can be used. *)
Definition binds (T : ctype) (minimum : Z) (init : M K Z) w (out : Z) (bound : Z * Z) : Prop :=
  ∃ st m', init w = Some (st, World m' (kern w)) ∧ changed (mem w) m' out 8 ∧
    (out = 0 → st = R4OS_ERROR_INVALID) ∧
    (out ≠ 0 → (st, client_ptr m' out) = bound ∧ client_ok T minimum m' out).

(** The start context and its import tables can be read, and [out] is beside them. *)
Record startable m (T : ctype) (ctx out : Z) : Prop := {
  sa_context : context_ok m ctx;
  sa_out : out ≠ 0 → mapped m out 8;
  sa_tables : ∀ a, a ∈ import_list m ctx → import_table_ok m T a;
  sa_outside : outside m T ctx out 8
}.

(** C26. Each of the five [init] functions takes the first import of its group;
    it reports that there is none (or that it is no group interface), refuses a
    table of the wrong magic, an older version, too small a size or without the
    slots it insists on, and otherwise binds the client to it. On a failure the
    client's table is null; in every case the wrappers are safe on the client. *)
Theorem group_inits_bind w ctx out :
  (startable (mem w) R4XStartR4Net ctx out →
   binds R4XStartR4Net net_minimum (r4net_init ctx out) w out
     (binding (mem w) R4XStartR4Net R4L_GROUP_R4NET R4XSTART_R4NET_MAGIC R4XSTART_R4NET_VERSION
        net_minimum ["tcp_connect"] ctx)) ∧
  (startable (mem w) R4XStartR4Audio ctx out →
   binds R4XStartR4Audio R4XSTART_R4AUDIO_SIZE (r4audio_init ctx out) w out
     (binding (mem w) R4XStartR4Audio R4L_GROUP_R4AUDIO R4XSTART_R4AUDIO_MAGIC R4XSTART_R4AUDIO_VERSION
        R4XSTART_R4AUDIO_SIZE ["audio_open_stream"] ctx)) ∧
  (startable (mem w) R4XStartR4Dev ctx out →
   binds R4XStartR4Dev dev_minimum (r4dev_init ctx out) w out
     (binding (mem w) R4XStartR4Dev R4L_GROUP_R4DEV R4XSTART_R4DEV_MAGIC R4XSTART_R4DEV_VERSION
        dev_minimum ["performance_summary"] ctx)) ∧
  (startable (mem w) desk_T ctx out →
   binds desk_T R4XSTART_R4DESK_SIZE (r4desk_init ctx out) w out
     (binding (mem w) desk_T R4L_GROUP_R4DESK R4XSTART_R4DESK_MAGIC R4XSTART_R4DESK_VERSION
        R4XSTART_R4DESK_SIZE ["program_window_id"; "gui_poll_event"] ctx)) ∧
  (startable (mem w) draw_T ctx out →
   binds draw_T R4XSTART_R4DRAW_SIZE (r4draw_init ctx out) w out
     (binding (mem w) draw_T R4L_GROUP_R4DRAW R4XSTART_R4DRAW_MAGIC R4XSTART_R4DRAW_VERSION
        R4XSTART_R4DRAW_SIZE ["gui_clear"; "gui_rect"; "gui_present"] ctx)).
Proof.
  assert (∀ T group magic version minimum slots valid,
    init_args T minimum slots = true → checks_bound valid group → startable (mem w) T ctx out →
    binds T minimum (init_group T group magic version minimum slots valid ctx out) w out
      (binding (mem w) T group magic version minimum slots ctx)) as Hall.
  { intros T group magic version minimum slots valid Ha Hv [H1 H2 H3 H4]. by apply init_group_run. }
  split_and!; intros Hs.
  - by apply Hall; [|apply import_bound_checks|].
  - by apply Hall; [|apply import_bound_checks|].
  - by apply Hall; [|apply import_bound_checks|].
  - by apply Hall; [|apply desk_import_checks|].
  - by apply Hall; [|apply draw_import_checks|].
Qed.
End inits.

(** ** An example *)

(** A context at 2048 with two imports: R4SYS at 2304 without a table, R4NET at
    2344 with a table at 4096. *)
Definition net_start (version : Z) : world call_log := World (image [
  (512, replicate 8 xff);
  (2048, struct_bytes R4XStartContext
     [R4XSTART_MAGIC; 1; 1; 128; 1; 7; 1; 0; 0; 0; 0; 2304; 2; 0; 0; 0; 0; 0; 0; 0; 0]);
  (2304, struct_bytes R4XStartImport [1; 14; 14; 1; 0; 0; 0]);
  (2344, struct_bytes R4XStartImport [4; 1; 1; 1; 0; 0; 4096]);
  (4096, struct_bytes R4XStartR4Net ([R4XSTART_R4NET_MAGIC; version; sizeof R4XStartR4Net; 0]
           ++ map (λ i, 7000 + Z.of_nat i) (seq 0 60)))]) [].

Lemma net_start_ok version : version = 0 ∨ version = 1 → startable (mem (net_start version)) R4XStartR4Net 2048 512.
Proof.
  intros Hv. assert (import_list (mem (net_start version)) 2048 = [2304; 2344] ∧
    fv (mem (net_start version)) R4XStartImport 2304 "table" = 0 ∧
    fv (mem (net_start version)) R4XStartImport 2344 "table" = 4096 ∧
    fv (mem (net_start version)) R4XStartR4Net 4096 "size" = 296 ∧
    mapped_b (mem (net_start version)) 2048 128 && mapped_b (mem (net_start version)) 2304 80 &&
    mapped_b (mem (net_start version)) 512 8 && mapped_b (mem (net_start version)) 4096 296 = true)
    as (Hl & Ht1 & Ht2 & Hs & Hm) by (destruct Hv as [-> | ->]; vm_compute; split_and!; reflexivity).
  rewrite !andb_true_iff in Hm. destruct Hm as [[[Hm1%mapped_b_mapped Hm2%mapped_b_mapped] Hm3%mapped_b_mapped] Hm4%mapped_b_mapped].
  split.
  - split; [intros _; exact Hm1|]. rewrite Hl. repeat constructor; (eapply mapped_sub; [exact Hm2|lia|lia]).
  - intros _. exact Hm3.
  - intros a. rewrite Hl. intros [-> | ->%list_elem_of_singleton]%elem_of_cons; unfold import_table_ok; rewrite ?Ht1, ?Ht2.
    + split; intros Hne; exfalso; apply Hne; reflexivity.
    + split; intros _; rewrite ?Hs; [exact Hm4|eapply mapped_sub; [exact Hm4|lia|lia]|lia].
  - split; [intros _; left; lia| |]; intros a; rewrite Hl; intros [-> | ->%list_elem_of_singleton]%elem_of_cons.
    + left. lia.
    + left. lia.
    + cbv zeta. rewrite Ht1. intros Hne. exfalso. apply Hne. reflexivity.
    + cbv zeta. rewrite Ht2, Hs. left. lia.
Qed.

Lemma group_inits_bind_witness :
  (∃ m', r4net_init 2048 512 (net_start 1) = Some (R4OS_OK, World m' []) ∧ client_ptr m' 512 = 4096) ∧
  (∃ m', r4net_init 2048 512 (net_start 0) = Some (R4OS_ERROR_INVALID, World m' []) ∧ client_ptr m' 512 = 0).
Proof.
  split.
  - destruct (group_inits_bind (net_start 1) 2048 512) as [H _].
    destruct (H (net_start_ok 1 (or_intror eq_refl))) as (st & m' & Hr & _ & _ & Hb). destruct (Hb ltac:(lia)) as [E _].
    assert (binding (mem (net_start 1)) R4XStartR4Net R4L_GROUP_R4NET R4XSTART_R4NET_MAGIC R4XSTART_R4NET_VERSION
      net_minimum ["tcp_connect"] 2048 = (R4OS_OK, 4096)) as Hv by (vm_compute; reflexivity).
    rewrite Hv in E. injection E as -> E. exists m'. split; [exact Hr|exact E].
  - destruct (group_inits_bind (net_start 0) 2048 512) as [H _].
    destruct (H (net_start_ok 0 (or_introl eq_refl))) as (st & m' & Hr & _ & _ & Hb). destruct (Hb ltac:(lia)) as [E _].
    assert (binding (mem (net_start 0)) R4XStartR4Net R4L_GROUP_R4NET R4XSTART_R4NET_MAGIC R4XSTART_R4NET_VERSION
      net_minimum ["tcp_connect"] 2048 = (R4OS_ERROR_INVALID, 0)) as Hv by (vm_compute; reflexivity).
    rewrite Hv in E. injection E as -> E. exists m'. split; [exact Hr|exact E].
Defined.

End R4GroupInit.
