(* ===== verification/R4Storage.v ===== *)
(** * storage.h

    The storage facade of R4SYS: the inventory of devices, partitions and
    volumes, exclusive claims on a target with raw I/O under the claim, mounting,
    and uses of a path. A claim or use is a 64-bit handle in a variable of the
    caller, 0 when there is none. *)

From S2P Require Import Prelude R4Abi R4Mem R4L R4LSpec.
From S2P Require Import R4Table R4Sys R4SysSpec R4SysInit.

Module R4Storage.
Export R4SysInit.

Definition R4OS_STORAGE_RESULT_OK : Z := 0.
Definition R4OS_STORAGE_ERROR_INVALID : Z := -1.
Definition R4OS_STORAGE_ERROR_BUSY : Z := -3.
Definition R4OS_STORAGE_ERROR_IO : Z := -7.
Definition R4OS_STORAGE_ERROR_UNSUPPORTED : Z := -8.
Definition R4OS_STORAGE_ERROR_REMOUNT : Z := -9.
Definition R4OS_STORAGE_RAW_MAX_SECTORS : Z := 256.
Definition R4OS_STORAGE_CLAIM_END_KEEP_UNMOUNTED : Z := 1.
Definition R4OS_STORAGE_TARGET_DEVICE : Z := 1.

(** [R4Storage]. *)
Definition Storage_t : ctype := Struct [("system", U64)].

Section code.
Context {K : Type} `{!Kernel K}.

(** [s == 0 ? 0 : s->system]. *)
Definition storage_system (s : Z) : M K Z := if s =? 0 then mret 0 else get Storage_t "system" s.

(** [R4_STORAGE_HAS]. *)
Definition storage_has (s : Z) (name : string) : M K bool :=
  system ← storage_system s; sys_supports name [name] system.

(** [R4_STORAGE_CALL]; the arguments are evaluated only for the call. *)
Definition storage_call_with (s : Z) (name : string) (args : M K (list Z)) : M K Z :=
  ok ← storage_has s name;
  if negb ok then mret R4OS_STORAGE_ERROR_UNSUPPORTED else
  args ← args;
  system ← storage_system s; sys_call name system args.
Definition storage_call (s : Z) (name : string) (args : list Z) : M K Z := storage_call_with s name (mret args).

Definition r4_storage_available (s : Z) : M K bool :=
  a ← storage_has s "storage_inventory";
  if negb a then mret false else
  a ← storage_has s "storage_claim_begin";
  if negb a then mret false else
  a ← storage_has s "storage_use_begin";
  if negb a then mret false else storage_has s "storage_use_end".

(** [T value = {0}; value.version = 1; value.size = sizeof(value); *out = value]. *)
Definition fresh_info (T : ctype) (out : Z) : M K () :=
  _ ← clear T out; _ ← put T "version" out 1; put T "size" out (sizeof T).

Definition r4_storage_inventory (s out : Z) : M K Z :=
  if out =? 0 then mret R4OS_STORAGE_ERROR_INVALID else
  _ ← fresh_info R4StorageInventory out; storage_call s "storage_inventory" [out].

Definition r4_storage_device (s generation slot out : Z) : M K Z :=
  if out =? 0 then mret R4OS_STORAGE_ERROR_INVALID else
  _ ← fresh_info R4StorageDeviceInfo out; storage_call s "storage_device" [generation; slot; out].

Definition r4_storage_partition (s generation device slot out : Z) : M K Z :=
  if out =? 0 then mret R4OS_STORAGE_ERROR_INVALID else
  _ ← fresh_info R4StoragePartitionInfo out; storage_call s "storage_partition" [generation; device; slot; out].

Definition r4_storage_volume (s generation slot out : Z) : M K Z :=
  if out =? 0 then mret R4OS_STORAGE_ERROR_INVALID else
  _ ← fresh_info R4StorageVolumeInfo out; storage_call s "storage_volume" [generation; slot; out].

(** The structure it returns is at [target]; [disk->reference] is copied as a whole. *)
Definition r4_storage_whole_device (target disk : Z) : M K () :=
  _ ← fresh_info R4StorageTarget target;
  if disk =? 0 then mret () else
  slot ← load 4 (disk + offsetof R4StorageDeviceInfo "reference");
  _ ← store 4 (target + offsetof R4StorageTarget "device") slot;
  reserved ← load 4 (disk + offsetof R4StorageDeviceInfo "reference" + 4);
  _ ← store 4 (target + offsetof R4StorageTarget "device" + 4) reserved;
  generation ← load 8 (disk + offsetof R4StorageDeviceInfo "reference" + 8);
  _ ← store 8 (target + offsetof R4StorageTarget "device" + 8) generation;
  layout_generation ← get R4StorageDeviceInfo "layout_generation" disk;
  _ ← put R4StorageTarget "layout_generation" target layout_generation;
  sector_count ← get R4StorageDeviceInfo "sector_count" disk;
  _ ← put R4StorageTarget "sector_count" target sector_count;
  put R4StorageTarget "kind" target R4OS_STORAGE_TARGET_DEVICE.

(** ** Claims *)

Definition r4_storage_claim_begin (s target claim : Z) : M K Z :=
  if (target =? 0) || (claim =? 0) then mret R4OS_STORAGE_ERROR_INVALID else
  _ ← store 8 claim 0; storage_call s "storage_claim_begin" [target; claim].

(** The statuses after which the kernel has given the claim up. *)
Definition claim_consumed (result : Z) : bool :=
  (result =? R4OS_STORAGE_RESULT_OK) || (result =? R4OS_STORAGE_ERROR_IO) || (result =? R4OS_STORAGE_ERROR_REMOUNT).

Definition r4_storage_claim_end (s claim : Z) (keep_unmounted : bool) : M K Z :=
  if claim =? 0 then mret R4OS_STORAGE_ERROR_INVALID else
  result ← storage_call_with s "storage_claim_end"
    (c ← load 8 claim; mret [c; if keep_unmounted then R4OS_STORAGE_CLAIM_END_KEEP_UNMOUNTED else 0]);
  _ ← (if claim_consumed result then store 8 claim 0 else mret ());
  mret result.

(** A raw transfer is a positive number of whole sectors, at most 256. *)
Definition transfer_bad (bytes : Z) : bool :=
  (bytes =? 0) || negb (bytes mod 512 =? 0) || (R4OS_STORAGE_RAW_MAX_SECTORS <? bytes / 512).

Definition r4_storage_read (s target relative_lba buffer bytes : Z) : M K Z :=
  if (buffer =? 0) || (target =? 0) || transfer_bad bytes then mret R4OS_STORAGE_ERROR_INVALID
  else storage_call s "storage_read" [target; relative_lba; bytes / 512; buffer; bytes].

Definition r4_storage_claim_read (s claim relative_lba buffer bytes : Z) : M K Z :=
  if (buffer =? 0) || (claim =? 0) || transfer_bad bytes then mret R4OS_STORAGE_ERROR_INVALID
  else storage_call s "storage_claim_read" [claim; relative_lba; bytes / 512; buffer; bytes].

Definition r4_storage_claim_write (s claim relative_lba buffer bytes : Z) : M K Z :=
  if (buffer =? 0) || (claim =? 0) || transfer_bad bytes then mret R4OS_STORAGE_ERROR_INVALID
  else storage_call s "storage_claim_write" [claim; relative_lba; bytes / 512; buffer; bytes].

Definition r4_storage_claim_flush (s claim : Z) : M K Z := storage_call s "storage_claim_flush" [claim].

(** ** Mounting and uses *)

Definition r4_storage_rescan (s device : Z) : M K Z :=
  if device =? 0 then mret R4OS_STORAGE_ERROR_INVALID else storage_call s "storage_rescan" [device].

Definition r4_storage_mount (s target letter out : Z) : M K Z :=
  if (target =? 0) || (out =? 0) then mret R4OS_STORAGE_ERROR_INVALID else
  _ ← clear R4StorageVolumeRef out; storage_call s "storage_mount" [target; letter; out].

Definition r4_storage_unmount (s volume : Z) : M K Z :=
  if volume =? 0 then mret R4OS_STORAGE_ERROR_INVALID else storage_call s "storage_unmount" [volume].

Definition r4_storage_use_begin (s path use : Z) : M K Z :=
  if (path =? 0) || (use =? 0) then mret R4OS_STORAGE_ERROR_INVALID else
  _ ← store 8 use 0; storage_call s "storage_use_begin" [path; use].

Definition r4_storage_use_end (s use : Z) : M K Z :=
  if use =? 0 then mret R4OS_STORAGE_ERROR_INVALID else
  u ← load 8 use;
  if u =? 0 then mret R4OS_STORAGE_RESULT_OK else
  result ← storage_call_with s "storage_use_end" (u ← load 8 use; mret [u]);
  _ ← (if result =? R4OS_STORAGE_RESULT_OK then store 8 use 0 else mret ());
  mret result.

Definition r4_storage_transfer_use_begin (s path use : Z) : M K Z :=
  if (path =? 0) || (use =? 0) then mret R4OS_STORAGE_ERROR_INVALID else
  a ← storage_has s "storage_use_begin";
  b ← (if negb a then storage_has s "storage_claim_begin" else mret true);
  if negb a && negb b then _ ← store 8 use 0; mret R4OS_STORAGE_RESULT_OK
  else r4_storage_use_begin s path use.
End code.

End R4Storage.
