(* ===== verification/R4StorageSpec.v ===== *)
(** * The storage facade: what its calls do

    The wrappers one by one, in terms of one call of a slot of the kernel, and
    the statuses by which the kernel's contract ends a claim. *)

From S2P Require Import Prelude R4Abi R4Mem R4L R4LSpec.
From S2P Require Import R4Table R4Sys R4SysSpec R4SysInit R4Storage.

Module R4StorageSpec.
Export R4Storage.

Section spec.
Context {K : Type} `{!Kernel K}.
Implicit Types (w : world K) (m : gmap Z byte).

Definition system_of m (s : Z) : Z := if s =? 0 then 0 else fv m Storage_t s "system".

Record storage_ok m (s : Z) : Prop := {
  st_mapped : s ≠ 0 → mapped m s 8;
  st_system : sys_ok 0 m (system_of m s)
}.

Definition supplied w (s : Z) (name : string) : bool := has w (system_of (mem w) s) [name].

(** One call of a slot, if there is one. *)
Definition storage_slot w (s : Z) (name : string) (args : list Z) : option (Z * world K) :=
  if supplied w s name then kernel_call w (system_of (mem w) s) name args
  else Some (R4OS_STORAGE_ERROR_UNSUPPORTED, w).

Definition storage_name (name : string) : bool :=
  guards R4XStartR4Sys name [name] && (existsb (String.eqb name) [name] && is_slot R4XStartR4Sys name).

Lemma system_run w s : storage_ok (mem w) s → storage_system s w = Some (system_of (mem w) s, w).
Proof.
  intros [Hm _]. unfold storage_system, system_of. destruct (Z.eqb_spec s 0); [done|].
  by apply (get_run w Storage_t "system" s 8 (Hm n) eq_refl).
Qed.

Lemma storage_has_run w s name :
  storage_ok (mem w) s → storage_name name = true → storage_has s name w = Some (supplied w s name, w).
Proof.
  intros Hok [Hg _]%andb_true_iff. unfold storage_has. rewrite (mbind_run _ _ _ _ _ (system_run w s Hok)).
  by apply (sys_supports_run 0); [apply Hok|].
Qed.

Lemma storage_call_with_run w s name (args : M K (list Z)) l :
  storage_ok (mem w) s → storage_name name = true → args w = Some (l, w) →
  storage_call_with s name args w = storage_slot w s name l.
Proof.
  intros Hok Hn Ha. unfold storage_call_with, storage_slot. rewrite (mbind_run _ _ _ _ _ (storage_has_run w s name Hok Hn)).
  destruct (supplied w s name) eqn:E; [|done]. cbn [negb].
  rewrite (mbind_run _ _ _ _ _ Ha), (mbind_run _ _ _ _ _ (system_run w s Hok)).
  apply andb_true_iff in Hn as [_ Hs]. by apply (sys_call_run 0 w _ [name]); [apply Hok|..].
Qed.

Lemma storage_call_run w s name l :
  storage_ok (mem w) s → storage_name name = true → storage_call s name l w = storage_slot w s name l.
Proof. intros Hok Hn. by apply storage_call_with_run. Qed.

(** ** Stores beside the facade *)

Record beside m (s a n : Z) : Prop := {
  be_self : s ≠ 0 → a + n ≤ s ∨ s + 8 ≤ a;
  be_system : apart m (system_of m s) a n
}.

Lemma changed_storage m m' s a n :
  changed m m' a n → storage_ok m s → beside m s a n →
  storage_ok m' s ∧ system_of m' s = system_of m s ∧ (∀ b k, beside m s b k → beside m' s b k).
Proof.
  intros Hch [Hm Hsys] [Hself Hap].
  assert (system_of m' s = system_of m s) as E.
  { unfold system_of. destruct (Z.eqb_spec s 0); [done|].
    apply (changed_fv _ _ _ _ Storage_t s "system" 8 Hch eq_refl). by apply Hself. }
  destruct (changed_sys 0 m m' a n _ Hch Hsys Hap) as (Hsys' & _ & _ & Hap').
  split_and!; [split; [intros ?; eapply changed_mapped; [done|by apply Hm]|by rewrite E]|done|].
  intros b k [Hb1 Hb2]. split; [done|]. rewrite E. by apply Hap'.
Qed.

Lemma changed_supplied m m' (k k' : K) s a n name :
  changed m m' a n → storage_ok m s → beside m s a n → is_slot R4XStartR4Sys name = true →
  supplied (World m' k') s name = supplied (World m k) s name.
Proof.
  intros Hch Hok Hb Hs. destruct (changed_storage _ _ _ _ _ Hch Hok Hb) as (_ & E & _).
  unfold supplied. cbn [mem]. rewrite E. eapply has_changed; [done|apply Hok|apply Hb|]. simpl. by rewrite Hs.
Qed.

(** ** Fresh information structures *)

(** A structure whose version is 1, whose size is its own and which is zero otherwise. *)
Record fresh m (T : ctype) (out : Z) : Prop := {
  fr_version : fv m T out "version" = 1;
  fr_size : fv m T out "size" = sizeof T;
  fr_zero : ∀ x, out + 8 ≤ x < out + sizeof T → m !! x = Some x00
}.

Definition is_info (T : ctype) : bool :=
  bool_decide (field_at T "version" = Some (0, 4%nat)) && bool_decide (field_at T "size" = Some (4, 4%nat)) &&
  (8 <=? sizeof T) && (sizeof T <? 2 ^ 32).

Lemma fresh_info_run w T out :
  is_info T = true → mapped (mem w) out (sizeof T) →
  ∃ m', fresh_info T out w = Some ((), World m' (kern w)) ∧ changed (mem w) m' out (sizeof T) ∧ fresh m' T out.
Proof.
  intros Hi Hm. unfold is_info in Hi. rewrite !andb_true_iff, !bool_decide_eq_true, Z.leb_le, Z.ltb_lt in Hi.
  destruct Hi as [[[Hv Hs] H8] H32].
  assert (field_in T "version" 8 = true ∧ field_in T "size" 8 = true ∧ field_in T "version" 4 = true) as (Hv8 & Hs8 & Hv4).
  { unfold field_in. by rewrite Hv, Hs. }
  destruct (clear_zero w T out ltac:(lia) Hm) as (m1 & Hr1 & Hc1 & Hz1).
  assert (mapped m1 out 8) as Hm1 by (eapply changed_mapped; [done|eapply mapped_sub; [done|lia|lia]]).
  destruct (put_run (World m1 (kern w)) T "version" out 1 8 0 4 Hm1 Hv Hv8) as (m2 & Hr2 & Hc2 & Hf2). cbn [mem kern] in Hr2, Hc2.
  assert (mapped m2 out 8) as Hm2 by (by eapply changed_mapped).
  destruct (put_run (World m2 (kern w)) T "size" out (sizeof T) 8 4 4 Hm2 Hs Hs8) as (m3 & Hr3 & Hc3 & Hf3). cbn [mem kern] in Hr3, Hc3.
  exists m3. unfold fresh_info. rewrite (mbind_run _ _ _ _ _ Hr1), (mbind_run _ _ _ _ _ Hr2), Hr3. split_and!; [done| |].
  - eapply changed_trans; [done|]. eapply changed_trans; (eapply changed_sub; [eassumption|lia|lia]).
  - split.
    + rewrite (changed_fv _ _ _ _ T out "version" 4 Hc3 Hv4) by lia. by rewrite Hf2.
    + rewrite Hf3. apply Z.mod_small. lia.
    + intros x Hx. rewrite (ch_out _ _ _ _ Hc3), (ch_out _ _ _ _ Hc2), Hz1 by lia. done.
Qed.

(** A wrapper that writes [n] bytes at [out] and then calls a slot. *)
Definition prepared w (s out n : Z) (done : gmap Z byte → Prop) (name : string) (args : list Z) (code : M K Z) : Prop :=
  ∃ m', changed (mem w) m' out n ∧ done m' ∧ code w = storage_slot (World m' (kern w)) s name args.

Lemma prepared_run w s out n (done : gmap Z byte → Prop) (pre : M K ()) m' name args :
  pre w = Some ((), World m' (kern w)) → changed (mem w) m' out n → done m' →
  storage_ok (mem w) s → beside (mem w) s out n → storage_name name = true →
  prepared w s out n done name args (_ ← pre; storage_call s name args).
Proof.
  intros Hr Hc Hd Hok Hb Hn. exists m'. split_and!; [done|done|]. rewrite (mbind_run _ _ _ _ _ Hr).
  apply storage_call_run; [|done]. by eapply changed_storage.
Qed.

(** A handle variable that is cleared when the kernel has consumed the handle. *)
Definition ends w (s a : Z) (consumed : Z → bool) (name : string) (args : list Z) (code : M K Z) : Prop :=
  ∀ r w1, storage_slot w s name args = Some (r, w1) → mapped (mem w1) a 8 →
  ∃ m2, code w = Some (r, World m2 (kern w1)) ∧
    (if consumed r then changed (mem w1) m2 a 8 ∧ cell m2 a 0 else m2 = mem w1).

Lemma ends_run w s a (consumed : Z → bool) name (args : M K (list Z)) l :
  storage_ok (mem w) s → storage_name name = true → args w = Some (l, w) →
  ends w s a consumed name l
    (result ← storage_call_with s name args;
     _ ← (if consumed result then store 8 a 0 else mret ()); mret result).
Proof.
  intros Hok Hn Ha r w1 Hr Hm. assert (World (mem w1) (kern w1) = w1) as Hw by (by destruct w1).
  rewrite <-(storage_call_with_run w s name args l Hok Hn Ha) in Hr. rewrite (mbind_run _ _ _ _ _ Hr).
  destruct (consumed r).
  - destruct (store_cell_run w1 a 0 Hm ltac:(done)) as (m2 & Hs & Hc & Hv). exists m2. by rewrite (mbind_run _ _ _ _ _ Hs).
  - exists (mem w1). by rewrite Hw.
Qed.
End spec.

(** The statuses of a completed close: "A completed close consumes the claim
    even when I/O or remount fails; BUSY retains a finishing claim for retry"
    (storage_claim_end in ApiContract.json). *)
Definition completed_close : list Z :=
  [R4OS_STORAGE_RESULT_OK; R4OS_STORAGE_ERROR_IO; R4OS_STORAGE_ERROR_REMOUNT].

(** The program drops its handle after exactly those statuses. *)
Lemma claim_consumed_completed st : claim_consumed st = bool_decide (st ∈ completed_close).
Proof.
  apply eq_true_iff_eq. unfold claim_consumed, completed_close.
  rewrite bool_decide_eq_true, !orb_true_iff, !Z.eqb_eq, !elem_of_cons, elem_of_nil. tauto.
Qed.

Section calls.
Context {K : Type} `{!Kernel K}.
Implicit Types (w : world K) (m : gmap Z byte).

(** C22. The storage wrappers: bad arguments are refused without a call, so that a
    raw transfer always names whole sectors, at most 256; a missing slot is
    reported; an information structure is handed to the kernel fresh; a handle
    is zero before it is asked for, and is cleared exactly after the statuses by
    which storage.h says the kernel has consumed it. *)
Theorem storage_calls w s :
  storage_ok (mem w) s →
  let call (bad : bool) name args := if bad then Some (R4OS_STORAGE_ERROR_INVALID, w) else storage_slot w s name args in
  let usable out n := out ≠ 0 ∧ mapped (mem w) out n ∧ beside (mem w) s out n in
  let refused (code : M K Z) := code w = Some (R4OS_STORAGE_ERROR_INVALID, w) in
  let info T out name args code := usable out (sizeof T) → prepared w s out (sizeof T) (λ m', fresh m' T out) name args code in
  (∀ t lba b n, r4_storage_read s t lba b n w =
     call ((b =? 0) || (t =? 0) || transfer_bad n) "storage_read" [t; lba; n / 512; b; n]) ∧
  (∀ c lba b n, r4_storage_claim_read s c lba b n w =
     call ((b =? 0) || (c =? 0) || transfer_bad n) "storage_claim_read" [c; lba; n / 512; b; n]) ∧
  (∀ c lba b n, r4_storage_claim_write s c lba b n w =
     call ((b =? 0) || (c =? 0) || transfer_bad n) "storage_claim_write" [c; lba; n / 512; b; n]) ∧
  (∀ n, is_u32 n → transfer_bad n = false ↔ (512 | n) ∧ 512 ≤ n ≤ 256 * 512) ∧
  (∀ c, r4_storage_claim_flush s c w = call false "storage_claim_flush" [c]) ∧
  (∀ d, r4_storage_rescan s d w = call (d =? 0) "storage_rescan" [d]) ∧
  (∀ v, r4_storage_unmount s v w = call (v =? 0) "storage_unmount" [v]) ∧
  (∀ out, info R4StorageInventory out "storage_inventory" [out] (r4_storage_inventory s out)) ∧
  (∀ g i out, info R4StorageDeviceInfo out "storage_device" [g; i; out] (r4_storage_device s g i out)) ∧
  (∀ g d i out, info R4StoragePartitionInfo out "storage_partition" [g; d; i; out] (r4_storage_partition s g d i out)) ∧
  (∀ g i out, info R4StorageVolumeInfo out "storage_volume" [g; i; out] (r4_storage_volume s g i out)) ∧
  (∀ t l out, t ≠ 0 → usable out (sizeof R4StorageVolumeRef) →
     prepared w s out (sizeof R4StorageVolumeRef) (λ m', ∀ x, out ≤ x < out + 16 → m' !! x = Some x00)
       "storage_mount" [t; l; out] (r4_storage_mount s t l out)) ∧
  (∀ t c, t ≠ 0 → usable c 8 →
     prepared w s c 8 (λ m', cell m' c 0) "storage_claim_begin" [t; c] (r4_storage_claim_begin s t c)) ∧
  (∀ p u, p ≠ 0 → usable u 8 →
     prepared w s u 8 (λ m', cell m' u 0) "storage_use_begin" [p; u] (r4_storage_use_begin s p u)) ∧
  (∀ c v keep, c ≠ 0 → cell (mem w) c v →
     ends w s c (λ r, bool_decide (r ∈ completed_close)) "storage_claim_end"
       [v; if keep : bool then R4OS_STORAGE_CLAIM_END_KEEP_UNMOUNTED else 0] (r4_storage_claim_end s c keep)) ∧
  (∀ u, u ≠ 0 → cell (mem w) u 0 → r4_storage_use_end s u w = Some (R4OS_STORAGE_RESULT_OK, w)) ∧
  (∀ u v, u ≠ 0 → v ≠ 0 → cell (mem w) u v →
     ends w s u (λ r, r =? R4OS_STORAGE_RESULT_OK) "storage_use_end" [v] (r4_storage_use_end s u)) ∧
  (∀ g d i, refused (r4_storage_inventory s 0) ∧ refused (r4_storage_device s g i 0) ∧
     refused (r4_storage_partition s g d i 0) ∧ refused (r4_storage_volume s g i 0)) ∧
  (∀ t l out, t = 0 ∨ out = 0 → refused (r4_storage_mount s t l out) ∧
     refused (r4_storage_claim_begin s t out) ∧ refused (r4_storage_use_begin s t out)) ∧
  (∀ keep, refused (r4_storage_claim_end s 0 keep) ∧ refused (r4_storage_use_end s 0)).
Proof.
  intros Hok call usable refused info. unfold call, refused, info.
  assert (∀ T out name args, is_info T = true → storage_name name = true → usable out (sizeof T) →
    prepared w s out (sizeof T) (λ m', fresh m' T out) name args (_ ← fresh_info T out; storage_call s name args)) as Hinfo.
  { intros T out name args HT Hn (_ & Hm & Hb). destruct (fresh_info_run w T out HT Hm) as (m' & Hr & Hc & Hf). by eapply prepared_run. }
  assert (∀ a name args, storage_name name = true → usable a 8 →
    prepared w s a 8 (λ m', cell m' a 0) name args (_ ← store 8 a 0; storage_call s name args)) as Hcell.
  { intros a name args Hn (_ & Hm & Hb). destruct (store_cell_run w a 0 Hm ltac:(done)) as (m' & Hr & Hc & Hf). by eapply prepared_run. }
  split_and!; intros.
  - unfold r4_storage_read. destruct (_ || _); [done|]. by apply storage_call_run.
  - unfold r4_storage_claim_read. destruct (_ || _); [done|]. by apply storage_call_run.
  - unfold r4_storage_claim_write. destruct (_ || _); [done|]. by apply storage_call_run.
  - unfold transfer_bad, is_u32, R4OS_STORAGE_RAW_MAX_SECTORS in *.
    rewrite !orb_false_iff, negb_false_iff, Z.eqb_neq, Z.eqb_eq, Z.ltb_ge, Z.mod_divide by lia.
    split; [intros [[Hn Hd] Hle]|intros [Hd Hn]]; destruct Hd as [q ->]; rewrite ?Z.div_mul in * by lia; split_and?; try lia; by exists q.
  - unfold r4_storage_claim_flush. by apply storage_call_run.
  - unfold r4_storage_rescan. destruct (_ =? _); [done|]. by apply storage_call_run.
  - unfold r4_storage_unmount. destruct (_ =? _); [done|]. by apply storage_call_run.
  - unfold r4_storage_inventory. rewrite (proj2 (Z.eqb_neq out 0)) by apply H. by apply Hinfo.
  - unfold r4_storage_device. rewrite (proj2 (Z.eqb_neq out 0)) by apply H. by apply Hinfo.
  - unfold r4_storage_partition. rewrite (proj2 (Z.eqb_neq out 0)) by apply H. by apply Hinfo.
  - unfold r4_storage_volume. rewrite (proj2 (Z.eqb_neq out 0)) by apply H. by apply Hinfo.
  - unfold r4_storage_mount. destruct H0 as (Ho & Hm & Hb). rewrite (proj2 (Z.eqb_neq t 0)), (proj2 (Z.eqb_neq out 0)) by done.
    cbn [orb]. destruct (clear_zero w R4StorageVolumeRef out ltac:(done) Hm) as (m' & Hr & Hc & Hz).
    by eapply prepared_run.
  - unfold r4_storage_claim_begin. rewrite (proj2 (Z.eqb_neq t 0)), (proj2 (Z.eqb_neq c 0)) by (done || apply H0). by apply Hcell.
  - unfold r4_storage_use_begin. rewrite (proj2 (Z.eqb_neq p 0)), (proj2 (Z.eqb_neq u 0)) by (done || apply H0). by apply Hcell.
  - intros r w1. rewrite <-claim_consumed_completed. revert r w1. unfold r4_storage_claim_end. rewrite (proj2 (Z.eqb_neq c 0)) by done.
    apply (ends_run w s c claim_consumed); [done|done|]. by rewrite (mbind_run _ _ _ _ _ (load_cell_run w c v ltac:(done))).
  - unfold r4_storage_use_end. rewrite (proj2 (Z.eqb_neq u 0)) by done.
    by rewrite (mbind_run _ _ _ _ _ (load_cell_run w u 0 ltac:(done))).
  - intros r w1 Hr Hm. unfold r4_storage_use_end. rewrite (proj2 (Z.eqb_neq u 0)) by done.
    rewrite (mbind_run _ _ _ _ _ (load_cell_run w u v ltac:(done))), (proj2 (Z.eqb_neq v 0)) by done.
    revert r w1 Hr Hm. apply (ends_run w s u (λ r, r =? R4OS_STORAGE_RESULT_OK)); [done|done|].
    by rewrite (mbind_run _ _ _ _ _ (load_cell_run w u v ltac:(done))).
  - done.
  - unfold r4_storage_mount, r4_storage_claim_begin, r4_storage_use_begin. destruct H as [-> | ->]; rewrite ?orb_true_r; done.
  - done.
Qed.
End calls.

(** ** An example *)

Definition storage_demo : world call_log := World (image [
  (128, struct_bytes Storage_t [256]); (256, struct_bytes R4Sys_t [0; 4096]);
  (4096, demo_table R4XStartR4Sys 1264)]) [].

(** Three sectors are read; 700 bytes are not. *)
Lemma storage_calls_witness :
  observed (r4_storage_read 128 64 9 2048 1536 storage_demo) = Some (0, [(7132, [64; 9; 3; 2048; 1536])]) ∧
  observed (r4_storage_read 128 64 9 2048 700 storage_demo) = Some (R4OS_STORAGE_ERROR_INVALID, []).
Proof.
  destruct (storage_calls storage_demo 128) as [H _].
  - split; [intros _; apply mapped_b_mapped; vm_compute; reflexivity|].
    assert (system_of (mem storage_demo) 128 = 256) as -> by (vm_compute; reflexivity).
    apply (sys_ok_check _ 0 256 1264); vm_compute; (reflexivity || discriminate).
  - rewrite !H. split; vm_compute; reflexivity.
Defined.

End R4StorageSpec.
