(* ===== verification/R4Claim.v ===== *)
(** * Claims as a protocol

    A program that keeps one claim handle and runs any sequence of operations of
    storage.h on it, against a kernel that keeps its own set of open claims. The
    kernel is a parameter; the class [ClaimKernel] has what its contract
    (Platform/Contract/API/ApiContract.json) says about the five functions. The program must not ask for a claim while it has
    one, since that would overwrite the handle. *)

From S2P Require Import Prelude R4Abi R4Mem R4L R4LSpec R4Table.
From S2P Require Import R4Sys R4SysSpec R4SysInit R4Field R4Storage.
From S2P Require Import R4StorageSpec.

Module R4Claim.
Export R4Field R4StorageSpec.

(** ** The kernel's side *)

(** The functions behind the slots. *)
Record claim_functions := ClaimFunctions { f_begin : Z; f_end : Z; f_read : Z; f_write : Z; f_flush : Z }.

Class ClaimKernel (K : Type) `{!Kernel K} (opened : K → gset Z) (fs : claim_functions) : Prop := {
  (** A claim that is granted is new and its handle is stored; otherwise nothing happens. *)
  begin_law : ∀ w target out, mapped (mem w) out 8 →
    let r := kcall (f_begin fs) [target; out] w in
    if i32 (fst r) =? R4OS_STORAGE_RESULT_OK
    then ∃ id, 0 < id < 2 ^ 64 ∧ (id ∉ opened (kern w)) ∧ opened (kern (snd r)) = {[id]} ∪ opened (kern w) ∧
      changed (mem w) (mem (snd r)) out 8 ∧ cell (mem (snd r)) out id
    else mem (snd r) = mem w ∧ opened (kern (snd r)) = opened (kern w);
  (** Ending consumes an open claim when it is completed, and keeps it otherwise. *)
  end_law : ∀ w id flags, let r := kcall (f_end fs) [id; flags] w in
    mem (snd r) = mem w ∧
    (if decide (i32 (fst r) ∈ completed_close)
     then id ∈ opened (kern w) ∧ opened (kern (snd r)) = opened (kern w) ∖ {[id]}
     else opened (kern (snd r)) = opened (kern w));
  (** I/O under a claim touches no claim, and writes to the given buffer only. *)
  read_law : ∀ w id lba sectors buffer bytes, let r := kcall (f_read fs) [id; lba; sectors; buffer; bytes] w in
    changed (mem w) (mem (snd r)) buffer bytes ∧ opened (kern (snd r)) = opened (kern w);
  write_law : ∀ w id lba sectors buffer bytes, let r := kcall (f_write fs) [id; lba; sectors; buffer; bytes] w in
    mem (snd r) = mem w ∧ opened (kern (snd r)) = opened (kern w);
  flush_law : ∀ w id, let r := kcall (f_flush fs) [id] w in
    mem (snd r) = mem w ∧ opened (kern (snd r)) = opened (kern w)
}.

(** ** The program's side *)

Inductive claim_op :=
  | OpBegin (target : Z)
  | OpEnd (keep_unmounted : bool)
  | OpRead (lba buffer bytes : Z)
  | OpWrite (lba buffer bytes : Z)
  | OpFlush.

Section protocol.
Context {K : Type} `{!Kernel K} (opened : K → gset Z) (fs : claim_functions) `{!ClaimKernel K opened fs}.
Variables (s claim : Z).
Implicit Types (w : world K) (m : gmap Z byte).

(** One operation on the handle variable at [claim]. *)
Definition claim_run (op : claim_op) : M K Z :=
  match op with
  | OpBegin target => r4_storage_claim_begin s target claim
  | OpEnd keep => r4_storage_claim_end s claim keep
  | OpRead lba buffer bytes => c ← load 8 claim; r4_storage_claim_read s c lba buffer bytes
  | OpWrite lba buffer bytes => c ← load 8 claim; r4_storage_claim_write s c lba buffer bytes
  | OpFlush => c ← load 8 claim; r4_storage_claim_flush s c
  end.

(** No claim is asked for while one is held, and a read buffer is beside the
    program's own data. *)
Definition allowed m (op : claim_op) : Prop :=
  match op with
  | OpBegin _ => cell m claim 0
  | OpRead _ buffer bytes => beside m s buffer bytes ∧ (buffer + bytes ≤ claim ∨ claim + 8 ≤ buffer)
  | _ => True
  end.

Inductive claim_step w : Z → world K → Prop :=
  | claim_step_run op st w' : allowed (mem w) op → claim_run op w = Some (st, w') → claim_step w st w'.

Inductive claim_steps w : world K → Prop :=
  | claim_steps_refl : claim_steps w w
  | claim_steps_step st w1 w2 : claim_step w st w1 → claim_steps w1 w2 → claim_steps w w2.

(** The table's slots are the kernel's functions, where it has them. *)
Definition slots_are m : Prop := ∀ name f,
  (name, f) ∈ [("storage_claim_begin", f_begin fs); ("storage_claim_end", f_end fs); ("storage_claim_read", f_read fs);
               ("storage_claim_write", f_write fs); ("storage_claim_flush", f_flush fs)] →
  table_ptr m (system_of m s) ≠ 0 →
  let g := slot_of m R4XStartR4Sys (table_ptr m (system_of m s)) name in g = 0 ∨ g = f.

(** The program can work, and the handle variable says which claims are open. *)
Record claim_inv w : Prop := {
  ci_ok : storage_ok (mem w) s;
  ci_slots : slots_are (mem w);
  ci_claim : claim ≠ 0 ∧ mapped (mem w) claim 8 ∧ beside (mem w) s claim 8;
  ci_held : ∃ c, cell (mem w) claim c ∧ opened (kern w) = if c =? 0 then ∅ else {[c]}
}.

(** A call of one of the five functions. *)
Lemma slot_run w name f args :
  claim_inv w →
  (name, f) ∈ [("storage_claim_begin", f_begin fs); ("storage_claim_end", f_end fs); ("storage_claim_read", f_read fs);
               ("storage_claim_write", f_write fs); ("storage_claim_flush", f_flush fs)] →
  storage_slot w s name args =
    Some (if supplied w s name then (i32 (fst (kcall f args w)), snd (kcall f args w)) else (R4OS_STORAGE_ERROR_UNSUPPORTED, w)).
Proof.
  intros Hi Hin. unfold storage_slot, supplied. destruct (has w _ [name]) eqn:E; [|done]. unfold kernel_call.
  unfold has, provides in E. cbn [forallb] in E. rewrite andb_true_r, andb_true_iff, !negb_true_iff, !Z.eqb_neq in E.
  destruct (ci_slots _ Hi name f Hin (proj1 E)) as [H| ->]; [naive_solver|done].
Qed.

(** The invariant depends on the memory only through what a store beside leaves alone. *)
Lemma claim_inv_changed w m' k a n c :
  claim_inv w → changed (mem w) m' a n → beside (mem w) s a n → cell m' claim c →
  opened k = (if c =? 0 then ∅ else {[c]}) → claim_inv (World m' k).
Proof.
  intros [Hok Hsl (Hc0 & Hcm & Hcb) _] Hch Hb Hcell Hop.
  destruct (changed_storage _ _ _ _ _ Hch Hok Hb) as (Hok' & Es & Hbe).
  destruct (changed_sys 0 _ _ _ _ _ Hch (st_system _ _ Hok) (be_system _ _ _ _ Hb)) as (_ & Ep & Eslot & _).
  split; cbn [mem kern]; [done| |split_and!; [done|by eapply changed_mapped|by apply Hbe]|by exists c].
  intros name f Hin. rewrite Es, Ep. intros Hne. destruct (Eslot name) as [Eq|]; [|rewrite Ep in Eq|done].
  - rewrite !elem_of_cons in Hin. destruct Hin as [[= -> _]|[[= -> _]|[[= -> _]|[[= -> _]|[[= -> _]|Hin]]]]]; try done. by apply elem_of_nil in Hin.
  - rewrite Eq. by apply Hsl.
Qed.

Lemma world_eta w : World (mem w) (kern w) = w.
Proof. by destruct w. Qed.

Lemma claim_inv_same w w' :
  claim_inv w → mem w' = mem w → opened (kern w') = opened (kern w) → claim_inv w'.
Proof. intros [H1 H2 H3 H4] Hm Ho. split; rewrite Hm; [done|done|done|by rewrite Ho]. Qed.

Lemma begin_inv w target :
  claim_inv w → cell (mem w) claim 0 →
  ∃ st w', r4_storage_claim_begin s target claim w = Some (st, w') ∧ claim_inv w'.
Proof.
  intros Hi Hc. destruct (ci_claim _ Hi) as (Hc0 & Hcm & Hcb). unfold r4_storage_claim_begin.
  destruct (target =? 0); [by exists R4OS_STORAGE_ERROR_INVALID, w|]. rewrite (proj2 (Z.eqb_neq claim 0) Hc0). cbn [orb].
  assert (opened (kern w) = ∅) as Hnone.
  { destruct (ci_held _ Hi) as (c & Hcell & ->). by rewrite (cell_unique _ _ _ _ Hcell Hc). }
  destruct (store_cell_run w claim 0 Hcm ltac:(done)) as (m1 & Hr & Hch & Hz). rewrite (mbind_run _ _ _ _ _ Hr).
  assert (claim_inv (World m1 (kern w))) as Hi1 by (by eapply claim_inv_changed).
  rewrite (storage_call_run (World m1 (kern w)) s "storage_claim_begin" _ (ci_ok _ Hi1) eq_refl).
  rewrite (slot_run _ "storage_claim_begin" (f_begin fs) _ Hi1) by set_solver.
  destruct (supplied _ _ _); [|by eexists _, _]. eexists _, _. split; [done|].
  pose proof (begin_law (World m1 (kern w)) target claim (proj1 (proj2 (ci_claim _ Hi1)))) as Hlaw. cbv zeta in Hlaw.
  destruct (_ =? _) in Hlaw.
  - destruct Hlaw as (id & Hid & _ & Hop & Hch' & Hcell). rewrite <-world_eta.
    eapply (claim_inv_changed (World m1 (kern w)) _ _ claim 8 id); [done|done|apply Hi1|done|].
    rewrite Hop. cbn [kern]. rewrite Hnone, (proj2 (Z.eqb_neq id 0)) by lia. set_solver.
  - destruct Hlaw as [Hm Hop]. by eapply claim_inv_same.
Qed.

Lemma end_inv w keep :
  claim_inv w → ∃ st w', r4_storage_claim_end s claim keep w = Some (st, w') ∧ claim_inv w'.
Proof.
  intros Hi. destruct (ci_claim _ Hi) as (Hc0 & Hcm & Hcb). destruct (ci_held _ Hi) as (c & Hcell & Hop).
  set (flag := if keep then R4OS_STORAGE_CLAIM_END_KEEP_UNMOUNTED else 0).
  pose proof (slot_run w "storage_claim_end" (f_end fs) [c; flag] Hi ltac:(set_solver)) as Hslot.
  assert (ends w s claim claim_consumed "storage_claim_end" [c; flag] (r4_storage_claim_end s claim keep)) as Hends.
  { unfold r4_storage_claim_end. rewrite (proj2 (Z.eqb_neq claim 0) Hc0). apply ends_run; [apply Hi|done|].
    by rewrite (mbind_run _ _ _ _ _ (load_cell_run w claim c Hcell)). }
  destruct (supplied w s "storage_claim_end").
  - destruct (end_law w c flag) as [Hm Hlaw]. set (r := kcall (f_end fs) [c; flag] w) in *.
    destruct (Hends _ _ Hslot) as (m2 & Hr & H2); [by rewrite Hm|]. eexists _, _. split; [done|].
    rewrite claim_consumed_completed in H2. destruct (decide (i32 (fst r) ∈ completed_close)) as [Hd|Hd];
      [rewrite bool_decide_true in H2 by done|rewrite bool_decide_false in H2 by done].
    + destruct H2 as [Hch Hz], Hlaw as [Hin Hop']. eapply (claim_inv_changed w m2 _ claim 8 0); [done|by rewrite <-Hm|done|done|].
      rewrite Hop', Hop. destruct (c =? 0); set_solver.
    + subst m2. eapply claim_inv_same; [done|by rewrite <-Hm|done].
  - destruct (Hends _ _ Hslot Hcm) as (m2 & Hr & H2). eexists _, _. split; [done|]. cbn in H2. subst m2. by rewrite world_eta.
Qed.

Lemma claim_run_inv w op :
  claim_inv w → allowed (mem w) op → ∃ st w', claim_run op w = Some (st, w') ∧ claim_inv w'.
Proof.
  intros Hi Ha. destruct (ci_held _ Hi) as (c & Hcell & Hop). pose proof (load_cell_run w claim c Hcell) as Hl.
  destruct op as [target|keep|lba buffer bytes|lba buffer bytes|]; cbn [claim_run allowed] in *.
  - by apply begin_inv.
  - by apply end_inv.
  - rewrite (mbind_run _ _ _ _ _ Hl). unfold r4_storage_claim_read. destruct (_ || _); [by eexists _, _|].
    rewrite (storage_call_run w s "storage_claim_read" _ (ci_ok _ Hi) eq_refl).
    rewrite (slot_run _ "storage_claim_read" (f_read fs) _ Hi) by set_solver.
    destruct (supplied _ _ _); [|by eexists _, _]. eexists _, _. split; [done|]. destruct Ha as [Hb Hd].
    destruct (read_law w c lba (bytes / 512) buffer bytes) as [Hch Hop']. rewrite <-world_eta.
    eapply (claim_inv_changed w _ _ buffer bytes c); [done|done|done| |by rewrite Hop'].
    by eapply cell_changed.
  - rewrite (mbind_run _ _ _ _ _ Hl). unfold r4_storage_claim_write. destruct (_ || _); [by eexists _, _|].
    rewrite (storage_call_run w s "storage_claim_write" _ (ci_ok _ Hi) eq_refl).
    rewrite (slot_run _ "storage_claim_write" (f_write fs) _ Hi) by set_solver.
    destruct (supplied _ _ _); [|by eexists _, _]. eexists _, _. split; [done|].
    destruct (write_law w c lba (bytes / 512) buffer bytes) as [Hm Hop']. by eapply claim_inv_same.
  - rewrite (mbind_run _ _ _ _ _ Hl). unfold r4_storage_claim_flush.
    rewrite (storage_call_run w s "storage_claim_flush" _ (ci_ok _ Hi) eq_refl).
    rewrite (slot_run _ "storage_claim_flush" (f_flush fs) _ Hi) by set_solver.
    destruct (supplied _ _ _); [|by eexists _, _]. eexists _, _. split; [done|].
    destruct (flush_law w c) as [Hm Hop']. by eapply claim_inv_same.
Qed.

(** C25. However a program strings claim operations together, and whatever status
    each returns, the handle variable names exactly the claim the kernel holds
    for it: no claim is left open without a handle, no handle outlives its
    claim, and no operation faults. *)
Theorem claims_never_leak w w' :
  claim_inv w → claim_steps w w' →
  claim_inv w' ∧ ∀ op, allowed (mem w') op → ∃ st w'', claim_run op w' = Some (st, w'').
Proof.
  intros Hi Hs. induction Hs as [w|w st w1 w2 Hstep Hs IH].
  - split; [done|]. intros op Ha. destruct (claim_run_inv w op Hi Ha) as (st & w'' & Hr & _). by exists st, w''.
  - apply IH. destruct Hstep as [op st' w1' Ha Hr]. destruct (claim_run_inv w op Hi Ha) as (st2 & w2' & Hr' & Hi').
    rewrite Hr in Hr'. by injection Hr' as <- <-.
Qed.
End protocol.

(** ** A kernel that grants one claim, and fails to remount when it ends *)

Definition demo_functions : claim_functions := ClaimFunctions 7130 7131 7133 7134 7135.

#[global] Instance claim_kernel : Kernel (gset Z) := λ f args w,
  match args with
  | [a; b] =>
      if f =? 7130 then
        if decide (kern w = ∅) then (R4OS_STORAGE_RESULT_OK, World (place_bytes b (le_bytes 8 77) (mem w)) {[77]})
        else (R4OS_STORAGE_ERROR_BUSY, w)
      else if f =? 7131 then
        if decide (a ∈ kern w) then (R4OS_STORAGE_ERROR_REMOUNT, World (mem w) (kern w ∖ {[a]}))
        else (R4OS_STORAGE_ERROR_INVALID, w)
      else (R4OS_STORAGE_RESULT_OK, w)
  | _ => (R4OS_STORAGE_RESULT_OK, w)
  end.

#[global] Instance claim_kernel_laws : ClaimKernel (gset Z) (λ k, k) demo_functions.
Proof.
  split.
  - intros w target out Hm. cbv zeta. unfold kcall, claim_kernel. cbn [demo_functions f_begin Z.eqb Pos.eqb].
    destruct (decide (kern w = ∅)) as [E|E]; cbn [fst snd mem kern]; [|done].
    change (i32 R4OS_STORAGE_RESULT_OK =? R4OS_STORAGE_RESULT_OK) with true. cbv iota.
    exists 77. rewrite E. split_and!; [lia|lia|set_solver|set_solver| |].
    + by apply (place_bytes_changed out (le_bytes 8 77)).
    + exists (le_bytes 8 77). split; [apply (place_bytes_in out (le_bytes 8 77))|done].
  - intros w id flags. cbv zeta. unfold kcall, claim_kernel. cbn [demo_functions f_end Z.eqb Pos.eqb].
    destruct (decide (id ∈ kern w)); cbn [fst snd mem kern]; (split; [done|]).
    + rewrite decide_True by (apply (bool_decide_unpack _); vm_compute; reflexivity). done.
    + rewrite decide_False by (apply (bool_decide_unpack _); vm_compute; reflexivity). done.
  - intros. by split; [split|].
  - intros. by split.
  - intros. by split.
Qed.

(** A facade at 128 on an [R4Sys] at 256 with a table of 1264 bytes at 4096, and a handle at 512. *)
Definition claim_start : world (gset Z) := World (image [
  (128, struct_bytes Storage_t [256]); (256, struct_bytes R4Sys_t [0; 4096]); (512, replicate 8 x00);
  (4096, struct_bytes R4XStartR4Sys ([R4XSTART_R4SYS_MAGIC; 14; 1264; 0] ++ map (λ i, 7000 + Z.of_nat i) (seq 0 156)))]) ∅.

Lemma claim_start_inv : claim_inv (λ k, k) demo_functions 128 512 claim_start.
Proof.
  assert (system_of (mem claim_start) 128 = 256 ∧ table_ptr (mem claim_start) 256 = 4096 ∧
    fv (mem claim_start) R4XStartR4Sys 4096 "size" = 1264) as (Es & Ep & Ez) by (split_and!; vm_compute; reflexivity).
  split.
  - split; [intros _; apply mapped_b_mapped; vm_compute; reflexivity|]. rewrite Es.
    apply (sys_ok_check _ 0 256 1264); vm_compute; (reflexivity || discriminate).
  - intros name f Hin _. cbv zeta. right. rewrite !elem_of_cons in Hin.
    destruct Hin as [[= -> ->]|[[= -> ->]|[[= -> ->]|[[= -> ->]|[[= -> ->]|Hin]]]]]; try (vm_compute; reflexivity).
    apply elem_of_nil in Hin. destruct Hin.
  - split_and!; [lia|apply mapped_b_mapped; vm_compute; reflexivity|].
    split; [intros _; right; lia|]. rewrite Es. split; rewrite ?Ep, ?Ez; lia.
  - exists 0. split; [|reflexivity]. exists (replicate 8 x00). split; vm_compute; reflexivity.
Qed.

Lemma claims_never_leak_witness :
  ∃ st w1 st2 w2, claim_run 128 512 (OpBegin 64) claim_start = Some (st, w1) ∧
    claim_run 128 512 (OpEnd false) w1 = Some (st2, w2) ∧ claim_inv (λ k, k) demo_functions 128 512 w2.
Proof.
  pose proof claim_start_inv as Hi.
  destruct (claims_never_leak (λ k, k) demo_functions 128 512 claim_start claim_start Hi (claim_steps_refl _ _ _)) as [_ Hp].
  destruct (Hp (OpBegin 64)) as (st & w1 & H1).
  { exists (replicate 8 x00). split; vm_compute; reflexivity. }
  assert (claim_steps 128 512 claim_start w1) as Hs1.
  { eapply claim_steps_step; [|apply claim_steps_refl]. econstructor; [|exact H1].
    exists (replicate 8 x00). split; vm_compute; reflexivity. }
  destruct (claims_never_leak (λ k, k) demo_functions 128 512 claim_start w1 Hi Hs1) as [Hi1 Hp1].
  destruct (Hp1 (OpEnd false) I) as (st2 & w2 & H2). exists st, w1, st2, w2. split_and!; [exact H1|exact H2|].
  apply (claims_never_leak (λ k, k) demo_functions 128 512 w1 w2 Hi1).
  eapply claim_steps_step; [|apply claim_steps_refl]. econstructor; [|exact H2]. exact I.
Defined.

End R4Claim.
