(* ===== verification/R4App.v ===== *)
(** * app_contract.h and the start files

    An application is an [R4App]: the start context, a client for each of the
    six kernel tables, and the mask of the groups that are there. This file has
    its initialisation for a profile, the status and wait values, the handles,
    and the entry points of r4app_startup.c and r4xstart_startup.c. The
    application's own main function is a parameter of the entry points. *)

From S2P Require Import Prelude R4Abi R4Mem R4L R4LSpec.
From S2P Require Import R4Table R4Sys R4SysSpec R4SysInit R4Group.
From S2P Require Import R4Dev R4Desk R4Draw.

Module R4App.
Export R4Dev R4Draw.

Definition R4_ERROR_DOMAIN_CONTRACT : Z := 1.
Definition R4_APP_PROFILE_CONSOLE : Z := 0.
Definition R4_APP_PROFILE_DESKTOP : Z := 1.
Definition R4_APP_PROFILE_SERVICE : Z := 2.
Definition R4_APP_PROFILE_CONSOLE_REQUIRED_GROUPS : Z := 2.
Definition R4_APP_PROFILE_DESKTOP_REQUIRED_GROUPS : Z := 14.
Definition R4_APP_PROFILE_SERVICE_REQUIRED_GROUPS : Z := 2.
Definition R4XSTART_R4NET_SIZE : Z := 288.
Definition R4XSTART_R4DEV_SIZE : Z := 344.

(** ** Status and waiting *)

(** [R4Status]; its reserved fields are always zero. *)
Record R4Status := Status { domain : Z; raw_code : Z; flags : Z; progress : Z; required_size : Z }.
#[global] Instance R4Status_eq_dec : EqDecision R4Status.
Proof. solve_decision. Defined.

Definition r4_status_ok : R4Status := Status 0 0 0 0 0.
Definition r4_status_failure (dom code : Z) : R4Status := Status (Prelude.u16 dom) code 0 0 0.
Definition r4_status_succeeded (status : R4Status) : bool := 0 <=? raw_code status.

Inductive R4WaitState := R4_WAIT_COMPLETED | R4_WAIT_WOULD_BLOCK | R4_WAIT_TIMED_OUT | R4_WAIT_CANCELLED | R4_WAIT_FAILED.
#[global] Instance R4WaitState_eq_dec : EqDecision R4WaitState.
Proof. solve_decision. Defined.

Definition r4_wait_classify (raw timeout_code cancelled_code would_block_code : Z) : R4WaitState :=
  if 0 <=? raw then R4_WAIT_COMPLETED
  else if raw =? timeout_code then R4_WAIT_TIMED_OUT
  else if raw =? cancelled_code then R4_WAIT_CANCELLED
  else if raw =? would_block_code then R4_WAIT_WOULD_BLOCK
  else R4_WAIT_FAILED.

(** ** The application *)

(** [R4App], with the fields of its clients in place. *)
Definition R4App_t : ctype := Struct [
  ("context", U64); ("system.ctx", U64); ("system.table", U64); ("desktop.table", U64); ("drawing.table", U64);
  ("network.table", U64); ("audio.table", U64); ("devices.table", U64); ("group_mask", U32); ("profile", U32);
  ("reserved", Array U8 3)].

(** The head every table starts with. *)
Definition Table_t : ctype := Struct [("magic", U32); ("abi_version", U32); ("size", U32); ("reserved0", U32)].

(** The groups, in the order they are bound: field, id, magic, version, size. *)
Record app_group := AppGroup { ag_field : string; ag_id : Z; ag_magic : Z; ag_version : Z; ag_size : Z }.
Definition app_groups : list app_group := [
  AppGroup "system.table" R4L_GROUP_R4SYS R4XSTART_R4SYS_MAGIC R4XSTART_R4SYS_VERSION R4XSTART_R4SYS_SIZE;
  AppGroup "desktop.table" R4L_GROUP_R4DESK R4XSTART_R4DESK_MAGIC R4XSTART_R4DESK_VERSION R4XSTART_R4DESK_SIZE;
  AppGroup "drawing.table" R4L_GROUP_R4DRAW R4XSTART_R4DRAW_MAGIC R4XSTART_R4DRAW_VERSION R4XSTART_R4DRAW_SIZE;
  AppGroup "network.table" R4L_GROUP_R4NET R4XSTART_R4NET_MAGIC R4XSTART_R4NET_VERSION R4XSTART_R4NET_SIZE;
  AppGroup "audio.table" R4L_GROUP_R4AUDIO R4XSTART_R4AUDIO_MAGIC R4XSTART_R4AUDIO_VERSION R4XSTART_R4AUDIO_SIZE;
  AppGroup "devices.table" R4L_GROUP_R4DEV R4XSTART_R4DEV_MAGIC R4XSTART_R4DEV_VERSION R4XSTART_R4DEV_SIZE].

Definition required_groups (profile : Z) : Z :=
  if profile =? R4_APP_PROFILE_DESKTOP then R4_APP_PROFILE_DESKTOP_REQUIRED_GROUPS
  else if profile =? R4_APP_PROFILE_SERVICE then R4_APP_PROFILE_SERVICE_REQUIRED_GROUPS
  else R4_APP_PROFILE_CONSOLE_REQUIRED_GROUPS.

Section code.
Context {K : Type} `{!Kernel K}.

Definition r4_app_group_table (context group_id magic version size : Z) : M K Z :=
  item ← r4xstart_find_import context group_id;
  if item =? 0 then mret 0 else
  table ← get R4XStartImport "table" item;
  if table =? 0 then mret 0 else
  flags ← get R4XStartImport "flags" item;
  if Z.land flags R4XSTART_IMPORT_FLAG_GROUP_INTERFACE =? 0 then mret 0 else
  h0 ← get Table_t "magic" table;
  if negb (h0 =? magic) then mret 0 else
  h1 ← get Table_t "abi_version" table;
  if h1 <? version then mret 0 else
  h2 ← get Table_t "size" table;
  if h2 <? size then mret 0 else mret table.

(** [out_app->f = r4_app_group_table(...)], for each group. *)
Fixpoint bind_groups (context out_app : Z) (gs : list app_group) : M K () :=
  match gs with
  | [] => mret ()
  | g :: gs =>
      t ← r4_app_group_table context (ag_id g) (ag_magic g) (ag_version g) (ag_size g);
      _ ← put R4App_t (ag_field g) out_app t;
      bind_groups context out_app gs
  end.

(** [if (out_app->f != 0) out_app->group_mask |= 1u << id], for each group. *)
Fixpoint mask_groups (out_app : Z) (gs : list app_group) : M K () :=
  match gs with
  | [] => mret ()
  | g :: gs =>
      t ← get R4App_t (ag_field g) out_app;
      _ ← (if t =? 0 then mret () else
           mask ← get R4App_t "group_mask" out_app;
           put R4App_t "group_mask" out_app (Z.lor mask (Z.shiftl 1 (ag_id g))));
      mask_groups out_app gs
  end.

Definition r4_app_init (context profile out_app : Z) : M K R4Status :=
  if (out_app =? 0) || (context =? 0) then mret (r4_status_failure R4_ERROR_DOMAIN_CONTRACT R4OS_ERROR_INVALID) else
  _ ← clear R4App_t out_app;
  _ ← put R4App_t "profile" out_app profile;
  valid ← r4xstart_context_valid context;
  if negb valid then mret (r4_status_failure R4_ERROR_DOMAIN_CONTRACT R4OS_ERROR_INVALID) else
  if negb (profile =? R4_APP_PROFILE_CONSOLE) && negb (profile =? R4_APP_PROFILE_DESKTOP)
     && negb (profile =? R4_APP_PROFILE_SERVICE)
  then mret (r4_status_failure R4_ERROR_DOMAIN_CONTRACT R4OS_ERROR_INVALID) else
  _ ← put R4App_t "system.ctx" out_app context;
  _ ← bind_groups context out_app app_groups;
  _ ← mask_groups out_app app_groups;
  mask ← get R4App_t "group_mask" out_app;
  if negb (Z.land mask (required_groups profile) =? required_groups profile) then
    _ ← clear R4App_t out_app;
    mret (r4_status_failure R4_ERROR_DOMAIN_CONTRACT R4OS_ERR_NO_GROUP)
  else
    _ ← put R4App_t "context" out_app context;
    mret r4_status_ok.

Definition r4_app_has_group (app group_id : Z) : M K bool :=
  if (app =? 0) || negb (group_id <? 32) then mret false else
  mask ← get R4App_t "group_mask" app;
  mret (negb (Z.land mask (Z.shiftl 1 group_id) =? 0)).

Definition r4_app_args (app out_len : Z) : M K Z :=
  context ← (if app =? 0 then mret 0 else get R4App_t "context" app);
  _ ← (if out_len =? 0 then mret () else
       len ← (if context =? 0 then mret 0 else get R4XStartContext "args_len" context);
       store 8 out_len len);
  if app =? 0 then mret 0 else r4xstart_args context.

(** [&app->system]. *)
Definition app_system (app : Z) : Z := app + offsetof R4App_t "system.ctx".

Definition r4_app_should_close (app : Z) : M K bool :=
  if app =? 0 then mret true else r4sys_program_should_close (app_system app).

Definition r4_app_ticks (app : Z) : M K Z :=
  table ← (if app =? 0 then mret 0 else get R4App_t "system.table" app);
  if table =? 0 then mret 0 else
  ticks ← get R4XStartR4Sys "ticks" table;
  if ticks =? 0 then mret 0 else r ← call ticks []; mret (u64 r).

(** ** The stop flag, a word of its own; every access is atomic *)

Definition r4_stop_flag_init (flag : Z) : M K () := if flag =? 0 then mret () else store 4 flag 0.
Definition r4_stop_flag_request (flag : Z) : M K () := if flag =? 0 then mret () else store 4 flag 1.
Definition r4_stop_flag_requested (flag : Z) : M K bool :=
  if flag =? 0 then mret false else v ← load 4 flag; mret (negb (v =? 0)).

(** ** Handles *)

(** The structures that [R4_DECLARE_HANDLE] declares, and [R4WindowHandle]. *)
Definition Handle_t : ctype := Struct [("raw", U32); ("owned", U8); ("reserved", Array U8 7)].

Definition handle_valid (handle : Z) : M K bool :=
  if handle =? 0 then mret false else raw ← get Handle_t "raw" handle; mret (negb (raw =? 0)).

Definition apply_close_result (cleared handle raw_code : Z) : M K Z :=
  _ ← (if handle =? 0 then mret () else
       owned ← get Handle_t "owned" handle;
       if negb (owned =? 0) && (0 <=? raw_code) then put Handle_t "raw" handle cleared else mret ());
  mret raw_code.

Definition handle_apply_close_result : Z → Z → M K Z := apply_close_result 0.

Definition R4WindowHandle_valid (handle : Z) : M K bool :=
  if handle =? 0 then mret false else raw ← get Handle_t "raw" handle; mret (0 <=? i32 raw).
Definition R4WindowHandle_apply_close_result : Z → Z → M K Z := apply_close_result (-1).

(** ** Entry points *)

(** r4app_startup.c; the local variable [app] is at the given address. *)
Definition R4XStart_app (profile : Z) (r4_app_main : Z → M K Z) (app ctx : Z) : M K Z :=
  status ← r4_app_init ctx profile app;
  if negb (r4_status_succeeded status) then mret (raw_code status) else r4_app_main app.

(** r4xstart_startup.c. *)
Definition R4XStart_sys (r4_main : Z → Z → M K Z) (sys ctx : Z) : M K Z :=
  valid ← r4xstart_context_valid ctx;
  if negb valid then mret 51 else
  init_status ← r4sys_init ctx sys;
  if negb (init_status =? R4OS_OK) then mret 52 else r4_main ctx sys.
End code.

End R4App.
