(* ===== verification/R4AppSpec.v ===== *)
(** * Initialising an application

    [r4_app_init] against its specification: which groups are there is a
    function of the start context, and so are the status, the mask and the
    clients of the application. *)

From S2P Require Import Prelude R4Abi R4Mem R4L R4LSpec.
From S2P Require Import R4Table R4Sys R4SysSpec R4SysInit R4Group.
From S2P Require Import R4Field R4Dev R4Desk R4Draw R4App.

Module R4AppSpec.
Export R4Field R4App.

(** ** The fields of an application *)

Definition app_fields : list string :=
  ["context"; "system.ctx"; "system.table"; "desktop.table"; "drawing.table"; "network.table"; "audio.table";
   "devices.table"; "group_mask"; "profile"].

Section fields.
Context {K : Type} `{!Kernel K}.
Implicit Types (w : world K) (m : gmap Z byte) (σ : string → Z).

(** The fields have the values [σ]. *)
Definition app_at m (out : Z) σ : Prop := struct_at m R4App_t out σ.

Lemma app_field f : In f app_fields → ∃ o k, field_at R4App_t f = Some (o, k).
Proof. intros H. repeat destruct H as [<-|H]; [by eexists _, _..|done]. Qed.

Lemma aa_value m out σ f : app_at m out σ → In f app_fields → fv m R4App_t out f = σ f.
Proof. intros Ha (o & k & Hf)%app_field. by eapply sa_value. Qed.

Definition width (f : string) : Z := match field_at R4App_t f with Some (_, k) => 8 * Z.of_nat k | None => 0 end.

Lemma app_put w out σ f v :
  In f app_fields → app_at (mem w) out σ → 0 ≤ v < 2 ^ width f →
  ∃ m', put R4App_t f out v w = Some ((), World m' (kern w)) ∧ changed (mem w) m' out 80 ∧ app_at m' out (upd σ f v).
Proof.
  intros (o & k & Hf)%app_field Ha Hr. unfold width in Hr. rewrite Hf in Hr.
  destruct (struct_put w R4App_t out σ f v o k eq_refl Hf Ha Hr) as (m' & Hp & Hc & _ & Ha'). by exists m'.
Qed.

Lemma app_get w out σ f : In f app_fields → app_at (mem w) out σ → get R4App_t f out w = Some (σ f, w).
Proof. intros (o & k & Hf)%app_field Ha. by eapply struct_get. Qed.

Lemma app_at_zero m out : mapped m out 80 → (∀ x, out ≤ x < out + 80 → m !! x = Some x00) → app_at m out (λ _, 0).
Proof. intros Hm Hz. by apply (struct_zero m R4App_t out). Qed.
End fields.

(** ** The specification *)

Section spec.
Context {K : Type} `{!Kernel K}.
Implicit Types (w : world K) (m : gmap Z byte) (σ : string → Z).

(** The table of a group, 0 when there is none that will do. *)
Definition app_table m (ctx : Z) (g : app_group) : Z :=
  let item := group_item m ctx (ag_id g) in
  let t := fv m R4XStartImport item "table" in
  if item_bound m item && acceptable m Table_t (ag_magic g) (ag_version g) (ag_size g) [] t then t else 0.

Definition add_group m (ctx mask : Z) (g : app_group) : Z :=
  if app_table m ctx g =? 0 then mask else Z.lor mask (Z.shiftl 1 (ag_id g)).
Definition app_mask m (ctx : Z) : Z := foldl (add_group m ctx) 0 app_groups.

Definition context_valid m (ctx : Z) : bool :=
  (fv m R4XStartContext ctx "magic" =? R4XSTART_MAGIC) && (fv m R4XStartContext ctx "abi_major" =? R4XSTART_ABI_MAJOR) &&
  (R4XSTART_CONTEXT_SIZE <=? fv m R4XStartContext ctx "size").

Definition profile_valid (profile : Z) : bool :=
  (profile =? R4_APP_PROFILE_CONSOLE) || (profile =? R4_APP_PROFILE_DESKTOP) || (profile =? R4_APP_PROFILE_SERVICE).

(** Every group the profile needs is there. *)
Definition complete m (ctx profile : Z) : bool :=
  forallb (λ g, negb (Z.testbit (required_groups profile) (ag_id g)) || negb (app_table m ctx g =? 0)) app_groups.

Definition app_status m (ctx profile : Z) : R4Status :=
  if negb (context_valid m ctx && profile_valid profile) then r4_status_failure R4_ERROR_DOMAIN_CONTRACT R4OS_ERROR_INVALID
  else if complete m ctx profile then r4_status_ok
  else r4_status_failure R4_ERROR_DOMAIN_CONTRACT R4OS_ERR_NO_GROUP.

(** What the initialisation may read, and that the application is beside it. *)
Record app_env m (ctx out : Z) : Prop := {
  ae_context : context_ok m ctx;
  ae_tables : ∀ a, a ∈ import_list m ctx → import_table_ok m Table_t a;
  ae_outside : outside m Table_t ctx out 80
}.

Lemma app_group_fits g : g ∈ app_groups →
  init_args Table_t (ag_size g) [] = true ∧ In (ag_field g) app_fields ∧ width (ag_field g) = 64 ∧
  ag_field g ≠ "group_mask" ∧ 0 ≤ ag_id g < 32.
Proof. rewrite list_elem_of_In. intros Hg. repeat destruct Hg as [<-|Hg]; [vm_compute; intuition discriminate..|done]. Qed.

Lemma app_env_changed m m' ctx out :
  changed m m' out 80 → app_env m ctx out →
  app_env m' ctx out ∧ (∀ g, g ∈ app_groups → app_table m' ctx g = app_table m ctx g).
Proof.
  intros Hch [Hctx Ht Ho]. destruct (changed_context _ _ _ _ _ _ Hch Hctx Ho) as (Hctx' & Hl & Hf).
  assert (∀ a, a ∈ import_list m ctx → let t := fv m R4XStartImport a "table" in
    table_ok m' Table_t 0 t ∧ (t ≠ 0 → fv m' Table_t t "size" = fv m Table_t t "size")) as Htab.
  { intros a Ha. cbv zeta. pose proof (changed_table _ _ out 80 Table_t 0 _ Hch eq_refl (Ht a Ha) (ou_tables _ _ _ _ _ Ho a Ha)) as (H1 & H2 & _). done. }
  split; [split; [done| |split]|].
  - intros a. rewrite Hl. intros Ha. unfold import_table_ok. rewrite Hf by done. by apply Htab.
  - apply Ho.
  - rewrite Hl. apply Ho.
  - rewrite Hl. intros a Ha. cbv zeta. rewrite Hf by done. intros Hne. rewrite (proj2 (Htab a Ha) Hne). by apply Ho.
  - intros g Hg. unfold app_table. destruct (group_item_changed _ _ Table_t ctx (ag_id g) out 80 Hch Hctx Ho) as (-> & -> & Et).
    destruct (item_bound m (group_item m ctx (ag_id g))) eqn:Hb; [|done]. cbn [andb].
    assert (group_item m ctx (ag_id g) ≠ 0 ∧ fv m R4XStartImport (group_item m ctx (ag_id g)) "table" ≠ 0) as [Hi0 Ht0].
    { unfold item_bound in Hb. rewrite !andb_true_iff, !negb_true_iff, !Z.eqb_neq in Hb. tauto. }
    destruct (group_item_in _ _ _ Hi0) as [Hin _]. rewrite Et by done.
    rewrite (acceptable_changed m m' out 80 Table_t (ag_magic g) (ag_version g) (ag_size g) [] _); [done| |done|by apply Ht|done|by apply (ou_tables _ _ _ _ _ Ho)].
    by apply (app_group_fits g).
Qed.

Lemma context_valid_run w ctx :
  context_ok (mem w) ctx → ctx ≠ 0 → r4xstart_context_valid ctx w = Some (context_valid (mem w) ctx, w).
Proof.
  intros [Hm _] Hne. specialize (Hm Hne). unfold r4xstart_context_valid, context_valid. rewrite (proj2 (Z.eqb_neq ctx 0) Hne).
  run_get Hm. destruct (_ =? _); [|done]. cbn [negb andb]. run_get Hm. destruct (_ =? _); [|done]. cbn [negb andb]. by run_get Hm.
Qed.

Lemma group_table_run w ctx out g :
  app_env (mem w) ctx out →
  r4_app_group_table ctx (ag_id g) (ag_magic g) (ag_version g) (ag_size g) w = Some (app_table (mem w) ctx g, w).
Proof.
  intros [Hctx Ht _]. unfold r4_app_group_table, app_table.
  rewrite (mbind_run _ _ _ _ _ (find_import_run w ctx (ag_id g) Hctx)). fold (group_item (mem w) ctx (ag_id g)).
  unfold item_bound. destruct (Z.eqb_spec (group_item (mem w) ctx (ag_id g)) 0) as [|Hi0]; [done|].
  destruct (group_item_in _ _ _ Hi0) as [Hin _]. cbn [negb andb].
  assert (mapped (mem w) (group_item (mem w) ctx (ag_id g)) 40) as Hm.
  { pose proof (co_imports _ _ Hctx) as Hall. rewrite Forall_forall in Hall. by apply Hall. }
  run_get Hm. set (t := fv (mem w) R4XStartImport _ "table"). destruct (Z.eqb_spec t 0) as [|Ht0]; [done|]. cbn [negb andb].
  run_get Hm. destruct (_ =? 0); [done|]. cbn [negb andb].
  pose proof (to_header _ _ _ _ (Ht _ Hin) Ht0) as Hh. fold t in Hh. unfold acceptable, provides.
  run_get Hh. destruct (_ =? _); [|done]. cbn [negb andb]. run_get Hh. rewrite Z.ltb_antisym. destruct (_ <=? _); [|done]. cbn [negb andb].
  run_get Hh. rewrite Z.ltb_antisym. destruct (_ <=? _); [|done]. cbn [negb andb forallb].
  by rewrite (proj2 (Z.eqb_neq t 0) Ht0).
Qed.

(** ** The two loops *)

Lemma app_table_range m ctx g : 0 ≤ app_table m ctx g < 2 ^ 64.
Proof.
  unfold app_table. destruct (_ && _); [|lia]. split; [apply fv_nonneg|].
  apply (fv_bound m R4XStartImport _ "table" 32 8 eq_refl).
Qed.

Lemma bind_fold_ext m m' ctx σ gs :
  (∀ g, g ∈ gs → app_table m' ctx g = app_table m ctx g) →
  foldl (λ σ g, upd σ (ag_field g) (app_table m' ctx g)) σ gs = foldl (λ σ g, upd σ (ag_field g) (app_table m ctx g)) σ gs.
Proof.
  revert σ. induction gs as [|x gs IH]; intros σ H; [done|]. cbn [foldl]. rewrite H by (by left).
  apply IH. intros y Hy. apply H. by right.
Qed.

Lemma bind_groups_run w ctx out σ gs :
  app_env (mem w) ctx out → app_at (mem w) out σ → (∀ g, g ∈ gs → g ∈ app_groups) →
  ∃ m', bind_groups ctx out gs w = Some ((), World m' (kern w)) ∧ changed (mem w) m' out 80 ∧
    app_at m' out (foldl (λ σ g, upd σ (ag_field g) (app_table (mem w) ctx g)) σ gs).
Proof.
  revert w σ. induction gs as [|g gs IH]; intros w σ He Ha Hsub.
  { exists (mem w). destruct w. split_and!; [done|by split|done]. }
  cbn [bind_groups foldl]. rewrite (mbind_run _ _ _ _ _ (group_table_run w ctx out g He)).
  destruct (app_group_fits g) as (_ & Hf & Hw & _); [apply Hsub; by left|].
  destruct (app_put w out σ (ag_field g) (app_table (mem w) ctx g) Hf Ha) as (m1 & Hr & Hc & Ha1).
  { rewrite Hw. apply app_table_range. }
  rewrite (mbind_run _ _ _ _ _ Hr). destruct (app_env_changed _ _ _ _ Hc He) as [He1 Et].
  destruct (IH (World m1 (kern w)) _ He1 Ha1) as (m2 & Hr2 & Hc2 & Ha2); [intros g' Hg'; apply Hsub; by right|].
  exists m2. cbn [mem kern] in *. split_and!; [done|by eapply changed_trans|].
  rewrite <-(bind_fold_ext (mem w) m1); [done|]. intros g' Hg'. apply Et, Hsub. by right.
Qed.

Definition mask_step σ (g : app_group) : string → Z :=
  if σ (ag_field g) =? 0 then σ else upd σ "group_mask" (Z.lor (σ "group_mask") (Z.shiftl 1 (ag_id g))).

Lemma lor_bound a b n : 0 ≤ n → 0 ≤ a < 2 ^ n → 0 ≤ b < 2 ^ n → 0 ≤ Z.lor a b < 2 ^ n.
Proof.
  intros Hn Ha Hb. split; [apply Z.lor_nonneg; lia|]. destruct (decide (Z.lor a b = 0)) as [->|Hne]; [lia|].
  assert (0 ≤ Z.lor a b) by (apply Z.lor_nonneg; lia).
  apply Z.log2_lt_pow2; [lia|]. rewrite Z.log2_lor by lia.
  destruct (decide (n = 0)) as [->|]; [assert (a = 0) as -> by lia; assert (b = 0) as -> by lia; done|].
  apply Z.max_lub_lt.
  - destruct (decide (a = 0)) as [->|]; [change (Z.log2 0) with 0; lia|apply Z.log2_lt_pow2; lia].
  - destruct (decide (b = 0)) as [->|]; [change (Z.log2 0) with 0; lia|apply Z.log2_lt_pow2; lia].
Qed.

Lemma mask_groups_run w out σ gs :
  app_at (mem w) out σ → 0 ≤ σ "group_mask" < 2 ^ 32 → (∀ g, g ∈ gs → g ∈ app_groups) →
  ∃ m', mask_groups out gs w = Some ((), World m' (kern w)) ∧ changed (mem w) m' out 80 ∧ app_at m' out (foldl mask_step σ gs).
Proof.
  revert w σ. induction gs as [|g gs IH]; intros w σ Ha Hm Hsub.
  { exists (mem w). destruct w. split_and!; [done|by split|done]. }
  cbn [mask_groups foldl]. destruct (app_group_fits g) as (_ & Hf & _ & _ & Hid); [apply Hsub; by left|].
  rewrite (mbind_run _ _ _ _ _ (app_get w out σ _ Hf Ha)). unfold mask_step at 2.
  destruct (Z.eqb_spec (σ (ag_field g)) 0) as [E|E].
  { unfold mbind at 1, m_bind. cbn. apply IH; [done|done|]. intros g' Hg'. apply Hsub. by right. }
  assert (0 ≤ Z.lor (σ "group_mask") (Z.shiftl 1 (ag_id g)) < 2 ^ 32) as Hb.
  { apply lor_bound; [lia|done|]. rewrite Z.shiftl_mul_pow2, Z.mul_1_l by lia.
    split; [apply Z.pow_nonneg; lia|apply Z.pow_lt_mono_r; lia]. }
  destruct (app_put w out σ "group_mask" (Z.lor (σ "group_mask") (Z.shiftl 1 (ag_id g)))) as (m1 & Hr & Hc & Ha1); [simpl; tauto|done|done|].
  destruct (IH (World m1 (kern w)) _ Ha1) as (m2 & Hr2 & Hc2 & Ha2).
  { unfold upd. simpl. done. }
  { intros g' Hg'. apply Hsub. by right. }
  exists m2. cbn [mem kern] in *. split_and!; [|by eapply changed_trans|done].
  pose proof (mbind_run _ (λ mask, put R4App_t "group_mask" out (Z.lor mask (Z.shiftl 1 (ag_id g)))) _ _ _
    (app_get w out σ "group_mask" ltac:(simpl; tauto) Ha)) as Hput.
  cbn beta in Hput. rewrite Hr in Hput. by rewrite (mbind_run _ _ _ _ _ Hput).
Qed.

(** ** The final fields *)

Definition app_final m (ctx profile : Z) : string → Z :=
  foldl mask_step (foldl (λ σ g, upd σ (ag_field g) (app_table m ctx g))
    (upd (upd (λ _, 0) "profile" profile) "system.ctx" ctx) app_groups) app_groups.

Lemma mask_fold σ gs :
  (∀ g, g ∈ gs → g ∈ app_groups) →
  (∀ f, f ≠ "group_mask" → foldl mask_step σ gs f = σ f) ∧
  foldl mask_step σ gs "group_mask" =
    foldl (λ mask g, if σ (ag_field g) =? 0 then mask else Z.lor mask (Z.shiftl 1 (ag_id g))) (σ "group_mask") gs.
Proof.
  revert σ. induction gs as [|g gs IH]; intros σ Hsub; [done|]. cbn [foldl].
  destruct (IH (mask_step σ g)) as [H1 H2]; [intros g' Hg'; apply Hsub; by right|].
  assert (∀ f, f ≠ "group_mask" → mask_step σ g f = σ f) as Hstep.
  { intros f Hf. unfold mask_step. destruct (_ =? 0); [done|]. unfold upd. by rewrite (proj2 (String.eqb_neq _ f)). }
  split; [intros f Hf; by rewrite H1, Hstep|]. rewrite H2.
  assert (mask_step σ g "group_mask" = if σ (ag_field g) =? 0 then σ "group_mask" else Z.lor (σ "group_mask") (Z.shiftl 1 (ag_id g))) as ->.
  { unfold mask_step. by destruct (_ =? 0). }
  generalize (if σ (ag_field g) =? 0 then σ "group_mask" else Z.lor (σ "group_mask") (Z.shiftl 1 (ag_id g))).
  assert (∀ x, x ∈ gs → x ∈ app_groups) as Hgs by (intros x Hx; apply Hsub; by right).
  clear -Hgs Hstep. induction gs as [|x gs IH]; intros z; [done|]. cbn [foldl].
  rewrite Hstep by (apply (app_group_fits x); apply Hgs; by left). apply IH. intros y Hy. apply Hgs. by right.
Qed.

Lemma app_final_fields m ctx profile :
  (∀ g, g ∈ app_groups → app_final m ctx profile (ag_field g) = app_table m ctx g) ∧
  app_final m ctx profile "group_mask" = app_mask m ctx ∧ app_final m ctx profile "context" = 0 ∧
  app_final m ctx profile "system.ctx" = ctx ∧ app_final m ctx profile "profile" = profile.
Proof.
  unfold app_final. set (σ := foldl (λ σ g, upd σ _ _) _ app_groups). destruct (mask_fold σ app_groups) as [H1 H2]; [done|].
  assert (∀ g, g ∈ app_groups → σ (ag_field g) = app_table m ctx g) as Hσ.
  { intros g Hg. rewrite list_elem_of_In in Hg. repeat destruct Hg as [<-|Hg]; [reflexivity..|done]. }
  split_and!; [|rewrite H2; reflexivity|by rewrite H1|by rewrite H1|by rewrite H1].
  intros g Hg. rewrite H1 by (by apply (app_group_fits g)). by apply Hσ.
Qed.

(** The mask has exactly the bits of the groups that are there. *)
Definition mask_of (l : list (bool * Z)) : Z :=
  foldl (λ mask p, if fst p : bool then mask else Z.lor mask (Z.shiftl 1 (snd p))) 0 l.

Lemma mask_of_bits (a b c d e f : bool) :
  let mask := mask_of [(a, 1); (b, 2); (c, 3); (d, 4); (e, 5); (f, 6)] in
  (Z.testbit mask 1 = negb a ∧ Z.testbit mask 2 = negb b ∧ Z.testbit mask 3 = negb c ∧ Z.testbit mask 4 = negb d ∧
   Z.testbit mask 5 = negb e ∧ Z.testbit mask 6 = negb f) ∧
  (Z.land mask 2 =? 2) = negb a ∧ (Z.land mask 14 =? 14) = negb a && (negb b && negb c).
Proof. destruct a, b, c, d, e, f; vm_compute; split_and!; reflexivity. Qed.

Lemma app_mask_of m ctx : app_mask m ctx = mask_of (map (λ g, (app_table m ctx g =? 0, ag_id g)) app_groups).
Proof. reflexivity. Qed.

Lemma app_mask_bit m ctx g : g ∈ app_groups → Z.testbit (app_mask m ctx) (ag_id g) = negb (app_table m ctx g =? 0).
Proof.
  rewrite list_elem_of_In, app_mask_of. unfold app_groups at 2. cbn [map].
  set (b := λ g, app_table m ctx g =? 0). intros Hg.
  pose proof (mask_of_bits (b (AppGroup "system.table" R4L_GROUP_R4SYS R4XSTART_R4SYS_MAGIC R4XSTART_R4SYS_VERSION R4XSTART_R4SYS_SIZE))) as H.
  repeat destruct Hg as [<-|Hg]; try (exfalso; exact Hg); apply H.
Qed.

(** The clients of a finished application: for each group the table that was
    found, its mask bit, and that the wrappers are safe on it. *)
Record app_ready m m0 (ctx profile out : Z) : Prop := {
  ar_context : fv m R4App_t out "context" = ctx;
  ar_profile : fv m R4App_t out "profile" = profile;
  ar_tables : ∀ g, g ∈ app_groups → fv m R4App_t out (ag_field g) = app_table m0 ctx g;
  ar_groups : ∀ (k : K) g, g ∈ app_groups →
    r4_app_has_group out (ag_id g) (World m k) = Some (negb (app_table m0 ctx g =? 0), World m k);
  ar_safe : ∀ g, g ∈ app_groups → table_ok m Table_t (ag_size g) (app_table m0 ctx g)
}.

Lemma app_table_ok m ctx out g : app_env m ctx out → table_ok m Table_t (ag_size g) (app_table m ctx g).
Proof.
  intros [Hctx Ht _]. unfold app_table. destruct (item_bound m _) eqn:Hb; [|by split].
  assert (group_item m ctx (ag_id g) ≠ 0) as Hi0.
  { unfold item_bound in Hb. rewrite !andb_true_iff, !negb_true_iff, !Z.eqb_neq in Hb. tauto. }
  destruct (group_item_in _ _ _ Hi0) as [Hin _]. pose proof (Ht _ Hin) as [H1 H2 _].
  destruct (acceptable _ _ _ _ _ _ _) eqn:Ha; [|by split]. cbn [andb]. split; [done|done|]. intros _.
  unfold acceptable in Ha. rewrite !andb_true_iff in Ha. by destruct Ha as [[_ Hs%Z.leb_le] _].
Qed.

Lemma land_bit a k : 0 ≤ k → negb (Z.land a (Z.shiftl 1 k) =? 0) = Z.testbit a k.
Proof.
  intros Hk. rewrite Z.shiftl_mul_pow2, Z.mul_1_l by lia. destruct (Z.testbit a k) eqn:E.
  - apply negb_true_iff, Z.eqb_neq. intros H0.
    assert (Z.testbit (Z.land a (2 ^ k)) k = false) as Hb by (by rewrite H0, Z.bits_0).
    by rewrite Z.land_spec, E, Z.pow2_bits_true in Hb.
  - apply negb_false_iff, Z.eqb_eq, Z.bits_inj'. intros i Hi. rewrite Z.land_spec, Z.bits_0.
    destruct (decide (i = k)) as [->|]; [by rewrite E|]. by rewrite Z.pow2_bits_false, andb_false_r by done.
Qed.

Lemma app_ready_final m m0 ctx profile out :
  out ≠ 0 → app_env m ctx out → (∀ g, g ∈ app_groups → app_table m ctx g = app_table m0 ctx g) →
  app_at m out (upd (app_final m0 ctx profile) "context" ctx) → app_ready m m0 ctx profile out.
Proof.
  intros Ho He Et Ha. destruct (app_final_fields m0 ctx profile) as (Ft & Fm & _ & _ & Fp).
  split.
  - rewrite (aa_value _ _ _ _ Ha) by (simpl; tauto). reflexivity.
  - rewrite (aa_value _ _ _ _ Ha) by (simpl; tauto). exact Fp.
  - intros g Hg. destruct (app_group_fits g Hg) as (_ & Hf & _). rewrite (aa_value _ _ _ _ Ha) by done.
    rewrite <-(Ft g Hg). unfold upd. destruct (String.eqb_spec "context" (ag_field g)) as [E|]; [|done].
    rewrite list_elem_of_In in Hg. by repeat destruct Hg as [<-|Hg].
  - intros k g Hg. destruct (app_group_fits g Hg) as (_ & _ & _ & _ & Hid). unfold r4_app_has_group.
    rewrite (proj2 (Z.eqb_neq out 0) Ho), (proj2 (Z.ltb_lt (ag_id g) 32)) by lia. cbn [negb orb].
    rewrite (mbind_run _ _ _ _ _ (app_get (World m k) out _ "group_mask" ltac:(simpl; tauto) Ha)).
    change (upd (app_final m0 ctx profile) "context" ctx "group_mask") with (app_final m0 ctx profile "group_mask").
    rewrite Fm, <-(app_mask_bit m0 ctx g Hg). by rewrite (land_bit (app_mask m0 ctx) (ag_id g)) by lia.
  - intros g Hg. rewrite <-Et by done. by eapply app_table_ok.
Qed.

Lemma context_valid_changed m m' ctx out :
  changed m m' out 80 → app_env m ctx out → ctx ≠ 0 → context_valid m' ctx = context_valid m ctx.
Proof.
  intros Hch He Hc. assert (∀ f, field_in R4XStartContext f 128 = true → fv m' R4XStartContext ctx f = fv m R4XStartContext ctx f) as Hf.
  { intros f Hf. eapply changed_fv; [done|exact Hf|]. by apply (ou_ctx _ _ _ _ _ (ae_outside _ _ _ He)). }
  unfold context_valid. by rewrite !Hf.
Qed.

Lemma app_mask_complete m ctx profile :
  (Z.land (app_mask m ctx) (required_groups profile) =? required_groups profile) = complete m ctx profile.
Proof.
  rewrite app_mask_of. unfold complete, app_groups, required_groups. cbn [map forallb].
  set (b := λ g, app_table m ctx g =? 0).
  destruct (profile =? R4_APP_PROFILE_DESKTOP), (profile =? R4_APP_PROFILE_SERVICE).
  all: cbv [R4_APP_PROFILE_DESKTOP_REQUIRED_GROUPS R4_APP_PROFILE_SERVICE_REQUIRED_GROUPS R4_APP_PROFILE_CONSOLE_REQUIRED_GROUPS].
  all: repeat match goal with |- context [app_table ?n ?c ?g =? 0] => generalize (app_table n c g =? 0); intros ? end.
  all: repeat match goal with x : bool |- _ => destruct x end; reflexivity.
Qed.

(** An application that has only its profile has no client. *)
Lemma no_clients m out profile :
  app_at m out (upd (λ _, 0) "profile" profile) → ∀ g, g ∈ app_groups → fv m R4App_t out (ag_field g) = 0.
Proof.
  intros Ha g Hg. destruct (app_group_fits g Hg) as (_ & Hf & _ & _ & _). rewrite (aa_value _ _ _ _ Ha) by done.
  rewrite list_elem_of_In in Hg. by repeat destruct Hg as [<-|Hg].
Qed.

(** The middle of [r4_app_init]: the clients are bound and the mask is built. *)
Lemma bind_all_run w m2 ctx profile out :
  app_env (mem w) ctx out → changed (mem w) m2 out 80 → 0 ≤ ctx < 2 ^ 64 →
  app_at m2 out (upd (λ _, 0) "profile" profile) →
  ∃ m5, (∀ B (k : unit → M K B),
      (_ ← put R4App_t "system.ctx" out ctx; _ ← bind_groups ctx out app_groups; x ← mask_groups out app_groups; k x)
        (World m2 (kern w)) = k () (World m5 (kern w))) ∧
    changed (mem w) m5 out 80 ∧ app_at m5 out (app_final (mem w) ctx profile).
Proof.
  intros He Hc12 Hc Ha2.
  destruct (app_put (World m2 (kern w)) out _ "system.ctx" ctx ltac:(simpl; tauto) Ha2 Hc) as (m3 & Hr3 & Hc3 & Ha3).
  cbn [mem kern] in *. assert (changed (mem w) m3 out 80) as Hc13 by (by eapply changed_trans).
  destruct (app_env_changed _ _ _ _ Hc13 He) as [He3 Et3].
  destruct (bind_groups_run (World m3 (kern w)) ctx out _ app_groups He3 Ha3 ltac:(done)) as (m4 & Hr4 & Hc4 & Ha4).
  destruct (mask_groups_run (World m4 (kern w)) out _ app_groups Ha4) as (m5 & Hr5 & Hc5 & Ha5); [by vm_compute|done|].
  cbn [mem kern] in *. exists m5. split_and!.
  - intros B k. by rewrite (mbind_run _ _ _ _ _ Hr3), (mbind_run _ _ _ _ _ Hr4), (mbind_run _ _ _ _ _ Hr5).
  - eapply changed_trans; [exact Hc13|]. by eapply changed_trans.
  - assert (app_final m3 ctx profile = app_final (mem w) ctx profile) as <-; [|done].
    unfold app_final. by rewrite (bind_fold_ext (mem w) m3).
Qed.

(** C24. [r4_app_init] accepts exactly a valid start context and a known profile
    all of whose required groups have an acceptable table. Then each client of
    the application is the table found for its group or null, the mask says
    which are there, and every wrapper is safe on them. Without a required group
    the application is all zero. Nothing but the application is written. *)
Theorem app_init_exact w ctx profile out :
  app_env (mem w) ctx out → mapped (mem w) out 80 → out ≠ 0 → ctx ≠ 0 → ctx < 2 ^ 64 → 0 ≤ ctx → is_u32 profile →
  let st := app_status (mem w) ctx profile in
  ∃ m', r4_app_init ctx profile out w = Some (st, World m' (kern w)) ∧ changed (mem w) m' out 80 ∧
    (r4_status_succeeded st = true → app_ready m' (mem w) ctx profile out) ∧
    (r4_status_succeeded st = false → ∀ g, g ∈ app_groups → fv m' R4App_t out (ag_field g) = 0) ∧
    (raw_code st = R4OS_ERR_NO_GROUP → ∀ x, out ≤ x < out + 80 → m' !! x = Some x00).
Proof.
  intros He Hm Ho Hc Hc64 Hc0 Hp st. unfold r4_app_init. rewrite (proj2 (Z.eqb_neq out 0) Ho), (proj2 (Z.eqb_neq ctx 0) Hc). cbn [orb].
  destruct (clear_zero w R4App_t out ltac:(done) Hm) as (m1 & Hr1 & Hc1 & Hz1). change (sizeof R4App_t) with 80 in *.
  rewrite (mbind_run _ _ _ _ _ Hr1). assert (app_at m1 out (λ _, 0)) as Ha1 by (apply app_at_zero; [by eapply changed_mapped|done]).
  destruct (app_put (World m1 (kern w)) out _ "profile" profile ltac:(simpl; tauto) Ha1 Hp) as (m2 & Hr2 & Hc2 & Ha2).
  rewrite (mbind_run _ _ _ _ _ Hr2). cbn [mem kern] in *. assert (changed (mem w) m2 out 80) as Hc12 by (by eapply changed_trans).
  destruct (app_env_changed _ _ _ _ Hc12 He) as [He2 Et2].
  rewrite (mbind_run _ _ _ _ _ (context_valid_run (World m2 (kern w)) ctx (ae_context _ _ _ He2) Hc)).
  cbn [mem]. rewrite (context_valid_changed _ _ _ _ Hc12 He Hc).
  assert (negb (profile =? R4_APP_PROFILE_CONSOLE) && negb (profile =? R4_APP_PROFILE_DESKTOP)
    && negb (profile =? R4_APP_PROFILE_SERVICE) = negb (profile_valid profile)) as ->.
  { unfold profile_valid. by rewrite !negb_orb. }
  unfold st, app_status. destruct (context_valid (mem w) ctx), (profile_valid profile); cbn [negb andb].
  2-4: exists m2; split_and!; [done|done|done|intros _; by eapply no_clients|done].
  destruct (bind_all_run w m2 ctx profile out He Hc12 (conj Hc0 Hc64) Ha2) as (m5 & Hr5 & Hc15 & Ha). rewrite Hr5.
  rewrite (mbind_run _ _ _ _ _ (app_get (World m5 (kern w)) out _ "group_mask" ltac:(simpl; tauto) Ha)).
  destruct (app_final_fields (mem w) ctx profile) as (_ & -> & _). rewrite app_mask_complete.
  destruct (complete (mem w) ctx profile); cbn [negb].
  - destruct (app_put (World m5 (kern w)) out _ "context" ctx ltac:(simpl; tauto) Ha (conj Hc0 Hc64)) as (m6 & Hr6 & Hc6 & Ha6).
    rewrite (mbind_run _ _ _ _ _ Hr6). cbn [mem kern] in *. assert (changed (mem w) m6 out 80) as Hc16 by (by eapply changed_trans).
    destruct (app_env_changed _ _ _ _ Hc16 He) as [He6 Et6].
    exists m6. split_and!; [done|done|intros _; by apply app_ready_final|done|done].
  - destruct (clear_zero (World m5 (kern w)) R4App_t out ltac:(done)) as (m6 & Hr6 & Hc6 & Hz6); [by eapply changed_mapped|].
    rewrite (mbind_run _ _ _ _ _ Hr6). cbn [mem kern] in *. change (sizeof R4App_t) with 80 in *.
    exists m6. split_and!; [done|by eapply changed_trans|done| |done].
    intros _ g Hg. destruct (app_group_fits g Hg) as (_ & Hf & _).
    by rewrite (aa_value _ _ _ _ (app_at_zero m6 out ltac:(eapply changed_mapped; [exact Hc6|by eapply changed_mapped]) Hz6)).
Qed.
End spec.

(** ** An example *)

(** A context at 2048 with one import, of R4SYS, at 2304; room for an application at 512. *)
Definition app_start : world call_log := World (image [
  (512, replicate 80 xff);
  (2048, struct_bytes R4XStartContext
     [R4XSTART_MAGIC; 1; 1; 128; 1; 7; 1; 0; 0; 0; 0; 2304; 1; 0; 0; 0; 0; 0; 0; 0; 0]);
  (2304, struct_bytes R4XStartImport [1; 14; 14; 1; 0; 0; 4096]);
  (4096, struct_bytes R4XStartR4Sys ([R4XSTART_R4SYS_MAGIC; 14; 1264; 0] ++ map (λ i, 7000 + Z.of_nat i) (seq 0 156)))]) [].

Lemma app_start_env : app_env (mem app_start) 2048 512 ∧ mapped (mem app_start) 512 80.
Proof.
  assert (import_list (mem app_start) 2048 = [2304] ∧ fv (mem app_start) R4XStartImport 2304 "table" = 4096 ∧
    fv (mem app_start) Table_t 4096 "size" = 1264 ∧
    mapped_b (mem app_start) 2048 128 && mapped_b (mem app_start) 2304 40 && mapped_b (mem app_start) 512 80 &&
    mapped_b (mem app_start) 4096 1264 = true) as (Hl & Ht & Hs & Hm) by (vm_compute; split_and!; reflexivity).
  rewrite !andb_true_iff in Hm. destruct Hm as [[[Hm1%mapped_b_mapped Hm2%mapped_b_mapped] Hm3%mapped_b_mapped] Hm4%mapped_b_mapped].
  split; [|exact Hm3]. split.
  - split; [intros _; exact Hm1|]. rewrite Hl. repeat constructor. exact Hm2.
  - intros a. rewrite Hl. intros ->%list_elem_of_singleton. unfold import_table_ok. rewrite Ht.
    split; intros _; rewrite ?Hs; [exact Hm4|eapply mapped_sub; [exact Hm4|lia|lia]|lia].
  - split; [intros _; left; lia| |]; intros a; rewrite Hl; intros ->%list_elem_of_singleton.
    + left. lia.
    + cbv zeta. rewrite Ht, Hs. left. lia.
Qed.

(** It is enough for a console program, but not for a desktop one. *)
Lemma app_init_exact_witness :
  (∃ m', r4_app_init 2048 R4_APP_PROFILE_CONSOLE 512 app_start = Some (r4_status_ok, World m' []) ∧
     app_ready (K := call_log) m' (mem app_start) 2048 R4_APP_PROFILE_CONSOLE 512) ∧
  (∃ m', r4_app_init 2048 R4_APP_PROFILE_DESKTOP 512 app_start =
     Some (r4_status_failure R4_ERROR_DOMAIN_CONTRACT R4OS_ERR_NO_GROUP, World m' [])).
Proof.
  destruct app_start_env as [He Hm]. split.
  - destruct (app_init_exact app_start 2048 R4_APP_PROFILE_CONSOLE 512 He Hm) as (m' & Hr & _ & Hok & _);
      [lia|lia|lia|lia|unfold is_u32, R4_APP_PROFILE_CONSOLE; lia|].
    assert (app_status (mem app_start) 2048 R4_APP_PROFILE_CONSOLE = r4_status_ok) as E by (vm_compute; reflexivity).
    rewrite E in Hr, Hok. exists m'. split; [exact Hr|apply Hok; reflexivity].
  - destruct (app_init_exact app_start 2048 R4_APP_PROFILE_DESKTOP 512 He Hm) as (m' & Hr & _);
      [lia|lia|lia|lia|unfold is_u32, R4_APP_PROFILE_DESKTOP; lia|].
    assert (app_status (mem app_start) 2048 R4_APP_PROFILE_DESKTOP = r4_status_failure R4_ERROR_DOMAIN_CONTRACT R4OS_ERR_NO_GROUP)
      as E by (vm_compute; reflexivity).
    rewrite E in Hr. exists m'. exact Hr.
Defined.

End R4AppSpec.
