(* ===== verification/R4Files.v ===== *)
(** * app_storage.h: console, files, directories and streams

    Facades over the [R4Sys] of an application: each is a structure that holds
    a pointer to it. Small results are values; a result that the kernel fills
    in is a structure at the address [result]. Paths are passed by the address of
    their bytes, with which [R4FilePath] starts. *)

From S2P Require Import Prelude R4Abi R4Mem R4L R4LSpec.
From S2P Require Import R4Table R4Sys R4SysSpec R4SysInit R4Field.
From S2P Require Import R4App.

Module R4Files.
Export R4Field R4App.

Definition R4SYS_DIR_ENTRY_RESULT_END : Z := -5.
Definition R4OS_FILE_STREAM_RESULT_OK : Z := 0.
Definition R4OS_FILE_STREAM_ERROR_IO : Z := -5.
Definition R4OS_FILE_STREAM_ERROR_TOO_LARGE : Z := -8.

(** ** Data *)

(** [R4Console], [R4Files] and [R4Registry]. *)
Definition Facade_t : ctype := Struct [("system", U64)].

Definition R4FilePath : ctype := Struct [("bytes", Array U8 1024); ("length", U16); ("absolute", U8); ("reserved", U8)].

Definition R4FileCopyResult : ctype := Struct [("progress", R4FileCopyProgress); ("raw_code", U32); ("ok", U8)].

Inductive R4TransferState := R4_TRANSFER_BYTES | R4_TRANSFER_END | R4_TRANSFER_FAILED.
Record R4Transfer := Transfer { tr_state : R4TransferState; tr_raw_code : Z; tr_bytes : Z }.

Inductive R4OperationState := R4_OPERATION_OK | R4_OPERATION_MISSING | R4_OPERATION_FAILED.
Record R4Operation := Operation { op_state : R4OperationState; op_raw_code : Z }.

#[global] Instance transfer_state_eq_dec : EqDecision R4TransferState.
Proof. solve_decision. Defined.
#[global] Instance operation_state_eq_dec : EqDecision R4OperationState.
Proof. solve_decision. Defined.

Definition R4_FILE_INFO_VALUE : Z := 0.
Definition R4_FILE_INFO_MISSING : Z := 1.
Definition R4_FILE_INFO_FAILED : Z := 2.
Definition R4FileInfoRead : ctype := Struct [("state", U32); ("raw_code", U32); ("value", R4FileInfo)].

Definition R4_DIRECTORY_ENTRY : Z := 0.
Definition R4_DIRECTORY_END : Z := 1.
Definition R4_DIRECTORY_FAILED : Z := 2.
Definition R4DirectoryNext : ctype := Struct [
  ("state", U32); ("raw_code", U32); ("is_directory", U8); ("path", R4FilePath); ("has_info", U8); ("info", R4FileInfo)].

Definition R4DirectoryIterator : ctype := Struct [
  ("files.system", U64); ("directory", U64); ("index", U32); ("ended", U8); ("legacy_after_removal", U8);
  ("cursor", R4DirectoryScanCursor)].

Definition R4StreamReader : ctype := Struct [("files.system", U64); ("path", U64); ("offset", U64); ("ended", U8)].
Definition R4StreamWriter : ctype := Struct [
  ("files.system", U64); ("path", U64); ("offset", U64); ("raw_code", U32); ("active", U8)].

(** ** Results *)

Definition r4_transfer_raw (raw : Z) : R4Transfer :=
  if raw <? 0 then Transfer R4_TRANSFER_FAILED raw 0
  else if raw =? 0 then Transfer R4_TRANSFER_END raw 0
  else Transfer R4_TRANSFER_BYTES raw (Prelude.u32 raw).

Definition r4_operation_presence (raw : Z) : R4Operation :=
  Operation (if raw <? 0 then R4_OPERATION_FAILED else if raw =? 0 then R4_OPERATION_MISSING else R4_OPERATION_OK) raw.

Definition r4_operation_status (raw : Z) : R4Operation :=
  Operation (if raw <? 0 then R4_OPERATION_FAILED else R4_OPERATION_OK) raw.

Section code.
Context {K : Type} `{!Kernel K}.

(** ** Facades *)

(** The facade of an application, [{app != 0 ? &app->system : 0}], by its one field. *)
Definition facade_of (app : Z) : Z := if app =? 0 then 0 else app + offsetof R4App_t "system.ctx".
Definition r4_app_console (app : Z) : Z := facade_of app.
Definition r4_app_files (app : Z) : Z := facade_of app.
Definition r4_app_registry (app : Z) : Z := facade_of app.

Definition facade_system (facade : Z) : M K Z := if facade =? 0 then mret 0 else get Facade_t "system" facade.

(** [system == 0 || system->table == 0 || system->table->name == 0] is that this is 0. *)
Definition system_slot (system : Z) (name : string) : M K Z :=
  table ← sys_table system;
  if table =? 0 then mret 0 else get R4XStartR4Sys name table.

(** The function behind a facade, unless there is none or a pointer argument is null. *)
Definition facade_slot (facade : Z) (bad : bool) (name : string) : M K Z :=
  if bad then mret 0 else system ← facade_system facade; system_slot system name.

Fixpoint all_slots (system : Z) (names : list string) : M K bool :=
  match names with
  | [] => mret true
  | n :: names => f ← system_slot system n; if f =? 0 then mret false else all_slots system names
  end.

(** ** Console *)

Definition r4_console_available (console : Z) : M K bool :=
  if console =? 0 then mret false else
  system ← facade_system console; all_slots system ["write"; "putc"].

Definition r4_console_write (console bytes length : Z) : M K Z :=
  ok ← r4_console_available console;
  if negb ok then mret R4OS_ERR_NO_FN else system ← facade_system console; r4sys_write system bytes length.

Definition r4_console_line (console text : Z) : M K Z :=
  ok ← r4_console_available console;
  if negb ok then mret R4OS_ERR_NO_FN else system ← facade_system console; r4sys_write_line system text.

(** ** Files *)

Definition r4_files_available (files : Z) : M K bool :=
  if files =? 0 then mret false else
  system ← facade_system files; all_slots system ["file_read"; "file_write"; "file_read_at"; "file_append"].

Definition r4_files_read (files path out capacity : Z) : M K R4Transfer :=
  f ← facade_slot files (path =? 0) "file_read";
  if f =? 0 then mret (r4_transfer_raw R4OS_ERR_NO_FN) else
  raw ← call_i32 f [path; out; capacity]; mret (r4_transfer_raw raw).

(** The body of [r4_files_read_at], for a facade given by its system. *)
Definition read_at (system path offset out capacity : Z) : M K R4Transfer :=
  f ← (if path =? 0 then mret 0 else system_slot system "file_read_at");
  if f =? 0 then mret (r4_transfer_raw R4OS_ERR_NO_FN) else
  raw ← call_i32 f [path; offset; out; capacity]; mret (r4_transfer_raw raw).

Definition r4_files_read_at (files path offset out capacity : Z) : M K R4Transfer :=
  system ← (if path =? 0 then mret 0 else facade_system files); read_at system path offset out capacity.

(** Writing no bytes is not the end of anything. *)
Definition written_raw (raw : Z) : R4Transfer :=
  if raw =? 0 then Transfer R4_TRANSFER_BYTES raw 0 else r4_transfer_raw raw.

Definition r4_files_write (files path bytes length : Z) : M K R4Transfer :=
  f ← facade_slot files (path =? 0) "file_write";
  if f =? 0 then mret (r4_transfer_raw R4OS_ERR_NO_FN) else
  raw ← call_i32 f [path; bytes; length]; mret (written_raw raw).

Definition r4_files_append (files path bytes length : Z) : M K R4Transfer :=
  f ← facade_slot files (path =? 0) "file_append";
  if f =? 0 then mret (r4_transfer_raw R4OS_ERR_NO_FN) else
  raw ← call_i32 f [path; bytes; length]; mret (written_raw raw).

Definition r4_files_info (result files path : Z) : M K () :=
  _ ← clear R4FileInfoRead result;
  f ← facade_slot files (path =? 0) "file_info";
  if f =? 0 then
    _ ← put R4FileInfoRead "state" result R4_FILE_INFO_FAILED; put R4FileInfoRead "raw_code" result R4OS_ERR_NO_FN
  else
  let value := result + offsetof R4FileInfoRead "value" in
  raw ← call_i32 f [path; value];
  _ ← put R4FileInfoRead "raw_code" result raw;
  if raw <? 0 then put R4FileInfoRead "state" result R4_FILE_INFO_FAILED else
  missing ← (if raw =? 0 then mret true else e ← get R4FileInfo "exists" value; mret (e =? 0));
  put R4FileInfoRead "state" result (if missing : bool then R4_FILE_INFO_MISSING else R4_FILE_INFO_VALUE).

(** Deleting, creating and removing: one function of one path. *)
Definition path_operation (name : string) (files path : Z) : M K R4Operation :=
  f ← facade_slot files (path =? 0) name;
  if f =? 0 then mret (r4_operation_status R4OS_ERR_NO_FN) else
  raw ← call_i32 f [path]; mret (r4_operation_presence raw).
Definition r4_files_delete : Z → Z → M K R4Operation := path_operation "file_delete".
Definition r4_files_create_directory : Z → Z → M K R4Operation := path_operation "dir_create".
Definition r4_files_delete_directory : Z → Z → M K R4Operation := path_operation "dir_delete".

Definition r4_files_copy (result files source target buffer capacity : Z) : M K () :=
  _ ← clear R4FileCopyResult result;
  let progress := result + offsetof R4FileCopyResult "progress" in
  _ ← put R4FileCopyProgress "version" progress 1;
  _ ← put R4FileCopyProgress "size" progress (sizeof R4FileCopyProgress);
  system ← facade_system files;
  raw ← r4sys_file_copy_buffered system source target buffer capacity progress;
  _ ← put R4FileCopyResult "raw_code" result raw;
  put R4FileCopyResult "ok" result (if raw =? R4OS_FILE_STREAM_RESULT_OK then 1 else 0).

Definition r4_files_rename (files source target : Z) : M K R4Operation :=
  f ← facade_slot files ((source =? 0) || (target =? 0)) "file_rename";
  if f =? 0 then mret (r4_operation_status R4OS_ERR_NO_FN) else
  raw ← call_i32 f [source; target]; mret (r4_operation_presence raw).
(** ** Directories *)

(** The iterator it returns is at [result]. *)
Definition fresh_cursor (iterator : Z) : M K () :=
  let cursor := iterator + offsetof R4DirectoryIterator "cursor" in
  _ ← put R4DirectoryScanCursor "version" cursor 1;
  put R4DirectoryScanCursor "size" cursor (sizeof R4DirectoryScanCursor).

Definition r4_files_iterate (result files_system directory : Z) : M K () :=
  _ ← clear R4DirectoryIterator result;
  _ ← put R4DirectoryIterator "files.system" result files_system;
  _ ← put R4DirectoryIterator "directory" result directory;
  _ ← put R4DirectoryIterator "index" result 2;
  fresh_cursor result.

(** Whether the kernel can continue from the cursor. *)
Definition resumable (iterator table : Z) : M K bool :=
  legacy ← get R4DirectoryIterator "legacy_after_removal" iterator;
  if negb (legacy =? 0) then mret false else
  index ← get R4DirectoryIterator "index" iterator;
  if index <? 2 then mret false else
  generation ← get R4DirectoryChangeCursor "mount_generation"
    (iterator + offsetof R4DirectoryIterator "cursor" + offsetof R4DirectoryScanCursor "change");
  if negb ((index =? 2) || negb (generation =? 0)) then mret false else
  ok ← covers R4XStartR4Sys "directory_next" table;
  if negb ok then mret false else
  f ← get R4XStartR4Sys "directory_next" table; mret (negb (f =? 0)).

(** [for (;;)]: a kernel that answers 2 is busy and is asked again. *)
Fixpoint next_loop (fuel : nat) (f iterator result : Z) : M K Z :=
  match fuel with
  | O => fault
  | S fuel =>
      directory ← get R4DirectoryIterator "directory" iterator;
      raw ← call_i32 f [directory; iterator + offsetof R4DirectoryIterator "cursor";
        result + offsetof R4DirectoryNext "path"; 1024; result + offsetof R4DirectoryNext "info"];
      if negb (raw =? 2) then mret raw else
      system ← get R4DirectoryIterator "files.system" iterator;
      close ← r4sys_program_should_close system;
      if close : bool then mret (-10) else
      _ ← r4sys_sleep_ticks system 0;
      next_loop fuel f iterator result
  end.

(** [while (result.path.length < 1024 && result.path.bytes[result.path.length] != 0) ++result.path.length]. *)
Fixpoint path_length_loop (fuel : nat) (path : Z) : M K () :=
  match fuel with
  | O => mret ()
  | S fuel =>
      length ← get R4FilePath "length" path;
      if 1024 <=? length then mret () else
      c ← load 1 (path + length);
      if c =? 0 then mret () else
      _ ← put R4FilePath "length" path (length + 1); path_length_loop fuel path
  end.

(** What the answer [raw] means. *)
Definition next_finish (iterator result raw : Z) (has_info : bool) : M K () :=
  _ ← put R4DirectoryNext "has_info" result (if has_info && ((raw =? 0) || (raw =? 1)) then 1 else 0);
  _ ← put R4DirectoryNext "raw_code" result raw;
  if raw =? R4SYS_DIR_ENTRY_RESULT_END then
    _ ← put R4DirectoryIterator "ended" iterator 1; put R4DirectoryNext "state" result R4_DIRECTORY_END
  else if raw <? 0 then put R4DirectoryNext "state" result R4_DIRECTORY_FAILED
  else
  index ← get R4DirectoryIterator "index" iterator;
  _ ← put R4DirectoryIterator "index" iterator (index + 1);
  _ ← put R4DirectoryNext "state" result R4_DIRECTORY_ENTRY;
  _ ← put R4DirectoryNext "is_directory" result (if raw =? 1 then 1 else 0);
  let path := result + offsetof R4DirectoryNext "path" in
  _ ← path_length_loop 1024 path;
  put R4FilePath "absolute" path 1.

Definition r4_directory_next (fuel : nat) (result iterator : Z) : M K () :=
  _ ← clear R4DirectoryNext result;
  ended ← (if iterator =? 0 then mret 1 else get R4DirectoryIterator "ended" iterator);
  if negb (ended =? 0) then put R4DirectoryNext "state" result R4_DIRECTORY_END else
  directory ← get R4DirectoryIterator "directory" iterator;
  system ← get R4DirectoryIterator "files.system" iterator;
  f ← (if directory =? 0 then mret 0 else system_slot system "dir_entry");
  if f =? 0 then
    _ ← put R4DirectoryNext "state" result R4_DIRECTORY_FAILED; put R4DirectoryNext "raw_code" result R4OS_ERR_NO_FN
  else
  table ← sys_table system;
  can ← resumable iterator table;
  raw ← (if can : bool then
    g ← get R4XStartR4Sys "directory_next" table; next_loop fuel g iterator result
  else
    index ← get R4DirectoryIterator "index" iterator;
    call_i32 f [directory; index; result + offsetof R4DirectoryNext "path"; 1024]);
  next_finish iterator result raw can.

Definition r4_directory_revisit_after_removal (iterator : Z) : M K () :=
  if iterator =? 0 then mret () else
  _ ← put R4DirectoryIterator "legacy_after_removal" iterator 1;
  _ ← clear R4DirectoryScanCursor (iterator + offsetof R4DirectoryIterator "cursor");
  _ ← fresh_cursor iterator;
  index ← get R4DirectoryIterator "index" iterator;
  _ ← (if 2 <? index then put R4DirectoryIterator "index" iterator (index - 1) else mret ());
  put R4DirectoryIterator "ended" iterator 0.

(** ** Streams *)

(** The reader it returns is at [result]. *)
Definition r4_files_stream_reader (result files_system path : Z) : M K () :=
  _ ← clear R4StreamReader result;
  _ ← put R4StreamReader "files.system" result files_system;
  put R4StreamReader "path" result path.

Definition r4_stream_reader_read (reader out capacity : Z) : M K R4Transfer :=
  ended ← (if reader =? 0 then mret 1 else get R4StreamReader "ended" reader);
  if negb (ended =? 0) then mret (Transfer R4_TRANSFER_END 0 0) else
  offset ← get R4StreamReader "offset" reader;
  if UINT32_MAX <? offset then mret (r4_transfer_raw R4OS_FILE_STREAM_ERROR_TOO_LARGE) else
  system ← get R4StreamReader "files.system" reader;
  path ← get R4StreamReader "path" reader;
  result ← read_at system path offset out capacity;
  _ ← match tr_state result with
      | R4_TRANSFER_BYTES =>
          offset ← get R4StreamReader "offset" reader;
          put R4StreamReader "offset" reader (offset + tr_bytes result)
      | R4_TRANSFER_END => put R4StreamReader "ended" reader 1
      | R4_TRANSFER_FAILED => mret ()
      end;
  mret result.

Definition r4_files_stream_writer (files_system path flags out_writer : Z) : M K R4Operation :=
  f ← (if (out_writer =? 0) || (path =? 0) then mret 0 else system_slot files_system "file_stream_begin");
  if f =? 0 then mret (r4_operation_status R4OS_ERR_NO_FN) else
  _ ← clear R4StreamWriter out_writer;
  _ ← put R4StreamWriter "files.system" out_writer files_system;
  _ ← put R4StreamWriter "path" out_writer path;
  raw ← call_i32 f [path; flags];
  _ ← put R4StreamWriter "raw_code" out_writer raw;
  _ ← put R4StreamWriter "active" out_writer (if raw =? R4OS_FILE_STREAM_RESULT_OK then 1 else 0);
  mret (r4_operation_status raw).

(** The function [name] of an active writer; its system and table are not tested again. *)
Definition writer_slot (writer : Z) (name : string) : M K Z :=
  active ← (if writer =? 0 then mret 0 else get R4StreamWriter "active" writer);
  if active =? 0 then mret 0 else
  system ← get R4StreamWriter "files.system" writer;
  table ← get R4Sys_t "table" system;
  get R4XStartR4Sys name table.

Definition r4_stream_writer_write (writer bytes length : Z) : M K R4Operation :=
  f ← writer_slot writer "file_stream_write";
  if f =? 0 then mret (r4_operation_status R4OS_ERR_NO_FN) else
  path ← get R4StreamWriter "path" writer;
  offset ← get R4StreamWriter "offset" writer;
  raw ← call_i32 f [path; offset; bytes; length; 0];
  _ ← put R4StreamWriter "raw_code" writer raw;
  if (raw <? 0) || negb (Prelude.u32 raw =? length) then
    _ ← put R4StreamWriter "active" writer 0;
    mret (r4_operation_status (if raw <? 0 then raw else R4OS_FILE_STREAM_ERROR_IO))
  else
  offset ← get R4StreamWriter "offset" writer;
  _ ← put R4StreamWriter "offset" writer (offset + length);
  mret (r4_operation_status R4OS_FILE_STREAM_RESULT_OK).

(** Finishing and aborting end the stream whatever the kernel says. *)
Definition writer_ended (writer raw : Z) : M K R4Operation :=
  _ ← put R4StreamWriter "raw_code" writer raw;
  _ ← put R4StreamWriter "active" writer 0;
  mret (r4_operation_status raw).

Definition r4_stream_writer_finish (writer : Z) : M K R4Operation :=
  f ← writer_slot writer "file_stream_finish";
  if f =? 0 then mret (r4_operation_status R4OS_ERR_NO_FN) else
  path ← get R4StreamWriter "path" writer;
  offset ← get R4StreamWriter "offset" writer;
  raw ← call_i32 f [path; offset; 0];
  writer_ended writer raw.

Definition r4_stream_writer_abort (writer : Z) : M K R4Operation :=
  f ← (if writer =? 0 then mret 0 else
       system ← get R4StreamWriter "files.system" writer; system_slot system "file_stream_abort");
  if f =? 0 then mret (r4_operation_status R4OS_ERR_NO_FN) else
  path ← get R4StreamWriter "path" writer;
  raw ← call_i32 f [path];
  writer_ended writer raw.
End code.

End R4Files.
