(* ===== verification/R4Env.v ===== *)
(** * Programs on an initialised system

    What a facade over [R4Sys] relies on: the system's table with given functions
    in given slots, and some memory whose contents it reads. A store beside all
    of that keeps it. *)

From S2P Require Import Prelude R4Abi R4Mem R4L R4LSpec.
From S2P Require Import R4Table R4Sys R4SysSpec R4SysInit R4Field.
From S2P Require Import R4App R4Files.

Module R4Env.
Export R4Files.

Definition op_ok (op : R4Operation) : bool := bool_decide (op_state op = R4_OPERATION_OK).

Lemma status_ok raw : op_ok (r4_operation_status raw) = true ↔ 0 ≤ raw.
Proof. unfold op_ok, r4_operation_status. cbn [op_state]. destruct (Z.ltb_spec raw 0); split; intros; (done || lia). Qed.

(** Slots that every table of the minimum size has. *)
Definition slots_ok (slots : list (string * Z)) : bool :=
  forallb (λ s, is_slot R4XStartR4Sys (fst s) && (offsetof R4XStartR4Sys (fst s) + 8 <=? R4XSTART_R4SYS_SIZE)) slots.

Section env.
Context {K : Type} `{!Kernel K} (sys : Z) (slots : list (string * Z)) (fixed : list (Z * list byte)).
Implicit Types (w : world K) (m : gmap Z byte).

Record env m : Prop := {
  en_sys : sys_ok R4XSTART_R4SYS_SIZE m sys;
  en_table : sys ≠ 0 ∧ table_ptr m sys ≠ 0;
  en_slots : ∀ n f, (n, f) ∈ slots → slot_of m R4XStartR4Sys (table_ptr m sys) n = f;
  en_fixed : ∀ a l, (a, l) ∈ fixed → bytes_at m a l
}.

Record aside m (a n : Z) : Prop := {
  as_sys : apart m sys a n;
  as_fixed : ∀ b l, (b, l) ∈ fixed → a + n ≤ b ∨ b + Z.of_nat (length l) ≤ a
}.

Lemma aside_sub m a n b k : aside m a n → a ≤ b → b + k ≤ a + n → aside m b k.
Proof.
  intros [[H1 H2] H3] Ha Hb. split; [split|].
  - intros Hne. specialize (H1 Hne). lia.
  - intros Hne. specialize (H2 Hne). lia.
  - intros x l Hin. specialize (H3 x l Hin). lia.
Qed.

Lemma slots_ok_elem n f : slots_ok slots = true → (n, f) ∈ slots →
  is_slot R4XStartR4Sys n = true ∧ offsetof R4XStartR4Sys n + 8 ≤ R4XSTART_R4SYS_SIZE.
Proof.
  unfold slots_ok. rewrite forallb_forall. intros H Hin%list_elem_of_In. apply H, andb_true_iff in Hin as [H1 H2%Z.leb_le]. done.
Qed.

Lemma env_changed m m' a n :
  slots_ok slots = true → changed m m' a n → env m → aside m a n → env m' ∧ (∀ b k, aside m b k → aside m' b k).
Proof.
  intros Hok Hch [Hs [H0 Ht] Hsl Hf] [Ha Haf]. destruct (changed_sys _ _ _ _ _ _ Hch Hs Ha) as (Hs' & Ep & Hslot & Hap').
  split; [|intros b k [H1 H2]; split; [by apply Hap'|done]]. split; [done|by rewrite Ep| |].
  - intros x f Hin. destruct (slots_ok_elem x f Hok Hin) as [Hx _]. destruct (Hslot x Hx) as [->|]; [by apply Hsl|done].
  - intros b l Hin. eapply bytes_changed; [exact Hch|by eapply Haf|by apply Hf].
Qed.

Lemma env_get w n f :
  slots_ok slots = true → env (mem w) → (n, f) ∈ slots → get R4XStartR4Sys n (table_ptr (mem w) sys) w = Some (f, w).
Proof.
  intros Hok [Hs [H0 Ht] Hsl _] Hin. destruct (slots_ok_elem n f Hok Hin) as [Hn Hle].
  rewrite (console_slot w sys n) by done. by rewrite (Hsl n f Hin).
Qed.

Lemma env_slot w n f :
  slots_ok slots = true → env (mem w) → (n, f) ∈ slots → system_slot sys n w = Some (f, w).
Proof.
  intros Hok He Hin. unfold system_slot. rewrite (mbind_run _ _ _ _ _ (sys_table_run _ w sys (en_sys _ He))).
  rewrite (proj2 (Z.eqb_neq _ _) (proj2 (en_table _ He))). by apply env_get.
Qed.

(** A facade at [facade] that points to the system. *)
Definition facade_bytes : list byte := le_bytes 8 sys.

Lemma facade_system_run w facade :
  env (mem w) → (facade, facade_bytes) ∈ fixed → facade ≠ 0 → is_u64 sys → facade_system facade w = Some (sys, w).
Proof.
  intros He Hin Hne Hu. unfold facade_system. rewrite (proj2 (Z.eqb_neq _ _) Hne). unfold get.
  change (field_at Facade_t "system") with (Some (0, 8%nat)). cbv iota. rewrite Z.add_0_r.
  apply (load_run w facade 8 sys facade_bytes); [exact (en_fixed _ He _ _ Hin)|].
  unfold facade_bytes. rewrite le_val_le_bytes. by apply Z.mod_small.
Qed.

Lemma facade_slot_run w facade n f :
  slots_ok slots = true → env (mem w) → (facade, facade_bytes) ∈ fixed → facade ≠ 0 → is_u64 sys → (n, f) ∈ slots →
  facade_slot facade false n w = Some (f, w).
Proof.
  intros Hok He Hin Hne Hu Hs. unfold facade_slot. rewrite (mbind_run _ _ _ _ _ (facade_system_run w facade He Hin Hne Hu)).
  by apply env_slot.
Qed.
End env.

(** A C string as fixed memory. *)
Lemma cstr_bytes m a s : bytes_at m a (s ++ [x00]) → Forall (λ b, b ≠ x00) s → cstr_at m a s.
Proof.
  intros [H1 H2]%bytes_app Hs. split_and!; [done| |done]. apply bytes_lookup with (i := 0%nat) in H2; [|simpl; lia].
  by rewrite Z.add_0_r in H2.
Qed.

End R4Env.
