(* ===== verification/R4Stream.v ===== *)
(** * Streams: writing a file and reading it back

    The stream functions of app_storage.h against a kernel that keeps one file:
    the class [FileKernel] has what the kernel's contract says about the five
    functions they use. [save] and [load] are the loops an application writes
    around them. *)

From S2P Require Import Prelude R4Abi R4Mem R4L R4LSpec.
From S2P Require Import R4Table R4Sys R4SysSpec R4SysInit R4Field.
From S2P Require Import R4App R4Files R4Env.

Module R4Stream.
Export R4Env.

(** ** The kernel's side *)

Record stream_functions := StreamFunctions { f_read_at : Z; f_begin : Z; f_write : Z; f_finish : Z }.

(** The path [name] is at [p]. [file] is the content of that file, [stream]
    that of the stream that is open for it. *)
Class FileKernel (K : Type) `{!Kernel K} (file : K → list byte) (stream : K → option (list byte))
    (fs : stream_functions) (p : Z) (name : list byte) : Prop := {
  (** Reading delivers bytes from the offset on, none only at the end, or fails. *)
  read_law : ∀ w off out cap, cstr_at (mem w) p name → is_u32 off → is_u32 cap → mapped (mem w) out cap →
    let r := kcall (f_read_at fs) [p; off; out; cap] w in
    let n := i32 (fst r) in
    file (kern (snd r)) = file (kern w) ∧ changed (mem w) (mem (snd r)) out cap ∧
    (0 ≤ n → n ≤ cap ∧ bytes_at (mem (snd r)) out (slice (Z.to_nat off) (Z.to_nat n) (file (kern w))) ∧
       off + n ≤ off `max` Z.of_nat (length (file (kern w))) ∧
       (n = 0 → 0 < cap → Z.of_nat (length (file (kern w))) ≤ off));
  (** A new stream is empty. *)
  begin_law : ∀ w flags, cstr_at (mem w) p name →
    let r := kcall (f_begin fs) [p; flags] w in
    mem (snd r) = mem w ∧ (i32 (fst r) = 0 → stream (kern (snd r)) = Some []);
  (** A write that is accepted in full has put its bytes at its offset. *)
  write_law : ∀ w off src d s, cstr_at (mem w) p name → bytes_at (mem w) src d → stream (kern w) = Some s →
    0 ≤ off ≤ Z.of_nat (length s) →
    let r := kcall (f_write fs) [p; off; src; Z.of_nat (length d); 0] w in
    mem (snd r) = mem w ∧
    (i32 (fst r) = Z.of_nat (length d) → stream (kern (snd r)) = Some (take (Z.to_nat off) s ++ d));
  (** Finishing makes the stream the file, if it has the size announced. *)
  finish_law : ∀ w size, cstr_at (mem w) p name →
    let r := kcall (f_finish fs) [p; size; 0] w in
    mem (snd r) = mem w ∧
    (0 ≤ i32 (fst r) → ∃ s, stream (kern w) = Some s ∧ Z.of_nat (length s) = size ∧ file (kern (snd r)) = s)
}.

(** ** The application's loops *)

Section loops.
Context {K : Type} `{!Kernel K}.

(** Write the buffers, given by address and length, and finish. *)
Fixpoint write_chunks (writer : Z) (chunks : list (Z * Z)) : M K R4Operation :=
  match chunks with
  | [] => r4_stream_writer_finish writer
  | (src, len) :: chunks =>
      op ← r4_stream_writer_write writer src len;
      if op_ok op then write_chunks writer chunks else mret op
  end.

Definition save (sys p flags writer : Z) (chunks : list (Z * Z)) : M K R4Operation :=
  op ← r4_files_stream_writer sys p flags writer;
  if op_ok op then write_chunks writer chunks else mret op.

(** Read into the same buffer until there is no more; what was read, and the last result. *)
Fixpoint read_chunks (fuel : nat) (reader out cap : Z) : M K (list byte * R4Transfer) :=
  match fuel with
  | O => fault
  | S fuel =>
      t ← r4_stream_reader_read reader out cap;
      match tr_state t with
      | R4_TRANSFER_BYTES =>
          l ← (λ w, match read_bytes (mem w) out (Z.to_nat (tr_bytes t)) with Some l => Some (l, w) | None => None end);
          r ← read_chunks fuel reader out cap; mret (l ++ fst r, snd r)
      | _ => mret ([], t)
      end
  end.

Definition load_file (fuel : nat) (sys p reader out cap : Z) : M K (list byte * R4Transfer) :=
  _ ← r4_files_stream_reader reader sys p; read_chunks fuel reader out cap.
End loops.

(** ** The environment of a stream *)

Section streams.
Context {K : Type} `{!Kernel K} (file : K → list byte) (stream : K → option (list byte)) (fs : stream_functions).
Context (p : Z) (name : list byte) `{!FileKernel K file stream fs p name}.
Variable sys : Z.
Implicit Types (w : world K) (m : gmap Z byte).

Definition stream_slots : list (string * Z) :=
  [("file_read_at", f_read_at fs); ("file_stream_begin", f_begin fs); ("file_stream_write", f_write fs);
   ("file_stream_finish", f_finish fs)].

(** The system is initialised, has the four functions, and the path is in place. *)
Record stream_env m : Prop := {
  se_sys : sys_ok R4XSTART_R4SYS_SIZE m sys;
  se_table : sys ≠ 0 ∧ table_ptr m sys ≠ 0;
  se_slots : ∀ n f, (n, f) ∈ stream_slots → slot_of m R4XStartR4Sys (table_ptr m sys) n = f ∧ f ≠ 0;
  se_path : p ≠ 0 ∧ cstr_at m p name;
  se_range : is_u64 sys ∧ is_u64 p
}.

(** The [n] bytes at [a] are apart from all of that. *)
Definition aside m (a n : Z) : Prop := apart m sys a n ∧ (a + n ≤ p ∨ p + Z.of_nat (S (length name)) ≤ a).

Lemma cstr_changed m m' a s b n :
  changed m m' b n → b + n ≤ a ∨ a + Z.of_nat (S (length s)) ≤ b → cstr_at m a s → cstr_at m' a s.
Proof.
  intros Hch Hd (H1 & H2 & H3). split_and!; [|rewrite (ch_out _ _ _ _ Hch) by lia; done|done].
  by apply (bytes_changed m m' a s b n); [|lia|].
Qed.

Lemma stream_slot_ok n f : (n, f) ∈ stream_slots →
  is_slot R4XStartR4Sys n = true ∧ offsetof R4XStartR4Sys n + 8 ≤ R4XSTART_R4SYS_SIZE.
Proof.
  unfold stream_slots. rewrite !elem_of_cons, elem_of_nil.
  intros [[= -> _]|[[= -> _]|[[= -> _]|[[= -> _]|[]]]]]; (split; [reflexivity|vm_compute; discriminate]).
Qed.

Lemma stream_env_changed m m' a n :
  changed m m' a n → stream_env m → aside m a n → stream_env m' ∧ (∀ b k, aside m b k → aside m' b k).
Proof.
  intros Hch [Hs Ht Hsl Hp Hr] [Ha Hap]. destruct (changed_sys _ _ _ _ _ _ Hch Hs Ha) as (Hs' & Ep & Hslot & Hap').
  split; [|intros b k [H1 H2]; split; [by apply Hap'|done]].
  split; [done|by rewrite Ep| | |done].
  - intros x f Hin. destruct (Hslot x) as [Eq|E0]; [by apply (stream_slot_ok x f)|rewrite Eq; by apply Hsl|tauto].
  - split; [tauto|]. eapply cstr_changed; [done|done|tauto].
Qed.

Lemma stream_slot_run w n f :
  stream_env (mem w) → (n, f) ∈ stream_slots →
  system_slot sys n w = Some (f, w) ∧ get R4XStartR4Sys n (table_ptr (mem w) sys) w = Some (f, w) ∧ f ≠ 0.
Proof.
  intros [Hs [Hs0 Ht] Hsl _ _] Hin. destruct (Hsl n f Hin) as [Ef Hf], (stream_slot_ok n f Hin) as [Hn Hle].
  assert (get R4XStartR4Sys n (table_ptr (mem w) sys) w = Some (f, w)) as Hg by (rewrite (console_slot w sys n) by done; by rewrite Ef).
  split_and!; [|done|done]. unfold system_slot. rewrite (mbind_run _ _ _ _ _ (sys_table_run _ w sys Hs)).
  by rewrite (proj2 (Z.eqb_neq _ 0) Ht).
Qed.
(** ** Writing *)

Variable writer : Z.

(** The stream has received [s], and the writer knows how much that is. *)
Record writer_inv w (s : list byte) : Prop := {
  wi_env : stream_env (mem w);
  wi_aside : writer ≠ 0 ∧ aside (mem w) writer 32;
  wi_at : ∃ σ, struct_at (mem w) R4StreamWriter writer σ ∧ σ "files.system" = sys ∧ σ "path" = p ∧
    σ "offset" = Z.of_nat (length s) ∧ σ "active" = 1;
  wi_stream : stream (kern w) = Some s
}.

Lemma writer_put w σ f v o k :
  field_at R4StreamWriter f = Some (o, k) → stream_env (mem w) → aside (mem w) writer 32 →
  struct_at (mem w) R4StreamWriter writer σ →
  ∃ m', put R4StreamWriter f writer v w = Some ((), World m' (kern w)) ∧ changed (mem w) m' writer 32 ∧
    struct_at m' R4StreamWriter writer (upd σ f (v mod 2 ^ (8 * Z.of_nat k))) ∧ stream_env m' ∧ aside m' writer 32.
Proof.
  intros Hf He Ha Hs. destruct (struct_put_mod w R4StreamWriter writer σ f v o k eq_refl Hf Hs) as (m' & Hr & Hc & Hs').
  destruct (stream_env_changed _ _ _ _ Hc He Ha) as [He' Ha']. exists m'. split_and!; auto.
Qed.

(** Run the next store into the writer, which is [H] at present. *)
Ltac writer_put_next H He Ha :=
  match goal with
  | |- context [@mbind _ _ _ _ _ (put R4StreamWriter ?f writer ?v) ?w] =>
      let m := fresh "m" in let Hr := fresh "Hr" in let Hc := fresh "Hc" in let Hs := fresh "Hs" in
      let He' := fresh "He" in let Ha' := fresh "Ha" in
      destruct (writer_put w _ f v _ _ eq_refl He Ha H) as (m & Hr & Hc & Hs & He' & Ha');
      rewrite (mbind_run _ _ _ _ _ Hr); clear H He Ha Hr; rename Hs into H; rename He' into He; rename Ha' into Ha;
      cbn [mem kern] in *
  end.

Lemma writer_slot_run w s n f :
  writer_inv w s → (n, f) ∈ stream_slots → writer_slot writer n w = Some (f, w) ∧ f ≠ 0.
Proof.
  intros [He [H0 Ha] (σ & Hs & Hsys & _ & _ & Hact) _] Hin. unfold writer_slot. rewrite (proj2 (Z.eqb_neq _ _) H0).
  field_get Hs. rewrite Hact. cbn [Z.eqb]. field_get Hs. rewrite Hsys.
  rewrite (mbind_run _ _ _ _ _ (get_run w R4Sys_t "table" sys 16 (so_mapped _ _ _ (se_sys _ He) (proj1 (se_table _ He))) eq_refl)).
  destruct (stream_slot_run w n f He Hin) as (_ & Hg & Hf). unfold table_ptr in Hg.
  rewrite (proj2 (Z.eqb_neq _ _) (proj1 (se_table _ He))) in Hg. done.
Qed.

Lemma writer_write_run w s src d :
  writer_inv w s → bytes_at (mem w) src d → Z.of_nat (length d) < 2 ^ 32 → Z.of_nat (length s + length d) < 2 ^ 64 →
  ∃ op w', r4_stream_writer_write writer src (Z.of_nat (length d)) w = Some (op, w') ∧
    changed (mem w) (mem w') writer 32 ∧ (if op_ok op then writer_inv w' (s ++ d) else op_state op = R4_OPERATION_FAILED).
Proof.
  intros Hi Hd Hlen Hsum. destruct (writer_slot_run w s "file_stream_write" (f_write fs) Hi ltac:(set_solver)) as [Hslot Hf].
  destruct Hi as [He [H0 Ha] (σ & Hs & Hsys & Hpath & Hoff & Hact) Hst]. unfold r4_stream_writer_write.
  rewrite (mbind_run _ _ _ _ _ Hslot), (proj2 (Z.eqb_neq _ _) Hf). field_get Hs. field_get Hs. rewrite Hpath, Hoff.
  rewrite (mbind_run _ _ _ _ _ (call_i32_run w _ _ Hf)).
  destruct (write_law w (Z.of_nat (length s)) src d s (proj2 (se_path _ He)) Hd Hst ltac:(lia)) as [Hm Hlaw].
  set (r := kcall (f_write fs) _ w) in *. set (raw := i32 (fst r)) in *. rewrite <-Hm in Hs, He, Ha. rewrite <-Hm. clear Hslot.
  assert (is_i32 raw) as Hraw by apply i32_range.
  writer_put_next Hs He Ha. destruct ((raw <? 0) || negb (Prelude.u32 raw =? Z.of_nat (length d))) eqn:Hbad.
  - writer_put_next Hs He Ha. eexists _, _. split_and!; [done|by eapply changed_trans|].
    unfold op_ok, r4_operation_status. destruct (Z.ltb_spec raw 0) as [Hneg|]; cbn [op_state]; [|done].
    by rewrite (proj2 (Z.ltb_lt raw 0) Hneg).
  - apply orb_false_iff in Hbad as [Hnn%Z.ltb_ge Heq%negb_false_iff%Z.eqb_eq].
    rewrite u32_small in Heq by (unfold is_u32, is_i32 in *; lia). field_get Hs.
    writer_put_next Hs He Ha. eexists _, _. split_and!; [done|by eapply changed_trans|].
    change (op_ok _) with true. cbv iota. split; [done|done| |].
    + eexists. split; [exact Hs|]. unfold upd. cbn -[Z.pow Z.modulo]. rewrite Hsys, Hpath, Hoff, Hact, length_app.
      split_and!; [done|done| |done]. change (8 * Z.of_nat (Z.to_nat 8)) with 64. rewrite Z.mod_small; lia.
    + cbn [kern]. rewrite Hlaw by done. by rewrite Nat2Z.id, firstn_all.
Qed.

(** A writer that does nothing any more. *)
Definition writer_idle w : Prop := ∃ σ, struct_at (mem w) R4StreamWriter writer σ ∧ σ "active" = 0.

Lemma writer_begin_run w flags :
  stream_env (mem w) → writer ≠ 0 → aside (mem w) writer 32 → mapped (mem w) writer 32 →
  ∃ op w', r4_files_stream_writer sys p flags writer w = Some (op, w') ∧ changed (mem w) (mem w') writer 32 ∧
    (op_ok op = true → writer_inv w' [] ∨ writer_idle w').
Proof.
  intros He H0 Ha Hm. destruct (stream_slot_run w "file_stream_begin" (f_begin fs) He ltac:(set_solver)) as (Hslot & _ & Hf).
  unfold r4_files_stream_writer. rewrite (proj2 (Z.eqb_neq _ _) H0), (proj2 (Z.eqb_neq _ _) (proj1 (se_path _ He))). cbn [orb].
  rewrite (mbind_run _ _ _ _ _ Hslot), (proj2 (Z.eqb_neq _ _) Hf).
  destruct (clear_struct w R4StreamWriter writer eq_refl ltac:(done) Hm) as (m1 & Hr1 & Hc1 & Hs).
  rewrite (mbind_run _ _ _ _ _ Hr1). destruct (stream_env_changed _ _ _ _ Hc1 He Ha) as [He1 Ha1]. specialize (Ha1 _ _ Ha).
  clear Hslot. writer_put_next Hs He1 Ha1. writer_put_next Hs He1 Ha1.
  rewrite (mbind_run _ _ _ _ _ (call_i32_run _ _ _ Hf)).
  destruct (begin_law (World m0 (kern w)) flags (proj2 (se_path _ He1))) as [Hm' Hlaw]. cbn [mem kern] in *.
  set (r := kcall _ _ _) in *. rewrite <-Hm' in Hs, He1, Ha1. writer_put_next Hs He1 Ha1. writer_put_next Hs He1 Ha1.
  eexists _, _. split_and!; [done| |].
  - rewrite Hm' in *. repeat (eapply changed_trans; [eassumption|]). by split.
  - intros _. destruct (Z.eqb_spec (i32 (fst r)) R4OS_FILE_STREAM_RESULT_OK) as [Hz|Hz]; [left|right; by eexists].
    split; [done|done| |by apply Hlaw]. eexists. split; [exact Hs|]. unfold upd. cbn -[Z.pow Z.modulo]. destruct (se_range _ He) as [Hrs Hrp].
    split_and!; [| |done|done]; apply Z.mod_small; [exact Hrs|exact Hrp].
Qed.
Lemma writer_idle_run w :
  writer_idle w → (∀ src len, r4_stream_writer_write writer src len w = Some (r4_operation_status R4OS_ERR_NO_FN, w)) ∧
    r4_stream_writer_finish writer w = Some (r4_operation_status R4OS_ERR_NO_FN, w).
Proof.
  intros (σ & Hs & Hact). assert (∀ n, writer_slot writer n w = Some (0, w)) as Hslot.
  { intros n. unfold writer_slot. destruct (writer =? 0); [done|]. field_get Hs. by rewrite Hact. }
  split; [intros src len|]; [unfold r4_stream_writer_write|unfold r4_stream_writer_finish]; by rewrite (mbind_run _ _ _ _ _ (Hslot _)).
Qed.

Lemma writer_finish_run w s :
  writer_inv w s →
  ∃ op w', r4_stream_writer_finish writer w = Some (op, w') ∧ changed (mem w) (mem w') writer 32 ∧
    writer_idle w' ∧ (op_ok op = true → file (kern w') = s).
Proof.
  intros Hi. destruct (writer_slot_run w s "file_stream_finish" (f_finish fs) Hi ltac:(set_solver)) as [Hslot Hf].
  destruct Hi as [He [H0 Ha] (σ & Hs & Hsys & Hpath & Hoff & Hact) Hst]. unfold r4_stream_writer_finish, writer_ended.
  rewrite (mbind_run _ _ _ _ _ Hslot), (proj2 (Z.eqb_neq _ _) Hf). field_get Hs. field_get Hs. rewrite Hpath, Hoff.
  rewrite (mbind_run _ _ _ _ _ (call_i32_run w _ _ Hf)).
  destruct (finish_law w (Z.of_nat (length s)) (proj2 (se_path _ He))) as [Hm Hlaw].
  set (r := kcall (f_finish fs) _ w) in *. rewrite <-Hm in Hs, He, Ha. rewrite <-Hm. clear Hslot.
  writer_put_next Hs He Ha. writer_put_next Hs He Ha. eexists _, _. split_and!; [done|by eapply changed_trans|by eexists|].
  unfold op_ok, r4_operation_status. cbn [op_state kern]. destruct (Z.ltb_spec (i32 (fst r)) 0); [done|]. intros _.
  destruct (Hlaw ltac:(done)) as (s' & Hs' & _ & ->). congruence.
Qed.

(** The buffers hold their contents and are apart from the writer. *)
Definition chunks_at m (chunks : list (Z * list byte)) : Prop :=
  Forall (λ c, bytes_at m (fst c) (snd c) ∧ Z.of_nat (length (snd c)) < 2 ^ 32 ∧
               (writer + 32 ≤ fst c ∨ fst c + Z.of_nat (length (snd c)) ≤ writer)) chunks.

Definition buffers (chunks : list (Z * list byte)) : list (Z * Z) :=
  map (λ c, (fst c, Z.of_nat (length (snd c)))) chunks.

Lemma chunks_changed m m' chunks : changed m m' writer 32 → chunks_at m chunks → chunks_at m' chunks.
Proof.
  intros Hch H. eapply Forall_impl; [exact H|]. intros c (H1 & H2 & H3). split_and!; [|done|done].
  eapply bytes_changed; [done|lia|done].
Qed.

Lemma write_chunks_run w s chunks :
  writer_inv w s → chunks_at (mem w) chunks → Z.of_nat (length s + length (concat (map snd chunks))) < 2 ^ 64 →
  ∃ op w', write_chunks writer (buffers chunks) w = Some (op, w') ∧ changed (mem w) (mem w') writer 32 ∧
    (op_ok op = true → file (kern w') = s ++ concat (map snd chunks)).
Proof.
  revert w s. induction chunks as [|[src d] chunks IH]; intros w s Hi Hc Hsum.
  - destruct (writer_finish_run w s Hi) as (op & w' & Hr & Hch & _ & Hok). exists op, w'. simpl. by rewrite app_nil_r.
  - apply Forall_cons in Hc as [(Hd & Hl & Hap) Hc]. cbn [buffers map write_chunks fst snd concat] in *. rewrite length_app in Hsum.
    destruct (writer_write_run w s src d Hi Hd Hl ltac:(lia)) as (op & w1 & Hr & Hch & Hok). rewrite (mbind_run _ _ _ _ _ Hr).
    destruct (op_ok op) eqn:E; [|exists op, w1; split_and!; [done|done|congruence]].
    destruct (IH w1 (s ++ d) Hok) as (op2 & w2 & Hr2 & Hch2 & Hok2).
    + by eapply chunks_changed.
    + rewrite length_app. lia.
    + exists op2, w2. split_and!; [done|by eapply changed_trans|]. intros Ho. rewrite (Hok2 Ho). by rewrite <-app_assoc.
Qed.

(** [save] returns, and what it reports to be saved is saved. *)
Lemma save_run w flags chunks :
  stream_env (mem w) → writer ≠ 0 → aside (mem w) writer 32 → mapped (mem w) writer 32 →
  chunks_at (mem w) chunks → Z.of_nat (length (concat (map snd chunks))) < 2 ^ 64 →
  ∃ op w', save sys p flags writer (buffers chunks) w = Some (op, w') ∧ changed (mem w) (mem w') writer 32 ∧
    (op_ok op = true → file (kern w') = concat (map snd chunks)).
Proof.
  intros He H0 Ha Hm Hc Hsum. unfold save. destruct (writer_begin_run w flags He H0 Ha Hm) as (op & w1 & Hr & Hch & Hinv).
  rewrite (mbind_run _ _ _ _ _ Hr). destruct (op_ok op) eqn:E; [|exists op, w1; split_and!; [done|done|congruence]].
  destruct (Hinv eq_refl) as [Hi|Hi].
  - destruct (write_chunks_run w1 [] chunks Hi) as (op2 & w2 & Hr2 & Hch2 & Hok2); [by eapply chunks_changed|done|].
    exists op2, w2. split_and!; [done|by eapply changed_trans|done].
  - destruct (writer_idle_run w1 Hi) as [Hw Hf]. exists (r4_operation_status R4OS_ERR_NO_FN), w1.
    split_and!; [|done|done]. destruct chunks as [|[src d] chunks]; [exact Hf|]. cbn [buffers map write_chunks fst snd].
    by rewrite (mbind_run _ _ _ _ _ (Hw _ _)).
Qed.
(** ** Reading *)

Variables (reader out cap : Z).

(** The reader has delivered the first [n] bytes of the file. *)
Record reader_inv w (n : Z) : Prop := {
  ri_env : stream_env (mem w);
  ri_aside : reader ≠ 0 ∧ aside (mem w) reader 32;
  ri_at : ∃ σ, struct_at (mem w) R4StreamReader reader σ ∧ σ "files.system" = sys ∧ σ "path" = p ∧
    σ "offset" = n ∧ σ "ended" = 0;
  ri_out : mapped (mem w) out cap ∧ aside (mem w) out cap ∧ (out + cap ≤ reader ∨ reader + 32 ≤ out)
}.

Lemma reader_put w n σ f v o k :
  reader_inv w n → struct_at (mem w) R4StreamReader reader σ → field_at R4StreamReader f = Some (o, k) →
  ∃ m', put R4StreamReader f reader v w = Some ((), World m' (kern w)) ∧ changed (mem w) m' reader 32 ∧
    struct_at m' R4StreamReader reader (upd σ f (v mod 2 ^ (8 * Z.of_nat k))) ∧ stream_env m' ∧
    aside m' reader 32 ∧ aside m' out cap ∧ mapped m' out cap.
Proof.
  intros [He [H0 Ha] _ (Hm & Hao & Hd)] Hs Hf.
  destruct (struct_put_mod w R4StreamReader reader σ f v o k eq_refl Hf Hs) as (m' & Hr & Hc & Hs').
  destruct (stream_env_changed _ _ _ _ Hc He Ha) as [He' Ha']. exists m'. split_and!; auto. by eapply changed_mapped.
Qed.

(** The kernel fills the buffer; nothing else of the reader's world changes. *)
Lemma reader_inv_kernel w w1 n : reader_inv w n → changed (mem w) (mem w1) out cap → reader_inv w1 n.
Proof.
  intros [He [H0 Ha] (σ & Hs & Hσ) (Hm & Hao & Hd)] Hc. destruct (stream_env_changed _ _ _ _ Hc He Hao) as [He' Ha'].
  split; [done|by auto| |split_and!; [by eapply changed_mapped|by auto|done]].
  exists σ. split; [|done]. eapply struct_changed; [reflexivity|exact Hc|exact Hd|exact Hs].
Qed.

Lemma read_at_run w n :
  reader_inv w n → 0 ≤ n ≤ UINT32_MAX → is_u32 cap →
  let r := kcall (f_read_at fs) [p; n; out; cap] w in
  read_at sys p n out cap w = Some (r4_transfer_raw (i32 (fst r)), snd r) ∧ reader_inv (snd r) n ∧
  file (kern (snd r)) = file (kern w) ∧
  (0 ≤ i32 (fst r) → i32 (fst r) ≤ cap ∧
     bytes_at (mem (snd r)) out (slice (Z.to_nat n) (Z.to_nat (i32 (fst r))) (file (kern w))) ∧
     n + i32 (fst r) ≤ n `max` Z.of_nat (length (file (kern w))) ∧
     (i32 (fst r) = 0 → 0 < cap → Z.of_nat (length (file (kern w))) ≤ n)).
Proof.
  intros Hi Hn Hcap r. pose proof (ri_env _ _ Hi) as He.
  destruct (stream_slot_run w "file_read_at" (f_read_at fs) He ltac:(set_solver)) as (Hslot & _ & Hf).
  assert (is_u32 n) as Hn32 by (unfold is_u32, UINT32_MAX in *; lia).
  destruct (read_law w n out cap (proj2 (se_path _ He)) Hn32 Hcap (proj1 (ri_out _ _ Hi))) as (Hfile & Hch & Hlaw).
  split_and!; [|by eapply reader_inv_kernel|done|done].
  unfold read_at. rewrite (proj2 (Z.eqb_neq _ _) (proj1 (se_path _ He))), (mbind_run _ _ _ _ _ Hslot), (proj2 (Z.eqb_neq _ _) Hf).
  by rewrite (mbind_run _ _ _ _ _ (call_i32_run w _ _ Hf)).
Qed.

(** One read: the next bytes, the end, or a failure. *)
Definition read_outcome w n (t : R4Transfer) w' : Prop :=
  match tr_state t with
  | R4_TRANSFER_BYTES =>
      0 < tr_bytes t ∧ n + tr_bytes t ≤ Z.of_nat (length (file (kern w))) ∧ reader_inv w' (n + tr_bytes t) ∧
      bytes_at (mem w') out (slice (Z.to_nat n) (Z.to_nat (tr_bytes t)) (file (kern w)))
  | R4_TRANSFER_END => n = Z.of_nat (length (file (kern w))) ∧ n ≤ UINT32_MAX
  | R4_TRANSFER_FAILED =>
      if UINT32_MAX <? n then tr_raw_code t = R4OS_FILE_STREAM_ERROR_TOO_LARGE
      else tr_raw_code t = i32 (fst (kcall (f_read_at fs) [p; n; out; cap] w)) ∧ tr_raw_code t < 0
  end.

Lemma reader_read_run w n :
  reader_inv w n → 0 ≤ n ≤ Z.of_nat (length (file (kern w))) → Z.of_nat (length (file (kern w))) < 2 ^ 63 →
  is_u32 cap → 0 < cap →
  ∃ t w', r4_stream_reader_read reader out cap w = Some (t, w') ∧ file (kern w') = file (kern w) ∧ read_outcome w n t w'.
Proof.
  intros Hi Hn Hlen Hcap Hpos. pose proof Hi as [He [H0 Ha] (σ & Hs & Hsys & Hpath & Hoff & Hend) _].
  unfold r4_stream_reader_read. rewrite (proj2 (Z.eqb_neq _ _) H0). field_get Hs. rewrite Hend. cbn [Z.eqb negb].
  field_get Hs. rewrite Hoff. unfold read_outcome. destruct (Z.ltb_spec UINT32_MAX n) as [Hbig|Hsmall].
  { eexists _, w. split_and!; [done|done|]. done. }
  field_get Hs. field_get Hs. rewrite Hsys, Hpath.
  destruct (read_at_run w n Hi ltac:(lia) Hcap) as (Hr & Hi1 & Hfile & Hlaw). set (r := kcall _ _ w) in *.
  rewrite (mbind_run _ _ _ _ _ Hr). pose proof (i32_range (fst r)) as Hrange. set (raw := i32 (fst r)) in *.
  pose proof Hi1 as [_ _ (σ1 & Hs1 & Hsys1 & Hpath1 & Hoff1 & Hend1) (Hm1 & Hao1 & Hd1)]. unfold r4_transfer_raw.
  destruct (Z.ltb_spec raw 0) as [Hneg|Hnn]; cbn [tr_state].
  { eexists _, (snd r). split_and!; [done|done|]. done. }
  destruct (Hlaw Hnn) as (Hle & Hbytes & Hmax & Hzero). destruct (Z.eqb_spec raw 0) as [Hz|Hnz]; cbn [tr_state tr_bytes].
  - destruct (reader_put (snd r) n σ1 "ended" 1 _ _ Hi1 Hs1 eq_refl) as (m' & Hp & _). rewrite (mbind_run _ _ _ _ _ Hp).
    eexists _, _. split_and!; [done|done|]. specialize (Hzero Hz Hpos). split; [lia|done].
  - destruct (reader_put (snd r) n σ1 "offset" (n + Prelude.u32 raw) _ _ Hi1 Hs1 eq_refl)
      as (m' & Hp & Hc & Hs' & He' & Ha' & Hao' & Hmo').
    erewrite mbind_run; [|field_get Hs1; rewrite Hoff1; exact Hp]. rewrite u32_small in * by (unfold is_u32, is_i32 in *; lia).
    eexists _, _. split_and!; [done|done|]. cbn [tr_state tr_bytes].
    split_and!; [lia|lia| |].
    + split; [done|done| |done]. eexists. split; [exact Hs'|]. unfold upd. cbn -[Z.pow Z.modulo]. rewrite Hsys1, Hpath1, Hend1.
      split_and!; [done|done| |done]. change (8 * Z.of_nat (Z.to_nat 8)) with 64. apply Z.mod_small. lia.
    + cbn [mem]. eapply bytes_changed; [exact Hc| |exact Hbytes]. rewrite length_slice by lia. lia.
Qed.

Lemma read_chunks_run w n fuel :
  reader_inv w n → 0 ≤ n ≤ Z.of_nat (length (file (kern w))) → Z.of_nat (length (file (kern w))) < 2 ^ 63 →
  is_u32 cap → 0 < cap → (length (file (kern w)) < Z.to_nat n + fuel)%nat →
  ∃ l t w', read_chunks fuel reader out cap w = Some ((l, t), w') ∧ l `prefix_of` drop (Z.to_nat n) (file (kern w)) ∧
    match tr_state t with
    | R4_TRANSFER_BYTES => False
    | R4_TRANSFER_END => l = drop (Z.to_nat n) (file (kern w)) ∧ Z.of_nat (length (file (kern w))) ≤ UINT32_MAX
    | R4_TRANSFER_FAILED =>
        (tr_raw_code t = R4OS_FILE_STREAM_ERROR_TOO_LARGE ∧ UINT32_MAX < Z.of_nat (length (file (kern w)))) ∨
        ∃ w1 off, tr_raw_code t = i32 (fst (kcall (f_read_at fs) [p; off; out; cap] w1)) ∧ tr_raw_code t < 0
    end.
Proof.
  revert w n. induction fuel as [|fuel IH]; intros w n Hi Hn Hlen Hcap Hpos Hfuel; [lia|]. cbn [read_chunks].
  destruct (reader_read_run w n Hi Hn Hlen Hcap Hpos) as (t & w1 & Hr & Hfile & Ho). rewrite (mbind_run _ _ _ _ _ Hr).
  unfold read_outcome in Ho. destruct (tr_state t) eqn:E.
  - destruct Ho as (Hb & Hle & Hi1 & Hbytes).
    assert (read_bytes (mem w1) out (Z.to_nat (tr_bytes t)) = Some (slice (Z.to_nat n) (Z.to_nat (tr_bytes t)) (file (kern w)))) as Hrd.
    { unfold bytes_at in Hbytes. by rewrite length_slice in Hbytes by lia. }
    destruct (IH w1 (n + tr_bytes t)) as (l & t' & w2 & Hr2 & Hpre & Hend); rewrite ?Hfile; try done; try lia. rewrite Hfile in *.
    erewrite mbind_run; [|by rewrite Hrd]. rewrite (mbind_run _ _ _ _ _ Hr2).
    assert (drop (Z.to_nat n) (file (kern w)) = slice (Z.to_nat n) (Z.to_nat (tr_bytes t)) (file (kern w))
      ++ drop (Z.to_nat (n + tr_bytes t)) (file (kern w))) as Hsplit.
    { unfold slice. replace (Z.to_nat (n + tr_bytes t)) with (Z.to_nat n + Z.to_nat (tr_bytes t))%nat by lia.
      rewrite <-drop_drop. by rewrite take_drop. }
    eexists _, t', w2. split_and!; [done| |]; cbn [fst snd]; rewrite Hsplit.
    + by apply prefix_app.
    + destruct (tr_state t'); [done| |done]. destruct Hend as [-> ?]. done.
  - exists [], t, w1. rewrite E. split_and!; [done|apply prefix_nil| |lia]. rewrite drop_ge; [done|lia].
  - exists [], t, w1. rewrite E. split_and!; [done|apply prefix_nil|].
    destruct (Z.ltb_spec UINT32_MAX n); [left; split; [done|lia]|right]. destruct Ho. by eexists w, n.
Qed.

Lemma reader_start_run w :
  stream_env (mem w) → reader ≠ 0 → aside (mem w) reader 32 → mapped (mem w) reader 32 →
  mapped (mem w) out cap → aside (mem w) out cap → out + cap ≤ reader ∨ reader + 32 ≤ out →
  ∃ w', r4_files_stream_reader reader sys p w = Some ((), w') ∧ kern w' = kern w ∧ reader_inv w' 0.
Proof.
  intros He H0 Ha Hm Hmo Hao Hd. unfold r4_files_stream_reader.
  destruct (clear_struct w R4StreamReader reader eq_refl ltac:(done) Hm) as (m1 & Hr1 & Hc1 & Hs1). rewrite (mbind_run _ _ _ _ _ Hr1).
  destruct (struct_put_mod (World m1 (kern w)) R4StreamReader reader _ "files.system" sys _ _ eq_refl eq_refl Hs1) as (m2 & Hr2 & Hc2 & Hs2).
  rewrite (mbind_run _ _ _ _ _ Hr2).
  destruct (struct_put_mod (World m2 (kern w)) R4StreamReader reader _ "path" p _ _ eq_refl eq_refl Hs2) as (m3 & Hr3 & Hc3 & Hs3).
  cbn [mem kern] in *. assert (changed (mem w) m3 reader 32) as Hc by (eapply changed_trans; [exact Hc1|]; by eapply changed_trans).
  destruct (stream_env_changed _ _ _ _ Hc He Ha) as [He3 Ha3]. eexists. split_and!; [exact Hr3|done|].
  split; [done|by auto| |split_and!; [by eapply changed_mapped|by auto|done]].
  eexists. split; [exact Hs3|]. unfold upd. cbn -[Z.pow Z.modulo]. destruct (se_range _ He) as [Hrs Hrp].
  split_and!; [| |done|done]; apply Z.mod_small; [exact Hrs|exact Hrp].
Qed.
(** ** The theorems *)

(** Room for a reader and its buffer. *)
Record reader_room m : Prop := {
  rr_reader : reader ≠ 0 ∧ mapped m reader 32 ∧ aside m reader 32;
  rr_out : mapped m out cap ∧ aside m out cap ∧ (out + cap ≤ reader ∨ reader + 32 ≤ out);
  rr_cap : is_u32 cap ∧ 0 < cap
}.

Lemma file_load_run w :
  stream_env (mem w) → reader_room (mem w) → Z.of_nat (length (file (kern w))) < 2 ^ 63 →
  ∃ l t w', load_file (S (length (file (kern w)))) sys p reader out cap w = Some ((l, t), w') ∧
    l `prefix_of` file (kern w) ∧
    match tr_state t with
    | R4_TRANSFER_BYTES => False
    | R4_TRANSFER_END => l = file (kern w) ∧ Z.of_nat (length (file (kern w))) ≤ UINT32_MAX
    | R4_TRANSFER_FAILED =>
        (tr_raw_code t = R4OS_FILE_STREAM_ERROR_TOO_LARGE ∧ UINT32_MAX < Z.of_nat (length (file (kern w)))) ∨
        ∃ w1 off, tr_raw_code t = i32 (fst (kcall (f_read_at fs) [p; off; out; cap] w1)) ∧ tr_raw_code t < 0
    end.
Proof.
  intros He [(H0 & Hm & Ha) (Hmo & Hao & Hd) [Hcap Hpos]] Hlen.
  destruct (reader_start_run w He H0 Ha Hm Hmo Hao Hd) as (w1 & Hr & Hk & Hi).
  destruct (read_chunks_run w1 0 (S (length (file (kern w)))) Hi) as (l & t & w2 & Hr2 & Hpre & Ht); rewrite ?Hk; try done; try lia.
  exists l, t, w2. unfold load_file. rewrite (mbind_run _ _ _ _ _ Hr), Hr2. rewrite Hk in *. done.
Qed.

(** C28. Reading a file through a stream reader makes progress: as many reads as
    the file has bytes, and one more, are enough to come to an end, and what was
    read by then is a prefix of the file, the whole file if the reader reports the
    end. If no read fails, a file of less than 4 GiB is read to its end; a longer
    one ends with the status for files that are too large. *)
Theorem stream_reader_progress w :
  stream_env (mem w) → reader_room (mem w) → Z.of_nat (length (file (kern w))) < 2 ^ 63 →
  ∃ l t w', load_file (S (length (file (kern w)))) sys p reader out cap w = Some ((l, t), w') ∧
    tr_state t ≠ R4_TRANSFER_BYTES ∧ l `prefix_of` file (kern w) ∧ (tr_state t = R4_TRANSFER_END → l = file (kern w)) ∧
    ((∀ w1 off, 0 ≤ i32 (fst (kcall (f_read_at fs) [p; off; out; cap] w1))) →
     if Z.of_nat (length (file (kern w))) <=? UINT32_MAX then tr_state t = R4_TRANSFER_END
     else tr_raw_code t = R4OS_FILE_STREAM_ERROR_TOO_LARGE).
Proof.
  intros He Hroom Hlen. destruct (file_load_run w He Hroom Hlen) as (l & t & w' & Hr & Hpre & Ht). exists l, t, w'.
  split; [done|]. destruct (tr_state t) eqn:E; [done| |].
  - destruct Ht as [-> Hmax]. split_and!; [done|done|done|]. intros _. by rewrite (proj2 (Z.leb_le _ _) Hmax).
  - split_and!; [done|done|done|]. intros Hno. destruct Ht as [[Hc Hbig]|(w1 & off & Hc & Hneg)].
    + by rewrite (proj2 (Z.leb_gt _ _) Hbig).
    + specialize (Hno w1 off). lia.
Qed.

(** C27. What is written through a stream is what is read back: saving buffers
    never faults, and if it is reported as done, reading the file delivers the
    contents of the buffers in order, all of them if the reader reports the end,
    and in any case nothing else. *)
Theorem stream_round_trip w flags chunks :
  stream_env (mem w) → writer ≠ 0 → aside (mem w) writer 32 → mapped (mem w) writer 32 →
  chunks_at (mem w) chunks → reader_room (mem w) → Z.of_nat (length (concat (map snd chunks))) < 2 ^ 63 →
  ∃ op w1, save sys p flags writer (buffers chunks) w = Some (op, w1) ∧
    (op_ok op = true → ∃ l t w2,
       load_file (S (length (concat (map snd chunks)))) sys p reader out cap w1 = Some ((l, t), w2) ∧
       l `prefix_of` concat (map snd chunks) ∧ (tr_state t = R4_TRANSFER_END → l = concat (map snd chunks))).
Proof.
  intros He H0 Ha Hm Hc [(Hr0 & Hrm & Hra) (Hom & Hoa & Hod) Hcap] Hlen.
  destruct (save_run w flags chunks He H0 Ha Hm Hc ltac:(lia)) as (op & w1 & Hr & Hch & Hok).
  exists op, w1. split; [done|]. intros Ho. specialize (Hok Ho). destruct (stream_env_changed _ _ _ _ Hch He Ha) as [He1 Ha1].
  assert (reader_room (mem w1)) as Hroom by (split; [split_and!|split_and!|]; auto; by eapply changed_mapped).
  destruct (file_load_run w1 He1 Hroom) as (l & t & w2 & Hr2 & Hpre & Ht); rewrite Hok in *; [done|].
  exists l, t, w2. split_and!; [done|done|]. intros E. rewrite E in Ht. by destruct Ht.
Qed.
End streams.

(** ** A kernel with one file *)

Record one_file := OneFile { of_file : list byte; of_stream : option (list byte) }.

(** The four functions have different numbers of arguments. *)
#[global] Instance one_file_kernel : Kernel one_file := λ _ args w,
  match args with
  | [_; off; out; cap] =>
      let d := take (Z.to_nat (cap `min` 4096)) (drop (Z.to_nat off) (of_file (kern w))) in
      (Z.of_nat (length d), World (place_bytes out d (mem w)) (kern w))
  | [_; _] => (0, World (mem w) (OneFile (of_file (kern w)) (Some [])))
  | [_; off; src; len; _] =>
      match of_stream (kern w), read_bytes (mem w) src (Z.to_nat len) with
      | Some s, Some d => (len, World (mem w) (OneFile (of_file (kern w)) (Some (take (Z.to_nat off) s ++ d))))
      | _, _ => (R4OS_FILE_STREAM_ERROR_INVALID, w)
      end
  | [_; size; _] =>
      match of_stream (kern w) with
      | Some s => if Z.of_nat (length s) =? size then (0, World (mem w) (OneFile s None)) else (R4OS_FILE_STREAM_ERROR_IO, w)
      | None => (R4OS_FILE_STREAM_ERROR_INVALID, w)
      end
  | _ => (R4OS_FILE_STREAM_ERROR_INVALID, w)
  end.

Lemma take_length_take {A} n (l : list A) : take (length (take n l)) l = take n l.
Proof. revert n. induction l as [|x l IH]; intros [|n]; simpl; [done..|]. by rewrite IH. Qed.

Definition demo_streams : stream_functions := StreamFunctions 7067 7069 7070 7071.

#[global] Instance one_file_laws p name : FileKernel one_file of_file of_stream demo_streams p name.
Proof.
  split.
  - intros w off out cap _ Hoff Hcap Hm. unfold kcall, one_file_kernel. cbn [fst snd mem kern].
    set (d := take _ _). assert (Z.of_nat (length d) ≤ cap `min` 4096 ∧ off + Z.of_nat (length d) ≤ off `max` Z.of_nat (length (of_file (kern w)))) as [Hd1 Hd2].
    { unfold d, is_u32 in *. rewrite length_take, length_drop. lia. }
    rewrite i32_small by (unfold is_i32; lia). split_and!; [done| |].
    + assert (mapped (mem w) out (Z.of_nat (length d))) as Hm' by (eapply mapped_sub; [done|lia|lia]).
      eapply changed_sub; [by apply place_bytes_changed|lia|lia].
    + intros _. split_and!; [lia| |done|].
      * rewrite Nat2Z.id. assert (slice (Z.to_nat off) (length d) (of_file (kern w)) = d) as ->; [|apply place_bytes_in].
        apply take_length_take.
      * intros Hz Hpos. unfold d in Hz. rewrite length_take, length_drop in Hz. unfold is_u32 in *. lia.
  - by intros w flags _.
  - intros w off src d s _ Hd Hs Hoff. unfold kcall, one_file_kernel. cbn [fst snd mem kern]. rewrite Hs, Nat2Z.id, Hd. done.
  - intros w size _. unfold kcall, one_file_kernel. cbn [fst snd mem kern].
    destruct (of_stream (kern w)) as [s|]; [|done]. destruct (Z.eqb_spec (Z.of_nat (length s)) size); [|done]. split; [done|]. intros _. by exists s.
Qed.

(** An [R4Sys] at 256 with a table at 4096, a path at 1024, a writer at 512 and a
    reader at 576, two buffers at 640 and 704 and one to read into at 768. *)
Definition stream_demo (data : list byte) : world one_file := World (image [
  (256, struct_bytes R4Sys_t [0; 4096]); (512, replicate 32 xff); (576, replicate 32 xff);
  (640, lit "hello, "); (704, lit "world"); (768, replicate 8 xff); (1024, cstr "C:\A.TXT");
  (4096, demo_table R4XStartR4Sys 1264)]) (OneFile data None).

Lemma stream_demo_env data :
  stream_env demo_streams 1024 (lit "C:\A.TXT") 256 (mem (stream_demo data)) ∧
  reader_room 1024 (lit "C:\A.TXT") 256 576 768 8 (mem (stream_demo data)).
Proof.
  assert (table_ptr (mem (stream_demo data)) 256 = 4096) as Ep by (vm_compute; reflexivity).
  assert (fv (mem (stream_demo data)) R4XStartR4Sys 4096 "size" = 1264) as Ez by (vm_compute; reflexivity).
  split.
  - split.
    + apply (sys_ok_check _ _ 256 1264); vm_compute; (reflexivity || discriminate).
    + rewrite Ep. lia.
    + rewrite Ep. unfold stream_slots. intros n f. rewrite !elem_of_cons, elem_of_nil.
      intros [[= -> ->]|[[= -> ->]|[[= -> ->]|[[= -> ->]|[]]]]]; (split; [vm_compute; reflexivity|discriminate]).
    + split; [lia|]. apply cstr_b_at. vm_compute. reflexivity.
    + unfold is_u64. lia.
  - split.
    + split_and!; [lia|apply mapped_b_mapped; vm_compute; reflexivity|]. split; [split; rewrite ?Ep, ?Ez; lia|simpl length; lia].
    + split_and!; [apply mapped_b_mapped; vm_compute; reflexivity| |lia]. split; [split; rewrite ?Ep, ?Ez; lia|simpl length; lia].
    + unfold is_u32. lia.
Qed.

Lemma stream_reader_progress_witness :
  fst <$> load_file 13 256 1024 576 768 8 (stream_demo (lit "hello, world"))
    = Some (lit "hello, world", Transfer R4_TRANSFER_END 0 0) ∧
  ∃ l t w', load_file 13 256 1024 576 768 8 (stream_demo (lit "hello, world")) = Some ((l, t), w') ∧
    tr_state t = R4_TRANSFER_END.
Proof.
  split; [vm_compute; reflexivity|]. destruct (stream_demo_env (lit "hello, world")) as [He Hr].
  destruct (stream_reader_progress of_file of_stream demo_streams 1024 (lit "C:\A.TXT") 256 576 768 8
    (stream_demo (lit "hello, world")) He Hr ltac:(vm_compute; reflexivity)) as (l & t & w' & H & _ & _ & _ & Hl).
  exists l, t, w'. split; [exact H|]. apply Hl. intros w1 off. unfold kcall, one_file_kernel. cbn [fst].
  rewrite i32_small; [lia|]. unfold is_i32. rewrite length_take. lia.
Defined.

Lemma stream_round_trip_witness :
  ∃ op w1, save 256 1024 0 512 (buffers [(640, lit "hello, "); (704, lit "world")]) (stream_demo []) = Some (op, w1) ∧
    op_ok op = true ∧ ∃ l t w2, load_file 13 256 1024 576 768 8 w1 = Some ((l, t), w2) ∧ l `prefix_of` lit "hello, world".
Proof.
  destruct (stream_demo_env []) as [He Hr].
  destruct (stream_round_trip of_file of_stream demo_streams 1024 (lit "C:\A.TXT") 256 512 576 768 8
    (stream_demo []) 0 [(640, lit "hello, "); (704, lit "world")] He) as (op & w1 & Hs & Hl).
  - lia.
  - assert (table_ptr (mem (stream_demo [])) 256 = 4096) as Ep by (vm_compute; reflexivity).
    assert (fv (mem (stream_demo [])) R4XStartR4Sys 4096 "size" = 1264) as Ez by (vm_compute; reflexivity).
    split; [split; rewrite ?Ep, ?Ez; lia|simpl length; lia].
  - apply mapped_b_mapped. vm_compute. reflexivity.
  - repeat (apply Forall_cons; split; [split_and!; [vm_compute; reflexivity|vm_compute; reflexivity|left; simpl; lia]|]). constructor.
  - exact Hr.
  - vm_compute. reflexivity.
  - assert (op_ok op = true) as Ho.
    { assert (op_ok <$> (fst <$> save 256 1024 0 512 (buffers [(640, lit "hello, "); (704, lit "world")]) (stream_demo [])) = Some true) as He'
        by (vm_compute; reflexivity). rewrite Hs in He'. by injection He'. }
    exists op, w1. split_and!; [exact Hs|exact Ho|]. destruct (Hl Ho) as (l & t & w2 & H & Hp & _). exists l, t, w2. split; [exact H|exact Hp].
Defined.

End R4Stream.
