(* ===== verification/R4Directory.v ===== *)
(** * Walking a directory

    [r4_directory_next] of app_storage.h asks a kernel that reports bounded
    progress (2) again until it has an answer or the program is to close. The
    class [DirKernel] has the documented footprint of the kernel's functions; how
    often a kernel says 2 is not limited, so the conversation with the kernel is a
    relation, [talk], and the loop returns exactly when the conversation ends. *)

From S2P Require Import Prelude R4Abi R4Mem R4L R4LSpec.
From S2P Require Import R4Table R4Sys R4SysSpec R4SysInit R4Field.
From S2P Require Import R4App R4Files.

Module R4Directory.
Export R4Files.

(** ** The kernel's side *)

(** [quiet] are the functions that close, sleep and yield. *)
Class DirKernel (K : Type) `{!Kernel K} (f_next f_entry : Z) (quiet : list Z) : Prop := {
  (** Only the cursor, the name and the information are written. *)
  next_law : ∀ w dir cursor out info, let r := kcall f_next [dir; cursor; out; 1024; info] w in
    ∃ m1 m2, changed (mem w) m1 cursor 1088 ∧ changed m1 m2 out 1024 ∧ changed m2 (mem (snd r)) info 96;
  entry_law : ∀ w dir index out, let r := kcall f_entry [dir; index; out; 1024] w in
    changed (mem w) (mem (snd r)) out 1024;
  quiet_law : ∀ f args w, f ∈ quiet → mem (snd (kcall f args w)) = mem w
}.

Section directory.
Context {K : Type} `{!Kernel K} (f_next f_entry : Z) (quiet : list Z).
Context `{!DirKernel K f_next f_entry quiet}.
Variables (sys iterator result : Z).
Implicit Types (w : world K) (m : gmap Z byte).

(** ** The environment *)

Definition ctx_of m : Z := fv m R4Sys_t sys "ctx".
Definition null_or (P : Prop) (f : Z) : Prop := f = 0 ∨ P.

(** An initialised system whose functions are the kernel's, where it has them. *)
Record dir_env m : Prop := {
  de_sys : sys_ok R4XSTART_R4SYS_SIZE m sys;
  de_table : sys ≠ 0 ∧ table_ptr m sys ≠ 0;
  de_slots : ∀ n P, (n, P) ∈ [("dir_entry", λ f, f = f_entry); ("directory_next", λ f, f = f_next);
      ("program_should_close", λ f, f ∈ quiet); ("sleep_ticks", λ f, f ∈ quiet)] →
    let f := slot_of m R4XStartR4Sys (table_ptr m sys) n in f = 0 ∨ P f;
  de_ctx : ctx_of m ≠ 0 → mapped m (ctx_of m) 128;
  de_fields : ∀ n, n ∈ ["should_close"; "yield"] → ctx_of m ≠ 0 →
    let f := fv m R4XStartContext (ctx_of m) n in f = 0 ∨ f ∈ quiet
}.

Definition aside m (a n : Z) : Prop := apart m sys a n ∧ (ctx_of m ≠ 0 → a + n ≤ ctx_of m ∨ ctx_of m + 128 ≤ a).

Lemma dir_env_changed m m' a n :
  changed m m' a n → dir_env m → aside m a n → dir_env m' ∧ (∀ b k, aside m b k → aside m' b k).
Proof.
  intros Hch [Hs [H0 Ht] Hsl Hc Hf] [Ha Hac]. destruct (changed_sys _ _ _ _ _ _ Hch Hs Ha) as (Hs' & Ep & Hslot & Hap').
  assert (ctx_of m' = ctx_of m) as Ec.
  { unfold ctx_of. eapply (changed_fv _ _ _ _ R4Sys_t sys "ctx" 16 Hch eq_refl). by apply (ap_sys _ _ _ _ Ha). }
  split; [|intros b k [H1 H2]; split; [by apply Hap'|by rewrite Ec]]. split; [done|by rewrite Ep| | |].
  - intros x P Hin. destruct (Hslot x) as [->|]; [|by apply Hsl|done].
    rewrite !elem_of_cons, elem_of_nil in Hin. by destruct Hin as [[= -> _]|[[= -> _]|[[= -> _]|[[= -> _]|[]]]]].
  - rewrite Ec. intros Hne. eapply changed_mapped; [done|by apply Hc].
  - rewrite Ec. intros x Hin Hne. specialize (Hf x Hin Hne). cbv zeta in *.
    rewrite (changed_fv _ _ _ _ R4XStartContext (ctx_of m) x 128 Hch); [done| |by apply Hac].
    rewrite !elem_of_cons, elem_of_nil in Hin. by destruct Hin as [->|[->|[]]].
Qed.

Lemma dir_get w n : dir_env (mem w) → is_slot R4XStartR4Sys n = true → offsetof R4XStartR4Sys n + 8 ≤ R4XSTART_R4SYS_SIZE →
  get R4XStartR4Sys n (table_ptr (mem w) sys) w = Some (slot_of (mem w) R4XStartR4Sys (table_ptr (mem w) sys) n, w).
Proof. intros [Hs [_ Ht] _ _ _] Hn Hle. by apply console_slot. Qed.

(** ** Closing and sleeping *)

(** A call that is quiet: it returns and writes nothing. *)
Definition calm {A} (code : M K A) w : Prop :=
  ∃ a w', code w = Some (a, w') ∧ mem w' = mem w.

Lemma calm_ret {A} (a : A) w : calm (mret a) w.
Proof. by exists a, w. Qed.

Lemma calm_void f args w : f ∈ quiet → f ≠ 0 → calm (call_void f args) w.
Proof.
  intros Hq Hf. pose proof (quiet_law f args w Hq) as Hm. unfold calm, call_void, call, mbind, m_bind.
  rewrite (proj2 (Z.eqb_neq _ _) Hf). destruct (kcall f args w) as [v w'] eqn:E. by exists (), w'.
Qed.

Lemma should_close_run w : dir_env (mem w) → calm (r4sys_program_should_close sys) w.
Proof.
  intros He. destruct (should_close_calls w sys (de_sys _ He) (proj1 (de_table _ He)) (proj2 (de_table _ He)) (de_ctx _ He))
    as (b & w' & Hr & [->|(f & args & Hf & -> & Hwhich)]); exists b; [by exists w|].
  assert (f ∈ quiet) as Hq.
  { destruct Hwhich as [->|[Hc ->]].
    - destruct (de_slots _ He "program_should_close" (λ f, f ∈ quiet) ltac:(set_solver)) as [E|Hq]; [by rewrite E in Hf|done].
    - destruct (de_fields _ He "should_close" ltac:(set_solver) Hc) as [E|Hq]; [by destruct Hf|done]. }
  pose proof (quiet_law f args w Hq) as Hm. by eexists.
Qed.

Lemma sleep_run w : dir_env (mem w) → calm (r4sys_sleep_ticks sys 0) w.
Proof.
  intros He. unfold r4sys_sleep_ticks, calm. rewrite (mbind_run _ _ _ _ _ (sys_table_run _ w sys (de_sys _ He))).
  rewrite (proj2 (Z.eqb_neq _ _) (proj2 (de_table _ He))).
  rewrite (mbind_run _ _ _ _ _ (dir_get w "sleep_ticks" He eq_refl ltac:(vm_compute; discriminate))).
  pose proof (de_slots _ He "sleep_ticks" (λ f, f ∈ quiet) ltac:(set_solver)) as Hsl. cbv zeta in Hsl.
  destruct (Z.eqb_spec (slot_of (mem w) R4XStartR4Sys (table_ptr (mem w) sys) "sleep_ticks") 0) as [|Hne]; cbn [negb].
  - pose proof (so_mapped _ _ _ (de_sys _ He) (proj1 (de_table _ He))) as Hms. run_get Hms. fold (ctx_of (mem w)).
    destruct (Z.eqb_spec (ctx_of (mem w)) 0) as [|Hc0]; [by eexists _, w|]. pose proof (de_ctx _ He Hc0) as Hmc. run_get Hmc.
    pose proof (de_fields _ He "yield" ltac:(set_solver) Hc0) as Hy. cbv zeta in Hy.
    destruct (Z.eqb_spec (fv (mem w) R4XStartContext (ctx_of (mem w)) "yield") 0); [by eexists _, w|].
    apply calm_void; [tauto|done].
  - apply calm_void; [tauto|done].
Qed.
(** ** The state of a walk *)

(** The iterator, the result and the path in the result have the given fields. *)
Record walk m (σ τ π : string → Z) : Prop := {
  wk_env : dir_env m;
  wk_iterator : struct_at m R4DirectoryIterator iterator σ;
  wk_sys : σ "files.system" = sys;
  wk_result : struct_at m R4DirectoryNext result τ;
  wk_path : struct_at m R4FilePath (result + 10) π;
  wk_iterator_aside : iterator ≠ 0 ∧ aside m iterator 1112;
  wk_result_aside : aside m result 1136;
  wk_apart : iterator + 1112 ≤ result ∨ result + 1136 ≤ iterator
}.

Lemma walk_ext m σ τ π π' : (∀ f q, field_at R4FilePath f = Some q → π f = π' f) → walk m σ τ π → walk m σ τ π'.
Proof. intros He [H1 H2 H3 H4 H5 H6 H7 H8]. split; [done|done|done|done|by eapply struct_ext|done|done|done]. Qed.

(** A structure beside the bytes that [Hc] says have changed. *)
Ltac struct_beside Hc :=
  eapply struct_changed; [reflexivity|exact Hc| |eassumption];
  change (sizeof R4DirectoryIterator) with 1112; change (sizeof R4DirectoryNext) with 1136; change (sizeof R4FilePath) with 1028; lia.

(** A store into the iterator or the result, given what it does to the fields. *)
Lemma walk_changed m m' σ τ π σ' τ' π' a n :
  walk m σ τ π → changed m m' a n → (iterator ≤ a ∧ a + n ≤ iterator + 1112) ∨ (result ≤ a ∧ a + n ≤ result + 1136) →
  struct_at m' R4DirectoryIterator iterator σ' → σ' "files.system" = sys →
  struct_at m' R4DirectoryNext result τ' → struct_at m' R4FilePath (result + 10) π' → walk m' σ' τ' π'.
Proof.
  intros [He Hi Hsys Hr Hp [H0 Hai] Har Hd] Hch Hin Hi' Hsys' Hr' Hp'.
  assert (dir_env m' ∧ ∀ b k, aside m b k → aside m' b k) as [He' Ha'].
  { destruct Hin as [Hin|Hin]; (eapply dir_env_changed; [eapply changed_sub; [exact Hch|apply Hin|apply Hin]|done|done]). }
  split; auto.
Qed.

Lemma walk_cursor m m' σ τ π : walk m σ τ π → changed m m' (iterator + 24) 1088 → walk m' σ τ π.
Proof.
  intros Hw Hch. pose proof Hw as [He Hi Hsys Hr Hp _ _ Hd]. eapply (walk_changed m m'); [done|done|left; lia| |done| |].
  - by apply (struct_hole m m' R4DirectoryIterator iterator σ 24 1088 eq_refl).
  - struct_beside Hch.
  - struct_beside Hch.
Qed.

Lemma walk_name m m' σ τ π : walk m σ τ π → changed m m' (result + 10) 1024 → walk m' σ τ π.
Proof.
  intros Hw Hch. pose proof Hw as [He Hi Hsys Hr Hp _ _ Hd]. eapply (walk_changed m m'); [done|done|right; lia| |done| |].
  - struct_beside Hch.
  - by apply (struct_hole m m' R4DirectoryNext result τ 10 1024 eq_refl).
  - apply (struct_hole m m' R4FilePath (result + 10) π 0 1024 eq_refl); [|done]. by rewrite Z.add_0_r.
Qed.

Lemma walk_info m m' σ τ π : walk m σ τ π → changed m m' (result + 1040) 96 → walk m' σ τ π.
Proof.
  intros Hw Hch. pose proof Hw as [He Hi Hsys Hr Hp _ _ Hd]. eapply (walk_changed m m'); [done|done|right; lia| |done| |].
  - struct_beside Hch.
  - by apply (struct_hole m m' R4DirectoryNext result τ 1040 96 eq_refl).
  - struct_beside Hch.
Qed.

(** The bytes of the name. *)
Definition same_name m m' : Prop := ∀ x, result + 10 ≤ x < result + 1034 → m' !! x = m !! x.

Lemma walk_put_iterator w σ τ π f v o k :
  walk (mem w) σ τ π → field_at R4DirectoryIterator f = Some (o, k) → f ≠ "files.system" →
  ∃ m', put R4DirectoryIterator f iterator v w = Some ((), World m' (kern w)) ∧
    walk m' (upd σ f (v mod 2 ^ (8 * Z.of_nat k))) τ π ∧ same_name (mem w) m'.
Proof.
  intros Hw Hf Hne. pose proof Hw as [He Hi Hsys Hr Hp _ _ Hd].
  destruct (struct_put_at w R4DirectoryIterator iterator σ f v o k eq_refl Hf Hi) as (m' & Hr' & _ & Hc & Hi').
  change (sizeof R4DirectoryIterator) with 1112 in Hc. exists m'. split_and!; [done| |].
  - eapply (walk_changed (mem w) m'); [done|done|left; lia|done| | |].
    + unfold upd. by rewrite (proj2 (String.eqb_neq _ _) Hne).
    + struct_beside Hc.
    + struct_beside Hc.
  - intros x Hx. apply (ch_out _ _ _ _ Hc). lia.
Qed.

Lemma walk_put_result w σ τ π f v o k :
  walk (mem w) σ τ π → field_at R4DirectoryNext f = Some (o, k) → o + Z.of_nat k ≤ 10 ∨ (1038 ≤ o ∧ o + Z.of_nat k ≤ 1136) → 0 ≤ o →
  ∃ m', put R4DirectoryNext f result v w = Some ((), World m' (kern w)) ∧
    walk m' σ (upd τ f (v mod 2 ^ (8 * Z.of_nat k))) π ∧ same_name (mem w) m'.
Proof.
  intros Hw Hf Ho Ho0. pose proof Hw as [He Hi Hsys Hr Hp _ _ Hd].
  destruct (struct_put_at w R4DirectoryNext result τ f v o k eq_refl Hf Hr) as (m' & Hr' & Hc & _ & Hτ).
  exists m'. split_and!; [done| |].
  - eapply (walk_changed (mem w) m'); [done|done|right; lia| |done|done|].
    + struct_beside Hc.
    + struct_beside Hc.
  - intros x Hx. apply (ch_out _ _ _ _ Hc). lia.
Qed.

Lemma walk_put_path w σ τ π f v o k :
  walk (mem w) σ τ π → field_at R4FilePath f = Some (o, k) → 1024 ≤ o ∧ o + Z.of_nat k ≤ 1028 →
  ∃ m', put R4FilePath f (result + 10) v w = Some ((), World m' (kern w)) ∧
    walk m' σ τ (upd π f (v mod 2 ^ (8 * Z.of_nat k))) ∧ same_name (mem w) m'.
Proof.
  intros Hw Hf Ho. pose proof Hw as [He Hi Hsys Hr Hp _ _ Hd].
  destruct (struct_put_at w R4FilePath (result + 10) π f v o k eq_refl Hf Hp) as (m' & Hr' & Hc & _ & Hπ).
  exists m'. split_and!; [done| |].
  - eapply (walk_changed (mem w) m'); [done|done|right; lia| |done| |done].
    + struct_beside Hc.
    + apply (struct_hole (mem w) m' R4DirectoryNext result τ 10 1028 eq_refl); [|done]. eapply changed_sub; [exact Hc|lia|lia].
  - intros x Hx. apply (ch_out _ _ _ _ Hc). lia.
Qed.

(** ** Asking again *)

(** One question to the kernel, for the iterator with the fields [σ]. *)
Definition ask (σ : string → Z) w : Z * world K :=
  kcall f_next [σ "directory"; iterator + 24; result + 10; 1024; result + 1040] w.

(** The conversation in which the kernel says 2, is left to go on [n] times, and
    which ends with [raw]: the kernel's answer, or -10 because the program is to
    close. *)
Inductive talk (σ : string → Z) : nat → world K → Z → world K → Prop :=
  | talk_answer w : i32 (fst (ask σ w)) ≠ 2 → talk σ 0 w (i32 (fst (ask σ w))) (snd (ask σ w))
  | talk_close w w' :
      i32 (fst (ask σ w)) = 2 → r4sys_program_should_close sys (snd (ask σ w)) = Some (true, w') → talk σ 0 w (-10) w'
  | talk_again n w w1 w2 raw w' :
      i32 (fst (ask σ w)) = 2 → r4sys_program_should_close sys (snd (ask σ w)) = Some (false, w1) →
      r4sys_sleep_ticks sys 0 w1 = Some ((), w2) → talk σ n w2 raw w' → talk σ (S n) w raw w'.

Lemma ask_walk w σ τ π : walk (mem w) σ τ π → walk (mem (snd (ask σ w))) σ τ π.
Proof.
  intros Hw. destruct (next_law w (σ "directory") (iterator + 24) (result + 10) (result + 1040)) as (m1 & m2 & Hc1 & Hc2 & Hc3).
  eapply walk_info; [eapply walk_name; [by eapply walk_cursor|done]|done].
Qed.

(** One round of the loop. *)
Lemma next_loop_round w σ τ π fuel :
  walk (mem w) σ τ π → f_next ≠ 0 →
  next_loop (S fuel) f_next iterator result w =
  (if i32 (fst (ask σ w)) =? 2 then
     (close ← r4sys_program_should_close sys; if close : bool then mret (-10) else
      _ ← r4sys_sleep_ticks sys 0; next_loop fuel f_next iterator result) (snd (ask σ w))
   else Some (i32 (fst (ask σ w)), snd (ask σ w))).
Proof.
  intros Hw Hf. cbn [next_loop]. pose proof (wk_iterator _ _ _ _ Hw) as Hi. field_get Hi.
  rewrite (mbind_run _ _ _ _ _ (call_i32_run w _ _ Hf)).
  change (offsetof R4DirectoryIterator "cursor") with 24. change (offsetof R4DirectoryNext "path") with 10.
  change (offsetof R4DirectoryNext "info") with 1040. fold (ask σ w).
  destruct (_ =? 2); [|done]. pose proof (wk_iterator _ _ _ _ (ask_walk _ _ _ _ Hw)) as Hi1. cbn [negb]. field_get Hi1.
  by rewrite (wk_sys _ _ _ _ Hw).
Qed.

Lemma next_loop_talk n w σ τ π raw w' fuel :
  talk σ n w raw w' → walk (mem w) σ τ π → f_next ≠ 0 → (n < fuel)%nat →
  next_loop fuel f_next iterator result w = Some (raw, w') ∧ walk (mem w') σ τ π ∧ is_i32 raw.
Proof.
  intros Ht. revert fuel. induction Ht as [w Hne|w w' Heq Hc|n w w1 w2 raw w' Heq Hc Hs Ht IH]; intros fuel Hw Hf Hlt;
    (destruct fuel as [|fuel]; [lia|]); rewrite (next_loop_round _ _ _ _ _ Hw Hf); pose proof (ask_walk _ _ _ _ Hw) as Hw1.
  - rewrite (proj2 (Z.eqb_neq _ _) Hne). split_and!; [done|done|apply i32_range].
  - rewrite Heq, (mbind_run _ _ _ _ _ Hc). destruct (should_close_run _ (wk_env _ _ _ _ Hw1)) as (b & w1 & Hr & Hm).
    rewrite Hc in Hr. injection Hr as <- <-. rewrite Hm. split_and!; [done|done|unfold is_i32; lia].
  - rewrite Heq, (mbind_run _ _ _ _ _ Hc). destruct (should_close_run _ (wk_env _ _ _ _ Hw1)) as (b & w1' & Hr & Hm).
    rewrite Hc in Hr. injection Hr as <- <-. rewrite <-Hm in Hw1. rewrite (mbind_run _ _ _ _ _ Hs).
    destruct (sleep_run _ (wk_env _ _ _ _ Hw1)) as (u & w2' & Hr & Hm2). rewrite Hs in Hr. injection Hr as <- <-.
    rewrite <-Hm2 in Hw1. apply IH; [done|done|lia].
Qed.

(** A conversation that is not over after [fuel] questions keeps the loop going. *)
Lemma next_loop_stuck fuel w σ τ π :
  walk (mem w) σ τ π → f_next ≠ 0 → (∀ n raw w', talk σ n w raw w' → (fuel ≤ n)%nat) →
  next_loop fuel f_next iterator result w = None.
Proof.
  revert w. induction fuel as [|fuel IH]; intros w Hw Hf Hn; [done|]. rewrite (next_loop_round _ _ _ _ _ Hw Hf).
  pose proof (ask_walk _ _ _ _ Hw) as Hw1. destruct (Z.eqb_spec (i32 (fst (ask σ w))) 2) as [Heq|Hne].
  2: { specialize (Hn _ _ _ (talk_answer σ w Hne)). lia. }
  destruct (should_close_run _ (wk_env _ _ _ _ Hw1)) as (b & w1 & Hc & Hm). rewrite (mbind_run _ _ _ _ _ Hc).
  destruct b; [specialize (Hn _ _ _ (talk_close σ w w1 Heq Hc)); lia|]. rewrite <-Hm in Hw1.
  destruct (sleep_run _ (wk_env _ _ _ _ Hw1)) as ([] & w2 & Hs & Hm2). rewrite (mbind_run _ _ _ _ _ Hs).
  rewrite <-Hm2 in Hw1. apply IH; [done|done|]. intros n raw w' Ht.
  specialize (Hn _ _ _ (talk_again σ _ _ _ _ _ _ Heq Hc Hs Ht)). lia.
Qed.

(** ** The length of a name *)

Lemma path_length_run w σ τ π fuel :
  walk (mem w) σ τ π → 0 ≤ π "length" ≤ 1024 → π "length" + Z.of_nat fuel = 1024 →
  ∃ m' L, path_length_loop fuel (result + 10) w = Some ((), World m' (kern w)) ∧ walk m' σ τ (upd π "length" L) ∧
    same_name (mem w) m' ∧ π "length" ≤ L ≤ 1024 ∧
    (∀ i, π "length" ≤ i < L → m' !! (result + 10 + i) ≠ Some x00) ∧ (L < 1024 → m' !! (result + 10 + L) = Some x00).
Proof.
  revert w π. induction fuel as [|fuel IH]; intros w π Hw Hl Hsum; cbn [path_length_loop].
  { exists (mem w), (π "length"). split_and!; [by destruct w| |done|lia|lia|lia|lia].
    eapply walk_ext; [|exact Hw].
    intros f q _. unfold upd. destruct (String.eqb_spec "length" f); [by subst|done]. }
  pose proof (wk_path _ _ _ _ Hw) as Hp. field_get Hp. destruct (Z.leb_spec 1024 (π "length")); [lia|].
  assert (is_Some (mem w !! (result + 10 + π "length"))) as [b Hb].
  { apply (sa_mapped _ _ _ _ Hp). change (sizeof R4FilePath) with 1028. lia. }
  rewrite (mbind_run _ _ _ _ _ (load1_run w _ b Hb)). destruct (Z.eqb_spec (b2z b) 0) as [Hz|Hnz].
  { apply b2z_zero in Hz. subst b. exists (mem w), (π "length"). split_and!; [by destruct w| |done|lia|lia|lia|done].
    eapply walk_ext; [|exact Hw].
    intros f q _. unfold upd. destruct (String.eqb_spec "length" f); [by subst|done]. }
  destruct (walk_put_path w σ τ π "length" (π "length" + 1) _ _ Hw eq_refl ltac:(vm_compute; split; discriminate))
    as (m1 & Hr1 & Hw1 & Hsame1). rewrite (mbind_run _ _ _ _ _ Hr1).
  change (8 * Z.of_nat (Z.to_nat 2)) with 16 in Hw1. rewrite Z.mod_small in Hw1 by lia.
  destruct (IH (World m1 (kern w)) _ Hw1) as (m' & L & Hr & Hw' & Hsame & HL & Hnz' & Hend); [cbn; lia|cbn; lia|].
  change (upd π "length" (π "length" + 1) "length") with (π "length" + 1) in *. cbn [mem] in *.
  exists m', L. split_and!; [exact Hr| |intros x Hx; by rewrite Hsame, Hsame1|lia|lia| |done].
  - eapply walk_ext; [|exact Hw'].
    intros f q _. unfold upd. by destruct (String.eqb "length" f).
  - intros i Hi. destruct (decide (i = π "length")) as [->|]; [|apply Hnz'; lia].
    rewrite Hsame, Hsame1, Hb by lia. intros [= ->]. by apply Hnz.
Qed.
(** ** One call *)

(** The name in the result, up to its NUL or the end of the buffer. *)
Definition name_is m (L : Z) : Prop :=
  0 ≤ L ≤ 1024 ∧ (∀ i, 0 ≤ i < L → m !! (result + 10 + i) ≠ Some x00) ∧ (L < 1024 → m !! (result + 10 + L) = Some x00).

(** What the fields of the iterator before and after, and of the result, say of
    the answer [raw]. *)
Definition next_outcome m (resumed : bool) (raw : Z) (σ σ' τ π : string → Z) : Prop :=
  let same f := σ' f = σ f in
  i32 (τ "raw_code") = raw ∧ τ "has_info" = (if resumed && ((raw =? 0) || (raw =? 1)) then 1 else 0) ∧
  same "directory" ∧ same "legacy_after_removal" ∧
  ((τ "state" = R4_DIRECTORY_END ∧ raw = R4SYS_DIR_ENTRY_RESULT_END ∧ σ' "ended" = 1 ∧ same "index") ∨
   (τ "state" = R4_DIRECTORY_FAILED ∧ raw < 0 ∧ raw ≠ R4SYS_DIR_ENTRY_RESULT_END ∧ same "ended" ∧ same "index") ∨
   (τ "state" = R4_DIRECTORY_ENTRY ∧ 0 ≤ raw ∧ same "ended" ∧ σ' "index" = σ "index" + 1 ∧
    τ "is_directory" = (if raw =? 1 then 1 else 0) ∧ π "absolute" = 1 ∧ name_is m (π "length"))).

(** Run the next store, given the lemma for the structure it goes to. *)
Ltac walk_put lemma Hw :=
  match goal with
  | |- context [@mbind _ _ _ _ _ (put _ ?f _ ?v) ?w] =>
      let m := fresh "m" in let Hr := fresh "Hr" in let Hw' := fresh "Hw" in let Hn := fresh "Hn" in
      destruct (lemma w _ _ _ f v _ _ Hw eq_refl) as (m & Hr & Hw' & Hn);
        [solve [vm_compute; intuition discriminate]..|]; rewrite (mbind_run _ _ _ _ _ Hr); clear Hw Hr; rename Hw' into Hw
  | |- context [put _ ?f _ ?v ?w] =>
      let m := fresh "m" in let Hr := fresh "Hr" in let Hw' := fresh "Hw" in let Hn := fresh "Hn" in
      destruct (lemma w _ _ _ f v _ _ Hw eq_refl) as (m & Hr & Hw' & Hn);
        [solve [vm_compute; intuition discriminate]..|]; rewrite Hr; clear Hw Hr; rename Hw' into Hw
  end.

Lemma i32_u32 z : i32 (z mod 2 ^ (8 * Z.of_nat (Z.to_nat 4))) = i32 z.
Proof. unfold i32, to_signed. change (8 * Z.of_nat (Z.to_nat 4)) with 32. by rewrite Z.mod_mod. Qed.

Lemma next_finish_run w σ τ π raw has_info :
  walk (mem w) σ τ π → π "length" = 0 → is_i32 raw → 0 ≤ σ "index" < 2 ^ 32 - 1 →
  ∃ w' σ' τ' π', next_finish iterator result raw has_info w = Some ((), w') ∧ walk (mem w') σ' τ' π' ∧
    kern w' = kern w ∧ next_outcome (mem w') has_info raw σ σ' τ' π'.
Proof.
  intros Hw Hl Hraw Hidx. unfold next_finish. walk_put walk_put_result Hw. walk_put walk_put_result Hw.
  set (info := if has_info && _ then 1 else 0) in *.
  assert (info mod 2 ^ (8 * Z.of_nat (Z.to_nat 1)) = info) as Hinfo by (by subst info; destruct (_ && _)).
  destruct (Z.eqb_spec raw R4SYS_DIR_ENTRY_RESULT_END) as [->|Hne].
  - walk_put walk_put_iterator Hw. walk_put walk_put_result Hw.
    eexists _, _, _, _. split_and!; [reflexivity|exact Hw|done|]. unfold next_outcome. split_and!; [done|done|done|done|]. by left.
  - destruct (Z.ltb_spec raw 0) as [Hneg|Hnn].
    + walk_put walk_put_result Hw. eexists _, _, _, _. split_and!; [reflexivity|exact Hw|done|].
      unfold next_outcome, upd. cbn -[Z.pow Z.modulo i32]. rewrite i32_u32, (i32_small raw Hraw).
      split_and!; [done|done|done|done|]. right; left. done.
    + pose proof (wk_iterator _ _ _ _ Hw) as Hi. field_get Hi. walk_put walk_put_iterator Hw. walk_put walk_put_result Hw.
      walk_put walk_put_result Hw. change (offsetof R4DirectoryNext "path") with 10.
      match type of Hw with walk ?m _ _ _ =>
        destruct (path_length_run (World m (kern w)) _ _ _ 1024 Hw) as (m' & L & Hr & Hw' & _ & HL & Hnz & Hend); [lia|lia|] end.
      rewrite (mbind_run _ _ _ _ _ Hr). clear Hw. rename Hw' into Hw. walk_put walk_put_path Hw.
      eexists _, _, _, _. split_and!; [reflexivity|exact Hw|done|]. rewrite Hl in *.
      unfold next_outcome, upd. cbn -[Z.pow Z.modulo i32]. rewrite i32_u32, (i32_small raw Hraw).
      change (8 * Z.of_nat (Z.to_nat 4)) with 32. rewrite (Z.mod_small (σ "index" + 1)) by lia.
      split_and!; [done|done|done|done|]. right; right. split_and!; [done|done|done|done| |done|].
      * by destruct (raw =? 1).
      * split_and!; [lia|lia| |].
        -- intros i Hi'. rewrite Hn4 by lia. by apply Hnz.
        -- intros HL'. rewrite Hn4 by lia. by apply Hend.
Qed.
(** The kernel can continue from the cursor: nothing was removed behind the
    iterator's back, the walk starts or the cursor was used, and the system has the
    function. *)
Definition resumes m (σ : string → Z) : bool :=
  (σ "legacy_after_removal" =? 0) && (2 <=? σ "index") &&
  ((σ "index" =? 2) || negb (fv m R4DirectoryChangeCursor (iterator + 32) "mount_generation" =? 0)) &&
  negb (slot_of m R4XStartR4Sys (table_ptr m sys) "directory_next" =? 0).

Lemma resumable_run w σ τ π :
  walk (mem w) σ τ π →
  resumable iterator (table_ptr (mem w) sys) w = Some (resumes (mem w) σ, w) ∧
    (resumes (mem w) σ = true → get R4XStartR4Sys "directory_next" (table_ptr (mem w) sys) w = Some (f_next, w) ∧ f_next ≠ 0).
Proof.
  intros Hw. pose proof Hw as [He Hi _ _ _ _ _ _]. unfold resumable, resumes. field_get Hi.
  destruct (_ =? 0); cbn [negb andb]; [|done].
  field_get Hi. rewrite Z.leb_antisym. destruct (_ <? 2); cbn [negb andb]; [done|].
  assert (mapped (mem w) (iterator + 24 + 8) 40) as Hmc.
  { eapply mapped_sub; [apply (sa_mapped _ _ _ _ Hi)|lia|]. change (sizeof R4DirectoryIterator) with 1112. lia. }
  change (offsetof R4DirectoryIterator "cursor") with 24. change (offsetof R4DirectoryScanCursor "change") with 8.
  run_get Hmc. replace (iterator + 24 + 8) with (iterator + 32) by lia.
  destruct (_ || _); cbn [negb andb]; [|done]. unfold covers.
  pose proof (so_table _ _ _ (de_sys _ He)) as Ht. pose proof (proj2 (de_table _ He)) as Ht0.
  assert ((size ← get R4XStartR4Sys "size" (table_ptr (mem w) sys); mret (offsetof R4XStartR4Sys "directory_next" + 8 <=? size)) w =
    Some (offsetof R4XStartR4Sys "directory_next" + 8 <=? fv (mem w) R4XStartR4Sys (table_ptr (mem w) sys) "size", w)) as Hcov.
  { by rewrite (mbind_run _ _ _ _ _ (get_run w R4XStartR4Sys "size" _ 16 (to_header _ _ _ _ Ht Ht0) eq_refl)). }
  rewrite (mbind_run _ _ _ _ _ Hcov). destruct (Z.leb_spec (offsetof R4XStartR4Sys "directory_next" + 8)
    (fv (mem w) R4XStartR4Sys (table_ptr (mem w) sys) "size")) as [Hle|Hgt]; cbn [negb].
  2: { unfold slot_of. rewrite (proj2 (Z.leb_gt _ _) Hgt). done. }
  pose proof (get_slot w R4XStartR4Sys _ _ "directory_next" Ht Ht0 eq_refl Hle) as Hg. rewrite (mbind_run _ _ _ _ _ Hg).
  split; [done|]. intros Hb%negb_true_iff%Z.eqb_neq.
  destruct (de_slots _ He "directory_next" (λ f, f = f_next) ltac:(set_solver)) as [|Hf]; [done|]. rewrite Hf in Hg, Hb. done.
Qed.

(** Before a call: the iterator, and room for the result. *)
Record walk_ready m (σ : string → Z) : Prop := {
  wr_env : dir_env m;
  wr_iterator : struct_at m R4DirectoryIterator iterator σ ∧ iterator ≠ 0 ∧ aside m iterator 1112;
  wr_sys : σ "files.system" = sys;
  wr_result : mapped m result 1136 ∧ aside m result 1136;
  wr_apart : iterator + 1112 ≤ result ∨ result + 1136 ≤ iterator
}.

Lemma walk_again m σ τ π : walk m σ τ π → walk_ready m σ.
Proof. intros [He Hi Hs Hr _ [H0 Ha] Ha' Hd]. split; [done|done|done|split; [apply (sa_mapped _ _ _ _ Hr)|done]|done]. Qed.

Lemma walk_end m σ τ π :
  walk m σ τ π → walk_ready m σ ∧ struct_at m R4DirectoryNext result τ ∧ struct_at m R4FilePath (result + 10) π.
Proof. intros Hw. split_and!; [by eapply walk_again|apply Hw|apply Hw]. Qed.

Lemma walk_start w σ :
  walk_ready (mem w) σ →
  ∃ m', clear R4DirectoryNext result w = Some ((), World m' (kern w)) ∧ walk m' σ (λ _, 0) (λ _, 0).
Proof.
  intros [He (Hi & H0 & Ha) Hsys [Hm Har] Hd].
  destruct (clear_zero w R4DirectoryNext result ltac:(vm_compute; discriminate) Hm) as (m1 & Hr1 & Hc1 & Hz1).
  change (sizeof R4DirectoryNext) with 1136 in *. destruct (dir_env_changed _ _ _ _ Hc1 He Har) as [He1 Ha1].
  exists m1. split; [done|]. split; [done| |done|by apply struct_zero| |by auto|by auto|done].
  - struct_beside Hc1.
  - apply struct_zero; [reflexivity|]. intros x Hx. apply Hz1. change (sizeof R4FilePath) with 1028 in Hx. lia.
Qed.

(** The world once the result is cleared. *)
Definition cleared w : world K := match clear R4DirectoryNext result w with Some (_, w1) => w1 | None => w end.

(** The kernel's answer, from the cursor or by index. *)
Definition answered (σ : string → Z) (n : nat) w (raw : Z) (w' : world K) : Prop :=
  if resumes (mem w) σ then talk σ n w raw w'
  else let r := kcall f_entry [σ "directory"; σ "index"; result + 10; 1024] w in n = O ∧ raw = i32 (fst r) ∧ w' = snd r.

(** How [r4_directory_next] gets it. *)
Definition ask_kernel (fuel : nat) (table : Z) (can : bool) (f directory : Z) : M K Z :=
  if can then g ← get R4XStartR4Sys "directory_next" table; next_loop fuel g iterator result
  else index ← get R4DirectoryIterator "index" iterator;
       call_i32 f [directory; index; result + offsetof R4DirectoryNext "path"; 1024].

Lemma ask_kernel_answered w σ τ π fuel n raw w' :
  walk (mem w) σ τ π → f_entry ≠ 0 → answered σ n w raw w' → (n < fuel)%nat →
  ask_kernel fuel (table_ptr (mem w) sys) (resumes (mem w) σ) f_entry (σ "directory") w = Some (raw, w') ∧
    walk (mem w') σ τ π ∧ is_i32 raw.
Proof.
  intros Hw Hf0 Ha Hn. destruct (resumable_run w σ _ _ Hw) as [_ Hnext]. unfold answered in Ha. unfold ask_kernel.
  destruct (resumes (mem w) σ).
  - destruct (Hnext eq_refl) as [Hg Hn0]. rewrite (mbind_run _ _ _ _ _ Hg). by eapply next_loop_talk.
  - destruct Ha as (_ & -> & ->). pose proof (wk_iterator _ _ _ _ Hw) as Hi. field_get Hi. rewrite (call_i32_run _ _ _ Hf0).
    split_and!; [done| |apply i32_range]. eapply walk_name; [exact Hw|]. apply entry_law.
Qed.

Lemma ask_kernel_stuck w σ τ π fuel :
  walk (mem w) σ τ π → (0 < fuel)%nat → (∀ n raw w', answered σ n w raw w' → (fuel ≤ n)%nat) →
  ask_kernel fuel (table_ptr (mem w) sys) (resumes (mem w) σ) f_entry (σ "directory") w = None.
Proof.
  intros Hw Hf Hn. destruct (resumable_run w σ _ _ Hw) as [_ Hnext]. unfold answered in Hn. unfold ask_kernel.
  destruct (resumes (mem w) σ).
  - destruct (Hnext eq_refl) as [Hg Hn0]. rewrite (mbind_run _ _ _ _ _ Hg). by eapply next_loop_stuck.
  - specialize (Hn O _ _ (conj eq_refl (conj eq_refl eq_refl))). lia.
Qed.

Lemma entry_slot_run w (directory : Z) :
  dir_env (mem w) →
  (if directory =? 0 then mret 0 else system_slot sys "dir_entry") w
    = Some (if directory =? 0 then 0 else slot_of (mem w) R4XStartR4Sys (table_ptr (mem w) sys) "dir_entry", w) ∧
  (slot_of (mem w) R4XStartR4Sys (table_ptr (mem w) sys) "dir_entry" = 0 ∨
   slot_of (mem w) R4XStartR4Sys (table_ptr (mem w) sys) "dir_entry" = f_entry).
Proof.
  intros He. split; [|apply (de_slots _ He "dir_entry" (λ f, f = f_entry)); set_solver].
  destruct (_ =? 0); [done|]. unfold system_slot.
  rewrite (mbind_run _ _ _ _ _ (sys_table_run _ w sys (de_sys _ He))), (proj2 (Z.eqb_neq _ _) (proj2 (de_table _ He))).
  by rewrite (dir_get w "dir_entry" He eq_refl ltac:(vm_compute; discriminate)).
Qed.

(** There is no directory to walk, or no function to walk it with. *)
Definition no_walk m (σ : string → Z) : bool :=
  (σ "directory" =? 0) || (slot_of m R4XStartR4Sys (table_ptr m sys) "dir_entry" =? 0).

Lemma no_walk_slot (directory f : Z) : ((if directory =? 0 then 0 else f) =? 0) = (directory =? 0) || (f =? 0).
Proof. by destruct (directory =? 0). Qed.

(** The state in which a call leaves the iterator and the result. *)
Definition returned (w : world K) (σ τ π : string → Z) : Prop :=
  walk_ready (mem w) σ ∧ struct_at (mem w) R4DirectoryNext result τ ∧ struct_at (mem w) R4FilePath (result + 10) π.

(** A call on an iterator that has not ended, where there is a directory to walk. *)
Lemma directory_next_walks w σ w1 fuel :
  clear R4DirectoryNext result w = Some ((), w1) → walk (mem w1) σ (λ _, 0) (λ _, 0) →
  σ "ended" = 0 → no_walk (mem w1) σ = false →
  r4_directory_next fuel result iterator w =
    (raw ← ask_kernel fuel (table_ptr (mem w1) sys) (resumes (mem w1) σ) f_entry (σ "directory");
     next_finish iterator result raw (resumes (mem w1) σ)) w1 ∧ f_entry ≠ 0.
Proof.
  intros Hr1 Hw Hend [Hd Hs]%orb_false_iff. unfold r4_directory_next.
  rewrite (mbind_run _ _ _ _ _ Hr1), (proj2 (Z.eqb_neq _ _) (proj1 (wk_iterator_aside _ _ _ _ Hw))).
  pose proof (wk_iterator _ _ _ _ Hw) as Hi. field_get Hi. rewrite Hend. cbn [negb Z.eqb]. field_get Hi. field_get Hi.
  rewrite (wk_sys _ _ _ _ Hw). destruct (entry_slot_run w1 (σ "directory") (wk_env _ _ _ _ Hw)) as [Hf Hfe].
  rewrite (mbind_run _ _ _ _ _ Hf), Hd, Hs. apply Z.eqb_neq in Hs. destruct Hfe as [E|Hfe]; [destruct (Hs E)|]. rewrite Hfe in *.
  split; [|done]. rewrite (mbind_run _ _ _ _ _ (sys_table_run _ w1 sys (de_sys _ (wk_env _ _ _ _ Hw)))).
  by rewrite (mbind_run _ _ _ _ _ (proj1 (resumable_run w1 σ _ _ Hw))).
Qed.

(** C29. What asking for the next directory entry does, whatever the kernel says.
    An iterator that has ended says so, and one with no directory or no function
    to walk it fails, without a call. Otherwise the call returns exactly when its
    conversation with the kernel ends: a kernel that reports bounded progress is
    asked again, after a sleep, as often as it says so, until it answers something
    else or the program is to close, which is reported as a restart (-10); while
    neither happens the call goes on. The result then has that answer: the end,
    which the iterator remembers; or a failure, which leaves the iterator as it
    was; or an entry, by which the index advances, with a name that is measured up
    to its NUL or the end of its buffer. It never faults, and the iterator can be
    asked again. *)
Theorem directory_next_answers w σ fuel :
  walk_ready (mem w) σ → 0 ≤ σ "index" < 2 ^ 32 - 1 → (0 < fuel)%nat →
  ∃ w1, clear R4DirectoryNext result w = Some ((), w1) ∧ kern w1 = kern w ∧
    (σ "ended" ≠ 0 → ∃ w' τ π, r4_directory_next fuel result iterator w = Some ((), w') ∧ returned w' σ τ π ∧
      kern w' = kern w ∧ τ "state" = R4_DIRECTORY_END) ∧
    (σ "ended" = 0 → no_walk (mem w1) σ = true →
      ∃ w' τ π, r4_directory_next fuel result iterator w = Some ((), w') ∧ returned w' σ τ π ∧
      kern w' = kern w ∧ τ "state" = R4_DIRECTORY_FAILED ∧ i32 (τ "raw_code") = R4OS_ERR_NO_FN) ∧
    (σ "ended" = 0 → no_walk (mem w1) σ = false →
      (∀ n raw w2, answered σ n w1 raw w2 → (n < fuel)%nat →
        ∃ w' σ' τ π, r4_directory_next fuel result iterator w = Some ((), w') ∧ returned w' σ' τ π ∧
        kern w' = kern w2 ∧ next_outcome (mem w') (resumes (mem w1) σ) raw σ σ' τ π) ∧
      ((∀ n raw w2, answered σ n w1 raw w2 → (fuel ≤ n)%nat) → r4_directory_next fuel result iterator w = None)).
Proof.
  intros Hready Hidx Hfuel. destruct (walk_start w σ Hready) as (m1 & Hr1 & Hw). set (w1 := World m1 (kern w)) in *.
  change m1 with (mem w1) in Hw. exists w1. pose proof (wk_iterator _ _ _ _ Hw) as Hi.
  split_and!; [exact Hr1|reflexivity| | |].
  - intros Hend. unfold r4_directory_next.
    rewrite (mbind_run _ _ _ _ _ Hr1), (proj2 (Z.eqb_neq _ _) (proj1 (wk_iterator_aside _ _ _ _ Hw))).
    field_get Hi. rewrite (proj2 (Z.eqb_neq _ _) Hend). cbn [negb]. walk_put walk_put_result Hw.
    eexists _, _, _. split_and!; [reflexivity|apply (walk_end _ _ _ _ Hw)|reflexivity..].
  - intros Hend Hno. unfold r4_directory_next.
    rewrite (mbind_run _ _ _ _ _ Hr1), (proj2 (Z.eqb_neq _ _) (proj1 (wk_iterator_aside _ _ _ _ Hw))).
    field_get Hi. rewrite Hend. cbn [negb Z.eqb]. field_get Hi. field_get Hi. rewrite (wk_sys _ _ _ _ Hw).
    rewrite (mbind_run _ _ _ _ _ (proj1 (entry_slot_run w1 (σ "directory") (wk_env _ _ _ _ Hw)))).
    rewrite no_walk_slot. unfold no_walk in Hno. rewrite Hno.
    walk_put walk_put_result Hw. walk_put walk_put_result Hw. eexists _, _, _.
    split_and!; [reflexivity|apply (walk_end _ _ _ _ Hw)|reflexivity..].
  - intros Hend Hno. destruct (directory_next_walks w σ w1 fuel Hr1 Hw Hend Hno) as [-> Hf0]. split.
    + intros n raw w2 Ha Hn. destruct (ask_kernel_answered w1 σ _ _ fuel n raw w2 Hw Hf0 Ha Hn) as (Hr2 & Hw2 & Hraw).
      rewrite (mbind_run _ _ _ _ _ Hr2).
      destruct (next_finish_run w2 σ _ _ raw (resumes (mem w1) σ) Hw2 eq_refl Hraw Hidx)
        as (w3 & σ' & τ' & π' & Hr3 & Hw3 & Hk & Hout).
      exists w3, σ', τ', π'. split_and!; [exact Hr3|apply (walk_end _ _ _ _ Hw3)|exact Hk|exact Hout].
    + intros Hn. unfold mbind, m_bind. by rewrite (ask_kernel_stuck w1 σ _ _ fuel Hw Hfuel Hn).
Qed.
End directory.

(** ** A kernel with one entry *)

(** It reports progress [kern] times, then has an entry; by index there is nothing. *)
#[global] Instance entry_kernel : Kernel nat := λ f args w,
  if f =? 7155 then
    match kern w, args with
    | S n, _ => (2, World (mem w) n)
    | O, [_; _; out; _; _] =>
        match write_bytes (mem w) out (cstr "A.TXT") with Some m => (0, World m O) | None => (-1, w) end
    | O, _ => (-1, w)
    end
  else if f =? 7005 then (R4SYS_DIR_ENTRY_RESULT_END, w) else (0, w).

Definition entry_quiet : list Z := [7002; 7006].

#[global] Instance entry_kernel_laws : DirKernel nat 7155 7005 entry_quiet.
Proof.
  assert (∀ m (a n : Z), changed m m a n) as Hrefl by (by split). split.
  - intros w dir cursor out info. cbv zeta. unfold kcall, entry_kernel. cbn [Z.eqb Pos.eqb].
    destruct (kern w) as [|n]; cbn [fst snd]; [|by exists (mem w), (mem w)].
    destruct (write_bytes (mem w) out (cstr "A.TXT")) as [m|] eqn:E; cbn [fst snd mem kern]; [|by exists (mem w), (mem w)].
    exists (mem w), m. split_and!; [done| |done]. apply write_bytes_changed in E. eapply changed_sub; [exact E|lia|simpl length; lia].
  - intros w dir index out. apply Hrefl.
  - intros f args w. unfold entry_quiet. rewrite !elem_of_cons, elem_of_nil. intros [->|[->|[]]]; done.
Qed.

(** An [R4Sys] at 256 with a table at 4096, a path at 1024, an iterator at 8192
    and room for a result at 12288; the kernel reports progress three times. *)
Definition walk_demo : world nat := World (image [
  (256, struct_bytes R4Sys_t [0; 4096]); (1024, cstr "C:"); (4096, demo_table R4XStartR4Sys 1264);
  (8192, struct_bytes R4DirectoryIterator [256; 1024; 2; 0; 0]); (12288, replicate 1136 xff)]) 3%nat.

Lemma walk_demo_ready :
  walk_ready 7155 7005 entry_quiet 256 8192 12288 (mem walk_demo) (fv (mem walk_demo) R4DirectoryIterator 8192).
Proof.
  assert (table_ptr (mem walk_demo) 256 = 4096) as Ep by (vm_compute; reflexivity).
  assert (fv (mem walk_demo) R4XStartR4Sys 4096 "size" = 1264) as Ez by (vm_compute; reflexivity).
  assert (ctx_of 256 (mem walk_demo) = 0) as Ec by (vm_compute; reflexivity).
  split.
  - split.
    + apply (sys_ok_check _ _ 256 1264); vm_compute; (reflexivity || discriminate).
    + rewrite Ep. lia.
    + rewrite Ep. intros n P. rewrite !elem_of_cons, elem_of_nil. cbv zeta.
      intros [[= -> ->]|[[= -> ->]|[[= -> ->]|[[= -> ->]|[]]]]]; right.
      * vm_compute. reflexivity.
      * vm_compute. reflexivity.
      * apply list_elem_of_In. right. left. vm_compute. reflexivity.
      * apply list_elem_of_In. left. vm_compute. reflexivity.
    + rewrite Ec. congruence.
    + rewrite Ec. congruence.
  - split_and!; [apply struct_own, mapped_b_mapped; vm_compute; reflexivity|lia|].
    split; [split; rewrite ?Ep, ?Ez; lia|rewrite Ec; congruence].
  - vm_compute. reflexivity.
  - split; [apply mapped_b_mapped; vm_compute; reflexivity|]. split; [split; rewrite ?Ep, ?Ez; lia|rewrite Ec; congruence].
  - lia.
Qed.

(** The iterator's fields, and the world once the result is cleared. *)
Definition demo_fields : string → Z := fv (mem walk_demo) R4DirectoryIterator 8192.
Definition demo_cleared (n : nat) : world nat := World (mem (cleared 12288 walk_demo)) n.

Lemma demo_clear : clear R4DirectoryNext 12288 walk_demo = Some ((), demo_cleared 3).
Proof.
  destruct (walk_start 7155 7005 entry_quiet 256 8192 12288 walk_demo _ walk_demo_ready) as (m1 & Hr & _).
  unfold demo_cleared, cleared. rewrite Hr. reflexivity.
Qed.

Lemma demo_facts :
  demo_fields "index" = 2 ∧ demo_fields "ended" = 0 ∧
  resumes 256 8192 (mem (demo_cleared 3)) demo_fields = true ∧ no_walk 256 (mem (demo_cleared 3)) demo_fields = false.
Proof. split_and!; vm_compute; reflexivity. Qed.

Lemma demo_env n : dir_env 7155 7005 entry_quiet 256 (mem (demo_cleared n)).
Proof.
  destruct (walk_start 7155 7005 entry_quiet 256 8192 12288 walk_demo _ walk_demo_ready) as (m1 & Hr & Hw).
  unfold demo_cleared, cleared. rewrite Hr. exact (wk_env _ _ _ _ _ _ _ _ _ _ Hw).
Qed.

(** The kernel reports progress, no close is requested, and there is a sleep. *)
Lemma demo_answers n :
  (λ r, (fst r, kern (snd r))) <$> r4sys_program_should_close 256 (demo_cleared n) = Some (false, n) ∧
  (λ r, kern (snd r)) <$> r4sys_sleep_ticks 256 0 (demo_cleared n) = Some n.
Proof. split; vm_compute; reflexivity. Qed.

Lemma demo_round n :
  ask 7155 8192 12288 demo_fields (demo_cleared (S n)) = (2, demo_cleared n) ∧
  r4sys_program_should_close 256 (demo_cleared n) = Some (false, demo_cleared n) ∧
  r4sys_sleep_ticks 256 0 (demo_cleared n) = Some ((), demo_cleared n).
Proof.
  destruct (demo_answers n) as [Hc Hs]. split; [reflexivity|].
  destruct (should_close_run 7155 7005 entry_quiet 256 _ (demo_env n)) as (b & [m1 k1] & Hr1 & Hm1).
  destruct (sleep_run 7155 7005 entry_quiet 256 _ (demo_env n)) as ([] & [m2 k2] & Hr2 & Hm2).
  rewrite Hr1 in Hc |- *. rewrite Hr2 in Hs |- *. cbn in Hc, Hs, Hm1, Hm2. subst m1 m2.
  injection Hc as -> ->. injection Hs as ->. split; reflexivity.
Qed.

Lemma demo_last : i32 (fst (ask 7155 8192 12288 demo_fields (demo_cleared 0))) = 0.
Proof. vm_compute. reflexivity. Qed.

Lemma demo_talk n : talk 7155 256 8192 12288 demo_fields n (demo_cleared n) 0 (snd (ask 7155 8192 12288 demo_fields (demo_cleared 0))).
Proof.
  pose proof demo_round as Hround. pose proof demo_last as Hlast. generalize dependent demo_cleared. intros cleared Hround Hlast.
  induction n as [|n IH].
  - rewrite <-Hlast at 1. apply talk_answer. rewrite Hlast. lia.
  - destruct (Hround n) as (Ha & Hc & Hs). eapply talk_again; rewrite ?Ha; [reflexivity|exact Hc|exact Hs|exact IH].
Qed.

Lemma directory_next_answers_witness :
  ∃ w' σ' τ π, r4_directory_next 4 12288 8192 walk_demo = Some ((), w') ∧ next_outcome 12288 (mem w') true 0 demo_fields σ' τ π.
Proof.
  destruct demo_facts as (Ei & Ee & Hres & Hno). pose proof demo_clear as Hcl.
  destruct (directory_next_answers 7155 7005 entry_quiet 256 8192 12288 walk_demo demo_fields 4 walk_demo_ready)
    as (w1 & Hr1 & _ & _ & _ & Hw); [rewrite Ei; lia|lia|].
  assert (w1 = demo_cleared 3) as -> by congruence. destruct (Hw Ee Hno) as [Hans _].
  destruct (Hans 3%nat 0 (snd (ask 7155 8192 12288 demo_fields (demo_cleared 0)))) as (w' & σ' & τ & π & Hr & _ & _ & Ho).
  - unfold answered. rewrite Hres. exact (demo_talk 3).
  - lia.
  - exists w', σ', τ, π. rewrite Hres in Ho. split; [exact Hr|exact Ho].
Defined.

(** In the end there is an entry, with a name of five characters. *)
Example directory_demo :
  (λ r, (fv (mem (snd r)) R4DirectoryNext 12288 "state", fv (mem (snd r)) R4FilePath 12298 "length",
         fv (mem (snd r)) R4DirectoryIterator 8192 "index")) <$> r4_directory_next 4 12288 8192 walk_demo
  = Some (R4_DIRECTORY_ENTRY, 5, 3).
Proof. vm_compute. reflexivity. Qed.

End R4Directory.
