(* ===== verification/R4Registry.v ===== *)
(** * app_storage.h: the registry

    Batches of changes packed into one block of bytes, single values with their
    types, and the decoding of a value that was read. A key is an
    [R4RegistryPath], whose bytes come first; a value view is in memory. *)

From S2P Require Import Prelude R4Abi R4Mem R4L R4LSpec.
From S2P Require Import R4Table R4Sys R4SysSpec R4SysInit R4Field.
From S2P Require Import R4App R4Files.

Module R4Registry.
Export R4Files.

Definition R4OS_REGISTRY_API_RESULT_OK : Z := 0.
Definition R4OS_REGISTRY_API_RESULT_KEY_NOT_FOUND : Z := -4.
Definition R4OS_REGISTRY_API_RESULT_VALUE_NOT_FOUND : Z := -5.
Definition R4OS_REGISTRY_API_RESULT_BUFFER_TOO_SMALL : Z := -6.
Definition R4OS_REGISTRY_VALUE_TYPE_STRING : Z := 1.
Definition R4OS_REGISTRY_VALUE_TYPE_U32 : Z := 2.
Definition R4OS_REGISTRY_VALUE_TYPE_U64 : Z := 3.
Definition R4OS_REGISTRY_VALUE_TYPE_BOOL : Z := 4.
Definition R4OS_REGISTRY_VALUE_TYPE_BINARY : Z := 5.
Definition R4OS_REGISTRY_BATCH_OPERATION_SET : Z := 1.
Definition R4OS_REGISTRY_BATCH_OPERATION_DELETE : Z := 2.
Definition R4OS_REGISTRY_BATCH_VERSION : Z := 1.
Definition R4OS_REGISTRY_BATCH_STATUS_COMMITTED : Z := 1.

(** ** Data *)

Definition R4RegistryPath : ctype := Struct [("bytes", Array U8 256); ("length", U16)].

Definition R4RegistryValueView : ctype := Struct [("info", R4RegistryValueInfo); ("bytes", U64); ("length", U32)].

Definition R4_REGISTRY_VALUE : Z := 0.
Definition R4_REGISTRY_MISSING : Z := 1.
Definition R4_REGISTRY_FAILED : Z := 2.
Definition R4RegistryRead : ctype := Struct [("state", U32); ("raw_code", U32); ("value", R4RegistryValueView)].

Definition R4RegistryBatchBuilder : ctype := Struct [
  ("operations", U64); ("operation_capacity", U32); ("operation_count", U32);
  ("blob", U64); ("blob_capacity", U32); ("blob_len", U32)].

Definition R4RegistryBatchApply : ctype := Struct [("raw_code", U32); ("result", R4RegistryBatchResult)].

Section code.
Context {K : Type} `{!Kernel K}.

Definition r4_registry_available (registry : Z) : M K bool :=
  if registry =? 0 then mret false else
  system ← facade_system registry; all_slots system ["registry_get_value"; "registry_set_value"].

Definition r4_registry_snapshot_available (registry : Z) : M K bool :=
  if registry =? 0 then mret false else
  system ← facade_system registry; r4sys_supports_registry_snapshot system.

Definition r4_registry_snapshot_begin (registry key kind cursor : Z) : M K Z :=
  if (registry =? 0) || (key =? 0) || (cursor =? 0) then mret R4OS_REGISTRY_API_RESULT_INVALID else
  system ← facade_system registry; r4sys_registry_snapshot_begin system key kind cursor.

Definition r4_registry_snapshot_page (registry cursor entries entry_capacity data data_capacity out_page : Z) : M K Z :=
  if registry =? 0 then mret R4OS_REGISTRY_API_RESULT_INVALID else
  system ← facade_system registry;
  r4sys_registry_snapshot_page system cursor entries entry_capacity data data_capacity out_page.

(** ** Batches *)

Definition r4_registry_batch_builder_init (builder operations operation_capacity blob blob_capacity : Z) : M K () :=
  if builder =? 0 then mret () else
  put_all R4RegistryBatchBuilder builder [
    ("operations", operations); ("operation_capacity", operation_capacity); ("operation_count", 0);
    ("blob", blob); ("blob_capacity", blob_capacity); ("blob_len", 0)].

Definition r4_registry_batch_builder_reset (builder : Z) : M K () :=
  if builder =? 0 then mret () else
  _ ← put R4RegistryBatchBuilder "operation_count" builder 0;
  put R4RegistryBatchBuilder "blob_len" builder 0.

(** A character that a value name must not have. *)
Definition name_char_bad (ch : Z) : bool :=
  (ch <? 0x20) || (ch =? 0x7f) || (ch =? 92) || (ch =? 47) || (ch =? 61).

(** [for (i = 0; i < name_len; ++i)], with [n] rounds left; whether a bad character was met. *)
Fixpoint name_check_loop (n : nat) (name i : Z) : M K bool :=
  match n with
  | O => mret false
  | S n => ch ← load 1 (name + i); if name_char_bad ch then mret true else name_check_loop n name (i + 1)
  end.

(** The first test: a missing pointer, or no room for another operation. *)
Definition append_refused (builder key name data data_len : Z) : M K bool :=
  if builder =? 0 then mret true else
  operations ← get R4RegistryBatchBuilder "operations" builder;
  blob ← get R4RegistryBatchBuilder "blob" builder;
  count ← get R4RegistryBatchBuilder "operation_count" builder;
  capacity ← get R4RegistryBatchBuilder "operation_capacity" builder;
  mret ((operations =? 0) || (blob =? 0) || (key =? 0) || (name =? 0) || ((data =? 0) && negb (data_len =? 0))
        || (capacity <=? count) || (R4OS_REGISTRY_BATCH_OPERATION_MAX <=? count)).

(** [memcpy(blob + blob_len, src, n); blob_len += n], returning the old [blob_len]. *)
Definition blob_push (builder src n : Z) : M K Z :=
  blob ← get R4RegistryBatchBuilder "blob" builder;
  len ← get R4RegistryBatchBuilder "blob_len" builder;
  _ ← memcpy (blob + len) src n;
  _ ← put R4RegistryBatchBuilder "blob_len" builder (len + n);
  mret len.

(** [operations[operation_count++] = entry]. *)
Definition push_operation (builder : Z) (entry : list (string * Z)) : M K () :=
  operations ← get R4RegistryBatchBuilder "operations" builder;
  count ← get R4RegistryBatchBuilder "operation_count" builder;
  _ ← put R4RegistryBatchBuilder "operation_count" builder (count + 1);
  put_all R4RegistryBatchOperation (operations + count * sizeof R4RegistryBatchOperation) entry.

Definition r4_registry_batch_builder_append (builder key name operation value_type data data_len : Z) : M K Z :=
  refused ← append_refused builder key name data data_len;
  if refused : bool then mret R4OS_REGISTRY_API_RESULT_INVALID else
  name_len ← r4os_cstr_len name;
  if 63 <? name_len then mret R4OS_REGISTRY_API_RESULT_INVALID else
  bad ← name_check_loop (Z.to_nat name_len) name 0;
  if bad : bool then mret R4OS_REGISTRY_API_RESULT_INVALID else
  key_len ← get R4RegistryPath "length" key;
  let needed := key_len + name_len + data_len in
  blob_capacity ← get R4RegistryBatchBuilder "blob_capacity" builder;
  blob_len ← get R4RegistryBatchBuilder "blob_len" builder;
  if (blob_capacity <? needed) || (Prelude.u32 (blob_capacity - Prelude.u32 needed) <? blob_len)
     || (R4OS_REGISTRY_BATCH_BLOB_MAX <? Prelude.u32 (blob_len + Prelude.u32 needed))
  then mret R4OS_REGISTRY_API_RESULT_BUFFER_TOO_SMALL else
  key_offset ← blob_push builder key key_len;
  name_offset ← blob_push builder name name_len;
  data_offset ← (if data_len =? 0 then get R4RegistryBatchBuilder "blob_len" builder else blob_push builder data data_len);
  _ ← push_operation builder [
    ("operation", operation); ("value_type", value_type); ("key_path_offset", key_offset); ("key_path_len", key_len);
    ("value_name_offset", name_offset); ("value_name_len", name_len); ("data_offset", data_offset);
    ("data_len", data_len); ("reserved0", 0)];
  mret R4OS_REGISTRY_API_RESULT_OK.

Definition r4_registry_batch_builder_set (builder key name value_type data data_len : Z) : M K Z :=
  r4_registry_batch_builder_append builder key name R4OS_REGISTRY_BATCH_OPERATION_SET value_type data data_len.

(** The local array [data] is at the address [data]. *)
Definition r4_registry_batch_builder_set_u32 (data builder key name value : Z) : M K Z :=
  _ ← store_bytes data [z2b value; z2b (Z.shiftr value 8); z2b (Z.shiftr value 16); z2b (Z.shiftr value 24)];
  r4_registry_batch_builder_set builder key name R4OS_REGISTRY_VALUE_TYPE_U32 data 4.

Definition r4_registry_batch_builder_delete (builder key name : Z) : M K Z :=
  r4_registry_batch_builder_append builder key name R4OS_REGISTRY_BATCH_OPERATION_DELETE 0 0 0.

Definition r4_registry_batch_available (registry : Z) : M K bool :=
  if registry =? 0 then mret false else
  system ← facade_system registry; r4sys_supports_registry_batch system.

Definition r4_registry_batch_apply (applied registry builder : Z) : M K () :=
  _ ← clear R4RegistryBatchApply applied;
  let result := applied + offsetof R4RegistryBatchApply "result" in
  _ ← put R4RegistryBatchResult "version" result R4OS_REGISTRY_BATCH_VERSION;
  _ ← put R4RegistryBatchResult "size" result (sizeof R4RegistryBatchResult);
  if (registry =? 0) || (builder =? 0) then put R4RegistryBatchApply "raw_code" applied R4OS_REGISTRY_API_RESULT_INVALID else
  system ← facade_system registry;
  operations ← get R4RegistryBatchBuilder "operations" builder;
  count ← get R4RegistryBatchBuilder "operation_count" builder;
  blob ← get R4RegistryBatchBuilder "blob" builder;
  blob_len ← get R4RegistryBatchBuilder "blob_len" builder;
  raw ← r4sys_registry_batch_mutate system operations count blob blob_len result;
  put R4RegistryBatchApply "raw_code" applied raw.

Definition r4_registry_batch_committed (applied : Z) : M K bool :=
  if applied =? 0 then mret false else
  raw ← get R4RegistryBatchApply "raw_code" applied;
  if negb (i32 raw =? R4OS_REGISTRY_API_RESULT_OK) then mret false else
  status ← get R4RegistryBatchResult "status" (applied + offsetof R4RegistryBatchApply "result");
  mret (status =? R4OS_REGISTRY_BATCH_STATUS_COMMITTED).
(** ** Single values *)

Definition r4_registry_get (result registry key name out capacity : Z) : M K () :=
  _ ← clear R4RegistryRead result;
  f ← facade_slot registry ((key =? 0) || (name =? 0)) "registry_get_value";
  if f =? 0 then
    _ ← put R4RegistryRead "state" result R4_REGISTRY_FAILED; put R4RegistryRead "raw_code" result R4OS_ERR_NO_FN
  else
  let value := result + offsetof R4RegistryRead "value" in
  raw ← call_i32 f [key; name; value + offsetof R4RegistryValueView "info"; out; capacity];
  _ ← put R4RegistryRead "raw_code" result raw;
  if (raw =? R4OS_REGISTRY_API_RESULT_VALUE_NOT_FOUND) || (raw =? R4OS_REGISTRY_API_RESULT_KEY_NOT_FOUND)
  then put R4RegistryRead "state" result R4_REGISTRY_MISSING
  else if raw <? 0 then put R4RegistryRead "state" result R4_REGISTRY_FAILED
  else if capacity <? Prelude.u32 raw then
    _ ← put R4RegistryRead "state" result R4_REGISTRY_FAILED;
    put R4RegistryRead "raw_code" result R4OS_REGISTRY_API_RESULT_BUFFER_TOO_SMALL
  else
    _ ← put R4RegistryRead "state" result R4_REGISTRY_VALUE;
    _ ← put R4RegistryValueView "bytes" value out;
    put R4RegistryValueView "length" value (Prelude.u32 raw).

Definition r4_registry_set (registry key name type bytes length : Z) : M K R4Operation :=
  f ← facade_slot registry ((key =? 0) || (name =? 0)) "registry_set_value";
  if f =? 0 then mret (r4_operation_status R4OS_ERR_NO_FN) else
  raw ← call_i32 f [key; name; type; bytes; length]; mret (r4_operation_status raw).

(** The local variable that the three setters encode the value into is at [local]. *)
Definition r4_registry_set_u32 (local registry key name value : Z) : M K R4Operation :=
  _ ← store_bytes local [z2b value; z2b (Z.shiftr value 8); z2b (Z.shiftr value 16); z2b (Z.shiftr value 24)];
  r4_registry_set registry key name R4OS_REGISTRY_VALUE_TYPE_U32 local 4.

Definition r4_registry_set_string (registry key name value : Z) : M K R4Operation :=
  if value =? 0 then mret (r4_operation_status R4OS_REGISTRY_API_RESULT_INVALID) else
  length ← r4os_cstr_len value;
  r4_registry_set registry key name R4OS_REGISTRY_VALUE_TYPE_STRING value length.

Definition r4_registry_set_u64 (local registry key name value : Z) : M K R4Operation :=
  _ ← store_bytes local (map (λ i, z2b (Z.shiftr value (Z.of_nat i * 8))) (seq 0 8));
  r4_registry_set registry key name R4OS_REGISTRY_VALUE_TYPE_U64 local 8.

Definition r4_registry_set_bool (local registry key name value : Z) : M K R4Operation :=
  _ ← store 1 local (if value =? 0 then 0 else 1);
  r4_registry_set registry key name R4OS_REGISTRY_VALUE_TYPE_BOOL local 1.

Definition r4_registry_set_binary (registry key name bytes length : Z) : M K R4Operation :=
  r4_registry_set registry key name R4OS_REGISTRY_VALUE_TYPE_BINARY bytes length.

Definition r4_registry_delete (registry key name : Z) : M K R4Operation :=
  f ← facade_slot registry ((key =? 0) || (name =? 0)) "registry_delete_value";
  if f =? 0 then mret (r4_operation_status R4OS_ERR_NO_FN) else
  raw ← call_i32 f [key; name];
  if (raw =? R4OS_REGISTRY_API_RESULT_VALUE_NOT_FOUND) || (raw =? R4OS_REGISTRY_API_RESULT_KEY_NOT_FOUND)
  then mret (Operation R4_OPERATION_MISSING raw) else mret (r4_operation_status raw).

(** ** Decoding *)

(** [view->info.value_type]. *)
Definition view_type (view : Z) : M K Z := get R4RegistryValueInfo "value_type" (view + offsetof R4RegistryValueView "info").

(** [view == 0 || out == 0 || view->info.value_type != type || view->length != length]. *)
Definition view_refused (view out type length : Z) : M K bool :=
  if (view =? 0) || (out =? 0) then mret true else
  t ← view_type view; n ← get R4RegistryValueView "length" view;
  mret (negb (t =? type) || negb (n =? length)).

(** [value |= (uint64_t)bytes[i] << (i * 8)] for [i] from [i] on. *)
Fixpoint decode_loop (n : nat) (bytes i value : Z) : M K Z :=
  match n with
  | O => mret value
  | S n => b ← load 1 (bytes + i); decode_loop n bytes (i + 1) (Z.lor value (Z.shiftl b (i * 8)))
  end.

Definition r4_registry_value_u32 (view out : Z) : M K Z :=
  refused ← view_refused view out R4OS_REGISTRY_VALUE_TYPE_U32 4;
  if refused : bool then mret 0 else
  bytes ← get R4RegistryValueView "bytes" view;
  value ← decode_loop 4 bytes 0 0;
  _ ← store 4 out value; mret 1.

Definition r4_registry_value_u64 (view out : Z) : M K Z :=
  refused ← view_refused view out R4OS_REGISTRY_VALUE_TYPE_U64 8;
  if refused : bool then mret 0 else
  bytes ← get R4RegistryValueView "bytes" view;
  value ← decode_loop 8 bytes 0 0;
  _ ← store 8 out value; mret 1.

Definition r4_registry_value_bool (view out : Z) : M K Z :=
  refused ← view_refused view out R4OS_REGISTRY_VALUE_TYPE_BOOL 1;
  if refused : bool then mret 0 else
  bytes ← get R4RegistryValueView "bytes" view;
  b ← load 1 bytes;
  if 1 <? b then mret 0 else
  _ ← store 4 out (if b =? 0 then 0 else 1); mret 1.

Definition r4_registry_value_string (view out : Z) : M K Z :=
  if (view =? 0) || (out =? 0) then mret 0 else
  t ← view_type view;
  if negb (t =? R4OS_REGISTRY_VALUE_TYPE_STRING) then mret 0 else
  bytes ← get R4RegistryValueView "bytes" view;
  _ ← put R4TextView "ptr" out bytes;
  length ← get R4RegistryValueView "length" view;
  _ ← put R4TextView "len" out length; mret 1.

Definition r4_registry_value_binary (view out_bytes out_length : Z) : M K Z :=
  if (view =? 0) || (out_bytes =? 0) || (out_length =? 0) then mret 0 else
  t ← view_type view;
  if negb (t =? R4OS_REGISTRY_VALUE_TYPE_BINARY) then mret 0 else
  bytes ← get R4RegistryValueView "bytes" view;
  _ ← store 8 out_bytes bytes;
  length ← get R4RegistryValueView "length" view;
  _ ← store 4 out_length length; mret 1.
End code.

End R4Registry.
