(* ===== verification/R4Batch.v ===== *)
(** * Registry batches

    A batch builder refines a list of operations: what the kernel finds in the
    entries and the block of bytes is the list of operations that were appended,
    in order, and an operation that is refused changes nothing. *)

From S2P Require Import Prelude R4Abi R4Mem R4L R4LSpec.
From S2P Require Import R4Table R4Sys R4SysSpec R4SysInit R4Field.
From S2P Require Import R4App R4Files R4Registry.

Module R4Batch.
Export R4Registry.

(** ** The kernel's view of a batch *)

Record batch_op := BatchOp { bo_operation : Z; bo_type : Z; bo_key : list byte; bo_name : list byte; bo_data : list byte }.

Definition payload (op : batch_op) : Z :=
  Z.of_nat (length (bo_key op)) + Z.of_nat (length (bo_name op)) + Z.of_nat (length (bo_data op)).
Definition total (ops : list batch_op) : Z := foldr (λ op n, payload op + n) 0 ops.

(** The range of [blob] that two fields of the entry at [a] give. *)
Definition part (m : gmap Z byte) (blob a : Z) (offset len : string) : option (list byte) :=
  read_bytes m (blob + fv m R4RegistryBatchOperation a offset) (Z.to_nat (fv m R4RegistryBatchOperation a len)).

Definition decode_entry (m : gmap Z byte) (blob a : Z) : option batch_op :=
  match part m blob a "key_path_offset" "key_path_len", part m blob a "value_name_offset" "value_name_len",
        part m blob a "data_offset" "data_len" with
  | Some key, Some name, Some data =>
      Some (BatchOp (fv m R4RegistryBatchOperation a "operation") (fv m R4RegistryBatchOperation a "value_type") key name data)
  | _, _, _ => None
  end.

(** The ranges of the entry at [a] are inside the first [n] bytes. *)
Definition entry_within (m : gmap Z byte) (a n : Z) : Prop :=
  let range offset len := fv m R4RegistryBatchOperation a offset + fv m R4RegistryBatchOperation a len ≤ n in
  range "key_path_offset" "key_path_len" ∧ range "value_name_offset" "value_name_len" ∧ range "data_offset" "data_len".

Section batch.
Context {K : Type} `{!Kernel K}.
Variables (builder operations capacity blob blob_capacity : Z).
Implicit Types (w : world K) (m : gmap Z byte) (ops : list batch_op).

Definition entry_addr (i : nat) : Z := operations + Z.of_nat i * 32.

(** The three ranges a builder works in. *)
Definition regions : list (Z * Z) := [(builder, 32); (operations, capacity * 32); (blob, blob_capacity)].
Definition clear_of (a n : Z) : Prop := Forall (λ r, a + n ≤ fst r ∨ fst r + snd r ≤ a) regions.

Definition fields_of_batch ops (σ : string → Z) : Prop :=
  σ "operations" = operations ∧ σ "operation_capacity" = capacity ∧ σ "operation_count" = Z.of_nat (length ops) ∧
  σ "blob" = blob ∧ σ "blob_capacity" = blob_capacity ∧ σ "blob_len" = total ops.

(** The builder holds [ops]. *)
Record batch_at m ops : Prop := {
  ba_fields : ∃ σ, struct_at m R4RegistryBatchBuilder builder σ ∧ fields_of_batch ops σ;
  ba_entries : ∀ i op, ops !! i = Some op → decode_entry m blob (entry_addr i) = Some op ∧ entry_within m (entry_addr i) (total ops);
  ba_memory : mapped m operations (capacity * 32) ∧ mapped m blob blob_capacity;
  ba_pointers : builder ≠ 0 ∧ operations ≠ 0 ∧ blob ≠ 0 ∧ is_u32 capacity ∧ is_u32 blob_capacity;
  ba_apart : (builder + 32 ≤ operations ∨ operations + capacity * 32 ≤ builder) ∧
    (builder + 32 ≤ blob ∨ blob + blob_capacity ≤ builder) ∧
    (operations + capacity * 32 ≤ blob ∨ blob + blob_capacity ≤ operations);
  ba_bounds : Z.of_nat (length ops) ≤ capacity ∧ total ops ≤ blob_capacity
}.

Lemma total_app ops op : total (ops ++ [op]) = total ops + payload op.
Proof. unfold total. induction ops as [|x ops IH]; simpl; lia. Qed.

Lemma payload_nonneg op : 0 ≤ payload op.
Proof. unfold payload. lia. Qed.
Lemma total_nonneg ops : 0 ≤ total ops.
Proof. induction ops as [|x ops IH]; simpl; [lia|]. pose proof (payload_nonneg x). lia. Qed.

(** ** The specification of an append *)

Definition name_ok (name : list byte) : bool :=
  (Z.of_nat (length name) <=? 63) && forallb (λ b, negb (name_char_bad (b2z b))) name.

Definition append_status ops (op : batch_op) : Z :=
  if (capacity <=? Z.of_nat (length ops)) || (R4OS_REGISTRY_BATCH_OPERATION_MAX <=? Z.of_nat (length ops)) || negb (name_ok (bo_name op))
  then R4OS_REGISTRY_API_RESULT_INVALID
  else if (blob_capacity <? total ops + payload op) || (R4OS_REGISTRY_BATCH_BLOB_MAX <? total ops + payload op)
  then R4OS_REGISTRY_API_RESULT_BUFFER_TOO_SMALL
  else R4OS_REGISTRY_API_RESULT_OK.

(** The arguments: a key, a name and data, outside of the builder. *)
Record append_args m (key name data : Z) (op : batch_op) : Prop := {
  aa_key : key ≠ 0 ∧ mapped m key 258 ∧ bytes_at m key (bo_key op) ∧
    fv m R4RegistryPath key "length" = Z.of_nat (length (bo_key op)) ∧ clear_of key 258 ∧ (length (bo_key op) ≤ 256)%nat;
  aa_name : name ≠ 0 ∧ cstr_at m name (bo_name op) ∧ clear_of name (Z.of_nat (S (length (bo_name op)))) ∧
    Z.of_nat (length (bo_name op)) < 2 ^ 32;
  aa_data : (bo_data op ≠ [] → data ≠ 0) ∧ bytes_at m data (bo_data op) ∧ clear_of data (Z.of_nat (length (bo_data op))) ∧
    Z.of_nat (length (bo_data op)) < 2 ^ 32;
  aa_types : is_u16 (bo_operation op) ∧ is_u16 (bo_type op)
}.

(** ** Keeping the entries *)

Lemma fv_entry_changed m m' a n i f :
  changed m m' a n → a + n ≤ entry_addr i ∨ entry_addr i + 32 ≤ a → field_in R4RegistryBatchOperation f 32 = true →
  fv m' R4RegistryBatchOperation (entry_addr i) f = fv m R4RegistryBatchOperation (entry_addr i) f.
Proof. intros Hch Hd Hf. by eapply changed_fv. Qed.

(** An entry survives a store that meets neither it nor the first [n] bytes of the block. *)
Lemma entry_kept m m' a k n i op :
  changed m m' a k → a + k ≤ entry_addr i ∨ entry_addr i + 32 ≤ a → a + k ≤ blob ∨ blob + n ≤ a →
  decode_entry m blob (entry_addr i) = Some op ∧ entry_within m (entry_addr i) n →
  decode_entry m' blob (entry_addr i) = Some op ∧ entry_within m' (entry_addr i) n.
Proof.
  intros Hch Hd Hb [Hdec Hw]. pose proof (λ f, fv_entry_changed m m' a k i f Hch Hd) as Hf. unfold entry_within in *.
  rewrite !Hf by reflexivity. split; [|done].
  assert (∀ o l, field_in R4RegistryBatchOperation o 32 = true → field_in R4RegistryBatchOperation l 32 = true →
    fv m R4RegistryBatchOperation (entry_addr i) o + fv m R4RegistryBatchOperation (entry_addr i) l ≤ n →
    part m' blob (entry_addr i) o l = part m blob (entry_addr i) o l) as Hp.
  { intros o l Ho Hl Hle. unfold part. rewrite !Hf by done. apply read_bytes_ext. intros x Hx. apply (ch_out _ _ _ _ Hch).
    pose proof (fv_nonneg m R4RegistryBatchOperation (entry_addr i) o). pose proof (fv_nonneg m R4RegistryBatchOperation (entry_addr i) l). lia. }
  destruct Hw as (H1 & H2 & H3). unfold decode_entry in *. by rewrite !Hp, !Hf by (reflexivity || done).
Qed.
(** ** What a builder leaves alone *)

(** Only bytes of the three regions differ. *)
Record kept m m' : Prop := {
  ke_dom : ∀ x, is_Some (m' !! x) ↔ is_Some (m !! x);
  ke_out : ∀ x, Forall (λ r, x < fst r ∨ fst r + snd r ≤ x) regions → m' !! x = m !! x
}.

Lemma region_builder : (builder, 32) ∈ regions.
Proof. set_solver. Qed.
Lemma region_operations : (operations, capacity * 32) ∈ regions.
Proof. set_solver. Qed.
Lemma region_blob : (blob, blob_capacity) ∈ regions.
Proof. set_solver. Qed.

Lemma kept_refl m : kept m m.
Proof. by split. Qed.

Lemma kept_trans m1 m2 m3 : kept m1 m2 → kept m2 m3 → kept m1 m3.
Proof. intros [H1 H2] [H3 H4]. split; intros x; [by rewrite H3|intros Hx; by rewrite H4, H2]. Qed.

Lemma changed_kept m m' a n r : r ∈ regions → changed m m' a n → fst r ≤ a → a + n ≤ fst r + snd r → kept m m'.
Proof.
  intros Hin [Hd Ho] H1 H2. split; [done|]. intros x Hx. apply Ho. rewrite Forall_forall in Hx. specialize (Hx r Hin). lia.
Qed.

Lemma kept_bytes m m' a l : kept m m' → clear_of a (Z.of_nat (length l)) → bytes_at m a l → bytes_at m' a l.
Proof.
  intros [_ Ho] Hc. unfold bytes_at. intros <-. apply read_bytes_ext. intros x Hx. apply Ho.
  eapply Forall_impl; [exact Hc|]. intros r Hr. simpl in Hr. lia.
Qed.

(** ** Pushing bytes *)

(** In the middle of an append: the bytes [l] of the new operation are behind those of [ops]. *)
Record middle m ops (l : list byte) : Prop := {
  mi_fields : ∃ σ, struct_at m R4RegistryBatchBuilder builder σ ∧ σ "operations" = operations ∧
    σ "operation_capacity" = capacity ∧ σ "operation_count" = Z.of_nat (length ops) ∧ σ "blob" = blob ∧
    σ "blob_capacity" = blob_capacity ∧ σ "blob_len" = total ops + Z.of_nat (length l);
  mi_entries : ∀ i op, ops !! i = Some op → decode_entry m blob (entry_addr i) = Some op ∧ entry_within m (entry_addr i) (total ops);
  mi_memory : mapped m operations (capacity * 32) ∧ mapped m blob blob_capacity;
  mi_bytes : bytes_at m (blob + total ops) l
}.

(** What does not change during an append. *)
Record setting ops : Prop := {
  st_pointers : builder ≠ 0 ∧ operations ≠ 0 ∧ blob ≠ 0 ∧ is_u32 capacity ∧ is_u32 blob_capacity;
  st_apart : (builder + 32 ≤ operations ∨ operations + capacity * 32 ≤ builder) ∧
    (builder + 32 ≤ blob ∨ blob + blob_capacity ≤ builder) ∧
    (operations + capacity * 32 ≤ blob ∨ blob + blob_capacity ≤ operations);
  st_bounds : Z.of_nat (length ops) ≤ capacity ∧ total ops ≤ blob_capacity
}.

Lemma batch_setting m ops : batch_at m ops → setting ops ∧ middle m ops [].
Proof.
  intros [Hf He Hm Hp Ha Hb]. split; [by split|]. split; [|done|done|done].
  destruct Hf as (σ & Hs & H1 & H2 & H3 & H4 & H5 & H6). exists σ. simpl length. by rewrite Z.add_0_r.
Qed.

Lemma entry_bound ops i : setting ops → (i < length ops)%nat → operations ≤ entry_addr i ∧ entry_addr i + 32 ≤ operations + capacity * 32.
Proof. intros [_ _ [Hb _]] Hi. unfold entry_addr. lia. Qed.

Lemma blob_push_run w ops l src d :
  setting ops → middle (mem w) ops l → bytes_at (mem w) src d →
  total ops + Z.of_nat (length l) + Z.of_nat (length d) ≤ blob_capacity →
  ∃ m', blob_push builder src (Z.of_nat (length d)) w = Some (total ops + Z.of_nat (length l), World m' (kern w)) ∧
    kept (mem w) m' ∧ middle m' ops (l ++ d).
Proof.
  intros Hset [(σ & Hs & H1 & H2 & H3 & H4 & H5 & H6) He [Hmo Hmb] Hl] Hd Hle.
  pose proof Hset as [(_ & _ & _ & _ & Hbc) (Ha1 & Ha2 & Ha3) [_ Htot]]. pose proof (total_nonneg ops). unfold blob_push.
  field_get Hs. field_get Hs. rewrite H4, H6.
  destruct (memcpy_run w (blob + (total ops + Z.of_nat (length l))) src d Hd) as (m1 & Hr1 & Hc1 & Hb1).
  { eapply mapped_sub; [exact Hmb|lia|lia]. }
  rewrite (mbind_run _ _ _ _ _ Hr1).
  assert (struct_at m1 R4RegistryBatchBuilder builder σ) as Hs1.
  { eapply struct_changed; [reflexivity|exact Hc1| |exact Hs]. change (sizeof R4RegistryBatchBuilder) with 32. lia. }
  destruct (struct_put_mod (World m1 (kern w)) R4RegistryBatchBuilder builder σ "blob_len"
    (total ops + Z.of_nat (length l) + Z.of_nat (length d)) _ _ eq_refl eq_refl Hs1) as (m2 & Hr2 & Hc2 & Hs2).
  change (sizeof R4RegistryBatchBuilder) with 32 in Hc2. cbn [mem kern] in *. rewrite (mbind_run _ _ _ _ _ Hr2).
  exists m2. split_and!; [done| |].
  - eapply kept_trans; [eapply (changed_kept _ _ _ _ (blob, blob_capacity)); [apply region_blob|exact Hc1|simpl; lia|simpl; lia]|].
    eapply (changed_kept _ _ _ _ (builder, 32)); [apply region_builder|exact Hc2|simpl; lia|simpl; lia].
  - split.
    + eexists. split; [exact Hs2|]. unfold upd. cbn -[Z.pow Z.modulo]. rewrite H1, H2, H3, H4, H5, length_app.
      split_and!; [done..|]. change (8 * Z.of_nat (Z.to_nat 4)) with 32. unfold is_u32 in Hbc. rewrite Z.mod_small by lia. lia.
    + intros i op Hi. pose proof (entry_bound ops i Hset (lookup_lt_Some _ _ _ Hi)). apply He in Hi.
      eapply (entry_kept m1); [exact Hc2|lia|lia|]. eapply (entry_kept (mem w)); [exact Hc1|lia|lia|exact Hi].
    + split; (eapply changed_mapped; [exact Hc2|]; eapply changed_mapped; [exact Hc1|done]).
    + apply bytes_app. rewrite <-Z.add_assoc. split; (eapply bytes_changed; [exact Hc2|lia|]).
      * eapply bytes_changed; [exact Hc1|lia|exact Hl].
      * exact Hb1.
Qed.
(** ** Pushing the entry *)

(** The entry of an operation whose bytes start at [base]. *)
Definition entry_values (base : Z) (op : batch_op) : list (string * Z) :=
  let k := Z.of_nat (length (bo_key op)) in
  let n := Z.of_nat (length (bo_name op)) in
  [("operation", bo_operation op); ("value_type", bo_type op); ("key_path_offset", base); ("key_path_len", k);
   ("value_name_offset", base + k); ("value_name_len", n); ("data_offset", base + k + n);
   ("data_len", Z.of_nat (length (bo_data op))); ("reserved0", 0)].

Definition op_bytes (op : batch_op) : list byte := bo_key op ++ bo_name op ++ bo_data op.

Lemma entry_decodes m a base op σ :
  struct_at m R4RegistryBatchOperation a (foldl (set_field R4RegistryBatchOperation) σ (entry_values base op)) →
  is_u16 (bo_operation op) ∧ is_u16 (bo_type op) → 0 ≤ base → base + payload op < 2 ^ 32 →
  bytes_at m (blob + base) (op_bytes op) →
  decode_entry m blob a = Some op ∧ entry_within m a (base + payload op).
Proof.
  intros [_ Hv] [Ho Ht] Hb Hle Hbytes. unfold payload, is_u16 in *. unfold op_bytes in Hbytes. rewrite !bytes_app in Hbytes.
  destruct Hbytes as (Hk & Hn & Hd).
  assert (∀ f o k v, field_at R4RegistryBatchOperation f = Some (o, k) → In (f, v) (entry_values base op) →
    0 ≤ v < 2 ^ (8 * Z.of_nat k) → fv m R4RegistryBatchOperation a f = v) as Hf.
  { intros f o k v Hq Hin Hr. rewrite (Hv f _ Hq). unfold entry_values in *.
    repeat (destruct Hin as [[= <- <-]|Hin]; [injection Hq as <- <-; cbn -[Z.pow Z.modulo]; by apply Z.mod_small|]). done. }
  assert (∀ f o v, field_at R4RegistryBatchOperation f = Some (o, 4%nat) → In (f, v) (entry_values base op) →
    0 ≤ v < 2 ^ 32 → fv m R4RegistryBatchOperation a f = v) as Hf4 by (intros f o v; apply (Hf f o 4%nat)).
  unfold decode_entry, entry_within, part. cbv zeta.
  rewrite (Hf4 "key_path_offset" 4 base), (Hf4 "key_path_len" 8 (Z.of_nat (length (bo_key op)))),
    (Hf4 "value_name_offset" 12 (base + Z.of_nat (length (bo_key op)))), (Hf4 "value_name_len" 16 (Z.of_nat (length (bo_name op)))),
    (Hf4 "data_offset" 20 (base + Z.of_nat (length (bo_key op)) + Z.of_nat (length (bo_name op)))),
    (Hf4 "data_len" 24 (Z.of_nat (length (bo_data op)))),
    (Hf "operation" 0 2%nat (bo_operation op)), (Hf "value_type" 2 2%nat (bo_type op));
    try reflexivity; try (simpl; tauto); try lia.
  rewrite !Nat2Z.id, !Z.add_assoc. unfold bytes_at in *. rewrite !Z.add_assoc in *. rewrite Hk, Hn, Hd.
  split; [by destruct op|lia].
Qed.
Lemma push_operation_run w ops op :
  setting ops → middle (mem w) ops (op_bytes op) → is_u16 (bo_operation op) ∧ is_u16 (bo_type op) →
  Z.of_nat (length ops) < capacity → total ops + payload op ≤ blob_capacity →
  ∃ m', push_operation builder (entry_values (total ops) op) w = Some ((), World m' (kern w)) ∧
    kept (mem w) m' ∧ batch_at m' (ops ++ [op]).
Proof.
  intros Hset [(σ & Hs & H1 & H2 & H3 & H4 & H5 & H6) He [Hmo Hmb] Hl] Hty Hcap Hle.
  pose proof Hset as [Hptr (Ha1 & Ha2 & Ha3) [_ Htot]]. pose proof Hptr as (_ & _ & _ & Hcu & Hbc).
  pose proof (total_nonneg ops). pose proof (payload_nonneg op). unfold push_operation. field_get Hs. field_get Hs. rewrite H1, H3.
  destruct (struct_put_mod w R4RegistryBatchBuilder builder σ "operation_count" (Z.of_nat (length ops) + 1) _ _ eq_refl eq_refl Hs)
    as (m1 & Hr1 & Hc1 & Hs1). rewrite (mbind_run _ _ _ _ _ Hr1). change (sizeof R4RegistryBatchBuilder) with 32 in Hc1.
  change (sizeof R4RegistryBatchOperation) with 32. fold (entry_addr (length ops)).
  assert (operations ≤ entry_addr (length ops) ∧ entry_addr (length ops) + 32 ≤ operations + capacity * 32) as Hea by (unfold entry_addr; lia).
  assert (mapped m1 (entry_addr (length ops)) 32) as Hme.
  { eapply changed_mapped; [exact Hc1|]. eapply mapped_sub; [exact Hmo|lia|lia]. }
  destruct (put_all_run (World m1 (kern w)) R4RegistryBatchOperation (entry_addr (length ops)) _ (entry_values (total ops) op)
    eq_refl eq_refl (struct_own m1 R4RegistryBatchOperation _ Hme)) as (m2 & Hr2 & Hc2 & Hs2). change (sizeof R4RegistryBatchOperation) with 32 in Hc2. cbn [mem kern] in *.
  exists m2. split_and!; [exact Hr2| |].
  - eapply kept_trans; [eapply (changed_kept _ _ _ _ (builder, 32)); [apply region_builder|exact Hc1|simpl; lia|simpl; lia]|].
    eapply (changed_kept _ _ _ _ (operations, capacity * 32)); [apply region_operations|exact Hc2|simpl; lia|simpl; lia].
  - assert (Z.of_nat (length (op_bytes op)) = payload op) as Hlen by (unfold op_bytes, payload; rewrite !length_app; lia).
    unfold is_u32 in *. split; rewrite ?length_app, ?total_app; cbn [length].
    + eexists. split; [eapply struct_changed; [reflexivity|exact Hc2| |exact Hs1]; change (sizeof R4RegistryBatchBuilder) with 32; lia|].
      unfold fields_of_batch, upd. cbn -[Z.pow Z.modulo Z.of_nat]. rewrite H1, H2, H4, H5, H6, length_app, total_app, Hlen. cbn [length].
      change (8 * Z.of_nat (Z.to_nat 4)) with 32. rewrite Z.mod_small by lia. split_and!; (done || lia).
    + intros i op' Hi. destruct (decide (i < length ops)%nat) as [Hlt|Hge].
      * rewrite lookup_app_l in Hi by done. pose proof (entry_bound ops i Hset Hlt). apply He in Hi.
        assert (decode_entry m2 blob (entry_addr i) = Some op' ∧ entry_within m2 (entry_addr i) (total ops)) as [Hd (Hw1 & Hw2 & Hw3)].
        { eapply (entry_kept m1); [exact Hc2|unfold entry_addr in *; lia|lia|]. eapply (entry_kept (mem w)); [exact Hc1|lia|lia|exact Hi]. }
        split; [done|]. unfold entry_within. split_and!; lia.
      * rewrite lookup_app_r in Hi by lia. apply list_lookup_singleton_Some in Hi as [Hi ->]. replace i with (length ops) by lia.
        apply (entry_decodes m2 _ (total ops) op' _ Hs2); [done|lia|lia|].
        eapply bytes_changed; [exact Hc2|lia|]. eapply bytes_changed; [exact Hc1|lia|exact Hl].
    + split; (eapply changed_mapped; [exact Hc2|]; eapply changed_mapped; [exact Hc1|done]).
    + done.
    + done.
    + lia.
Qed.
(** ** Starting over *)

Lemma batch_init_run w :
  setting [] → mapped (mem w) builder 32 → mapped (mem w) operations (capacity * 32) → mapped (mem w) blob blob_capacity →
  is_u64 operations → is_u64 blob →
  ∃ m', r4_registry_batch_builder_init builder operations capacity blob blob_capacity w = Some ((), World m' (kern w)) ∧
    batch_at m' [].
Proof.
  intros [Hptr Ha Hb] Hm Hmo Hmb Huo Hub. pose proof Hptr as (H0 & _ & _ & Hcu & Hbu). unfold r4_registry_batch_builder_init.
  rewrite (proj2 (Z.eqb_neq _ _) H0).
  destruct (put_all_run w R4RegistryBatchBuilder builder _ [("operations", operations); ("operation_capacity", capacity);
    ("operation_count", 0); ("blob", blob); ("blob_capacity", blob_capacity); ("blob_len", 0)] eq_refl eq_refl
    (struct_own (mem w) R4RegistryBatchBuilder _ Hm)) as (m' & Hr & Hc & Hs).
  exists m'. split; [exact Hr|]. split; [|done|split; by eapply changed_mapped|done|done|done].
  eexists. split; [exact Hs|]. unfold fields_of_batch. cbn -[Z.pow Z.modulo]. split_and!; try done; apply Z.mod_small; assumption.
Qed.

Lemma batch_reset_run w ops :
  batch_at (mem w) ops → ∃ m', r4_registry_batch_builder_reset builder w = Some ((), World m' (kern w)) ∧ batch_at m' [].
Proof.
  intros [(σ & Hs & H1 & H2 & H3 & H4 & H5 & H6) _ [Hmo Hmb] Hp Ha Hb]. pose proof Hp as (H0 & _ & _ & Hcu & Hbu).
  unfold r4_registry_batch_builder_reset. rewrite (proj2 (Z.eqb_neq _ _) H0).
  destruct (struct_put_mod w R4RegistryBatchBuilder builder σ "operation_count" 0 _ _ eq_refl eq_refl Hs) as (m1 & Hr1 & Hc1 & Hs1).
  rewrite (mbind_run _ _ _ _ _ Hr1).
  destruct (struct_put_mod (World m1 (kern w)) R4RegistryBatchBuilder builder _ "blob_len" 0 _ _ eq_refl eq_refl Hs1) as (m2 & Hr2 & Hc2 & Hs2).
  exists m2. split; [exact Hr2|]. unfold is_u32 in *.
  split; [|done|split; (eapply changed_mapped; [exact Hc2|]; by eapply changed_mapped)|done|done|simpl; lia].
  eexists. split; [exact Hs2|]. unfold fields_of_batch, upd. cbn -[Z.pow Z.modulo]. rewrite H1, H2, H4, H5. by split_and!.
Qed.

(** ** Appending *)

Lemma refused_run w ops key name data op :
  batch_at (mem w) ops → append_args (mem w) key name data op →
  append_refused builder key name data (Z.of_nat (length (bo_data op))) w
    = Some ((capacity <=? Z.of_nat (length ops)) || (R4OS_REGISTRY_BATCH_OPERATION_MAX <=? Z.of_nat (length ops)), w).
Proof.
  intros [(σ & Hs & H1 & H2 & H3 & H4 & _) _ _ (Hb & Ho & Hbl & _) _ _] [(Hk & _) (Hn & _) (Hd & _) _].
  unfold append_refused. rewrite (proj2 (Z.eqb_neq _ _) Hb). field_get Hs. field_get Hs. field_get Hs. field_get Hs.
  rewrite H1, H2, H3, H4, !(proj2 (Z.eqb_neq _ 0)) by done. cbn [orb].
  destruct (Z.eqb_spec data 0) as [->|]; cbn [andb]; [|done].
  destruct (bo_data op); [done|]. by destruct Hd.
Qed.

Lemma name_check_run w name i s :
  bytes_at (mem w) (name + i) s →
  name_check_loop (length s) name i w = Some (negb (forallb (λ b, negb (name_char_bad (b2z b))) s), w).
Proof.
  revert i. induction s as [|b s IH]; intros i Hs; [done|]. cbn [length name_check_loop forallb].
  apply (bytes_app _ _ [b] s) in Hs as [Hb Hs]. simpl length in Hs. apply bytes_lookup with (i := 0%nat) in Hb; [|simpl; lia].
  rewrite Z.add_0_r in Hb. rewrite (mbind_run _ _ _ _ _ (load1_run w _ b Hb)). destruct (name_char_bad (b2z b)); [done|].
  cbn [negb andb]. apply IH. by rewrite Z.add_assoc.
Qed.

(** The code's test for room, with its 32-bit arithmetic. *)
Lemma room_test ops op :
  setting ops → 0 ≤ payload op →
  (blob_capacity <? payload op) || (Prelude.u32 (blob_capacity - Prelude.u32 (payload op)) <? total ops)
    || (R4OS_REGISTRY_BATCH_BLOB_MAX <? Prelude.u32 (total ops + Prelude.u32 (payload op)))
  = (blob_capacity <? total ops + payload op) || (R4OS_REGISTRY_BATCH_BLOB_MAX <? total ops + payload op).
Proof.
  intros [(_ & _ & _ & _ & Hb) _ [_ Ht]] Hp. pose proof (total_nonneg ops). unfold is_u32, R4OS_REGISTRY_BATCH_BLOB_MAX in *.
  destruct (Z.ltb_spec blob_capacity (payload op)) as [|Hle].
  { cbn [orb]. by rewrite (proj2 (Z.ltb_lt blob_capacity (total ops + payload op))) by lia. }
  rewrite (u32_small (payload op)), (u32_small (blob_capacity - _)) by (unfold is_u32; lia). cbn [orb].
  destruct (Z.ltb_spec (blob_capacity - payload op) (total ops)) as [|Hle2]; cbn [orb].
  { by rewrite (proj2 (Z.ltb_lt blob_capacity (total ops + payload op))) by lia. }
  rewrite (proj2 (Z.ltb_ge blob_capacity (total ops + payload op))), u32_small by (unfold is_u32; lia). done.
Qed.

Lemma mbind_triple_run {A B C D} (x : M K A) (y : M K B) (z : M K C) (g : A → B → C → M K D) w a b c w' :
  (a ← x; b ← y; c ← z; mret (a, b, c)) w = Some ((a, b, c), w') → (a ← x; b ← y; c ← z; g a b c) w = g a b c w'.
Proof.
  unfold mbind, m_bind, mret, m_ret. destruct (x w) as [[a' w1]|]; [|done]. destruct (y w1) as [[b' w2]|]; [|done].
  destruct (z w2) as [[c' w3]|]; [|done]. by intros [= -> -> -> ->].
Qed.

Lemma pushes_run w ops key name data op :
  setting ops → middle (mem w) ops [] → append_args (mem w) key name data op → total ops + payload op ≤ blob_capacity →
  ∃ m', (key_offset ← blob_push builder key (Z.of_nat (length (bo_key op)));
         name_offset ← blob_push builder name (Z.of_nat (length (bo_name op)));
         data_offset ← (if Z.of_nat (length (bo_data op)) =? 0 then get R4RegistryBatchBuilder "blob_len" builder
                        else blob_push builder data (Z.of_nat (length (bo_data op))));
         mret (key_offset, name_offset, data_offset)) w
    = Some ((total ops, total ops + Z.of_nat (length (bo_key op)),
             total ops + Z.of_nat (length (bo_key op)) + Z.of_nat (length (bo_name op))), World m' (kern w)) ∧
    kept (mem w) m' ∧ middle m' ops (op_bytes op).
Proof.
  intros Hset Hmid [(_ & _ & Hkb & _ & Hkc & Hkl) (_ & (Hnb & _) & Hnc & _) (_ & Hdb & Hdc & _) _] Hle. unfold payload in Hle.
  destruct (blob_push_run w ops [] key (bo_key op) Hset Hmid Hkb) as (m1 & Hr1 & Hk1 & Hm1); [simpl length; lia|].
  rewrite (mbind_run _ _ _ _ _ Hr1). cbn [app] in Hm1.
  assert (bytes_at m1 name (bo_name op)) as Hnb1.
  { eapply kept_bytes; [exact Hk1| |exact Hnb]. eapply Forall_impl; [exact Hnc|]. intros r Hr. simpl in Hr. lia. }
  destruct (blob_push_run (World m1 (kern w)) ops (bo_key op) name (bo_name op) Hset Hm1 Hnb1) as (m2 & Hr2 & Hk2 & Hm2); [lia|].
  rewrite (mbind_run _ _ _ _ _ Hr2). cbn [mem kern] in *. simpl length. rewrite Z.add_0_r.
  assert (kept (mem w) m2) as Hk12 by (by eapply kept_trans). unfold op_bytes. rewrite app_assoc.
  destruct (Z.eqb_spec (Z.of_nat (length (bo_data op))) 0) as [Hz|Hnz].
  - destruct (bo_data op); [|simpl in Hz; lia]. rewrite app_nil_r. pose proof Hm2 as [(σ & Hs & _ & _ & _ & _ & _ & H6) _ _ _].
    exists m2. field_get Hs. rewrite H6, length_app. split_and!; [|done|done]. unfold mret, m_ret. do 3 f_equal. lia.
  - destruct (blob_push_run (World m2 (kern w)) ops (bo_key op ++ bo_name op) data (bo_data op) Hset Hm2) as (m3 & Hr3 & Hk3 & Hm3).
    + by eapply kept_bytes.
    + rewrite length_app. lia.
    + rewrite (mbind_run _ _ _ _ _ Hr3). exists m3. rewrite length_app. split_and!; [|by eapply kept_trans|done].
      unfold mret, m_ret. do 3 f_equal. lia.
Qed.
(** C30. Appending an operation to a registry batch either succeeds, and then what
    the kernel decodes from the builder is the list of operations so far with
    the new one behind it, and only the builder, its entries and its block are
    written; or it fails with the status that tells why (no room for another
    operation, a bad name, no room for its bytes) and changes nothing at all. *)
Theorem batch_append_refines w ops key name data op :
  batch_at (mem w) ops → append_args (mem w) key name data op →
  ∃ m', r4_registry_batch_builder_append builder key name (bo_operation op) (bo_type op) data (Z.of_nat (length (bo_data op))) w
      = Some (append_status ops op, World m' (kern w)) ∧
    (if append_status ops op =? R4OS_REGISTRY_API_RESULT_OK then kept (mem w) m' ∧ batch_at m' (ops ++ [op]) else m' = mem w).
Proof.
  intros Hb Ha. destruct (batch_setting _ _ Hb) as [Hset Hmid]. pose proof Ha as [(_ & Hkm & _ & Hkl & _) (Hn0 & Hnc & _ & Hnl) _ Hty].
  assert (World (mem w) (kern w) = w) as Hw by (by destruct w).
  unfold r4_registry_batch_builder_append, append_status, name_ok. rewrite (mbind_run _ _ _ _ _ (refused_run w ops key name data op Hb Ha)).
  destruct ((capacity <=? _) || _) eqn:Hroom; cbn [orb].
  { exists (mem w). by rewrite Hw. }
  rewrite (mbind_run _ _ _ _ _ (cstr_len_run w name (bo_name op) Hn0 Hnc Hnl)), Z.ltb_antisym.
  destruct (Z.of_nat (length (bo_name op)) <=? 63); cbn [negb andb]; [|exists (mem w); by rewrite Hw].
  rewrite Nat2Z.id. pose proof Hnc as (Hnb & _).
  rewrite (mbind_run _ _ _ _ _ (name_check_run w name 0 (bo_name op) ltac:(by rewrite Z.add_0_r))).
  destruct (forallb _ _); cbn [negb]; [|exists (mem w); by rewrite Hw].
  run_get Hkm. rewrite Hkl. pose proof Hmid as [(σ & Hs & H1 & H2 & H3 & H4 & H5 & H6) _ _ _]. field_get Hs. field_get Hs.
  rewrite H5, H6. simpl length. rewrite Z.add_0_r. fold (payload op). rewrite (room_test ops op Hset (payload_nonneg op)).
  destruct ((blob_capacity <? total ops + payload op) || _) eqn:Hfit; [exists (mem w); by rewrite Hw|].
  apply orb_false_iff in Hroom as [Hcap%Z.leb_gt _], Hfit as [Hfit%Z.ltb_ge _].
  destruct (pushes_run w ops key name data op Hset Hmid Ha Hfit) as (m1 & Hr1 & Hk1 & Hm1).
  destruct (push_operation_run (World m1 (kern w)) ops op Hset Hm1 Hty Hcap Hfit) as (m2 & Hr2 & Hk2 & Hb2).
  exists m2. split; [|split; [by eapply kept_trans|done]].
  rewrite (mbind_triple_run _ _ _ _ _ _ _ _ _ Hr1). by rewrite (mbind_run _ _ _ _ _ Hr2).
Qed.
End batch.

(** ** An example *)

(** A builder at 256 with room for two operations at 512 and 64 bytes at 1024; a
    key at 2048, a name at 2560, data at 2624. *)
Definition batch_demo : world call_log := World (image [
  (256, struct_bytes R4RegistryBatchBuilder [512; 2; 0; 1024; 64; 0]); (512, replicate 64 xff); (1024, replicate 64 xff);
  (2048, splice 256 (le_bytes 2 6) (splice 0 (lit "SYSTEM") (replicate 258 x00))); (2560, cstr "Speed"); (2624, le_bytes 4 7)]) [].

Definition demo_op : batch_op := BatchOp 1 2 (lit "SYSTEM") (lit "Speed") (le_bytes 4 7).

Lemma batch_append_refines_witness :
  ∃ m', r4_registry_batch_builder_append 256 2048 2560 1 2 2624 4 batch_demo = Some (R4OS_REGISTRY_API_RESULT_OK, World m' []) ∧
    decode_entry m' 1024 512 = Some demo_op.
Proof.
  destruct (batch_append_refines 256 512 2 1024 64 batch_demo [] 2048 2560 2624 demo_op) as (m' & Hr & Hb).
  - split.
    + eexists. split; [apply struct_own, mapped_b_mapped; vm_compute; reflexivity|]. split_and!; vm_compute; reflexivity.
    + intros i op Hi. discriminate.
    + split; apply mapped_b_mapped; vm_compute; reflexivity.
    + unfold is_u32. lia.
    + lia.
    + simpl. lia.
  - split.
    + split_and!; [lia|apply mapped_b_mapped; vm_compute; reflexivity|vm_compute; reflexivity|vm_compute; reflexivity| |simpl; lia].
      repeat (apply Forall_cons; split; [simpl; lia|]). constructor.
    + split_and!; [lia|apply cstr_b_at; vm_compute; reflexivity| |simpl; lia].
      repeat (apply Forall_cons; split; [simpl; lia|]). constructor.
    + split_and!; [lia|vm_compute; reflexivity| |simpl; lia]. repeat (apply Forall_cons; split; [simpl; lia|]). constructor.
    + unfold is_u16. simpl. lia.
  - exists m'. assert (append_status 2 64 [] demo_op = R4OS_REGISTRY_API_RESULT_OK) as Es by (vm_compute; reflexivity).
    rewrite Es in Hr, Hb. split; [exact Hr|]. destruct Hb as [_ Hb]. apply (ba_entries _ _ _ _ _ _ _ Hb 0%nat). reflexivity.
Defined.

End R4Batch.
