(* ===== verification/R4RegistryValue.v ===== *)
(** * Registry values

    Setting a number or a truth value in the registry, reading it and decoding
    what was read, against a kernel that keeps one value: the class
    [RegistryKernel] has what the kernel's contract says about the two functions. *)

From S2P Require Import Prelude R4Abi R4Mem R4L R4LSpec.
From S2P Require Import R4Table R4Sys R4SysSpec R4SysInit R4Field.
From S2P Require Import R4App R4Files R4Env R4Registry.

Module R4RegistryValue.
Export R4Env R4Registry.

(** ** Encoding and decoding *)

Lemma lor_shiftl_add b x : 0 ≤ b < 256 → Z.lor b (Z.shiftl x 8) = b + 256 * x.
Proof.
  intros Hb. assert (Z.land b (Z.shiftl x 8) = 0) as Hl.
  { apply Z.bits_inj'. intros n Hn. rewrite Z.land_spec, Z.bits_0. destruct (decide (n < 8)).
    - by rewrite Z.shiftl_spec_low, andb_false_r.
    - rewrite (Z.bits_above_log2 b n); [done|lia|]. destruct (decide (b = 0)) as [->|]; [simpl; lia|]. apply Z.log2_lt_pow2; [lia|].
      apply Z.lt_le_trans with (2 ^ 8); [lia|]. apply Z.pow_le_mono_r; lia. }
  rewrite <-Z.lxor_lor, <-Z.add_nocarry_lxor, Z.shiftl_mul_pow2 by (done || lia). lia.
Qed.

Lemma decode_loop_run {K} (w : world K) bytes i acc l :
  bytes_at (mem w) (bytes + i) l → 0 ≤ i →
  decode_loop (length l) bytes i acc w = Some (Z.lor acc (Z.shiftl (le_val l) (i * 8)), w).
Proof.
  revert i acc. induction l as [|b l IH]; intros i acc Hl Hi; cbn [length decode_loop].
  { simpl le_val. by rewrite Z.shiftl_0_l, Z.lor_0_r. }
  apply (bytes_app _ _ [b] l) in Hl as [Hb Hl]. simpl length in Hl. apply bytes_lookup with (i := 0%nat) in Hb; [|simpl; lia].
  rewrite Z.add_0_r in Hb. rewrite (mbind_run _ _ _ _ _ (load1_run w _ b Hb)), IH by (rewrite ?Z.add_assoc; (done || lia)).
  cbn [le_val]. rewrite <-(lor_shiftl_add (b2z b)) by apply b2z_range. rewrite Z.shiftl_lor, Z.lor_assoc, Z.shiftl_shiftl by lia.
  do 4 f_equal. lia.
Qed.

Lemma encode_u32 v : [z2b v; z2b (Z.shiftr v 8); z2b (Z.shiftr v 16); z2b (Z.shiftr v 24)] = le_bytes 4 v.
Proof. cbn [le_bytes]. rewrite !Z.shiftr_div_pow2 by lia. change 256 with (2 ^ 8). by rewrite !Z.div_div by lia. Qed.

Lemma encode_u64 v : map (λ i, z2b (Z.shiftr v (Z.of_nat i * 8))) (seq 0 8) = le_bytes 8 v.
Proof.
  cbn [seq map le_bytes Z.of_nat]. rewrite !Z.shiftr_div_pow2 by lia. change 256 with (2 ^ 8). rewrite !Z.div_div by lia.
  simpl. by rewrite Z.div_1_r.
Qed.

(** ** The kernel's side *)

Record registry_functions := RegistryFunctions { f_get : Z; f_set : Z }.

(** The value with the name at [n] of the key at [k], with its type, if there is one. *)
Class RegistryKernel (K : Type) `{!Kernel K} (value : K → option (Z * list byte)) (fs : registry_functions)
    (k n : Z) (kb nb : list byte) : Prop := {
  set_law : ∀ w type src d, cstr_at (mem w) k kb → cstr_at (mem w) n nb → bytes_at (mem w) src d →
    let r := kcall (f_set fs) [k; n; type; src; Z.of_nat (length d)] w in
    mem (snd r) = mem w ∧ (0 ≤ i32 (fst r) → value (kern (snd r)) = Some (type, d));
  get_law : ∀ w info out cap type d, cstr_at (mem w) k kb → cstr_at (mem w) n nb →
    mapped (mem w) info 72 → mapped (mem w) out cap → info + 72 ≤ out ∨ out + cap ≤ info →
    value (kern w) = Some (type, d) → Z.of_nat (length d) ≤ cap → is_u16 type →
    Z.of_nat (length d) < 2 ^ 31 →
    let r := kcall (f_get fs) [k; n; info; out; cap] w in
    i32 (fst r) = Z.of_nat (length d) ∧
    (∃ m1, changed (mem w) m1 info 72 ∧ changed m1 (mem (snd r)) out cap) ∧
    fv (mem (snd r)) R4RegistryValueInfo info "value_type" = type ∧ bytes_at (mem (snd r)) out d
}.
(** ** Setting and reading *)

Section values.
Context {K : Type} `{!Kernel K} (value : K → option (Z * list byte)) (fs : registry_functions).
Context (k n : Z) (kb nb : list byte) `{!RegistryKernel K value fs k n kb nb}.
Variables (sys registry result out cap : Z).
Implicit Types (w : world K) (m : gmap Z byte).

Definition registry_slots : list (string * Z) := [("registry_get_value", f_get fs); ("registry_set_value", f_set fs)].
Definition registry_fixed : list (Z * list byte) := [(registry, facade_bytes sys); (k, kb ++ [x00]); (n, nb ++ [x00])].

(** The system, the registry facade, the key and the name are in place. *)
Record reg_env m : Prop := {
  rg_env : env sys registry_slots registry_fixed m;
  rg_pointers : registry ≠ 0 ∧ k ≠ 0 ∧ n ≠ 0 ∧ f_get fs ≠ 0 ∧ f_set fs ≠ 0 ∧ is_u64 sys;
  rg_strings : Forall (λ b, b ≠ x00) kb ∧ Forall (λ b, b ≠ x00) nb
}.
Definition reg_aside m (a c : Z) : Prop := aside sys registry_fixed m a c.

Lemma reg_changed m m' a c : changed m m' a c → reg_env m → reg_aside m a c →
  reg_env m' ∧ (∀ b j, reg_aside m b j → reg_aside m' b j).
Proof.
  intros Hch [He Hp Hs] Ha. destruct (env_changed sys registry_slots registry_fixed m m' a c eq_refl Hch He Ha) as [He' Ha'].
  split; [by split|done].
Qed.

Lemma reg_names m : reg_env m → cstr_at m k kb ∧ cstr_at m n nb.
Proof. intros [He _ [Hk Hn]]. split; apply cstr_bytes; try done; eapply (en_fixed _ _ _ _ He); set_solver. Qed.

Lemma set_run w type src d :
  reg_env (mem w) → bytes_at (mem w) src d →
  ∃ op w', r4_registry_set registry k n type src (Z.of_nat (length d)) w = Some (op, w') ∧ mem w' = mem w ∧
    (op_ok op = true → value (kern w') = Some (type, d)).
Proof.
  intros Hr Hd. pose proof Hr as [He (Hr0 & Hk0 & Hn0 & _ & Hf & Hu) _]. destruct (reg_names _ Hr) as [Hk Hn].
  unfold r4_registry_set. rewrite (proj2 (Z.eqb_neq _ _) Hk0), (proj2 (Z.eqb_neq _ _) Hn0). cbn [orb].
  rewrite (mbind_run _ _ _ _ _ (facade_slot_run sys registry_slots registry_fixed w registry "registry_set_value" (f_set fs)
    eq_refl He ltac:(set_solver) Hr0 Hu ltac:(set_solver))), (proj2 (Z.eqb_neq _ _) Hf).
  rewrite (mbind_run _ _ _ _ _ (call_i32_run w _ _ Hf)). destruct (set_law w type src d Hk Hn Hd) as [Hm Hv].
  eexists _, _. split_and!; [reflexivity|done|]. intros Ho%status_ok. by apply Hv.
Qed.

(** Encode into the local variable, then set. *)
Lemma set_local_run w local type l :
  reg_env (mem w) → reg_aside (mem w) local (Z.of_nat (length l)) → mapped (mem w) local (Z.of_nat (length l)) →
  ∃ op w', (_ ← store_bytes local l; r4_registry_set registry k n type local (Z.of_nat (length l))) w = Some (op, w') ∧
    changed (mem w) (mem w') local (Z.of_nat (length l)) ∧ (op_ok op = true → value (kern w') = Some (type, l)).
Proof.
  intros Hr Ha Hm. destruct (store_bytes_run w local l Hm) as (m1 & Hs & Hc & Hb). rewrite (mbind_run _ _ _ _ _ Hs).
  destruct (reg_changed _ _ _ _ Hc Hr Ha) as [Hr1 _]. destruct (set_run (World m1 (kern w)) type local l Hr1 Hb) as (op & w' & Hrun & Hm' & Hv).
  exists op, w'. split_and!; [done|by rewrite Hm'|done].
Qed.

(** A view of the value: its type, and its bytes in the buffer. *)
Record view_at m (type : Z) (d : list byte) : Prop := {
  vw_mapped : mapped m (result + 8) 88;
  vw_type : fv m R4RegistryValueInfo (result + 8) "value_type" = type;
  vw_bytes : fv m R4RegistryValueView (result + 8) "bytes" = out;
  vw_length : fv m R4RegistryValueView (result + 8) "length" = Z.of_nat (length d);
  vw_data : bytes_at m out d
}.

(** Room for the result and the buffer. *)
Record read_room m : Prop := {
  rd_result : mapped m result 96 ∧ reg_aside m result 96;
  rd_out : mapped m out cap ∧ reg_aside m out cap ∧ is_u64 out ∧ is_u32 cap;
  rd_apart : result + 96 ≤ out ∨ out + cap ≤ result
}.

(** The stores after a successful call. *)
Lemma get_finish w raw type d :
  mapped (mem w) result 96 → fv (mem w) R4RegistryValueInfo (result + 8) "value_type" = type → bytes_at (mem w) out d →
  result + 96 ≤ out ∨ out + Z.of_nat (length d) ≤ result → is_u64 out → Z.of_nat (length d) < 2 ^ 32 →
  ∃ m', (_ ← put R4RegistryRead "raw_code" result raw;
         _ ← put R4RegistryRead "state" result R4_REGISTRY_VALUE;
         _ ← put R4RegistryValueView "bytes" (result + 8) out;
         put R4RegistryValueView "length" (result + 8) (Z.of_nat (length d))) w = Some ((), World m' (kern w)) ∧
    (∀ x, is_Some (m' !! x) ↔ is_Some (mem w !! x)) ∧ fv m' R4RegistryRead result "state" = R4_REGISTRY_VALUE ∧ view_at m' type d.
Proof.
  intros Hm Ht Hb Hd Hu Hlen.
  destruct (put_run w R4RegistryRead "raw_code" result raw 96 4 4 Hm eq_refl eq_refl) as (m1 & Hr1 & Hc1 & _). rewrite (mbind_run _ _ _ _ _ Hr1).
  assert (mapped m1 result 96) as Hm1 by (by eapply changed_mapped).
  destruct (put_run (World m1 (kern w)) R4RegistryRead "state" result R4_REGISTRY_VALUE 96 0 4 Hm1 eq_refl eq_refl) as (m2 & Hr2 & Hc2 & Hst).
  rewrite (mbind_run _ _ _ _ _ Hr2). cbn [mem kern] in *. assert (mapped m2 (result + 8) 88) as Hm2.
  { eapply changed_mapped; [exact Hc2|]. eapply mapped_sub; [exact Hm1|lia|lia]. }
  destruct (put_run (World m2 (kern w)) R4RegistryValueView "bytes" (result + 8) out 88 72 8 Hm2 eq_refl eq_refl) as (m3 & Hr3 & Hc3 & Hvb).
  rewrite (mbind_run _ _ _ _ _ Hr3). cbn [mem kern] in *. assert (mapped m3 (result + 8) 88) as Hm3 by (by eapply changed_mapped).
  destruct (put_run (World m3 (kern w)) R4RegistryValueView "length" (result + 8) (Z.of_nat (length d)) 88 80 4 Hm3 eq_refl eq_refl)
    as (m4 & Hr4 & Hc4 & Hvl). cbn [mem kern] in *. exists m4. split_and!; [exact Hr4| | |].
  - intros x. by rewrite (ch_dom _ _ _ _ Hc4), (ch_dom _ _ _ _ Hc3), (ch_dom _ _ _ _ Hc2), (ch_dom _ _ _ _ Hc1).
  - rewrite (changed_fv _ _ _ _ R4RegistryRead result "state" 4 Hc4 eq_refl), (changed_fv _ _ _ _ R4RegistryRead result "state" 4 Hc3 eq_refl) by lia.
    by rewrite Hst.
  - split.
    + by eapply changed_mapped.
    + rewrite (changed_fv _ _ _ _ R4RegistryValueInfo (result + 8) "value_type" 2 Hc4 eq_refl), (changed_fv _ _ _ _ R4RegistryValueInfo (result + 8) "value_type" 2 Hc3 eq_refl),
        (changed_fv _ _ _ _ R4RegistryValueInfo (result + 8) "value_type" 2 Hc2 eq_refl), (changed_fv _ _ _ _ R4RegistryValueInfo (result + 8) "value_type" 2 Hc1 eq_refl) by lia. done.
    + rewrite (changed_fv _ _ _ _ R4RegistryValueView (result + 8) "bytes" 80 Hc4 eq_refl) by lia. rewrite Hvb. by apply Z.mod_small.
    + rewrite Hvl. by apply Z.mod_small; lia.
    + repeat (eapply bytes_changed; [eassumption|lia|]). done.
Qed.

Lemma value_get_run w type d :
  reg_env (mem w) → read_room (mem w) → value (kern w) = Some (type, d) → Z.of_nat (length d) ≤ cap → is_u16 type →
  Z.of_nat (length d) < 2 ^ 31 →
  ∃ w', r4_registry_get result registry k n out cap w = Some ((), w') ∧
    (∀ x, is_Some (mem w' !! x) ↔ is_Some (mem w !! x)) ∧
    fv (mem w') R4RegistryRead result "state" = R4_REGISTRY_VALUE ∧ view_at (mem w') type d.
Proof.
  intros Hr [[Hmr Har] (Hmo & Hao & Huo & Huc) Hd] Hv Hle Hty Hlen. unfold r4_registry_get.
  destruct (clear_struct w R4RegistryRead result eq_refl ltac:(vm_compute; discriminate) Hmr) as (m1 & Hr1 & Hc1 & Hs1).
  change (sizeof R4RegistryRead) with 96 in Hc1. rewrite (mbind_run _ _ _ _ _ Hr1).
  destruct (reg_changed _ _ _ _ Hc1 Hr Har) as [Hre1 Ha1]. pose proof Hre1 as [He (Hr0 & Hk0 & Hn0 & Hf & _ & Hu) _].
  destruct (reg_names _ Hre1) as [Hk Hn]. rewrite (proj2 (Z.eqb_neq _ _) Hk0), (proj2 (Z.eqb_neq _ _) Hn0). cbn [orb].
  rewrite (mbind_run _ _ _ _ _ (facade_slot_run sys registry_slots registry_fixed (World m1 (kern w)) registry "registry_get_value" (f_get fs)
    eq_refl He ltac:(set_solver) Hr0 Hu ltac:(set_solver))), (proj2 (Z.eqb_neq _ _) Hf).
  change (offsetof R4RegistryRead "value") with 8. change (offsetof R4RegistryValueView "info") with 0. rewrite Z.add_0_r.
  rewrite (mbind_run _ _ _ _ _ (call_i32_run (World m1 (kern w)) _ _ Hf)).
  assert (mapped m1 result 96 ∧ mapped m1 out cap) as [Hmr1 Hmo1] by (split; by eapply changed_mapped).
  destruct (get_law (World m1 (kern w)) (result + 8) out cap type d Hk Hn) as (Hraw & (m2 & Hc2 & Hc3) & Ht & Hb); try done.
  { eapply mapped_sub; [exact Hmr1|lia|lia]. }
  { lia. }
  set (r := kcall (f_get fs) _ _) in *. cbn [mem] in *. rewrite Hraw. unfold is_u32 in Huc.
  destruct (get_finish (snd r) (Z.of_nat (length d)) type d) as (m' & Hrun & Hdom & Hst & Hview); try done; try lia.
  { eapply changed_mapped; [exact Hc3|]. by eapply changed_mapped. }
  exists (World m' (kern (snd r))). cbn [mem]. split_and!; [|intros x; by rewrite Hdom, (ch_dom _ _ _ _ Hc3), (ch_dom _ _ _ _ Hc2), (ch_dom _ _ _ _ Hc1)|done|done].
  unfold R4OS_REGISTRY_API_RESULT_VALUE_NOT_FOUND, R4OS_REGISTRY_API_RESULT_KEY_NOT_FOUND.
  rewrite !(proj2 (Z.eqb_neq (Z.of_nat (length d)) _)), (proj2 (Z.ltb_ge (Z.of_nat (length d)) 0)) by lia. cbn [orb].
  rewrite u32_small by (unfold is_u32; lia). rewrite (proj2 (Z.ltb_ge cap (Z.of_nat (length d)))) by lia. exact Hrun.
Qed.
(** ** Decoding a view *)

Variables (local dst : Z).

Lemma view_refused_run w type d type' len :
  view_at (mem w) type d → 0 < result → dst ≠ 0 →
  view_refused (result + 8) dst type' len w = Some (negb (type =? type') || negb (Z.of_nat (length d) =? len), w).
Proof.
  intros [Hm Ht Hb Hl _] Hr Hd. unfold view_refused, view_type. rewrite !(proj2 (Z.eqb_neq _ 0)) by lia. cbn [orb].
  change (offsetof R4RegistryValueView "info") with 0. rewrite Z.add_0_r. run_get Hm. run_get Hm. by rewrite Ht, Hl.
Qed.

Lemma store_load_run w j v :
  mapped (mem w) dst (Z.of_nat j) → 0 ≤ v < 2 ^ (8 * Z.of_nat j) →
  ∃ w', store j dst v w = Some ((), w') ∧ load j dst w' = Some (v, w').
Proof.
  intros Hm Hv. destruct (store_bytes_run w dst (le_bytes j v)) as (m' & Hr & _ & Hb); [by rewrite length_le_bytes|].
  eexists. split; [exact Hr|]. unfold bytes_at in Hb. rewrite length_le_bytes in Hb. apply (load_run (World m' _) dst j v _ Hb).
  rewrite le_val_le_bytes. by apply Z.mod_small.
Qed.

Lemma value_number_run w type d j (decode : Z → Z → M K Z) :
  decode = (λ view out, refused ← view_refused view out type (Z.of_nat j);
    if refused : bool then mret 0 else
    bytes ← get R4RegistryValueView "bytes" view; v ← decode_loop j bytes 0 0; _ ← store j out v; mret 1) →
  view_at (mem w) type d → length d = j → 0 < result → dst ≠ 0 → mapped (mem w) dst (Z.of_nat j) →
  ∃ w', decode (result + 8) dst w = Some (1, w') ∧ load j dst w' = Some (le_val d, w').
Proof.
  intros -> Hv <- Hr Hd Hm. rewrite (mbind_run _ _ _ _ _ (view_refused_run w type d type _ Hv Hr Hd)), !Z.eqb_refl. cbn [negb orb].
  pose proof (vw_mapped _ _ _ Hv) as Hmv. run_get Hmv. rewrite (vw_bytes _ _ _ Hv).
  rewrite (mbind_run _ _ _ _ _ (decode_loop_run w out 0 0 d ltac:(rewrite Z.add_0_r; apply Hv) ltac:(lia))).
  rewrite Z.lor_0_l, Z.shiftl_0_r. destruct (store_load_run w (length d) (le_val d) Hm (le_val_range d)) as (w' & Hs & Hl).
  rewrite (mbind_run _ _ _ _ _ Hs). by exists w'.
Qed.

Lemma value_bool_run w b :
  view_at (mem w) R4OS_REGISTRY_VALUE_TYPE_BOOL [b] → b = x00 ∨ b = x01 → 0 < result → dst ≠ 0 → mapped (mem w) dst 4 →
  ∃ w', r4_registry_value_bool (result + 8) dst w = Some (1, w') ∧ load 4 dst w' = Some (b2z b, w').
Proof.
  intros Hv Hb Hr Hd Hm. unfold r4_registry_value_bool. rewrite (mbind_run _ _ _ _ _ (view_refused_run w _ _ _ _ Hv Hr Hd)), !Z.eqb_refl.
  cbn [negb orb length Z.of_nat Pos.of_succ_nat Z.eqb Pos.eqb]. pose proof (vw_mapped _ _ _ Hv) as Hmv. run_get Hmv. rewrite (vw_bytes _ _ _ Hv).
  pose proof (vw_data _ _ _ Hv) as Hdata. apply bytes_lookup with (i := 0%nat) in Hdata; [|simpl; lia]. rewrite Z.add_0_r in Hdata.
  rewrite (mbind_run _ _ _ _ _ (load1_run w out b Hdata)).
  destruct Hb as [->| ->]; cbn -[Z.pow mbind store load]; (edestruct (store_load_run w 4) as (w' & Hs & Hl); [exact Hm| |rewrite (mbind_run _ _ _ _ _ Hs); exists w'; split; [reflexivity|exact Hl]]); simpl; lia.
Qed.

(** ** The theorem *)

(** Set, get, decode: the value that arrives at [dst]. *)
Definition reads_back w (set : M K R4Operation) (decode : Z → Z → M K Z) (size : nat) (v : Z) : Prop :=
  ∃ op w1, set w = Some (op, w1) ∧ (op_ok op = true → ∃ w2 w3,
    r4_registry_get result registry k n out cap w1 = Some ((), w2) ∧ fv (mem w2) R4RegistryRead result "state" = R4_REGISTRY_VALUE ∧
    decode (result + 8) dst w2 = Some (1, w3) ∧ load size dst w3 = Some (v, w3)).

Record value_room m : Prop := {
  vr_read : read_room m;
  vr_local : mapped m local 8 ∧ reg_aside m local 8;
  vr_dst : dst ≠ 0 ∧ mapped m dst 8;
  vr_size : 0 < result ∧ 8 ≤ cap
}.

Lemma reads_back_run w type l (decode : Z → Z → M K Z) size v :
  reg_env (mem w) → value_room (mem w) → (length l ≤ 8)%nat → is_u16 type →
  (∀ w2, view_at (mem w2) type l → mapped (mem w2) dst 8 → ∃ w3, decode (result + 8) dst w2 = Some (1, w3) ∧ load size dst w3 = Some (v, w3)) →
  reads_back w (_ ← store_bytes local l; r4_registry_set registry k n type local (Z.of_nat (length l))) decode size v.
Proof.
  intros Hr [[[Hmr Har] (Hmo & Hao & Huo & Huc) Hap] [Hml Hal] [Hd0 Hmd] [Hr0 Hcap]] Hlen Hty Hdec.
  assert (reg_aside (mem w) local (Z.of_nat (length l))) as Hal' by (eapply aside_sub; [exact Hal|lia|lia]).
  destruct (set_local_run w local type l Hr Hal') as (op & w1 & Hrun & Hc & Hv).
  { eapply mapped_sub; [exact Hml|lia|lia]. }
  destruct (reg_changed _ _ _ _ Hc Hr Hal') as [Hr1 Ha1]. exists op, w1. split; [exact Hrun|]. intros Ho.
  destruct (value_get_run w1 type l Hr1) as (w2 & Hget & Hdom & Hst & Hview); [|by apply Hv|lia|done|lia|].
  { split; [split; [by eapply changed_mapped|by apply Ha1]|split_and!; [by eapply changed_mapped|by apply Ha1|done|done]|done]. }
  destruct (Hdec w2 Hview) as (w3 & Hd & Hl).
  { intros x Hx. apply Hdom. by apply (ch_dom _ _ _ _ Hc), Hmd. }
  exists w2, w3. by split_and!.
Qed.

(** C31. Numbers and truth values survive the registry: if setting one is reported
    to have worked, getting it finds a value and decoding gives the number that
    was set (a truth value as 0 or 1), for every 32-bit and 64-bit number. A
    value of another type is not decoded. *)
Theorem registry_values_round_trip w :
  reg_env (mem w) → value_room (mem w) →
  (∀ v, is_u32 v → reads_back w (r4_registry_set_u32 local registry k n v) r4_registry_value_u32 4 v) ∧
  (∀ v, is_u64 v → reads_back w (r4_registry_set_u64 local registry k n v) r4_registry_value_u64 8 v) ∧
  (∀ v, reads_back w (r4_registry_set_bool local registry k n v) r4_registry_value_bool 4 (if v =? 0 then 0 else 1)) ∧
  (∀ w2 type d, view_at (mem w2) type d →
     (type ≠ R4OS_REGISTRY_VALUE_TYPE_U32 → r4_registry_value_u32 (result + 8) dst w2 = Some (0, w2)) ∧
     (type ≠ R4OS_REGISTRY_VALUE_TYPE_U64 → r4_registry_value_u64 (result + 8) dst w2 = Some (0, w2)) ∧
     (type ≠ R4OS_REGISTRY_VALUE_TYPE_BOOL → r4_registry_value_bool (result + 8) dst w2 = Some (0, w2))).
Proof.
  intros Hr Hroom. pose proof Hroom as [_ _ [Hd0 _] [Hr0 _]]. split_and!.
  - intros v Hv. unfold r4_registry_set_u32. rewrite encode_u32.
    apply (reads_back_run w R4OS_REGISTRY_VALUE_TYPE_U32 (le_bytes 4 v)); [done|done|simpl; lia|done|]. intros w2 Hview Hm.
    destruct (value_number_run w2 _ _ 4 _ eq_refl Hview eq_refl Hr0 Hd0) as (w3 & H3 & Hl); [eapply mapped_sub; [exact Hm|lia|lia]|].
    rewrite le_val_le_bytes, Z.mod_small in Hl by exact Hv. by exists w3.
  - intros v Hv. unfold r4_registry_set_u64. rewrite encode_u64.
    apply (reads_back_run w R4OS_REGISTRY_VALUE_TYPE_U64 (le_bytes 8 v)); [done|done|simpl; lia|done|]. intros w2 Hview Hm.
    destruct (value_number_run w2 _ _ 8 _ eq_refl Hview eq_refl Hr0 Hd0) as (w3 & H3 & Hl); [exact Hm|].
    rewrite le_val_le_bytes, Z.mod_small in Hl by exact Hv. by exists w3.
  - intros v. unfold r4_registry_set_bool, store. set (l := le_bytes 1 _).
    apply (reads_back_run w R4OS_REGISTRY_VALUE_TYPE_BOOL l); [done|done|simpl; lia|done|]. intros w2 Hview Hm.
    destruct (value_bool_run w2 (if v =? 0 then x00 else x01)) as (w3 & H3 & Hl); [|by destruct (v =? 0); [left|right]|done|done| |].
    + unfold l in Hview. by destruct (v =? 0).
    + eapply mapped_sub; [exact Hm|lia|lia].
    + exists w3. split; [exact H3|]. rewrite Hl. by destruct (v =? 0).
  - intros w2 type d Hv. unfold r4_registry_value_u32, r4_registry_value_u64, r4_registry_value_bool.
    split_and!; intros Hne; rewrite (mbind_run _ _ _ _ _ (view_refused_run w2 type d _ _ Hv Hr0 Hd0)), (proj2 (Z.eqb_neq _ _) Hne); done.
Qed.
End values.
(** ** A kernel with one value *)

#[global] Instance one_value_kernel : Kernel (option (Z * list byte)) := λ f args w,
  match args with
  | [_; _; a; b; c] =>
      if f =? 7078 then
        match read_bytes (mem w) b (Z.to_nat c) with Some d => (0, World (mem w) (Some (a, d))) | None => (-1, w) end
      else if f =? 7077 then
        match kern w with
        | Some (t, d) =>
            if Z.of_nat (length d) <=? c
            then (Z.of_nat (length d), World (place_bytes b d (place_bytes a (le_bytes 2 t) (mem w))) (kern w))
            else (R4OS_REGISTRY_API_RESULT_BUFFER_TOO_SMALL, w)
        | None => (R4OS_REGISTRY_API_RESULT_VALUE_NOT_FOUND, w)
        end
      else (-1, w)
  | _ => (-1, w)
  end.

Definition demo_registry : registry_functions := RegistryFunctions 7077 7078.

#[global] Instance one_value_laws k n kb nb : RegistryKernel (option (Z * list byte)) (λ v, v) demo_registry k n kb nb.
Proof.
  split.
  - intros w type src d _ _ Hd. unfold kcall, one_value_kernel. cbn [demo_registry f_set Z.eqb Pos.eqb]. by rewrite Nat2Z.id, Hd.
  - intros w info out cap type d _ _ Hmi Hmo Hap Hv Hle Hty Hlen. unfold kcall, one_value_kernel. cbn [demo_registry f_get Z.eqb Pos.eqb].
    rewrite Hv, (proj2 (Z.leb_le _ _) Hle). cbn [fst snd mem kern]. set (m1 := place_bytes info (le_bytes 2 type) (mem w)).
    assert (changed (mem w) m1 info 2) as Hc1.
    { apply (place_bytes_changed info (le_bytes 2 type)). eapply mapped_sub; [exact Hmi|lia|simpl length; lia]. }
    assert (changed m1 (place_bytes out d m1) out (Z.of_nat (length d))) as Hc2.
    { apply place_bytes_changed. eapply changed_mapped; [exact Hc1|]. eapply mapped_sub; [exact Hmo|lia|lia]. }
    split_and!.
    + apply i32_small. unfold is_i32. lia.
    + exists m1. split; (eapply changed_sub; [eassumption|lia|lia]).
    + rewrite (changed_fv _ _ _ _ R4RegistryValueInfo info "value_type" 2 Hc2 eq_refl) by lia. unfold fv.
      change (field_at R4RegistryValueInfo "value_type") with (Some (0, 2%nat)). cbv iota. rewrite Z.add_0_r.
      unfold m1. rewrite (place_bytes_in info (le_bytes 2 type)), le_val_le_bytes. by apply Z.mod_small.
    + apply place_bytes_in.
Qed.

(** A facade at 128 on an [R4Sys] at 256 with a table at 4096; a key at 1024, a
    name at 1280; the local variable at 512, the result at 576, the buffer at 704
    and the variable for the value at 768. *)
Definition value_demo : world (option (Z * list byte)) := World (image [
  (128, struct_bytes Facade_t [256]); (256, struct_bytes R4Sys_t [0; 4096]); (512, replicate 8 xff); (576, replicate 96 xff);
  (704, replicate 16 xff); (768, replicate 8 xff); (1024, cstr "SYSTEM"); (1280, cstr "Speed"); (4096, demo_table R4XStartR4Sys 1264)]) None.

Definition value_demo_aside (a c : Z) : Prop := reg_aside 1024 1280 (lit "SYSTEM") (lit "Speed") 256 128 (mem value_demo) a c.

Lemma value_demo_aside_check a c : 264 ≤ a → 0 ≤ c → a + c ≤ 1024 → 272 ≤ a → value_demo_aside a c.
Proof.
  intros H1 Hc H2 H3. assert (table_ptr (mem value_demo) 256 = 4096) as Ep by (vm_compute; reflexivity).
  split; [split; rewrite ?Ep; intros _; [right|left]; lia|].
  unfold registry_fixed. intros b l. rewrite !elem_of_cons, elem_of_nil. intros [[= -> ->]|[[= -> ->]|[[= -> ->]|[]]]]; simpl length; lia.
Qed.

Lemma value_demo_env :
  reg_env demo_registry 1024 1280 (lit "SYSTEM") (lit "Speed") 256 128 (mem value_demo) ∧
  value_room 1024 1280 (lit "SYSTEM") (lit "Speed") 256 128 576 704 16 512 768 (mem value_demo).
Proof.
  assert (table_ptr (mem value_demo) 256 = 4096) as Ep by (vm_compute; reflexivity). split.
  - split.
    + split.
      * apply (sys_ok_check _ _ 256 1264); vm_compute; (reflexivity || discriminate).
      * rewrite Ep. lia.
      * rewrite Ep. unfold registry_slots. intros n f. rewrite !elem_of_cons, elem_of_nil.
        intros [[= -> ->]|[[= -> ->]|[]]]; vm_compute; reflexivity.
      * unfold registry_fixed. intros b l. rewrite !elem_of_cons, elem_of_nil.
        intros [[= -> ->]|[[= -> ->]|[[= -> ->]|[]]]]; vm_compute; reflexivity.
    + unfold is_u64. simpl. lia.
    + split; repeat constructor; discriminate.
  - split.
    + split; [split; [apply mapped_b_mapped; vm_compute; reflexivity|apply value_demo_aside_check; lia]| |lia].
      split_and!; [apply mapped_b_mapped; vm_compute; reflexivity|apply value_demo_aside_check; lia|unfold is_u64; lia|unfold is_u32; lia].
    + split; [apply mapped_b_mapped; vm_compute; reflexivity|apply value_demo_aside_check; lia].
    + split; [lia|apply mapped_b_mapped; vm_compute; reflexivity].
    + lia.
Qed.

Lemma registry_values_round_trip_witness :
  reads_back 1024 1280 128 576 704 16 768 value_demo (r4_registry_set_u32 512 128 1024 1280 0xdeadbeef) r4_registry_value_u32 4 0xdeadbeef.
Proof.
  destruct value_demo_env as [He Hr].
  destruct (registry_values_round_trip (λ v, v) demo_registry 1024 1280 (lit "SYSTEM") (lit "Speed") 256 128 576 704 16 512 768 value_demo He Hr)
    as [H _]. exact (H 0xdeadbeef ltac:(unfold is_u32; lia)).
Defined.

End R4RegistryValue.
