(* ===== verification/R4Services.v ===== *)
(** * app_services.h

    Connections to services and endpoints of services. Both are structures that
    hold the application, the handle of the kernel and what the kernel told about
    the service when the handle was made. A local variable whose address goes to
    the kernel ([info], [state], [header]) is at the given address. A message
    header that is part of a result is given by its bytes. *)

From S2P Require Import Prelude R4Abi R4Mem R4L R4LSpec.
From S2P Require Import R4Table R4Sys R4SysSpec R4SysInit R4Field R4Time.
From S2P Require Import R4App.

Module R4Services.
Export R4Field R4App R4Time.

Definition R4OS_ERR_CLOSED : Z := -9003.
Definition R4OS_ERR_NOT_OWNED : Z := -9004.
Definition R4OS_SERVICE_API_MAGIC : Z := 1129730898.
Definition R4OS_SERVICE_API_MAX_PAYLOAD : Z := 4096.
Definition R4OS_SERVICE_API_RESULT_OK : Z := 0.
Definition R4OS_SERVICE_API_RESULT_INVALID : Z := -1.
Definition R4OS_SERVICE_API_RESULT_NOT_RUNNING : Z := -3.
Definition R4OS_SERVICE_API_RESULT_NO_ENDPOINT : Z := -4.
Definition R4OS_SERVICE_API_RESULT_PAYLOAD_TOO_LARGE : Z := -5.
Definition R4OS_SERVICE_API_RESULT_BUFFER_TOO_SMALL : Z := -6.
Definition R4OS_SERVICE_API_RESULT_TIMEOUT : Z := -8.
Definition R4OS_SERVICE_API_RESULT_BAD_HANDLE : Z := -9.

(** ** Data *)

Definition R4Services_t : ctype := Struct [("app", U64)].

Definition R4ServiceConnection : ctype := Struct [
  ("app", U64); ("raw", U32); ("owned", U8); ("reserved", Array U8 3); ("info", R4ServiceInfo)].
Definition R4ServiceEndpoint : ctype := Struct [
  ("app", U64); ("raw", U32); ("owned", U8); ("reserved", Array U8 3); ("info", R4ServiceInfo)].

Inductive R4ServiceCallKind :=
  | R4_SERVICE_CALL_RESPONSE | R4_SERVICE_CALL_TIMED_OUT | R4_SERVICE_CALL_REMOTE_FAILURE | R4_SERVICE_CALL_FAILED.
Record R4ServiceCallResult := CallResult {
  call_kind : R4ServiceCallKind; call_raw_code : Z; call_bytes : Z; call_header : list byte }.

Inductive R4EndpointWaitKind := R4_ENDPOINT_WAIT_READY | R4_ENDPOINT_WAIT_TIMED_OUT | R4_ENDPOINT_WAIT_FAILED.
Record R4EndpointWaitResult := WaitResult { wait_kind : R4EndpointWaitKind; wait_raw_code : Z; wait_pending : Z }.

Inductive R4EndpointReceiveKind :=
  | R4_ENDPOINT_RECEIVE_MESSAGE | R4_ENDPOINT_RECEIVE_WOULD_BLOCK | R4_ENDPOINT_RECEIVE_FAILED.
Record R4EndpointReceiveResult := ReceiveResult {
  recv_kind : R4EndpointReceiveKind; recv_raw_code : Z; recv_bytes : Z; recv_header : list byte }.

#[global] Instance service_call_kind_eq_dec : EqDecision R4ServiceCallKind.
Proof. solve_decision. Defined.
#[global] Instance endpoint_wait_kind_eq_dec : EqDecision R4EndpointWaitKind.
Proof. solve_decision. Defined.
#[global] Instance endpoint_receive_kind_eq_dec : EqDecision R4EndpointReceiveKind.
Proof. solve_decision. Defined.

(** The local variables of a function that calls a service: the facade [services], the
    connection, and those of the functions below. *)
Record service_frame := ServiceFrame { fr_services : Z; fr_connection : Z; fr_info : Z; fr_state : Z; fr_header : Z }.

(** [{0}]. *)
Definition no_header : list byte := replicate 28 x00.

(** The answers after which a handle is not used again. *)
Definition handle_lost (raw : Z) : bool :=
  (raw =? R4OS_SERVICE_API_RESULT_BAD_HANDLE) || (raw =? R4OS_SERVICE_API_RESULT_NOT_RUNNING).
(** The answers to closing that end a handle. *)
Definition handle_ended (raw : Z) : bool :=
  (raw =? R4OS_SERVICE_API_RESULT_OK) || (raw =? R4OS_SERVICE_API_RESULT_BAD_HANDLE).

Section code.
Context {K : Type} `{!Kernel K}.

(** The value of the structure at [p]. *)
Definition load_struct (T : ctype) (p : Z) : M K (list byte) := λ w,
  match read_bytes (mem w) p (Z.to_nat (sizeof T)) with Some l => Some (l, w) | None => None end.

(** ** Finding the functions *)

(** The facade by its one field. *)
Definition r4_app_services (app : Z) : Z := app.

Definition services_app (services : Z) : M K Z := if services =? 0 then mret 0 else get R4Services_t "app" services.

(** [app != 0 ? app->system.table : 0]. *)
Definition app_table (app : Z) : M K Z := if app =? 0 then mret 0 else get R4App_t "system.table" app.

(** [table == 0 || table->name == 0] is that this is 0. *)
Definition table_slot (table : Z) (name : string) : M K Z := if table =? 0 then mret 0 else get R4XStartR4Sys name table.

Definition r4_services_available (services : Z) : M K bool :=
  app ← services_app services;
  table ← app_table app;
  if table =? 0 then mret false else
  slots_set R4XStartR4Sys ["service_open"; "service_close"; "service_call"; "service_endpoint_register";
    "service_endpoint_unregister"; "service_endpoint_wait"; "service_endpoint_recv"; "service_endpoint_reply"] table.

Definition r4_services_monotonic_hz (app state : Z) : M K Z :=
  table ← app_table app;
  f ← table_slot table "time_state";
  if f =? 0 then mret 0 else
  _ ← clear R4TimeState state;
  _ ← call_void f [state];
  get R4TimeState "monotonic_hz" state.

(** ** Handles *)

Definition service_handle_valid (T : ctype) (h : Z) : M K bool :=
  if h =? 0 then mret false else
  app ← get T "app" h;
  if app =? 0 then mret false else
  raw ← get T "raw" h; mret (negb (raw =? 0)).
Definition r4_service_connection_valid : Z → M K bool := service_handle_valid R4ServiceConnection.
Definition r4_service_endpoint_valid : Z → M K bool := service_handle_valid R4ServiceEndpoint.

(** Opening and registering: [args] are the arguments of the function [slot] before [&info]. *)
Definition service_handle_open (T : ctype) (slot : string) (services name : Z) (args : list Z) (out info : Z) : M K Z :=
  _ ← (if out =? 0 then mret () else clear T out);
  app ← services_app services;
  table ← app_table app;
  f ← table_slot table slot;
  if (f =? 0) || (name =? 0) || (out =? 0) then mret R4OS_ERR_NO_FN else
  _ ← clear R4ServiceInfo info;
  raw ← call_i32 f (args ++ [info]);
  if negb (raw =? R4OS_SERVICE_API_RESULT_OK) then mret raw else
  handle ← get R4ServiceInfo "handle" info;
  if handle =? 0 then mret R4OS_SERVICE_API_RESULT_NO_ENDPOINT else
  app ← services_app services;
  _ ← put T "app" out app;
  _ ← put T "raw" out handle;
  _ ← put T "owned" out 1;
  _ ← memcpy (out + offsetof T "info") info (sizeof R4ServiceInfo);
  mret R4OS_SERVICE_API_RESULT_OK.

Definition r4_services_open (services name out info : Z) : M K Z :=
  service_handle_open R4ServiceConnection "service_open" services name [name] out info.
Definition r4_services_register (services name flags out info : Z) : M K Z :=
  service_handle_open R4ServiceEndpoint "service_endpoint_register" services name [name; flags] out info.

(** Closing and unregistering. *)
Definition service_handle_close (T : ctype) (slot : string) (h : Z) : M K Z :=
  valid ← service_handle_valid T h;
  if negb valid then mret R4OS_ERR_CLOSED else
  owned ← get T "owned" h;
  if owned =? 0 then mret R4OS_ERR_NOT_OWNED else
  app ← get T "app" h;
  table ← app_table app;
  f ← table_slot table slot;
  if f =? 0 then mret R4OS_ERR_NO_FN else
  id ← get T "raw" h;
  raw ← call_i32 f [id];
  if handle_ended raw then
    _ ← clear T h;
    mret (if raw =? R4OS_SERVICE_API_RESULT_OK then raw else R4OS_ERR_CLOSED)
  else mret raw.

Definition r4_service_connection_close : Z → M K Z := service_handle_close R4ServiceConnection "service_close".
Definition r4_service_endpoint_unregister : Z → M K Z := service_handle_close R4ServiceEndpoint "service_endpoint_unregister".

(** [if (raw == BAD_HANDLE || raw == NOT_RUNNING) h->raw = 0]. *)
Definition drop_lost (T : ctype) (h raw : Z) : M K () := if handle_lost raw then put T "raw" h 0 else mret ().

(** ** Calls *)

(** A length that is too large, or a buffer that is missing. *)
Definition bad_payload (p len : Z) : bool := (R4OS_SERVICE_API_MAX_PAYLOAD <? len) || (negb (len =? 0) && (p =? 0)).

Definition call_failed (code : Z) : R4ServiceCallResult := CallResult R4_SERVICE_CALL_FAILED code 0 no_header.

Definition r4_service_connection_call
    (connection op request request_len response response_capacity : Z) (timeout : R4Timeout) (state header : Z)
    : M K R4ServiceCallResult :=
  valid ← r4_service_connection_valid connection;
  if negb valid then mret (call_failed R4OS_ERR_CLOSED) else
  if bad_payload request request_len || bad_payload response response_capacity
  then mret (call_failed R4OS_SERVICE_API_RESULT_INVALID) else
  app ← get R4ServiceConnection "app" connection;
  table ← app_table app;
  f ← table_slot table "service_call";
  if f =? 0 then mret (call_failed R4OS_ERR_NO_FN) else
  hz ← r4_services_monotonic_hz app state;
  let '(converted, ticks) := r4_timeout_to_ticks timeout hz in
  if negb (converted =? R4OS_OK) then mret (call_failed R4OS_SERVICE_API_RESULT_INVALID) else
  _ ← clear R4ServiceMessageHeader header;
  f ← get R4XStartR4Sys "service_call" table;
  id ← get R4ServiceConnection "raw" connection;
  raw ← call_i32 f [id; op; request; request_len; header; response; response_capacity; default 0 ticks];
  value ← load_struct R4ServiceMessageHeader header;
  status ← get R4ServiceMessageHeader "status" header;
  let status := i32 status in
  if (raw =? R4OS_SERVICE_API_RESULT_TIMEOUT) || (status =? R4OS_SERVICE_API_RESULT_TIMEOUT)
  then mret (CallResult R4_SERVICE_CALL_TIMED_OUT raw 0 value) else
  _ ← drop_lost R4ServiceConnection connection raw;
  if raw <? 0 then mret (CallResult R4_SERVICE_CALL_FAILED raw 0 value) else
  if negb (status =? R4OS_SERVICE_API_RESULT_OK)
  then mret (CallResult R4_SERVICE_CALL_REMOTE_FAILURE status 0 value) else
  mret (CallResult R4_SERVICE_CALL_RESPONSE R4OS_SERVICE_API_RESULT_OK (Prelude.u32 raw) value).

Definition r4_service_connection_call_struct
    (connection op request request_size response response_size : Z) (timeout : R4Timeout) (state header : Z)
    : M K R4ServiceCallResult :=
  result ← r4_service_connection_call connection op request request_size response response_size timeout state header;
  if bool_decide (call_kind result = R4_SERVICE_CALL_RESPONSE) && negb (call_bytes result =? response_size)
  then mret (CallResult R4_SERVICE_CALL_FAILED R4OS_SERVICE_API_RESULT_BUFFER_TOO_SMALL (call_bytes result) (call_header result))
  else mret result.

(** ** Endpoints *)

Definition r4_service_endpoint_wait (endpoint : Z) (timeout : R4Timeout) (state : Z) : M K R4EndpointWaitResult :=
  valid ← r4_service_endpoint_valid endpoint;
  if negb valid then mret (WaitResult R4_ENDPOINT_WAIT_FAILED R4OS_ERR_CLOSED 0) else
  app ← get R4ServiceEndpoint "app" endpoint;
  table ← app_table app;
  f ← table_slot table "service_endpoint_wait";
  if f =? 0 then mret (WaitResult R4_ENDPOINT_WAIT_FAILED R4OS_ERR_NO_FN 0) else
  hz ← r4_services_monotonic_hz app state;
  let '(converted, ticks) := r4_timeout_to_ticks timeout hz in
  if negb (converted =? R4OS_OK) then mret (WaitResult R4_ENDPOINT_WAIT_FAILED R4OS_SERVICE_API_RESULT_INVALID 0) else
  f ← get R4XStartR4Sys "service_endpoint_wait" table;
  id ← get R4ServiceEndpoint "raw" endpoint;
  raw ← call_i32 f [id; default 0 ticks];
  if raw =? 0 then mret (WaitResult R4_ENDPOINT_WAIT_TIMED_OUT raw 0) else
  _ ← drop_lost R4ServiceEndpoint endpoint raw;
  if raw <? 0 then mret (WaitResult R4_ENDPOINT_WAIT_FAILED raw 0) else
  mret (WaitResult R4_ENDPOINT_WAIT_READY R4OS_SERVICE_API_RESULT_OK (Prelude.u32 raw)).

Definition recv_failed (code : Z) : R4EndpointReceiveResult := ReceiveResult R4_ENDPOINT_RECEIVE_FAILED code 0 no_header.

Definition r4_service_endpoint_recv (endpoint out capacity header : Z) : M K R4EndpointReceiveResult :=
  valid ← r4_service_endpoint_valid endpoint;
  if negb valid then mret (recv_failed R4OS_ERR_CLOSED) else
  if bad_payload out capacity then mret (recv_failed R4OS_SERVICE_API_RESULT_INVALID) else
  app ← get R4ServiceEndpoint "app" endpoint;
  table ← app_table app;
  f ← table_slot table "service_endpoint_recv";
  if f =? 0 then mret (recv_failed R4OS_ERR_NO_FN) else
  _ ← clear R4ServiceMessageHeader header;
  id ← get R4ServiceEndpoint "raw" endpoint;
  raw ← call_i32 f [id; header; out; capacity];
  value ← load_struct R4ServiceMessageHeader header;
  magic ← get R4ServiceMessageHeader "magic" header;
  if (raw =? 0) && negb (magic =? R4OS_SERVICE_API_MAGIC)
  then mret (ReceiveResult R4_ENDPOINT_RECEIVE_WOULD_BLOCK raw 0 value) else
  _ ← drop_lost R4ServiceEndpoint endpoint raw;
  if raw <? 0 then mret (ReceiveResult R4_ENDPOINT_RECEIVE_FAILED raw 0 value) else
  mret (ReceiveResult R4_ENDPOINT_RECEIVE_MESSAGE R4OS_SERVICE_API_RESULT_OK (Prelude.u32 raw) value).

Definition r4_service_endpoint_reply (endpoint request_id status payload payload_len : Z) : M K Z :=
  valid ← r4_service_endpoint_valid endpoint;
  if negb valid then mret R4OS_ERR_CLOSED else
  if bad_payload payload payload_len then mret R4OS_SERVICE_API_RESULT_PAYLOAD_TOO_LARGE else
  app ← get R4ServiceEndpoint "app" endpoint;
  table ← app_table app;
  f ← table_slot table "service_endpoint_reply";
  if f =? 0 then mret R4OS_ERR_NO_FN else
  id ← get R4ServiceEndpoint "raw" endpoint;
  raw ← call_i32 f [id; request_id; status; payload; payload_len];
  _ ← drop_lost R4ServiceEndpoint endpoint raw;
  mret raw.

(** ** For facades on top of services *)

(** [services = r4_app_services(app); r4_services_open(&services, name, &connection)]. *)
Definition frame_open (fr : service_frame) (app name : Z) : M K Z :=
  _ ← put R4Services_t "app" (fr_services fr) (r4_app_services app);
  r4_services_open (fr_services fr) name (fr_connection fr) (fr_info fr).

(** [for (i = 0; i < n; ++i) dst[i] = src[i]]. *)
Fixpoint copy_loop (n : nat) (dst src : Z) : M K () :=
  match n with
  | O => mret ()
  | S n => b ← load 1 src; _ ← store 1 dst b; copy_loop n (dst + 1) (src + 1)
  end.
End code.

End R4Services.
