(* ===== verification/R4ServiceArea.v ===== *)
(** * The memory of a program that uses services

    An application with one connection and one endpoint: where they are, and what
    the code of app_services.h reads there. The class [ServiceKernel] says which
    memory the kernel's functions write. The local variables of the code are in
    the 280 bytes at [stack]: a service information at 0, a time at 216 and a
    message header at 248. *)

From S2P Require Import Prelude R4Abi R4Mem R4L R4LSpec.
From S2P Require Import R4Table R4Sys R4SysSpec R4SysInit R4Field R4Time.
From S2P Require Import R4App R4Files R4Env R4Services.

Module R4ServiceArea.
Export R4Env R4Services.

(** ** The kernel's side *)

(** A connection is the handle of a client, an endpoint that of a server. *)
Inductive side := Client | Server.
#[global] Instance side_eq_dec : EqDecision side.
Proof. solve_decision. Defined.

Record service_functions := ServiceFunctions {
  f_open : Z; f_close : Z; f_call : Z; f_register : Z; f_unregister : Z; f_wait : Z; f_recv : Z; f_reply : Z; f_time : Z }.

Definition service_slots (fs : service_functions) : list (string * Z) := [
  ("service_open", f_open fs); ("service_close", f_close fs); ("service_call", f_call fs);
  ("service_endpoint_register", f_register fs); ("service_endpoint_unregister", f_unregister fs);
  ("service_endpoint_wait", f_wait fs); ("service_endpoint_recv", f_recv fs);
  ("service_endpoint_reply", f_reply fs); ("time_state", f_time fs)].

(** Membership in a list that is written out. *)
Ltac in_list := apply list_elem_of_In; unfold service_slots; cbn [In]; tauto.

Definition header_status (m : gmap Z byte) (header : Z) : Z := i32 (fv m R4ServiceMessageHeader header "status").

(** What the answers say about a handle, by the numbers of the contract
    (ApiContract.json, domain service_api): a handle is gone when the kernel
    does not know it, bad_handle (-9), or the service behind it has ended,
    not_running (-3); closing invalidates it on success, ok (0), and has nothing
    to invalidate when the kernel does not know it, bad_handle (-9). *)
Definition gone_answers : list Z := [-9; -3].
Definition closed_answers : list Z := [0; -9].

Lemma handle_lost_gone raw : handle_lost raw = bool_decide (raw ∈ gone_answers).
Proof.
  unfold handle_lost, R4OS_SERVICE_API_RESULT_BAD_HANDLE, R4OS_SERVICE_API_RESULT_NOT_RUNNING, gone_answers.
  apply eq_true_iff_eq. rewrite bool_decide_eq_true, !elem_of_cons, elem_of_nil, orb_true_iff, !Z.eqb_eq. tauto.
Qed.

Lemma handle_ended_closed raw : handle_ended raw = bool_decide (raw ∈ closed_answers).
Proof.
  unfold handle_ended, R4OS_SERVICE_API_RESULT_OK, R4OS_SERVICE_API_RESULT_BAD_HANDLE, closed_answers.
  apply eq_true_iff_eq. rewrite bool_decide_eq_true, !elem_of_cons, elem_of_nil, orb_true_iff, !Z.eqb_eq. tauto.
Qed.

Class ServiceKernel (K : Type) `{!Kernel K} (fs : service_functions) : Prop := {
  open_law : ∀ w name info, changed (mem w) (mem (snd (kcall (f_open fs) [name; info] w))) info 216;
  register_law : ∀ w name flags info, changed (mem w) (mem (snd (kcall (f_register fs) [name; flags; info] w))) info 216;
  (** The header and the response are written, on success only (the contract's
      "outputs": "success_only"). *)
  call_law : ∀ w id op req len header resp cap ticks,
    let r := kcall (f_call fs) [id; op; req; len; header; resp; cap; ticks] w in
    (∃ m1, changed (mem w) m1 header 28 ∧ changed m1 (mem (snd r)) resp cap) ∧
    (i32 (fst r) < 0 → mem (snd r) = mem w);
  recv_law : ∀ w id header out cap, let r := kcall (f_recv fs) [id; header; out; cap] w in
    ∃ m1, changed (mem w) m1 header 28 ∧ changed m1 (mem (snd r)) out cap;
  time_law : ∀ w state, changed (mem w) (mem (snd (kcall (f_time fs) [state] w))) state 32;
  quiet_law : ∀ w f args, f ∈ [f_close fs; f_unregister fs; f_wait fs; f_reply fs] → mem (snd (kcall f args w)) = mem w
}.

Section area.
Context {K : Type} `{!Kernel K} (fs : service_functions).
Variables (app services : Z) (var : side → Z) (stack : Z).
Implicit Types (w : world K) (m : gmap Z byte) (σ : side → string → Z).

Abbreviation H := R4ServiceConnection.
Abbreviation ENV := (env (app + 8) (service_slots fs) [(services, le_bytes 8 app)]).
Abbreviation ASIDE := (aside (app + 8) [(services, le_bytes 8 app)]).

(** The application, its two variables with their fields, and the stack. *)
Record service_area m σ : Prop := {
  ar_app : app ≠ 0 ∧ is_u64 app ∧ services ≠ 0;
  ar_env : ENV m;
  ar_var : ∀ s, struct_at m H (var s) (σ s);
  ar_aside : ∀ s, var s ≠ 0 ∧ ASIDE m (var s) 232;
  ar_stack : mapped m stack 280 ∧ ASIDE m stack 280 ∧ ∀ s, stack + 280 ≤ var s ∨ var s + 232 ≤ stack;
  ar_apart : var Client + 232 ≤ var Server ∨ var Server + 232 ≤ var Client
}.

(** Memory that is none of this, but possibly the stack. *)
Definition service_free m (a n : Z) : Prop := ASIDE m a n ∧ ∀ s, a + n ≤ var s ∨ var s + 232 ≤ a.

(** The table is where it was, and what was free is free. *)
Definition service_keeps m m' : Prop :=
  table_ptr m' (app + 8) = table_ptr m (app + 8) ∧ ∀ b k, service_free m b k → service_free m' b k.

Lemma keeps_refl m : service_keeps m m.
Proof. by split. Qed.

Lemma keeps_trans m1 m2 m3 : service_keeps m1 m2 → service_keeps m2 m3 → service_keeps m1 m3.
Proof. intros [E1 H1] [E2 H2]. split; [by rewrite E2|]. intros b k ?. by apply H2, H1. Qed.

Lemma keeps_changed m m' a n : changed m m' a n → ENV m → ASIDE m a n → (∀ b k, ASIDE m b k → ASIDE m' b k) → service_keeps m m'.
Proof.
  intros Hch He [Ha _] Hk. destruct (changed_sys _ _ _ _ _ _ Hch (en_sys _ _ _ _ He) Ha) as (_ & Ep & _).
  split; [done|]. intros b k [H1 H2]. split; [by apply Hk|done].
Qed.

Definition set_var σ (s : side) (τ : string → Z) : side → string → Z := λ s', if decide (s = s') then τ else σ s'.

Lemma set_var_eq σ s τ : set_var σ s τ s = τ.
Proof. unfold set_var. by rewrite decide_True. Qed.

Lemma slots_fit : slots_ok (service_slots fs) = true.
Proof. vm_compute. reflexivity. Qed.

Lemma area_free m m' σ a n :
  service_area m σ → service_free m a n → changed m m' a n → service_area m' σ ∧ service_keeps m m'.
Proof.
  intros [Ha He Hv Has [Hs1 [Hs2 Hs3]] Hap] [Hf1 Hf2] Hch.
  destruct (env_changed _ _ _ _ _ _ _ slots_fit Hch He Hf1) as [He' Hk].
  split; [|by eapply keeps_changed]. split; [done|done| | | |done].
  - intros s. eapply struct_changed; [reflexivity|exact Hch|apply Hf2|apply Hv].
  - intros s. split; [apply Has|apply Hk, Has].
  - split_and!; [by eapply changed_mapped|by apply Hk|done].
Qed.

(** A part of the stack is free. *)
Lemma stack_free m σ o n : service_area m σ → 0 ≤ o → o + n ≤ 280 → service_free m (stack + o) n ∧ mapped m (stack + o) n.
Proof.
  intros Ha Ho Hn. destruct (ar_stack _ _ Ha) as (H1 & H2 & H3). split; [split|].
  - eapply aside_sub; [exact H2|lia|lia].
  - intros s. specialize (H3 s). lia.
  - eapply mapped_sub; [exact H1|lia|lia].
Qed.

(** A store into one of the variables. *)
Lemma area_var m m' σ s τ :
  service_area m σ → changed m m' (var s) 232 → struct_at m' H (var s) τ →
  service_area m' (set_var σ s τ) ∧ service_keeps m m'.
Proof.
  intros [Ha He Hv Has [Hs1 [Hs2 Hs3]] Hap] Hch Hst. destruct (Has s) as [Hne Hf1].
  destruct (env_changed _ _ _ _ _ _ _ slots_fit Hch He Hf1) as [He' Hk].
  split; [|by eapply keeps_changed]. split; [done|done| | | |done].
  - intros s'. unfold set_var. destruct (decide (s = s')) as [<-|Hd]; [done|].
    eapply struct_changed; [reflexivity|exact Hch| |apply Hv]. change (sizeof H) with 232. destruct s, s'; (done || lia).
  - intros s'. split; [apply Has|apply Hk, Has].
  - split_and!; [by eapply changed_mapped|by apply Hk|done].
Qed.
(** ** Reading *)

Lemma valid_run w σ s :
  service_area (mem w) σ → service_handle_valid H (var s) w = Some (negb (σ s "app" =? 0) && negb (σ s "raw" =? 0), w).
Proof.
  intros Ha. pose proof (ar_var _ _ Ha s) as Hv. unfold service_handle_valid. rewrite (proj2 (Z.eqb_neq _ _) (proj1 (ar_aside _ _ Ha s))).
  field_get Hv. destruct (_ =? 0); [done|]. by field_get Hv.
Qed.

Lemma app_table_run w σ : service_area (mem w) σ → app_table app w = Some (table_ptr (mem w) (app + 8), w).
Proof.
  intros Ha. destruct (ar_app _ _ Ha) as (H0 & Hu & _). unfold app_table. rewrite (proj2 (Z.eqb_neq _ _) H0).
  rewrite <-(sys_table_run R4XSTART_R4SYS_SIZE w (app + 8) (en_sys _ _ _ _ (ar_env _ _ Ha))). unfold sys_table.
  unfold is_u64 in Hu. rewrite (proj2 (Z.eqb_neq (app + 8) 0)) by lia. unfold get.
  change (field_at R4App_t "system.table") with (Some (16, 8%nat)). change (field_at R4Sys_t "table") with (Some (8, 8%nat)).
  cbv iota. by rewrite <-Z.add_assoc.
Qed.

Lemma table_slot_run w σ n f :
  service_area (mem w) σ → (n, f) ∈ service_slots fs →
  table_slot (table_ptr (mem w) (app + 8)) n w = Some (f, w) ∧
  get R4XStartR4Sys n (table_ptr (mem w) (app + 8)) w = Some (f, w).
Proof.
  intros Ha Hin. unfold table_slot. rewrite (proj2 (Z.eqb_neq _ _) (proj2 (en_table _ _ _ _ (ar_env _ _ Ha)))).
  pose proof (env_get _ _ _ w n f slots_fit (ar_env _ _ Ha) Hin). done.
Qed.

Lemma services_app_run w σ : service_area (mem w) σ → services_app services w = Some (app, w).
Proof.
  intros Ha. destruct (ar_app _ _ Ha) as (H0 & Hu & Hs). unfold services_app, get. rewrite (proj2 (Z.eqb_neq _ _) Hs).
  change (field_at R4Services_t "app") with (Some (0, 8%nat)). cbv iota. rewrite Z.add_0_r.
  apply (load_run w services 8 app (le_bytes 8 app)); [exact (en_fixed _ _ _ _ (ar_env _ _ Ha) services (le_bytes 8 app) ltac:(in_list))|].
  rewrite le_val_le_bytes. by apply Z.mod_small.
Qed.

(** [time_state], which writes nothing but the structure it is given. *)
Lemma hz_run w σ :
  service_area (mem w) σ →
  (∀ v : world K, changed (mem v) (mem (snd (kcall (f_time fs) [stack + 216] v))) (stack + 216) 32) →
  ∃ hz w', r4_services_monotonic_hz app (stack + 216) w = Some (hz, w') ∧
    service_area (mem w') σ ∧ service_keeps (mem w) (mem w') ∧ is_u32 hz ∧
    (w' = w ∨ f_time fs ≠ 0 ∧ ∃ m1, w' = snd (kcall (f_time fs) [stack + 216] (World m1 (kern w)))).
Proof.
  intros Ha Htime. unfold r4_services_monotonic_hz. rewrite (mbind_run _ _ _ _ _ (app_table_run w σ Ha)).
  destruct (table_slot_run w σ "time_state" (f_time fs) Ha ltac:(in_list)) as [Hf _]. rewrite (mbind_run _ _ _ _ _ Hf).
  destruct (Z.eqb_spec (f_time fs) 0) as [|Hne].
  { exists 0, w. split_and!; [done|done|apply keeps_refl|unfold is_u32; lia|by left]. }
  destruct (stack_free _ _ 216 32 Ha ltac:(lia) ltac:(lia)) as [Hfr Hm].
  destruct (clear_struct w R4TimeState (stack + 216) eq_refl ltac:(vm_compute; discriminate) Hm) as (m1 & Hr & Hc & _).
  rewrite (mbind_run _ _ _ _ _ Hr). destruct (area_free _ _ _ _ _ Ha Hfr Hc) as [Ha1 Hk1].
  specialize (Htime (World m1 (kern w))). set (r := kcall (f_time fs) [stack + 216] (World m1 (kern w))) in *.
  assert (call_void (f_time fs) [stack + 216] (World m1 (kern w)) = Some ((), snd r)) as Hcall.
  { unfold call_void, call, mbind, m_bind. rewrite (proj2 (Z.eqb_neq _ _) Hne). fold r. by destruct r. }
  rewrite (mbind_run _ _ _ _ _ Hcall). destruct (area_free _ _ _ _ _ Ha1 (proj2 Hk1 _ _ Hfr) Htime) as [Ha2 Hk2].
  assert (struct_at (mem (snd r)) R4TimeState (stack + 216) (fv (mem (snd r)) R4TimeState (stack + 216))) as Hst.
  { apply struct_own. change (sizeof R4TimeState) with 32. by destruct (stack_free _ _ 216 32 Ha2 ltac:(lia) ltac:(lia)). }
  rewrite (struct_get (snd r) R4TimeState _ _ "monotonic_hz" 24 4%nat eq_refl eq_refl Hst).
  eexists _, _. split; [reflexivity|]. split; [done|]. split; [by eapply keeps_trans|]. split.
  - exact (struct_range _ R4TimeState _ _ "monotonic_hz" 24 4%nat eq_refl Hst).
  - right. split; [done|]. by exists m1.
Qed.

(** Clearing the message header. *)
Lemma header_clear w σ :
  service_area (mem w) σ → ∃ m1, clear R4ServiceMessageHeader (stack + 248) w = Some ((), World m1 (kern w)) ∧
    service_area m1 σ ∧ service_keeps (mem w) m1 ∧ header_status m1 (stack + 248) = 0.
Proof.
  intros Ha. destruct (stack_free _ _ 248 28 Ha ltac:(lia) ltac:(lia)) as [Hfr Hm].
  destruct (clear_struct w R4ServiceMessageHeader (stack + 248) eq_refl ltac:(vm_compute; discriminate) Hm) as (m1 & Hr & Hc & Hz).
  exists m1. split; [exact Hr|]. destruct (area_free _ _ _ _ _ Ha Hfr Hc) as [Ha1 Hk]. split; [exact Ha1|]. split; [exact Hk|].
  unfold header_status. by rewrite (sa_value _ _ _ _ Hz "status" _ eq_refl).
Qed.

(** A handle that is gone is not reported together with a time-out in the header,
    which the kernel leaves as it was cleared. *)
Lemma gone_no_timeout m m' raw :
  header_status m (stack + 248) = 0 → (raw < 0 → m' = m) → handle_lost raw = true →
  header_status m' (stack + 248) ≠ R4OS_SERVICE_API_RESULT_TIMEOUT.
Proof.
  intros Hz Hout Hl. rewrite Hout, Hz; [discriminate|].
  unfold handle_lost, R4OS_SERVICE_API_RESULT_BAD_HANDLE, R4OS_SERVICE_API_RESULT_NOT_RUNNING in Hl. lia.
Qed.

(** Reading it. *)
Lemma header_load w σ : service_area (mem w) σ →
  (∃ l, load_struct R4ServiceMessageHeader (stack + 248) w = Some (l, w)) ∧
  ∀ f o k, field_at R4ServiceMessageHeader f = Some (o, k) →
    get R4ServiceMessageHeader f (stack + 248) w = Some (fv (mem w) R4ServiceMessageHeader (stack + 248) f, w).
Proof.
  intros Ha. destruct (stack_free _ _ 248 28 Ha ltac:(lia) ltac:(lia)) as [_ Hm]. split.
  - unfold load_struct. destruct (read_bytes_mapped (mem w) (stack + 248) 28 Hm) as (l & Hl & _). exists l.
    change (Z.to_nat (sizeof R4ServiceMessageHeader)) with 28%nat. by rewrite Hl.
  - intros f o k Hf. by apply (struct_get w R4ServiceMessageHeader _ _ f o k eq_refl Hf), struct_own.
Qed.

(** The kernel writes the header and then a buffer of the program. *)
Lemma area_message w σ m1 m2 out cap :
  service_area (mem w) σ → service_free (mem w) out cap → changed (mem w) m1 (stack + 248) 28 → changed m1 m2 out cap → service_area m2 σ.
Proof.
  intros Ha Hf Hc1 Hc2. destruct (stack_free _ _ 248 28 Ha ltac:(lia) ltac:(lia)) as [Hfr _].
  destruct (area_free _ _ _ _ _ Ha Hfr Hc1) as [Ha1 Hk1]. by destruct (area_free _ _ _ _ _ Ha1 (proj2 Hk1 _ _ Hf) Hc2).
Qed.
End area.

Arguments ar_app {fs app services var stack m σ}.
Arguments ar_env {fs app services var stack m σ}.
Arguments ar_var {fs app services var stack m σ}.
Arguments ar_aside {fs app services var stack m σ}.
Arguments ar_stack {fs app services var stack m σ}.
Arguments keeps_trans {app services var}.
Arguments area_free {fs app services var stack}.
Arguments stack_free {fs app services var stack}.
Arguments area_var {fs app services var stack}.
Arguments valid_run {K fs app services var stack}.
Arguments app_table_run {K fs app services var stack}.
Arguments table_slot_run {K fs app services var stack}.
Arguments services_app_run {K fs app services var stack}.
Arguments hz_run {K _ fs app services var stack}.
Arguments header_clear {K fs app services var stack}.
Arguments header_load {K fs app services var stack}.
Arguments area_message {K fs app services var stack}.

End R4ServiceArea.
