(* ===== verification/R4ServiceProtocol.v ===== *)
(** * Service handles as a protocol

    A program with one connection and one endpoint that runs any sequence of the
    operations of app_services.h on them. On top of the kernel, a parameter, runs
    a watcher: it notes which handles the kernel has given out and not ended, and
    whether the program has used any other. *)

From S2P Require Import Prelude R4Abi R4Mem R4L R4LSpec.
From S2P Require Import R4Table R4Sys R4SysSpec R4SysInit R4Field R4Time.
From S2P Require Import R4App R4Files R4Env R4Services R4ServiceArea.

Module R4ServiceProtocol.
Export R4ServiceArea.

(** ** The kernel's side *)

(** What a function does with a handle. *)
Inductive role := Make | Use | End.

(** The roles of the functions that the kernel has. *)
Definition roles_ok (fs : service_functions) (roles : Z → option (side * role)) : Prop :=
  ∀ f r, (f, r) ∈ [(f_open fs, Some (Client, Make)); (f_close fs, Some (Client, End)); (f_call fs, Some (Client, Use));
    (f_register fs, Some (Server, Make)); (f_unregister fs, Some (Server, End)); (f_wait fs, Some (Server, Use));
    (f_recv fs, Some (Server, Use)); (f_reply fs, Some (Server, Use)); (f_time fs, None)] → f ≠ 0 → roles f = r.

(** ** The watcher *)

Record notes := Notes { live : side → gset Z; misused : bool }.

Definition set_live (n : notes) (s : side) (l : gset Z) : notes :=
  Notes (λ s', if decide (s = s') then l else live n s') (misused n).

(** What a call of a function with role [r], its arguments, its answer and the memory after it tell. *)
Definition note (r : option (side * role)) (args : list Z) (raw : Z) (m' : gmap Z byte) (n : notes) : notes :=
  match r, args with
  | Some (s, Make), _ =>
      let h := fv m' R4ServiceInfo (List.last args 0) "handle" in
      if (raw =? R4OS_SERVICE_API_RESULT_OK) && negb (h =? 0) then set_live n s ({[h]} ∪ live n s) else n
  | Some (s, Use), id :: _ =>
      let n := Notes (live n) (misused n || negb (bool_decide (id ∈ live n s))) in
      if bool_decide (raw ∈ gone_answers) then set_live n s (live n s ∖ {[id]}) else n
  | Some (s, End), id :: _ =>
      let n := Notes (live n) (misused n || negb (bool_decide (id ∈ live n s))) in
      if bool_decide (raw ∈ closed_answers) then set_live n s (live n s ∖ {[id]}) else n
  | _, _ => n
  end.

Definition watched (K : Type) : Type := (K * notes)%type.

Definition watch {K} `{!Kernel K} (roles : Z → option (side * role)) : Kernel (watched K) := λ f args w,
  let r := kcall f args (World (mem w) (fst (kern w))) in
  (fst r, World (mem (snd r)) (kern (snd r), note (roles f) args (i32 (fst r)) (mem (snd r)) (snd (kern w)))).

(** ** The program's side *)

Inductive service_op :=
  | OpOpen (name : Z)
  | OpCall (op request request_len response capacity : Z) (timeout : R4Timeout)
  | OpClose
  | OpRegister (name flags : Z)
  | OpWait (timeout : R4Timeout)
  | OpRecv (out capacity : Z)
  | OpReply (request_id status payload len : Z)
  | OpUnregister.

Section protocol.
Context {K : Type} `{!Kernel K} (fs : service_functions) `{!ServiceKernel K fs} (roles : Z → option (side * role)).
Variables (app services : Z) (var : side → Z) (stack : Z).
Hypothesis Hroles : roles_ok fs roles.
#[local] Instance watcher : Kernel (watched K) := watch roles.
Implicit Types (w : world (watched K)) (m : gmap Z byte) (σ : side → string → Z).

(** One operation. *)
Definition service_run (op : service_op) : M (watched K) () :=
  match op with
  | OpOpen name => _ ← r4_services_open services name (var Client) stack; mret ()
  | OpCall op request len response capacity timeout =>
      _ ← r4_service_connection_call (var Client) op request len response capacity timeout (stack + 216) (stack + 248); mret ()
  | OpClose => _ ← r4_service_connection_close (var Client); mret ()
  | OpRegister name flags => _ ← r4_services_register services name flags (var Server) stack; mret ()
  | OpWait timeout => _ ← r4_service_endpoint_wait (var Server) timeout (stack + 216); mret ()
  | OpRecv out capacity => _ ← r4_service_endpoint_recv (var Server) out capacity (stack + 248); mret ()
  | OpReply id status payload len => _ ← r4_service_endpoint_reply (var Server) id status payload len; mret ()
  | OpUnregister => _ ← r4_service_endpoint_unregister (var Server); mret ()
  end.

Abbreviation H := R4ServiceConnection.
Abbreviation area := (service_area fs app services var stack).
Abbreviation free := (service_free app services var).

(** ** Calls *)

(** The same world without the watcher. *)
Definition inner w : world K := World (mem w) (fst (kern w)).

Lemma call_watched w f args :
  f ≠ 0 → let r := kcall f args (inner w) in
  call_i32 f args w = Some (i32 (fst r),
    @World (watched K) (mem (snd r)) (kern (snd r), note (roles f) args (i32 (fst r)) (mem (snd r)) (snd (kern w)))).
Proof. intros Hf. by rewrite (call_i32_run w f args Hf). Qed.

(** ** The invariant *)

(** The variable names the one handle the kernel has given out, or none. *)
Definition held σ (n : notes) (s : side) : Prop :=
  if σ s "raw" =? 0 then live n s = ∅ else σ s "app" = app ∧ σ s "owned" = 1 ∧ live n s = {[σ s "raw"]}.

Definition service_inv w : Prop :=
  ∃ σ, area (mem w) σ ∧ (∀ s, held σ (snd (kern w)) s) ∧ misused (snd (kern w)) = false.

Lemma inv_intro w σ :
  area (mem w) σ → (∀ s, held σ (snd (kern w)) s) → misused (snd (kern w)) = false → service_inv w.
Proof. intros Ha Hh Hm. exists σ. split; [exact Ha|]. split; [exact Hh|exact Hm]. Qed.

(** The code returns, and keeps the invariant. *)
Definition safe {A} (code : M (watched K) A) w : Prop := ∃ a w', code w = Some (a, w') ∧ service_inv w'.

Lemma safe_ret {A} (a : A) w : service_inv w → safe (mret a) w.
Proof. intros Hi. by exists a, w. Qed.

Lemma safe_bind {A B} (code : M (watched K) A) (k : A → M (watched K) B) w a w' :
  code w = Some (a, w') → safe (k a) w' → safe (code ≫= k) w.
Proof. intros Hr. unfold safe. by rewrite (mbind_run _ _ _ _ _ Hr). Qed.

Lemma held_live σ n s : held σ n s → σ s "raw" ≠ 0 → live n s = {[σ s "raw"]} ∧ σ s "app" = app ∧ σ s "owned" = 1.
Proof. unfold held. intros Hh Hne. rewrite (proj2 (Z.eqb_neq _ _) Hne) in Hh. tauto. Qed.

Lemma note_use σ n s rest raw m :
  held σ n s → misused n = false → σ s "raw" ≠ 0 →
  note (Some (s, Use)) (σ s "raw" :: rest) raw m n = if handle_lost raw then set_live n s ∅ else n.
Proof.
  intros Hh Hm Hne. destruct (held_live _ _ _ Hh Hne) as [Hl _]. destruct n as [lv mis].
  cbn [misused live] in *. subst mis. unfold note. cbn [live misused]. rewrite Hl, (bool_decide_eq_true_2 (σ s "raw" ∈ ({[σ s "raw"]} : gset Z))) by set_solver.
  rewrite difference_diag_L, handle_lost_gone. by destruct (bool_decide _).
Qed.

Lemma note_end σ n s rest raw m :
  held σ n s → misused n = false → σ s "raw" ≠ 0 →
  note (Some (s, End)) (σ s "raw" :: rest) raw m n = if handle_ended raw then set_live n s ∅ else n.
Proof.
  intros Hh Hm Hne. destruct (held_live _ _ _ Hh Hne) as [Hl _]. destruct n as [lv mis].
  cbn [misused live] in *. subst mis. unfold note. cbn [live misused]. rewrite Hl, (bool_decide_eq_true_2 (σ s "raw" ∈ ({[σ s "raw"]} : gset Z))) by set_solver.
  rewrite difference_diag_L, handle_ended_closed. by destruct (bool_decide _).
Qed.

Lemma held_none σ n s τ :
  (∀ s', held σ n s') → τ "raw" = 0 → ∀ s', held (set_var σ s τ) (set_live n s ∅) s'.
Proof.
  intros Hh Hz s'. specialize (Hh s'). unfold held, set_var, set_live in *. cbn [live]. destruct (decide (s = s')); [|done].
  by rewrite Hz.
Qed.

Lemma drop_run w σ n s raw :
  area (mem w) σ → (∀ s', held σ n s') → misused n = false →
  snd (kern w) = (if handle_lost raw then set_live n s ∅ else n) →
  ∃ w', drop_lost H (var s) raw w = Some ((), w') ∧ service_inv w'.
Proof.
  intros Ha Hh Hm Hn. unfold drop_lost. destruct (handle_lost raw).
  - destruct (struct_put w H (var s) (σ s) "raw" 0 8 4%nat eq_refl eq_refl (ar_var Ha s) ltac:(lia)) as (m' & Hr & Hc & _ & Hs).
    eexists. split; [exact Hr|]. destruct (area_var _ _ _ _ _ Ha Hc Hs) as [Ha' _].
    exists (set_var σ s (upd (σ s) "raw" 0)). cbn [mem kern]. rewrite Hn. split_and!; [done| |done]. by apply held_none.
  - exists w. split; [done|]. exists σ. by rewrite Hn.
Qed.

Lemma kept_inv w σ n s raw :
  area (mem w) σ → (∀ s', held σ n s') → misused n = false → handle_lost raw = false →
  snd (kern w) = (if handle_lost raw then set_live n s ∅ else n) → service_inv w.
Proof. intros Ha Hh Hm -> Hn. exists σ. by rewrite Hn. Qed.

(** ** Closing *)

Lemma close_safe w s slot f :
  service_inv w → (slot, f) ∈ service_slots fs → (f ≠ 0 → roles f = Some (s, End)) →
  (∀ (v : world K) args, mem (snd (kcall f args v)) = mem v) →
  safe (service_handle_close H slot (var s)) w.
Proof.
  intros Hi Hin Hrole Hf. pose proof Hi as (σ & Ha & Hh & Hm). pose proof (ar_var Ha s) as Hv. unfold service_handle_close.
  eapply safe_bind; [exact (valid_run w σ s Ha)|]. destruct (negb (_ && _)) eqn:Hval; [by apply safe_ret|].
  apply negb_false_iff, andb_true_iff in Hval as [_ Hraw%negb_true_iff%Z.eqb_neq].
  destruct (held_live _ _ _ (Hh s) Hraw) as (Hl & Happ & Hown).
  eapply safe_bind; [exact (struct_get w H _ _ "owned" 12 1%nat eq_refl eq_refl Hv)|]. rewrite Hown. change (1 =? 0) with false. cbv iota.
  eapply safe_bind; [exact (struct_get w H _ _ "app" 0 8%nat eq_refl eq_refl Hv)|]. rewrite Happ.
  eapply safe_bind; [exact (app_table_run w σ Ha)|]. eapply safe_bind; [exact (proj1 (table_slot_run w σ slot f Ha Hin))|].
  destruct (Z.eqb_spec f 0) as [|Hne]; [by apply safe_ret|].
  eapply safe_bind; [exact (struct_get w H _ _ "raw" 8 4%nat eq_refl eq_refl Hv)|].
  eapply safe_bind; [exact (call_watched w f _ Hne)|]. rewrite (Hrole Hne), (note_end σ _ s [] _ _ (Hh s) Hm Hraw).
  rewrite Hf. change (mem (inner w)) with (mem w).
  set (r := kcall f _ _). destruct (handle_ended (i32 (fst r))).
  - set (w1 := World (mem w) _). destruct (clear_struct w1 H (var s) eq_refl ltac:(vm_compute; discriminate) (sa_mapped _ _ _ _ Hv)) as (m' & Hr & Hc & Hs).
    eapply safe_bind; [exact Hr|]. apply safe_ret. destruct (area_var _ _ _ _ _ Ha Hc Hs) as [Ha' _].
    eexists. split_and!; [exact Ha'| |done]. cbn [kern snd w1]. by apply held_none.
  - apply safe_ret. by exists σ.
Qed.
(** ** Using *)

(** A use of a handle that the kernel knows. *)
Record in_use w σ (s : side) (f : Z) : Prop := {
  us_area : area (mem w) σ;
  us_held : ∀ s', held σ (snd (kern w)) s';
  us_fair : misused (snd (kern w)) = false;
  us_raw : σ s "raw" ≠ 0;
  us_function : f ≠ 0
}.

(** The checks that come before every use. *)
Lemma checks_safe {A} w s slot f (bad : bool) (closed refused missing : A) (k : Z → Z → Z → M (watched K) A) :
  service_inv w → (slot, f) ∈ service_slots fs →
  (∀ σ, bad = false → in_use w σ s f → safe (k app (table_ptr (mem w) (app + 8)) f) w) →
  safe (valid ← service_handle_valid H (var s);
        if negb valid then mret closed else
        if bad then mret refused else
        app ← get H "app" (var s); table ← app_table app; f ← table_slot table slot;
        if f =? 0 then mret missing else k app table f) w.
Proof.
  intros Hi Hin Hk. pose proof Hi as (σ & Ha & Hh & Hm). pose proof (ar_var Ha s) as Hv.
  eapply safe_bind; [exact (valid_run w σ s Ha)|]. destruct (negb (_ && _)) eqn:Hval; [by apply safe_ret|].
  apply negb_false_iff, andb_true_iff in Hval as [_ Hraw%negb_true_iff%Z.eqb_neq].
  destruct bad; [by apply safe_ret|].
  eapply safe_bind; [exact (struct_get w H _ _ "app" 0 8%nat eq_refl eq_refl Hv)|].
  destruct (held_live _ _ _ (Hh s) Hraw) as (_ & -> & _).
  eapply safe_bind; [exact (app_table_run w σ Ha)|]. eapply safe_bind; [exact (proj1 (table_slot_run w σ slot f Ha Hin))|].
  destruct (Z.eqb_spec f 0) as [|Hne]; [by apply safe_ret|]. by apply (Hk σ).
Qed.

(** The use itself, with what comes after it: [m'] is the memory the kernel leaves. *)
Lemma use_safe {A} w σ s f rest (k : Z → M (watched K) A) :
  in_use w σ s f → roles f = Some (s, Use) →
  let r := kcall f (σ s "raw" :: rest) (inner w) in
  (∃ a n, free (mem w) a n ∧ changed (mem w) (mem (snd r)) a n) ∨ area (mem (snd r)) σ →
  (∀ w1, area (mem w1) σ → mem w1 = mem (snd r) →
    (handle_lost (i32 (fst r)) = false → service_inv w1) →
    (∃ w2, drop_lost H (var s) (i32 (fst r)) w1 = Some ((), w2) ∧ service_inv w2) → safe (k (i32 (fst r))) w1) →
  safe (id ← get H "raw" (var s); raw ← call_i32 f (id :: rest); k raw) w.
Proof.
  intros [Ha Hh Hm Hraw Hf] Hrole r Har Hk.
  eapply safe_bind; [exact (struct_get w H _ _ "raw" 8 4%nat eq_refl eq_refl (ar_var Ha s))|].
  eapply safe_bind; [exact (call_watched w f _ Hf)|]. fold r. rewrite Hrole, (note_use σ _ s rest _ _ (Hh s) Hm Hraw).
  assert (area (mem (snd r)) σ) as Ha'.
  { destruct Har as [(a & n & Hfr & Hc)|]; [|done]. by destruct (area_free _ _ _ _ _ Ha Hfr Hc). }
  apply Hk; [done|done| |].
  - intros Hl. by eapply (kept_inv _ σ (snd (kern w)) s (i32 (fst r))).
  - by apply (drop_run _ σ (snd (kern w))).
Qed.

Lemma reply_safe w request_id status payload len :
  service_inv w → safe (r4_service_endpoint_reply (var Server) request_id status payload len) w.
Proof.
  intros Hi. unfold r4_service_endpoint_reply. eapply (checks_safe w Server "service_endpoint_reply" (f_reply fs)); [done|in_list|].
  intros σ _ Hu. eapply (use_safe w σ Server (f_reply fs)); [done| | |].
  - apply Hroles; [in_list|apply Hu].
  - right. rewrite quiet_law by in_list. apply Hu.
  - intros w1 _ _ _ (w2 & Hr & Hi2). eapply safe_bind; [exact Hr|]. by apply safe_ret.
Qed.
Lemma in_use_next w w' σ s f : in_use w σ s f → area (mem w') σ → snd (kern w') = snd (kern w) → in_use w' σ s f.
Proof. intros [H1 H2 H3 H4 H5] Ha Hn. split; rewrite ?Hn; done. Qed.

Lemma in_use_inv w σ s f : in_use w σ s f → service_inv w.
Proof. intros [H1 H2 H3 _ _]. by exists σ. Qed.

(** Asking for the time, and clearing a message header. *)
Lemma use_hz w σ s f :
  in_use w σ s f → ∃ hz w1, r4_services_monotonic_hz app (stack + 216) w = Some (hz, w1) ∧
    in_use w1 σ s f ∧ service_keeps app services var (mem w) (mem w1).
Proof.
  intros Hu. destruct (hz_run w σ (us_area _ _ _ _ Hu)) as (hz & w1 & Hr & Ha1 & Hk & _ & Hw1).
  { intros v. apply (time_law (inner v)). }
  exists hz, w1. split; [done|]. split; [|done]. eapply in_use_next; [done|done|].
  destruct Hw1 as [->|(Hne & m1 & ->)]; [done|]. unfold kcall, watcher, watch. cbn [kern snd].
  by rewrite (Hroles (f_time fs) None ltac:(in_list) Hne).
Qed.

Lemma use_header w σ s f :
  in_use w σ s f → ∃ w1, clear R4ServiceMessageHeader (stack + 248) w = Some ((), w1) ∧
    in_use w1 σ s f ∧ service_keeps app services var (mem w) (mem w1) ∧ header_status (mem w1) (stack + 248) = 0.
Proof.
  intros Hu. destruct (header_clear w σ (us_area _ _ _ _ Hu)) as (m1 & Hr & Ha1 & Hk). eexists. split; [exact Hr|].
  split; [|done]. by eapply in_use_next.
Qed.

Lemma wait_safe w timeout : service_inv w → safe (r4_service_endpoint_wait (var Server) timeout (stack + 216)) w.
Proof.
  intros Hi. unfold r4_service_endpoint_wait.
  eapply (checks_safe w Server "service_endpoint_wait" (f_wait fs) false _ (WaitResult R4_ENDPOINT_WAIT_FAILED 0 0)); [done|in_list|].
  intros σ _ Hu. cbv beta. destruct (use_hz w σ Server (f_wait fs) Hu) as (hz & w1 & Hr & Hu1 & [Et Hk]).
  pose proof (us_area _ _ _ _ Hu1) as Ha1. eapply safe_bind; [exact Hr|].
  destruct (r4_timeout_to_ticks timeout hz) as [c t]. destruct (negb _); [apply safe_ret; by eapply in_use_inv|].
  rewrite <-Et. eapply safe_bind; [exact (proj2 (table_slot_run w1 σ "service_endpoint_wait" (f_wait fs) Ha1 ltac:(in_list)))|].
  eapply (use_safe w1 σ Server (f_wait fs)); [done| | |].
  - apply Hroles; [in_list|apply Hu].
  - right. rewrite quiet_law by in_list. apply Hu1.
  - intros w2 _ _ Hkeep (w3 & Hr3 & Hi3). set (raw := i32 _) in *. destruct (Z.eqb_spec raw 0) as [E|_].
    + apply safe_ret, Hkeep. by rewrite E.
    + eapply safe_bind; [exact Hr3|]. destruct (raw <? 0); by apply safe_ret.
Qed.

Lemma recv_safe w out capacity :
  service_inv w → free (mem w) out capacity → safe (r4_service_endpoint_recv (var Server) out capacity (stack + 248)) w.
Proof.
  intros Hi Hfree. unfold r4_service_endpoint_recv.
  eapply (checks_safe w Server "service_endpoint_recv" (f_recv fs)); [done|in_list|]. intros σ _ Hu. cbv beta.
  destruct (use_header w σ Server (f_recv fs) Hu) as (w1 & Hr1 & Hu1 & Hk1 & _). eapply safe_bind; [exact Hr1|].
  destruct (recv_law (inner w1) (σ Server "raw") (stack + 248) out capacity) as (m1 & Hc1 & Hc2).
  eapply (use_safe w1 σ Server (f_recv fs)); [done| | |].
  - apply Hroles; [in_list|apply Hu].
  - right. eapply (area_message w1); [apply Hu1|by apply Hk1|exact Hc1|exact Hc2].
  - intros w2 Ha2 _ Hkeep (w3 & Hr3 & Hi3). set (raw := i32 _) in *. destruct (header_load w2 σ Ha2) as [[l Hl] Hget].
    eapply safe_bind; [exact Hl|]. eapply safe_bind; [exact (Hget "magic" 0 4%nat eq_refl)|].
    destruct (Z.eqb_spec raw 0) as [E|_]; cbn [andb].
    + destruct (negb _); [apply safe_ret, Hkeep; by rewrite E|].
      eapply safe_bind; [exact Hr3|]. destruct (raw <? 0); by apply safe_ret.
    + eapply safe_bind; [exact Hr3|]. destruct (raw <? 0); by apply safe_ret.
Qed.

Lemma call_safe w op request len response capacity timeout :
  service_inv w → free (mem w) response capacity →
  safe (r4_service_connection_call (var Client) op request len response capacity timeout (stack + 216) (stack + 248)) w.
Proof.
  intros Hi Hfree. unfold r4_service_connection_call.
  eapply (checks_safe w Client "service_call" (f_call fs)); [done|in_list|]. intros σ _ Hu. cbv beta.
  destruct (use_hz w σ Client (f_call fs) Hu) as (hz & w1 & Hr & Hu1 & Hk1). eapply safe_bind; [exact Hr|].
  destruct (r4_timeout_to_ticks timeout hz) as [c t]. destruct (negb _); [apply safe_ret; by eapply in_use_inv|].
  destruct (use_header w1 σ Client (f_call fs) Hu1) as (w2 & Hr2 & Hu2 & Hk2 & Hz2). eapply safe_bind; [exact Hr2|].
  destruct (keeps_trans _ _ _ Hk1 Hk2) as [Et Hk]. rewrite <-Et.
  eapply safe_bind; [exact (proj2 (table_slot_run w2 σ "service_call" (f_call fs) (us_area _ _ _ _ Hu2) ltac:(in_list)))|].
  destruct (call_law (inner w2) (σ Client "raw") op request len (stack + 248) response capacity (default 0 t)) as [(m1 & Hc1 & Hc2) Hst].
  eapply (use_safe w2 σ Client (f_call fs)); [done| | |].
  - apply Hroles; [in_list|apply Hu].
  - right. eapply (area_message w2); [apply Hu2|by apply Hk|exact Hc1|exact Hc2].
  - intros w3 Ha3 Hm3 Hkeep (w4 & Hr4 & Hi4). set (raw := i32 _) in *. destruct (header_load w3 σ Ha3) as [[l Hl] Hget].
    eapply safe_bind; [exact Hl|]. eapply safe_bind; [exact (Hget "status" 24 4%nat eq_refl)|]. cbv zeta.
    rewrite Hm3. fold (header_status (mem (snd (kcall (f_call fs) (σ Client "raw" :: [op; request; len; stack + 248; response; capacity; default 0 t]) (inner w2)))) (stack + 248)).
    destruct (_ || _) eqn:Et'.
    + apply safe_ret, Hkeep. apply not_true_is_false. intros Hl'. apply orb_true_iff in Et' as [E%Z.eqb_eq|E%Z.eqb_eq].
      * by rewrite E in Hl'.
      * by apply (gone_no_timeout _ _ _ _ Hz2 Hst) in Hl'.
    + eapply safe_bind; [exact Hr4|]. destruct (raw <? 0); [by apply safe_ret|]. destruct (negb _); by apply safe_ret.
Qed.
(** ** Opening *)

Lemma note_make n s args raw m info :
  note (Some (s, Make)) (args ++ [info]) raw m n =
  (let h := fv m R4ServiceInfo info "handle" in
   if (raw =? R4OS_SERVICE_API_RESULT_OK) && negb (h =? 0) then set_live n s ({[h]} ∪ live n s) else n).
Proof. unfold note. by rewrite last_last. Qed.

(** A put into a variable. *)
Lemma var_put w σ s f v o k :
  area (mem w) σ → field_at H f = Some (o, k) →
  ∃ m', put H f (var s) v w = Some ((), World m' (kern w)) ∧
    area m' (set_var σ s (upd (σ s) f (v mod 2 ^ (8 * Z.of_nat k)))) ∧ changed (mem w) m' (var s) 232.
Proof.
  intros Ha Hf. destruct (struct_put_mod w H (var s) (σ s) f v o k eq_refl Hf (ar_var Ha s)) as (m' & Hr & Hc & Hs).
  exists m'. split; [done|]. split; [|done]. by destruct (area_var _ _ _ _ _ Ha Hc Hs).
Qed.

(** The three fields and the information of a new handle; [info] is the stack. *)
Lemma fill_run w σ s handle :
  area (mem w) σ → is_u32 handle →
  ∃ w', (_ ← put H "app" (var s) app; _ ← put H "raw" (var s) handle; _ ← put H "owned" (var s) 1;
         _ ← memcpy (var s + offsetof H "info") stack (sizeof R4ServiceInfo); mret R4OS_SERVICE_API_RESULT_OK) w
      = Some (R4OS_SERVICE_API_RESULT_OK, w') ∧ kern w' = kern w ∧
    ∃ τ, area (mem w') (set_var σ s τ) ∧ τ "app" = app ∧ τ "raw" = handle ∧ τ "owned" = 1.
Proof.
  intros Ha Hh. destruct (ar_app Ha) as (_ & Hu & _).
  destruct (var_put w σ s "app" app 0 8%nat Ha eq_refl) as (m1 & Hr1 & Ha1 & _). rewrite (mbind_run _ _ _ _ _ Hr1).
  destruct (var_put (World m1 (kern w)) _ s "raw" handle 8 4%nat Ha1 eq_refl) as (m2 & Hr2 & Ha2 & _). rewrite (mbind_run _ _ _ _ _ Hr2).
  destruct (var_put (World m2 (kern w)) _ s "owned" 1 12 1%nat Ha2 eq_refl) as (m3 & Hr3 & Ha3 & _). rewrite (mbind_run _ _ _ _ _ Hr3).
  set (σ3 := set_var _ s _) in Ha3. cbn [mem kern] in *.
  destruct (read_bytes_mapped m3 stack 216) as (l & Hl & Hlen).
  { eapply mapped_sub; [apply (ar_stack Ha3)|lia|lia]. }
  pose proof (ar_var Ha3 s) as Hv.
  destruct (memcpy_run (World m3 (kern w)) (var s + 16) stack l) as (m4 & Hr4 & Hc4 & _).
  { unfold bytes_at. by rewrite Hlen. }
  { rewrite Hlen. eapply mapped_sub; [exact (sa_mapped _ _ _ _ Hv)|lia|change (sizeof H) with 232; lia]. }
  rewrite Hlen in Hr4, Hc4. change (offsetof H "info") with 16. change (sizeof R4ServiceInfo) with 216.
  change (Z.of_nat 216) with 216 in *. rewrite (mbind_run _ _ _ _ _ Hr4). eexists. split; [reflexivity|]. split; [done|].
  assert (struct_at m4 H (var s) (σ3 s)) as Hs4.
  { by apply (struct_hole m3 m4 H (var s) (σ3 s) 16 216 eq_refl). }
  assert (changed m3 m4 (var s) 232) as Hc by (eapply changed_sub; [exact Hc4|lia|lia]).
  destruct (area_var _ _ _ _ _ Ha3 Hc Hs4) as [Ha4 _]. exists (σ3 s). split.
  - destruct Ha4 as [G1 G2 G3 G4 G5 G6]. split; [done|done| |done|done|done]. intros s'. specialize (G3 s').
    unfold σ3, set_var in *. by destruct (decide (s = s')).
  - unfold σ3. rewrite !set_var_eq. cbn. split_and!; [by apply Z.mod_small|by apply Z.mod_small|done].
Qed.

Lemma open_safe w s slot f name args :
  service_inv w → fv (mem w) H (var s) "raw" = 0 → (slot, f) ∈ service_slots fs → (f ≠ 0 → roles f = Some (s, Make)) →
  (∀ v : world K, changed (mem v) (mem (snd (kcall f (args ++ [stack]) v))) stack 216) →
  safe (service_handle_open H slot services name args (var s) stack) w.
Proof.
  intros (σ & Ha & Hh & Hm) Hidle Hin Hrole Hlaw. unfold service_handle_open.
  rewrite (proj2 (Z.eqb_neq _ _) (proj1 (ar_aside Ha s))).
  destruct (clear_struct w H (var s) eq_refl ltac:(vm_compute; discriminate) (sa_mapped _ _ _ _ (ar_var Ha s))) as (m1 & Hr1 & Hc1 & Hs1).
  eapply safe_bind; [exact Hr1|]. destruct (area_var _ _ _ _ _ Ha Hc1 Hs1) as [Ha1 _].
  assert (live (snd (kern w)) s = ∅) as Hnone.
  { specialize (Hh s). unfold held in Hh. by rewrite <-(sa_value _ _ _ _ (ar_var Ha s) "raw" _ eq_refl), Hidle in Hh. }
  set (σ1 := set_var σ s (λ _, 0)) in *. set (w1 := World m1 (kern w)).
  assert (∀ s', held σ1 (snd (kern w)) s') as Hh1.
  { intros s'. specialize (Hh s'). unfold held, σ1, set_var in *. destruct (decide (s = s')) as [<-|]; [by rewrite Hnone|done]. }
  pose proof (inv_intro w1 σ1 Ha1 Hh1 Hm : service_inv w1) as Hi1.
  eapply safe_bind; [exact (services_app_run w1 σ1 Ha1)|]. eapply safe_bind; [exact (app_table_run w1 σ1 Ha1)|].
  eapply safe_bind; [exact (proj1 (table_slot_run w1 σ1 slot f Ha1 Hin))|].
  destruct (_ || _) eqn:Hbad; [by apply safe_ret|]. apply orb_false_iff in Hbad as [[Hf0%Z.eqb_neq _]%orb_false_iff _].
  destruct (stack_free _ _ 0 216 Ha1 ltac:(lia) ltac:(lia)) as [Hfr Hms]. rewrite Z.add_0_r in Hfr, Hms.
  destruct (clear_struct w1 R4ServiceInfo stack eq_refl ltac:(vm_compute; discriminate) Hms) as (m2 & Hr2 & Hc2 & _).
  eapply safe_bind; [exact Hr2|]. destruct (area_free _ _ _ _ _ Ha1 Hfr Hc2) as [Ha2 Hk2]. set (w2 := World m2 (kern w1)).
  eapply safe_bind; [exact (call_watched w2 f _ Hf0)|]. rewrite (Hrole Hf0), note_make.
  specialize (Hlaw (inner w2)). set (r := kcall f (args ++ [stack]) (inner w2)) in *.
  destruct (area_free _ _ _ _ _ Ha2 (proj2 Hk2 _ _ Hfr) Hlaw) as [Ha3 _]. set (w3 := @World (watched K) (mem (snd r)) _).
  destruct (Z.eqb_spec (i32 (fst r)) R4OS_SERVICE_API_RESULT_OK) as [_|_]; cbn [negb andb] in *; [|apply safe_ret; exact (inv_intro w3 σ1 Ha3 Hh1 Hm)].
  destruct (stack_free _ _ 0 216 Ha3 ltac:(lia) ltac:(lia)) as [_ Hms3]. rewrite Z.add_0_r in Hms3.
  pose proof (struct_own (mem w3) R4ServiceInfo stack Hms3) as Hsi.
  eapply safe_bind; [exact (struct_get w3 R4ServiceInfo stack _ "handle" 0 4%nat eq_refl eq_refl Hsi)|].
  pose proof (struct_range _ R4ServiceInfo _ _ "handle" 0 4%nat eq_refl Hsi) as Hrange.
  subst w3. set (h := fv _ R4ServiceInfo stack "handle") in *. cbv zeta. destruct (Z.eqb_spec h 0) as [_|Hh0]; cbn [negb].
  { apply safe_ret. exact (inv_intro (World (mem (snd r)) _) σ1 Ha3 Hh1 Hm). }
  set (w3 := @World (watched K) (mem (snd r)) _). eapply safe_bind; [exact (services_app_run w3 σ1 Ha3)|].
  destruct (fill_run w3 σ1 s h Ha3 Hrange) as (w4 & Hr4 & Hk4 & τ & Ha4 & T1 & T2 & T3).
  exists R4OS_SERVICE_API_RESULT_OK, w4. split; [exact Hr4|]. apply (inv_intro w4 (set_var σ1 s τ)); rewrite ?Hk4; [exact Ha4| |exact Hm].
  intros s'. specialize (Hh1 s'). unfold held, set_var, set_live in *. cbn [live snd kern w3].
  destruct (decide (s = s')) as [<-|]; [|done]. rewrite T2, (proj2 (Z.eqb_neq _ _) Hh0). split_and!; [done|done|].
  change (snd (kern w2)) with (snd (kern w)). rewrite Hnone. apply union_empty_r_L.
Qed.
(** ** The program *)

(** A handle is not overwritten while it is held, and messages are received beside
    the program's own data. *)
Definition allowed m (op : service_op) : Prop :=
  match op with
  | OpOpen _ => fv m H (var Client) "raw" = 0
  | OpRegister _ _ => fv m H (var Server) "raw" = 0
  | OpCall _ _ _ response capacity _ => free m response capacity
  | OpRecv out capacity => free m out capacity
  | _ => True
  end.

Inductive service_steps w : world (watched K) → Prop :=
  | service_steps_refl : service_steps w w
  | service_steps_step op w1 w2 :
      allowed (mem w) op → service_run op w = Some ((), w1) → service_steps w1 w2 → service_steps w w2.

Lemma safe_done {A} (code : M (watched K) A) w : safe code w → safe (_ ← code; mret ()) w.
Proof. intros (a & w' & Hr & Hi). eapply safe_bind; [exact Hr|]. by apply safe_ret. Qed.

Lemma service_run_safe w op : service_inv w → allowed (mem w) op → safe (service_run op) w.
Proof.
  intros Hi Ha. destruct op; cbn [service_run allowed] in *; apply safe_done.
  - eapply (open_safe w Client "service_open" (f_open fs) _ [name]); [done|done|in_list|apply Hroles; in_list|intros v; apply open_law].
  - by apply call_safe.
  - apply (close_safe w Client "service_close" (f_close fs)); [done|in_list|apply Hroles; in_list|intros v args; apply quiet_law; in_list].
  - eapply (open_safe w Server "service_endpoint_register" (f_register fs) _ [name; _]);
      [done|done|in_list|apply Hroles; in_list|intros v; apply register_law].
  - by apply wait_safe.
  - by apply recv_safe.
  - by apply reply_safe.
  - apply (close_safe w Server "service_endpoint_unregister" (f_unregister fs));
      [done|in_list|apply Hroles; in_list|intros v args; apply quiet_law; in_list].
Qed.

Lemma service_inv_live w s : service_inv w →
  let raw := fv (mem w) H (var s) "raw" in live (snd (kern w)) s = if raw =? 0 then ∅ else {[raw]}.
Proof.
  intros (σ & Ha & Hh & _). cbv zeta. rewrite (sa_value _ _ _ _ (ar_var Ha s) "raw" _ eq_refl). specialize (Hh s).
  unfold held in Hh. destruct (_ =? 0); [done|tauto].
Qed.

End protocol.

(** ** A kernel with one service *)

Definition demo_services : service_functions := ServiceFunctions 7010 7011 7012 7013 7014 7083 7016 7017 7053.

Definition demo_roles (f : Z) : option (side * role) :=
  if f =? 7010 then Some (Client, Make) else if f =? 7011 then Some (Client, End) else if f =? 7012 then Some (Client, Use)
  else if f =? 7013 then Some (Server, Make) else if f =? 7014 then Some (Server, End)
  else if (f =? 7083) || (f =? 7016) || (f =? 7017) then Some (Server, Use) else None.

(** Every handle is 5. *)
#[global] Instance service_kernel : Kernel () := λ f args w,
  if (f =? 7010) || (f =? 7013) then
    match write_bytes (mem w) (List.last args 0) (le_bytes 4 5) with
    | Some m => (R4OS_SERVICE_API_RESULT_OK, World m ())
    | None => (R4OS_SERVICE_API_RESULT_INVALID, w)
    end
  else (R4OS_SERVICE_API_RESULT_OK, w).

Lemma demo_open_law f args info (w : world ()) :
  (f =? 7010) || (f =? 7013) = true → List.last args 0 = info → changed (mem w) (mem (snd (kcall f args w))) info 216.
Proof.
  intros Hf Hl. unfold kcall, service_kernel. rewrite Hf, Hl. destruct (write_bytes _ _ _) as [m|] eqn:E; [|by split].
  apply write_bytes_changed in E. eapply changed_sub; [exact E|lia|rewrite length_le_bytes; lia].
Qed.

#[global] Instance service_kernel_laws : ServiceKernel () demo_services.
Proof.
  split.
  - intros. by apply demo_open_law.
  - intros. by apply demo_open_law.
  - intros. split; [exists (mem w); by split; split|discriminate].
  - intros. exists (mem w). by split; split.
  - intros. by split.
  - intros w f args Hf%list_elem_of_In. cbn in Hf. by destruct Hf as [<-|[<-|[<-|[<-|[]]]]].
Qed.

Lemma demo_roles_ok : roles_ok demo_services demo_roles.
Proof.
  intros f r Hin%list_elem_of_In _. cbn [In] in Hin.
  repeat (destruct Hin as [[= <- <-]|Hin]; [vm_compute; reflexivity|]). destruct Hin.
Qed.

(** The application at 256 with a table at 4096, its services at 128, a connection
    at 512, an endpoint at 768 and the stack at 1024. *)
Definition service_var (s : side) : Z := match s with Client => 512 | Server => 768 end.
Definition service_memory (connection : list byte) : gmap Z byte := image [
  (128, struct_bytes R4Services_t [256]); (256, struct_bytes R4App_t [0; 0; 4096]);
  (512, connection); (768, replicate 232 x00); (1024, replicate 280 x00);
  (4096, struct_bytes R4XStartR4Sys ([R4XSTART_R4SYS_MAGIC; 14; 1264; 0] ++ map (λ i, 7000 + Z.of_nat i) (seq 0 156)))].
Definition service_start : world (watched ()) := World (service_memory (replicate 232 x00)) ((), Notes (λ _, ∅) false).

Abbreviation demo_area := (service_area demo_services 256 128 service_var 1024).
Abbreviation demo_inv := (service_inv demo_services 256 128 service_var 1024).
Abbreviation demo_run := (service_run demo_roles 128 service_var 1024).

(** Such a memory is in order. *)
Definition memory_check (m : gmap Z byte) : bool :=
  (table_ptr m 264 =? 4096) && (fv m R4XStartR4Sys 4096 "size" =? 1264) && mapped_b m 264 16 && mapped_b m 4096 1264
  && forallb (λ s, slot_of m R4XStartR4Sys 4096 (fst s) =? snd s) (service_slots demo_services)
  && bool_decide (read_bytes m 128 8 = Some (le_bytes 8 256))
  && mapped_b m 512 232 && mapped_b m 768 232 && mapped_b m 1024 280.

Lemma memory_area m : memory_check m = true → demo_area m (λ s, fv m R4ServiceConnection (service_var s)).
Proof.
  unfold memory_check. rewrite !andb_true_iff, !Z.eqb_eq, bool_decide_eq_true.
  intros [[[[[[[[Ep Ez] Hs%mapped_b_mapped] Ht] Hslots] Hb] H1%mapped_b_mapped] H2%mapped_b_mapped] H3%mapped_b_mapped].
  assert (∀ a n, a + n ≤ 128 ∨ 136 ≤ a → a + n ≤ 264 ∨ 280 ≤ a → a + n ≤ 4096 →
    aside (256 + 8) [(128, le_bytes 8 256)] m a n) as Has.
  { intros a n Ha1 Ha2 Ha3. split; [split; [intros _; lia|change (256 + 8) with 264; rewrite Ep; intros _; lia]|].
    intros b l Hin%list_elem_of_In. cbn [In] in Hin. destruct Hin as [[= <- <-]|[]]. simpl; lia. }
  split; [unfold is_u64; lia| | |..].
  - split; change (256 + 8) with 264; rewrite ?Ep; [|lia|..].
    + split; [by intros _|]. rewrite Ep. split; intros _; rewrite ?Ez; [by apply mapped_b_mapped| |done].
      eapply mapped_sub; [by apply mapped_b_mapped|lia|lia].
    + intros n f Hin%list_elem_of_In. rewrite forallb_forall in Hslots. by apply Z.eqb_eq, (Hslots (n, f)).
    + intros a l Hin%list_elem_of_In. cbn [In] in Hin. by destruct Hin as [[= <- <-]|[]].
  - intros []; by apply struct_own.
  - intros s. split; [by destruct s|]. apply Has; destruct s; cbn; lia.
  - split_and!; [done|apply Has; lia|intros []; cbn; lia].
  - cbn. lia.
Qed.

Lemma service_start_inv : demo_inv service_start.
Proof.
  apply (inv_intro _ _ _ _ _ _ _ (memory_area (mem service_start) ltac:(vm_compute; reflexivity))); [|reflexivity].
  intros []; vm_compute; reflexivity.
Qed.


End R4ServiceProtocol.
