(* ===== verification/R4ServiceCall.v ===== *)
(** * Calling a service

    What [r4_service_connection_call] makes of the answer of the kernel, and how
    long it lets the kernel wait. *)

From S2P Require Import Prelude R4Abi R4Mem R4L R4LSpec.
From S2P Require Import R4Table R4Sys R4SysSpec R4SysInit R4Field R4Time.
From S2P Require Import R4App R4Files R4Env R4Services R4ServiceArea R4ServiceProtocol.

Module R4ServiceCall.
Export R4ServiceProtocol.

(** What an answer and the status in the message header mean. *)
Inductive answer (raw status : Z) : R4ServiceCallKind → Z → Z → Prop :=
  | answer_response : 0 ≤ raw → status = R4OS_SERVICE_API_RESULT_OK →
      answer raw status R4_SERVICE_CALL_RESPONSE R4OS_SERVICE_API_RESULT_OK raw
  | answer_timed_out : raw = R4OS_SERVICE_API_RESULT_TIMEOUT ∨ status = R4OS_SERVICE_API_RESULT_TIMEOUT →
      answer raw status R4_SERVICE_CALL_TIMED_OUT raw 0
  | answer_remote : 0 ≤ raw → status ≠ R4OS_SERVICE_API_RESULT_OK → status ≠ R4OS_SERVICE_API_RESULT_TIMEOUT →
      answer raw status R4_SERVICE_CALL_REMOTE_FAILURE status 0
  | answer_failed : raw < 0 → raw ≠ R4OS_SERVICE_API_RESULT_TIMEOUT → status ≠ R4OS_SERVICE_API_RESULT_TIMEOUT →
      answer raw status R4_SERVICE_CALL_FAILED raw 0.

Section call.
Context {K : Type} `{!Kernel K} (fs : service_functions) `{!ServiceKernel K fs}.
Variables (app services : Z) (var : side → Z) (stack : Z).
Implicit Types (w : world K) (m : gmap Z byte) (σ : side → string → Z).
Abbreviation H := R4ServiceConnection.
Abbreviation area := (service_area fs app services var stack).

(** Everything after the kernel's answer [raw]. *)
Definition finish (connection header raw : Z) : M K R4ServiceCallResult :=
  value ← load_struct R4ServiceMessageHeader header;
  status ← get R4ServiceMessageHeader "status" header;
  if (raw =? R4OS_SERVICE_API_RESULT_TIMEOUT) || (i32 status =? R4OS_SERVICE_API_RESULT_TIMEOUT)
  then mret (CallResult R4_SERVICE_CALL_TIMED_OUT raw 0 value) else
  _ ← drop_lost H connection raw;
  if raw <? 0 then mret (CallResult R4_SERVICE_CALL_FAILED raw 0 value) else
  if negb (i32 status =? R4OS_SERVICE_API_RESULT_OK)
  then mret (CallResult R4_SERVICE_CALL_REMOTE_FAILURE (i32 status) 0 value) else
  mret (CallResult R4_SERVICE_CALL_RESPONSE R4OS_SERVICE_API_RESULT_OK (Prelude.u32 raw) value).

(** The connection after the answer: its handle is given up when the kernel says so. *)
Definition after_answer w w' (raw : Z) : Prop :=
  kern w' = kern w ∧
  if bool_decide (raw ∈ gone_answers) then changed (mem w) (mem w') (var Client + 8) 4 ∧ fv (mem w') H (var Client) "raw" = 0
  else mem w' = mem w.

Lemma drop_exact w σ raw :
  area (mem w) σ → ∃ w', drop_lost H (var Client) raw w = Some ((), w') ∧ after_answer w w' raw.
Proof.
  intros Ha. unfold drop_lost, after_answer. rewrite handle_lost_gone. destruct (bool_decide _); [|by exists w].
  destruct (struct_put w H (var Client) (σ Client) "raw" 0 8 4%nat eq_refl eq_refl (ar_var Ha Client) ltac:(lia)) as (m' & Hr & _ & Hc & Hs).
  eexists. split; [exact Hr|]. split; [done|]. split; [exact Hc|]. exact (sa_value _ _ _ _ Hs "raw" _ eq_refl).
Qed.

Lemma finish_run w σ raw :
  area (mem w) σ → is_i32 raw →
  (handle_lost raw = true → header_status (mem w) (stack + 248) ≠ R4OS_SERVICE_API_RESULT_TIMEOUT) →
  ∃ result w', finish (var Client) (stack + 248) raw w = Some (result, w') ∧ after_answer w w' raw ∧
    bytes_at (mem w) (stack + 248) (call_header result) ∧
    answer raw (header_status (mem w) (stack + 248)) (call_kind result) (call_raw_code result) (call_bytes result).
Proof.
  intros Ha Hraw Hlost. destruct (header_load w σ Ha) as [[l Hl] Hget]. unfold finish. rewrite (mbind_run _ _ _ _ _ Hl).
  rewrite (mbind_run _ _ _ _ _ (Hget "status" 24 4%nat eq_refl)). fold (header_status (mem w) (stack + 248)).
  set (status := header_status _ _) in *.
  assert (bytes_at (mem w) (stack + 248) l) as Hbytes.
  { unfold load_struct in Hl. change (Z.to_nat (sizeof R4ServiceMessageHeader)) with 28%nat in Hl.
    destruct (stack_free _ _ 248 28 Ha ltac:(lia) ltac:(lia)) as [_ Hm].
    destruct (read_bytes_mapped (mem w) (stack + 248) 28 Hm) as (l' & Hl' & Hlen). rewrite Hl' in Hl. injection Hl as <-.
    unfold bytes_at. by rewrite Hlen. }
  destruct (Z.eqb_spec raw R4OS_SERVICE_API_RESULT_TIMEOUT) as [E|N1]; cbn [orb].
  { eexists _, w. split; [reflexivity|]. split; [unfold after_answer; by rewrite E|]. split; [done|]. apply answer_timed_out. by left. }
  destruct (Z.eqb_spec status R4OS_SERVICE_API_RESULT_TIMEOUT) as [E|N2].
  { eexists _, w. split; [reflexivity|]. split; [|split; [done|apply answer_timed_out; by right]].
    unfold after_answer. rewrite <-handle_lost_gone. destruct (handle_lost raw); [by apply Hlost in E|done]. }
  destruct (drop_exact w σ raw Ha) as (w' & Hr & Hafter). rewrite (mbind_run _ _ _ _ _ Hr).
  destruct (Z.ltb_spec raw 0); [eexists _, w'; split; [reflexivity|]; by split_and!; [..|apply answer_failed]|].
  destruct (Z.eqb_spec status R4OS_SERVICE_API_RESULT_OK); cbn [negb]; eexists _, w'; (split; [reflexivity|]); split_and!; try done.
  - cbn. rewrite u32_small by (unfold is_i32, is_u32 in *; lia). by apply answer_response.
  - by apply answer_remote.
Qed.
(** With the clock at [hz] in the world [w1]: no call, or one with its answer. *)
Definition served (id op request len response capacity : Z) (timeout : R4Timeout) (hz : Z) w1 result w' : Prop :=
  (result = call_failed R4OS_SERVICE_API_RESULT_INVALID ∧ w' = w1 ∧ no_waits timeout hz) ∨
   (∃ ticks w2 raw w3, waits timeout hz ticks ∧ clear R4ServiceMessageHeader (stack + 248) w1 = Some ((), w2) ∧
     call_i32 (f_call fs) [id; op; request; len; stack + 248; response; capacity; ticks] w2 = Some (raw, w3) ∧
     after_answer w3 w' raw ∧ bytes_at (mem w3) (stack + 248) (call_header result) ∧
     answer raw (header_status (mem w3) (stack + 248)) (call_kind result) (call_raw_code result) (call_bytes result)).

Lemma struct_answer w op request len response capacity timeout state header c result w' :
  r4_service_connection_call c op request len response capacity timeout state header w = Some (result, w') →
  ∃ received, r4_service_connection_call_struct c op request len response capacity timeout state header w = Some (received, w') ∧
    (call_kind received = R4_SERVICE_CALL_RESPONSE ↔
     call_kind result = R4_SERVICE_CALL_RESPONSE ∧ call_bytes result = capacity).
Proof.
  intros Hr. unfold r4_service_connection_call_struct. rewrite (mbind_run _ _ _ _ _ Hr).
  case_bool_decide as Hk; cbn [andb]; [|eexists; split; [reflexivity|naive_solver]].
  destruct (Z.eqb_spec (call_bytes result) capacity); cbn [negb]; (eexists; split; [reflexivity|naive_solver]).
Qed.

Lemma call_exact w σ op request len response capacity timeout :
  area (mem w) σ → service_free app services var (mem w) response capacity → is_u64 (nanoseconds timeout) →
  σ Client "app" = app → σ Client "raw" ≠ 0 → f_call fs ≠ 0 →
  bad_payload request len || bad_payload response capacity = false →
  ∃ hz w1 result w', r4_services_monotonic_hz app (stack + 216) w = Some (hz, w1) ∧ is_u32 hz ∧
    r4_service_connection_call (var Client) op request len response capacity timeout (stack + 216) (stack + 248) w
      = Some (result, w') ∧ served (σ Client "raw") op request len response capacity timeout hz w1 result w'.
Proof.
  intros Ha Hfree Hns Happ Hraw Hf Hbad.
  destruct (hz_run w σ Ha ltac:(intros v; apply time_law)) as (hz & w1 & Hhz & Ha1 & Hk1 & Hu & _).
  exists hz, w1.
  unfold r4_service_connection_call, r4_service_connection_valid. rewrite (mbind_run _ _ _ _ _ (valid_run w σ Client Ha)), Happ.
  rewrite (proj2 (Z.eqb_neq _ _) (proj1 (ar_app Ha))), (proj2 (Z.eqb_neq _ _) Hraw). cbn [negb andb]. rewrite Hbad.
  rewrite (mbind_run _ _ _ _ _ (struct_get w H _ _ "app" 0 8%nat eq_refl eq_refl (ar_var Ha Client))), Happ.
  rewrite (mbind_run _ _ _ _ _ (app_table_run w σ Ha)).
  rewrite (mbind_run _ _ _ _ _ (proj1 (table_slot_run w σ "service_call" (f_call fs) Ha ltac:(in_list)))).
  rewrite (proj2 (Z.eqb_neq _ _) Hf), (mbind_run _ _ _ _ _ Hhz).
  pose proof (timeout_ticks timeout hz Hns Hu) as Ht. destruct (r4_timeout_to_ticks timeout hz) as [c t].
  destruct (c =? R4OS_OK); cbn [negb]; [|eexists _, w1; split; [exact Hhz|]; split; [exact Hu|]; split; [reflexivity|by left]].
  destruct (header_clear w1 σ Ha1) as (m2 & Hr2 & Ha2 & Hk2 & Hz2). rewrite (mbind_run _ _ _ _ _ Hr2). set (w2 := World m2 (kern w1)) in *.
  destruct (keeps_trans _ _ _ Hk1 Hk2) as [Et Hk]. rewrite <-Et.
  rewrite (mbind_run _ _ _ _ _ (proj2 (table_slot_run w2 σ "service_call" (f_call fs) Ha2 ltac:(in_list)))).
  rewrite (mbind_run _ _ _ _ _ (struct_get w2 H _ _ "raw" 8 4%nat eq_refl eq_refl (ar_var Ha2 Client))).
  pose proof (call_i32_run w2 (f_call fs) [σ Client "raw"; op; request; len; stack + 248; response; capacity; default 0 t] Hf) as Hcall.
  rewrite (mbind_run _ _ _ _ _ Hcall).
  destruct (call_law w2 (σ Client "raw") op request len (stack + 248) response capacity (default 0 t)) as [(m3 & Hc1 & Hc2) Hst].
  set (r := kcall _ _ w2) in *. pose proof (area_message w2 σ _ _ _ _ Ha2 (Hk _ _ Hfree) Hc1 Hc2) as Ha3.
  destruct (finish_run (snd r) σ (i32 (fst r)) Ha3 (i32_range _) (gone_no_timeout _ _ _ _ Hz2 Hst)) as (result & w' & Hr & Hafter & Hbytes & Hans).
  exists result, w'. split; [exact Hhz|]. split; [exact Hu|]. split; [exact Hr|]. right. exists (default 0 t), w2, (i32 (fst r)), (snd r).
  split; [exact Ht|]. split; [exact Hr2|]. split; [exact Hcall|]. split; [exact Hafter|]. split; [exact Hbytes|exact Hans].
Qed.

End call.

(** A connection with the handle 5, and a poll. *)
Definition call_start : world () := World (service_memory (struct_bytes R4ServiceConnection [256; 5; 1])) ().


End R4ServiceCall.
