(* ===== verification/R4Gui.v ===== *)
(** * app_gui.h

    Windows of an application: timers, messages, the event loop, and painting.
    Structures that the code keeps are in memory; a message, which is a tagged
    union, and what a call returns by value are values. A local variable whose
    address goes to the kernel ([state], [raw], [info], [sequence]) is at the
    given address. *)

From S2P Require Import Prelude R4Abi R4Mem R4L R4LSpec.
From S2P Require Import R4Table R4Sys R4SysSpec R4SysInit R4Group R4Time.
From S2P Require Import R4Dev R4Desk R4Draw R4App.

Module R4Gui.
Export R4App R4Time.

Definition R4OS_GUI_ALPHA8_MAX_WIDTH : Z := 512.
Definition R4OS_GUI_ALPHA8_MAX_HEIGHT : Z := 512.
Definition R4_REMOTE_FRAME_ERROR_INVALID : Z := -1.

Definition R4_GUI_RAW_EVENT_CLOSE : Z := 1.
Definition R4_GUI_RAW_EVENT_RESIZE : Z := 2.
Definition R4_GUI_RAW_EVENT_MOUSE_DOWN : Z := 3.
Definition R4_GUI_RAW_EVENT_MOUSE_UP : Z := 4.
Definition R4_GUI_RAW_EVENT_MOUSE_MOVE : Z := 5.
Definition R4_GUI_RAW_EVENT_KEY_DOWN : Z := 6.

(** ** Data *)

Definition R4Timer : ctype := Struct [("id", U32); ("deadline_tick", U64); ("interval_ticks", U64); ("active", U8)].
Definition R4EventLoop : ctype := Struct [
  ("app", U64); ("timers", U64); ("timer_count", U32); ("activity_sequence", U64); ("clipboard_revision", U32);
  ("pending_command", U32); ("has_pending_command", U8)].
Definition R4Window : ctype := Struct [("app", U64); ("id", U32); ("events", R4EventLoop)].
Definition R4PaintContext : ctype := Struct [
  ("window", U64); ("info", R4GuiWindowInfo); ("active", U8); ("transactional", U8)].

(** [R4GuiEvent] as a value. *)
Record gui_event := GuiEvent {
  ev_kind : Z; ev_window_id : Z; ev_x : Z; ev_y : Z; ev_key : Z; ev_buttons : Z; ev_modifiers : Z; ev_tick : Z }.

Inductive R4MouseAction := R4_MOUSE_DOWN | R4_MOUSE_UP | R4_MOUSE_MOVE.
Record R4MouseMessage := MouseMessage {
  mouse_window_id : Z; mouse_action : R4MouseAction; mouse_x : Z; mouse_y : Z; mouse_buttons : Z; mouse_modifiers : Z; mouse_tick : Z }.

Inductive R4Message :=
  | R4_MESSAGE_CLOSE (close_window_id : Z)
  | R4_MESSAGE_RESIZE (window_id width height tick : Z)
  | R4_MESSAGE_KEY (window_id key codepoint modifiers tick : Z)
  | R4_MESSAGE_MOUSE (mouse : R4MouseMessage)
  | R4_MESSAGE_COMMAND (command : Z)
  | R4_MESSAGE_CLIPBOARD (revision : Z)
  | R4_MESSAGE_TIMER (id tick : Z)
  | R4_MESSAGE_UNKNOWN (unknown : gui_event).

(** What waiting gives; a message is there in the first case. *)
Inductive R4MessageNext :=
  | R4_MESSAGE_NEXT_MESSAGE (message : R4Message)
  | R4_MESSAGE_NEXT_TIMED_OUT
  | R4_MESSAGE_NEXT_FAILED (raw_code : Z).

(** ** Pure parts *)

(** The deadline of a repeating timer that fires at [now]. *)
Definition next_deadline (deadline interval now : Z) : Z :=
  let periods := u64 ((now - deadline) / interval + 1) in
  if (UINT64_MAX - deadline) / interval <? periods then UINT64_MAX else u64 (deadline + u64 (periods * interval)).

(** [UINT64_MAX - now < ticks ? UINT64_MAX : now + ticks]. *)
Definition tick_after (now ticks : Z) : Z := if UINT64_MAX - now <? ticks then UINT64_MAX else u64 (now + ticks).

Definition r4_mouse_message (raw : gui_event) (action : R4MouseAction) : R4MouseMessage :=
  MouseMessage (ev_window_id raw) action (ev_x raw) (ev_y raw) (ev_buttons raw) (ev_modifiers raw) (ev_tick raw).

Section code.
Context {K : Type} `{!Kernel K}.

(** [&app->desktop] and [&app->drawing]. *)
Definition app_desktop (app : Z) : Z := app + offsetof R4App_t "desktop.table".
Definition app_drawing (app : Z) : Z := app + offsetof R4App_t "drawing.table".

(** ** Timers *)

Definition r4_gui_monotonic_hz (app state : Z) : M K Z :=
  table ← (if app =? 0 then mret 0 else get R4App_t "system.table" app);
  if table =? 0 then mret 0 else
  f ← get R4XStartR4Sys "time_state" table;
  if f =? 0 then mret 0 else
  _ ← clear R4TimeState state;
  _ ← call_void f [state];
  get R4TimeState "monotonic_hz" state.

Definition r4_timer_start (timer app id duration : Z) (repeating : bool) (state : Z) : M K bool :=
  if (timer =? 0) || (app =? 0) then mret false else
  hz ← r4_gui_monotonic_hz app state;
  let '(converted, ticks) := r4_duration_to_ticks duration hz in
  if negb (converted =? R4OS_OK) then mret false else
  let ticks := default 0 ticks in
  now ← r4_app_ticks app;
  _ ← clear R4Timer timer;
  _ ← put R4Timer "id" timer id;
  _ ← put R4Timer "deadline_tick" timer (tick_after now ticks);
  _ ← put R4Timer "interval_ticks" timer (if repeating then if ticks =? 0 then 1 else ticks else 0);
  _ ← put R4Timer "active" timer 1;
  mret true.

Definition r4_timer_cancel (timer : Z) : M K () := if timer =? 0 then mret () else put R4Timer "active" timer 0.

(** ** Windows *)

Definition r4_window_open (app timers timer_count out : Z) : M K bool :=
  if (app =? 0) || (out =? 0) then mret false else
  has_desk ← r4_app_has_group app R4L_GROUP_R4DESK;
  if negb has_desk then mret false else
  has_draw ← r4_app_has_group app R4L_GROUP_R4DRAW;
  if negb has_draw then mret false else
  desk ← get R4App_t "desktop.table" app;
  draw ← get R4App_t "drawing.table" app;
  if (desk =? 0) || (draw =? 0) then mret false else
  desk_ok ← slots_set R4XStartR4Desk ["program_window_id"; "gui_window_info"; "gui_poll_event"; "desktop_activity_wait"] desk;
  if negb desk_ok then mret false else
  draw_ok ← slots_set R4XStartR4Draw ["gui_clear"; "gui_rect"; "gui_present"] draw;
  if negb draw_ok then mret false else
  id ← r4desk_program_window_id (app_desktop app);
  if id <? 0 then mret false else
  _ ← clear R4Window out;
  _ ← put R4Window "app" out app;
  _ ← put R4Window "id" out id;
  let events := out + offsetof R4Window "events" in
  _ ← put R4EventLoop "app" events app;
  _ ← put R4EventLoop "timers" events timers;
  _ ← put R4EventLoop "timer_count" events timer_count;
  f ← get R4XStartR4Desk "clipboard_revision" desk;
  _ ← (if f =? 0 then mret () else
       revision ← call_u32 f []; put R4EventLoop "clipboard_revision" events revision);
  mret true.

(** [window != 0 && window->app != 0 ? fn(&window->app->desktop, ...) : R4OS_ERR_NO_FN]. *)
Definition window_call (window : Z) (fn : Z → M K Z) : M K Z :=
  app ← (if window =? 0 then mret 0 else get R4Window "app" window);
  if app =? 0 then mret R4OS_ERR_NO_FN else fn (app_desktop app).

Definition r4_window_set_title (window title : Z) : M K Z := window_call window (λ desk, r4desk_gui_set_title desk title).
Definition r4_window_set_minimum_size (window width height : Z) : M K Z :=
  window_call window (λ desk, r4desk_gui_set_min_size desk width height).

(** ** Messages *)

Definition load_event (raw : Z) : M K gui_event :=
  kind ← get R4GuiEvent "kind" raw;
  window_id ← get R4GuiEvent "window_id" raw;
  x ← get R4GuiEvent "x" raw;
  y ← get R4GuiEvent "y" raw;
  key ← get R4GuiEvent "key" raw;
  buttons ← get R4GuiEvent "buttons" raw;
  modifiers ← get R4GuiEvent "modifiers" raw;
  tick ← get R4GuiEvent "tick" raw;
  mret (GuiEvent kind (i32 window_id) (i32 x) (i32 y) key buttons modifiers tick).

Definition r4_message_translate (loop : Z) (raw : gui_event) (info : Z) : M K R4Message :=
  if ev_kind raw =? R4_GUI_RAW_EVENT_CLOSE then mret (R4_MESSAGE_CLOSE (ev_window_id raw))
  else if ev_kind raw =? R4_GUI_RAW_EVENT_RESIZE then
    _ ← clear R4GuiWindowInfo info;
    app ← get R4EventLoop "app" loop;
    r ← r4desk_gui_window_info (app_desktop app) info;
    if r <? 0 then mret (R4_MESSAGE_UNKNOWN raw) else
    width ← get R4GuiWindowInfo "client_w" info;
    height ← get R4GuiWindowInfo "client_h" info;
    mret (R4_MESSAGE_RESIZE (ev_window_id raw) (i32 width) (i32 height) (ev_tick raw))
  else if ev_kind raw =? R4_GUI_RAW_EVENT_KEY_DOWN then
    mret (R4_MESSAGE_KEY (ev_window_id raw) (Prelude.u8 (ev_key raw)) (ev_key raw) (ev_modifiers raw) (ev_tick raw))
  else if ev_kind raw =? R4_GUI_RAW_EVENT_MOUSE_DOWN then mret (R4_MESSAGE_MOUSE (r4_mouse_message raw R4_MOUSE_DOWN))
  else if ev_kind raw =? R4_GUI_RAW_EVENT_MOUSE_UP then mret (R4_MESSAGE_MOUSE (r4_mouse_message raw R4_MOUSE_UP))
  else if ev_kind raw =? R4_GUI_RAW_EVENT_MOUSE_MOVE then mret (R4_MESSAGE_MOUSE (r4_mouse_message raw R4_MOUSE_MOVE))
  else mret (R4_MESSAGE_UNKNOWN raw).

Definition r4_event_loop_post_command (loop command : Z) : M K bool :=
  if loop =? 0 then mret false else
  pending ← get R4EventLoop "has_pending_command" loop;
  if negb (pending =? 0) then mret false else
  _ ← put R4EventLoop "pending_command" loop command;
  _ ← put R4EventLoop "has_pending_command" loop 1;
  mret true.

(** ** The event loop *)

(** A timer that is due fires: it gives its message and is set to its next deadline, or stopped. *)
Definition timer_fire (timer now : Z) : M K R4Message :=
  id ← get R4Timer "id" timer;
  interval ← get R4Timer "interval_ticks" timer;
  _ ← (if interval =? 0 then put R4Timer "active" timer 0 else
       deadline ← get R4Timer "deadline_tick" timer;
       put R4Timer "deadline_tick" timer (next_deadline deadline interval now));
  mret (R4_MESSAGE_TIMER id now).

(** [!timer->active || now < timer->deadline_tick]. *)
Definition timer_waits (timer now : Z) : M K bool :=
  active ← get R4Timer "active" timer;
  if active =? 0 then mret true else
  deadline ← get R4Timer "deadline_tick" timer; mret (now <? deadline).

(** [for (uint32_t i = 0; i < loop->timer_count; ++i)]: the first timer that is due; [n] are left. *)
Fixpoint timers_loop (n : nat) (loop i now : Z) : M K (option R4Message) :=
  match n with
  | O => mret None
  | S n =>
      timers ← get R4EventLoop "timers" loop;
      let timer := timers + i * sizeof R4Timer in
      waits ← timer_waits timer now;
      if waits : bool then timers_loop n loop (i + 1) now else
      message ← timer_fire timer now; mret (Some message)
  end.

(** The message that it puts at [out], if it returns 1; otherwise [out] is as it was. *)
Definition r4_event_loop_poll (loop out raw info : Z) : M K (option R4Message) :=
  app ← (if (loop =? 0) || (out =? 0) then mret 0 else get R4EventLoop "app" loop);
  if app =? 0 then mret None else
  _ ← clear R4GuiEvent raw;
  got ← r4desk_gui_poll_event (app_desktop app) raw;
  if 0 <? got then
    event ← load_event raw;
    message ← r4_message_translate loop event info; mret (Some message)
  else
  pending ← get R4EventLoop "has_pending_command" loop;
  if negb (pending =? 0) then
    command ← get R4EventLoop "pending_command" loop;
    _ ← put R4EventLoop "has_pending_command" loop 0; mret (Some (R4_MESSAGE_COMMAND command))
  else
  desk ← get R4App_t "desktop.table" app;
  f ← get R4XStartR4Desk "clipboard_revision" desk;
  changed ← (if f =? 0 then mret None else
    revision ← call_u32 f [];
    old ← get R4EventLoop "clipboard_revision" loop;
    if revision =? old then mret None else
    _ ← put R4EventLoop "clipboard_revision" loop revision; mret (Some (R4_MESSAGE_CLIPBOARD revision)));
  match changed with
  | Some message => mret (Some message)
  | None =>
      now ← r4_app_ticks app;
      count ← get R4EventLoop "timer_count" loop;
      fired ← timers_loop (Z.to_nat count) loop 0 now;
      match fired with
      | Some message => mret (Some message)
      | None =>
          close ← r4_app_should_close app;
          if negb close then mret None else
          id ← r4desk_program_window_id (app_desktop app); mret (Some (R4_MESSAGE_CLOSE id))
      end
  end.

(** The smallest delay of an active timer so far is [best]. *)
Fixpoint delay_loop (n : nat) (loop i now : Z) (best : option Z) : M K (option Z) :=
  match n with
  | O => mret best
  | S n =>
      timers ← get R4EventLoop "timers" loop;
      let timer := timers + i * sizeof R4Timer in
      active ← get R4Timer "active" timer;
      if active =? 0 then delay_loop n loop (i + 1) now best else
      deadline ← get R4Timer "deadline_tick" timer;
      let delay := if deadline <=? now then 0 else deadline - now in
      delay_loop n loop (i + 1) now (Some match best with Some b => if delay <? b then delay else b | None => delay end)
  end.

(** [None] is that [*found] is 0; the result is then UINT64_MAX. *)
Definition r4_event_loop_timer_delay (loop now : Z) : M K (option Z) :=
  count ← get R4EventLoop "timer_count" loop; delay_loop (Z.to_nat count) loop 0 now None.

(** [for (;;)]. *)
Fixpoint wait_loop (fuel : nat) (loop out raw info sequence : Z) (forever : bool) (deadline : Z) : M K R4MessageNext :=
  match fuel with
  | O => fault
  | S fuel =>
      polled ← r4_event_loop_poll loop out raw info;
      match polled with
      | Some message => mret (R4_MESSAGE_NEXT_MESSAGE message)
      | None =>
          app ← get R4EventLoop "app" loop;
          now ← r4_app_ticks app;
          let remaining := if forever then UINT64_MAX else if deadline <=? now then 0 else deadline - now in
          if remaining =? 0 then mret R4_MESSAGE_NEXT_TIMED_OUT else
          delay ← r4_event_loop_timer_delay loop now;
          let remaining := match delay with Some d => if d <? remaining then d else remaining | None => remaining end in
          if remaining =? 0 then wait_loop fuel loop out raw info sequence forever deadline else
          activity ← get R4EventLoop "activity_sequence" loop;
          _ ← store 8 sequence activity;
          app ← get R4EventLoop "app" loop;
          desk ← get R4App_t "desktop.table" app;
          f ← get R4XStartR4Desk "desktop_activity_wait" desk;
          raw_code ← call_i32 f [activity; remaining; sequence];
          activity ← load 8 sequence;
          _ ← put R4EventLoop "activity_sequence" loop activity;
          if raw_code <? 0 then mret (R4_MESSAGE_NEXT_FAILED raw_code) else
          wait_loop fuel loop out raw info sequence forever deadline
      end
  end.

(** The message of the result is at [out]. *)
Definition r4_event_loop_wait (fuel : nat) (loop : Z) (timeout : R4Timeout) (out raw info sequence state : Z) : M K R4MessageNext :=
  app ← (if loop =? 0 then mret 0 else get R4EventLoop "app" loop);
  desk ← (if app =? 0 then mret 0 else get R4App_t "desktop.table" app);
  f ← (if desk =? 0 then mret 0 else get R4XStartR4Desk "desktop_activity_wait" desk);
  if f =? 0 then mret (R4_MESSAGE_NEXT_FAILED R4OS_ERR_NO_FN) else
  hz ← r4_gui_monotonic_hz app state;
  let '(converted, budget) := r4_timeout_to_ticks timeout hz in
  if negb (converted =? R4OS_OK) then mret (R4_MESSAGE_NEXT_FAILED R4_REMOTE_FRAME_ERROR_INVALID) else
  app ← get R4EventLoop "app" loop;
  started ← r4_app_ticks app;
  let forever := kind timeout =? R4OS_TIMEOUT_KIND_FOREVER in
  let deadline := if forever then UINT64_MAX else tick_after started (default 0 budget) in
  wait_loop fuel loop out raw info sequence forever deadline.

Definition r4_window_wait_message (fuel : nat) (window : Z) (timeout : R4Timeout) (out raw info sequence state : Z) : M K R4MessageNext :=
  if window =? 0 then mret (R4_MESSAGE_NEXT_FAILED R4OS_ERR_NO_FN) else
  r4_event_loop_wait fuel (window + offsetof R4Window "events") timeout out raw info sequence state.

(** ** Painting *)

Definition r4_window_begin_paint (window out : Z) : M K bool :=
  app ← (if (window =? 0) || (out =? 0) then mret 0 else get R4Window "app" window);
  if app =? 0 then mret false else
  _ ← clear R4PaintContext out;
  _ ← put R4PaintContext "window" out window;
  let info := out + offsetof R4PaintContext "info" in
  r ← r4desk_gui_window_info (app_desktop app) info;
  if r <? 0 then mret false else
  width ← get R4GuiWindowInfo "client_w" info;
  if i32 width <=? 0 then mret false else
  height ← get R4GuiWindowInfo "client_h" info;
  if i32 height <=? 0 then mret false else
  transactional ← r4draw_supports_gui_frame_contract (app_drawing app);
  _ ← put R4PaintContext "transactional" out (if transactional : bool then 1 else 0);
  begun ← (if transactional : bool then r4draw_gui_frame_begin (app_drawing app) else mret 0);
  if begun <? 0 then mret false else
  _ ← put R4PaintContext "active" out 1;
  mret true.

(** A canvas by its one field. *)
Definition r4_paint_canvas (paint : Z) : Z := paint.

(** [&paint->window->app->drawing]. *)
Definition paint_drawing (paint : Z) : M K Z :=
  window ← get R4PaintContext "window" paint;
  app ← get R4Window "app" window; mret (app_drawing app).

Definition canvas_active (canvas : Z) : M K bool :=
  if canvas =? 0 then mret false else active ← get R4PaintContext "active" canvas; mret (negb (active =? 0)).

Definition canvas_call (canvas : Z) (fn : Z → M K Z) : M K Z :=
  ok ← canvas_active canvas;
  if negb ok then mret R4OS_ERR_NO_FN else draw ← paint_drawing canvas; fn draw.

Definition r4_canvas_clear (canvas rgb : Z) : M K Z := canvas_call canvas (λ draw, r4draw_gui_clear draw rgb).
Definition r4_canvas_rect (canvas x y width height rgb : Z) : M K Z :=
  canvas_call canvas (λ draw, r4draw_gui_rect draw x y width height rgb).
Definition r4_canvas_text (canvas x y text fg bg : Z) : M K Z :=
  canvas_call canvas (λ draw, r4draw_gui_draw_text draw x y text fg bg).

Definition r4_canvas_blend_alpha8 (canvas x y width height stride rgb alpha alpha_len : Z) : M K Z :=
  ok ← canvas_active canvas;
  if negb ok || (alpha =? 0) then mret R4OS_ERR_NO_FN else
  if (width =? 0) || (height =? 0) then mret 0 else
  if (R4OS_GUI_ALPHA8_MAX_WIDTH <? width) || (R4OS_GUI_ALPHA8_MAX_HEIGHT <? height) || (stride <? width)
  then mret R4OS_ERROR_INVALID else
  let required := u64 ((height - 1) * stride + width) in
  if alpha_len <? required then mret R4OS_ERROR_INVALID else
  let left := if x <? 0 then 0 else x in
  let top := if y <? 0 then 0 else y in
  let info := canvas + offsetof R4PaintContext "info" in
  client_w ← get R4GuiWindowInfo "client_w" info;
  client_h ← get R4GuiWindowInfo "client_h" info;
  let right := if i32 client_w <? x + width then i32 client_w else x + width in
  let bottom := if i32 client_h <? y + height then i32 client_h else y + height in
  if (right <=? left) || (bottom <=? top) then mret 0 else
  let source_x := u64 (left - x) in
  let source_y := u64 (top - y) in
  let visible_width := Prelude.u32 (right - left) in
  let visible_height := Prelude.u32 (bottom - top) in
  let source_offset := u64 (source_y * stride + source_x) in
  let visible_bytes := u64 ((visible_height - 1) * stride + visible_width) in
  if (alpha_len <? source_offset) || (alpha_len - source_offset <? visible_bytes) then mret R4OS_ERROR_INVALID else
  draw ← paint_drawing canvas;
  r4draw_gui_blend_alpha8 draw (i32 left) (i32 top) visible_width visible_height stride rgb (alpha + source_offset) visible_bytes.

Definition r4_paint_present (paint : Z) : M K Z :=
  ok ← canvas_active paint;
  if negb ok then mret R4OS_ERR_NO_FN else
  transactional ← get R4PaintContext "transactional" paint;
  draw ← paint_drawing paint;
  raw ← (if negb (transactional =? 0) then r4draw_gui_frame_commit draw else r4draw_gui_present draw);
  _ ← (if 0 <=? raw then put R4PaintContext "active" paint 0 else mret ());
  mret raw.

Definition r4_paint_discard (paint : Z) : M K () :=
  if paint =? 0 then mret () else
  active ← get R4PaintContext "active" paint;
  transactional ← get R4PaintContext "transactional" paint;
  _ ← (if negb (active =? 0) && negb (transactional =? 0)
       then draw ← paint_drawing paint; _ ← r4draw_gui_frame_cancel draw; mret () else mret ());
  put R4PaintContext "active" paint 0.
End code.

End R4Gui.
