(* ===== verification/R4GuiBlend.v ===== *)
(** * Blending an image onto a canvas

    [r4_canvas_blend_alpha8] clips an image of coverage values to the client area
    of the window: the pixels it hands to the kernel are those that can be
    seen, with the values they have in the image. *)

From S2P Require Import Prelude R4Abi R4Mem R4L R4LSpec.
From S2P Require Import R4Table R4Sys R4SysSpec R4SysInit R4Field R4Group R4Time.
From S2P Require Import R4Dev R4Desk R4Draw R4App R4Gui.

Module R4GuiBlend.
Export R4Field R4Gui.

(** Pixel [i], [j] of an image of [width] times [height] at [x], [y] is inside a
    client area of [cw] times [ch]. *)
Definition visible (x y width height cw ch i j : Z) : Prop :=
  0 ≤ i < width ∧ 0 ≤ j < height ∧ 0 ≤ x + i < cw ∧ 0 ≤ y + j < ch.

(** The image has a size that the kernel takes, and its values are in the buffer. *)
Definition image_fits (width height stride alpha_len : Z) : Prop :=
  width ≤ R4OS_GUI_ALPHA8_MAX_WIDTH ∧ height ≤ R4OS_GUI_ALPHA8_MAX_HEIGHT ∧ width ≤ stride ∧
  (height - 1) * stride + width ≤ alpha_len.

(** The part [W] times [H] at [X], [Y], whose values are the [n] bytes at [off], is
    what can be seen of the image. *)
Record shows (x y width height stride alpha_len cw ch X Y W H off n : Z) : Prop := {
  sh_size : 0 < W ≤ width ∧ 0 < H ≤ height ∧ 0 ≤ X ∧ 0 ≤ Y;
  sh_pixels : ∀ i j, visible x y width height cw ch i j ↔ X ≤ x + i < X + W ∧ Y ≤ y + j < Y + H;
  sh_values : ∀ i j, visible x y width height cw ch i j →
    off + ((y + j - Y) * stride + (x + i - X)) = j * stride + i ∧ 0 ≤ (y + j - Y) * stride + (x + i - X) < n;
  sh_inside : 0 ≤ off ∧ 0 < n ∧ off + n ≤ alpha_len
}.

(** ** The arithmetic *)

Section clip.
Variables (x y width height stride alpha_len cw ch : Z).
Hypotheses (Hx : is_i32 x) (Hy : is_i32 y) (Hw : 0 < width) (Hh : 0 < height) (Hs : is_u32 stride).
Hypothesis Hfits : image_fits width height stride alpha_len.

Definition left : Z := if x <? 0 then 0 else x.
Definition top : Z := if y <? 0 then 0 else y.
Definition right : Z := if cw <? x + width then cw else x + width.
Definition bottom : Z := if ch <? y + height then ch else y + height.

Lemma clip_pixels i j :
  visible x y width height cw ch i j ↔ left ≤ x + i < right ∧ top ≤ y + j < bottom.
Proof.
  unfold visible, left, top, right, bottom.
  destruct (Z.ltb_spec x 0), (Z.ltb_spec y 0), (Z.ltb_spec cw (x + width)), (Z.ltb_spec ch (y + height)); lia.
Qed.

Lemma clip_inside : left < right → top < bottom →
  0 ≤ left - x < width ∧ 0 ≤ top - y < height ∧ (left - x) + (right - left) ≤ width ∧ (top - y) + (bottom - top) ≤ height ∧
  0 ≤ left < 2 ^ 31 ∧ 0 ≤ top < 2 ^ 31.
Proof.
  unfold left, top, right, bottom, is_i32 in *.
  destruct (Z.ltb_spec x 0), (Z.ltb_spec y 0), (Z.ltb_spec cw (x + width)), (Z.ltb_spec ch (y + height)); lia.
Qed.

(** What is seen is in the buffer, and nothing in the computation wraps around. *)
Lemma clip_shows : left < right → top < bottom →
  let off := (top - y) * stride + (left - x) in
  let n := (bottom - top - 1) * stride + (right - left) in
  shows x y width height stride alpha_len cw ch left top (right - left) (bottom - top) off n ∧
  0 ≤ off < 2 ^ 64 ∧ 0 ≤ n < 2 ^ 64.
Proof.
  intros Hlr Htb off n. destruct (clip_inside Hlr Htb) as (H1 & H2 & H3 & H4 & H5 & H6).
  destruct Hfits as (F1 & F2 & F3 & F4). unfold is_u32, R4OS_GUI_ALPHA8_MAX_WIDTH, R4OS_GUI_ALPHA8_MAX_HEIGHT in *.
  assert (0 ≤ off) by (unfold off; nia). assert (0 < n) by (unfold n; nia).
  assert (off + n = (top - y + (bottom - top) - 1) * stride + ((left - x) + (right - left))) as Hsum by (unfold off, n; ring).
  assert (off + n ≤ (height - 1) * stride + width) by (rewrite Hsum; nia).
  assert ((height - 1) * stride + width < 2 ^ 64) by nia. split; [|lia]. split.
  - lia.
  - intros i j. rewrite clip_pixels. lia.
  - intros i j [Hi Hj]%clip_pixels. split; [unfold off; ring|]. unfold n. split; nia.
  - lia.
Qed.
End clip.

(** ** The code *)

Section blend.
Context {K : Type} `{!Kernel K}.
Implicit Types (w : world K) (m : gmap Z byte).

(** A canvas that is being painted, with the fields of its window's information. *)
Record painting m (canvas : Z) (ι : string → Z) (draw : Z) : Prop := {
  pa_canvas : canvas ≠ 0 ∧ mapped m canvas (sizeof R4PaintContext);
  pa_active : fv m R4PaintContext canvas "active" ≠ 0;
  pa_info : struct_at m R4GuiWindowInfo (canvas + 8) ι;
  pa_window : mapped m (fv m R4PaintContext canvas "window") (sizeof R4Window);
  pa_draw : app_drawing (fv m R4Window (fv m R4PaintContext canvas "window") "app") = draw
}.

Lemma canvas_active_run w canvas ι draw : painting (mem w) canvas ι draw → canvas_active canvas w = Some (true, w).
Proof.
  intros [[H0 Hm] Ha _ _ _]. unfold canvas_active. rewrite (proj2 (Z.eqb_neq _ _) H0).
  rewrite (mbind_run _ _ _ _ _ (get_run w R4PaintContext "active" canvas _ Hm eq_refl)).
  by rewrite (proj2 (Z.eqb_neq _ _) Ha).
Qed.

Lemma paint_drawing_run w canvas ι draw : painting (mem w) canvas ι draw → paint_drawing canvas w = Some (draw, w).
Proof.
  intros [[H0 Hm] _ _ Hw Hd]. unfold paint_drawing.
  rewrite (mbind_run _ _ _ _ _ (get_run w R4PaintContext "window" canvas _ Hm eq_refl)).
  rewrite (mbind_run _ _ _ _ _ (get_run w R4Window "app" _ _ Hw eq_refl)). by rewrite Hd.
Qed.

(** Past the checks of the arguments, it is clipping and one call, or nothing. *)
Lemma blend_run w canvas ι draw x y width height stride rgb alpha alpha_len :
  painting (mem w) canvas ι draw → is_i32 x → is_i32 y → 0 < width → 0 < height → is_u32 stride →
  alpha ≠ 0 → image_fits width height stride alpha_len →
  let cw := i32 (ι "client_w") in let ch := i32 (ι "client_h") in
  let l := left x in let t := top y in let r := right x width cw in let b := bottom y height ch in
  r4_canvas_blend_alpha8 canvas x y width height stride rgb alpha alpha_len w =
  if (r <=? l) || (b <=? t) then Some (0, w) else
  r4draw_gui_blend_alpha8 draw l t (r - l) (b - t) stride rgb
    (alpha + ((t - y) * stride + (l - x))) ((b - t - 1) * stride + (r - l)) w.
Proof.
  intros Hp Hx Hy Hw Hh Hs Ha Hf cw ch l t r b. unfold r4_canvas_blend_alpha8.
  rewrite (mbind_run _ _ _ _ _ (canvas_active_run w canvas ι draw Hp)), (proj2 (Z.eqb_neq _ _) Ha). cbn [negb orb].
  rewrite (proj2 (Z.eqb_neq width 0)), (proj2 (Z.eqb_neq height 0)) by lia. cbn [orb].
  pose proof Hf as (F1 & F2 & F3 & F4).
  rewrite (proj2 (Z.ltb_ge _ _) F1), (proj2 (Z.ltb_ge _ _) F2), (proj2 (Z.ltb_ge _ _) F3). cbn [orb].
  unfold is_u32, R4OS_GUI_ALPHA8_MAX_WIDTH, R4OS_GUI_ALPHA8_MAX_HEIGHT in *.
  rewrite (u64_small ((height - 1) * stride + width)) by (unfold is_u64; nia). rewrite (proj2 (Z.ltb_ge _ _) F4).
  change (offsetof R4PaintContext "info") with 8. pose proof (pa_info _ _ _ _ Hp) as Hi. field_get Hi. field_get Hi.
  fold cw ch. change (if x <? 0 then 0 else x) with l. change (if y <? 0 then 0 else y) with t.
  change (if cw <? x + width then cw else x + width) with r. change (if ch <? y + height then ch else y + height) with b.
  destruct ((r <=? l) || (b <=? t)) eqn:E; [done|]. apply orb_false_iff in E as [E1%Z.leb_gt E2%Z.leb_gt].
  destruct (clip_shows x y width height stride alpha_len cw ch Hx Hy Hw Hh Hs Hf E1 E2) as ([_ _ _ Hin] & Hoff & Hn).
  destruct (clip_inside x y width height cw ch Hx Hy Hw Hh E1 E2) as (G1 & G2 & G3 & G4 & G5 & G6).
  fold l t r b in Hin, Hoff, Hn, G1, G2, G3, G4, G5, G6. rewrite !(u64_small (l - x)), !(u64_small (t - y)) by (unfold is_u64; lia).
  rewrite !(u32_small (r - l)), !(u32_small (b - t)) by (unfold is_u32; lia).
  rewrite !u64_small by (unfold is_u64; lia). rewrite (proj2 (Z.ltb_ge alpha_len _)), (proj2 (Z.ltb_ge (alpha_len - _) _)) by lia.
  cbn [orb]. rewrite (mbind_run _ _ _ _ _ (paint_drawing_run w canvas ι draw Hp)).
  by rewrite !i32_small by (unfold is_i32; lia).
Qed.

(** C36. Blending an image never hands the kernel a pixel outside the client area
    or a byte outside the image's buffer. An image that does not fit its buffer
    is refused; of an image of which nothing can be seen nothing is drawn; and
    otherwise one call draws exactly the pixels that can be seen, each with its
    own value. *)
Theorem blend_clips w canvas ι draw x y width height stride rgb alpha alpha_len :
  painting (mem w) canvas ι draw → is_i32 x → is_i32 y → is_u32 width → is_u32 height → is_u32 stride →
  0 ≤ alpha_len → alpha ≠ 0 → width ≠ 0 → height ≠ 0 →
  let blend := r4_canvas_blend_alpha8 canvas x y width height stride rgb alpha alpha_len w in
  let seen := visible x y width height (i32 (ι "client_w")) (i32 (ι "client_h")) in
  (¬ image_fits width height stride alpha_len ∧ blend = Some (R4OS_ERROR_INVALID, w)) ∨
  (image_fits width height stride alpha_len ∧ (∀ i j, ¬ seen i j) ∧ blend = Some (0, w)) ∨
  (image_fits width height stride alpha_len ∧
   ∃ X Y W H off n,
     shows x y width height stride alpha_len (i32 (ι "client_w")) (i32 (ι "client_h")) X Y W H off n ∧
     blend = r4draw_gui_blend_alpha8 draw X Y W H stride rgb (alpha + off) n w).
Proof.
  intros Hp Hx Hy Hw Hh Hs Hlen Ha Hw0 Hh0 blend seen. unfold is_u32 in Hw, Hh.
  assert (image_fits width height stride alpha_len ∨ ¬ image_fits width height stride alpha_len) as [Hf|Hf]
    by (unfold image_fits; lia).
  - right. set (cw := i32 (ι "client_w")) in *. set (ch := i32 (ι "client_h")) in *.
    pose proof (blend_run w canvas ι draw x y width height stride rgb alpha alpha_len Hp Hx Hy ltac:(lia) ltac:(lia) Hs Ha Hf) as Hr.
    cbv zeta in Hr. fold cw ch blend in Hr. destruct (_ || _) eqn:E.
    + left. split; [done|]. split; [|done]. intros i j. unfold seen. rewrite clip_pixels.
      apply orb_true_iff in E as [E%Z.leb_le|E%Z.leb_le]; lia.
    + right. split; [done|]. apply orb_false_iff in E as [E1%Z.leb_gt E2%Z.leb_gt]. 
      destruct (clip_shows x y width height stride alpha_len cw ch Hx Hy ltac:(lia) ltac:(lia) Hs Hf E1 E2) as [Hsh _].
      eexists _, _, _, _, _, _. split; [exact Hsh|exact Hr].
  - left. split; [done|]. unfold blend, r4_canvas_blend_alpha8.
    rewrite (mbind_run _ _ _ _ _ (canvas_active_run w canvas ι draw Hp)), (proj2 (Z.eqb_neq _ _) Ha). cbn [negb orb].
    rewrite (proj2 (Z.eqb_neq width 0)), (proj2 (Z.eqb_neq height 0)) by lia. cbn [orb].
    destruct (_ || _) eqn:E; [done|]. apply orb_false_iff in E as [[E1%Z.ltb_ge E2%Z.ltb_ge]%orb_false_iff E3%Z.ltb_ge].
    unfold image_fits, is_u32, R4OS_GUI_ALPHA8_MAX_WIDTH, R4OS_GUI_ALPHA8_MAX_HEIGHT in *.
    rewrite u64_small by (unfold is_u64; nia). by rewrite (proj2 (Z.ltb_lt _ _)) by lia.
Qed.
End blend.

(** A canvas at 256 with a client area of 10 times 10, of a window at 512. *)
Definition blend_start : world call_log := World (image [
  (264, struct_bytes R4GuiWindowInfo [1; 0; 0; 10; 10; 0; 0; 10; 10; 0]); (256, struct_bytes R4PaintContext [512; 0; 1; 0]);
  (512, struct_bytes R4Window [1024; 1])]) [].

(** An image of 4 times 3 that sticks out at the top left. *)
Lemma blend_clips_witness :
  ∃ X Y W H off n, shows (-1) (-1) 4 3 8 24 10 10 X Y W H off n ∧
    r4_canvas_blend_alpha8 256 (-1) (-1) 4 3 8 255 4096 24 blend_start
      = r4draw_gui_blend_alpha8 (app_drawing 1024) X Y W H 8 255 (4096 + off) n blend_start.
Proof.
  pose proof (blend_clips blend_start 256 (fv (mem blend_start) R4GuiWindowInfo 264) (app_drawing 1024) (-1) (-1) 4 3 8 255 4096 24) as H.
  cbv zeta in H. destruct H as [[Hf _]|[[_ [Hnone _]]|[_ H]]]; try (unfold is_i32, is_u32; lia).
  - split.
    + split; [lia|apply mapped_b_mapped; vm_compute; reflexivity].
    + vm_compute. discriminate.
    + apply struct_own, mapped_b_mapped. vm_compute. reflexivity.
    + apply mapped_b_mapped. vm_compute. reflexivity.
    + vm_compute. reflexivity.
  - destruct Hf. vm_compute. repeat split; discriminate.
  - destruct (Hnone 1 1). vm_compute. repeat split; (discriminate || reflexivity).
  - exact H.
Defined.

End R4GuiBlend.
