(* ===== verification/R4GuiTimer.v ===== *)
(** * Timers of an event loop

    The array of timers in memory as a list, and what polling it and asking for the
    shortest delay mean for that list. *)

From S2P Require Import Prelude R4Abi R4Mem R4L R4LSpec.
From S2P Require Import R4Table R4Sys R4SysSpec R4SysInit R4Field R4Group R4Time.
From S2P Require Import R4Dev R4Desk R4Draw R4App R4Gui.

Module R4GuiTimer.
Export R4Field R4Gui.

(** ** The specification *)

Record timer := Timer { t_id : Z; t_deadline : Z; t_interval : Z; t_active : bool }.

Definition timer_ok (t : timer) : Prop := is_u32 (t_id t) ∧ is_u64 (t_deadline t) ∧ is_u64 (t_interval t).

Definition due (now : Z) (t : timer) : Prop := t_active t = true ∧ t_deadline t ≤ now.
#[global] Instance due_dec now t : Decision (due now t).
Proof. unfold due. apply _. Defined.

(** What becomes of a timer that fires: it stops, or its next deadline is the first
    of [t_deadline t + k * t_interval t] that is after [now], or the end of the
    clock if that is later. *)
Record fires (now : Z) (t t' : timer) : Prop := {
  fi_same : t_id t' = t_id t ∧ t_interval t' = t_interval t;
  fi_once : t_interval t = 0 → t_active t' = false;
  fi_again : t_interval t ≠ 0 → t_active t' = true ∧
    ∃ k, 0 < k ∧ let d := t_deadline t + k * t_interval t in
      now < d ≤ now + t_interval t ∧ t_deadline t' = UINT64_MAX `min` d;
  fi_rests : ¬ due now t'
}.

(** [d] is the time until the next timer, if there is one. *)
Definition shortest (now : Z) (l : list timer) (d : option Z) : Prop :=
  match d with
  | None => Forall (λ t, t_active t = false) l
  | Some d => 0 ≤ d ∧ (∃ t, t ∈ l ∧ due (now + d) t) ∧ ∀ t e, t ∈ l → 0 ≤ e < d → ¬ due (now + e) t
  end.

(** ** The arithmetic *)

Lemma next_deadline_spec deadline interval now :
  is_u64 deadline → 0 < interval < 2 ^ 64 → deadline ≤ now < UINT64_MAX →
  let d := next_deadline deadline interval now in
  is_u64 d ∧ now < d ∧
  ∃ k, 0 < k ∧ now < deadline + k * interval ≤ now + interval ∧ d = UINT64_MAX `min` (deadline + k * interval).
Proof.
  unfold next_deadline, is_u64, UINT64_MAX. intros Hd Hi Hn. cbv zeta.
  destruct (div_facts (now - deadline) interval ltac:(lia)) as (E1 & E2 & _). set (q := (now - deadline) / interval) in *.
  assert (0 ≤ q) by (apply Z.div_pos; lia). assert (q ≤ now - deadline) by nia.
  rewrite (u64_small (q + 1)) by (unfold is_u64; lia).
  destruct (div_facts (2 ^ 64 - 1 - deadline) interval ltac:(lia)) as (E3 & E4 & _).
  set (lim := (2 ^ 64 - 1 - deadline) / interval) in *.
  destruct (Z.ltb_spec lim (q + 1)) as [Hgt|Hle].
  { split; [lia|]. split; [lia|]. exists (q + 1). split; [lia|]. split; [nia|]. rewrite Z.min_l; [done|]. nia. }
  assert ((q + 1) * interval ≤ 2 ^ 64 - 1 - deadline) by nia. assert (0 ≤ (q + 1) * interval) by nia.
  rewrite (u64_small ((q + 1) * interval)) by (unfold is_u64; lia). rewrite u64_small by (unfold is_u64; lia).
  split; [lia|]. split; [nia|]. exists (q + 1). split; [lia|]. split; [nia|lia].
Qed.

Definition fired (now : Z) (t : timer) : timer :=
  if t_interval t =? 0 then Timer (t_id t) (t_deadline t) 0 false
  else Timer (t_id t) (next_deadline (t_deadline t) (t_interval t) now) (t_interval t) true.

Lemma fired_fires now t :
  timer_ok t → due now t → now < UINT64_MAX → fires now t (fired now t) ∧ timer_ok (fired now t).
Proof.
  intros (H1 & H2 & H3) [Ha Hd] Hn. unfold fired. destruct (Z.eqb_spec (t_interval t) 0) as [E|E].
  - split; [|by split_and!]. split; [done|done|done|]. by intros [? _].
  - destruct (next_deadline_spec (t_deadline t) (t_interval t) now H2 ltac:(unfold is_u64 in *; lia) ltac:(lia)) as (G1 & G2 & G3).
    split; [|done]. split; [done|done| |].
    + intros _. split; [done|exact G3].
    + intros [_ Hle]. cbn [t_deadline] in Hle. lia.
Qed.

(** ** Timers in memory *)

Definition timer_fields (t : timer) : string → Z := λ f,
  if String.eqb f "id" then t_id t else if String.eqb f "deadline_tick" then t_deadline t
  else if String.eqb f "interval_ticks" then t_interval t else if t_active t then 1 else 0.

Lemma timer_field f q : field_at R4Timer f = Some q → f = "id" ∨ f = "deadline_tick" ∨ f = "interval_ticks" ∨ f = "active".
Proof. destruct q. intros H%field_scalar. cbn in H. intuition congruence. Qed.

Definition timers_at (m : gmap Z byte) (base : Z) (l : list timer) : Prop :=
  ∀ i t, l !! i = Some t → struct_at m R4Timer (base + Z.of_nat i * 32) (timer_fields t).

Lemma timers_changed m m' base l a n :
  changed m m' a n → a + n ≤ base ∨ base + Z.of_nat (length l) * 32 ≤ a → timers_at m base l → timers_at m' base l.
Proof.
  intros Hch Hd Ht i t Hi. pose proof (lookup_lt_Some _ _ _ Hi). eapply struct_changed; [reflexivity|exact Hch| |by apply Ht].
  change (sizeof R4Timer) with 32. lia.
Qed.

Lemma timers_insert m m' base l i t' :
  (i < length l)%nat → changed m m' (base + Z.of_nat i * 32) 32 → struct_at m' R4Timer (base + Z.of_nat i * 32) (timer_fields t') →
  timers_at m base l → timers_at m' base (<[i := t']> l).
Proof.
  intros Hi Hch Hs Ht j t Hj. destruct (decide (i = j)) as [<-|Hne].
  - rewrite list_lookup_insert_eq in Hj by done. by injection Hj as <-.
  - rewrite list_lookup_insert_ne in Hj by done. eapply struct_changed; [reflexivity|exact Hch| |by apply Ht].
    change (sizeof R4Timer) with 32. lia.
Qed.

Section run.
Context {K : Type} `{!Kernel K}.
Implicit Types (w : world K) (m : gmap Z byte).

Lemma timer_waits_run w p t now :
  struct_at (mem w) R4Timer p (timer_fields t) → timer_waits p now w = Some (negb (bool_decide (due now t)), w).
Proof.
  intros Hs. unfold timer_waits. field_get Hs. change (timer_fields t "active") with (if t_active t then 1 else 0).
  destruct (t_active t) eqn:Ea.
  - change (1 =? 0) with false. cbv iota. field_get Hs. change (timer_fields t "deadline_tick") with (t_deadline t).
    unfold mret, m_ret. do 2 f_equal. destruct (Z.ltb_spec now (t_deadline t)).
    + rewrite bool_decide_eq_false_2; [done|]. intros [_ ?]. lia.
    + rewrite bool_decide_eq_true_2; [done|by split].
  - change (0 =? 0) with true. cbv iota. rewrite bool_decide_eq_false_2; [done|]. by intros [? _]; rewrite Ea in *.
Qed.

Lemma timer_fire_run w p t now :
  struct_at (mem w) R4Timer p (timer_fields t) → timer_ok t → due now t → now < UINT64_MAX →
  ∃ m', timer_fire p now w = Some (R4_MESSAGE_TIMER (t_id t) now, World m' (kern w)) ∧
    changed (mem w) m' p 32 ∧ struct_at m' R4Timer p (timer_fields (fired now t)).
Proof.
  intros Hs Hok Hdue Hn. unfold timer_fire. field_get Hs. field_get Hs.
  change (timer_fields t "id") with (t_id t). change (timer_fields t "interval_ticks") with (t_interval t).
  destruct (fired_fires now t Hok Hdue Hn) as [_ (_ & Hd' & _)]. pose proof Hok as (H1 & H2 & H3). destruct Hdue as [Ha Hle].
  assert (∃ f v o k, field_at R4Timer f = Some (o, k) ∧ 0 ≤ v < 2 ^ (8 * Z.of_nat k) ∧
      (if t_interval t =? 0 then put R4Timer "active" p 0 else
       deadline ← get R4Timer "deadline_tick" p; put R4Timer "deadline_tick" p (next_deadline deadline (t_interval t) now)) w
      = put R4Timer f p v w ∧ ∀ g q, field_at R4Timer g = Some q → upd (timer_fields t) f v g = timer_fields (fired now t) g)
    as (f & v & o & k & Hf & Hv & Heq & Hfields).
  { unfold fired in *. destruct (Z.eqb_spec (t_interval t) 0) as [E|E].
    - exists "active", 0, 24, 1%nat. split_and!; [done|lia|lia|done|]. intros g q Hg%timer_field.
      by destruct Hg as [->|[->|[->| ->]]]; cbn; rewrite ?E.
    - exists "deadline_tick", (next_deadline (t_deadline t) (t_interval t) now), 8, 8%nat.
      split; [done|]. split; [exact Hd'|]. split; [by field_get Hs|]. intros g q Hg%timer_field.
      by destruct Hg as [->|[->|[->| ->]]]; cbn; rewrite ?Ha. }
  destruct (struct_put w R4Timer p (timer_fields t) f v o k eq_refl Hf Hs Hv) as (m' & Hr & Hc & _ & Hs').
  rewrite <-Heq in Hr. rewrite (mbind_run _ _ _ _ _ Hr). eexists. split; [reflexivity|]. split; [exact Hc|].
  by eapply struct_ext.
Qed.

(** ** The loops *)

(** An event loop at [loop] with these fields, and its timers. *)
Record loop_at m (loop : Z) (ρ : string → Z) (l : list timer) : Prop := {
  la_loop : struct_at m R4EventLoop loop ρ;
  la_count : ρ "timer_count" = Z.of_nat (length l);
  la_timers : timers_at m (ρ "timers") l;
  la_ok : Forall timer_ok l;
  la_apart : loop + 48 ≤ ρ "timers" ∨ ρ "timers" + Z.of_nat (length l) * 32 ≤ loop
}.

Lemma loop_insert m m' loop ρ l i t' :
  (i < length l)%nat → loop_at m loop ρ l → timer_ok t' →
  changed m m' (ρ "timers" + Z.of_nat i * 32) 32 → struct_at m' R4Timer (ρ "timers" + Z.of_nat i * 32) (timer_fields t') →
  loop_at m' loop ρ (<[i := t']> l).
Proof.
  intros Hi [H1 H2 H3 H4 H5] Hok Hch Hs. split; rewrite ?length_insert; [|done| | |done].
  - eapply struct_changed; [reflexivity|exact Hch| |exact H1]. change (sizeof R4EventLoop) with 48. lia.
  - by eapply timers_insert.
  - by apply Forall_insert.
Qed.

Lemma timers_loop_run w loop ρ l now n i :
  loop_at (mem w) loop ρ l → now < UINT64_MAX → (i + n)%nat = length l →
  Forall (λ t, ¬ due now t) (take i l) →
  (timers_loop n loop (Z.of_nat i) now w = Some (None, w) ∧ Forall (λ t, ¬ due now t) l) ∨
  (∃ j t m', l !! j = Some t ∧ due now t ∧ Forall (λ t, ¬ due now t) (take j l) ∧
    timers_loop n loop (Z.of_nat i) now w = Some (Some (R4_MESSAGE_TIMER (t_id t) now), World m' (kern w)) ∧
    changed (mem w) m' (ρ "timers" + Z.of_nat j * 32) 32 ∧ loop_at m' loop ρ (<[j := fired now t]> l)).
Proof.
  intros Hl Hn. revert i. induction n as [|n IH]; intros i Hlen Hnone; cbn [timers_loop].
  { left. split; [done|]. by rewrite take_ge in Hnone by lia. }
  destruct (lookup_lt_is_Some_2 l i ltac:(lia)) as [t Ht]. pose proof (la_loop _ _ _ _ Hl) as Hs. field_get Hs.
  change (sizeof R4Timer) with 32. pose proof (la_timers _ _ _ _ Hl i t Ht) as Hst.
  rewrite (mbind_run _ _ _ _ _ (timer_waits_run w _ t now Hst)).
  case_bool_decide as Hdue; cbn [negb].
  - right. pose proof (proj1 (Forall_lookup _ _) (la_ok _ _ _ _ Hl) i t Ht) as Hok.
    destruct (timer_fire_run w _ t now Hst Hok Hdue Hn) as (m' & Hr & Hc & Hs'). exists i, t, m'.
    split_and!; [done|done|done|by rewrite (mbind_run _ _ _ _ _ Hr)|done|].
    eapply loop_insert; [lia|done| |done|done]. by apply (fired_fires now t).
  - replace (Z.of_nat i + 1) with (Z.of_nat (S i)) by lia. apply IH; [lia|].
    rewrite (take_S_r _ _ _ Ht). by apply Forall_app_2, Forall_singleton.
Qed.

Lemma shortest_snoc now l best t :
  shortest now l best →
  shortest now (l ++ [t]) (if t_active t then
    let delay := if t_deadline t <=? now then 0 else t_deadline t - now in
    Some match best with Some b => if delay <? b then delay else b | None => delay end else best).
Proof.
  intros Hb. destruct (t_active t) eqn:Ha.
  - cbv zeta. set (delay := if t_deadline t <=? now then 0 else t_deadline t - now).
    assert (0 ≤ delay ∧ ∀ e, 0 ≤ e → due (now + e) t ↔ delay ≤ e) as [Hd0 Hd].
    { unfold delay, due. rewrite Ha. destruct (Z.leb_spec (t_deadline t) now); (split; [lia|]); intros e He; split; [lia|by split; [|lia]|lia|by split; [|lia]]. }
    destruct best as [b|]; cbn [shortest] in *.
    + destruct Hb as (Hb0 & (u & Hu & Hdu) & Hmin). assert (∀ x, (if delay <? b then delay else b) = x → x = delay ∧ delay < b ∨ x = b ∧ b ≤ delay) as Hx.
      { intros x <-. destruct (Z.ltb_spec delay b); lia. }
      destruct (Hx _ eq_refl) as [[-> Hlt]|[-> Hle]]; (split; [lia|]); split.
      * exists t. split; [apply list_elem_of_In, in_or_app; by right; left|]. apply Hd; lia.
      * intros v e [Hv|Hv%list_elem_of_singleton]%elem_of_app He; [apply Hmin; [done|lia]|subst; rewrite Hd by lia; lia].
      * exists u. split; [apply elem_of_app; by left|done].
      * intros v e [Hv|Hv%list_elem_of_singleton]%elem_of_app He; [by apply Hmin|subst; rewrite Hd by lia; lia].
    + split; [done|]. split; [exists t; split; [apply list_elem_of_In, in_or_app; by right; left|by apply Hd]|]. intros v e [Hv|Hv%list_elem_of_singleton]%elem_of_app He.
      * rewrite Forall_forall in Hb. intros [Hav _]. by rewrite (Hb v Hv) in Hav.
      * subst. rewrite Hd by lia. lia.
  - destruct best as [b|]; cbn [shortest] in *; [|by apply Forall_app_2, Forall_singleton].
    destruct Hb as (Hb0 & (u & Hu & Hdu) & Hmin). split; [done|]. split; [exists u; split; [apply elem_of_app; by left|done]|].
    intros v e [Hv|Hv%list_elem_of_singleton]%elem_of_app He; [by apply Hmin|subst]. intros [Hav _]. congruence.
Qed.

Lemma delay_loop_run w loop ρ l now n i best :
  loop_at (mem w) loop ρ l → (i + n)%nat = length l → shortest now (take i l) best →
  ∃ d, delay_loop n loop (Z.of_nat i) now best w = Some (d, w) ∧ shortest now l d.
Proof.
  intros Hl. revert i best. induction n as [|n IH]; intros i best Hlen Hb; cbn [delay_loop].
  { exists best. split; [done|]. by rewrite take_ge in Hb by lia. }
  destruct (lookup_lt_is_Some_2 l i ltac:(lia)) as [t Ht]. pose proof (la_loop _ _ _ _ Hl) as Hs. field_get Hs.
  change (sizeof R4Timer) with 32. pose proof (la_timers _ _ _ _ Hl i t Ht) as Hst. field_get Hst.
  change (timer_fields t "active") with (if t_active t then 1 else 0). apply (shortest_snoc _ _ _ t) in Hb.
  rewrite <-(take_S_r _ _ _ Ht) in Hb. replace (Z.of_nat i + 1) with (Z.of_nat (S i)) by lia.
  destruct (t_active t).
  - change (1 =? 0) with false. cbv iota. field_get Hst. by apply IH; [lia|].
  - change (0 =? 0) with true. cbv iota. by apply IH; [lia|].
Qed.

(** C35. Of the timers of an event loop, polling fires the first that is due, and only
    that one: it stops, or goes on with the first of its own deadlines that is
    still to come, so that it is not due any more and never loses its rhythm.
    When none is due, nothing changes. The delay that the loop computes is the
    exact time until the next timer is due, and it is zero only if polling
    would fire one. *)
Theorem event_timers w loop ρ l now :
  loop_at (mem w) loop ρ l → now < UINT64_MAX →
  (∃ d, r4_event_loop_timer_delay loop now w = Some (d, w) ∧ shortest now l d ∧
     (d = Some 0 ↔ Exists (due now) l)) ∧
  ((timers_loop (Z.to_nat (ρ "timer_count")) loop 0 now w = Some (None, w) ∧ Forall (λ t, ¬ due now t) l) ∨
   (∃ j t t' m', l !! j = Some t ∧ due now t ∧ Forall (λ t, ¬ due now t) (take j l) ∧ fires now t t' ∧
     timers_loop (Z.to_nat (ρ "timer_count")) loop 0 now w = Some (Some (R4_MESSAGE_TIMER (t_id t) now), World m' (kern w)) ∧
     changed (mem w) m' (ρ "timers" + Z.of_nat j * 32) 32 ∧ loop_at m' loop ρ (<[j := t']> l))).
Proof.
  intros Hl Hn. split.
  - unfold r4_event_loop_timer_delay. pose proof (la_loop _ _ _ _ Hl) as Hs. field_get Hs. rewrite (la_count _ _ _ _ Hl), Nat2Z.id.
    destruct (delay_loop_run w loop ρ l now (length l) 0 None Hl eq_refl) as (d & Hr & Hd); [constructor|].
    exists d. split; [exact Hr|]. split; [exact Hd|]. rewrite Exists_exists. split.
    + intros ->. destruct Hd as (_ & (t & Ht & Hdue) & _). rewrite Z.add_0_r in Hdue. by exists t.
    + intros (t & Ht & Hdue). destruct d as [d|]; cbn [shortest] in Hd.
      * destruct Hd as (H0 & _ & Hmin). destruct (Z.eq_dec d 0) as [->|Hne]; [done|].
        destruct (Hmin t 0 Ht ltac:(lia)). by rewrite Z.add_0_r.
      * rewrite Forall_forall in Hd. destruct Hdue as [Ha _]. by rewrite (Hd t Ht) in Ha.
  - rewrite (la_count _ _ _ _ Hl), Nat2Z.id.
    destruct (timers_loop_run w loop ρ l now (length l) 0 Hl Hn eq_refl) as [H|(j & t & m' & Hj & Hdue & Hb & Hr & Hc & Hl')];
      [constructor|by left|].
    right. exists j, t, (fired now t), m'. split_and!; try done.
    apply fired_fires; [|done|done]. exact (proj1 (Forall_lookup _ _) (la_ok _ _ _ _ Hl) j t Hj).
Qed.
End run.

(** Two timers at 512 of a loop at 256: one that repeats every 10 ticks and one that
    is to fire once, at 100. *)
Definition timer_list : list timer := [Timer 1 95 10 true; Timer 2 100 0 true].
Definition timer_start : world call_log := World (image [
  (256, struct_bytes R4EventLoop [1024; 512; 2; 0; 0; 0; 0]);
  (512, struct_bytes R4Timer [1; 95; 10; 1]); (544, struct_bytes R4Timer [2; 100; 0; 1])]) [].

Lemma timer_start_loop : loop_at (mem timer_start) 256 (fv (mem timer_start) R4EventLoop 256) timer_list.
Proof.
  split.
  - apply struct_own, mapped_b_mapped. vm_compute. reflexivity.
  - vm_compute. reflexivity.
  - assert (fv (mem timer_start) R4EventLoop 256 "timers" = 512) as -> by (vm_compute; reflexivity).
    intros [|[|]] t Ht; [injection Ht as <-|injection Ht as <-|done]; (split; [apply mapped_b_mapped; vm_compute; reflexivity|]);
      intros f q Hf%timer_field; destruct Hf as [->|[->|[->| ->]]]; vm_compute; reflexivity.
  - repeat constructor; vm_compute; (discriminate || reflexivity).
  - left. vm_compute. discriminate.
Qed.

Lemma event_timers_witness :
  ∃ t' m', fires 117 (Timer 1 95 10 true) t' ∧
    timers_loop 2 256 0 117 timer_start = Some (Some (R4_MESSAGE_TIMER 1 117), World m' []) ∧
    loop_at m' 256 (fv (mem timer_start) R4EventLoop 256) [t'; Timer 2 100 0 true].
Proof.
  destruct (event_timers timer_start 256 _ timer_list 117 timer_start_loop ltac:(vm_compute; reflexivity))
    as [_ [[_ Hnone]|(j & t & t' & m' & Hj & Hdue & Hb & Hf & Hr & _ & Hl)]].
  - inversion_clear Hnone as [|? ? Hn _]. destruct Hn. split; [reflexivity|vm_compute; discriminate].
  - destruct j as [|j].
    + injection Hj as <-. exists t', m'. split; [exact Hf|]. split; [exact Hr|exact Hl].
    + inversion_clear Hb as [|? ? Hn _]. destruct Hn. split; [reflexivity|vm_compute; discriminate].
Defined.

End R4GuiTimer.
