(* ===== verification/R4GuiLoop.v ===== *)
(** * Waiting for a message

    [r4_event_loop_wait] polls and waits in turn until there is a message or its
    time is over. The class [GuiKernel] has what it relies on: a clock that
    does not run backwards, and which memory the functions write. When the kernel
    ends a wait is left to it: any activity of the desktop may. Waiting with a
    timeout never returns too early, and goes on for more rounds than its timeout
    has ticks only as often as the kernel ends a wait with nothing to do. *)

From S2P Require Import Prelude R4Abi R4Mem R4L R4LSpec.
From S2P Require Import R4Table R4Sys R4SysSpec R4SysInit R4Field R4Group R4Time.
From S2P Require Import R4Dev R4Desk R4Draw R4App R4Gui R4GuiTimer.

Module R4GuiLoop.
Export R4GuiTimer.

(** ** The kernel's side *)

Record gui_functions := GuiFunctions { g_ticks : Z; g_time : Z; g_poll : Z; g_info : Z; g_wait : Z }.

(** [quiet] are the functions that only answer: the clipboard's revision, the
    window's number, and whether to close. *)
Class GuiKernel (K : Type) `{!Kernel K} (clock : K → Z) (pending : K → bool) (fs : gui_functions) (quiet : list Z) : Prop := {
  clock_range : ∀ k, 0 ≤ clock k < UINT64_MAX;
  ticks_law : ∀ w, let r := kcall (g_ticks fs) [] w in
    mem (snd r) = mem w ∧ u64 (fst r) = clock (kern (snd r)) ∧ clock (kern w) ≤ clock (kern (snd r));
  time_law : ∀ w state, let r := kcall (g_time fs) [state] w in
    changed (mem w) (mem (snd r)) state 32 ∧ clock (kern w) ≤ clock (kern (snd r));
  (** An event that is there is given out. *)
  poll_law : ∀ w raw, let r := kcall (g_poll fs) [raw] w in
    changed (mem w) (mem (snd r)) raw 40 ∧ clock (kern w) ≤ clock (kern (snd r)) ∧
    (pending (kern w) = true → 0 < i32 (fst r));
  info_law : ∀ w info, let r := kcall (g_info fs) [info] w in
    changed (mem w) (mem (snd r)) info 40 ∧ clock (kern w) ≤ clock (kern (snd r));
  (** Waiting may end at any time. *)
  wait_law : ∀ w last ticks out, let r := kcall (g_wait fs) [last; ticks; out] w in
    changed (mem w) (mem (snd r)) out 8 ∧ clock (kern w) ≤ clock (kern (snd r));
  quiet_law : ∀ f args w, f ∈ quiet → let r := kcall f args w in
    mem (snd r) = mem w ∧ clock (kern w) ≤ clock (kern (snd r))
}.

Section loop.
Context {K : Type} `{!Kernel K} (clock : K → Z) (pending : K → bool) (fs : gui_functions) (quiet : list Z).
Context `{!GuiKernel K clock pending fs quiet}.
Variables (app loop stack : Z).
Implicit Types (w : world K) (m : gmap Z byte) (ρ : string → Z) (l : list timer).

Abbreviation sys := (app + 8).
Abbreviation desk := (app + 24).
Definition context_of m : Z := fv m R4Sys_t sys "ctx".

(** ** The environment *)

Definition sys_slots : list (string * (Z → Prop)) := [
  ("ticks", λ f, f = g_ticks fs); ("time_state", λ f, f = g_time fs); ("program_should_close", λ f, f = 0 ∨ f ∈ quiet)].
Definition desk_slots : list (string * (Z → Prop)) := [
  ("gui_poll_event", λ f, f = g_poll fs); ("gui_window_info", λ f, f = g_info fs);
  ("desktop_activity_wait", λ f, f = g_wait fs); ("clipboard_revision", λ f, f = 0 ∨ f ∈ quiet);
  ("program_window_id", λ f, f = 0 ∨ f ∈ quiet)].

(** An application with its two tables, whose functions are the kernel's. *)
Record gui_env m : Prop := {
  ge_app : 0 < app;
  ge_sys : sys_ok R4XSTART_R4SYS_SIZE m sys;
  ge_table : table_ptr m sys ≠ 0;
  ge_desk : client_ok R4XStartR4Desk R4XSTART_R4DESK_SIZE m desk;
  ge_client : client_ptr m desk ≠ 0;
  ge_sys_slots : ∀ n P, (n, P) ∈ sys_slots → P (slot_of m R4XStartR4Sys (table_ptr m sys) n);
  ge_desk_slots : ∀ n P, (n, P) ∈ desk_slots → P (slot_of m R4XStartR4Desk (client_ptr m desk) n);
  ge_ctx : context_of m ≠ 0 → mapped m (context_of m) 128;
  ge_close : context_of m ≠ 0 → let f := fv m R4XStartContext (context_of m) "should_close" in f = 0 ∨ f ∈ quiet
}.

Record gui_aside m (a n : Z) : Prop := {
  gs_sys : apart m sys a n;
  gs_desk : client_apart R4XStartR4Desk m desk a n;
  gs_ctx : context_of m ≠ 0 → a + n ≤ context_of m ∨ context_of m + 128 ≤ a
}.

Lemma slot_names n P : (n, P) ∈ sys_slots → is_slot R4XStartR4Sys n = true ∧ offsetof R4XStartR4Sys n + 8 ≤ R4XSTART_R4SYS_SIZE.
Proof.
  intros Hin%list_elem_of_In. cbn [In sys_slots] in Hin.
  destruct Hin as [[= <- _]|[[= <- _]|[[= <- _]|[]]]]; vm_compute; (split; [reflexivity|discriminate]).
Qed.

Lemma desk_names n P : (n, P) ∈ desk_slots → below R4XStartR4Desk n R4XSTART_R4DESK_SIZE = true.
Proof.
  intros Hin%list_elem_of_In. cbn [In desk_slots] in Hin.
  destruct Hin as [[= <- _]|[[= <- _]|[[= <- _]|[[= <- _]|[[= <- _]|[]]]]]]; vm_compute; reflexivity.
Qed.

Lemma gui_env_changed m m' a n :
  changed m m' a n → gui_env m → gui_aside m a n → gui_env m' ∧ (∀ b k, gui_aside m b k → gui_aside m' b k).
Proof.
  intros Hch [H0 Hs Ht Hd Hc Hss Hds Hctx Hcl] [Ha Hda Hca].
  destruct (changed_sys _ _ _ _ _ _ Hch Hs Ha) as (Hs' & Ep & Hslot & Hap').
  destruct (changed_client R4XStartR4Desk _ _ _ _ _ _ Hch eq_refl Hd Hda) as [Ec Hd'].
  destruct (changed_table m m' a n R4XStartR4Desk _ _ Hch eq_refl (cl_table _ _ _ _ Hd) (ca_table _ _ _ _ _ Hda)) as (_ & Esz & Edesk).
  assert (context_of m' = context_of m) as Ex.
  { unfold context_of. eapply (changed_fv _ _ _ _ R4Sys_t sys "ctx" 16 Hch eq_refl). apply (ap_sys _ _ _ _ Ha). lia. }
  split.
  - split; rewrite ?Ep, ?Ec, ?Ex; try done.
    + intros x P Hin. destruct (slot_names x P Hin) as [Hx _]. destruct (Hslot x Hx) as [E|]; [|done]. rewrite Ep in E. rewrite E. by apply Hss.
    + intros x P Hin. rewrite Edesk; [by apply Hds|done|]. apply desk_names, andb_true_iff in Hin. tauto.
    + intros Hne. eapply changed_mapped; [done|by apply Hctx].
    + intros Hne. rewrite (changed_fv _ _ _ _ R4XStartContext (context_of m) "should_close" 128 Hch eq_refl (Hca Hne)). by apply Hcl.
  - intros b k [G1 G2 G3]. split; [by apply Hap'| |by rewrite Ex].
    split; [apply G2|]. rewrite Ec. intros Hne. rewrite Esz by done. by apply G2.
Qed.

Lemma aside_part m a n b k : gui_aside m a n → a ≤ b → b + k ≤ a + n → gui_aside m b k.
Proof.
  intros [[H1 H2] [H3 H4] H5] Ha Hb. split; [split|split|]; intros Hne.
  - specialize (H1 Hne). lia.
  - specialize (H2 Hne). lia.
  - specialize (H3 Hne). lia.
  - specialize (H4 Hne). lia.
  - specialize (H5 Hne). lia.
Qed.

(** The event loop with its timers, and the local variables: an event at 0 of the
    [stack], a window's information at 40, a number at 80 and a time at 88. *)
Record gui_area m ρ l : Prop := {
  ga_env : gui_env m;
  ga_loop : loop_at m loop ρ l;
  ga_app : ρ "app" = app ∧ loop ≠ 0;
  ga_stack : mapped m stack 120;
  ga_aside : gui_aside m loop 48 ∧ gui_aside m (ρ "timers") (Z.of_nat (length l) * 32) ∧ gui_aside m stack 120;
  ga_apart : (stack + 120 ≤ loop ∨ loop + 48 ≤ stack) ∧
    (stack + 120 ≤ ρ "timers" ∨ ρ "timers" + Z.of_nat (length l) * 32 ≤ stack)
}.

(** A change of one of these, given what it does to the loop. *)
Lemma area_changed m m' ρ l ρ' l' a n :
  gui_area m ρ l → changed m m' a n → gui_aside m a n → loop_at m' loop ρ' l' →
  ρ' "app" = ρ "app" → ρ' "timers" = ρ "timers" → length l' = length l → gui_area m' ρ' l'.
Proof.
  intros [He Hl Ha Hs (A1 & A2 & A3) Hap] Hch Has Hl' E1 E2 E3. destruct (gui_env_changed _ _ _ _ Hch He Has) as [He' Hk].
  split; rewrite ?E1, ?E2, ?E3; [done|done|done|by eapply changed_mapped| |done]. split_and!; by apply Hk.
Qed.

Lemma area_stack m m' ρ l o n :
  gui_area m ρ l → changed m m' (stack + o) n → 0 ≤ o → o + n ≤ 120 → gui_area m' ρ l.
Proof.
  intros Ha Hch Ho Hn. pose proof (ga_apart _ _ _ Ha) as [D1 D2]. pose proof (ga_loop _ _ _ Ha) as [L1 L2 L3 L4 L5].
  eapply area_changed; [done|exact Hch| | |done|done|done].
  - eapply aside_part; [apply Ha|lia|lia].
  - split; [|done| |done|done].
    + eapply struct_changed; [reflexivity|exact Hch| |exact L1]. change (sizeof R4EventLoop) with 48. lia.
    + eapply timers_changed; [exact Hch|lia|done].
Qed.

(** A put into a field of the loop that is neither the application nor the timers. *)
Lemma area_put w ρ l f v o k :
  gui_area (mem w) ρ l → field_at R4EventLoop f = Some (o, k) → f ∉ ["app"; "timers"; "timer_count"] →
  ∃ m' ρ', put R4EventLoop f loop v w = Some ((), World m' (kern w)) ∧ gui_area m' ρ' l.
Proof.
  intros Ha Hf Hn. pose proof (ga_loop _ _ _ Ha) as [L1 L2 L3 L4 L5].
  destruct (struct_put_mod w R4EventLoop loop ρ f v o k eq_refl Hf L1) as (m' & Hr & Hc & Hs).
  change (sizeof R4EventLoop) with 48 in Hc. exists m', (upd ρ f (v mod 2 ^ (8 * Z.of_nat k))). split; [done|].
  assert (∀ g, g ∈ ["app"; "timers"; "timer_count"] → upd ρ f (v mod 2 ^ (8 * Z.of_nat k)) g = ρ g) as Hu.
  { intros g Hg. unfold upd. destruct (String.eqb_spec f g) as [->|]; done. }
  eapply area_changed; [done|exact Hc|apply Ha| |apply Hu; left|apply Hu; right; left|done].
  split; rewrite ?(Hu "timers"), ?(Hu "timer_count") by (apply list_elem_of_In; cbn [In]; tauto); [done|done| |done|done].
  eapply timers_changed; [exact Hc|lia|done].
Qed.

(** ** Steps that leave the loop alone *)

Record calm w w' : Prop := {
  ca_area : ∀ ρ l, gui_area (mem w) ρ l → gui_area (mem w') ρ l;
  ca_clock : clock (kern w) ≤ clock (kern w')
}.

Lemma calm_refl w : calm w w.
Proof. split; [done|lia]. Qed.

Lemma calm_trans w1 w2 w3 : calm w1 w2 → calm w2 w3 → calm w1 w3.
Proof. intros [A1 C1] [A2 C2]. split; [auto|lia]. Qed.

Lemma calm_same w w' : mem w' = mem w → clock (kern w) ≤ clock (kern w') → calm w w'.
Proof. intros E Hc. split; [by rewrite E|done]. Qed.

Lemma calm_stack w w' o n :
  changed (mem w) (mem w') (stack + o) n → 0 ≤ o → o + n ≤ 120 → clock (kern w) ≤ clock (kern w') → calm w w'.
Proof. intros Hch Ho Hn Hc. split; [|done]. intros ρ l Ha. by eapply area_stack. Qed.

Lemma quiet_calm w f args : f ∈ quiet → calm w (snd (kcall f args w)).
Proof. intros Hf. destruct (quiet_law f args w Hf) as [Hm Hc]. by apply calm_same. Qed.

Lemma calm_clear w ρ l T o :
  gui_area (mem w) ρ l → fields_fit T = true → 0 ≤ sizeof T → 0 ≤ o → o + sizeof T ≤ 120 →
  ∃ w', clear T (stack + o) w = Some ((), w') ∧ calm w w' ∧ kern w' = kern w.
Proof.
  intros Ha HT Hs Ho Hn.
  destruct (clear_struct w T (stack + o) HT Hs) as (m & Hr & Hc & _); [eapply mapped_sub; [exact (ga_stack _ _ _ Ha)|lia|lia]|].
  exists (World m (kern w)). split; [done|]. split; [|done]. by eapply calm_stack; [exact Hc|done|done|].
Qed.

Lemma stack_field w ρ l T f o k n :
  gui_area (mem w) ρ l → field_at T f = Some (o, k) → fields_fit T = true → 0 ≤ n → n + sizeof T ≤ 120 →
  ∃ v, get T f (stack + n) w = Some (v, w) ∧ 0 ≤ v < 2 ^ (8 * Z.of_nat k).
Proof.
  intros Ha Hf HT Hn Hle. assert (struct_at (mem w) T (stack + n) (fv (mem w) T (stack + n))) as Hs.
  { apply struct_own. eapply mapped_sub; [exact (ga_stack _ _ _ Ha)|lia|lia]. }
  eexists. split; [exact (struct_get w T _ _ f o k HT Hf Hs)|]. exact (struct_range _ T _ _ f o k Hf Hs).
Qed.

(** ** The tables of the application *)

Lemma app_desk_run w ρ l : gui_area (mem w) ρ l → get R4App_t "desktop.table" app w = Some (client_ptr (mem w) desk, w).
Proof.
  intros Ha. pose proof (ga_env _ _ _ Ha) as He. pose proof (ge_app _ He).
  rewrite <-(client_table_run _ _ w desk (ge_desk _ He)). unfold client_table. rewrite (proj2 (Z.eqb_neq desk 0)) by lia.
  unfold get. change (field_at R4App_t "desktop.table") with (Some (24, 8%nat)). change (field_at Client_t "table") with (Some (0, 8%nat)).
  cbv iota. by rewrite Z.add_0_r.
Qed.

Lemma app_sys_run w ρ l : gui_area (mem w) ρ l → get R4App_t "system.table" app w = Some (table_ptr (mem w) sys, w).
Proof.
  intros Ha. pose proof (ga_env _ _ _ Ha) as He. pose proof (ge_app _ He).
  rewrite <-(sys_table_run R4XSTART_R4SYS_SIZE w sys (ge_sys _ He)). unfold sys_table. rewrite (proj2 (Z.eqb_neq sys 0)) by lia.
  unfold get. change (field_at R4App_t "system.table") with (Some (16, 8%nat)). change (field_at R4Sys_t "table") with (Some (8, 8%nat)).
  cbv iota. by rewrite <-Z.add_assoc.
Qed.

Lemma sys_slot_run w ρ l n P :
  gui_area (mem w) ρ l → (n, P) ∈ sys_slots → ∃ f, get R4XStartR4Sys n (table_ptr (mem w) sys) w = Some (f, w) ∧ P f.
Proof.
  intros Ha Hin. pose proof (ga_env _ _ _ Ha) as He. destruct (slot_names n P Hin) as [Hs Hle].
  eexists. split; [exact (console_slot w sys n (ge_sys _ He) (ge_table _ He) Hs Hle)|]. by apply He.
Qed.

Lemma desk_slot_run w ρ l n P :
  gui_area (mem w) ρ l → (n, P) ∈ desk_slots → ∃ f, get R4XStartR4Desk n (client_ptr (mem w) desk) w = Some (f, w) ∧ P f.
Proof.
  intros Ha Hin. pose proof (ga_env _ _ _ Ha) as He. pose proof (ge_desk _ He) as Hd.
  apply desk_names in Hin as Hb. apply andb_true_iff in Hb as [Hs Hle%Z.leb_le].
  pose proof (to_min _ _ _ _ (cl_table _ _ _ _ Hd) (ge_client _ He)).
  eexists. split; [apply (get_slot w _ _ _ n (cl_table _ _ _ _ Hd) (ge_client _ He) Hs); lia|]. by apply He.
Qed.

(** A call of the desktop, or the value for a slot that is empty. *)
Lemma desk_direct_run w ρ l n P err args :
  gui_area (mem w) ρ l → (n, P) ∈ desk_slots →
  ∃ f, P f ∧ direct R4XStartR4Desk n desk err args w =
    if f =? 0 then Some (err, w) else Some (i32 (fst (kcall f args w)), snd (kcall f args w)).
Proof.
  intros Ha Hin. destruct (desk_slot_run w ρ l n P Ha Hin) as (f & Hr & Hf). pose proof (ga_env _ _ _ Ha) as He.
  exists f. split; [done|]. unfold direct. rewrite (mbind_run _ _ _ _ _ (client_table_run _ _ w desk (ge_desk _ He))).
  rewrite (proj2 (Z.eqb_neq _ _) (ge_client _ He)), (mbind_run _ _ _ _ _ Hr).
  destruct (Z.eqb_spec f 0); [done|by apply call_i32_run].
Qed.

Ltac in_slots := apply list_elem_of_In; unfold sys_slots, desk_slots; cbn [In]; tauto.

Lemma ticks_run w ρ l :
  gui_area (mem w) ρ l → g_ticks fs ≠ 0 →
  ∃ w', r4_app_ticks app w = Some (clock (kern w'), w') ∧ calm w w'.
Proof.
  intros Ha Hf. pose proof (ga_env _ _ _ Ha) as He. unfold r4_app_ticks.
  rewrite (proj2 (Z.eqb_neq app 0)) by (pose proof (ge_app _ He); lia). rewrite (mbind_run _ _ _ _ _ (app_sys_run w ρ l Ha)).
  rewrite (proj2 (Z.eqb_neq _ _) (ge_table _ He)).
  destruct (sys_slot_run w ρ l "ticks" (λ f, f = g_ticks fs) Ha ltac:(in_slots)) as (f & Hr & ->).
  rewrite (mbind_run _ _ _ _ _ Hr), (proj2 (Z.eqb_neq _ _) Hf). destruct (ticks_law w) as (Hm & Hv & Hc).
  exists (snd (kcall (g_ticks fs) [] w)). split; [|by apply calm_same]. rewrite <-Hv.
  unfold call, mbind, m_bind. rewrite (proj2 (Z.eqb_neq _ _) Hf). by destruct (kcall _ _ _).
Qed.

Lemma monotonic_hz_run w ρ l :
  gui_area (mem w) ρ l → ∃ hz w', r4_gui_monotonic_hz app (stack + 88) w = Some (hz, w') ∧ calm w w' ∧ is_u32 hz.
Proof.
  intros Ha. pose proof (ga_env _ _ _ Ha) as He. unfold r4_gui_monotonic_hz.
  rewrite (proj2 (Z.eqb_neq app 0)) by (pose proof (ge_app _ He); lia). rewrite (mbind_run _ _ _ _ _ (app_sys_run w ρ l Ha)).
  rewrite (proj2 (Z.eqb_neq _ _) (ge_table _ He)).
  destruct (sys_slot_run w ρ l "time_state" (λ f, f = g_time fs) Ha ltac:(in_slots)) as (f & Hr & ->).
  rewrite (mbind_run _ _ _ _ _ Hr). destruct (Z.eqb_spec (g_time fs) 0) as [|Hf].
  { exists 0, w. split; [done|]. split; [apply calm_refl|]. unfold is_u32. lia. }
  destruct (calm_clear w ρ l R4TimeState 88 Ha eq_refl) as (w1 & Hr1 & Hc1 & _); [by vm_compute|lia|by vm_compute|].
  rewrite (mbind_run _ _ _ _ _ Hr1). destruct (time_law w1 (stack + 88)) as [Hch Hck]. set (r := kcall (g_time fs) _ w1) in *.
  assert (call_void (g_time fs) [stack + 88] w1 = Some ((), snd r)) as Hcall.
  { unfold call_void, call, mbind, m_bind. rewrite (proj2 (Z.eqb_neq _ _) Hf). fold r. by destruct r. }
  rewrite (mbind_run _ _ _ _ _ Hcall).
  assert (calm w (snd r)) as Hc2 by (eapply calm_trans; [exact Hc1|]; eapply calm_stack; [exact Hch|lia|lia|done]).
  destruct (stack_field (snd r) ρ l R4TimeState "monotonic_hz" 24 4%nat 88 (ca_area _ _ Hc2 _ _ Ha) eq_refl eq_refl) as (hz & Hz & Hr2);
    [lia|by vm_compute|]. exists hz, (snd r). by split_and!.
Qed.

(** ** Polling *)

Lemma poll_call_run w ρ l :
  gui_area (mem w) ρ l → g_poll fs ≠ 0 →
  ∃ got w', (_ ← clear R4GuiEvent stack; r4desk_gui_poll_event desk stack) w = Some (got, w') ∧ calm w w' ∧
    (pending (kern w) = true → 0 < got).
Proof.
  intros Ha Hf. destruct (calm_clear w ρ l R4GuiEvent 0 Ha eq_refl) as (w1 & Hr1 & Hc1 & Hk1); [by vm_compute|lia|by vm_compute|].
  rewrite Z.add_0_r in Hr1. rewrite (mbind_run _ _ _ _ _ Hr1). cbv beta. unfold r4desk_gui_poll_event.
  destruct (desk_direct_run w1 ρ l "gui_poll_event" (λ f, f = g_poll fs) 0 [stack] (ca_area _ _ Hc1 _ _ Ha) ltac:(in_slots)) as (f & -> & ->).
  rewrite (proj2 (Z.eqb_neq _ _) Hf). destruct (poll_law w1 stack) as (Hch & Hck & Hp). eexists _, _. split; [reflexivity|].
  split; [|by rewrite <-Hk1]. eapply calm_trans; [exact Hc1|]. eapply (calm_stack _ _ 0 40); [by rewrite Z.add_0_r|lia|lia|done].
Qed.

Lemma load_event_run w ρ l : gui_area (mem w) ρ l → ∃ event, load_event stack w = Some (event, w).
Proof.
  intros Ha. unfold load_event. assert (struct_at (mem w) R4GuiEvent stack (fv (mem w) R4GuiEvent stack)) as Hs.
  { apply struct_own. eapply mapped_sub; [exact (ga_stack _ _ _ Ha)|lia|by apply Z.add_le_mono_l]. }
  do 8 field_get Hs. by eexists.
Qed.

Lemma translate_run w ρ l event :
  gui_area (mem w) ρ l → ∃ message w', r4_message_translate loop event (stack + 40) w = Some (message, w') ∧ calm w w'.
Proof.
  intros Ha. unfold r4_message_translate. destruct (_ =? _); [eexists _, w; split; [done|apply calm_refl]|].
  destruct (_ =? _); [|repeat (destruct (_ =? _); [eexists _, w; split; [reflexivity|apply calm_refl]|]); eexists _, w; split; [reflexivity|apply calm_refl]].
  destruct (calm_clear w ρ l R4GuiWindowInfo 40 Ha eq_refl) as (w1 & Hr1 & Hc1 & _); [by vm_compute|lia|by vm_compute|].
  rewrite (mbind_run _ _ _ _ _ Hr1). pose proof (ca_area _ _ Hc1 _ _ Ha) as Ha1. pose proof (la_loop _ _ _ _ (ga_loop _ _ _ Ha1)) as Hl.
  field_get Hl. rewrite (proj1 (ga_app _ _ _ Ha)). change (app_desktop app) with desk. unfold r4desk_gui_window_info.
  destruct (desk_direct_run w1 ρ l "gui_window_info" (λ f, f = g_info fs) R4OS_ERROR_INVALID [stack + 40] Ha1 ltac:(in_slots)) as (f & -> & Hd).
  destruct (Z.eqb_spec (g_info fs) 0) as [|Hf].
  { rewrite (mbind_run _ _ _ _ _ Hd). change (R4OS_ERROR_INVALID <? 0) with true. by eexists _, w1. }
  rewrite (mbind_run _ _ _ _ _ Hd). destruct (info_law w1 (stack + 40)) as (Hch & Hck). set (r := kcall (g_info fs) _ w1) in *.
  assert (calm w (snd r)) as Hc2 by (eapply calm_trans; [exact Hc1|]; eapply calm_stack; [exact Hch|lia|lia|done]).
  destruct (_ <? 0); [by eexists _, _|]. pose proof (ca_area _ _ Hc2 _ _ Ha) as Ha2.
  destruct (stack_field (snd r) ρ l R4GuiWindowInfo "client_w" _ _ 40 Ha2 eq_refl eq_refl) as (v1 & Hv1 & _); [lia|by vm_compute|].
  destruct (stack_field (snd r) ρ l R4GuiWindowInfo "client_h" _ _ 40 Ha2 eq_refl eq_refl) as (v2 & Hv2 & _); [lia|by vm_compute|].
  rewrite (mbind_run _ _ _ _ _ Hv1), (mbind_run _ _ _ _ _ Hv2). by eexists _, _.
Qed.

(** The clipboard: it has not changed, or that is the message. *)
Lemma clipboard_run w ρ l f :
  gui_area (mem w) ρ l → f = 0 ∨ f ∈ quiet →
  ∃ r w' ρ', (if f =? 0 then mret None else
    revision ← call_u32 f [];
    old ← get R4EventLoop "clipboard_revision" loop;
    if revision =? old then mret None else
    _ ← put R4EventLoop "clipboard_revision" loop revision; mret (Some (R4_MESSAGE_CLIPBOARD revision))) w = Some (r, w') ∧
    gui_area (mem w') ρ' l ∧ clock (kern w) ≤ clock (kern w') ∧ (r = None → calm w w').
Proof.
  intros Ha Hf. destruct (Z.eqb_spec f 0) as [|Hne]; [eexists _, w, ρ; split_and!; [done|done|lia|intros; apply calm_refl]|].
  destruct Hf as [|Hf]; [done|]. pose proof (quiet_calm w f [] Hf) as Hc. set (r := kcall f [] w) in *.
  assert (call_u32 f [] w = Some (Prelude.u32 (fst r), snd r)) as Hcall.
  { unfold call_u32, call, mbind, m_bind. rewrite (proj2 (Z.eqb_neq _ _) Hne). fold r. by destruct r. }
  rewrite (mbind_run _ _ _ _ _ Hcall). pose proof (ca_area _ _ Hc _ _ Ha) as Ha1. pose proof (la_loop _ _ _ _ (ga_loop _ _ _ Ha1)) as Hl.
  field_get Hl. destruct (_ =? _); [eexists _, _, ρ; split_and!; [done|done|apply Hc|done]|].
  destruct (area_put (snd r) ρ l "clipboard_revision" (Prelude.u32 (fst r)) 32 4%nat Ha1 eq_refl) as (m' & ρ' & Hr & Ha').
  { intros Hin%list_elem_of_In. cbn [In] in Hin. intuition discriminate. }
  rewrite (mbind_run _ _ _ _ _ Hr). eexists _, _, ρ'. split_and!; [done|done|apply Hc|done].
Qed.

(** Whether to close. *)
Lemma close_run w ρ l :
  gui_area (mem w) ρ l → ∃ r w',
    (close ← r4_app_should_close app; if negb close then mret None else
     id ← r4desk_program_window_id desk; mret (Some (R4_MESSAGE_CLOSE id))) w = Some (r, w') ∧ calm w w'.
Proof.
  intros Ha. pose proof (ga_env _ _ _ Ha) as He. pose proof (ge_app _ He). unfold r4_app_should_close.
  rewrite (proj2 (Z.eqb_neq app 0)) by lia. change (app_system app) with sys.
  destruct (should_close_calls w sys (ge_sys _ He) ltac:(lia) (ge_table _ He) (ge_ctx _ He)) as (b & w1 & Hr & Hw1).
  rewrite (mbind_run _ _ _ _ _ Hr). assert (calm w w1) as Hc.
  { destruct Hw1 as [->|(f & args & Hf & -> & Hf')]; [apply calm_refl|]. apply quiet_calm.
    assert (f = 0 ∨ f ∈ quiet) as [|]; [|done..]. destruct Hf' as [->|[Hctx ->]].
    - apply (ge_sys_slots _ He "program_should_close" (λ f, f = 0 ∨ f ∈ quiet)). in_slots.
    - by apply (ge_close _ He). }
  destruct b; cbn [negb]; [|by eexists _, w1]. unfold r4desk_program_window_id.
  destruct (desk_direct_run w1 ρ l "program_window_id" (λ f, f = 0 ∨ f ∈ quiet) (-1) [] (ca_area _ _ Hc _ _ Ha) ltac:(in_slots)) as (f & Hf & Hd).
  destruct (Z.eqb_spec f 0) as [|Hne]; rewrite (mbind_run _ _ _ _ _ Hd); eexists _, _; (split; [reflexivity|]); [done|].
  eapply calm_trans; [exact Hc|]. destruct Hf; [done|by apply quiet_calm].
Qed.

(** Polling: without a result there was no event and no timer was due. *)
Lemma poll_run w ρ l out :
  gui_area (mem w) ρ l → out ≠ 0 → g_poll fs ≠ 0 → g_ticks fs ≠ 0 →
  ∃ r w' ρ' l', r4_event_loop_poll loop out stack (stack + 40) w = Some (r, w') ∧
    gui_area (mem w') ρ' l' ∧ clock (kern w) ≤ clock (kern w') ∧
    (r = None → pending (kern w) = false ∧ Forall (λ t, ¬ due (clock (kern w)) t) l ∧ calm w w').
Proof.
  intros Ha Hout Hp Ht. unfold r4_event_loop_poll. destruct (ga_app _ _ _ Ha) as [Happ Hl0]. pose proof (ge_app _ (ga_env _ _ _ Ha)).
  rewrite (proj2 (Z.eqb_neq _ _) Hl0), (proj2 (Z.eqb_neq _ _) Hout). cbn [orb]. pose proof (la_loop _ _ _ _ (ga_loop _ _ _ Ha)) as Hl.
  field_get Hl. rewrite Happ, (proj2 (Z.eqb_neq app 0)) by lia. change (app_desktop app) with desk.
  destruct (poll_call_run w ρ l Ha Hp) as (got & w1 & Hr1 & Hc1 & Hpend). rewrite (mbind2_run _ _ _ _ _ _ Hr1).
  pose proof (ca_area _ _ Hc1 _ _ Ha) as Ha1. destruct (Z.ltb_spec 0 got) as [|Hgot].
  { destruct (load_event_run w1 ρ l Ha1) as (event & He). rewrite (mbind_run _ _ _ _ _ He).
    destruct (translate_run w1 ρ l event Ha1) as (message & w2 & Hr2 & Hc2). rewrite (mbind_run _ _ _ _ _ Hr2).
    pose proof (calm_trans _ _ _ Hc1 Hc2) as Hc. exists (Some message), w2, ρ, l. split_and!; [done|by apply Hc|apply Hc|done]. }
  assert (pending (kern w) = false) as Hpf by (destruct (pending (kern w)); [specialize (Hpend eq_refl); lia|done]).
  pose proof (la_loop _ _ _ _ (ga_loop _ _ _ Ha1)) as Hl1. field_get Hl1. destruct (Z.eqb_spec (ρ "has_pending_command") 0) as [_|_]; cbn [negb].
  2: { field_get Hl1. destruct (area_put w1 ρ l "has_pending_command" 0 40 1%nat Ha1 eq_refl) as (m' & ρ' & Hr & Ha').
       { intros Hin%list_elem_of_In. cbn [In] in Hin. intuition discriminate. }
       rewrite (mbind_run _ _ _ _ _ Hr). eexists _, _, ρ', l. split_and!; [done|done|apply Hc1|done]. }
  rewrite (mbind_run _ _ _ _ _ (app_desk_run w1 ρ l Ha1)).
  destruct (desk_slot_run w1 ρ l "clipboard_revision" (λ f, f = 0 ∨ f ∈ quiet) Ha1 ltac:(in_slots)) as (f & Hr & Hf).
  rewrite (mbind_run _ _ _ _ _ Hr). destruct (clipboard_run w1 ρ l f Ha1 Hf) as (r & w2 & ρ2 & Hr2 & Ha2 & Hck2 & Hc2).
  rewrite (mbind_run _ _ _ _ _ Hr2). destruct r as [message|].
  { eexists _, _, ρ2, l. split_and!; [done|done|pose proof (ca_clock _ _ Hc1); lia|done]. }
  pose proof (calm_trans _ _ _ Hc1 (Hc2 eq_refl)) as Hc. clear Ha2. pose proof (ca_area _ _ Hc _ _ Ha) as Ha2.
  destruct (ticks_run w2 ρ l Ha2 Ht) as (w3 & Hr3 & Hc3). rewrite (mbind_run _ _ _ _ _ Hr3).
  pose proof (calm_trans _ _ _ Hc Hc3) as Hc'. pose proof (ca_area _ _ Hc' _ _ Ha) as Ha3. pose proof (ga_loop _ _ _ Ha3) as Hl3.
  pose proof (la_loop _ _ _ _ Hl3) as Hs3. field_get Hs3. rewrite (la_count _ _ _ _ Hl3), Nat2Z.id.
  pose proof (clock_range (kern w3)) as Hrange.
  destruct (timers_loop_run w3 loop ρ l (clock (kern w3)) (length l) 0 Hl3 ltac:(lia) eq_refl ltac:(constructor))
    as [[Hr4 Hnone]|(j & t & m' & Hj & _ & _ & Hr4 & Hch & Hl4)]; rewrite (mbind_run _ _ _ _ _ Hr4).
  - destruct (close_run w3 ρ l Ha3) as (r & w4 & Hr5 & Hc4). pose proof (calm_trans _ _ _ Hc' Hc4) as Hc5. exists r, w4, ρ, l.
    split; [exact Hr5|]. split; [by apply Hc5|]. split; [apply Hc5|]. intros _. split; [done|]. split; [|done].
    eapply Forall_impl; [exact Hnone|]. intros t Hnd [Hact Hle]. apply Hnd. split; [done|]. pose proof (ca_clock _ _ Hc'). lia.
  - eexists _, _, ρ, _. split; [reflexivity|]. split; [|split; [apply Hc'|done]]. pose proof (lookup_lt_Some _ _ _ Hj).
    eapply (area_changed _ _ _ _ _ _ _ _ Ha3 Hch); [|exact Hl4|done|done|by rewrite length_insert].
    destruct (ga_aside _ _ _ Ha3) as (_ & Hat & _). eapply aside_part; [exact Hat|lia|lia].
Qed.

(** ** Waiting *)

Variable out : Z.
Hypothesis (Hout : out ≠ 0) (Hpoll : g_poll fs ≠ 0) (Hticks : g_ticks fs ≠ 0) (Hwait : g_wait fs ≠ 0).

Abbreviation waiting n := (wait_loop n loop out stack (stack + 40) (stack + 80) false).

(** What waiting until [deadline] from [w] on comes to. *)
Record waited w l (deadline : Z) (r : R4MessageNext) w' : Prop := {
  wa_area : ∃ ρ' l', gui_area (mem w') ρ' l';
  wa_clock : clock (kern w) ≤ clock (kern w');
  wa_early : r = R4_MESSAGE_NEXT_TIMED_OUT → deadline ≤ clock (kern w') ∧ Forall (λ t, ¬ due (clock (kern w)) t) l;
  wa_failed : ∀ code, r = R4_MESSAGE_NEXT_FAILED code → code < 0
}.

Lemma waited_calm w w1 l deadline r w' : calm w w1 → waited w1 l deadline r w' → waited w l deadline r w'.
Proof.
  intros Hc [H1 H2 H3 H4]. pose proof (ca_clock _ _ Hc). split; [done|lia| |done]. intros [Hd Hn]%H3. split; [done|].
  eapply Forall_impl; [exact Hn|]. intros t Hnd [Ha Hle]. apply Hnd. split; [done|lia].
Qed.

(** The end of a round: the kernel waits. *)
Definition wait_round (remaining : Z) : M K Z :=
  activity ← get R4EventLoop "activity_sequence" loop;
  _ ← store 8 (stack + 80) activity;
  app ← get R4EventLoop "app" loop;
  desk ← get R4App_t "desktop.table" app;
  f ← get R4XStartR4Desk "desktop_activity_wait" desk;
  raw_code ← call_i32 f [activity; remaining; stack + 80];
  activity ← load 8 (stack + 80);
  _ ← put R4EventLoop "activity_sequence" loop activity; mret raw_code.

Lemma wait_round_eq {A} (k : Z → M K A) remaining w :
  (activity ← get R4EventLoop "activity_sequence" loop;
   _ ← store 8 (stack + 80) activity;
   app ← get R4EventLoop "app" loop;
   desk ← get R4App_t "desktop.table" app;
   f ← get R4XStartR4Desk "desktop_activity_wait" desk;
   raw_code ← call_i32 f [activity; remaining; stack + 80];
   activity ← load 8 (stack + 80);
   _ ← put R4EventLoop "activity_sequence" loop activity; k raw_code) w = (raw_code ← wait_round remaining; k raw_code) w.
Proof. unfold wait_round, mbind, m_bind, mret, m_ret. by repeat case_match; simplify_eq. Qed.

Lemma wait_round_run w ρ l remaining :
  gui_area (mem w) ρ l → ∃ raw w' ρ', wait_round remaining w = Some (raw, w') ∧
    gui_area (mem w') ρ' l ∧ clock (kern w) ≤ clock (kern w').
Proof.
  intros Ha. unfold wait_round. pose proof (la_loop _ _ _ _ (ga_loop _ _ _ Ha)) as Hs. field_get Hs.
  assert (∀ v : world K, gui_area (mem v) ρ l → mapped (mem v) (stack + 80) 8) as Hmap.
  { intros v Hv. eapply mapped_sub; [exact (ga_stack _ _ _ Hv)|lia|lia]. }
  destruct (store_cell_run w (stack + 80) (ρ "activity_sequence") (Hmap w Ha)) as (m1 & Hr1 & Hch1 & _).
  { exact (struct_range _ R4EventLoop _ _ "activity_sequence" 24 8%nat eq_refl Hs). }
  rewrite (mbind_run _ _ _ _ _ Hr1). set (w1 := World m1 (kern w)) in *.
  assert (calm w w1) as Hc1 by (eapply calm_stack; [exact Hch1|lia|lia|cbn; lia]). pose proof (ca_area _ _ Hc1 _ _ Ha) as Ha1.
  pose proof (la_loop _ _ _ _ (ga_loop _ _ _ Ha1)) as Hs1. field_get Hs1. rewrite (proj1 (ga_app _ _ _ Ha)).
  rewrite (mbind_run _ _ _ _ _ (app_desk_run w1 ρ l Ha1)).
  destruct (desk_slot_run w1 ρ l "desktop_activity_wait" (λ f, f = g_wait fs) Ha1 ltac:(in_slots)) as (f & Hr & ->).
  rewrite (mbind_run _ _ _ _ _ Hr), (mbind_run _ _ _ _ _ (call_i32_run w1 _ _ Hwait)).
  destruct (wait_law w1 (ρ "activity_sequence") remaining (stack + 80)) as [Hch Hck]. set (r := kcall (g_wait fs) _ w1) in *.
  assert (calm w (snd r)) as Hc2 by (eapply calm_trans; [exact Hc1|]; eapply calm_stack; [exact Hch|lia|lia|done]).
  pose proof (ca_area _ _ Hc2 _ _ Ha) as Ha2. destruct (read_bytes_mapped _ _ 8 (Hmap _ Ha2)) as (b & Hb & _).
  rewrite (mbind_run _ _ _ _ _ (load_run (snd r) (stack + 80) 8 (le_val b) b Hb eq_refl)).
  destruct (area_put (snd r) ρ l "activity_sequence" (le_val b) 24 8%nat Ha2 eq_refl) as (m3 & ρ3 & Hr3 & Ha3).
  { intros Hin%list_elem_of_In. cbn [In] in Hin. intuition discriminate. }
  rewrite (mbind_run _ _ _ _ _ Hr3). eexists _, _, ρ3. split; [reflexivity|]. split; [exact Ha3|]. apply Hc2.
Qed.

Lemma delay_run w ρ l now :
  gui_area (mem w) ρ l → ∃ d, r4_event_loop_timer_delay loop now w = Some (d, w) ∧ shortest now l d.
Proof.
  intros Ha. pose proof (ga_loop _ _ _ Ha) as Hl. pose proof (la_loop _ _ _ _ Hl) as Hs. unfold r4_event_loop_timer_delay.
  field_get Hs. rewrite (la_count _ _ _ _ Hl), Nat2Z.id. apply (delay_loop_run w loop ρ l now (length l) 0 None Hl eq_refl). constructor.
Qed.

(** How long the kernel is asked to wait at [now]: until the deadline or the next
    timer, whichever is first. *)
Definition sleeps (now deadline : Z) l (ticks : Z) : Prop :=
  0 < ticks ∧ now + ticks ≤ deadline ∧ (∀ e, 0 ≤ e < ticks → Forall (λ t, ¬ due (now + e) t) l) ∧
  (now + ticks = deadline ∨ Exists (due (now + ticks)) l).

(** The kernel has ended a wait with nothing to do. *)
Definition idle w w' : bool := (clock (kern w') =? clock (kern w)) && negb (pending (kern w')).

(** [n] rounds from [w] on, before the deadline, after none of which there was a
    result; [i] of them were for nothing. *)
Inductive goes_on (deadline : Z) l : nat → nat → world K → world K → Prop :=
  | on_start w : goes_on deadline l 0 0 w w
  | on_timer w w1 w2 n i w' :
      r4_event_loop_poll loop out stack (stack + 40) w = Some (None, w1) →
      r4_app_ticks app w1 = Some (clock (kern w2), w2) → clock (kern w2) < deadline →
      Exists (due (clock (kern w2))) l →
      goes_on deadline l n i w2 w' → goes_on deadline l (S n) i w w'
  | on_wait w w1 w2 w3 ticks raw n i w' :
      r4_event_loop_poll loop out stack (stack + 40) w = Some (None, w1) →
      r4_app_ticks app w1 = Some (clock (kern w2), w2) → clock (kern w2) < deadline →
      sleeps (clock (kern w2)) deadline l ticks →
      wait_round ticks w2 = Some (raw, w3) → 0 ≤ raw →
      goes_on deadline l n i w3 w' → goes_on deadline l (S n) (if idle w2 w3 then S i else i) w w'.

(** What the next round begins with. *)
Lemma round_start w ρ l :
  gui_area (mem w) ρ l →
  ∃ r w1, r4_event_loop_poll loop out stack (stack + 40) w = Some (r, w1) ∧
    match r with
    | Some _ => (∃ ρ' l', gui_area (mem w1) ρ' l') ∧ clock (kern w) ≤ clock (kern w1)
    | None => pending (kern w) = false ∧ Forall (λ t, ¬ due (clock (kern w)) t) l ∧ gui_area (mem w1) ρ l ∧
        ∃ w2, r4_app_ticks app w1 = Some (clock (kern w2), w2) ∧ gui_area (mem w2) ρ l ∧ clock (kern w) ≤ clock (kern w2)
    end.
Proof.
  intros Ha. destruct (poll_run w ρ l out Ha Hout Hpoll Hticks) as (r & w1 & ρ1 & l1 & Hr & Ha1 & Hck & Hnone).
  exists r, w1. split; [done|]. destruct r as [message|]; [split; [by exists ρ1, l1|done]|].
  destruct (Hnone eq_refl) as (Hp & Hn & Hc1). pose proof (ca_area _ _ Hc1 _ _ Ha) as Ha1'.
  destruct (ticks_run w1 ρ l Ha1' Hticks) as (w2 & Hr2 & Hc2). pose proof (calm_trans _ _ _ Hc1 Hc2) as Hc.
  split_and!; [done|done|done|]. exists w2. split_and!; [done|by apply Hc|apply Hc].
Qed.

(** An event or a timer that is due ends the waiting. *)
Lemma ready_ends deadline l n i w w' ρ :
  goes_on deadline l n i w w' → gui_area (mem w) ρ l → pending (kern w) = true ∨ Exists (due (clock (kern w))) l → n = O.
Proof.
  intros Hg Ha Hready. destruct (round_start w ρ l Ha) as (r & w1 & Hr & Hround).
  assert (r = None → False) as Hno.
  { intros ->. destruct Hround as (Hp & Hn & _). destruct Hready as [|He]; [congruence|].
    apply Exists_exists in He as (t & Ht & Hd). rewrite Forall_forall in Hn. by apply (Hn t Ht). }
  destruct Hg as [|v v1 v2 n i v' Hpl|v v1 v2 v3 ticks raw n i v' Hpl]; [done| |]; rewrite Hr in Hpl; injection Hpl as -> _; by destruct Hno.
Qed.

(** It goes on for as many rounds as there are ticks left, one more, and those for nothing. *)
Lemma goes_on_bound deadline l n i w w' ρ :
  goes_on deadline l n i w w' → gui_area (mem w) ρ l →
  Z.of_nat n ≤ Z.of_nat i + 0 `max` (deadline - clock (kern w)) + 1.
Proof.
  intros Hg. revert ρ. induction Hg as [w|w w1 w2 n i w' Hpl Ht Hlt Hdue Hg IH|w w1 w2 w3 ticks raw n i w' Hpl Ht Hlt Hsl Hwr Hraw Hg IH];
    intros ρ Ha; [lia| |]; destruct (round_start w ρ l Ha) as (r & v1 & Hr & Hround); rewrite Hpl in Hr; injection Hr as <- <-;
    destruct Hround as (_ & _ & _ & v2 & Ht' & Ha2 & Hck); rewrite Ht in Ht'; injection Ht' as _ <-.
  - rewrite (ready_ends _ _ _ _ _ _ _ Hg Ha2 (or_intror Hdue)). lia.
  - destruct (wait_round_run w2 ρ l ticks Ha2) as (raw' & v3 & ρ3 & Hwr' & Ha3 & Hck3). rewrite Hwr in Hwr'. injection Hwr' as <- <-.
    specialize (IH ρ3 Ha3). unfold idle. destruct (Z.eqb_spec (clock (kern w3)) (clock (kern w2))) as [E|]; cbn [andb]; [|lia].
    destruct (pending (kern w3)) eqn:Hp; cbn [negb]; [|lia]. rewrite (ready_ends _ _ _ _ _ _ _ Hg Ha3 (or_introl Hp)). lia.
Qed.

Lemma remaining_sleeps now deadline l d ticks :
  shortest now l d → now < deadline → ticks ≠ 0 →
  ticks = match d with Some d => if d <? deadline - now then d else deadline - now | None => deadline - now end →
  sleeps now deadline l ticks.
Proof.
  intros Hd Hlt Hne Ht. destruct d as [d|]; cbn [shortest] in Hd.
  - destruct Hd as (Hd0 & (t & Hin & Hdue) & Hfirst). assert (ticks ≤ d ∧ 0 < ticks ≤ deadline - now) as [Hle Hrange] by (destruct (Z.ltb_spec d (deadline - now)); lia).
    split; [lia|]. split; [lia|]. split; [intros e He; apply Forall_forall; intros x Hx; apply Hfirst; [done|lia]|].
    destruct (Z.ltb_spec d (deadline - now)); [right; subst ticks; apply Exists_exists; by exists t|left; lia].
  - subst ticks. split; [lia|]. split; [lia|]. split; [|left; lia]. intros e _. eapply Forall_impl; [exact Hd|].
    intros t Hina [Hact _]. congruence.
Qed.

(** The round itself, once polling found nothing. *)
Lemma round_step deadline w w1 w2 ρ l :
  r4_event_loop_poll loop out stack (stack + 40) w = Some (None, w1) → gui_area (mem w1) ρ l →
  r4_app_ticks app w1 = Some (clock (kern w2), w2) → gui_area (mem w2) ρ l → clock (kern w2) < deadline →
  (Exists (due (clock (kern w2))) l ∧ ∀ k, waiting (S k) deadline w = waiting k deadline w2) ∨
  ∃ ticks raw w3 ρ3, sleeps (clock (kern w2)) deadline l ticks ∧ wait_round ticks w2 = Some (raw, w3) ∧
    gui_area (mem w3) ρ3 l ∧ clock (kern w2) ≤ clock (kern w3) ∧
    ∀ k, waiting (S k) deadline w = (if raw <? 0 then mret (R4_MESSAGE_NEXT_FAILED raw) else waiting k deadline) w3.
Proof.
  intros Hr Ha1 Hr2 Ha2 Hlt. pose proof (la_loop _ _ _ _ (ga_loop _ _ _ Ha1)) as Hs1. set (now := clock (kern w2)) in *.
  destruct (delay_run w2 ρ l now Ha2) as (d & Hr3 & Hd).
  set (ticks := match d with Some d => if d <? deadline - now then d else deadline - now | None => deadline - now end).
  assert (∀ k, waiting (S k) deadline w = (if ticks =? 0 then waiting k deadline else
    raw ← wait_round ticks; if raw <? 0 then mret (R4_MESSAGE_NEXT_FAILED raw) else waiting k deadline) w2) as Hstep.
  { intros k. cbn [wait_loop]. rewrite (mbind_run _ _ _ _ _ Hr). field_get Hs1. rewrite (proj1 (ga_app _ _ _ Ha1)), (mbind_run _ _ _ _ _ Hr2).
    cbv zeta. rewrite (proj2 (Z.leb_gt deadline now) Hlt), (proj2 (Z.eqb_neq (deadline - now) 0)) by lia.
    rewrite (mbind_run _ _ _ _ _ Hr3). fold ticks. destruct (ticks =? 0); [done|]. apply wait_round_eq. }
  destruct (Z.eqb_spec ticks 0) as [E|Hne].
  - left. split; [|exact Hstep]. unfold ticks in E. destruct d as [d|]; [|lia].
    destruct (Z.ltb_spec d (deadline - now)); [|lia]. subst d. destruct Hd as (_ & (t & Hin & Hdue) & _). rewrite Z.add_0_r in Hdue.
    apply Exists_exists. by exists t.
  - right. destruct (wait_round_run w2 ρ l ticks Ha2) as (raw & w3 & ρ3 & Hr4 & Ha3 & Hck3).
    exists ticks, raw, w3, ρ3. split_and!; [by eapply remaining_sleeps|done|done|done|].
    intros k. rewrite Hstep. by rewrite (mbind_run _ _ _ _ _ Hr4).
Qed.

Lemma wait_loop_run deadline n w ρ l :
  gui_area (mem w) ρ l →
  (∃ r w', waiting n deadline w = Some (r, w') ∧ waited w l deadline r w') ∨
  (waiting n deadline w = None ∧ ∃ i w', goes_on deadline l n i w w').
Proof.
  revert w ρ. induction n as [|n IH]; intros w ρ Ha; [right; split; [done|]; exists O, w; constructor|].
  destruct (round_start w ρ l Ha) as (r & w1 & Hr & Hround). destruct r as [message|].
  { left. eexists _, w1. split; [cbn [wait_loop]; by rewrite (mbind_run _ _ _ _ _ Hr)|]. by destruct Hround; split. }
  destruct Hround as (_ & Hnd & Ha1 & w2 & Hr2 & Ha2 & Hck). destruct (Z.le_gt_cases deadline (clock (kern w2))) as [Hle|Hlt].
  { left. exists R4_MESSAGE_NEXT_TIMED_OUT, w2. pose proof (la_loop _ _ _ _ (ga_loop _ _ _ Ha1)) as Hs1. split.
    - cbn [wait_loop]. rewrite (mbind_run _ _ _ _ _ Hr). field_get Hs1. rewrite (proj1 (ga_app _ _ _ Ha)), (mbind_run _ _ _ _ _ Hr2).
      by rewrite (proj2 (Z.leb_le _ _) Hle).
    - split; [by exists ρ, l|done|done|done]. }
  destruct (round_step deadline w w1 w2 ρ l Hr Ha1 Hr2 Ha2 Hlt) as [[Hdue Hstep]|(ticks & raw & w3 & ρ3 & Hsl & Hwr & Ha3 & Hck3 & Hstep)];
    rewrite Hstep.
  - destruct (IH w2 ρ Ha2) as [(r & w' & Hrun & Hw)|(Hrun & i & w' & Hg)]; [left|right].
    + exists r, w'. split; [done|]. destruct Hw as [G1 G2 G3 G4]. split; [done|lia| |done]. intros [Hd _]%G3. done.
    + split; [done|]. exists i, w'. by eapply on_timer.
  - destruct (Z.ltb_spec raw 0) as [Hneg|Hraw].
    { left. exists (R4_MESSAGE_NEXT_FAILED raw), w3. split; [done|]. split; [by exists ρ3, l|lia|done|]. by intros code [= <-]. }
    destruct (IH w3 ρ3 Ha3) as [(r & w' & Hrun & Hw)|(Hrun & i & w' & Hg)]; [left|right].
    + exists r, w'. split; [done|]. destruct Hw as [G1 G2 G3 G4]. split; [done|lia| |done]. intros [Hd _]%G3. done.
    + split; [done|]. eexists _, w'. by eapply on_wait.
Qed.

(** Up to the loop: the clock's rate, the timeout in ticks, and the start. *)
Lemma wait_enter w ρ l timeout :
  gui_area (mem w) ρ l → is_u64 (nanoseconds timeout) → kind timeout ≠ R4OS_TIMEOUT_KIND_FOREVER →
  ∃ hz w1 w2, r4_gui_monotonic_hz app (stack + 88) w = Some (hz, w1) ∧ is_u32 hz ∧ calm w w1 ∧
    r4_app_ticks app w1 = Some (clock (kern w2), w2) ∧ calm w1 w2 ∧
    ∀ fuel, r4_event_loop_wait fuel loop timeout out stack (stack + 40) (stack + 80) (stack + 88) w =
    (let '(converted, budget) := r4_timeout_to_ticks timeout hz in
     if negb (converted =? R4OS_OK) then Some (R4_MESSAGE_NEXT_FAILED R4_REMOTE_FRAME_ERROR_INVALID, w1) else
     waiting fuel (tick_after (clock (kern w2)) (default 0 budget)) w2).
Proof.
  intros Ha Hns Hkind. pose proof (ge_app _ (ga_env _ _ _ Ha)). destruct (ga_app _ _ _ Ha) as [Happ Hl0].
  pose proof (la_loop _ _ _ _ (ga_loop _ _ _ Ha)) as Hs. destruct (monotonic_hz_run w ρ l Ha) as (hz & w1 & Hz & Hc1 & Hu).
  pose proof (ca_area _ _ Hc1 _ _ Ha) as Ha1. pose proof (la_loop _ _ _ _ (ga_loop _ _ _ Ha1)) as Hs1.
  destruct (ticks_run w1 ρ l Ha1 Hticks) as (w2 & Hr2 & Hc2). exists hz, w1, w2. split_and!; [done..|]. intros fuel.
  unfold r4_event_loop_wait. rewrite (proj2 (Z.eqb_neq _ _) Hl0). field_get Hs.
  rewrite Happ, (proj2 (Z.eqb_neq app 0)) by lia. rewrite (mbind_run _ _ _ _ _ (app_desk_run w ρ l Ha)).
  rewrite (proj2 (Z.eqb_neq _ _) (ge_client _ (ga_env _ _ _ Ha))).
  destruct (desk_slot_run w ρ l "desktop_activity_wait" (λ f, f = g_wait fs) Ha ltac:(in_slots)) as (f & Hr & ->).
  rewrite (mbind_run _ _ _ _ _ Hr), (proj2 (Z.eqb_neq _ _) Hwait), (mbind_run _ _ _ _ _ Hz).
  destruct (r4_timeout_to_ticks timeout hz) as [c t]. destruct (c =? R4OS_OK); cbn [negb]; [|done].
  field_get Hs1. rewrite Happ, (mbind_run _ _ _ _ _ Hr2), (proj2 (Z.eqb_neq _ _) Hkind). done.
Qed.

(** C34. Waiting for a message with a timeout, whatever the kernel does. A timeout
    that cannot be counted is refused. Otherwise the result is a message; or that
    the kernel refused, with its negative code; or that the time is over, which it
    says only if the time since it began is at least the ticks that the timeout
    asks for, and if no timer was due when it began. And it comes: if there is no
    result after a number of rounds, then the kernel was asked in each of them to
    wait exactly until the deadline or the next timer, whichever is first, and the
    rounds are at most one more than the ticks of the timeout, besides those in
    which the kernel ended its wait with no time passed and no event there. *)
Theorem event_loop_wait_returns w ρ l timeout :
  gui_area (mem w) ρ l → is_u64 (nanoseconds timeout) → kind timeout ≠ R4OS_TIMEOUT_KIND_FOREVER →
  ∃ hz w1, r4_gui_monotonic_hz app (stack + 88) w = Some (hz, w1) ∧
  ((no_waits timeout hz ∧ ∀ fuel, r4_event_loop_wait fuel loop timeout out stack (stack + 40) (stack + 80) (stack + 88) w
      = Some (R4_MESSAGE_NEXT_FAILED R4_REMOTE_FRAME_ERROR_INVALID, w1)) ∨
   (∃ t w2, waits timeout hz t ∧ r4_app_ticks app w1 = Some (clock (kern w2), w2) ∧ clock (kern w1) ≤ clock (kern w2) ∧
    ∀ fuel,
    (∃ r w', r4_event_loop_wait fuel loop timeout out stack (stack + 40) (stack + 80) (stack + 88) w = Some (r, w') ∧
      (∃ ρ' l', gui_area (mem w') ρ' l') ∧
      match r with
      | R4_MESSAGE_NEXT_MESSAGE _ => True
      | R4_MESSAGE_NEXT_FAILED code => code < 0
      | R4_MESSAGE_NEXT_TIMED_OUT => clock (kern w2) + t ≤ clock (kern w') ∧ Forall (λ t, ¬ due (clock (kern w1)) t) l
      end) ∨
    (r4_event_loop_wait fuel loop timeout out stack (stack + 40) (stack + 80) (stack + 88) w = None ∧
     ∃ i w', goes_on (UINT64_MAX `min` (clock (kern w2) + t)) l fuel i w2 w' ∧ Z.of_nat fuel ≤ Z.of_nat i + t + 1))).
Proof.
  intros Ha Hns Hkind. destruct (wait_enter w ρ l timeout Ha Hns Hkind) as (hz & w1 & w2 & Hz & Hu & Hc1 & Hr2 & Hc2 & Hstep).
  exists hz, w1. split; [done|]. pose proof (ca_area _ _ Hc2 _ _ (ca_area _ _ Hc1 _ _ Ha)) as Ha2.
  pose proof (timeout_ticks timeout hz Hns Hu) as Ht. pose proof (timeout_nonneg timeout hz Hns Hu) as Ht0.
  destruct (r4_timeout_to_ticks timeout hz) as [c t]. cbn [snd] in Ht0. destruct (c =? R4OS_OK); cbn [negb] in Hstep; [right|left; by split].
  exists (default 0 t), w2. split_and!; [done|done|apply Hc2|]. intros fuel. rewrite Hstep. pose proof (clock_range (kern w2)) as Hrange.
  assert (tick_after (clock (kern w2)) (default 0 t) = UINT64_MAX `min` (clock (kern w2) + default 0 t)) as Hdl.
  { unfold tick_after. destruct (Z.ltb_spec (UINT64_MAX - clock (kern w2)) (default 0 t)); [lia|].
    rewrite u64_small by (unfold is_u64, UINT64_MAX in *; lia). lia. }
  rewrite Hdl. destruct (wait_loop_run (UINT64_MAX `min` (clock (kern w2) + default 0 t)) fuel w2 ρ l Ha2)
    as [(r & w' & Hrun & [G1 G2 G3 G4])|(Hrun & i & w' & Hg)]; [left|right].
  - exists r, w'. split; [done|]. split; [done|]. destruct r as [message| |code]; [done| |by apply G4].
    destruct (G3 eq_refl) as [Hd Hnone]. pose proof (clock_range (kern w')). split; [lia|].
    eapply Forall_impl; [exact Hnone|]. intros t' Hnd [Hact Hle]. apply Hnd. split; [done|]. pose proof (ca_clock _ _ Hc2). lia.
  - split; [done|]. exists i, w'. split; [done|]. pose proof (goes_on_bound _ _ _ _ _ _ _ Hg Ha2). lia.
Qed.
End loop.

(** ** A kernel with a clock *)

Definition last_tick : Z := UINT64_MAX - 1.
Definition demo_clock (k : Z) : Z := 0 `max` (k `min` last_tick).
Definition demo_gui : gui_functions := GuiFunctions 7003 7053 9014 9012 9045.
Definition demo_quiet : list Z := [7006; 9033; 9011].

(** Its clock has a thousand ticks a second, and there are never events. There has been
    activity with the number 1: a program that does not know of it does not wait; one
    that does waits the whole time. *)
#[global] Instance clocked : Kernel Z := λ f args w,
  if f =? 7003 then (demo_clock (kern w), w)
  else if f =? 7053 then
    match write_bytes (mem w) (nth 0 args 0 + 24) (le_bytes 4 1000) with Some m => (0, World m (kern w)) | None => (0, w) end
  else if f =? 9045 then
    if nth 0 args 0 =? 0 then
      match write_bytes (mem w) (nth 2 args 0) (le_bytes 8 1) with Some m => (1, World m (kern w)) | None => (-1, w) end
    else if demo_clock (kern w) <? last_tick then (0, World (mem w) (demo_clock (kern w) + 1 `max` nth 1 args 0)) else (-1, w)
  else (0, w).

#[global] Instance clocked_laws : GuiKernel Z demo_clock (λ _, false) demo_gui demo_quiet.
Proof.
  assert (∀ k, 0 ≤ demo_clock k ≤ last_tick) as Hr by (intros k; unfold demo_clock, last_tick, UINT64_MAX; lia).
  split.
  - intros k. specialize (Hr k). unfold last_tick in Hr. lia.
  - intros w. cbn. split; [done|]. split; [|lia]. rewrite u64_small; [done|]. specialize (Hr (kern w)). unfold is_u64, last_tick, UINT64_MAX in *. lia.
  - intros w state. unfold kcall, clocked. cbn [g_time demo_gui nth]. change (7053 =? 7003) with false. change (7053 =? 7053) with true. cbv iota.
    destruct (write_bytes _ _ _) as [m|] eqn:E; cbn [snd kern mem]; [|by split; [split|lia]].
    apply write_bytes_changed in E. split; [|lia]. eapply changed_sub; [exact E|lia|rewrite length_le_bytes; lia].
  - intros w raw. cbn. split; [by split|]. by split; [lia|].
  - intros w info. cbn. split; [by split|lia].
  - intros w last ticks out. unfold kcall, clocked. cbn [g_wait demo_gui nth].
    change (9045 =? 7003) with false. change (9045 =? 7053) with false. change (9045 =? 9045) with true. cbv iota.
    destruct (last =? 0).
    { destruct (write_bytes _ _ _) as [m|] eqn:E; cbn [snd kern mem]; [|by split; [split|lia]].
      apply write_bytes_changed in E. split; [|lia]. eapply changed_sub; [exact E|lia|rewrite length_le_bytes; lia]. }
    destruct (Z.ltb_spec (demo_clock (kern w)) last_tick) as [Hlt|Hge]; cbn [snd fst kern mem]; (split; [by split|]); [|lia].
    specialize (Hr (kern w)). set (c := demo_clock (kern w)) in *. unfold demo_clock. lia.
  - intros f args w Hf%list_elem_of_In. cbn [In demo_quiet] in Hf. destruct Hf as [<-|[<-|[<-|[]]]]; cbn; by split; [|lia].
Qed.

(** The application at 256 with its tables at 4096 and 8192, the loop at 512 with two
    timers at 1024, and the stack at 2048; it is tick 80. *)
Definition gui_start : world Z := World (image [
  (256, struct_bytes R4App_t [0; 0; 4096; 8192]);
  (512, struct_bytes R4EventLoop [256; 1024; 2; 0; 0; 0; 0]);
  (1024, struct_bytes R4Timer [1; 95; 10; 1]); (1056, struct_bytes R4Timer [2; 100; 0; 1]);
  (2048, replicate 120 x00);
  (4096, struct_bytes R4XStartR4Sys ([R4XSTART_R4SYS_MAGIC; 14; 1264; 0] ++ map (λ i, 7000 + Z.of_nat i) (seq 0 156)));
  (8192, struct_bytes R4XStartR4Desk ([R4XSTART_R4DESK_MAGIC; 14; 488; 0] ++ map (λ i, 9000 + Z.of_nat i) (seq 0 59)))]) 80.

(** Such a memory is in order. *)
Definition slot_check (m : gmap Z byte) (T : ctype) (table : Z) (l : list (string * Z)) : bool :=
  forallb (λ s, slot_of m T table (fst s) =? snd s) l.
Definition table_check (m : gmap Z byte) (T : ctype) (table size : Z) : bool :=
  (fv m T table "size" =? size) && mapped_b m table size.
Definition gui_memory_check (m : gmap Z byte) : bool :=
  (table_ptr m 264 =? 4096) && (client_ptr m 280 =? 8192) && (fv m R4Sys_t 264 "ctx" =? 0) && mapped_b m 264 24
  && table_check m R4XStartR4Sys 4096 1264 && table_check m R4XStartR4Desk 8192 488
  && slot_check m R4XStartR4Sys 4096 [("ticks", 7003); ("time_state", 7053); ("program_should_close", 7006)]
  && slot_check m R4XStartR4Desk 8192 [("gui_poll_event", 9014); ("gui_window_info", 9012); ("desktop_activity_wait", 9045);
       ("clipboard_revision", 9033); ("program_window_id", 9011)].

Lemma table_check_ok m T min table size :
  table_check m T table size = true → 16 ≤ size → min ≤ size → table_ok m T min table.
Proof.
  unfold table_check. rewrite andb_true_iff, Z.eqb_eq. intros [Ez Hm%mapped_b_mapped] H1 H2.
  split; intros _; rewrite ?Ez; [done|eapply mapped_sub; [exact Hm|lia|lia]|done].
Qed.

Lemma gui_memory_env m :
  gui_memory_check m = true →
  gui_env demo_gui demo_quiet 256 m ∧ ∀ a n, 288 ≤ a → a + n ≤ 4096 → gui_aside 256 m a n.
Proof.
  unfold gui_memory_check. rewrite !andb_true_iff, !Z.eqb_eq.
  intros [[[[[[[E1 E2] E3] Hm%mapped_b_mapped] Ht1] Ht2] Hs1] Hs2]. unfold slot_check in *. cbn [forallb fst snd] in Hs1, Hs2.
  rewrite !andb_true_iff, !Z.eqb_eq in Hs1. rewrite !andb_true_iff, !Z.eqb_eq in Hs2. destruct Hs1 as (A1 & A2 & A3 & _), Hs2 as (B1 & B2 & B3 & B4 & B5 & _). split.
  - split; change (256 + 8) with 264; change (256 + 24) with 280; unfold context_of; change (256 + 8) with 264; rewrite ?E1, ?E2, ?E3;
      [lia| |lia| |lia| | |lia|lia].
    + split; [intros _; eapply mapped_sub; [exact Hm|lia|lia]|]. rewrite E1. by eapply table_check_ok.
    + split; [intros _; eapply mapped_sub; [exact Hm|lia|lia]|]. rewrite E2. by eapply table_check_ok.
    + intros n P Hin%list_elem_of_In. cbn [In sys_slots] in Hin. destruct Hin as [[= <- <-]|[[= <- <-]|[[= <- <-]|[]]]]; rewrite ?A1, ?A2, ?A3; [done..|].
      right. apply list_elem_of_In. cbn. tauto.
    + intros n P Hin%list_elem_of_In. cbn [In desk_slots] in Hin.
      destruct Hin as [[= <- <-]|[[= <- <-]|[[= <- <-]|[[= <- <-]|[[= <- <-]|[]]]]]]; rewrite ?B1, ?B2, ?B3, ?B4, ?B5; [done..| |];
        right; apply list_elem_of_In; cbn; tauto.
  - apply andb_true_iff in Ht1 as [Ez1%Z.eqb_eq _], Ht2 as [Ez2%Z.eqb_eq _]. intros a n Ha Hn.
    split; change (256 + 8) with 264; change (256 + 24) with 280; unfold context_of; change (256 + 8) with 264; [split|split|]; rewrite ?E1, ?E2, ?E3; intros ?; lia.
Qed.

Lemma gui_start_area : gui_area demo_gui demo_quiet 256 512 2048 (mem gui_start) (fv (mem gui_start) R4EventLoop 512) timer_list.
Proof.
  destruct (gui_memory_env (mem gui_start) ltac:(vm_compute; reflexivity)) as [He Has].
  assert (fv (mem gui_start) R4EventLoop 512 "timers" = 1024) as E4 by (vm_compute; reflexivity).
  assert (fv (mem gui_start) R4EventLoop 512 "timer_count" = 2) as E5 by (vm_compute; reflexivity).
  assert (fv (mem gui_start) R4EventLoop 512 "app" = 256) as E6 by (vm_compute; reflexivity).
  assert (mapped (mem gui_start) 512 48 ∧ mapped (mem gui_start) 2048 120) as [H1 H2]
    by (split; apply mapped_b_mapped; vm_compute; reflexivity).
  assert (timers_at (mem gui_start) 1024 timer_list) as Ht.
  { intros [|[|]] t Ht; [injection Ht as <-|injection Ht as <-|done]; (split; [apply mapped_b_mapped; vm_compute; reflexivity|]);
      intros f q Hf%timer_field; destruct Hf as [->|[->|[->| ->]]]; vm_compute; reflexivity. }
  assert (struct_at (mem gui_start) R4EventLoop 512 (fv (mem gui_start) R4EventLoop 512)) as Hs by (apply struct_own; exact H1).
  revert He Has E4 E5 E6 H1 H2 Ht Hs. generalize (mem gui_start). intros m He Has E4 E5 E6 H1 H2 Ht Hs.
  split; rewrite ?E4, ?E6; [exact He| |lia|exact H2| |cbn; lia].
  - split; rewrite ?E4; [exact Hs|exact E5|exact Ht| |cbn; lia]. repeat constructor; vm_compute; (discriminate || reflexivity).
  - split_and!; apply Has; cbn; lia.
Qed.

(** Ten milliseconds from tick 80 on the time is over at 90; with a hundred, a timer
    fires before. *)
Example gui_wait_times_out :
  option_map (λ r, (fst r, kern (snd r))) (r4_event_loop_wait 3 512 (r4_timeout_finite 10000000) 1 2048 2088 2128 2136 gui_start)
    = Some (R4_MESSAGE_NEXT_TIMED_OUT, 90).
Proof. vm_compute. reflexivity. Qed.

Example gui_wait_fires :
  option_map (λ r, (fst r, kern (snd r))) (r4_event_loop_wait 3 512 (r4_timeout_finite 100000000) 1 2048 2088 2128 2136 gui_start)
    = Some (R4_MESSAGE_NEXT_MESSAGE (R4_MESSAGE_TIMER 1 95), 95).
Proof. vm_compute. reflexivity. Qed.

Lemma gui_wait_done : is_Some (r4_event_loop_wait 3 512 (r4_timeout_finite 10000000) 1 2048 2088 2128 2136 gui_start).
Proof.
  assert (option_map (λ _, ()) (r4_event_loop_wait 3 512 (r4_timeout_finite 10000000) 1 2048 2088 2128 2136 gui_start) = Some ()) as E
    by (vm_compute; reflexivity).
  destruct (r4_event_loop_wait _ _ _ _ _ _ _ _ _); [by eexists|discriminate E].
Qed.

Lemma gui_clock_rate : option_map fst (r4_gui_monotonic_hz 256 2136 gui_start) = Some 1000.
Proof. vm_compute. reflexivity. Qed.

Lemma event_loop_wait_returns_witness :
  ∃ r w', r4_event_loop_wait 3 512 (r4_timeout_finite 10000000) 1 2048 2088 2128 2136 gui_start = Some (r, w') ∧
    (r = R4_MESSAGE_NEXT_TIMED_OUT → ∃ started t, waits (r4_timeout_finite 10000000) 1000 t ∧ started + t ≤ demo_clock (kern w')).
Proof.
  destruct (event_loop_wait_returns demo_clock (λ _, false) demo_gui demo_quiet 256 512 2048 1 ltac:(lia) ltac:(discriminate)
    ltac:(discriminate) ltac:(discriminate) gui_start _ _ (r4_timeout_finite 10000000) gui_start_area)
    as (hz & w1 & Hz & Hcases); [vm_compute; split; [discriminate|reflexivity]|discriminate|].
  assert (hz = 1000) as -> by (pose proof gui_clock_rate as E; change (2048 + 88) with 2136 in Hz; rewrite Hz in E; cbn in E; congruence).
  destruct Hcases as [[Hno _]|(t & w2 & Hw & _ & _ & Hrun)].
  - exfalso. revert Hno. vm_compute. intuition discriminate.
  - destruct (Hrun 3%nat) as [(r & w' & Hr & _ & Hres)|[Hr _]].
    + exists r, w'. split; [exact Hr|]. intros ->. exists (demo_clock (kern w2)), t. split; [exact Hw|]. apply Hres.
    + destruct gui_wait_done as [x Hx]. exfalso. assert (Some x = None) as E by (rewrite <-Hx; exact Hr). discriminate E.
Defined.

End R4GuiLoop.
