(* ===== verification/R4Resources.v ===== *)
(** * app_resources.h

    Processes, threads, memory regions and asynchronous requests as handles with
    an owner. Each is a structure that the caller keeps; a local variable whose
    address goes to the kernel ([handle], [info], [id], [state], [observed],
    [completion], [exit_code]) is at the given address, and [empty] is the
    address of the literal [""]. A path is given by its pointer. *)

From S2P Require Import Prelude R4Abi R4Mem R4L R4LSpec.
From S2P Require Import R4Table R4Sys R4SysSpec R4SysInit R4Field R4Group R4Vm R4Time.
From S2P Require Import R4Dev R4Desk R4Draw R4App R4Services.

Module R4Resources.
Export R4Vm R4Services.

Definition R4OS_ERR_BUFFER_IN_USE : Z := -9005.
Definition R4OS_PROGRAM_HANDLE_OK : Z := 0.
Definition R4OS_PROGRAM_HANDLE_ERROR_WOULD_BLOCK : Z := -5.
Definition R4OS_PROGRAM_HANDLE_ERROR_TIMEOUT : Z := -6.
Definition R4OS_THREAD_OK : Z := 0.
Definition R4OS_THREAD_ERROR_NOT_FOUND : Z := -5.
Definition R4OS_THREAD_ERROR_TIMEOUT : Z := -8.
Definition R4OS_VM_ERROR_INVALID_RANGE : Z := -1.
Definition R4OS_IO_OK : Z := 0.
Definition R4OS_IO_ERROR_INVALID : Z := -1.
Definition R4OS_IO_ERROR_NOT_FOUND : Z := -5.
Definition R4OS_IO_ERROR_TIMEOUT : Z := -6.

(** ** Data *)

Definition R4Resources_t : ctype := Struct [("app", U64)].

Inductive R4ResourceWaitKind :=
  | R4_RESOURCE_WAIT_EXITED | R4_RESOURCE_WAIT_WOULD_BLOCK | R4_RESOURCE_WAIT_TIMED_OUT | R4_RESOURCE_WAIT_FAILED.
Record R4ResourceWait := ResourceWait { resource_kind : R4ResourceWaitKind; resource_value : Z }.

Definition R4Process : ctype := Struct [
  ("app", U64); ("raw", U32); ("owned", U8); ("reserved", Array U8 3); ("generation", U64); ("handle_reserved", U32);
  ("extension_reserved", U32)].
Definition R4JoinHandle : ctype := Struct [
  ("app", U64); ("handle", R4ProgramJoinHandle); ("owned", U8); ("reserved", Array U8 7)].
Definition R4VmRegion : ctype := Struct [
  ("app", U64); ("raw", U32); ("owned", U8); ("reserved", Array U8 3); ("last_info", R4ProgramVmRegionInfo)].

Definition R4_IO_BUFFER_NONE : Z := 0.
Definition R4_IO_BUFFER_MUTABLE : Z := 1.
Definition R4_IO_BUFFER_READ_ONLY : Z := 2.
Definition R4IoRequest : ctype := Struct [
  ("app", U64); ("raw", U32); ("owned", U8); ("buffer_kind", U8); ("reserved", Array U8 2); ("mutable_buffer", U64);
  ("read_only_buffer", U64); ("buffer_length", U64); ("last_info", R4ProgramIoInfo)].

Section code.
Context {K : Type} `{!Kernel K}.

(** [*dst = *src]. *)
Definition copy_struct (T : ctype) (src dst : Z) : M K () := memcpy dst src (sizeof T).

(** The facade by its one field. *)
Definition r4_app_resources (app : Z) : Z := app.

(** [resources == 0 || resources->app == 0] is that this is 0. *)
Definition resources_app (resources : Z) : M K Z := if resources =? 0 then mret 0 else get R4Resources_t "app" resources.

(** ** Validity *)

Definition r4os_process_valid (process : Z) : M K bool :=
  if process =? 0 then mret false else
  app ← get R4Process "app" process;
  if app =? 0 then mret false else
  raw ← get R4Process "raw" process;
  if raw =? 0 then mret false else
  generation ← get R4Process "generation" process;
  if generation =? 0 then mret false else
  handle_reserved ← get R4Process "handle_reserved" process;
  if negb (handle_reserved =? 0) then mret false else
  extension_reserved ← get R4Process "extension_reserved" process;
  mret (extension_reserved =? 0).
Definition r4_process_valid (process : Z) : M K bool := r4os_process_valid process.

(** The handle is returned by value; [out] is the variable that receives it. *)
Definition r4os_process_abi_handle (process out : Z) : M K () :=
  _ ← clear R4ProgramProcessHandle out;
  if process =? 0 then mret () else
  raw ← get R4Process "raw" process;
  _ ← put R4ProgramProcessHandle "instance_id" out raw;
  reserved ← get R4Process "handle_reserved" process;
  _ ← put R4ProgramProcessHandle "reserved" out reserved;
  generation ← get R4Process "generation" process;
  put R4ProgramProcessHandle "generation" out generation.

Definition r4os_process_store_abi_handle (process handle : Z) : M K () :=
  raw ← get R4ProgramProcessHandle "instance_id" handle;
  _ ← put R4Process "raw" process raw;
  generation ← get R4ProgramProcessHandle "generation" handle;
  _ ← put R4Process "generation" process generation;
  reserved ← get R4ProgramProcessHandle "reserved" handle;
  _ ← put R4Process "handle_reserved" process reserved;
  put R4Process "extension_reserved" process 0.

Definition r4os_process_invalidate (process : Z) : M K () :=
  _ ← put R4Process "raw" process 0;
  _ ← put R4Process "generation" process 0;
  _ ← put R4Process "handle_reserved" process 0;
  put R4Process "extension_reserved" process 0.

(** [&handle->handle]. *)
Definition join_inner (handle : Z) : Z := handle + offsetof R4JoinHandle "handle".

Definition r4_join_handle_valid (handle : Z) : M K bool :=
  if handle =? 0 then mret false else
  app ← get R4JoinHandle "app" handle;
  if app =? 0 then mret false else
  thread_id ← get R4ProgramJoinHandle "thread_id" (join_inner handle);
  if thread_id =? 0 then mret false else
  instance_id ← get R4ProgramJoinHandle "instance_id" (join_inner handle);
  if instance_id =? 0 then mret false else
  thread_generation ← get R4ProgramJoinHandle "thread_generation" (join_inner handle);
  if thread_generation =? 0 then mret false else
  instance_generation ← get R4ProgramJoinHandle "instance_generation" (join_inner handle);
  if instance_generation =? 0 then mret false else
  reserved ← get R4ProgramJoinHandle "reserved" (join_inner handle);
  mret (reserved =? 0).

Definition r4_join_handle_invalidate (handle : Z) : M K () :=
  if handle =? 0 then mret () else clear R4ProgramJoinHandle (join_inner handle).

(** [h != 0 && h->app != 0 && h->raw != 0]. *)
Definition r4_vm_region_valid : Z → M K bool := service_handle_valid R4VmRegion.
Definition r4_io_request_valid : Z → M K bool := service_handle_valid R4IoRequest.

(** ** The kernel's clock and giving way *)

Definition r4_resource_monotonic_hz (app state : Z) : M K Z :=
  table ← app_table app;
  f ← table_slot table "time_state";
  if f =? 0 then mret 0 else
  _ ← clear R4TimeState state;
  _ ← call_void f [state];
  get R4TimeState "monotonic_hz" state.

Definition r4_resource_yield (app : Z) : M K () :=
  if app =? 0 then mret () else
  table ← app_table app;
  f ← table_slot table "task_yield";
  if negb (f =? 0) then call_void f [] else
  context ← get R4App_t "context" app;
  if context =? 0 then mret () else
  f ← get R4XStartContext "yield" context;
  if f =? 0 then mret () else call_void f [context].

(** ** Processes *)

(** A new handle: [call] is the kernel's function on [&handle]. *)
Definition process_open (resources : Z) (refused : bool) (slot : Z → M K Z) (args : list Z) (owned out handle : Z) : M K Z :=
  _ ← (if out =? 0 then mret () else clear R4Process out);
  app ← resources_app resources;
  if (app =? 0) || (out =? 0) || refused then mret R4OS_PROGRAM_HANDLE_ERROR_INVALID else
  f ← slot app;
  if f =? 0 then mret R4OS_ERR_NO_FN else
  _ ← clear R4ProgramProcessHandle handle;
  status ← call_i32 f (args ++ [handle]);
  if negb (status =? R4OS_PROGRAM_HANDLE_OK) then mret status else
  _ ← put R4Process "app" out app;
  _ ← put R4Process "owned" out owned;
  _ ← r4os_process_store_abi_handle out handle;
  mret status.

(** The functions of the two tables of the application. *)
Definition system_function (name : string) (app : Z) : M K Z := table ← app_table app; table_slot table name.
Definition desktop_function (name : string) (app : Z) : M K Z :=
  table ← get R4App_t "desktop.table" app; if table =? 0 then mret 0 else get R4XStartR4Desk name table.

Definition r4_resources_spawn (resources path args policy out handle empty : Z) : M K Z :=
  process_open resources (path =? 0) (system_function "program_spawn_handle")
    [path; if args =? 0 then empty else args; policy] 1 out handle.

Definition r4os_spawn_with_console_host (resources path args policy host out handle empty : Z) : M K Z :=
  process_open resources (path =? 0) (desktop_function "program_spawn_with_console_host_handle")
    [path; if args =? 0 then empty else args; policy; host] 1 out handle.

Definition r4_resources_open_process (resources instance_id out handle : Z) : M K Z :=
  process_open resources (instance_id =? 0) (system_function "program_open_handle") [instance_id] 0 out handle.

(** What the functions on a process have in common: the handle goes to [handle] and is
    the first argument of the kernel's function [name]. *)
Definition process_call (process : Z) (name : string) (args : list Z) (handle : Z) : M K Z :=
  valid ← r4os_process_valid process;
  if negb valid then mret R4OS_ERR_CLOSED else
  app ← get R4Process "app" process;
  f ← system_function name app;
  if f =? 0 then mret R4OS_ERR_NO_FN else
  _ ← r4os_process_abi_handle process handle;
  call_i32 f (handle :: args).

Definition r4os_process_status (process out handle : Z) : M K Z :=
  if (process =? 0) || (out =? 0) then mret R4OS_PROGRAM_HANDLE_ERROR_INVALID else
  process_call process "program_handle_status" [out] handle.
Definition r4_process_status (process out handle : Z) : M K Z := r4os_process_status process out handle.

Definition r4os_process_request_close (process handle : Z) : M K Z :=
  if process =? 0 then mret R4OS_PROGRAM_HANDLE_ERROR_INVALID else
  process_call process "program_handle_request_close" [] handle.
Definition r4_process_request_close (process handle : Z) : M K Z := r4os_process_request_close process handle.

Definition r4os_process_kill (process handle : Z) : M K Z :=
  if process =? 0 then mret R4OS_PROGRAM_HANDLE_ERROR_INVALID else
  process_call process "program_handle_kill" [] handle.
Definition r4_process_kill (process handle : Z) : M K Z := r4os_process_kill process handle.

Definition r4os_process_wait_ready (process : Z) (timeout : R4Timeout) (out handle state : Z) : M K Z :=
  _ ← (if out =? 0 then mret () else clear R4ProgramProcessCompletion out);
  if (process =? 0) || (out =? 0) then mret R4OS_PROGRAM_HANDLE_ERROR_INVALID else
  valid ← r4os_process_valid process;
  if negb valid then mret R4OS_ERR_CLOSED else
  app ← get R4Process "app" process;
  f ← system_function "program_handle_wait" app;
  if f =? 0 then mret R4OS_ERR_NO_FN else
  hz ← r4_resource_monotonic_hz app state;
  let '(converted, ticks) := r4_timeout_to_ticks timeout hz in
  if negb (converted =? R4OS_OK) then mret R4OS_PROGRAM_HANDLE_ERROR_INVALID else
  _ ← r4os_process_abi_handle process handle;
  app ← get R4Process "app" process;
  f ← system_function "program_handle_wait" app;
  call_i32 f [handle; default 0 ticks; out].

Definition r4os_process_completion_read (process offset out capacity out_read handle : Z) : M K Z :=
  _ ← (if out_read =? 0 then mret () else store 4 out_read 0);
  if (process =? 0) || (out =? 0) || (out_read =? 0) then mret R4OS_PROGRAM_HANDLE_ERROR_INVALID else
  process_call process "program_completion_read" [offset; out; capacity; out_read] handle.

Definition r4os_process_reap (process out handle : Z) : M K Z :=
  _ ← (if out =? 0 then mret () else clear R4ProgramProcessCompletion out);
  if (process =? 0) || (out =? 0) then mret R4OS_PROGRAM_HANDLE_ERROR_INVALID else
  valid ← r4os_process_valid process;
  if negb valid then mret R4OS_ERR_CLOSED else
  owned ← get R4Process "owned" process;
  if owned =? 0 then mret R4OS_ERR_NOT_OWNED else
  app ← get R4Process "app" process;
  f ← system_function "program_handle_reap" app;
  if f =? 0 then mret R4OS_ERR_NO_FN else
  _ ← r4os_process_abi_handle process handle;
  status ← call_i32 f [handle; out];
  _ ← (if status =? R4OS_PROGRAM_HANDLE_OK then r4os_process_invalidate process else mret ());
  mret status.

(** The inner calls have their own [handle]; they do not overlap in time. *)
Definition r4os_process_wait (process : Z) (timeout : R4Timeout) (out handle state observed : Z) : M K Z :=
  if (process =? 0) || (out =? 0) then mret R4OS_PROGRAM_HANDLE_ERROR_INVALID else
  valid ← r4os_process_valid process;
  if negb valid then mret R4OS_ERR_CLOSED else
  owned ← get R4Process "owned" process;
  if owned =? 0 then mret R4OS_ERR_NOT_OWNED else
  _ ← clear R4ProgramProcessCompletion observed;
  status ← r4os_process_wait_ready process timeout observed handle state;
  if negb (status =? R4OS_PROGRAM_HANDLE_OK) then mret status else
  r4os_process_reap process out handle.

Definition r4_process_reap (process handle completion : Z) : M K R4ResourceWait :=
  _ ← clear R4ProgramProcessCompletion completion;
  status ← r4os_process_reap process completion handle;
  if status =? R4OS_PROGRAM_HANDLE_ERROR_WOULD_BLOCK then mret (ResourceWait R4_RESOURCE_WAIT_WOULD_BLOCK 0) else
  if negb (status =? R4OS_PROGRAM_HANDLE_OK) then mret (ResourceWait R4_RESOURCE_WAIT_FAILED status) else
  exit_code ← get R4ProgramProcessCompletion "exit_code" completion;
  mret (ResourceWait R4_RESOURCE_WAIT_EXITED (i32 exit_code)).

Definition r4_process_wait (process : Z) (timeout : R4Timeout) (handle state observed completion : Z) : M K R4ResourceWait :=
  _ ← clear R4ProgramProcessCompletion completion;
  status ← r4os_process_wait process timeout completion handle state observed;
  if status =? R4OS_PROGRAM_HANDLE_ERROR_TIMEOUT then mret (ResourceWait R4_RESOURCE_WAIT_TIMED_OUT 0) else
  if status =? R4OS_PROGRAM_HANDLE_ERROR_WOULD_BLOCK then mret (ResourceWait R4_RESOURCE_WAIT_WOULD_BLOCK 0) else
  if negb (status =? R4OS_PROGRAM_HANDLE_OK) then mret (ResourceWait R4_RESOURCE_WAIT_FAILED status) else
  exit_code ← get R4ProgramProcessCompletion "exit_code" completion;
  mret (ResourceWait R4_RESOURCE_WAIT_EXITED (i32 exit_code)).

(** ** Threads *)

Definition r4_resources_create_thread (resources entry arg stack_reserve_bytes out handle : Z) : M K Z :=
  _ ← (if out =? 0 then mret () else clear R4JoinHandle out);
  app ← resources_app resources;
  if (app =? 0) || (out =? 0) then mret R4OS_THREAD_ERROR_UNSUPPORTED else
  _ ← clear R4ProgramJoinHandle handle;
  raw ← r4sys_thread_create_handle (app_system app) entry arg stack_reserve_bytes 0 handle;
  if negb (raw =? R4OS_THREAD_OK) then mret raw else
  _ ← put R4JoinHandle "app" out app;
  _ ← copy_struct R4ProgramJoinHandle handle (join_inner out);
  _ ← put R4JoinHandle "owned" out 1;
  mret raw.

Definition r4_join_status (handle out : Z) : M K Z :=
  valid ← r4_join_handle_valid handle;
  if negb valid then mret R4OS_ERR_CLOSED else
  app ← get R4JoinHandle "app" handle;
  r4sys_thread_handle_status (app_system app) (join_inner handle) out.

Definition r4_join_wait (handle : Z) (timeout : R4Timeout) (state exit_code : Z) : M K R4ResourceWait :=
  let failed v := ResourceWait R4_RESOURCE_WAIT_FAILED v in
  valid ← r4_join_handle_valid handle;
  if negb valid then mret (failed R4OS_ERR_CLOSED) else
  owned ← get R4JoinHandle "owned" handle;
  if owned =? 0 then mret (failed R4OS_ERR_NOT_OWNED) else
  app ← get R4JoinHandle "app" handle;
  hz ← r4_resource_monotonic_hz app state;
  let '(converted, ticks) := r4_timeout_to_ticks timeout hz in
  if negb (converted =? R4OS_OK) then mret (failed R4OS_THREAD_ERROR_INVALID) else
  _ ← store 4 exit_code 0;
  app ← get R4JoinHandle "app" handle;
  raw ← r4sys_thread_handle_join (app_system app) (join_inner handle) (default 0 ticks) exit_code;
  if raw =? R4OS_THREAD_ERROR_TIMEOUT then mret (ResourceWait R4_RESOURCE_WAIT_TIMED_OUT 0) else
  if raw =? R4OS_THREAD_ERROR_NOT_FOUND then _ ← r4_join_handle_invalidate handle; mret (failed R4OS_ERR_CLOSED) else
  if negb (raw =? R4OS_THREAD_OK) then mret (failed raw) else
  _ ← r4_join_handle_invalidate handle;
  code ← load 4 exit_code;
  mret (ResourceWait R4_RESOURCE_WAIT_EXITED (i32 code)).

(** ** Regions of virtual memory *)

(** [&region->last_info]. *)
Definition region_info (region : Z) : Z := region + offsetof R4VmRegion "last_info".

Definition r4_resources_reserve_vm (resources size alignment flags out info : Z) : M K Z :=
  _ ← (if out =? 0 then mret () else clear R4VmRegion out);
  app ← resources_app resources;
  if (app =? 0) || (out =? 0) then mret R4OS_VM_ERROR_NO_INSTANCE else
  _ ← clear R4ProgramVmRegionInfo info;
  raw ← r4sys_vm_reserve (app_system app) size alignment flags info;
  if negb (raw =? R4OS_VM_OK) then mret raw else
  _ ← put R4VmRegion "app" out app;
  id ← get R4ProgramVmRegionInfo "id" info;
  _ ← put R4VmRegion "raw" out id;
  _ ← put R4VmRegion "owned" out 1;
  _ ← copy_struct R4ProgramVmRegionInfo info (region_info out);
  mret raw.

(** [valid ? fn(&region->app->system, region->raw) : R4OS_ERR_CLOSED]. *)
Definition region_call (region : Z) (fn : Z → Z → M K Z) : M K Z :=
  valid ← r4_vm_region_valid region;
  if negb valid then mret R4OS_ERR_CLOSED else
  app ← get R4VmRegion "app" region;
  id ← get R4VmRegion "raw" region;
  fn (app_system app) id.

Definition r4_vm_region_query (region out : Z) : M K Z :=
  region_call region (λ sys id,
    raw ← r4sys_vm_query sys id out;
    _ ← (if (raw =? R4OS_VM_OK) && negb (out =? 0) then copy_struct R4ProgramVmRegionInfo out (region_info region) else mret ());
    mret raw).
Definition r4_vm_region_commit (region offset len : Z) : M K Z := region_call region (λ sys id, r4sys_vm_commit sys id offset len).
Definition r4_vm_region_decommit (region offset len : Z) : M K Z := region_call region (λ sys id, r4sys_vm_decommit sys id offset len).

Definition r4_vm_region_release (region : Z) : M K Z :=
  valid ← r4_vm_region_valid region;
  if negb valid then mret R4OS_ERR_CLOSED else
  owned ← get R4VmRegion "owned" region;
  if owned =? 0 then mret R4OS_ERR_NOT_OWNED else
  app ← get R4VmRegion "app" region;
  id ← get R4VmRegion "raw" region;
  raw ← r4sys_vm_release (app_system app) id;
  if (raw =? R4OS_VM_OK) || (raw =? R4OS_VM_ERROR_INVALID_RANGE) then
    _ ← put R4VmRegion "raw" region 0;
    _ ← clear R4ProgramVmRegionInfo (region_info region);
    mret (if raw =? R4OS_VM_OK then raw else R4OS_ERR_CLOSED)
  else mret raw.

(** ** Asynchronous requests *)

Definition r4_io_bind (request app id kind mutable_buffer read_only_buffer length : Z) : M K () :=
  _ ← clear R4IoRequest request;
  _ ← put R4IoRequest "app" request app;
  _ ← put R4IoRequest "raw" request id;
  _ ← put R4IoRequest "owned" request 1;
  _ ← put R4IoRequest "buffer_kind" request kind;
  _ ← put R4IoRequest "mutable_buffer" request mutable_buffer;
  _ ← put R4IoRequest "read_only_buffer" request read_only_buffer;
  put R4IoRequest "buffer_length" request length.

(** What the functions that start a request have in common: [fn] is the one of r4sys.h. *)
Definition async_start (resources : Z) (fn : Z → Z → M K Z) (kind mutable_buffer read_only_buffer length out id : Z) : M K Z :=
  _ ← (if out =? 0 then mret () else clear R4IoRequest out);
  app ← resources_app resources;
  if (app =? 0) || (out =? 0) then mret R4OS_IO_ERROR_UNSUPPORTED else
  _ ← store 4 id 0;
  raw ← fn (app_system app) id;
  _ ← (if raw =? R4OS_IO_OK then v ← load 4 id; r4_io_bind out app v kind mutable_buffer read_only_buffer length else mret ());
  mret raw.

Definition r4_resources_async_read (resources path buffer capacity flags out id : Z) : M K Z :=
  async_start resources (λ sys id, r4sys_io_file_read sys path buffer capacity flags id) R4_IO_BUFFER_MUTABLE buffer 0 capacity out id.
Definition r4_resources_async_read_at (resources path offset buffer capacity flags out id : Z) : M K Z :=
  async_start resources (λ sys id, r4sys_io_file_read_at sys path offset buffer capacity flags id) R4_IO_BUFFER_MUTABLE buffer 0 capacity out id.
Definition r4_resources_async_write (resources path data len flags out id : Z) : M K Z :=
  async_start resources (λ sys id, r4sys_io_file_write sys path data len flags id) R4_IO_BUFFER_READ_ONLY 0 data len out id.
Definition r4_resources_async_append (resources path data len flags out id : Z) : M K Z :=
  async_start resources (λ sys id, r4sys_io_file_append sys path data len flags id) R4_IO_BUFFER_READ_ONLY 0 data len out id.
Definition r4_resources_async_stream_begin (resources path flags out id : Z) : M K Z :=
  async_start resources (λ sys id, r4sys_io_file_stream_begin sys path flags id) R4_IO_BUFFER_NONE 0 0 0 out id.
Definition r4_resources_async_stream_write (resources path offset data len flags out id : Z) : M K Z :=
  async_start resources (λ sys id, r4sys_io_file_stream_write sys path offset data len flags id) R4_IO_BUFFER_READ_ONLY 0 data len out id.
Definition r4_resources_async_stream_finish (resources path expected_size flags out id : Z) : M K Z :=
  async_start resources (λ sys id, r4sys_io_file_stream_finish sys path expected_size flags id) R4_IO_BUFFER_NONE 0 0 0 out id.
Definition r4_resources_async_stream_abort (resources path out id : Z) : M K Z :=
  async_start resources (λ sys id, r4sys_io_file_stream_abort sys path id) R4_IO_BUFFER_NONE 0 0 0 out id.

Definition r4_io_request_buffers_held (request : Z) : M K bool :=
  valid ← r4_io_request_valid request;
  if negb valid then mret false else
  kind ← get R4IoRequest "buffer_kind" request; mret (negb (kind =? R4_IO_BUFFER_NONE)).

(** The four assignments with which the buffer is forgotten. *)
Definition forget_buffers (request : Z) : M K () :=
  _ ← put R4IoRequest "buffer_kind" request R4_IO_BUFFER_NONE;
  _ ← put R4IoRequest "mutable_buffer" request 0;
  _ ← put R4IoRequest "read_only_buffer" request 0;
  put R4IoRequest "buffer_length" request 0.

Definition r4_io_request_release_buffers (request : Z) : M K Z :=
  held ← r4_io_request_buffers_held request;
  if held : bool then mret R4OS_ERR_BUFFER_IN_USE else
  _ ← (if request =? 0 then mret () else forget_buffers request);
  mret R4OS_IO_OK.

(** [&request->last_info]. *)
Definition request_info (request : Z) : Z := request + offsetof R4IoRequest "last_info".

Definition r4_io_request_status (request out : Z) : M K Z :=
  valid ← r4_io_request_valid request;
  if negb valid then mret R4OS_ERR_CLOSED else
  app ← get R4IoRequest "app" request;
  id ← get R4IoRequest "raw" request;
  raw ← r4sys_io_status (app_system app) id out;
  _ ← (if (raw =? R4OS_IO_OK) && negb (out =? 0) then copy_struct R4ProgramIoInfo out (request_info request) else mret ());
  mret raw.

Definition r4_io_request_wait (request : Z) (timeout : R4Timeout) (state info : Z) : M K R4ResourceWait :=
  let failed v := ResourceWait R4_RESOURCE_WAIT_FAILED v in
  valid ← r4_io_request_valid request;
  if negb valid then mret (failed R4OS_ERR_CLOSED) else
  app ← get R4IoRequest "app" request;
  hz ← r4_resource_monotonic_hz app state;
  let '(converted, ticks) := r4_timeout_to_ticks timeout hz in
  if negb (converted =? R4OS_OK) then mret (failed R4OS_IO_ERROR_INVALID) else
  _ ← clear R4ProgramIoInfo info;
  app ← get R4IoRequest "app" request;
  id ← get R4IoRequest "raw" request;
  raw ← r4sys_io_wait (app_system app) id (default 0 ticks) info;
  if raw =? R4OS_IO_ERROR_TIMEOUT then mret (ResourceWait R4_RESOURCE_WAIT_TIMED_OUT 0) else
  if negb (raw =? R4OS_IO_OK) then mret (failed raw) else
  _ ← copy_struct R4ProgramIoInfo info (request_info request);
  result ← get R4ProgramIoInfo "result" info;
  mret (ResourceWait R4_RESOURCE_WAIT_EXITED (i32 result)).

Definition r4_io_request_close (request : Z) : M K Z :=
  valid ← r4_io_request_valid request;
  if negb valid then mret R4OS_ERR_CLOSED else
  owned ← get R4IoRequest "owned" request;
  if owned =? 0 then mret R4OS_ERR_NOT_OWNED else
  app ← get R4IoRequest "app" request;
  id ← get R4IoRequest "raw" request;
  raw ← r4sys_io_close (app_system app) id;
  if (raw =? R4OS_IO_OK) || (raw =? R4OS_IO_ERROR_NOT_FOUND) then
    _ ← put R4IoRequest "raw" request 0;
    _ ← forget_buffers request;
    mret (if raw =? R4OS_IO_OK then raw else R4OS_ERR_CLOSED)
  else mret raw.
End code.

End R4Resources.
