(* ===== verification/R4Requests.v ===== *)
(** * Asynchronous requests and their buffers

    A program starts, watches and closes a request again and again, while the
    kernel may write to the buffer of an open request whenever it is called.
    The structure of the request describes exactly the request that the kernel
    has open and the buffer that it may use. *)

From S2P Require Import Prelude R4Abi R4Mem R4L R4LSpec.
From S2P Require Import R4Table R4Sys R4SysSpec R4SysInit R4Field R4Time.
From S2P Require Import R4App R4Files R4Env R4Services R4Resources.

Module R4Requests.
Export R4Env R4Resources.

(** ** The kernel's side *)

(** What a request does with the program's memory. *)
Record io_buffer := IoBuffer { b_kind : Z; b_mutable : Z; b_read_only : Z; b_length : Z }.
Definition no_buffer : io_buffer := IoBuffer R4_IO_BUFFER_NONE 0 0 0.

(** The functions that start a request, with their arguments. *)
Inductive start_op :=
  | Read (path buffer capacity flags : Z)
  | ReadAt (path offset buffer capacity flags : Z)
  | Write (path data len flags : Z)
  | Append (path data len flags : Z)
  | StreamBegin (path flags : Z)
  | StreamWrite (path offset data len flags : Z)
  | StreamFinish (path expected_size flags : Z)
  | StreamAbort (path : Z).

Definition start_name (op : start_op) : string :=
  match op with
  | Read _ _ _ _ => "io_file_read" | ReadAt _ _ _ _ _ => "io_file_read_at" | Write _ _ _ _ => "io_file_write"
  | Append _ _ _ _ => "io_file_append" | StreamBegin _ _ => "io_file_stream_begin" | StreamWrite _ _ _ _ _ => "io_file_stream_write"
  | StreamFinish _ _ _ => "io_file_stream_finish" | StreamAbort _ => "io_file_stream_abort"
  end.

(** The arguments of the kernel's function, but the address for the number of the request. *)
Definition start_args (op : start_op) : list Z :=
  match op with
  | Read path buffer capacity flags => [path; buffer; capacity; flags]
  | ReadAt path offset buffer capacity flags => [path; offset; buffer; capacity; flags]
  | Write path data len flags => [path; data; len; flags]
  | Append path data len flags => [path; data; len; flags]
  | StreamBegin path flags => [path; flags]
  | StreamWrite path offset data len flags => [path; offset; data; len; flags]
  | StreamFinish path expected_size flags => [path; expected_size; flags]
  | StreamAbort path => [path]
  end.

Definition start_buffer (op : start_op) : io_buffer :=
  match op with
  | Read _ buffer capacity _ | ReadAt _ _ buffer capacity _ => IoBuffer R4_IO_BUFFER_MUTABLE buffer 0 capacity
  | Write _ data len _ | Append _ data len _ | StreamWrite _ _ data len _ => IoBuffer R4_IO_BUFFER_READ_ONLY 0 data len
  | _ => no_buffer
  end.

Lemma start_kind op : is_u8 (b_kind (start_buffer op)).
Proof. destruct op; vm_compute; (split; [discriminate|reflexivity]). Qed.

Lemma start_no_buffer op : b_kind (start_buffer op) = R4_IO_BUFFER_NONE → start_buffer op = no_buffer.
Proof. by destruct op. Qed.

(** The kernel has written to the mutable buffers of open requests. *)
Inductive writes (held : gmap Z io_buffer) (m : gmap Z byte) : gmap Z byte → Prop :=
  | writes_nil : writes held m m
  | writes_cons id b m1 m2 :
      held !! id = Some b → b_kind b = R4_IO_BUFFER_MUTABLE → changed m m1 (b_mutable b) (b_length b) →
      writes held m1 m2 → writes held m m2.

(** It has written [n] bytes at [a] and to those buffers. *)
Definition answers (held : gmap Z io_buffer) (m m' : gmap Z byte) (a n : Z) : Prop :=
  ∃ m1, changed m m1 a n ∧ writes held m1 m'.

Definition start_names : list string := [
  "io_file_read"; "io_file_read_at"; "io_file_write"; "io_file_append"; "io_file_stream_begin"; "io_file_stream_write";
  "io_file_stream_finish"; "io_file_stream_abort"].
Definition request_names : list string := ["io_status"; "io_wait"; "io_close"; "time_state"] ++ start_names.
Definition request_slots (fs : string → Z) : list (string * Z) := map (λ n, (n, fs n)) request_names.

(** The answers to closing that end a request. *)
Definition request_ended (raw : Z) : bool := (raw =? R4OS_IO_OK) || (raw =? R4OS_IO_ERROR_NOT_FOUND).

(** [held] are the open requests of the program with their buffers. *)
Class RequestKernel (K : Type) `{!Kernel K} (held : K → gmap Z io_buffer) (fs : string → Z) : Prop := {
  (** A request that is started is new, and its number is stored. *)
  start_law : ∀ op w out, mapped (mem w) out 4 → let r := kcall (fs (start_name op)) (start_args op ++ [out]) w in
    if i32 (fst r) =? R4OS_IO_OK
    then ∃ id m1, 0 < id < 2 ^ 32 ∧ held (kern w) !! id = None ∧ held (kern (snd r)) = <[id := start_buffer op]> (held (kern w)) ∧
      changed (mem w) m1 out 4 ∧ bytes_at m1 out (le_bytes 4 id) ∧ writes (held (kern (snd r))) m1 (mem (snd r))
    else held (kern (snd r)) = held (kern w) ∧ answers (held (kern w)) (mem w) (mem (snd r)) out 4;
  close_law : ∀ w id, let r := kcall (fs "io_close") [id] w in
    writes (held (kern w)) (mem w) (mem (snd r)) ∧
    held (kern (snd r)) = if request_ended (i32 (fst r)) then delete id (held (kern w)) else held (kern w);
  status_law : ∀ w id out, let r := kcall (fs "io_status") [id; out] w in
    held (kern (snd r)) = held (kern w) ∧ answers (held (kern w)) (mem w) (mem (snd r)) out 80;
  wait_law : ∀ w id ticks out, let r := kcall (fs "io_wait") [id; ticks; out] w in
    held (kern (snd r)) = held (kern w) ∧ answers (held (kern w)) (mem w) (mem (snd r)) out 80;
  time_law : ∀ w state, let r := kcall (fs "time_state") [state] w in
    held (kern (snd r)) = held (kern w) ∧ answers (held (kern w)) (mem w) (mem (snd r)) state 32
}.

Section requests.
Context {K : Type} `{!Kernel K} (held : K → gmap Z io_buffer) (fs : string → Z) `{!RequestKernel K held fs}.
Variables (app resources request stack : Z).
Implicit Types (w : world K) (m : gmap Z byte) (ρ : string → Z).

Abbreviation sys := (app + 8).
Abbreviation ENV := (env sys (request_slots fs) [(resources, le_bytes 8 app)]).
Abbreviation ASIDE := (aside sys [(resources, le_bytes 8 app)]).

(** ** The program's side *)

(** The application, the request, and the local variables: a number at 0 of the
    [stack], information at 8 and a time at 88. *)
Record request_area m ρ : Prop := {
  ra_app : 0 < app < 2 ^ 64 ∧ resources ≠ 0 ∧ request ≠ 0 ∧ stack ≠ 0;
  ra_env : ENV m;
  ra_request : struct_at m R4IoRequest request ρ;
  ra_stack : mapped m stack 120;
  ra_aside : ASIDE m request 120 ∧ ASIDE m stack 120;
  ra_apart : stack + 120 ≤ request ∨ request + 120 ≤ stack
}.

(** Memory that is none of this. *)
Definition request_free m (a n : Z) : Prop :=
  ASIDE m a n ∧ (a + n ≤ request ∨ request + 120 ≤ a) ∧ (a + n ≤ stack ∨ stack + 120 ≤ a).

Definition buffer_free m (b : io_buffer) : Prop :=
  b_kind b = R4_IO_BUFFER_MUTABLE → request_free m (b_mutable b) (b_length b).

Definition request_buffer ρ : io_buffer :=
  IoBuffer (ρ "buffer_kind") (ρ "mutable_buffer") (ρ "read_only_buffer") (ρ "buffer_length").

(** The structure says which request is open. *)
Definition describes ρ (h : gmap Z io_buffer) : Prop :=
  (ρ "raw" = 0 ∧ h = ∅) ∨
  (ρ "raw" ≠ 0 ∧ ρ "app" = app ∧ ρ "owned" ≠ 0 ∧ h = {[ρ "raw" := request_buffer ρ]} ∧
   (ρ "buffer_kind" = R4_IO_BUFFER_NONE → request_buffer ρ = no_buffer)).

Record request_state w ρ : Prop := {
  rs_area : request_area (mem w) ρ;
  rs_buffers : ∀ id b, held (kern w) !! id = Some b → buffer_free (mem w) b
}.

Definition request_inv w : Prop := ∃ ρ, request_state w ρ ∧ describes ρ (held (kern w)).

(** ** Changes beside the program's data *)

Lemma request_slots_fit : slots_ok (request_slots fs) = true.
Proof. reflexivity. Qed.

Definition keeps m m' : Prop :=
  (∀ ρ, request_area m ρ → request_area m' ρ) ∧ (∀ a n, request_free m a n → request_free m' a n).

Lemma request_keeps_refl m : keeps m m.
Proof. by split. Qed.

Lemma request_keeps_trans m1 m2 m3 : keeps m1 m2 → keeps m2 m3 → keeps m1 m3.
Proof. intros [A1 F1] [A2 F2]. split; auto. Qed.

(** A change of the request, given what becomes of it, or of memory that is none of it. *)
Lemma area_change m m' ρ ρ' a n :
  request_area m ρ → changed m m' a n → ASIDE m a n → struct_at m' R4IoRequest request ρ' →
  request_area m' ρ' ∧ ∀ b k, request_free m b k → request_free m' b k.
Proof.
  intros [Ha He Hr Hs [As1 As2] Hap] Hch Has Hr'. destruct (env_changed _ _ _ _ _ _ _ request_slots_fit Hch He Has) as [He' Hk].
  split; [|intros b k (F1 & F2); split; [by apply Hk|done]].
  split; [done|done|done|by eapply changed_mapped|split; by apply Hk|done].
Qed.

Lemma beside_change m m' ρ a n :
  request_area m ρ → changed m m' a n → ASIDE m a n → a + n ≤ request ∨ request + 120 ≤ a → keeps m m'.
Proof.
  intros Ha Hch Has Hd. assert (∀ σ, request_area m σ → request_area m' σ ∧ ∀ b k, request_free m b k → request_free m' b k) as H.
  { intros σ Hσ. eapply area_change; [exact Hσ|exact Hch|exact Has|].
    eapply struct_changed; [reflexivity|exact Hch|exact Hd|exact (ra_request _ _ Hσ)]. }
  split; [intros σ Hσ; by apply H|by apply (H ρ)].
Qed.

Lemma stack_change m m' ρ o n : request_area m ρ → changed m m' (stack + o) n → 0 ≤ o → o + n ≤ 120 → keeps m m'.
Proof.
  intros Ha Hch Ho Hn. pose proof (ra_apart _ _ Ha). eapply beside_change; [exact Ha|exact Hch| |lia].
  eapply aside_sub; [apply (ra_aside _ _ Ha)|lia|lia].
Qed.

Lemma stack_mapped m ρ o n : request_area m ρ → 0 ≤ o → o + n ≤ 120 → mapped m (stack + o) n.
Proof. intros Ha Ho Hn. eapply mapped_sub; [exact (ra_stack _ _ Ha)|lia|lia]. Qed.

(** What the kernel writes leaves the program's data alone. *)
Lemma writes_keep m m' ρ h :
  writes h m m' → request_area m ρ → (∀ id b, h !! id = Some b → buffer_free m b) → keeps m m'.
Proof.
  intros Hw. induction Hw as [m|m id b m1 m2 Hb Hk Hch Hw IH]; intros Ha Hf; [apply request_keeps_refl|].
  destruct (Hf id b Hb Hk) as (F1 & F2 & F3). pose proof (beside_change _ _ _ _ _ Ha Hch F1 F2) as [K1 K2].
  eapply request_keeps_trans; [split; [exact K1|exact K2]|]. apply IH; [by apply K1|]. intros i c Hc Hck. by apply K2, (Hf i c).
Qed.

(** Outside the buffers nothing changes. *)
Lemma writes_bytes m m' h a l :
  writes h m m' → bytes_at m a l →
  (∀ id b, h !! id = Some b → b_kind b = R4_IO_BUFFER_MUTABLE →
     b_mutable b + b_length b ≤ a ∨ a + Z.of_nat (length l) ≤ b_mutable b) → bytes_at m' a l.
Proof.
  intros Hw. induction Hw as [m|m id b m1 m2 Hb Hk Hch Hw IH]; intros Hm Hd; [done|]. apply IH; [|done].
  eapply bytes_changed; [exact Hch|by apply (Hd id b)|done].
Qed.

Lemma state_keep w w' ρ :
  request_state w ρ → keeps (mem w) (mem w') → held (kern w') = held (kern w) → request_state w' ρ.
Proof.
  intros [Ha Hf] [K1 K2] Eh. split; [by apply K1|]. rewrite Eh. intros id b Hb Hk. by apply K2, (Hf id b).
Qed.

Lemma answers_state w w' ρ o n :
  request_state w ρ → answers (held (kern w)) (mem w) (mem w') (stack + o) n → 0 ≤ o → o + n ≤ 120 →
  held (kern w') = held (kern w) → request_state w' ρ.
Proof.
  intros Hs (m1 & Hch & Hw) Ho Hn Eh. destruct Hs as [Ha Hf]. pose proof (stack_change _ _ _ _ _ Ha Hch Ho Hn) as K1.
  eapply state_keep; [by split| |done]. eapply request_keeps_trans; [exact K1|]. eapply writes_keep; [exact Hw|by apply K1|].
  intros id b Hb Hk. by apply K1, (Hf id b).
Qed.

Lemma free_change m m' ρ a n : request_area m ρ → changed m m' a n → request_free m a n → keeps m m'.
Proof. intros Ha Hch (F1 & F2 & _). by eapply beside_change. Qed.

Lemma answers_keep w w' ρ a n :
  request_state w ρ → answers (held (kern w)) (mem w) (mem w') a n →
  (∀ m1, changed (mem w) m1 a n → keeps (mem w) m1) → held (kern w') = held (kern w) → request_state w' ρ ∧ keeps (mem w) (mem w').
Proof.
  intros Hs (m1 & Hch & Hw) Hk Eh. destruct Hs as [Ha Hf]. specialize (Hk m1 Hch).
  assert (keeps (mem w) (mem w')) as Hkw.
  { eapply request_keeps_trans; [exact Hk|]. eapply writes_keep; [exact Hw|by apply Hk|]. intros id b Hb Hbk. by apply Hk, (Hf id b). }
  split; [|done]. eapply state_keep; [by split|done|done].
Qed.

Lemma writes_mapped h m m' a n : writes h m m' → mapped m a n → mapped m' a n.
Proof. intros Hw. induction Hw as [|m id b m1 m2 _ _ Hch _ IH]; [done|]. intros Hm. apply IH. by eapply changed_mapped. Qed.

Lemma answers_mapped h m m' b k a n : answers h m m' b k → mapped m a n → mapped m' a n.
Proof. intros (m1 & Hch & Hw) Hm. eapply writes_mapped; [exact Hw|]. by eapply changed_mapped. Qed.

(** ** Steps on the program's data *)

Lemma request_put w ρ f v o k :
  request_state w ρ → field_at R4IoRequest f = Some (o, k) →
  ∃ w', put R4IoRequest f request v w = Some ((), w') ∧ request_state w' (upd ρ f (v mod 2 ^ (8 * Z.of_nat k))) ∧ kern w' = kern w.
Proof.
  intros [Ha Hf] Hfield. destruct (struct_put_mod w R4IoRequest request ρ f v o k eq_refl Hfield (ra_request _ _ Ha)) as (m' & Hr & Hc & Hs).
  destruct (area_change _ _ _ _ _ _ Ha Hc (proj1 (ra_aside _ _ Ha)) Hs) as [Ha' Hk].
  eexists. split; [exact Hr|]. split; [|done]. split; [exact Ha'|]. intros id b Hb Hbk. by apply Hk, (Hf id b).
Qed.

Lemma request_clear w ρ :
  request_state w ρ → ∃ w', clear R4IoRequest request w = Some ((), w') ∧ request_state w' (λ _, 0) ∧ kern w' = kern w ∧
    ∀ a n, request_free (mem w) a n → request_free (mem w') a n.
Proof.
  intros [Ha Hf]. destruct (clear_struct w R4IoRequest request eq_refl) as (m' & Hr & Hc & Hs); [by vm_compute|apply Ha|].
  destruct (area_change _ _ _ _ _ _ Ha Hc (proj1 (ra_aside _ _ Ha)) Hs) as [Ha' Hk].
  eexists. split; [exact Hr|]. split; [|split; [reflexivity|exact Hk]]. split; [exact Ha'|]. intros id b Hb Hbk. apply Hk, (Hf id b Hb Hbk).
Qed.

(** The information in the request is no field that these functions read. *)
Lemma request_info_copy w ρ src :
  request_state w ρ → mapped (mem w) src 80 →
  ∃ w', copy_struct R4ProgramIoInfo src (request_info request) w = Some ((), w') ∧ request_state w' ρ ∧ kern w' = kern w.
Proof.
  intros [Ha Hf] Hsrc. pose proof (ra_request _ _ Ha) as Hreq. change 80 with (Z.of_nat 80) in Hsrc.
  destruct (read_bytes_mapped _ _ _ Hsrc) as (l & Hl & Hlen).
  destruct (memcpy_run w (request + 40) src l) as (m' & Hr & Hch & _).
  { unfold bytes_at. by rewrite Hlen. }
  { rewrite Hlen. eapply mapped_sub; [exact (sa_mapped _ _ _ _ Hreq)|lia|]. change (sizeof R4IoRequest) with 120. lia. }
  rewrite Hlen in Hr, Hch. change (Z.of_nat 80) with 80 in Hr, Hch. pose proof (struct_hole _ _ R4IoRequest _ _ 40 80 eq_refl Hch Hreq) as Hreq'.
  destruct (area_change _ _ _ _ _ _ Ha Hch ltac:(eapply aside_sub; [exact (proj1 (ra_aside _ _ Ha))|lia|lia]) Hreq') as [Ha' Hk].
  eexists. split; [exact Hr|]. split; [|done]. split; [exact Ha'|]. intros id b Hb Hbk. by apply Hk, (Hf id b).
Qed.

Lemma stack_clear w ρ T o :
  request_state w ρ → fields_fit T = true → 0 ≤ sizeof T → 0 ≤ o → o + sizeof T ≤ 120 →
  ∃ w', clear T (stack + o) w = Some ((), w') ∧ request_state w' ρ ∧ kern w' = kern w ∧ keeps (mem w) (mem w').
Proof.
  intros Hs HT H0 Ho Hn. destruct (clear_struct w T (stack + o) HT H0) as (m' & Hr & Hc & _).
  { eapply stack_mapped; [apply Hs|done|done]. }
  pose proof (stack_change _ _ _ _ _ (rs_area _ _ Hs) Hc Ho Hn) as Hk. eexists. split; [exact Hr|]. split; [|done].
  by eapply state_keep.
Qed.

Lemma stack_store w ρ v :
  request_state w ρ → ∃ w', store 4 stack v w = Some ((), w') ∧ request_state w' ρ ∧ kern w' = kern w ∧ keeps (mem w) (mem w').
Proof.
  intros Hs. pose proof (stack_mapped _ _ 0 4 (rs_area _ _ Hs) ltac:(lia) ltac:(lia)) as Hm. rewrite Z.add_0_r in Hm.
  destruct (store_bytes_run w stack (le_bytes 4 v)) as (m' & Hr & Hc & _); [by rewrite length_le_bytes|]. rewrite length_le_bytes in Hc.
  assert (keeps (mem w) m') as Hk by (eapply (stack_change _ _ _ 0); [apply Hs|by rewrite Z.add_0_r|lia|lia]).
  eexists. split; [exact Hr|]. split; [|done]. by eapply state_keep.
Qed.

Lemma resources_app_run w ρ : request_area (mem w) ρ → resources_app resources w = Some (app, w).
Proof.
  intros Ha. destruct (ra_app _ _ Ha) as (Hu & Hr & _). unfold resources_app, get. rewrite (proj2 (Z.eqb_neq _ _) Hr).
  change (field_at R4Resources_t "app") with (Some (0, 8%nat)). cbv iota. rewrite Z.add_0_r.
  apply (load_run w resources 8 app (le_bytes 8 app)); [exact (en_fixed _ _ _ _ (ra_env _ _ Ha) resources (le_bytes 8 app) ltac:(left))|].
  rewrite le_val_le_bytes. apply Z.mod_small. lia.
Qed.

Lemma request_valid_run w ρ :
  request_area (mem w) ρ → r4_io_request_valid request w = Some (negb (ρ "app" =? 0) && negb (ρ "raw" =? 0), w).
Proof.
  intros Ha. pose proof (ra_request _ _ Ha) as Hv. destruct (ra_app _ _ Ha) as (_ & _ & H0 & _).
  unfold r4_io_request_valid, service_handle_valid. rewrite (proj2 (Z.eqb_neq _ _) H0).
  field_get Hv. destruct (_ =? 0); [done|]. by field_get Hv.
Qed.

(** A wrapper of r4sys.h: the kernel does not have it, or one call of its function. *)
Lemma gate_cases w ρ slots name args bad (e : Z) :
  request_area (mem w) ρ → In name request_names →
  let g := gate w sys slots e (refuse w bad e (kernel_call w sys name args)) in
  g = Some (e, w) ∨ bad = false ∧ g = Some (i32 (fst (kcall (fs name) args w)), snd (kcall (fs name) args w)).
Proof.
  intros Ha Hin. cbv zeta. unfold gate. destruct (has w sys slots); [|by left]. unfold refuse. destruct bad; [by left|]. right. split; [done|].
  unfold kernel_call. by rewrite (en_slots _ _ _ _ (ra_env _ _ Ha) name (fs name)) by (apply list_elem_of_In, in_map_iff; by exists name).
Qed.

Lemma request_table_run w ρ : request_area (mem w) ρ → app_table app w = Some (table_ptr (mem w) sys, w).
Proof.
  intros Ha. destruct (ra_app _ _ Ha) as (Hu & _). unfold app_table. rewrite (proj2 (Z.eqb_neq app 0)) by lia.
  rewrite <-(sys_table_run R4XSTART_R4SYS_SIZE w sys (en_sys _ _ _ _ (ra_env _ _ Ha))). unfold sys_table.
  rewrite (proj2 (Z.eqb_neq sys 0)) by lia. unfold get.
  change (field_at R4App_t "system.table") with (Some (16, 8%nat)). change (field_at R4Sys_t "table") with (Some (8, 8%nat)).
  cbv iota. by rewrite <-Z.add_assoc.
Qed.

Lemma request_hz_run w ρ :
  request_state w ρ → ∃ hz w', r4_resource_monotonic_hz app (stack + 88) w = Some (hz, w') ∧ request_state w' ρ ∧
    held (kern w') = held (kern w).
Proof.
  intros Hs. pose proof (rs_area _ _ Hs) as Ha. unfold r4_resource_monotonic_hz. rewrite (mbind_run _ _ _ _ _ (request_table_run w ρ Ha)).
  unfold table_slot. rewrite (proj2 (Z.eqb_neq _ _) (proj2 (en_table _ _ _ _ (ra_env _ _ Ha)))).
  rewrite (mbind_run _ _ _ _ _ (env_get _ _ _ w "time_state" (fs "time_state") request_slots_fit (ra_env _ _ Ha) ltac:(apply list_elem_of_In; cbn; tauto))).
  destruct (Z.eqb_spec (fs "time_state") 0) as [|Hf]; [by eexists _, w|].
  destruct (stack_clear w ρ R4TimeState 88 Hs eq_refl) as (w1 & Hr & Hs1 & Ek & _); [by vm_compute|lia|by vm_compute|].
  rewrite (mbind_run _ _ _ _ _ Hr). destruct (time_law w1 (stack + 88)) as [Eh Hans]. set (r := kcall (fs "time_state") _ w1) in *.
  assert (call_void (fs "time_state") [stack + 88] w1 = Some ((), snd r)) as Hcall.
  { unfold call_void, call, mbind, m_bind. rewrite (proj2 (Z.eqb_neq _ _) Hf). fold r. by destruct r. }
  rewrite (mbind_run _ _ _ _ _ Hcall). pose proof (answers_state _ _ _ _ _ Hs1 Hans ltac:(lia) ltac:(lia) Eh) as Hs2.
  assert (struct_at (mem (snd r)) R4TimeState (stack + 88) (fv (mem (snd r)) R4TimeState (stack + 88))) as Hst.
  { apply struct_own. eapply stack_mapped; [apply Hs2|lia|by vm_compute]. }
  field_get Hst. eexists _, _. split; [reflexivity|]. split; [done|]. by rewrite Eh, Ek.
Qed.

(** ** Starting *)

Definition start_run (op : start_op) : M K Z :=
  match op with
  | Read path buffer capacity flags => r4_resources_async_read resources path buffer capacity flags request stack
  | ReadAt path offset buffer capacity flags => r4_resources_async_read_at resources path offset buffer capacity flags request stack
  | Write path data len flags => r4_resources_async_write resources path data len flags request stack
  | Append path data len flags => r4_resources_async_append resources path data len flags request stack
  | StreamBegin path flags => r4_resources_async_stream_begin resources path flags request stack
  | StreamWrite path offset data len flags => r4_resources_async_stream_write resources path offset data len flags request stack
  | StreamFinish path size flags => r4_resources_async_stream_finish resources path size flags request stack
  | StreamAbort path => r4_resources_async_stream_abort resources path request stack
  end.

(** A buffer that the structure can hold. *)
Definition start_allowed m (op : start_op) : Prop :=
  let b := start_buffer op in
  is_u64 (b_mutable b) ∧ is_u64 (b_read_only b) ∧ is_u64 (b_length b) ∧ buffer_free m b.

Lemma start_form op : ∃ fn, start_run op =
    async_start resources fn (b_kind (start_buffer op)) (b_mutable (start_buffer op)) (b_read_only (start_buffer op))
      (b_length (start_buffer op)) request stack ∧
  ∀ w ρ, request_area (mem w) ρ →
    fn sys stack w = Some (R4OS_IO_ERROR_UNSUPPORTED, w) ∨
    let r := kcall (fs (start_name op)) (start_args op ++ [stack]) w in fn sys stack w = Some (i32 (fst r), snd r).
Proof.
  assert (∀ name, In name start_names → In name request_names) as Hin by (intros; by apply in_or_app; right).
  destruct op; eexists; (split; [reflexivity|]); intros w ρ Ha; cbv beta;
    destruct (file_and_io_calls _ w sys (en_sys _ _ _ _ (ra_env _ _ Ha))) as (_ & _ & _ & _ & E1 & E2 & E3 & E4 & E5 & E6 & E7 & E8 & _);
    cbv zeta; rewrite ?E1, ?E2, ?E3, ?E4, ?E5, ?E6, ?E7, ?E8; (edestruct (gate_cases w ρ) as [E|[_ E]]; [exact Ha| |left; exact E|right; exact E]); apply Hin; cbn; tauto.
Qed.

(** The structure after it was bound. *)
Lemma io_bind_run w ρ id b :
  request_state w ρ → 0 < id < 2 ^ 32 → is_u8 (b_kind b) → is_u64 (b_mutable b) → is_u64 (b_read_only b) → is_u64 (b_length b) →
  (b_kind b = R4_IO_BUFFER_NONE → b = no_buffer) → ∃ w' ρ', r4_io_bind request app id (b_kind b) (b_mutable b) (b_read_only b) (b_length b) w = Some ((), w') ∧
    request_state w' ρ' ∧ kern w' = kern w ∧ describes ρ' {[id := b]}.
Proof.
  intros Hs Hid Hk Hm Hr Hl Hnone. destruct (ra_app _ _ (rs_area _ _ Hs)) as (Hu & _). unfold r4_io_bind.
  destruct (request_clear w ρ Hs) as (w0 & R0 & S0 & K0 & _). rewrite (mbind_run _ _ _ _ _ R0).
  destruct (request_put w0 _ "app" app 0 8%nat S0 eq_refl) as (w1 & R1 & S1 & K1). rewrite (mbind_run _ _ _ _ _ R1).
  destruct (request_put w1 _ "raw" id 8 4%nat S1 eq_refl) as (w2 & R2 & S2 & K2). rewrite (mbind_run _ _ _ _ _ R2).
  destruct (request_put w2 _ "owned" 1 12 1%nat S2 eq_refl) as (w3 & R3 & S3 & K3). rewrite (mbind_run _ _ _ _ _ R3).
  destruct (request_put w3 _ "buffer_kind" (b_kind b) 13 1%nat S3 eq_refl) as (w4 & R4 & S4 & K4). rewrite (mbind_run _ _ _ _ _ R4).
  destruct (request_put w4 _ "mutable_buffer" (b_mutable b) 16 8%nat S4 eq_refl) as (w5 & R5 & S5 & K5). rewrite (mbind_run _ _ _ _ _ R5).
  destruct (request_put w5 _ "read_only_buffer" (b_read_only b) 24 8%nat S5 eq_refl) as (w6 & R6 & S6 & K6). rewrite (mbind_run _ _ _ _ _ R6).
  destruct (request_put w6 _ "buffer_length" (b_length b) 32 8%nat S6 eq_refl) as (w7 & R7 & S7 & K7). rewrite R7.
  eexists _, _. split; [reflexivity|]. split; [exact S7|]. split; [congruence|]. unfold is_u8, is_u64 in *. right. unfold request_buffer, upd. cbn [String.eqb Ascii.eqb Bool.eqb].
  rewrite !Z.mod_small by lia. split_and!; [lia|done|lia|by destruct b|]. intros E. rewrite <-(Hnone E). by destruct b.
Qed.

Lemma start_inv w ρ op :
  request_state w ρ → ρ "raw" = 0 → held (kern w) = ∅ → start_allowed (mem w) op →
  ∃ raw w', start_run op w = Some (raw, w') ∧ request_inv w'.
Proof.
  intros Hs Hraw Hnone (Hb1 & Hb2 & Hb3 & Hfree). destruct (start_form op) as (fn & -> & Hfn). set (b := start_buffer op) in *.
  destruct (ra_app _ _ (rs_area _ _ Hs)) as (Hu & _ & Hr0 & _). unfold async_start. rewrite (proj2 (Z.eqb_neq _ _) Hr0).
  destruct (request_clear w ρ Hs) as (w0 & R0 & S0 & K0 & F0). rewrite (mbind_run _ _ _ _ _ R0).
  rewrite (mbind_run _ _ _ _ _ (resources_app_run w0 _ (rs_area _ _ S0))). rewrite (proj2 (Z.eqb_neq app 0)) by lia. cbn [orb].
  destruct (stack_store w0 _ 0 S0) as (w1 & R1 & S1 & K1 & F1). rewrite (mbind_run _ _ _ _ _ R1). change (app_system app) with sys.
  assert (held (kern w1) = ∅) as Hnone1 by (by rewrite K1, K0).
  assert (∀ v u : world K, request_state v (λ _, 0) → held (kern v) = ∅ → u = v → request_inv u) as Hidle.
  { intros v u Hv He ->. exists (λ _, 0). split; [exact Hv|]. left. split; [reflexivity|exact He]. }
  destruct (Hfn w1 _ (rs_area _ _ S1)) as [Hfail|Hcall].
  { rewrite (mbind_run _ _ _ _ _ Hfail). eexists _, w1. split; [reflexivity|]. by eapply Hidle. }
  rewrite (mbind_run _ _ _ _ _ Hcall). clear Hcall Hfn.
  pose proof (stack_mapped _ _ 0 4 (rs_area _ _ S1) ltac:(lia) ltac:(lia)) as Hmap. rewrite Z.add_0_r in Hmap.
  pose proof (start_law op w1 stack Hmap) as Hlaw. cbv zeta in Hlaw. set (r := kcall _ _ w1) in *.
  destruct (i32 (fst r) =? R4OS_IO_OK) eqn:Eok.
  - destruct Hlaw as (id & m1 & Hid & _ & Eh & Hch & Hbytes & Hw). fold b in Eh. rewrite Hnone1, insert_empty in Eh.
    assert (keeps (mem w1) m1) as Hk1 by (eapply (stack_change _ _ _ 0); [apply S1|by rewrite Z.add_0_r|lia|lia]).
    assert (buffer_free m1 b) as Hf1 by (intros Hbk; apply Hk1, F1, F0, Hfree, Hbk).
    assert (∀ i c, held (kern (snd r)) !! i = Some c → buffer_free m1 c) as Hfs.
    { rewrite Eh. intros i c [_ <-]%lookup_singleton_Some. done. }
    pose proof (writes_keep _ _ (λ _, 0) _ Hw ltac:(by apply Hk1, S1) Hfs) as Hk2.
    assert (request_state (snd r) (λ _, 0)) as S2.
    { split; [apply Hk2, Hk1, S1|]. intros i c Hc Hck. by apply Hk2, (Hfs i c). }
    assert (load 4 stack (snd r) = Some (id, snd r)) as Hl.
    { apply (load_run _ _ 4 _ (le_bytes 4 id)); [|rewrite le_val_le_bytes; apply Z.mod_small; lia].
      apply (writes_bytes m1 _ _ stack (le_bytes 4 id) Hw Hbytes). intros i c Hc Hck. destruct (Hfs i c Hc Hck) as (_ & _ & Hd).
      rewrite length_le_bytes. lia. }
    destruct (io_bind_run (snd r) _ id b S2 Hid (start_kind op) Hb1 Hb2 Hb3 (start_no_buffer op)) as (w3 & ρ3 & R3 & S3 & K3 & D3).
    erewrite mbind_run; [|rewrite (mbind_run _ _ _ _ _ Hl); exact R3]. eexists _, w3. split; [reflexivity|]. exists ρ3. split; [done|]. by rewrite K3, Eh.
  - destruct Hlaw as [Eh Hans]. eexists _, _. split; [reflexivity|]. eapply (Hidle (snd r)); [|by rewrite Eh|done].
    eapply (answers_state _ _ _ 0); [exact S1|by rewrite Z.add_0_r|lia|lia|done].
Qed.

(** ** The other functions *)

(** What the structure says about validity. *)
Lemma describes_valid ρ h :
  describes ρ h → 0 < app →
  if negb (ρ "app" =? 0) && negb (ρ "raw" =? 0)
  then ρ "raw" ≠ 0 ∧ ρ "app" = app ∧ ρ "owned" ≠ 0 ∧ h = {[ρ "raw" := request_buffer ρ]} ∧
    (ρ "buffer_kind" = R4_IO_BUFFER_NONE → request_buffer ρ = no_buffer)
  else ρ "raw" = 0 ∧ h = ∅.
Proof.
  intros [[-> ->]|(Hr & Ha & Ho & -> & Hn)] Happ; [by rewrite andb_false_r|].
  rewrite (proj2 (Z.eqb_neq _ _) Hr), (proj2 (Z.eqb_neq (ρ "app") 0)) by lia. done.
Qed.

Lemma io_calls w ρ :
  request_area (mem w) ρ →
  (∀ id, ∃ raw w', r4sys_io_close sys id w = Some (raw, w') ∧
     (raw = R4OS_IO_ERROR_UNSUPPORTED ∧ w' = w ∨ let r := kcall (fs "io_close") [id] w in raw = i32 (fst r) ∧ w' = snd r)) ∧
  (∀ id out, ∃ raw w', r4sys_io_status sys id out w = Some (raw, w') ∧
     (raw = R4OS_IO_ERROR_UNSUPPORTED ∧ w' = w ∨ let r := kcall (fs "io_status") [id; out] w in raw = i32 (fst r) ∧ w' = snd r ∧ out ≠ 0)) ∧
  (∀ id ticks out, ∃ raw w', r4sys_io_wait sys id ticks out w = Some (raw, w') ∧
     (raw = R4OS_IO_ERROR_UNSUPPORTED ∧ w' = w ∨ let r := kcall (fs "io_wait") [id; ticks; out] w in raw = i32 (fst r) ∧ w' = snd r)).
Proof.
  intros Ha. destruct (file_and_io_calls _ w sys (en_sys _ _ _ _ (ra_env _ _ Ha)))
    as (_ & _ & _ & _ & _ & _ & _ & _ & _ & _ & _ & _ & _ & E1 & E2 & E3). split_and!.
  - intros id. rewrite E3.
    destruct (gate_cases w ρ io_slots "io_close" [id] false R4OS_IO_ERROR_UNSUPPORTED Ha ltac:(cbn; tauto)) as [E|[_ E]];
      cbn [refuse] in E; rewrite E; eexists _, _; (split; [reflexivity|]); [left|right]; by split.
  - intros id out. rewrite E1.
    destruct (gate_cases w ρ io_slots "io_status" [id; out] (out =? 0) R4OS_IO_ERROR_UNSUPPORTED Ha ltac:(cbn; tauto)) as [E|[Hout E]];
      rewrite E; eexists _, _; (split; [reflexivity|]); [by left; split|right; split_and!; [done|done|by apply Z.eqb_neq]].
  - intros id ticks out. rewrite E2.
    destruct (gate_cases w ρ io_slots "io_wait" [id; ticks; out] (out =? 0) R4OS_IO_ERROR_UNSUPPORTED Ha ltac:(cbn; tauto)) as [E|[_ E]];
      rewrite E; eexists _, _; (split; [reflexivity|]); [left|right]; by split.
Qed.

Lemma forget_run w ρ :
  request_state w ρ → ∃ w' ρ', forget_buffers request w = Some ((), w') ∧ request_state w' ρ' ∧ kern w' = kern w ∧
    (∀ f, f ∈ ["app"; "raw"; "owned"] → ρ' f = ρ f) ∧ request_buffer ρ' = no_buffer.
Proof.
  intros Hs. unfold forget_buffers.
  destruct (request_put w _ "buffer_kind" R4_IO_BUFFER_NONE 13 1%nat Hs eq_refl) as (w1 & R1 & S1 & K1). rewrite (mbind_run _ _ _ _ _ R1).
  destruct (request_put w1 _ "mutable_buffer" 0 16 8%nat S1 eq_refl) as (w2 & R2 & S2 & K2). rewrite (mbind_run _ _ _ _ _ R2).
  destruct (request_put w2 _ "read_only_buffer" 0 24 8%nat S2 eq_refl) as (w3 & R3 & S3 & K3). rewrite (mbind_run _ _ _ _ _ R3).
  destruct (request_put w3 _ "buffer_length" 0 32 8%nat S3 eq_refl) as (w4 & R4 & S4 & K4). rewrite R4.
  eexists _, _. split; [reflexivity|]. split; [exact S4|]. split; [congruence|]. split; [|reflexivity].
  intros f Hf%list_elem_of_In. cbn [In] in Hf. by destruct Hf as [<-|[<-|[<-|[]]]].
Qed.

Lemma close_inv w : request_inv w → ∃ raw w', r4_io_request_close request w = Some (raw, w') ∧ request_inv w'.
Proof.
  intros (ρ & Hs & Hd). pose proof (rs_area _ _ Hs) as Ha. destruct (ra_app _ _ Ha) as (Hu & _). unfold r4_io_request_close.
  rewrite (mbind_run _ _ _ _ _ (request_valid_run w ρ Ha)). pose proof (describes_valid ρ _ Hd ltac:(lia)) as Hv.
  destruct (negb _ && negb _); cbn [negb]; [|eexists _, w; split; [reflexivity|by exists ρ]].
  destruct Hv as (Hr & Happ & Ho & Hh & Hnb). pose proof (ra_request _ _ Ha) as Hq. field_get Hq. rewrite (proj2 (Z.eqb_neq _ _) Ho).
  field_get Hq. field_get Hq. rewrite Happ. change (app_system app) with sys.
  destruct (io_calls w ρ Ha) as (Hclose & _). destruct (Hclose (ρ "raw")) as (raw & w1 & Hr1 & Hcase). rewrite (mbind_run _ _ _ _ _ Hr1).
  change ((raw =? R4OS_IO_OK) || (raw =? R4OS_IO_ERROR_NOT_FOUND)) with (request_ended raw).
  destruct Hcase as [[-> ->]|[-> ->]]; [eexists _, w; split; [reflexivity|by exists ρ]|].
  destruct (close_law w (ρ "raw")) as [Hw Eh]. set (r := kcall (fs "io_close") _ w) in *.
  assert (request_area (mem (snd r)) ρ ∧ ∀ b, request_buffer ρ = b → buffer_free (mem (snd r)) b) as [Ha1 Hb1].
  { pose proof (writes_keep _ _ ρ _ Hw Ha (rs_buffers _ _ Hs)) as [K1 K2]. split; [by apply K1|]. intros b <- Hbk. apply K2.
    apply (rs_buffers _ _ Hs (ρ "raw")); [rewrite Hh; apply lookup_singleton_eq|done]. }
  rewrite Hh in Eh. destruct (request_ended (i32 (fst r))).
  - rewrite delete_singleton_eq in Eh. assert (request_state (snd r) ρ) as S1 by (split; [done|by rewrite Eh]).
    destruct (request_put (snd r) ρ "raw" 0 8 4%nat S1 eq_refl) as (w2 & R2 & S2 & K2). rewrite (mbind_run _ _ _ _ _ R2).
    destruct (forget_run w2 _ S2) as (w3 & ρ3 & R3 & S3 & K3 & E3 & _). rewrite (mbind_run _ _ _ _ _ R3).
    eexists _, w3. split; [reflexivity|]. exists ρ3. split; [exact S3|]. left. split; [rewrite (E3 "raw") by (apply list_elem_of_In; cbn; tauto); reflexivity|]. by rewrite K3, K2.
  - eexists _, _. split; [reflexivity|]. exists ρ. split; [|by right; rewrite Eh]. split; [done|]. rewrite Eh.
    intros i b [<- <-]%lookup_singleton_Some. by apply Hb1.
Qed.

(** The kernel uses no buffer of the program. *)
Definition no_buffers (h : gmap Z io_buffer) : bool := bool_decide (map_Forall (λ _ b, b_kind b = R4_IO_BUFFER_NONE) h).

Lemma held_run w ρ :
  request_state w ρ → describes ρ (held (kern w)) → r4_io_request_buffers_held request w = Some (negb (no_buffers (held (kern w))), w).
Proof.
  intros Hs Hd. pose proof (rs_area _ _ Hs) as Ha. destruct (ra_app _ _ Ha) as (Hu & _). pose proof (ra_request _ _ Ha) as Hq.
  pose proof (describes_valid ρ _ Hd ltac:(lia)) as Hv. unfold r4_io_request_buffers_held, no_buffers.
  rewrite (mbind_run _ _ _ _ _ (request_valid_run w ρ Ha)). destruct (negb _ && negb _); cbn [negb].
  - destruct Hv as (_ & _ & _ & -> & _). field_get Hq. unfold mret, m_ret. do 3 f_equal.
    destruct (Z.eqb_spec (ρ "buffer_kind") R4_IO_BUFFER_NONE) as [E|E]; case_bool_decide as Hall; try done.
    + destruct Hall. by apply map_Forall_singleton.
    + apply map_Forall_singleton in Hall. done.
  - destruct Hv as [_ ->]. rewrite bool_decide_eq_true_2; [done|apply map_Forall_empty].
Qed.

Lemma release_inv w : request_inv w →
  ∃ w', r4_io_request_release_buffers request w =
      Some (if no_buffers (held (kern w)) then R4OS_IO_OK else R4OS_ERR_BUFFER_IN_USE, w') ∧ request_inv w'.
Proof.
  intros (ρ & Hs & Hd). pose proof (rs_area _ _ Hs) as Ha. destruct (ra_app _ _ Ha) as (Hu & _ & Hq0 & _).
  pose proof (describes_valid ρ _ Hd ltac:(lia)) as Hv. unfold r4_io_request_release_buffers.
  rewrite (mbind_run _ _ _ _ _ (held_run w ρ Hs Hd)). destruct (no_buffers (held (kern w))) eqn:Hall; cbn [negb].
  - rewrite (proj2 (Z.eqb_neq _ _) Hq0). destruct (forget_run w ρ Hs) as (w1 & ρ1 & R1 & S1 & K1 & E1 & B1).
    rewrite (mbind_run _ _ _ _ _ R1). exists w1. split; [reflexivity|].
    assert (ρ1 "app" = ρ "app" ∧ ρ1 "raw" = ρ "raw" ∧ ρ1 "owned" = ρ "owned") as (F1 & F2 & F3)
      by (split_and!; apply E1, list_elem_of_In; cbn; tauto).
    exists ρ1. split; [exact S1|]. rewrite K1. destruct (negb _ && negb _).
    + destruct Hv as (V1 & V2 & V3 & V4 & V5). right. rewrite F1, F2, F3. split_and!; [done|done|done| |done]. rewrite V4, B1.
      f_equal. apply V5. apply bool_decide_eq_true in Hall. rewrite V4 in Hall. by apply map_Forall_singleton in Hall.
    + left. by rewrite F2.
  - exists w. split; [reflexivity|]. by exists ρ.
Qed.

Lemma status_inv w out :
  request_inv w → out = 0 ∨ mapped (mem w) out 80 ∧ request_free (mem w) out 80 →
  ∃ raw w', r4_io_request_status request out w = Some (raw, w') ∧ request_inv w'.
Proof.
  intros (ρ & Hs & Hd) Hout. pose proof (rs_area _ _ Hs) as Ha. destruct (ra_app _ _ Ha) as (Hu & _). unfold r4_io_request_status.
  rewrite (mbind_run _ _ _ _ _ (request_valid_run w ρ Ha)). pose proof (describes_valid ρ _ Hd ltac:(lia)) as Hv.
  destruct (negb _ && negb _); cbn [negb]; [|eexists _, w; split; [reflexivity|by exists ρ]].
  destruct Hv as (_ & Happ & _). pose proof (ra_request _ _ Ha) as Hq. field_get Hq. field_get Hq. rewrite Happ. change (app_system app) with sys.
  destruct (io_calls w ρ Ha) as (_ & Hstatus & _). destruct (Hstatus (ρ "raw") out) as (raw & w1 & Hr1 & Hcase). rewrite (mbind_run _ _ _ _ _ Hr1).
  destruct Hcase as [[-> ->]|(-> & -> & Hne)]; [eexists _, w; split; [reflexivity|by exists ρ]|].
  destruct Hout as [|[Hm Hfree]]; [done|]. destruct (status_law w (ρ "raw") out) as [Eh Hans]. set (r := kcall (fs "io_status") _ w) in *.
  destruct (answers_keep _ _ _ _ _ Hs Hans ltac:(intros m1 Hch; by eapply free_change) Eh) as [S1 Hk1].
  rewrite (proj2 (Z.eqb_neq _ _) Hne). destruct (i32 (fst r) =? R4OS_IO_OK); cbn [andb negb].
  - assert (mapped (mem (snd r)) out 80) as Hm1 by (by eapply answers_mapped).
    destruct (request_info_copy (snd r) ρ out S1 Hm1) as (w2 & R2 & S2 & K2). rewrite (mbind_run _ _ _ _ _ R2).
    eexists _, w2. split; [reflexivity|]. exists ρ. split; [exact S2|]. by rewrite K2, Eh.
  - eexists _, _. split; [reflexivity|]. exists ρ. split; [exact S1|]. by rewrite Eh.
Qed.

Lemma wait_inv w timeout :
  request_inv w → ∃ result w', r4_io_request_wait request timeout (stack + 88) (stack + 8) w = Some (result, w') ∧ request_inv w'.
Proof.
  intros (ρ & Hs & Hd). pose proof (rs_area _ _ Hs) as Ha. destruct (ra_app _ _ Ha) as (Hu & _). unfold r4_io_request_wait.
  rewrite (mbind_run _ _ _ _ _ (request_valid_run w ρ Ha)). pose proof (describes_valid ρ _ Hd ltac:(lia)) as Hv.
  destruct (negb _ && negb _); cbn [negb]; [|eexists _, w; split; [reflexivity|by exists ρ]].
  destruct Hv as (_ & Happ & _). pose proof (ra_request _ _ Ha) as Hq. field_get Hq. rewrite Happ.
  destruct (request_hz_run w ρ Hs) as (hz & w1 & R1 & S1 & E1). rewrite (mbind_run _ _ _ _ _ R1).
  destruct (r4_timeout_to_ticks timeout hz) as [c ticks]. destruct (c =? R4OS_OK); cbn [negb];
    [|eexists _, w1; split; [reflexivity|]; exists ρ; split; [exact S1|by rewrite E1]].
  destruct (stack_clear w1 ρ R4ProgramIoInfo 8 S1 eq_refl) as (w2 & R2 & S2 & K2 & _); [by vm_compute|lia|by vm_compute|].
  rewrite (mbind_run _ _ _ _ _ R2). pose proof (rs_area _ _ S2) as Ha2. pose proof (ra_request _ _ Ha2) as Hq2. field_get Hq2. field_get Hq2.
  rewrite Happ. change (app_system app) with sys. destruct (io_calls w2 ρ Ha2) as (_ & _ & Hwait).
  destruct (Hwait (ρ "raw") (default 0 ticks) (stack + 8)) as (raw & w3 & R3 & Hcase). rewrite (mbind_run _ _ _ _ _ R3).
  assert (request_state w3 ρ ∧ held (kern w3) = held (kern w)) as [S3 E3].
  { destruct Hcase as [[_ ->]|[_ ->]]; [split; [exact S2|by rewrite K2, E1]|].
    destruct (wait_law w2 (ρ "raw") (default 0 ticks) (stack + 8)) as [Eh Hans].
    split; [by eapply answers_state; [exact S2|exact Hans|lia|lia|]|]. by rewrite Eh, K2, E1. }
  destruct (raw =? R4OS_IO_ERROR_TIMEOUT); [eexists _, w3; split; [reflexivity|]; exists ρ; by rewrite E3|].
  destruct (raw =? R4OS_IO_OK); cbn [negb]; [|eexists _, w3; split; [reflexivity|]; exists ρ; by rewrite E3].
  destruct (request_info_copy w3 ρ (stack + 8) S3 ltac:(eapply stack_mapped; [apply S3|lia|lia])) as (w4 & R4 & S4 & K4).
  rewrite (mbind_run _ _ _ _ _ R4).
  assert (struct_at (mem w4) R4ProgramIoInfo (stack + 8) (fv (mem w4) R4ProgramIoInfo (stack + 8))) as Hst.
  { apply struct_own. eapply stack_mapped; [apply S4|lia|by vm_compute]. }
  field_get Hst. eexists _, w4. split; [reflexivity|]. exists ρ. split; [exact S4|]. by rewrite K4, E3.
Qed.

(** ** Programs *)

Inductive request_op :=
  | OpStart (op : start_op)
  | OpStatus (out : Z)
  | OpWait (timeout : R4Timeout)
  | OpClose
  | OpRelease.

Definition request_run (op : request_op) : M K () :=
  match op with
  | OpStart op => _ ← start_run op; mret ()
  | OpStatus out => _ ← r4_io_request_status request out; mret ()
  | OpWait timeout => _ ← r4_io_request_wait request timeout (stack + 88) (stack + 8); mret ()
  | OpClose => _ ← r4_io_request_close request; mret ()
  | OpRelease => _ ← r4_io_request_release_buffers request; mret ()
  end.

(** The program does not start a request while it has one, and gives the kernel no
    memory of the structures that it uses. *)
Definition request_allowed m (op : request_op) : Prop :=
  match op with
  | OpStart op => fv m R4IoRequest request "raw" = 0 ∧ start_allowed m op
  | OpStatus out => out = 0 ∨ mapped m out 80 ∧ request_free m out 80
  | _ => True
  end.

Inductive request_steps w : world K → Prop :=
  | request_steps_nil : request_steps w w
  | request_steps_cons op w1 w2 :
      request_allowed (mem w) op → request_run op w = Some ((), w1) → request_steps w1 w2 → request_steps w w2.

Lemma run_inv w op : request_inv w → request_allowed (mem w) op → ∃ w', request_run op w = Some ((), w') ∧ request_inv w'.
Proof.
  intros Hi Hal. destruct op as [op|out|timeout| |]; cbn [request_run request_allowed] in *.
  - destruct Hi as (ρ & Hs & Hd). destruct Hal as [Hraw Hal].
    rewrite (sa_value _ _ _ _ (ra_request _ _ (rs_area _ _ Hs)) "raw" _ eq_refl) in Hraw.
    destruct Hd as [[_ Hh]|[? _]]; [|done]. destruct (start_inv w ρ op Hs Hraw Hh Hal) as (raw & w' & Hr & Hi').
    exists w'. split; [by rewrite (mbind_run _ _ _ _ _ Hr)|done].
  - destruct (status_inv w out Hi Hal) as (raw & w' & Hr & Hi'). exists w'. split; [by rewrite (mbind_run _ _ _ _ _ Hr)|done].
  - destruct (wait_inv w timeout Hi) as (raw & w' & Hr & Hi'). exists w'. split; [by rewrite (mbind_run _ _ _ _ _ Hr)|done].
  - destruct (close_inv w Hi) as (raw & w' & Hr & Hi'). exists w'. split; [by rewrite (mbind_run _ _ _ _ _ Hr)|done].
  - destruct (release_inv w Hi) as (w' & Hr & Hi'). exists w'. split; [by rewrite (mbind_run _ _ _ _ _ Hr)|done].
Qed.

Lemma steps_inv w w' : request_inv w → request_steps w w' → request_inv w'.
Proof.
  intros Hi Hs. induction Hs as [w|w op w1 w2 Hal Hr _ IH]; [done|]. apply IH.
  destruct (run_inv w op Hi Hal) as (w1' & Hr' & Hi'). rewrite Hr in Hr'. by injection Hr' as <-.
Qed.

Lemma no_buffers_quiet h m m' : no_buffers h = true → writes h m m' → m' = m.
Proof.
  unfold no_buffers. rewrite bool_decide_eq_true. intros Hall Hw. destruct Hw as [|id b m1 m2 Hb Hk]; [done|].
  specialize (Hall id b Hb). cbn in Hall. rewrite Hall in Hk. discriminate Hk.
Qed.

(** C37. A program that starts, watches and closes requests in any order, one at a time,
    never faults, whatever the kernel answers and whatever it writes to the
    buffers of open requests meanwhile. The structure of the request always
    describes exactly the request that the kernel has open. Asking for the
    buffer back succeeds exactly if the kernel does not use it any more, and
    from then on nothing the kernel does changes the program's memory behind
    its back. *)
Theorem request_buffers_safe w w' :
  request_inv w → request_steps w w' →
  request_inv w' ∧
  (∀ op, request_allowed (mem w') op → ∃ w'', request_run op w' = Some ((), w'')) ∧
  r4_io_request_buffers_held request w' = Some (negb (no_buffers (held (kern w'))), w') ∧
  (∃ w'', r4_io_request_release_buffers request w' =
     Some (if no_buffers (held (kern w')) then R4OS_IO_OK else R4OS_ERR_BUFFER_IN_USE, w'')) ∧
  (no_buffers (held (kern w')) = true → ∀ m, writes (held (kern w')) (mem w') m → m = mem w').
Proof.
  intros Hi Hs. pose proof (steps_inv w w' Hi Hs) as Hi'. split; [done|]. split.
  { intros op Hal. destruct (run_inv w' op Hi' Hal) as (w'' & Hr & _). by exists w''. }
  destruct (release_inv w' Hi') as (w'' & Hr & _). pose proof Hi' as (ρ & Hst & Hd). split; [by eapply held_run|].
  split; [by exists w''|]. intros Hn m. by apply no_buffers_quiet.
Qed.
End requests.

(** ** A kernel with one request *)

Definition demo_requests (name : string) : Z := 7000 + (offsetof R4XStartR4Sys name - 16) / 8.

(** It reads only; waiting fills in the first byte. *)
#[global] Instance request_kernel : Kernel (gmap Z io_buffer) := λ f args w,
  match args with
  | [path; buffer; capacity; flags; out] =>
      if (f =? 7036) && bool_decide (kern w = ∅) then
        match write_bytes (mem w) out (le_bytes 4 9) with
        | Some m => (R4OS_IO_OK, World m {[9 := IoBuffer R4_IO_BUFFER_MUTABLE buffer 0 capacity]})
        | None => (R4OS_IO_ERROR_INVALID, w)
        end
      else (R4OS_IO_ERROR_UNSUPPORTED, w)
  | [id] => if f =? 7047 then (R4OS_IO_OK, World (mem w) (delete id (kern w))) else (R4OS_IO_ERROR_UNSUPPORTED, w)
  | [id; ticks; out] =>
      if f =? 7046 then
        match kern w !! id with
        | Some b =>
            if (b_kind b =? R4_IO_BUFFER_MUTABLE) && (0 <? b_length b) then
              match write_bytes (mem w) (b_mutable b) [x2a] with Some m => (R4OS_IO_OK, World m (kern w)) | None => (R4OS_IO_OK, w) end
            else (R4OS_IO_OK, w)
        | None => (R4OS_IO_ERROR_NOT_FOUND, w)
        end
      else (R4OS_IO_ERROR_UNSUPPORTED, w)
  | _ => (R4OS_IO_ERROR_UNSUPPORTED, w)
  end.

Lemma answers_same h m a n : answers h m m a n.
Proof. exists m. split; [by split|constructor]. Qed.

#[global] Instance request_kernel_laws : RequestKernel (gmap Z io_buffer) (λ k, k) demo_requests.
Proof.
  split.
  - intros op w out Hm. cbv zeta. destruct op; cbn [start_args app start_name];
      (match goal with |- context [kcall ?f _ _] => let v := eval vm_compute in f in change f with v end);
      unfold kcall, request_kernel; try (split; [reflexivity|apply answers_same]).
    + change (7036 =? 7036) with true. cbn [andb]. case_bool_decide as He; [|split; [reflexivity|apply answers_same]].
      destruct (write_bytes_run (mem w) out (le_bytes 4 9) Hm) as (m & Hw & Hd & Ho & Hb). rewrite Hw. cbn [fst snd kern mem].
      change (i32 R4OS_IO_OK =? R4OS_IO_OK) with true. cbv iota. exists 9, m. rewrite He.
      split_and!; [lia|lia|apply lookup_empty|symmetry; apply insert_empty|by split|exact Hb|constructor].
  - intros w id. unfold kcall, request_kernel. change (demo_requests "io_close") with 7047. cbn. by split; [constructor|].
  - intros w id out. by split; [|apply answers_same].
  - intros w id ticks out. unfold kcall, request_kernel. change (demo_requests "io_wait") with 7046. change (7046 =? 7046) with true. cbv iota.
    destruct (kern w !! id) as [b|] eqn:Eb; [|by split; [|apply answers_same]].
    destruct ((b_kind b =? R4_IO_BUFFER_MUTABLE) && (0 <? b_length b)) eqn:E; [|by split; [|apply answers_same]].
    apply andb_true_iff in E as [Hk%Z.eqb_eq Hl%Z.ltb_lt].
    destruct (write_bytes (mem w) (b_mutable b) [x2a]) as [m|] eqn:Ew; [|by split; [|apply answers_same]].
    split; [done|]. exists (mem w). split; [by split|]. eapply writes_cons; [exact Eb|exact Hk| |constructor].
    apply write_bytes_changed in Ew. eapply changed_sub; [exact Ew|lia|cbn; lia].
  - intros w state. by split; [|apply answers_same].
Qed.

(** The application at 256 with its table at 4096, the facade at 128, the request at
    512, the stack at 768 and a buffer at 1024. *)
Definition request_start : world (gmap Z io_buffer) := World (image [
  (128, struct_bytes R4Resources_t [256]); (256, struct_bytes R4App_t [0; 0; 4096]);
  (512, replicate 120 x00); (768, replicate 120 x00); (1024, replicate 16 x00);
  (4096, struct_bytes R4XStartR4Sys ([R4XSTART_R4SYS_MAGIC; 14; 1264; 0] ++ map (λ i, 7000 + Z.of_nat i) (seq 0 156)))]) ∅.

Definition request_memory_check (m : gmap Z byte) : bool :=
  (table_ptr m 264 =? 4096) && (fv m R4XStartR4Sys 4096 "size" =? 1264) && mapped_b m 264 16 && mapped_b m 4096 1264
  && forallb (λ s, slot_of m R4XStartR4Sys 4096 (fst s) =? snd s) (request_slots demo_requests)
  && bool_decide (read_bytes m 128 8 = Some (le_bytes 8 256)) && mapped_b m 512 120 && mapped_b m 768 120.

Abbreviation demo_area := (request_area demo_requests 256 128 512 768).
Abbreviation demo_inv := (request_inv (λ k, k) demo_requests 256 128 512 768).

Lemma request_memory m :
  request_memory_check m = true → demo_area m (fv m R4IoRequest 512) ∧ ∀ a n, 888 ≤ a → a + n ≤ 4096 → request_free 256 128 512 768 m a n.
Proof.
  unfold request_memory_check. rewrite !andb_true_iff, !Z.eqb_eq, bool_decide_eq_true.
  intros [[[[[[[Ep Ez] Hs%mapped_b_mapped] Ht] Hslots] Hb] H1%mapped_b_mapped] H2%mapped_b_mapped].
  assert (∀ a n, a + n ≤ 128 ∨ 136 ≤ a → a + n ≤ 264 ∨ 280 ≤ a → a + n ≤ 4096 → aside (256 + 8) [(128, le_bytes 8 256)] m a n) as Has.
  { intros a n Ha1 Ha2 Ha3. split; [split; [intros _; lia|change (256 + 8) with 264; rewrite Ep; intros _; lia]|].
    intros b l Hin%list_elem_of_In. cbn [In] in Hin. destruct Hin as [[= <- <-]|[]]. simpl; lia. }
  split; [|intros a n Ha Hn; split_and!; [apply Has; lia|lia|lia]].
  split; [lia| |by apply struct_own|done|split; apply Has; lia|lia].
  split; change (256 + 8) with 264; rewrite ?Ep; [|lia|..].
  - split; [by intros _|]. rewrite Ep. split; intros _; rewrite ?Ez; [by apply mapped_b_mapped| |done].
    eapply mapped_sub; [by apply mapped_b_mapped|lia|lia].
  - intros n f Hin%list_elem_of_In. rewrite forallb_forall in Hslots. by apply Z.eqb_eq, (Hslots (n, f)).
  - intros a l Hin%list_elem_of_In. cbn [In] in Hin. by destruct Hin as [[= <- <-]|[]].
Qed.

Lemma request_start_inv : demo_inv request_start.
Proof.
  destruct (request_memory (mem request_start) ltac:(vm_compute; reflexivity)) as [Ha _]. exists (fv (mem request_start) R4IoRequest 512).
  split; [split; [exact Ha|intros id b Hb; discriminate Hb]|]. left. split; [vm_compute; reflexivity|reflexivity].
Qed.

(** A read into the buffer: it is in use until the request is closed. *)
Definition demo_request : request_op := OpStart (Read 99 1024 16 0).

Lemma demo_request_allowed : request_allowed 256 128 512 768 (mem request_start) demo_request.
Proof.
  destruct (request_memory (mem request_start) ltac:(vm_compute; reflexivity)) as [_ Hfree].
  assert (fv (mem request_start) R4IoRequest 512 "raw" = 0) as E by (vm_compute; reflexivity).
  revert Hfree E. generalize (mem request_start). intros m Hfree E. split; [exact E|]. unfold start_allowed, is_u64. cbn.
  split_and!; [lia..|]. intros _. apply Hfree; cbn; lia.
Qed.

Lemma request_buffers_safe_witness :
  ∃ w1 w2, request_run 128 512 768 demo_request request_start = Some ((), w1) ∧
    r4_io_request_buffers_held 512 w1 = Some (true, w1) ∧ request_run 128 512 768 OpClose w1 = Some ((), w2) ∧ demo_inv w2.
Proof.
  pose proof request_start_inv as Hi. pose proof demo_request_allowed as Hal.
  destruct (request_buffers_safe (λ k, k) demo_requests 256 128 512 768 request_start request_start Hi (request_steps_nil _ _ _ _ _))
    as (_ & Hrun & _).
  destruct (Hrun demo_request Hal) as (w1 & H1).
  assert (request_steps 256 128 512 768 request_start w1) as Hs1 by (eapply request_steps_cons; [exact Hal|exact H1|constructor]).
  destruct (request_buffers_safe (λ k, k) demo_requests 256 128 512 768 request_start w1 Hi Hs1) as (Hi1 & Hrun1 & Hheld & _).
  destruct (Hrun1 OpClose I) as (w2 & H2). exists w1, w2. split; [exact H1|]. split.
  - rewrite Hheld. assert (option_map (λ r, no_buffers (kern (snd r))) (request_run 128 512 768 demo_request request_start) = Some false) as E
      by (vm_compute; reflexivity). rewrite H1 in E. injection E as E. cbn [snd] in E. by rewrite E.
  - split; [exact H2|]. apply (request_buffers_safe (λ k, k) demo_requests 256 128 512 768 w1 w2 Hi1).
    apply (request_steps_cons _ _ _ _ _ OpClose w2); [exact I|exact H2|constructor].
Defined.

End R4Requests.
