(* ===== verification/R4FacadeCall.v ===== *)
(** * Facades on top of services

    The facades of app_network.h, app_audio.h and app_tray.h open a connection,
    make a call and close the connection, all with variables of their own. This
    file says that such a call returns and which memory it writes: its local
    variables and nothing else. *)

From S2P Require Import Prelude R4Abi R4Mem R4L R4LSpec.
From S2P Require Import R4Table R4Sys R4SysSpec R4SysInit R4Field R4Time.
From S2P Require Import R4App R4Services R4ServiceArea.

Module R4FacadeCall.
Export R4ServiceArea.

(** ** Memory that changes in some places only *)

Record confined (P : Z → Prop) (m m' : gmap Z byte) : Prop := {
  cf_dom : ∀ x, is_Some (m' !! x) ↔ is_Some (m !! x);
  cf_out : ∀ x, ¬ P x → m' !! x = m !! x
}.

(** The [n] bytes at [a]. *)
Definition span (a n x : Z) : Prop := a ≤ x < a + n.
Definition avoids (P : Z → Prop) (a n : Z) : Prop := ∀ x, span a n x → ¬ P x.
Definition inside (P : Z → Prop) (a n : Z) : Prop := ∀ x, span a n x → P x.

Section confined.
Implicit Types (P Q : Z → Prop) (m : gmap Z byte).

Lemma confined_refl P m : confined P m m.
Proof. by split. Qed.

Lemma confined_trans P m1 m2 m3 : confined P m1 m2 → confined P m2 m3 → confined P m1 m3.
Proof. intros [D1 O1] [D2 O2]. split; intros x; [by rewrite D2|intros Hx; by rewrite O2, O1]. Qed.

Lemma confined_weaken P Q m m' : (∀ x, P x → Q x) → confined P m m' → confined Q m m'.
Proof. intros H [D O]. split; [done|]. intros x Hx. apply O. intros Hp. by apply Hx, H. Qed.

Lemma confined_changed P m m' a n : changed m m' a n → inside P a n → confined P m m'.
Proof. intros [D O] Hi. split; [done|]. intros x Hx. apply O. intros Hs. by apply Hx, Hi. Qed.

Lemma confined_mapped P m m' a n : confined P m m' → mapped m a n → mapped m' a n.
Proof. intros [D _] Hm x Hx. by apply D, Hm. Qed.

Lemma confined_bytes P m m' a l : confined P m m' → avoids P a (Z.of_nat (length l)) → bytes_at m a l → bytes_at m' a l.
Proof. intros [_ O] Ha. unfold bytes_at. intros <-. apply read_bytes_ext. intros x Hx. by apply O, Ha. Qed.

Lemma confined_fv P m m' T p f n : confined P m m' → field_in T f n = true → avoids P p n → fv m' T p f = fv m T p f.
Proof. intros [_ O] Hf Ha. apply (fv_ext m m' T p f n Hf). intros x Hx. by apply O, Ha. Qed.

Lemma confined_struct P m m' T p σ :
  confined P m m' → fields_fit T = true → avoids P p (sizeof T) → struct_at m T p σ → struct_at m' T p σ.
Proof.
  intros Hc HT Ha [Hm Hv]. split; [by eapply confined_mapped|]. intros f [o k] Hf. destruct (fits_in T f o k HT Hf) as [Hi _].
  rewrite (confined_fv _ _ _ _ _ _ _ Hc Hi Ha). by eapply Hv.
Qed.
End confined.

(** ** Copying *)

Section copy.
Context {K : Type}.
Implicit Types (w : world K) (m : gmap Z byte).

(** The loops that copy bytes, between ranges that do not overlap. *)
Lemma copy_loop_run w dst src l :
  bytes_at (mem w) src l → mapped (mem w) dst (Z.of_nat (length l)) → avoids (span dst (Z.of_nat (length l))) src (Z.of_nat (length l)) →
  ∃ m', copy_loop (length l) dst src w = Some ((), World m' (kern w)) ∧ changed (mem w) m' dst (Z.of_nat (length l)) ∧ bytes_at m' dst l.
Proof.
  revert w dst src. induction l as [|b l IH]; intros w dst src Hb Hm Hd.
  { exists (mem w). split_and!; [by destruct w|by split|done]. }
  cbn [length copy_loop]. change (b :: l) with ([b] ++ l) in Hb. apply bytes_app in Hb as [H1 H2]. cbn [length] in H2.
  rewrite (mbind_run _ _ _ _ _ (load_run w src 1 (le_val [b]) [b] H1 eq_refl)). unfold store.
  replace (le_bytes 1 (le_val [b])) with [b] by (symmetry; exact (le_bytes_le_val [b])).
  destruct (store_bytes_run w dst [b]) as (m1 & Hr & Hc & Hb1); [eapply mapped_sub; [exact Hm|lia|simpl; lia]|].
  rewrite (mbind_run _ _ _ _ _ Hr). cbn [length] in *. change (Z.of_nat 1) with 1 in *.
  destruct (IH (World m1 (kern w)) (dst + 1) (src + 1)) as (m' & Hr' & Hc' & Hb').
  - eapply bytes_changed; [exact Hc| |exact H2]. destruct l as [|c l]; [simpl length in *; lia|].
    destruct (Z_lt_dec dst (src + 1)); [left; lia|]. right. destruct (Z_lt_dec dst (src + 1 + Z.of_nat (length (c :: l)))); [|lia].
    destruct (Hd dst); unfold span; lia.
  - eapply mapped_sub; [eapply changed_mapped; [exact Hc|exact Hm]|lia|lia].
  - intros x Hx Hy. apply (Hd x); unfold span in *; lia.
  - exists m'. split; [exact Hr'|]. cbn [mem kern] in *. split.
    + split; [intros x; rewrite (ch_dom _ _ _ _ Hc'); apply (ch_dom _ _ _ _ Hc)|]. intros x Hx.
      rewrite (ch_out _ _ _ _ Hc') by lia. apply (ch_out _ _ _ _ Hc). lia.
    + change (b :: l) with ([b] ++ l). apply bytes_app. split; [|exact Hb']. eapply bytes_changed; [exact Hc'|simpl; lia|exact Hb1].
Qed.
End copy.

(** ** The memory of a facade *)

(** The variables of [frame_open] and of the calls, at the start of [stack]. *)
Definition frame_at (stack : Z) : service_frame :=
  ServiceFrame stack (stack + 8) (stack + 240) (stack + 456) (stack + 488).

Section facade.
Context {K : Type} `{!Kernel K} (fs : service_functions) `{!ServiceKernel K fs}.
Variables (app tab stack room : Z) (α : string → Z).
Hypothesis Hroom : 520 ≤ room.
Implicit Types (w : world K) (m : gmap Z byte) (κ : string → Z).

Abbreviation H := R4ServiceConnection.
Abbreviation local := (span stack room).
Abbreviation conn := (stack + 8).

(** The application and its system's table, beside the local variables. *)
Record host m : Prop := {
  ho_app : app ≠ 0 ∧ is_u64 app ∧ stack ≠ 0 ∧ conn ≠ 0;
  ho_struct : struct_at m R4App_t app α;
  ho_table : α "system.table" = tab;
  ho_slots : tab ≠ 0 → mapped m tab 1264 ∧ ∀ n f, (n, f) ∈ service_slots fs → fv m R4XStartR4Sys tab n = f;
  ho_stack : mapped m stack room;
  ho_apart : avoids local app (sizeof R4App_t) ∧ (tab ≠ 0 → avoids local tab 1264)
}.

Lemma slot_in n f : (n, f) ∈ service_slots fs → field_in R4XStartR4Sys n 1264 = true.
Proof.
  intros Hin%list_elem_of_In. unfold service_slots in Hin. cbn [In] in Hin.
  repeat (destruct Hin as [[= <- _]|Hin]; [vm_compute; reflexivity|]). destruct Hin.
Qed.

Lemma host_kept P m m' :
  host m → confined P m m' → avoids P app (sizeof R4App_t) → (tab ≠ 0 → avoids P tab 1264) → host m'.
Proof.
  intros [Ha Hs Ht Hsl Hst Hap] Hc Hp1 Hp2. split; [done| |done| | |done].
  - by eapply confined_struct.
  - intros Hne. destruct (Hsl Hne) as [Hm Hv]. split; [by eapply confined_mapped|]. intros n f Hin. rewrite <-(Hv n f Hin).
    eapply confined_fv; [exact Hc| |by apply Hp2].
    by eapply slot_in.
  - by eapply confined_mapped.
Qed.

Lemma host_confined m m' : host m → confined local m m' → host m'.
Proof. intros Hh Hc. destruct (ho_apart _ Hh). by eapply host_kept. Qed.

Lemma host_local m p n : host m → stack ≤ p → p + n ≤ stack + room → mapped m p n.
Proof. intros Hh ? ?. eapply mapped_sub; [exact (ho_stack _ Hh)|lia|lia]. Qed.

Lemma local_inside p n : stack ≤ p → p + n ≤ stack + room → inside local p n.
Proof. intros ? ? x Hx. unfold span in *. lia. Qed.

Lemma local_changed m m' p n :
  host m → changed m m' p n → stack ≤ p → p + n ≤ stack + room → confined local m m' ∧ host m'.
Proof.
  intros Hh Hc ? ?. assert (confined local m m') by (eapply confined_changed; [exact Hc|by apply local_inside]).
  split; [done|by eapply host_confined].
Qed.

(** A store into a local structure. *)
Lemma local_put w T p σ f v q k :
  host (mem w) → struct_at (mem w) T p σ → stack ≤ p → p + sizeof T ≤ stack + room → fields_fit T = true →
  field_at T f = Some (q, k) →
  ∃ m', put T f p v w = Some ((), World m' (kern w)) ∧ changed (mem w) m' p (sizeof T) ∧
    confined local (mem w) m' ∧ host m' ∧ struct_at m' T p (upd σ f (v mod 2 ^ (8 * Z.of_nat k))).
Proof.
  intros Hh Hs Ho Hn HT Hf. destruct (struct_put_mod w T p σ f v q k HT Hf Hs) as (m' & Hr & Hc & Hs').
  destruct (local_changed _ _ _ _ Hh Hc Ho Hn). by exists m'.
Qed.

Lemma local_clear w T p :
  host (mem w) → stack ≤ p → p + sizeof T ≤ stack + room → fields_fit T = true → 0 ≤ sizeof T →
  ∃ m', clear T p w = Some ((), World m' (kern w)) ∧ changed (mem w) m' p (sizeof T) ∧
    confined local (mem w) m' ∧ host m' ∧ struct_at m' T p (λ _, 0).
Proof.
  intros Hh Ho Hn HT Hs. destruct (clear_struct w T p HT Hs (host_local _ _ _ Hh Ho Hn)) as (m' & Hr & Hc & Hz).
  destruct (local_changed _ _ _ _ Hh Hc Ho Hn). by exists m'.
Qed.

(** ** Finding the functions *)

Lemma host_app_table w : host (mem w) → app_table app w = Some (tab, w).
Proof.
  intros Hh. unfold app_table. rewrite (proj2 (Z.eqb_neq _ _) (proj1 (ho_app _ Hh))), <-(ho_table _ Hh).
  by eapply struct_get; [..|exact (ho_struct _ Hh)].
Qed.

Lemma host_get w n f : host (mem w) → tab ≠ 0 → (n, f) ∈ service_slots fs → get R4XStartR4Sys n tab w = Some (f, w).
Proof.
  intros Hh Hne Hin. destruct (ho_slots _ Hh Hne) as [Hm Hv]. rewrite <-(Hv n f Hin). apply (get_run w R4XStartR4Sys n tab 1264 Hm).
  by eapply slot_in.
Qed.

Lemma host_slot w n f : host (mem w) → (n, f) ∈ service_slots fs → ∃ g, table_slot tab n w = Some (g, w) ∧ (g = 0 ∨ tab ≠ 0 ∧ g = f).
Proof.
  intros Hh Hin. unfold table_slot. destruct (Z.eqb_spec tab 0) as [|Hne]; [exists 0; split; [done|by left]|].
  rewrite (host_get w n f Hh Hne Hin). exists f. split; [done|by right].
Qed.

Lemma slots_set_get w T p n names :
  mapped (mem w) p n → forallb (λ f, field_in T f n) names = true → ∃ b, slots_set T names p w = Some (b, w).
Proof.
  intros Hm. induction names as [|f names IH]; cbn [slots_set forallb]; [intros _; by exists true|].
  intros [Hf Hall]%andb_true_iff. rewrite (mbind_run _ _ _ _ _ (get_run w T f p n Hm Hf)).
  destruct (_ =? 0); [by exists false|by apply IH].
Qed.

(** The variable [services] holds the facade of the application. *)
Definition facade m : Prop := ∃ σ, struct_at m R4Services_t stack σ ∧ σ "app" = app.

Lemma facade_put w :
  host (mem w) → ∃ m', put R4Services_t "app" stack app w = Some ((), World m' (kern w)) ∧ confined local (mem w) m' ∧ host m' ∧ facade m'.
Proof.
  intros Hh. assert (struct_at (mem w) R4Services_t stack (fv (mem w) R4Services_t stack)) as Hs.
  { apply struct_own. eapply host_local; [exact Hh|lia|change (sizeof R4Services_t) with 8; lia]. }
  destruct (local_put w R4Services_t stack _ "app" app 0 8%nat Hh Hs) as (m1 & Hr & _ & Hc & Hh1 & Hs1);
    [lia|change (sizeof R4Services_t) with 8; lia|reflexivity|reflexivity|]. exists m1. split_and!; [done|done|done|].
  eexists. split; [exact Hs1|]. cbn. apply Z.mod_small, (ho_app _ Hh).
Qed.

Lemma facade_changed m m' p n : facade m → changed m m' p n → stack + 8 ≤ p → facade m'.
Proof.
  intros (σ & Hs & He) Hc Hp. exists σ. split; [|done].
  eapply struct_changed; [reflexivity|exact Hc|change (sizeof R4Services_t) with 8; lia|exact Hs].
Qed.

Lemma facade_app w : host (mem w) → facade (mem w) → services_app stack w = Some (app, w).
Proof.
  intros Hh (σ & Hs & He). unfold services_app. rewrite (proj2 (Z.eqb_neq _ _) (proj1 (proj2 (proj2 (ho_app _ Hh))))), <-He.
  by field_get Hs.
Qed.

Lemma facade_available w :
  host (mem w) → facade (mem w) → ∃ b, r4_services_available stack w = Some (b, w) ∧ (b = true → tab ≠ 0).
Proof.
  intros Hh Hf. unfold r4_services_available. rewrite (mbind_run _ _ _ _ _ (facade_app w Hh Hf)).
  rewrite (mbind_run _ _ _ _ _ (host_app_table w Hh)). destruct (Z.eqb_spec tab 0) as [|Hne]; [by exists false|].
  destruct (ho_slots _ Hh Hne) as [Hm _]. edestruct (slots_set_get w R4XStartR4Sys tab 1264) as [b Hb]; [done| |exists b; split; [exact Hb|done]].
  vm_compute. reflexivity.
Qed.

(** ** Opening *)

(** The connection belongs to the application. *)
Definition connected m : Prop := ∃ κ, struct_at m H conn κ ∧ κ "app" = app.

Lemma frame_fill w κ handle :
  host (mem w) → struct_at (mem w) H conn κ →
  ∃ m', (_ ← put H "app" conn app; _ ← put H "raw" conn handle; _ ← put H "owned" conn 1;
         _ ← memcpy (conn + offsetof H "info") (stack + 240) (sizeof R4ServiceInfo); mret R4OS_SERVICE_API_RESULT_OK) w
      = Some (R4OS_SERVICE_API_RESULT_OK, World m' (kern w)) ∧ confined local (mem w) m' ∧ connected m'.
Proof.
  intros Hh Hs. destruct (ho_app _ Hh) as (_ & Hu & _).
  destruct (local_put w H conn _ "app" app 0 8%nat Hh Hs) as (m1 & Hr1 & _ & Hc1 & Hh1 & Hs1); [lia|change (sizeof H) with 232; lia|reflexivity|reflexivity|].
  rewrite (mbind_run _ _ _ _ _ Hr1). clear Hr1.
  destruct (local_put (World m1 (kern w)) H conn _ "raw" handle 8 4%nat Hh1 Hs1) as (m2 & Hr2 & _ & Hc2 & Hh2 & Hs2);
    [lia|change (sizeof H) with 232; lia|reflexivity|reflexivity|]. rewrite (mbind_run _ _ _ _ _ Hr2). clear Hr2.
  destruct (local_put (World m2 (kern w)) H conn _ "owned" 1 12 1%nat Hh2 Hs2) as (m3 & Hr3 & _ & Hc3 & Hh3 & Hs3);
    [lia|change (sizeof H) with 232; lia|reflexivity|reflexivity|]. rewrite (mbind_run _ _ _ _ _ Hr3). clear Hr3. cbn [mem kern] in *.
  destruct (read_bytes_mapped m3 (stack + 240) 216) as (l & Hl & Hlen); [eapply host_local; [exact Hh3|lia|lia]|].
  destruct (memcpy_run (World m3 (kern w)) (conn + 16) (stack + 240) l) as (m4 & Hr4 & Hc4 & _).
  { unfold bytes_at. by rewrite Hlen. }
  { rewrite Hlen. eapply host_local; [exact Hh3|lia|lia]. }
  rewrite Hlen in Hr4. rewrite Hlen in Hc4. change (offsetof H "info") with 16. change (sizeof R4ServiceInfo) with 216.
  change (Z.of_nat 216) with 216 in *. rewrite (mbind_run _ _ _ _ _ Hr4). clear Hr4. exists m4. split; [reflexivity|].
  destruct (local_changed _ _ _ _ Hh3 Hc4 ltac:(lia) ltac:(lia)) as [Hcf _]. split.
  - eapply confined_trans; [exact Hc1|]. eapply confined_trans; [exact Hc2|]. by eapply confined_trans.
  - eexists. split; [by apply (struct_hole m3 m4 H conn _ 16 216 eq_refl)|]. cbn. by apply Z.mod_small.
Qed.

(** What comes after the answer of [service_open]. *)
Lemma open_answer w raw :
  host (mem w) → facade (mem w) →
  ∃ raw' w', (if negb (raw =? R4OS_SERVICE_API_RESULT_OK) then mret raw else
      handle ← get R4ServiceInfo "handle" (stack + 240);
      if handle =? 0 then mret R4OS_SERVICE_API_RESULT_NO_ENDPOINT else
      app ← services_app stack;
      _ ← put H "app" conn app; _ ← put H "raw" conn handle; _ ← put H "owned" conn 1;
      _ ← memcpy (conn + offsetof H "info") (stack + 240) (sizeof R4ServiceInfo);
      mret R4OS_SERVICE_API_RESULT_OK) w = Some (raw', w') ∧ confined local (mem w) (mem w') ∧
    (raw' = R4OS_SERVICE_API_RESULT_OK → connected (mem w')).
Proof.
  intros Hh Hf. destruct (Z.eqb_spec raw R4OS_SERVICE_API_RESULT_OK) as [_|Hne]; cbn [negb].
  2: { eexists _, _. split; [reflexivity|]. split; [apply confined_refl|intros E; destruct (Hne E)]. }
  assert (struct_at (mem w) R4ServiceInfo (stack + 240) (fv (mem w) R4ServiceInfo (stack + 240))) as Hi.
  { apply struct_own. eapply host_local; [exact Hh|lia|change (sizeof R4ServiceInfo) with 216; lia]. }
  field_get Hi. destruct (_ =? 0); [eexists _, _; split; [reflexivity|]; split; [apply confined_refl|intros [=]]|].
  rewrite (mbind_run _ _ _ _ _ (facade_app w Hh Hf)).
  destruct (frame_fill w (fv (mem w) H conn) (fv (mem w) R4ServiceInfo (stack + 240) "handle") Hh) as (m5 & Hr5 & Hc5 & Hcon).
  { apply struct_own. eapply host_local; [exact Hh|lia|change (sizeof H) with 232; lia]. }
  rewrite Hr5. eexists _, _. split; [reflexivity|]. split; [exact Hc5|intros _; exact Hcon].
Qed.

Lemma frame_open_run w name :
  host (mem w) → ∃ raw w', frame_open (frame_at stack) app name w = Some (raw, w') ∧ confined local (mem w) (mem w') ∧
    (raw = R4OS_SERVICE_API_RESULT_OK → connected (mem w')).
Proof.
  intros Hh. unfold frame_open, r4_services_open, service_handle_open, r4_app_services. cbn [frame_at fr_services fr_connection fr_info].
  destruct (facade_put w Hh) as (m1 & Hr1 & Hc1 & Hh1 & Hf1). rewrite (mbind_run _ _ _ _ _ Hr1). clear Hr1.
  destruct (ho_app _ Hh) as (_ & _ & _ & Hcn). rewrite (proj2 (Z.eqb_neq _ _) Hcn).
  destruct (local_clear (World m1 (kern w)) H conn Hh1) as (m2 & Hr2 & Hd2 & Hc2 & Hh2 & _);
    [lia|change (sizeof H) with 232; lia|reflexivity|vm_compute; discriminate|]. rewrite (mbind_run _ _ _ _ _ Hr2). clear Hr2.
  cbn [mem kern] in *. pose proof (facade_changed _ _ _ _ Hf1 Hd2 ltac:(lia)) as Hf2. set (w2 := World m2 (kern w)) in *.
  rewrite (mbind_run _ _ _ _ _ (facade_app w2 Hh2 Hf2)), (mbind_run _ _ _ _ _ (host_app_table w2 Hh2)).
  destruct (host_slot w2 "service_open" (f_open fs) Hh2 ltac:(in_list)) as (g & Hg & Hg'). rewrite (mbind_run _ _ _ _ _ Hg).
  assert (confined local (mem w) m2) as C2 by (by eapply confined_trans).
  destruct ((g =? 0) || (name =? 0) || false) eqn:Hb.
  { eexists _, _. split; [reflexivity|]. split; [exact C2|intros [=]]. }
  rewrite !orb_false_iff in Hb. destruct Hb as [[Hg0%Z.eqb_neq _] _]. destruct Hg' as [E|[_ ->]]; [destruct (Hg0 E)|].
  destruct (local_clear w2 R4ServiceInfo (stack + 240) Hh2) as (m3 & Hr3 & Hd3 & Hc3 & Hh3 & _);
    [lia|change (sizeof R4ServiceInfo) with 216; lia|reflexivity|vm_compute; discriminate|]. rewrite (mbind_run _ _ _ _ _ Hr3). clear Hr3.
  set (w3 := World m3 (kern w2)). rewrite (mbind_run _ _ _ _ _ (call_i32_run w3 (f_open fs) _ Hg0)). cbn [Datatypes.app].
  pose proof (open_law w3 name (stack + 240)) as Hlaw. set (r := kcall (f_open fs) _ w3) in *.
  destruct (local_changed _ _ _ _ Hh3 Hlaw ltac:(lia) ltac:(lia)) as [Hc4 Hh4].
  pose proof (facade_changed _ _ _ _ (facade_changed _ _ _ _ Hf2 Hd3 ltac:(lia)) Hlaw ltac:(lia)) as Hf4.
  destruct (open_answer (snd r) (i32 (fst r)) Hh4 Hf4) as (raw & w' & Hr & Hc5 & Hcon). exists raw, w'. split; [exact Hr|]. split; [|exact Hcon].
  eapply confined_trans; [exact C2|]. eapply confined_trans; [exact Hc3|]. eapply confined_trans; [exact Hc4|exact Hc5].
Qed.

(** ** Calling *)

(** A connection of the application at [c], apart from the variables of the call. *)
Record linked m (c : Z) : Prop := {
  li_null : c ≠ 0;
  li_struct : ∃ κ, struct_at m H c κ ∧ κ "app" = app;
  li_vars : avoids (span c 232) (stack + 240) 280;
  li_host : avoids (span c 232) app (sizeof R4App_t) ∧ (tab ≠ 0 → avoids (span c 232) tab 1264)
}.

Lemma connected_linked m : host m → connected m → linked m conn.
Proof.
  intros Hh Hc. destruct (ho_apart _ Hh) as [H1 H2]. split; [apply Hh|exact Hc|intros x Hx Hy; unfold span in *; lia|]. split.
  - intros x Hx Hy. apply (H1 x Hx). unfold span in *. lia.
  - intros Hne x Hx Hy. apply (H2 Hne x Hx). unfold span in *. lia.
Qed.

Lemma linked_changed m m' c p n : linked m c → changed m m' p n → avoids (span c 232) p n → linked m' c.
Proof.
  intros [H0 (κ & Hs & He) Hv Hh] Hc Ha. split; [done| |done|done]. exists κ. split; [|done].
  apply (confined_struct (span p n) m); [eapply confined_changed; [exact Hc|by intros x]|reflexivity| |exact Hs].
  intros x Hx Hy. by apply (Ha x).
Qed.

Lemma linked_var m c o n : linked m c → 240 ≤ o → o + n ≤ 520 → avoids (span c 232) (stack + o) n.
Proof. intros Hl Ho Hn x Hx. apply (li_vars _ _ Hl). unfold span in *. lia. Qed.

Lemma linked_valid w c : linked (mem w) c → ∃ b, service_handle_valid H c w = Some (b, w).
Proof.
  intros [_ (κ & Hs & He) _ _]. unfold service_handle_valid. destruct (_ =? 0); [by eexists|].
  field_get Hs. destruct (_ =? 0); [by eexists|]. field_get Hs. by eexists.
Qed.

(** The clock may have been asked. *)
Definition asked w w1 : Prop :=
  w1 = w ∨ f_time fs ≠ 0 ∧ ∃ m0, w1 = snd (kcall (f_time fs) [stack + 456] (World m0 (kern w))).

Lemma frame_hz w c :
  host (mem w) → linked (mem w) c → ∃ hz w', r4_services_monotonic_hz app (stack + 456) w = Some (hz, w') ∧
    changed (mem w) (mem w') (stack + 456) 32 ∧ host (mem w') ∧ linked (mem w') c ∧ asked w w'.
Proof.
  intros Hh Hcon. unfold r4_services_monotonic_hz. rewrite (mbind_run _ _ _ _ _ (host_app_table w Hh)).
  destruct (host_slot w "time_state" (f_time fs) Hh ltac:(in_list)) as (g & Hg & Hg'). rewrite (mbind_run _ _ _ _ _ Hg).
  destruct (Z.eqb_spec g 0) as [|Hg0]; [eexists _, _; split; [reflexivity|]; split_and!; [by split|done|done|by left]|].
  destruct Hg' as [E|[_ ->]]; [destruct (Hg0 E)|].
  destruct (local_clear w R4TimeState (stack + 456) Hh) as (m1 & Hr1 & Hd1 & _ & Hh1 & _);
    [lia|change (sizeof R4TimeState) with 32; lia|reflexivity|vm_compute; discriminate|]. rewrite (mbind_run _ _ _ _ _ Hr1). clear Hr1.
  set (w1 := World m1 (kern w)). pose proof (time_law w1 (stack + 456)) as Hlaw. set (r := kcall (f_time fs) _ w1) in *.
  assert (call_void (f_time fs) [stack + 456] w1 = Some ((), snd r)) as Hcall.
  { unfold call_void, call, mbind, m_bind. rewrite (proj2 (Z.eqb_neq _ _) Hg0). fold r. by destruct r. }
  rewrite (mbind_run _ _ _ _ _ Hcall). destruct (local_changed _ _ _ _ Hh1 Hlaw ltac:(lia) ltac:(lia)) as [_ Hh2].
  rewrite (get_run (snd r) R4TimeState "monotonic_hz" (stack + 456) 32 (host_local _ (stack + 456) 32 Hh2 ltac:(lia) ltac:(lia)) eq_refl).
  pose proof (linked_var _ _ 456 32 Hcon ltac:(lia) ltac:(lia)) as Hav.
  eexists _, _. split; [reflexivity|]. split_and!; [by eapply changed_trans|exact Hh2| |right; split; [exact Hg0|by exists m1]].
  eapply linked_changed; [eapply linked_changed; [exact Hcon|exact Hd1|exact Hav]|exact Hlaw|exact Hav].
Qed.

(** What comes after the answer of [service_call]. *)
Lemma call_answer w c raw :
  host (mem w) → linked (mem w) c → is_i32 raw →
  ∃ result w', (value ← load_struct R4ServiceMessageHeader (stack + 488);
      status ← get R4ServiceMessageHeader "status" (stack + 488);
      let status := i32 status in
      if (raw =? R4OS_SERVICE_API_RESULT_TIMEOUT) || (status =? R4OS_SERVICE_API_RESULT_TIMEOUT)
      then mret (CallResult R4_SERVICE_CALL_TIMED_OUT raw 0 value) else
      _ ← drop_lost H c raw;
      if raw <? 0 then mret (CallResult R4_SERVICE_CALL_FAILED raw 0 value) else
      if negb (status =? R4OS_SERVICE_API_RESULT_OK)
      then mret (CallResult R4_SERVICE_CALL_REMOTE_FAILURE status 0 value) else
      mret (CallResult R4_SERVICE_CALL_RESPONSE R4OS_SERVICE_API_RESULT_OK (Prelude.u32 raw) value)) w = Some (result, w') ∧
    changed (mem w) (mem w') c 232 ∧ linked (mem w') c ∧ kern w' = kern w ∧ 0 ≤ call_bytes result ∧
    (call_kind result = R4_SERVICE_CALL_RESPONSE → w' = w ∧ call_bytes result = raw).
Proof.
  intros Hh Hcon Hraw. destruct (read_bytes_mapped (mem w) (stack + 488) 28) as (l & Hl & _); [eapply host_local; [exact Hh|lia|lia]|].
  assert (load_struct R4ServiceMessageHeader (stack + 488) w = Some (l, w)) as Hld.
  { unfold load_struct. change (Z.to_nat (sizeof R4ServiceMessageHeader)) with 28%nat. by rewrite Hl. }
  rewrite (mbind_run _ _ _ _ _ Hld).
  rewrite (mbind_run _ _ _ _ _ (get_run w R4ServiceMessageHeader "status" (stack + 488) 28 (host_local _ (stack + 488) 28 Hh ltac:(lia) ltac:(lia)) eq_refl)).
  cbv zeta. generalize (i32 (fv (mem w) R4ServiceMessageHeader (stack + 488) "status")) as status. intros status.
  destruct (_ || _); [eexists _, w; split; [reflexivity|]; split_and!; [by split|done|done|done|intros [=]]|].
  assert (∃ w1, drop_lost H c raw w = Some ((), w1) ∧ changed (mem w) (mem w1) c 232 ∧ linked (mem w1) c ∧ kern w1 = kern w ∧ (0 ≤ raw → w1 = w))
    as (w1 & Hd & Hc & Hcon1 & Hk & Hsame).
  { unfold drop_lost. destruct (handle_lost raw) eqn:Hlost; [|exists w; split_and!; [done|by split|done|done|done]].
    destruct Hcon as [H0 (κ & Hs & He) Hv Hhost]. destruct (struct_put_mod w H c κ "raw" 0 8 4%nat eq_refl eq_refl Hs) as (m' & Hr & Hc & Hs').
    eexists. split; [exact Hr|]. split; [exact Hc|]. split_and!; [split; [done| |done|done]|done|].
    - eexists. split; [exact Hs'|exact He].
    - intros Hpos. unfold handle_lost, R4OS_SERVICE_API_RESULT_BAD_HANDLE, R4OS_SERVICE_API_RESULT_NOT_RUNNING in Hlost. lia. }
  rewrite (mbind_run _ _ _ _ _ Hd). clear Hd Hld Hl. destruct (Z.ltb_spec raw 0) as [|Hpos]; [|destruct (negb _)]; eexists _, w1; (split; [reflexivity|]);
    split_and!; try assumption; try reflexivity; try (intros [=]; fail).
  - cbn [call_bytes]. unfold Prelude.u32. apply Z.mod_pos_bound. reflexivity.
  - intros _. split; [exact (Hsame Hpos)|]. cbn [call_bytes]. apply u32_small. unfold is_i32, is_u32 in *. lia.
Qed.

(** What the kernel was asked: nothing, or one call with this answer. *)
Definition made w (op request len response capacity : Z) (result : R4ServiceCallResult) w' : Prop :=
  ∃ w1, asked w w1 ∧
    ((kern w' = kern w1 ∧ call_kind result ≠ R4_SERVICE_CALL_RESPONSE) ∨
     ∃ id ticks m2, let r := kcall (f_call fs) [id; op; request; len; stack + 488; response; capacity; ticks] (World m2 (kern w1)) in
       changed (mem w) m2 (stack + 456) 64 ∧ kern w' = kern (snd r) ∧
       (call_kind result = R4_SERVICE_CALL_RESPONSE → w' = snd r ∧ call_bytes result = i32 (fst r))).

Lemma link_call_run w c op request len response capacity timeout :
  host (mem w) → linked (mem w) c → stack + 520 ≤ response → response + capacity ≤ stack + room → avoids (span c 232) response capacity →
  ∃ result w', r4_service_connection_call c op request len response capacity timeout (stack + 456) (stack + 488) w = Some (result, w') ∧
    confined (λ x, local x ∨ span c 232 x) (mem w) (mem w') ∧ host (mem w') ∧ linked (mem w') c ∧ 0 ≤ call_bytes result ∧
    made w op request len response capacity result w'.
Proof.
  intros Hh Hcon Hr1 Hr2 Hav. unfold r4_service_connection_call, r4_service_connection_valid. set (P := λ x, local x ∨ span c 232 x).
  assert (∀ code, ∃ result w', Some (call_failed code, w) = Some (result, w') ∧ confined P (mem w) (mem w') ∧ host (mem w') ∧
    linked (mem w') c ∧ 0 ≤ call_bytes result ∧ made w op request len response capacity result w') as Hfail.
  { intros code. eexists _, w. split; [reflexivity|]. split_and!; [apply confined_refl|done|done|done|]. exists w. split; [by left|by left]. }
  destruct (linked_valid w c Hcon) as [b Hb]. rewrite (mbind_run _ _ _ _ _ Hb). destruct (negb b); [apply Hfail|].
  destruct (_ || _); [apply Hfail|]. destruct (li_struct _ _ Hcon) as (κ & Hs & Happ). field_get Hs. rewrite Happ.
  rewrite (mbind_run _ _ _ _ _ (host_app_table w Hh)).
  destruct (host_slot w "service_call" (f_call fs) Hh ltac:(in_list)) as (g & Hg & Hg'). rewrite (mbind_run _ _ _ _ _ Hg).
  destruct (Z.eqb_spec g 0) as [|Hg0]; [apply Hfail|]. destruct Hg' as [E|[Htab ->]]; [destruct (Hg0 E)|]. clear Hs Hb Hg Hfail.
  destruct (frame_hz w c Hh Hcon) as (hz & w1 & Hhz & Hd1 & Hh1 & Hcon1 & Hask). rewrite (mbind_run _ _ _ _ _ Hhz). clear Hhz.
  assert (∀ m m' p n, changed m m' p n → stack ≤ p → p + n ≤ stack + room → confined P m m') as Hin.
  { intros m m' p n Hc ? ?. eapply confined_changed; [exact Hc|]. intros x Hx. left. unfold span in *. lia. }
  destruct (r4_timeout_to_ticks timeout hz) as [cv t]. destruct (negb _).
  { eexists _, w1. split; [reflexivity|]. split_and!; [eapply Hin; [exact Hd1|lia|lia]|exact Hh1|exact Hcon1|reflexivity|]. exists w1. split; [exact Hask|]. left. by split. }
  destruct (local_clear w1 R4ServiceMessageHeader (stack + 488) Hh1) as (m2 & Hr3 & Hd2 & _ & Hh2 & _);
    [lia|change (sizeof R4ServiceMessageHeader) with 28; lia|reflexivity|vm_compute; discriminate|].
  rewrite (mbind_run _ _ _ _ _ Hr3). clear Hr3. set (w2 := World m2 (kern w1)). change (sizeof R4ServiceMessageHeader) with 28 in Hd2.
  pose proof (linked_changed _ _ _ _ _ Hcon1 Hd2 (linked_var _ _ 488 28 Hcon ltac:(lia) ltac:(lia))) as Hcon2.
  rewrite (mbind_run _ _ _ _ _ (host_get w2 "service_call" (f_call fs) Hh2 Htab ltac:(in_list))).
  destruct (li_struct _ _ Hcon2) as (κ2 & Hs2 & He2). rewrite (mbind_run _ _ _ _ _ (struct_get w2 H c κ2 "raw" 8 4%nat eq_refl eq_refl Hs2)).
  rewrite (mbind_run _ _ _ _ _ (call_i32_run w2 (f_call fs) _ Hg0)).
  destruct (call_law w2 (κ2 "raw") op request len (stack + 488) response capacity (default 0 t)) as [(m3 & Hk1 & Hk2) _].
  set (r := kcall (f_call fs) _ w2) in *.
  destruct (local_changed _ _ _ _ Hh2 Hk1 ltac:(lia) ltac:(lia)) as [_ Hh3]. destruct (local_changed _ _ _ _ Hh3 Hk2 ltac:(lia) ltac:(lia)) as [_ Hh4].
  assert (linked (mem (snd r)) c) as Hcon4.
  { eapply linked_changed; [eapply linked_changed; [exact Hcon2|exact Hk1|exact (linked_var _ _ 488 28 Hcon ltac:(lia) ltac:(lia))]|exact Hk2|exact Hav]. }
  destruct (call_answer (snd r) c (i32 (fst r)) Hh4 Hcon4 (i32_range _)) as (result & w' & Hr & Hc5 & Hcon5 & Hkn & Hb & Hresp).
  exists result, w'. split; [exact Hr|]. assert (confined P (mem (snd r)) (mem w')) as Hc6 by (eapply confined_changed; [exact Hc5|]; intros x Hx; by right).
  split_and!; [| |exact Hcon5|exact Hb|].
  - eapply confined_trans; [eapply Hin; [exact Hd1|lia|lia]|]. eapply confined_trans; [eapply Hin; [exact Hd2|lia|lia]|].
    eapply confined_trans; [eapply Hin; [exact Hk1|lia|lia]|]. eapply confined_trans; [eapply Hin; [exact Hk2|lia|lia]|exact Hc6].
  - eapply host_kept; [exact Hh4|eapply confined_changed; [exact Hc5|by intros x]|apply Hcon|apply Hcon].
  - exists w1. split; [exact Hask|]. right. exists (κ2 "raw"), (default 0 t), m2. split_and!; [|exact Hkn|exact Hresp].
    eapply changed_trans; (eapply changed_sub; [eassumption|lia|lia]).
Qed.

(** The same for the local connection. *)
Lemma frame_call_run w op request len response capacity timeout :
  host (mem w) → connected (mem w) → stack + 520 ≤ response → response + capacity ≤ stack + room →
  ∃ result w', r4_service_connection_call conn op request len response capacity timeout (stack + 456) (stack + 488) w
      = Some (result, w') ∧ confined local (mem w) (mem w') ∧ host (mem w') ∧ connected (mem w') ∧ 0 ≤ call_bytes result.
Proof.
  intros Hh Hcon Hr1 Hr2. destruct (link_call_run w conn op request len response capacity timeout Hh (connected_linked _ Hh Hcon) Hr1 Hr2)
    as (result & w' & Hr & Hc & Hh' & Hl & Hb & _).
  { intros x Hx Hy. unfold span in *. lia. }
  exists result, w'. split; [exact Hr|]. split_and!; [|exact Hh'|apply Hl|exact Hb]. eapply confined_weaken; [|exact Hc].
  intros x [Hx|Hx]; [exact Hx|]. unfold span in *. lia.
Qed.

(** ** Closing *)

Lemma link_close_run w c :
  host (mem w) → linked (mem w) c → ∃ raw w', r4_service_connection_close c w = Some (raw, w') ∧ changed (mem w) (mem w') c 232.
Proof.
  intros Hh Hcon. unfold r4_service_connection_close, service_handle_close.
  assert (∀ code : Z, ∃ raw w', Some (code, w) = Some (raw, w') ∧ changed (mem w) (mem w') c 232) as Hfail.
  { intros code. eexists _, w. split; [reflexivity|by split]. }
  destruct (linked_valid w c Hcon) as [b Hb]. rewrite (mbind_run _ _ _ _ _ Hb). destruct (negb b); [apply Hfail|].
  destruct (li_struct _ _ Hcon) as (κ & Hs & Happ). field_get Hs. destruct (_ =? 0); [apply Hfail|]. field_get Hs. rewrite Happ.
  rewrite (mbind_run _ _ _ _ _ (host_app_table w Hh)).
  destruct (host_slot w "service_close" (f_close fs) Hh ltac:(in_list)) as (g & Hg & Hg'). rewrite (mbind_run _ _ _ _ _ Hg).
  destruct (Z.eqb_spec g 0) as [|Hg0]; [apply Hfail|]. destruct Hg' as [E|[Htab ->]]; [destruct (Hg0 E)|]. clear Hb Hg.
  field_get Hs. rewrite (mbind_run _ _ _ _ _ (call_i32_run w (f_close fs) _ Hg0)).
  pose proof (quiet_law w (f_close fs) [κ "raw"] ltac:(in_list)) as Hq. set (r := kcall _ _ w) in *.
  destruct (handle_ended _); [|eexists _, _; split; [reflexivity|rewrite Hq; by split]].
  destruct (clear_struct (snd r) H c eq_refl ltac:(vm_compute; discriminate)) as (m1 & Hr1 & Hc1 & _); [rewrite Hq; apply Hs|].
  rewrite (mbind_run _ _ _ _ _ Hr1). eexists _, _. split; [reflexivity|]. rewrite <-Hq. exact Hc1.
Qed.

Lemma frame_close_run w :
  host (mem w) → connected (mem w) → ∃ raw w', r4_service_connection_close conn w = Some (raw, w') ∧ confined local (mem w) (mem w').
Proof.
  intros Hh Hcon. destruct (link_close_run w conn Hh (connected_linked _ Hh Hcon)) as (raw & w' & Hr & Hc). exists raw, w'. split; [exact Hr|].
  eapply confined_changed; [exact Hc|]. apply local_inside; lia.
Qed.
End facade.

End R4FacadeCall.
