(* ===== verification/R4Network.v ===== *)
(** * app_network.h

    Names, TCP and UDP over the services DNSSVC, TCPSVC and UDPSVC. Addresses are
    values; sockets and the answers of the services are structures in memory.
    The local variables of a function are at the addresses of a [net_frame],
    which also has those of the string literals. *)

From S2P Require Import Prelude R4Abi R4Mem R4L R4LSpec.
From S2P Require Import R4Table R4Sys R4SysSpec R4SysInit R4Field R4Group R4Time.
From S2P Require Import R4App R4Services.

Module R4Network.
Export R4Services.

Definition R4OS_SERVICE_API_VERSION : Z := 1.
Definition R4OS_SERVICE_API_RESULT_NOT_FOUND : Z := -2.
Definition R4OS_NET_TX_TOO_LARGE : Z := 4.
Definition R4OS_DNS_RESULT_OK : Z := 0.
Definition R4OS_DNS_RESULT_NAME : Z := -9.
Definition R4OS_DNS_RESULT_NXDOMAIN : Z := -10.
Definition R4OS_DNS_RESULT_TIMEOUT : Z := -11.
Definition R4OS_NET_SERVICE_DNS_FLAG_OK : Z := 1.
Definition R4OS_NET_SERVICE_DNS_RESULT_MAGIC : Z := 1397900356.
Definition R4OS_NET_SERVICE_DNS_RESULT_VERSION : Z := 1.
Definition R4OS_NET_SERVICE_TCP_RESULT_MAGIC : Z := 1397900116.
Definition R4OS_NET_SERVICE_TCP_RESULT_VERSION : Z := 2.
Definition R4OS_NET_SERVICE_UDP_RESULT_MAGIC : Z := 1380992085.
Definition R4OS_NET_SERVICE_UDP_RESULT_VERSION : Z := 2.
Definition R4OS_NET_SERVICE_TCP_FLAG_HANDLE_VALID : Z := 8.
Definition R4OS_NET_SERVICE_UDP_FLAG_HANDLE_VALID : Z := 4.
Definition R4OS_NET_SERVICE_TCP_WRITE_MAX : Z := 4068.
Definition R4OS_NET_SERVICE_TCP_READ_MAX : Z := 3916.
Definition R4OS_NET_SERVICE_UDP_SEND_MAX : Z := 4062.
Definition R4OS_NET_SERVICE_UDP_READ_MAX : Z := 3944.
Definition R4OS_NET_SERVICE_OP_DNS_RESOLVE_A_RESULT : Z := 273.
Definition R4OS_NET_SERVICE_OP_DNS_RESOLVE_A_SERVER_RESULT : Z := 274.
Definition R4OS_NET_SERVICE_OP_TCP_CONNECT_RESULT : Z := 785.
Definition R4OS_NET_SERVICE_OP_TCP_WRITE_RESULT : Z := 786.
Definition R4OS_NET_SERVICE_OP_TCP_READ_RESULT : Z := 787.
Definition R4OS_NET_SERVICE_OP_TCP_CLOSE_RESULT : Z := 788.
Definition R4OS_NET_SERVICE_OP_TCP_LISTEN_RESULT : Z := 789.
Definition R4OS_NET_SERVICE_OP_TCP_CLOSE_LISTEN_RESULT : Z := 791.
Definition R4OS_NET_SERVICE_OP_TCP_ACCEPT_POLL_RESULT : Z := 795.
Definition R4OS_NET_SERVICE_OP_UDP_BIND_RESULT : Z := 1041.
Definition R4OS_NET_SERVICE_OP_UDP_SENDTO_RESULT : Z := 1042.
Definition R4OS_NET_SERVICE_OP_UDP_RECV_RESULT : Z := 1043.
Definition R4OS_NET_SERVICE_OP_UDP_CLOSE_RESULT : Z := 1044.
Definition R4OS_NET_SERVICE_STATUS_TIMEOUT : Z := 3.
Definition R4OS_NET_SERVICE_STATUS_WOULD_BLOCK : Z := 6.
Definition R4OS_NET_SERVICE_SOCKET_LIFECYCLE_CLOSED : Z := 2.
Definition R4OS_NET_SERVICE_SOCKET_LIFECYCLE_RESET : Z := 3.
Definition R4OS_NET_SERVICE_SOCKET_LIFECYCLE_TIMEOUT : Z := 4.
Definition R4OS_NET_SERVICE_SOCKET_LIFECYCLE_PEER_GONE : Z := 5.
Definition R4OS_NET_SERVICE_SOCKET_LIFECYCLE_LOCAL_CLOSE : Z := 7.
Definition R4OS_NET_SERVICE_SOCKET_LIFECYCLE_WOULD_BLOCK : Z := 9.
Definition R4OS_NET_SERVICE_SOCKET_LIFECYCLE_BAD_HANDLE : Z := 10.

(** ** Data *)

Record R4Ipv4Address := Ipv4 { octet0 : Z; octet1 : Z; octet2 : Z; octet3 : Z }.
Record R4SocketAddress := SocketAddress { sa_address : R4Ipv4Address; sa_port : Z }.

Definition R4Network_t : ctype := Struct [("app", U64)].

Definition R4NetServiceDnsResult : ctype := Struct [
  ("magic", U32); ("version", U16); ("action", U16); ("result", U32); ("flags", U32); ("answer", Array U8 4);
  ("server", Array U8 4); ("cache_answer", Array U8 4); ("cache_age_seconds", U32); ("cache_ttl_seconds", U32);
  ("cache_remaining_seconds", U32); ("queries_tx", U64); ("resolve_requests", U64); ("responses_rx", U64);
  ("a_records", U64); ("timeouts", U64); ("nxdomain", U64); ("tx_errors", U64); ("malformed", U64); ("cache_hits", U64);
  ("cache_stores", U64); ("last_id", U16); ("name_len", U16); ("name", Array U8 96); ("last_error", Array U8 32)].
Definition R4NetServiceTcpResult : ctype := Struct [
  ("magic", U32); ("version", U16); ("action", U16); ("result", U32); ("flags", U32); ("handle", U32); ("conn_id", U32);
  ("bytes", U32); ("requested_bytes", U32); ("port", U16); ("remote_port", U16); ("remote_ip", Array U8 4);
  ("active_connections", U32); ("max_connections", U32); ("active_listeners", U32); ("handle_count", U32);
  ("max_handles", U32); ("tcp_buffer_size", U32); ("message_payload_max", U32); ("write_max", U32); ("read_max", U32);
  ("pending_rx", U32); ("rx_window", U32); ("tx_window", U32); ("tx_seq", U32); ("tx_ack", U32); ("retransmits", U32);
  ("rx_drops", U32); ("local_ip", Array U8 4); ("local_port", U16); ("reserved3", U16); ("last_error", Array U8 32);
  ("lifecycle_cause", U32); ("service_status", U32); ("owner_id", U16); ("reserved4", U16)].
Definition R4NetServiceUdpResult : ctype := Struct [
  ("magic", U32); ("version", U16); ("action", U16); ("result", U32); ("flags", U32); ("handle", U32); ("bytes", U32);
  ("requested_bytes", U32); ("source_ip", Array U8 4); ("dest_ip", Array U8 4); ("source_port", U16); ("dest_port", U16);
  ("active_sockets", U32); ("max_sockets", U32); ("queued_packets", U32); ("queue_limit", U32); ("payload_max", U32);
  ("message_payload_max", U32); ("send_max", U32); ("recv_max", U32); ("delivered", U64); ("drops", U64);
  ("last_error", Array U8 32); ("lifecycle_cause", U32); ("service_status", U32)].

(** The static assertions of the header. *)
Example net_wire_layouts :
  sizeof R4NetServiceDnsResult = 256 ∧ sizeof R4NetServiceTcpResult = 156 ∧ sizeof R4NetServiceUdpResult = 128 ∧
  offsetof R4NetServiceTcpResult "lifecycle_cause" = 144 ∧ offsetof R4NetServiceUdpResult "lifecycle_cause" = 120.
Proof. repeat split; reflexivity. Qed.

Definition SocketAddress_t : ctype := Struct [("address", Array U8 4); ("port", U16); ("reserved", U16)].
Definition R4TcpSocket : ctype := Struct [
  ("network.app", U64); ("raw", U32); ("owned", U8); ("reserved", Array U8 3); ("remote", SocketAddress_t)].
Definition R4TcpListener : ctype := Struct [("network.app", U64); ("port", U16); ("owned", U8); ("reserved", U8)].
Definition R4UdpSocket : ctype := Struct [
  ("network.app", U64); ("raw", U32); ("local_port", U16); ("owned", U8); ("reserved", U8)].
Definition R4Datagram : ctype := Struct [("source", SocketAddress_t); ("destination", SocketAddress_t); ("bytes", U32)].

Inductive R4NetResultKind :=
  | R4_NET_RESULT_OK | R4_NET_RESULT_WOULD_BLOCK | R4_NET_RESULT_TIMED_OUT | R4_NET_RESULT_RESET | R4_NET_RESULT_PEER_CLOSED
  | R4_NET_RESULT_CLOSED | R4_NET_RESULT_NOT_FOUND | R4_NET_RESULT_NO_SERVICE | R4_NET_RESULT_FAILED.
Record R4NetResult := NetResult { net_kind : R4NetResultKind; net_raw_code : Z; net_bytes : Z }.

#[global] Instance net_result_kind_eq_dec : EqDecision R4NetResultKind.
Proof. solve_decision. Defined.

(** The variables for a service call, the buffers, and the names. *)
Record net_frame := NetFrame {
  nf_call : service_frame; nf_request : Z; nf_response : Z; nf_parsed : Z; nf_dnssvc : Z; nf_tcpsvc : Z; nf_udpsvc : Z }.

(** ** Values *)

Definition r4_ipv4 (a b c d : Z) : R4Ipv4Address := Ipv4 a b c d.
Definition r4_ipv4_is_unspecified (value : R4Ipv4Address) : bool :=
  (octet0 value =? 0) && (octet1 value =? 0) && (octet2 value =? 0) && (octet3 value =? 0).

Definition r4_net_result (kind : R4NetResultKind) (raw bytes : Z) : R4NetResult := NetResult kind raw bytes.

Definition r4_net_from_call (call : R4ServiceCallResult) : R4NetResult :=
  match call_kind call with
  | R4_SERVICE_CALL_TIMED_OUT => r4_net_result R4_NET_RESULT_TIMED_OUT R4OS_SERVICE_API_RESULT_TIMEOUT 0
  | R4_SERVICE_CALL_RESPONSE => r4_net_result R4_NET_RESULT_OK R4OS_OK (call_bytes call)
  | _ =>
      if (call_raw_code call =? R4OS_SERVICE_API_RESULT_NOT_FOUND) || (call_raw_code call =? R4OS_SERVICE_API_RESULT_NO_ENDPOINT)
         || (call_raw_code call =? R4OS_SERVICE_API_RESULT_NOT_RUNNING)
      then r4_net_result R4_NET_RESULT_NO_SERVICE (call_raw_code call) 0
      else r4_net_result R4_NET_RESULT_FAILED (call_raw_code call) 0
  end.

Definition r4_net_classify_socket (service_status lifecycle raw bytes : Z) : R4NetResult :=
  if (service_status =? R4OS_NET_SERVICE_STATUS_WOULD_BLOCK) || (lifecycle =? R4OS_NET_SERVICE_SOCKET_LIFECYCLE_WOULD_BLOCK)
  then r4_net_result R4_NET_RESULT_WOULD_BLOCK raw 0
  else if (service_status =? R4OS_NET_SERVICE_STATUS_TIMEOUT) || (lifecycle =? R4OS_NET_SERVICE_SOCKET_LIFECYCLE_TIMEOUT)
  then r4_net_result R4_NET_RESULT_TIMED_OUT raw 0
  else if lifecycle =? R4OS_NET_SERVICE_SOCKET_LIFECYCLE_RESET then r4_net_result R4_NET_RESULT_RESET raw 0
  else if lifecycle =? R4OS_NET_SERVICE_SOCKET_LIFECYCLE_PEER_GONE then r4_net_result R4_NET_RESULT_PEER_CLOSED raw 0
  else if (lifecycle =? R4OS_NET_SERVICE_SOCKET_LIFECYCLE_LOCAL_CLOSE) || (lifecycle =? R4OS_NET_SERVICE_SOCKET_LIFECYCLE_CLOSED)
          || (lifecycle =? R4OS_NET_SERVICE_SOCKET_LIFECYCLE_BAD_HANDLE)
  then r4_net_result R4_NET_RESULT_CLOSED raw 0
  else if raw =? 0 then r4_net_result R4_NET_RESULT_OK raw bytes else r4_net_result R4_NET_RESULT_FAILED raw 0.

(** [r4_net_result(R4_NET_RESULT_FAILED, code, 0)], for a malformed answer. *)
Definition net_failed (code : Z) : R4NetResult := r4_net_result R4_NET_RESULT_FAILED code 0.
Definition net_invalid : R4NetResult := net_failed R4OS_SERVICE_API_RESULT_INVALID.

(** A field of a message header that is given by its bytes. *)
Definition header_field (l : list byte) (f : string) : Z :=
  match field_at R4ServiceMessageHeader f with
  | Some (o, n) => le_val (take n (drop (Z.to_nat o) l))
  | None => 0
  end.

Definition kind_is (k : R4NetResultKind) (r : R4NetResult) : bool := bool_decide (net_kind r = k).

(** The results after which a socket is not used again. *)
Definition tcp_gone (r : R4NetResult) : bool :=
  kind_is R4_NET_RESULT_CLOSED r || kind_is R4_NET_RESULT_RESET r || kind_is R4_NET_RESULT_PEER_CLOSED r.
Definition udp_gone (r : R4NetResult) : bool := kind_is R4_NET_RESULT_CLOSED r || kind_is R4_NET_RESULT_RESET r.

Section code.
Context {K : Type} `{!Kernel K}.

(** The facades by their one field. *)
Definition r4_app_network (app : Z) : Z := app.
Definition r4_network_resolver (network : Z) : Z := network.

(** [network != 0 ? network->app : 0]. *)
Definition network_app (network : Z) : M K Z := if network =? 0 then mret 0 else get R4Network_t "app" network.

(** The variable [services] is not used after a failed test. *)
Definition r4_network_available (network services : Z) : M K bool :=
  app ← network_app network;
  _ ← put R4Services_t "app" services (r4_app_services app);
  if app =? 0 then mret false else
  table ← get R4App_t "network.table" app;
  if table =? 0 then mret false else
  f ← get R4XStartR4Net "tcp_connect" table;
  if f =? 0 then mret false else r4_services_available services.

Definition socket_valid (T : ctype) (field : string) (socket : Z) : M K bool :=
  if socket =? 0 then mret false else
  app ← get T "network.app" socket;
  if app =? 0 then mret false else
  raw ← get T field socket; mret (negb (raw =? 0)).
Definition r4_tcp_socket_valid : Z → M K bool := socket_valid R4TcpSocket "raw".
Definition r4_tcp_listener_valid : Z → M K bool := socket_valid R4TcpListener "port".
Definition r4_udp_socket_valid : Z → M K bool := socket_valid R4UdpSocket "raw".

(** ** Bytes *)

Definition r4_net_write_u16 (out value : Z) : M K () :=
  _ ← store 1 out value; store 1 (out + 1) (Z.shiftr value 8).
Definition r4_net_write_u32 (out value : Z) : M K () :=
  _ ← store 1 out value;
  _ ← store 1 (out + 1) (Z.shiftr value 8);
  _ ← store 1 (out + 2) (Z.shiftr value 16);
  store 1 (out + 3) (Z.shiftr value 24).

(** The four octets at [p], and storing four octets there. *)
Definition write_ipv4 (p : Z) (a : R4Ipv4Address) : M K () :=
  _ ← store 1 p (octet0 a); _ ← store 1 (p + 1) (octet1 a); _ ← store 1 (p + 2) (octet2 a); store 1 (p + 3) (octet3 a).
Definition copy_ipv4 (dst src : Z) : M K () := copy_loop 4 dst src.

(** ** Calling a network service *)

Definition call_not_made (code : Z) : R4ServiceCallResult := CallResult R4_SERVICE_CALL_FAILED code 0 no_header.

Definition r4_network_service_call (network service_name op request request_len response response_capacity : Z)
    (timeout : R4Timeout) (fr : service_frame) : M K R4ServiceCallResult :=
  available ← r4_network_available network (fr_services fr);
  if negb available then mret (call_not_made R4OS_ERR_NO_GROUP) else
  app ← get R4Network_t "app" network;
  raw ← frame_open fr app service_name;
  if negb (raw =? R4OS_SERVICE_API_RESULT_OK) then mret (call_not_made raw) else
  result ← r4_service_connection_call (fr_connection fr) op request request_len response response_capacity timeout
             (fr_state fr) (fr_header fr);
  _ ← r4_service_connection_close (fr_connection fr);
  if bool_decide (call_kind result = R4_SERVICE_CALL_RESPONSE) &&
     ((response_capacity <? call_bytes result)
      || negb (header_field (call_header result) "magic" =? R4OS_SERVICE_API_MAGIC)
      || negb (header_field (call_header result) "version" =? R4OS_SERVICE_API_VERSION)
      || negb (header_field (call_header result) "op" =? op))
  then mret (CallResult R4_SERVICE_CALL_FAILED R4OS_SERVICE_API_RESULT_INVALID 0 (call_header result))
  else mret result.

(** [parsed] holds an answer of the right kind. *)
Definition answer_ok (T : ctype) (magic version parsed : Z) : M K bool :=
  m ← get T "magic" parsed;
  if negb (m =? magic) then mret false else
  v ← get T "version" parsed; mret (v =? version).

(** A call with an answer of fixed size: what the caller returns at once, or [None]. *)
Definition net_exchange (T : ctype) (magic version network name op request_len : Z) (timeout : R4Timeout) (fr : net_frame)
    : M K (option R4NetResult) :=
  _ ← clear T (nf_response fr);
  call ← r4_network_service_call network name op (nf_request fr) request_len (nf_response fr) (sizeof T) timeout (nf_call fr);
  let transport := r4_net_from_call call in
  if negb (kind_is R4_NET_RESULT_OK transport) then mret (Some transport) else
  if (call_bytes call <? sizeof T) || (sizeof T <? call_bytes call) then mret (Some net_invalid) else
  ok ← answer_ok T magic version (nf_response fr);
  mret (if ok : bool then None else Some net_invalid).

Definition tcp_exchange (network op request_len : Z) (timeout : R4Timeout) (fr : net_frame) : M K (option R4NetResult) :=
  net_exchange R4NetServiceTcpResult R4OS_NET_SERVICE_TCP_RESULT_MAGIC R4OS_NET_SERVICE_TCP_RESULT_VERSION
    network (nf_tcpsvc fr) op request_len timeout fr.
Definition udp_exchange (network op request_len : Z) (timeout : R4Timeout) (fr : net_frame) : M K (option R4NetResult) :=
  net_exchange R4NetServiceUdpResult R4OS_NET_SERVICE_UDP_RESULT_MAGIC R4OS_NET_SERVICE_UDP_RESULT_VERSION
    network (nf_udpsvc fr) op request_len timeout fr.

(** [r4_net_classify_socket] of the answer at [p]; [counted] is that its byte count is passed on. *)
Definition classify (T : ctype) (p : Z) (counted : bool) : M K R4NetResult :=
  status ← get T "service_status" p;
  lifecycle ← get T "lifecycle_cause" p;
  result ← get T "result" p;
  bytes ← (if counted then get T "bytes" p else mret 0);
  mret (r4_net_classify_socket status lifecycle (i32 result) bytes).

(** [response.handle != 0 && (response.flags & flag) != 0]. *)
Definition handle_given (T : ctype) (flag p : Z) : M K bool :=
  handle ← get T "handle" p;
  if handle =? 0 then mret false else
  flags ← get T "flags" p; mret (negb (Z.land flags flag =? 0)).

(** ** Names *)

Definition r4_resolver_resolve_a (resolver name name_len server : Z) (timeout : R4Timeout) (out : Z) (fr : net_frame) : M K R4NetResult :=
  _ ← (if out =? 0 then mret () else write_ipv4 out (Ipv4 0 0 0 0));
  if (resolver =? 0) || (out =? 0) || (name =? 0) || (name_len =? 0) || (R4OS_SERVICE_API_MAX_PAYLOAD - 4 <? name_len)
  then mret (net_failed R4OS_DNS_RESULT_NAME) else
  _ ← (if server =? 0 then mret () else copy_ipv4 (nf_request fr) server);
  let offset := if server =? 0 then 0 else 4 in
  let op := if server =? 0 then R4OS_NET_SERVICE_OP_DNS_RESOLVE_A_RESULT else R4OS_NET_SERVICE_OP_DNS_RESOLVE_A_SERVER_RESULT in
  _ ← copy_loop (Z.to_nat name_len) (nf_request fr + offset) name;
  early ← net_exchange R4NetServiceDnsResult R4OS_NET_SERVICE_DNS_RESULT_MAGIC R4OS_NET_SERVICE_DNS_RESULT_VERSION
            resolver (nf_dnssvc fr) op (offset + name_len) timeout fr;
  match early with
  | Some result => mret result
  | None =>
      raw ← get R4NetServiceDnsResult "result" (nf_response fr);
      let raw := i32 raw in
      if raw =? R4OS_DNS_RESULT_TIMEOUT then mret (r4_net_result R4_NET_RESULT_TIMED_OUT raw 0) else
      if raw =? R4OS_DNS_RESULT_NXDOMAIN then mret (r4_net_result R4_NET_RESULT_NOT_FOUND raw 0) else
      flags ← (if raw =? R4OS_DNS_RESULT_OK then get R4NetServiceDnsResult "flags" (nf_response fr) else mret 0);
      if negb (raw =? R4OS_DNS_RESULT_OK) || (Z.land flags R4OS_NET_SERVICE_DNS_FLAG_OK =? 0)
      then mret (r4_net_result R4_NET_RESULT_FAILED raw 0) else
      _ ← copy_ipv4 out (nf_response fr + offsetof R4NetServiceDnsResult "answer");
      mret (r4_net_result R4_NET_RESULT_OK R4OS_DNS_RESULT_OK 0)
  end.

(** ** TCP *)

Definition r4_network_connect_tcp (network : Z) (remote : R4SocketAddress) (timeout : R4Timeout) (out : Z) (fr : net_frame) : M K R4NetResult :=
  _ ← (if out =? 0 then mret () else clear R4TcpSocket out);
  if (network =? 0) || (out =? 0) then mret (net_failed R4OS_ERROR_INVALID) else
  _ ← write_ipv4 (nf_request fr) (sa_address remote);
  _ ← r4_net_write_u16 (nf_request fr + 4) (sa_port remote);
  early ← tcp_exchange network R4OS_NET_SERVICE_OP_TCP_CONNECT_RESULT 6 timeout fr;
  match early with
  | Some result => mret result
  | None =>
      result ← classify R4NetServiceTcpResult (nf_response fr) true;
      if negb (kind_is R4_NET_RESULT_OK result) then mret result else
      given ← handle_given R4NetServiceTcpResult R4OS_NET_SERVICE_TCP_FLAG_HANDLE_VALID (nf_response fr);
      if negb given then mret net_invalid else
      app ← get R4Network_t "app" network;
      _ ← put R4TcpSocket "network.app" out app;
      handle ← get R4NetServiceTcpResult "handle" (nf_response fr);
      _ ← put R4TcpSocket "raw" out handle;
      _ ← put R4TcpSocket "owned" out 1;
      let p := out + offsetof R4TcpSocket "remote" in
      _ ← write_ipv4 p (sa_address remote);
      _ ← put SocketAddress_t "port" p (sa_port remote);
      mret result
  end.

Definition r4_network_listen_tcp (network port : Z) (timeout : R4Timeout) (out : Z) (fr : net_frame) : M K R4NetResult :=
  _ ← (if out =? 0 then mret () else clear R4TcpListener out);
  if (network =? 0) || (out =? 0) || (port =? 0) then mret (net_failed R4OS_ERROR_INVALID) else
  _ ← r4_net_write_u16 (nf_request fr) port;
  early ← tcp_exchange network R4OS_NET_SERVICE_OP_TCP_LISTEN_RESULT 2 timeout fr;
  match early with
  | Some result => mret result
  | None =>
      result ← classify R4NetServiceTcpResult (nf_response fr) false;
      if negb (kind_is R4_NET_RESULT_OK result) then mret result else
      app ← get R4Network_t "app" network;
      _ ← put R4TcpListener "network.app" out app;
      _ ← put R4TcpListener "port" out port;
      _ ← put R4TcpListener "owned" out 1;
      mret result
  end.

Definition r4_tcp_listener_accept (listener : Z) (timeout : R4Timeout) (out : Z) (fr : net_frame) : M K R4NetResult :=
  _ ← (if out =? 0 then mret () else clear R4TcpSocket out);
  valid ← r4_tcp_listener_valid listener;
  if negb valid || (out =? 0) then mret (net_failed R4OS_ERR_CLOSED) else
  port ← get R4TcpListener "port" listener;
  _ ← r4_net_write_u16 (nf_request fr) port;
  early ← tcp_exchange listener R4OS_NET_SERVICE_OP_TCP_ACCEPT_POLL_RESULT 2 timeout fr;
  match early with
  | Some result => mret result
  | None =>
      result ← classify R4NetServiceTcpResult (nf_response fr) false;
      if negb (kind_is R4_NET_RESULT_OK result) then mret result else
      given ← handle_given R4NetServiceTcpResult R4OS_NET_SERVICE_TCP_FLAG_HANDLE_VALID (nf_response fr);
      if negb given then
        raw ← get R4NetServiceTcpResult "result" (nf_response fr);
        mret (r4_net_result R4_NET_RESULT_WOULD_BLOCK (i32 raw) 0)
      else
        app ← get R4TcpListener "network.app" listener;
        _ ← put R4TcpSocket "network.app" out app;
        handle ← get R4NetServiceTcpResult "handle" (nf_response fr);
        _ ← put R4TcpSocket "raw" out handle;
        _ ← put R4TcpSocket "owned" out 1;
        let p := out + offsetof R4TcpSocket "remote" in
        _ ← copy_ipv4 p (nf_response fr + offsetof R4NetServiceTcpResult "remote_ip");
        port ← get R4NetServiceTcpResult "remote_port" (nf_response fr);
        _ ← put SocketAddress_t "port" p port;
        mret result
  end.

(** After a write: the answer counts at most [len] bytes, and a socket that is gone loses its handle. *)
Definition finish_write (T Sock : ctype) (gone : R4NetResult → bool) (socket len : Z) (fr : net_frame) : M K R4NetResult :=
  bytes ← get T "bytes" (nf_response fr);
  if len <? bytes then mret net_invalid else
  result ← classify T (nf_response fr) true;
  _ ← (if gone result then put Sock "raw" socket 0 else mret ());
  mret result.

Definition r4_tcp_socket_write (socket data len : Z) (timeout : R4Timeout) (fr : net_frame) : M K R4NetResult :=
  valid ← r4_tcp_socket_valid socket;
  if negb valid then mret (net_failed R4OS_ERR_CLOSED) else
  if (R4OS_NET_SERVICE_TCP_WRITE_MAX <? len) || (negb (len =? 0) && (data =? 0)) then mret (net_failed R4OS_NET_TX_TOO_LARGE) else
  raw ← get R4TcpSocket "raw" socket;
  _ ← r4_net_write_u32 (nf_request fr) raw;
  _ ← copy_loop (Z.to_nat len) (nf_request fr + 4) data;
  early ← tcp_exchange socket R4OS_NET_SERVICE_OP_TCP_WRITE_RESULT (4 + len) timeout fr;
  match early with
  | Some result => mret result
  | None => finish_write R4NetServiceTcpResult R4TcpSocket tcp_gone socket len fr
  end.

(** The call of a read: [None] is that the caller goes on, with the bytes of the answer. *)
Definition read_exchange (T : ctype) (magic version read_max : Z) (Sock : ctype) (name op socket capacity : Z) (timeout : R4Timeout) (fr : net_frame)
    : M K (Z * option R4NetResult) :=
  raw ← get Sock "raw" socket;
  _ ← r4_net_write_u32 (nf_request fr) raw;
  _ ← r4_net_write_u16 (nf_request fr + 4) capacity;
  call ← r4_network_service_call socket name op (nf_request fr) 6 (nf_response fr) (sizeof T + read_max) timeout (nf_call fr);
  let transport := r4_net_from_call call in
  if negb (kind_is R4_NET_RESULT_OK transport) then mret (0, Some transport) else
  if call_bytes call <? sizeof T then mret (0, Some net_invalid) else
  _ ← memcpy (nf_parsed fr) (nf_response fr) (sizeof T);
  ok ← answer_ok T magic version (nf_parsed fr);
  mret (call_bytes call, if ok : bool then None else Some net_invalid).

(** The answer at [parsed] has the bytes for [out] behind its structure: [None] is that they were
    copied, of the number returned. *)
Definition take_bytes (T : ctype) (out capacity received : Z) (fr : net_frame) : M K (Z * option R4NetResult) :=
  bytes ← get T "bytes" (nf_parsed fr);
  if (capacity <? bytes) || (received <? sizeof T + bytes) then mret (bytes, Some net_invalid) else
  _ ← copy_loop (Z.to_nat bytes) out (nf_response fr + sizeof T);
  mret (bytes, None).

(** After the call of a read. *)
Definition tcp_received (socket out capacity received : Z) (fr : net_frame) : M K R4NetResult :=
  result ← classify R4NetServiceTcpResult (nf_parsed fr) true;
  if kind_is R4_NET_RESULT_OK result then
    '(_, bad) ← take_bytes R4NetServiceTcpResult out capacity received fr;
    mret (default result bad)
  else
    _ ← (if tcp_gone result then put R4TcpSocket "raw" socket 0 else mret ());
    mret result.

Definition r4_tcp_socket_read (socket out capacity : Z) (timeout : R4Timeout) (fr : net_frame) : M K R4NetResult :=
  valid ← r4_tcp_socket_valid socket;
  if negb valid then mret (net_failed R4OS_ERR_CLOSED) else
  if negb (capacity =? 0) && (out =? 0) then mret (net_failed R4OS_ERROR_INVALID) else
  let capacity := if R4OS_NET_SERVICE_TCP_READ_MAX <? capacity then R4OS_NET_SERVICE_TCP_READ_MAX else capacity in
  '(received, early) ← read_exchange R4NetServiceTcpResult R4OS_NET_SERVICE_TCP_RESULT_MAGIC R4OS_NET_SERVICE_TCP_RESULT_VERSION
     R4OS_NET_SERVICE_TCP_READ_MAX R4TcpSocket (nf_tcpsvc fr) R4OS_NET_SERVICE_OP_TCP_READ_RESULT socket capacity timeout fr;
  match early with
  | Some result => mret result
  | None => tcp_received socket out capacity received fr
  end.

(** Closing what [T] is, by its [field]: a [len] byte request with that field's value. *)
Definition finish_close (T Sock : ctype) (field : string) (h : Z) (fr : net_frame) : M K R4NetResult :=
  result ← classify T (nf_response fr) false;
  if kind_is R4_NET_RESULT_OK result || kind_is R4_NET_RESULT_CLOSED result then
    _ ← put Sock field h 0;
    mret (r4_net_result R4_NET_RESULT_CLOSED R4OS_OK 0)
  else mret result.

Definition r4_tcp_socket_close (socket : Z) (timeout : R4Timeout) (fr : net_frame) : M K R4NetResult :=
  valid ← r4_tcp_socket_valid socket;
  if negb valid then mret (net_failed R4OS_ERR_CLOSED) else
  owned ← get R4TcpSocket "owned" socket;
  if owned =? 0 then mret (net_failed R4OS_ERR_NOT_OWNED) else
  raw ← get R4TcpSocket "raw" socket;
  _ ← r4_net_write_u32 (nf_request fr) raw;
  early ← tcp_exchange socket R4OS_NET_SERVICE_OP_TCP_CLOSE_RESULT 4 timeout fr;
  match early with Some result => mret result | None => finish_close R4NetServiceTcpResult R4TcpSocket "raw" socket fr end.

Definition r4_tcp_listener_close (listener : Z) (timeout : R4Timeout) (fr : net_frame) : M K R4NetResult :=
  valid ← r4_tcp_listener_valid listener;
  if negb valid then mret (net_failed R4OS_ERR_CLOSED) else
  owned ← get R4TcpListener "owned" listener;
  if owned =? 0 then mret (net_failed R4OS_ERR_NOT_OWNED) else
  port ← get R4TcpListener "port" listener;
  _ ← r4_net_write_u16 (nf_request fr) port;
  early ← tcp_exchange listener R4OS_NET_SERVICE_OP_TCP_CLOSE_LISTEN_RESULT 2 timeout fr;
  match early with Some result => mret result | None => finish_close R4NetServiceTcpResult R4TcpListener "port" listener fr end.

(** ** UDP *)

Definition r4_network_bind_udp (network port : Z) (timeout : R4Timeout) (out : Z) (fr : net_frame) : M K R4NetResult :=
  _ ← (if out =? 0 then mret () else clear R4UdpSocket out);
  if (network =? 0) || (out =? 0) then mret (net_failed R4OS_ERROR_INVALID) else
  _ ← r4_net_write_u16 (nf_request fr) port;
  early ← udp_exchange network R4OS_NET_SERVICE_OP_UDP_BIND_RESULT 2 timeout fr;
  match early with
  | Some result => mret result
  | None =>
      result ← classify R4NetServiceUdpResult (nf_response fr) false;
      if negb (kind_is R4_NET_RESULT_OK result) then mret result else
      given ← handle_given R4NetServiceUdpResult R4OS_NET_SERVICE_UDP_FLAG_HANDLE_VALID (nf_response fr);
      if negb given then mret net_invalid else
      app ← get R4Network_t "app" network;
      _ ← put R4UdpSocket "network.app" out app;
      handle ← get R4NetServiceUdpResult "handle" (nf_response fr);
      _ ← put R4UdpSocket "raw" out handle;
      _ ← put R4UdpSocket "local_port" out port;
      _ ← put R4UdpSocket "owned" out 1;
      mret result
  end.

Definition r4_udp_socket_send_to (socket : Z) (destination : R4SocketAddress) (data len : Z) (timeout : R4Timeout) (fr : net_frame) : M K R4NetResult :=
  valid ← r4_udp_socket_valid socket;
  if negb valid then mret (net_failed R4OS_ERR_CLOSED) else
  if (R4OS_NET_SERVICE_UDP_SEND_MAX <? len) || (negb (len =? 0) && (data =? 0)) then mret (net_failed R4OS_NET_TX_TOO_LARGE) else
  raw ← get R4UdpSocket "raw" socket;
  _ ← r4_net_write_u32 (nf_request fr) raw;
  _ ← write_ipv4 (nf_request fr + 4) (sa_address destination);
  _ ← r4_net_write_u16 (nf_request fr + 8) (sa_port destination);
  _ ← copy_loop (Z.to_nat len) (nf_request fr + 10) data;
  early ← udp_exchange socket R4OS_NET_SERVICE_OP_UDP_SENDTO_RESULT (10 + len) timeout fr;
  match early with
  | Some result => mret result
  | None => finish_write R4NetServiceUdpResult R4UdpSocket udp_gone socket len fr
  end.

(** A socket address in a datagram, from the answer. *)
Definition fill_address (p ip port : Z) : M K () :=
  _ ← copy_ipv4 p ip; put SocketAddress_t "port" p port.

Definition fill_datagram (datagram bytes : Z) (fr : net_frame) : M K () :=
  port ← get R4NetServiceUdpResult "source_port" (nf_parsed fr);
  _ ← fill_address (datagram + offsetof R4Datagram "source") (nf_parsed fr + offsetof R4NetServiceUdpResult "source_ip") port;
  port ← get R4NetServiceUdpResult "dest_port" (nf_parsed fr);
  _ ← fill_address (datagram + offsetof R4Datagram "destination") (nf_parsed fr + offsetof R4NetServiceUdpResult "dest_ip") port;
  put R4Datagram "bytes" datagram bytes.

(** After the call of a read. *)
Definition udp_received (socket out capacity datagram received : Z) (fr : net_frame) : M K R4NetResult :=
  result ← classify R4NetServiceUdpResult (nf_parsed fr) true;
  if negb (kind_is R4_NET_RESULT_OK result) then
    _ ← (if udp_gone result then put R4UdpSocket "raw" socket 0 else mret ());
    mret result
  else
    '(bytes, bad) ← take_bytes R4NetServiceUdpResult out capacity received fr;
    match bad with
    | Some failed => mret failed
    | None => _ ← fill_datagram datagram bytes fr; mret result
    end.

(** All but clearing the datagram. *)
Definition udp_receive (socket out capacity : Z) (timeout : R4Timeout) (datagram : Z) (fr : net_frame) : M K R4NetResult :=
  valid ← r4_udp_socket_valid socket;
  if negb valid || (datagram =? 0) then mret (net_failed R4OS_ERR_CLOSED) else
  if negb (capacity =? 0) && (out =? 0) then mret (net_failed R4OS_ERROR_INVALID) else
  let capacity := if R4OS_NET_SERVICE_UDP_READ_MAX <? capacity then R4OS_NET_SERVICE_UDP_READ_MAX else capacity in
  '(received, early) ← read_exchange R4NetServiceUdpResult R4OS_NET_SERVICE_UDP_RESULT_MAGIC R4OS_NET_SERVICE_UDP_RESULT_VERSION
     R4OS_NET_SERVICE_UDP_READ_MAX R4UdpSocket (nf_udpsvc fr) R4OS_NET_SERVICE_OP_UDP_RECV_RESULT socket capacity timeout fr;
  match early with
  | Some result => mret result
  | None => udp_received socket out capacity datagram received fr
  end.

Definition r4_udp_socket_receive_from (socket out capacity : Z) (timeout : R4Timeout) (datagram : Z) (fr : net_frame) : M K R4NetResult :=
  _ ← (if datagram =? 0 then mret () else clear R4Datagram datagram);
  udp_receive socket out capacity timeout datagram fr.

Definition r4_udp_socket_close (socket : Z) (timeout : R4Timeout) (fr : net_frame) : M K R4NetResult :=
  valid ← r4_udp_socket_valid socket;
  if negb valid then mret (net_failed R4OS_ERR_CLOSED) else
  owned ← get R4UdpSocket "owned" socket;
  if owned =? 0 then mret (net_failed R4OS_ERR_NOT_OWNED) else
  raw ← get R4UdpSocket "raw" socket;
  _ ← r4_net_write_u32 (nf_request fr) raw;
  early ← udp_exchange socket R4OS_NET_SERVICE_OP_UDP_CLOSE_RESULT 4 timeout fr;
  match early with Some result => mret result | None => finish_close R4NetServiceUdpResult R4UdpSocket "raw" socket fr end.
End code.

End R4Network.
