(* ===== verification/R4NetworkRead.v ===== *)
(** * Receiving from the network

    What [r4_tcp_socket_read] and [r4_udp_socket_receive_from] do with the memory of
    the program, whatever the kernel and the service answer. The local variables
    are in 8968 bytes at [stack]: those of the service call, then the request, the
    response and the answer taken from it. *)

From S2P Require Import Prelude R4Abi R4Mem R4L R4LSpec.
From S2P Require Import R4Table R4Sys R4SysSpec R4SysInit R4Field R4Group R4Time.
From S2P Require Import R4App R4Services R4ServiceArea R4FacadeCall R4Network.

Module R4NetworkRead.
Export R4FacadeCall R4Network.

Definition net_room : Z := 8968.
Definition net_frame_at (stack dns tcp udp : Z) : net_frame :=
  NetFrame (frame_at stack) (stack + 520) (stack + 4616) (stack + 8712) dns tcp udp.

(** The fields of an answer that the code reads. *)
Definition wire (T : ctype) : bool :=
  fields_fit T && forallb (λ f, field_in T f (sizeof T)) ["magic"; "version"; "result"; "bytes"; "service_status"; "lifecycle_cause"]
  && (0 <=? sizeof T) && (sizeof T <=? 256).

Lemma classify_bytes status lifecycle raw bytes : let r := r4_net_classify_socket status lifecycle raw bytes in
  net_bytes r = if kind_is R4_NET_RESULT_OK r then bytes else 0.
Proof. unfold r4_net_classify_socket. repeat (destruct (_ || _) || destruct (_ =? _)); reflexivity. Qed.

(** What the status and the cause in an answer mean, by the numbers of the contract
    (ApiContract.json): the status would_block (6) or timeout (3), or the cause
    would_block (9) or timeout (4), say that there is nothing yet. Otherwise a TCP
    socket has ended with the causes closed (2), reset (3), peer_gone (5),
    local_close (7) and bad_handle (10); a UDP socket has no peer to lose. *)
Definition not_yet (status cause : Z) : bool := bool_decide (status ∈ [6; 3]) || bool_decide (cause ∈ [9; 4]).
Definition tcp_causes : list Z := [2; 3; 5; 7; 10].
Definition udp_causes : list Z := [2; 3; 7; 10].
Definition ended (causes : list Z) (status cause : Z) : bool := negb (not_yet status cause) && bool_decide (cause ∈ causes).

Lemma mem_eqb (z : Z) l : bool_decide (z ∈ l) = existsb (Z.eqb z) l.
Proof.
  apply eq_true_iff_eq. rewrite bool_decide_eq_true, existsb_exists, list_elem_of_In. split; [intros H; exists z; by rewrite Z.eqb_refl|].
  by intros (x & Hx & ->%Z.eqb_eq).
Qed.

Lemma classify_spec status cause raw bytes : let r := r4_net_classify_socket status cause raw bytes in
  tcp_gone r = ended tcp_causes status cause ∧ udp_gone r = ended udp_causes status cause ∧
  kind_is R4_NET_RESULT_OK r = negb (not_yet status cause) && negb (bool_decide (cause ∈ tcp_causes)) && (raw =? 0).
Proof.
  unfold ended, not_yet, tcp_causes, udp_causes. rewrite !mem_eqb. cbn [existsb]. unfold r4_net_classify_socket.
  change R4OS_NET_SERVICE_STATUS_WOULD_BLOCK with 6. change R4OS_NET_SERVICE_STATUS_TIMEOUT with 3.
  change R4OS_NET_SERVICE_SOCKET_LIFECYCLE_WOULD_BLOCK with 9. change R4OS_NET_SERVICE_SOCKET_LIFECYCLE_TIMEOUT with 4.
  change R4OS_NET_SERVICE_SOCKET_LIFECYCLE_RESET with 3. change R4OS_NET_SERVICE_SOCKET_LIFECYCLE_PEER_GONE with 5.
  change R4OS_NET_SERVICE_SOCKET_LIFECYCLE_LOCAL_CLOSE with 7. change R4OS_NET_SERVICE_SOCKET_LIFECYCLE_CLOSED with 2.
  change R4OS_NET_SERVICE_SOCKET_LIFECYCLE_BAD_HANDLE with 10.
  destruct (status =? 6); [done|]. destruct (status =? 3); [by destruct (cause =? 9)|].
  destruct (Z.eqb_spec cause 9) as [->|]; [done|]. destruct (Z.eqb_spec cause 4) as [->|]; [done|].
  destruct (Z.eqb_spec cause 3) as [->|]; [done|]. destruct (Z.eqb_spec cause 5) as [->|]; [done|].
  destruct (Z.eqb_spec cause 7) as [->|]; [done|]. destruct (Z.eqb_spec cause 2) as [->|]; [done|].
  destruct (Z.eqb_spec cause 10) as [->|]; [done|]. by destruct (raw =? 0).
Qed.

(** A result that the call itself gives: no byte, and no word of the socket. *)
Definition not_served (r : R4NetResult) : Prop := net_bytes r = 0 ∧ kind_is R4_NET_RESULT_OK r = false ∧ tcp_gone r = false ∧ udp_gone r = false.

Lemma from_call_not_served call : kind_is R4_NET_RESULT_OK (r4_net_from_call call) = false → not_served (r4_net_from_call call).
Proof. unfold r4_net_from_call. destruct (call_kind call); try destruct (_ || _); done. Qed.

Section bytes.
Context {K : Type}.
Implicit Types (w : world K) (m : gmap Z byte).

(** A byte at a time. *)
Lemma byte_store w a v : mapped (mem w) a 1 →
  ∃ m', store 1 a v w = Some ((), World m' (kern w)) ∧ changed (mem w) m' a 1 ∧ m' !! a = Some (z2b v).
Proof.
  intros Hm. destruct (store_bytes_run w a (le_bytes 1 v)) as (m' & Hr & Hc & Hb); [by rewrite length_le_bytes|].
  exists m'. split; [exact Hr|]. rewrite length_le_bytes in Hc. split; [exact Hc|].
  apply (bytes_lookup m' a (le_bytes 1 v)) with (i := O) in Hb; [|cbn; lia]. by rewrite Z.add_0_r in Hb.
Qed.

(** Two memories that have the same bytes at two places. *)
Lemma read_bytes_copy m m' a b n : (∀ i, 0 ≤ i < Z.of_nat n → m' !! (b + i) = m !! (a + i)) → read_bytes m' b n = read_bytes m a n.
Proof.
  revert a b. induction n as [|n IH]; intros a b H; [done|]. cbn [read_bytes].
  pose proof (H 0 ltac:(lia)) as H0. rewrite !Z.add_0_r in H0. rewrite H0, (IH (a + 1) (b + 1)); [done|].
  intros i Hi. rewrite <-!Z.add_assoc. apply H. lia.
Qed.

Lemma fv_copy m m' T a b f n :
  field_in T f n = true → (∀ i, 0 ≤ i < n → m' !! (b + i) = m !! (a + i)) → fv m' T b f = fv m T a f.
Proof.
  unfold field_in, fv. destruct (field_at T f) as [[o k]|]; [|done]. intros [Ho Hn]%andb_true_iff Hx. rewrite Z.leb_le in Ho, Hn.
  rewrite (read_bytes_copy m m' (a + o) (b + o)); [done|]. intros i Hi. rewrite <-!Z.add_assoc. apply Hx. lia.
Qed.
End bytes.

Section read.
Context {K : Type} `{!Kernel K} (fs : service_functions) `{!ServiceKernel K fs}.
Variables (app tab stack : Z) (α : string → Z) (dns tcp udp : Z).
Implicit Types (w : world K) (m : gmap Z byte).

Abbreviation local := (span stack net_room).
Abbreviation fr := (net_frame_at stack dns tcp udp).
Abbreviation hosted := (host fs app tab stack net_room α).
Abbreviation net := (α "network.table").

Lemma room_ok : 520 ≤ net_room.
Proof. vm_compute. discriminate. Qed.

(** The application, with its table of the network. *)
Record net_host m : Prop := {
  nh_host : hosted m;
  nh_net : net ≠ 0 → mapped m net 288 ∧ avoids local net 288
}.

Lemma net_confined m m' : net_host m → confined local m m' → net_host m'.
Proof.
  intros [Hh Hn] Hc. split; [by eapply host_confined|]. intros Hne. destruct (Hn Hne). split; [by eapply confined_mapped|done].
Qed.

(** A store beside all of that. *)
Definition outside (a n : Z) : Prop :=
  avoids (span a n) stack net_room ∧ avoids (span a n) app (sizeof R4App_t) ∧ (tab ≠ 0 → avoids (span a n) tab 1264) ∧
  (net ≠ 0 → avoids (span a n) net 288).

Lemma net_outside m m' a n : net_host m → outside a n → changed m m' a n → net_host m'.
Proof.
  intros [Hh Hn] (_ & H1 & H2 & H3) Hc. assert (confined (span a n) m m') as Hcf by (eapply confined_changed; [exact Hc|by intros x]).
  split; [by eapply host_kept|]. intros Hne. destruct (Hn Hne). split; [by eapply confined_mapped|done].
Qed.

(** The facade of the network at [p], possibly as part of a socket. *)
Definition net_at m (p : Z) : Prop := p ≠ 0 ∧ struct_at m R4Network_t p (λ _, app) ∧ avoids local p 8.

Lemma net_at_confined m m' p : net_at m p → confined local m m' → net_at m' p.
Proof. intros (H0 & Hs & Ha) Hc. split_and!; [done|by eapply confined_struct|done]. Qed.

Lemma net_at_socket m T p σ :
  field_at T "network.app" = Some (0, 8%nat) → p ≠ 0 → struct_at m T p σ → σ "network.app" = app → 8 ≤ sizeof T → avoids local p (sizeof T) →
  net_at m p.
Proof.
  intros Hf H0 [Hm Hv] He Hsz Ha. split_and!; [done| |intros x Hx; apply Ha; unfold span in *; lia].
  split; [eapply mapped_sub; [exact Hm|lia|change (sizeof R4Network_t) with 8; lia]|]. intros f [o k] Hf'. pose proof (field_scalar _ _ _ _ Hf') as [<-|[]].
  rewrite <-He, <-(Hv _ _ Hf). unfold fv. rewrite Hf. by change (field_at R4Network_t "app") with (Some (0, 8%nat)).
Qed.

(** ** A call *)

Lemma available_run w network :
  net_host (mem w) → net_at (mem w) network →
  ∃ b w', r4_network_available network stack w = Some (b, w') ∧ confined local (mem w) (mem w').
Proof.
  intros [Hh Hn] (H0 & Hs & _). unfold r4_network_available, network_app, r4_app_services. rewrite (proj2 (Z.eqb_neq _ _) H0).
  field_get Hs. cbv beta. destruct (facade_put _ _ _ _ _ _ room_ok w Hh) as (m1 & Hr & Hc & Hh1 & Hf). rewrite (mbind_run _ _ _ _ _ Hr).
  clear Hr. set (w1 := World m1 (kern w)). destruct (_ =? 0); [by exists false, w1|].
  pose proof (ho_struct _ _ _ _ _ _ _ Hh1) as Ha. rewrite (mbind_run _ _ _ _ _ (struct_get w1 R4App_t app α "network.table" _ _ eq_refl eq_refl Ha)).
  destruct (Z.eqb_spec net 0) as [|Hne]; [by exists false, w1|]. destruct (Hn Hne) as [Hm _].
  rewrite (mbind_run _ _ _ _ _ (get_run w1 R4XStartR4Net "tcp_connect" net 288 (confined_mapped _ _ _ _ _ Hc Hm) eq_refl)).
  destruct (_ =? 0); [by exists false, w1|]. destruct (facade_available _ _ _ _ _ _ w1 Hh1 Hf) as (b & Hb & _). rewrite Hb. by exists b, w1.
Qed.

Lemma service_call_run w network name op request len o capacity timeout :
  net_host (mem w) → net_at (mem w) network → 520 ≤ o → o + capacity ≤ net_room →
  ∃ result w', r4_network_service_call network name op request len (stack + o) capacity timeout (frame_at stack) w = Some (result, w') ∧
    confined local (mem w) (mem w') ∧ (call_kind result = R4_SERVICE_CALL_RESPONSE → 0 ≤ call_bytes result ≤ capacity).
Proof.
  intros Hn Hp Ho Hcap. unfold r4_network_service_call. cbn [frame_at fr_services fr_connection fr_state fr_header].
  destruct (available_run w network Hn Hp) as (b & w1 & Hr1 & Hc1). rewrite (mbind_run _ _ _ _ _ Hr1). clear Hr1.
  destruct (negb b); [eexists _, w1; split; [reflexivity|]; split; [exact Hc1|intros [=]]|].
  pose proof (net_confined _ _ Hn Hc1) as Hn1. pose proof (net_at_confined _ _ _ Hp Hc1) as (_ & Hs1 & _). field_get Hs1. cbv beta.
  destruct (frame_open_run _ _ _ _ _ _ room_ok w1 name (nh_host _ Hn1)) as (raw & w2 & Hr2 & Hc2 & Hcon).
  change (ServiceFrame stack (stack + 8) (stack + 240) (stack + 456) (stack + 488)) with (frame_at stack). rewrite (mbind_run _ _ _ _ _ Hr2). clear Hr2.
  assert (confined local (mem w) (mem w2)) as C2 by (by eapply confined_trans).
  destruct (Z.eqb_spec raw R4OS_SERVICE_API_RESULT_OK) as [E|]; cbn [negb]; [|eexists _, w2; split; [reflexivity|]; split; [exact C2|intros [=]]].
  destruct (frame_call_run _ _ _ _ _ _ room_ok w2 op request len (stack + o) capacity timeout (nh_host _ (net_confined _ _ Hn C2)) (Hcon E))
    as (result & w3 & Hr3 & Hc3 & Hh3 & Hcon3 & Hb); [lia|lia|]. rewrite (mbind_run _ _ _ _ _ Hr3). clear Hr3.
  destruct (frame_close_run _ _ _ _ _ _ room_ok w3 Hh3 Hcon3) as (raw' & w4 & Hr4 & Hc4). rewrite (mbind_run _ _ _ _ _ Hr4). clear Hr4.
  assert (confined local (mem w) (mem w4)) as C4 by (eapply confined_trans; [exact C2|by eapply confined_trans]).
  destruct (bool_decide _ && _) eqn:Hbad; eexists _, w4; (split; [reflexivity|]); (split; [exact C4|]); [intros [=]|].
  intros Hk. rewrite bool_decide_eq_true_2 in Hbad by exact Hk. rewrite !andb_true_l, !orb_false_iff in Hbad.
  destruct Hbad as [[[Hle%Z.ltb_ge _] _] _]. lia.
Qed.

(** ** The request and the answer *)

Lemma local_store w o v :
  net_host (mem w) → 520 ≤ o < net_room →
  ∃ m', store 1 (stack + o) v w = Some ((), World m' (kern w)) ∧ changed (mem w) m' (stack + o) 1 ∧ m' !! (stack + o) = Some (z2b v) ∧ net_host m'.
Proof.
  intros Hn Ho. destruct (byte_store w (stack + o) v) as (m' & Hr & Hc & Hb).
  { eapply host_local; [exact (nh_host _ Hn)|unfold net_room in *; lia..]. }
  exists m'. split_and!; [exact Hr|exact Hc|exact Hb|]. eapply net_confined; [exact Hn|]. eapply confined_changed; [exact Hc|].
  intros x Hx. unfold span, net_room in *. lia.
Qed.

(** The request that is at the local variable for it: a handle and a capacity. *)
Definition requested m (raw capacity : Z) : Prop :=
  le_val <$> read_bytes m (stack + 520) 4 = Some raw ∧ le_val <$> read_bytes m (stack + 524) 2 = Some capacity.

Lemma byte_shift v k : 0 ≤ k → z2b (Z.shiftr v k) = z2b (v / 2 ^ k).
Proof. intros Hk. by rewrite Z.shiftr_div_pow2. Qed.

Lemma le_bytes_4 v : le_bytes 4 v = [z2b v; z2b (Z.shiftr v 8); z2b (Z.shiftr v 16); z2b (Z.shiftr v 24)].
Proof. rewrite !byte_shift by lia. cbn [le_bytes]. rewrite !Z.div_div by lia. reflexivity. Qed.

Lemma le_bytes_2 v : le_bytes 2 v = [z2b v; z2b (Z.shiftr v 8)].
Proof. rewrite !byte_shift by lia. reflexivity. Qed.

Lemma request_run w raw capacity :
  net_host (mem w) → is_u32 raw → 0 ≤ capacity < 2 ^ 16 →
  ∃ w', (_ ← r4_net_write_u32 (stack + 520) raw; r4_net_write_u16 (stack + 520 + 4) capacity) w = Some ((), w') ∧
    kern w' = kern w ∧ confined local (mem w) (mem w') ∧ net_host (mem w') ∧ requested (mem w') raw capacity.
Proof.
  intros Hn Hraw Hcap. unfold r4_net_write_u32, r4_net_write_u16.
  destruct (local_store w 520 raw Hn) as (m1 & Hr1 & Hc1 & Hb1 & Hn1); [unfold net_room; lia|].
  destruct (local_store (World m1 (kern w)) 521 (Z.shiftr raw 8) Hn1) as (m2 & Hr2 & Hc2 & Hb2 & Hn2); [unfold net_room; lia|].
  destruct (local_store (World m2 (kern w)) 522 (Z.shiftr raw 16) Hn2) as (m3 & Hr3 & Hc3 & Hb3 & Hn3); [unfold net_room; lia|].
  destruct (local_store (World m3 (kern w)) 523 (Z.shiftr raw 24) Hn3) as (m4 & Hr4 & Hc4 & Hb4 & Hn4); [unfold net_room; lia|].
  destruct (local_store (World m4 (kern w)) 524 capacity Hn4) as (m5 & Hr5 & Hc5 & Hb5 & Hn5); [unfold net_room; lia|].
  destruct (local_store (World m5 (kern w)) 525 (Z.shiftr capacity 8) Hn5) as (m6 & Hr6 & Hc6 & Hb6 & Hn6); [unfold net_room; lia|].
  cbn [mem kern] in *. exists (World m6 (kern w)). rewrite <-!Z.add_assoc.
  change (520 + 1) with 521. change (520 + 2) with 522. change (520 + 3) with 523. change (520 + 4) with 524. change (520 + (4 + 1)) with 525.
  split_and!; [| done | | exact Hn6 |].
  - unfold mbind, m_bind. rewrite Hr1, Hr2, Hr3, Hr4, Hr5. exact Hr6.
  - eapply (confined_changed _ _ _ (stack + 520) 6); [|intros x Hx; unfold span, net_room in *; lia].
    do 5 (eapply changed_trans; [eapply changed_sub; [eassumption|lia|lia]|]). eapply changed_sub; [eassumption|lia|lia].
  - cbn [mem]. assert (m6 !! (stack + 520) = Some (z2b raw) ∧ m6 !! (stack + 521) = Some (z2b (Z.shiftr raw 8)) ∧
      m6 !! (stack + 522) = Some (z2b (Z.shiftr raw 16)) ∧ m6 !! (stack + 523) = Some (z2b (Z.shiftr raw 24)) ∧
      m6 !! (stack + 524) = Some (z2b capacity)) as (E1 & E2 & E3 & E4 & E5).
    { split_and!; rewrite (ch_out _ _ _ _ Hc6) by lia; rewrite ?(ch_out _ _ _ _ Hc5) by lia; rewrite ?(ch_out _ _ _ _ Hc4) by lia;
        rewrite ?(ch_out _ _ _ _ Hc3) by lia; rewrite ?(ch_out _ _ _ _ Hc2) by lia; assumption. }
    assert (bytes_at m6 (stack + 520) (le_bytes 4 raw)) as B1.
    { rewrite le_bytes_4. apply bytes_lookup. intros [|[|[|[|i]]]] Hi; cbn [length] in Hi; [| | | |lia]; rewrite <-Z.add_assoc; assumption. }
    assert (bytes_at m6 (stack + 524) (le_bytes 2 capacity)) as B2.
    { rewrite le_bytes_2. apply bytes_lookup. intros [|[|i]] Hi; cbn [length] in Hi; [| |lia]; rewrite <-Z.add_assoc; assumption. }
    unfold bytes_at in B1, B2. rewrite length_le_bytes in B1, B2. split; [rewrite B1|rewrite B2]; cbn [fmap option_fmap option_map];
      rewrite le_val_le_bytes; f_equal; by apply Z.mod_small.
Qed.

Section answer.
Variable T : ctype.
Hypothesis HT : wire T = true.

Lemma wire_size : 0 ≤ sizeof T ≤ 256.
Proof. unfold wire in HT. rewrite !andb_true_iff, !Z.leb_le in HT. lia. Qed.

Lemma wire_get w p f : In f ["magic"; "version"; "result"; "bytes"; "service_status"; "lifecycle_cause"] → mapped (mem w) p (sizeof T) →
  get T f p w = Some (fv (mem w) T p f, w).
Proof.
  intros Hin Hm. apply (get_run w T f p _ Hm). unfold wire in HT. rewrite !andb_true_iff, forallb_forall in HT. by apply HT.
Qed.

Lemma answer_ok_run w magic version p : mapped (mem w) p (sizeof T) →
  answer_ok T magic version p w = Some (bool_decide (fv (mem w) T p "magic" = magic ∧ fv (mem w) T p "version" = version), w).
Proof.
  intros Hm. unfold answer_ok. rewrite (mbind_run _ _ _ _ _ (wire_get w p "magic" ltac:(cbn; tauto) Hm)).
  destruct (Z.eqb_spec (fv (mem w) T p "magic") magic) as [E|]; cbn [negb].
  - rewrite (mbind_run _ _ _ _ _ (wire_get w p "version" ltac:(cbn; tauto) Hm)). unfold mret, m_ret. do 2 f_equal.
    apply eq_true_iff_eq. rewrite Z.eqb_eq, bool_decide_eq_true. tauto.
  - rewrite bool_decide_eq_false_2; [done|tauto].
Qed.

Lemma classify_run w p : mapped (mem w) p (sizeof T) → let v := fv (mem w) T p in
  classify T p true w = Some (r4_net_classify_socket (v "service_status") (v "lifecycle_cause") (i32 (v "result")) (v "bytes"), w).
Proof.
  intros Hm. unfold classify. by rewrite (mbind_run _ _ _ _ _ (wire_get w p "service_status" ltac:(cbn; tauto) Hm)),
    (mbind_run _ _ _ _ _ (wire_get w p "lifecycle_cause" ltac:(cbn; tauto) Hm)), (mbind_run _ _ _ _ _ (wire_get w p "result" ltac:(cbn; tauto) Hm)),
    (mbind_run _ _ _ _ _ (wire_get w p "bytes" ltac:(cbn; tauto) Hm)).
Qed.

(** The service has answered, in the response at 4616, with a structure of the right kind. *)
Record acceptable m (call : R4ServiceCallResult) (magic version : Z) : Prop := {
  ac_kind : call_kind call = R4_SERVICE_CALL_RESPONSE;
  ac_size : sizeof T ≤ call_bytes call;
  ac_magic : fv m T (stack + 4616) "magic" = magic;
  ac_version : fv m T (stack + 4616) "version" = version
}.

Lemma from_call_response call : kind_is R4_NET_RESULT_OK (r4_net_from_call call) = bool_decide (call_kind call = R4_SERVICE_CALL_RESPONSE).
Proof. unfold r4_net_from_call, kind_is. destruct (call_kind call); try destruct (_ || _); done. Qed.

(** Taking the structure out of the response. *)
Lemma parse_run w :
  net_host (mem w) →
  ∃ m', memcpy (stack + 8712) (stack + 4616) (sizeof T) w = Some ((), World m' (kern w)) ∧ changed (mem w) m' (stack + 8712) (sizeof T) ∧
    ∀ f, In f ["magic"; "version"; "result"; "bytes"; "service_status"; "lifecycle_cause"] → fv m' T (stack + 8712) f = fv (mem w) T (stack + 4616) f.
Proof.
  intros Hn. pose proof wire_size as Hsz. destruct (read_bytes_mapped (mem w) (stack + 4616) (Z.to_nat (sizeof T))) as (l & Hl & Hlen).
  { eapply host_local; [exact (nh_host _ Hn)|unfold net_room; lia..]. }
  destruct (memcpy_run w (stack + 8712) (stack + 4616) l) as (m' & Hr & Hc & Hb).
  { unfold bytes_at. by rewrite Hlen. }
  { rewrite Hlen. eapply host_local; [exact (nh_host _ Hn)|unfold net_room; lia..]. }
  rewrite Hlen, Z2Nat.id in Hr by lia. rewrite Hlen, Z2Nat.id in Hc by lia. exists m'. split_and!; [exact Hr|exact Hc|].
  intros f Hin. apply (fv_copy _ _ _ _ _ _ (sizeof T)).
  - unfold wire in HT. rewrite !andb_true_iff, forallb_forall in HT. by apply HT.
  - intros i Hi. rewrite bytes_lookup in Hb. specialize (Hb (Z.to_nat i) ltac:(lia)). rewrite Z2Nat.id in Hb by lia.
    rewrite Hb. symmetry. rewrite <-(read_bytes_lookup _ _ _ _ (Z.to_nat i) Hl ltac:(lia)). by rewrite Z2Nat.id by lia.
Qed.

(** The call that a read makes, for the capacity [c]: from a world in which only local
    variables are new and the request has the handle and the capacity. *)
Definition exchanged w (Sock : ctype) (name op socket c read_max : Z) (timeout : R4Timeout) w2 call w3 : Prop :=
  kern w2 = kern w ∧ confined local (mem w) (mem w2) ∧ requested (mem w2) (fv (mem w) Sock socket "raw") c ∧
  r4_network_service_call socket name op (stack + 520) 6 (stack + 4616) (sizeof T + read_max) timeout (frame_at stack) w2 = Some (call, w3).

Lemma read_exchange_run w magic version read_max Sock σ name op socket capacity timeout :
  net_host (mem w) → net_at (mem w) socket → struct_at (mem w) Sock socket σ → fields_fit Sock = true → field_at Sock "raw" = Some (8, 4%nat) →
  sizeof T + read_max ≤ 4096 → 0 ≤ capacity < 2 ^ 16 →
  ∃ w2 call w3 received early w', exchanged w Sock name op socket capacity read_max timeout w2 call w3 ∧
    read_exchange T magic version read_max Sock name op socket capacity timeout fr w = Some ((received, early), w') ∧
    confined local (mem w) (mem w') ∧
    match early with
    | Some r => not_served r ∧ ¬ acceptable (mem w3) call magic version
    | None => acceptable (mem w3) call magic version ∧ received = call_bytes call ∧ call_bytes call ≤ sizeof T + read_max ∧
        changed (mem w3) (mem w') (stack + 8712) (sizeof T) ∧
        ∀ f, In f ["magic"; "version"; "result"; "bytes"; "service_status"; "lifecycle_cause"] → fv (mem w') T (stack + 8712) f = fv (mem w3) T (stack + 4616) f
    end.
Proof.
  intros Hn Hp Hs Hfit Hraw Hmax Hcap. pose proof wire_size as Hsz. unfold read_exchange. cbn [net_frame_at nf_request nf_response nf_call nf_parsed].
  rewrite (mbind_run _ _ _ _ _ (struct_get w Sock socket σ "raw" 8 4%nat Hfit Hraw Hs)). unfold exchanged. rewrite (sa_value _ _ _ _ Hs _ _ Hraw).
  destruct (request_run w (σ "raw") capacity Hn (struct_range _ _ _ _ "raw" 8 4%nat Hraw Hs) Hcap) as (w2 & Hr2 & Hk2 & C2 & Hn2 & Hreq).
  rewrite (mbind2_run _ _ _ _ _ _ Hr2). clear Hr2. exists w2.
  destruct (service_call_run w2 socket name op (stack + 520) 6 4616 (sizeof T + read_max) timeout Hn2 (net_at_confined _ _ _ Hp C2))
    as (call & w3 & Hr3 & Hc3 & Hb); [lia|unfold net_room; lia|]. rewrite (mbind_run _ _ _ _ _ Hr3). exists call, w3.
  assert (confined local (mem w) (mem w3)) as C3 by (by eapply confined_trans). pose proof (net_confined _ _ Hn C3) as Hn3.
  rewrite from_call_response. destruct (bool_decide_reflect (call_kind call = R4_SERVICE_CALL_RESPONSE)) as [Hk|Hk]; cbn [negb].
  2: { eexists _, _, w3. split; [done|]. split; [reflexivity|]. split; [exact C3|]. split; [|by intros [? _ _ _]].
       apply from_call_not_served. rewrite from_call_response. by apply bool_decide_eq_false_2. }
  destruct (Z.ltb_spec (call_bytes call) (sizeof T)).
  { eexists _, _, w3. split; [done|]. split; [reflexivity|]. split; [exact C3|]. split; [by vm_compute|]. intros [_ ? _ _]. lia. }
  destruct (parse_run w3 Hn3) as (m4 & Hr4 & Hc4 & Hf4). rewrite (mbind_run _ _ _ _ _ Hr4). clear Hr4.
  assert (confined local (mem w3) m4) as C4. { eapply confined_changed; [exact Hc4|]. intros x Hx. unfold span, net_room in *. lia. }
  assert (mapped m4 (stack + 8712) (sizeof T)) as Hm4.
  { eapply host_local; [exact (nh_host _ (net_confined _ _ Hn3 C4))|unfold net_room; lia..]. }
  rewrite (mbind_run _ _ _ _ _ (answer_ok_run (World m4 (kern w3)) magic version (stack + 8712) Hm4)). cbn [mem].
  rewrite !Hf4 by (cbn; tauto). eexists _, _, _. split; [done|]. split; [reflexivity|]. split; [by eapply confined_trans|].
  case_bool_decide as Hok; [|split; [by vm_compute|intros [_ _ ? ?]; by apply Hok]].
  specialize (Hb Hk). split_and!; [split; tauto|reflexivity|lia|exact Hc4|exact Hf4].
Qed.

(** The bytes behind the answer. *)
Lemma take_bytes_run w out capacity received read_max :
  net_host (mem w) → capacity ≤ read_max → sizeof T + read_max ≤ 4096 →
  (capacity ≠ 0 → mapped (mem w) out capacity ∧ avoids local out capacity) →
  let bytes := fv (mem w) T (stack + 8712) "bytes" in
  ∃ bad w', take_bytes T out capacity received fr w = Some ((bytes, bad), w') ∧
    match bad with
    | Some r => r = net_invalid ∧ w' = w ∧ ¬ (bytes ≤ capacity ∧ sizeof T + bytes ≤ received)
    | None => 0 ≤ bytes ≤ capacity ∧ sizeof T + bytes ≤ received ∧ changed (mem w) (mem w') out bytes ∧ kern w' = kern w ∧
        read_bytes (mem w') out (Z.to_nat bytes) = read_bytes (mem w) (stack + 4616 + sizeof T) (Z.to_nat bytes)
    end.
Proof.
  intros Hn Hcap Hmax Hout. pose proof wire_size as Hsz. unfold take_bytes. cbn [net_frame_at nf_response nf_parsed].
  assert (mapped (mem w) (stack + 8712) (sizeof T)) as Hm by (eapply host_local; [exact (nh_host _ Hn)|unfold net_room; lia..]).
  rewrite (mbind_run _ _ _ _ _ (wire_get w _ "bytes" ltac:(cbn; tauto) Hm)). pose proof (fv_nonneg (mem w) T (stack + 8712) "bytes") as H0.
  cbv zeta. set (n := fv _ T _ "bytes") in *. destruct (Z.ltb_spec capacity n); [eexists _, w; split; [reflexivity|]; split_and!; [done..|lia]|].
  destruct (Z.ltb_spec received (sizeof T + n)); cbn [orb]; [eexists _, w; split; [reflexivity|]; split_and!; [done..|lia]|].
  destruct (read_bytes_mapped (mem w) (stack + 4616 + sizeof T) (Z.to_nat n)) as (l & Hl & Hlen).
  { eapply host_local; [exact (nh_host _ Hn)|unfold net_room; lia..]. }
  assert (bytes_at (mem w) (stack + 4616 + sizeof T) l) as Hb by (unfold bytes_at; by rewrite Hlen).
  assert (avoids (span out (Z.of_nat (length l))) (stack + 4616 + sizeof T) (Z.of_nat (length l))) as Hav.
  { intros x Hx Hy. destruct (decide (capacity = 0)); [unfold span in *; lia|]. destruct (Hout ltac:(done)) as [_ Ha].
    apply (Ha x); unfold span, net_room in *; lia. }
  destruct (copy_loop_run w out (stack + 4616 + sizeof T) l Hb) as (m' & Hr & Hc & Hb').
  { rewrite Hlen. intros x Hx. destruct (decide (capacity = 0)); [lia|]. apply (proj1 (Hout ltac:(done))). lia. }
  { exact Hav. }
  rewrite <-Hlen, (mbind_run _ _ _ _ _ Hr). eexists None, _. split; [reflexivity|].
  assert (Z.of_nat (length l) = n) as El by lia. rewrite El in Hc. split_and!; [lia..|exact Hc|reflexivity|]. cbn [mem]. etransitivity; [exact Hb'|symmetry; exact Hb].
Qed.
End answer.

(** ** Receiving *)

(** A socket of the application, beside the local variables. *)
Record socket_at m (Sock : ctype) (socket : Z) : Prop := {
  so_null : socket ≠ 0;
  so_mapped : mapped m socket (sizeof Sock);
  so_app : fv m Sock socket "network.app" = app;
  so_apart : avoids local socket (sizeof Sock)
}.

(** The caller's buffer, if there is one, beside the local variables and the socket. *)
Definition buffer_at m (Sock : ctype) (socket out capacity : Z) : Prop :=
  0 ≤ capacity ∧ (out ≠ 0 → mapped m out capacity ∧ avoids local out capacity ∧ avoids (span out capacity) socket (sizeof Sock)).

(** The memory that a read has written, and the socket's handle. *)
Record moved w (Sock : ctype) (gone : R4NetResult → bool) (extra : Z → Prop) (socket out capacity : Z) (result : R4NetResult) w' : Prop := {
  mv_bytes : 0 ≤ net_bytes result ≤ capacity;
  mv_memory : confined (λ x, local x ∨ span out (net_bytes result) x ∨ span (socket + 8) 4 x ∨ extra x) (mem w) (mem w');
  mv_socket : fv (mem w') Sock socket "raw" = if gone result then 0 else fv (mem w) Sock socket "raw"
}.

(** What an answer with the fields [v], of [arrived] bytes in the memory [m], comes to when
    at most [c] are wanted: the handle [raw] becomes [raw'], and all the bytes of the
    answer are in the caller's buffer, or none. *)
Record judged (T : ctype) (causes : list Z) (v : string → Z) m (c arrived out raw raw' : Z) (result : R4NetResult) m' : Prop := {
  jd_socket : raw' = if ended causes (v "service_status") (v "lifecycle_cause") then 0 else raw;
  jd_ok : net_kind result = R4_NET_RESULT_OK ↔
    not_yet (v "service_status") (v "lifecycle_cause") = false ∧ (v "lifecycle_cause" ∉ tcp_causes) ∧ i32 (v "result") = 0 ∧
    v "bytes" ≤ c ∧ sizeof T + v "bytes" ≤ arrived;
  jd_bytes : net_kind result = R4_NET_RESULT_OK → net_bytes result = v "bytes" ∧
    read_bytes m' out (Z.to_nat (v "bytes")) = read_bytes m (stack + 4616 + sizeof T) (Z.to_nat (v "bytes"));
  jd_none : net_kind result ≠ R4_NET_RESULT_OK → net_bytes result = 0
}.

(** The whole of a read: refused without a call; or one call with no answer; or one with an answer. *)
Inductive outcome (T : ctype) (magic version read_max : Z) (causes : list Z) (Sock : ctype) (name op : Z) w (socket out capacity : Z)
    (timeout : R4Timeout) (result : R4NetResult) w' : Prop :=
  | outcome_refused :
      fv (mem w) Sock socket "raw" = 0 ∨ capacity ≠ 0 ∧ out = 0 →
      net_kind result ≠ R4_NET_RESULT_OK → net_bytes result = 0 → kern w' = kern w →
      fv (mem w') Sock socket "raw" = fv (mem w) Sock socket "raw" →
      outcome T magic version read_max causes Sock name op w socket out capacity timeout result w'
  | outcome_unanswered w2 call w3 :
      exchanged T w Sock name op socket (capacity `min` read_max) read_max timeout w2 call w3 →
      ¬ acceptable T (mem w3) call magic version →
      net_kind result ≠ R4_NET_RESULT_OK → net_bytes result = 0 →
      fv (mem w') Sock socket "raw" = fv (mem w) Sock socket "raw" →
      outcome T magic version read_max causes Sock name op w socket out capacity timeout result w'
  | outcome_answered w2 call w3 :
      exchanged T w Sock name op socket (capacity `min` read_max) read_max timeout w2 call w3 →
      acceptable T (mem w3) call magic version →
      judged T causes (fv (mem w3) T (stack + 4616)) (mem w3) (capacity `min` read_max) (call_bytes call) out
        (fv (mem w) Sock socket "raw") (fv (mem w') Sock socket "raw") result (mem w') →
      outcome T magic version read_max causes Sock name op w socket out capacity timeout result w'.

Lemma judged_ext T causes v v' m0 m c arrived out raw raw' result m' :
  (∀ f, In f ["magic"; "version"; "result"; "bytes"; "service_status"; "lifecycle_cause"] → v' f = v f) →
  (sizeof T + v "bytes" ≤ arrived →
   read_bytes m0 (stack + 4616 + sizeof T) (Z.to_nat (v "bytes")) = read_bytes m (stack + 4616 + sizeof T) (Z.to_nat (v "bytes"))) →
  judged T causes v' m0 c arrived out raw raw' result m' → judged T causes v m c arrived out raw raw' result m'.
Proof.
  intros Hv Hm [H1 H2 H3 H4]. rewrite (Hv "service_status"), (Hv "lifecycle_cause") in H1 by (cbn; tauto).
  rewrite (Hv "service_status"), (Hv "lifecycle_cause"), (Hv "result"), (Hv "bytes") in H2 by (cbn; tauto).
  rewrite (Hv "bytes") in H3 by (cbn; tauto). split; [done|done| |done]. intros E. destruct (H3 E) as [G1 G2]. split; [done|].
  rewrite G2. apply Hm. apply H2 in E. tauto.
Qed.

Definition sock (Sock : ctype) : bool :=
  fields_fit Sock && bool_decide (field_at Sock "raw" = Some (8, 4%nat)) && bool_decide (field_at Sock "network.app" = Some (0, 8%nat))
  && (12 <=? sizeof Sock).

Section socket.
Variables (Sock : ctype) (gone : R4NetResult → bool) (extra : Z → Prop) (socket out capacity : Z).
Hypothesis HS : sock Sock = true.
Abbreviation got w := (moved w Sock gone extra socket out capacity).

Lemma sock_fit : fields_fit Sock = true ∧ field_at Sock "raw" = Some (8, 4%nat) ∧ field_at Sock "network.app" = Some (0, 8%nat) ∧ 12 ≤ sizeof Sock.
Proof. unfold sock in HS. rewrite !andb_true_iff, !bool_decide_eq_true, Z.leb_le in HS. destruct HS as [[[H1 H2] H3] H4]. exact (conj H1 (conj H2 (conj H3 H4))). Qed.

Lemma sock_struct m : socket_at m Sock socket → struct_at m Sock socket (fv m Sock socket).
Proof. intros Hs. apply struct_own, Hs. Qed.

Lemma sock_net m : socket_at m Sock socket → net_at m socket.
Proof.
  intros Hs. destruct sock_fit as (Hf & _ & Ha & Hn). eapply net_at_socket; [exact Ha|apply Hs|by apply sock_struct|apply Hs|lia|apply Hs].
Qed.

Lemma sock_keeps P m m' : confined P m m' → avoids P socket (sizeof Sock) → socket_at m Sock socket →
  socket_at m' Sock socket ∧ fv m' Sock socket "raw" = fv m Sock socket "raw".
Proof.
  intros Hc Hp Hs. destruct sock_fit as (Hf & Hr & Ha & _). pose proof (confined_struct _ _ _ _ _ _ Hc Hf Hp (sock_struct _ Hs)) as Hs'.
  split; [|by eapply sa_value]. split; [apply Hs|apply Hs'|rewrite (sa_value _ _ _ _ Hs' _ _ Ha); apply Hs|apply Hs].
Qed.

Lemma sock_valid_run w : net_host (mem w) → socket_at (mem w) Sock socket →
  socket_valid Sock "raw" socket w = Some (negb (fv (mem w) Sock socket "raw" =? 0), w).
Proof.
  intros Hn Hs. destruct sock_fit as (Hf & Hr & Ha & _). unfold socket_valid. rewrite (proj2 (Z.eqb_neq _ _) (so_null _ _ _ Hs)).
  rewrite (mbind_run _ _ _ _ _ (struct_get w Sock socket _ _ _ _ Hf Ha (sock_struct _ Hs))), (so_app _ _ _ Hs).
  rewrite (proj2 (Z.eqb_neq _ _) (proj1 (ho_app _ _ _ _ _ _ _ (nh_host _ Hn)))).
  by rewrite (mbind_run _ _ _ _ _ (struct_get w Sock socket _ _ _ _ Hf Hr (sock_struct _ Hs))).
Qed.

(** A result without bytes that leaves the socket alone. *)
Lemma received_none w r w' :
  socket_at (mem w) Sock socket → 0 ≤ capacity → confined (λ x, local x ∨ extra x) (mem w) (mem w') → avoids extra socket (sizeof Sock) →
  net_bytes r = 0 → gone r = false → got w r w'.
Proof.
  intros Hs Hcap Hc Hx Hb Hg. destruct sock_fit as (Hf & Hr & _ & _). split; rewrite ?Hb, ?Hg; [lia| |].
  - eapply confined_weaken; [|exact Hc]. intros x [Hl|He]; [by left|by right; right; right].
  - eapply (confined_fv _ _ _ _ _ _ _ Hc); [exact (proj1 (fits_in _ _ _ _ Hf Hr))|].
    intros x Hsx [Hl|He]; [by apply (so_apart _ _ _ Hs x)|by apply (Hx x)].
Qed.

(** The socket is not used again. *)
Lemma received_gone w r :
  socket_at (mem w) Sock socket → 0 ≤ capacity → net_bytes r = 0 →
  ∃ w', (if gone r then put Sock "raw" socket 0 else mret ()) w = Some ((), w') ∧ changed (mem w) (mem w') (socket + 8) 4 ∧ got w r w'.
Proof.
  intros Hs Hcap Hb. destruct sock_fit as (Hf & Hr & _ & Hn). destruct (gone r) eqn:Hg.
  2: { exists w. split; [done|]. split; [by split|]. split; rewrite ?Hb, ?Hg; [lia|apply confined_refl|done]. }
  destruct (struct_put w Sock socket _ "raw" 0 8 4%nat Hf Hr (sock_struct _ Hs) ltac:(lia)) as (m' & Hp & _ & Hc & Hs').
  eexists. split; [exact Hp|]. split; [exact Hc|]. split; rewrite ?Hb, ?Hg; [lia| |].
  - eapply confined_changed; [exact Hc|]. intros x Hx. right. right. left. exact Hx.
  - cbn [mem]. by rewrite (sa_value _ _ _ _ Hs' _ _ Hr).
Qed.

(** First other memory changes. *)
Lemma received_after w w1 r w' :
  confined (λ x, local x ∨ extra x) (mem w) (mem w1) → avoids extra socket (sizeof Sock) → socket_at (mem w) Sock socket → got w1 r w' → got w r w'.
Proof.
  intros Hc Hx Hs [Hb Hm Hsk].
  destruct (sock_keeps _ _ _ Hc) as [_ E]; [intros x Hsx [Hl|He]; [by apply (so_apart _ _ _ Hs x)|by apply (Hx x)]|exact Hs|].
  split; [done| |by rewrite <-E]. eapply confined_trans; [|exact Hm]. eapply confined_weaken; [|exact Hc].
  intros x [Hl|He]; [by left|by right; right; right].
Qed.

(** Bytes were copied. *)
Lemma received_bytes w r w' n :
  socket_at (mem w) Sock socket → net_bytes r = n → gone r = false → 0 ≤ n ≤ capacity → changed (mem w) (mem w') out n →
  avoids (span out n) socket (sizeof Sock) → got w r w'.
Proof.
  intros Hs Hb Hg Hn Hc Ha. destruct sock_fit as (Hf & Hr & _ & _). split; rewrite ?Hb, ?Hg; [done| |].
  - eapply confined_changed; [exact Hc|]. intros x Hx. right. left. exact Hx.
  - eapply fv_ext; [exact (proj1 (fits_in _ _ _ _ Hf Hr))|]. intros x Hx. apply (ch_out _ _ _ _ Hc). intros Hy.
    by apply (Ha x Hx).
Qed.
End socket.

Lemma buffer_confined m m' Sock socket out capacity :
  confined local m m' → buffer_at m Sock socket out capacity → buffer_at m' Sock socket out capacity.
Proof. intros Hc [H0 Hb]. split; [done|]. intros Hne. destruct (Hb Hne) as (? & ?). split; [by eapply confined_mapped|done]. Qed.

(** The capacity that is asked for. *)
Lemma capped_le capacity max : let c := if max <? capacity then max else capacity in c ≤ capacity ∧ c ≤ max ∧ (0 ≤ capacity → 0 ≤ max → 0 ≤ c).
Proof. cbv zeta. destruct (Z.ltb_spec max capacity); lia. Qed.

Lemma buffer_taken m Sock socket out capacity c :
  buffer_at m Sock socket out capacity → c ≤ capacity → negb (capacity =? 0) && (out =? 0) = false → c ≠ 0 → 0 ≤ c →
  mapped m out c ∧ avoids local out c ∧ avoids (span out c) socket (sizeof Sock).
Proof.
  intros [H0 Hb] Hc Hnull Hne Hc0. destruct (Z.eqb_spec out 0) as [->|Ho].
  { rewrite andb_true_r in Hnull. apply negb_false_iff, Z.eqb_eq in Hnull. lia. }
  destruct (Hb Ho) as (Hm & Ha & Hs). split_and!.
  - eapply mapped_sub; [exact Hm|lia|lia].
  - intros x Hx. apply Ha. unfold span in *. lia.
  - intros x Hx Hy. apply (Hs x Hx). unfold span in *. lia.
Qed.

(** The answer taken out of the response by [classify] and, if it says so, with its bytes. *)
Lemma judged_ok T causes m c arrived out raw r m' :
  kind_is R4_NET_RESULT_OK r = true →
  (let v := fv m T (stack + 8712) in r = r4_net_classify_socket (v "service_status") (v "lifecycle_cause") (i32 (v "result")) (v "bytes")) →
  fv m T (stack + 8712) "bytes" ≤ c → sizeof T + fv m T (stack + 8712) "bytes" ≤ arrived → (∀ z, z ∈ causes → z ∈ tcp_causes) →
  read_bytes m' out (Z.to_nat (fv m T (stack + 8712) "bytes"))
    = read_bytes m (stack + 4616 + sizeof T) (Z.to_nat (fv m T (stack + 8712) "bytes")) →
  judged T causes (fv m T (stack + 8712)) m c arrived out raw raw r m'.
Proof.
  intros Hk Hr H1 H2 Hsub Hct. cbv zeta in Hr. set (v := fv _ T _) in *.
  destruct (classify_spec (v "service_status") (v "lifecycle_cause") (i32 (v "result")) (v "bytes")) as (_ & _ & Hok). rewrite <-Hr, Hk in Hok.
  symmetry in Hok. rewrite !andb_true_iff, !negb_true_iff, bool_decide_eq_false, Z.eqb_eq in Hok. destruct Hok as [[N1 N2] N3].
  assert (net_kind r = R4_NET_RESULT_OK) as Ek by (revert Hk; unfold kind_is; by rewrite bool_decide_eq_true). split.
  - unfold ended. rewrite N1, bool_decide_eq_false_2; [done|]. by intros ?%Hsub.
  - by split.
  - intros _. split; [|done]. pose proof (classify_bytes (v "service_status") (v "lifecycle_cause") (i32 (v "result")) (v "bytes")) as Hb.
    cbv zeta in Hb. by rewrite <-Hr, Hk in Hb.
  - by intros [].
Qed.

Lemma judged_bad T causes m m' c arrived out raw raw' r r' :
  (let v := fv m T (stack + 8712) in r = r4_net_classify_socket (v "service_status") (v "lifecycle_cause") (i32 (v "result")) (v "bytes")) →
  raw' = (if ended causes (fv m T (stack + 8712) "service_status") (fv m T (stack + 8712) "lifecycle_cause") then 0 else raw) →
  (kind_is R4_NET_RESULT_OK r = true → ¬ (fv m T (stack + 8712) "bytes" ≤ c ∧ sizeof T + fv m T (stack + 8712) "bytes" ≤ arrived)) →
  net_kind r' ≠ R4_NET_RESULT_OK → net_bytes r' = 0 →
  judged T causes (fv m T (stack + 8712)) m c arrived out raw raw' r' m'.
Proof.
  intros Hr Hraw Hno Hk Hb. cbv zeta in Hr. set (v := fv _ T _) in *.
  destruct (classify_spec (v "service_status") (v "lifecycle_cause") (i32 (v "result")) (v "bytes")) as (_ & _ & Hok). rewrite <-Hr in Hok.
  split; [done| |done|done]. split; [done|]. intros (N1 & N2 & N3 & N4 & N5). exfalso. apply Hno; [|done].
  rewrite Hok, N1, N3, bool_decide_eq_false_2 by done. reflexivity.
Qed.

Lemma kind_not r : kind_is R4_NET_RESULT_OK r = false → net_kind r ≠ R4_NET_RESULT_OK.
Proof. unfold kind_is. by rewrite bool_decide_eq_false. Qed.

Section tcp.
Variables (w : world K) (socket out capacity : Z).
Hypotheses (Hn : net_host (mem w)) (Hs : socket_at (mem w) R4TcpSocket socket) (Hb : buffer_at (mem w) R4TcpSocket socket out capacity).
Abbreviation got := (moved w R4TcpSocket tcp_gone (λ _, False) socket out capacity).
Abbreviation TCP := R4NetServiceTcpResult.

Lemma tcp_sock : sock R4TcpSocket = true.
Proof. vm_compute. reflexivity. Qed.
Lemma tcp_wire : wire TCP = true.
Proof. vm_compute. reflexivity. Qed.

Lemma tcp_none r w' : confined local (mem w) (mem w') → net_bytes r = 0 → tcp_gone r = false → got r w'.
Proof.
  intros Hc. apply received_none; [exact tcp_sock|exact Hs|apply Hb| |intros x _ []]. eapply confined_weaken; [|exact Hc]. intros x Hx. by left.
Qed.

(** What comes after the call. *)
Lemma tcp_answer w1 c arrived :
  confined local (mem w) (mem w1) → c ≤ capacity → 0 ≤ c ≤ R4OS_NET_SERVICE_TCP_READ_MAX → negb (capacity =? 0) && (out =? 0) = false →
  ∃ result w', tcp_received socket out c arrived fr w1 = Some (result, w') ∧ got result w' ∧
    judged TCP tcp_causes (fv (mem w1) TCP (stack + 8712)) (mem w1) c arrived out
      (fv (mem w) R4TcpSocket socket "raw") (fv (mem w') R4TcpSocket socket "raw") result (mem w').
Proof.
  unfold tcp_received. intros Hc Hcap Hc0 Hnull. assert (confined (λ x, local x ∨ False) (mem w) (mem w1)) as Hc' by (eapply confined_weaken; [|exact Hc]; intros x Hx; by left).
  pose proof (net_confined _ _ Hn Hc) as Hn1. destruct (sock_keeps _ _ tcp_sock _ _ _ Hc (so_apart _ _ _ Hs) Hs) as [Hs1 Eraw].
  cbn [net_frame_at nf_parsed]. rewrite (mbind_run _ _ _ _ _ (classify_run _ tcp_wire w1 (stack + 8712)
    ltac:(eapply host_local; [exact (nh_host _ Hn1)|change (sizeof TCP) with 156; unfold net_room; lia..]))).
  set (v := fv (mem w1) TCP (stack + 8712)).
  destruct (classify_spec (v "service_status") (v "lifecycle_cause") (i32 (v "result")) (v "bytes")) as (Hgone & _ & _).
  pose proof (classify_bytes (v "service_status") (v "lifecycle_cause") (i32 (v "result")) (v "bytes")) as Hbytes. cbv zeta in Hbytes.
  remember (r4_net_classify_socket (v "service_status") (v "lifecycle_cause") (i32 (v "result")) (v "bytes")) as r eqn:Er.
  destruct (kind_is R4_NET_RESULT_OK r) eqn:Hk.
  - assert (tcp_gone r = false) as Hg. { revert Hk. unfold tcp_gone, kind_is. by destruct (net_kind r). }
    pose proof (buffer_taken _ _ _ _ _ c (buffer_confined _ _ _ _ _ _ Hc Hb) Hcap Hnull) as Hbuf.
    destruct (take_bytes_run _ tcp_wire w1 out c arrived R4OS_NET_SERVICE_TCP_READ_MAX Hn1) as (bad & w2 & Ht & Hbad);
      [lia|vm_compute; discriminate|intros Hne; destruct (Hbuf Hne ltac:(lia)) as (? & ? & _); done|].
    rewrite (mbind_run _ _ _ _ _ Ht). cbv beta iota. eexists _, w2. split; [reflexivity|]. fold v in Hbad. destruct bad as [bad|]; cbn [default].
    + destruct Hbad as (-> & -> & Hno). split; [by apply tcp_none|]. eapply judged_bad; [exact Er| |done|done|done]. fold v. by rewrite <-Hgone, Hg, Eraw.
    + destruct Hbad as (Hle & Hlen & Hch & _ & Hct).
      assert (avoids (span out (v "bytes")) socket (sizeof R4TcpSocket)) as Hav.
      { intros x Hx Hy. destruct (decide (c = 0)); [unfold span in Hy; lia|]. destruct (Hbuf ltac:(done) ltac:(lia)) as (_ & _ & Ha).
        apply (Ha x Hx). unfold span in *. lia. }
      assert (got r w2) as Hgot.
      { eapply (received_after _ _ _ _ _ _ tcp_sock w w1); [exact Hc'|intros x _ []|exact Hs|].
        eapply (received_bytes _ _ _ _ _ _ tcp_sock w1 r w2 (v "bytes")); [exact Hs1|exact Hbytes|exact Hg|lia|exact Hch|exact Hav]. }
      split; [exact Hgot|]. rewrite (mv_socket _ _ _ _ _ _ _ _ _ Hgot), Hg.
      apply judged_ok; [exact Hk|exact Er|apply Hle|exact Hlen|done|exact Hct].
  - destruct (received_gone _ tcp_gone (λ _, False) socket out capacity tcp_sock w1 r Hs1 (proj1 Hb) Hbytes) as (w2 & Hp & Hch & Hg).
    rewrite (mbind_run _ _ _ _ _ Hp). eexists r, w2. split; [reflexivity|].
    split; [apply (received_after _ _ _ _ _ _ tcp_sock w w1); [exact Hc'|intros x _ []|exact Hs|exact Hg]|].
    eapply judged_bad; [exact Er| |by rewrite Hk|by apply kind_not|done]. fold v. by rewrite (mv_socket _ _ _ _ _ _ _ _ _ Hg), Hgone, Eraw.
Qed.

Lemma tcp_read_run timeout :
  ∃ result w', r4_tcp_socket_read socket out capacity timeout fr w = Some (result, w') ∧ got result w' ∧
    outcome TCP R4OS_NET_SERVICE_TCP_RESULT_MAGIC R4OS_NET_SERVICE_TCP_RESULT_VERSION R4OS_NET_SERVICE_TCP_READ_MAX tcp_causes R4TcpSocket
      tcp R4OS_NET_SERVICE_OP_TCP_READ_RESULT w socket out capacity timeout result w'.
Proof.
  unfold r4_tcp_socket_read, r4_tcp_socket_valid. rewrite (mbind_run _ _ _ _ _ (sock_valid_run _ _ tcp_sock w Hn Hs)), negb_involutive.
  assert (∀ code, got (net_failed code) w) as Hfail by (intros code; apply tcp_none; [apply confined_refl|reflexivity|reflexivity]).
  destruct (Z.eqb_spec (fv (mem w) R4TcpSocket socket "raw") 0) as [E0|_].
  { eexists _, w. split; [reflexivity|]. split; [apply Hfail|]. by apply outcome_refused; [left|..]. }
  destruct (negb (capacity =? 0) && (out =? 0)) eqn:Hnull.
  { eexists _, w. split; [reflexivity|]. split; [apply Hfail|]. apply outcome_refused; [right|done..].
    by apply andb_true_iff in Hnull as [?%negb_true_iff%Z.eqb_neq ?%Z.eqb_eq]. }
  destruct (capped_le capacity R4OS_NET_SERVICE_TCP_READ_MAX) as (Hc1 & Hc2 & Hc3). cbv zeta.
  assert ((if R4OS_NET_SERVICE_TCP_READ_MAX <? capacity then R4OS_NET_SERVICE_TCP_READ_MAX else capacity) = capacity `min` R4OS_NET_SERVICE_TCP_READ_MAX) as Ec
    by (destruct (Z.ltb_spec R4OS_NET_SERVICE_TCP_READ_MAX capacity); lia).
  specialize (Hc3 (proj1 Hb) ltac:(vm_compute; discriminate)). rewrite Ec in *. set (c := capacity `min` _) in *.
  assert (0 ≤ c < 2 ^ 16) as Hc16 by (unfold R4OS_NET_SERVICE_TCP_READ_MAX in *; lia).
  destruct (read_exchange_run _ tcp_wire w R4OS_NET_SERVICE_TCP_RESULT_MAGIC R4OS_NET_SERVICE_TCP_RESULT_VERSION R4OS_NET_SERVICE_TCP_READ_MAX
    R4TcpSocket _ (nf_tcpsvc fr) R4OS_NET_SERVICE_OP_TCP_READ_RESULT socket c timeout Hn (sock_net _ _ tcp_sock _ Hs) (sock_struct _ _ _ Hs)
    eq_refl eq_refl ltac:(vm_compute; discriminate) Hc16) as (w2 & call & w3 & arrived & early & w1 & Hex & Hr & Hc & He).
  rewrite (mbind_run _ _ _ _ _ Hr). clear Hr. cbv beta iota. destruct early as [r|].
  - exists r, w1. split; [reflexivity|]. destruct He as ((E1 & E2 & E3 & _) & Hno). assert (got r w1) as Hg by (by apply tcp_none). split; [exact Hg|].
    eapply outcome_unanswered; [exact Hex|exact Hno|by apply kind_not|exact E1|]. rewrite (mv_socket _ _ _ _ _ _ _ _ _ Hg). by rewrite E3.
  - destruct He as (Hac & -> & Hlen & Hch & Hf).
    destruct (tcp_answer w1 c (call_bytes call) Hc Hc1 (conj Hc3 Hc2) Hnull) as (r & w' & Hr & Hg & Hj). exists r, w'. split; [exact Hr|]. split; [exact Hg|].
    eapply outcome_answered; [exact Hex|exact Hac|].
    eapply judged_ext; [exact Hf| |exact Hj]. intros Hin. apply read_bytes_ext. intros x Hx. apply (ch_out _ _ _ _ Hch).
    pose proof (fv_nonneg (mem w3) TCP (stack + 4616) "bytes"). unfold R4OS_NET_SERVICE_TCP_READ_MAX in Hlen. change (sizeof TCP) with 156 in *. lia.
Qed.
End tcp.

(** ** The description of a datagram *)

Lemma fill_address_run w p ip port :
  mapped (mem w) p 8 → mapped (mem w) ip 4 → avoids (span p 8) ip 4 → 0 ≤ port < 2 ^ 16 →
  ∃ m', fill_address p ip port w = Some ((), World m' (kern w)) ∧ changed (mem w) m' p 8 ∧
    read_bytes m' p 4 = read_bytes (mem w) ip 4 ∧ fv m' SocketAddress_t p "port" = port.
Proof.
  intros Hp Hip Ha Hport. unfold fill_address, copy_ipv4. destruct (read_bytes_mapped (mem w) ip 4 Hip) as (l & Hl & Hlen).
  destruct (copy_loop_run w p ip l) as (m1 & Hr1 & Hc1 & Hb1); rewrite ?Hlen in *.
  { unfold bytes_at. by rewrite Hlen. }
  { eapply mapped_sub; [exact Hp|lia|lia]. }
  { intros x Hx Hy. apply (Ha x); unfold span in *; lia. }
  rewrite (mbind_run _ _ _ _ _ Hr1). change (Z.of_nat 4) with 4 in *.
  destruct (put_run (World m1 (kern w)) SocketAddress_t "port" p port 8 4 2%nat) as (m2 & Hr2 & Hc2 & Hv); [by eapply changed_mapped|reflexivity|reflexivity|].
  exists m2. split; [exact Hr2|]. cbn [mem kern] in *. change (Z.of_nat 2) with 2 in *. split_and!.
  - eapply changed_trans; (eapply changed_sub; [eassumption|lia|lia]).
  - rewrite Hl. unfold bytes_at in Hb1. rewrite Hlen in Hb1. rewrite <-Hb1. apply read_bytes_ext. intros x Hx. apply (ch_out _ _ _ _ Hc2). lia.
  - rewrite Hv. by apply Z.mod_small.
Qed.

(** The datagram at [d] has the addresses of the answer. *)
Record described m (d n : Z) : Prop := {
  ds_source : read_bytes m d 4 = read_bytes m (stack + 8740) 4 ∧ fv m SocketAddress_t d "port" = fv m R4NetServiceUdpResult (stack + 8712) "source_port";
  ds_dest : read_bytes m (d + 8) 4 = read_bytes m (stack + 8744) 4 ∧ fv m SocketAddress_t (d + 8) "port" = fv m R4NetServiceUdpResult (stack + 8712) "dest_port";
  ds_bytes : fv m R4Datagram d "bytes" = n
}.

(** Stores beside the local variables. *)
Lemma beside_read m m' a n o k : changed m m' a n → avoids local a n → 0 ≤ o → o + Z.of_nat k ≤ net_room →
  read_bytes m' (stack + o) k = read_bytes m (stack + o) k.
Proof.
  intros Hc Ha Ho Hk. apply read_bytes_ext. intros x Hx. apply (ch_out _ _ _ _ Hc). intros Hy. apply (Ha x Hy). unfold span, net_room in *. lia.
Qed.

Lemma beside_fv m m' a n T o f k : changed m m' a n → avoids local a n → field_in T f k = true → 0 ≤ o → o + k ≤ net_room →
  fv m' T (stack + o) f = fv m T (stack + o) f.
Proof.
  intros Hc Ha Hf Ho Hk. apply (fv_ext _ _ _ _ _ k Hf). intros x Hx. apply (ch_out _ _ _ _ Hc). intros Hy. apply (Ha x Hy). unfold span, net_room in *. lia.
Qed.

(** Storing one address: the fields [ip] and [port] of the answer. *)
Lemma fill_answer_run w d o ip (port : string) q :
  mapped (mem w) stack net_room → mapped (mem w) (d + o) 8 → avoids local (d + o) 8 → 0 ≤ ip → ip + 4 ≤ 128 →
  field_at R4NetServiceUdpResult port = Some (q, 2%nat) →
  ∃ m', (v ← get R4NetServiceUdpResult port (stack + 8712); fill_address (d + o) (stack + 8712 + ip) v) w = Some ((), World m' (kern w)) ∧
    changed (mem w) m' (d + o) 8 ∧ read_bytes m' (d + o) 4 = read_bytes (mem w) (stack + 8712 + ip) 4 ∧
    fv m' SocketAddress_t (d + o) "port" = fv (mem w) R4NetServiceUdpResult (stack + 8712) port.
Proof.
  intros Hn Hd Ha Hi1 Hi2 Hf. assert (mapped (mem w) (stack + 8712) 128) as Hm by (eapply mapped_sub; [exact Hn|unfold net_room; lia..]).
  pose proof (struct_own (mem w) R4NetServiceUdpResult _ Hm) as Hs.
  rewrite (mbind_run _ _ _ _ _ (struct_get w R4NetServiceUdpResult _ _ port q 2%nat eq_refl Hf Hs)). apply fill_address_run; [done| | |].
  - eapply mapped_sub; [exact Hm|lia|lia].
  - intros x Hx Hy. apply (Ha x Hy). unfold span, net_room in *. lia.
  - exact (struct_range _ _ _ _ port q 2%nat Hf Hs).
Qed.

Lemma fill_datagram_run w d n :
  mapped (mem w) stack net_room → mapped (mem w) d 20 → avoids local d 20 → 0 ≤ n < 2 ^ 32 →
  ∃ m', fill_datagram d n fr w = Some ((), World m' (kern w)) ∧ changed (mem w) m' d 20 ∧ described m' d n.
Proof.
  intros Hn Hd Ha Hb. unfold fill_datagram. cbn [net_frame_at nf_parsed].
  assert (∀ o k, 0 ≤ o → o + k ≤ 20 → avoids local (d + o) k) as Hav by (intros o k ? ? x Hx; apply Ha; unfold span in *; lia).
  change (offsetof R4Datagram "source") with 0. change (offsetof R4Datagram "destination") with 8.
  change (offsetof R4NetServiceUdpResult "source_ip") with 28. change (offsetof R4NetServiceUdpResult "dest_ip") with 32.
  destruct (fill_answer_run w d 0 28 "source_port" 36 Hn) as (m1 & Hr1 & Hc1 & Hs1 & Hp1);
    [eapply mapped_sub; [exact Hd|lia|lia]|apply Hav; lia|lia|lia|reflexivity|]. rewrite (mbind2_run _ _ _ _ _ _ Hr1). clear Hr1.
  pose proof (changed_mapped _ _ _ _ _ _ Hc1 Hn) as Hn1.
  destruct (fill_answer_run (World m1 (kern w)) d 8 32 "dest_port" 38 Hn1) as (m2 & Hr2 & Hc2 & Hs2 & Hp2);
    [eapply mapped_sub; [eapply changed_mapped; [exact Hc1|exact Hd]|lia|lia]|apply Hav; lia|lia|lia|reflexivity|]. rewrite (mbind2_run _ _ _ _ _ _ Hr2). clear Hr2.
  destruct (put_run (World m2 (kern w)) R4Datagram "bytes" d n 20 16 4%nat) as (m3 & Hr3 & Hc3 & Hv3);
    [eapply changed_mapped; [exact Hc2|]; by eapply changed_mapped|reflexivity|reflexivity|].
  exists m3. split; [exact Hr3|]. clear Hr3. cbn [mem kern] in *. change (Z.of_nat 4) with 4 in *. rewrite Z.add_0_r in *.
  assert (changed (mem w) m3 d 20) as Hc.
  { eapply changed_trans; [eapply changed_sub; [exact Hc1|lia|lia]|]. eapply changed_trans; eapply changed_sub; [exact Hc2|lia|lia|exact Hc3|lia|lia]. }
  assert (changed m1 m3 (d + 8) 12) as Hc'. { eapply changed_trans; eapply changed_sub; [exact Hc2|lia|lia|exact Hc3|lia|lia]. }
  split; [exact Hc|]. assert (avoids local d 8) as Hav0 by (intros x Hx; apply Ha; unfold span in *; lia). split; [split..|].
  - rewrite (beside_read _ _ _ _ 8740 4 Hc Ha), (read_bytes_ext m1 m3) by (intros; try apply (ch_out _ _ _ _ Hc'); unfold net_room; lia).
    rewrite Hs1, <-Z.add_assoc. done.
  - rewrite (beside_fv _ _ _ _ R4NetServiceUdpResult 8712 "source_port" 128 Hc Ha eq_refl),
      (changed_fv m1 m3 _ _ SocketAddress_t d "port" 8 Hc' eq_refl) by (unfold net_room; lia). exact Hp1.
  - rewrite (beside_read _ _ _ _ 8744 4 Hc Ha), (read_bytes_ext m2 m3) by (intros; try apply (ch_out _ _ _ _ Hc3); unfold net_room; lia).
    rewrite Hs2, <-Z.add_assoc. apply (beside_read (mem w) m1 d 8); [exact Hc1|exact Hav0|lia|unfold net_room; lia].
  - rewrite (beside_fv _ _ _ _ R4NetServiceUdpResult 8712 "dest_port" 128 Hc Ha eq_refl),
      (changed_fv m2 m3 _ _ SocketAddress_t (d + 8) "port" 8 Hc3 eq_refl) by (unfold net_room; lia).
    rewrite Hp2. apply (beside_fv (mem w) m1 d 8 _ _ _ 128); [exact Hc1|exact Hav0|reflexivity|lia|unfold net_room; lia].
  - rewrite Hv3. by apply Z.mod_small.
Qed.

Lemma avoids_sym a n b k : avoids (span a n) b k → avoids (span b k) a n.
Proof. intros H x Hx Hy. by apply (H x). Qed.

Section udp.
Variables (w : world K) (socket out capacity d : Z).
Hypotheses (Hn : net_host (mem w)) (Hs : socket_at (mem w) R4UdpSocket socket) (Hb : buffer_at (mem w) R4UdpSocket socket out capacity).
Hypotheses (Hdm : mapped (mem w) d 20) (Hdo : outside d 20) (Hds : avoids (span d 20) socket 16) (Hdb : avoids (span d 20) out capacity).
Hypothesis Hz : fv (mem w) R4Datagram d "bytes" = 0.
Abbreviation got := (moved w R4UdpSocket udp_gone (span d 20) socket out capacity).
Abbreviation UDP := R4NetServiceUdpResult.

(** The datagram is described if there is one. *)
Definition good (result : R4NetResult) (w' : world K) : Prop :=
  got result w' ∧ fv (mem w') R4Datagram d "bytes" = net_bytes result ∧
  (net_kind result = R4_NET_RESULT_OK → described (mem w') d (net_bytes result)).

Lemma udp_sock : sock R4UdpSocket = true.
Proof. vm_compute. reflexivity. Qed.
Lemma udp_wire : wire R4NetServiceUdpResult = true.
Proof. vm_compute. reflexivity. Qed.

Lemma local_datagram : avoids local d 20.
Proof. apply avoids_sym, Hdo. Qed.

Lemma udp_local w1 : confined local (mem w) (mem w1) → confined (λ x, local x ∨ span d 20 x) (mem w) (mem w1).
Proof. apply confined_weaken. intros x Hx. by left. Qed.

Lemma udp_none r w' : confined local (mem w) (mem w') → net_bytes r = 0 → udp_gone r = false → kind_is R4_NET_RESULT_OK r = false → good r w'.
Proof.
  intros Hc Hr Hg Hk. split_and!.
  - apply received_none; [exact udp_sock|exact Hs|apply Hb|by apply udp_local|exact Hds|done|done].
  - rewrite Hr, <-Hz. eapply confined_fv; [exact Hc| |exact local_datagram]. reflexivity.
  - intros E. unfold kind_is in Hk. by rewrite bool_decide_eq_true_2 in Hk.
Qed.

(** The bytes of a datagram, and its description. *)
Lemma udp_filled w1 r n w2 :
  confined local (mem w) (mem w1) → net_bytes r = n → udp_gone r = false → 0 ≤ n ≤ capacity → n ≤ R4OS_NET_SERVICE_UDP_READ_MAX →
  changed (mem w1) (mem w2) out n → avoids local out n → avoids (span out n) socket 16 →
  ∃ w', fill_datagram d n fr w2 = Some ((), w') ∧ good r w' ∧ read_bytes (mem w') out (Z.to_nat n) = read_bytes (mem w2) out (Z.to_nat n).
Proof.
  intros Hc Hr Hg Hn1 Hn2 Hch Hal Has. unfold R4OS_NET_SERVICE_UDP_READ_MAX in Hn2. pose proof (changed_mapped _ _ _ _ d 20 Hch (confined_mapped _ _ _ _ _ Hc Hdm)) as Hdm2.
  destruct (fill_datagram_run w2 d n) as (m3 & Hf & Hc3 & Hd); [|exact Hdm2|exact local_datagram|lia|].
  { eapply changed_mapped; [exact Hch|]. eapply confined_mapped; [exact Hc|]. exact (ho_stack _ _ _ _ _ _ _ (nh_host _ Hn)). }
  eexists. split; [exact Hf|]. clear Hf. assert (∀ x, span out n x → ¬ span d 20 x) as Hod by (intros x Hx; apply Hdb; unfold span in *; lia).
  split; [|apply read_bytes_ext; intros x Hx; apply (ch_out _ _ _ _ Hc3), Hod; unfold span; lia].
  split_and!; [|rewrite Hr; apply Hd|intros _; rewrite Hr; exact Hd]. apply (received_after _ _ _ _ _ _ udp_sock w w1); [by apply udp_local|exact Hds|exact Hs|].
  destruct (sock_keeps _ _ udp_sock _ _ _ Hc (so_apart _ _ _ Hs) Hs) as [Hs1 _]. split; rewrite ?Hr, ?Hg; cbn [mem]; [lia| |].
  - eapply confined_trans; eapply confined_changed; [exact Hch|intros x Hx; right; by left|exact Hc3|intros x Hx; right; right; by right].
  - rewrite (fv_ext (mem w2) m3 _ _ _ 16), (fv_ext (mem w1) (mem w2) _ _ _ 16); [reflexivity|reflexivity| |reflexivity|].
    + intros x Hx. apply (ch_out _ _ _ _ Hch). by apply Has.
    + intros x Hx. apply (ch_out _ _ _ _ Hc3). by apply Hds.
Qed.

(** What comes after the call. *)
Lemma udp_answer w1 c arrived :
  confined local (mem w) (mem w1) → c ≤ capacity → 0 ≤ c ≤ R4OS_NET_SERVICE_UDP_READ_MAX → negb (capacity =? 0) && (out =? 0) = false →
  ∃ result w', udp_received socket out c d arrived fr w1 = Some (result, w') ∧ good result w' ∧
    judged UDP udp_causes (fv (mem w1) UDP (stack + 8712)) (mem w1) c arrived out
      (fv (mem w) R4UdpSocket socket "raw") (fv (mem w') R4UdpSocket socket "raw") result (mem w').
Proof.
  unfold udp_received. intros Hc Hcap Hc0 Hnull. pose proof (net_confined _ _ Hn Hc) as Hn1. destruct (sock_keeps _ _ udp_sock _ _ _ Hc (so_apart _ _ _ Hs) Hs) as [Hs1 Eraw].
  cbn [net_frame_at nf_parsed]. rewrite (mbind_run _ _ _ _ _ (classify_run _ udp_wire w1 (stack + 8712)
    ltac:(eapply host_local; [exact (nh_host _ Hn1)|change (sizeof UDP) with 128; unfold net_room; lia..]))).
  set (v := fv (mem w1) UDP (stack + 8712)).
  destruct (classify_spec (v "service_status") (v "lifecycle_cause") (i32 (v "result")) (v "bytes")) as (_ & Hgone & _).
  pose proof (classify_bytes (v "service_status") (v "lifecycle_cause") (i32 (v "result")) (v "bytes")) as Hbytes. cbv zeta in Hbytes.
  remember (r4_net_classify_socket (v "service_status") (v "lifecycle_cause") (i32 (v "result")) (v "bytes")) as r eqn:Er.
  destruct (kind_is R4_NET_RESULT_OK r) eqn:Hk; cbn [negb].
  - assert (udp_gone r = false) as Hg. { revert Hk. unfold udp_gone, kind_is. by destruct (net_kind r). }
    pose proof (buffer_taken _ _ _ _ _ c (buffer_confined _ _ _ _ _ _ Hc Hb) Hcap Hnull) as Hbuf.
    destruct (take_bytes_run _ udp_wire w1 out c arrived R4OS_NET_SERVICE_UDP_READ_MAX Hn1) as (bad & w2 & Ht & Hbad);
      [lia|vm_compute; discriminate|intros Hne; destruct (Hbuf Hne ltac:(lia)) as (? & ? & _); done|].
    rewrite (mbind_run _ _ _ _ _ Ht). clear Ht. cbv beta iota. fold v in Hbad. destruct bad as [bad|].
    { destruct Hbad as (-> & -> & Hno). eexists _, w1. split; [reflexivity|]. split; [by apply udp_none|].
      eapply judged_bad; [exact Er| |done|done|done]. fold v. by rewrite <-Hgone, Hg, Eraw. }
    destruct Hbad as (Hle & Hlen & Hch & _ & Hct).
    destruct (udp_filled w1 r (v "bytes") w2) as (w' & Hf & Hgood & Hkeep); [exact Hc|exact Hbytes|exact Hg|lia|lia|exact Hch| | |].
    + intros x Hx. destruct (decide (c = 0)); [unfold span in Hx; lia|]. destruct (Hbuf ltac:(done) ltac:(lia)) as (_ & Ha & _). apply Ha. unfold span in *. lia.
    + intros x Hx Hy. destruct (decide (c = 0)); [unfold span in Hy; lia|]. destruct (Hbuf ltac:(done) ltac:(lia)) as (_ & _ & Ha).
      apply (Ha x Hx). unfold span in *. lia.
    + rewrite (mbind_run _ _ _ _ _ Hf). exists r, w'. split; [reflexivity|]. split; [exact Hgood|].
      rewrite (mv_socket _ _ _ _ _ _ _ _ _ (proj1 Hgood)), Hg. apply judged_ok; [exact Hk|exact Er|apply Hle|exact Hlen|set_solver|].
      fold v. by rewrite Hkeep.
  - destruct (received_gone _ udp_gone (span d 20) socket out capacity udp_sock w1 r Hs1 (proj1 Hb) Hbytes) as (w2 & Hp & Hch & Hg).
    rewrite (mbind_run _ _ _ _ _ Hp). eexists r, w2. split; [reflexivity|]. split; [split_and!|].
    + apply (received_after _ _ _ _ _ _ udp_sock w w1); [by apply udp_local|exact Hds|exact Hs|exact Hg].
    + rewrite Hbytes, <-Hz, <-(confined_fv _ _ _ R4Datagram d "bytes" 20 Hc eq_refl local_datagram). apply (fv_ext _ _ R4Datagram d "bytes" 20 eq_refl).
      intros x Hx. apply (ch_out _ _ _ _ Hch). intros Hy. apply (Hds x); unfold span in *; lia.
    + intros E. by apply kind_not in Hk.
    + eapply judged_bad; [exact Er| |by rewrite Hk|by apply kind_not|done]. fold v. by rewrite (mv_socket _ _ _ _ _ _ _ _ _ Hg), Hgone, Eraw.
Qed.

Lemma udp_receive_run timeout :
  d ≠ 0 → ∃ result w', udp_receive socket out capacity timeout d fr w = Some (result, w') ∧ good result w' ∧
    outcome UDP R4OS_NET_SERVICE_UDP_RESULT_MAGIC R4OS_NET_SERVICE_UDP_RESULT_VERSION R4OS_NET_SERVICE_UDP_READ_MAX udp_causes
      R4UdpSocket udp R4OS_NET_SERVICE_OP_UDP_RECV_RESULT w socket out capacity timeout result w'.
Proof.
  intros Hd0. unfold udp_receive. unfold r4_udp_socket_valid. rewrite (mbind_run _ _ _ _ _ (sock_valid_run _ _ udp_sock w Hn Hs)), (proj2 (Z.eqb_neq _ _) Hd0), orb_false_r, negb_involutive.
  assert (∀ code, good (net_failed code) w) as Hfail by (intros code; apply udp_none; [apply confined_refl|reflexivity|reflexivity|reflexivity]).
  destruct (Z.eqb_spec (fv (mem w) R4UdpSocket socket "raw") 0) as [E0|_].
  { eexists _, w. split; [reflexivity|]. split; [apply Hfail|]. by apply outcome_refused; [left|..]. }
  destruct (negb (capacity =? 0) && (out =? 0)) eqn:Hnull.
  { eexists _, w. split; [reflexivity|]. split; [apply Hfail|]. apply outcome_refused; [right|done..].
    by apply andb_true_iff in Hnull as [?%negb_true_iff%Z.eqb_neq ?%Z.eqb_eq]. }
  destruct (capped_le capacity R4OS_NET_SERVICE_UDP_READ_MAX) as (Hc1 & Hc2 & Hc3). cbv zeta.
  assert ((if R4OS_NET_SERVICE_UDP_READ_MAX <? capacity then R4OS_NET_SERVICE_UDP_READ_MAX else capacity) = capacity `min` R4OS_NET_SERVICE_UDP_READ_MAX) as Ec
    by (destruct (Z.ltb_spec R4OS_NET_SERVICE_UDP_READ_MAX capacity); lia).
  specialize (Hc3 (proj1 Hb) ltac:(vm_compute; discriminate)). rewrite Ec in *. set (c := capacity `min` _) in *.
  assert (0 ≤ c < 2 ^ 16) as Hc16 by (unfold R4OS_NET_SERVICE_UDP_READ_MAX in *; lia).
  destruct (read_exchange_run _ udp_wire w R4OS_NET_SERVICE_UDP_RESULT_MAGIC R4OS_NET_SERVICE_UDP_RESULT_VERSION R4OS_NET_SERVICE_UDP_READ_MAX
    R4UdpSocket _ (nf_udpsvc fr) R4OS_NET_SERVICE_OP_UDP_RECV_RESULT socket c timeout Hn (sock_net _ _ udp_sock _ Hs) (sock_struct _ _ _ Hs)
    eq_refl eq_refl ltac:(vm_compute; discriminate) Hc16) as (w2 & call & w3 & arrived & early & w1 & Hex & Hr & Hc & He).
  rewrite (mbind_run _ _ _ _ _ Hr). clear Hr. cbv beta iota. destruct early as [r|].
  - exists r, w1. split; [reflexivity|]. destruct He as ((E1 & E2 & _ & E3) & Hno). assert (good r w1) as Hg by (by apply udp_none). split; [exact Hg|].
    eapply outcome_unanswered; [exact Hex|exact Hno|by apply kind_not|exact E1|]. rewrite (mv_socket _ _ _ _ _ _ _ _ _ (proj1 Hg)). by rewrite E3.
  - destruct He as (Hac & -> & Hlen & Hch & Hf).
    destruct (udp_answer w1 c (call_bytes call) Hc Hc1 (conj Hc3 Hc2) Hnull) as (r & w' & Hr & Hg & Hj). exists r, w'. split; [exact Hr|]. split; [exact Hg|].
    eapply outcome_answered; [exact Hex|exact Hac|].
    eapply judged_ext; [exact Hf| |exact Hj]. intros Hin. apply read_bytes_ext. intros x Hx. apply (ch_out _ _ _ _ Hch).
    pose proof (fv_nonneg (mem w3) UDP (stack + 4616) "bytes"). unfold R4OS_NET_SERVICE_UDP_READ_MAX in Hlen. change (sizeof UDP) with 128 in *. lia.
Qed.
End udp.

(** A description beside everything else. *)
Definition datagram_at m (socket out capacity d : Z) : Prop :=
  d ≠ 0 ∧ mapped m d 20 ∧ outside d 20 ∧ avoids (span d 20) socket 16 ∧ avoids (span d 20) out capacity.

Abbreviation udp_outcome := (outcome R4NetServiceUdpResult R4OS_NET_SERVICE_UDP_RESULT_MAGIC R4OS_NET_SERVICE_UDP_RESULT_VERSION
  R4OS_NET_SERVICE_UDP_READ_MAX udp_causes R4UdpSocket udp R4OS_NET_SERVICE_OP_UDP_RECV_RESULT).

Lemma udp_run w socket out capacity timeout d :
  net_host (mem w) → socket_at (mem w) R4UdpSocket socket → buffer_at (mem w) R4UdpSocket socket out capacity →
  datagram_at (mem w) socket out capacity d →
  ∃ w1 result w', clear R4Datagram d w = Some ((), w1) ∧
    r4_udp_socket_receive_from socket out capacity timeout d fr w = Some (result, w') ∧ good w socket out capacity d result w' ∧
    udp_outcome w1 socket out capacity timeout result w'.
Proof.
  intros Hn Hs Hb (H0 & Hdm & Hdo & Hds & Hdb). unfold r4_udp_socket_receive_from. rewrite (proj2 (Z.eqb_neq _ _) H0).
  destruct (clear_struct w R4Datagram d eq_refl ltac:(vm_compute; discriminate) Hdm) as (m1 & Hr & Hc & Hz). rewrite (mbind_run _ _ _ _ _ Hr).
  change (sizeof R4Datagram) with 20 in Hc. set (w1 := World m1 (kern w)).
  assert (confined (span d 20) (mem w) m1) as Hcf by (eapply confined_changed; [exact Hc|by intros x]).
  destruct (sock_keeps _ _ udp_sock _ _ _ Hcf Hds Hs) as [Hs1 _].
  assert (buffer_at (mem w1) R4UdpSocket socket out capacity) as Hb1.
  { split; [apply Hb|]. intros Hne. destruct (proj2 Hb Hne) as (Hm & ?). split; [by eapply changed_mapped|done]. }
  destruct (udp_receive_run w1 socket out capacity d (net_outside _ _ _ _ Hn Hdo Hc) Hs1 Hb1 (changed_mapped _ _ _ _ _ _ Hc Hdm) Hdo Hds Hdb
    (sa_value _ _ _ _ Hz "bytes" _ eq_refl) timeout H0) as (r & w' & Hr' & (Hg & Hbytes & Hd) & Hout).
  exists w1, r, w'. split; [exact Hr|]. split; [exact Hr'|]. split; [|exact Hout]. split; [|split; [exact Hbytes|exact Hd]].
  apply (received_after _ _ _ _ _ _ udp_sock w w1); [|exact Hds|exact Hs|exact Hg]. eapply confined_weaken; [|exact Hcf]. intros x Hx. by right.
Qed.

(** What a read has written: its local variables, the bytes it reports, the handle in the
    socket and [extra]. *)
Record contained w (extra : Z → Prop) (socket out capacity : Z) (result : R4NetResult) w' : Prop := {
  co_bytes : 0 ≤ net_bytes result ≤ capacity;
  co_memory : confined (λ x, local x ∨ span out (net_bytes result) x ∨ span (socket + 8) 4 x ∨ extra x) (mem w) (mem w')
}.

(** C38. Reading from a TCP socket and receiving a datagram return whatever the kernel and
    the service answer, and write no memory but their local variables, the bytes
    they report, the handle in the socket and the caller's description of the
    datagram. A closed socket or a missing buffer is refused without a call. Otherwise
    there is one call, with the socket's handle and the capacity. Without a complete
    answer of the right kind nothing is received and the socket is kept. An answer is a
    success exactly when its status and cause say so and its bytes fit the caller's
    room and the answer that has arrived, and then the caller has exactly the bytes
    that follow the answer's structure; otherwise it has none. The handle is given up
    exactly when the answer's cause is one of those that end such a socket. A datagram
    is described by the addresses of the answer. *)
Theorem network_receive_contained w timeout :
  net_host (mem w) →
  (∀ socket out capacity,
     socket_at (mem w) R4TcpSocket socket → buffer_at (mem w) R4TcpSocket socket out capacity →
     ∃ result w', r4_tcp_socket_read socket out capacity timeout fr w = Some (result, w') ∧
       contained w (λ _, False) socket out capacity result w' ∧
       outcome R4NetServiceTcpResult R4OS_NET_SERVICE_TCP_RESULT_MAGIC R4OS_NET_SERVICE_TCP_RESULT_VERSION R4OS_NET_SERVICE_TCP_READ_MAX tcp_causes
         R4TcpSocket tcp R4OS_NET_SERVICE_OP_TCP_READ_RESULT w socket out capacity timeout result w') ∧
  (∀ socket out capacity datagram,
     socket_at (mem w) R4UdpSocket socket → buffer_at (mem w) R4UdpSocket socket out capacity →
     datagram_at (mem w) socket out capacity datagram →
     ∃ w1 result w', clear R4Datagram datagram w = Some ((), w1) ∧
       r4_udp_socket_receive_from socket out capacity timeout datagram fr w = Some (result, w') ∧
       contained w (span datagram 20) socket out capacity result w' ∧
       outcome R4NetServiceUdpResult R4OS_NET_SERVICE_UDP_RESULT_MAGIC R4OS_NET_SERVICE_UDP_RESULT_VERSION R4OS_NET_SERVICE_UDP_READ_MAX udp_causes
         R4UdpSocket udp R4OS_NET_SERVICE_OP_UDP_RECV_RESULT w1 socket out capacity timeout result w' ∧
       fv (mem w') R4Datagram datagram "bytes" = net_bytes result ∧
       (net_kind result = R4_NET_RESULT_OK → described (mem w') datagram (net_bytes result))).
Proof.
  intros Hn. split.
  - intros socket out capacity Hs Hb. destruct (tcp_read_run w socket out capacity Hn Hs Hb timeout) as (r & w' & Hr & Hg & Ho).
    exists r, w'. split; [exact Hr|]. split; [|exact Ho]. split; apply Hg.
  - intros socket out capacity d Hs Hb Hd. destruct (udp_run w socket out capacity timeout d Hn Hs Hb Hd) as (w1 & r & w' & Hc & Hr & (Hg & H1 & H2) & Ho).
    exists w1, r, w'. split; [exact Hc|]. split; [exact Hr|]. split; [split; apply Hg|]. split; [exact Ho|]. split; [exact H1|exact H2].
Qed.
End read.

(** ** A kernel with a network service *)

(** Its state is the answer it gives. *)
Definition net_functions : service_functions := ServiceFunctions 7010 7011 7012 7013 7014 7083 7016 7017 7053.

#[global] Instance net_kernel : Kernel (list byte) := λ f args w,
  match args with
  | [name; info] =>
      if f =? 7010 then
        match write_bytes (mem w) info (le_bytes 4 5) with
        | Some m => (R4OS_SERVICE_API_RESULT_OK, World m (kern w))
        | None => (R4OS_SERVICE_API_RESULT_INVALID, w)
        end
      else (R4OS_SERVICE_API_RESULT_OK, w)
  | [id; op; request; len; header; response; capacity; ticks] =>
      if negb (f =? 7012) then (R4OS_SERVICE_API_RESULT_OK, w) else
      let answer := take (Z.to_nat (Z.min capacity 4096)) (kern w) in
      match write_bytes (mem w) header (struct_bytes R4ServiceMessageHeader [R4OS_SERVICE_API_MAGIC; R4OS_SERVICE_API_VERSION; op]) with
      | Some m1 =>
          match write_bytes m1 response answer with
          | Some m2 => (Z.of_nat (length answer), World m2 (kern w))
          | None => (R4OS_SERVICE_API_RESULT_INVALID, w)
          end
      | None => (R4OS_SERVICE_API_RESULT_INVALID, w)
      end
  | _ => (R4OS_SERVICE_API_RESULT_OK, w)
  end.

Lemma net_call_law (w : world (list byte)) id op request len header response capacity ticks :
  let r := kcall 7012 [id; op; request; len; header; response; capacity; ticks] w in
  (∃ m1, changed (mem w) m1 header 28 ∧ changed m1 (mem (snd r)) response capacity) ∧ (i32 (fst r) < 0 → mem (snd r) = mem w).
Proof.
  unfold kcall, net_kernel. change (negb (7012 =? 7012)) with false. cbv iota. set (hd := struct_bytes _ _). assert (length hd = 28%nat) as Hlen by (vm_compute; reflexivity).
  destruct (write_bytes (mem w) header hd) as [m1|] eqn:E1; [|split; [exists (mem w); by split; split|reflexivity]].
  apply write_bytes_changed in E1. rewrite Hlen in E1. destruct (write_bytes m1 response _) as [m2|] eqn:E2.
  - apply write_bytes_changed in E2. rewrite length_take in E2. cbn [snd fst mem]. split.
    + exists m1. split; [exact E1|]. split; [apply (ch_dom _ _ _ _ E2)|]. intros x Hx. apply (ch_out _ _ _ _ E2). lia.
    + rewrite length_take. set (n := Z.of_nat _). assert (0 ≤ n ≤ 4096) as Hn by lia. rewrite i32_small by (unfold is_i32; lia). lia.
  - split; [|reflexivity]. exists (mem w). by split; split.
Qed.

#[global] Instance net_kernel_laws : ServiceKernel (list byte) net_functions.
Proof.
  split.
  - intros. unfold kcall, net_kernel. cbn [net_functions f_open]. change (7010 =? 7010) with true. cbv iota.
    destruct (write_bytes _ _ _) as [m|] eqn:E; [|by split]. apply write_bytes_changed in E. eapply changed_sub; [exact E|lia|rewrite length_le_bytes; lia].
  - intros. by split.
  - intros. exact (net_call_law w id op req len header resp cap ticks).
  - intros. exists (mem w). by split; split.
  - intros. by split.
  - intros w f args Hf%list_elem_of_In. cbn in Hf. destruct args as [|? [|? [|? [|? [|? [|? [|? [|? []]]]]]]]]; try reflexivity.
    all: by destruct Hf as [<-|[<-|[<-|[<-|[]]]]].
Qed.

(** The application at 256 with tables at 4096 and 2048, a TCP socket with the handle 9
    at 512, a buffer of four bytes at 600, and the local variables at 16384. *)
Definition net_memory : gmap Z byte := image [
  (256, struct_bytes R4App_t [0; 0; 4096; 0; 0; 2048]); (512, struct_bytes R4TcpSocket [256; 9; 1]); (600, replicate 4 x00);
  (2048, struct_bytes R4XStartR4Net (replicate 40 7099)); (16384, replicate (Z.to_nat net_room) x00);
  (4096, struct_bytes R4XStartR4Sys ([R4XSTART_R4SYS_MAGIC; 14; 1264; 0] ++ map (λ i, 7000 + Z.of_nat i) (seq 0 156)))].

(** An answer with the three bytes 11, 12, 13. *)
Definition net_answer : list byte :=
  struct_bytes R4NetServiceTcpResult [R4OS_NET_SERVICE_TCP_RESULT_MAGIC; R4OS_NET_SERVICE_TCP_RESULT_VERSION; 0; 0; 0; 9; 0; 3] ++ le_bytes 3 855051.

Definition net_start : world (list byte) := World net_memory net_answer.
Abbreviation demo_frame := (net_frame_at 16384 900 904 908).
Abbreviation demo_app := (fv net_memory R4App_t 256).

Lemma net_start_host : net_host net_functions 256 4096 16384 demo_app net_memory.
Proof.
  split.
  - split; [unfold is_u64; lia| | | | |].
    + apply struct_own, mapped_b_mapped. vm_compute. reflexivity.
    + vm_compute. reflexivity.
    + intros _. split; [apply mapped_b_mapped; vm_compute; reflexivity|]. intros n f Hin%list_elem_of_In.
      assert (forallb (λ s, fv net_memory R4XStartR4Sys 4096 (fst s) =? snd s) (service_slots net_functions) = true) as Hall by (vm_compute; reflexivity).
      rewrite forallb_forall in Hall. by apply Z.eqb_eq, (Hall (n, f)).
    + apply mapped_b_mapped. vm_compute. reflexivity.
    + split; [|intros _]; intros x Hx Hy; unfold span, net_room in *; [change (sizeof R4App_t) with 80 in Hx; lia|lia].
  - intros _. split; [apply mapped_b_mapped; vm_compute; reflexivity|]. assert (demo_app "network.table" = 2048) as -> by (vm_compute; reflexivity).
    intros x Hx Hy. unfold span, net_room in *. lia.
Qed.

Lemma net_start_socket : socket_at 256 16384 net_memory R4TcpSocket 512 ∧ buffer_at 16384 net_memory R4TcpSocket 512 600 4.
Proof.
  split; [split|split].
  - lia.
  - apply mapped_b_mapped. vm_compute. reflexivity.
  - vm_compute. reflexivity.
  - intros x Hx Hy. change (sizeof R4TcpSocket) with 24 in Hx. unfold span, net_room in *. lia.
  - lia.
  - intros _. split; [apply mapped_b_mapped; vm_compute; reflexivity|].
    split; intros x Hx Hy; change (sizeof R4TcpSocket) with 24 in *; unfold span, net_room in *; lia.
Qed.

(** The three bytes are read. *)
Lemma demo_read_result r w' :
  r4_tcp_socket_read 512 600 4 r4_timeout_poll demo_frame net_start = Some (r, w') →
  net_bytes r = 3 ∧ read_bytes (mem w') 600 4 = Some [x0b; x0c; x0d; x00].
Proof.
  intros E. assert (option_map (λ p, (net_bytes (fst p), read_bytes (mem (snd p)) 600 4)) (r4_tcp_socket_read 512 600 4 r4_timeout_poll demo_frame net_start)
    = Some (3, Some [x0b; x0c; x0d; x00])) as H by (vm_compute; reflexivity).
  rewrite E in H. injection H as H1 H2. split; [exact H1|exact H2].
Qed.

Lemma network_receive_contained_witness :
  ∃ result w', r4_tcp_socket_read 512 600 4 r4_timeout_poll demo_frame net_start = Some (result, w') ∧
    contained 16384 net_start (λ _, False) 512 600 4 result w' ∧
    outcome 16384 R4NetServiceTcpResult R4OS_NET_SERVICE_TCP_RESULT_MAGIC R4OS_NET_SERVICE_TCP_RESULT_VERSION R4OS_NET_SERVICE_TCP_READ_MAX tcp_causes
      R4TcpSocket 904 R4OS_NET_SERVICE_OP_TCP_READ_RESULT net_start 512 600 4 r4_timeout_poll result w' ∧ net_bytes result = 3.
Proof.
  destruct (network_receive_contained net_functions 256 4096 16384 demo_app 900 904 908 net_start r4_timeout_poll net_start_host) as [Htcp _].
  destruct (Htcp 512 600 4 (proj1 net_start_socket) (proj2 net_start_socket)) as (r & w' & Hr & Hcon & Hout).
  exists r, w'. split; [exact Hr|]. split; [exact Hcon|]. split; [exact Hout|]. exact (proj1 (demo_read_result r w' Hr)).
Defined.
End R4NetworkRead.
