(* ===== verification/R4AppDevices.v ===== *)
(** * app_devices.h

    The views of the devices, the memory and the performance of the machine: each
    holds the application, and each of its functions is one call of the R4DEV
    table. *)

From S2P Require Import Prelude R4Abi R4Mem R4L R4LSpec.
From S2P Require Import R4Table R4Sys R4SysSpec R4SysInit R4Field R4Group R4Dev R4Time.
From S2P Require Import R4App.

Module R4AppDevices.
Export R4Dev R4App R4Field.

(** [R4Devices], [R4DeviceInventoryView], [R4MemoryView], [R4PerformanceView]. *)
Definition View_t : ctype := Struct [("app", U64)].

Section code.
Context {K : Type} `{!Kernel K}.

(** The views by their one field. *)
Definition r4_app_devices (app : Z) : Z := app.
Definition r4_devices_inventory (devices : Z) : Z := devices.
Definition r4_devices_memory (devices : Z) : Z := devices.
Definition r4_devices_performance (devices : Z) : Z := devices.

(** [view != 0 && view->app != 0 ? view->app->field : 0]. *)
Definition view_table (field : string) (view : Z) : M K Z :=
  if view =? 0 then mret 0 else
  app ← get View_t "app" view;
  if app =? 0 then mret 0 else get R4App_t field app.

(** [table != 0 && table->name != 0] is that this is not 0. *)
Definition view_slot (T : ctype) (field name : string) (view : Z) : M K Z :=
  table ← view_table field view;
  if table =? 0 then mret 0 else get T name table.

Definition r4_devices_available (devices : Z) : M K bool :=
  table ← view_table "devices.table" devices;
  if table =? 0 then mret false else
  slots_set R4XStartR4Dev ["device_inventory_summary"; "memory_summary"; "performance_summary"] table.

(** [table != 0 && table->name != 0u && out != 0 ? fn(args) : R4OS_ERR_NO_FN]. *)
Definition device_call (name : string) (view out : Z) (args : list Z) : M K Z :=
  f ← view_slot R4XStartR4Dev "devices.table" name view;
  if (f =? 0) || (out =? 0) then mret R4OS_ERR_NO_FN else call_i32 f args.

Definition r4_device_inventory_summary (view out : Z) : M K Z := device_call "device_inventory_summary" view out [out].
Definition r4_device_inventory_record (view index out : Z) : M K Z := device_call "device_inventory_record" view out [index; out].
Definition r4_device_hardware_summary (view out : Z) : M K Z := device_call "hardware_summary" view out [out].
Definition r4_memory_summary (view out : Z) : M K Z := device_call "memory_summary" view out [out].
Definition r4_memory_pressure (view out : Z) : M K Z := device_call "memory_pressure_snapshot" view out [out].
Definition r4_memory_block_count (view : Z) : M K Z :=
  f ← view_slot R4XStartR4Dev "devices.table" "memory_block_count" view;
  if f =? 0 then mret 0 else call_u32 f [].
Definition r4_memory_block (view index out : Z) : M K Z := device_call "memory_block" view out [index; out].
Definition r4_performance_summary (view out : Z) : M K Z := device_call "performance_summary" view out [out].

(** [&app->devices]. *)
Definition app_devices (app : Z) : Z := app + offsetof R4App_t "devices.table".

Definition r4_program_instance_storage_summary (view out : Z) : M K Z :=
  if view =? 0 then mret R4OS_ERR_NO_FN else
  app ← get View_t "app" view;
  if (app =? 0) || (out =? 0) then mret R4OS_ERR_NO_FN else
  _ ← clear R4ProgramInstanceStorageSummary out;
  _ ← put R4ProgramInstanceStorageSummary "version" out 2;
  _ ← put R4ProgramInstanceStorageSummary "size" out (sizeof R4ProgramInstanceStorageSummary);
  app ← get View_t "app" view;
  result ← r4dev_program_instance_storage_summary_v2 (app_devices app) out;
  if negb (result =? R4OS_ERR_NO_FN) then mret result else
  _ ← clear R4ProgramInstanceStorageSummary out;
  app ← get View_t "app" view;
  r4dev_program_instance_storage_summary_legacy (app_devices app) out.

Definition r4_program_instance_storage_self_test (view out : Z) : M K Z := device_call "program_instance_storage_self_test" view out [out].
Definition r4_program_registry_summary (view out : Z) : M K Z := device_call "program_registry_summary" view out [out].
Definition r4_program_registry_self_test (view out : Z) : M K Z := device_call "program_registry_self_test" view out [out].
Definition r4_program_registry_summary_v2 (view out : Z) : M K Z := device_call "program_registry_summary_v2" view out [out].
Definition r4_program_registry_self_test_v2 (view out : Z) : M K Z := device_call "program_registry_self_test_v2" view out [out].

Definition r4_execution_inventory_summary (view out : Z) : M K Z :=
  if out =? 0 then mret R4OS_PROGRAM_HANDLE_ERROR_INVALID else
  if view =? 0 then mret R4OS_ERR_NO_FN else
  app ← get View_t "app" view;
  if app =? 0 then mret R4OS_ERR_NO_FN else r4dev_execution_inventory_summary (app_devices app) out.

Definition r4_program_registry_summary_legacy : Z → Z → M K Z := r4_program_registry_summary.
Definition r4_program_registry_self_test_legacy : Z → Z → M K Z := r4_program_registry_self_test.

Definition r4_performance_task (view index out : Z) : M K Z := device_call "performance_task" view out [index; out].
Definition r4_performance_storage (view index out : Z) : M K Z := device_call "performance_storage" view out [index; out].
Definition r4_performance_boot_phase (view index out : Z) : M K Z := device_call "performance_boot_phase" view out [index; out].
End code.

(** The functions ask the table for slots that it has. *)
Example device_slots : forallb (is_slot R4XStartR4Dev) ["device_inventory_summary"; "device_inventory_record"; "hardware_summary";
  "memory_summary"; "memory_pressure_snapshot"; "memory_block_count"; "memory_block"; "performance_summary";
  "program_instance_storage_self_test"; "program_registry_summary"; "program_registry_self_test"; "program_registry_summary_v2";
  "program_registry_self_test_v2"; "performance_task"; "performance_storage"; "performance_boot_phase"] = true.
Proof. vm_compute. reflexivity. Qed.

End R4AppDevices.
