(* ===== verification/R4AppAudio.v ===== *)
(** * app_audio.h

    Master volume and PCM streams over the service AUDSVC, and the synthesizers of
    the R4AUDIO table. A stream is a structure with its connection in it. The
    local variables of a function are at the addresses of an [audio_frame], which
    also has that of the service's name. *)

From S2P Require Import Prelude R4Abi R4Mem R4L R4LSpec.
From S2P Require Import R4Table R4Sys R4SysSpec R4SysInit R4Field R4Group R4Dev R4Time.
From S2P Require Import R4App R4Services R4AppDevices.

Module R4AppAudio.
Export R4Services R4AppDevices.

Definition R4_AUDIO_FORMAT_S16LE : Z := 1.
Definition R4OS_AUDIO_SERVICE_REQUEST_MAGIC : Z := 1364350273.
Definition R4OS_AUDIO_SERVICE_REQUEST_VERSION : Z := 1.
Definition R4OS_AUDIO_SERVICE_RESULT_MAGIC : Z := 1381193025.
Definition R4OS_AUDIO_SERVICE_RESULT_VERSION : Z := 1.
Definition R4OS_AUDIO_MASTER_STATE_MAGIC : Z := 1396782162.
Definition R4OS_AUDIO_MASTER_STATE_VERSION : Z := 1.
Definition R4OS_AUDIO_MASTER_REQUEST_MAGIC : Z := 1296118866.
Definition R4OS_AUDIO_MASTER_REQUEST_VERSION : Z := 1.
Definition R4OS_AUDIO_MASTER_REQUEST_FLAG_SET_VOLUME : Z := 1.
Definition R4OS_AUDIO_MASTER_REQUEST_FLAG_SET_MUTED : Z := 2.
Definition R4OS_AUDIO_MASTER_REQUEST_FLAG_MUTED : Z := 4.
Definition R4OS_AUDIO_SERVICE_OP_OPEN_STREAM : Z := 3.
Definition R4OS_AUDIO_SERVICE_OP_WRITE_STREAM : Z := 4.
Definition R4OS_AUDIO_SERVICE_OP_CLOSE_STREAM : Z := 5.
Definition R4OS_AUDIO_SERVICE_OP_SET_STREAM_VOLUME : Z := 6.
Definition R4OS_AUDIO_SERVICE_OP_MASTER_STATUS : Z := 7.
Definition R4OS_AUDIO_SERVICE_OP_SET_MASTER_STATE : Z := 8.

(** ** Data *)

Definition R4AudioFacade_t : ctype := View_t.

Definition R4AudioWireOpenRequest : ctype := Struct [
  ("magic", U32); ("version", U16); ("reserved0", U16); ("rate", U32); ("channels", U16); ("format", U16);
  ("fixed_volume", U32); ("flags", U32)].
Definition R4AudioWireWriteRequest : ctype := Struct [
  ("magic", U32); ("version", U16); ("reserved0", U16); ("stream_id", U32); ("byte_count", U32); ("flags", U32)].
Definition R4AudioWireControlRequest : ctype := Struct [
  ("magic", U32); ("version", U16); ("reserved0", U16); ("stream_id", U32); ("fixed_volume", U32); ("flags", U32)].
Definition R4AudioWireResult : ctype := Struct [
  ("magic", U32); ("version", U16); ("action", U16); ("result", U32); ("stream_id", U32); ("bytes", U32); ("flags", U32);
  ("master_volume_fixed", U32); ("open_sessions", U32); ("total_bytes_written", U64); ("request_ticks", U64);
  ("write_ticks", U64); ("last_error", Array U8 32); ("reserved0", Array U8 32)].

(** The static assertions of the header. *)
Example audio_wire_layouts :
  sizeof R4AudioWireOpenRequest = 24 ∧ sizeof R4AudioWireWriteRequest = 20 ∧ sizeof R4AudioWireControlRequest = 20 ∧
  sizeof R4AudioWireResult = 120.
Proof. repeat split; reflexivity. Qed.

Definition R4AudioStream : ctype := Struct [
  ("connection", R4ServiceConnection); ("stream_id", U32); ("owned", U8); ("reserved", Array U8 3)].

Inductive R4AudioResultKind := R4_AUDIO_RESULT_OK | R4_AUDIO_RESULT_TIMED_OUT | R4_AUDIO_RESULT_NO_SERVICE | R4_AUDIO_RESULT_FAILED.
Record R4AudioResult := AudioResult { audio_kind : R4AudioResultKind; audio_raw_code : Z; audio_bytes : Z }.

#[global] Instance audio_result_kind_eq_dec : EqDecision R4AudioResultKind.
Proof. solve_decision. Defined.

(** The variables of a service call, [request], [payload], [response] and the name. *)
Record audio_frame := AudioFrame { af_call : service_frame; af_request : Z; af_payload : Z; af_response : Z; af_audsvc : Z }.

Definition r4_audio_result (kind : R4AudioResultKind) (raw bytes : Z) : R4AudioResult := AudioResult kind raw bytes.
Definition audio_failed (raw bytes : Z) : R4AudioResult := r4_audio_result R4_AUDIO_RESULT_FAILED raw bytes.
Definition audio_timed_out (bytes : Z) : R4AudioResult :=
  r4_audio_result R4_AUDIO_RESULT_TIMED_OUT R4OS_SERVICE_API_RESULT_TIMEOUT bytes.

Definition call_is (k : R4ServiceCallKind) (call : R4ServiceCallResult) : bool := bool_decide (call_kind call = k).

Section code.
Context {K : Type} `{!Kernel K}.

(** The facades by their one field. *)
Definition r4_app_audio (app : Z) : Z := app.
Definition r4_audio_advanced (audio : Z) : Z := audio.

(** [&stream->connection]. *)
Definition stream_connection (stream : Z) : Z := stream + offsetof R4AudioStream "connection".

Definition r4_audio_stream_valid (stream : Z) : M K bool :=
  if stream =? 0 then mret false else
  owned ← get R4AudioStream "owned" stream;
  if owned =? 0 then mret false else
  id ← get R4AudioStream "stream_id" stream;
  if id =? 0 then mret false else r4_service_connection_valid (stream_connection stream).

Definition r4_audio_copy_bytes (destination source count : Z) : M K () := copy_loop (Z.to_nat count) destination source.

Definition r4_audio_available (audio : Z) : M K bool :=
  table ← view_table "audio.table" audio;
  if table =? 0 then mret false else
  sys ← view_table "system.table" audio;
  if sys =? 0 then mret false else
  set ← slots_set R4XStartR4Sys ["service_open"; "service_close"; "service_call"] sys;
  if negb set then mret false else
  slots_set R4XStartR4Audio ["audio_open_stream"] table.

Definition r4_audio_response_valid (response action : Z) : M K bool :=
  magic ← get R4AudioWireResult "magic" response;
  if negb (magic =? R4OS_AUDIO_SERVICE_RESULT_MAGIC) then mret false else
  version ← get R4AudioWireResult "version" response;
  if negb (version =? R4OS_AUDIO_SERVICE_RESULT_VERSION) then mret false else
  got ← get R4AudioWireResult "action" response; mret (got =? action).

Definition r4_audio_master_state_valid (state : Z) : M K bool :=
  if state =? 0 then mret false else
  magic ← get R4AudioServiceMasterState "magic" state;
  if negb (magic =? R4OS_AUDIO_MASTER_STATE_MAGIC) then mret false else
  version ← get R4AudioServiceMasterState "version" state;
  if negb (version =? R4OS_AUDIO_MASTER_STATE_VERSION) then mret false else
  size ← get R4AudioServiceMasterState "size" state; mret (size =? sizeof R4AudioServiceMasterState).

(** ** The master volume *)

Definition r4_audio_master_call (audio op request request_size : Z) (timeout : R4Timeout) (out : Z) (fr : audio_frame) : M K R4AudioResult :=
  available ← r4_audio_available audio;
  if negb available || (out =? 0) then mret (r4_audio_result R4_AUDIO_RESULT_NO_SERVICE R4OS_ERR_NO_FN 0) else
  app ← get R4AudioFacade_t "app" audio;
  opened ← frame_open (af_call fr) app (af_audsvc fr);
  if negb (opened =? R4OS_SERVICE_API_RESULT_OK) then mret (r4_audio_result R4_AUDIO_RESULT_NO_SERVICE opened 0) else
  _ ← clear R4AudioServiceMasterState out;
  call ← r4_service_connection_call_struct (fr_connection (af_call fr)) op request request_size out
           (sizeof R4AudioServiceMasterState) timeout (fr_state (af_call fr)) (fr_header (af_call fr));
  _ ← r4_service_connection_close (fr_connection (af_call fr));
  if call_is R4_SERVICE_CALL_TIMED_OUT call then mret (audio_timed_out 0) else
  if negb (call_is R4_SERVICE_CALL_RESPONSE call) then mret (audio_failed (call_raw_code call) 0) else
  valid ← r4_audio_master_state_valid out;
  if negb valid then mret (audio_failed R4OS_SERVICE_API_RESULT_INVALID 0) else
  mret (r4_audio_result R4_AUDIO_RESULT_OK R4OS_OK 0).

Definition r4_audio_master_status (audio : Z) (timeout : R4Timeout) (out : Z) (fr : audio_frame) : M K R4AudioResult :=
  r4_audio_master_call audio R4OS_AUDIO_SERVICE_OP_MASTER_STATUS 0 0 timeout out fr.

(** [SET_VOLUME | SET_MUTED]. *)
Definition master_allowed : Z :=
  Z.lor R4OS_AUDIO_MASTER_REQUEST_FLAG_SET_VOLUME R4OS_AUDIO_MASTER_REQUEST_FLAG_SET_MUTED.

Definition r4_audio_set_master_state (audio update_flags fixed_volume : Z) (muted : bool) (expected_revision : Z)
    (timeout : R4Timeout) (out : Z) (fr : audio_frame) : M K R4AudioResult :=
  if (Z.land update_flags master_allowed =? 0) || negb (Z.land update_flags (Prelude.u32 (Z.lnot master_allowed)) =? 0)
  then mret (audio_failed R4OS_SERVICE_API_RESULT_INVALID 0) else
  let request := af_request fr in
  _ ← clear R4AudioServiceMasterRequest request;
  _ ← put R4AudioServiceMasterRequest "magic" request R4OS_AUDIO_MASTER_REQUEST_MAGIC;
  _ ← put R4AudioServiceMasterRequest "version" request R4OS_AUDIO_MASTER_REQUEST_VERSION;
  _ ← put R4AudioServiceMasterRequest "size" request (sizeof R4AudioServiceMasterRequest);
  _ ← put R4AudioServiceMasterRequest "flags" request update_flags;
  _ ← put R4AudioServiceMasterRequest "fixed_volume" request fixed_volume;
  _ ← put R4AudioServiceMasterRequest "expected_revision" request expected_revision;
  _ ← (if negb (Z.land update_flags R4OS_AUDIO_MASTER_REQUEST_FLAG_SET_MUTED =? 0) && muted
       then put R4AudioServiceMasterRequest "flags" request (Z.lor update_flags R4OS_AUDIO_MASTER_REQUEST_FLAG_MUTED)
       else mret ());
  r4_audio_master_call audio R4OS_AUDIO_SERVICE_OP_SET_MASTER_STATE request (sizeof R4AudioServiceMasterRequest) timeout out fr.

(** ** Streams *)

(** What the caller of a stream function returns when the call or its answer is not good. *)
Definition audio_error (call : R4ServiceCallResult) (result : Z) : Z :=
  if call_is R4_SERVICE_CALL_RESPONSE call then (if i32 result <? 0 then i32 result else R4OS_SERVICE_API_RESULT_INVALID)
  else call_raw_code call.

(** [call.kind == RESPONSE && r4_audio_response_valid(&response, op) && response.result >= 0]. *)
Definition audio_accepted (call : R4ServiceCallResult) (response op : Z) : M K bool :=
  if negb (call_is R4_SERVICE_CALL_RESPONSE call) then mret false else
  valid ← r4_audio_response_valid response op;
  if negb valid then mret false else
  result ← get R4AudioWireResult "result" response; mret (0 <=? i32 result).

(** The error of a call that was not accepted. *)
Definition audio_refused (call : R4ServiceCallResult) (response bytes : Z) : M K R4AudioResult :=
  result ← (if call_is R4_SERVICE_CALL_RESPONSE call then get R4AudioWireResult "result" response else mret 0);
  mret (audio_failed (audio_error call result) bytes).

Definition r4_audio_open_stream (audio rate channels format fixed_volume : Z) (timeout : R4Timeout) (out : Z) (fr : audio_frame) : M K R4AudioResult :=
  _ ← (if out =? 0 then mret () else clear R4AudioStream out);
  available ← r4_audio_available audio;
  if negb available || (out =? 0) then mret (r4_audio_result R4_AUDIO_RESULT_NO_SERVICE R4OS_ERR_NO_FN 0) else
  if (rate =? 0) || (channels =? 0) || negb (format =? R4_AUDIO_FORMAT_S16LE)
  then mret (audio_failed R4OS_SERVICE_API_RESULT_INVALID 0) else
  app ← get R4AudioFacade_t "app" audio;
  opened ← frame_open (af_call fr) app (af_audsvc fr);
  if negb (opened =? R4OS_SERVICE_API_RESULT_OK) then mret (r4_audio_result R4_AUDIO_RESULT_NO_SERVICE opened 0) else
  let connection := fr_connection (af_call fr) in
  let request := af_request fr in
  _ ← clear R4AudioWireOpenRequest request;
  _ ← put R4AudioWireOpenRequest "magic" request R4OS_AUDIO_SERVICE_REQUEST_MAGIC;
  _ ← put R4AudioWireOpenRequest "version" request R4OS_AUDIO_SERVICE_REQUEST_VERSION;
  _ ← put R4AudioWireOpenRequest "rate" request rate;
  _ ← put R4AudioWireOpenRequest "channels" request channels;
  _ ← put R4AudioWireOpenRequest "format" request format;
  _ ← put R4AudioWireOpenRequest "fixed_volume" request fixed_volume;
  _ ← clear R4AudioWireResult (af_response fr);
  call ← r4_service_connection_call_struct connection R4OS_AUDIO_SERVICE_OP_OPEN_STREAM request (sizeof R4AudioWireOpenRequest)
           (af_response fr) (sizeof R4AudioWireResult) timeout (fr_state (af_call fr)) (fr_header (af_call fr));
  if call_is R4_SERVICE_CALL_TIMED_OUT call then _ ← r4_service_connection_close connection; mret (audio_timed_out 0) else
  accepted ← audio_accepted call (af_response fr) R4OS_AUDIO_SERVICE_OP_OPEN_STREAM;
  id ← (if accepted : bool then get R4AudioWireResult "stream_id" (af_response fr) else mret 0);
  if id =? 0 then
    failed ← audio_refused call (af_response fr) 0;
    _ ← r4_service_connection_close connection;
    mret failed
  else
    _ ← memcpy (stream_connection out) connection (sizeof R4ServiceConnection);
    _ ← put R4AudioStream "stream_id" out id;
    _ ← put R4AudioStream "owned" out 1;
    mret (r4_audio_result R4_AUDIO_RESULT_OK R4OS_OK 0).

(** The room for samples in one message. *)
Definition chunk_capacity : Z := R4OS_SERVICE_API_MAX_PAYLOAD - sizeof R4AudioWireWriteRequest.

(** The message for the [chunk] bytes at [data]: the request and the bytes. *)
Definition fill_request (stream chunk request : Z) : M K () :=
  _ ← clear R4AudioWireWriteRequest request;
  _ ← put R4AudioWireWriteRequest "magic" request R4OS_AUDIO_SERVICE_REQUEST_MAGIC;
  _ ← put R4AudioWireWriteRequest "version" request R4OS_AUDIO_SERVICE_REQUEST_VERSION;
  id ← get R4AudioStream "stream_id" stream;
  _ ← put R4AudioWireWriteRequest "stream_id" request id;
  put R4AudioWireWriteRequest "byte_count" request chunk.

Definition fill_payload (stream data chunk : Z) (fr : audio_frame) : M K () :=
  _ ← fill_request stream chunk (af_request fr);
  _ ← r4_audio_copy_bytes (af_payload fr) (af_request fr) (sizeof R4AudioWireWriteRequest);
  r4_audio_copy_bytes (af_payload fr + sizeof R4AudioWireWriteRequest) data chunk.

(** The answer to it: the result to return, or the bytes the service took. *)
Definition chunk_answer (call : R4ServiceCallResult) (offset chunk : Z) (fr : audio_frame) : M K (R4AudioResult + Z) :=
  if call_is R4_SERVICE_CALL_TIMED_OUT call then mret (inl (audio_timed_out offset)) else
  accepted ← audio_accepted call (af_response fr) R4OS_AUDIO_SERVICE_OP_WRITE_STREAM;
  bytes ← (if accepted : bool then get R4AudioWireResult "bytes" (af_response fr) else mret 0);
  if (bytes =? 0) || (chunk <? bytes) then failed ← audio_refused call (af_response fr) offset; mret (inl failed)
  else mret (inr bytes).

(** One round of the loop at [offset]. *)
Definition write_chunk (stream data offset data_len : Z) (timeout : R4Timeout) (fr : audio_frame) : M K (R4AudioResult + Z) :=
  let chunk := Z.min (data_len - offset) chunk_capacity in
  _ ← fill_payload stream (data + offset) chunk fr;
  _ ← clear R4AudioWireResult (af_response fr);
  call ← r4_service_connection_call_struct (stream_connection stream) R4OS_AUDIO_SERVICE_OP_WRITE_STREAM (af_payload fr)
           (sizeof R4AudioWireWriteRequest + chunk) (af_response fr) (sizeof R4AudioWireResult) timeout
           (fr_state (af_call fr)) (fr_header (af_call fr));
  chunk_answer call offset chunk fr.

(** [while (offset < data_len)]: [None] is that [fuel] rounds were not enough. *)
Fixpoint write_loop (fuel : nat) (stream data offset data_len : Z) (timeout : R4Timeout) (fr : audio_frame) : M K (option R4AudioResult) :=
  if negb (offset <? data_len) then mret (Some (r4_audio_result R4_AUDIO_RESULT_OK R4OS_OK offset)) else
  match fuel with
  | O => mret None
  | S fuel =>
      step ← write_chunk stream data offset data_len timeout fr;
      match step with
      | inl result => mret (Some result)
      | inr bytes => write_loop fuel stream data (Prelude.u32 (offset + bytes)) data_len timeout fr
      end
  end.

Definition r4_audio_stream_write (fuel : nat) (stream data data_len : Z) (timeout : R4Timeout) (fr : audio_frame) : M K (option R4AudioResult) :=
  valid ← r4_audio_stream_valid stream;
  if negb valid then mret (Some (audio_failed R4OS_ERR_CLOSED 0)) else
  if negb (data_len =? 0) && (data =? 0) then mret (Some (audio_failed R4OS_SERVICE_API_RESULT_INVALID 0)) else
  write_loop fuel stream data 0 data_len timeout fr.

Definition r4_audio_stream_control (stream op volume : Z) (timeout : R4Timeout) (closes : bool) (fr : audio_frame) : M K R4AudioResult :=
  valid ← r4_audio_stream_valid stream;
  if negb valid then mret (audio_failed R4OS_ERR_CLOSED 0) else
  let request := af_request fr in
  _ ← clear R4AudioWireControlRequest request;
  _ ← put R4AudioWireControlRequest "magic" request R4OS_AUDIO_SERVICE_REQUEST_MAGIC;
  _ ← put R4AudioWireControlRequest "version" request R4OS_AUDIO_SERVICE_REQUEST_VERSION;
  id ← get R4AudioStream "stream_id" stream;
  _ ← put R4AudioWireControlRequest "stream_id" request id;
  _ ← put R4AudioWireControlRequest "fixed_volume" request volume;
  _ ← clear R4AudioWireResult (af_response fr);
  call ← r4_service_connection_call_struct (stream_connection stream) op request (sizeof R4AudioWireControlRequest)
           (af_response fr) (sizeof R4AudioWireResult) timeout (fr_state (af_call fr)) (fr_header (af_call fr));
  if call_is R4_SERVICE_CALL_TIMED_OUT call then mret (audio_timed_out 0) else
  accepted ← audio_accepted call (af_response fr) op;
  if negb accepted then audio_refused call (af_response fr) 0 else
  _ ← (if closes then
         _ ← put R4AudioStream "stream_id" stream 0;
         _ ← put R4AudioStream "owned" stream 0;
         _ ← r4_service_connection_close (stream_connection stream);
         mret ()
       else mret ());
  mret (r4_audio_result R4_AUDIO_RESULT_OK R4OS_OK 0).

Definition r4_audio_stream_set_volume (stream volume : Z) (timeout : R4Timeout) (fr : audio_frame) : M K R4AudioResult :=
  r4_audio_stream_control stream R4OS_AUDIO_SERVICE_OP_SET_STREAM_VOLUME volume timeout false fr.
Definition r4_audio_stream_close (stream : Z) (timeout : R4Timeout) (fr : audio_frame) : M K R4AudioResult :=
  r4_audio_stream_control stream R4OS_AUDIO_SERVICE_OP_CLOSE_STREAM 65536 timeout true fr.

(** ** The synthesizers *)

Definition synth_call (name : string) (audio : Z) (args : list Z) : M K Z :=
  f ← view_slot R4XStartR4Audio "audio.table" name audio;
  if f =? 0 then mret R4OS_ERR_NO_FN else call_i32 f args.

Definition r4_audio_sid_acquire (audio : Z) : M K Z := synth_call "sid_acquire" audio [].
Definition r4_audio_sid_write_register (audio handle reg value : Z) : M K Z := synth_call "sid_write_register" audio [handle; reg; value].
Definition r4_audio_sid_release (audio handle : Z) : M K Z := synth_call "sid_release" audio [handle].
Definition r4_audio_midi_open_synth (audio backend : Z) : M K Z := synth_call "midi_open_synth" audio [backend].
Definition r4_audio_midi_send (audio handle channel status data1 data2 : Z) : M K Z :=
  synth_call "midi_send" audio [handle; channel; status; data1; data2].
Definition r4_audio_midi_close (audio handle : Z) : M K Z := synth_call "midi_close" audio [handle].
Definition r4_audio_opl3_write_register (audio bank reg value : Z) : M K Z := synth_call "opl3_write_register" audio [bank; reg; value].
Definition r4_audio_opl3_reset (audio : Z) : M K Z := synth_call "opl3_reset" audio [].
Definition r4_audio_opl3_render_block (audio : Z) : M K Z := synth_call "opl3_render_block" audio [].
Definition r4_audio_opl3_stop (audio : Z) : M K Z := synth_call "opl3_stop" audio [].
End code.

Example synth_slots : forallb (is_slot R4XStartR4Audio) ["audio_open_stream"; "sid_acquire"; "sid_write_register"; "sid_release";
  "midi_open_synth"; "midi_send"; "midi_close"; "opl3_write_register"; "opl3_reset"; "opl3_render_block"; "opl3_stop"] = true.
Proof. vm_compute. reflexivity. Qed.

End R4AppAudio.
