(* ===== verification/R4AudioWrite.v ===== *)
(** * Writing a stream

    [r4_audio_stream_write] against a service that keeps what it has accepted. The
    local variables are in 4768 bytes at [stack]: those of the service call, then
    the request, the payload and the response. *)

From S2P Require Import Prelude R4Abi R4Mem R4L R4LSpec.
From S2P Require Import R4Table R4Sys R4SysSpec R4SysInit R4Field R4Group R4Dev R4Time.
From S2P Require Import R4App R4Services R4ServiceArea R4FacadeCall R4AppDevices R4AppAudio.

Module R4AudioWrite.
Export R4FacadeCall R4AppAudio.

Definition audio_room : Z := 4768.
Definition audio_frame_at (stack name : Z) : audio_frame :=
  AudioFrame (frame_at stack) (stack + 520) (stack + 552) (stack + 4648) name.

(** The service: [played] are the bytes it has accepted. A call only ever adds to them; an
    answer to a write that reports success has added the first bytes of the
    message, as many as it says. *)
Class AudioService (K : Type) `{!Kernel K} (fs : service_functions) (played : K → list byte) : Prop := {
  time_played : ∀ w state, played (kern (snd (kcall (f_time fs) [state] w))) = played (kern w);
  call_played : ∀ w id op request len header response capacity ticks,
    let r := kcall (f_call fs) [id; op; request; len; header; response; capacity; ticks] w in
    ∃ more, played (kern (snd r)) = played (kern w) ++ more ∧
      ∀ message, read_bytes (mem w) request (Z.to_nat len) = Some message →
        op = R4OS_AUDIO_SERVICE_OP_WRITE_STREAM → i32 (fst r) = sizeof R4AudioWireResult →
        0 ≤ i32 (fv (mem (snd r)) R4AudioWireResult response "result") →
        more = take (Z.to_nat (fv (mem (snd r)) R4AudioWireResult response "bytes")) (drop 20 message)
}.

Section write.
Context {K : Type} `{!Kernel K} (fs : service_functions) `{!ServiceKernel K fs} (played : K → list byte) `{!AudioService K fs played}.
Variables (app tab stack name : Z) (α : string → Z).
Implicit Types (w : world K) (m : gmap Z byte).

Abbreviation local := (span stack audio_room).
Abbreviation fr := (audio_frame_at stack name).
Abbreviation hosted := (host fs app tab stack audio_room α).
Abbreviation link := (linked app tab stack).

Lemma audio_room_ok : 520 ≤ audio_room.
Proof. vm_compute. discriminate. Qed.

(** The stream, whose connection is its first part. *)
Record stream_at m (stream : Z) : Prop := {
  st_link : link m stream;
  st_mapped : mapped m stream 240;
  st_apart : avoids local stream 240
}.

(** The memory that is written: the local variables and the connection. *)
Definition writes (stream x : Z) : Prop := local x ∨ span stream 232 x.

Section round.
Variables (stream data : Z) (l : list byte).
Abbreviation len := (Z.of_nat (length l)).

(** The program's data is elsewhere. *)
Definition data_apart : Prop := avoids (writes stream) data len.

(** What holds before every round. *)
Record ready m : Prop := {
  re_host : hosted m;
  re_stream : stream_at m stream;
  re_data : bytes_at m data l
}.

Lemma stream_local m p n : stream_at m stream → stack ≤ p → p + n ≤ stack + audio_room → avoids (span stream 232) p n.
Proof. intros Hs H1 H2 x Hx Hy. apply (st_apart _ _ Hs x); unfold span in *; lia. Qed.

Hypothesis Hdata : data_apart.

Lemma ready_local m m' p n :
  ready m → changed m m' p n → stack ≤ p → p + n ≤ stack + audio_room → ready m' ∧ confined local m m'.
Proof.
  intros [Hh Hs Hb] Hc H1 H2. destruct (local_changed _ _ _ _ _ _ _ _ _ _ Hh Hc H1 H2) as [Hcf Hh']. split; [|exact Hcf]. split; [done|split|].
  - eapply linked_changed; [apply Hs|exact Hc|by eapply stream_local].
  - eapply changed_mapped; [exact Hc|apply Hs].
  - apply Hs.
  - eapply confined_bytes; [exact Hcf| |exact Hb]. intros x Hx Hy. apply (Hdata x Hx). by left.
Qed.

(** ** The message *)

(** Code that keeps to the local variables. *)
Definition keeps_local w w' : Prop := kern w' = kern w ∧ ready (mem w') ∧ confined local (mem w) (mem w').

Lemma keeps_local_trans w1 w2 w3 : keeps_local w1 w2 → keeps_local w2 w3 → keeps_local w1 w3.
Proof. intros (K1 & _ & C1) (K2 & R2 & C2). split_and!; [congruence|done|by eapply confined_trans]. Qed.

Lemma audio_request_put w σ f v q k :
  ready (mem w) → struct_at (mem w) R4AudioWireWriteRequest (stack + 520) σ → field_at R4AudioWireWriteRequest f = Some (q, k) →
  ∃ w', put R4AudioWireWriteRequest f (stack + 520) v w = Some ((), w') ∧ keeps_local w w' ∧
    struct_at (mem w') R4AudioWireWriteRequest (stack + 520) (upd σ f (v mod 2 ^ (8 * Z.of_nat k))).
Proof.
  intros Hr Hs Hf. destruct (struct_put_mod w R4AudioWireWriteRequest _ σ f v q k eq_refl Hf Hs) as (m' & Hp & Hc & Hs').
  destruct (ready_local _ _ _ _ Hr Hc) as [Hr' Hcf]; [lia|change (sizeof R4AudioWireWriteRequest) with 20; unfold audio_room; lia|].
  eexists. split; [exact Hp|]. by split.
Qed.

Lemma local_copy w o src l' :
  ready (mem w) → 520 ≤ o → o + Z.of_nat (length l') ≤ audio_room → bytes_at (mem w) src l' →
  avoids (span (stack + o) (Z.of_nat (length l'))) src (Z.of_nat (length l')) →
  ∃ w', copy_loop (length l') (stack + o) src w = Some ((), w') ∧ keeps_local w w' ∧
    changed (mem w) (mem w') (stack + o) (Z.of_nat (length l')) ∧ bytes_at (mem w') (stack + o) l'.
Proof.
  intros Hr H1 H2 Hb Ha. destruct (copy_loop_run w (stack + o) src l' Hb) as (m' & Hp & Hc & Hb'); [|exact Ha|].
  { eapply host_local; [apply Hr|lia|lia]. }
  destruct (ready_local _ _ _ _ Hr Hc) as [Hr' Hcf]; [lia|lia|]. eexists. split; [exact Hp|]. by split.
Qed.

(** The request is written. *)
Lemma fill_request_run w chunk :
  ready (mem w) →
  ∃ w', fill_request stream chunk (stack + 520) w = Some ((), w') ∧ keeps_local w w'.
Proof.
  intros Hr. unfold fill_request. destruct (clear_struct w R4AudioWireWriteRequest (stack + 520) eq_refl ltac:(vm_compute; discriminate)) as (m1 & Hr1 & Hc1 & Hs1).
  { eapply host_local; [apply Hr|change (sizeof R4AudioWireWriteRequest) with 20; unfold audio_room; lia..]. }
  rewrite (mbind_run _ _ _ _ _ Hr1). clear Hr1. destruct (ready_local _ _ _ _ Hr Hc1) as [Re1 C1]; [lia|change (sizeof R4AudioWireWriteRequest) with 20; unfold audio_room; lia|].
  set (w1 := World m1 (kern w)). assert (keeps_local w w1) as Q1 by done.
  destruct (audio_request_put w1 _ "magic" R4OS_AUDIO_SERVICE_REQUEST_MAGIC 0 4%nat Re1 Hs1 eq_refl) as (w2 & Hr2 & Q2 & Hs2). rewrite (mbind_run _ _ _ _ _ Hr2). clear Hr2.
  destruct (audio_request_put w2 _ "version" R4OS_AUDIO_SERVICE_REQUEST_VERSION 4 2%nat (proj1 (proj2 Q2)) Hs2 eq_refl) as (w3 & Hr3 & Q3 & Hs3). rewrite (mbind_run _ _ _ _ _ Hr3). clear Hr3.
  pose proof (proj1 (proj2 Q3)) as Re3. rewrite (mbind_run _ _ _ _ _ (get_run w3 R4AudioStream "stream_id" stream 240 (st_mapped _ _ (re_stream _ Re3)) eq_refl)).
  destruct (audio_request_put w3 _ "stream_id" (fv (mem w3) R4AudioStream stream "stream_id") 8 4%nat Re3 Hs3 eq_refl) as (w4 & Hr4 & Q4 & Hs4). rewrite (mbind_run _ _ _ _ _ Hr4). clear Hr4.
  destruct (audio_request_put w4 _ "byte_count" chunk 12 4%nat (proj1 (proj2 Q4)) Hs4 eq_refl) as (w5 & Hr5 & Q5 & Hs5).
  exists w5. split; [exact Hr5|]. eapply keeps_local_trans; [exact Q1|]. eapply keeps_local_trans; [exact Q2|]. eapply keeps_local_trans; [exact Q3|]. by eapply keeps_local_trans.
Qed.

Lemma fill_payload_run w offset chunk :
  ready (mem w) → 0 ≤ offset → 0 ≤ chunk ≤ chunk_capacity → offset + chunk ≤ len →
  ∃ w' h, fill_payload stream (data + offset) chunk fr w = Some ((), w') ∧ keeps_local w w' ∧ length h = 20%nat ∧
    bytes_at (mem w') (stack + 552) (h ++ take (Z.to_nat chunk) (drop (Z.to_nat offset) l)).
Proof.
  intros Hr Ho Hch Hle. unfold fill_payload, r4_audio_copy_bytes. cbn [audio_frame_at af_request af_payload].
  change chunk_capacity with 4076 in Hch. change (sizeof R4AudioWireWriteRequest) with 20.
  destruct (fill_request_run w chunk Hr) as (w1 & Hr1 & Q1). pose proof (proj1 (proj2 Q1)) as Re1. rewrite (mbind_run _ _ _ _ _ Hr1). clear Hr1.
  (* the request *)
  destruct (read_bytes_mapped (mem w1) (stack + 520) 20) as (h & Hh & Hlen); [eapply host_local; [apply Re1|unfold audio_room; lia..]|].
  destruct (local_copy w1 552 (stack + 520) h Re1) as (w2 & Hr2 & Q2 & Hc2 & Hb2); rewrite ?Hlen in *;
    [lia|unfold audio_room; lia|unfold bytes_at; by rewrite Hlen|intros x Hx Hy; unfold span in *; lia|].
  (* the samples *)
  pose proof (proj1 (proj2 Q2)) as Re2. set (d := take (Z.to_nat chunk) (drop (Z.to_nat offset) l)).
  assert (length d = Z.to_nat chunk) as Hd by (unfold d; rewrite length_take, length_drop; lia).
  assert (bytes_at (mem w2) (data + offset) d) as Hbd.
  { pose proof (re_data _ Re2) as Hb. rewrite <-(take_drop (Z.to_nat offset) l) in Hb. apply bytes_app in Hb as [_ Hb].
    rewrite length_take in Hb. replace (data + Z.of_nat (Z.to_nat offset `min` length l)) with (data + offset) in Hb by lia.
    rewrite <-(take_drop (Z.to_nat chunk) (drop (Z.to_nat offset) l)) in Hb. by apply bytes_app in Hb as [Hb _]. }
  destruct (local_copy w2 572 (data + offset) d Re2) as (w3 & Hr3 & Q3 & Hc3 & Hb3);
    [lia|rewrite Hd; unfold audio_room; lia|exact Hbd| |].
  { rewrite Hd. intros x Hx Hy. apply (Hdata x); [|left]; unfold span, audio_room in *; lia. }
  exists w3, h. change (Z.to_nat 20) with 20%nat. rewrite (mbind_run _ _ _ _ _ Hr2), <-Hd, <-Z.add_assoc. split; [exact Hr3|].
  split; [eapply keeps_local_trans; [exact Q1|by eapply keeps_local_trans]|]. split; [exact Hlen|]. apply bytes_app. rewrite Hlen. split.
  - eapply bytes_changed; [exact Hc3|rewrite Hlen; lia|exact Hb2].
  - rewrite <-Z.add_assoc. exact Hb3.
Qed.

(** ** The answer *)

Lemma response_get w f : mapped (mem w) (stack + 4648) 120 → field_in R4AudioWireResult f 120 = true →
  get R4AudioWireResult f (stack + 4648) w = Some (fv (mem w) R4AudioWireResult (stack + 4648) f, w).
Proof. intros Hm Hf. exact (get_run w R4AudioWireResult f _ 120 Hm Hf). Qed.

Lemma accepted_run w call op :
  mapped (mem w) (stack + 4648) 120 →
  ∃ b, audio_accepted call (stack + 4648) op w = Some (b, w) ∧
    (b = true → call_kind call = R4_SERVICE_CALL_RESPONSE ∧ 0 ≤ i32 (fv (mem w) R4AudioWireResult (stack + 4648) "result")).
Proof.
  intros Hm. unfold audio_accepted, r4_audio_response_valid, call_is. case_bool_decide as Hk; cbn [negb]; [|by exists false].
  assert (∃ v, r4_audio_response_valid (stack + 4648) op w = Some (v, w)) as [v Hv].
  { unfold r4_audio_response_valid. rewrite (mbind_run _ _ _ _ _ (response_get w "magic" Hm eq_refl)). destruct (negb _); [by eexists|].
    rewrite (mbind_run _ _ _ _ _ (response_get w "version" Hm eq_refl)). destruct (negb _); [by eexists|].
    rewrite (mbind_run _ _ _ _ _ (response_get w "action" Hm eq_refl)). by eexists. }
  unfold r4_audio_response_valid in Hv. rewrite (mbind_run _ _ _ _ _ Hv). destruct v; cbn [negb]; [|by exists false].
  rewrite (mbind_run _ _ _ _ _ (response_get w "result" Hm eq_refl)). eexists. split; [reflexivity|]. intros Hle%Z.leb_le. done.
Qed.

Lemma audio_refused_run w call bytes :
  mapped (mem w) (stack + 4648) 120 → ∃ raw, audio_refused call (stack + 4648) bytes w = Some (audio_failed raw bytes, w).
Proof.
  intros Hm. unfold audio_refused. destruct (call_is _ call); [rewrite (mbind_run _ _ _ _ _ (response_get w "result" Hm eq_refl))|]; by eexists.
Qed.

Lemma chunk_answer_run w call offset chunk :
  mapped (mem w) (stack + 4648) 120 →
  ∃ step, chunk_answer call offset chunk fr w = Some (step, w) ∧
    match step with
    | inl r => audio_bytes r = offset ∧ audio_kind r ≠ R4_AUDIO_RESULT_OK
    | inr n => call_kind call = R4_SERVICE_CALL_RESPONSE ∧ n = fv (mem w) R4AudioWireResult (stack + 4648) "bytes" ∧ 0 < n ≤ chunk ∧
        0 ≤ i32 (fv (mem w) R4AudioWireResult (stack + 4648) "result")
    end.
Proof.
  intros Hm. unfold chunk_answer. cbn [audio_frame_at af_response]. destruct (call_is _ call); [by eexists|].
  destruct (accepted_run w call R4OS_AUDIO_SERVICE_OP_WRITE_STREAM Hm) as (b & Hb & Hok). rewrite (mbind_run _ _ _ _ _ Hb). clear Hb.
  destruct (audio_refused_run w call offset Hm) as [raw Hraw]. destruct b.
  - rewrite (mbind_run _ _ _ _ _ (response_get w "bytes" Hm eq_refl)). set (n := fv _ _ _ "bytes").
    assert (0 ≤ n) by apply fv_nonneg. destruct (Z.eqb_spec n 0) as [->|]; cbn [orb]; [rewrite (mbind_run _ _ _ _ _ Hraw); by eexists|].
    destruct (Z.ltb_spec chunk n); [rewrite (mbind_run _ _ _ _ _ Hraw); by eexists|]. eexists. split; [reflexivity|]. destruct (Hok eq_refl). split_and!; [done|done|lia|lia|done].
  - change ((mret 0 : M K Z) ≫= ?f) with (f 0). cbv beta. change (0 =? 0) with true. cbn [orb]. rewrite (mbind_run _ _ _ _ _ Hraw). by eexists.
Qed.

(** ** One round *)

Lemma struct_call_run w c op request n response capacity timeout result w' :
  r4_service_connection_call c op request n response capacity timeout (stack + 456) (stack + 488) w = Some (result, w') →
  ∃ received, r4_service_connection_call_struct c op request n response capacity timeout (stack + 456) (stack + 488) w = Some (received, w') ∧
    (call_kind received = R4_SERVICE_CALL_RESPONSE → call_kind result = R4_SERVICE_CALL_RESPONSE ∧ call_bytes result = capacity).
Proof.
  intros Hr. unfold r4_service_connection_call_struct. rewrite (mbind_run _ _ _ _ _ Hr).
  case_bool_decide as Hk; cbn [andb]; [|eexists; split; [reflexivity|by intros ?%Hk]].
  destruct (Z.eqb_spec (call_bytes result) capacity); cbn [negb]; (eexists; split; [reflexivity|]); [done|intros [=]].
Qed.

Lemma asked_played w w1 : asked fs stack w w1 → played (kern w1) = played (kern w).
Proof. intros [->|(_ & m0 & ->)]; [done|]. apply (time_played (World m0 (kern w))). Qed.

(** What a call has added. *)
Lemma made_played w n result w' message :
  made fs stack w R4OS_AUDIO_SERVICE_OP_WRITE_STREAM (stack + 552) n (stack + 4648) 120 result w' →
  read_bytes (mem w) (stack + 552) (Z.to_nat n) = Some message →
  ∃ more, played (kern w') = played (kern w) ++ more ∧
    (call_kind result = R4_SERVICE_CALL_RESPONSE → call_bytes result = 120 →
     0 ≤ i32 (fv (mem w') R4AudioWireResult (stack + 4648) "result") →
     more = take (Z.to_nat (fv (mem w') R4AudioWireResult (stack + 4648) "bytes")) (drop 20 message)).
Proof.
  intros (w1 & Hask & Hm) Hmsg. apply asked_played in Hask. destruct Hm as [[-> Hk]|(id & ticks & m2 & Hc & Hkern & Hresp)].
  { exists []. rewrite app_nil_r. done. }
  destruct (call_played (World m2 (kern w1)) id R4OS_AUDIO_SERVICE_OP_WRITE_STREAM (stack + 552) n (stack + 488) (stack + 4648) 120 ticks) as (more & Hp & Hmore).
  exists more. rewrite Hkern, Hp, <-Hask. split; [done|]. intros Hk Hb Hres. destruct (Hresp Hk) as [Hw E]. rewrite Hw in Hres |- *.
  apply Hmore; [|reflexivity|change (sizeof R4AudioWireResult) with 120; congruence|exact Hres]. cbn [mem]. rewrite <-Hmsg. apply read_bytes_ext. intros x Hx. apply (ch_out _ _ _ _ Hc). lia.
Qed.

Lemma write_chunk_run w offset timeout :
  ready (mem w) → 0 ≤ offset < len →
  ∃ step w', write_chunk stream data offset len timeout fr w = Some (step, w') ∧ ready (mem w') ∧ confined (writes stream) (mem w) (mem w') ∧
    ∃ more, played (kern w') = played (kern w) ++ more ∧
    match step with
    | inl r => audio_bytes r = offset ∧ audio_kind r ≠ R4_AUDIO_RESULT_OK
    | inr n => 0 < n ≤ len - offset ∧ more = take (Z.to_nat n) (drop (Z.to_nat offset) l)
    end.
Proof.
  intros Hr Ho. unfold write_chunk. cbv zeta. set (chunk := Z.min _ _). assert (0 ≤ chunk ≤ chunk_capacity ∧ offset + chunk ≤ len) as [Hch Hle].
  { unfold chunk. change chunk_capacity with 4076. lia. }
  destruct (fill_payload_run w offset chunk Hr ltac:(lia) Hch Hle) as (w1 & h & Hr1 & (K1 & Re1 & C1) & Hlen & Hb1).
  rewrite (mbind_run _ _ _ _ _ Hr1). clear Hr1. cbn [audio_frame_at af_response af_call af_payload frame_at fr_state fr_header].
  destruct (clear_struct w1 R4AudioWireResult (stack + 4648) eq_refl ltac:(vm_compute; discriminate)) as (m2 & Hr2 & Hc2 & _).
  { eapply host_local; [apply Re1|change (sizeof R4AudioWireResult) with 120; unfold audio_room; lia..]. }
  rewrite (mbind_run _ _ _ _ _ Hr2). clear Hr2. change (sizeof R4AudioWireResult) with 120 in *.
  destruct (ready_local _ _ _ _ Re1 Hc2) as [Re2 C2]; [lia|unfold audio_room; lia|]. set (w2 := World m2 (kern w1)) in *.
  unfold stream_connection. change (offsetof R4AudioStream "connection") with 0. rewrite Z.add_0_r. change (sizeof R4AudioWireWriteRequest) with 20.
  set (d := take (Z.to_nat chunk) (drop (Z.to_nat offset) l)) in Hb1.
  assert (length d = Z.to_nat chunk) as Hd by (unfold d; rewrite length_take, length_drop; lia).
  assert (read_bytes (mem w2) (stack + 552) (Z.to_nat (20 + chunk)) = Some (h ++ d)) as Hmsg.
  { assert (bytes_at m2 (stack + 552) (h ++ d)) as Hb2.
    { eapply bytes_changed; [exact Hc2| |exact Hb1]. rewrite length_app, Hlen, Hd. change chunk_capacity with 4076 in Hch. lia. }
    unfold bytes_at in Hb2. rewrite length_app, Hlen, Hd in Hb2. by replace (Z.to_nat (20 + chunk)) with (20 + Z.to_nat chunk)%nat by lia. }
  destruct (link_call_run _ _ _ _ _ _ audio_room_ok w2 stream R4OS_AUDIO_SERVICE_OP_WRITE_STREAM (stack + 552) (20 + chunk) (stack + 4648) 120 timeout
    (re_host _ Re2) (st_link _ _ (re_stream _ Re2))) as (result & w3 & Hr3 & C3 & Hh3 & Hl3 & Hb & Hmade); [lia|unfold audio_room; lia| |].
  { eapply stream_local; [apply Re2|lia|unfold audio_room; lia]. }
  destruct (struct_call_run _ _ _ _ _ _ _ _ _ _ Hr3) as (call & Hr4 & Hcall). rewrite (mbind_run _ _ _ _ _ Hr4). clear Hr3 Hr4.
  destruct (made_played _ _ _ _ _ Hmade Hmsg) as (more & Hp & Hmore).
  destruct (chunk_answer_run w3 call offset chunk) as (step & Hs & Hstep); [eapply host_local; [exact Hh3|unfold audio_room; lia..]|].
  exists step, w3. split; [exact Hs|]. assert (confined (writes stream) (mem w) (mem w3)) as C.
  { eapply confined_trans; [eapply confined_weaken; [|exact C1]; intros x Hx; by left|].
    eapply confined_trans; [eapply confined_weaken; [|exact C2]; intros x Hx; by left|]. exact C3. }
  split; [|split; [exact C|]].
  - destruct (re_stream _ Hr) as [_ Hm Ha]. split; [exact Hh3|split; [exact Hl3|by eapply confined_mapped|exact Ha]|].
    eapply confined_bytes; [exact C|exact Hdata|apply Hr].
  - exists more. rewrite Hp, <-K1. split; [done|]. destruct step as [r|n]; [exact Hstep|]. destruct Hstep as (Hk & -> & Hn & Hres).
    destruct (Hcall Hk) as [Hk' Hb']. split; [unfold chunk in *; lia|]. rewrite (Hmore Hk' Hb' Hres), drop_app_le, drop_ge by lia.
    cbn [Datatypes.app]. unfold d. rewrite take_take. f_equal. lia.
Qed.

(** ** The loop *)

Lemma write_loop_run fuel w offset timeout :
  ready (mem w) → 0 ≤ offset ≤ len → len - offset ≤ Z.of_nat fuel → len < 2 ^ 32 →
  ∃ result w', write_loop fuel stream data offset len timeout fr w = Some (Some result, w') ∧ confined (writes stream) (mem w) (mem w') ∧
    offset ≤ audio_bytes result ≤ len ∧ (audio_kind result = R4_AUDIO_RESULT_OK ↔ audio_bytes result = len) ∧
    ∃ rest, played (kern w') = played (kern w) ++ take (Z.to_nat (audio_bytes result - offset)) (drop (Z.to_nat offset) l) ++ rest ∧
      (audio_kind result = R4_AUDIO_RESULT_OK → rest = []).
Proof.
  revert w offset. induction fuel as [|fuel IH]; intros w offset Hr Ho Hf Hlen; cbn [write_loop].
  all: destruct (Z.ltb_spec offset len) as [Hlt|Hge]; cbn [negb].
  - lia.
  - assert (offset = len) as -> by lia. eexists _, w. split; [reflexivity|]. cbn [audio_bytes audio_kind r4_audio_result]. split_and!; [apply confined_refl|lia|lia|done|].
    exists []. rewrite Z.sub_diag, !app_nil_r. done.
  - destruct (write_chunk_run w offset timeout Hr ltac:(lia)) as (step & w1 & Hs & Hr1 & C1 & more & Hp & Hstep). rewrite (mbind_run _ _ _ _ _ Hs). clear Hs.
    destruct step as [r|n].
    + destruct Hstep as [Eb Hk]. exists r, w1. split; [reflexivity|]. rewrite Eb. split_and!; [exact C1|lia|lia|split; [done|lia]|].
      exists more. rewrite Z.sub_diag. cbn [Datatypes.app take]. split; [exact Hp|done].
    + destruct Hstep as [Hn Hmore]. rewrite u32_small by (unfold is_u32; lia).
      destruct (IH w1 (offset + n) Hr1 ltac:(lia) ltac:(lia) Hlen) as (r & w' & Hw & C2 & Hb & Hok & rest & Hp' & Hrest).
      exists r, w'. split; [exact Hw|]. split_and!; [by eapply confined_trans|lia|lia|exact Hok|]. exists rest. split; [|exact Hrest].
      rewrite Hp', Hp, Hmore, <-app_assoc, (app_assoc (take _ (drop _ _))). f_equal. f_equal.
      replace (Z.to_nat (audio_bytes r - offset)) with (Z.to_nat n + Z.to_nat (audio_bytes r - (offset + n)))%nat by lia.
      rewrite <-take_take_drop, drop_drop. do 3 f_equal. lia.
  - assert (offset = len) as -> by lia. eexists _, w. split; [reflexivity|]. cbn [audio_bytes audio_kind r4_audio_result]. split_and!; [apply confined_refl|lia|lia|done|].
    exists []. rewrite Z.sub_diag, !app_nil_r. done.
Qed.

Lemma stream_valid_run w : ready (mem w) → ∃ b, r4_audio_stream_valid stream w = Some (b, w).
Proof.
  intros [_ [Hl Hm _] _]. unfold r4_audio_stream_valid, stream_connection, r4_service_connection_valid. destruct (_ =? 0); [by eexists|].
  rewrite (mbind_run _ _ _ _ _ (get_run w R4AudioStream "owned" stream 240 Hm eq_refl)). destruct (_ =? 0); [by eexists|].
  rewrite (mbind_run _ _ _ _ _ (get_run w R4AudioStream "stream_id" stream 240 Hm eq_refl)). destruct (_ =? 0); [by eexists|].
  change (offsetof R4AudioStream "connection") with 0. rewrite Z.add_0_r. by eapply linked_valid.
Qed.

(** C39. Writing to a stream returns: as many rounds as there are bytes are enough,
    whatever the service answers. It reports no more bytes than it was given,
    and all of them if it reports success. The service has then accepted
    exactly the data, in order; otherwise it has accepted the reported bytes,
    from the start of the data, and possibly more in the call that failed. No
    memory is written but the local variables and the connection. *)
Theorem audio_write_delivers w timeout :
  ready (mem w) → len < 2 ^ 32 →
  ∃ result w', r4_audio_stream_write (length l) stream data len timeout fr w = Some (Some result, w') ∧
    confined (writes stream) (mem w) (mem w') ∧ 0 ≤ audio_bytes result ≤ len ∧
    (audio_kind result = R4_AUDIO_RESULT_OK → audio_bytes result = len) ∧
    ∃ rest, played (kern w') = played (kern w) ++ take (Z.to_nat (audio_bytes result)) l ++ rest ∧
      (audio_kind result = R4_AUDIO_RESULT_OK → rest = []).
Proof.
  intros Hr Hlen. unfold r4_audio_stream_write. destruct (stream_valid_run w Hr) as [b Hb]. rewrite (mbind_run _ _ _ _ _ Hb). clear Hb.
  assert (∀ raw, ∃ result w', Some (Some (audio_failed raw 0), w) = Some (Some result, w') ∧ confined (writes stream) (mem w) (mem w') ∧
    0 ≤ audio_bytes result ≤ len ∧ (audio_kind result = R4_AUDIO_RESULT_OK → audio_bytes result = len) ∧
    ∃ rest, played (kern w') = played (kern w) ++ take (Z.to_nat (audio_bytes result)) l ++ rest ∧
      (audio_kind result = R4_AUDIO_RESULT_OK → rest = [])) as Hfail.
  { intros raw. eexists _, w. split; [reflexivity|]. split_and!; [apply confined_refl|done|cbn; lia|intros [=]|]. exists []. by rewrite !app_nil_r. }
  destruct (negb b); [apply Hfail|]. destruct (_ && _); [apply Hfail|].
  destruct (write_loop_run (length l) w 0 timeout Hr ltac:(lia) ltac:(lia) Hlen) as (r & w' & Hw & Hc & Hb & Hok & rest & Hp & Hrest).
  exists r, w'. split; [exact Hw|]. split; [exact Hc|]. split; [exact Hb|]. split; [apply Hok|]. exists rest.
  rewrite Z.sub_0_r in Hp. by split.
Qed.
End round.
End write.

(** ** A speaker *)

(** It takes three bytes of every message. *)
Record speaker := Speaker { heard : list byte }.
Definition audio_functions : service_functions := ServiceFunctions 7010 7011 7012 7013 7014 7083 7016 7017 7053.

Definition speaker_header (op : Z) : list byte :=
  struct_bytes R4ServiceMessageHeader [R4OS_SERVICE_API_MAGIC; 1; op].
Definition speaker_answer (op : Z) (taken : list byte) : list byte :=
  struct_bytes R4AudioWireResult [R4OS_AUDIO_SERVICE_RESULT_MAGIC; R4OS_AUDIO_SERVICE_RESULT_VERSION; op; 0; 5; Z.of_nat (length taken)].

Definition speaker_call (w : world speaker) (op request len header response capacity : Z) : option (world speaker) :=
  match read_bytes (mem w) request (Z.to_nat len) with
  | None => None
  | Some message =>
      match write_bytes (mem w) header (speaker_header op) with
      | None => None
      | Some m1 =>
          match write_bytes m1 response (speaker_answer op (take 3 (drop 20 message))) with
          | None => None
          | Some m2 => if capacity =? 120 then Some (World m2 (Speaker (heard (kern w) ++ take 3 (drop 20 message)))) else None
          end
      end
  end.

#[global] Instance speaker_kernel : Kernel speaker := λ f args w,
  match args with
  | [id; op; request; len; header; response; capacity; ticks] =>
      if f =? 7012 then
        match speaker_call w op request len header response capacity with
        | Some w' => (120, w')
        | None => (R4OS_SERVICE_API_RESULT_INVALID, w)
        end
      else (R4OS_SERVICE_API_RESULT_OK, w)
  | _ => (R4OS_SERVICE_API_RESULT_OK, w)
  end.

Lemma speaker_call_law (w : world speaker) op request len header response capacity w' :
  speaker_call w op request len header response capacity = Some w' →
  capacity = 120 ∧ (∃ m1, changed (mem w) m1 header 28 ∧ changed m1 (mem w') response 120) ∧
  ∃ message, read_bytes (mem w) request (Z.to_nat len) = Some message ∧ heard (kern w') = heard (kern w) ++ take 3 (drop 20 message) ∧
    bytes_at (mem w') response (speaker_answer op (take 3 (drop 20 message))).
Proof.
  unfold speaker_call. destruct (read_bytes _ _ _) as [message|]; [|intros [=]].
  destruct (write_bytes (mem w) _ _) as [m1|] eqn:E1; [|intros [=]]. destruct (write_bytes m1 _ _) as [m2|] eqn:E2; [|intros [=]].
  destruct (Z.eqb_spec capacity 120) as [E|]; [|intros [=]]. intros [= <-]. split; [exact E|].
  assert (length (speaker_header op) = 28%nat) as L1 by (vm_compute; reflexivity).
  assert (∀ t, length (speaker_answer op t) = 120%nat) as L2 by (intros t; vm_compute; reflexivity).
  pose proof (write_bytes_changed _ _ _ _ E1) as H1. pose proof (write_bytes_changed _ _ _ _ E2) as H2. rewrite L1 in H1. rewrite L2 in H2.
  split; [exists m1; split; [exact H1|exact H2]|]. exists message. split; [reflexivity|]. split; [reflexivity|]. exact (write_bytes_read _ _ _ _ E2).
Qed.

#[global] Instance speaker_laws : ServiceKernel speaker audio_functions.
Proof.
  split; try (intros; by split).
  - intros w id op request len header response capacity ticks. cbv zeta. unfold kcall, speaker_kernel. cbn [audio_functions f_call]. change (7012 =? 7012) with true. cbv iota.
    destruct (speaker_call _ _ _ _ _ _ _) as [w'|] eqn:E.
    + destruct (speaker_call_law _ _ _ _ _ _ _ _ E) as (-> & Hc & _). split; [exact Hc|]. intros Hl. exfalso. vm_compute in Hl. discriminate Hl.
    + split; [exists (mem w); by split; split|]. intros _. reflexivity.
  - intros. exists (mem w). by split; split.
  - intros w f args Hf%list_elem_of_In. cbn in Hf. destruct args as [|? [|? [|? [|? [|? [|? [|? [|? []]]]]]]]]; try reflexivity.
    by destruct Hf as [<-|[<-|[<-|[<-|[]]]]].
Qed.

Lemma answer_bytes m response op t :
  bytes_at m response (speaker_answer op t) → (length t ≤ 3)%nat → fv m R4AudioWireResult response "bytes" = Z.of_nat (length t).
Proof.
  intros Hb Ht. set (L := speaker_answer op t) in *. rewrite <-(take_drop 16 L), <-(take_drop 4 (drop 16 L)) in Hb.
  assert (length (take 16 L) = 16%nat) as E1 by (unfold L, speaker_answer; vm_compute; reflexivity).
  apply bytes_app in Hb as [_ Hb]. rewrite E1 in Hb. apply bytes_app in Hb as [Hb _].
  assert (length (take 4 (drop 16 L)) = 4%nat) as E2 by (unfold L, speaker_answer; vm_compute; reflexivity).
  unfold bytes_at in Hb. rewrite E2 in Hb. unfold fv. change (field_at R4AudioWireResult "bytes") with (Some (16, 4%nat)). cbv iota.
  change (Z.of_nat 16) with 16 in Hb. rewrite Hb. unfold L, speaker_answer. clear - Ht.
  destruct (length t) as [|[|[|[|n]]]]; [vm_compute; reflexivity..|lia].
Qed.

#[global] Instance speaker_service : AudioService speaker audio_functions heard.
Proof.
  split; [done|]. intros w id op request len header response capacity ticks. cbv zeta. unfold kcall, speaker_kernel. cbn [audio_functions f_call]. change (7012 =? 7012) with true. cbv iota.
  destruct (speaker_call _ _ _ _ _ _ _) as [w'|] eqn:E; cbn [fst snd].
  2: { exists []. split; [by rewrite app_nil_r|]. intros message _ _ Hc. vm_compute in Hc. discriminate Hc. }
  destruct (speaker_call_law _ _ _ _ _ _ _ _ E) as (_ & _ & message & Hm & Hh & Hb). eexists. split; [exact Hh|].
  intros message' Hm' _ _ _. rewrite Hm in Hm'. injection Hm' as <-. set (t := take 3 (drop 20 message)) in *.
  assert (fv (mem w') R4AudioWireResult response "bytes" = Z.of_nat (length t)) as ->.
  { apply answer_bytes with op; [exact Hb|]. unfold t. rewrite length_take. lia. }
  rewrite Nat2Z.id. unfold t. rewrite length_take. destruct (decide (3 ≤ length (drop 20 message))%nat).
  - by rewrite Nat.min_l.
  - rewrite Nat.min_r by lia. by rewrite !take_ge by lia.
Qed.
(** The application at 256 with a table at 4096, a stream with the connection 5 at 512, five
    samples at 800, and the local variables at 8192. *)
Definition audio_memory : gmap Z byte := image [
  (256, struct_bytes R4App_t [0; 0; 4096]); (512, struct_bytes R4ServiceConnection [256; 5; 1] ++ struct_bytes Handle_t [7; 1]);
  (800, [x01; x02; x03; x04; x05]); (8192, replicate (Z.to_nat audio_room) x00);
  (4096, struct_bytes R4XStartR4Sys ([R4XSTART_R4SYS_MAGIC; 14; 1264; 0] ++ map (λ i, 7000 + Z.of_nat i) (seq 0 156)))].
Definition audio_start : world speaker := World audio_memory (Speaker []).
Abbreviation samples := [x01; x02; x03; x04; x05].
Abbreviation demo_stack := (audio_frame_at 8192 900).

Lemma audio_start_ready : ready audio_functions 256 4096 8192 (fv audio_memory R4App_t 256) 512 800 samples audio_memory.
Proof.
  split; [split|split; [split| |]|].
  - unfold is_u64. lia.
  - apply struct_own, mapped_b_mapped. vm_compute. reflexivity.
  - vm_compute. reflexivity.
  - intros _. split; [apply mapped_b_mapped; vm_compute; reflexivity|]. intros n f Hin%list_elem_of_In.
    assert (forallb (λ s, fv audio_memory R4XStartR4Sys 4096 (fst s) =? snd s) (service_slots audio_functions) = true) as Hall by (vm_compute; reflexivity).
    rewrite forallb_forall in Hall. by apply Z.eqb_eq, (Hall (n, f)).
  - apply mapped_b_mapped. vm_compute. reflexivity.
  - split; [|intros _]; intros x Hx Hy; unfold span, audio_room in *; [change (sizeof R4App_t) with 80 in Hx; lia|lia].
  - lia.
  - exists (fv audio_memory R4ServiceConnection 512). split; [apply struct_own, mapped_b_mapped; vm_compute; reflexivity|vm_compute; reflexivity].
  - intros x Hx Hy. unfold span in *. lia.
  - split; [|intros _]; intros x Hx Hy; unfold span in *; [change (sizeof R4App_t) with 80 in Hx; lia|lia].
  - apply mapped_b_mapped. vm_compute. reflexivity.
  - intros x Hx Hy. unfold span, audio_room in *. lia.
  - vm_compute. reflexivity.
Qed.

(** The speaker hears the five samples. *)
Lemma demo_write_result r w' :
  r4_audio_stream_write 5 512 800 5 r4_timeout_poll demo_stack audio_start = Some (Some r, w') → audio_kind r = R4_AUDIO_RESULT_OK.
Proof.
  intros E. assert (option_map (λ p, option_map audio_kind (fst p)) (r4_audio_stream_write 5 512 800 5 r4_timeout_poll demo_stack audio_start)
    = Some (Some R4_AUDIO_RESULT_OK)) as H by (vm_compute; reflexivity).
  rewrite E in H. injection H as H. exact H.
Qed.

Lemma audio_write_delivers_witness :
  ∃ result w', r4_audio_stream_write 5 512 800 5 r4_timeout_poll demo_stack audio_start = Some (Some result, w') ∧
    audio_bytes result = 5 ∧ heard (kern w') = samples.
Proof.
  destruct (audio_write_delivers audio_functions heard 256 4096 8192 900 (fv audio_memory R4App_t 256) 512 800 samples) with (w := audio_start) (timeout := r4_timeout_poll)
    as (r & w' & Hr & _ & _ & Hb & rest & Hp & Hrest).
  - intros x Hx Hy. unfold writes, span, audio_room in *. cbn [length] in Hx. lia.
  - exact audio_start_ready.
  - reflexivity.
  - exists r, w'. split; [exact Hr|]. pose proof (demo_write_result r w' Hr) as Hok. specialize (Hb Hok). split; [exact Hb|].
    rewrite Hp, (Hrest Hok), Hb. reflexivity.
Defined.

End R4AudioWrite.
