(* ===== verification/R4AppTray.v ===== *)
(** * app_tray.h

    Items in the tray of the desktop, over the service WINSVC. A tray is a structure
    that holds the application, the handle of its own process and the epoch of the
    desktop it last heard from. Process handles that are passed by value are
    records; the answer that a result holds is given by its bytes. The local
    variables of a function are at the addresses of a [tray_frame]. *)

From S2P Require Import Prelude R4Abi R4Mem R4L R4LSpec.
From S2P Require Import R4Table R4Sys R4SysSpec R4SysInit R4Field R4Group R4Time.
From S2P Require Import R4App R4Services.

Module R4AppTray.
Export R4Services.

Definition R4OS_PROGRAM_HANDLE_OK : Z := 0.
Definition R4OS_TRAY_SERVICE_REQUEST_MAGIC : Z := 1364472914.
Definition R4OS_TRAY_SERVICE_REQUEST_VERSION : Z := 1.
Definition R4OS_TRAY_SERVICE_RESPONSE_MAGIC : Z := 1347695698.
Definition R4OS_TRAY_SERVICE_RESPONSE_VERSION : Z := 1.
Definition R4OS_TRAY_RESULT_NOT_FOUND : Z := -1.
Definition R4OS_TRAY_RESULT_BAD_REQUEST : Z := -3.
Definition R4OS_TRAY_RESULT_TIMEOUT : Z := -7.
Definition R4OS_TRAY_SERVICE_OP_STATUS : Z := 1792.
Definition R4OS_TRAY_SERVICE_OP_UPSERT : Z := 1793.
Definition R4OS_TRAY_SERVICE_OP_REMOVE : Z := 1794.
Definition R4OS_TRAY_SERVICE_OP_WAIT_EVENT : Z := 1795.
Definition R4OS_TRAY_ITEM_FLAG_VISIBLE : Z := 1.
Definition R4OS_TRAY_ITEM_FLAG_ENABLED : Z := 2.
Definition R4OS_TRAY_ITEM_FLAG_ATTENTION : Z := 4.
Definition R4OS_TRAY_ICON_FORMAT_ARGB32 : Z := 1.
Definition R4OS_TRAY_ICON_WIDTH : Z := 16.
Definition R4OS_TRAY_ICON_HEIGHT : Z := 16.
Definition R4OS_TRAY_ICON_PIXEL_COUNT : Z := 256.
Definition R4OS_TRAY_MAX_ITEMS : Z := 16.
Definition R4OS_TRAY_TOOLTIP_BYTES : Z := 64.

(** ** Data *)

Definition R4Tray : ctype := Struct [("app", U64); ("owner", R4ProgramProcessHandle); ("desktop_epoch", U64)].
Definition R4TrayItem : ctype := Struct [
  ("id", U64); ("revision", U64); ("flags", U32); ("status_flags", U32); ("tooltip", U64); ("tooltip_length", U16); ("icon", U64)].

(** [R4ProgramProcessHandle] by value. *)
Record process := Process { instance_id : Z; reserved : Z; generation : Z }.

Inductive R4TrayCallKind := R4_TRAY_CALL_RESPONSE | R4_TRAY_CALL_TIMED_OUT | R4_TRAY_CALL_NO_SERVICE | R4_TRAY_CALL_FAILED.
Record R4TrayCallResult := TrayResult {
  tray_kind : R4TrayCallKind; tray_raw_code : Z; epoch_changed : bool; tray_response : list byte }.

(** The variables of a service call, [request], [result.response], [owner] and the service's name. *)
Record tray_frame := TrayFrame { tf_call : service_frame; tf_request : Z; tf_response : Z; tf_owner : Z; tf_name : Z }.

(** ** Owners *)

Definition r4_tray_owner_equal (left right : process) : bool :=
  (instance_id left =? instance_id right) && (reserved left =? reserved right) && (generation left =? generation right).
Definition r4_tray_owner_valid (owner : process) : bool :=
  negb (instance_id owner =? 0) && (reserved owner =? 0) && negb (generation owner =? 0).

Definition no_response : list byte := replicate (Z.to_nat (sizeof R4TrayServiceResponse)) x00.
(** [{R4_TRAY_CALL_FAILED, R4OS_TRAY_RESULT_BAD_REQUEST, 0, {0}, {0}}]. *)
Definition tray_invalid : R4TrayCallResult := TrayResult R4_TRAY_CALL_FAILED R4OS_TRAY_RESULT_BAD_REQUEST false no_response.

(** [UINT64_MAX - now < server_budget ? UINT64_MAX : now + server_budget]. *)
Definition server_deadline (now budget : Z) : Z :=
  let server_budget := if 0 <? budget then budget - 1 else 0 in
  if UINT64_MAX - now <? server_budget then UINT64_MAX else u64 (now + server_budget).

Section code.
Context {K : Type} `{!Kernel K}.

Definition load_process (p : Z) : M K process :=
  i ← get R4ProgramProcessHandle "instance_id" p;
  r ← get R4ProgramProcessHandle "reserved" p;
  g ← get R4ProgramProcessHandle "generation" p;
  mret (Process i r g).
Definition store_process (p : Z) (v : process) : M K () :=
  _ ← put R4ProgramProcessHandle "instance_id" p (instance_id v);
  _ ← put R4ProgramProcessHandle "reserved" p (reserved v);
  put R4ProgramProcessHandle "generation" p (generation v).

(** [&tray->owner]. *)
Definition tray_owner (tray : Z) : Z := tray + offsetof R4Tray "owner".

Definition r4_app_tray (app out : Z) (fr : tray_frame) : M K Z :=
  _ ← (if out =? 0 then mret () else clear R4Tray out);
  if (app =? 0) || (out =? 0) then mret R4OS_ERR_NO_FN else
  context ← get R4App_t "context" app;
  if context =? 0 then mret R4OS_ERR_NO_FN else
  table ← get R4App_t "system.table" app;
  f ← table_slot table "program_open_handle";
  if f =? 0 then mret R4OS_ERR_NO_FN else
  id ← get R4XStartContext "instance_id" context;
  if (id =? 0) || (UINT32_MAX <? id) then mret R4OS_ERR_NO_FN else
  _ ← clear R4ProgramProcessHandle (tf_owner fr);
  raw ← call_i32 f [id; tf_owner fr];
  if negb (raw =? R4OS_PROGRAM_HANDLE_OK) then mret raw else
  owner ← load_process (tf_owner fr);
  if negb (r4_tray_owner_valid owner) then mret R4OS_PROGRAM_HANDLE_ERROR_INVALID else
  _ ← put R4Tray "app" out app;
  _ ← store_process (tray_owner out) owner;
  mret R4OS_PROGRAM_HANDLE_OK.

(** [request = r4_tray_request(owner)]. *)
Definition r4_tray_request (request : Z) (owner : process) : M K () :=
  _ ← clear R4TrayServiceRequest request;
  _ ← put R4TrayServiceRequest "magic" request R4OS_TRAY_SERVICE_REQUEST_MAGIC;
  _ ← put R4TrayServiceRequest "version" request R4OS_TRAY_SERVICE_REQUEST_VERSION;
  _ ← put R4TrayServiceRequest "size" request (sizeof R4TrayServiceRequest);
  store_process (request + offsetof R4TrayServiceRequest "owner") owner.

(** [r4_tray_request(tray != 0 ? tray->owner : {0})]. *)
Definition request_of (tray request : Z) : M K () :=
  owner ← (if tray =? 0 then mret (Process 0 0 0) else load_process (tray_owner tray));
  r4_tray_request request owner.

Definition r4_tray_response_valid (response : Z) (owner : process) : M K bool :=
  if response =? 0 then mret false else
  magic ← get R4TrayServiceResponse "magic" response;
  if negb (magic =? R4OS_TRAY_SERVICE_RESPONSE_MAGIC) then mret false else
  version ← get R4TrayServiceResponse "version" response;
  if negb (version =? R4OS_TRAY_SERVICE_RESPONSE_VERSION) then mret false else
  size ← get R4TrayServiceResponse "size" response;
  if negb (size =? sizeof R4TrayServiceResponse) then mret false else
  epoch ← get R4TrayServiceResponse "desktop_epoch" response;
  result ← get R4TrayServiceResponse "result" response;
  if negb (negb (epoch =? 0) || (i32 result =? R4OS_TRAY_RESULT_NOT_FOUND)) then mret false else
  capacity ← get R4TrayServiceResponse "capacity" response;
  if negb (capacity =? R4OS_TRAY_MAX_ITEMS) then mret false else
  answered ← load_process (response + offsetof R4TrayServiceResponse "owner");
  mret (r4_tray_owner_equal answered owner).

(** [tray == 0 || tray->app == 0 || !valid(tray->owner) || request == 0 || !equal(request->owner, tray->owner)]
    is that this is [None]; otherwise it is the owner. *)
Definition tray_caller (tray request : Z) : M K (option process) :=
  if tray =? 0 then mret None else
  app ← get R4Tray "app" tray;
  if app =? 0 then mret None else
  owner ← load_process (tray_owner tray);
  if negb (r4_tray_owner_valid owner) || (request =? 0) then mret None else
  asked ← load_process (request + offsetof R4TrayServiceRequest "owner");
  mret (if r4_tray_owner_equal asked owner then Some owner else None).

(** The result with [result.response] as it is. *)
Definition tray_result (kind : R4TrayCallKind) (raw : Z) (changed : bool) (fr : tray_frame) : M K R4TrayCallResult :=
  response ← load_struct R4TrayServiceResponse (tf_response fr);
  mret (TrayResult kind raw changed response).

(** After the call: the tray learns the epoch of a good answer. *)
Definition tray_answer (called : R4ServiceCallResult) (tray : Z) (fr : tray_frame) : M K R4TrayCallResult :=
  match call_kind called with
  | R4_SERVICE_CALL_TIMED_OUT => tray_result R4_TRAY_CALL_TIMED_OUT R4OS_TRAY_RESULT_TIMEOUT false fr
  | R4_SERVICE_CALL_RESPONSE =>
      owner ← load_process (tray_owner tray);
      valid ← r4_tray_response_valid (tf_response fr) owner;
      if negb valid then tray_result R4_TRAY_CALL_FAILED R4OS_SERVICE_API_RESULT_INVALID false fr else
      result ← get R4TrayServiceResponse "result" (tf_response fr);
      old ← get R4Tray "desktop_epoch" tray;
      epoch ← get R4TrayServiceResponse "desktop_epoch" (tf_response fr);
      _ ← put R4Tray "desktop_epoch" tray epoch;
      tray_result R4_TRAY_CALL_RESPONSE (i32 result) (negb (old =? 0) && negb (old =? epoch)) fr
  | _ =>
      let raw := call_raw_code called in
      let kind := if (raw =? R4OS_SERVICE_API_RESULT_NO_ENDPOINT) || (raw =? R4OS_SERVICE_API_RESULT_NOT_RUNNING)
                     || (raw =? R4OS_SERVICE_API_RESULT_BAD_HANDLE)
                  then R4_TRAY_CALL_NO_SERVICE else R4_TRAY_CALL_FAILED in
      tray_result kind raw false fr
  end.

Definition r4_tray_call (tray op request : Z) (timeout : R4Timeout) (fr : tray_frame) : M K R4TrayCallResult :=
  _ ← clear R4TrayServiceResponse (tf_response fr);
  caller ← tray_caller tray request;
  match caller with
  | None => tray_result R4_TRAY_CALL_FAILED R4OS_TRAY_RESULT_BAD_REQUEST false fr
  | Some _ =>
      app ← get R4Tray "app" tray;
      _ ← clear R4ServiceConnection (fr_connection (tf_call fr));
      opened ← frame_open (tf_call fr) app (tf_name fr);
      if negb (opened =? R4OS_SERVICE_API_RESULT_OK) then tray_result R4_TRAY_CALL_NO_SERVICE opened false fr else
      called ← r4_service_connection_call_struct (fr_connection (tf_call fr)) op request (sizeof R4TrayServiceRequest)
                 (tf_response fr) (sizeof R4TrayServiceResponse) timeout (fr_state (tf_call fr)) (fr_header (tf_call fr));
      _ ← r4_service_connection_close (fr_connection (tf_call fr));
      tray_answer called tray fr
  end.

Definition r4_tray_status (tray item_id : Z) (timeout : R4Timeout) (fr : tray_frame) : M K R4TrayCallResult :=
  _ ← request_of tray (tf_request fr);
  _ ← put R4TrayServiceRequest "item_id" (tf_request fr) item_id;
  r4_tray_call tray R4OS_TRAY_SERVICE_OP_STATUS (tf_request fr) timeout fr.

Definition valid_flags : Z := Z.lor (Z.lor R4OS_TRAY_ITEM_FLAG_VISIBLE R4OS_TRAY_ITEM_FLAG_ENABLED) R4OS_TRAY_ITEM_FLAG_ATTENTION.

(** The item is complete. *)
Definition item_valid (item : Z) : M K bool :=
  if item =? 0 then mret false else
  id ← get R4TrayItem "id" item;
  if id =? 0 then mret false else
  revision ← get R4TrayItem "revision" item;
  if revision =? 0 then mret false else
  icon ← get R4TrayItem "icon" item;
  if icon =? 0 then mret false else
  length ← get R4TrayItem "tooltip_length" item;
  if R4OS_TRAY_TOOLTIP_BYTES <? length then mret false else
  tooltip ← get R4TrayItem "tooltip" item;
  if negb (length =? 0) && (tooltip =? 0) then mret false else
  flags ← get R4TrayItem "flags" item;
  mret (Z.land flags (Prelude.u32 (Z.lnot valid_flags)) =? 0).

(** [for (i = 0; i < n; ++i) request.icon[i] = item->icon[i]]. *)
Fixpoint copy_words (n : nat) (dst src : Z) : M K () :=
  match n with
  | O => mret ()
  | S n => v ← load 4 src; _ ← store 4 dst v; copy_words n (dst + 4) (src + 4)
  end.

(** The fields of the request that come from the item. *)
Definition fill_item (item request : Z) : M K () :=
  id ← get R4TrayItem "id" item;
  _ ← put R4TrayServiceRequest "item_id" request id;
  revision ← get R4TrayItem "revision" item;
  _ ← put R4TrayServiceRequest "item_revision" request revision;
  flags ← get R4TrayItem "flags" item;
  _ ← put R4TrayServiceRequest "item_flags" request flags;
  status ← get R4TrayItem "status_flags" item;
  _ ← put R4TrayServiceRequest "status_flags" request status;
  length ← get R4TrayItem "tooltip_length" item;
  _ ← put R4TrayServiceRequest "tooltip_length" request length;
  _ ← put R4TrayServiceRequest "icon_width" request R4OS_TRAY_ICON_WIDTH;
  _ ← put R4TrayServiceRequest "icon_height" request R4OS_TRAY_ICON_HEIGHT;
  _ ← put R4TrayServiceRequest "icon_format" request R4OS_TRAY_ICON_FORMAT_ARGB32;
  tooltip ← get R4TrayItem "tooltip" item;
  _ ← copy_loop (Z.to_nat length) (request + offsetof R4TrayServiceRequest "tooltip") tooltip;
  icon ← get R4TrayItem "icon" item;
  copy_words (Z.to_nat R4OS_TRAY_ICON_PIXEL_COUNT) (request + offsetof R4TrayServiceRequest "icon") icon.

Definition r4_tray_upsert (tray item : Z) (timeout : R4Timeout) (fr : tray_frame) : M K R4TrayCallResult :=
  _ ← request_of tray (tf_request fr);
  valid ← item_valid item;
  if negb valid then mret tray_invalid else
  _ ← fill_item item (tf_request fr);
  r4_tray_call tray R4OS_TRAY_SERVICE_OP_UPSERT (tf_request fr) timeout fr.

Definition r4_tray_remove (tray item_id : Z) (timeout : R4Timeout) (fr : tray_frame) : M K R4TrayCallResult :=
  _ ← request_of tray (tf_request fr);
  if item_id =? 0 then mret tray_invalid else
  _ ← put R4TrayServiceRequest "item_id" (tf_request fr) item_id;
  r4_tray_call tray R4OS_TRAY_SERVICE_OP_REMOVE (tf_request fr) timeout fr.

(** [tray != 0 && tray->app != 0 ? tray->app : 0]. *)
Definition tray_app (tray : Z) : M K Z := if tray =? 0 then mret 0 else get R4Tray "app" tray.

Definition r4_tray_wait_event (tray after_sequence : Z) (timeout : R4Timeout) (fr : tray_frame) : M K R4TrayCallResult :=
  _ ← request_of tray (tf_request fr);
  app ← tray_app tray;
  hz ← (if app =? 0 then mret 0 else r4_services_monotonic_hz app (fr_state (tf_call fr)));
  let '(converted, budget) := r4_timeout_to_ticks timeout hz in
  if (kind timeout =? R4OS_TIMEOUT_KIND_FOREVER) || negb (converted =? R4OS_OK) then mret tray_invalid else
  app ← tray_app tray;
  now ← (if app =? 0 then mret 0 else r4_app_ticks app);
  _ ← put R4TrayServiceRequest "after_sequence" (tf_request fr) after_sequence;
  _ ← put R4TrayServiceRequest "deadline_tick" (tf_request fr) (server_deadline now (default 0 budget));
  r4_tray_call tray R4OS_TRAY_SERVICE_OP_WAIT_EVENT (tf_request fr) timeout fr.
End code.

End R4AppTray.
