(* ===== verification/R4TrayCall.v ===== *)
(** * Calling the tray

    What [r4_tray_call] makes of the service's answer, and what the tray remembers. The
    local variables are in 2048 bytes at [stack]: those of the service call, then
    the request, the response and a process handle. *)

From S2P Require Import Prelude R4Abi R4Mem R4L R4LSpec.
From S2P Require Import R4Table R4Sys R4SysSpec R4SysInit R4Field R4Group R4Time.
From S2P Require Import R4App R4Services R4ServiceArea R4FacadeCall R4AppTray.

Module R4TrayCall.
Export R4FacadeCall R4AppTray.

Definition tray_room : Z := 2048.
Definition tray_frame_at (stack name : Z) : tray_frame :=
  TrayFrame (frame_at stack) (stack + 520) (stack + 1704) (stack + 2024) name.

(** A process handle in memory. *)
Definition process_of (m : gmap Z byte) (p : Z) : process :=
  Process (fv m R4ProgramProcessHandle p "instance_id") (fv m R4ProgramProcessHandle p "reserved") (fv m R4ProgramProcessHandle p "generation").

Lemma owner_equal_eq a b : r4_tray_owner_equal a b = true ↔ a = b.
Proof.
  unfold r4_tray_owner_equal. rewrite !andb_true_iff, !Z.eqb_eq. destruct a, b. cbn. split; [intros [[-> ->] ->]; done|intros [= -> -> ->]; done].
Qed.

(** The end of a wait that the service is told is never after the end that the caller waits for,
    and the service is told to return a tick earlier if there is any time at all. *)
Lemma server_deadline_before now budget :
  is_u64 now → is_u64 budget → now ≤ server_deadline now budget ≤ UINT64_MAX ∧
  (0 < budget → server_deadline now budget < now + budget) ∧ (budget = 0 → server_deadline now budget = now).
Proof.
  unfold is_u64, server_deadline, UINT64_MAX, u64. intros Hn Hb. cbv zeta.
  assert (∃ s, (if 0 <? budget then budget - 1 else 0) = s ∧ 0 ≤ s ∧ (0 < budget → s = budget - 1) ∧ (budget = 0 → s = 0)) as (s & -> & H0 & H1 & H2).
  { destruct (Z.ltb_spec 0 budget); eexists; (split; [reflexivity|]); lia. }
  destruct (Z.ltb_spec (2 ^ 64 - 1 - now) s); [lia|]. rewrite Z.mod_small by lia. lia.
Qed.

Section call.
Context {K : Type} `{!Kernel K} (fs : service_functions) `{!ServiceKernel K fs}.
Variables (app tab stack name : Z) (α : string → Z) (tray : Z).
Implicit Types (w : world K) (m : gmap Z byte).

Abbreviation local := (span stack tray_room).
Abbreviation fr := (tray_frame_at stack name).
Abbreviation hosted := (host fs app tab stack tray_room α).
Abbreviation RESP := R4TrayServiceResponse.

Lemma tray_room_ok : 520 ≤ tray_room.
Proof. vm_compute. discriminate. Qed.

(** The application and its tray, beside the local variables. *)
Record tray_host m : Prop := {
  th_host : hosted m;
  th_tray : tray ≠ 0 ∧ mapped m tray 32;
  th_app : fv m R4Tray tray "app" = app;
  th_apart : avoids local tray 32
}.

Lemma tray_confined m m' : tray_host m → confined local m m' →
  tray_host m' ∧ (∀ f, field_in R4Tray f 32 = true → fv m' R4Tray tray f = fv m R4Tray tray f) ∧ process_of m' (tray + 8) = process_of m (tray + 8).
Proof.
  intros [Hh [H0 Hm] Ha Hp] Hc. assert (∀ f, field_in R4Tray f 32 = true → fv m' R4Tray tray f = fv m R4Tray tray f) as Hf.
  { intros f Hf. by eapply confined_fv. }
  split_and!; [split; [by eapply host_confined|split; [done|by eapply confined_mapped]|by rewrite Hf|done]|exact Hf|].
  assert (avoids local (tray + 8) 16) as Hav by (intros x Hx; apply Hp; unfold span in *; lia).
  unfold process_of. f_equal; (apply (confined_fv _ _ _ _ _ _ 16 Hc); [reflexivity|exact Hav]).
Qed.

Lemma load_process_run w p : mapped (mem w) p 16 → load_process p w = Some (process_of (mem w) p, w).
Proof.
  intros Hm. unfold load_process. rewrite (mbind_run _ _ _ _ _ (get_run w R4ProgramProcessHandle "instance_id" p 16 Hm eq_refl)),
    (mbind_run _ _ _ _ _ (get_run w R4ProgramProcessHandle "reserved" p 16 Hm eq_refl)),
    (mbind_run _ _ _ _ _ (get_run w R4ProgramProcessHandle "generation" p 16 Hm eq_refl)). done.
Qed.

(** ** The answer *)

(** What the tray has learnt. *)
Record learnt w (result : R4TrayCallResult) w' : Prop := {
  le_memory : confined (λ x, local x ∨ span (tray + 24) 8 x) (mem w) (mem w');
  le_response : bytes_at (mem w') (stack + 1704) (tray_response result);
  le_epoch :
    let old := fv (mem w) R4Tray tray "desktop_epoch" in
    let new := fv (mem w') RESP (stack + 1704) "desktop_epoch" in
    match tray_kind result with
    | R4_TRAY_CALL_RESPONSE =>
        fv (mem w') R4Tray tray "desktop_epoch" = new ∧ epoch_changed result = negb (old =? 0) && negb (old =? new) ∧
        tray_raw_code result = i32 (fv (mem w') RESP (stack + 1704) "result") ∧
        process_of (mem w') (stack + 1704 + 32) = process_of (mem w) (tray + 8) ∧
        (new ≠ 0 ∨ tray_raw_code result = R4OS_TRAY_RESULT_NOT_FOUND)
    | _ => fv (mem w') R4Tray tray "desktop_epoch" = old ∧ epoch_changed result = false
    end
}.

Lemma tray_result_run w k raw c :
  mapped (mem w) (stack + 1704) 192 → ∃ l, tray_result k raw c fr w = Some (TrayResult k raw c l, w) ∧ bytes_at (mem w) (stack + 1704) l.
Proof.
  intros Hm. unfold tray_result, load_struct. cbn [tray_frame_at tf_response]. change (Z.to_nat (sizeof RESP)) with 192%nat.
  destruct (read_bytes_mapped (mem w) (stack + 1704) 192 Hm) as (l & Hl & Hlen).
  unfold mbind at 1, m_bind. rewrite Hl. exists l. split; [reflexivity|]. unfold bytes_at. by rewrite Hlen.
Qed.

(** A result that teaches nothing. *)
Lemma learnt_nothing w w1 k raw :
  tray_host (mem w) → confined local (mem w) (mem w1) → k ≠ R4_TRAY_CALL_RESPONSE →
  ∃ result, tray_result k raw false fr w1 = Some (result, w1) ∧ learnt w result w1.
Proof.
  intros Ht Hc Hk. destruct (tray_confined _ _ Ht Hc) as (Ht1 & Hf & _). destruct (tray_result_run w1 k raw false) as (l & Hr & Hl).
  { eapply host_local; [exact (th_host _ Ht1)|unfold tray_room; lia..]. }
  eexists. split; [exact Hr|]. split; [|exact Hl|].
  - eapply confined_weaken; [|exact Hc]. intros x Hx. by left.
  - cbn [tray_kind epoch_changed]. clear Hr Hl. destruct k; [destruct (Hk eq_refl)|split; [exact (Hf "desktop_epoch" eq_refl)|reflexivity]..].
Qed.

Lemma response_valid_run w owner :
  hosted (mem w) → ∃ b, r4_tray_response_valid (stack + 1704) owner w = Some (b, w) ∧
    (b = true → process_of (mem w) (stack + 1704 + 32) = owner ∧
      (fv (mem w) RESP (stack + 1704) "desktop_epoch" ≠ 0 ∨ i32 (fv (mem w) RESP (stack + 1704) "result") = R4OS_TRAY_RESULT_NOT_FOUND)).
Proof.
  intros Hh. assert (mapped (mem w) (stack + 1704) 192) as Hm by (eapply host_local; [exact Hh|unfold tray_room; lia..]).
  assert (∀ f, field_in RESP f 192 = true → get RESP f (stack + 1704) w = Some (fv (mem w) RESP (stack + 1704) f, w)) as Hg.
  { intros f Hf. exact (get_run w RESP f _ 192 Hm Hf). }
  unfold r4_tray_response_valid. destruct (_ =? 0); [exists false; split; [reflexivity|intros [=]]|]. rewrite (mbind_run _ _ _ _ _ (Hg "magic" eq_refl)). destruct (negb _); [exists false; split; [reflexivity|intros [=]]|].
  rewrite (mbind_run _ _ _ _ _ (Hg "version" eq_refl)). destruct (negb _); [exists false; split; [reflexivity|intros [=]]|].
  rewrite (mbind_run _ _ _ _ _ (Hg "size" eq_refl)). destruct (negb _); [exists false; split; [reflexivity|intros [=]]|].
  rewrite (mbind_run _ _ _ _ _ (Hg "desktop_epoch" eq_refl)), (mbind_run _ _ _ _ _ (Hg "result" eq_refl)).
  destruct (negb (_ || _)) eqn:He; [exists false; split; [reflexivity|intros [=]]|]. rewrite negb_false_iff, orb_true_iff, negb_true_iff, Z.eqb_eq, Z.eqb_neq in He.
  rewrite (mbind_run _ _ _ _ _ (Hg "capacity" eq_refl)). destruct (negb _); [exists false; split; [reflexivity|intros [=]]|].
  change (offsetof RESP "owner") with 32. rewrite (mbind_run _ _ _ _ _ (load_process_run w (stack + 1704 + 32) (mapped_sub _ _ _ (stack + 1704 + 32) 16 Hm ltac:(lia) ltac:(lia)))).
  eexists. split; [reflexivity|]. intros Hb%owner_equal_eq. by split.
Qed.

Lemma tray_answer_run w w1 called :
  tray_host (mem w) → confined local (mem w) (mem w1) →
  ∃ result w', tray_answer called tray fr w1 = Some (result, w') ∧ learnt w result w'.
Proof.
  intros Ht Hc. destruct (tray_confined _ _ Ht Hc) as (Ht1 & Hf & Hp). pose proof (th_host _ Ht1) as Hh1.
  assert (∀ k raw, k ≠ R4_TRAY_CALL_RESPONSE → ∃ result w', tray_result k raw false fr w1 = Some (result, w') ∧ learnt w result w') as Hno.
  { intros k raw Hk. destruct (learnt_nothing w w1 k raw Ht Hc Hk) as (r & Hr & Hl). exists r, w1. split; [exact Hr|exact Hl]. }
  unfold tray_answer. destruct (call_kind called); [|apply Hno; discriminate|destruct (_ || _); apply Hno; discriminate..].
  destruct (th_tray _ Ht1) as [Ht0 Hm]. unfold tray_owner. change (offsetof R4Tray "owner") with 8.
  rewrite (mbind_run _ _ _ _ _ (load_process_run w1 (tray + 8) (mapped_sub _ _ _ (tray + 8) 16 Hm ltac:(lia) ltac:(lia)))). cbn [tray_frame_at tf_response].
  destruct (response_valid_run w1 (process_of (mem w1) (tray + 8)) Hh1) as (b & Hb & Hok). rewrite (mbind_run _ _ _ _ _ Hb). clear Hb.
  destruct b; cbn [negb]; [|apply Hno; discriminate]. destruct (Hok eq_refl) as [Ho He]. clear Hok Hno.
  assert (mapped (mem w1) (stack + 1704) 192) as Hmr by (eapply host_local; [exact Hh1|unfold tray_room; lia..]).
  rewrite (mbind_run _ _ _ _ _ (get_run w1 RESP "result" (stack + 1704) 192 Hmr eq_refl)),
    (mbind_run _ _ _ _ _ (get_run w1 R4Tray "desktop_epoch" tray 32 Hm eq_refl)),
    (mbind_run _ _ _ _ _ (get_run w1 RESP "desktop_epoch" (stack + 1704) 192 Hmr eq_refl)).
  set (new := fv (mem w1) RESP (stack + 1704) "desktop_epoch") in *.
  destruct (put_run w1 R4Tray "desktop_epoch" tray new 32 24 8%nat Hm eq_refl eq_refl) as (m2 & Hr2 & Hc2 & Hv2). rewrite (mbind_run _ _ _ _ _ Hr2). clear Hr2.
  change (Z.of_nat 8) with 8 in *. set (w2 := World m2 (kern w1)).
  assert (∀ x, local x → m2 !! x = mem w1 !! x) as E2.
  { intros x Hx. apply (ch_out _ _ _ _ Hc2). intros Hy. apply (th_apart _ Ht x); [unfold span in *; lia|exact Hx]. }
  assert (∀ T o f n, field_in T f n = true → 0 ≤ o → o + n ≤ tray_room → fv m2 T (stack + o) f = fv (mem w1) T (stack + o) f) as F2.
  { intros T o f n Hfi ? ?. apply (fv_ext _ _ _ _ _ n Hfi). intros x Hx. apply E2. unfold span. lia. }
  assert (new mod 2 ^ (8 * 8) = new) as En.
  { apply Z.mod_small. exact (struct_range _ RESP _ _ "desktop_epoch" 16 8%nat eq_refl (struct_own (mem w1) RESP _ Hmr)). }
  destruct (tray_result_run w2 R4_TRAY_CALL_RESPONSE (i32 (fv (mem w1) RESP (stack + 1704) "result"))
    (negb (fv (mem w1) R4Tray tray "desktop_epoch" =? 0) && negb (fv (mem w1) R4Tray tray "desktop_epoch" =? new))) as (l & Hr & Hl);
    [exact (changed_mapped _ _ _ _ _ _ Hc2 Hmr)|].
  eexists _, w2. split; [exact Hr|]. clear Hr. split; [|exact Hl|cbn [tray_kind epoch_changed tray_raw_code mem w2]; cbv zeta].
  - eapply confined_trans; [eapply confined_weaken; [|exact Hc]; intros x Hx; by left|]. eapply confined_changed; [exact Hc2|]. intros x Hx. by right.
  - rewrite (F2 RESP 1704 "desktop_epoch" 192 eq_refl ltac:(lia) ltac:(vm_compute; discriminate)), (F2 RESP 1704 "result" 192 eq_refl ltac:(lia) ltac:(vm_compute; discriminate)).
    fold new. rewrite Hv2, En, (Hf "desktop_epoch" eq_refl). split; [reflexivity|]. split; [reflexivity|]. split; [reflexivity|]. split; [|exact He].
    rewrite <-Hp, <-Ho. rewrite <-Z.add_assoc. change (1704 + 32) with 1736. unfold process_of.
    rewrite !(F2 R4ProgramProcessHandle 1736 _ 16) by (reflexivity || (vm_compute; discriminate)). reflexivity.
Qed.

(** ** The call *)

Lemma tray_caller_run w request :
  tray_host (mem w) → (request ≠ 0 → mapped (mem w) request 1184) → ∃ c, tray_caller tray request w = Some (c, w).
Proof.
  intros [_ [H0 Hm] _ _] Hq. unfold tray_caller. rewrite (proj2 (Z.eqb_neq _ _) H0).
  rewrite (mbind_run _ _ _ _ _ (get_run w R4Tray "app" tray 32 Hm eq_refl)). destruct (_ =? 0); [by eexists|].
  unfold tray_owner. change (offsetof R4Tray "owner") with 8.
  rewrite (mbind_run _ _ _ _ _ (load_process_run w (tray + 8) (mapped_sub _ _ _ (tray + 8) 16 Hm ltac:(lia) ltac:(lia)))).
  destruct (_ || (request =? 0)) eqn:E; [by eexists|]. apply orb_false_iff in E as [_ Hr%Z.eqb_neq].
  change (offsetof R4TrayServiceRequest "owner") with 8.
  rewrite (mbind_run _ _ _ _ _ (load_process_run w (request + 8) (mapped_sub _ _ _ (request + 8) 16 (Hq Hr) ltac:(lia) ltac:(lia)))). by eexists.
Qed.

(** C40. A call of the tray's service returns whatever the kernel and the service answer,
    and writes no memory but its local variables and the epoch of the tray. The
    tray takes over the epoch of an answer only if it reports the answer as a
    response; such an answer names the tray's own process and has an epoch,
    unless nothing was found. The change of the epoch is reported exactly when
    the tray knew another one before, and in all other cases the tray remembers
    what it did. *)
Theorem tray_call_learns w op request timeout :
  tray_host (mem w) → (request ≠ 0 → mapped (mem w) request 1184) →
  ∃ result w', r4_tray_call tray op request timeout fr w = Some (result, w') ∧ learnt w result w'.
Proof.
  intros Ht Hq. unfold r4_tray_call. cbn [tray_frame_at tf_response tf_call tf_name frame_at fr_connection fr_state fr_header].
  destruct (local_clear _ _ _ _ _ _ w RESP (stack + 1704) (th_host _ Ht)) as (m1 & Hr1 & _ & C1 & _ & _);
    [lia|change (sizeof RESP) with 192; unfold tray_room; lia|reflexivity|vm_compute; discriminate|]. rewrite (mbind_run _ _ _ _ _ Hr1). clear Hr1.
  set (w1 := World m1 (kern w)). destruct (tray_confined _ _ Ht C1) as (Ht1 & _ & _).
  assert (∀ w2 k raw, confined local (mem w) (mem w2) → k ≠ R4_TRAY_CALL_RESPONSE → ∃ result w', tray_result k raw false fr w2 = Some (result, w') ∧ learnt w result w') as Hno.
  { intros w2 k raw Hc Hk. destruct (learnt_nothing w w2 k raw Ht Hc Hk) as (r & Hr & Hl). exists r, w2. split; [exact Hr|exact Hl]. }
  destruct (tray_caller_run w1 request Ht1) as [c Hcr]; [intros Hne; eapply confined_mapped; [exact C1|exact (Hq Hne)]|].
  rewrite (mbind_run _ _ _ _ _ Hcr). clear Hcr. destruct c as [o|]; [|apply Hno; [exact C1|discriminate]].
  rewrite (mbind_run _ _ _ _ _ (get_run w1 R4Tray "app" tray 32 (proj2 (th_tray _ Ht1)) eq_refl)), (th_app _ Ht1 : fv (mem w1) R4Tray tray "app" = app).
  destruct (local_clear _ _ _ _ _ _ w1 R4ServiceConnection (stack + 8) (th_host _ Ht1)) as (m2 & Hr2 & _ & C2 & Hh2 & _);
    [lia|change (sizeof R4ServiceConnection) with 232; unfold tray_room; lia|reflexivity|vm_compute; discriminate|]. rewrite (mbind_run _ _ _ _ _ Hr2). clear Hr2.
  destruct (frame_open_run _ _ _ _ _ _ tray_room_ok (World m2 (kern w1)) name Hh2) as (raw & w3 & Hr3 & C3 & Hcon).
  change (ServiceFrame stack (stack + 8) (stack + 240) (stack + 456) (stack + 488)) with (frame_at stack). rewrite (mbind_run _ _ _ _ _ Hr3). clear Hr3.
  assert (confined local (mem w) (mem w3)) as D3 by (eapply confined_trans; [exact C1|]; eapply confined_trans; [exact C2|exact C3]).
  destruct (Z.eqb_spec raw R4OS_SERVICE_API_RESULT_OK) as [E|]; cbn [negb]; [|apply Hno; [exact D3|discriminate]].
  destruct (frame_call_run _ _ _ _ _ _ tray_room_ok w3 op request (sizeof R4TrayServiceRequest) (stack + 1704) (sizeof RESP) timeout
    (th_host _ (proj1 (tray_confined _ _ Ht D3))) (Hcon E)) as (called & w4 & Hr4 & C4 & Hh4 & Hcon4 & _); [lia|change (sizeof RESP) with 192; unfold tray_room; lia|].
  assert (∃ got, r4_service_connection_call_struct (stack + 8) op request (sizeof R4TrayServiceRequest) (stack + 1704) (sizeof RESP) timeout
    (stack + 456) (stack + 488) w3 = Some (got, w4)) as [got Hgot].
  { unfold r4_service_connection_call_struct. rewrite (mbind_run _ _ _ _ _ Hr4). destruct (_ && _); by eexists. }
  rewrite (mbind_run _ _ _ _ _ Hgot). clear Hgot Hr4.
  destruct (frame_close_run _ _ _ _ _ _ tray_room_ok w4 Hh4 Hcon4) as (raw' & w5 & Hr5 & C5). rewrite (mbind_run _ _ _ _ _ Hr5). clear Hr5.
  apply tray_answer_run; [exact Ht|]. eapply confined_trans; [exact D3|]. by eapply confined_trans.
Qed.
End call.

(** ** A desktop *)

(** It answers with its epoch, to the process 3 of generation 4. *)
Record desktop := Desktop { epoch : Z }.
Definition desktop_functions : service_functions := ServiceFunctions 7010 7011 7012 7013 7014 7083 7016 7017 7053.
Definition desktop_owner : list byte := struct_bytes R4ProgramProcessHandle [3; 0; 4].
Definition desktop_answer (e : Z) : list byte :=
  splice 32 desktop_owner (struct_bytes R4TrayServiceResponse
    [R4OS_TRAY_SERVICE_RESPONSE_MAGIC; R4OS_TRAY_SERVICE_RESPONSE_VERSION; 192; 0; 0; e; 0; 0; 0; 0; 0; 0; 0; 0; R4OS_TRAY_MAX_ITEMS]).

#[global] Instance desktop_kernel : Kernel desktop := λ f args w,
  match args with
  | [name; info] =>
      if f =? 7010 then
        match write_bytes (mem w) info (le_bytes 4 5) with
        | Some m => (R4OS_SERVICE_API_RESULT_OK, World m (kern w))
        | None => (R4OS_SERVICE_API_RESULT_INVALID, w)
        end
      else (R4OS_SERVICE_API_RESULT_OK, w)
  | [id; op; request; len; header; response; capacity; ticks] =>
      if (f =? 7012) && (capacity =? 192) then
        match write_bytes (mem w) response (desktop_answer (epoch (kern w))) with
        | Some m => (192, World m (kern w))
        | None => (R4OS_SERVICE_API_RESULT_INVALID, w)
        end
      else (R4OS_SERVICE_API_RESULT_OK, w)
  | _ => (R4OS_SERVICE_API_RESULT_OK, w)
  end.

#[global] Instance desktop_laws : ServiceKernel desktop desktop_functions.
Proof.
  split; try (intros; by split).
  - intros. unfold kcall, desktop_kernel. cbn [desktop_functions f_open]. change (7010 =? 7010) with true. cbv iota.
    destruct (write_bytes _ _ _) as [m|] eqn:E; [|by split]. apply write_bytes_changed in E. eapply changed_sub; [exact E|lia|rewrite length_le_bytes; lia].
  - intros w id op request len header response capacity ticks. cbv zeta. unfold kcall, desktop_kernel. cbn [desktop_functions f_call].
    change (7012 =? 7012) with true. rewrite andb_true_l.
    assert (length (desktop_answer (epoch (kern w))) = 192%nat) as Hlen by (vm_compute; reflexivity).
    destruct (Z.eqb_spec capacity 192) as [->|]; [|split; [exists (mem w); by split; split|reflexivity]].
    destruct (write_bytes _ _ _) as [m|] eqn:E; (split; [|intros Hl; first [reflexivity|vm_compute in Hl; discriminate Hl]]); [|exists (mem w); by split; split].
    apply write_bytes_changed in E. rewrite Hlen in E. exists (mem w). split; [by split|exact E].
  - intros. exists (mem w). by split; split.
  - intros w f args Hf%list_elem_of_In. cbn in Hf. destruct args as [|? [|? [|? [|? [|? [|? [|? [|? []]]]]]]]]; try reflexivity.
    all: by destruct Hf as [<-|[<-|[<-|[<-|[]]]]].
Qed.

(** The application at 256 with a table at 4096, a tray of the process 3 that knows the epoch 6 at
    512, and the local variables at 8192 with a request for that process. *)
Definition tray_memory : gmap Z byte := image [
  (256, struct_bytes R4App_t [0; 0; 4096]); (512, splice 8 desktop_owner (struct_bytes R4Tray [256; 0; 6]));
  (8192, splice 528 desktop_owner (replicate (Z.to_nat tray_room) x00));
  (4096, struct_bytes R4XStartR4Sys ([R4XSTART_R4SYS_MAGIC; 14; 1264; 0] ++ map (λ i, 7000 + Z.of_nat i) (seq 0 156)))].
Definition tray_start : world desktop := World tray_memory (Desktop 7).
Abbreviation demo_tray := (tray_frame_at 8192 900).

Lemma tray_start_host : tray_host desktop_functions 256 4096 8192 (fv tray_memory R4App_t 256) 512 tray_memory.
Proof.
  split; [split|split| |].
  - unfold is_u64. lia.
  - apply struct_own, mapped_b_mapped. vm_compute. reflexivity.
  - vm_compute. reflexivity.
  - intros _. split; [apply mapped_b_mapped; vm_compute; reflexivity|]. intros n f Hin%list_elem_of_In.
    assert (forallb (λ s, fv tray_memory R4XStartR4Sys 4096 (fst s) =? snd s) (service_slots desktop_functions) = true) as Hall by (vm_compute; reflexivity).
    rewrite forallb_forall in Hall. by apply Z.eqb_eq, (Hall (n, f)).
  - apply mapped_b_mapped. vm_compute. reflexivity.
  - split; [|intros _]; intros x Hx Hy; unfold span, tray_room in *; [change (sizeof R4App_t) with 80 in Hx; lia|lia].
  - lia.
  - apply mapped_b_mapped. vm_compute. reflexivity.
  - vm_compute. reflexivity.
  - intros x Hx Hy. unfold span, tray_room in *. lia.
Qed.

(** The call is answered, and the tray has changed its epoch from 6 to 7. *)
Lemma demo_tray_result r w' :
  r4_tray_call 512 R4OS_TRAY_SERVICE_OP_STATUS (8192 + 520) r4_timeout_poll demo_tray tray_start = Some (r, w') →
  tray_kind r = R4_TRAY_CALL_RESPONSE ∧ epoch_changed r = true ∧ fv (mem w') R4Tray 512 "desktop_epoch" = 7.
Proof.
  intros E. assert (option_map (λ p, (tray_kind (fst p), epoch_changed (fst p), fv (mem (snd p)) R4Tray 512 "desktop_epoch"))
    (r4_tray_call 512 R4OS_TRAY_SERVICE_OP_STATUS (8192 + 520) r4_timeout_poll demo_tray tray_start) = Some (R4_TRAY_CALL_RESPONSE, true, 7)) as H
    by (vm_compute; reflexivity).
  rewrite E in H. injection H as H1 H2 H3. split; [exact H1|]. split; [exact H2|exact H3].
Qed.

Lemma tray_call_learns_witness :
  ∃ result w', r4_tray_call 512 R4OS_TRAY_SERVICE_OP_STATUS (8192 + 520) r4_timeout_poll demo_tray tray_start = Some (result, w') ∧
    learnt 8192 512 tray_start result w' ∧ tray_kind result = R4_TRAY_CALL_RESPONSE.
Proof.
  destruct (tray_call_learns desktop_functions 256 4096 8192 900 (fv tray_memory R4App_t 256) 512 tray_start R4OS_TRAY_SERVICE_OP_STATUS (8192 + 520) r4_timeout_poll)
    as (r & w' & Hr & Hl).
  - exact tray_start_host.
  - intros _. apply mapped_b_mapped. vm_compute. reflexivity.
  - exists r, w'. split; [exact Hr|]. split; [exact Hl|]. exact (proj1 (demo_tray_result r w' Hr)).
Defined.
End R4TrayCall.
